(* ===== verification/_CoqProject ===== *)
-Q . S2P
Prelude.v
Schema.v
World.v
Zod.v
Crypto.v
Concrete.v
OrgRepo.v
TaskRepo.v
TaskDeps.v
TaskService.v
AuthRepo.v
Session.v
Auth.v
Organization.v
Http.v
RateLimiter.v
FeatureFlags.v
OrgAccess.v
Payments.v
Gdpr.v
Lifecycle.v
Chat.v
Files.v
Outbox.v
Webhooks.v
SignIn.v
Notifications.v
Collaboration.v
RowJson.v
TenantRoutes.v
SystemRoutes.v
Search.v
DataExports.v
Cleanup.v
Realtime.v
Api.v
Jobs.v
System.v
Invariants.v
Configuration.v
Process.v
Migrations.v
Client.v
Pages.v
Navigation.v
ClientServer.v
OpenApiDoc.v
OpenApi.v
