(* ===== verification/Prelude.v ===== *)
(** * A multi-tenant collaborative work platform: verification of the server and its client

    The program is the Node.js server under [src/src]: an Express application
    ([app.ts]), a process of BullMQ workers ([worker.ts]), PostgreSQL, Redis and
    Socket.IO; and the Angular application of [src/frontend] that speaks to it.
    Tenants are organizations; users belong to them by
    memberships with a role, and work on tasks, files, channels and workspaces
    of an organization.  This library translates the services, repositories,
    middlewares, routers and workers of the server and the services of the
    client to Rocq and proves what makes them correct.

    ** How the program is modelled

    A table is a list of rows and a row a record ([Schema]); a SQL statement is
    a condition and an assignment on the rows ([World]: [select],
    [update_where], [insert_unique], [upsert], ...).  Redis, the random draws
    and every other service are interfaces: a class of operations and a class
    of the laws that their documentation gives; [Concrete] has an instance of
    each.  An [async] function is a state-passing function [M A] over [World]
    that returns a value or an error of [shared/errors]; a rejection keeps the
    effects before it unless it leaves [withTransaction].  A route is such a
    function from a request to a response behind its middlewares ([Http],
    [OrgAccess]).  Time is the clock of the world in milliseconds; concurrency
    is the order of the steps of a run, each an operation of the program, and a
    theorem over a run holds for every order of whole operations.  [System] is
    the whole as a step relation: a request to [Api], a cycle of the poller, a
    job that a worker of [Jobs] takes, in any order; BullMQ may hand out any job
    that waits.  Statements of two operations do not interleave in the model.  In the client an
    observable is the program it runs once it is subscribed, up to its next
    request; the answers arrive in any order ([Client]): the documented
    behaviour of the cold observables of [HttpClient].

    ** Files, and what they model

    - [Prelude]: record update, JSON, the errors of [shared/errors/app-errors.ts],
      lists of rows and their lemmas, text and dates, tactics and hints.
    - [Schema]: the rows ([interface ..Row] of the repositories, [migrations/])
      and the class [Table], which tells the tables apart.
    - [World]: the effect monad, SQL, Redis, queues; [shared/database/pool.ts],
      [shared/queue/queues.ts], [audit/workers/audit.worker.ts].
    - [Crypto]: [shared/crypto], [auth/utils/password.ts]; [decrypt] inverts
      [encrypt].
    - [Concrete]: instances of the interfaces for the examples.
    - [OrgRepo], [TaskRepo], [AuthRepo]: the repositories of organizations and
      memberships, of tasks, of users and sessions.
    - [TaskDeps]: [task/dependency.service.ts]; the cycle check terminates and
      decides reachability, and the graph stays acyclic.
    - [TaskService]: [task.service.ts], [bulk.service.ts],
      [activity-log.service.ts]; the update with its version check and status
      machine, isolation of organizations, nesting, cascade of deletions.
    - [Session], [Auth]: [token.ts], [jwt.service.ts], [jwt.middleware.ts],
      [key-store.ts]; [auth.service.ts], [magic-link.service.ts],
      [auth.controller.ts]; rotation of refresh tokens, reuse detection,
      lockout, password reset.
    - [SignIn]: [saml.service.ts], [oauth.service.ts], [mfa.service.ts]; a SAML
      response signs in once, a backup code is spent by its use.
    - [Organization]: [organization.service.ts], [invitation.service.ts];
      creation is atomic, an invitation is accepted once.
    - [Zod]: the schemas of the routers as an interface, with the laws that say
      what a schema accepts, and the decoders of what it accepted.
    - [Http]: [shared/response], [shared/errors], [shared/validation],
      [shared/idempotency]; a repeated request is answered with the first
      response.
    - [RateLimiter]: [shared/redis/rate-limiter.ts],
      [shared/realtime/rate-limiter.ts]; both refine a log of timestamps, for
      which the bound on what they let through is proved.
    - [FeatureFlags]: [feature-flag.service.ts] with its two caches; how old an
      answer can be.
    - [OrgAccess]: the tenant middlewares, [organization.router.ts],
      [platform-admin/]; who may write, and how fresh the context is.
    - [Payments]: [modules/payment]; orders, captures, the webhook that handles
      an event once, the grace period.
    - [Gdpr], [Lifecycle]: [gdpr.router.ts], [erasure.worker.ts],
      [offboarding.worker.ts]; what an erasure removes, and the edges an
      organization's status follows over everything that writes it.
    - [Chat]: [modules/chat]; order of messages, one direct channel per pair.
    - [Files]: [modules/file], [shared/storage]; the storage quota and the
      virus scan.
    - [Outbox]: [shared/events/outbox-poller.ts]; no event is lost, and the loop
      drains the outbox.
    - [Webhooks]: [modules/webhook]; signed deliveries to public addresses, and
      the redirects that follow them unchecked.
    - [Notifications]: [modules/notification]; who is notified and how.
    - [Collaboration]: [modules/workspace], comments, mentions, templates and
      the recurring tasks of [modules/task].
    - [Cleanup]: [shared/jobs/cleanup.worker.ts], composed of the purges of
      [Http], [Outbox], [SignIn] and [Chat].
    - [Realtime]: [shared/realtime]; who receives what is emitted to an
      organization, a user, a task or a channel.
    - [Search]: [modules/search], its two providers, the fallback, the route
      and the worker; what the first page of a search holds.
    - [DataExports]: [gdpr/workers/user-export.worker.ts] and
      [org-export.worker.ts]; the pages of an export are its
      tables, as far as PostgreSQL gives them one order.
    - [RowJson], [TenantRoutes], [SystemRoutes]: the rows as JSON, and the
      routers: the schema of every route, the reading of its input, its
      middlewares, the call of the service and the answer.
    - [Api]: the routers as [app.ts] mounts them; who may write through the
      application, that no handler meets a body it cannot read, and a route
      that nothing reaches.
    - [Jobs]: the workers that [worker.ts] registers, the types they name for
      their jobs, and what each reads of the jobs of its queue.
    - [System]: the application, the poller, the workers and the queues between
      them; what the queues hold, and that the workers come to an end.
    - [Invariants]: the invariants of the components over every run of the
      whole system; a class [Invariant] says what a component owes for it.
    - [Configuration]: [shared/config.ts]; what a process that starts has in
      its settings, which is what the other files assume of them.
    - [Process]: [shared/observability], the endpoints of [app.ts] outside
      [/api/v1], the start of the server and the end of the processes.
    - [Migrations]: [src/migrations], the columns, enumerations, constraints
      and unique indexes of the tables as data, and how the files are run: the
      last one fails; the rows the repositories insert fit the tables the files
      describe.
    - [Client]: [frontend/src/app/core], its services, interceptors, guards and
      models, and what the pages ask of them; what every request carries, and
      what becomes of an expired session.
    - [Pages]: the forms and pages of [frontend/src/app/features], their
      buttons, and what they keep while they wait for an answer.
    - [Navigation]: [frontend/src/app/*.routes.ts], the routes of the client with
      their guards, the links, and the parts of pages that ask for nothing; which
      pages are shown to whom.
    - [ClientServer]: the two together: a login, a page of tasks, a due date,
      and the requests that no route serves.
    - [OpenApiDoc], [OpenApi]: the document that [scripts/generate-openapi.ts]
      writes, as JSON; its operations are the routes of [Api], and the bodies
      without [null] the routers accept are among those it describes.

    ** What the theorems show

    Invariants of the state over runs of the operations (acyclic
    dependencies, nesting of tasks, one live token per session, order of
    messages, life cycle of organizations) and over runs of the whole system
    (the same five at once, and the types of the jobs in the queues, but for
    two kinds), error
    behaviour
    (stale updates), safety over runs (spent tokens, invitations and SAML
    responses, idempotent requests and webhooks, isolation of tenants, deliveries, rooms), functional behaviour of
    an operation on all its branches ([updateTask], [acceptInvitation],
    the notification and recurring workers, the first page of a
    search), bounds (rate
    limits, staleness of flags, storage usage), equivalences (cycle check and
    reachability, the pages of an export and its tables), refinements (rate
    limiters and a log, a page of tasks and the table), the types of validated
    bodies and of inserted rows, the forms of the client that have a flag of
    their own (one request while it is pending), which files are served, liveness (grace periods end; the outbox and the queues are
    drained), termination (the poller's loop, the workers), a round trip
    ([encrypt]).  Examples named after a divergence show
    behaviours that differ from what the code or its documents mean.

    ** What the theorems assume

    The laws of a class are the documented behaviour of the library or service
    it stands for: [Zod] accepts a date-time as zod's expression does; a SAML
    profile is read from its response; BullMQ hands back failed jobs only;
    PostgreSQL gives the rows of a query in some order ([DataExports.RowOrder]).
    What else a theorem takes for granted is among its hypotheses, and its
    comment says so: no tenant context is cached ([Api], [ClientServer]), Redis
    answers or rejects ([RateLimiter]), nothing is written while an export
    reads ([DataExports]), nothing is paid ([Payments]), the notifications that
    arrive are unread ([Client]).

    ** Bounds and fuel

    [TaskDeps.search] runs on two more than the number of dependencies, which
    [search_spec] proves enough; [TaskRepo.subtasks] on three more than the
    number of tasks, which [TaskService] proves enough for every well-nested
    state; [System.attempts] is the three attempts of a job, which bound what
    the workers can do; [ChatBroadcaster.attempts] counts the program's own retries.
    Integers are JavaScript numbers or [BIGINT] columns far below their bounds (times
    in milliseconds, sizes, counters) and are kept in [Z].  [Cleanup] checks
    the calendar up to January 2100.

    ** Not modelled

    - Of [src/frontend] the look of the templates, the pages that only list what
      a service loads, the theme, the connection of the socket and the
      dialogues of push.
    - The load generator of [src/scripts], and [src/tests]; of
      [src/migrations] the indexes that are not unique, the triggers, SQL
      functions, partitions, grants and policies.
    - The options of libraries: logger, tracer, connection pools, circuit
      breakers, helmet and cors; the backoff between the attempts of a job.
    - Handlers of the socket are not steps of [System]: they queue no job.
    - Adapters that only call an SDK ([s3.adapter.ts], the email providers,
      [razorpay.client.ts] beyond its signatures); Typesense's server, the
      archive of an export and its upload are interfaces.
    - Express's own parsing of requests: a request comes to [Api] with its
      path, its query and its JSON body read; [/api-docs] serves a file.
    - [presence.service.ts], [redis/cache.ts] and [queue/dlq.ts], which nothing
      calls. *)
From Stdlib Require Import ZArith Lia Ascii String.
From stdpp Require Import base tactics option list strings gmap sets pretty relations.

#[global] Set Default Goal Selector "!".

(** * Functional record update

    [r <| f := v |>] is the record [r] with field [f] set to [v].  A record
    type registers the list of its fields once, as an [Eta] instance; the
    setter of a field is computed from that list. *)

Class Eta (R : Type) := eta : R → R.
Class Upd {R E : Type} (f : R → E) := upd : (E → E) → R → R.
#[global] Hint Mode Upd ! ! ! : typeclass_instances.
#[global] Arguments upd {R E} f {Upd} _ _ /.

Ltac solve_upd :=
  lazymatch goal with
  | |- @Upd ?R ?E ?f =>
      let i := constr:(_ : Eta R) in
      let h := match i with ?c => c end in
      let e := eval red in (i : R → R) in
      let p := eval pattern f in e in
      lazymatch p with
      | ?g _ =>
          let s := constr:(fun (u : E → E) (r : R) => g (fun x => u (f x)) r) in
          let s' := eval cbv beta in s in
          exact s'
      end
  end.

#[global] Hint Extern 1 (Upd _) => solve_upd : typeclass_instances.

Declare Scope platform_scope.
Delimit Scope platform_scope with platform.
#[global] Open Scope platform_scope.

Notation "r <| f := v |>" := (upd f (fun _ => v) r)
  (at level 1, left associativity, f constr at level 1, v constr at level 200,
   format "r  <| f  :=  v |>") : platform_scope.

(** * Values and errors *)

(** JSON values, as far as the program builds or reads them.  Numbers are the
    integers the program uses (timestamps, sizes, counters). *)
Inductive json :=
  | JNull
  | JBool (b : bool)
  | JNum (n : Z)
  | JStr (s : string)
  | JArr (l : list json)
  | JObj (fields : list (string * json)).

(** A nullable string as a JSON value. *)
Definition jopt (o : option string) : json :=
  match o with Some s => JStr s | None => JNull end.

(** [obj[field]]. *)
Fixpoint jfield (k : string) (fs : list (string * json)) : option json :=
  match fs with
  | [] => None
  | (k', v) :: fs => if String.eqb k k' then Some v else jfield k fs
  end.

Definition jget (k : string) (j : json) : option json :=
  match j with JObj fs => jfield k fs | _ => None end.

(** [JSON.stringify(j)]. *)
Definition dquote : string := String (ascii_of_nat 34) "".

Definition hex_digit (n : nat) : string :=
  String (ascii_of_nat (if Nat.ltb n 10 then 48 + n else 87 + n)) "".

Definition escape_char (c : ascii) : string :=
  let n := nat_of_ascii c in
  if Nat.eqb n 34 then "\" +:+ dquote
  else if Nat.eqb n 92 then "\\"
  else if Nat.eqb n 8 then "\b"
  else if Nat.eqb n 9 then "\t"
  else if Nat.eqb n 10 then "\n"
  else if Nat.eqb n 12 then "\f"
  else if Nat.eqb n 13 then "\r"
  else if Nat.ltb n 32 then "\u00" +:+ hex_digit (n / 16) +:+ hex_digit (n mod 16)
  else String c "".

Fixpoint escape (s : string) : string :=
  match s with
  | EmptyString => ""
  | String c s => escape_char c +:+ escape s
  end.

Definition quoted (s : string) : string := dquote +:+ escape s +:+ dquote.

Fixpoint stringify (j : json) : string :=
  match j with
  | JNull => "null"
  | JBool b => if b then "true" else "false"
  | JNum n => pretty n
  | JStr s => quoted s
  | JArr l => "[" +:+ String.concat "," (List.map stringify l) +:+ "]"
  | JObj fs => "{" +:+ String.concat "," (List.map (λ '(k, v), quoted k +:+ ":" +:+ stringify v) fs) +:+ "}"
  end.

(** ** Dates *)

(** Days since the epoch as a date of the Gregorian calendar: the first ten
    characters of [toISOString()]. *)
Definition civil_from_days (z : Z) : Z * Z * Z :=
  let z := (z + 719468)%Z in
  let era := (z / 146097)%Z in
  let doe := (z - era * 146097)%Z in
  let yoe := ((doe - doe / 1460 + doe / 36524 - doe / 146096) / 365)%Z in
  let doy := (doe - (365 * yoe + yoe / 4 - yoe / 100))%Z in
  let mp := ((5 * doy + 2) / 153)%Z in
  let d := (doy - (153 * mp + 2) / 5 + 1)%Z in
  let m := (if mp <? 10 then mp + 3 else mp - 9)%Z in
  let y := (yoe + era * 400 + (if m <=? 2 then 1 else 0))%Z in
  (y, m, d).

(** [String(n).padStart(2, '0')] of a number that is not negative. *)
Definition pad2 (n : Z) : string := if (n <? 10)%Z then "0" +:+ pretty n else pretty n.

(** The date of a timestamp, in UTC. *)
Definition iso_date (t : Z) : string :=
  let '(y, m, d) := civil_from_days (t / 86400000) in
  pretty y +:+ "-" +:+ pad2 m +:+ "-" +:+ pad2 d.

(** ** Errors *)

(** The exceptions of the program: the [AppError] hierarchy of
    [shared/errors/app-errors.ts], the driver's errors, recognised by their
    SQLSTATE [code], and plain [Error]s. *)
Inductive error :=
  | AppError (statusCode : Z) (code message : string) (details : option json)
  | PgError (code : string)
  | PlainError (message : string).

Definition BadRequestError (code message : string) : error :=
  AppError 400 code message None.
Definition UnauthorizedError (code message : string) : error :=
  AppError 401 code message None.
Definition ForbiddenError (code message : string) : error :=
  AppError 403 code message None.
Definition NotFoundError (resource : string) : error :=
  AppError 404 "NOT_FOUND" (resource +:+ " not found") None.
Definition ConflictError (code message : string) : error :=
  AppError 409 code message None.
Definition UnprocessableError (code message : string) : error :=
  AppError 422 code message None.
Definition TooManyRequestsError (retryAfter : Z) : error :=
  AppError 429 "RATE_LIMIT_EXCEEDED" "Too many requests"
    (if (retryAfter =? 0)%Z then None else Some (JObj [("retry_after", JNum retryAfter)])).

(** SQLSTATE of a unique-constraint violation. *)
Definition unique_violation : error := PgError "23505".

(** The outcome of an [async] function: a value or a rejection. *)
Inductive result (A : Type) :=
  | Ok (a : A)
  | Throw (e : error).
#[global] Arguments Ok {A} a.
#[global] Arguments Throw {A} e.

(** * JavaScript strings *)

Definition lower_ascii (c : ascii) : ascii :=
  let n := nat_of_ascii c in
  if (Nat.leb 65 n && Nat.leb n 90)%bool then ascii_of_nat (n + 32) else c.

(** [s.toLowerCase()] on ASCII text. *)
Fixpoint toLowerCase (s : string) : string :=
  match s with
  | EmptyString => EmptyString
  | String c s => String (lower_ascii c) (toLowerCase s)
  end.

Definition is_blank (c : ascii) : bool :=
  let n := nat_of_ascii c in (Nat.eqb n 32 || (Nat.leb 9 n && Nat.leb n 13))%bool.

Fixpoint trimStart (s : string) : string :=
  match s with
  | String c s' => if is_blank c then trimStart s' else s
  | EmptyString => EmptyString
  end.

Fixpoint trimEnd (s : string) : string :=
  match s with
  | EmptyString => EmptyString
  | String c s' =>
      match trimEnd s' with
      | EmptyString => if is_blank c then EmptyString else String c EmptyString
      | t => String c t
      end
  end.

(** [s.trim()]. *)
Definition trim (s : string) : string := trimStart (trimEnd s).

(** [email.toLowerCase().trim()], the form every email is stored in. *)
Definition normalize (email : string) : string := trim (toLowerCase email).

(** Truthiness of a string and of an optional string. *)
Definition truthy (s : string) : bool := negb (String.eqb s "").
Definition otruthy (o : option string) : bool :=
  match o with Some s => truthy s | None => false end.

(** [a ?? d]. *)
Notation "a ?? d" := (default d a) (at level 50, no associativity) : platform_scope.

(** SQL equality of a nullable column with a value: [NULL = x] is not true. *)
Definition is_val (o : option string) (s : string) : bool :=
  match o with Some s' => String.eqb s' s | None => false end.

(** [col IS NULL]. *)
Definition is_null {A} (o : option A) : bool :=
  match o with None => true | Some _ => false end.

(** [list.includes(x)]. *)
Definition includes (l : list string) (x : string) : bool := existsb (String.eqb x) l.

(** [[...new Set(l)]]: the first occurrence of each element, in order. *)
Fixpoint dedup_from (seen l : list string) : list string :=
  match l with
  | [] => []
  | x :: l => if includes seen x then dedup_from seen l else x :: dedup_from (x :: seen) l
  end.
Definition dedup (l : list string) : list string := dedup_from [] l.

(** * Tables as lists of rows *)

(** [UPDATE t SET .. WHERE P]: [f] is applied to the rows that satisfy [P]. *)
Definition upd_where {R} (P : R → bool) (f : R → R) (l : list R) : list R :=
  (λ r, if P r then f r else r) <$> l.

#[global] Arguments upd_where : simpl never.

(** The rows an [UPDATE .. RETURNING *] returns, in table order. *)
Definition ret_where {R} (P : R → bool) (f : R → R) (l : list R) : list R :=
  f <$> List.filter P l.

(** * Tactics *)

(** Turns boolean tests and their conjunctions in the context into
    propositions. *)
Ltac bool_to_prop :=
  repeat match goal with
  | H : andb _ _ = true |- _ => apply andb_true_iff in H; destruct H
  | H : orb _ _ = false |- _ => apply orb_false_iff in H; destruct H
  | H : negb _ = true |- _ => apply negb_true_iff in H
  | H : negb _ = false |- _ => apply negb_false_iff in H
  | H : String.eqb _ _ = true |- _ => apply String.eqb_eq in H
  | H : String.eqb _ _ = false |- _ => apply String.eqb_neq in H
  | H : Z.eqb _ _ = true |- _ => apply Z.eqb_eq in H
  | H : Z.eqb _ _ = false |- _ => apply Z.eqb_neq in H
  | H : Z.ltb _ _ = true |- _ => apply Z.ltb_lt in H
  | H : Z.ltb _ _ = false |- _ => apply Z.ltb_ge in H
  | H : Z.leb _ _ = true |- _ => apply Z.leb_le in H
  | H : Z.leb _ _ = false |- _ => apply Z.leb_gt in H
  end.

(** Splits a nest of conjunctions in the goal and closes what is immediate. *)
Ltac split_all := repeat split; try done.

(** * Lemmas on tables *)

Create HintDb platform.

Section tables.
Context {R : Type}.
Implicit Types (P Q : R → bool) (f : R → R) (l : list R) (r : R).

Lemma find_some_elem P l r : List.find P l = Some r → r ∈ l ∧ P r = true.
Proof. intros H. apply List.find_some in H as [? ?]. by rewrite list_elem_of_In. Qed.

Lemma find_none_elem P l r : List.find P l = None → r ∈ l → P r = false.
Proof. intros H Hr. eapply List.find_none; [done|]. by apply list_elem_of_In. Qed.

Lemma find_is_some P l r : r ∈ l → P r = true → is_Some (List.find P l).
Proof.
  intros Hr HP. destruct (List.find P l) eqn:E; [by eexists|].
  rewrite (find_none_elem _ _ _ E Hr) in HP. done.
Qed.

Lemma find_app_l P l l' r : List.find P l = Some r → List.find P (l ++ l') = Some r.
Proof. induction l as [|x l IH]; cbn; [done|]. destruct (P x); auto. Qed.

Lemma find_app_r P l l' : List.find P l = None → List.find P (l ++ l') = List.find P l'.
Proof. induction l as [|x l IH]; cbn; [done|]. destruct (P x); [done|auto]. Qed.

Lemma elem_of_filter_bool P l r : r ∈ List.filter P l ↔ r ∈ l ∧ P r = true.
Proof. by rewrite !list_elem_of_In, List.filter_In. Qed.

Lemma length_upd_where P f l : length (upd_where P f l) = length l.
Proof. apply length_fmap. Qed.

Lemma lookup_upd_where P f l i :
  upd_where P f l !! i = (λ r, if P r then f r else r) <$> l !! i.
Proof. apply list_lookup_fmap. Qed.

Lemma elem_of_upd_where P f l r :
  r ∈ upd_where P f l ↔
  ∃ r0, r0 ∈ l ∧ ((P r0 = true ∧ r = f r0) ∨ (P r0 = false ∧ r = r0)).
Proof.
  unfold upd_where. rewrite list_elem_of_fmap. split.
  - intros (r0 & -> & ?). exists r0. split; [done|]. destruct (P r0); auto.
  - intros (r0 & ? & [[HP ->]|[HP ->]]); exists r0; by rewrite HP.
Qed.

Lemma upd_where_none P f l : (∀ r, r ∈ l → P r = false) → upd_where P f l = l.
Proof.
  intros H. unfold upd_where. induction l as [|x l IH]; [done|]. cbn.
  rewrite (H x) by left. f_equal. apply IH. intros r Hr. apply H. by right.
Qed.

Lemma upd_where_app P f l l' : upd_where P f (l ++ l') = upd_where P f l ++ upd_where P f l'.
Proof. apply fmap_app. Qed.

(** Updating twice the rows of one condition that the update keeps. *)
Lemma upd_where_twice P f g l :
  (∀ r, P r = true → P (f r) = true) →
  upd_where P g (upd_where P f l) = upd_where P (λ r, g (f r)) l.
Proof.
  intros H. unfold upd_where. rewrite <- list_fmap_compose. apply list_fmap_ext.
  intros i r _. cbn. destruct (P r) eqn:E; [by rewrite H|by rewrite E].
Qed.

(** An update that does not touch what [g] reads keeps the image of [g]. *)
Lemma fmap_upd_where {K} (g : R → K) P f l :
  (∀ r, P r = true → g (f r) = g r) → g <$> upd_where P f l = g <$> l.
Proof.
  intros H. unfold upd_where. rewrite <- list_fmap_compose. apply list_fmap_ext.
  intros i r _. cbn. destruct (P r) eqn:E; auto.
Qed.

Lemma Forall_upd_where (I : R → Prop) P f l :
  (∀ r, P r = true → I r → I (f r)) → Forall I l → Forall I (upd_where P f l).
Proof.
  intros H Hl. apply Forall_fmap. eapply Forall_impl; [exact Hl|].
  intros r Hr. cbn. destruct (P r) eqn:E; auto.
Qed.

(** Rows outside of the updated ones are untouched. *)
Lemma filter_upd_where_disjoint Q P f l :
  (∀ r, P r = true → Q r = false ∧ Q (f r) = false) →
  List.filter Q (upd_where P f l) = List.filter Q l.
Proof.
  intros H. unfold upd_where. induction l as [|x l IH]; [done|]. cbn.
  destruct (P x) eqn:E; [|by rewrite IH].
  destruct (H _ E) as [-> ->]. done.
Qed.

(** A lookup whose condition the update neither creates nor destroys. *)
Lemma find_upd_where Q P f l :
  (∀ r, P r = true → Q (f r) = Q r) →
  List.find Q (upd_where P f l) =
  (λ r, if P r then f r else r) <$> List.find Q l.
Proof.
  intros H. unfold upd_where. induction l as [|x l IH]; [done|]. cbn.
  destruct (P x) eqn:E.
  - rewrite (H x E). destruct (Q x); cbn; [by rewrite E|done].
  - destruct (Q x); cbn; [by rewrite E|done].
Qed.

Lemma filter_nil_iff P l : List.filter P l = [] ↔ ∀ r, r ∈ l → P r = false.
Proof.
  split.
  - intros H r Hr. destruct (P r) eqn:E; [|done].
    assert (r ∈ List.filter P l) as Hin by by apply elem_of_filter_bool.
    rewrite H in Hin. by apply elem_of_nil in Hin.
  - intros H. induction l as [|x l IH]; [done|]. cbn.
    rewrite (H x) by left. apply IH. intros r Hr. apply H. by right.
Qed.

Lemma filter_all l : List.filter (λ _, true) l = l.
Proof. induction l as [|x l IH]; cbn; [done|by rewrite IH]. Qed.

Lemma hd_filter_find P l : hd_error (List.filter P l) = List.find P l.
Proof. induction l as [|x l IH]; [done|]. cbn. by destruct (P x). Qed.

(** A key determines its row. *)
Lemma NoDup_fmap_elem {K} (g : R → K) l r r' :
  NoDup (g <$> l) → r ∈ l → r' ∈ l → g r = g r' → r = r'.
Proof.
  intros Hnd [i Hi]%list_elem_of_lookup [j Hj]%list_elem_of_lookup Hg.
  assert (i = j) as ->; [|congruence].
  eapply NoDup_lookup; [exact Hnd| |]; rewrite list_lookup_fmap; rewrite ?Hi, ?Hj;
    cbn; [done|congruence].
Qed.

Lemma NoDup_fmap_find {K} (g : R → K) P l r :
  NoDup (g <$> l) → r ∈ l → P r = true →
  (∀ r', r' ∈ l → P r' = true → g r' = g r) → List.find P l = Some r.
Proof.
  intros Hnd Hr HP Huniq. destruct (find_is_some P l r Hr HP) as [r' Hf].
  rewrite Hf. f_equal. apply find_some_elem in Hf as [Hr' HP'].
  eapply NoDup_fmap_elem; eauto.
Qed.

(** A condition that holds of the first row of another one. *)
Lemma find_and_first P Q l r :
  List.find P l = Some r → Q r = true → List.find (λ x, P x && Q x) l = Some r.
Proof.
  induction l as [|x l IH]; cbn; [done|]. destruct (P x); cbn; [|done].
  by intros [= ->] ->.
Qed.

Lemma find_and_none P Q l : List.find P l = None → List.find (λ x, P x && Q x) l = None.
Proof. induction l as [|x l IH]; cbn; [done|]. destruct (P x); cbn; [done|exact IH]. Qed.

Lemma find_none_existsb P l : List.find P l = None → existsb P l = false.
Proof. induction l as [|x l IH]; cbn; [done|]. by destruct (P x). Qed.

Lemma find_filter_first P Q l r :
  List.find P l = Some r → Q r = true → List.find P (List.filter Q l) = Some r.
Proof.
  induction l as [|x l IH]; cbn; [done|]. destruct (P x) eqn:E.
  - intros [= ->] ->. cbn. by rewrite E.
  - intros Hf HQ. destruct (Q x); cbn; [by rewrite E, IH|by apply IH].
Qed.

(** The first row of a condition, after an update of the rows of that
    condition that keeps it. *)
Lemma filter_twice {A} (p q : A → bool) (l : list A) : List.filter p (List.filter q l) = List.filter (λ x, q x && p x) l.
Proof. induction l as [|x l IH]; cbn; [done|]. destruct (q x); cbn; [destruct (p x)|]; by rewrite IH. Qed.

Lemma filter_sublist P l : sublist (List.filter P l) l.
Proof. induction l as [|x l IH]; cbn; [done|]. destruct (P x); by constructor. Qed.

Lemma find_upd_where_hit Q P f l r :
  List.find Q l = Some r → (∀ x, P x = true → Q (f x) = Q x) → P r = true →
  List.find Q (upd_where P f l) = Some (f r).
Proof. intros Hr HQ HP. rewrite find_upd_where by done. rewrite Hr. cbn. by rewrite HP. Qed.

Lemma find_update_first P f l r :
  List.find P l = Some r → P (f r) = true → List.find P (upd_where P f l) = Some (f r).
Proof.
  unfold upd_where. induction l as [|x l IH]; cbn; [done|]. destruct (P x) eqn:E; cbn.
  - by intros [= ->] ->.
  - rewrite E. exact IH.
Qed.
End tables.

#[export] Hint Resolve length_upd_where : platform.

Lemma includes_spec l x : includes l x = true ↔ x ∈ l.
Proof.
  unfold includes. rewrite existsb_exists. setoid_rewrite String.eqb_eq.
  rewrite list_elem_of_In. naive_solver.
Qed.

Lemma includes_false l x : includes l x = false ↔ x ∉ l.
Proof. rewrite <- not_true_iff_false, includes_spec. done. Qed.

Lemma is_val_spec o s : is_val o s = true ↔ o = Some s.
Proof.
  destruct o as [s'|]; cbn; [rewrite String.eqb_eq|]; naive_solver.
Qed.

Lemma is_null_spec {A} (o : option A) : is_null o = true ↔ o = None.
Proof. by destruct o. Qed.

Lemma dedup_from_spec seen l x :
  x ∈ dedup_from seen l ↔ x ∈ l ∧ x ∉ seen.
Proof.
  revert seen. induction l as [|y l IH]; intros seen; cbn; [set_solver|].
  destruct (includes seen y) eqn:E.
  - apply includes_spec in E. rewrite IH. set_solver.
  - apply includes_false in E. rewrite elem_of_cons, IH.
    destruct (decide (x = y)) as [->|]; set_solver.
Qed.

Lemma dedup_spec l x : x ∈ dedup l ↔ x ∈ l.
Proof. unfold dedup. rewrite dedup_from_spec. set_solver. Qed.

Lemma dedup_from_NoDup seen l : NoDup (dedup_from seen l).
Proof.
  revert seen. induction l as [|y l IH]; intros seen; cbn; [constructor|].
  destruct (includes seen y); [apply IH|]. constructor; [|apply IH].
  rewrite dedup_from_spec. set_solver.
Qed.

(** * Lemmas on strings *)

Lemma lower_ascii_idem c : lower_ascii (lower_ascii c) = lower_ascii c.
Proof. destruct c as [[] [] [] [] [] [] [] []]; vm_compute; reflexivity. Qed.
Lemma lower_ascii_blank c : is_blank (lower_ascii c) = is_blank c.
Proof. destruct c as [[] [] [] [] [] [] [] []]; vm_compute; reflexivity. Qed.

Lemma toLowerCase_idem s : toLowerCase (toLowerCase s) = toLowerCase s.
Proof. induction s as [|c s IH]; cbn [toLowerCase]; [done|]. by rewrite lower_ascii_idem, IH. Qed.

Lemma toLowerCase_trimStart s : toLowerCase (trimStart s) = trimStart (toLowerCase s).
Proof.
  induction s as [|c s IH]; cbn [toLowerCase trimStart]; [done|].
  rewrite lower_ascii_blank. by destruct (is_blank c).
Qed.

Lemma toLowerCase_trimEnd s : toLowerCase (trimEnd s) = trimEnd (toLowerCase s).
Proof.
  induction s as [|c s IH]; cbn [toLowerCase trimEnd]; [done|].
  rewrite <- IH, lower_ascii_blank. destruct (trimEnd s); cbn [toLowerCase]; [|done].
  by destruct (is_blank c).
Qed.

Lemma trimStart_idem s : trimStart (trimStart s) = trimStart s.
Proof.
  induction s as [|c s IH]; cbn [trimStart]; [done|].
  destruct (is_blank c) eqn:E; [done|]. cbn [trimStart]. by rewrite E.
Qed.

Lemma trimEnd_idem s : trimEnd (trimEnd s) = trimEnd s.
Proof.
  induction s as [|c s IH]; cbn [trimEnd]; [done|].
  destruct (trimEnd s) as [|a t] eqn:E.
  - destruct (is_blank c) eqn:Ec; [done|]. cbn [trimEnd]. by rewrite Ec.
  - cbn [trimEnd] in IH |- *. by rewrite IH.
Qed.

(** A suffix of a string without trailing blanks has none. *)
Lemma trimEnd_suffix c s : trimEnd (String c s) = String c s → trimEnd s = s.
Proof. cbn [trimEnd]. destruct (trimEnd s); [destruct (is_blank c)|]; by intros [=]. Qed.

Lemma trimEnd_trimStart s : trimEnd s = s → trimEnd (trimStart s) = trimStart s.
Proof.
  induction s as [|c s IH]; intros E; cbn [trimStart]; [done|].
  destruct (is_blank c); [|done]. eapply IH, trimEnd_suffix, E.
Qed.

(** Normalising twice is normalising once: the email an account is looked up
    by is the one it was stored under. *)
Lemma normalize_idem s : normalize (normalize s) = normalize s.
Proof.
  unfold normalize, trim. rewrite toLowerCase_trimStart, toLowerCase_trimEnd, toLowerCase_idem.
  rewrite (trimEnd_trimStart (trimEnd _)) by apply trimEnd_idem. apply trimStart_idem.
Qed.

(** A separator that does not occur before it cuts a text at one place. *)
Fixpoint char_free (a : ascii) (s : string) : bool :=
  match s with
  | EmptyString => true
  | String c s => negb (Ascii.eqb c a) && char_free a s
  end.

Lemma char_free_split c a a' x x' :
  char_free c a = true → char_free c a' = true →
  a +:+ String c x = a' +:+ String c x' → a = a' ∧ x = x'.
Proof.
  revert a'. induction a as [|b a IH]; intros [|b' a'] Ha Ha' E; cbn in *.
  - by simplify_eq.
  - simplify_eq. by rewrite Ascii.eqb_refl in Ha'.
  - simplify_eq. by rewrite Ascii.eqb_refl in Ha.
  - apply andb_true_iff in Ha as [_ Ha], Ha' as [_ Ha']. simplify_eq.
    edestruct IH as [-> ->]; eauto.
Qed.

(** A decimal numeral is made of digits. *)
Lemma char_free_go a n s :
  (∀ k, pretty_N_char k ≠ a) → char_free a s = true → char_free a (pretty_N_go n s) = true.
Proof.
  intros Ha. revert s. induction (N.lt_wf_0 n) as [n _ IH]. intros s Hs.
  destruct (decide (n = 0%N)) as [->|]; [by rewrite pretty_N_go_0|].
  rewrite pretty_N_go_step by lia. apply IH; [apply N.div_lt; lia|].
  cbn [char_free]. rewrite Hs, andb_true_r. apply negb_true_iff, Ascii.eqb_neq, Ha.
Qed.

Lemma char_free_N a (n : N) :
  (∀ k, pretty_N_char k ≠ a) → a ≠ "0"%char → char_free a (pretty n) = true.
Proof.
  intros Ha H0. unfold pretty, pretty_N. destruct (decide (n = 0%N)).
  - cbn [char_free]. rewrite andb_true_r. apply negb_true_iff, Ascii.eqb_neq. congruence.
  - by apply char_free_go.
Qed.

(** [s.endsWith(suffix)]. *)
Fixpoint endsWith (s suffix : string) : bool :=
  String.eqb s suffix ||
  match s with EmptyString => false | String _ s => endsWith s suffix end.

Lemma endsWith_app s suffix : endsWith (s +:+ suffix) suffix = true.
Proof.
  induction s as [|c s IH].
  - change ("" +:+ suffix) with suffix. destruct suffix as [|a s]; [done|].
    cbn [endsWith]. by rewrite String.eqb_refl.
  - change (String c s +:+ suffix) with (String c (s +:+ suffix)). cbn [endsWith].
    rewrite IH. apply orb_true_r.
Qed.

(** * Lemmas on relations *)

Lemma tc_weaken {A} (R R' : relation A) x y : (∀ x y, R x y → R' x y) → tc R x y → tc R' x y.
Proof. intros HR. induction 1; eauto using tc. Qed.
