(* ===== verification/Schema.v ===== *)
(** * Schema: the rows of the database

    One record per table, with the fields of the TypeScript row interface the
    repositories of [src/src/modules] declare for it (for the tables read
    without one, with the columns the SQL text uses).  Timestamps ([Date])
    are milliseconds since the epoch, nullable columns are options, columns
    with a [CHECK (.. IN ..)] list are inductive types.  [DB] is the
    database: one list of rows per table and the chat sequences.  [Table] is
    the interface through which the rest of the development reads and writes
    a table; its laws are what makes two tables independent. *)
From S2P Require Import Prelude.
From Stdlib Require Import ZArith.
From stdpp Require Import base strings gmap list.
#[local] Set Warnings "-register-all".

(** ** Enumerated columns *)

(** [users.status]. *)
Inductive user_status := UActive | USuspended | UDeleted.
#[export] Instance user_status_eq_dec : EqDecision user_status.
Proof. solve_decision. Defined.

(** [organizations.status]. *)
Inductive org_status := OrgActive | OrgSuspended | OrgOffboarding | OrgDeleted.
#[export] Instance org_status_eq_dec : EqDecision org_status.
Proof. solve_decision. Defined.

(** [organizations.plan_tier and subscriptions.plan_tier]. *)
Inductive plan_tier := PFree | PPro | PBusiness | PEnterprise.
#[export] Instance plan_tier_eq_dec : EqDecision plan_tier.
Proof. solve_decision. Defined.

(** [org_memberships.role]. *)
Inductive member_role := OrgOwner | OrgAdmin | Member | Guest.
#[export] Instance member_role_eq_dec : EqDecision member_role.
Proof. solve_decision. Defined.

(** [org_memberships.status]. *)
Inductive member_status := MActive | MSuspended | MRemoved.
#[export] Instance member_status_eq_dec : EqDecision member_status.
Proof. solve_decision. Defined.

(** [invitations.status]. *)
Inductive invitation_status := InvPending | InvAccepted | InvExpired | InvRevoked.
#[export] Instance invitation_status_eq_dec : EqDecision invitation_status.
Proof. solve_decision. Defined.

(** [auth_providers.provider]. *)
Inductive auth_provider := ProvEmail | ProvGoogle | ProvSaml | ProvMagicLink.
#[export] Instance auth_provider_eq_dec : EqDecision auth_provider.
Proof. solve_decision. Defined.

(** [workspaces.status]. *)
Inductive workspace_status := WsActive | WsArchived.
#[export] Instance workspace_status_eq_dec : EqDecision workspace_status.
Proof. solve_decision. Defined.

(** [tasks.status]. *)
Inductive task_status := Todo | InProgress | InReview | Done | Cancelled.
#[export] Instance task_status_eq_dec : EqDecision task_status.
Proof. solve_decision. Defined.

(** [tasks.priority]. *)
Inductive task_priority := Low | Medium | High | Urgent.
#[export] Instance task_priority_eq_dec : EqDecision task_priority.
Proof. solve_decision. Defined.

(** [channels.type]. *)
Inductive channel_type := Direct | Group.
#[export] Instance channel_type_eq_dec : EqDecision channel_type.
Proof. solve_decision. Defined.

(** [notification_preferences.digest_mode]. *)
Inductive digest_mode := Realtime | DailyDigest.
#[export] Instance digest_mode_eq_dec : EqDecision digest_mode.
Proof. solve_decision. Defined.

(** [files.status]. *)
Inductive file_status := FPending | FConfirmed | FQuarantined | FDeleted.
#[export] Instance file_status_eq_dec : EqDecision file_status.
Proof. solve_decision. Defined.

(** [files.scan_status]. *)
Inductive scan_status := ScanPending | ScanClean | ScanInfected.
#[export] Instance scan_status_eq_dec : EqDecision scan_status.
Proof. solve_decision. Defined.

(** [payments.status]. *)
Inductive payment_status := PayCreated | PayAuthorized | PayCaptured | PayFailed | PayRefunded | PayDisputed.
#[export] Instance payment_status_eq_dec : EqDecision payment_status.
Proof. solve_decision. Defined.

(** [subscriptions.status]. *)
Inductive subscription_status := SubActive | SubHalted | SubCancelled | SubExpired | SubPending.
#[export] Instance subscription_status_eq_dec : EqDecision subscription_status.
Proof. solve_decision. Defined.

(** [outbox_events.status]. *)
Inductive outbox_status := ObPending | ObPublished | ObFailed.
#[export] Instance outbox_status_eq_dec : EqDecision outbox_status.
Proof. solve_decision. Defined.

(** [webhook_delivery_log.status]. *)
Inductive delivery_status := DlPending | DlDelivered | DlFailed | DlExhausted.
#[export] Instance delivery_status_eq_dec : EqDecision delivery_status.
Proof. solve_decision. Defined.

(** [video_calls.state]. *)
Inductive call_state := CallRinging | CallActive | CallEnded.
#[export] Instance call_state_eq_dec : EqDecision call_state.
Proof. solve_decision. Defined.

(** [audit_logs.actor_type]. *)
Inductive actor_type := ActUser | ActSystem | ActPlatformAdmin.
#[export] Instance actor_type_eq_dec : EqDecision actor_type.
Proof. solve_decision. Defined.

(** ** Rows *)

(** A row of [users]. *)
Record UserRow := mkUserRow {
  u_id : string;
  u_email : string;
  u_email_verified : bool;
  u_email_verified_at : option Z;
  u_password_hash : option string;
  u_name : string;
  u_avatar_url : option string;
  u_phone : option string;
  u_totp_secret : option string;
  u_totp_enabled : bool;
  u_mfa_backup_codes : list string;
  u_mfa_backup_codes_generated_at : option Z;
  u_is_platform_admin : bool;
  u_status : user_status;
  u_failed_login_attempts : Z;
  u_locked_until : option Z;
  u_last_login_at : option Z;
  u_password_changed_at : option Z;
  u_consent_tos_version : option string;
  u_consent_tos_at : option Z;
  u_privacy_policy_version : option string;
  u_deleted_at : option Z;
  u_created_at : Z;
  u_updated_at : Z
}.
#[export] Instance eta_UserRow : Eta UserRow := fun r =>
  mkUserRow (u_id r) (u_email r) (u_email_verified r) (u_email_verified_at r)
    (u_password_hash r) (u_name r) (u_avatar_url r) (u_phone r) (u_totp_secret r)
    (u_totp_enabled r) (u_mfa_backup_codes r) (u_mfa_backup_codes_generated_at r)
    (u_is_platform_admin r) (u_status r) (u_failed_login_attempts r) (u_locked_until r)
    (u_last_login_at r) (u_password_changed_at r) (u_consent_tos_version r)
    (u_consent_tos_at r) (u_privacy_policy_version r) (u_deleted_at r) (u_created_at r)
    (u_updated_at r).

(** A row of [auth_providers]. *)
Record AuthProviderRow := mkAuthProviderRow {
  ap_id : string;
  ap_user_id : string;
  ap_provider : auth_provider;
  ap_provider_user_id : string;
  ap_org_id : option string;
  ap_metadata : json;
  ap_created_at : Z
}.
#[export] Instance eta_AuthProviderRow : Eta AuthProviderRow := fun r =>
  mkAuthProviderRow (ap_id r) (ap_user_id r) (ap_provider r) (ap_provider_user_id r)
    (ap_org_id r) (ap_metadata r) (ap_created_at r).

(** A row of [user_preferences]. *)
Record UserPreferencesRow := mkUserPreferencesRow {
  up_user_id : string;
  up_timezone : string;
  up_locale : string;
  up_theme : string;
  up_updated_at : Z
}.
#[export] Instance eta_UserPreferencesRow : Eta UserPreferencesRow := fun r =>
  mkUserPreferencesRow (up_user_id r) (up_timezone r) (up_locale r) (up_theme r)
    (up_updated_at r).

(** A row of [refresh_tokens]. *)
Record RefreshTokenRow := mkRefreshTokenRow {
  rt_id : string;
  rt_user_id : string;
  rt_org_id : option string;
  rt_token_hash : string;
  rt_family_id : string;
  rt_last_access_token_jti : option string;
  rt_is_revoked : bool;
  rt_revoked_at : option Z;
  rt_expires_at : Z;
  rt_created_at : Z
}.
#[export] Instance eta_RefreshTokenRow : Eta RefreshTokenRow := fun r =>
  mkRefreshTokenRow (rt_id r) (rt_user_id r) (rt_org_id r) (rt_token_hash r)
    (rt_family_id r) (rt_last_access_token_jti r) (rt_is_revoked r) (rt_revoked_at r)
    (rt_expires_at r) (rt_created_at r).

(** A row of [organizations]. *)
Record OrgRow := mkOrgRow {
  o_id : string;
  o_name : string;
  o_slug : string;
  o_status : org_status;
  o_plan_tier : plan_tier;
  o_plan_started_at : Z;
  o_plan_expires_at : option Z;
  o_grace_period_ends_at : option Z;
  o_offboarding_started_at : option Z;
  o_deleted_at : option Z;
  o_max_members : Z;
  o_storage_quota_bytes : Z;
  o_storage_used_bytes : Z;
  o_saml_enabled : bool;
  o_saml_metadata_url : option string;
  o_mfa_required : bool;
  o_account_lockout_attempts : Z;
  o_retention_audit_days : Z;
  o_retention_chat_days : option Z;
  o_timezone : string;
  o_locale : string;
  o_created_at : Z;
  o_updated_at : Z;
  o_version : Z
}.
#[export] Instance eta_OrgRow : Eta OrgRow := fun r =>
  mkOrgRow (o_id r) (o_name r) (o_slug r) (o_status r) (o_plan_tier r)
    (o_plan_started_at r) (o_plan_expires_at r) (o_grace_period_ends_at r)
    (o_offboarding_started_at r) (o_deleted_at r) (o_max_members r)
    (o_storage_quota_bytes r) (o_storage_used_bytes r) (o_saml_enabled r)
    (o_saml_metadata_url r) (o_mfa_required r) (o_account_lockout_attempts r)
    (o_retention_audit_days r) (o_retention_chat_days r) (o_timezone r) (o_locale r)
    (o_created_at r) (o_updated_at r) (o_version r).

(** A row of [org_memberships]. *)
Record MembershipRow := mkMembershipRow {
  om_id : string;
  om_org_id : string;
  om_user_id : string;
  om_role : member_role;
  om_status : member_status;
  om_invited_by : option string;
  om_joined_at : option Z;
  om_removed_at : option Z;
  om_deleted_at : option Z;
  om_created_at : Z;
  om_updated_at : Z
}.
#[export] Instance eta_MembershipRow : Eta MembershipRow := fun r =>
  mkMembershipRow (om_id r) (om_org_id r) (om_user_id r) (om_role r) (om_status r)
    (om_invited_by r) (om_joined_at r) (om_removed_at r) (om_deleted_at r)
    (om_created_at r) (om_updated_at r).

(** A row of [invitations]. *)
Record InvitationRow := mkInvitationRow {
  inv_id : string;
  inv_org_id : string;
  inv_invited_by : string;
  inv_email : string;
  inv_role : member_role;
  inv_token_hash : string;
  inv_status : invitation_status;
  inv_expires_at : Z;
  inv_accepted_at : option Z;
  inv_revoked_at : option Z;
  inv_created_at : Z
}.
#[export] Instance eta_InvitationRow : Eta InvitationRow := fun r =>
  mkInvitationRow (inv_id r) (inv_org_id r) (inv_invited_by r) (inv_email r)
    (inv_role r) (inv_token_hash r) (inv_status r) (inv_expires_at r)
    (inv_accepted_at r) (inv_revoked_at r) (inv_created_at r).

(** A row of [workspaces]. *)
Record WorkspaceRow := mkWorkspaceRow {
  ws_id : string;
  ws_org_id : string;
  ws_name : string;
  ws_description : option string;
  ws_status : workspace_status;
  ws_owner_user_id : string;
  ws_deleted_at : option Z;
  ws_created_at : Z;
  ws_updated_at : Z;
  ws_version : Z
}.
#[export] Instance eta_WorkspaceRow : Eta WorkspaceRow := fun r =>
  mkWorkspaceRow (ws_id r) (ws_org_id r) (ws_name r) (ws_description r) (ws_status r)
    (ws_owner_user_id r) (ws_deleted_at r) (ws_created_at r) (ws_updated_at r)
    (ws_version r).

(** A row of [boards]. *)
Record BoardRow := mkBoardRow {
  bd_id : string;
  bd_org_id : string;
  bd_workspace_id : string;
  bd_deleted_at : option Z
}.
#[export] Instance eta_BoardRow : Eta BoardRow := fun r =>
  mkBoardRow (bd_id r) (bd_org_id r) (bd_workspace_id r) (bd_deleted_at r).

(** A row of [tasks]. *)
Record TaskRow := mkTaskRow {
  t_id : string;
  t_org_id : string;
  t_workspace_id : string;
  t_board_id : option string;
  t_parent_task_id : option string;
  t_depth : Z;
  t_title : string;
  t_description : option json;
  t_status : task_status;
  t_priority : task_priority;
  t_creator_id : string;
  t_due_date : option Z;
  t_completed_at : option Z;
  t_is_recurring : bool;
  t_recurrence_rule : option string;
  t_recurrence_parent_id : option string;
  t_template_id : option string;
  t_labels : list string;
  t_attachments_count : Z;
  t_deleted_at : option Z;
  t_created_at : Z;
  t_updated_at : Z;
  t_version : Z
}.
#[export] Instance eta_TaskRow : Eta TaskRow := fun r =>
  mkTaskRow (t_id r) (t_org_id r) (t_workspace_id r) (t_board_id r) (t_parent_task_id r)
    (t_depth r) (t_title r) (t_description r) (t_status r) (t_priority r)
    (t_creator_id r) (t_due_date r) (t_completed_at r) (t_is_recurring r)
    (t_recurrence_rule r) (t_recurrence_parent_id r) (t_template_id r) (t_labels r)
    (t_attachments_count r) (t_deleted_at r) (t_created_at r) (t_updated_at r)
    (t_version r).

(** A row of [task_assignees]. *)
Record TaskAssigneeRow := mkTaskAssigneeRow {
  ta_task_id : string;
  ta_user_id : string;
  ta_org_id : string;
  ta_assigned_at : Z;
  ta_assigned_by : string
}.
#[export] Instance eta_TaskAssigneeRow : Eta TaskAssigneeRow := fun r =>
  mkTaskAssigneeRow (ta_task_id r) (ta_user_id r) (ta_org_id r) (ta_assigned_at r)
    (ta_assigned_by r).

(** A row of [task_dependencies]. *)
Record TaskDependencyRow := mkTaskDependencyRow {
  td_id : string;
  td_org_id : string;
  td_blocking_task_id : string;
  td_blocked_task_id : string;
  td_created_by : string;
  td_created_at : Z
}.
#[export] Instance eta_TaskDependencyRow : Eta TaskDependencyRow := fun r =>
  mkTaskDependencyRow (td_id r) (td_org_id r) (td_blocking_task_id r)
    (td_blocked_task_id r) (td_created_by r) (td_created_at r).

(** A row of [task_templates]. *)
Record TaskTemplateRow := mkTaskTemplateRow {
  tt_id : string;
  tt_org_id : string;
  tt_name : string;
  tt_default_title : option string;
  tt_default_description : option json;
  tt_default_priority : option task_priority;
  tt_default_labels : list string;
  tt_created_by : string;
  tt_deleted_at : option Z;
  tt_created_at : Z
}.
#[export] Instance eta_TaskTemplateRow : Eta TaskTemplateRow := fun r =>
  mkTaskTemplateRow (tt_id r) (tt_org_id r) (tt_name r) (tt_default_title r)
    (tt_default_description r) (tt_default_priority r) (tt_default_labels r)
    (tt_created_by r) (tt_deleted_at r) (tt_created_at r).

(** A row of [comments]. *)
Record CommentRow := mkCommentRow {
  cm_id : string;
  cm_org_id : string;
  cm_task_id : string;
  cm_author_id : string;
  cm_parent_comment_id : option string;
  cm_body : json;
  cm_is_edited : bool;
  cm_edited_at : option Z;
  cm_deleted_at : option Z;
  cm_created_at : Z;
  cm_updated_at : Z
}.
#[export] Instance eta_CommentRow : Eta CommentRow := fun r =>
  mkCommentRow (cm_id r) (cm_org_id r) (cm_task_id r) (cm_author_id r)
    (cm_parent_comment_id r) (cm_body r) (cm_is_edited r) (cm_edited_at r)
    (cm_deleted_at r) (cm_created_at r) (cm_updated_at r).

(** A row of [task_activity_log]. *)
Record ActivityLogRow := mkActivityLogRow {
  tl_id : string;
  tl_org_id : string;
  tl_task_id : string;
  tl_actor_id : string;
  tl_event_type : string;
  tl_payload : json;
  tl_created_at : Z
}.
#[export] Instance eta_ActivityLogRow : Eta ActivityLogRow := fun r =>
  mkActivityLogRow (tl_id r) (tl_org_id r) (tl_task_id r) (tl_actor_id r)
    (tl_event_type r) (tl_payload r) (tl_created_at r).

(** A row of [channels]. *)
Record ChannelRow := mkChannelRow {
  ch_id : string;
  ch_org_id : string;
  ch_type : channel_type;
  ch_name : option string;
  ch_created_by : string;
  ch_workspace_id : option string;
  ch_deleted_at : option Z;
  ch_created_at : Z;
  ch_updated_at : Z
}.
#[export] Instance eta_ChannelRow : Eta ChannelRow := fun r =>
  mkChannelRow (ch_id r) (ch_org_id r) (ch_type r) (ch_name r) (ch_created_by r)
    (ch_workspace_id r) (ch_deleted_at r) (ch_created_at r) (ch_updated_at r).

(** A row of [channel_members]. *)
Record ChannelMemberRow := mkChannelMemberRow {
  chm_channel_id : string;
  chm_user_id : string;
  chm_org_id : string;
  chm_last_read_sequence : Z;
  chm_last_read_at : option Z;
  chm_joined_at : Z;
  chm_removed_at : option Z
}.
#[export] Instance eta_ChannelMemberRow : Eta ChannelMemberRow := fun r =>
  mkChannelMemberRow (chm_channel_id r) (chm_user_id r) (chm_org_id r)
    (chm_last_read_sequence r) (chm_last_read_at r) (chm_joined_at r) (chm_removed_at r).

(** A row of [direct_channel_pairs]. *)
Record DirectChannelPairRow := mkDirectChannelPairRow {
  dcp_org_id : string;
  dcp_user_a_id : string;
  dcp_user_b_id : string;
  dcp_channel_id : string;
  dcp_created_at : Z
}.
#[export] Instance eta_DirectChannelPairRow : Eta DirectChannelPairRow := fun r =>
  mkDirectChannelPairRow (dcp_org_id r) (dcp_user_a_id r) (dcp_user_b_id r)
    (dcp_channel_id r) (dcp_created_at r).

(** A row of [chat_messages]. *)
Record ChatMessageRow := mkChatMessageRow {
  msg_id : string;
  msg_org_id : string;
  msg_channel_id : string;
  msg_sender_id : string;
  msg_client_message_id : string;
  msg_sequence_number : Z;
  msg_body : string;
  msg_body_parsed : option json;
  msg_parent_message_id : option string;
  msg_is_edited : bool;
  msg_edit_history : list json;
  msg_deleted_at : option Z;
  msg_created_at : Z
}.
#[export] Instance eta_ChatMessageRow : Eta ChatMessageRow := fun r =>
  mkChatMessageRow (msg_id r) (msg_org_id r) (msg_channel_id r) (msg_sender_id r)
    (msg_client_message_id r) (msg_sequence_number r) (msg_body r) (msg_body_parsed r)
    (msg_parent_message_id r) (msg_is_edited r) (msg_edit_history r) (msg_deleted_at r)
    (msg_created_at r).

(** A row of [notifications]. *)
Record NotificationRow := mkNotificationRow {
  n_id : string;
  n_org_id : string;
  n_user_id : string;
  n_type : string;
  n_entity_type : string;
  n_entity_id : string;
  n_actor_id : option string;
  n_payload : json;
  n_is_read : bool;
  n_read_at : option Z;
  n_created_at : Z;
  n_digest_sent_at : option Z
}.
#[export] Instance eta_NotificationRow : Eta NotificationRow := fun r =>
  mkNotificationRow (n_id r) (n_org_id r) (n_user_id r) (n_type r) (n_entity_type r)
    (n_entity_id r) (n_actor_id r) (n_payload r) (n_is_read r) (n_read_at r)
    (n_created_at r) (n_digest_sent_at r).

(** A row of [notification_preferences]. *)
Record NotificationPreferenceRow := mkNotificationPreferenceRow {
  np_id : string;
  np_org_id : string;
  np_user_id : string;
  np_event_type : string;
  np_channel_inapp : bool;
  np_channel_email : bool;
  np_channel_push : bool;
  np_digest_mode : digest_mode;
  np_quiet_hours_start : option string;
  np_quiet_hours_end : option string;
  np_created_at : Z;
  np_updated_at : Z
}.
#[export] Instance eta_NotificationPreferenceRow : Eta NotificationPreferenceRow := fun r =>
  mkNotificationPreferenceRow (np_id r) (np_org_id r) (np_user_id r) (np_event_type r)
    (np_channel_inapp r) (np_channel_email r) (np_channel_push r) (np_digest_mode r)
    (np_quiet_hours_start r) (np_quiet_hours_end r) (np_created_at r) (np_updated_at r).

(** A row of [files]. *)
Record FileRow := mkFileRow {
  f_id : string;
  f_org_id : string;
  f_uploader_id : string;
  f_filename : string;
  f_storage_key : string;
  f_mime_type : string;
  f_size_bytes : Z;
  f_status : file_status;
  f_scan_status : scan_status;
  f_scan_completed_at : option Z;
  f_created_at : Z;
  f_deleted_at : option Z
}.
#[export] Instance eta_FileRow : Eta FileRow := fun r =>
  mkFileRow (f_id r) (f_org_id r) (f_uploader_id r) (f_filename r) (f_storage_key r)
    (f_mime_type r) (f_size_bytes r) (f_status r) (f_scan_status r)
    (f_scan_completed_at r) (f_created_at r) (f_deleted_at r).

(** A row of [payments]. *)
Record PaymentRow := mkPaymentRow {
  pay_id : string;
  pay_org_id : string;
  pay_subscription_id : option string;
  pay_razorpay_order_id : string;
  pay_razorpay_payment_id : option string;
  pay_amount_paise : Z;
  pay_currency : string;
  pay_status : payment_status;
  pay_failure_reason : option string;
  pay_captured_at : option Z;
  pay_refunded_at : option Z;
  pay_idempotency_key : string;
  pay_metadata : json;
  pay_created_at : Z;
  pay_updated_at : Z
}.
#[export] Instance eta_PaymentRow : Eta PaymentRow := fun r =>
  mkPaymentRow (pay_id r) (pay_org_id r) (pay_subscription_id r)
    (pay_razorpay_order_id r) (pay_razorpay_payment_id r) (pay_amount_paise r)
    (pay_currency r) (pay_status r) (pay_failure_reason r) (pay_captured_at r)
    (pay_refunded_at r) (pay_idempotency_key r) (pay_metadata r) (pay_created_at r)
    (pay_updated_at r).

(** A row of [subscriptions]. *)
Record SubscriptionRow := mkSubscriptionRow {
  sub_id : string;
  sub_org_id : string;
  sub_razorpay_subscription_id : option string;
  sub_plan_tier : plan_tier;
  sub_status : subscription_status;
  sub_current_period_start : option Z;
  sub_current_period_end : option Z;
  sub_cancel_at_period_end : bool;
  sub_cancelled_at : option Z;
  sub_trial_end : option Z;
  sub_metadata : json;
  sub_created_at : Z;
  sub_updated_at : Z
}.
#[export] Instance eta_SubscriptionRow : Eta SubscriptionRow := fun r =>
  mkSubscriptionRow (sub_id r) (sub_org_id r) (sub_razorpay_subscription_id r)
    (sub_plan_tier r) (sub_status r) (sub_current_period_start r)
    (sub_current_period_end r) (sub_cancel_at_period_end r) (sub_cancelled_at r)
    (sub_trial_end r) (sub_metadata r) (sub_created_at r) (sub_updated_at r).

(** A row of [idempotency_keys]. *)
Record IdempotencyRecord := mkIdempotencyRecord {
  ik_id : string;
  ik_key_hash : string;
  ik_org_id : string;
  ik_user_id : string;
  ik_endpoint : string;
  ik_response_status : option Z;
  ik_response_body : option json;
  ik_expires_at : Z
}.
#[export] Instance eta_IdempotencyRecord : Eta IdempotencyRecord := fun r =>
  mkIdempotencyRecord (ik_id r) (ik_key_hash r) (ik_org_id r) (ik_user_id r)
    (ik_endpoint r) (ik_response_status r) (ik_response_body r) (ik_expires_at r).

(** A row of [audit_logs]. *)
Record AuditLogRow := mkAuditLogRow {
  al_id : string;
  al_org_id : option string;
  al_actor_id : option string;
  al_actor_type : actor_type;
  al_event_type : string;
  al_entity_type : option string;
  al_entity_id : option string;
  al_payload : json;
  al_occurred_at : Z
}.
#[export] Instance eta_AuditLogRow : Eta AuditLogRow := fun r =>
  mkAuditLogRow (al_id r) (al_org_id r) (al_actor_id r) (al_actor_type r)
    (al_event_type r) (al_entity_type r) (al_entity_id r) (al_payload r)
    (al_occurred_at r).

(** A row of [outbox_events]. *)
Record OutboxEventRow := mkOutboxEventRow {
  ob_id : string;
  ob_org_id : option string;
  ob_event_type : string;
  ob_entity_type : string;
  ob_entity_id : string;
  ob_actor_user_id : option string;
  ob_payload : json;
  ob_status : outbox_status;
  ob_occurred_at : Z;
  ob_published_at : option Z;
  ob_created_at : Z
}.
#[export] Instance eta_OutboxEventRow : Eta OutboxEventRow := fun r =>
  mkOutboxEventRow (ob_id r) (ob_org_id r) (ob_event_type r) (ob_entity_type r)
    (ob_entity_id r) (ob_actor_user_id r) (ob_payload r) (ob_status r)
    (ob_occurred_at r) (ob_published_at r) (ob_created_at r).

(** A row of [feature_flags]. *)
Record FeatureFlagRow := mkFeatureFlagRow {
  ff_id : string;
  ff_key : string;
  ff_description : option string;
  ff_is_globally_enabled : bool;
  ff_rollout_percentage : Z;
  ff_enabled_org_ids : list string;
  ff_disabled_org_ids : list string;
  ff_created_at : Z;
  ff_updated_at : Z
}.
#[export] Instance eta_FeatureFlagRow : Eta FeatureFlagRow := fun r =>
  mkFeatureFlagRow (ff_id r) (ff_key r) (ff_description r) (ff_is_globally_enabled r)
    (ff_rollout_percentage r) (ff_enabled_org_ids r) (ff_disabled_org_ids r)
    (ff_created_at r) (ff_updated_at r).

(** A row of [webhook_subscriptions]. *)
Record WebhookRow := mkWebhookRow {
  wh_id : string;
  wh_org_id : string;
  wh_url : string;
  wh_secret_hash : string;
  wh_secret_encrypted : string;
  wh_secret_preview : string;
  wh_secret_key_version : Z;
  wh_event_types : list string;
  wh_is_active : bool;
  wh_created_by : string;
  wh_created_at : Z;
  wh_updated_at : Z;
  wh_deleted_at : option Z
}.
#[export] Instance eta_WebhookRow : Eta WebhookRow := fun r =>
  mkWebhookRow (wh_id r) (wh_org_id r) (wh_url r) (wh_secret_hash r)
    (wh_secret_encrypted r) (wh_secret_preview r) (wh_secret_key_version r)
    (wh_event_types r) (wh_is_active r) (wh_created_by r) (wh_created_at r)
    (wh_updated_at r) (wh_deleted_at r).

(** A row of [webhook_delivery_log]. *)
Record WebhookDeliveryLogRow := mkWebhookDeliveryLogRow {
  wl_id : string;
  wl_webhook_id : string;
  wl_org_id : string;
  wl_event_id : string;
  wl_event_type : string;
  wl_status : delivery_status;
  wl_response_status_code : option Z;
  wl_error_message : option string;
  wl_attempt_count : Z;
  wl_delivered_at : option Z;
  wl_created_at : Z;
  wl_updated_at : Z
}.
#[export] Instance eta_WebhookDeliveryLogRow : Eta WebhookDeliveryLogRow := fun r =>
  mkWebhookDeliveryLogRow (wl_id r) (wl_webhook_id r) (wl_org_id r) (wl_event_id r)
    (wl_event_type r) (wl_status r) (wl_response_status_code r) (wl_error_message r)
    (wl_attempt_count r) (wl_delivered_at r) (wl_created_at r) (wl_updated_at r).

(** A row of [saml_used_assertions]. *)
Record SamlAssertionRow := mkSamlAssertionRow {
  sa_assertion_id : string;
  sa_org_id : string;
  sa_not_on_or_after : Z
}.
#[export] Instance eta_SamlAssertionRow : Eta SamlAssertionRow := fun r =>
  mkSamlAssertionRow (sa_assertion_id r) (sa_org_id r) (sa_not_on_or_after r).

(** A row of [push_subscriptions]. *)
Record PushSubscriptionRow := mkPushSubscriptionRow {
  ps_id : string;
  ps_user_id : string;
  ps_org_id : string;
  ps_endpoint : string;
  ps_p256dh : string;
  ps_auth : string;
  ps_created_at : Z
}.
#[export] Instance eta_PushSubscriptionRow : Eta PushSubscriptionRow := fun r =>
  mkPushSubscriptionRow (ps_id r) (ps_user_id r) (ps_org_id r) (ps_endpoint r)
    (ps_p256dh r) (ps_auth r) (ps_created_at r).

(** A row of [video_calls]. *)
Record VideoCallRow := mkVideoCallRow {
  vc_id : string;
  vc_org_id : string;
  vc_channel_id : option string;
  vc_initiator_id : string;
  vc_state : call_state;
  vc_started_at : option Z;
  vc_ended_at : option Z;
  vc_created_at : Z
}.
#[export] Instance eta_VideoCallRow : Eta VideoCallRow := fun r =>
  mkVideoCallRow (vc_id r) (vc_org_id r) (vc_channel_id r) (vc_initiator_id r)
    (vc_state r) (vc_started_at r) (vc_ended_at r) (vc_created_at r).

(** ** The database *)

Record DB := mkDB {
  users : list UserRow;
  auth_providers : list AuthProviderRow;
  user_preferences : list UserPreferencesRow;
  refresh_tokens : list RefreshTokenRow;
  organizations : list OrgRow;
  org_memberships : list MembershipRow;
  invitations : list InvitationRow;
  workspaces : list WorkspaceRow;
  boards : list BoardRow;
  tasks : list TaskRow;
  task_assignees : list TaskAssigneeRow;
  task_dependencies : list TaskDependencyRow;
  task_templates : list TaskTemplateRow;
  comments : list CommentRow;
  task_activity_log : list ActivityLogRow;
  channels : list ChannelRow;
  channel_members : list ChannelMemberRow;
  direct_channel_pairs : list DirectChannelPairRow;
  chat_messages : list ChatMessageRow;
  notifications : list NotificationRow;
  notification_preferences : list NotificationPreferenceRow;
  files : list FileRow;
  payments : list PaymentRow;
  subscriptions : list SubscriptionRow;
  idempotency_keys : list IdempotencyRecord;
  audit_logs : list AuditLogRow;
  outbox_events : list OutboxEventRow;
  feature_flags : list FeatureFlagRow;
  webhook_subscriptions : list WebhookRow;
  webhook_delivery_log : list WebhookDeliveryLogRow;
  saml_used_assertions : list SamlAssertionRow;
  push_subscriptions : list PushSubscriptionRow;
  video_calls : list VideoCallRow;
  sequences : gmap string Z
}.
#[export] Instance eta_DB : Eta DB := fun d =>
  mkDB (users d) (auth_providers d) (user_preferences d) (refresh_tokens d)
    (organizations d) (org_memberships d) (invitations d) (workspaces d) (boards d)
    (tasks d) (task_assignees d) (task_dependencies d) (task_templates d) (comments d)
    (task_activity_log d) (channels d) (channel_members d) (direct_channel_pairs d)
    (chat_messages d) (notifications d) (notification_preferences d) (files d)
    (payments d) (subscriptions d) (idempotency_keys d) (audit_logs d) (outbox_events d)
    (feature_flags d) (webhook_subscriptions d) (webhook_delivery_log d)
    (saml_used_assertions d) (push_subscriptions d) (video_calls d) (sequences d).

(** A table of the database: how to read it and how to replace it. *)
Class Table (R : Type) := {
  rows : DB → list R;
  set_rows : list R → DB → DB;
  rows_set_rows : ∀ l d, rows (set_rows l d) = l;
  set_rows_rows : ∀ d, set_rows (rows d) d = d;
}.
#[global] Hint Mode Table ! : typeclass_instances.
#[global] Arguments rows : simpl never.
#[global] Arguments set_rows : simpl never.

(** Writing table [R1] leaves table [R2] as it is. *)
Class TableNe (R1 R2 : Type) `{Table R1, Table R2} :=
  rows_ne : ∀ (l : list R1) (d : DB), rows (R := R2) (set_rows l d) = rows d.

#[global] Hint Extern 1 (TableNe _ _) => (intros ? ?; reflexivity) : typeclass_instances.

(** Writing table [R] leaves the sequences as they are. *)
Class SeqNe (R : Type) `{Table R} :=
  seq_ne : ∀ (l : list R) (d : DB), sequences (set_rows l d) = sequences d.

#[global] Hint Extern 1 (SeqNe _) => (intros ? ?; reflexivity) : typeclass_instances.

#[export] Instance users_table : Table UserRow := {|
  rows := users; set_rows l d := d <| users := l |>;
  rows_set_rows _ _ := eq_refl; set_rows_rows d := match d with mkDB _ _ _ _ _ _ _ _ _ _ _ _ _ _ _ _ _ _ _ _ _ _ _ _ _ _ _ _ _ _ _ _ _ _ => eq_refl end |}.

#[export] Instance auth_providers_table : Table AuthProviderRow := {|
  rows := auth_providers; set_rows l d := d <| auth_providers := l |>;
  rows_set_rows _ _ := eq_refl; set_rows_rows d := match d with mkDB _ _ _ _ _ _ _ _ _ _ _ _ _ _ _ _ _ _ _ _ _ _ _ _ _ _ _ _ _ _ _ _ _ _ => eq_refl end |}.

#[export] Instance user_preferences_table : Table UserPreferencesRow := {|
  rows := user_preferences; set_rows l d := d <| user_preferences := l |>;
  rows_set_rows _ _ := eq_refl; set_rows_rows d := match d with mkDB _ _ _ _ _ _ _ _ _ _ _ _ _ _ _ _ _ _ _ _ _ _ _ _ _ _ _ _ _ _ _ _ _ _ => eq_refl end |}.

#[export] Instance refresh_tokens_table : Table RefreshTokenRow := {|
  rows := refresh_tokens; set_rows l d := d <| refresh_tokens := l |>;
  rows_set_rows _ _ := eq_refl; set_rows_rows d := match d with mkDB _ _ _ _ _ _ _ _ _ _ _ _ _ _ _ _ _ _ _ _ _ _ _ _ _ _ _ _ _ _ _ _ _ _ => eq_refl end |}.

#[export] Instance organizations_table : Table OrgRow := {|
  rows := organizations; set_rows l d := d <| organizations := l |>;
  rows_set_rows _ _ := eq_refl; set_rows_rows d := match d with mkDB _ _ _ _ _ _ _ _ _ _ _ _ _ _ _ _ _ _ _ _ _ _ _ _ _ _ _ _ _ _ _ _ _ _ => eq_refl end |}.

#[export] Instance org_memberships_table : Table MembershipRow := {|
  rows := org_memberships; set_rows l d := d <| org_memberships := l |>;
  rows_set_rows _ _ := eq_refl; set_rows_rows d := match d with mkDB _ _ _ _ _ _ _ _ _ _ _ _ _ _ _ _ _ _ _ _ _ _ _ _ _ _ _ _ _ _ _ _ _ _ => eq_refl end |}.

#[export] Instance invitations_table : Table InvitationRow := {|
  rows := invitations; set_rows l d := d <| invitations := l |>;
  rows_set_rows _ _ := eq_refl; set_rows_rows d := match d with mkDB _ _ _ _ _ _ _ _ _ _ _ _ _ _ _ _ _ _ _ _ _ _ _ _ _ _ _ _ _ _ _ _ _ _ => eq_refl end |}.

#[export] Instance workspaces_table : Table WorkspaceRow := {|
  rows := workspaces; set_rows l d := d <| workspaces := l |>;
  rows_set_rows _ _ := eq_refl; set_rows_rows d := match d with mkDB _ _ _ _ _ _ _ _ _ _ _ _ _ _ _ _ _ _ _ _ _ _ _ _ _ _ _ _ _ _ _ _ _ _ => eq_refl end |}.

#[export] Instance boards_table : Table BoardRow := {|
  rows := boards; set_rows l d := d <| boards := l |>;
  rows_set_rows _ _ := eq_refl; set_rows_rows d := match d with mkDB _ _ _ _ _ _ _ _ _ _ _ _ _ _ _ _ _ _ _ _ _ _ _ _ _ _ _ _ _ _ _ _ _ _ => eq_refl end |}.

#[export] Instance tasks_table : Table TaskRow := {|
  rows := tasks; set_rows l d := d <| tasks := l |>;
  rows_set_rows _ _ := eq_refl; set_rows_rows d := match d with mkDB _ _ _ _ _ _ _ _ _ _ _ _ _ _ _ _ _ _ _ _ _ _ _ _ _ _ _ _ _ _ _ _ _ _ => eq_refl end |}.

#[export] Instance task_assignees_table : Table TaskAssigneeRow := {|
  rows := task_assignees; set_rows l d := d <| task_assignees := l |>;
  rows_set_rows _ _ := eq_refl; set_rows_rows d := match d with mkDB _ _ _ _ _ _ _ _ _ _ _ _ _ _ _ _ _ _ _ _ _ _ _ _ _ _ _ _ _ _ _ _ _ _ => eq_refl end |}.

#[export] Instance task_dependencies_table : Table TaskDependencyRow := {|
  rows := task_dependencies; set_rows l d := d <| task_dependencies := l |>;
  rows_set_rows _ _ := eq_refl; set_rows_rows d := match d with mkDB _ _ _ _ _ _ _ _ _ _ _ _ _ _ _ _ _ _ _ _ _ _ _ _ _ _ _ _ _ _ _ _ _ _ => eq_refl end |}.

#[export] Instance task_templates_table : Table TaskTemplateRow := {|
  rows := task_templates; set_rows l d := d <| task_templates := l |>;
  rows_set_rows _ _ := eq_refl; set_rows_rows d := match d with mkDB _ _ _ _ _ _ _ _ _ _ _ _ _ _ _ _ _ _ _ _ _ _ _ _ _ _ _ _ _ _ _ _ _ _ => eq_refl end |}.

#[export] Instance comments_table : Table CommentRow := {|
  rows := comments; set_rows l d := d <| comments := l |>;
  rows_set_rows _ _ := eq_refl; set_rows_rows d := match d with mkDB _ _ _ _ _ _ _ _ _ _ _ _ _ _ _ _ _ _ _ _ _ _ _ _ _ _ _ _ _ _ _ _ _ _ => eq_refl end |}.

#[export] Instance task_activity_log_table : Table ActivityLogRow := {|
  rows := task_activity_log; set_rows l d := d <| task_activity_log := l |>;
  rows_set_rows _ _ := eq_refl; set_rows_rows d := match d with mkDB _ _ _ _ _ _ _ _ _ _ _ _ _ _ _ _ _ _ _ _ _ _ _ _ _ _ _ _ _ _ _ _ _ _ => eq_refl end |}.

#[export] Instance channels_table : Table ChannelRow := {|
  rows := channels; set_rows l d := d <| channels := l |>;
  rows_set_rows _ _ := eq_refl; set_rows_rows d := match d with mkDB _ _ _ _ _ _ _ _ _ _ _ _ _ _ _ _ _ _ _ _ _ _ _ _ _ _ _ _ _ _ _ _ _ _ => eq_refl end |}.

#[export] Instance channel_members_table : Table ChannelMemberRow := {|
  rows := channel_members; set_rows l d := d <| channel_members := l |>;
  rows_set_rows _ _ := eq_refl; set_rows_rows d := match d with mkDB _ _ _ _ _ _ _ _ _ _ _ _ _ _ _ _ _ _ _ _ _ _ _ _ _ _ _ _ _ _ _ _ _ _ => eq_refl end |}.

#[export] Instance direct_channel_pairs_table : Table DirectChannelPairRow := {|
  rows := direct_channel_pairs; set_rows l d := d <| direct_channel_pairs := l |>;
  rows_set_rows _ _ := eq_refl; set_rows_rows d := match d with mkDB _ _ _ _ _ _ _ _ _ _ _ _ _ _ _ _ _ _ _ _ _ _ _ _ _ _ _ _ _ _ _ _ _ _ => eq_refl end |}.

#[export] Instance chat_messages_table : Table ChatMessageRow := {|
  rows := chat_messages; set_rows l d := d <| chat_messages := l |>;
  rows_set_rows _ _ := eq_refl; set_rows_rows d := match d with mkDB _ _ _ _ _ _ _ _ _ _ _ _ _ _ _ _ _ _ _ _ _ _ _ _ _ _ _ _ _ _ _ _ _ _ => eq_refl end |}.

#[export] Instance notifications_table : Table NotificationRow := {|
  rows := notifications; set_rows l d := d <| notifications := l |>;
  rows_set_rows _ _ := eq_refl; set_rows_rows d := match d with mkDB _ _ _ _ _ _ _ _ _ _ _ _ _ _ _ _ _ _ _ _ _ _ _ _ _ _ _ _ _ _ _ _ _ _ => eq_refl end |}.

#[export] Instance notification_preferences_table : Table NotificationPreferenceRow := {|
  rows := notification_preferences; set_rows l d := d <| notification_preferences := l |>;
  rows_set_rows _ _ := eq_refl; set_rows_rows d := match d with mkDB _ _ _ _ _ _ _ _ _ _ _ _ _ _ _ _ _ _ _ _ _ _ _ _ _ _ _ _ _ _ _ _ _ _ => eq_refl end |}.

#[export] Instance files_table : Table FileRow := {|
  rows := files; set_rows l d := d <| files := l |>;
  rows_set_rows _ _ := eq_refl; set_rows_rows d := match d with mkDB _ _ _ _ _ _ _ _ _ _ _ _ _ _ _ _ _ _ _ _ _ _ _ _ _ _ _ _ _ _ _ _ _ _ => eq_refl end |}.

#[export] Instance payments_table : Table PaymentRow := {|
  rows := payments; set_rows l d := d <| payments := l |>;
  rows_set_rows _ _ := eq_refl; set_rows_rows d := match d with mkDB _ _ _ _ _ _ _ _ _ _ _ _ _ _ _ _ _ _ _ _ _ _ _ _ _ _ _ _ _ _ _ _ _ _ => eq_refl end |}.

#[export] Instance subscriptions_table : Table SubscriptionRow := {|
  rows := subscriptions; set_rows l d := d <| subscriptions := l |>;
  rows_set_rows _ _ := eq_refl; set_rows_rows d := match d with mkDB _ _ _ _ _ _ _ _ _ _ _ _ _ _ _ _ _ _ _ _ _ _ _ _ _ _ _ _ _ _ _ _ _ _ => eq_refl end |}.

#[export] Instance idempotency_keys_table : Table IdempotencyRecord := {|
  rows := idempotency_keys; set_rows l d := d <| idempotency_keys := l |>;
  rows_set_rows _ _ := eq_refl; set_rows_rows d := match d with mkDB _ _ _ _ _ _ _ _ _ _ _ _ _ _ _ _ _ _ _ _ _ _ _ _ _ _ _ _ _ _ _ _ _ _ => eq_refl end |}.

#[export] Instance audit_logs_table : Table AuditLogRow := {|
  rows := audit_logs; set_rows l d := d <| audit_logs := l |>;
  rows_set_rows _ _ := eq_refl; set_rows_rows d := match d with mkDB _ _ _ _ _ _ _ _ _ _ _ _ _ _ _ _ _ _ _ _ _ _ _ _ _ _ _ _ _ _ _ _ _ _ => eq_refl end |}.

#[export] Instance outbox_events_table : Table OutboxEventRow := {|
  rows := outbox_events; set_rows l d := d <| outbox_events := l |>;
  rows_set_rows _ _ := eq_refl; set_rows_rows d := match d with mkDB _ _ _ _ _ _ _ _ _ _ _ _ _ _ _ _ _ _ _ _ _ _ _ _ _ _ _ _ _ _ _ _ _ _ => eq_refl end |}.

#[export] Instance feature_flags_table : Table FeatureFlagRow := {|
  rows := feature_flags; set_rows l d := d <| feature_flags := l |>;
  rows_set_rows _ _ := eq_refl; set_rows_rows d := match d with mkDB _ _ _ _ _ _ _ _ _ _ _ _ _ _ _ _ _ _ _ _ _ _ _ _ _ _ _ _ _ _ _ _ _ _ => eq_refl end |}.

#[export] Instance webhook_subscriptions_table : Table WebhookRow := {|
  rows := webhook_subscriptions; set_rows l d := d <| webhook_subscriptions := l |>;
  rows_set_rows _ _ := eq_refl; set_rows_rows d := match d with mkDB _ _ _ _ _ _ _ _ _ _ _ _ _ _ _ _ _ _ _ _ _ _ _ _ _ _ _ _ _ _ _ _ _ _ => eq_refl end |}.

#[export] Instance webhook_delivery_log_table : Table WebhookDeliveryLogRow := {|
  rows := webhook_delivery_log; set_rows l d := d <| webhook_delivery_log := l |>;
  rows_set_rows _ _ := eq_refl; set_rows_rows d := match d with mkDB _ _ _ _ _ _ _ _ _ _ _ _ _ _ _ _ _ _ _ _ _ _ _ _ _ _ _ _ _ _ _ _ _ _ => eq_refl end |}.

#[export] Instance saml_used_assertions_table : Table SamlAssertionRow := {|
  rows := saml_used_assertions; set_rows l d := d <| saml_used_assertions := l |>;
  rows_set_rows _ _ := eq_refl; set_rows_rows d := match d with mkDB _ _ _ _ _ _ _ _ _ _ _ _ _ _ _ _ _ _ _ _ _ _ _ _ _ _ _ _ _ _ _ _ _ _ => eq_refl end |}.

#[export] Instance push_subscriptions_table : Table PushSubscriptionRow := {|
  rows := push_subscriptions; set_rows l d := d <| push_subscriptions := l |>;
  rows_set_rows _ _ := eq_refl; set_rows_rows d := match d with mkDB _ _ _ _ _ _ _ _ _ _ _ _ _ _ _ _ _ _ _ _ _ _ _ _ _ _ _ _ _ _ _ _ _ _ => eq_refl end |}.

#[export] Instance video_calls_table : Table VideoCallRow := {|
  rows := video_calls; set_rows l d := d <| video_calls := l |>;
  rows_set_rows _ _ := eq_refl; set_rows_rows d := match d with mkDB _ _ _ _ _ _ _ _ _ _ _ _ _ _ _ _ _ _ _ _ _ _ _ _ _ _ _ _ _ _ _ _ _ _ => eq_refl end |}.

(** The empty database. *)
Definition empty_db : DB :=
  mkDB [] [] [] [] [] [] [] [] [] [] [] [] [] [] [] [] [] [] [] [] [] [] [] [] [] [] []
    [] [] [] [] [] [] ∅.
