(* ===== verification/World.v ===== *)
(** * World: services, state and the effect monad

    The services the program talks to are interfaces: [Redis] (the key/value
    commands of the [redisClient] of [shared/redis/clients.ts]) and [Random]
    ([gen_random_uuid()], [uuidv4()], [crypto.randomBytes]).  What the program
    relies on is stated by the classes of laws [RedisLaws] and [RandomLaws].

    [World] is everything an operation can change: the database, Redis, the
    job queues, the published messages, the memory of the process, and the
    counter of random draws; and
    what it reads from outside: the clock and whether Redis answers.  An
    [async] function is a [M A]: state passing with rejection.  A rejection
    keeps the effects done before it, as in the program, unless it leaves
    [withTransaction] ([shared/database/pool.ts]), which rolls the database
    back.  The replica is the primary ([replicaPool] without
    [DATABASE_REPLICA_URL]). *)
From S2P Require Import Prelude Schema.
From Stdlib Require Import ZArith Lia Ascii.
From stdpp Require Import base tactics strings gmap list.

(** ** Services *)

(** A Redis string: text as is, or the JSON text of a value. *)
Inductive rvalue :=
  | RText (s : string)
  | RJson (j : json).

(** The string commands of Redis.  A key may carry an expiry; [redis_get]
    and the others are given the time at which they run, in milliseconds. *)
Class Redis := {
  redis_store : Type;
  redis_empty : redis_store;
  redis_get : redis_store → Z → string → option rvalue;
  redis_set : redis_store → Z → string → rvalue → option Z → redis_store;
  redis_del : redis_store → string → redis_store;
}.

(** The documented behaviour of GET, SET (with EX, in seconds) and DEL. *)
Class RedisLaws (S : Redis) : Prop := {
  redis_get_empty : ∀ t k, redis_get redis_empty t k = None;
  redis_get_set_eq : ∀ r t k v, redis_get (redis_set r t k v None) t k = Some v;
  redis_get_set_live : ∀ r t t' k v ttl,
    (t ≤ t')%Z → (t' < t + ttl * 1000)%Z →
    redis_get (redis_set r t k v (Some ttl)) t' k = Some v;
  redis_get_set_expired : ∀ r t t' k v ttl,
    (t + ttl * 1000 ≤ t')%Z →
    redis_get (redis_set r t k v (Some ttl)) t' k = None;
  redis_get_set_ne : ∀ r t t' k k' v o,
    k ≠ k' → redis_get (redis_set r t k v o) t' k' = redis_get r t' k';
  redis_get_del_eq : ∀ r t k, redis_get (redis_del r k) t k = None;
  redis_get_del_ne : ∀ r t k k', k ≠ k' → redis_get (redis_del r k) t k' = redis_get r t k';
}.

(** The hash commands HGET, HSET and HDEL on the same store. *)
Class RedisHash `{Redis} := {
  redis_hget : redis_store → string → string → option rvalue;
  redis_hset : redis_store → string → string → rvalue → redis_store;
  redis_hdel : redis_store → string → string → redis_store;
}.

Class RedisHashLaws `{Redis} (S : RedisHash) : Prop := {
  redis_hget_hset_eq : ∀ r k f v, redis_hget (redis_hset r k f v) k f = Some v;
  redis_hget_hset_ne : ∀ r k f f' v,
    f ≠ f' → redis_hget (redis_hset r k f v) k f' = redis_hget r k f';
  redis_hget_hdel_eq : ∀ r k f, redis_hget (redis_hdel r k f) k f = None;
  redis_hget_hdel_ne : ∀ r k f f',
    f ≠ f' → redis_hget (redis_hdel r k f) k f' = redis_hget r k f';
  redis_hget_set : ∀ r t k k' f v ex,
    k ≠ k' → redis_hget (redis_set r t k v ex) k' f = redis_hget r k' f;
  redis_hget_del : ∀ r k k' f, k ≠ k' → redis_hget (redis_del r k) k' f = redis_hget r k' f;
}.

(** The sorted-set commands of the rate limiter: ZREMRANGEBYSCORE,
    ZADD and PEXPIRE (in milliseconds), and the scores of a key's members at a
    given time, whose number is ZCARD. *)
Class RedisZset `{Redis} := {
  redis_scores : redis_store → Z → string → gmap string Z;
  redis_zremrangebyscore : redis_store → Z → string → option Z → Z → redis_store;
  redis_zadd : redis_store → Z → string → Z → string → redis_store;
  redis_pexpire : redis_store → Z → string → Z → redis_store;
}.

(** Is a score in the range [min, max]?  No [min] is [-inf]. *)
Definition in_range (min : option Z) (max s : Z) : bool :=
  (match min with Some m => (m <=? s)%Z | None => true end && (s <=? max)%Z)%bool.

Class RedisZsetLaws `{Redis} (S : RedisZset) : Prop := {
  redis_scores_zrem : ∀ r t t' k min max,
    (t ≤ t')%Z → redis_scores (redis_zremrangebyscore r t k min max) t' k =
    filter (λ e, in_range min max e.2 = false) (redis_scores r t' k);
  redis_scores_zrem_ne : ∀ r t t' k k' min max,
    k ≠ k' → redis_scores (redis_zremrangebyscore r t k min max) t' k' = redis_scores r t' k';
  redis_scores_zadd : ∀ r t k score m,
    redis_scores (redis_zadd r t k score m) t k = <[m := score]> (redis_scores r t k);
  redis_scores_zadd_ne : ∀ r t t' k k' score m,
    k ≠ k' → redis_scores (redis_zadd r t k score m) t' k' = redis_scores r t' k';
  redis_scores_pexpire_live : ∀ r t t' k ms,
    (t ≤ t')%Z → (t' < t + ms)%Z →
    redis_scores (redis_pexpire r t k ms) t' k = redis_scores r t k;
  redis_scores_pexpire_expired : ∀ r t t' k ms,
    (t + ms ≤ t')%Z → redis_scores (redis_pexpire r t k ms) t' k = ∅;
  redis_scores_pexpire_ne : ∀ r t t' k k' ms,
    k ≠ k' → redis_scores (redis_pexpire r t k ms) t' k' = redis_scores r t' k';
}.

(** The random draws of the program, in the order it makes them. *)
Class Random := {
  random_uuid : nat → string;
  random_hex : nat → string;
}.

(** No identifier is drawn twice, none is empty, and a UUID is written with
    hexadecimal digits and dashes. *)
Class RandomLaws (R : Random) : Prop := {
  random_uuid_inj : ∀ n m, random_uuid n = random_uuid m → n = m;
  random_hex_inj : ∀ n m, random_hex n = random_hex m → n = m;
  random_uuid_truthy : ∀ n, truthy (random_uuid n) = true;
  random_uuid_chars : ∀ n, char_free "_"%char (random_uuid n) = true;
}.

(** A job added to a BullMQ queue. *)
Record Job := mkJob {
  j_queue : string;
  j_name : string;
  j_data : json;
  j_delay : Z
}.

(** The module-level [Map]s of a server process: the first-level cache of
    [feature-flag.service.ts], with the expiry of each entry, and the
    timestamps [rate-limiter.ts] keeps when Redis is down. *)
Record Memory := mkMemory {
  l1Cache : gmap string (bool * Z);
  fallbackStore : gmap string (list Z)
}.
#[export] Instance eta_Memory : Eta Memory := fun m => mkMemory (l1Cache m) (fallbackStore m).

Definition empty_memory : Memory := mkMemory ∅ ∅.

(** What left the process for a service outside: an HTTP request, an email, a
    push message, an event sent to a room of sockets. *)
Inductive Outgoing :=
  | HttpPost (url : string) (headers : list (string * string)) (body : json)
  | EmailTo (provider to subject html text : string)
  | PushTo (endpoint p256dh auth : string) (payload : json)
  | EmitTo (room event : string) (data : json).

Record World `{Redis} := mkWorld {
  db : DB;
  redis : redis_store;
  jobs : list Job;
  published : list (string * json);
  memory : Memory;
  outgoing : list Outgoing;
  clock : Z;
  draws : nat;
  redis_up : bool
}.
#[export] Instance eta_World `{Redis} : Eta World := fun w =>
  mkWorld _ (db w) (redis w) (jobs w) (published w) (memory w) (outgoing w) (clock w) (draws w) (redis_up w).

(** ** The monad *)

Section monad.
Context `{Redis}.

Definition M (A : Type) : Type := World → result A * World.

Definition ret {A} (a : A) : M A := λ w, (Ok a, w).
Definition throw {A} (e : error) : M A := λ w, (Throw e, w).
Definition bind {A B} (m : M A) (k : A → M B) : M B := λ w,
  match m w with
  | (Ok a, w') => k a w'
  | (Throw e, w') => (Throw e, w')
  end.
(** [try { m } catch (e) { h(e) }]. *)
Definition catch {A} (m : M A) (h : error → M A) : M A := λ w,
  match m w with
  | (Ok a, w') => (Ok a, w')
  | (Throw e, w') => h e w'
  end.
Definition get_world : M World := λ w, (Ok w, w).

(** [for (const x of l) f(x)], awaiting each call. *)
Fixpoint for_each {A} (l : list A) (f : A → M unit) : M unit :=
  match l with
  | [] => ret tt
  | x :: l => bind (f x) (λ _, for_each l f)
  end.
End monad.

Notation "'let*' x ':=' c1 'in' c2" := (bind c1 (fun x => c2))
  (at level 200, x pattern, c1 at level 100, c2 at level 200) : platform_scope.
Notation "c1 ;;; c2" := (bind c1 (fun _ => c2))
  (at level 100, c2 at level 200, right associativity) : platform_scope.

(** The tables with a [BEFORE UPDATE .. set_updated_at()] trigger. *)
Class Touch (R : Type) := touch : Z → R → R.
#[export] Instance touch_users : Touch UserRow := λ t r, r <| u_updated_at := t |>.
#[export] Instance touch_user_preferences : Touch UserPreferencesRow := λ t r, r <| up_updated_at := t |>.
#[export] Instance touch_organizations : Touch OrgRow := λ t r, r <| o_updated_at := t |>.
#[export] Instance touch_memberships : Touch MembershipRow := λ t r, r <| om_updated_at := t |>.
#[export] Instance touch_workspaces : Touch WorkspaceRow := λ t r, r <| ws_updated_at := t |>.
#[export] Instance touch_tasks : Touch TaskRow := λ t r, r <| t_updated_at := t |>.
#[export] Instance touch_comments : Touch CommentRow := λ t r, r <| cm_updated_at := t |>.
#[export] Instance touch_channels : Touch ChannelRow := λ t r, r <| ch_updated_at := t |>.
#[export] Instance touch_preferences : Touch NotificationPreferenceRow := λ t r, r <| np_updated_at := t |>.
#[export] Instance touch_payments : Touch PaymentRow := λ t r, r <| pay_updated_at := t |>.
#[export] Instance touch_subscriptions : Touch SubscriptionRow := λ t r, r <| sub_updated_at := t |>.
#[export] Instance touch_flags : Touch FeatureFlagRow := λ t r, r <| ff_updated_at := t |>.
#[export] Instance touch_webhooks : Touch WebhookRow := λ t r, r <| wh_updated_at := t |>.
#[export] Instance touch_delivery_log : Touch WebhookDeliveryLogRow := λ t r, r <| wl_updated_at := t |>.

Section effects.
Context `{Redis, Random}.

(** *** Time and randomness *)

(** [NOW()] and [Date.now()]. *)
Definition now : M Z := λ w, (Ok (clock w), w).
Definition gen_random_uuid : M string := λ w,
  (Ok (random_uuid (draws w)), w <| draws := S (draws w) |>).
Definition randomHex : M string := λ w,
  (Ok (random_hex (draws w)), w <| draws := S (draws w) |>).

(** *** SQL *)

(** The statements on a table, with their conditions as boolean functions
    of the row. *)
Section sql.
Context {R : Type} `{Table R}.

Definition select (P : R → bool) : M (list R) := λ w,
  (Ok (List.filter P (rows (db w))), w).

(** [SELECT .. LIMIT 1] and [rows[0] ?? null]. *)
Definition select_one (P : R → bool) : M (option R) := λ w,
  (Ok (List.find P (rows (db w))), w).

(** [UPDATE .. SET .. WHERE .. RETURNING *]. *)
Definition update_where (P : R → bool) (f : R → R) : M (list R) := λ w,
  (Ok (ret_where P f (rows (db w))),
   w <| db := set_rows (upd_where P f (rows (db w))) (db w) |>).

(** An UPDATE of a table with the [set_updated_at] trigger of
    [migrations/001_extensions.js]. *)
Definition update_touch `{Touch R} (P : R → bool) (f : R → R) : M (list R) :=
  bind now (λ t, update_where P (λ r, touch t (f r))).

(** [INSERT INTO ..]. *)
Definition insert_row (r : R) : M unit := λ w,
  (Ok tt, w <| db := set_rows (rows (db w) ++ [r]) (db w) |>).

(** [INSERT INTO ..] into a table with a unique index: [clash] tells the
    rows that the index does not allow beside the new one. *)
Definition insert_unique (clash : R → bool) (r : R) : M unit := λ w,
  if existsb clash (rows (db w)) then (Throw unique_violation, w)
  else insert_row r w.

(** [INSERT .. ON CONFLICT .. DO NOTHING]. *)
Definition insert_or_ignore (clash : R → bool) (r : R) : M unit := λ w,
  if existsb clash (rows (db w)) then (Ok tt, w) else insert_row r w.

(** [INSERT .. ON CONFLICT .. DO UPDATE SET f RETURNING *]. *)
Definition upsert (clash : R → bool) (r : R) (f : R → R) : M R := λ w,
  match List.find clash (rows (db w)) with
  | Some r0 => (Ok (f r0), w <| db := set_rows (upd_where clash f (rows (db w))) (db w) |>)
  | None => (Ok r, w <| db := set_rows (rows (db w) ++ [r]) (db w) |>)
  end.

(** [DELETE FROM .. WHERE .. RETURNING *]. *)
Definition delete_where (P : R → bool) : M (list R) := λ w,
  (Ok (List.filter P (rows (db w))),
   w <| db := set_rows (List.filter (λ r, negb (P r)) (rows (db w))) (db w) |>).
End sql.

(** [withTransaction(fn)]: COMMIT when [fn] returns, ROLLBACK when it
    throws. *)
Definition withTransaction {A} (fn : M A) : M A := λ w,
  match fn w with
  | (Ok a, w') => (Ok a, w')
  | (Throw e, w') => (Throw e, w' <| db := db w |>)
  end.

(** *** Redis *)

Definition redis_error : error := PlainError "Connection is closed.".

(** Every command fails while Redis is down. *)
Definition rget (k : string) : M (option rvalue) := λ w,
  if redis_up w then (Ok (redis_get (redis w) (clock w) k), w)
  else (Throw redis_error, w).
(** An expiry of 0 seconds or less is an error of the command. *)
Definition invalid_expire : error := PlainError "ERR invalid expire time in 'set' command".
Definition rset (k : string) (v : rvalue) (ex : option Z) : M unit := λ w,
  if redis_up w then
    if match ex with Some s => (s <=? 0)%Z | None => false end then (Throw invalid_expire, w)
    else (Ok tt, w <| redis := redis_set (redis w) (clock w) k v ex |>)
  else (Throw redis_error, w).
Definition rdel (k : string) : M unit := λ w,
  if redis_up w then (Ok tt, w <| redis := redis_del (redis w) k |>)
  else (Throw redis_error, w).
(** [SET k v EX s NX]: true when the key was set. *)
Definition rset_nx (k : string) (v : rvalue) (ex : Z) : M bool := λ w,
  if redis_up w then
    match redis_get (redis w) (clock w) k with
    | Some _ => (Ok false, w)
    | None => (Ok true, w <| redis := redis_set (redis w) (clock w) k v (Some ex) |>)
    end
  else (Throw redis_error, w).
Definition rpublish (channel : string) (msg : json) : M unit := λ w,
  if redis_up w then (Ok tt, w <| published := published w ++ [(channel, msg)] |>)
  else (Throw redis_error, w).

(** *** Queues *)

(** [enqueue(queue, name, data)] of [shared/queue/queues.ts], and
    [queue.add(name, data, { delay })]; the jobs live in Redis. *)
Definition enqueue_in (delay : Z) (queue name : string) (data : json) : M unit := λ w,
  if redis_up w then (Ok tt, w <| jobs := jobs w ++ [mkJob queue name data delay] |>)
  else (Throw redis_error, w).
Definition enqueue : string → string → json → M unit := enqueue_in 0.
End effects.

#[global] Arguments M {_} _ : simpl never.

(** ** Shared writers: the outbox and the audit log *)

Section writers.
Context `{Redis, Random}.

(** [writeOutboxEvent]: the INSERT every service repeats. *)
Definition writeOutboxEvent (org : option string) (eventType entityType entityId : string)
    (actor : option string) (payload : json) : M unit :=
  let* id := gen_random_uuid in
  let* t := now in
  insert_row (mkOutboxEventRow id org eventType entityType entityId actor payload
    ObPending t None t).

(** [persistAuditLog] of [audit.worker.ts]; absent and empty fields are
    stored as NULL. *)
Definition persistAuditLog (orgId actorId : option string) (actorType : actor_type)
    (eventType : string) (entityType entityId : option string) (payload : json) : M unit :=
  let* id := gen_random_uuid in
  let* t := now in
  let nz o := if otruthy o then o else None in
  insert_row (mkAuditLogRow id (nz orgId) (nz actorId) actorType eventType
    (nz entityType) (nz entityId) payload t).
End writers.

(** ** Reasoning about operations *)

Section logic.
Context `{Redis, Random}.

(** Weakest precondition: [m], run in [w], ends with an outcome and a state
    that satisfy [Q]. *)
Definition wp {A} (m : M A) (Q : result A → World → Prop) (w : World) : Prop :=
  Q (m w).1 (m w).2.

Lemma wp_bind {A B} (m : M A) (k : A → M B) Q w :
  wp m (λ r w', match r with Ok a => wp (k a) Q w' | Throw e => Q (Throw e) w' end) w →
  wp (bind m k) Q w.
Proof. unfold wp, bind. by destruct (m w) as [[a|e] w']. Qed.

Lemma wp_bind_inv {A B} (m : M A) (k : A → M B) Q w :
  wp (bind m k) Q w →
  wp m (λ r w', match r with Ok a => wp (k a) Q w' | Throw e => Q (Throw e) w' end) w.
Proof. unfold wp, bind. by destruct (m w) as [[a|e] w']. Qed.

Lemma wp_catch {A} (m : M A) h Q w :
  wp m (λ r w', match r with Ok a => Q (Ok a) w' | Throw e => wp (h e) Q w' end) w →
  wp (catch m h) Q w.
Proof. unfold wp, catch. by destruct (m w) as [[a|e] w']. Qed.

Lemma wp_mono {A} (m : M A) (Q Q' : result A → World → Prop) w :
  wp m Q w → (∀ r w', Q r w' → Q' r w') → wp m Q' w.
Proof. unfold wp. auto. Qed.

Lemma wp_and {A} (m : M A) (Q Q' : result A → World → Prop) w :
  wp m Q w → wp m Q' w → wp m (λ r w', Q r w' ∧ Q' r w') w.
Proof. by split. Qed.

Lemma bind_ok {A B} (m : M A) (k : A → M B) w b w'' :
  bind m k w = (Ok b, w'') → ∃ a w', m w = (Ok a, w') ∧ k a w' = (Ok b, w'').
Proof. unfold bind. destruct (m w) as [[a|e] w']; [eauto|done]. Qed.

(** Did a run succeed? *)
Definition is_ok {A} (r : result A * World) : bool :=
  match r.1 with Ok _ => true | Throw _ => false end.

Lemma is_ok_inv {A} (r : result A * World) : is_ok r = true → ∃ a, r = (Ok a, r.2).
Proof. destruct r as [[a|e] w]; [by exists a|done]. Qed.

(** [m] keeps the invariant [I], however it ends. *)
Definition preserves (I : World → Prop) {A} (m : M A) : Prop :=
  ∀ w, I w → I (m w).2.

Lemma preserves_ret I {A} (a : A) : preserves I (ret a).
Proof. by intros w Hw. Qed.
Lemma preserves_throw I {A} e : preserves I (throw (A := A) e).
Proof. by intros w Hw. Qed.
Lemma preserves_bind I {A B} (m : M A) (k : A → M B) :
  preserves I m → (∀ a, preserves I (k a)) → preserves I (bind m k).
Proof.
  intros Hm Hk w HI. unfold bind. specialize (Hm w HI).
  destruct (m w) as [[a|e] w']; [by apply Hk|done].
Qed.
Lemma preserves_catch I {A} (m : M A) h :
  preserves I m → (∀ e, preserves I (h e)) → preserves I (catch m h).
Proof.
  intros Hm Hh w HI. unfold catch. specialize (Hm w HI).
  destruct (m w) as [[a|e] w']; [done|by apply Hh].
Qed.
Lemma preserves_and I J {A} (m : M A) :
  preserves I m → preserves J m → preserves (λ w, I w ∧ J w) m.
Proof. intros Hi Hj w [? ?]. split; auto. Qed.
Lemma preserves_if I {A} (b : bool) (m1 m2 : M A) :
  preserves I m1 → preserves I m2 → preserves I (if b then m1 else m2).
Proof. by destruct b. Qed.
Lemma preserves_for_each I {A} (l : list A) f :
  (∀ x, preserves I (f x)) → preserves I (for_each l f).
Proof.
  intros Hf. induction l as [|x l IH]; cbn; [apply preserves_ret|].
  apply preserves_bind; auto.
Qed.

(** Invariants of one part of the state. *)
Definition on_table {R} `{Table R} (I : list R → Prop) (w : World) : Prop := I (rows (db w)).

Section table_inv.
Context {R : Type} `{Table R} (I : list R → Prop).

Lemma preserves_other_table {R'} `{Table R', !TableNe R' R} (m : World → list R') {A} (a : World → result A) :
  preserves (on_table I) (λ w, (a w, w <| db := set_rows (m w) (db w) |>)).
Proof. intros w HI. unfold on_table in *. cbn. by rewrite rows_ne. Qed.

Lemma preserves_update_other {R'} `{Table R', !TableNe R' R} P f :
  preserves (on_table I) (update_where (R := R') P f).
Proof. apply (preserves_other_table (λ w, upd_where P f (rows (db w)))). Qed.
Lemma preserves_insert_other {R'} `{Table R', !TableNe R' R} r :
  preserves (on_table I) (insert_row (R := R') r).
Proof. apply (preserves_other_table (λ w, rows (db w) ++ [r])). Qed.
Lemma preserves_delete_other {R'} `{Table R', !TableNe R' R} P :
  preserves (on_table I) (delete_where (R := R') P).
Proof. apply (preserves_other_table (λ w, List.filter (λ r, negb (P r)) (rows (db w)))). Qed.
Lemma preserves_insert_unique_other {R'} `{Table R', !TableNe R' R} c r :
  preserves (on_table I) (insert_unique (R := R') c r).
Proof.
  intros w HI. unfold insert_unique. destruct existsb; [done|].
  by apply preserves_insert_other.
Qed.
Lemma preserves_insert_or_ignore_other {R'} `{Table R', !TableNe R' R} c r :
  preserves (on_table I) (insert_or_ignore (R := R') c r).
Proof.
  intros w HI. unfold insert_or_ignore. destruct existsb; [done|].
  by apply preserves_insert_other.
Qed.
Lemma preserves_upsert_other {R'} `{Table R', !TableNe R' R} c r f :
  preserves (on_table I) (upsert (R := R') c r f).
Proof.
  intros w HI. unfold on_table, upsert in *.
  destruct List.find; cbn; by rewrite rows_ne.
Qed.

Lemma preserves_update_touch_other {R'} `{Table R', !TableNe R' R, Touch R'} P f :
  preserves (on_table I) (update_touch (R := R') P f).
Proof. intros w Hw. by apply preserves_update_other. Qed.

Lemma preserves_update_touch `{Touch R} P f :
  (∀ t l, I l → I (upd_where P (λ r, touch t (f r)) l)) →
  preserves (on_table I) (update_touch P f).
Proof. intros HI w Hw. unfold on_table in *. cbn. rewrite rows_set_rows. auto. Qed.
Lemma preserves_update P f :
  (∀ l, I l → I (upd_where P f l)) → preserves (on_table I) (update_where P f).
Proof. intros HI w Hw. unfold on_table in *. cbn. rewrite rows_set_rows. auto. Qed.
Lemma preserves_insert r :
  (∀ l, I l → I (l ++ [r])) → preserves (on_table I) (insert_row r).
Proof. intros HI w Hw. unfold on_table in *. cbn. rewrite rows_set_rows. auto. Qed.

Lemma preserves_select_table {R'} `{Table R'} P : preserves (on_table I) (select (R := R') P).
Proof. by intros w Hw. Qed.
Lemma preserves_select_one_table {R'} `{Table R'} P :
  preserves (on_table I) (select_one (R := R') P).
Proof. by intros w Hw. Qed.
Lemma preserves_now_table : preserves (on_table I) now.
Proof. by intros w Hw. Qed.
Lemma preserves_uuid_table : preserves (on_table I) gen_random_uuid.
Proof. by intros w Hw. Qed.
Lemma preserves_hex_table : preserves (on_table I) randomHex.
Proof. by intros w Hw. Qed.
Lemma preserves_get_world_table : preserves (on_table I) get_world.
Proof. by intros w Hw. Qed.
Lemma preserves_rset_nx_table k v ex : preserves (on_table I) (rset_nx k v ex).
Proof. intros w Hw. unfold rset_nx. by repeat case_match. Qed.
Lemma preserves_rget_table k : preserves (on_table I) (rget k).
Proof. intros w Hw. unfold rget. by destruct (redis_up w). Qed.
Lemma preserves_rset_table k v ex : preserves (on_table I) (rset k v ex).
Proof. intros w Hw. unfold rset. by repeat case_match. Qed.
Lemma preserves_rdel_table k : preserves (on_table I) (rdel k).
Proof. intros w Hw. unfold rdel. by destruct (redis_up w). Qed.
Lemma preserves_rpublish_table c j : preserves (on_table I) (rpublish c j).
Proof. intros w Hw. unfold rpublish. by destruct (redis_up w). Qed.
Lemma preserves_enqueue_table d q n j : preserves (on_table I) (enqueue_in d q n j).
Proof. intros w Hw. unfold enqueue_in. by destruct (redis_up w). Qed.
Lemma preserves_transaction_table {A} (m : M A) :
  preserves (on_table I) m → preserves (on_table I) (withTransaction m).
Proof.
  intros Hm w HI. unfold withTransaction. specialize (Hm w HI).
  by destruct (m w) as [[a|e] w'].
Qed.

Lemma preserves_outbox_other `{!TableNe OutboxEventRow R} o e t i a p :
  preserves (on_table I) (writeOutboxEvent o e t i a p).
Proof.
  apply preserves_bind; [apply preserves_uuid_table|intros id].
  apply preserves_bind; [apply preserves_now_table|intros t'].
  apply preserves_insert_other.
Qed.
Lemma preserves_audit_other `{!TableNe AuditLogRow R} o a ty e et ei p :
  preserves (on_table I) (persistAuditLog o a ty e et ei p).
Proof.
  apply preserves_bind; [apply preserves_uuid_table|intros id].
  apply preserves_bind; [apply preserves_now_table|intros t'].
  apply preserves_insert_other.
Qed.
End table_inv.

(** What every operation keeps: it runs at one time, with Redis up or down
    throughout, and never returns a random draw. *)
Definition ambient (n : nat) (t : Z) (up : bool) (w : World) : Prop :=
  n ≤ draws w ∧ clock w = t ∧ redis_up w = up.

Section ambient.
Context (n : nat) (t : Z) (up : bool).

Ltac solve_ambient :=
  intros w (? & ? & ?);
  unfold select, select_one, update_touch, update_where, insert_unique, insert_or_ignore, upsert,
    delete_where, insert_row, now, gen_random_uuid, randomHex, rget, rset, rdel, rset_nx,
    rpublish, enqueue_in, bind, get_world;
  repeat case_match; simplify_eq; unfold ambient; cbn; split_all; lia.

Lemma ambient_select {R} `{Table R} P : preserves (ambient n t up) (select (R := R) P).
Proof. solve_ambient. Qed.
Lemma ambient_select_one {R} `{Table R} P : preserves (ambient n t up) (select_one (R := R) P).
Proof. solve_ambient. Qed.
Lemma ambient_update {R} `{Table R} P f : preserves (ambient n t up) (update_where (R := R) P f).
Proof. solve_ambient. Qed.
Lemma ambient_update_touch {R} `{Table R, Touch R} P f :
  preserves (ambient n t up) (update_touch (R := R) P f).
Proof. solve_ambient. Qed.
Lemma ambient_insert {R} `{Table R} r : preserves (ambient n t up) (insert_row (R := R) r).
Proof. solve_ambient. Qed.
Lemma ambient_insert_unique {R} `{Table R} c r :
  preserves (ambient n t up) (insert_unique (R := R) c r).
Proof. solve_ambient. Qed.
Lemma ambient_insert_or_ignore {R} `{Table R} c r :
  preserves (ambient n t up) (insert_or_ignore (R := R) c r).
Proof. solve_ambient. Qed.
Lemma ambient_upsert {R} `{Table R} c r f : preserves (ambient n t up) (upsert (R := R) c r f).
Proof. solve_ambient. Qed.
Lemma ambient_delete {R} `{Table R} P : preserves (ambient n t up) (delete_where (R := R) P).
Proof. solve_ambient. Qed.
Lemma ambient_now : preserves (ambient n t up) now.
Proof. solve_ambient. Qed.
Lemma ambient_get_world : preserves (ambient n t up) get_world.
Proof. solve_ambient. Qed.
Lemma ambient_uuid : preserves (ambient n t up) gen_random_uuid.
Proof. solve_ambient. Qed.
Lemma ambient_hex : preserves (ambient n t up) randomHex.
Proof. solve_ambient. Qed.
Lemma ambient_rget k : preserves (ambient n t up) (rget k).
Proof. solve_ambient. Qed.
Lemma ambient_rset k v ex : preserves (ambient n t up) (rset k v ex).
Proof. solve_ambient. Qed.
Lemma ambient_rdel k : preserves (ambient n t up) (rdel k).
Proof. solve_ambient. Qed.
Lemma ambient_rset_nx k v ex : preserves (ambient n t up) (rset_nx k v ex).
Proof. solve_ambient. Qed.
Lemma ambient_rpublish c j : preserves (ambient n t up) (rpublish c j).
Proof. solve_ambient. Qed.
Lemma ambient_enqueue d q k j : preserves (ambient n t up) (enqueue_in d q k j).
Proof. solve_ambient. Qed.
Lemma ambient_transaction {A} (m : M A) :
  preserves (ambient n t up) m → preserves (ambient n t up) (withTransaction m).
Proof.
  intros Hm w HI. unfold withTransaction. specialize (Hm w HI).
  by destruct (m w) as [[a|e] w'].
Qed.
Lemma ambient_outbox o e ty i a p : preserves (ambient n t up) (writeOutboxEvent o e ty i a p).
Proof.
  apply preserves_bind; [apply ambient_uuid|intros id].
  apply preserves_bind; [apply ambient_now|intros t']. apply ambient_insert.
Qed.
Lemma ambient_audit o a ty e et ei p : preserves (ambient n t up) (persistAuditLog o a ty e et ei p).
Proof.
  apply preserves_bind; [apply ambient_uuid|intros id].
  apply preserves_bind; [apply ambient_now|intros t']. apply ambient_insert.
Qed.
End ambient.

(** What every operation but SET and DEL keeps: the contents of Redis. *)
Definition on_redis (I : redis_store → Prop) (w : World) : Prop := I (redis w).

Section redis_inv.
Context (I : redis_store → Prop).

Ltac solve_redis :=
  intros w Hw;
  unfold select, select_one, update_touch, update_where, insert_unique, insert_or_ignore, upsert,
    delete_where, insert_row, now, gen_random_uuid, randomHex, rget, rpublish, enqueue_in, bind,
    get_world;
  repeat case_match; simplify_eq; exact Hw.

Lemma redis_select {R} `{Table R} P : preserves (on_redis I) (select (R := R) P).
Proof. solve_redis. Qed.
Lemma redis_select_one {R} `{Table R} P : preserves (on_redis I) (select_one (R := R) P).
Proof. solve_redis. Qed.
Lemma redis_update {R} `{Table R} P f : preserves (on_redis I) (update_where (R := R) P f).
Proof. solve_redis. Qed.
Lemma redis_update_touch {R} `{Table R, Touch R} P f : preserves (on_redis I) (update_touch (R := R) P f).
Proof. solve_redis. Qed.
Lemma redis_insert {R} `{Table R} r : preserves (on_redis I) (insert_row (R := R) r).
Proof. solve_redis. Qed.
Lemma redis_insert_unique {R} `{Table R} c r : preserves (on_redis I) (insert_unique (R := R) c r).
Proof. solve_redis. Qed.
Lemma redis_insert_or_ignore {R} `{Table R} c r : preserves (on_redis I) (insert_or_ignore (R := R) c r).
Proof. solve_redis. Qed.
Lemma redis_upsert {R} `{Table R} c r f : preserves (on_redis I) (upsert (R := R) c r f).
Proof. solve_redis. Qed.
Lemma redis_delete {R} `{Table R} P : preserves (on_redis I) (delete_where (R := R) P).
Proof. solve_redis. Qed.
Lemma redis_now : preserves (on_redis I) now.
Proof. solve_redis. Qed.
Lemma redis_get_world : preserves (on_redis I) get_world.
Proof. solve_redis. Qed.
Lemma redis_uuid : preserves (on_redis I) gen_random_uuid.
Proof. solve_redis. Qed.
Lemma redis_hex : preserves (on_redis I) randomHex.
Proof. solve_redis. Qed.
Lemma redis_rget k : preserves (on_redis I) (rget k).
Proof. solve_redis. Qed.
Lemma redis_rpublish k j : preserves (on_redis I) (rpublish k j).
Proof. solve_redis. Qed.
Lemma redis_enqueue d q k j : preserves (on_redis I) (enqueue_in d q k j).
Proof. solve_redis. Qed.
Lemma redis_transaction {A} (m : M A) :
  preserves (on_redis I) m → preserves (on_redis I) (withTransaction m).
Proof.
  intros Hm w HI. unfold withTransaction. specialize (Hm w HI).
  by destruct (m w) as [[a|e] w'].
Qed.
Lemma redis_outbox o e ty i a p : preserves (on_redis I) (writeOutboxEvent o e ty i a p).
Proof.
  apply preserves_bind; [apply redis_uuid|intros id].
  apply preserves_bind; [apply redis_now|intros t']. apply redis_insert.
Qed.
Lemma redis_audit o a ty e et ei p : preserves (on_redis I) (persistAuditLog o a ty e et ei p).
Proof.
  apply preserves_bind; [apply redis_uuid|intros id].
  apply preserves_bind; [apply redis_now|intros t']. apply redis_insert.
Qed.
End redis_inv.

(** An invariant of one table together with the random draws made so far. *)
Definition tracked {R} `{Table R} (I : nat → list R → Prop) (w : World) : Prop :=
  I (draws w) (rows (db w)).

(** [m] does not write table [R]. *)
Definition untouched (R : Type) `{Table R} {A} (m : M A) : Prop :=
  (∀ I : list R → Prop, preserves (on_table I) m) ∧ (∀ n t up, preserves (ambient n t up) m).

Lemma preserves_untouched {R} `{Table R} (I : nat → list R → Prop) {A} (m : M A) :
  (∀ n n' l, n ≤ n' → I n l → I n' l) → untouched R m → preserves (tracked I) m.
Proof.
  intros Hmono [Ht Ha] w HI. unfold tracked in *.
  destruct (Ha (draws w) (clock w) (redis_up w) w) as (Hd & _ & _); [done|].
  pose proof (Ht (λ l, l = rows (db w)) w eq_refl) as E. unfold on_table in E. rewrite E. eauto.
Qed.

(** From a preserved invariant to the outcome of a run. *)
Lemma wp_preserves I {A} (m : M A) (Q : result A → World → Prop) w :
  preserves I m → I w → (∀ r w', I w' → Q r w') → wp m Q w.
Proof. intros Hm HI HQ. apply HQ. by apply Hm. Qed.

Lemma wp_then_ret I {A B} (m : M A) (b : B) w :
  preserves I m → I w → wp (bind m (λ _, ret b)) (λ r w', I w' ∧ ∀ b', r = Ok b' → b' = b) w.
Proof.
  intros Hm HI. specialize (Hm w HI). unfold wp, bind, ret.
  destruct (m w) as [[a|e] w']; naive_solver.
Qed.
End logic.

Create HintDb inv.
#[export] Hint Resolve preserves_ret preserves_throw preserves_bind preserves_catch
  preserves_if preserves_for_each preserves_update_other preserves_insert_other
  preserves_delete_other preserves_insert_unique_other preserves_insert_or_ignore_other
  preserves_upsert_other preserves_update_touch_other preserves_select_table preserves_select_one_table
  preserves_now_table preserves_uuid_table preserves_hex_table preserves_rget_table
  preserves_rset_table preserves_rdel_table preserves_rpublish_table
  preserves_get_world_table preserves_rset_nx_table preserves_enqueue_table
  preserves_transaction_table preserves_outbox_other
  preserves_audit_other : inv.
#[export] Hint Resolve ambient_select ambient_select_one ambient_update ambient_update_touch
  ambient_insert ambient_insert_unique ambient_insert_or_ignore ambient_upsert ambient_delete
  ambient_now ambient_get_world ambient_uuid ambient_hex ambient_rget ambient_rset ambient_rdel
  ambient_rset_nx ambient_rpublish ambient_enqueue ambient_transaction ambient_outbox
  ambient_audit : inv.
#[export] Hint Resolve redis_select redis_select_one redis_update redis_update_touch redis_insert
  redis_insert_unique redis_insert_or_ignore redis_upsert redis_delete redis_now redis_get_world
  redis_uuid redis_hex redis_rget redis_rpublish redis_enqueue redis_transaction redis_outbox
  redis_audit : inv.

(** Decomposes a goal [preserves I m] along the structure of [m]; leaves the
    statements on the invariant's own table. *)
Ltac preserve :=
  repeat (intros; match goal with
  | |- preserves _ (bind _ _) => apply preserves_bind
  | |- preserves _ (catch _ _) => apply preserves_catch
  | |- preserves _ (if _ then _ else _) => apply preserves_if
  | |- preserves _ (match ?x with _ => _ end) => destruct x
  | |- preserves _ (for_each _ _) => apply preserves_for_each
  | |- preserves _ (withTransaction _) =>
      first [apply preserves_transaction_table | apply ambient_transaction | apply redis_transaction]
  | |- preserves _ (let '_ := _ in _) => cbv zeta
  | |- preserves _ _ => solve [eauto with inv typeclass_instances]
  end).

(** Shows the tables by their names: [rows (db w)] as [tasks (db w)]. *)
Ltac tables :=
  repeat match goal with
  | |- context [@rows ?R ?T] =>
      let f := eval cbv beta iota delta [rows T] in (@rows R T) in
      progress change (@rows R T) with f
  | H : context [@rows ?R ?T] |- _ =>
      let f := eval cbv beta iota delta [rows T] in (@rows R T) in
      progress change (@rows R T) with f in H
  | |- context [@set_rows ?R ?T] =>
      let f := eval cbv beta iota delta [set_rows T] in (@set_rows R T) in
      progress change (@set_rows R T) with f
  end.

(** One step of a run that only draws, reads the clock or inserts. *)
Ltac step :=
  apply wp_bind; unfold wp at 1; cbn [gen_random_uuid randomHex now get_world insert_row fst snd].

(** Evaluates the operations at the head of a run, once their tests are
    known. *)
Ltac run :=
  cbn [bind ret throw catch now select select_one update_where update_touch insert_row
       gen_random_uuid randomHex get_world enqueue fst snd
       db redis jobs published clock draws redis_up upd] in *.
