(* ===== verification/Zod.v ===== *)
(** * Zod: the schemas of the routes and what a validated body is

    The routers check a body or a query with a [zod] schema and then read the
    result with a TypeScript cast.  [zod] is an interface: its combinators,
    [safeParse], and the documented shape of what each accepts.  A decoder is
    the reading of a cast; [Sound] says that it never fails on what a schema
    lets through, and its instances follow the combinators. *)
From S2P Require Import Prelude Schema World.
From Stdlib Require Import ZArith Lia Ascii.
From stdpp Require Import base tactics strings gmap list.

(** The refinements the routers use: [.min(n)], [.max(n)], [.uuid()],
    [.email()], [.url()], [.datetime()], [.regex(r)], [.int()],
    [.positive()]. *)
Inductive check :=
  | CMin (n : Z)
  | CMax (n : Z)
  | CUuid
  | CEmail
  | CUrl
  | CDatetime
  | CRegex (source : string)
  | CInt
  | CPositive.

(** [safeParse] takes a value, absent when it is [undefined], and answers the
    issues found or the value to use. *)
Class Zod := {
  (** [new RegExp(source).test(s)]. *)
  regex_test : string → string → bool;
  ZodType : Type;
  z_string : list check → ZodType;
  z_number : list check → ZodType;
  z_coerce_number : list check → ZodType;
  z_coerce_bigint : ZodType;
  z_boolean : ZodType;
  z_enum : list string → ZodType;
  z_record : ZodType;
  z_array : ZodType → list check → ZodType;
  z_nullable : ZodType → ZodType;
  z_optional : ZodType → ZodType;
  z_default : ZodType → json → ZodType;
  z_object : list (string * ZodType) → ZodType;
  safeParse : ZodType → option json → json + option json;
}.

(** *** Dates and times *)

Definition digit (c : ascii) : option Z :=
  let n := Z.of_nat (nat_of_ascii c) in
  if (48 <=? n)%Z && (n <=? 57)%Z then Some (n - 48)%Z else None.
Definition two (a b : ascii) : option Z := x ← digit a; y ← digit b; Some (10 * x + y)%Z.
Fixpoint number (s : string) (acc : Z) : option Z :=
  match s with
  | EmptyString => Some acc
  | String c s => match digit c with Some d => number s (acc * 10 + d) | None => None end
  end.

(** Days since the epoch of a date of the Gregorian calendar. *)
Definition days_from_civil (y m d : Z) : Z :=
  let y := if (m <=? 2)%Z then (y - 1)%Z else y in
  let era := (y / 400)%Z in
  let yoe := (y - era * 400)%Z in
  let doy := ((153 * (if (2 <? m)%Z then m - 3 else m + 9) + 2) / 5 + d - 1)%Z in
  let doe := (yoe * 365 + yoe / 4 - yoe / 100 + doy)%Z in
  (era * 146097 + doe - 719468)%Z.

(** What may follow the seconds: a fraction, of which the digits after the third
    are dropped, and the zone [Z]. *)
Definition fraction (s : string) : option Z :=
  match s with
  | String "Z" EmptyString => Some 0%Z
  | String "." rest =>
      let ds := String.substring 0 (String.length rest - 1) rest in
      if (String.substring (String.length rest - 1) 1 rest =? "Z")%string && negb (String.length rest =? 1)%nat then
        match number ds 0 with
        | Some _ => number (String.substring 0 3 (ds +:+ "00")) 0
        | None => None
        end
      else None
  | _ => None
  end.

(** What may follow the minutes: seconds and milliseconds, or the zone alone. *)
Definition seconds (s : string) : option (Z * Z) :=
  match s with
  | String "Z" EmptyString => Some (0, 0)%Z
  | String ":" (String a (String b rest)) => se ← two a b; ms ← fraction rest; Some (se, ms)
  | _ => None
  end.

(** The fields of ["YYYY-MM-DDTHH:MM"] and what follows them. *)
Record DateFields := mkDateFields { fd_y : Z; fd_m : Z; fd_d : Z; fd_h : Z; fd_mi : Z; fd_rest : string }.
Definition datetime_fields (s : string) : option DateFields :=
  match s with
  | String y1 (String y2 (String y3 (String y4 (String "-" (String m1 (String m2 (String "-" (String d1 (String d2
      (String "T" (String h1 (String h2 (String ":" (String i1 (String i2 rest))))))))))))))) =>
      a ← two y1 y2; b ← two y3 y4; m ← two m1 m2; d ← two d1 d2; h ← two h1 h2; mi ← two i1 i2;
      Some (mkDateFields (100 * a + b) m d h mi rest)
  | _ => None
  end.

Definition between (lo x hi : Z) : bool := (lo <=? x)%Z && (x <=? hi)%Z.
Definition leap (y : Z) : bool := ((y mod 4 =? 0) && (negb (y mod 100 =? 0) || (y mod 400 =? 0)))%Z.
Definition days_in_month (y m : Z) : Z :=
  if (m =? 2)%Z then (if leap y then 29 else 28)%Z
  else if (m =? 4)%Z || (m =? 6)%Z || (m =? 9)%Z || (m =? 11)%Z then 30%Z else 31%Z.

(** What [.datetime()] documents: a day of the calendar, a time of the day with
    its minutes, seconds and a fraction of any precision if it likes, and the
    zone [Z]. *)
Definition is_datetime (s : string) : bool :=
  match datetime_fields s with
  | Some (mkDateFields y m d h mi rest) =>
      between 1 m 12 && between 1 d (days_in_month y m) && between 0 h 23 && between 0 mi 59 &&
      match seconds rest with Some (se, _) => between 0 se 59 | None => false end
  | None => false
  end.

(** [new Date(s)] of such a text, in milliseconds; none for an invalid date. *)
Definition parse_date (s : string) : option Z :=
  match datetime_fields s with
  | Some (mkDateFields y m d h mi rest) =>
      match seconds rest with
      | Some (se, ms) =>
          if between 1 m 12 && between 1 d 31 && between 0 h 23 && between 0 mi 59 && between 0 se 59
          then Some ((((days_from_civil y m d * 24 + h) * 60 + mi) * 60 + se) * 1000 + ms)%Z
          else None
      | None => None
      end
  | None => None
  end.

(** A text that [.datetime()] lets through is a valid date. *)
Lemma datetime_parses s : is_datetime s = true → is_Some (parse_date s).
Proof.
  unfold is_datetime, parse_date. destruct (datetime_fields s) as [[y m d h mi rest]|]; [|done].
  destruct (seconds rest) as [[se ms]|]; [|by rewrite andb_false_r].
  intros [[[[Hm Hd]%andb_true_iff Hh]%andb_true_iff Hi]%andb_true_iff Hs]%andb_true_iff.
  assert (Hd31 : between 1 d 31 = true).
  { unfold between in *. apply andb_true_iff in Hd as [-> Hd%Z.leb_le]. apply Z.leb_le.
    unfold days_in_month in Hd. repeat case_match; lia. }
  rewrite Hm, Hd31, Hh, Hi, Hs. by eexists.
Qed.

Example a_date : parse_date "2024-02-29T12:30:05.25Z" = Some 1709209805250%Z.
Proof. vm_compute. reflexivity. Qed.
(** Without seconds, on a day that is none, and without a zone. *)
Example dates_at_the_edges :
  is_datetime "2024-02-29T12:30Z" = true ∧ parse_date "2024-02-29T12:30Z" = Some 1709209800000%Z ∧
  is_datetime "2023-02-29T12:30:00Z" = false ∧ is_datetime "2024-05-01T10:00" = false ∧
  is_datetime "2024-05-01T10:00:00.123456Z" = true ∧ is_datetime "2024-05-01T24:00:00Z" = false.
Proof. vm_compute. done. Qed.
Example a_date_back : iso_date (parse_date "2024-02-29T12:30:05.25Z" ?? 0%Z) = "2024-02-29"%string.
Proof. vm_compute. reflexivity. Qed.

(** [s.length], the UTF-16 code units of a text kept as UTF-8, and its
    characters. *)
Fixpoint code_units (s : string) : Z :=
  match s with
  | EmptyString => 0
  | String c s =>
      let n := nat_of_ascii c in
      ((if (n <? 128)%nat then 1 else if (n <? 192)%nat then 0 else if (n <? 240)%nat then 1 else 2) + code_units s)%Z
  end.
Fixpoint code_points (s : string) : Z :=
  match s with
  | EmptyString => 0
  | String c s =>
      let n := nat_of_ascii c in ((if (n <? 128)%nat then 1 else if (n <? 192)%nat then 0 else 1) + code_points s)%Z
  end.
Lemma code_points_bounds s : (0 ≤ code_points s ≤ code_units s ∧ code_units s ≤ 2 * code_points s)%Z.
Proof.
  induction s as [|c s IH]; cbn [code_points code_units]; [lia|].
  repeat match goal with |- context [(nat_of_ascii c <? ?n)%nat] => destruct (nat_of_ascii c <? n)%nat end; lia.
Qed.
Example code_units_beyond_ascii : code_units "é€😀" = 4%Z ∧ code_points "é€😀" = 3%Z.
Proof. split; reflexivity. Qed.

(** What a text that passed its refinements satisfies; the formats of
    identifiers and addresses are the library's. *)
Definition string_ok `{Zod} (c : check) (s : string) : Prop :=
  match c with
  | CMin n => (n ≤ code_units s)%Z
  | CMax n => (code_units s ≤ n)%Z
  | CDatetime => is_datetime s = true
  | CRegex source => regex_test source s = true
  | _ => True
  end.

(** What a number that passed its refinements satisfies. *)
Definition number_ok (c : check) (n : Z) : Prop :=
  match c with
  | CMin m => (m ≤ n)%Z
  | CMax m => (n ≤ m)%Z
  | CPositive => (0 < n)%Z
  | _ => True
  end.

(** What [safeParse] answers when it succeeds. *)
Class ZodLaws (Z0 : Zod) : Prop := {
  z_string_ok : ∀ cs v u, safeParse (z_string cs) v = inr u →
    ∃ s, v = Some (JStr s) ∧ u = Some (JStr s) ∧ Forall (λ c, string_ok c s) cs;
  z_number_ok : ∀ cs v u, safeParse (z_number cs) v = inr u →
    ∃ n, v = Some (JNum n) ∧ u = Some (JNum n) ∧ Forall (λ c, number_ok c n) cs;
  z_coerce_number_ok : ∀ cs v u, safeParse (z_coerce_number cs) v = inr u →
    ∃ n, u = Some (JNum n) ∧ Forall (λ c, number_ok c n) cs;
  z_coerce_bigint_ok : ∀ v u, safeParse z_coerce_bigint v = inr u → ∃ n, u = Some (JNum n);
  z_boolean_ok : ∀ v u, safeParse z_boolean v = inr u → ∃ b, v = Some (JBool b) ∧ u = Some (JBool b);
  z_enum_ok : ∀ l v u, safeParse (z_enum l) v = inr u → ∃ s, v = Some (JStr s) ∧ u = Some (JStr s) ∧ s ∈ l;
  z_record_ok : ∀ v u, safeParse z_record v = inr u → ∃ fs, v = Some (JObj fs) ∧ u = Some (JObj fs);
  z_array_ok : ∀ s cs v u, safeParse (z_array s cs) v = inr u →
    ∃ l l', v = Some (JArr l) ∧ u = Some (JArr l') ∧
      Forall2 (λ j j', safeParse s (Some j) = inr (Some j')) l l' ∧
      Forall (λ c, number_ok c (Z.of_nat (length l))) cs;
  z_nullable_ok : ∀ s v u, safeParse (z_nullable s) v = inr u → (v = Some JNull ∧ u = Some JNull) ∨ safeParse s v = inr u;
  z_optional_ok : ∀ s v u, safeParse (z_optional s) v = inr u → (v = None ∧ u = None) ∨ safeParse s v = inr u;
  z_default_ok : ∀ s j v u, safeParse (z_default s j) v = inr u → (v = None ∧ u = Some j) ∨ safeParse s v = inr u;
  (** A key that the schema does not name is dropped. *)
  z_object_ok : ∀ fs v u, NoDup fs.*1 → safeParse (z_object fs) v = inr u →
    ∃ kv out, v = Some (JObj kv) ∧ u = Some (JObj out) ∧
      Forall (λ f, safeParse f.2 (jfield f.1 kv) = inr (jfield f.1 out)) fs ∧
      ∀ k, k ∉ fs.*1 → jfield k out = None;
}.

(** ** Decoders *)

Definition as_string (j : json) : option string := match j with JStr s => Some s | _ => None end.
Definition as_number (j : json) : option Z := match j with JNum n => Some n | _ => None end.
Definition as_boolean (j : json) : option bool := match j with JBool b => Some b | _ => None end.
(** [Record<string, unknown>]. *)
Definition as_record (j : json) : option json := match j with JObj _ => Some j | _ => None end.
Definition as_array {A} (d : json → option A) (j : json) : option (list A) :=
  match j with JArr l => mapM d l | _ => None end.
Definition as_nullable {A} (d : json → option A) (j : json) : option (option A) :=
  match j with JNull => Some None | _ => Some <$> d j end.
(** [new Date(s)]. *)
Definition as_date (j : json) : option Z := as_string j ≫= parse_date.
(** A member of a union of literals, which [f] reads. *)
Definition as_enum {A} (f : string → option A) (j : json) : option A := as_string j ≫= f.

(** [body.k], and [body.k] of a field that may be [undefined]. *)
Definition required {A} (k : string) (d : json → option A) (body : json) : option A := jget k body ≫= d.
Definition optional {A} (k : string) (d : json → option A) (body : json) : option (option A) :=
  match jget k body with Some j => Some <$> d j | None => Some None end.

(** The member of a union of literals that [str] writes as [s]. *)
Definition literal {A} (str : A → string) (l : list A) (s : string) : option A :=
  List.find (λ x, (str x =? s)%string) l.

(** [a?.b ?? null] of a field that may be absent or null. *)
Definition nullish {A} (o : option (option A)) : option A := mjoin o.

(** ** Decoders that never fail on validated values *)

Section sound.
Context `{Z0 : Zod, !ZodLaws Z0}.

Class Sound {A} (s : ZodType) (d : json → option A) : Prop :=
  sound : ∀ v u, safeParse s v = inr u → ∃ j, u = Some j ∧ is_Some (d j).
(** The same of a schema that may answer [undefined]. *)
Class SoundOpt {A} (s : ZodType) (d : json → option A) : Prop :=
  sound_opt : ∀ v u, safeParse s v = inr u → ∀ j, u = Some j → is_Some (d j).

#[export] Instance sound_string cs : Sound (z_string cs) as_string.
Proof. intros v u (s & _ & -> & _)%z_string_ok. eexists. by split; [|eexists]. Qed.

#[export] Instance sound_date : Sound (z_string [CDatetime]) as_date.
Proof. intros v u (s & _ & -> & Hs)%z_string_ok. eexists. split; [done|].
  by apply datetime_parses, (Forall_inv Hs). Qed.

#[export] Instance sound_number cs : Sound (z_number cs) as_number.
Proof. intros v u (n & _ & -> & _)%z_number_ok. eexists. by split; [|eexists]. Qed.

#[export] Instance sound_coerce_number cs : Sound (z_coerce_number cs) as_number.
Proof. intros v u (n & -> & _)%z_coerce_number_ok. eexists. by split; [|eexists]. Qed.

#[export] Instance sound_coerce_bigint : Sound z_coerce_bigint as_number.
Proof. intros v u (n & ->)%z_coerce_bigint_ok. eexists. by split; [|eexists]. Qed.

#[export] Instance sound_boolean : Sound z_boolean as_boolean.
Proof. intros v u (b & _ & ->)%z_boolean_ok. eexists. by split; [|eexists]. Qed.

#[export] Instance sound_record : Sound z_record as_record.
Proof. intros v u (fs & _ & ->)%z_record_ok. eexists. by split; [|eexists]. Qed.

Lemma sound_enum {A} (f : string → option A) l : forallb (λ s, negb (is_null (f s))) l = true → Sound (z_enum l) (as_enum f).
Proof.
  intros Hf v u (s & _ & -> & Hs'%list_elem_of_In)%z_enum_ok. eexists. split; [done|]. unfold as_enum. cbn.
  apply (proj1 (List.forallb_forall _ _) Hf), negb_true_iff in Hs'. destruct (f s) as [x|]; [by eexists|done].
Qed.

#[export] Instance sound_enum_string l : Sound (z_enum l) as_string.
Proof. intros v u (s & _ & -> & _)%z_enum_ok. eexists. by split; [|eexists]. Qed.

#[export] Instance sound_array {A} s cs (d : json → option A) : Sound s d → Sound (z_array s cs) (as_array d).
Proof.
  intros Hd v u (l & l' & _ & -> & Hl & _)%z_array_ok. eexists. split; [done|]. cbn.
  apply mapM_is_Some. apply Forall_forall. intros j' [i Hi]%list_elem_of_lookup.
  destruct (Forall2_lookup_r _ _ _ _ _ Hl Hi) as (j & _ & E). destruct (Hd _ _ E) as (j2 & [= <-] & Hj). done.
Qed.

#[export] Instance sound_nullable {A} s (d : json → option A) : Sound s d → Sound (z_nullable s) (as_nullable d).
Proof.
  intros Hd v u [[_ ->]|E]%z_nullable_ok; [eexists; by split; [|eexists]|].
  destruct (Hd _ _ E) as (j & -> & x & Hx). eexists. split; [done|]. unfold as_nullable.
  destruct j; rewrite ?Hx; by eexists.
Qed.

Lemma sound_default {A} s j (d : json → option A) x : Sound s d → d j = Some x → Sound (z_default s j) d.
Proof.
  intros Hd Hj v u [[_ ->]|E]%z_default_ok; [|by apply (Hd v)].
  eexists. split; [done|]. by eexists.
Qed.

#[export] Instance sound_opt_optional {A} s (d : json → option A) : Sound s d → SoundOpt (z_optional s) d.
Proof. intros Hd v u [[_ ->]|E]%z_optional_ok j Ej; [done|]. destruct (Hd _ _ E) as (j' & -> & ?). by simplify_eq. Qed.

Lemma bind_is_Some {A B} (m : option A) (k : A → option B) :
  is_Some m → (∀ x, is_Some (k x)) → is_Some (m ≫= k).
Proof. intros [x ->] Hk. apply Hk. Qed.

Lemma required_ok {A} k s (d : json → option A) v body :
  safeParse s v = inr (jget k body) → Sound s d → is_Some (required k d body).
Proof. intros E Hd. destruct (Hd _ _ E) as (j & Ej & Hj). unfold required. by rewrite Ej. Qed.

Lemma optional_ok {A} k s (d : json → option A) v body :
  safeParse s v = inr (jget k body) → SoundOpt s d → is_Some (optional k d body).
Proof.
  intros E Hd. unfold optional. destruct (jget k body) as [j|] eqn:Ej; [|by eexists].
  destruct (Hd _ _ E j eq_refl) as [x ->]. by eexists.
Qed.

(** A key the schema does not name is absent. *)
Lemma optional_absent {A} k (d : json → option A) body : jget k body = None → optional k d body = Some None.
Proof. intros E. unfold optional. by rewrite E. Qed.

(** The decoder of an object is sound when it is on the fields the schema
    names, each with what its schema lets through, and no others. *)
Lemma sound_object {A} fs (d : json → option A) :
  NoDup fs.*1 →
  (∀ body, Forall (λ f, ∃ v, safeParse f.2 v = inr (jget f.1 body)) fs →
    (∀ k, existsb (String.eqb k) fs.*1 = false → jget k body = None) → is_Some (d body)) →
  Sound (z_object fs) d.
Proof.
  intros Hnd Hd v u (kv & out & _ & -> & Hf & Hn)%(z_object_ok _ _ _ Hnd). eexists. split; [done|].
  apply Hd; [eapply Forall_impl; [exact Hf|]; intros f E; eexists; exact E|].
  intros k Hk. apply Hn. intros Hin. apply not_true_iff_false in Hk. apply Hk, existsb_exists. exists k.
  by rewrite String.eqb_refl, <- list_elem_of_In.
Qed.
End sound.

#[export] Hint Extern 1 (Sound (z_enum _) (as_enum _)) => apply sound_enum; reflexivity : typeclass_instances.
#[export] Hint Extern 1 (Sound (z_default _ _) _) => eapply sound_default; [apply _|reflexivity] : typeclass_instances.

(** Unfolds a cast into its fields and discharges each by its schema. *)
Ltac fields :=
  repeat match goal with
  | H : Forall _ (_ :: _) |- _ => apply Forall_cons in H; destruct H as [[? ?] H]
  | H : Forall _ [] |- _ => clear H
  end; cbn [fst snd] in *.
Ltac solve_fields :=
  repeat first
    [ apply bind_is_Some; [first [eapply required_ok | eapply optional_ok]; [eassumption|apply _]|intros ?]
    | match goal with Habsent : ∀ k, _ = false → _ |- is_Some (optional ?k ?d ?body ≫= _) =>
        rewrite (optional_absent k d body) by (apply Habsent; reflexivity); cbn [mbind option_bind]
      end
    | by eexists ].
Ltac solve_cast :=
  apply sound_object;
  [ apply (bool_decide_unpack _); vm_compute; reflexivity
  | intros ? ? Habsent; fields;
    lazymatch goal with |- is_Some ?t => let t' := eval red in t in change (is_Some t') end;
    solve_fields ].

(** ** An instance *)

(** Schemas as data, and their parser. *)
Module ConcreteZod.

Inductive schema :=
  | SString (cs : list check)
  | SNumber (cs : list check)
  | SCoerce (cs : list check)
  | SBigint
  | SBoolean
  | SEnum (l : list string)
  | SRecord
  | SArray (s : schema) (cs : list check)
  | SNullable (s : schema)
  | SOptional (s : schema)
  | SDefault (s : schema) (j : json)
  | SObject (fs : list (string * schema)).

(** A date is matched; the other texts are only measured. *)
Definition string_check (s : string) (c : check) : bool :=
  match c with
  | CMin n => (n <=? code_units s)%Z
  | CMax n => (code_units s <=? n)%Z
  | CDatetime => is_datetime s
  | CUuid | CEmail | CUrl => truthy s
  | _ => true
  end.
Definition number_check (n : Z) (c : check) : bool :=
  match c with
  | CMin m => (m <=? n)%Z
  | CMax m => (n <=? m)%Z
  | CPositive => (0 <? n)%Z
  | _ => true
  end.

Definition issue (message : string) : json + option json := inl (JArr [JStr message]).
Definition guard (b : bool) (j : json) : json + option json := if b then inr (Some j) else issue "invalid".

Definition coerced (v : option json) : option Z :=
  match v with Some (JNum n) => Some n | Some (JStr s) => number s 0 | _ => None end.

Fixpoint parse (s : schema) (v : option json) : json + option json :=
  match s with
  | SString cs => match v with Some (JStr t) => guard (forallb (string_check t) cs) (JStr t) | _ => issue "string" end
  | SNumber cs => match v with Some (JNum n) => guard (forallb (number_check n) cs) (JNum n) | _ => issue "number" end
  | SCoerce cs => match coerced v with Some n => guard (forallb (number_check n) cs) (JNum n) | None => issue "number" end
  | SBigint => match coerced v with Some n => inr (Some (JNum n)) | None => issue "bigint" end
  | SBoolean => match v with Some (JBool b) => inr (Some (JBool b)) | _ => issue "boolean" end
  | SEnum l => match v with Some (JStr t) => guard (existsb (String.eqb t) l) (JStr t) | _ => issue "enum" end
  | SRecord => match v with Some (JObj fs) => inr (Some (JObj fs)) | _ => issue "record" end
  | SArray s cs =>
      match v with
      | Some (JArr l) =>
          let items := (fix items (l : list json) : option (list json) :=
            match l with
            | [] => Some []
            | j :: l => match parse s (Some j), items l with inr (Some j'), Some l' => Some (j' :: l') | _, _ => None end
            end) l in
          match items with
          | Some l' => guard (forallb (number_check (Z.of_nat (length l))) cs) (JArr l')
          | None => issue "array"
          end
      | _ => issue "array"
      end
  | SNullable s => match v with Some JNull => inr (Some JNull) | _ => parse s v end
  | SOptional s => match v with None => inr None | _ => parse s v end
  | SDefault s j => match v with None => inr (Some j) | _ => parse s v end
  | SObject fs =>
      match v with
      | Some (JObj kv) =>
          let entries := (fix entries (fs : list (string * schema)) : option (list (string * json)) :=
            match fs with
            | [] => Some []
            | (k, s) :: fs =>
                match parse s (jfield k kv), entries fs with
                | inr (Some j), Some out => Some ((k, j) :: out)
                | inr None, Some out => Some out
                | _, _ => None
                end
            end) fs in
          match entries with Some out => inr (Some (JObj out)) | None => issue "object" end
      | _ => issue "object"
      end
  end.

#[export] Instance zod : Zod := {|
  regex_test _ _ := true;
  ZodType := schema;
  z_string := SString; z_number := SNumber; z_coerce_number := SCoerce; z_coerce_bigint := SBigint;
  z_boolean := SBoolean; z_enum := SEnum; z_record := SRecord; z_array := SArray;
  z_nullable := SNullable; z_optional := SOptional; z_default := SDefault; z_object := SObject;
  safeParse := parse
|}.

Lemma guard_ok b j u : guard b j = inr u → b = true ∧ u = Some j.
Proof. destruct b; [by intros [= <-]|done]. Qed.

Lemma number_checks n cs : forallb (number_check n) cs = true → Forall (λ c, number_ok c n) cs.
Proof.
  intros Hcs. apply Forall_forall. intros c Hc%list_elem_of_In. apply (proj1 (List.forallb_forall _ _) Hcs) in Hc.
  destruct c; cbn in *; try done; by apply Z.leb_le || by apply Z.ltb_lt.
Qed.

Lemma string_checks s cs : forallb (string_check s) cs = true → Forall (λ c, string_ok c s) cs.
Proof.
  intros Hcs. apply Forall_forall. intros c Hc%list_elem_of_In. apply (proj1 (List.forallb_forall _ _) Hcs) in Hc.
  destruct c; cbn in *; try done; by apply Z.leb_le.
Qed.

#[export] Instance zod_laws : ZodLaws zod.
Proof.
  split; cbn [safeParse zod z_string z_number z_coerce_number z_coerce_bigint z_boolean z_enum z_record z_array
    z_nullable z_optional z_default z_object].
  - intros cs [[]|] u; cbn; try done. intros [Hcs ->]%guard_ok. eexists. repeat split. by apply string_checks.
  - intros cs [[]|] u; cbn; try done. intros [Hcs ->]%guard_ok. eexists. repeat split. by apply number_checks.
  - intros cs v u. cbn. destruct (coerced v); [|done]. intros [Hcs ->]%guard_ok. eexists. split; [done|]. by apply number_checks.
  - intros v u. cbn. destruct (coerced v); [|done]. intros [= <-]. by eexists.
  - intros [[]|] u; cbn; try done. intros [= <-]. by eexists.
  - intros l [[]|] u; cbn; try done. intros [(x & Hx & ->%String.eqb_eq)%existsb_exists ->]%guard_ok.
    eexists. repeat split. by apply list_elem_of_In.
  - intros [[]|] u; cbn; try done. intros [= <-]. by eexists.
  - intros s cs [[]|] u; cbn; try done. destruct (_ l) as [l'|] eqn:El; [|done]. intros [Hcs ->]%guard_ok.
    exists l, l'. split_and!; [done..| |by apply number_checks]. clear Hcs. revert l' El.
    induction l as [|j l IH]; intros l' El; cbn in El; [by injection El as <-|].
    destruct (parse s (Some j)) as [|[j'|]] eqn:Ej; [done| |done]. destruct (_ l) as [l2|]; [|done].
    injection El as <-. constructor; [done|]. by apply IH.
  - intros s v u. cbn. destruct v as [[]|]; intros E; try (by right). left. by injection E as <-.
  - intros s v u. cbn. destruct v; intros E; [by right|]. left. by injection E as <-.
  - intros s j v u. cbn. destruct v; intros E; [by right|]. left. by injection E as <-.
  - intros fs [[]|] u Hnd; cbn; try done. destruct (_ fs) as [out|] eqn:Eo; [|done]. intros [= <-].
    exists fields, out. split; [done|]. split; [done|]. revert out Eo.
    induction fs as [|[k s] fs IH]; intros out Eo; cbn in Eo; [injection Eo as <-; by split|].
    rewrite fmap_cons, NoDup_cons in Hnd. destruct Hnd as [Hk Hnd]. specialize (IH Hnd).
    destruct (parse s (jfield k fields)) as [|u] eqn:Ej; [done|].
    match type of Eo with context [?e fs] => destruct (e fs) as [out'|] end; [|by destruct u].
    destruct (IH out' eq_refl) as [Hf Hn].
    assert (Hne : ∀ f, f ∈ fs → f.1 ≠ k) by (intros f Hin Ef; apply Hk; cbn; rewrite <- Ef; by apply (list_elem_of_fmap_2 fst)).
    rewrite Forall_forall in Hf. destruct u as [j|]; injection Eo as <-; cbn [fst snd list_fmap fmap].
    + split; [constructor; [cbn; by rewrite String.eqb_refl|]|].
      * apply Forall_forall. intros [k1 s1] Hin. specialize (Hne _ Hin). specialize (Hf _ Hin). cbn in *. apply String.eqb_neq in Hne.
        by rewrite Hne.
      * intros k' [Hk' Hin]%not_elem_of_cons. cbn. apply String.eqb_neq in Hk'. rewrite Hk'. by apply Hn.
    + split; [constructor; [cbn; by rewrite Hn|by apply Forall_forall]|].
      intros k' [_ Hin]%not_elem_of_cons. by apply Hn.
Qed.
End ConcreteZod.
