(* ===== verification/Crypto.v ===== *)
(** * Crypto: cryptographic services, and the program's own encoding

    The primitives the program calls (Node's [crypto], [bcryptjs],
    [jsonwebtoken]) and its configuration ([shared/config.ts]) are
    interfaces, with what the program relies on as laws.  The functions of
    [shared/crypto/index.ts] and of [auth/utils] are modelled over them. *)
From S2P Require Import Prelude Schema World.
From Stdlib Require Import ZArith Lia Ascii.
From stdpp Require Import base tactics strings gmap list.

Class Config := {
  jwtPrivateKey : string;
  jwtPublicKey : string;
  jwtAccessTokenTtl : Z;
  encryptionKey : string;
  inviteSecret : string;
  razorpayKeySecret : string;
  razorpayWebhookSecret : string;
}.

(** [jwtAccessTokenTtl: z.coerce.number().int().positive()]. *)
Class ConfigLaws (C : Config) : Prop := {
  jwtAccessTokenTtl_pos : (0 < jwtAccessTokenTtl)%Z;
}.

Class Crypto := {
  sha256_hex : string → string;
  hmac_sha256_hex : string → string → string;
  base64 : string → string;
  unbase64 : string → string;
  (** [aes_seal key iv plaintext] is the ciphertext and the tag. *)
  aes_seal : string → string → string → string * string;
  aes_open : string → string → string → string → option string;
  (** [bcrypt_hash salt plain]. *)
  bcrypt_hash : string → string → string;
  bcrypt_compare : string → string → bool;
  jwt_token : Type;
  (** [jwt_sign key kid payload], and the verification of a token with a
      public key at a time in seconds. *)
  jwt_sign : string → string → json → jwt_token;
  jwt_kid : jwt_token → option string;
  jwt_decode : jwt_token → option json;
  jwt_verify : string → jwt_token → Z → option json;
}.

(** String, number and boolean fields of a JSON object. *)
Definition jstr (k : string) (j : json) : option string :=
  match jget k j with Some (JStr s) => Some s | _ => None end.
Definition jnum (k : string) (j : json) : option Z :=
  match jget k j with Some (JNum n) => Some n | _ => None end.
Definition jbool (k : string) (j : json) : option bool :=
  match jget k j with Some (JBool b) => Some b | _ => None end.

(** The seconds at which the token of a payload expires. *)
Definition expiry (payload : json) : option Z :=
  jnum "exp" payload.

(** SHA-256 has no collisions among the tokens; AES-GCM and bcrypt accept
    what they produced; a token verifies until it expires. *)
Class CryptoLaws (K : Crypto) (C : Config) : Prop := {
  sha256_hex_inj : ∀ s t, sha256_hex s = sha256_hex t → s = t;
  unbase64_base64 : ∀ s, unbase64 (base64 s) = s;
  base64_no_colon : ∀ s, ":"%char ∉ String.list_ascii_of_string (base64 s);
  aes_open_seal : ∀ k iv p, let '(c, t) := aes_seal k iv p in aes_open k iv c t = Some p;
  bcrypt_compare_hash : ∀ salt p, bcrypt_compare p (bcrypt_hash salt p) = true;
  jwt_kid_sign : ∀ kid payload, jwt_kid (jwt_sign jwtPrivateKey kid payload) = Some kid;
  jwt_decode_sign : ∀ kid payload, jwt_decode (jwt_sign jwtPrivateKey kid payload) = Some payload;
  jwt_verify_sign : ∀ kid payload t e,
    expiry payload = Some e → (t < e)%Z →
    jwt_verify jwtPublicKey (jwt_sign jwtPrivateKey kid payload) t = Some payload;
  jwt_verify_expired : ∀ kid payload t e,
    expiry payload = Some e → (e ≤ t)%Z →
    jwt_verify jwtPublicKey (jwt_sign jwtPrivateKey kid payload) t = None;
}.

(** [s.split(c)]. *)
Fixpoint split_on (c : ascii) (s : string) : list string :=
  match s with
  | EmptyString => [""%string]
  | String a s =>
      if Ascii.eqb a c then ""%string :: split_on c s
      else match split_on c s with
           | p :: ps => String a p :: ps
           | [] => [String a ""]
           end
  end.

Section crypto.
Context `{Redis, Random, Config, Crypto}.

(** [v1:{b64_iv}:{b64_ciphertext}:{b64_authTag}]. *)
Definition encrypt (plaintext : string) : M string :=
  let* iv := randomHex in
  let '(c, t) := aes_seal encryptionKey iv plaintext in
  ret ("v1:" +:+ base64 iv +:+ ":" +:+ base64 c +:+ ":" +:+ base64 t).

Definition decrypt (ciphertext : string) : M string :=
  match split_on ":" ciphertext with
  | [_; iv; enc; tag] =>
      match aes_open encryptionKey (unbase64 iv) (unbase64 enc) (unbase64 tag) with
      | Some p => ret p
      | None => throw (PlainError "Unsupported state or unable to authenticate data")
      end
  | _ => throw (PlainError "Invalid ciphertext format")
  end.

Definition hashToken (token : string) : string := sha256_hex token.
Definition hmac (data secret : string) : string := hmac_sha256_hex data secret.

(** Equality of the bytes; the time it takes is not modelled. *)
Definition timingSafeEqual (a b : string) : bool := String.eqb a b.

Definition generateSecureToken : M string := randomHex.

(** *** Passwords *)

Definition hashPassword (plain : string) : M string :=
  let* salt := randomHex in ret (bcrypt_hash salt plain).
Definition verifyPassword (plain hash : string) : bool := bcrypt_compare plain hash.
End crypto.

Section round_trip.
Context `{Redis, Random, C : Config, K : Crypto, !CryptoLaws K C}.

Lemma split_cons a c s :
  split_on c (String a s) =
  if Ascii.eqb a c then ""%string :: split_on c s
  else match split_on c s with p :: ps => String a p :: ps | [] => [String a ""] end.
Proof. done. Qed.

Lemma split_app c s t :
  c ∉ String.list_ascii_of_string s → split_on c (s +:+ String c t) = s :: split_on c t.
Proof.
  induction s as [|a s IH]; intros Hc.
  - change ("" +:+ String c t) with (String c t). by rewrite split_cons, Ascii.eqb_refl.
  - cbn in Hc. apply not_elem_of_cons in Hc as [Ha Hs].
    change (String a s +:+ String c t) with (String a (s +:+ String c t)). rewrite split_cons.
    destruct (Ascii.eqb_spec a c); [congruence|]. by rewrite IH.
Qed.

Lemma split_last c s : c ∉ String.list_ascii_of_string s → split_on c s = [s].
Proof.
  induction s as [|a s IH]; intros Hc; cbn [split_on]; [done|].
  cbn in Hc. apply not_elem_of_cons in Hc as [Ha Hs].
  destruct (Ascii.eqb_spec a c); [congruence|]. by rewrite IH.
Qed.

Lemma encrypt_run plaintext w :
  ∃ ciphertext, encrypt plaintext w = (Ok ciphertext, w <| draws := S (draws w) |>) ∧
    ∀ w', decrypt ciphertext w' = (Ok plaintext, w').
Proof.
  unfold encrypt, bind, randomHex. pose proof (aes_open_seal encryptionKey (random_hex (draws w)) plaintext) as Ho.
  destruct (aes_seal _ _ _) as [c t]. eexists. split; [reflexivity|]. intros w'.
  unfold decrypt.
  change ("v1:" +:+ base64 (random_hex (draws w)) +:+ ":" +:+ base64 c +:+ ":" +:+ base64 t) with
    ("v1" +:+ String ":" (base64 (random_hex (draws w)) +:+ String ":" (base64 c +:+ String ":" (base64 t)))).
  rewrite (split_app ":" "v1") by (cbn; set_solver).
  rewrite !(split_app ":" (base64 _)), (split_last ":" (base64 _)) by apply base64_no_colon.
  by rewrite !unbase64_base64, Ho.
Qed.

(** C7: a secret that was encrypted decrypts to itself: the four fields of
    the ciphertext are told apart, whatever the secret. *)
Theorem decrypt_encrypt plaintext w :
  ∃ ciphertext w', encrypt plaintext w = (Ok ciphertext, w') ∧
    decrypt ciphertext w' = (Ok plaintext, w').
Proof. destruct (encrypt_run plaintext w) as (c & E & Hd). eauto. Qed.
End round_trip.
