(* ===== verification/Concrete.v ===== *)
(** * Concrete: services the examples run on

    An instance of every service interface, with its laws, on which the
    examples of the other files evaluate: a Redis that is a finite map from
    keys to values with their expiry, random draws that are numbered, and
    toy cryptography (a hash that is a prefix, tokens that are their payload)
    with the laws that the real one is trusted for. *)
From S2P Require Import Prelude Schema World Crypto.
From Stdlib Require Import ZArith Lia Ascii.
From stdpp Require Import base tactics strings gmap list pretty.

Module Concrete.

(** Strings, hashes and sorted sets, by key; strings and sorted sets with
    their expiry. *)
Record store := mkStore {
  strings : gmap string (rvalue * option Z);
  hashes : gmap (string * string) rvalue;
  zsets : gmap string (gmap string Z * option Z)
}.
#[export] Instance eta_store : Eta store := fun r => mkStore (strings r) (hashes r) (zsets r).

Definition live {A} (t : Z) (e : A * option Z) : option A :=
  match e.2 with
  | None => Some e.1
  | Some x => if (t <? x)%Z then Some e.1 else None
  end.

#[export] Instance redis : Redis := {|
  redis_store := store;
  redis_empty := mkStore ∅ ∅ ∅;
  redis_get r t k := strings r !! k ≫= live t;
  redis_set r t k v ex := r <| strings := <[k := (v, (λ s, t + s * 1000)%Z <$> ex)]> (strings r) |>;
  redis_del r k := r <| strings := delete k (strings r) |>;
|}.

#[export] Instance redis_laws : RedisLaws redis.
Proof.
  split; cbn; intros.
  - by rewrite lookup_empty.
  - by rewrite lookup_insert_eq.
  - rewrite lookup_insert_eq. unfold live; cbn.
    destruct (Z.ltb_spec t' (t + ttl * 1000)); [done|lia].
  - rewrite lookup_insert_eq. unfold live; cbn.
    destruct (Z.ltb_spec t' (t + ttl * 1000)); [lia|done].
  - by rewrite lookup_insert_ne.
  - by rewrite lookup_delete_eq.
  - by rewrite lookup_delete_ne.
Qed.

#[export] Instance redis_hash : RedisHash := {|
  redis_hget r k f := hashes r !! (k, f);
  redis_hset r k f v := r <| hashes := <[(k, f) := v]> (hashes r) |>;
  redis_hdel r k f := r <| hashes := delete (k, f) (hashes r) |>;
|}.

#[export] Instance redis_hash_laws : RedisHashLaws redis_hash.
Proof.
  split; cbn; intros; try done.
  - by rewrite lookup_insert_eq.
  - rewrite lookup_insert_ne; congruence.
  - by rewrite lookup_delete_eq.
  - rewrite lookup_delete_ne; congruence.
Qed.

(** The members of a sorted set that has not expired. *)
Definition zscores (r : store) (t : Z) (k : string) : gmap string Z :=
  (zsets r !! k ≫= live t) ?? ∅.

Definition zexpiry (r : store) (t : Z) (k : string) : option Z :=
  match zsets r !! k with Some (_, Some x) => if (t <? x)%Z then Some x else None | _ => None end.

#[export] Instance redis_zset : RedisZset := {|
  redis_scores := zscores;
  redis_zremrangebyscore r t k min max :=
    r <| zsets :=
      <[k := (filter (λ e, in_range min max e.2 = false) (zscores r t k), zexpiry r t k)]> (zsets r) |>;
  redis_zadd r t k score m :=
    r <| zsets := <[k := (<[m := score]> (zscores r t k), zexpiry r t k)]> (zsets r) |>;
  redis_pexpire r t k ms :=
    r <| zsets := <[k := (zscores r t k, Some (t + ms)%Z)]> (zsets r) |>;
|}.

#[export] Instance redis_zset_laws : RedisZsetLaws redis_zset.
Proof.
  split; cbn; unfold zscores at 1; cbn; intros.
  - rewrite lookup_insert_eq. unfold zscores, zexpiry, live. cbn.
    destruct (zsets r !! k) as [[z [x|]]|]; cbn.
    + destruct (Z.ltb_spec t x), (Z.ltb_spec t' x); cbn; rewrite ?map_filter_empty; try done; lia.
    + done.
    + done.
  - by rewrite lookup_insert_ne.
  - rewrite lookup_insert_eq. unfold zscores, zexpiry, live. cbn.
    destruct (zsets r !! k) as [[z [x|]]|]; cbn; try done.
    destruct (Z.ltb_spec t x) as [Hx|]; cbn; [|done]. by rewrite (proj2 (Z.ltb_lt _ _) Hx).
  - by rewrite lookup_insert_ne.
  - rewrite lookup_insert_eq. unfold live. cbn. by rewrite (proj2 (Z.ltb_lt _ _)).
  - rewrite lookup_insert_eq. unfold live. cbn. by rewrite (proj2 (Z.ltb_ge _ _)).
  - by rewrite lookup_insert_ne.
Qed.

#[export] Instance random : Random := {|
  random_uuid n := "uuid-" +:+ pretty n;
  random_hex n := "hex-" +:+ pretty n;
|}.

Lemma pretty_nat_inj (n m : nat) : pretty n = pretty m → n = m.
Proof. apply (inj (pretty (A := nat))). Qed.

#[export] Instance random_laws : RandomLaws random.
Proof.
  split; cbn; [| |done|].
  1-2: intros n m E; apply pretty_nat_inj; by simplify_eq/=.
  intros n. cbn [char_free]. apply char_free_N; [|done]. intros k. unfold pretty_N_char. by repeat case_match.
Qed.

#[export] Instance config : Config := {|
  jwtPrivateKey := "private"; jwtPublicKey := "public"; jwtAccessTokenTtl := 900;
  encryptionKey := "key"; inviteSecret := "invite-secret";
  razorpayKeySecret := "razorpay-key"; razorpayWebhookSecret := "razorpay-webhook";
|}.

#[export] Instance config_laws : ConfigLaws config.
Proof. by split. Qed.

(** Two letters for each byte. *)
Definition enc_byte (c : ascii) : ascii * ascii :=
  (ascii_of_nat (65 + nat_of_ascii c / 16), ascii_of_nat (65 + nat_of_ascii c mod 16)).
Definition dec_byte (a b : ascii) : ascii :=
  ascii_of_nat ((nat_of_ascii a - 65) * 16 + (nat_of_ascii b - 65)).

Fixpoint to_letters (s : string) : string :=
  match s with
  | EmptyString => EmptyString
  | String c s => String (enc_byte c).1 (String (enc_byte c).2 (to_letters s))
  end.
Fixpoint of_letters (s : string) : string :=
  match s with
  | String a (String b s) => String (dec_byte a b) (of_letters s)
  | _ => EmptyString
  end.

Lemma byte_round_trip c : dec_byte (enc_byte c).1 (enc_byte c).2 = c.
Proof. destruct c as [[] [] [] [] [] [] [] []]; vm_compute; reflexivity. Qed.
Lemma byte_no_colon c : (enc_byte c).1 ≠ ":"%char ∧ (enc_byte c).2 ≠ ":"%char.
Proof. destruct c as [[] [] [] [] [] [] [] []]; vm_compute; split; discriminate. Qed.

(** Lower-case hexadecimal text. *)
Fixpoint to_hex (s : string) : string :=
  match s with
  | EmptyString => EmptyString
  | String c s => hex_digit (nat_of_ascii c / 16) +:+ hex_digit (nat_of_ascii c mod 16) +:+ to_hex s
  end.

Definition jwt_secret (public : string) : string := if String.eqb public "public" then "private" else "".

#[export] Instance crypto : Crypto := {|
  sha256_hex s := "sha256-" +:+ s;
  hmac_sha256_hex d k := to_hex (k +:+ "-" +:+ d);
  base64 := to_letters;
  unbase64 := of_letters;
  aes_seal _ iv p := (p, iv);
  aes_open _ iv c t := if String.eqb iv t then Some c else None;
  bcrypt_hash _ p := "bcrypt-" +:+ p;
  bcrypt_compare p h := String.eqb h ("bcrypt-" +:+ p);
  jwt_token := string * string * json;
  jwt_sign key kid payload := (key, kid, payload);
  jwt_kid t := Some t.1.2;
  jwt_decode t := Some t.2;
  jwt_verify public '(key, _, payload) t :=
    if String.eqb key (jwt_secret public) then
      match expiry payload with
      | Some e => if (t <? e)%Z then Some payload else None
      | None => Some payload
      end
    else None;
|}.

#[export] Instance crypto_laws : CryptoLaws crypto config.
Proof.
  split; cbn.
  - intros s t E. by simplify_eq/=.
  - induction s as [|c s IH]; cbn [to_letters of_letters]; [done|]. by rewrite byte_round_trip, IH.
  - induction s as [|c s IH]; cbn [to_letters String.list_ascii_of_string]; [set_solver|].
    destruct (byte_no_colon c). by repeat (apply not_elem_of_cons; split).
  - intros _ iv p. by rewrite String.eqb_refl.
  - intros _ p. apply String.eqb_refl.
  - done.
  - done.
  - intros _ payload t e -> Ht. by rewrite (proj2 (Z.ltb_lt _ _)).
  - intros _ payload t e -> Ht. by rewrite (proj2 (Z.ltb_ge _ _)).
Qed.

(** An empty platform at a given time, with Redis up. *)
Definition empty_world (t : Z) : World :=
  mkWorld _ empty_db redis_empty [] [] empty_memory [] t 0 true.


Lemma decrypt_encrypt_witness :
  ∃ ciphertext w', encrypt "otp-secret" (empty_world 0) = (Ok ciphertext, w') ∧
    decrypt ciphertext w' = (Ok "otp-secret"%string, w').
Proof. apply decrypt_encrypt. Defined.

End Concrete.
