(* ===== verification/OrgRepo.v ===== *)
(** * OrgRepo: organizations and memberships

    The repositories [organization.repository.ts] and
    [membership.repository.ts]: one definition per method, its SQL text as
    the condition and the assignment of the statement. *)
From S2P Require Import Prelude Schema World.
From Stdlib Require Import ZArith Lia.
From stdpp Require Import base tactics strings gmap list.

Definition plan_tier_str (p : plan_tier) : string :=
  match p with
  | PFree => "free" | PPro => "pro" | PBusiness => "business" | PEnterprise => "enterprise"
  end.

Definition role_str (r : member_role) : string :=
  match r with
  | OrgOwner => "org_owner" | OrgAdmin => "org_admin" | Member => "member" | Guest => "guest"
  end.

(** [updateOrg]'s fields: [None] is [undefined]. *)
Record UpdateOrgData := mkUpdateOrgData {
  uo_name : option string;
  uo_slug : option string;
  uo_timezone : option string;
  uo_locale : option string;
  uo_mfa_required : option bool;
  uo_account_lockout_attempts : option Z;
  uo_retention_chat_days : option (option Z);
  uo_saml_enabled : option bool;
  uo_saml_metadata_url : option (option string);
  uo_max_members : option Z
}.

Record CreateOrgData := mkCreateOrgData {
  co_name : string;
  co_slug : string;
  co_plan_tier : option plan_tier;
  co_timezone : option string;
  co_locale : option string
}.

Record CreateMembershipData := mkCreateMembershipData {
  cmd_org_id : string;
  cmd_user_id : string;
  cmd_role : member_role;
  cmd_invited_by : option string;
  cmd_joined_at : option Z
}.

Module OrganizationRepository.
Section repo.
Context `{Redis, Random}.

Definition findById (id : string) : M (option OrgRow) :=
  select_one (λ o, (o_id o =? id)%string && is_null (o_deleted_at o)).

Definition findBySlug (slug : string) : M (option OrgRow) :=
  select_one (λ o, (o_slug o =? slug)%string && is_null (o_deleted_at o)).

(** The row an INSERT creates: the defaults of the table
    ([migrations/003_organizations.js]).  [idx_organizations_slug] is a
    unique index on the slug, over deleted rows too. *)
Definition create (data : CreateOrgData) : M OrgRow :=
  let* id := gen_random_uuid in
  let* t := now in
  let row := mkOrgRow id (co_name data) (co_slug data) OrgActive
    (co_plan_tier data ?? PFree) t None None None None 5 1073741824 0 false None false 5 365
    None (co_timezone data ?? "UTC") (co_locale data ?? "en-US") t t 1 in
  insert_unique (λ o, (o_slug o =? co_slug data)%string) row ;;;
  ret row.

Definition set_clauses (d : UpdateOrgData) (o : OrgRow) : OrgRow :=
  o <| o_name := uo_name d ?? o_name o |>
    <| o_slug := uo_slug d ?? o_slug o |>
    <| o_timezone := uo_timezone d ?? o_timezone o |>
    <| o_locale := uo_locale d ?? o_locale o |>
    <| o_mfa_required := uo_mfa_required d ?? o_mfa_required o |>
    <| o_account_lockout_attempts := uo_account_lockout_attempts d ?? o_account_lockout_attempts o |>
    <| o_retention_chat_days := uo_retention_chat_days d ?? o_retention_chat_days o |>
    <| o_saml_enabled := uo_saml_enabled d ?? o_saml_enabled o |>
    <| o_saml_metadata_url := uo_saml_metadata_url d ?? o_saml_metadata_url o |>
    <| o_max_members := uo_max_members d ?? o_max_members o |>
    <| o_version := (o_version o + 1)%Z |>.

Definition no_clauses (d : UpdateOrgData) : bool :=
  is_null (uo_name d) && is_null (uo_slug d) && is_null (uo_timezone d) &&
  is_null (uo_locale d) && is_null (uo_mfa_required d) &&
  is_null (uo_account_lockout_attempts d) && is_null (uo_retention_chat_days d) &&
  is_null (uo_saml_enabled d) && is_null (uo_saml_metadata_url d) && is_null (uo_max_members d).

(** The optimistic-lock UPDATE; a slug taken by another row violates the
    unique index. *)
Definition update (orgId : string) (data : UpdateOrgData) (expectedVersion : Z)
    : M (option OrgRow) :=
  if no_clauses data then findById orgId
  else
    let P o := (o_id o =? orgId)%string && (o_version o =? expectedVersion)%Z &&
               is_null (o_deleted_at o) in
    let* hit := select P in
    let* taken := select (λ o, is_val (uo_slug data) (o_slug o) && negb (o_id o =? orgId)%string) in
    match hit, taken with
    | _ :: _, _ :: _ => throw unique_violation
    | _, _ =>
        let* rs := update_touch P (set_clauses data) in
        ret (hd_error rs)
    end.

(** [extra.offboarding_started_at] and [extra.deleted_at] are set only when
    given. *)
Definition updateStatus (orgId : string) (status : org_status)
    (offboarding_started_at deleted_at : option Z) : M (option OrgRow) :=
  let* rs := update_touch
    (λ o, (o_id o =? orgId)%string && is_null (o_deleted_at o))
    (λ o, o <| o_status := status |>
            <| o_offboarding_started_at :=
                 match offboarding_started_at with Some t => Some t | None => o_offboarding_started_at o end |>
            <| o_deleted_at :=
                 match deleted_at with Some t => Some t | None => o_deleted_at o end |>) in
  ret (hd_error rs).

(** Adds [delta] to the used storage if the quota allows it. *)
Definition updateStorageUsed (orgId : string) (delta : Z) : M (option OrgRow) :=
  let* rs := update_touch
    (λ o, (o_id o =? orgId)%string && (o_storage_used_bytes o + delta <=? o_storage_quota_bytes o)%Z)
    (λ o, o <| o_storage_used_bytes := (o_storage_used_bytes o + delta)%Z |>) in
  ret (hd_error rs).
End repo.
End OrganizationRepository.

Module MembershipRepository.
Section repo.
Context `{Redis, Random}.

Definition of_pair (orgId userId : string) (m : MembershipRow) : bool :=
  (om_org_id m =? orgId)%string && (om_user_id m =? userId)%string && is_null (om_deleted_at m).

Definition findMembership (orgId userId : string) : M (option MembershipRow) :=
  select_one (of_pair orgId userId).

(** [ON CONFLICT (org_id, user_id) WHERE deleted_at IS NULL DO UPDATE]. *)
Definition createMembership (data : CreateMembershipData) : M MembershipRow :=
  let* id := gen_random_uuid in
  let* t := now in
  let joined := cmd_joined_at data ?? t in
  upsert (of_pair (cmd_org_id data) (cmd_user_id data))
    (mkMembershipRow id (cmd_org_id data) (cmd_user_id data) (cmd_role data) MActive
       (cmd_invited_by data) (Some joined) None None t t)
    (λ m, touch t (m <| om_role := cmd_role data |> <| om_status := MActive |>
                     <| om_deleted_at := None |> <| om_joined_at := Some joined |>)).

Definition updateRole (orgId userId : string) (role : member_role) : M (option MembershipRow) :=
  let* rs := update_touch (of_pair orgId userId) (λ m, m <| om_role := role |>) in
  ret (hd_error rs).

Definition removeMembership (orgId userId : string) : M unit :=
  let* t := now in
  let* _ := update_touch (of_pair orgId userId)
    (λ m, m <| om_status := MRemoved |> <| om_deleted_at := Some t |> <| om_removed_at := Some t |>) in
  ret tt.

Definition active_in (orgId : string) (m : MembershipRow) : bool :=
  (om_org_id m =? orgId)%string && bool_decide (om_status m = MActive) && is_null (om_deleted_at m).

Definition countActiveMembers (orgId : string) : M Z :=
  let* ms := select (active_in orgId) in ret (Z.of_nat (length ms)).

(** ORDER BY created_at ASC: rows are kept in the order they were created. *)
Definition findMembersByOrg (orgId : string) : M (list MembershipRow) :=
  select (λ m, (om_org_id m =? orgId)%string && is_null (om_deleted_at m)).
End repo.
End MembershipRepository.
