(* ===== verification/TaskRepo.v ===== *)
(** * TaskRepo: tasks, assignees and dependencies

    The class [TaskRepository] of [task.repository.ts].  [create] checks what
    the table's constraints check ([migrations/005_tasks.js]: foreign keys on
    the workspace and the parent, the range of [depth]); the recursive CTE of
    [cascadeSoftDelete] is the level-by-level evaluation SQL gives it. *)
From S2P Require Import Prelude Schema World.
From Stdlib Require Import ZArith Lia.
From stdpp Require Import base tactics strings gmap list relations.

Definition task_status_str (s : task_status) : string :=
  match s with
  | Todo => "todo" | InProgress => "in_progress" | InReview => "in_review"
  | Done => "done" | Cancelled => "cancelled"
  end.

Definition task_priority_str (p : task_priority) : string :=
  match p with Low => "low" | Medium => "medium" | High => "high" | Urgent => "urgent" end.

Record CreateTaskData := mkCreateTaskData {
  ct_org_id : string;
  ct_workspace_id : string;
  ct_board_id : option string;
  ct_parent_task_id : option string;
  ct_depth : option Z;
  ct_title : string;
  ct_description : option json;
  ct_status : option task_status;
  ct_priority : option task_priority;
  ct_creator_id : string;
  ct_due_date : option Z;
  ct_is_recurring : option bool;
  ct_recurrence_rule : option string;
  ct_recurrence_parent_id : option string;
  ct_template_id : option string;
  ct_labels : option (list string)
}.

(** [None] is [undefined]; a nullable field that is given is [Some None] or
    [Some (Some v)]. *)
Record UpdateTaskData := mkUpdateTaskData {
  ut_title : option string;
  ut_description : option (option json);
  ut_status : option task_status;
  ut_priority : option task_priority;
  ut_due_date : option (option Z);
  ut_board_id : option (option string);
  ut_labels : option (list string);
  ut_is_recurring : option bool;
  ut_recurrence_rule : option (option string)
}.

Record TaskFilters := mkTaskFilters {
  tf_workspaceId : option string;
  tf_boardId : option string;
  tf_status : option task_status
}.

Definition foreign_key_violation : error := PgError "23503".
Definition check_violation : error := PgError "23514".
Definition invalid_uuid : error := PgError "22P02".

Module TaskRepository.
Section repo.
Context `{Redis, Random}.

Definition live_id (id : string) (t : TaskRow) : bool :=
  (t_id t =? id)%string && is_null (t_deleted_at t).

Definition findById (id : string) : M (option TaskRow) := select_one (live_id id).

(** A filter that is absent or empty adds no condition. *)
Definition matches (filters : TaskFilters) (t : TaskRow) : bool :=
  (if otruthy (tf_workspaceId filters) then is_val (tf_workspaceId filters) (t_workspace_id t) else true) &&
  (if otruthy (tf_boardId filters) then
     match t_board_id t with Some b => is_val (tf_boardId filters) b | None => false end
   else true) &&
  match tf_status filters with Some s => bool_decide (t_status t = s) | None => true end.

(** ORDER BY created_at ASC: rows are kept in the order they were created. *)
Definition findByOrg (orgId : string) (filters : TaskFilters) : M (list TaskRow) :=
  select (λ t, (t_org_id t =? orgId)%string && is_null (t_deleted_at t) && matches filters t).

Definition create (data : CreateTaskData) : M TaskRow :=
  let* id := gen_random_uuid in
  let* t := now in
  let* ws := select_one (λ w, (ws_id w =? ct_workspace_id data)%string) in
  let* parent := select_one (λ p, is_val (ct_parent_task_id data) (t_id p)) in
  let depth := ct_depth data ?? 0%Z in
  let row := mkTaskRow id (ct_org_id data) (ct_workspace_id data) (ct_board_id data)
    (ct_parent_task_id data) depth (ct_title data) (ct_description data)
    (ct_status data ?? Todo) (ct_priority data ?? Medium) (ct_creator_id data)
    (ct_due_date data) None (ct_is_recurring data ?? false) (ct_recurrence_rule data)
    (ct_recurrence_parent_id data) (ct_template_id data) (ct_labels data ?? []) 0 None t t 1 in
  if is_val (ct_parent_task_id data) "" then throw invalid_uuid
  else if is_null ws then throw foreign_key_violation
  else if negb (is_null (ct_parent_task_id data)) && is_null parent then throw foreign_key_violation
  else if negb ((0 <=? depth)%Z && (depth <=? 2)%Z) then throw check_violation
  else insert_row row ;;; ret row.

Definition set_clauses (t : Z) (d : UpdateTaskData) (r : TaskRow) : TaskRow :=
  r <| t_title := ut_title d ?? t_title r |>
    <| t_description := ut_description d ?? t_description r |>
    <| t_status := ut_status d ?? t_status r |>
    <| t_completed_at :=
         if bool_decide (ut_status d = Some Done) then Some t else t_completed_at r |>
    <| t_priority := ut_priority d ?? t_priority r |>
    <| t_due_date := ut_due_date d ?? t_due_date r |>
    <| t_board_id := ut_board_id d ?? t_board_id r |>
    <| t_labels := ut_labels d ?? t_labels r |>
    <| t_is_recurring := ut_is_recurring d ?? t_is_recurring r |>
    <| t_recurrence_rule := ut_recurrence_rule d ?? t_recurrence_rule r |>
    <| t_version := (t_version r + 1)%Z |>.

Definition no_clauses (d : UpdateTaskData) : bool :=
  is_null (ut_title d) && is_null (ut_description d) && is_null (ut_status d) &&
  is_null (ut_priority d) && is_null (ut_due_date d) && is_null (ut_board_id d) &&
  is_null (ut_labels d) && is_null (ut_is_recurring d) && is_null (ut_recurrence_rule d).

(** [WHERE org_id = .. AND id = .. AND version = .. AND deleted_at IS NULL]. *)
Definition versioned (orgId taskId : string) (version : Z) (t : TaskRow) : bool :=
  (t_org_id t =? orgId)%string && (t_id t =? taskId)%string &&
  (t_version t =? version)%Z && is_null (t_deleted_at t).

Definition update (orgId taskId : string) (data : UpdateTaskData) (expectedVersion : Z)
    : M (option TaskRow) :=
  if no_clauses data then findById taskId
  else
    let* t := now in
    let* rs := update_touch (versioned orgId taskId expectedVersion) (set_clauses t data) in
    ret (hd_error rs).

Definition live_in (orgId taskId : string) (t : TaskRow) : bool :=
  (t_id t =? taskId)%string && (t_org_id t =? orgId)%string && is_null (t_deleted_at t).

Definition softDelete (orgId taskId : string) : M bool :=
  let* t := now in
  let* rs := update_touch (live_in orgId taskId) (λ r, r <| t_deleted_at := Some t |>) in
  ret (negb (Nat.eqb (length rs) 0)).

(** One level of the recursive CTE: the live tasks of the organization
    whose parent is in [ids]. *)
Definition children (orgId : string) (l : list TaskRow) (ids : list string) : list string :=
  t_id <$> List.filter (λ t,
    match t_parent_task_id t with Some p => includes ids p | None => false end &&
    (t_org_id t =? orgId)%string && is_null (t_deleted_at t)) l.

(** [WITH RECURSIVE subtasks ..]: levels are added until one is empty.
    [None]: not finished within [fuel] levels. *)
Fixpoint subtasks (fuel : nat) (orgId : string) (l : list TaskRow) (ids : list string)
    : option (list string) :=
  match fuel with
  | O => None
  | S fuel =>
      match children orgId l ids with
      | [] => Some []
      | level => (app level) <$> subtasks fuel orgId l level
      end
  end.

(** Subtasks are nested at most two levels deep, so that the third level is
    empty; see [cascade_terminates] for the bound. *)
Definition subtasks_fuel (l : list TaskRow) : nat := 3 + length l.

(** The outcome of a query that would not end. *)
Definition query_canceled : error := PgError "57014".

Definition cascadeSoftDelete (orgId taskId : string) : M unit :=
  withTransaction (
    let* t := now in
    let* all := select (λ _ : TaskRow, true) in
    match subtasks (subtasks_fuel all) orgId all [taskId] with
    | None => throw query_canceled
    | Some ids =>
        let* _ := update_touch (λ r, includes ids (t_id r)) (λ r, r <| t_deleted_at := Some t |>) in
        let* _ := update_touch (live_in orgId taskId) (λ r, r <| t_deleted_at := Some t |>) in
        ret tt
    end).

Definition findChildren (orgId parentTaskId : string) : M (list TaskRow) :=
  select (λ t, is_val (t_parent_task_id t) parentTaskId && (t_org_id t =? orgId)%string &&
               is_null (t_deleted_at t)).

(** *** Assignees *)

Definition assignee (taskId userId : string) (a : TaskAssigneeRow) : bool :=
  (ta_task_id a =? taskId)%string && (ta_user_id a =? userId)%string.

(** The pair is the primary key; a row that is new needs an existing user. *)
Definition addAssignee (taskId userId orgId assignedBy : string) : M unit :=
  let* t := now in
  let* old := select_one (assignee taskId userId) in
  let* user := select_one (λ u, (u_id u =? userId)%string) in
  if is_null old && is_null user then throw foreign_key_violation
  else insert_or_ignore (assignee taskId userId)
         (mkTaskAssigneeRow taskId userId orgId t assignedBy).

Definition removeAssignee (taskId userId : string) : M unit :=
  let* _ := delete_where (assignee taskId userId) in ret tt.

Definition getAssignees (taskId : string) : M (list TaskAssigneeRow) :=
  select (λ a, (ta_task_id a =? taskId)%string).

(** *** Dependencies *)

Definition findDependencies (orgId taskId : string) : M (list TaskDependencyRow) :=
  select (λ d, (td_org_id d =? orgId)%string &&
    ((td_blocking_task_id d =? taskId)%string || (td_blocked_task_id d =? taskId)%string)).

(** CHECK (blocking_task_id != blocked_task_id). *)
Definition insertDependency (orgId blockingTaskId blockedTaskId createdBy : string)
    : M TaskDependencyRow :=
  let* id := gen_random_uuid in
  let* t := now in
  let row := mkTaskDependencyRow id orgId blockingTaskId blockedTaskId createdBy t in
  if (blockingTaskId =? blockedTaskId)%string then throw check_violation
  else insert_row row ;;; ret row.

Definition deleteDependency (orgId dependencyId : string) : M unit :=
  let* _ := delete_where (λ d, (td_id d =? dependencyId)%string && (td_org_id d =? orgId)%string) in
  ret tt.

(** *** Bulk operations *)

Definition selected (orgId : string) (taskIds : list string) (t : TaskRow) : bool :=
  (t_org_id t =? orgId)%string && includes taskIds (t_id t) && is_null (t_deleted_at t).

(** Returns the number of rows updated. *)
Definition bulkUpdateStatus (orgId : string) (taskIds : list string) (status : task_status) : M Z :=
  match taskIds with
  | [] => ret 0%Z
  | _ =>
      let* t := now in
      let* rs := update_touch (selected orgId taskIds)
        (λ r, r <| t_status := status |>
                <| t_completed_at := if bool_decide (status = Done) then Some t else t_completed_at r |>) in
      ret (Z.of_nat (length rs))
  end.

Definition bulkSoftDelete (orgId : string) (taskIds : list string) : M Z :=
  match taskIds with
  | [] => ret 0%Z
  | _ =>
      let* t := now in
      let* rs := update_touch (selected orgId taskIds) (λ r, r <| t_deleted_at := Some t |>) in
      ret (Z.of_nat (length rs))
  end.
End repo.
End TaskRepository.
