(* ===== verification/TaskDeps.v ===== *)
(** * TaskDeps: the dependency graph

    [dependency.service.ts].  The depth-first search of [wouldCreateCycle] is
    modelled as it is written, with its stack and its visited set; it is
    proved to terminate, to decide reachability, and thereby to keep the
    dependency graph of an organization free of cycles. *)
From S2P Require Import Prelude Schema World Concrete TaskRepo.
From Stdlib Require Import ZArith Lia.
From stdpp Require Import base tactics strings gmap list sets relations.

Module DependencyService.
Section service.
Context `{Redis, Random}.

(** The rows of one lookup of the search: what [current] blocks. *)
Definition blocked_by (orgId current : string) (d : TaskDependencyRow) : bool :=
  (td_org_id d =? orgId)%string && (td_blocking_task_id d =? current)%string.

(** The [while] loop.  The top of the JavaScript stack is the head of the
    list, so the rows pushed one after the other are in front in reverse
    order.  [None]: more than [fuel] iterations. *)
Fixpoint search (fuel : nat) (orgId target : string) (visited : gset string)
    (stack : list string) : M (option bool) :=
  match fuel with
  | O => ret None
  | S fuel =>
      match stack with
      | [] => ret (Some false)
      | current :: stack =>
          if (current =? target)%string then ret (Some true)
          else if bool_decide (current ∈ visited) then search fuel orgId target visited stack
          else
            let* result := select (blocked_by orgId current) in
            search fuel orgId target ({[current]} ∪ visited)
              (rev (td_blocked_task_id <$> result) ++ stack)
      end
  end.

(** The bound on the iterations: every dependency is pushed at most once. *)
Definition search_fuel (w : World) : nat := S (S (length (task_dependencies (db w)))).

Definition search_diverges : error := PlainError "wouldCreateCycle: fuel".

Definition wouldCreateCycle (orgId blockingTaskId blockedTaskId : string) : M bool :=
  let* w := get_world in
  let* r := search (search_fuel w) orgId blockingTaskId ∅ [blockedTaskId] in
  match r with
  | Some b => ret b
  | None => throw search_diverges
  end.

Definition addDependency (orgId blockingTaskId blockedTaskId createdBy : string)
    : M TaskDependencyRow :=
  if (blockingTaskId =? blockedTaskId)%string then
    throw (AppError 422 "SELF_DEPENDENCY" "A task cannot depend on itself" None)
  else
  let* blocking := TaskRepository.findById blockingTaskId in
  let* blocked := TaskRepository.findById blockedTaskId in
  match blocking with
  | None => throw (NotFoundError "BlockingTask")
  | Some b =>
  if negb (t_org_id b =? orgId)%string then throw (NotFoundError "BlockingTask") else
  match blocked with
  | None => throw (NotFoundError "BlockedTask")
  | Some c =>
  if negb (t_org_id c =? orgId)%string then throw (NotFoundError "BlockedTask") else
  if negb (t_workspace_id b =? t_workspace_id c)%string then
    throw (AppError 422 "CROSS_WORKSPACE_DEPENDENCY"
      "Task dependencies must be within the same workspace" None)
  else
  let* cycle := wouldCreateCycle orgId blockingTaskId blockedTaskId in
  if (cycle : bool) then
    throw (AppError 422 "DEPENDENCY_CYCLE" "Adding this dependency would create a cycle" None)
  else TaskRepository.insertDependency orgId blockingTaskId blockedTaskId createdBy
  end end.

Definition removeDependency (orgId dependencyId : string) : M unit :=
  TaskRepository.deleteDependency orgId dependencyId.

Definition listDependencies (orgId taskId : string) : M (list TaskDependencyRow) :=
  TaskRepository.findDependencies orgId taskId.
End service.

(** ** The graph *)

(** [x] blocks [y] in organization [orgId]. *)
Definition blocks (orgId : string) (l : list TaskDependencyRow) (x y : string) : Prop :=
  ∃ d, d ∈ l ∧ td_org_id d = orgId ∧ td_blocking_task_id d = x ∧ td_blocked_task_id d = y.

(** No task blocks itself, directly or through others. *)
Definition acyclic (orgId : string) (l : list TaskDependencyRow) : Prop :=
  ∀ x, ¬ tc (blocks orgId l) x x.

Section proofs.
Context `{Redis, Random}.

Implicit Types (l : list TaskDependencyRow) (orgId target : string).

(** The successors the search pushes are the successors in the graph. *)
Lemma pushed_blocks orgId l x y :
  y ∈ rev (td_blocked_task_id <$> List.filter (blocked_by orgId x) l) ↔ blocks orgId l x y.
Proof.
  unfold blocks, blocked_by. split.
  - intros Hy. apply list_elem_of_In, in_rev, list_elem_of_In, list_elem_of_fmap in Hy.
    destruct Hy as (d & -> & Hd). apply elem_of_filter_bool in Hd as [? ?]. bool_to_prop. eauto.
  - intros (d & ? & <- & <- & <-).
    apply list_elem_of_In, in_rev. rewrite rev_involutive.
    apply list_elem_of_In, list_elem_of_fmap. exists d. split; [done|].
    apply elem_of_filter_bool. by rewrite !String.eqb_refl.
Qed.

(** The dependencies not yet pushed: those of tasks not visited. *)
Definition remaining (orgId : string) (visited : gset string) (l : list TaskDependencyRow) : nat :=
  length (List.filter (λ d, (td_org_id d =? orgId)%string &&
    negb (bool_decide (td_blocking_task_id d ∈ visited))) l).

Lemma remaining_visit orgId visited x l :
  x ∉ visited →
  remaining orgId visited l =
  length (List.filter (blocked_by orgId x) l) + remaining orgId ({[x]} ∪ visited) l.
Proof.
  intros Hx. unfold remaining, blocked_by. induction l as [|d l IH]; [done|]. cbn.
  destruct (String.eqb_spec (td_org_id d) orgId); cbn; [|done].
  destruct (String.eqb_spec (td_blocking_task_id d) x) as [Hd|Hd].
  - rewrite bool_decide_eq_false_2 by by rewrite Hd.
    rewrite bool_decide_eq_true_2 by (rewrite Hd; set_solver). cbn. by rewrite IH.
  - case_bool_decide.
    + rewrite bool_decide_eq_true_2 by set_solver. done.
    + rewrite bool_decide_eq_false_2 by set_solver. cbn. rewrite IH. lia.
Qed.

(** The state of the search: from the start, everything reached is visited
    or waiting, and what waits was reached. *)
Record search_inv (orgId : string) (l : list TaskDependencyRow) (target start : string)
    (visited : gset string) (stack : list string) : Prop := {
  si_start : start ∈ visited ∨ start ∈ stack;
  si_target : target ∉ visited;
  si_closed : ∀ x y, x ∈ visited → blocks orgId l x y → y ∈ visited ∨ y ∈ stack;
  si_reached : ∀ x, x ∈ stack → rtc (blocks orgId l) start x;
}.

Lemma search_inv_closed orgId l target start visited x :
  search_inv orgId l target start visited [] →
  rtc (blocks orgId l) start x → x ∈ visited.
Proof.
  intros [Hs _ Hc _]. assert (start ∈ visited) as Hv by set_solver.
  intros Hr. induction Hr as [|x y z Hxy _ IH]; [done|].
  apply IH; destruct (Hc _ _ Hv Hxy) as [?|?]; set_solver.
Qed.

Lemma search_inv_skip orgId l target start visited x stack :
  x ∈ visited →
  search_inv orgId l target start visited (x :: stack) →
  search_inv orgId l target start visited stack.
Proof.
  intros Hx [Hs Ht Hc Hr]. split; [set_solver|done| |set_solver].
  intros a b Ha Hab. destruct (Hc a b Ha Hab); set_solver.
Qed.

Lemma search_inv_visit orgId l target start visited x stack :
  x ≠ target →
  search_inv orgId l target start visited (x :: stack) →
  search_inv orgId l target start ({[x]} ∪ visited)
    (rev (td_blocked_task_id <$> List.filter (blocked_by orgId x) l) ++ stack).
Proof.
  intros Hx [Hs Ht Hc Hr]. split; [set_solver|set_solver| |].
  - intros a b Ha Hab. rewrite elem_of_app, pushed_blocks.
    destruct (decide (a = x)) as [->|]; [by auto|].
    destruct (Hc a b ltac:(set_solver) Hab); set_solver.
  - intros y. rewrite elem_of_app, pushed_blocks. intros [Hy|Hy]; [|set_solver].
    eapply rtc_r; [apply Hr; by left|done].
Qed.

(** With enough fuel the search answers, and its answer is reachability;
    it changes nothing. *)
Lemma search_spec orgId target start fuel visited stack w :
  let l := task_dependencies (db w) in
  length stack + remaining orgId visited l < fuel →
  search_inv orgId l target start visited stack →
  ∃ b, search fuel orgId target visited stack w = (Ok (Some b), w) ∧
       (b = true ↔ rtc (blocks orgId l) start target).
Proof.
  intros l. revert visited stack.
  induction fuel as [|fuel IH]; intros visited stack Hfuel Hinv; [lia|].
  destruct stack as [|x stack]; cbn.
  { exists false. split; [done|]. split; [done|]. intros Hr.
    exfalso. by eapply si_target, (search_inv_closed _ _ _ _ _ _ Hinv). }
  destruct (String.eqb_spec x target) as [->|Hx].
  { exists true. split; [done|]. split; [|done]. intros _. apply Hinv. by left. }
  case_bool_decide as Hv.
  - apply IH; [cbn in Hfuel; lia|by eapply search_inv_skip].
  - cbn in Hfuel. rewrite (remaining_visit orgId visited x l Hv) in Hfuel. unfold bind, select.
    apply IH; [|by apply search_inv_visit].
    tables. rewrite length_app, length_rev, length_fmap. unfold l in *. lia.
Qed.

Lemma remaining_le orgId visited l : remaining orgId visited l ≤ length l.
Proof. unfold remaining. induction l as [|d l IH]; cbn; [done|]. destruct andb; cbn; lia. Qed.

Lemma wouldCreateCycle_reach orgId blocking blocked w :
  ∃ b, wouldCreateCycle orgId blocking blocked w = (Ok b, w) ∧
       (b = true ↔ rtc (blocks orgId (task_dependencies (db w))) blocked blocking).
Proof.
  destruct (search_spec orgId blocking blocked (search_fuel w) ∅ [blocked] w) as (b & E & Hb).
  - unfold search_fuel. pose proof (remaining_le orgId ∅ (task_dependencies (db w))). cbn. lia.
  - split; [set_solver|set_solver|set_solver|].
    intros x ->%list_elem_of_singleton. constructor.
  - exists b. split; [|done]. unfold wouldCreateCycle, bind, get_world. by rewrite E.
Qed.

(** *** Adding an edge *)

Lemma blocks_snoc orgId l r x y :
  blocks orgId (l ++ [r]) x y ↔
  blocks orgId l x y ∨
  (td_org_id r = orgId ∧ td_blocking_task_id r = x ∧ td_blocked_task_id r = y).
Proof.
  unfold blocks. split.
  - intros (d & [Hd| ->%list_elem_of_singleton]%elem_of_app & Hr); [left; eauto|by right].
  - intros [(d & Hd & Hr)|Hr]; [exists d|exists r]; (split; [|done]); apply elem_of_app;
      [by left|right; by apply list_elem_of_singleton].
Qed.

Lemma tc_blocks_snoc orgId l r x y :
  tc (blocks orgId (l ++ [r])) x y →
  tc (blocks orgId l) x y ∨
  (rtc (blocks orgId l) x (td_blocking_task_id r) ∧ rtc (blocks orgId l) (td_blocked_task_id r) y).
Proof.
  induction 1 as [x y Hxy|x y z Hxy Hyz IH]; apply blocks_snoc in Hxy as [Hxy|(Ho & <- & <-)].
  - left. by apply tc_once.
  - right. split; constructor.
  - destruct IH as [IH|[IH1 IH2]].
    + left. by eapply tc_l.
    + right. split; [by eapply rtc_l|done].
  - right. split; [constructor|]. destruct IH as [IH|[_ IH]]; [by apply tc_rtc|done].
Qed.

Lemma acyclic_snoc orgId l r :
  acyclic orgId l →
  ¬ rtc (blocks orgId l) (td_blocked_task_id r) (td_blocking_task_id r) →
  acyclic orgId (l ++ [r]).
Proof.
  intros Hl Hr x Hx. apply tc_blocks_snoc in Hx as [Hx|[H1 H2]]; [by eapply Hl|].
  apply Hr. by etrans.
Qed.

Lemma acyclic_sub orgId l l' : (∀ d, d ∈ l' → d ∈ l) → acyclic orgId l → acyclic orgId l'.
Proof.
  intros Hsub Hl x Hx. apply (Hl x). revert Hx. apply tc_weaken. intros a b (d & ? & ?).
  exists d. auto.
Qed.

(** The edge of another organization changes nothing. *)
Lemma acyclic_snoc_other orgId l r :
  td_org_id r ≠ orgId → acyclic orgId l → acyclic orgId (l ++ [r]).
Proof.
  intros Hr Hl x Hx. apply (Hl x). revert Hx. apply tc_weaken.
  intros a b [?|(? & ?)]%blocks_snoc; done.
Qed.

(** What [addDependency] does when it succeeds: it appends one row, and the
    new edge closes no cycle. *)
Lemma addDependency_ok_inv orgId b c u w r w' :
  addDependency orgId b c u w = (Ok r, w') →
  task_dependencies (db w') = task_dependencies (db w) ++ [r] ∧
  td_org_id r = orgId ∧ td_blocking_task_id r = b ∧ td_blocked_task_id r = c ∧
  ¬ rtc (blocks orgId (task_dependencies (db w))) c b.
Proof.
  unfold addDependency. destruct (String.eqb_spec b c) as [|Hne]; [done|].
  unfold bind at 1 2. unfold TaskRepository.findById, select_one.
  repeat (case_match; try done).
  destruct (wouldCreateCycle_reach orgId b c w) as (cyc & E & Hcyc).
  unfold bind at 1. rewrite E. destruct cyc; [done|].
  unfold TaskRepository.insertDependency, bind, gen_random_uuid, now, insert_row, ret.
  destruct (String.eqb_spec b c); [done|].
  intros [= <- <-]. cbn. split_all. intros Hr. by apply Hcyc in Hr.
Qed.

(** A failing [addDependency] leaves the database as it was. *)
Lemma addDependency_throw_inv orgId b c u w e w' :
  addDependency orgId b c u w = (Throw e, w') → db w' = db w.
Proof.
  unfold addDependency. destruct (String.eqb_spec b c) as [|Hne]; [by intros [= <- <-]|].
  unfold bind at 1 2. unfold TaskRepository.findById, select_one.
  repeat (case_match; try by intros [= <- <-]).
  destruct (wouldCreateCycle_reach orgId b c w) as (cyc & E & Hcyc).
  unfold bind at 1. rewrite E. destruct cyc; [by intros [= <- <-]|].
  unfold TaskRepository.insertDependency, bind, gen_random_uuid, now, insert_row, ret.
  by destruct (String.eqb_spec b c); [|intros [=]].
Qed.

Lemma addDependency_acyclic org orgId b c u w :
  acyclic org (task_dependencies (db w)) →
  acyclic org (task_dependencies (db (addDependency orgId b c u w).2)).
Proof.
  intros Hl. destruct (addDependency orgId b c u w) as [[r|e] w'] eqn:E; cbn.
  - apply addDependency_ok_inv in E as (-> & Ho & <- & <- & Hr).
    destruct (decide (orgId = org)) as [->|].
    + by apply acyclic_snoc.
    + apply acyclic_snoc_other; [congruence|done].
  - apply addDependency_throw_inv in E as ->. done.
Qed.

Lemma removeDependency_acyclic org orgId i w :
  acyclic org (task_dependencies (db w)) →
  acyclic org (task_dependencies (db (removeDependency orgId i w).2)).
Proof.
  apply acyclic_sub. cbn. intros d Hd. by apply elem_of_filter_bool in Hd as [? _].
Qed.
End proofs.

(** ** Properties *)

(** The calls a client can make on the dependencies of an organization. *)
Inductive dep_call :=
  | Add (orgId blockingTaskId blockedTaskId createdBy : string)
  | Remove (orgId dependencyId : string).

Definition run_call `{Redis, Random} (c : dep_call) (w : World) : World :=
  match c with
  | Add o b c u => (addDependency o b c u w).2
  | Remove o i => (removeDependency o i w).2
  end.

Section theorems.
Context `{Redis, Random}.

(** C1: [wouldCreateCycle] terminates, changes nothing, and answers [true]
    exactly when the blocked task already reaches the blocking one in the
    dependency graph of the organization, that is, when the new edge would
    close a cycle. *)
Theorem wouldCreateCycle_correct orgId blocking blocked w :
  ∃ b, wouldCreateCycle orgId blocking blocked w = (Ok b, w) ∧
       (b = true ↔ rtc (blocks orgId (task_dependencies (db w))) blocked blocking).
Proof. apply wouldCreateCycle_reach. Qed.

(** from an acyclic dependency graph, no sequence of calls to add and
    remove dependencies, in any organization, whether they succeed or are
    refused, ever creates a cycle. *)
Theorem dependencies_stay_acyclic org (calls : list dep_call) w :
  acyclic org (task_dependencies (db w)) →
  acyclic org (task_dependencies (db (foldl (λ w c, run_call c w) w calls))).
Proof.
  revert w. induction calls as [|c calls IH]; intros w Hw; [done|]. cbn. apply IH.
  destruct c; [by apply addDependency_acyclic|by apply removeDependency_acyclic].
Qed.
End theorems.

Module Examples.
Import Concrete.

Definition task (i : string) : TaskRow :=
  mkTaskRow i "o" "ws" None None 0 i None Todo Medium "u" None None false None None None [] 0 None 0 0 1.

Definition three_tasks : World :=
  (empty_world 0) <| db := empty_db <| tasks := [task "a"; task "b"; task "c"] |> |>.

Definition script : list dep_call :=
  [Add "o" "a" "b" "u"; Add "o" "b" "c" "u"; Add "o" "c" "a" "u"; Add "o" "a" "c" "u"].

(** The third call is refused, the others add their edge. *)
Example script_edges :
  (λ d, (td_blocking_task_id d, td_blocked_task_id d)) <$>
    task_dependencies (db (foldl (λ w c, run_call c w) three_tasks script)) =
  [("a", "b"); ("b", "c"); ("a", "c")]%string.
Proof. vm_compute. reflexivity. Qed.

Lemma empty_acyclic org : acyclic org [].
Proof.
  intros x Hx. assert (∃ y, blocks org [] x y) as (y & d & Hd & _).
  { inversion Hx; eauto. }
  by apply elem_of_nil in Hd.
Qed.

Lemma dependencies_stay_acyclic_witness :
  acyclic "o" (task_dependencies (db (foldl (λ w c, run_call c w) three_tasks script))).
Proof. apply (dependencies_stay_acyclic "o" script three_tasks). apply empty_acyclic. Defined.
End Examples.
End DependencyService.
