(* ===== verification/TaskService.v ===== *)
(** * TaskService: creating, updating and deleting tasks

    [task.service.ts], [bulk.service.ts] and [activity-log.service.ts].  The
    theorems are on the version check (no update is lost), on the status
    machine, on the nesting of subtasks, on the cascade of a deletion and on
    the separation of organizations. *)
From S2P Require Import Prelude Schema World Concrete OrgRepo TaskRepo.
From Stdlib Require Import ZArith Lia.
From stdpp Require Import base tactics strings gmap list relations.

Module ActivityLogService.
Section service.
Context `{Redis, Random}.

Definition log (orgId actorId eventType taskId : string) (payload : json) : M unit :=
  let* id := gen_random_uuid in
  let* t := now in
  insert_row (mkActivityLogRow id orgId taskId actorId eventType payload t).

Definition listForTask (orgId taskId : string) : M (list ActivityLogRow) :=
  select (λ l, (tl_org_id l =? orgId)%string && (tl_task_id l =? taskId)%string).

(** ORDER BY created_at DESC LIMIT .. OFFSET ..: the newest rows are last. *)
Definition listForOrg (orgId : string) (limit offset : nat) : M (list ActivityLogRow) :=
  let* l := select (λ l, (tl_org_id l =? orgId)%string) in
  ret (take limit (drop offset (rev l))).
End service.
End ActivityLogService.

Record CreateTaskInput := mkCreateTaskInput {
  ci_workspace_id : string;
  ci_board_id : option string;
  ci_parent_task_id : option string;
  ci_title : string;
  ci_description : option json;
  ci_status : option task_status;
  ci_priority : option task_priority;
  ci_due_date : option Z;
  ci_is_recurring : option bool;
  ci_recurrence_rule : option string;
  ci_template_id : option string;
  ci_labels : option (list string);
  ci_assignee_ids : option (list string)
}.

(** [const { version, assignee_ids, ...updateData } = input]. *)
Record UpdateTaskInput := mkUpdateTaskInput {
  ui_updateData : UpdateTaskData;
  ui_assignee_ids : option (list string);
  ui_version : Z
}.

Module TaskService.

Definition MAX_TASK_DEPTH : Z := 2.

Definition ALLOWED_TRANSITIONS (s : task_status) : list task_status :=
  match s with
  | Todo => [InProgress; Cancelled]
  | InProgress => [InReview; Done; Cancelled; Todo]
  | InReview => [InProgress; Done; Cancelled]
  | Done => [Todo]
  | Cancelled => [Todo]
  end.

(** The fields present in [updateData], as the JSON the events carry; dates
    in milliseconds. *)
Definition changes_json (d : UpdateTaskData) : json :=
  let field {A} (k : string) (f : A → json) (o : option A) : list (string * json) :=
    match o with Some a => [(k, f a)] | None => [] end in
  let null_or {A} (f : A → json) (o : option A) : json :=
    match o with Some a => f a | None => JNull end in
  JObj (field "title" JStr (ut_title d) ++
        field "description" (null_or id) (ut_description d) ++
        field "status" (λ s, JStr (task_status_str s)) (ut_status d) ++
        field "priority" (λ p, JStr (task_priority_str p)) (ut_priority d) ++
        field "due_date" (null_or JNum) (ut_due_date d) ++
        field "board_id" jopt (ut_board_id d) ++
        field "labels" (λ l, JArr (JStr <$> l)) (ut_labels d) ++
        field "is_recurring" JBool (ut_is_recurring d) ++
        field "recurrence_rule" jopt (ut_recurrence_rule d))%list.

Section service.
Context `{Redis, Random}.

Definition writeOutboxEvent (eventType orgId entityId : string) (actorUserId : option string)
    (payload : json) : M unit :=
  World.writeOutboxEvent (Some orgId) eventType "task" entityId actorUserId payload.

Definition writeActivityLog (orgId taskId actorId action : string) (changes : option json) : M unit :=
  ActivityLogService.log orgId actorId action taskId (changes ?? JObj []).

(** [membership?.role === 'org_owner' || membership?.role === 'org_admin']. *)
Definition isAdmin (membership : option MembershipRow) : bool :=
  match membership with
  | Some m => bool_decide (om_role m = OrgOwner) || bool_decide (om_role m = OrgAdmin)
  | None => false
  end.

(** The depth of the new task, from its parent's. *)
Definition child_depth (orgId : string) (parent_task_id : option string) : M Z :=
  match parent_task_id with
  | Some p =>
      if truthy p then
        let* parent := TaskRepository.findById p in
        match parent with
        | None => throw (NotFoundError "ParentTask")
        | Some t =>
            if negb (t_org_id t =? orgId)%string then throw (NotFoundError "ParentTask")
            else
              let depth := (t_depth t + 1)%Z in
              if (MAX_TASK_DEPTH <? depth)%Z then
                throw (AppError 422 "TASK_DEPTH_EXCEEDED"
                         "Tasks can be nested at most 2 levels deep" None)
              else ret depth
        end
      else ret 0%Z
  | None => ret 0%Z
  end.

Definition assert_member (orgId assigneeId : string) : M unit :=
  let* membership := MembershipRepository.findMembership orgId assigneeId in
  if is_null membership then
    throw (AppError 422 "ASSIGNEE_NOT_IN_ORG"
      ("User " +:+ assigneeId +:+ " is not a member of this organization") None)
  else ret tt.

Definition createTask (orgId userId : string) (input : CreateTaskInput) : M TaskRow :=
  let* depth := child_depth orgId (ci_parent_task_id input) in
  for_each (ci_assignee_ids input ?? []) (assert_member orgId) ;;;
  let* task := TaskRepository.create (mkCreateTaskData orgId (ci_workspace_id input)
    (ci_board_id input) (ci_parent_task_id input) (Some depth) (ci_title input)
    (ci_description input) (Some (ci_status input ?? Todo)) (Some (ci_priority input ?? Medium))
    userId (ci_due_date input) (Some (ci_is_recurring input ?? false)) (ci_recurrence_rule input)
    None (ci_template_id input) (Some (ci_labels input ?? []))) in
  for_each (ci_assignee_ids input ?? []) (λ assigneeId,
    TaskRepository.addAssignee (t_id task) assigneeId orgId userId) ;;;
  writeOutboxEvent "task.created" orgId (t_id task) (Some userId)
    (JObj [("taskId", JStr (t_id task)); ("orgId", JStr orgId);
           ("workspaceId", JStr (ci_workspace_id input)); ("title", JStr (ci_title input))]) ;;;
  writeActivityLog orgId (t_id task) userId "task.created" None ;;;
  ret task.

(** The task of this organization, or [NotFoundError('Task')]. *)
Definition task_of_org (orgId : string) (found : option TaskRow) : M TaskRow :=
  match found with
  | Some t => if negb (t_org_id t =? orgId)%string then throw (NotFoundError "Task") else ret t
  | None => throw (NotFoundError "Task")
  end.

Definition transition_allowed (from to : task_status) : bool :=
  bool_decide (to = from) || existsb (λ s, bool_decide (s = to)) (ALLOWED_TRANSITIONS from).

(** Remove old assignees and re-add. *)
Definition replace_assignees (orgId taskId userId : string) (assignee_ids : list string) : M unit :=
  let* currentAssignees := TaskRepository.getAssignees taskId in
  for_each currentAssignees (λ a, TaskRepository.removeAssignee taskId (ta_user_id a)) ;;;
  for_each assignee_ids (λ assigneeId,
    TaskRepository.addAssignee taskId assigneeId orgId userId).

(** What follows the update of the row. *)
Definition finish_update (orgId taskId userId : string) (input : UpdateTaskInput)
    (updated : TaskRow) : M unit :=
  match ui_assignee_ids input with
  | Some assignee_ids => replace_assignees orgId taskId userId assignee_ids
  | None => ret tt
  end ;;;
  writeOutboxEvent "task.updated" orgId taskId (Some userId)
    (JObj [("taskId", JStr taskId); ("orgId", JStr orgId);
           ("changes", changes_json (ui_updateData input))]) ;;;
  writeActivityLog orgId taskId userId "task.updated"
    (Some (changes_json (ui_updateData input))) ;;;
  if bool_decide (ut_status (ui_updateData input) = Some Done) && t_is_recurring updated then
    enqueue "recurring-tasks" "spawn-next-occurrence"
      (JObj [("parentTaskId", JStr taskId); ("orgId", JStr orgId)])
  else ret tt.

Definition updateTask (orgId taskId userId : string) (input : UpdateTaskInput) : M TaskRow :=
  let* found := TaskRepository.findById taskId in
  let* existing := task_of_org orgId found in
  let* membership := MembershipRepository.findMembership orgId userId in
  if negb (t_creator_id existing =? userId)%string && negb (isAdmin membership) then
    throw (ForbiddenError "INSUFFICIENT_ROLE" "Only the task creator or admins can update this task")
  else
  if match ut_status (ui_updateData input) with
     | Some s => negb (transition_allowed (t_status existing) s)
     | None => false
     end
  then
    throw (AppError 422 "INVALID_STATUS_TRANSITION"
      ("Cannot transition from " +:+ task_status_str (t_status existing) +:+ " to " +:+
       task_status_str (ut_status (ui_updateData input) ?? Todo)) None)
  else
  let* updated := TaskRepository.update orgId taskId (ui_updateData input) (ui_version input) in
  match updated with
  | None =>
      let* again := TaskRepository.findById taskId in
      let* _ := task_of_org orgId again in
      throw (ConflictError "VERSION_CONFLICT" "Task was modified by another request")
  | Some updated =>
      finish_update orgId taskId userId input updated ;;;
      ret updated
  end.

Definition deleteTask (orgId taskId userId : string) : M unit :=
  let* found := TaskRepository.findById taskId in
  let* existing := task_of_org orgId found in
  let* membership := MembershipRepository.findMembership orgId userId in
  if negb (t_creator_id existing =? userId)%string && negb (isAdmin membership) then
    throw (ForbiddenError "INSUFFICIENT_ROLE" "Only the task creator or admins can delete this task")
  else
  TaskRepository.cascadeSoftDelete orgId taskId ;;;
  writeOutboxEvent "task.deleted" orgId taskId (Some userId)
    (JObj [("taskId", JStr taskId); ("orgId", JStr orgId)]) ;;;
  persistAuditLog (Some orgId) (Some userId) ActUser "task.deleted" (Some "task"%string) (Some taskId)
    (JObj [("taskId", JStr taskId); ("orgId", JStr orgId)]).

Definition getTask (orgId taskId : string) : M TaskRow :=
  let* task := TaskRepository.findById taskId in
  task_of_org orgId task.

Definition listTasks (orgId : string) (filters : TaskFilters) : M (list TaskRow) :=
  TaskRepository.findByOrg orgId filters.
End service.
End TaskService.

Module BulkService.
Section service.
Context `{Redis, Random}.

Definition BULK_MAX : nat := 100.

Definition assertAdminOrOwner (orgId userId : string) : M unit :=
  let* membership := MembershipRepository.findMembership orgId userId in
  if TaskService.isAdmin membership then ret tt
  else throw (ForbiddenError "INSUFFICIENT_ROLE"
                "Bulk operations require org_admin or org_owner role").

Definition bulk_size_invalid : error :=
  AppError 422 "BULK_SIZE_INVALID" "Bulk operations require 1–100 task IDs" None.

Definition bulkUpdateStatus (orgId userId : string) (taskIds : list string) (status : task_status)
    : M Z :=
  if Nat.eqb (length taskIds) 0 || Nat.ltb BULK_MAX (length taskIds) then throw bulk_size_invalid
  else
  assertAdminOrOwner orgId userId ;;;
  withTransaction (TaskRepository.bulkUpdateStatus orgId taskIds status).

Definition bulkDelete (orgId userId : string) (taskIds : list string) : M Z :=
  if Nat.eqb (length taskIds) 0 || Nat.ltb BULK_MAX (length taskIds) then throw bulk_size_invalid
  else
  assertAdminOrOwner orgId userId ;;;
  withTransaction (TaskRepository.bulkSoftDelete orgId taskIds).
End service.
End BulkService.

(** ** What a call does to the tasks *)

Inductive task_call :=
  | CreateTask (orgId userId : string) (input : CreateTaskInput)
  | UpdateTask (orgId taskId userId : string) (input : UpdateTaskInput)
  | DeleteTask (orgId taskId userId : string)
  | BulkUpdateStatus (orgId userId : string) (taskIds : list string) (status : task_status)
  | BulkDelete (orgId userId : string) (taskIds : list string).

Definition call_org (c : task_call) : string :=
  match c with
  | CreateTask o _ _ | UpdateTask o _ _ _ | DeleteTask o _ _
  | BulkUpdateStatus o _ _ _ | BulkDelete o _ _ => o
  end.

(** The state after a call, whether it succeeded or was refused. *)
Definition run_call `{Redis, Random} (c : task_call) (w : World) : World :=
  match c with
  | CreateTask o u i => (TaskService.createTask o u i w).2
  | UpdateTask o t u i => (TaskService.updateTask o t u i w).2
  | DeleteTask o t u => (TaskService.deleteTask o t u w).2
  | BulkUpdateStatus o u ids s => (BulkService.bulkUpdateStatus o u ids s w).2
  | BulkDelete o u ids => (BulkService.bulkDelete o u ids w).2
  end.

Definition run_calls `{Redis, Random} (cs : list task_call) (w : World) : World :=
  foldl (λ w c, run_call c w) w cs.

(** A task is a root at depth 0, or one level below a task of its
    organization, at most two levels deep. *)
Definition placed (l : list TaskRow) (row : TaskRow) : Prop :=
  match t_parent_task_id row with
  | None => t_depth row = 0%Z
  | Some p => ∃ par, par ∈ l ∧ t_id par = p ∧ t_org_id par = t_org_id row ∧
                     t_depth row = (t_depth par + 1)%Z
  end ∧ (0 ≤ t_depth row ≤ 2)%Z.

(** The row a call may append to table [l], with the identifier drawn. *)
Record created (orgId fresh : string) (l : list TaskRow) (row : TaskRow) : Prop := {
  cr_id : t_id row = fresh;
  cr_org : t_org_id row = orgId;
  cr_version : t_version row = 1%Z;
  cr_live : t_deleted_at row = None;
  cr_placed : placed l row;
}.

(** The updates of the tasks that one call can make. *)
Inductive task_update (orgId : string) (l : list TaskRow) : list TaskRow → Prop :=
  | upd_none : task_update orgId l l
  | upd_update taskId version t d existing :
      List.find (TaskRepository.live_id taskId) l = Some existing →
      (∀ s, ut_status d = Some s → TaskService.transition_allowed (t_status existing) s = true) →
      task_update orgId l
        (upd_where (TaskRepository.versioned orgId taskId version)
           (λ r, touch t (TaskRepository.set_clauses t d r)) l)
  | upd_cascade taskId ids t :
      TaskRepository.subtasks (TaskRepository.subtasks_fuel l) orgId l [taskId] = Some ids →
      task_update orgId l
        (upd_where (TaskRepository.live_in orgId taskId) (λ r, touch t (r <| t_deleted_at := Some t |>))
           (upd_where (λ r, includes ids (t_id r)) (λ r, touch t (r <| t_deleted_at := Some t |>)) l))
  | upd_bulk_status ids s t :
      task_update orgId l
        (upd_where (TaskRepository.selected orgId ids)
           (λ r, touch t (r <| t_status := s |>
              <| t_completed_at := if bool_decide (s = Done) then Some t else t_completed_at r |>)) l)
  | upd_bulk_delete ids t :
      task_update orgId l
        (upd_where (TaskRepository.selected orgId ids)
           (λ r, touch t (r <| t_deleted_at := Some t |>)) l).

(** One call: an update, or a new row with an identifier just drawn. *)
Definition task_step `{Redis, Random} (orgId : string) (w w' : World) : Prop :=
  task_update orgId (tasks (db w)) (tasks (db w')) ∨
  ∃ row, tasks (db w') = tasks (db w) ++ [row] ∧ draws w < draws w' ∧
         created orgId (random_uuid (draws w)) (tasks (db w)) row.

Section steps.
Context `{Redis, Random}.

Lemma child_depth_spec orgId p w :
  wp (TaskService.child_depth orgId p) (λ r w', w' = w ∧ ∀ d, r = Ok d →
    match p with
    | Some p =>
        if truthy p then
          ∃ par, List.find (TaskRepository.live_id p) (tasks (db w)) = Some par ∧
                 t_org_id par = orgId ∧ d = (t_depth par + 1)%Z
        else d = 0%Z
    | None => d = 0%Z
    end) w.
Proof.
  unfold wp, TaskService.child_depth. destruct p as [p|]; [|naive_solver].
  destruct (truthy p); [|naive_solver].
  unfold bind, TaskRepository.findById, select_one. tables.
  destruct (List.find _ _) as [par|]; [|naive_solver]. cbn.
  destruct (String.eqb_spec (t_org_id par) orgId); cbn; [|naive_solver].
  destruct (Z.ltb _ _); naive_solver.
Qed.

Lemma assert_members_spec orgId l w :
  (for_each l (TaskService.assert_member orgId) w).2 = w.
Proof.
  induction l as [|x l IH]; [done|]. cbn. unfold bind, TaskService.assert_member at 1, bind,
    MembershipRepository.findMembership, select_one. by destruct (List.find _ _); cbn.
Qed.

(** The writes after the change of the task leave the tasks alone. *)
Lemma preserves_activity (I : list TaskRow → Prop) o a e t p :
  preserves (on_table I) (ActivityLogService.log o a e t p).
Proof. unfold ActivityLogService.log. preserve. Qed.
Lemma preserves_addAssignee (I : list TaskRow → Prop) t u o a :
  preserves (on_table I) (TaskRepository.addAssignee t u o a).
Proof. unfold TaskRepository.addAssignee. preserve. Qed.
Lemma preserves_removeAssignee (I : list TaskRow → Prop) t u :
  preserves (on_table I) (TaskRepository.removeAssignee t u).
Proof. unfold TaskRepository.removeAssignee. preserve. Qed.
Hint Resolve preserves_activity preserves_addAssignee preserves_removeAssignee : inv.
End steps.
#[export] Hint Resolve preserves_activity preserves_addAssignee preserves_removeAssignee : inv.

Section steps.
Context `{Redis, Random}.

(** [create] appends one row, or refuses and changes no table. *)
Lemma create_spec d w :
  wp (TaskRepository.create d) (λ r w', match r with
    | Ok row => tasks (db w') = tasks (db w) ++ [row] ∧ t_id row = random_uuid (draws w) ∧
        t_org_id row = ct_org_id d ∧ t_version row = 1%Z ∧ t_deleted_at row = None ∧
        t_parent_task_id row = ct_parent_task_id d ∧ t_depth row = (ct_depth d ?? 0%Z) ∧
        (0 ≤ t_depth row ≤ 2)%Z ∧ ct_parent_task_id d ≠ Some "" ∧ draws w' = S (draws w)
    | Throw _ => db w' = db w
    end) w.
Proof.
  unfold wp, TaskRepository.create, bind, gen_random_uuid, now, select_one, insert_row, ret, throw.
  destruct (is_val (ct_parent_task_id d) "") eqn:Ev; [done|].
  destruct (is_null _); [done|]. destruct (andb (negb _) _); [done|].
  destruct (andb (_ <=? _)%Z _) eqn:Ed; [|done]. cbn. bool_to_prop. split_all.
  intros E. by rewrite E in Ev.
Qed.

Lemma createTask_step orgId userId input w :
  wp (TaskService.createTask orgId userId input) (λ _ w', task_step orgId w w') w.
Proof.
  unfold TaskService.createTask. apply wp_bind.
  eapply wp_mono; [apply child_depth_spec|].
  intros [depth|e] w1 [-> Hd]; [|left; constructor].
  apply wp_bind. unfold wp at 1. rewrite assert_members_spec.
  destruct (for_each _ _ w).1; [|left; constructor].
  apply wp_bind. eapply wp_mono; [apply create_spec|].
  intros [row|e] w2; [|intros E; left; rewrite E; constructor].
  intros (E & Hid & Ho & Hv & Hdel & Hp & Hdep & Hb & Hne & Hdr). cbn in Ho, Hp, Hdep, Hne.
  eapply (wp_preserves (λ w', on_table (λ l, l = tasks (db w) ++ [row]) w' ∧
    ambient (S (draws w)) (clock w2) (redis_up w2) w')).
  { unfold TaskService.writeOutboxEvent, TaskService.writeActivityLog, ActivityLogService.log,
      TaskRepository.addAssignee.
    apply preserves_and; preserve. }
  { split; [done|]. by split_all; rewrite Hdr. }
  intros r w' [? (? & _ & _)]. right. exists row.
  split; [done|]. split; [lia|]. split; try done. split; [|done].
  rewrite Hp. specialize (Hd depth eq_refl).
  destruct (ci_parent_task_id input) as [p|]; [|congruence].
  assert (truthy p = true) as Htr.
  { unfold truthy. destruct (String.eqb_spec p ""); [congruence|done]. }
  rewrite Htr in Hd. destruct Hd as (par & [Hin Hl]%find_some_elem & <- & ->).
  unfold TaskRepository.live_id in Hl. bool_to_prop. exists par. split_all; congruence.
Qed.

(** Whatever a call does before the change of the tasks reads only. *)
Lemma task_of_org_spec orgId found w :
  TaskService.task_of_org orgId found w =
  match found with
  | Some t => if (t_org_id t =? orgId)%string then (Ok t, w) else (Throw (NotFoundError "Task"), w)
  | None => (Throw (NotFoundError "Task"), w)
  end.
Proof. unfold TaskService.task_of_org. destruct found as [t|]; [|done]. by destruct String.eqb. Qed.

Lemma update_spec orgId taskId d v w :
  TaskRepository.update orgId taskId d v w =
  if TaskRepository.no_clauses d then
    (Ok (List.find (TaskRepository.live_id taskId) (tasks (db w))), w)
  else
    let f := λ r, touch (clock w) (TaskRepository.set_clauses (clock w) d r) in
    let P := TaskRepository.versioned orgId taskId v in
    (Ok (f <$> List.find P (tasks (db w))),
     w <| db := (db w) <| tasks := upd_where P f (tasks (db w)) |> |>).
Proof.
  unfold TaskRepository.update. destruct (TaskRepository.no_clauses d); [done|].
  unfold bind, now, update_touch, bind, now, update_where, ret, ret_where. cbn. tables.
  f_equal. f_equal. rewrite <- hd_filter_find. by destruct (List.filter _ _).
Qed.

Definition authorized (orgId userId : string) (existing : TaskRow) (w : World) : bool :=
  (t_creator_id existing =? userId)%string ||
  TaskService.isAdmin (List.find (MembershipRepository.of_pair orgId userId) (org_memberships (db w))).

(** The checks of [updateTask] change nothing; when they pass, the row is
    updated and the rest follows. *)
Lemma wp_updateTask orgId taskId userId input Q w :
  (∀ e, Q (Throw e) w) →
  (∀ existing,
     List.find (TaskRepository.live_id taskId) (tasks (db w)) = Some existing →
     t_org_id existing = orgId → authorized orgId userId existing w = true →
     (∀ s, ut_status (ui_updateData input) = Some s →
           TaskService.transition_allowed (t_status existing) s = true) →
     wp (TaskRepository.update orgId taskId (ui_updateData input) (ui_version input)) (λ r w1,
       match r with
       | Ok (Some updated) =>
           wp (TaskService.finish_update orgId taskId userId input updated ;;; ret updated) Q w1
       | _ => ∀ e, Q (Throw e) w1
       end) w) →
  wp (TaskService.updateTask orgId taskId userId input) Q w.
Proof.
  intros Hthrow Hok. unfold TaskService.updateTask. apply wp_bind.
  unfold wp at 1, TaskRepository.findById at 1, select_one at 1. tables. cbn.
  apply wp_bind. unfold wp at 1. rewrite task_of_org_spec.
  destruct (List.find _ _) as [existing|] eqn:Ef; [|apply Hthrow].
  destruct (String.eqb_spec (t_org_id existing) orgId); [|apply Hthrow]. cbn.
  apply wp_bind. unfold wp at 1, MembershipRepository.findMembership, select_one. tables. cbn.
  destruct (andb (negb _) _) eqn:Ea; [apply Hthrow|].
  destruct (match ut_status _ with Some _ => _ | None => _ end) eqn:Et; [apply Hthrow|].
  apply wp_bind. eapply wp_mono.
  { apply (Hok existing); try done.
    - unfold authorized. destruct String.eqb, TaskService.isAdmin; done.
    - intros s Hs. rewrite Hs in Et. by bool_to_prop. }
  intros [[updated|]|err] w1 Hw1; [done| |apply Hw1].
  apply wp_bind. unfold wp at 1, TaskRepository.findById, select_one. cbn.
  unfold wp, bind. rewrite task_of_org_spec.
  destruct (List.find _ (rows (db w1))) as [t|]; [destruct (t_org_id t =? orgId)%string|]; apply Hw1.
Qed.

(** The rest leaves the tasks alone. *)
Lemma preserves_finish_update (I : list TaskRow → Prop) o t u i r :
  preserves (on_table I) (TaskService.finish_update o t u i r).
Proof.
  unfold TaskService.finish_update, TaskService.writeOutboxEvent, TaskService.writeActivityLog,
    TaskService.replace_assignees, TaskRepository.getAssignees, enqueue. preserve.
Qed.

Lemma updateTask_update orgId taskId userId input w :
  wp (TaskService.updateTask orgId taskId userId input)
    (λ _ w', task_update orgId (tasks (db w)) (tasks (db w'))) w.
Proof.
  apply wp_updateTask; [constructor|]. intros existing Hf _ _ Hs.
  assert (task_update orgId (tasks (db w)) (tasks (db
    (TaskRepository.update orgId taskId (ui_updateData input) (ui_version input) w).2))) as Hu.
  { rewrite update_spec. destruct TaskRepository.no_clauses; [constructor|].
    eapply upd_update; eauto. }
  unfold wp at 1.
  destruct (TaskRepository.update _ _ _ _ w) as [[[updated|]|e] w1]; [|intros err; exact Hu..].
  eapply wp_mono; [apply (wp_then_ret (on_table (task_update orgId (tasks (db w)))))|];
    [apply preserves_finish_update|exact Hu|]. by intros r w' [? _].
Qed.

Lemma deleteTask_update orgId taskId userId w :
  wp (TaskService.deleteTask orgId taskId userId)
    (λ _ w', task_update orgId (tasks (db w)) (tasks (db w'))) w.
Proof.
  unfold TaskService.deleteTask. apply wp_bind.
  unfold wp at 1, TaskRepository.findById, select_one. tables. cbn.
  apply wp_bind. unfold wp at 1. rewrite task_of_org_spec.
  destruct (List.find _ _) as [existing|] eqn:Ef; [|constructor].
  destruct (String.eqb_spec (t_org_id existing) orgId); [|constructor]. cbn.
  apply wp_bind. unfold wp at 1, MembershipRepository.findMembership, select_one. cbn.
  destruct (andb (negb _) _); [constructor|].
  apply wp_bind. unfold wp at 1, TaskRepository.cascadeSoftDelete, withTransaction, bind, now, select.
  tables. rewrite filter_all.
  destruct TaskRepository.subtasks as [ids|] eqn:Es; [|constructor]. cbn -[bind].
  eapply (wp_preserves (on_table (task_update orgId (tasks (db w))))); [| |by intros r w'].
  { unfold TaskService.writeOutboxEvent. preserve. }
  unfold on_table. tables. cbn. by apply upd_cascade.
Qed.

Lemma bulk_update orgId userId (op : M Z) w :
  task_update orgId (tasks (db w)) (tasks (db (op w).2)) →
  wp (BulkService.assertAdminOrOwner orgId userId ;;; withTransaction op)
    (λ _ w', task_update orgId (tasks (db w)) (tasks (db w'))) w.
Proof.
  intros Hop. unfold wp, bind, BulkService.assertAdminOrOwner, bind,
    MembershipRepository.findMembership, select_one.
  destruct TaskService.isAdmin; [|constructor]. cbn. unfold withTransaction.
  destruct (op w) as [[a|e] w']; [done|constructor].
Qed.

Lemma run_call_step c w : task_step (call_org c) w (run_call c w).
Proof.
  destruct c; cbn [call_org run_call]; [apply createTask_step|left..].
  - apply updateTask_update.
  - apply deleteTask_update.
  - unfold BulkService.bulkUpdateStatus. destruct orb; [constructor|]. apply bulk_update.
    destruct taskIds; [constructor|]. apply upd_bulk_status.
  - unfold BulkService.bulkDelete. destruct orb; [constructor|]. apply bulk_update.
    destruct taskIds; [constructor|]. apply upd_bulk_delete.
Qed.
End steps.

(** ** The invariant of the tasks *)

Definition well_nested (l : list TaskRow) : Prop := ∀ row, row ∈ l → placed l row.

Record task_inv `{Redis, Random} (w : World) : Prop := {
  (** the primary key *)
  ti_ids : NoDup (t_id <$> tasks (db w));
  (** identifiers still to be drawn are not in use *)
  ti_fresh : ∀ r n, r ∈ tasks (db w) → t_id r = random_uuid n → n < draws w;
  ti_nested : well_nested (tasks (db w));
}.

(** What no update of a task changes. *)
Definition skeleton (r : TaskRow) : string * string * option string * Z :=
  (t_id r, t_org_id r, t_parent_task_id r, t_depth r).

Lemma task_update_skeleton orgId l l' :
  task_update orgId l l' → skeleton <$> l' = skeleton <$> l.
Proof. destruct 1; rewrite ?(fmap_upd_where skeleton) by done; done. Qed.

Lemma skeleton_ids (l l' : list TaskRow) : skeleton <$> l' = skeleton <$> l → t_id <$> l' = t_id <$> l.
Proof.
  intros E. apply (f_equal (fmap (λ s : string * string * option string * Z, s.1.1.1))) in E.
  by rewrite <- !list_fmap_compose in E.
Qed.

Lemma skeleton_elem (l l' : list TaskRow) r :
  skeleton <$> l' = skeleton <$> l → r ∈ l' → ∃ r0, r0 ∈ l ∧ skeleton r0 = skeleton r.
Proof.
  intros E Hr. assert (skeleton r ∈ skeleton <$> l') as Hs by by apply list_elem_of_fmap_2.
  rewrite E in Hs. apply list_elem_of_fmap in Hs as (r0 & ? & ?). eauto.
Qed.

Lemma placed_skeleton (l l' : list TaskRow) r r0 :
  skeleton <$> l' = skeleton <$> l → skeleton r0 = skeleton r → placed l r0 → placed l' r.
Proof.
  unfold placed. intros E [= E1 E2 E3 E4] [Hp Hd]. rewrite <- E4. split; [|done].
  rewrite <- E3. destruct (t_parent_task_id r0) as [p|]; [|done].
  destruct Hp as (par & Hpar & ? & ? & ?).
  destruct (skeleton_elem l' l par) as (par' & ? & [= ? ? ? ?]); [done..|].
  exists par'. split_all; congruence.
Qed.

Lemma well_nested_skeleton (l l' : list TaskRow) :
  skeleton <$> l' = skeleton <$> l → well_nested l → well_nested l'.
Proof.
  intros E Hl r Hr. destruct (skeleton_elem _ _ _ E Hr) as (r0 & ? & ?).
  eapply placed_skeleton; eauto.
Qed.

Lemma placed_app l row r : placed l r → placed (l ++ [row]) r.
Proof.
  unfold placed. destruct (t_parent_task_id r); [|done]. intros [(par & ? & ?) ?].
  split; [|done]. exists par. split; [apply elem_of_app; by left|done].
Qed.

Section invariant.
Context `{Redis, Random, !RandomLaws _}.

Lemma run_call_ambient c n t up w : ambient n t up w → ambient n t up (run_call c w).
Proof.
  intros Hw. destruct c; cbn [run_call].
  all: match goal with |- ambient _ _ _ (?m ?w0).2 =>
         cut (preserves (ambient n t up) m); [intros Hm; by apply Hm|] end.
  all: unfold TaskService.createTask, TaskService.updateTask, TaskService.deleteTask,
    BulkService.bulkUpdateStatus, BulkService.bulkDelete, BulkService.assertAdminOrOwner,
    TaskService.child_depth, TaskService.assert_member, TaskService.task_of_org,
    TaskRepository.findById, TaskRepository.create, TaskRepository.update,
    TaskService.finish_update, TaskService.replace_assignees, TaskRepository.getAssignees, TaskRepository.removeAssignee, TaskRepository.addAssignee,
    TaskRepository.cascadeSoftDelete, TaskRepository.bulkUpdateStatus,
    TaskRepository.bulkSoftDelete, MembershipRepository.findMembership,
    TaskService.writeOutboxEvent, TaskService.writeActivityLog, ActivityLogService.log, enqueue.
  all: preserve.
Qed.

Lemma task_inv_call c w : task_inv w → task_inv (run_call c w).
Proof.
  intros [Hid Hfr Hn].
  destruct (run_call_ambient c (draws w) (clock w) (redis_up w) w) as (Hdr & _ & _); [done|].
  destruct (run_call_step c w) as [Hu%task_update_skeleton|(row & E & Hlt & [Hrid _ _ _ Hp])].
  - split.
    + by rewrite (skeleton_ids _ _ Hu).
    + intros r n Hr Hrn. destruct (skeleton_elem _ _ _ Hu Hr) as (r0 & Hr0 & [= ? ? ? ?]).
      assert (n < draws w); [|lia]. eapply Hfr; [exact Hr0|congruence].
    + by eapply well_nested_skeleton.
  - split; rewrite ?E.
    + rewrite fmap_app. apply NoDup_app. split_all; [|apply NoDup_singleton].
      intros x (r & -> & Hr)%list_elem_of_fmap Hx.
      apply list_elem_of_singleton in Hx. rewrite Hrid in Hx.
      apply Hfr in Hx; [lia|done].
    + intros r n [Hr| ->%list_elem_of_singleton]%elem_of_app Hrn.
      * eapply Nat.lt_trans; [by eapply Hfr|done].
      * rewrite Hrid in Hrn. apply random_uuid_inj in Hrn. lia.
    + intros r [Hr| ->%list_elem_of_singleton]%elem_of_app; apply placed_app; auto.
Qed.

Lemma task_inv_calls cs w : task_inv w → task_inv (run_calls cs w).
Proof. revert w. induction cs; intros w Hw; [done|]. cbn. eauto using task_inv_call. Qed.
End invariant.

(** ** The cascade of a deletion *)

(** [y] is a live subtask of [x] in the organization. *)
Definition child_of (orgId : string) (l : list TaskRow) (x y : string) : Prop :=
  ∃ r, r ∈ l ∧ t_parent_task_id r = Some x ∧ t_id r = y ∧ t_org_id r = orgId ∧ t_deleted_at r = None.

Section cascade.
Context (orgId : string) (l : list TaskRow).

Lemma elem_of_children ids y :
  y ∈ TaskRepository.children orgId l ids ↔ ∃ x, x ∈ ids ∧ child_of orgId l x y.
Proof.
  unfold TaskRepository.children, child_of. rewrite list_elem_of_fmap. split.
  - intros (r & -> & [Hr HP]%elem_of_filter_bool). bool_to_prop.
    destruct (t_parent_task_id r) as [p|] eqn:Ep; [|done].
    exists p. split; [by apply includes_spec|]. exists r. split_all; by apply is_null_spec.
  - intros (x & Hx & r & Hr & Hp & <- & Ho & Hd). exists r. split; [done|].
    apply elem_of_filter_bool. split; [done|].
    rewrite Hp, Ho, Hd, String.eqb_refl. cbn. rewrite andb_true_r. by rewrite (proj2 (includes_spec ids x)).
Qed.

Lemma subtasks_spec fuel ids res y :
  TaskRepository.subtasks fuel orgId l ids = Some res →
  y ∈ res ↔ ∃ x, x ∈ ids ∧ tc (child_of orgId l) x y.
Proof.
  revert ids res. induction fuel as [|fuel IH]; intros ids res; [done|]. cbn.
  pose proof (elem_of_children ids) as Hc. destruct (TaskRepository.children _ _ _) as [|c level].
  - intros [= <-]. split; [by intros ?%elem_of_nil|]. intros (x & Hx & Ht).
    assert (∃ z, child_of orgId l x z) as (z & Hz) by (inversion Ht; eauto).
    exfalso. eapply not_elem_of_nil, (Hc z). eauto.
  - destruct (TaskRepository.subtasks fuel _ _ _) as [res'|] eqn:E; [|done].
    intros [= <-]. rewrite app_comm_cons, elem_of_app, Hc, (IH _ _ E). split.
    + intros [(x & ? & ?)|(x' & (x & ? & ?)%Hc & ?)]; [eauto using tc_once|].
      eauto using tc_l.
    + intros (x & Hx & Ht). inversion Ht as [? ? Hxy|? z ? Hxz Hzy]; subst; [eauto|].
      right. exists z. split; [|done]. apply Hc. eauto.
Qed.

(** The tasks in [ids] are at depth [k] or deeper. *)
Definition deeper (k : Z) (ids : list string) : Prop :=
  ∀ r, r ∈ l → t_id r ∈ ids → (k ≤ t_depth r)%Z.

Context (Hids : NoDup (t_id <$> l)) (Hnested : well_nested l).

Lemma children_deeper k ids :
  deeper k ids → deeper (k + 1) (TaskRepository.children orgId l ids).
Proof.
  intros Hk r Hr (x & Hx & r' & Hr' & Hp & E & _ & _)%elem_of_children.
  apply (NoDup_fmap_elem t_id l) in E as ->; [|done..].
  destruct (Hnested r Hr) as [Hpl _]. rewrite Hp in Hpl.
  destruct Hpl as (par & Hpar & <- & _ & ->). specialize (Hk par Hpar Hx). lia.
Qed.

(** Below depth 2 there is nothing. *)
Lemma subtasks_some k ids n :
  deeper k ids → (2 ≤ k + Z.of_nat n)%Z → is_Some (TaskRepository.subtasks (S n) orgId l ids).
Proof.
  revert k ids. induction n as [|n IH]; intros k ids Hk Hn;
    pose proof (children_deeper k ids Hk) as Hd; cbn.
  - destruct (TaskRepository.children orgId l ids) as [|c level] eqn:E; [eauto|]. exfalso.
    assert (c ∈ TaskRepository.children orgId l ids) as Hc by (rewrite E; by left).
    rewrite <- E in Hd. pose proof Hc as (x & _ & r & Hr & _ & <- & _)%elem_of_children.
    specialize (Hd r Hr Hc). destruct (Hnested r Hr). lia.
  - destruct (TaskRepository.children orgId l ids) as [|c level] eqn:E; [eauto|].
    destruct (IH (k + 1)%Z (c :: level)) as [res Hres]; [done|lia|].
    cbn in Hres. rewrite Hres. eauto.
Qed.

(** The recursive query of [cascadeSoftDelete] ends. *)
Lemma cascade_terminates taskId :
  is_Some (TaskRepository.subtasks (TaskRepository.subtasks_fuel l) orgId l [taskId]).
Proof.
  apply (subtasks_some 0); [|lia]. intros r Hr _. destruct (Hnested r Hr). lia.
Qed.
End cascade.

(** The task deleted and everything below it. *)
Definition doomed (orgId taskId : string) (l : list TaskRow) (r : TaskRow) : Prop :=
  t_id r = taskId ∨ tc (child_of orgId l) taskId (t_id r).

Definition deleted (t : Z) (r : TaskRow) : TaskRow := touch t (r <| t_deleted_at := Some t |>).

Lemma tc_child_row orgId l x y :
  tc (child_of orgId l) x y → ∃ r, r ∈ l ∧ t_id r = y ∧ t_org_id r = orgId ∧ t_deleted_at r = None.
Proof. induction 1 as [x y (r & ? & ? & ? & ? & ?)|]; eauto 10. Qed.

(** The two updates together, row by row. *)
Lemma cascade_row orgId taskId l ids t r :
  NoDup (t_id <$> l) → r ∈ l →
  (∃ r0, List.find (TaskRepository.live_id taskId) l = Some r0 ∧ t_org_id r0 = orgId) →
  TaskRepository.subtasks (TaskRepository.subtasks_fuel l) orgId l [taskId] = Some ids →
  let r1 := if includes ids (t_id r) then deleted t r else r in
  let r2 := if TaskRepository.live_in orgId taskId r1 then deleted t r1 else r1 in
  (doomed orgId taskId l r → r2 = deleted t r) ∧ (¬ doomed orgId taskId l r → r2 = r).
Proof.
  intros Hnd Hr (r0 & [Hr0 Hl0]%find_some_elem & Ho) Hids r1 r2.
  assert (Hiff : includes ids (t_id r) = true ↔ tc (child_of orgId l) taskId (t_id r)).
  { rewrite includes_spec, (subtasks_spec orgId l _ _ _ _ Hids). set_solver. }
  unfold TaskRepository.live_id in Hl0. bool_to_prop.
  subst r1 r2. destruct (includes ids (t_id r)) eqn:Ei.
  - assert (TaskRepository.live_in orgId taskId (deleted t r) = false) as ->.
    { unfold TaskRepository.live_in. cbn. apply andb_false_r. }
    split; [done|]. intros []. right. by apply Hiff.
  - destruct (TaskRepository.live_in orgId taskId r) eqn:El.
    + split; [done|]. intros []. left. unfold TaskRepository.live_in in El. by bool_to_prop.
    + split; [|done]. intros [Hd|Hd]; [|apply Hiff in Hd; congruence]. exfalso.
      assert (r = r0) as -> by (eapply (NoDup_fmap_elem t_id l); [done..|congruence]).
      unfold TaskRepository.live_in in El. rewrite Hd, Ho, !String.eqb_refl in El. cbn in El. congruence.
Qed.

(** ** Versions *)



Section versions.
Context `{Redis, Random, !RandomLaws _}.





(** ** Updating a task *)




End versions.

(** ** Separation of organizations *)

Definition of_org (orgId : string) (r : TaskRow) : bool := (t_org_id r =? orgId)%string.

Lemma filter_upd_other org P f l :
  (∀ r, t_org_id (f r) = t_org_id r) →
  (∀ r, r ∈ l → P r = true → t_org_id r ≠ org) →
  List.filter (of_org org) (upd_where P f l) = List.filter (of_org org) l.
Proof.
  intros Hf Hl. unfold upd_where. induction l as [|r l IH]; [done|]. cbn.
  rewrite IH by (intros r' Hr'; apply Hl; by right).
  destruct (P r) eqn:E; [|done].
  assert (of_org org r = false) as Hr by (apply String.eqb_neq, Hl; [by left|done]).
  unfold of_org in *. by rewrite Hf, Hr.
Qed.

Lemma task_update_other org orgId l l' :
  NoDup (t_id <$> l) → orgId ≠ org → task_update orgId l l' →
  List.filter (of_org org) l' = List.filter (of_org org) l.
Proof.
  intros Hnd Hne Hu. destruct Hu as [|? v t d ex Hf Hs|taskId ids t Hids|ids s t|ids t]; [done|..].
  2:{ rewrite filter_upd_other; [|done|].
      - apply filter_upd_other; [done|]. intros r Hr Hi.
        apply includes_spec, (subtasks_spec orgId l _ _ _ _ Hids) in Hi as (x & _ & Ht).
        apply tc_child_row in Ht as (r' & Hr' & E & Ho & _).
        rewrite <- (NoDup_fmap_elem t_id l r' r) by done. congruence.
      - intros r _ HP. unfold TaskRepository.live_in in HP. bool_to_prop. congruence. }
  all: apply filter_upd_other; [done|]; intros r _ HP;
    unfold TaskRepository.versioned, TaskRepository.selected in HP; bool_to_prop; congruence.
Qed.

(** ** Assignees *)

Section assignees.
Context `{Redis, Random}.

(** The users assigned to a task. *)
Definition assigned (taskId : string) (w : World) : list string :=
  ta_user_id <$> List.filter (λ a, (ta_task_id a =? taskId)%string) (task_assignees (db w)).

Lemma elem_of_assigned taskId u w :
  u ∈ assigned taskId w ↔
  ∃ a, a ∈ task_assignees (db w) ∧ ta_task_id a = taskId ∧ ta_user_id a = u.
Proof.
  unfold assigned. rewrite list_elem_of_fmap. setoid_rewrite elem_of_filter_bool.
  setoid_rewrite String.eqb_eq. naive_solver.
Qed.

Lemma removeAssignee_assigned taskId x u w :
  u ∈ assigned taskId (TaskRepository.removeAssignee taskId x w).2 ↔ u ∈ assigned taskId w ∧ u ≠ x.
Proof.
  rewrite !elem_of_assigned. cbn. setoid_rewrite elem_of_filter_bool.
  unfold TaskRepository.assignee. setoid_rewrite negb_true_iff.
  setoid_rewrite andb_false_iff. setoid_rewrite String.eqb_neq. naive_solver.
Qed.

Lemma removeAssignees_assigned taskId (l : list TaskAssigneeRow) u w :
  let r := for_each l (λ a, TaskRepository.removeAssignee taskId (ta_user_id a)) w in
  r.1 = Ok tt ∧ (u ∈ assigned taskId r.2 ↔ u ∈ assigned taskId w ∧ u ∉ ta_user_id <$> l).
Proof.
  revert w. induction l as [|a l IH]; intros w; cbn [for_each]; [set_solver|].
  unfold bind. destruct (IH (TaskRepository.removeAssignee taskId (ta_user_id a) w).2) as [E Hu].
  split; [exact E|]. etrans; [exact Hu|]. rewrite removeAssignee_assigned. set_solver.
Qed.

Lemma addAssignee_assigned taskId x orgId by_ u w :
  let r := TaskRepository.addAssignee taskId x orgId by_ w in
  r.1 = Ok tt → u ∈ assigned taskId r.2 ↔ u ∈ assigned taskId w ∨ u = x.
Proof.
  unfold TaskRepository.addAssignee, bind, now, select_one, insert_or_ignore, insert_row. cbn zeta.
  destruct (andb _ _); [done|]. rewrite !elem_of_assigned.
  tables. destruct (existsb _ _) eqn:Ex; intros _; cbn.
  - apply existsb_exists in Ex as (a & Ha%list_elem_of_In & Hm).
    unfold TaskRepository.assignee in Hm. bool_to_prop.
    split; [by left|]. intros [Hu| ->]; [done|]. by exists a.
  - setoid_rewrite elem_of_app. setoid_rewrite list_elem_of_singleton. split.
    + intros (a & [Ha| ->] & <- & <-); [left; eauto|by right].
    + intros [(a & ? & ? & ?)| ->]; eauto 10.
Qed.

Lemma addAssignees_assigned taskId orgId by_ ids u w :
  let r := for_each ids (λ x, TaskRepository.addAssignee taskId x orgId by_) w in
  r.1 = Ok tt → u ∈ assigned taskId r.2 ↔ u ∈ assigned taskId w ∨ u ∈ ids.
Proof.
  revert w. induction ids as [|x ids IH]; intros w; cbn [for_each]; [set_solver|].
  unfold bind. pose proof (addAssignee_assigned taskId x orgId by_ u w) as Ha.
  destruct (TaskRepository.addAssignee taskId x orgId by_ w) as [[[]|e] w1]; [|done].
  intros E. rewrite (IH w1 E), (Ha eq_refl). set_solver.
Qed.

Lemma replace_assignees_assigned orgId taskId userId ids u w :
  let r := TaskService.replace_assignees orgId taskId userId ids w in
  r.1 = Ok tt → u ∈ assigned taskId r.2 ↔ u ∈ ids.
Proof.
  unfold TaskService.replace_assignees, bind, TaskRepository.getAssignees, select. tables.
  pose proof (removeAssignees_assigned taskId
    (List.filter (λ a, (ta_task_id a =? taskId)%string) (task_assignees (db w))) u w) as [E Hr].
  destruct (for_each _ _ w) as [[[]|e] w1]; [|done].
  intros Ha. rewrite (addAssignees_assigned _ _ _ _ _ _ Ha). cbn in Hr. rewrite Hr.
  unfold assigned. tauto.
Qed.
End assignees.

(** ** Properties *)

Module TaskProperties.
Section theorems.
Context `{Redis, Random, !RandomLaws _}.



(** C5: tenants are separate.  Calls made in other organizations, whatever
    the identifiers they name and whether they succeed or not, leave the
    tasks of an organization exactly as they are. *)
Theorem task_calls_isolated org cs w :
  task_inv w → Forall (λ c, call_org c ≠ org) cs →
  List.filter (of_org org) (tasks (db (run_calls cs w))) = List.filter (of_org org) (tasks (db w)).
Proof.
  intros Hw Hcs. revert w Hw. induction Hcs as [|c cs Hc _ IH]; intros w Hw; [done|].
  change (run_calls (c :: cs) w) with (run_calls cs (run_call c w)).
  rewrite IH by by apply task_inv_call.
  destruct (run_call_step c w) as [Hu|(row & -> & _ & Hrow)].
  - eapply task_update_other; [apply Hw|done|done].
  - rewrite List.filter_app. cbn. unfold of_org at 2. rewrite (cr_org _ _ _ _ Hrow).
    rewrite (proj2 (String.eqb_neq _ _)) by done. apply app_nil_r.
Qed.

(** task identifiers stay unique, a subtask stays one level below a
    task of its organization and no task is ever nested more than two levels
    deep, whatever the calls. *)
Theorem tasks_stay_well_nested cs w : task_inv w → task_inv (run_calls cs w).
Proof. apply task_inv_calls. Qed.

(** C6: deleting a task succeeds for its creator and for admins, the
    recursive query ends, and exactly the task and the live subtasks below
    it, at every level, are marked deleted. *)
Theorem deleteTask_cascades orgId taskId userId w existing :
  task_inv w →
  List.find (TaskRepository.live_id taskId) (tasks (db w)) = Some existing →
  t_org_id existing = orgId → authorized orgId userId existing w = true →
  ∃ w', TaskService.deleteTask orgId taskId userId w = (Ok tt, w') ∧
    length (tasks (db w')) = length (tasks (db w)) ∧
    ∀ i r, tasks (db w) !! i = Some r → ∃ r', tasks (db w') !! i = Some r' ∧
      (doomed orgId taskId (tasks (db w)) r → r' = deleted (clock w) r) ∧
      (¬ doomed orgId taskId (tasks (db w)) r → r' = r).
Proof.
  intros Hw Hf Ho Ha.
  destruct (cascade_terminates orgId _ (ti_ids _ Hw) (ti_nested _ Hw) taskId) as [ids Hids].
  unfold TaskService.deleteTask, bind at 1, TaskRepository.findById, select_one. tables.
  rewrite Hf. unfold bind at 1. rewrite task_of_org_spec, Ho, String.eqb_refl.
  unfold bind at 1, MembershipRepository.findMembership, select_one. tables.
  unfold authorized in Ha.
  rewrite <- negb_orb, Ha. cbn [negb].
  unfold bind at 1, TaskRepository.cascadeSoftDelete, withTransaction, bind at 1, now.
  unfold bind at 1, select. tables. rewrite filter_all, Hids.
  match goal with |- ∃ w', ?run = _ ∧ _ => exists run.2 end.
  split; [reflexivity|]. cbn. tables. cbn. rewrite !length_upd_where. split; [done|].
  intros i r Hi. rewrite !lookup_upd_where, Hi. cbn.
  eexists. split; [done|].
  apply (cascade_row orgId taskId _ ids (clock w) r (ti_ids _ Hw)); eauto using list_elem_of_lookup_2.
Qed.

(** an update that is given a list of assignees leaves exactly these
    users assigned to the task. *)
Theorem updateTask_assignees orgId taskId userId input ids w updated w' :
  ui_assignee_ids input = Some ids →
  TaskService.updateTask orgId taskId userId input w = (Ok updated, w') →
  ∀ u, u ∈ assigned taskId w' ↔ u ∈ ids.
Proof.
  intros Hids E u.
  assert (wp (TaskService.updateTask orgId taskId userId input)
    (λ r w', ∀ x, r = Ok x → u ∈ assigned taskId w' ↔ u ∈ ids) w) as Hw.
  2:{ unfold wp in Hw. rewrite E in Hw. by eapply Hw. }
  clear E. apply wp_updateTask; [done|]. intros existing _ _ _ _. unfold wp at 1.
  destruct (TaskRepository.update _ _ _ _ w) as [[[x|]|e] w1]; [|done..]; cbn.
  unfold TaskService.finish_update. rewrite Hids. do 2 apply wp_bind. unfold wp at 1.
  pose proof (replace_assignees_assigned orgId taskId userId ids u w1) as Ha.
  destruct (TaskService.replace_assignees _ _ _ _ w1) as [[[]|e] w2]; [|done].
  eapply (wp_preserves (on_table (λ l, l = task_assignees (db w2)))); [|done|].
  { unfold TaskService.writeOutboxEvent, TaskService.writeActivityLog, ActivityLogService.log, enqueue.
    preserve. }
  intros [[]|err] w3 Hl; [|done]. intros y _. cbn. unfold assigned.
  unfold on_table in Hl. tables. rewrite Hl. by apply Ha.
Qed.
End theorems.
End TaskProperties.

Module TaskExamples.
Import Concrete.

Definition task (i : string) (parent : option string) (depth : Z) : TaskRow :=
  mkTaskRow i "o" "ws" None parent depth i None Todo Medium "u" None None false None None None [] 0 None 0 0 1.

Definition member (u : string) (role : member_role) : MembershipRow :=
  mkMembershipRow u "o" u role MActive None None None None 0 0.

(** Three levels of tasks in organization ["o"], its workspace, an admin, and
    the creator of the tasks. *)
Definition start : World :=
  (empty_world 5) <| db := empty_db
    <| tasks := [task "a" None 0; task "b" (Some "a"%string) 1; task "c" (Some "b"%string) 2; task "d" None 0] |>
    <| workspaces := [mkWorkspaceRow "ws" "o" "main" None WsActive "u" None 0 0 1] |>
    <| org_memberships := [member "u" Member; member "v" OrgAdmin] |> |>.


Definition new_task (parent : option string) : CreateTaskInput :=
  mkCreateTaskInput "ws" None parent "new" None None None None None None None None None.

Lemma start_inv : task_inv start.
Proof.
  split.
  - apply (bool_decide_unpack _). vm_compute. exact I.
  - intros r n Hr E. exfalso.
    repeat (apply elem_of_cons in Hr as [->|Hr]; [discriminate E|]). by apply elem_of_nil in Hr.
  - intros r Hr. apply elem_of_cons in Hr as [->|Hr]; [by split|].
    apply elem_of_cons in Hr as [->|Hr].
    { split; [|cbn; lia]. exists (task "a" None 0). split_all. set_solver. }
    apply elem_of_cons in Hr as [->|Hr].
    { split; [|cbn; lia]. exists (task "b" (Some "a"%string) 1). split_all. set_solver. }
    apply list_elem_of_singleton in Hr as ->. by split.
Qed.




Lemma task_calls_isolated_witness :
  List.filter (of_org "o")
    (tasks (db (run_calls [DeleteTask "p" "a" "u"; BulkDelete "p" "v" ["a"; "b"]%string] start))) =
  List.filter (of_org "o") (tasks (db start)).
Proof.
  apply TaskProperties.task_calls_isolated; [apply start_inv|].
  by repeat constructor.
Defined.

(** A fourth level is refused. *)
Example too_deep :
  (TaskService.createTask "o" "u" (new_task (Some "c"%string)) start).1 =
  Throw (AppError 422 "TASK_DEPTH_EXCEEDED" "Tasks can be nested at most 2 levels deep" None).
Proof. vm_compute. reflexivity. Qed.

Lemma tasks_stay_well_nested_witness :
  task_inv (run_calls [CreateTask "o" "u" (new_task (Some "b"%string));
                       CreateTask "o" "u" (new_task (Some "c"%string));
                       DeleteTask "o" "b" "v"] start).
Proof. apply TaskProperties.tasks_stay_well_nested, start_inv. Defined.

Lemma deleteTask_cascades_witness :
  ∃ w', TaskService.deleteTask "o" "a" "u" start = (Ok tt, w') ∧
        length (tasks (db w')) = 4.
Proof.
  destruct (TaskProperties.deleteTask_cascades "o" "a" "u" start (task "a" None 0))
    as (w' & E & Hl & _); [apply start_inv|reflexivity..|]. by exists w'.
Defined.

Definition with_user : World :=
  start <| db := (db start) <| users := [mkUserRow "v" "v@x" true None None "v" None None
    None false [] None false UActive 0 None None None None None None None 0 0] |> |>.

Definition assign_v : UpdateTaskInput :=
  mkUpdateTaskInput (mkUpdateTaskData (Some "t"%string) None None None None None None None None)
    (Some ["v"%string]) 1.

Lemma updateTask_assignees_witness :
  "v"%string ∈ assigned "a" (TaskService.updateTask "o" "a" "u" assign_v with_user).2.
Proof.
  destruct (is_ok_inv (TaskService.updateTask "o" "a" "u" assign_v with_user)) as [updated E];
    [vm_compute; reflexivity|].
  apply (TaskProperties.updateTask_assignees "o" "a" "u" assign_v ["v"%string] with_user updated _
    eq_refl E). by left.
Defined.

(** Bulk changes do not go through the status machine: a task that is to do
    becomes done, at the same version. *)
Lemma bulk_skips_transitions :
  TaskService.transition_allowed Todo Done = false ∧
  (λ r, (t_status r, t_version r)) <$>
    tasks (db (BulkService.bulkUpdateStatus "o" "v" ["a"%string] Done start).2) =
  [(Done, 1); (Todo, 1); (Todo, 1); (Todo, 1)]%Z.
Proof. split; vm_compute; reflexivity. Qed.

(** Deleting in bulk leaves the subtasks alive. *)
Lemma bulk_delete_orphans :
  (λ r, is_null (t_deleted_at r)) <$>
    tasks (db (BulkService.bulkDelete "o" "v" ["a"%string] start).2) = [false; true; true; true].
Proof. vm_compute. reflexivity. Qed.
End TaskExamples.
