(* ===== verification/AuthRepo.v ===== *)
(** * AuthRepo: users, sessions and identity providers

    The class [AuthRepository] of [auth.repository.ts]; the unique indexes are
    those of [migrations/002_users.js]. *)
From S2P Require Import Prelude Schema World.
From Stdlib Require Import ZArith Lia.
From stdpp Require Import base tactics strings gmap list.

Record CreateUserData := mkCreateUserData {
  cu_email : string;
  cu_name : string;
  cu_password_hash : option string;
  cu_email_verified : option bool;
  cu_avatar_url : option string
}.

(** [None] is [undefined]. *)
Record UpdateUserData := mkUpdateUserData {
  uu_email : option string;
  uu_name : option string;
  uu_password_hash : option (option string);
  uu_email_verified : option bool;
  uu_email_verified_at : option (option Z);
  uu_avatar_url : option (option string);
  uu_totp_secret : option (option string);
  uu_totp_enabled : option bool;
  uu_mfa_backup_codes : option (list string);
  uu_mfa_backup_codes_generated_at : option (option Z);
  uu_status : option user_status;
  uu_last_login_at : option (option Z);
  uu_password_changed_at : option (option Z);
  uu_consent_tos_version : option (option string);
  uu_consent_tos_at : option (option Z);
  uu_privacy_policy_version : option (option string);
  uu_deleted_at : option (option Z);
  uu_locked_until : option (option Z);
  uu_failed_login_attempts : option Z
}.
#[export] Instance eta_UpdateUserData : Eta UpdateUserData := fun r =>
  mkUpdateUserData (uu_email r) (uu_name r) (uu_password_hash r) (uu_email_verified r) (uu_email_verified_at r) (uu_avatar_url r) (uu_totp_secret r) (uu_totp_enabled r) (uu_mfa_backup_codes r) (uu_mfa_backup_codes_generated_at r) (uu_status r) (uu_last_login_at r) (uu_password_changed_at r) (uu_consent_tos_version r) (uu_consent_tos_at r) (uu_privacy_policy_version r) (uu_deleted_at r) (uu_locked_until r) (uu_failed_login_attempts r).
(** No field given. *)
Definition no_user_data : UpdateUserData :=
  mkUpdateUserData None None None None None None None None None None None None None None None None None None None.

Record CreateRefreshTokenData := mkCreateRefreshTokenData {
  cr_user_id : string;
  cr_org_id : option string;
  cr_token_hash : string;
  cr_family_id : string;
  cr_last_access_token_jti : option string;
  cr_expires_at : Z
}.

Record CreateAuthProviderData := mkCreateAuthProviderData {
  cp_user_id : string;
  cp_provider : auth_provider;
  cp_provider_user_id : string;
  cp_org_id : option string;
  cp_metadata : option json
}.

Module AuthRepository.
Section repo.
Context `{Redis, Random}.

(** *** Users *)

Definition by_email (email : string) (u : UserRow) : bool :=
  (u_email u =? email)%string && is_null (u_deleted_at u).

Definition by_id (id : string) (u : UserRow) : bool :=
  (u_id u =? id)%string && is_null (u_deleted_at u).

Definition findUserByEmail (email : string) : M (option UserRow) :=
  select_one (by_email (normalize email)).

Definition findUserById (id : string) : M (option UserRow) := select_one (by_id id).

(** [idx_users_email] is unique over the rows that are not deleted. *)
Definition createUser (data : CreateUserData) : M UserRow :=
  let* id := gen_random_uuid in
  let* t := now in
  let row := mkUserRow id (normalize (cu_email data)) (cu_email_verified data ?? false) None
    (cu_password_hash data) (cu_name data) (cu_avatar_url data) None None false [] None false
    UActive 0 None None None None None None None t t in
  insert_unique (by_email (normalize (cu_email data))) row ;;;
  ret row.

Definition set_clauses (d : UpdateUserData) (u : UserRow) : UserRow :=
  u <| u_email := (normalize <$> uu_email d) ?? u_email u |>
    <| u_name := uu_name d ?? u_name u |>
    <| u_password_hash := uu_password_hash d ?? u_password_hash u |>
    <| u_email_verified := uu_email_verified d ?? u_email_verified u |>
    <| u_email_verified_at := uu_email_verified_at d ?? u_email_verified_at u |>
    <| u_avatar_url := uu_avatar_url d ?? u_avatar_url u |>
    <| u_totp_secret := uu_totp_secret d ?? u_totp_secret u |>
    <| u_totp_enabled := uu_totp_enabled d ?? u_totp_enabled u |>
    <| u_mfa_backup_codes := uu_mfa_backup_codes d ?? u_mfa_backup_codes u |>
    <| u_mfa_backup_codes_generated_at := uu_mfa_backup_codes_generated_at d ?? u_mfa_backup_codes_generated_at u |>
    <| u_status := uu_status d ?? u_status u |>
    <| u_last_login_at := uu_last_login_at d ?? u_last_login_at u |>
    <| u_password_changed_at := uu_password_changed_at d ?? u_password_changed_at u |>
    <| u_consent_tos_version := uu_consent_tos_version d ?? u_consent_tos_version u |>
    <| u_consent_tos_at := uu_consent_tos_at d ?? u_consent_tos_at u |>
    <| u_privacy_policy_version := uu_privacy_policy_version d ?? u_privacy_policy_version u |>
    <| u_deleted_at := uu_deleted_at d ?? u_deleted_at u |>
    <| u_locked_until := uu_locked_until d ?? u_locked_until u |>
    <| u_failed_login_attempts := uu_failed_login_attempts d ?? u_failed_login_attempts u |>.

Definition no_clauses (d : UpdateUserData) : bool :=
  is_null (uu_email d) && is_null (uu_name d) && is_null (uu_password_hash d) &&
  is_null (uu_email_verified d) && is_null (uu_email_verified_at d) && is_null (uu_avatar_url d) &&
  is_null (uu_totp_secret d) && is_null (uu_totp_enabled d) && is_null (uu_mfa_backup_codes d) &&
  is_null (uu_mfa_backup_codes_generated_at d) && is_null (uu_status d) && is_null (uu_last_login_at d) &&
  is_null (uu_password_changed_at d) && is_null (uu_consent_tos_version d) && is_null (uu_consent_tos_at d) &&
  is_null (uu_privacy_policy_version d) && is_null (uu_deleted_at d) && is_null (uu_locked_until d) &&
  is_null (uu_failed_login_attempts d).

(** A new email taken by another live user violates the unique index. *)
Definition updateUser (id : string) (data : UpdateUserData) : M (option UserRow) :=
  if no_clauses data then findUserById id
  else
    let* hit := select (by_id id) in
    let* taken := select (λ u, match uu_email data with
      | Some e => by_email (normalize e) u && negb (u_id u =? id)%string
      | None => false end) in
    match hit, taken with
    | _ :: _, _ :: _ => throw unique_violation
    | _, _ =>
        let* rs := update_touch (by_id id) (set_clauses data) in
        ret (hd_error rs)
    end.

Definition same_id (id : string) (u : UserRow) : bool := (u_id u =? id)%string.

Definition incrementFailedLoginAttempts (userId : string) : M unit :=
  let* _ := update_touch (same_id userId)
    (λ u, u <| u_failed_login_attempts := (u_failed_login_attempts u + 1)%Z |>) in
  ret tt.

Definition resetFailedLoginAttempts (userId : string) : M unit :=
  let* _ := update_touch (same_id userId)
    (λ u, u <| u_failed_login_attempts := 0%Z |> <| u_locked_until := None |>) in
  ret tt.

Definition lockUser (userId : string) (until : Z) : M unit :=
  let* _ := update_touch (same_id userId) (λ u, u <| u_locked_until := Some until |>) in
  ret tt.

(** *** Refresh tokens *)

Definition with_hash (tokenHash : string) (r : RefreshTokenRow) : bool :=
  (rt_token_hash r =? tokenHash)%string.

Definition findRefreshToken (tokenHash : string) : M (option RefreshTokenRow) :=
  select_one (with_hash tokenHash).

(** [token_hash] is UNIQUE. *)
Definition createRefreshToken (data : CreateRefreshTokenData) : M RefreshTokenRow :=
  let* id := gen_random_uuid in
  let* t := now in
  let row := mkRefreshTokenRow id (cr_user_id data) (cr_org_id data) (cr_token_hash data)
    (cr_family_id data) (cr_last_access_token_jti data) false None (cr_expires_at data) t in
  insert_unique (with_hash (cr_token_hash data)) row ;;;
  ret row.

Definition updateRefreshTokenJti (id jti : string) : M unit :=
  let* _ := update_where (λ r, (rt_id r =? id)%string)
    (λ r, r <| rt_last_access_token_jti := Some jti |>) in
  ret tt.

Definition revoke (t : Z) (r : RefreshTokenRow) : RefreshTokenRow :=
  r <| rt_is_revoked := true |> <| rt_revoked_at := Some t |>.

Definition revokeRefreshToken (id : string) : M unit :=
  let* t := now in
  let* _ := update_where (λ r, (rt_id r =? id)%string) (revoke t) in
  ret tt.

Definition revokeTokenFamily (familyId : string) : M unit :=
  let* t := now in
  let* _ := update_where (λ r, (rt_family_id r =? familyId)%string) (revoke t) in
  ret tt.

Definition revokeAllUserTokens (userId : string) : M unit :=
  let* t := now in
  let* _ := update_where (λ r, (rt_user_id r =? userId)%string && negb (rt_is_revoked r)) (revoke t) in
  ret tt.

(** *** Identity providers and preferences *)

Definition provided (provider : auth_provider) (providerUserId : string) (p : AuthProviderRow) : bool :=
  bool_decide (ap_provider p = provider) && (ap_provider_user_id p =? providerUserId)%string.

Definition findAuthProvider (provider : auth_provider) (providerUserId : string)
    : M (option AuthProviderRow) :=
  select_one (provided provider providerUserId).

Definition createAuthProvider (data : CreateAuthProviderData) : M AuthProviderRow :=
  let* id := gen_random_uuid in
  let* t := now in
  let row := mkAuthProviderRow id (cp_user_id data) (cp_provider data) (cp_provider_user_id data)
    (cp_org_id data) (cp_metadata data ?? JObj []) t in
  insert_unique (provided (cp_provider data) (cp_provider_user_id data)) row ;;;
  ret row.

Definition preferences_of (userId : string) (p : UserPreferencesRow) : bool :=
  (up_user_id p =? userId)%string.

Definition getUserPreferences (userId : string) : M (option UserPreferencesRow) :=
  select_one (preferences_of userId).

Definition createUserPreferences (userId : string) : M UserPreferencesRow :=
  let* t := now in
  upsert (preferences_of userId) (mkUserPreferencesRow userId "UTC" "en-US" "system" t) (touch t).
End repo.
End AuthRepository.
