(* ===== verification/Session.v ===== *)
(** * Session: access tokens, refresh tokens and the JWT middleware

    [auth/utils/token.ts], [jwt.service.ts], [key-store.ts] and
    [jwt.middleware.ts]: how a session is issued, rotated, revoked and
    checked.  A claim is a field of the JSON payload of the token. *)
From S2P Require Import Prelude Schema World Crypto Concrete AuthRepo OrgRepo.
From Stdlib Require Import ZArith Lia.
From stdpp Require Import base tactics strings gmap list.

Record AccessTokenPayload := mkAccessTokenPayload {
  atp_sub : string;
  atp_orgId : string;
  atp_role : string;
  atp_isPlatformAdmin : option bool;
  atp_mfaVerifiedAt : option Z
}.

Record TokenPair `{Crypto} := mkTokenPair {
  accessToken : jwt_token;
  refreshToken : string;
  expiresIn : Z
}.

(** A token for an email link, its hash, and when it expires. *)
Record LinkToken := mkLinkToken {
  lk_token : string;
  lk_hash : string;
  lk_expiresAt : Z
}.

Module Token.
Section token.
Context `{Redis, Random, Config, Crypto}.

Definition KID : string := "default".

(** The claims [jwt.sign] signs; [expiresIn] adds [iat] and [exp].  A field
    that is undefined is not in the JSON. *)
Definition claims (payload : AccessTokenPayload) (now_s : Z) (jti : string) : json :=
  JObj ([("sub", JStr (atp_sub payload)); ("orgId", JStr (atp_orgId payload));
         ("role", JStr (atp_role payload));
         ("isPlatformAdmin", JBool (atp_isPlatformAdmin payload ?? false))] ++
        match atp_mfaVerifiedAt payload with Some t => [("mfaVerifiedAt", JNum t)] | None => [] end ++
        [("auth_time", JNum now_s); ("jti", JStr jti); ("iat", JNum now_s);
         ("exp", JNum (now_s + jwtAccessTokenTtl))])%list.

Definition generateAccessToken (payload : AccessTokenPayload) : M jwt_token :=
  let* jti := gen_random_uuid in
  let* t := now in
  ret (jwt_sign jwtPrivateKey KID (claims payload (t / 1000) jti)).

Definition generateRefreshToken : M string := randomHex.

Definition link_token (ttl_ms : Z) : M LinkToken :=
  let* token := randomHex in
  let* t := now in
  ret (mkLinkToken token (hashToken token) (t + ttl_ms)).

Definition generateEmailVerificationToken : M LinkToken := link_token (24 * 60 * 60 * 1000).
Definition generatePasswordResetToken : M LinkToken := link_token (60 * 60 * 1000).
Definition generateMagicLinkToken : M LinkToken := link_token (15 * 60 * 1000).

Definition blacklistToken (jti : string) (ttlSeconds : Z) : M unit :=
  rset ("blacklist:token:" +:+ jti) (RText "1") (Some ttlSeconds).

Definition verifyTokenHash (supplied stored : string) : bool :=
  timingSafeEqual stored (hashToken supplied).
End token.
End Token.

Module JwtService.
Section service.
Context `{Redis, Random, Config, Crypto}.

Definition REFRESH_TOKEN_TTL_MS : Z := 30 * 24 * 60 * 60 * 1000.

(** [(jwt.decode(token) as { jti }).jti]. *)
Definition decoded_jti (token : jwt_token) : M string :=
  match jwt_decode token with
  | Some payload => ret (jstr "jti" payload ?? "")
  | None => throw (PlainError "Cannot read properties of null (reading 'jti')")
  end.

Definition issueTokenPair (userId orgId role : string) (isPlatformAdmin : bool)
    (mfaVerifiedAt : option Z) : M TokenPair :=
  let* accessToken :=
    Token.generateAccessToken
      (mkAccessTokenPayload userId orgId role (Some isPlatformAdmin) mfaVerifiedAt) in
  let* jti := decoded_jti accessToken in
  let* rawRefreshToken := Token.generateRefreshToken in
  let* familyId := gen_random_uuid in
  let* t := now in
  let* _ := AuthRepository.createRefreshToken
    (mkCreateRefreshTokenData userId (if truthy orgId then Some orgId else None)
       (hashToken rawRefreshToken) familyId (Some jti) (t + REFRESH_TOKEN_TTL_MS)) in
  ret (mkTokenPair _ accessToken rawRefreshToken jwtAccessTokenTtl).

(** The role of an active member; deleted memberships are not excluded. *)
Definition active_member (userId orgId : string) (m : MembershipRow) : bool :=
  (om_user_id m =? userId)%string && (om_org_id m =? orgId)%string &&
  bool_decide (om_status m = MActive).

Definition refreshTokenPair (rawRefreshToken : string) : M TokenPair :=
  let* found := AuthRepository.findRefreshToken (hashToken rawRefreshToken) in
  match found with
  | None => throw (UnauthorizedError "TOKEN_NOT_FOUND" "Refresh token not found")
  | Some tokenRow =>
  if rt_is_revoked tokenRow then
    AuthRepository.revokeTokenFamily (rt_family_id tokenRow) ;;;
    match rt_last_access_token_jti tokenRow with
    | Some jti => if truthy jti then Token.blacklistToken jti jwtAccessTokenTtl else ret tt
    | None => ret tt
    end ;;;
    throw (UnauthorizedError "TOKEN_FAMILY_REVOKED" "Token reuse detected — session revoked")
  else
  let* t := now in
  if (rt_expires_at tokenRow <? t)%Z then
    throw (UnauthorizedError "TOKEN_EXPIRED" "Refresh token has expired")
  else
  let* userRow := select_one (λ u, (u_id u =? rt_user_id tokenRow)%string && is_null (u_deleted_at u)) in
  match userRow with
  | None => throw (UnauthorizedError "USER_NOT_FOUND" "User not found")
  | Some userRow =>
  let* role :=
    match rt_org_id tokenRow with
    | Some org =>
        if truthy org then
          let* member := select_one (active_member (rt_user_id tokenRow) org) in
          ret (match member with Some m => role_str (om_role m) | None => "member"%string end)
        else ret "member"%string
    | None => ret "member"%string
    end in
  AuthRepository.revokeRefreshToken (rt_id tokenRow) ;;;
  let* newAccessToken :=
    Token.generateAccessToken
      (mkAccessTokenPayload (rt_user_id tokenRow) (rt_org_id tokenRow ?? "") role
         (Some (u_is_platform_admin userRow)) None) in
  let* newJti := decoded_jti newAccessToken in
  let* newRawRefreshToken := Token.generateRefreshToken in
  let* newTokenRow := AuthRepository.createRefreshToken
    (mkCreateRefreshTokenData (rt_user_id tokenRow) (rt_org_id tokenRow)
       (hashToken newRawRefreshToken) (rt_family_id tokenRow) (Some newJti)
       (t + REFRESH_TOKEN_TTL_MS)) in
  AuthRepository.updateRefreshTokenJti (rt_id newTokenRow) newJti ;;;
  ret (mkTokenPair _ newAccessToken newRawRefreshToken jwtAccessTokenTtl)
  end end.

Definition revokeTokens (rawRefreshToken accessTokenJti : string) (remainingTtl : Z) : M unit :=
  let* tokenRow := AuthRepository.findRefreshToken (hashToken rawRefreshToken) in
  match tokenRow with
  | Some r => AuthRepository.revokeRefreshToken (rt_id r)
  | None => ret tt
  end ;;;
  Token.blacklistToken accessTokenJti remainingTtl.
End service.
End JwtService.

(** ** The middleware *)

(** The [Authorization] header: absent, of another form, or [Bearer token]. *)
Inductive authorization `{Crypto} :=
  | NoAuthorization
  | OtherAuthorization (header : string)
  | Bearer (token : jwt_token).

Record ReqUser := mkReqUser {
  ru_userId : string;
  ru_orgId : string;
  ru_role : string;
  ru_isPlatformAdmin : bool;
  ru_jti : string;
  ru_exp : Z;
  ru_authTime : option Z;
  ru_mfaVerifiedAt : option Z
}.

Module JwtMiddleware.
Section middleware.
Context `{Redis, Random, Config, Crypto}.

Record CachedUser := mkCachedUser {
  cu_id : string;
  cu_status : user_status;
  cu_password_changed_at : option Z
}.

Definition USER_CACHE_TTL : Z := 60.

Definition user_status_str (s : user_status) : string :=
  match s with UActive => "active" | USuspended => "suspended" | UDeleted => "deleted" end.

(** [JSON.stringify] of a cached user, and [JSON.parse] back; dates in
    milliseconds. *)
Definition cached_json (u : CachedUser) : json :=
  JObj [("id", JStr (cu_id u)); ("status", JStr (user_status_str (cu_status u)));
        ("password_changed_at", match cu_password_changed_at u with Some t => JNum t | None => JNull end)].

Definition parse_cached (v : rvalue) : CachedUser :=
  let j := match v with RJson j => j | RText _ => JNull end in
  mkCachedUser (jstr "id" j ?? "")
    (if is_val (jstr "status" j) "deleted" then UDeleted
     else if is_val (jstr "status" j) "suspended" then USuspended else UActive)
    (jnum "password_changed_at" j).

Definition cache_key (userId : string) : string := "user:cache:" +:+ userId.

Definition resolveUser (userId : string) : M CachedUser :=
  let* cached := catch (rget (cache_key userId)) (λ _, ret None) in
  match cached with
  | Some v => ret (parse_cached v)
  | None =>
      let* row := select_one (λ u, (u_id u =? userId)%string) in
      match row with
      | None => throw (UnauthorizedError "USER_NOT_FOUND" "User not found")
      | Some u =>
          let user := mkCachedUser (u_id u) (u_status u) (u_password_changed_at u) in
          catch (rset (cache_key userId) (RJson (cached_json user)) (Some USER_CACHE_TTL))
            (λ _, ret tt) ;;;
          ret user
      end
  end.

(** The key of a [kid], or the default one ([key-store.ts]); keys registered
    for rotation are in [keyStore]. *)
Definition getPublicKey (keyStore : gmap string string) (kid : option string) : string :=
  match kid with
  | Some k => if truthy k then keyStore !! k ?? jwtPublicKey else jwtPublicKey
  | None => jwtPublicKey
  end.

Definition registerPublicKey (kid pem : string) (keyStore : gmap string string) : gmap string string :=
  <[kid := pem]> keyStore.

Context (keyStore : gmap string string).

Definition verifyToken (token : jwt_token) : M (option json) :=
  let* t := now in
  ret (jwt_verify (getPublicKey keyStore (jwt_kid token)) token (t / 1000)).

(** The blacklist check answers false when Redis fails. *)
Definition blacklisted (jti : string) : M bool :=
  catch (let* v := rget ("blacklist:token:" +:+ jti) in ret (negb (is_null v))) (λ _, ret false).

Definition authenticate (header : authorization) : M ReqUser :=
  match header with
  | Bearer token =>
      let* verified := verifyToken token in
      match verified with
      | None => throw (UnauthorizedError "INVALID_TOKEN" "Token is invalid or expired")
      | Some payload =>
          let* revoked := blacklisted (jstr "jti" payload ?? "undefined") in
          if (revoked : bool) then
            throw (UnauthorizedError "TOKEN_BLACKLISTED" "Token has been revoked")
          else
          let* user := resolveUser (jstr "sub" payload ?? "") in
          if bool_decide (cu_status user = UDeleted) then
            throw (UnauthorizedError "USER_DELETED" "User account has been deleted")
          else if match jnum "iat" payload, cu_password_changed_at user with
                  | Some iat, Some changed => (iat <? changed / 1000)%Z
                  | _, _ => false
                  end
          then throw (UnauthorizedError "SESSION_INVALIDATED" "Session invalidated by password change")
          else ret (mkReqUser (jstr "sub" payload ?? "") (jstr "orgId" payload ?? "")
                 (jstr "role" payload ?? "") (jbool "isPlatformAdmin" payload ?? false)
                 (jstr "jti" payload ?? "") (jnum "exp" payload ?? 0%Z)
                 (jnum "authTime" payload) (jnum "mfaVerifiedAt" payload))
      end
  | _ => throw (UnauthorizedError "MISSING_TOKEN" "Authorization header missing or malformed")
  end.

(** [optionalJwtMiddleware]: a failure is ignored. *)
Definition optional_authenticate (header : authorization) : M (option ReqUser) :=
  match header with
  | Bearer _ => catch (let* u := authenticate header in ret (Some u)) (λ _, ret None)
  | _ => ret None
  end.
End middleware.
End JwtMiddleware.
