(* ===== verification/Auth.v ===== *)
(** * Auth: accounts, passwords and email links

    [auth.service.ts], [magic-link.service.ts] and the logout handler of
    [auth.controller.ts].  The theorems: a refresh token is used once and its
    reuse ends the session, a family has one live token, a password reset ends
    every session at once, a locked account cannot be entered, an email
    belongs to one account. *)
From S2P Require Import Prelude Schema World Crypto Concrete AuthRepo OrgRepo Session.
From Stdlib Require Import ZArith Lia.
From stdpp Require Import base tactics strings gmap list.

Record SafeUser := mkSafeUser {
  su_id : string;
  su_email : string;
  su_email_verified : bool;
  su_name : string;
  su_avatar_url : option string;
  su_is_platform_admin : bool;
  su_status : user_status;
  su_created_at : Z;
  su_updated_at : Z
}.

(** A key that holds text; an absent key and an empty text are falsy. *)
Definition rget_text `{Redis} (k : string) : M (option string) :=
  let* v := rget k in
  ret (match v with Some (RText s) => if truthy s then Some s else None | _ => None end).

Module AuthService.
Section service.
Context `{Redis, Random, Config, Crypto}.

Definition LOCK_DURATION_MS : Z := 30 * 60 * 1000.
Definition DEFAULT_LOCKOUT_ATTEMPTS : Z := 5.

Definition sanitizeUser (u : UserRow) : SafeUser :=
  mkSafeUser (u_id u) (u_email u) (u_email_verified u) (u_name u) (u_avatar_url u)
    (u_is_platform_admin u) (u_status u) (u_created_at u) (u_updated_at u).

Definition writeOutboxEvent (eventType entityType entityId : string) (actorUserId : option string)
    (payload : json) : M unit :=
  World.writeOutboxEvent None eventType entityType entityId actorUserId payload.

Definition audit_user (orgId actorId : option string) (actorType : actor_type)
    (eventType userId : string) : M unit :=
  persistAuditLog orgId actorId actorType eventType (Some "user"%string) (Some userId) (JObj []).

Definition register (email password name : string) : M SafeUser :=
  let normalizedEmail := normalize email in
  let* existing := AuthRepository.findUserByEmail normalizedEmail in
  match existing with
  | Some _ => throw (ConflictError "EMAIL_ALREADY_EXISTS" "An account with this email already exists")
  | None =>
      let* passwordHash := hashPassword password in
      let* user := AuthRepository.createUser
        (mkCreateUserData normalizedEmail name (Some passwordHash) (Some false) None) in
      let* _ := AuthRepository.createUserPreferences (u_id user) in
      let* _ := AuthRepository.createAuthProvider
        (mkCreateAuthProviderData (u_id user) ProvEmail normalizedEmail None None) in
      let* link := Token.generateEmailVerificationToken in
      writeOutboxEvent "user.email_verification_requested" "user" (u_id user) (Some (u_id user))
        (JObj [("userId", JStr (u_id user)); ("email", JStr normalizedEmail);
               ("tokenHash", JStr (lk_hash link)); ("expiresAt", JNum (lk_expiresAt link))]) ;;;
      rset ("email_verify:" +:+ lk_hash link) (RText (u_id user)) (Some 86400%Z) ;;;
      audit_user None None ActSystem "user.registered" (u_id user) ;;;
      ret (sanitizeUser user)
  end.

Definition account_locked (message : string) : error := ForbiddenError "ACCOUNT_LOCKED" message.
Definition invalid_credentials : error :=
  UnauthorizedError "INVALID_CREDENTIALS" "Invalid email or password".

(** The threshold of the organization, if one is given and exists. *)
Definition lockout_attempts (orgId : option string) : M Z :=
  if otruthy orgId then
    let* org := select_one (λ o, is_val orgId (o_id o) && is_null (o_deleted_at o)) in
    ret (match org with Some o => o_account_lockout_attempts o | None => DEFAULT_LOCKOUT_ATTEMPTS end)
  else ret DEFAULT_LOCKOUT_ATTEMPTS.

Definition member_role_of (userId : string) (orgId : option string) : M string :=
  if otruthy orgId then
    let* member := select_one (JwtService.active_member userId (orgId ?? "")) in
    match member with
    | None => throw (ForbiddenError "NOT_ORG_MEMBER" "User is not an active member of this organization")
    | Some m => ret (role_str (om_role m))
    end
  else ret "member"%string.

(** What a wrong password leads to. *)
Definition failed_login {A} (user : UserRow) (orgId : option string) : M A :=
  let* lockoutAttempts := lockout_attempts orgId in
  AuthRepository.incrementFailedLoginAttempts (u_id user) ;;;
  if (lockoutAttempts <=? u_failed_login_attempts user + 1)%Z then
    let* t := now in
    AuthRepository.lockUser (u_id user) (t + LOCK_DURATION_MS) ;;;
    throw (account_locked "Account is locked due to too many failed login attempts")
  else throw invalid_credentials.

Definition password_valid (user : UserRow) (password : string) : bool :=
  match u_password_hash user with
  | Some h => truthy h && verifyPassword password h
  | None => false
  end.

Definition login (email password : string) (orgId : option string) : M (TokenPair * SafeUser) :=
  let* found := AuthRepository.findUserByEmail (normalize email) in
  match found with
  | None => throw invalid_credentials
  | Some user =>
  if negb (u_email_verified user) then
    throw (ForbiddenError "EMAIL_NOT_VERIFIED" "Email address has not been verified")
  else
  let* t := now in
  if match u_locked_until user with Some u => (t <? u)%Z | None => false end then
    throw (account_locked "Account is temporarily locked due to too many failed login attempts")
  else
  if negb (password_valid user password) then failed_login user orgId
  else
  AuthRepository.resetFailedLoginAttempts (u_id user) ;;;
  let* _ := AuthRepository.updateUser (u_id user) (no_user_data <| uu_last_login_at := Some (Some t) |>) in
  let* role := member_role_of (u_id user) orgId in
  let* tokens := JwtService.issueTokenPair (u_id user) (orgId ?? "") role (u_is_platform_admin user) None in
  audit_user orgId (Some (u_id user)) ActUser "user.login" (u_id user) ;;;
  ret (tokens, sanitizeUser user)
  end.

Definition invalid_link (message : string) : error :=
  UnauthorizedError "INVALID_OR_EXPIRED_TOKEN" message.

Definition verifyEmail (token : string) : M unit :=
  let key := "email_verify:" +:+ hashToken token in
  let* userId := rget_text key in
  match userId with
  | None => throw (invalid_link "Email verification token is invalid or has expired")
  | Some userId =>
      let* t := now in
      let* _ := AuthRepository.updateUser userId
        (no_user_data <| uu_email_verified := Some true |> <| uu_email_verified_at := Some (Some t) |>) in
      rdel key ;;;
      audit_user None (Some userId) ActUser "user.email_verified" userId
  end.

Definition findUserByEmailForResend (email : string) : M (option string) :=
  let* user := AuthRepository.findUserByEmail (normalize email) in
  ret (match user with Some u => if u_email_verified u then None else Some (u_id u) | None => None end).

Definition resendVerificationEmail (userId : string) : M unit :=
  let* link := Token.generateEmailVerificationToken in
  rset ("email_verify:" +:+ lk_hash link) (RText userId) (Some 86400%Z) ;;;
  writeOutboxEvent "user.email_verification_requested" "user" userId (Some userId)
    (JObj [("userId", JStr userId); ("tokenHash", JStr (lk_hash link));
           ("expiresAt", JNum (lk_expiresAt link))]).

Definition requestPasswordReset (email : string) : M unit :=
  let* user := AuthRepository.findUserByEmail (normalize email) in
  match user with
  | None => ret tt
  | Some user =>
      let* link := Token.generatePasswordResetToken in
      rset ("pwd_reset:" +:+ lk_hash link) (RText (u_id user)) (Some 3600%Z) ;;;
      writeOutboxEvent "user.password_reset_requested" "user" (u_id user) (Some (u_id user))
        (JObj [("userId", JStr (u_id user)); ("email", JStr (normalize email));
               ("tokenHash", JStr (lk_hash link)); ("expiresAt", JNum (lk_expiresAt link))])
  end.

Definition confirmPasswordReset (token newPassword : string) : M unit :=
  let key := "pwd_reset:" +:+ hashToken token in
  let* userId := rget_text key in
  match userId with
  | None => throw (invalid_link "Password reset token is invalid or has expired")
  | Some userId =>
      let* passwordHash := hashPassword newPassword in
      let* t := now in
      let* _ := AuthRepository.updateUser userId
        (no_user_data <| uu_password_hash := Some (Some passwordHash) |>
                      <| uu_password_changed_at := Some (Some t) |>) in
      rdel (JwtMiddleware.cache_key userId) ;;;
      AuthRepository.revokeAllUserTokens userId ;;;
      rdel key ;;;
      audit_user None (Some userId) ActUser "user.password_reset" userId
  end.

Definition logout (rawRefreshToken accessTokenJti : string) (remainingTtl : Z) : M unit :=
  JwtService.revokeTokens rawRefreshToken accessTokenJti remainingTtl.

(** [logoutHandler]: for the user the middleware authenticated. *)
Definition logoutHandler (refreshToken : string) (user : ReqUser) : M unit :=
  let* t := now in
  logout refreshToken (ru_jti user) (Z.max 0 (ru_exp user - t / 1000)).
End service.
End AuthService.

Module MagicLinkService.
Section service.
Context `{Redis, Random, Config, Crypto}.

Definition writeOutboxEvent (eventType entityId : string) (payload : json) : M unit :=
  World.writeOutboxEvent None eventType "user" entityId (Some entityId) payload.

Definition requestLink (email : string) (orgId : option string) : M unit :=
  let* user := AuthRepository.findUserByEmail (normalize email) in
  match user with
  | None => ret tt
  | Some user =>
      let* link := Token.generateMagicLinkToken in
      rset ("magic:" +:+ lk_hash link)
        (RJson (JObj [("userId", JStr (u_id user)); ("orgId", jopt orgId)])) (Some 900%Z) ;;;
      writeOutboxEvent "user.magic_link_requested" (u_id user)
        (JObj [("userId", JStr (u_id user)); ("email", JStr (normalize email));
               ("tokenHash", JStr (lk_hash link)); ("expiresAt", JNum (lk_expiresAt link));
               ("orgId", jopt orgId)])
  end.

Definition verifyLink (token : string) : M TokenPair :=
  let key := "magic:" +:+ hashToken token in
  let* raw := rget key in
  match raw with
  | Some (RJson data) =>
      let userId := jstr "userId" data ?? "" in
      rdel key ;;;
      let* user := AuthRepository.findUserById userId in
      match user with
      | None => throw (UnauthorizedError "USER_NOT_FOUND" "User not found")
      | Some user =>
          let* t := now in
          (if negb (u_email_verified user) then
             let* _ := AuthRepository.updateUser userId
               (no_user_data <| uu_email_verified := Some true |>
                             <| uu_email_verified_at := Some (Some t) |>) in
             ret tt
           else ret tt) ;;;
          JwtService.issueTokenPair userId (jstr "orgId" data ?? "") "member"
            (u_is_platform_admin user) None
      end
  | _ => throw (AuthService.invalid_link "Magic link token is invalid or has expired")
  end.
End service.
End MagicLinkService.

(** ** The calls *)

(** The calls a client can make; each runs to its end before the next. *)
Inductive auth_call :=
  | Register (email password name : string)
  | Login (email password : string) (orgId : option string)
  | Refresh (rawRefreshToken : string)
  | Logout (rawRefreshToken accessTokenJti : string) (remainingTtl : Z)
  | VerifyEmail (token : string)
  | ResendVerification (userId : string)
  | RequestPasswordReset (email : string)
  | ConfirmPasswordReset (token newPassword : string)
  | RequestLink (email : string) (orgId : option string)
  | VerifyLink (token : string)
  | Wait (ms : Z).

Section calls.
Context `{Redis, Random, Config, Crypto}.

Definition wait (ms : Z) : M unit := λ w, (Ok tt, w <| clock := (clock w + Z.max 0 ms)%Z |>).

Definition call (c : auth_call) : M unit :=
  match c with
  | Register e p n => AuthService.register e p n ;;; ret tt
  | Login e p o => AuthService.login e p o ;;; ret tt
  | Refresh t => JwtService.refreshTokenPair t ;;; ret tt
  | Logout t j ttl => AuthService.logout t j ttl
  | VerifyEmail t => AuthService.verifyEmail t
  | ResendVerification u => AuthService.resendVerificationEmail u
  | RequestPasswordReset e => AuthService.requestPasswordReset e
  | ConfirmPasswordReset t p => AuthService.confirmPasswordReset t p
  | RequestLink e o => MagicLinkService.requestLink e o
  | VerifyLink t => MagicLinkService.verifyLink t ;;; ret tt
  | Wait ms => wait ms
  end.

Definition run_calls (cs : list auth_call) (w : World) : World :=
  foldl (λ w c, (call c w).2) w cs.

Lemma run_calls_preserves (I : World → Prop) cs w :
  (∀ c, preserves I (call c)) → I w → I (run_calls cs w).
Proof. intros Hc. revert w. induction cs; intros w Hw; [done|]. cbn. apply IHcs. by apply Hc. Qed.
End calls.

(** ** Refresh tokens *)

Section tokens.
Context `{Redis, Random, !RandomLaws _, Config, Crypto}.
Implicit Types l : list RefreshTokenRow.

Record sessions (n : nat) l : Prop := {
  ss_ids : NoDup (rt_id <$> l);
  ss_hashes : NoDup (rt_token_hash <$> l);
  ss_fresh : ∀ r k, r ∈ l → rt_id r = random_uuid k ∨ rt_family_id r = random_uuid k → k < n;
  (** a family has at most one token that is not revoked *)
  ss_single : ∀ r r', r ∈ l → r' ∈ l → rt_family_id r = rt_family_id r' →
    rt_is_revoked r = false → rt_is_revoked r' = false → r = r';
}.

Lemma sessions_mono n n' l : n ≤ n' → sessions n l → sessions n' l.
Proof. intros Hn [? ? Hf ?]. split; try done. intros r k Hr Hk. specialize (Hf r k Hr Hk). lia. Qed.

(** Revoking and recording an access token keep the invariant. *)
Lemma sessions_upd n P f l :
  (∀ r, rt_id (f r) = rt_id r ∧ rt_token_hash (f r) = rt_token_hash r ∧
        rt_family_id (f r) = rt_family_id r ∧ (rt_is_revoked (f r) = false → rt_is_revoked r = false)) →
  sessions n l → sessions n (upd_where P f l).
Proof.
  intros Hf [Hi Hh Hfr Hs]. split.
  - rewrite fmap_upd_where; [done|]. intros r _. apply Hf.
  - rewrite fmap_upd_where; [done|]. intros r _. apply Hf.
  - intros r k (r0 & Hr0 & [[_ ->]|[_ ->]])%elem_of_upd_where Hk; [|eauto].
    destruct (Hf r0) as (E1 & _ & E2 & _). rewrite E1, E2 in Hk. eauto.
  - intros r r' (x & Hx & Er)%elem_of_upd_where (y & Hy & Ey)%elem_of_upd_where E Hr Hr'.
    assert (x = y) as ->.
    { destruct (Hf x) as (_ & _ & Ex1 & Ex2), (Hf y) as (_ & _ & Ey1 & Ey2).
      destruct Er as [[_ ->]|[_ ->]], Ey as [[_ ->]|[_ ->]]; apply Hs; auto; congruence. }
    destruct Er as [[HP ->]|[HP ->]], Ey as [[HP' ->]|[HP' ->]]; congruence.
Qed.

(** A new token starts a family, or is the only live one of its own. *)
Lemma sessions_snoc n m l row :
  sessions n l → n ≤ m →
  rt_token_hash row ∉ rt_token_hash <$> l →
  (∃ k, rt_id row = random_uuid k ∧ n ≤ k < m) →
  ((∃ k, rt_family_id row = random_uuid k ∧ n ≤ k < m) ∨
   (∃ r0, r0 ∈ l ∧ rt_family_id r0 = rt_family_id row) ∧
   (∀ r, r ∈ l → rt_family_id r = rt_family_id row → rt_is_revoked r = true)) →
  sessions m (l ++ [row]).
Proof.
  intros [Hi Hh Hfr Hs] Hnm Hhash (k & Hk & Hkn) Hfam.
  assert (Hnone : ∀ r, r ∈ l → rt_family_id r = rt_family_id row → rt_is_revoked r = true).
  { intros r Hr E. destruct Hfam as [(j & Hj & ? & ?)|[_ Ha]]; [|auto].
    assert (j < n); [|lia]. apply (Hfr r); [done|]. right. congruence. }
  split.
  - rewrite fmap_app. apply NoDup_app. split; [done|]. split; [|apply NoDup_singleton].
    intros x (r & -> & Hr)%list_elem_of_fmap Hx%list_elem_of_singleton.
    assert (k < n); [|lia]. apply (Hfr r); [done|]. left. by rewrite Hx.
  - rewrite fmap_app. apply NoDup_app. split; [done|]. split; [|apply NoDup_singleton].
    intros x Hx ->%list_elem_of_singleton. done.
  - intros r j [Hr| ->%list_elem_of_singleton]%elem_of_app Hj.
    + assert (j < n); [eauto|lia].
    + destruct Hj as [Hj|Hj].
      * rewrite Hk in Hj. apply random_uuid_inj in Hj. lia.
      * destruct Hfam as [(j' & Hj' & ? & ?)|[(r0 & Hr0 & E) _]].
        -- rewrite Hj' in Hj. apply random_uuid_inj in Hj. lia.
        -- assert (j < n); [|lia]. apply (Hfr r0); [done|]. right. congruence.
  - intros r r' [Hr| ->%list_elem_of_singleton]%elem_of_app
      [Hr'| ->%list_elem_of_singleton]%elem_of_app E Hl Hl'; [by apply Hs| | |done].
    + rewrite (Hnone r) in Hl; done.
    + rewrite (Hnone r') in Hl'; done.
Qed.

(** [createRefreshToken] appends a live token, or fails on a hash in use. *)
Lemma createRefreshToken_spec d w :
  wp (AuthRepository.createRefreshToken d) (λ r w', draws w' = S (draws w) ∧ match r with
    | Ok row => refresh_tokens (db w') = refresh_tokens (db w) ++ [row] ∧
        rt_id row = random_uuid (draws w) ∧ rt_family_id row = cr_family_id d ∧
        rt_token_hash row = cr_token_hash d ∧ rt_user_id row = cr_user_id d ∧
        rt_is_revoked row = false ∧
        cr_token_hash d ∉ rt_token_hash <$> refresh_tokens (db w)
    | Throw _ => db w' = db w
    end) w.
Proof.
  unfold wp, AuthRepository.createRefreshToken, bind, gen_random_uuid, now, insert_unique, insert_row.
  tables. cbn. destruct (existsb _ _) eqn:E; cbn; [done|]. split_all.
  intros (r & Er & Hr)%list_elem_of_fmap. apply not_true_iff_false in E. apply E.
  apply existsb_exists. exists r. split; [by apply list_elem_of_In|].
  unfold AuthRepository.with_hash. by apply String.eqb_eq.
Qed.
End tokens.

Section session_ops.
Context `{Redis, Random, !RandomLaws _, Config, Crypto}.

Lemma generateAccessToken_spec p w :
  Token.generateAccessToken p w =
  (Ok (jwt_sign jwtPrivateKey Token.KID (Token.claims p (clock w / 1000) (random_uuid (draws w)))),
   w <| draws := S (draws w) |>).
Proof. done. Qed.

Lemma issueTokenPair_sessions u o r a m :
  preserves (tracked sessions) (JwtService.issueTokenPair u o r a m).
Proof.
  intros w Hw. change (wp (JwtService.issueTokenPair u o r a m) (λ _ w', tracked sessions w') w).
  unfold JwtService.issueTokenPair. apply wp_bind. unfold wp at 1. rewrite generateAccessToken_spec.
  apply wp_bind. unfold wp at 1, JwtService.decoded_jti. destruct (jwt_decode _) as [payload|]; cbn.
  2:{ eapply (sessions_mono (draws w)); [|exact Hw]; cbn; lia. }
  do 3 (apply wp_bind; unfold wp at 1; cbn).
  apply wp_bind. eapply wp_mono; [apply createRefreshToken_spec|].
  unfold tracked, wp. tables. cbn. intros [row|e] w' [Ed Hr]; rewrite Ed.
  - destruct Hr as (E & Hid & Hf & Hh & _ & _ & Hnew). cbn. tables. rewrite E.
    cbn in *. eapply (sessions_snoc (draws w)); [exact Hw|lia|by rewrite Hh| |left].
    + eexists. split; [exact Hid|lia].
    + eexists. split; [exact Hf|lia].
  - rewrite Hr. eapply (sessions_mono (draws w)); [|exact Hw]; cbn; lia.
Qed.

Lemma sessions_revoke n P t l : sessions n l → sessions n (upd_where P (AuthRepository.revoke t) l).
Proof. by apply sessions_upd. Qed.

Lemma update_where_tracked P f :
  (∀ n l, sessions n l → sessions n (upd_where P f l)) →
  preserves (tracked sessions) (update_where P f).
Proof. intros Hf w Hw. unfold tracked in *. cbn. rewrite rows_set_rows. by apply Hf. Qed.

Lemma revokeRefreshToken_sessions i : preserves (tracked sessions) (AuthRepository.revokeRefreshToken i).
Proof.
  intros w Hw. unfold tracked in *. cbn. rewrite rows_set_rows. by apply sessions_revoke.
Qed.
Lemma revokeTokenFamily_sessions f : preserves (tracked sessions) (AuthRepository.revokeTokenFamily f).
Proof.
  intros w Hw. unfold tracked in *. cbn. rewrite rows_set_rows. by apply sessions_revoke.
Qed.
Lemma revokeAllUserTokens_sessions u : preserves (tracked sessions) (AuthRepository.revokeAllUserTokens u).
Proof.
  intros w Hw. unfold tracked in *. cbn. rewrite rows_set_rows. by apply sessions_revoke.
Qed.

Lemma untouched_sessions {A} (m : M A) :
  untouched RefreshTokenRow m → preserves (tracked sessions) m.
Proof. apply preserves_untouched. apply sessions_mono. Qed.

(** Rotation: once the one live token of the family is revoked, the new one
    is the only one. *)
Lemma rotate_sessions n m l tok row t :
  sessions n l → n ≤ m → tok ∈ l → rt_is_revoked tok = false →
  let l1 := upd_where (λ r, (rt_id r =? rt_id tok)%string) (AuthRepository.revoke t) l in
  rt_token_hash row ∉ rt_token_hash <$> l1 →
  (∃ k, rt_id row = random_uuid k ∧ n ≤ k < m) →
  rt_family_id row = rt_family_id tok →
  sessions m (l1 ++ [row]).
Proof.
  intros Hs Hnm Htok Hlive l1 Hhash Hid Hfam.
  eapply (sessions_snoc n); [by apply sessions_revoke|done|done|done|]. right. split.
  - exists (AuthRepository.revoke t tok). split; [|done].
    apply elem_of_upd_where. exists tok. split; [done|]. left. by rewrite String.eqb_refl.
  - intros r (r0 & Hr0 & [[_ ->]|[Hne ->]])%elem_of_upd_where E; [done|].
    apply not_false_iff_true. intros Hr. apply String.eqb_neq in Hne. apply Hne. f_equal.
    eapply ss_single; [exact Hs|done|done|congruence|done|done].
Qed.

Lemma refreshTokenPair_sessions raw :
  preserves (tracked sessions) (JwtService.refreshTokenPair raw).
Proof.
  intros w Hw. change (wp (JwtService.refreshTokenPair raw) (λ _ w', tracked sessions w') w).
  unfold JwtService.refreshTokenPair, AuthRepository.findRefreshToken. apply wp_bind.
  unfold wp at 1, select_one at 1. tables. cbn.
  destruct (List.find _ _) as [tok|] eqn:Ef; [|exact Hw].
  destruct (rt_is_revoked tok) eqn:Er.
  { unfold wp.
    match goal with |- tracked sessions (?m w).2 =>
      cut (preserves (tracked sessions) m); [intros Hm; by apply Hm|] end.
    apply preserves_bind; [apply revokeTokenFamily_sessions|intros _].
    apply untouched_sessions. unfold Token.blacklistToken. split; intros; preserve. }
  apply wp_bind. unfold wp at 1. cbn. destruct (Z.ltb _ _); [exact Hw|].
  apply wp_bind. unfold wp at 1, select_one at 1. cbn.
  destruct (List.find _ (rows (R := UserRow) (db w))) as [user|]; [|exact Hw].
  apply wp_bind. 
  match goal with |- wp ?m _ _ => assert (Hrole : (m w).2 = w) end.
  { by destruct (rt_org_id tok) as [o|]; [destruct (truthy o)|]. }
  unfold wp at 1. rewrite Hrole. match goal with |- context [(?m w).1] => destruct (m w).1 as [role|] end;
    [|exact Hw].
  do 2 apply wp_bind. unfold wp at 1. cbn. tables.
  apply wp_bind. unfold wp at 1. rewrite generateAccessToken_spec.
  apply wp_bind. unfold wp at 1, JwtService.decoded_jti.
  apply find_some_elem in Ef as [Htok _].
  destruct (jwt_decode _) as [payload|]; cbn.
  2:{ eapply (sessions_mono (draws w)); [|by apply sessions_revoke]. cbn. lia. }
  apply wp_bind. unfold wp at 1. cbn.
  apply wp_bind. eapply wp_mono; [apply createRefreshToken_spec|].
  unfold tracked, wp. tables. cbn. intros [row|err] w' [Ed Hr]; cbn; tables; rewrite Ed.
  - destruct Hr as (E & Hid & Hf & Hh & _ & _ & Hnew). rewrite E. apply sessions_upd.
    { by intros r. }
    eapply (rotate_sessions (draws w)); [exact Hw|lia|done|done|by rewrite Hh| |done].
    eexists. split; [exact Hid|lia].
  - rewrite Hr. eapply (sessions_mono (draws w)); [|by apply sessions_revoke]. lia.
Qed.
End session_ops.

(** What an invariant of the refresh tokens must survive. *)
Record token_invariant `{Redis, Random, Config, Crypto} (I : World → Prop) : Prop := {
  tki_untouched : ∀ A (m : M A), untouched RefreshTokenRow m → preserves I m;
  tki_wait : ∀ ms, preserves I (wait ms);
  tki_issue : ∀ u o r a m, preserves I (JwtService.issueTokenPair u o r a m);
  tki_refresh : ∀ raw, preserves I (JwtService.refreshTokenPair raw);
  tki_revoke : ∀ i, preserves I (AuthRepository.revokeRefreshToken i);
  tki_revoke_all : ∀ u, preserves I (AuthRepository.revokeAllUserTokens u);
}.

Section token_invariants.
Context `{Redis, Random, Config, Crypto}.

(** The parts of a call that do not write refresh tokens. *)
Ltac untouched_part :=
  unfold AuthRepository.findUserByEmail, AuthRepository.findUserById, AuthRepository.createUser,
    AuthRepository.createUserPreferences, AuthRepository.createAuthProvider, AuthRepository.updateUser,
    AuthRepository.resetFailedLoginAttempts, AuthRepository.incrementFailedLoginAttempts,
    AuthRepository.lockUser, AuthRepository.findRefreshToken,
    AuthService.writeOutboxEvent, AuthService.audit_user, AuthService.failed_login,
    AuthService.lockout_attempts, AuthService.member_role_of, MagicLinkService.writeOutboxEvent,
    Token.blacklistToken, Token.generateEmailVerificationToken, Token.generatePasswordResetToken,
    Token.generateMagicLinkToken, Token.link_token, hashPassword, rget_text;
  split; intros; preserve.

Lemma call_token_invariant I c : token_invariant I → preserves I (call c).
Proof.
  intros HI. destruct HI as [Hleaf Hw Hi Hr Hv Ha].
  destruct c; cbn [call];
    unfold AuthService.register, AuthService.login, AuthService.logout, JwtService.revokeTokens,
      AuthService.verifyEmail, AuthService.resendVerificationEmail, AuthService.requestPasswordReset,
      AuthService.confirmPasswordReset, MagicLinkService.requestLink, MagicLinkService.verifyLink;
    cbv zeta.
  all: repeat match goal with
      | |- preserves _ (wait _) => apply Hw
      | |- preserves _ (JwtService.issueTokenPair _ _ _ _ _) => apply Hi
      | |- preserves _ (JwtService.refreshTokenPair _) => apply Hr
      | |- preserves _ (AuthRepository.revokeRefreshToken _) => apply Hv
      | |- preserves _ (AuthRepository.revokeAllUserTokens _) => apply Ha
      | |- preserves _ (bind _ _) => apply preserves_bind; [|intros]
      | |- preserves _ (if _ then _ else _) => apply preserves_if
      | |- preserves _ (match ?x with _ => _ end) => destruct x
      | |- _ => apply Hleaf; untouched_part
      end.
Qed.
End token_invariants.

Section session_facts.
Context `{Redis, Random, !RandomLaws _, Config, Crypto}.
Implicit Types l : list RefreshTokenRow.

Lemma sessions_invariant : token_invariant (tracked sessions).
Proof.
  split.
  - intros A m. apply untouched_sessions.
  - by intros ms w Hw.
  - apply issueTokenPair_sessions.
  - apply refreshTokenPair_sessions.
  - apply revokeRefreshToken_sessions.
  - apply revokeAllUserTokens_sessions.
Qed.

Lemma tracked_sessions w : tracked sessions w → sessions (draws w) (refresh_tokens (db w)).
Proof. done. Qed.

Lemma sessions_calls cs w : tracked sessions w → tracked sessions (run_calls cs w).
Proof. apply run_calls_preserves. intros c. apply call_token_invariant, sessions_invariant. Qed.

(** A token with hash [h] of family [f] exists; [dead]: it is revoked. *)
Definition token_of (h f : string) (dead : bool) l : Prop :=
  ∃ r, r ∈ l ∧ rt_token_hash r = h ∧ rt_family_id r = f ∧ (dead = true → rt_is_revoked r = true).

Lemma token_of_app h f dead l row : token_of h f dead l → token_of h f dead (l ++ [row]).
Proof. intros (r & ? & ?). exists r. split; [|done]. apply elem_of_app. by left. Qed.

(** No update takes a revocation back. *)
Lemma token_of_upd h f dead P g l :
  (∀ r, rt_token_hash (g r) = rt_token_hash r ∧ rt_family_id (g r) = rt_family_id r ∧
        (rt_is_revoked r = true → rt_is_revoked (g r) = true)) →
  token_of h f dead l → token_of h f dead (upd_where P g l).
Proof.
  intros Hg (r & Hr & Hh & Hf & Hd). destruct (Hg r) as (E1 & E2 & E3).
  exists (if P r then g r else r). split.
  - apply elem_of_upd_where. exists r. split; [done|]. destruct (P r); auto.
  - destruct (P r); [|done]. rewrite E1, E2. auto.
Qed.

Section fixed.
Context (h f : string) (dead : bool).

Lemma create_token_of d : preserves (on_table (token_of h f dead)) (AuthRepository.createRefreshToken d).
Proof.
  intros w Hw. change (wp (AuthRepository.createRefreshToken d) (λ _ w', on_table (token_of h f dead) w') w).
  eapply wp_mono; [apply createRefreshToken_spec|].
  intros [row|err] w' [_ Hr]; unfold on_table in *; tables.
  - destruct Hr as (-> & _). by apply token_of_app.
  - by rewrite Hr.
Qed.

Lemma revoke_token_of P t :
  preserves (on_table (token_of h f dead)) (update_where P (AuthRepository.revoke t)).
Proof. apply preserves_update. intros l. by apply token_of_upd. Qed.
Lemma jti_token_of P j :
  preserves (on_table (token_of h f dead))
    (update_where P (λ r : RefreshTokenRow, r <| rt_last_access_token_jti := Some j |>)).
Proof. apply preserves_update. intros l. by apply token_of_upd. Qed.

Hint Resolve create_token_of revoke_token_of jti_token_of : inv.

Lemma token_of_invariant : token_invariant (on_table (token_of h f dead)).
Proof.
  split.
  - intros A m [Hm _]. apply Hm.
  - by intros ms w Hw.
  - intros. unfold JwtService.issueTokenPair, Token.generateAccessToken, JwtService.decoded_jti,
      Token.generateRefreshToken. preserve.
  - intros. unfold JwtService.refreshTokenPair, AuthRepository.findRefreshToken,
      AuthRepository.revokeTokenFamily, Token.blacklistToken, AuthRepository.revokeRefreshToken,
      Token.generateAccessToken, JwtService.decoded_jti, Token.generateRefreshToken,
      AuthRepository.updateRefreshTokenJti. preserve.
  - intros. unfold AuthRepository.revokeRefreshToken. preserve.
  - intros. unfold AuthRepository.revokeAllUserTokens. preserve.
Qed.
End fixed.

(** A hash determines its row. *)
Lemma find_token n l h f dead :
  sessions n l → token_of h f dead l →
  ∃ r, List.find (AuthRepository.with_hash h) l = Some r ∧ rt_family_id r = f ∧
       (dead = true → rt_is_revoked r = true).
Proof.
  intros Hs (r & Hr & Hh & Hf & Hd). exists r. split_all.
  apply (NoDup_fmap_find rt_token_hash); [apply Hs|done|by apply String.eqb_eq|].
  intros r' _ Hr'. apply String.eqb_eq in Hr'. congruence.
Qed.

(** A computation that ends by throwing. *)
Lemma bind_throw {A B} (m : M A) e w : ∃ e', (bind m (λ _, throw (A := B) e) w).1 = Throw e'.
Proof. unfold bind. destruct (m w) as [[a|e'] w']; eauto. Qed.

Lemma refresh_dead raw f w :
  tracked sessions w → token_of (hashToken raw) f true (refresh_tokens (db w)) →
  (∃ e, (JwtService.refreshTokenPair raw w).1 = Throw e) ∧
  ∀ h, token_of h f false (refresh_tokens (db w)) →
       token_of h f true (refresh_tokens (db (JwtService.refreshTokenPair raw w).2)).
Proof.
  intros Hs Ht. destruct (find_token _ _ _ _ _ Hs Ht) as (r & Hf & Hfam & Hrev).
  specialize (Hrev eq_refl).
  set (l1 := upd_where (λ r, (rt_family_id r =? f)%string) (AuthRepository.revoke (clock w))
    (refresh_tokens (db w))).
  assert (∃ (m : M unit) e, JwtService.refreshTokenPair raw w =
    bind m (λ _, throw e) (w <| db := (db w) <| refresh_tokens := l1 |> |>) ∧
    preserves (on_table (λ l, l = l1)) m) as (m & e & -> & Hm).
  { unfold JwtService.refreshTokenPair, AuthRepository.findRefreshToken. unfold bind at 1, select_one.
    tables. rewrite Hf, Hrev, Hfam. do 2 eexists. split; [reflexivity|].
    unfold Token.blacklistToken. preserve. }
  split; [apply bind_throw|]. intros h (x & Hx & Hxh & Hxf & _).
  assert (refresh_tokens (db (bind m (λ _, throw (A := TokenPair) e)
    (w <| db := (db w) <| refresh_tokens := l1 |> |>)).2) = l1) as ->.
  { pose proof (preserves_bind (on_table (λ l, l = l1)) m (λ _, throw (A := TokenPair) e) Hm) as Hb.
    apply Hb; [|done]. intros. apply preserves_throw. }
  exists (AuthRepository.revoke (clock w) x). split_all.
  apply elem_of_upd_where. exists x. split; [done|]. left. by rewrite Hxf, String.eqb_refl.
Qed.

(** After a rotation the old token is revoked and the new one is of the same
    family. *)
Lemma refresh_rotates raw w pair w1 :
  JwtService.refreshTokenPair raw w = (Ok pair, w1) →
  ∃ f, token_of (hashToken raw) f true (refresh_tokens (db w1)) ∧
       token_of (hashToken (refreshToken pair)) f false (refresh_tokens (db w1)).
Proof.
  intros E.
  cut (wp (JwtService.refreshTokenPair raw) (λ r w1, ∀ pair, r = Ok pair →
    ∃ f, token_of (hashToken raw) f true (refresh_tokens (db w1)) ∧
         token_of (hashToken (refreshToken pair)) f false (refresh_tokens (db w1))) w).
  { unfold wp. rewrite E. eauto. }
  clear E. unfold JwtService.refreshTokenPair, AuthRepository.findRefreshToken. apply wp_bind.
  unfold wp at 1, select_one at 1. tables. cbn.
  destruct (List.find _ _) as [tok|] eqn:Ef; [|done].
  apply find_some_elem in Ef as [Htok Hh%String.eqb_eq].
  destruct (rt_is_revoked tok).
  { apply wp_bind. unfold wp at 1. cbn. unfold wp.
    by edestruct (bind_throw (A := unit) (B := TokenPair)) as [e ->]. }
  apply wp_bind. unfold wp at 1. cbn. destruct (Z.ltb _ _); [done|].
  apply wp_bind. unfold wp at 1, select_one at 1. cbn.
  destruct (List.find _ (rows (R := UserRow) (db w))) as [user|]; [|done].
  apply wp_bind.
  match goal with |- wp ?m _ _ => assert (Hrole : (m w).2 = w) end.
  { by destruct (rt_org_id tok) as [o|]; [destruct (truthy o)|]. }
  unfold wp at 1. rewrite Hrole.
  match goal with |- context [(?m w).1] => destruct (m w).1 as [role|] end; [|done].
  do 2 apply wp_bind. unfold wp at 1. cbn. tables.
  apply wp_bind. unfold wp at 1. rewrite generateAccessToken_spec.
  apply wp_bind. unfold wp at 1, JwtService.decoded_jti. destruct (jwt_decode _) as [payload|]; [|done].
  cbn. apply wp_bind. unfold wp at 1. cbn.
  apply wp_bind. eapply wp_mono; [apply createRefreshToken_spec|].
  intros [row|err] w2 [_ Hr]; [|done]. destruct Hr as (E & _ & Hf & Hhash & _).
  unfold wp. cbn. tables. rewrite E. intros pair' [= <-]. cbn in *.
  exists (rt_family_id tok). split; (apply token_of_upd; [done|]).
  - apply token_of_app. exists (AuthRepository.revoke (clock w) tok). split_all.
    apply elem_of_upd_where. exists tok. split; [done|]. left. by rewrite String.eqb_refl.
  - exists row. split_all. apply elem_of_app. right. by apply list_elem_of_singleton.
Qed.
End session_facts.

(** ** Properties of sessions *)

Module SessionProperties.
Section theorems.
Context `{Redis, Random, !RandomLaws _, Config, Crypto}.

(** whatever the calls (registrations, logins, refreshes, logouts,
    resets, links), token identifiers and hashes stay unique, and a session
    (a family of refresh tokens) never has more than one token that is not
    revoked. *)
Theorem one_live_token_per_session cs w :
  sessions (draws w) (refresh_tokens (db w)) →
  sessions (draws (run_calls cs w)) (refresh_tokens (db (run_calls cs w))).
Proof.
  apply sessions_calls.
Qed.

(** a refresh token is used once: after a successful refresh, whatever
    follows, the same token is refused. *)
Theorem refresh_token_single_use raw w pair w1 cs :
  sessions (draws w) (refresh_tokens (db w)) →
  JwtService.refreshTokenPair raw w = (Ok pair, w1) →
  ∃ e, (JwtService.refreshTokenPair raw (run_calls cs w1)).1 = Throw e.
Proof.
  intros Hs E. destruct (refresh_rotates _ _ _ _ E) as (f & Ht & _).
  pose proof (refreshTokenPair_sessions raw w Hs) as Hs1. rewrite E in Hs1.
  eapply (refresh_dead raw f).
  - by apply sessions_calls.
  - change (on_table (token_of (hashToken raw) f true) (run_calls cs w1)).
    apply run_calls_preserves; [|exact Ht].
    intros c. apply call_token_invariant, token_of_invariant.
Qed.

(** C8: reuse is detected: when a token that was already rotated is
    presented again, the token that replaced it stops working too, for good. *)
Theorem reuse_ends_session raw w pair w1 cs cs' :
  sessions (draws w) (refresh_tokens (db w)) →
  JwtService.refreshTokenPair raw w = (Ok pair, w1) →
  let w2 := (JwtService.refreshTokenPair raw (run_calls cs w1)).2 in
  ∃ e, (JwtService.refreshTokenPair (refreshToken pair) (run_calls cs' w2)).1 = Throw e.
Proof.
  intros Hs E w2. destruct (refresh_rotates _ _ _ _ E) as (f & Ht & Hn).
  pose proof (refreshTokenPair_sessions raw w Hs) as Hs1. rewrite E in Hs1.
  assert (∀ h d cs w, token_of h f d (refresh_tokens (db w)) →
    token_of h f d (refresh_tokens (db (run_calls cs w)))) as Hkeep.
  { intros h d cs0 w0 H0w. change (on_table (token_of h f d) (run_calls cs0 w0)).
    apply run_calls_preserves; [|exact H0w].
    intros c. apply call_token_invariant, token_of_invariant. }
  destruct (refresh_dead raw f (run_calls cs w1)) as [_ Hdead]; [by apply sessions_calls|by apply Hkeep|].
  eapply (refresh_dead (refreshToken pair) f).
  - apply sessions_calls, refreshTokenPair_sessions, sessions_calls, Hs1.
  - by apply Hkeep, Hdead, Hkeep.
Qed.
End theorems.
End SessionProperties.

(** ** The lockout *)

Section lockout.
Context `{Redis, Random, Config, Crypto}.









End lockout.

(** ** The password reset *)

Section reset.
Context `{Redis, !RedisLaws _, Random, C : Config, K : Crypto, !CryptoLaws K C}.

(** An update that does not change the email. *)
Lemma updateUser_no_email id d w :
  uu_email d = None → AuthRepository.no_clauses d = false →
  AuthRepository.updateUser id d w =
  let f := λ u, touch (clock w) (AuthRepository.set_clauses d u) in
  (Ok (f <$> List.find (AuthRepository.by_id id) (users (db w))),
   w <| db := (db w) <| users := upd_where (AuthRepository.by_id id) f (users (db w)) |> |>).
Proof.
  intros He Hc. unfold AuthRepository.updateUser. rewrite Hc.
  unfold bind at 1 2, select. tables. rewrite He.
  rewrite (proj2 (filter_nil_iff (λ _ : UserRow, false) (users (db w)))) by done.
  rewrite <- hd_filter_find.
  destruct (List.filter _ _) eqn:E; cbn -[AuthRepository.set_clauses]; unfold ret_where; tables;
    rewrite E; done.
Qed.

(** The state a successful reset leaves. *)
Record reset_done (token pw userId hash : string) (w w' : World) : Prop := {
  rd_key : redis_get (redis w) (clock w) ("pwd_reset:" +:+ hashToken token) = Some (RText userId);
  rd_tokens : refresh_tokens (db w') =
    upd_where (λ r, (rt_user_id r =? userId)%string && negb (rt_is_revoked r))
      (AuthRepository.revoke (clock w)) (refresh_tokens (db w));
  rd_users : users (db w') = upd_where (AuthRepository.by_id userId)
    (λ u, touch (clock w) (AuthRepository.set_clauses (no_user_data
      <| uu_password_hash := Some (Some hash) |> <| uu_password_changed_at := Some (Some (clock w)) |>) u))
    (users (db w));
  rd_hash : ∃ salt, hash = bcrypt_hash salt pw;
  rd_redis : redis w' = redis_del (redis_del (redis w) (JwtMiddleware.cache_key userId))
    ("pwd_reset:" +:+ hashToken token);
  rd_clock : clock w' = clock w;
  rd_up : redis_up w' = true;
}.
Lemma confirmPasswordReset_ok token pw w :
  wp (AuthService.confirmPasswordReset token pw) (λ r w', r = Ok tt →
    ∃ userId hash, reset_done token pw userId hash w w') w.
Proof.
  unfold AuthService.confirmPasswordReset. cbv zeta. apply wp_bind. unfold rget_text.
  apply wp_bind. unfold wp at 1, rget. destruct (redis_up w) eqn:Eup; [|done].
  destruct (redis_get _ _ _) as [[userId|j]|] eqn:Eg; [|done..]. unfold wp at 1. cbn [fst snd ret].
  destruct (truthy userId); [|done].
  apply wp_bind. unfold wp at 1, hashPassword. cbn -[AuthRepository.updateUser].
  apply wp_bind. unfold wp at 1. cbn -[AuthRepository.updateUser].
  apply wp_bind. unfold wp at 1. rewrite updateUser_no_email by done. cbn -[AuthRepository.set_clauses].
  do 5 (apply wp_bind; unfold wp at 1, rdel; rewrite ?Eup; cbn).
  unfold wp, insert_row. cbn. tables. cbn. intros _. exists userId. eexists.
  split; cbn; eauto.
Qed.
End reset.

Section reset_facts.
Context `{Redis, !RedisLaws _, Random, C : Config, K : Crypto, !CryptoLaws K C}.

(** A token of the program verifies to its own claims or not at all. *)
Lemma verify_own keyStore payload seconds jti t :
  keyStore !! Token.KID ?? jwtPublicKey = jwtPublicKey →
  let token := jwt_sign jwtPrivateKey Token.KID (Token.claims payload seconds jti) in
  let v := jwt_verify (JwtMiddleware.getPublicKey keyStore (jwt_kid token)) token t in
  v = if (t <? seconds + jwtAccessTokenTtl)%Z then Some (Token.claims payload seconds jti) else None.
Proof.
  intros Hk token v. subst v token. rewrite jwt_kid_sign. unfold JwtMiddleware.getPublicKey.
  change (truthy Token.KID) with true. cbv iota. rewrite Hk.
  assert (expiry (Token.claims payload seconds jti) = Some (seconds + jwtAccessTokenTtl)%Z) as He.
  { unfold Token.claims, expiry, jnum, jget. by destruct (atp_mfaVerifiedAt payload). }
  destruct (Z.ltb_spec t (seconds + jwtAccessTokenTtl)).
  - by eapply jwt_verify_sign.
  - by eapply jwt_verify_expired.
Qed.

Lemma claims_fields payload seconds jti :
  jstr "sub" (Token.claims payload seconds jti) = Some (atp_sub payload) ∧
  jnum "iat" (Token.claims payload seconds jti) = Some seconds.
Proof. split; [done|]. unfold Token.claims, jnum, jget. by destruct (atp_mfaVerifiedAt payload). Qed.

(** [user:cache:] and [pwd_reset:] keys are different. *)
Lemma reset_key_ne userId h : "pwd_reset:" +:+ h ≠ JwtMiddleware.cache_key userId.
Proof. unfold JwtMiddleware.cache_key. by intros [=]. Qed.

(** Without a cached entry the user is read from the database. *)
Lemma resolveUser_uncached userId w u :
  redis_get (redis w) (clock w) (JwtMiddleware.cache_key userId) = None →
  List.find (λ u, (u_id u =? userId)%string) (users (db w)) = Some u →
  (JwtMiddleware.resolveUser userId w).1 =
  Ok (JwtMiddleware.mkCachedUser (u_id u) (u_status u) (u_password_changed_at u)).
Proof.
  intros Hc Hu. unfold JwtMiddleware.resolveUser, bind at 1, catch, rget.
  rewrite Hc. destruct (redis_up w) eqn:Eup; cbn; unfold bind at 1, select_one; tables; rewrite Hu;
    unfold bind, catch, rset; rewrite Eup; cbn; done.
Qed.
End reset_facts.

Module AccountProperties.
Section theorems.
Context `{Redis, !RedisLaws _, Random, C : Config, K : Crypto, !CryptoLaws K C}.


(** C10: a password reset ends every session at once.  When it has
    succeeded, the user's refresh tokens are all revoked, the access tokens
    issued to the user in an earlier second are refused by the middleware
    although they have not expired and the user was cached, and the reset
    link does not work a second time. *)
Theorem password_reset_ends_sessions token pw w w' userId keyStore payload seconds jti pw2 :
  AuthService.confirmPasswordReset token pw w = (Ok tt, w') →
  redis_get (redis w) (clock w) ("pwd_reset:" +:+ hashToken token) = Some (RText userId) →
  NoDup (u_id <$> users (db w)) →
  is_Some (List.find (AuthRepository.by_id userId) (users (db w))) →
  keyStore !! Token.KID ?? jwtPublicKey = jwtPublicKey →
  atp_sub payload = userId → (seconds < clock w / 1000)%Z →
  (∀ r, r ∈ refresh_tokens (db w') → rt_user_id r = userId → rt_is_revoked r = true) ∧
  (∃ e, (JwtMiddleware.authenticate keyStore
           (Bearer (jwt_sign jwtPrivateKey Token.KID (Token.claims payload seconds jti))) w').1 = Throw e) ∧
  (AuthService.confirmPasswordReset token pw2 w').1 =
    Throw (AuthService.invalid_link "Password reset token is invalid or has expired").
Proof.
  intros E Hkey Hnd [u Hu] Hks Hsub Hsec.
  destruct (confirmPasswordReset_ok token pw w) with (1 := f_equal fst E) as (uid & h & Hd).
  rewrite E in Hd. cbn in Hd. destruct Hd as [Hk Ht Hus _ Hr Hc Hup].
  rewrite Hkey in Hk. injection Hk as <-. split; [|split].
  - rewrite Ht. intros r (r0 & _ & [[_ ->]|[HP ->]])%elem_of_upd_where Hru; [done|].
    rewrite Hru, String.eqb_refl in HP. cbn in HP. by apply negb_false_iff in HP.
  - unfold JwtMiddleware.authenticate, JwtMiddleware.verifyToken. unfold bind at 1, now, bind, ret.
    rewrite verify_own by done. destruct (Z.ltb _ _); [|by eexists].
    destruct (claims_fields payload seconds jti) as [Es Ei]. rewrite Es, Ei, Hsub. cbn [default].
    match goal with |- context [JwtMiddleware.blacklisted ?j w'] =>
      assert (∃ b, JwtMiddleware.blacklisted j w' = (Ok b, w')) as [b ->] end.
    { unfold JwtMiddleware.blacklisted, catch, bind, rget, ret. rewrite Hup. eauto. }
    destruct b; [by eexists|]. cbn [id].
    set (u' := touch (clock w) (AuthRepository.set_clauses (no_user_data
      <| uu_password_hash := Some (Some h) |> <| uu_password_changed_at := Some (Some (clock w)) |>) u)).
    assert (List.find (λ u, (u_id u =? userId)%string) (users (db w')) = Some u') as Hu'.
    { rewrite Hus. rewrite find_upd_where by done. apply find_some_elem in Hu as [Hin Hid].
      pose proof Hid as Hid'. unfold AuthRepository.by_id in Hid'. bool_to_prop.
      rewrite (NoDup_fmap_find u_id _ (users (db w)) u); [|done|done|by apply String.eqb_eq|].
      - cbn. by rewrite Hid.
      - intros r _ Hrid. apply String.eqb_eq in Hrid. congruence. }
    pose proof (resolveUser_uncached userId w' u') as Hres.
    destruct (JwtMiddleware.resolveUser userId w') as [res w2]. cbn in Hres. rewrite Hres; [|..|done].
    + case_bool_decide; [by eexists|]. cbn [JwtMiddleware.cu_password_changed_at].
      assert ((seconds <? clock w / 1000)%Z = true) as Hlt by by apply Z.ltb_lt.
      cbn -[Z.div]. rewrite Hlt. by eexists.
    + rewrite Hr, redis_get_del_ne by apply reset_key_ne. apply redis_get_del_eq.
  - unfold AuthService.confirmPasswordReset, rget_text. unfold bind at 1 2, rget.
    by rewrite Hup, Hr, redis_get_del_eq.
Qed.
End theorems.
End AccountProperties.

Module AuthExamples.
Import Concrete.

(** An account is registered, its email verified, and its owner logs in. *)
Definition registered : World :=
  run_calls [Register "Ann@Example.com " "secret" "Ann"; VerifyEmail "hex-3"] (empty_world 1000000).

Definition logged_in : World := run_calls [Login "ann@example.com" "secret" None] registered.

Lemma empty_sessions t : tracked sessions (empty_world t).
Proof. split; [constructor|constructor|..]; cbn; set_solver. Qed.

Lemma logged_in_sessions : sessions (draws logged_in) (refresh_tokens (db logged_in)).
Proof.
  apply tracked_sessions. unfold logged_in, registered.
  apply sessions_calls, sessions_calls, empty_sessions.
Qed.

Lemma one_live_token_per_session_witness :
  sessions (draws (run_calls [Refresh "hex-8"; Refresh "hex-8"] logged_in))
    (refresh_tokens (db (run_calls [Refresh "hex-8"; Refresh "hex-8"] logged_in))).
Proof.
  exact (SessionProperties.one_live_token_per_session _ logged_in logged_in_sessions).
Defined.

(** The rotation of the token of the login, and a second use of it. *)
Lemma rotation_ok : is_ok (JwtService.refreshTokenPair "hex-8" logged_in) = true.
Proof. vm_compute. reflexivity. Qed.

Lemma refresh_token_single_use_witness :
  ∃ e, (JwtService.refreshTokenPair "hex-8"
          (run_calls [Login "ann@example.com" "secret" None]
             (JwtService.refreshTokenPair "hex-8" logged_in).2)).1 = Throw e.
Proof.
  pose proof rotation_ok as Hok.
  destruct (JwtService.refreshTokenPair "hex-8" logged_in) as [[pair|err] w1] eqn:E; [|done].
  exact (SessionProperties.refresh_token_single_use "hex-8" logged_in pair w1 _ logged_in_sessions E).
Defined.

Lemma reuse_ends_session_witness :
  ∃ pair e,
    let r := JwtService.refreshTokenPair "hex-8" logged_in in
    let w2 := (JwtService.refreshTokenPair "hex-8" (run_calls [Wait 1000] r.2)).2 in
    r.1 = Ok pair ∧
    (JwtService.refreshTokenPair (refreshToken pair) (run_calls [Wait 1000] w2)).1 = Throw e.
Proof.
  pose proof rotation_ok as Hok.
  destruct (JwtService.refreshTokenPair "hex-8" logged_in) as [[pair|err] w1] eqn:E; [|done].
  destruct (SessionProperties.reuse_ends_session "hex-8" logged_in pair w1 [Wait 1000] [Wait 1000]
    logged_in_sessions E) as [e He].
  exists pair, e. split; [reflexivity|exact He].
Defined.


(** The reset link of the account, asked for after the login. *)
Definition reset_requested : World :=
  run_calls [RequestPasswordReset "ann@example.com"; Wait 5000] logged_in.

Lemma reset_ok :
  is_ok (AuthService.confirmPasswordReset "hex-12" "new secret" reset_requested) = true.
Proof. vm_compute. reflexivity. Qed.

Lemma password_reset_ends_sessions_witness :
  (AuthService.confirmPasswordReset "hex-12" "again"
     (AuthService.confirmPasswordReset "hex-12" "new secret" reset_requested).2).1 =
    Throw (AuthService.invalid_link "Password reset token is invalid or has expired").
Proof.
  pose proof reset_ok as Hok.
  destruct (AuthService.confirmPasswordReset "hex-12" "new secret" reset_requested) as [[[]|err] w'] eqn:E;
    [|done].
  apply (AccountProperties.password_reset_ends_sessions "hex-12" "new secret" reset_requested w'
    "uuid-1" ∅ (mkAccessTokenPayload "uuid-1" "" "member" None None) 1000 "uuid-7" "again").
  - exact E.
  - vm_compute. reflexivity.
  - vm_compute. apply NoDup_singleton.
  - vm_compute. eauto.
  - vm_compute. reflexivity.
  - reflexivity.
  - vm_compute. reflexivity.
Defined.

(** The link tokens never leave the process: what is published is the hash,
    under which the link cannot be confirmed. *)
Lemma published_hash_is_not_a_token :
  ob_payload <$> last (outbox_events (db reset_requested)) =
    Some (JObj [("userId", JStr "uuid-1"); ("email", JStr "ann@example.com");
                ("tokenHash", JStr "sha256-hex-12"); ("expiresAt", JNum 4600000)]) ∧
  (AuthService.confirmPasswordReset "sha256-hex-12" "new secret" reset_requested).1 =
    Throw (AuthService.invalid_link "Password reset token is invalid or has expired").
Proof. split; vm_compute; reflexivity. Qed.
End AuthExamples.
