(* ===== verification/Organization.v ===== *)
(** * Organization: tenants, memberships and invitations

    [organization.service.ts], [invitation.service.ts] and the membership
    routes of [organization.router.ts]. *)
From S2P Require Import Prelude Schema World Crypto Concrete OrgRepo AuthRepo Session Auth.
From Stdlib Require Import ZArith Lia Ascii.
From stdpp Require Import base tactics strings gmap list.

Definition NOTIFICATION_EVENT_TYPES : list string :=
  ["task.assigned"; "task.updated"; "task.status_changed"; "task.commented";
   "task.mentioned"; "task.due_soon"; "message.received"; "mention.created";
   "member.joined"; "member.removed"; "file.quarantined"; "org.suspended";
   "payment.failed"; "invitation.created"]%string.

Record CreateOrgInput := mkCreateOrgInput {
  cg_name : string;
  cg_slug : string;
  cg_timezone : option string;
  cg_locale : option string
}.

Section seeding.
Context `{Redis, Random}.

Definition preference_of (orgId userId eventType : string) (p : NotificationPreferenceRow) : bool :=
  (np_org_id p =? orgId)%string && (np_user_id p =? userId)%string && (np_event_type p =? eventType)%string.

(** The preferences every new member gets: the defaults of
    [migrations/008_notifications.js]. *)
Definition seedNotificationPreferences (orgId userId : string) : M unit :=
  for_each NOTIFICATION_EVENT_TYPES (λ eventType,
    let* id := gen_random_uuid in
    let* t := now in
    insert_or_ignore (preference_of orgId userId eventType)
      (mkNotificationPreferenceRow id orgId userId eventType true true false Realtime None None t t)).
End seeding.

Module OrganizationService.
Section service.
Context `{Redis, Random}.

Definition writeOutboxEvent (eventType orgId entityId : string) (actorUserId : option string)
    (payload : json) : M unit :=
  World.writeOutboxEvent (Some orgId) eventType "org" entityId actorUserId payload.

(** The audit entry of a status change. *)
Definition audit_org (orgId : string) (actorId : option string) (eventType : string) (payload : json)
    : M unit :=
  persistAuditLog (Some orgId) actorId (if otruthy actorId then ActUser else ActSystem) eventType
    (Some "org"%string) (Some orgId) payload.

(** The five steps inside the transaction of [createOrg]. *)
Definition provision (userId : string) (data : CreateOrgInput) : M OrgRow :=
  let* newOrg := OrganizationRepository.create
    (mkCreateOrgData (cg_name data) (cg_slug data) None (cg_timezone data) (cg_locale data)) in
  let* wsId := gen_random_uuid in
  let* t := now in
  insert_row (mkWorkspaceRow wsId (o_id newOrg) "Default Workspace" None WsActive userId None t t 1) ;;;
  let* _ := MembershipRepository.createMembership
    (mkCreateMembershipData (o_id newOrg) userId OrgOwner None (Some t)) in
  seedNotificationPreferences (o_id newOrg) userId ;;;
  let* subId := gen_random_uuid in
  insert_unique (λ s, (sub_org_id s =? o_id newOrg)%string)
    (mkSubscriptionRow subId (o_id newOrg) None PFree SubActive None None false None None (JObj []) t t) ;;;
  ret newOrg.

Definition createOrg (userId : string) (data : CreateOrgInput) : M OrgRow :=
  let* existingSlug := OrganizationRepository.findBySlug (cg_slug data) in
  match existingSlug with
  | Some _ => throw (ConflictError "SLUG_TAKEN" "Organization slug is already in use")
  | None =>
      let* org := withTransaction (provision userId data) in
      writeOutboxEvent "org.created" (o_id org) (o_id org) (Some userId)
        (JObj [("orgId", JStr (o_id org)); ("name", JStr (o_name org)); ("userId", JStr userId)]) ;;;
      ret org
  end.

Definition found_org (org : option OrgRow) : M OrgRow :=
  match org with Some o => ret o | None => throw (NotFoundError "Organization") end.

Definition getOrg (orgId : string) : M OrgRow :=
  let* org := OrganizationRepository.findById orgId in
  found_org org.

Definition updateOrg (orgId : string) (data : UpdateOrgData) (expectedVersion : Z) : M OrgRow :=
  let* updated := OrganizationRepository.update orgId data expectedVersion in
  match updated with
  | Some o => ret o
  | None =>
      let* existing := OrganizationRepository.findById orgId in
      let* _ := found_org existing in
      throw (ConflictError "VERSION_CONFLICT" "Organization was modified by another request")
  end.

Definition suspendOrg (orgId reason : string) (actorId : option string) : M unit :=
  let* org := getOrg orgId in
  if negb (bool_decide (o_status org = OrgActive)) then ret tt
  else
    let* _ := OrganizationRepository.updateStatus orgId OrgSuspended None None in
    writeOutboxEvent "org.suspended" orgId orgId actorId
      (JObj [("orgId", JStr orgId); ("reason", JStr reason)]) ;;;
    audit_org orgId actorId "org.suspended" (JObj [("reason", JStr reason)]).

Definition reactivateOrg (orgId : string) (actorId : option string) : M unit :=
  let* org := getOrg orgId in
  if negb (bool_decide (o_status org = OrgSuspended)) then
    throw (ForbiddenError "INVALID_STATUS_TRANSITION" "Only suspended organizations can be reactivated")
  else
    let* _ := OrganizationRepository.updateStatus orgId OrgActive None None in
    writeOutboxEvent "org.reactivated" orgId orgId actorId (JObj [("orgId", JStr orgId)]) ;;;
    audit_org orgId actorId "org.reactivated" (JObj []).

Definition startOffboarding (orgId : string) (actorId : option string) : M unit :=
  let* org := getOrg orgId in
  if negb (bool_decide (o_status org = OrgActive)) && negb (bool_decide (o_status org = OrgSuspended)) then
    throw (ForbiddenError "INVALID_STATUS_TRANSITION"
      "Offboarding can only start from active or suspended status")
  else
    let* t := now in
    let* _ := OrganizationRepository.updateStatus orgId OrgOffboarding (Some t) None in
    writeOutboxEvent "org.offboarding_started" orgId orgId actorId (JObj [("orgId", JStr orgId)]) ;;;
    audit_org orgId actorId "org.offboarding_started" (JObj []).
End service.
End OrganizationService.

Module InvitationService.
Section service.
Context `{Redis, Random, Config, Crypto}.

Definition INVITATION_TTL_DAYS : Z := 7.

Definition writeOutboxEvent (eventType orgId entityId : string) (actorUserId : option string)
    (payload : json) : M unit :=
  World.writeOutboxEvent (Some orgId) eventType "invitation" entityId actorUserId payload.

(** The token: an HMAC of the invitation; the expiry in milliseconds. *)
Definition invite_token (orgId email : string) (role : member_role) (invitedBy : string) (expiresAt : Z)
    : string :=
  hmac (stringify (JObj [("orgId", JStr orgId); ("email", JStr email); ("role", JStr (role_str role));
                         ("invitedBy", JStr invitedBy); ("expiresAt", JNum expiresAt)])) inviteSecret.

Definition with_token (hash : string) (i : InvitationRow) : bool := (inv_token_hash i =? hash)%string.

Definition pending_for (orgId email : string) (i : InvitationRow) : bool :=
  (inv_org_id i =? orgId)%string && (inv_email i =? email)%string &&
  bool_decide (inv_status i = InvPending).

Definition invite (orgId invitedBy email : string) (role : member_role) : M InvitationRow :=
  let normalizedEmail := normalize email in
  let* org := OrganizationService.getOrg orgId in
  if negb (bool_decide (o_status org = OrgActive)) then
    throw (ForbiddenError "ORG_NOT_ACTIVE" "Invitations can only be sent for active organizations")
  else
  let* currentCount := MembershipRepository.countActiveMembers orgId in
  if (o_max_members org <=? currentCount)%Z then
    throw (ForbiddenError "PLAN_MEMBER_LIMIT_EXCEEDED" "Organization has reached its member limit")
  else
  let* existingInvite := select_one (pending_for orgId normalizedEmail) in
  if negb (is_null existingInvite) then
    throw (ForbiddenError "INVITATION_ALREADY_PENDING" "A pending invitation already exists for this email")
  else
  let* t := now in
  let expiresAt := (t + INVITATION_TTL_DAYS * 24 * 60 * 60 * 1000)%Z in
  let token := invite_token orgId normalizedEmail role invitedBy expiresAt in
  let tokenHash := hashToken token in
  let* id := gen_random_uuid in
  let invitation := mkInvitationRow id orgId invitedBy normalizedEmail role tokenHash InvPending
    expiresAt None None t in
  insert_unique (with_token tokenHash) invitation ;;;
  writeOutboxEvent "invitation.created" orgId id (Some invitedBy)
    (JObj [("invitationId", JStr id); ("orgId", JStr orgId); ("email", JStr normalizedEmail);
           ("role", JStr (role_str role)); ("token", JStr token); ("expiresAt", JNum expiresAt)]) ;;;
  ret invitation.

(** The account of the invited email, created when there is none. *)
Definition invited_user (email : string) : M UserRow :=
  let* user := AuthRepository.findUserByEmail email in
  match user with
  | Some u => ret u
  | None =>
      let* u := AuthRepository.createUser
        (mkCreateUserData email (hd ""%string (split_on "@"%char email)) None (Some true) None) in
      let* _ := AuthRepository.createUserPreferences (u_id u) in
      let* _ := AuthRepository.createAuthProvider
        (mkCreateAuthProviderData (u_id u) ProvEmail email None None) in
      ret u
  end.

Definition set_status (id : string) (f : InvitationRow → InvitationRow) : M unit :=
  let* _ := update_where (λ i, (inv_id i =? id)%string) f in ret tt.

Definition acceptInvitation (token : string) : M (TokenPair * string) :=
  let* found := select_one (with_token (hashToken token)) in
  match found with
  | None => throw (NotFoundError "Invitation")
  | Some invitation =>
  if negb (bool_decide (inv_status invitation = InvPending)) then
    throw (AppError 410 "INVITATION_GONE" "Invitation has already been used, expired, or revoked" None)
  else
  let* t := now in
  if (inv_expires_at invitation <? t)%Z then
    set_status (inv_id invitation) (λ i, i <| inv_status := InvExpired |>) ;;;
    throw (AppError 410 "INVITATION_EXPIRED" "Invitation has expired" None)
  else
  let* user := invited_user (inv_email invitation) in
  let* _ := MembershipRepository.createMembership
    (mkCreateMembershipData (inv_org_id invitation) (u_id user) (inv_role invitation)
       (Some (inv_invited_by invitation)) (Some t)) in
  seedNotificationPreferences (inv_org_id invitation) (u_id user) ;;;
  set_status (inv_id invitation)
    (λ i, i <| inv_status := InvAccepted |> <| inv_accepted_at := Some t |>) ;;;
  writeOutboxEvent "member.joined" (inv_org_id invitation) (u_id user) (Some (u_id user))
    (JObj [("orgId", JStr (inv_org_id invitation)); ("userId", JStr (u_id user));
           ("role", JStr (role_str (inv_role invitation)))]) ;;;
  let* tokens := JwtService.issueTokenPair (u_id user) (inv_org_id invitation)
    (role_str (inv_role invitation)) (u_is_platform_admin user) None in
  ret (tokens, u_id user)
  end.

Definition revokeInvitation (orgId invitationId revokedBy : string) : M unit :=
  let* t := now in
  let* rows := update_where
    (λ i, (inv_id i =? invitationId)%string && (inv_org_id i =? orgId)%string &&
          bool_decide (inv_status i = InvPending))
    (λ i, i <| inv_status := InvRevoked |> <| inv_revoked_at := Some t |>) in
  match rows with
  | [] => throw (NotFoundError "Invitation")
  | _ =>
      writeOutboxEvent "invitation.revoked" orgId invitationId (Some revokedBy)
        (JObj [("invitationId", JStr invitationId); ("orgId", JStr orgId); ("revokedBy", JStr revokedBy)])
  end.
End service.
End InvitationService.

(** ** Creating an organization *)

Section create.
Context `{Redis, Random}.

(** Everything a new organization has. *)
Record provisioned (userId : string) (org : OrgRow) (d : DB) : Prop := {
  pv_org : org ∈ organizations d;
  pv_active : o_status org = OrgActive;
  pv_workspace : ∃ ws, ws ∈ workspaces d ∧ ws_org_id ws = o_id org ∧ ws_owner_user_id ws = userId;
  pv_owner : ∃ m, m ∈ org_memberships d ∧ om_org_id m = o_id org ∧ om_user_id m = userId ∧
    om_role m = OrgOwner ∧ om_status m = MActive ∧ om_deleted_at m = None;
  pv_preferences : ∀ e, e ∈ NOTIFICATION_EVENT_TYPES →
    ∃ p, p ∈ notification_preferences d ∧ preference_of (o_id org) userId e p = true;
  pv_subscription : ∃ s, s ∈ subscriptions d ∧ sub_org_id s = o_id org ∧ sub_plan_tier s = PFree;
}.

(** After the seeding every event has its preference. *)
Lemma seed_preferences (l : list string) orgId userId e w :
  e ∈ l ∨ (∃ p, p ∈ notification_preferences (db w) ∧ preference_of orgId userId e p = true) →
  wp (for_each l (λ eventType,
    let* id := gen_random_uuid in
    let* t := now in
    insert_or_ignore (preference_of orgId userId eventType)
      (mkNotificationPreferenceRow id orgId userId eventType true true false Realtime None None t t)))
    (λ r w', r = Ok tt ∧
      ∃ p, p ∈ notification_preferences (db w') ∧ preference_of orgId userId e p = true) w.
Proof.
  revert w. induction l as [|x l IH]; intros w He; cbn [for_each].
  { split; [done|]. destruct He as [He|He]; [by apply elem_of_nil in He|exact He]. }
  do 2 apply wp_bind. unfold wp at 1. cbn. apply wp_bind. unfold wp at 1. cbn.
  unfold wp at 1, insert_or_ignore. cbn. tables.
  destruct (existsb _ _) eqn:Ex; cbn; apply IH; tables; cbn.
  - destruct He as [[->|He]%elem_of_cons|He]; [right|by left|by right].
    apply existsb_exists in Ex as (p & Hp%list_elem_of_In & Hm). eauto.
  - destruct He as [[->|He]%elem_of_cons|(p & Hp & Hm)]; [right|by left|right].
    + eexists. split; [apply elem_of_app; right; by apply list_elem_of_singleton|].
      unfold preference_of. cbn. by rewrite !String.eqb_refl.
    + exists p. split; [apply elem_of_app; by left|done].
Qed.

Lemma createMembership_spec d w :
  wp (MembershipRepository.createMembership d) (λ r w', ∃ m, r = Ok m ∧
    m ∈ org_memberships (db w') ∧ om_org_id m = cmd_org_id d ∧ om_user_id m = cmd_user_id d ∧
    om_role m = cmd_role d ∧ om_status m = MActive ∧ om_deleted_at m = None) w.
Proof.
  unfold wp, MembershipRepository.createMembership, bind, gen_random_uuid, now, upsert. tables. cbn.
  destruct (List.find _ _) as [m|] eqn:Ef; cbn; tables; cbn; (eexists; split; [done|]).
  - apply find_some_elem in Ef as [Hm HP]. split.
    + apply elem_of_upd_where. exists m. split; [done|]. left. done.
    + unfold MembershipRepository.of_pair in HP. bool_to_prop. by split_all.
  - split; [apply elem_of_app; right; by apply list_elem_of_singleton|done].
Qed.

(** The memberships of other accounts or organizations stay as they were. *)
Definition others_kept (orgId userId : string) (l l' : list MembershipRow) : Prop :=
  ∀ m, MembershipRepository.of_pair orgId userId m = false → m ∈ l' ↔ m ∈ l.

Lemma createMembership_frame d w :
  wp (MembershipRepository.createMembership d) (λ _ w',
    others_kept (cmd_org_id d) (cmd_user_id d) (org_memberships (db w)) (org_memberships (db w'))) w.
Proof.
  unfold wp, MembershipRepository.createMembership, bind, gen_random_uuid, now, upsert. tables. cbn.
  intros m Hm. destruct (List.find _ _) as [m0|]; cbn; tables; cbn.
  - rewrite elem_of_upd_where. split.
    + intros (m1 & Hm1 & [[HP ->]|[_ ->]]); [|done].
      unfold MembershipRepository.of_pair in *. cbn in Hm.
      apply andb_true_iff in HP as [HP _]. by rewrite HP in Hm.
    + intros Hin. exists m. split; [done|by right].
  - rewrite elem_of_app, list_elem_of_singleton. split; [intros [?|Heq]; [done|]|by left].
    subst m. unfold MembershipRepository.of_pair in Hm. cbn in Hm. by rewrite !String.eqb_refl in Hm.
Qed.

(** The seeding leaves the other tables alone. *)
Lemma seeding_untouched {R} `{Table R, !TableNe NotificationPreferenceRow R} (I : list R → Prop) o u :
  preserves (on_table I) (seedNotificationPreferences o u).
Proof. unfold seedNotificationPreferences. preserve. Qed.

Lemma create_org_spec d w :
  wp (OrganizationRepository.create d) (λ r w', ∀ org, r = Ok org →
    org ∈ organizations (db w') ∧ o_slug org = co_slug d ∧ o_status org = OrgActive) w.
Proof.
  unfold OrganizationRepository.create. do 2 step. apply wp_bind. unfold wp at 1, insert_unique.
  destruct (existsb _ _); [done|]. unfold wp. cbn. tables. cbn. intros org [= <-]. split; [|done].
  apply elem_of_app. right. by apply list_elem_of_singleton.
Qed.

Lemma provision_spec userId data w :
  wp (OrganizationService.provision userId data) (λ r w', ∀ org, r = Ok org →
    o_slug org = cg_slug data ∧ provisioned userId org (db w')) w.
Proof.
  unfold OrganizationService.provision. apply wp_bind.
  eapply wp_mono; [apply create_org_spec|]. intros [org|e] w1 Ho; [|done].
  destruct (Ho org eq_refl) as (Hin & Hslug & Hact). cbn [co_slug] in Hslug. do 3 step.
  match goal with |- wp _ _ ?w0 => set (w2 := w0) end.
  assert (Hw2 : on_table (λ l, org ∈ l) w2 ∧ on_table (λ l, ∃ ws, ws ∈ l ∧
    ws_org_id ws = o_id org ∧ ws_owner_user_id ws = userId) w2).
  { subst w2. unfold on_table. cbn. tables. cbn. split; [exact Hin|].
    eexists. split; [apply elem_of_app; right; by apply list_elem_of_singleton|done]. }
  clearbody w2. apply wp_bind.
  eapply wp_mono; [apply wp_and; [apply createMembership_spec|]|].
  { eapply (wp_preserves (λ w, on_table _ w ∧ on_table _ w)); [|exact Hw2|by intros r w'; intros Hw'; exact Hw'].
    unfold MembershipRepository.createMembership. apply preserves_and; preserve. }
  intros r w3 [(m & -> & Hm) Hw3]. apply wp_bind.
  eapply wp_mono; [apply wp_and; [|eapply (wp_preserves (λ w, (on_table _ w ∧ on_table _ w) ∧
      on_table (λ l, m ∈ l) w)); [|split; [exact Hw3|exact (proj1 Hm)]|by intros r w'; intros Hw'; exact Hw']]|].
  2:{ apply preserves_and; [apply preserves_and|]; apply seeding_untouched. }
  { instantiate (1 := λ r w', r = Ok tt ∧ ∀ e, e ∈ NOTIFICATION_EVENT_TYPES →
      ∃ p, p ∈ notification_preferences (db w') ∧ preference_of (o_id org) userId e p = true).
    split.
    - by apply (seed_preferences _ _ _ "task.assigned"); left; left.
    - intros e He. apply seed_preferences. by left. }
  intros r4 w4 [[-> Hp] [[Ho4 Hws4] Hm4]]. step. apply wp_bind. unfold wp at 1, insert_unique.
  destruct (existsb _ _); [done|]. unfold wp. cbn. intros org' [= <-].
  split; [done|]. unfold on_table in *. tables. cbn. split; cbn; try done.
  - exists m. split; [exact Hm4|]. cbn in Hm. by destruct Hm as (_ & ? & ? & ? & ? & ?).
  - eexists. split; [apply elem_of_app; right; by apply list_elem_of_singleton|done].
Qed.
End create.

Module OrganizationProperties.
Section theorems.
Context `{Redis, Random}.

(** creating an organization is all or nothing: when it succeeds the
    organization is active and has its workspace, its owner, a preference for
    every event type and its free subscription; when it fails the database is
    what it was. *)
Theorem createOrg_atomic userId data w :
  wp (OrganizationService.createOrg userId data) (λ r w',
    match r with
    | Ok org => o_slug org = cg_slug data ∧ provisioned userId org (db w')
    | Throw _ => db w' = db w
    end) w.
Proof.
  unfold OrganizationService.createOrg. apply wp_bind.
  unfold wp at 1, OrganizationRepository.findBySlug, select_one. cbn.
  destruct (List.find _ _); [done|]. apply wp_bind.
  pose proof (provision_spec userId data w) as Hp. unfold wp in Hp. unfold wp at 1, withTransaction.
  destruct (OrganizationService.provision userId data w) as [[org|e] w1]; [|done].
  destruct (Hp org eq_refl) as [Hs Hpr]. unfold wp. cbn. split; [done|]. tables. cbn.
  destruct Hpr. by split.
Qed.
End theorems.
End OrganizationProperties.

(** ** Invitations *)

Inductive invitation_call :=
  | Invite (orgId invitedBy email : string) (role : member_role)
  | Accept (token : string)
  | Revoke (orgId invitationId revokedBy : string)
  | Wait (ms : Z).

Section invitations.
Context `{Redis, Random, Config, Crypto}.

Definition icall (c : invitation_call) : M unit :=
  match c with
  | Invite o b e r => InvitationService.invite o b e r ;;; ret tt
  | Accept t => InvitationService.acceptInvitation t ;;; ret tt
  | Revoke o i b => InvitationService.revokeInvitation o i b
  | Wait ms => wait ms
  end.

Definition run_icalls (cs : list invitation_call) (w : World) : World :=
  foldl (λ w c, (icall c w).2) w cs.

(** The invitation with hash [h] exists and is no longer pending. *)
Definition spent (h : string) (l : list InvitationRow) : Prop :=
  (∃ i, i ∈ l ∧ inv_token_hash i = h) ∧
  ∀ i, i ∈ l → inv_token_hash i = h → inv_status i ≠ InvPending.

Lemma spent_upd h P f l :
  (∀ i, inv_token_hash (f i) = inv_token_hash i ∧ inv_status (f i) ≠ InvPending) →
  spent h l → spent h (upd_where P f l).
Proof.
  intros Hf [(i & Hi & Hh) Hs]. split.
  - exists (if P i then f i else i). split.
    + apply elem_of_upd_where. exists i. split; [done|]. destruct (P i); auto.
    + destruct (P i); [|done]. by rewrite (proj1 (Hf i)).
  - intros x (y & Hy & [[_ ->]|[_ ->]])%elem_of_upd_where Hx; [apply Hf|auto].
Qed.

(** A new invitation has a new hash. *)
Lemma spent_insert h h' row :
  inv_token_hash row = h' →
  preserves (on_table (spent h)) (insert_unique (InvitationService.with_token h') row).
Proof.
  intros <- w Hs. unfold on_table, insert_unique in *. destruct (existsb _ _) eqn:E; [done|].
  cbn. rewrite rows_set_rows. destruct Hs as [(i & Hi & Hh) Hs]. split.
  - exists i. split; [apply elem_of_app; by left|done].
  - intros x [Hx| ->%list_elem_of_singleton]%elem_of_app Hxh; [by apply Hs|].
    exfalso. apply not_true_iff_false in E. apply E, existsb_exists. exists i.
    split; [by apply list_elem_of_In|]. unfold InvitationService.with_token.
    apply String.eqb_eq. congruence.
Qed.

Lemma spent_set_status h id f :
  (∀ i, inv_token_hash (f i) = inv_token_hash i ∧ inv_status (f i) ≠ InvPending) →
  preserves (on_table (spent h)) (InvitationService.set_status id f).
Proof.
  intros Hf. unfold InvitationService.set_status. apply preserves_bind; [|intros; apply preserves_ret].
  apply preserves_update. intros l. by apply spent_upd.
Qed.

(** Issuing tokens and creating the account leave the invitations alone. *)
Lemma accounts_untouched (I : list InvitationRow → Prop) :
  (∀ e, preserves (on_table I) (InvitationService.invited_user e)) ∧
  (∀ d, preserves (on_table I) (MembershipRepository.createMembership d)) ∧
  (∀ o u, preserves (on_table I) (seedNotificationPreferences o u)) ∧
  (∀ u o r a m, preserves (on_table I) (JwtService.issueTokenPair u o r a m)) ∧
  (∀ ty o e a p, preserves (on_table I) (InvitationService.writeOutboxEvent ty o e a p)).
Proof.
  unfold InvitationService.invited_user, AuthRepository.findUserByEmail, AuthRepository.createUser,
    AuthRepository.createUserPreferences, AuthRepository.createAuthProvider,
    MembershipRepository.createMembership, seedNotificationPreferences,
    JwtService.issueTokenPair, Token.generateAccessToken, JwtService.decoded_jti,
    Token.generateRefreshToken, AuthRepository.createRefreshToken, InvitationService.writeOutboxEvent.
  split_all; intros; preserve.
Qed.

Lemma icall_spent h c : preserves (on_table (spent h)) (icall c).
Proof.
  destruct (accounts_untouched (spent h)) as (Hu & Hm & Hs & Hi & Ho).
  destruct c; cbn [icall].
  - apply preserves_bind; [|intros; apply preserves_ret].
    unfold InvitationService.invite, OrganizationService.getOrg, OrganizationService.found_org,
      OrganizationRepository.findById, MembershipRepository.countActiveMembers. cbv zeta.
    repeat first [apply Ho | apply spent_insert; reflexivity | progress preserve].
  - apply preserves_bind; [|intros; apply preserves_ret].
    unfold InvitationService.acceptInvitation.
    repeat first [apply Hu | apply Hm | apply Hs | apply Hi | apply Ho
      | apply spent_set_status; intros ?; by split | progress preserve].
  - unfold InvitationService.revokeInvitation. preserve; try apply Ho.
    apply preserves_update. intros l. by apply spent_upd.
  - by intros w Hw.
Qed.

(** What a successful acceptance found. *)
Definition acceptable (token : string) (w : World) (i : InvitationRow) : Prop :=
  List.find (InvitationService.with_token (hashToken token)) (invitations (db w)) = Some i ∧
  inv_status i = InvPending ∧ (clock w ≤ inv_expires_at i)%Z.

Definition member_as (orgId userId : string) (role : member_role) (l : list MembershipRow) : Prop :=
  ∃ m, m ∈ l ∧ om_org_id m = orgId ∧ om_user_id m = userId ∧ om_role m = role ∧
       om_status m = MActive ∧ om_deleted_at m = None.

Lemma finish_untouched (I : list MembershipRow → Prop) :
  (∀ ty o e a p, preserves (on_table I) (InvitationService.writeOutboxEvent ty o e a p)) ∧
  (∀ u o r b m, preserves (on_table I) (JwtService.issueTokenPair u o r b m)).
Proof.
  unfold JwtService.issueTokenPair, Token.generateAccessToken, JwtService.decoded_jti,
    Token.generateRefreshToken, AuthRepository.createRefreshToken, InvitationService.writeOutboxEvent.
  split_all; intros; preserve.
Qed.

Lemma accept_spends token l i t :
  NoDup (inv_token_hash <$> l) → List.find (InvitationService.with_token (hashToken token)) l = Some i →
  spent (hashToken token) (upd_where (λ x, inv_id x =? inv_id i)%string
    (λ x, x <| inv_status := InvAccepted |> <| inv_accepted_at := Some t |>) l).
Proof.
  intros Hnd [Hil Hih%String.eqb_eq]%find_some_elem. split.
  - exists (i <| inv_status := InvAccepted |> <| inv_accepted_at := Some t |>).
    split; [|done]. apply elem_of_upd_where. exists i. split; [done|]. left. by rewrite String.eqb_refl.
  - intros x (y & Hy & [[_ ->]|[Hne ->]])%elem_of_upd_where Hx; [done|].
    assert (y = i) as ->; [|by rewrite String.eqb_refl in Hne].
    eapply (NoDup_fmap_elem inv_token_hash); [exact Hnd|done|done|congruence].
Qed.

(** The account of an email: the live one, or a new one that is the only change
    of the users. *)
Definition account_of (email : string) (u : UserRow) (us us' : list UserRow) : Prop :=
  List.find (AuthRepository.by_email (normalize email)) us = Some u ∧ us' = us ∨
  List.find (AuthRepository.by_email (normalize email)) us = None ∧ us' = us ++ [u] ∧
    u_email u = normalize email ∧ u_status u = UActive ∧ u_password_hash u = None ∧ u_is_platform_admin u = false.

Lemma createUser_spec d w :
  wp (AuthRepository.createUser d) (λ r w', ∀ u, r = Ok u →
    users (db w') = users (db w) ++ [u] ∧ u_email u = normalize (cu_email d) ∧ u_status u = UActive ∧
    u_password_hash u = cu_password_hash d ∧ u_is_platform_admin u = false) w.
Proof.
  unfold AuthRepository.createUser. do 2 step. apply wp_bind. unfold wp at 1, insert_unique.
  destruct (existsb _ _); [done|]. unfold wp. cbn. tables. cbn. by intros u [= <-].
Qed.

(** The tables that the making of an account leaves alone, and what comes
    after it leaves the users too. *)
Lemma account_making d userId p us ms inv :
  preserves (λ w, on_table (λ l : list MembershipRow, l = ms) w ∧ on_table (λ l : list InvitationRow, l = inv) w)
    (AuthRepository.createUser d) ∧
  preserves (λ w, on_table (λ l : list UserRow, l = us) w ∧
      on_table (λ l : list MembershipRow, l = ms) w ∧ on_table (λ l : list InvitationRow, l = inv) w)
    (let* _ := AuthRepository.createUserPreferences userId in let* _ := AuthRepository.createAuthProvider p in ret tt).
Proof.
  unfold AuthRepository.createUser, AuthRepository.createUserPreferences, AuthRepository.createAuthProvider.
  split; repeat apply preserves_and; preserve.
Qed.

Lemma invited_user_spec email w :
  wp (InvitationService.invited_user email) (λ r w', ∀ u, r = Ok u →
    account_of email u (users (db w)) (users (db w')) ∧ org_memberships (db w') = org_memberships (db w) ∧
    invitations (db w') = invitations (db w)) w.
Proof.
  unfold InvitationService.invited_user, AuthRepository.findUserByEmail. apply wp_bind.
  unfold wp at 1, select_one. tables. cbn [fst snd]. unfold account_of.
  destruct (List.find _ _) as [u|]; [unfold wp; cbn; intros u' [= <-]; auto|].
  apply wp_bind. eapply wp_mono; [apply wp_and; [apply createUser_spec|]|].
  { eapply wp_preserves; [apply (account_making _ "" (mkCreateAuthProviderData "" ProvEmail email None None) []
      (org_memberships (db w)) (invitations (db w)))|by split|intros r w' E; exact E]. }
  intros [u|e] w1 [Hu [Hm1 Hi1]]; [|done]. destruct (Hu _ eq_refl) as (Hus & He & Hst & Hp & Ha).
  destruct (account_making (mkCreateUserData email "" None None None) (u_id u)
    (mkCreateAuthProviderData (u_id u) ProvEmail email None None) (users (db w1)) (org_memberships (db w)) (invitations (db w)))
    as [_ Hrest].
  specialize (Hrest w1 ltac:(by split_and!)). unfold bind in Hrest. unfold wp, bind.
  destruct (AuthRepository.createUserPreferences (u_id u) w1) as [[a|e] w2]; [|done].
  destruct (AuthRepository.createAuthProvider _ w2) as [[b|e] w3]; [|done].
  destruct Hrest as (Hu3 & Hm3 & Hi3). unfold on_table in *. cbn in *. tables.
  intros u' [= <-]. rewrite Hu3, Hm3, Hi3. auto 10.
Qed.

(** What an acceptance leaves: the members, the users and the invitation. *)
Definition settled_as (ms : list MembershipRow) (us : list UserRow) (h : string) (w : World) : Prop :=
  on_table (λ l, l = ms) w ∧ on_table (λ l, l = us) w ∧ on_table (spent h) w.

Lemma finish_settled ms us h :
  (∀ ty o e a p, preserves (settled_as ms us h) (InvitationService.writeOutboxEvent ty o e a p)) ∧
  (∀ u o r b m, preserves (settled_as ms us h) (JwtService.issueTokenPair u o r b m)).
Proof.
  unfold JwtService.issueTokenPair, Token.generateAccessToken, JwtService.decoded_jti,
    Token.generateRefreshToken, AuthRepository.createRefreshToken, InvitationService.writeOutboxEvent, settled_as.
  split; intros; (apply preserves_and; [|apply preserves_and]); preserve.
Qed.

Lemma membership_settled us o :
  (∀ d, preserves (λ w, on_table (λ l, l = us) w ∧ on_table (λ l, l = o) w) (MembershipRepository.createMembership d)) ∧
  (∀ ms a b, preserves (λ w, on_table (λ l : list MembershipRow, l = ms) w ∧
     on_table (λ l : list UserRow, l = us) w ∧ on_table (λ l : list InvitationRow, l = o) w)
     (seedNotificationPreferences a b)).
Proof.
  unfold MembershipRepository.createMembership, seedNotificationPreferences.
  split; intros; repeat apply preserves_and; preserve.
Qed.

Lemma acceptInvitation_spec token w :
  NoDup (inv_token_hash <$> invitations (db w)) →
  wp (InvitationService.acceptInvitation token) (λ r w', ∀ p, r = Ok p →
    ∃ i u, acceptable token w i ∧ u_id u = p.2 ∧
      account_of (inv_email i) u (users (db w)) (users (db w')) ∧
      member_as (inv_org_id i) p.2 (inv_role i) (org_memberships (db w')) ∧
      others_kept (inv_org_id i) p.2 (org_memberships (db w)) (org_memberships (db w')) ∧
      spent (hashToken token) (invitations (db w'))) w.
Proof.
  intros Hnd. unfold InvitationService.acceptInvitation. apply wp_bind.
  unfold wp at 1, select_one. tables. cbn [fst snd].
  destruct (List.find _ _) as [i|] eqn:Ef; [|done].
  case_bool_decide as Hp; cbn [negb]; [|done]. step.
  destruct (Z.ltb_spec (inv_expires_at i) (clock w)) as [Ht|Ht].
  { unfold wp. by edestruct (bind_throw (A := unit) (B := TokenPair * string)) as [e ->]. }
  apply wp_bind. eapply wp_mono; [apply invited_user_spec|].
  intros [u|e] w1 Hu; [|done]. destruct (Hu _ eq_refl) as (Hacc & Hms & Hinv). apply wp_bind.
  eapply wp_mono; [apply wp_and; [apply createMembership_spec|apply wp_and; [apply createMembership_frame|]]|].
  { eapply wp_preserves; [apply (membership_settled (users (db w1)) (invitations (db w1)))|by split|].
    intros r w' E; exact E. }
  intros r w2 [(m & -> & Hin & Hm2) [Hk [Hus2 Hinv2]]]. cbn in Hm2, Hk. apply wp_bind.
  eapply wp_mono.
  { eapply wp_preserves; [apply (membership_settled (users (db w1)) (invitations (db w1)))| |].
    - split; [|by split]. unfold on_table. tables. reflexivity.
    - intros r w' E; exact E. }
  intros [[]|e] w3 (Hms3 & Hus3 & Hinv3); [|done]. apply wp_bind. unfold wp at 1, InvitationService.set_status.
  cbn [bind update_where ret fst snd]. match goal with |- wp _ _ ?x => set (w4 := x) end.
  assert (settled_as (org_memberships (db w2)) (users (db w1)) (hashToken token) w4) as Hw4.
  { subst w4. unfold settled_as, on_table in *. tables. cbn. split; [done|]. split; [done|].
    rewrite Hinv3, Hinv. by eapply accept_spends. }
  clearbody w4. destruct (finish_settled (org_memberships (db w2)) (users (db w1)) (hashToken token)) as [Ho Hi].
  apply wp_bind. eapply wp_mono; [eapply wp_preserves; [apply Ho|exact Hw4|by intros r w' E; exact E]|].
  intros [[]|e] w5 Hw5; [|done]. apply wp_bind.
  eapply wp_mono; [eapply wp_preserves; [apply Hi|exact Hw5|by intros r w' E; exact E]|].
  intros [tokens|e] w6 (Hm6 & Hu6 & Hs6); [|done]. unfold wp. cbn. intros p [= <-].
  unfold on_table in *. tables. rewrite Hm6, Hu6, <- Hms. exists i, u. split_and!; try done.
  exists m. by destruct Hm2 as (? & ? & ? & ? & ?).
Qed.

End invitations.

Module InvitationProperties.
Section theorems.
Context `{Redis, Random, Config, Crypto}.

(** C11: accepting an invitation needs a pending, unexpired one; it makes the
    account of the email it was sent to, a new account when nobody has it, an
    active member with the role it was invited with; no other account and no
    other membership changes, and the invitation is spent. *)
Theorem acceptInvitation_grants token w tokens userId w' :
  NoDup (inv_token_hash <$> invitations (db w)) →
  InvitationService.acceptInvitation token w = (Ok (tokens, userId), w') →
  ∃ i u, List.find (InvitationService.with_token (hashToken token)) (invitations (db w)) = Some i ∧
    inv_status i = InvPending ∧ (clock w ≤ inv_expires_at i)%Z ∧
    u_id u = userId ∧ account_of (inv_email i) u (users (db w)) (users (db w')) ∧
    member_as (inv_org_id i) userId (inv_role i) (org_memberships (db w')) ∧
    others_kept (inv_org_id i) userId (org_memberships (db w)) (org_memberships (db w')) ∧
    spent (hashToken token) (invitations (db w')).
Proof.
  intros Hnd E. pose proof (acceptInvitation_spec token w Hnd) as Hs. unfold wp in Hs.
  rewrite E in Hs. destruct (Hs _ eq_refl) as (i & u & (? & ? & ?) & ? & ? & ? & ? & ?). by exists i, u.
Qed.

(** C12: an invitation is used once: after it was accepted, whatever
    invitations are sent, accepted or revoked afterwards, accepting it again
    answers 410 and changes nothing. *)
Theorem invitation_used_once token w p w' cs :
  NoDup (inv_token_hash <$> invitations (db w)) →
  InvitationService.acceptInvitation token w = (Ok p, w') →
  InvitationService.acceptInvitation token (run_icalls cs w') =
    (Throw (AppError 410 "INVITATION_GONE" "Invitation has already been used, expired, or revoked" None),
     run_icalls cs w').
Proof.
  intros Hnd E. pose proof (acceptInvitation_spec token w Hnd) as Hs. unfold wp in Hs.
  rewrite E in Hs. destruct (Hs _ eq_refl) as (i & u & _ & _ & _ & _ & _ & Hspent). cbn [snd] in Hspent.
  assert (on_table (spent (hashToken token)) (run_icalls cs w')) as [(x & Hx & Hxh) Hx'].
  { clear E Hs. unfold run_icalls. revert w' Hspent. induction cs as [|c cs IH]; intros w' Hw'; [exact Hw'|].
    cbn [foldl]. apply IH. by apply icall_spent. }
  unfold InvitationService.acceptInvitation, bind at 1, select_one.
  destruct (find_is_some (InvitationService.with_token (hashToken token)) _ x Hx) as [y Hy].
  { by apply String.eqb_eq. }
  rewrite Hy. apply find_some_elem in Hy as [Hyl Hyh%String.eqb_eq].
  by rewrite bool_decide_false by by apply Hx'.
Qed.
End theorems.
End InvitationProperties.

Module InvitationExamples.
Import Concrete.

Definition start : World :=
  (empty_world 1000) <| db := empty_db
    <| organizations := [mkOrgRow "o" "Org" "org" OrgActive PFree 0 None None None None 5 1000 0 false None
         false 5 365 None "UTC" "en-US" 0 0 1] |> |>.

Definition invited : World := run_icalls [Invite "o" "u" "Bob@example.com" Guest] start.

Definition token : string :=
  InvitationService.invite_token "o" "bob@example.com" Guest "u" (1000 + 7 * 86400000).

Lemma accept_ok : is_ok (InvitationService.acceptInvitation token invited) = true.
Proof. vm_compute. reflexivity. Qed.

Lemma invited_unique : NoDup (inv_token_hash <$> invitations (db invited)).
Proof. vm_compute. apply NoDup_singleton. Qed.

Lemma acceptInvitation_grants_witness :
  ∃ tokens userId i u, (InvitationService.acceptInvitation token invited).1 = Ok (tokens, userId) ∧
    u_id u = userId ∧
    account_of (inv_email i) u (users (db invited)) (users (db (InvitationService.acceptInvitation token invited).2)) ∧
    member_as (inv_org_id i) userId (inv_role i)
      (org_memberships (db (InvitationService.acceptInvitation token invited).2)).
Proof.
  pose proof accept_ok as Hok.
  destruct (InvitationService.acceptInvitation token invited) as [[[tokens userId]|e] w'] eqn:E; [|done].
  destruct (InvitationProperties.acceptInvitation_grants token invited tokens userId w' invited_unique E)
    as (i & u & _ & _ & _ & Hu & Ha & Hm & _).
  exists tokens, userId, i, u. split; [reflexivity|]. split; [exact Hu|]. split; [exact Ha|exact Hm].
Defined.

Lemma invitation_used_once_witness :
  is_ok (InvitationService.acceptInvitation token
    (run_icalls [Wait 5] (InvitationService.acceptInvitation token invited).2)) = false.
Proof.
  pose proof accept_ok as Hok.
  destruct (InvitationService.acceptInvitation token invited) as [[p|e] w'] eqn:E; [|done]. cbn [snd].
  by rewrite (InvitationProperties.invitation_used_once token invited p w' [Wait 5] invited_unique E).
Defined.
End InvitationExamples.
