(* ===== verification/Http.v ===== *)
(** * Http: requests, responses and the idempotency of mutating requests

    A route is a function of the request that ends with a response, or throws
    an error that [error-handler.middleware.ts] turns into one.  The
    middlewares of [shared/] are functions that take the rest of the route as
    their [next].  Here: the response envelope, the error handler, and
    [shared/idempotency]. *)
From S2P Require Import Prelude Schema World Zod Crypto Concrete Session.
From Stdlib Require Import ZArith Lia.
From stdpp Require Import base tactics strings gmap list.

(** The fields of a request the middlewares read. [rq_path] is the path
    below the mount point of the router ([req.path]). *)
Record Request `{Crypto} := mkRequest {
  rq_method : string;
  rq_path : string;
  rq_authorization : authorization;
  rq_org_id : option string;
  rq_idempotency_key : option string;
  rq_ip : option string;
  rq_id : string;
  rq_correlation_id : string;
  rq_request_id : string
}.

Record Response := mkResponse {
  rs_status : Z;
  rs_body : json
}.

Definition error_body (code message : string) (details : option json) (requestId : string) : json :=
  JObj [("error", JObj ([("code", JStr code); ("message", JStr message)] ++
                        match details with Some d => [("details", d)] | None => [] end)%list);
        ("meta", JObj [("request_id", JStr requestId)])].

(** [errorHandlerMiddleware]. *)
Definition error_response (requestId : string) (e : error) : Response :=
  match e with
  | AppError statusCode code message details =>
      mkResponse statusCode (error_body code message details requestId)
  | PgError code =>
      if (code =? "23505")%string
      then mkResponse 409 (error_body "DUPLICATE_ENTRY" "Resource already exists" None requestId)
      else mkResponse 500 (error_body "INTERNAL_ERROR" "An unexpected error occurred" None requestId)
  | PlainError _ =>
      mkResponse 500 (error_body "INTERNAL_ERROR" "An unexpected error occurred" None requestId)
  end.

Section http.
Context `{Redis, Random, Crypto}.

(** [res.success], [res.created], [res.accepted]. *)
Definition respond (rq : Request) (status : Z) (data : json) : M Response :=
  let* t := now in
  ret (mkResponse status (JObj [("data", data); ("error", JNull);
    ("meta", JObj [("correlation_id", JStr (rq_correlation_id rq));
                   ("request_id", JStr (rq_request_id rq)); ("timestamp", JNum t)])])).

(** The end of every route: an error becomes a response. *)
Definition handled (rq : Request) (route : M Response) : M Response :=
  catch route (λ e, ret (error_response (rq_id rq) e)).

Definition ValidationError (details : json) : error :=
  AppError 400 "VALIDATION_ERROR" "Input validation failed" (Some details).

(** What a handler does with a value its cast does not fit. *)
Definition type_error : error := PlainError "TypeError".

(** [validate(schema)], [validateQuery(schema)], then the handler, which reads
    the parsed value with [cast]. *)
Definition validated `{Zod} {A B} (schema : ZodType) (cast : json → option A) (body : option json) (next : A → M B)
    : M B :=
  match safeParse schema body with
  | inl errors => throw (ValidationError (JObj [("errors", errors)]))
  | inr data => match data ≫= cast with Some v => next v | None => throw type_error end
  end.
End http.

(** ** Idempotency keys *)

Inductive IdempotencyResult :=
  | CachedResponse (keyHash : string) (response : Response)
  | NotCached (keyHash : string).

Module IdempotencyService.
Section service.
Context `{Redis, Random, Config, Crypto}.

Definition TTL_HOURS : Z := 24.

Definition computeKeyHash (orgId userId endpoint clientKey : string) : string :=
  hashToken (orgId +:+ ":" +:+ userId +:+ ":" +:+ endpoint +:+ ":" +:+ clientKey).

Definition with_hash (keyHash : string) (k : IdempotencyRecord) : bool :=
  (ik_key_hash k =? keyHash)%string.

Definition checkAndStore (clientKey orgId userId endpoint : string) : M IdempotencyResult :=
  let keyHash := computeKeyHash orgId userId endpoint clientKey in
  let* t := now in
  let* existing := select_one (λ k, with_hash keyHash k && (t <? ik_expires_at k)%Z) in
  match existing with
  | Some row =>
      match ik_response_status row, ik_response_body row with
      | Some status, Some body => ret (CachedResponse keyHash (mkResponse status body))
      | _, _ => throw (ConflictError "IDEMPOTENCY_IN_PROGRESS"
                  "A request with this Idempotency-Key is already in progress")
      end
  | None =>
      let* id := gen_random_uuid in
      insert_or_ignore (with_hash keyHash)
        (mkIdempotencyRecord id keyHash orgId userId endpoint None None (t + TTL_HOURS * 3600 * 1000)) ;;;
      ret (NotCached keyHash)
  end.

Definition saveResponse (keyHash : string) (status : Z) (body : json) : M unit :=
  let* _ := update_where (with_hash keyHash)
    (λ k, k <| ik_response_status := Some status |> <| ik_response_body := Some body |>) in
  ret tt.
End service.
End IdempotencyService.

Section idempotency_middleware.
Context `{Redis, Random, Config, Crypto}.

Definition IDEMPOTENCY_METHODS : list string := ["POST"; "PUT"; "PATCH"]%string.

(** [a || b || c] on strings that may be absent: the first that is neither
    absent nor empty, and the last one otherwise. *)
Definition or_else (a b : option string) : option string := if otruthy a then a else b.

(** [idempotencyMiddleware]: [ctxOrgId] is [req.orgContext?.orgId].  The
    [res.json] it replaces is also the one the error handler calls, so that
    the response saved is the one sent, an error included. *)
Definition idempotencyMiddleware (rq : Request) (user : option ReqUser) (ctxOrgId : option string)
    (next : M Response) : M Response :=
  if negb (includes IDEMPOTENCY_METHODS (rq_method rq)) then next
  else match rq_idempotency_key rq with
  | None => throw (BadRequestError "MISSING_IDEMPOTENCY_KEY"
              "Idempotency-Key header is required for mutating requests")
  | Some clientKey =>
  if negb (truthy clientKey) then
    throw (BadRequestError "MISSING_IDEMPOTENCY_KEY"
      "Idempotency-Key header is required for mutating requests")
  else
  let userId := ru_userId <$> user in
  let orgId := or_else ctxOrgId (or_else (ru_orgId <$> user) userId) in
  match userId, orgId with
  | Some u, Some o =>
      if negb (truthy u) || negb (truthy o) then next
      else
        let* result := IdempotencyService.checkAndStore clientKey o u (rq_path rq) in
        match result with
        | CachedResponse _ response => ret response
        | NotCached keyHash =>
            let* response := handled rq next in
            catch (IdempotencyService.saveResponse keyHash (rs_status response) (rs_body response))
              (λ _, ret tt) ;;;
            ret response
        end
  | _, _ => next
  end
  end.
End idempotency_middleware.

(** The job [cleanup.worker.ts] runs on expired keys. *)
Definition cleanupIdempotencyKeys `{Redis} : M unit :=
  let* t := now in
  let* _ := delete_where (λ k : IdempotencyRecord, (ik_expires_at k <? t)%Z) in
  ret tt.

(** ** Replaying a request *)

(** What happens between two requests: other requests, each with a route
    that does not write the keys itself, the cleanup job, and time. *)
Inductive traffic `{Redis, Crypto} :=
  | Handle (rq : Request) (user : option ReqUser) (ctxOrgId : option string) (next : M Response)
  | Cleanup
  | Pause (ms : Z).

Section replay.
Context `{Redis, Random, Config, Crypto}.

Definition serve (s : traffic) : M unit :=
  match s with
  | Handle rq user org next => let* _ := handled rq (idempotencyMiddleware rq user org next) in ret tt
  | Cleanup => cleanupIdempotencyKeys
  | Pause ms => λ w, (Ok tt, w <| clock := (clock w + ms)%Z |>)
  end.

Definition serve_all (ss : list traffic) (w : World) : World :=
  foldl (λ w s, (serve s w).2) w ss.

Definition ordinary (s : traffic) : Prop :=
  match s with
  | Handle _ _ _ next => untouched IdempotencyRecord next
  | Cleanup => True
  | Pause ms => (0 ≤ ms)%Z
  end.

(** The record of a key. *)
Definition record_of (h : string) (k : IdempotencyRecord) (l : list IdempotencyRecord) : Prop :=
  List.find (IdempotencyService.with_hash h) l = Some k.

(** A request with a usable key, user and organization. *)
Record keyed (rq : Request) (user : option ReqUser) (ctxOrgId : option string)
    (clientKey u o : string) : Prop := {
  kd_method : includes IDEMPOTENCY_METHODS (rq_method rq) = true;
  kd_key : rq_idempotency_key rq = Some clientKey;
  kd_user : ru_userId <$> user = Some u;
  kd_org : or_else ctxOrgId (or_else (ru_orgId <$> user) (ru_userId <$> user)) = Some o;
  kd_truthy : truthy clientKey = true ∧ truthy u = true ∧ truthy o = true;
}.

Lemma keyed_eq rq user org next clientKey u o :
  keyed rq user org clientKey u o →
  idempotencyMiddleware rq user org next =
    (let* result := IdempotencyService.checkAndStore clientKey o u (rq_path rq) in
     match result with
     | CachedResponse _ response => ret response
     | NotCached keyHash =>
         let* response := handled rq next in
         catch (IdempotencyService.saveResponse keyHash (rs_status response) (rs_body response))
           (λ _, ret tt) ;;;
         ret response
     end).
Proof.
  intros [Hm Hk Hu Ho (Hck & Htu & Hto)]. unfold idempotencyMiddleware.
  by rewrite Hm, Hk, Hck, Ho, Hu, Htu, Hto.
Qed.

(** A live record is found. *)
Lemma check_live ck o u path k status body w :
  record_of (IdempotencyService.computeKeyHash o u path ck) k (idempotency_keys (db w)) →
  ik_response_status k = Some status → ik_response_body k = Some body →
  (clock w < ik_expires_at k)%Z →
  IdempotencyService.checkAndStore ck o u path w =
    (Ok (CachedResponse (IdempotencyService.computeKeyHash o u path ck) (mkResponse status body)), w).
Proof.
  intros Hrec Hs Hb Hlive. unfold IdempotencyService.checkAndStore, bind, now, select_one. tables. cbn.
  unfold record_of in Hrec. rewrite (find_and_first _ _ _ _ Hrec) by by apply Z.ltb_lt.
  by rewrite Hs, Hb.
Qed.

(** It answers in place of the route. *)
Lemma replays rq user org next clientKey u o k status body w :
  keyed rq user org clientKey u o →
  record_of (IdempotencyService.computeKeyHash o u (rq_path rq) clientKey) k (idempotency_keys (db w)) →
  ik_response_status k = Some status → ik_response_body k = Some body →
  (clock w < ik_expires_at k)%Z →
  idempotencyMiddleware rq user org next w = (Ok (mkResponse status body), w).
Proof.
  intros Hkd Hrec Hs Hb Hlive. rewrite (keyed_eq _ _ _ _ _ _ _ Hkd). unfold bind.
  by rewrite (check_live _ _ _ _ _ _ _ _ Hrec Hs Hb Hlive).
Qed.

Lemma keep_other (h h' : string) k row :
  h ≠ h' → ik_key_hash row = h' →
  preserves (on_table (record_of h k))
    (insert_or_ignore (IdempotencyService.with_hash h') row).
Proof.
  intros Hne Hrow w Hw. unfold on_table, insert_or_ignore in *.
  destruct (existsb _ _); [done|]. cbn. rewrite rows_set_rows. by apply find_app_l.
Qed.

Lemma save_other h h' k status body :
  h ≠ h' → preserves (on_table (record_of h k)) (IdempotencyService.saveResponse h' status body).
Proof.
  intros Hne. unfold IdempotencyService.saveResponse. apply preserves_bind; [|intros; apply preserves_ret].
  apply preserves_update. intros l Hl. unfold record_of in *. rewrite find_upd_where; [|done].
  rewrite Hl. cbn. apply find_some_elem in Hl as [_ Hk]. unfold IdempotencyService.with_hash in *.
  bool_to_prop. destruct (String.eqb_spec (ik_key_hash k) h'); [congruence|done].
Qed.

Lemma delete_expired h k t :
  (t ≤ ik_expires_at k)%Z →
  ∀ l, record_of h k l → record_of h k (List.filter (λ r, negb (ik_expires_at r <? t)%Z) l).
Proof.
  intros Ht l Hl. apply find_filter_first; [done|]. apply negb_true_iff, Z.ltb_ge. lia.
Qed.

(** Requests run at one time. *)
Lemma serve_clock s w : ordinary s → (clock w ≤ clock (serve s w).2)%Z.
Proof.
  destruct s as [rq user org next| |ms]; cbn [ordinary serve]; intros Hs.
  - assert (Ha : ∀ n t up, preserves (ambient n t up) (idempotencyMiddleware rq user org next)).
    { intros n t up. destruct Hs as [_ Hs]. unfold idempotencyMiddleware, handled,
        IdempotencyService.checkAndStore, IdempotencyService.saveResponse. cbv zeta.
      repeat first [apply Hs | progress preserve]. }
    unfold handled, bind, catch. pose proof (Ha 0 (clock w) (redis_up w) w) as Hw.
    destruct (idempotencyMiddleware _ _ _ _ w) as [[r|e] w']; cbn in *;
      destruct Hw as (_ & -> & _); split_all; lia.
  - done.
  - cbn. lia.
Qed.

Lemma serve_all_clock ss w : Forall ordinary ss → (clock w ≤ clock (serve_all ss w))%Z.
Proof.
  revert w. induction ss as [|s ss IH]; intros w Hss; [done|]. inversion Hss; subst.
  change (serve_all (s :: ss) w) with (serve_all ss (serve s w).2).
  etrans; [by apply serve_clock|by apply IH].
Qed.

(** The rest of a request, once its key is not known. *)
Definition run_and_save (rq : Request) (next : M Response) (result : IdempotencyResult) : M Response :=
  match result with
  | CachedResponse _ response => ret response
  | NotCached keyHash =>
      let* response := handled rq next in
      catch (IdempotencyService.saveResponse keyHash (rs_status response) (rs_body response))
        (λ _, ret tt) ;;;
      ret response
  end.

Lemma check_hash ck o u path kh w w' :
  IdempotencyService.checkAndStore ck o u path w = (Ok (NotCached kh), w') →
  kh = IdempotencyService.computeKeyHash o u path ck.
Proof.
  unfold IdempotencyService.checkAndStore, bind, now, gen_random_uuid, insert_or_ignore, select_one.
  cbn. destruct (List.find _ _) as [row|].
  - destruct (ik_response_status row), (ik_response_body row); by intros [=].
  - destruct (existsb _ _); cbn; by intros [= <-].
Qed.

Lemma other_key_keeps h k ck o u rq next :
  h ≠ IdempotencyService.computeKeyHash o u (rq_path rq) ck → untouched IdempotencyRecord next →
  preserves (on_table (record_of h k))
    (let* result := IdempotencyService.checkAndStore ck o u (rq_path rq) in run_and_save rq next result).
Proof.
  intros Hne [Hn _] w Hw. assert (Hc : preserves (on_table (record_of h k))
      (IdempotencyService.checkAndStore ck o u (rq_path rq))).
  { unfold IdempotencyService.checkAndStore. cbv zeta.
    repeat first [by apply (keep_other _ _ _ _ Hne) | progress preserve]. }
  specialize (Hc w Hw). unfold bind at 1.
  destruct (IdempotencyService.checkAndStore _ _ _ _ w) as [[[kh r|kh]|e] w'] eqn:E; [done| |done].
  apply check_hash in E as ->. revert w' Hc. change (preserves (on_table (record_of h k))
    (run_and_save rq next (NotCached (IdempotencyService.computeKeyHash o u (rq_path rq) ck)))).
  unfold run_and_save, handled.
  repeat first [apply Hn | by apply save_other | progress preserve].
Qed.

(** Traffic keeps a completed record until it expires. *)
Lemma middleware_keeps h k status body rq user org next w :
  untouched IdempotencyRecord next → on_table (record_of h k) w →
  ik_response_status k = Some status → ik_response_body k = Some body →
  (clock w < ik_expires_at k)%Z →
  on_table (record_of h k) (idempotencyMiddleware rq user org next w).2.
Proof.
  intros Hn Hrec Hs Hb Hlive. unfold idempotencyMiddleware.
  destruct (negb _); [by apply Hn|]. destruct (rq_idempotency_key rq) as [ck|]; [|done].
  destruct (negb _); [done|]. cbv zeta.
  destruct (ru_userId <$> user) as [u|]; [|by apply Hn].
  destruct (or_else org _) as [o|]; [|by apply Hn]. destruct (_ || _); [by apply Hn|].
  destruct (decide (h = IdempotencyService.computeKeyHash o u (rq_path rq) ck)) as [->|Hne].
  - unfold bind. by rewrite (check_live _ _ _ _ _ _ _ _ Hrec Hs Hb Hlive).
  - by apply (other_key_keeps _ _ _ _ _ _ _ Hne Hn).
Qed.

Lemma serve_keeps h k status body s w :
  ordinary s → on_table (record_of h k) w →
  ik_response_status k = Some status → ik_response_body k = Some body →
  (clock (serve s w).2 < ik_expires_at k)%Z →
  on_table (record_of h k) (serve s w).2.
Proof.
  intros Hord Hrec Hs Hb Hlive. pose proof (serve_clock s w Hord) as Hmono.
  destruct s as [rq user org next| |ms]; cbn [ordinary serve] in *; [| |done].
  - pose proof (middleware_keeps h k status body rq user org next w Hord Hrec Hs Hb ltac:(lia)) as Hk.
    unfold handled, bind, catch. by destruct (idempotencyMiddleware _ _ _ _ w) as [[r|e] w'].
  - unfold cleanupIdempotencyKeys, bind, now, delete_where. cbn. unfold on_table in *. tables. cbn.
    apply delete_expired; [|done]. cbn in Hlive. lia.
Qed.

Lemma serve_all_keeps h k status body ss w :
  Forall ordinary ss → on_table (record_of h k) w →
  ik_response_status k = Some status → ik_response_body k = Some body →
  (clock (serve_all ss w) < ik_expires_at k)%Z →
  on_table (record_of h k) (serve_all ss w).
Proof.
  revert w. induction ss as [|s ss IH]; intros w Hord Hrec Hs Hb Hlive; [done|].
  apply Forall_cons in Hord as [Hord Hss]. change (serve_all (s :: ss) w) with (serve_all ss (serve s w).2) in *.
  apply IH; try done. eapply serve_keeps; eauto.
  pose proof (serve_all_clock ss (serve s w).2 Hss). lia.
Qed.

Lemma save_records h k status body w :
  on_table (record_of h k) w →
  ∃ w', IdempotencyService.saveResponse h status body w = (Ok tt, w') ∧
    on_table (record_of h (k <| ik_response_status := Some status |> <| ik_response_body := Some body |>)) w'.
Proof.
  intros Hk. eexists. split; [reflexivity|]. unfold IdempotencyService.saveResponse, bind, update_where, on_table, record_of in *.
  cbn -[rows set_rows]. rewrite rows_set_rows.
  rewrite (find_update_first _ _ _ k); [done|exact Hk|].
  by apply find_some_elem in Hk as [_ Hk].
Qed.

(** The first request with a key: the route runs, and its response is
    recorded for a day. *)
Lemma first_request rq user org next clientKey u o w :
  let h := IdempotencyService.computeKeyHash o u (rq_path rq) clientKey in
  keyed rq user org clientKey u o → untouched IdempotencyRecord next →
  List.find (IdempotencyService.with_hash h) (idempotency_keys (db w)) = None →
  ∃ response k w', idempotencyMiddleware rq user org next w = (Ok response, w') ∧
    on_table (record_of h k) w' ∧
    ik_response_status k = Some (rs_status response) ∧ ik_response_body k = Some (rs_body response) ∧
    ik_expires_at k = (clock w + 24 * 3600 * 1000)%Z.
Proof.
  intros h Hkd [Hn _] Hfresh. rewrite (keyed_eq _ _ _ _ _ _ _ Hkd). fold h.
  set (k0 := mkIdempotencyRecord (random_uuid (draws w)) h o u (rq_path rq) None None
    (clock w + 24 * 3600 * 1000)).
  assert (Hcheck : ∃ w1, IdempotencyService.checkAndStore clientKey o u (rq_path rq) w = (Ok (NotCached h), w1) ∧
    on_table (record_of h k0) w1).
  { unfold IdempotencyService.checkAndStore, bind, now, select_one, gen_random_uuid, insert_or_ignore. tables. cbn.
    fold h. rewrite (find_and_none _ _ _ Hfresh). cbn. rewrite (find_none_existsb _ _ Hfresh).
    eexists. split; [reflexivity|]. unfold on_table, record_of. cbn. tables. cbn.
    rewrite (find_app_r _ _ _ Hfresh). cbn. unfold IdempotencyService.with_hash. cbn.
    by rewrite String.eqb_refl. }
  destruct Hcheck as (w1 & E1 & Hk0). unfold bind at 1. rewrite E1. unfold handled, bind, catch.
  pose proof (Hn (record_of h k0) w1 Hk0) as Hk1.
  destruct (next w1) as [[r|e] w2]; cbn [snd] in Hk1; cbv beta iota delta [ret];
    (edestruct save_records as (w3 & Es & Hrec); [exact Hk1|]; erewrite Es; cbn;
     do 3 eexists; split; [reflexivity|split]; [exact Hrec|by split_all]).
Qed.

(** C13: a request is answered once: whatever follows the first request with
    a key, repeating the request within a day gives the same response, runs
    nothing and changes nothing, even if the first one failed. *)
Theorem idempotent_replay rq user org next clientKey u o ss rq' user' org' next' w :
  let h := IdempotencyService.computeKeyHash o u (rq_path rq) clientKey in
  keyed rq user org clientKey u o → untouched IdempotencyRecord next →
  List.find (IdempotencyService.with_hash h) (idempotency_keys (db w)) = None →
  let '(first, w1) := idempotencyMiddleware rq user org next w in
  let w2 := serve_all ss w1 in
  Forall ordinary ss → (clock w2 < clock w + 24 * 3600 * 1000)%Z →
  keyed rq' user' org' clientKey u o → rq_path rq' = rq_path rq →
  idempotencyMiddleware rq' user' org' next' w2 = (first, w2) ∧ ∃ response, first = Ok response.
Proof.
  intros h Hkd Hn Hfresh.
  destruct (first_request rq user org next clientKey u o w Hkd Hn Hfresh)
    as (response & k & w1 & E & Hrec & Hs & Hb & Hx). rewrite E. cbv zeta.
  intros Hss Hclock Hkd' Hpath. split; [|by eexists].
  pose proof (serve_all_keeps h k _ _ ss w1 Hss Hrec Hs Hb ltac:(lia)) as Hrec'.
  rewrite (replays rq' user' org' next' clientKey u o k _ _ _ Hkd' ltac:(rewrite Hpath; exact Hrec') Hs Hb ltac:(lia)).
  by destruct response.
Qed.
End replay.

Module HttpExamples.
Import Concrete.

Definition user : ReqUser := mkReqUser "u" "o" "member" false "jti" 0 None None.
Definition rq : Request :=
  mkRequest _ "POST" "/orgs/o/tasks" NoAuthorization (Some "o") (Some "key-1") None "rq" "c" "r"%string.
Definition w0 : World := empty_world 1000.

(** A route that adds a job each time it runs. *)
Definition route : M Response :=
  let* _ := enqueue "search" "index-entity" JNull in respond rq 201 (JStr "created").

Lemma route_untouched : untouched IdempotencyRecord route.
Proof. unfold untouched, route, respond, enqueue. split; intros; preserve. Qed.

Lemma rq_keyed : keyed rq (Some user) (Some "o"%string) "key-1" "u" "o".
Proof. by split. Qed.

(** A request repeated after an hour, and after another client's request. *)
Lemma idempotent_replay_witness :
  idempotencyMiddleware rq (Some user) (Some "o"%string) route
    (serve_all [Pause 3600000; Handle rq None None route; Cleanup]
      (idempotencyMiddleware rq (Some user) (Some "o"%string) route w0).2) =
  ((idempotencyMiddleware rq (Some user) (Some "o"%string) route w0).1,
   serve_all [Pause 3600000; Handle rq None None route; Cleanup]
      (idempotencyMiddleware rq (Some user) (Some "o"%string) route w0).2).
Proof.
  pose proof (idempotent_replay rq (Some user) (Some "o"%string) route "key-1" "u" "o"
    [Pause 3600000; Handle rq None None route; Cleanup] rq (Some user) (Some "o"%string) route w0
    rq_keyed route_untouched eq_refl) as Ht.
  assert (Hc : (clock (serve_all [Pause 3600000; Handle rq None None route; Cleanup]
    (idempotencyMiddleware rq (Some user) (Some "o"%string) route w0).2) < clock w0 + 24 * 3600 * 1000)%Z)
    by (vm_compute; reflexivity).
  destruct (idempotencyMiddleware rq (Some user) (Some "o"%string) route w0) as [first w1].
  cbn [fst snd] in *. apply Ht; [|exact Hc|exact rq_keyed|reflexivity].
  repeat (apply Forall_cons; split); try apply route_untouched; done.
Defined.

(** An expired record that was not cleaned up blocks its key: the route runs
    again for each repetition. *)
Example expired_key_runs_again :
  let w1 := (idempotencyMiddleware rq (Some user) (Some "o"%string) route w0).2 in
  let w2 := serve_all [Pause 86400000] w1 in
  let w3 := (idempotencyMiddleware rq (Some user) (Some "o"%string) route w2).2 in
  length (jobs w1) = 1 ∧ length (jobs w3) = 2 ∧
  length (jobs (idempotencyMiddleware rq (Some user) (Some "o"%string) route w3).2) = 3.
Proof. by vm_compute. Qed.
End HttpExamples.
