(* ===== verification/RateLimiter.v ===== *)
(** * RateLimiter: sliding windows over requests and socket events

    [shared/redis/rate-limiter.ts] (the HTTP limits, on a Redis sorted set per
    key with an in-process fallback) and [shared/realtime/rate-limiter.ts]
    (the limits on socket events).  Both are shown to refine one abstract
    machine, a log of timestamps per key, for which the bound on the requests
    let through is proved. *)
From S2P Require Import Prelude Schema World Crypto Concrete Session Http.
From Stdlib Require Import ZArith Lia Ascii.
From stdpp Require Import base tactics strings gmap list sorting pretty.

(** [Math.ceil(a / b)]. *)
Definition ceil_div (a b : Z) : Z := (- ((- a) / b))%Z.

Record LimitResult := mkLimitResult {
  allowed : bool;
  remaining : Z;
  retryAfter : Z
}.

(** [Math.random()] as text: one of the numbered draws, no two of which are
    equal. *)
Definition Math_random `{Redis, Random} : M string := randomHex.

(** [`${now}-${Math.random()}`]. *)
Definition zmember (t : Z) (r : string) : string := pretty t +:+ "-" +:+ r.

Section limiter.
Context `{Redis, !RedisZset, Random}.

(** What [pipeline.exec()] does on a closed connection is up to ioredis: it
    rejects, or it resolves to one error per command. *)
Context (exec_rejects : bool).

Definition limit_result (limit windowMs count : Z) : LimitResult :=
  let allowed := (count <? limit)%Z in
  mkLimitResult allowed (Z.max 0 (limit - count - 1)) (if allowed then 0 else ceil_div windowMs 1000).

Definition checkLimitFallback (key : string) (limit windowMs t windowStart : Z) : M LimitResult := λ w,
  let timestamps := List.filter (λ ts, (windowStart <? ts)%Z) ((fallbackStore (memory w) !! key) ?? []) in
  let r := limit_result limit windowMs (Z.of_nat (length timestamps)) in
  (Ok r,
   if allowed r then
     w <| memory := (memory w) <| fallbackStore := <[key := timestamps ++ [t]]> (fallbackStore (memory w)) |> |>
   else w).

(** The four commands of the pipeline; the result is what ZCARD returned, or
    [None] when it is an error. *)
Definition limit_pipeline (redisKey : string) (t windowStart windowMs : Z) (member : string)
    : M (option Z) := λ w,
  if redis_up w then
    let r1 := redis_zremrangebyscore (redis w) t redisKey None windowStart in
    let count := Z.of_nat (size (redis_scores r1 t redisKey)) in
    let r2 := redis_zadd r1 t redisKey t member in
    (Ok (Some count), w <| redis := redis_pexpire r2 t redisKey windowMs |>)
  else if exec_rejects then (Throw redis_error, w)
  else (Ok None, w).

Definition checkLimit (key : string) (limit windowMs : Z) : M LimitResult :=
  let* t := now in
  let windowStart := (t - windowMs)%Z in
  catch
    (let* rnd := Math_random in
     let* count := limit_pipeline ("rl:" +:+ key) t windowStart windowMs (zmember t rnd) in
     ret (limit_result limit windowMs (count ?? 0%Z)))
    (λ _, checkLimitFallback key limit windowMs t windowStart).

(** [makeRateLimitMiddleware]: the headers it sets, and the error it passes
    to [next], if any. *)
Definition rateLimitMiddleware (key : string) (limit windowMs : Z)
    : M (list (string * Z) * option error) :=
  catch
    (let* r := checkLimit key limit windowMs in
     let headers := [("X-RateLimit-Limit"%string, limit); ("X-RateLimit-Remaining"%string, remaining r);
                     ("X-RateLimit-Window"%string, ceil_div windowMs 1000)] in
     ret (if negb (allowed r)
          then (headers ++ [("Retry-After"%string, retryAfter r)], Some (TooManyRequestsError (retryAfter r)))
          else (headers, None)))
    (λ err, ret ([], Some err)).

(** The limits: the key as a function of the caller, the number of requests
    and the window. *)
Definition req_ip (ip : option string) : string := ip ?? "undefined".
Definition email_or_ip (email ip : option string) : string :=
  match email with Some e => toLowerCase e | None => req_ip ip end.

Definition authRateLimit (ip : option string) : string * Z * Z :=
  ("auth:" +:+ req_ip ip, 10, 60000)%Z.
Definition apiRateLimit (userId ip : option string) : string * Z * Z :=
  ("api:user:" +:+ (userId ?? req_ip ip), 300, 60000)%Z.
Definition apiTenantRateLimit (orgId : option string) : string * Z * Z :=
  ("api:tenant:" +:+ (orgId ?? "anonymous"), 3000, 60000)%Z.
Definition registerRateLimit (ip : option string) : string * Z * Z :=
  ("register:" +:+ req_ip ip, 5, 60 * 60000)%Z.
Definition passwordResetRateLimit (email ip : option string) : string * Z * Z :=
  ("pwreset:" +:+ email_or_ip email ip, 5, 60 * 60000)%Z.
Definition magicLinkRateLimit (email ip : option string) : string * Z * Z :=
  ("magiclink:" +:+ email_or_ip email ip, 5, 60 * 60000)%Z.
Definition verifyEmailResendRateLimit (email ip : option string) : string * Z * Z :=
  ("verifyresend:" +:+ email_or_ip email ip, 3, 60 * 60000)%Z.
Definition socketRateLimit (userId : string) : string * Z * Z :=
  ("socket:" +:+ userId, 60, 10000)%Z.

(** [checkRateLimit] of [shared/realtime/rate-limiter.ts]: here the ZADD is
    before the ZCARD, and an error of the ZCARD refuses the event. *)
Definition event_pipeline (key : string) (t windowStart windowSeconds : Z) (member : string)
    : M (option Z) := λ w,
  if redis_up w then
    let r1 := redis_zremrangebyscore (redis w) t key (Some 0%Z) windowStart in
    let r2 := redis_zadd r1 t key t member in
    let count := Z.of_nat (size (redis_scores r2 t key)) in
    (Ok (Some count), w <| redis := redis_pexpire r2 t key ((windowSeconds + 1) * 1000)%Z |>)
  else if exec_rejects then (Throw redis_error, w)
  else (Ok None, w).

Definition checkRateLimit (key : string) (limit windowSeconds : Z) : M bool :=
  let* t := now in
  let windowMs := (windowSeconds * 1000)%Z in
  let windowStart := (t - windowMs)%Z in
  let* rnd := Math_random in
  let* count := event_pipeline key t windowStart windowSeconds (zmember t rnd) in
  ret (match count with Some n => (n <=? limit)%Z | None => false end).
End limiter.

(** ** The abstract machine: a log of timestamps per key *)

Notation log_state := (gmap string (list Z)).

Section spec.
(** The limit and the window of each key, and whether a refused request is
    logged too. *)
Context (lim win : string → Z) (logs_refused : bool).

(** The entries younger than a bound. *)
Definition recent (b : Z) (l : list Z) : list Z := List.filter (λ s, (b <? s)%Z) l.

Definition log_of (s : log_state) (k : string) : list Z := (s !! k) ?? [].

Definition admits (s : log_state) (k : string) (t : Z) : bool :=
  (Z.of_nat (length (recent (t - win k) (log_of s k))) <? lim k)%Z.

Definition log_step (s : log_state) (k : string) (t : Z) : log_state :=
  if admits s k t || logs_refused then <[k := log_of s k ++ [t]]> s else s.

Fixpoint log_run (s : log_state) (calls : list (string * Z)) : list bool :=
  match calls with
  | [] => []
  | (k, t) :: calls => admits s k t :: log_run (log_step s k t) calls
  end.
End spec.

#[global] Arguments recent : simpl never.

(** A sequence of checks, each at its own time. *)
Fixpoint run_checks `{Redis, Random} (check : string → M bool) (calls : list (string * Z)) (w : World)
    : list bool * World :=
  match calls with
  | [] => ([], w)
  | (k, t) :: calls =>
      let '(r, w1) := check k (w <| clock := t |>) in
      let '(bs, w2) := run_checks check calls w1 in
      (match r with Ok b => b | Throw _ => false end :: bs, w2)
  end.

(** Requests let through at a time in [[from, from + win)]. *)
Definition let_through (k : string) (from window : Z) (calls : list (string * Z)) (bs : list bool) : nat :=
  length (List.filter (λ '((k', t), b), (k' =? k)%string && (from <=? t)%Z && (t <? from + window)%Z && b)
    (zip calls bs)).

(** ** Members of a window are distinct *)

Lemma dash_free_pretty t : (0 ≤ t)%Z → char_free "-"%char (pretty t) = true.
Proof.
  intros Ht. destruct t as [|p|p]; [done| |lia]. apply (char_free_N _ (N.pos p)); [|done].
  intros k. unfold pretty_N_char. by repeat case_match.
Qed.

Lemma zmember_inj `{Random, !RandomLaws _} t t' n n' :
  (0 ≤ t)%Z → (0 ≤ t')%Z → zmember t (random_hex n) = zmember t' (random_hex n') → n = n'.
Proof.
  intros Ht Ht' E. apply random_hex_inj.
  by apply (char_free_split "-"%char (pretty t) (pretty t')); [apply dash_free_pretty..|].
Qed.

(** ** The abstract machine lets at most [lim] requests through per window *)

Section spec_bound.
Context (lim win : string → Z) (logs_refused : bool).

Lemma recent_app b l l' : recent b (l ++ l') = recent b l ++ recent b l'.
Proof. unfold recent. apply List.filter_app. Qed.

Lemma recent_recent b b' l : (b ≤ b')%Z → recent b' (recent b l) = recent b' l.
Proof.
  intros Hb. unfold recent in *. induction l as [|s l IH]; cbn; [done|].
  destruct (Z.ltb_spec b s); cbn; [by rewrite IH|].
  destruct (Z.ltb_spec b' s); [lia|done].
Qed.

Lemma recent_length_anti b b' l : (b' ≤ b)%Z → length (recent b l) ≤ length (recent b' l).
Proof.
  intros Hb. unfold recent. induction l as [|s l IH]; cbn; [done|].
  destruct (Z.ltb_spec b s), (Z.ltb_spec b' s); cbn; lia.
Qed.

Lemma let_through_cons k from window k' t calls b bs :
  let_through k from window ((k', t) :: calls) (b :: bs) =
  (if (k' =? k)%string && (from <=? t)%Z && (t <? from + window)%Z && b then 1 else 0) +
  let_through k from window calls bs.
Proof. unfold let_through. cbn. by destruct (_ && b). Qed.

(** The requests of a key let through in a window, together with the entries
    of that window already in the log, are within the limit, unless the log
    is over it already. *)
Lemma log_run_bound k from calls s :
  (Z.of_nat (let_through k from (win k) calls (log_run lim win logs_refused s calls)) +
     Z.of_nat (length (recent (from - 1) (log_of s k))) ≤
   Z.max (lim k) (Z.of_nat (length (recent (from - 1) (log_of s k)))))%Z.
Proof.
  revert s. induction calls as [|[k' t] calls IH]; intros s; cbn [log_run]; [unfold let_through; cbn; lia|].
  rewrite let_through_cons. specialize (IH (log_step lim win logs_refused s k' t)).
  set (rest := let_through _ _ _ calls _) in *.
  destruct (String.eqb_spec k' k) as [->|Hne].
  - assert (Hlog : log_of (log_step lim win logs_refused s k t) k =
      if admits lim win s k t || logs_refused then log_of s k ++ [t] else log_of s k).
    { unfold log_step. destruct (_ || _); [|done]. unfold log_of. by rewrite lookup_insert_eq. }
    rewrite Hlog in IH.
    pose proof (recent_length_anti (from - 1) (t - win k) (log_of s k)) as Hanti.
    unfold admits in *. destruct (Z.ltb_spec (Z.of_nat (length (recent (t - win k) (log_of s k)))) (lim k));
      cbn [orb andb] in *.
    + rewrite recent_app, length_app in IH. unfold recent at 2 4 in IH; cbn [List.filter] in IH.
      destruct (Z.leb_spec from t), (Z.ltb_spec t (from + win k)), (Z.ltb_spec (from - 1) t);
        cbn [andb length] in *; lia.
    + rewrite andb_false_r. destruct logs_refused; [|done].
      rewrite recent_app, length_app in IH. unfold recent at 2 4 in IH; cbn [List.filter] in IH.
      destruct (Z.ltb_spec (from - 1) t); cbn [length] in *; lia.
  - cbn [andb]. assert (Hlog : log_of (log_step lim win logs_refused s k' t) k = log_of s k).
    { unfold log_step. destruct (_ || _); [|done]. unfold log_of. by rewrite lookup_insert_ne. }
    by rewrite Hlog in IH.
Qed.
End spec_bound.

Lemma recent_old b l : Forall (λ s, (s ≤ b)%Z) l → recent b l = [].
Proof.
  intros Hl. unfold recent. apply filter_nil_iff. intros s Hs.
  rewrite Forall_forall in Hl. apply Z.ltb_ge. by apply Hl.
Qed.

(** ** A sorted set is the log of its key *)

Section windows.
Context `{Redis, !RedisZset, !RedisZsetLaws _, Random, !RandomLaws _}.

(** From time [T] on, the members of [key] that are in its window are the
    entries of [l]; each member was made by one of the first [n] draws. *)
Record windowed (r : redis_store) (T : Z) (key : string) (window : Z) (l : list Z) (n : nat) : Prop := {
  win_size : ∀ t1 b, (T ≤ t1)%Z → (t1 - window ≤ b)%Z →
    size (filter (λ e, (b < e.2)%Z) (redis_scores r t1 key)) = length (recent b l);
  win_members : ∀ t1 m s, (T ≤ t1)%Z → redis_scores r t1 key !! m = Some s →
    (0 ≤ s)%Z ∧ ∃ t' n', (0 ≤ t')%Z ∧ n' < n ∧ m = zmember t' (random_hex n');
  win_past : Forall (λ s, (s ≤ T)%Z) l
}.

Lemma windowed_mono r T T' key window l n n' :
  (T ≤ T')%Z → n ≤ n' → windowed r T key window l n → windowed r T' key window l n'.
Proof.
  intros HT Hn [Hs Hm Hp]. split.
  - intros t1 b ?. apply Hs. lia.
  - intros t1 m s Ht1 Hl. destruct (Hm t1 m s) as (? & t' & n0 & ? & ? & ?); [lia|done|].
    split; [done|]. exists t', n0. split; [done|]. split; [lia|done].
  - eapply Forall_impl; [done|]. cbn. lia.
Qed.

Lemma windowed_ext r r' T key window l n :
  (∀ t, redis_scores r' t key = redis_scores r t key) →
  windowed r T key window l n → windowed r' T key window l n.
Proof. intros E [Hs Hm Hp]. split; [intros t1 b|intros t1 m s|]; rewrite ?E; eauto. Qed.

(** The commands of a check, at time [t] with the draw [n]. *)
Definition z1 (r : redis_store) (key : string) (min : option Z) (t window : Z) : redis_store :=
  redis_zremrangebyscore r t key min (t - window).
Definition z2 r key min t window (n : nat) : redis_store :=
  redis_zadd (z1 r key min t window) t key t (zmember t (random_hex n)).
Definition z3 r key min t window n expiry : redis_store :=
  redis_pexpire (z2 r key min t window n) t key expiry.

Section step.
Context (r : redis_store) (T : Z) (key : string) (window : Z) (l : list Z) (n : nat).
Context (min : option Z) (t expiry : Z).
Hypothesis Hw : windowed r T key window l n.
Hypothesis Ht : (T ≤ t)%Z.
Hypothesis Ht0 : (0 ≤ t)%Z.
Hypothesis Hmin : min = None ∨ min = Some 0%Z.
Hypothesis Hwin : (0 < window ≤ expiry)%Z.

Lemma z1_scores :
  redis_scores (z1 r key min t window) t key =
  filter (λ e, (t - window < e.2)%Z) (redis_scores r t key).
Proof.
  unfold z1. rewrite redis_scores_zrem by lia. apply map_filter_strong_ext. intros m s. cbn.
  split; intros [Hr Hs]; (split; [|done]);
    destruct (win_members _ _ _ _ _ _ Hw t m s Ht Hs) as [Hs0 _];
    unfold in_range in *; destruct Hmin as [-> | ->].
  - cbn in Hr. apply Z.leb_gt in Hr. lia.
  - rewrite (proj2 (Z.leb_le 0 s) Hs0) in Hr. cbn in Hr. apply Z.leb_gt in Hr. lia.
  - cbn. apply Z.leb_gt. lia.
  - rewrite (proj2 (Z.leb_le 0 s) Hs0). cbn. apply Z.leb_gt. lia.
Qed.

Lemma z1_count : size (redis_scores (z1 r key min t window) t key) = length (recent (t - window) l).
Proof. rewrite z1_scores. apply (win_size _ _ _ _ _ _ Hw); lia. Qed.

Lemma z_member_new : redis_scores r t key !! zmember t (random_hex n) = None.
Proof.
  destruct (_ !! _) as [s|] eqn:E; [|done].
  destruct (win_members _ _ _ _ _ _ Hw t _ _ Ht E) as (_ & t' & n' & ? & ? & Em).
  apply zmember_inj in Em; [lia|done|done].
Qed.

Lemma z2_scores :
  redis_scores (z2 r key min t window n) t key =
  <[zmember t (random_hex n) := t]> (filter (λ e, (t - window < e.2)%Z) (redis_scores r t key)).
Proof. unfold z2. by rewrite redis_scores_zadd, z1_scores. Qed.

Lemma z2_count : size (redis_scores (z2 r key min t window n) t key) = S (length (recent (t - window) l)).
Proof.
  rewrite z2_scores, map_size_insert_None, <- z1_scores, z1_count; [done|].
  apply map_lookup_filter_None. left. apply z_member_new.
Qed.

Lemma z3_windowed : windowed (z3 r key min t window n expiry) t key window (l ++ [t]) (S n).
Proof.
  assert (Hpast : Forall (λ s, (s ≤ t)%Z) (l ++ [t])).
  { apply Forall_app. split; [|by constructor].
    eapply Forall_impl; [exact (win_past _ _ _ _ _ _ Hw)|]. cbn. lia. }
  split; [| |done].
  - intros t1 b Ht1 Hb. unfold z3. destruct (Z.lt_ge_cases t1 (t + expiry)).
    + rewrite redis_scores_pexpire_live by lia. rewrite z2_scores, recent_app, length_app.
      rewrite <- (win_size _ _ _ _ _ _ Hw t b) by lia. unfold recent. cbn [List.filter].
      pose proof z_member_new as Hnew. set (m := zmember t _) in *.
      assert (HF : filter (λ e, (t - window < e.2)%Z) (redis_scores r t key) !! m = None).
      { apply map_lookup_filter_None. by left. }
      destruct (Z.ltb_spec b t).
      * rewrite map_filter_insert_True by done.
        rewrite map_filter_filter_l by (cbn; intros; lia).
        rewrite map_size_insert_None; [cbn; lia|]. apply map_lookup_filter_None. by left.
      * rewrite map_filter_insert_False by (cbn; lia). rewrite delete_id by done.
        rewrite map_filter_filter_l by (cbn; intros; lia). cbn. lia.
    + rewrite redis_scores_pexpire_expired by lia. rewrite map_filter_empty, map_size_empty.
      rewrite recent_old; [done|]. eapply Forall_impl; [done|]. cbn. lia.
  - intros t1 m s Ht1 Hm. unfold z3 in Hm. destruct (Z.lt_ge_cases t1 (t + expiry)).
    + rewrite redis_scores_pexpire_live, z2_scores in Hm by lia.
      apply lookup_insert_Some in Hm as [[<- <-]|[_ Hm]].
      * split; [done|]. exists t, n. split; [done|]. split; [lia|done].
      * apply map_lookup_filter_Some in Hm as [Hm _].
        destruct (win_members _ _ _ _ _ _ Hw t m s Ht Hm) as (? & t' & n' & ? & ? & ?).
        split; [done|]. exists t', n'. split; [done|]. split; [lia|done].
    + rewrite redis_scores_pexpire_expired in Hm by lia. by rewrite lookup_empty in Hm.
Qed.

Lemma z3_other k' t' : key ≠ k' → redis_scores (z3 r key min t window n expiry) t' k' = redis_scores r t' k'.
Proof.
  intros Hne. unfold z3, z2, z1.
  by rewrite redis_scores_pexpire_ne, redis_scores_zadd_ne, redis_scores_zrem_ne.
Qed.
End step.
End windows.

(** ** Simulation *)

Lemma run_checks_cons `{Redis, Random} check k t calls w b w1 :
  check k (w <| clock := t |>) = (Ok b, w1) →
  (run_checks check ((k, t) :: calls) w).1 = b :: (run_checks check calls w1).1.
Proof. intros E. cbn in *. rewrite E. by destruct (run_checks check calls w1). Qed.

Section simulation.
Context `{Redis, !RedisZset, !RedisZsetLaws _, Random, !RandomLaws _}.
Context (lim win : string → Z).

(** A check that runs the commands of a window on the key [rkey k]. *)
Section redis.
Context (check : string → M bool) (rkey : string → string) (min : option Z) (expiry : string → Z).
Hypothesis Hcheck : ∀ k w, redis_up w = true →
  ∃ b, check k w = (Ok b, w <| draws := S (draws w) |>
    <| redis := z3 (redis w) (rkey k) min (clock w) (win k) (draws w) (expiry k) |>) ∧
  ∀ l T, windowed (redis w) T (rkey k) (win k) l (draws w) → (T ≤ clock w)%Z → (0 ≤ clock w)%Z →
    b = (Z.of_nat (length (recent (clock w - win k) l)) <? lim k)%Z.
Hypothesis Hinj : Inj (=) (=) rkey.
Hypothesis Hmin : min = None ∨ min = Some 0%Z.
Hypothesis Hwin : ∀ k, (0 < win k ≤ expiry k)%Z.

Lemma redis_refines_log calls w (s : log_state) :
  redis_up w = true → (0 ≤ clock w)%Z → Sorted Z.le (clock w :: calls.*2) →
  (∀ k, windowed (redis w) (clock w) (rkey k) (win k) (log_of s k) (draws w)) →
  (run_checks check calls w).1 = log_run lim win true s calls.
Proof.
  revert w s. induction calls as [|[k t] calls IH]; intros w s Hup Hc Hsort Hsim; [done|].
  apply Sorted_inv in Hsort as [Hsort Hle]. inversion Hle as [|? ? Hle' E0]; subst. cbn in Hsort, Hle'.
  destruct (Hcheck k (w <| clock := t |>)) as (b & Hk & Hb); [done|].
  rewrite (run_checks_cons check k t calls w _ _ Hk). cbn [log_run].
  rewrite (Hb (log_of s k) (clock w)) by (first [apply Hsim|cbn; lia]). f_equal.
  apply IH; cbn; [done|lia|done|].
  intros k'. unfold log_step. rewrite orb_true_r. unfold log_of. destruct (decide (k = k')) as [<-|Hne].
  - rewrite lookup_insert_eq. cbn. eapply z3_windowed; eauto; try lia; apply Hsim.
  - rewrite lookup_insert_ne by done. eapply windowed_ext.
    + intros t'. apply z3_other. intros ->%(inj rkey). done.
    + eapply windowed_mono; [| |apply Hsim]; lia.
Qed.
End redis.

(** The fallback keeps, of the log, the entries of the window. *)
Definition mirrors (w : World) (s : log_state) : Prop := ∀ k b, (clock w - win k ≤ b)%Z →
  length (recent b ((fallbackStore (memory w) !! k) ?? [])) = length (recent b (log_of s k)).

Definition checked (exec_rejects : bool) (k : string) : M bool :=
  let* r := checkLimit exec_rejects k (lim k) (win k) in ret (allowed r).

Lemma fallback_refines_log calls w (s : log_state) :
  redis_up w = false → Sorted Z.le (clock w :: calls.*2) → mirrors w s →
  (run_checks (checked true) calls w).1 = log_run lim win false s calls.
Proof.
  revert w s. induction calls as [|[k t] calls IH]; intros w s Hup Hsort Hsim; [done|].
  apply Sorted_inv in Hsort as [Hsort Hle]. inversion Hle as [|? ? Hle' E0]; subst. cbn in Hsort, Hle'.
  assert (Hk : checked true k (w <| clock := t |>) = (Ok (admits lim win s k t), (checkLimitFallback k (lim k) (win k)
      t (t - win k) (w <| clock := t |> <| draws := S (draws w) |>)).2)).
  { unfold checked, checkLimit, bind, catch, now, Math_random, randomHex, limit_pipeline. cbn. rewrite Hup. cbn.
    fold (recent (t - win k) ((fallbackStore (memory w) !! k) ?? [])). by rewrite Hsim by (cbn; lia). }
  rewrite (run_checks_cons (checked true) k t calls w _ _ Hk). cbn [log_run]. f_equal.
  unfold checkLimitFallback. cbn -[recent].
  fold (recent (t - win k) ((fallbackStore (memory w) !! k) ?? [])). rewrite Hsim by (cbn; lia).
  change (Z.of_nat (length (recent (t - win k) (log_of s k))) <? lim k)%Z with (admits lim win s k t).
  apply IH.
  - by destruct (admits _ _ _ _ _).
  - by destruct (admits _ _ _ _ _).
  - unfold log_step. rewrite orb_false_r. destruct (admits _ _ _ _ _); intros k' b Hb; cbn in *.
    + unfold log_of. destruct (decide (k = k')) as [<-|Hne].
      * rewrite !lookup_insert_eq. cbn. rewrite !recent_app, !length_app, recent_recent by lia.
        rewrite (Hsim k b) by (cbn; lia). done.
      * rewrite !lookup_insert_ne by done. apply Hsim. lia.
    + apply Hsim. lia.
Qed.
End simulation.

(** ** The properties *)

(** No request was counted yet. *)
Definition fresh_limits `{Redis, !RedisZset} (w : World) : Prop :=
  (∀ t k, redis_scores (redis w) t k = ∅) ∧ fallbackStore (memory w) = ∅.

Section properties.
Context `{Redis, !RedisZset, !RedisZsetLaws _, Random, !RandomLaws _}.
Context (lim win : string → Z).

Lemma fresh_windowed w k window : fresh_limits w → windowed (redis w) (clock w) k window [] (draws w).
Proof.
  intros [Hs _]. split; [| |done]; intros t1; rewrite Hs.
  - intros b _ _. by rewrite map_filter_empty, map_size_empty.
  - intros m s _. by rewrite lookup_empty.
Qed.

Lemma log_of_empty k : log_of ∅ k = [].
Proof. unfold log_of. by rewrite lookup_empty. Qed.

Lemma admit_run exec_rejects calls w :
  (∀ k, (0 < win k)%Z) → redis_up w = true ∨ exec_rejects = true →
  (0 ≤ clock w)%Z → Sorted Z.le (clock w :: calls.*2) → fresh_limits w →
  (run_checks (checked lim win exec_rejects) calls w).1 = log_run lim win (redis_up w) ∅ calls.
Proof.
  intros Hwin Hup Hc Hsort Hfresh. destruct (redis_up w) eqn:Eup.
  - eapply (redis_refines_log lim win _ (λ k, "rl:" +:+ k) None win); [.. |done|done|done|].
    + intros k w' Hup'.
      unfold checked, checkLimit, bind, catch, now, Math_random, randomHex, limit_pipeline. cbn. rewrite Hup'. cbn.
      eexists. split; [reflexivity|]. intros l T Hl HT Hc0. fold (z1 (redis w') ("rl:" +:+ k) None (clock w') (win k)).
      by erewrite z1_count by eauto.
    + intros k k' E. by simplify_eq/=.
    + by left.
    + intros k. specialize (Hwin k). lia.
    + intros k. rewrite log_of_empty. by apply fresh_windowed.
  - destruct Hup as [Hup| ->]; [done|]. apply fallback_refines_log; [done..|].
    intros k b _. destruct Hfresh as [_ ->]. by rewrite lookup_empty, log_of_empty.
Qed.

Lemma event_run exec_rejects (seconds : string → Z) calls w :
  (∀ k, (0 < seconds k)%Z) → redis_up w = true →
  (0 ≤ clock w)%Z → Sorted Z.le (clock w :: calls.*2) → fresh_limits w →
  (run_checks (λ k, checkRateLimit exec_rejects k (lim k) (seconds k)) calls w).1 =
  log_run lim (λ k, seconds k * 1000)%Z true ∅ calls.
Proof.
  intros Hwin Hup Hc Hsort Hfresh.
  eapply (redis_refines_log lim _ _ (λ k, k) (Some 0%Z) (λ k, (seconds k + 1) * 1000)%Z); [.. |done|done|done|].
  - intros k w' Hup'.
    unfold checkRateLimit, bind, now, Math_random, randomHex, event_pipeline. cbn. rewrite Hup'. cbn.
    eexists. split; [reflexivity|]. intros l T Hl HT Hc0.
    fold (z1 (redis w') k (Some 0%Z) (clock w') (seconds k * 1000)).
    fold (z2 (redis w') k (Some 0%Z) (clock w') (seconds k * 1000) (draws w')).
    erewrite z2_count by eauto. set (n := length _). destruct (Z.leb_spec (Z.of_nat (S n)) (lim k));
      destruct (Z.ltb_spec (Z.of_nat n) (lim k)); (done || lia).
  - by intros k k' E.
  - by right.
  - intros k. specialize (Hwin k). lia.
  - intros k. rewrite log_of_empty. by apply fresh_windowed.
Qed.

Lemma log_bound logs_refused k from calls :
  (0 ≤ lim k)%Z →
  (Z.of_nat (let_through k from (win k) calls (log_run lim win logs_refused ∅ calls)) ≤ lim k)%Z.
Proof.
  intros Hl. pose proof (log_run_bound lim win logs_refused k from calls ∅) as Hb.
  rewrite log_of_empty in Hb. cbn in Hb. lia.
Qed.
End properties.

Module RateLimiterProperties.
Section theorems.
Context `{Redis, !RedisZset, !RedisZsetLaws _, Random, !RandomLaws _}.
Context (lim win : string → Z).

(** C21: with any mix of keys, at times that do not go back, both limiters
    answer as the log of timestamps of each key does.  The limiter of the
    HTTP routes refines the log that also counts refused requests while Redis
    is up, and the one that does not while it is down (and [exec] rejects);
    the limiter of the socket events refines the former. *)
Theorem limiters_refine_log exec_rejects calls w :
  (∀ k, (0 < win k)%Z) → (0 ≤ clock w)%Z → Sorted Z.le (clock w :: calls.*2) → fresh_limits w →
  (redis_up w = true ∨ exec_rejects = true →
   (run_checks (checked lim win exec_rejects) calls w).1 = log_run lim win (redis_up w) ∅ calls) ∧
  (redis_up w = true →
   (run_checks (λ k, checkRateLimit exec_rejects k (lim k) (win k)) calls w).1 =
   log_run lim (λ k, win k * 1000)%Z true ∅ calls).
Proof. intros Hwin Hc Hs Hf. split; intros Hup; [by apply admit_run|by apply event_run]. Qed.

(** C22: while Redis answers, a key gets at most its limit of requests through
    in any window of its length, of the routes and of the socket events, however
    many processes share it; in an outage in which the pipeline rejects, the
    routes let at most the limit through in each process.  (In an outage in which
    the pipeline resolves to errors nothing is limited:
    [RateLimiterExamples.errors_let_through].) *)
Theorem at_most_limit_per_window exec_rejects calls w k from :
  (∀ k, (0 < win k)%Z) → (0 ≤ lim k)%Z → (0 ≤ clock w)%Z → Sorted Z.le (clock w :: calls.*2) → fresh_limits w →
  (redis_up w = true ∨ exec_rejects = true →
   (Z.of_nat (let_through k from (win k) calls (run_checks (checked lim win exec_rejects) calls w).1) ≤ lim k)%Z) ∧
  (redis_up w = true →
   (Z.of_nat (let_through k from (win k * 1000) calls
      (run_checks (λ k, checkRateLimit exec_rejects k (lim k) (win k)) calls w).1) ≤ lim k)%Z).
Proof.
  intros Hwin Hl Hc Hs Hf. split; intros Hup.
  - rewrite admit_run by done. by apply log_bound.
  - rewrite event_run by done. exact (log_bound lim (λ k, win k * 1000)%Z true k from calls Hl).
Qed.
End theorems.
End RateLimiterProperties.

Module RateLimiterExamples.
Import Concrete.

Definition start : World := empty_world 1000.

Definition burst : list (string * Z) :=
  ((λ i, ("auth:10.0.0.1"%string, 1000 + i)%Z) <$> [0; 1; 2; 3; 4; 5; 6; 7; 8; 9; 10; 11]%Z) ++
  [("auth:10.0.0.1"%string, 62000%Z)].

Lemma fresh_start : fresh_limits start.
Proof. by split. Qed.

Lemma burst_sorted : Sorted Z.le (clock start :: burst.*2).
Proof. by repeat constructor. Qed.

(** The tenth request is the last one let through; a minute later requests
    are again, though refused ones were counted meanwhile. *)
Example burst_outcomes :
  (run_checks (checked (λ _, 10%Z) (λ _, 60000%Z) true) burst start).1 =
  [true; true; true; true; true; true; true; true; true; true; false; false; true].
Proof. vm_compute. reflexivity. Qed.

(** A pipeline that resolves to errors lets every request through. *)
Example errors_let_through :
  (run_checks (checked (λ _, 1%Z) (λ _, 60000%Z) false) burst (start <| redis_up := false |>)).1 =
  replicate 13 true.
Proof. vm_compute. reflexivity. Qed.

(** A refused request prolongs the refusal while Redis is up, and not while
    it is down. *)
Example refused_requests_counted :
  let calls := [("k", 1000); ("k", 31000); ("k", 61500)]%Z in
  let check := checked (λ _, 1%Z) (λ _, 60000%Z) true in
  (run_checks check calls start).1 = [true; false; false] ∧
  (run_checks check calls (start <| redis_up := false |>)).1 = [true; false; true].
Proof. by vm_compute. Qed.

Lemma limiters_refine_log_witness :
  (run_checks (checked (λ _, 10%Z) (λ _, 60000%Z) true) burst start).1 =
  log_run (λ _, 10%Z) (λ _, 60000%Z) true ∅ burst.
Proof.
  refine (proj1 (RateLimiterProperties.limiters_refine_log (λ _, 10%Z) (λ _, 60000%Z) true burst start _ _
    burst_sorted fresh_start) _).
  - intros _. reflexivity.
  - cbn. lia.
  - left. reflexivity.
Defined.

Lemma at_most_limit_per_window_witness :
  (Z.of_nat (let_through "auth:10.0.0.1" 1000 60000 burst
     (run_checks (checked (λ _, 10%Z) (λ _, 60000%Z) true) burst start).1) ≤ 10)%Z ∧
  (Z.of_nat (let_through "auth:10.0.0.1" 1000 60000000 burst
     (run_checks (λ k, checkRateLimit true k 10 60000) burst start).1) ≤ 10)%Z.
Proof.
  refine ((λ H, conj (proj1 H (or_introl eq_refl)) (proj2 H eq_refl))
    (RateLimiterProperties.at_most_limit_per_window (λ _, 10%Z) (λ _, 60000%Z) true burst start
      "auth:10.0.0.1" 1000%Z _ _ _ burst_sorted fresh_start)).
  - intros _. reflexivity.
  - lia.
  - cbn. lia.
Defined.
End RateLimiterExamples.
