(* ===== verification/FeatureFlags.v ===== *)
(** * FeatureFlags: flags per organization, behind two caches

    [modules/feature-flag/feature-flag.service.ts] and its routes.  A flag is
    looked up in the memory of the process (5 s), then in a Redis hash, then in
    the database.  A mutation clears the entry of the hash and the memory of
    its own process, and tells the other processes, which may not hear it. *)
From S2P Require Import Prelude Schema World Crypto Concrete.
From Stdlib Require Import ZArith Lia Ascii.
From stdpp Require Import base tactics strings gmap list sorting.

(** The hash commands of the client. *)
Section hash.
Context `{Redis, !RedisHash}.

Definition rhget (k f : string) : M (option rvalue) := λ w,
  if redis_up w then (Ok (redis_hget (redis w) k f), w) else (Throw redis_error, w).
Definition rhset (k f : string) (v : rvalue) : M unit := λ w,
  if redis_up w then (Ok tt, w <| redis := redis_hset (redis w) k f v |>) else (Throw redis_error, w).
Definition rhdel (k f : string) : M unit := λ w,
  if redis_up w then (Ok tt, w <| redis := redis_hdel (redis w) k f |>) else (Throw redis_error, w).
End hash.

Module FeatureFlagService.

Definition L1_TTL_MS : Z := 5000.
Definition L2_REDIS_KEY : string := "featureflags:cache".
Definition INVALIDATION_CHANNEL : string := "featureflag:invalidate".
Definition SAFETY_NET_INTERVAL_MS : Z := 60000.

(** What the hash holds of a flag. *)
Record FlagConfig := mkFlagConfig {
  fc_is_globally_enabled : bool;
  fc_enabled_org_ids : list string;
  fc_disabled_org_ids : list string
}.

Definition flag_config (f : FeatureFlagRow) : FlagConfig :=
  mkFlagConfig (ff_is_globally_enabled f) (ff_enabled_org_ids f) (ff_disabled_org_ids f).

Definition resolveFlag (flag : FlagConfig) (orgId : string) : bool :=
  if includes (fc_disabled_org_ids flag) orgId then false
  else if includes (fc_enabled_org_ids flag) orgId then true
  else fc_is_globally_enabled flag.

(** The JSON of an entry, and its parsing; a text that is not one makes
    [JSON.parse] throw. *)
Definition encode (c : FlagConfig) : rvalue :=
  RJson (JObj [("is_globally_enabled", JBool (fc_is_globally_enabled c));
               ("enabled_org_ids", JArr (JStr <$> fc_enabled_org_ids c));
               ("disabled_org_ids", JArr (JStr <$> fc_disabled_org_ids c))]).

Definition json_strings (j : option json) : option (list string) :=
  match j with
  | Some (JArr l) => mapM (λ x, match x with JStr s => Some s | _ => None end) l
  | _ => None
  end.

Definition decode (v : rvalue) : option FlagConfig :=
  match v with
  | RJson j =>
      match jget "is_globally_enabled" j, json_strings (jget "enabled_org_ids" j),
            json_strings (jget "disabled_org_ids" j) with
      | Some (JBool b), Some en, Some dis => Some (mkFlagConfig b en dis)
      | _, _, _ => None
      end
  | RText _ => None
  end.

Section service.
Context `{Redis, !RedisHash, Random}.

Definition loadFlagsFromDb : M (list FeatureFlagRow) := select (λ _, true).

(** The commands of the pipeline; on a closed connection none has an
    effect. *)
Definition loadFlagsIntoRedis : M unit :=
  let* flags := loadFlagsFromDb in
  for_each flags (λ flag, rhset L2_REDIS_KEY (ff_key flag) (encode (flag_config flag))).

Definition l1CacheKey (orgId flagKey : string) : string := orgId +:+ ":" +:+ flagKey.

Definition l1_set (key : string) (value : bool) : M unit := λ w,
  (Ok tt, w <| memory := (memory w) <| l1Cache := <[key := (value, (clock w + L1_TTL_MS)%Z)]> (l1Cache (memory w)) |> |>).

Definition l1_get (key : string) : M (option bool) := λ w,
  (Ok (match l1Cache (memory w) !! key with
       | Some (value, expiresAt) => if (clock w <? expiresAt)%Z then Some value else None
       | None => None
       end), w).

(** The lookup in the hash; a failed read falls through to the database. *)
Definition l2_get (flagKey : string) : M (option FlagConfig) :=
  catch
    (let* redisVal := rhget L2_REDIS_KEY flagKey in
     match redisVal with
     | None => ret None
     | Some v =>
         match decode v with
         | Some parsed => ret (Some parsed)
         | None => throw (PlainError "SyntaxError: JSON.parse")
         end
     end)
    (λ _, ret None).

Definition with_key (flagKey : string) (f : FeatureFlagRow) : bool := (ff_key f =? flagKey)%string.

(** The lookup in the database; an error after it, the one of the HSET
    included, answers [false]. *)
Definition db_fallback (orgId flagKey cacheKey : string) : M bool :=
  catch
    (let* row := select_one (with_key flagKey) in
     match row with
     | None => l1_set cacheKey false ;;; ret false
     | Some flag =>
         let result := resolveFlag (flag_config flag) orgId in
         l1_set cacheKey result ;;;
         rhset L2_REDIS_KEY flagKey (encode (flag_config flag)) ;;;
         ret result
     end)
    (λ _, ret false).

Definition isEnabled (orgId flagKey : string) : M bool :=
  let cacheKey := l1CacheKey orgId flagKey in
  let* l1Entry := l1_get cacheKey in
  match l1Entry with
  | Some value => ret value
  | None =>
      let* parsed := l2_get flagKey in
      match parsed with
      | Some c =>
          let result := resolveFlag c orgId in
          l1_set cacheKey result ;;; ret result
      | None => db_fallback orgId flagKey cacheKey
      end
  end.

(** [for (const key of l1Cache.keys()) if (key.endsWith(..)) l1Cache.delete(key)]. *)
Definition l1_clear (flagKey : string) : M unit := λ w,
  (Ok tt, w <| memory := (memory w) <| l1Cache :=
    filter (λ e, endsWith e.1 (":" +:+ flagKey) = false) (l1Cache (memory w)) |> |>).

Definition invalidateFlag (flagKey : string) : M unit :=
  l1_clear flagKey ;;;
  rhdel L2_REDIS_KEY flagKey ;;;
  rpublish INVALIDATION_CHANNEL (JObj [("flagKey", JStr flagKey)]).

(** The handler of [startInvalidationListener]; a message that does not parse
    is ignored. *)
Definition on_message (message : json) : M unit :=
  match jget "flagKey" message with
  | Some (JStr flagKey) => l1_clear flagKey
  | _ => ret tt
  end.

(** The interval of [startInvalidationListener]. *)
Definition safety_net : M unit := catch loadFlagsIntoRedis (λ _, ret tt).

Record CreateFlagData := mkCreateFlagData {
  cf_key : string;
  cf_is_globally_enabled : option bool;
  cf_description : option string;
  cf_enabled_org_ids : option (list string);
  cf_disabled_org_ids : option (list string)
}.

(** The key of a flag is UNIQUE. *)
Definition createFlag (data : CreateFlagData) : M FeatureFlagRow :=
  let* id := gen_random_uuid in
  let* t := now in
  let row := mkFeatureFlagRow id (cf_key data) (cf_description data) (cf_is_globally_enabled data ?? false) 0
    (cf_enabled_org_ids data ?? []) (cf_disabled_org_ids data ?? []) t t in
  insert_unique (with_key (cf_key data)) row ;;;
  invalidateFlag (cf_key data) ;;;
  ret row.

Record UpdateFlagData := mkUpdateFlagData {
  uf_is_globally_enabled : option bool;
  uf_enabled_org_ids : option (list string);
  uf_disabled_org_ids : option (list string);
  uf_description : option string
}.

Definition with_id (id : string) (f : FeatureFlagRow) : bool := (ff_id f =? id)%string.

Definition set_flag (data : UpdateFlagData) (f : FeatureFlagRow) : FeatureFlagRow :=
  f <| ff_is_globally_enabled := uf_is_globally_enabled data ?? ff_is_globally_enabled f |>
    <| ff_enabled_org_ids := uf_enabled_org_ids data ?? ff_enabled_org_ids f |>
    <| ff_disabled_org_ids := uf_disabled_org_ids data ?? ff_disabled_org_ids f |>
    <| ff_description := match uf_description data with Some d => Some d | None => ff_description f end |>.

Definition updateFlag (id : string) (data : UpdateFlagData) : M (option FeatureFlagRow) :=
  let* rows := update_touch (with_id id) (set_flag data) in
  match rows with
  | [] => ret None
  | flag :: _ => invalidateFlag (ff_key flag) ;;; ret (Some flag)
  end.

(** [if (key)]: the key of a deleted row that is not empty. *)
Definition deleteFlag (id : string) : M unit :=
  let* rows := delete_where (with_id id) in
  match rows with
  | [] => ret tt
  | flag :: _ => if truthy (ff_key flag) then invalidateFlag (ff_key flag) else ret tt
  end.

(** [ORDER BY key], by bytes. *)
Definition key_le (a b : FeatureFlagRow) : Prop := String.leb (ff_key a) (ff_key b) = true.
#[export] Instance key_le_dec : RelDecision key_le.
Proof. intros a b. unfold key_le. apply _. Defined.
Definition listFlags : M (list FeatureFlagRow) :=
  let* rows := select (λ _, true) in ret (merge_sort key_le rows).
End service.
End FeatureFlagService.

(** ** Processes and what they know *)

Section processes.
Context `{Redis, !RedisHash, Random}.
Import FeatureFlagService.

(** What a flag is for an organization: the row of the database. *)
Definition enabled_in (d : DB) (orgId flagKey : string) : bool :=
  match List.find (with_key flagKey) (feature_flags d) with
  | Some f => resolveFlag (flag_config f) orgId
  | None => false
  end.

Inductive flag_op :=
  | CreateFlag (d : CreateFlagData)
  | UpdateFlag (id : string) (d : UpdateFlagData)
  | DeleteFlag (id : string)
  | SafetyNet
  | Lookup (orgId flagKey : string).

(** An operation, with the key of the flag it changed. *)
Definition exec (op : flag_op) : M (option string) :=
  match op with
  | CreateFlag d => let* f := createFlag d in ret (Some (ff_key f))
  | UpdateFlag id d => let* f := updateFlag id d in ret (ff_key <$> f)
  | DeleteFlag id =>
      let* f := select_one (with_id id) in deleteFlag id ;;; ret (ff_key <$> f)
  | SafetyNet => safety_net ;;; ret None
  | Lookup orgId flagKey => let* _ := isEnabled orgId flagKey in ret None
  end.

(** What one process sees: its own operations and questions, the operations
    of other processes (with their own memory), the messages it receives,
    and time. *)
Inductive flag_event :=
  | Ask (orgId flagKey : string)
  | Own (op : flag_op)
  | Remote (m : Memory) (op : flag_op)
  | Message (flagKey : string)
  | Tick (t : Z).

(** For each flag, the states since the process last cleared it. *)
Definition history : Type := string → list World.

Definition extend (h : history) (cleared : option string) (w : World) : history := λ k,
  if bool_decide (cleared = Some k) then [w] else w :: h k.

Record answer := mkAnswer {
  an_world : World;
  an_history : history;
  an_org : string;
  an_flag : string;
  an_value : option bool
}.

Definition flag_step (e : flag_event) (w : World) (h : history) : World * history * list answer :=
  match e with
  | Ask o k =>
      let '(r, w') := isEnabled o k w in
      (w', extend h None w', [mkAnswer w h o k (match r with Ok b => Some b | Throw _ => None end)])
  | Own op =>
      let '(r, w') := exec op w in
      (w', extend h (match r with Ok c => c | Throw _ => None end) w', [])
  | Remote m op =>
      let w' := (exec op (w <| memory := m |>)).2 <| memory := memory w |> in
      (w', extend h None w', [])
  | Message k =>
      let w' := (on_message (JObj [("flagKey", JStr k)]) w).2 in
      (w', extend h (Some k) w', [])
  | Tick t => let w' := w <| clock := t |> in (w', extend h None w', [])
  end.

Fixpoint flag_run (es : list flag_event) (w : World) (h : history) : list answer :=
  match es with
  | [] => []
  | e :: es => let '(w', h', a) := flag_step e w h in a ++ flag_run es w' h'
  end.

(** The organizations asked about are identifiers without a colon, the flags
    created have a key. *)
Definition op_ok (op : flag_op) : Prop :=
  match op with
  | CreateFlag d => truthy (cf_key d) = true
  | Lookup o _ => char_free ":"%char o = true
  | _ => True
  end.
Definition event_ok (e : flag_event) : Prop :=
  match e with
  | Ask o _ => char_free ":"%char o = true
  | Own op => op_ok op
  | Remote m op => op_ok op
  | Message _ | Tick _ => True
  end.

(** The table: keys and identifiers are unique, keys are not empty. *)
Definition flags_ok (n : nat) (l : list FeatureFlagRow) : Prop :=
  NoDup (ff_key <$> l) ∧ NoDup (ff_id <$> l) ∧ Forall (λ f, truthy (ff_key f) = true) l ∧
  Forall (λ f, ∃ m, m < n ∧ ff_id f = random_uuid m) l.

(** The hash agrees with the database. *)
Definition l2_ok (r : redis_store) (l : list FeatureFlagRow) : Prop := ∀ k v,
  redis_hget r L2_REDIS_KEY k = Some v →
  ∃ f, List.find (with_key k) l = Some f ∧ v = encode (flag_config f).

Definition shared_ok (w : World) : Prop :=
  redis_up w = true ∧ flags_ok (draws w) (feature_flags (db w)) ∧ l2_ok (redis w) (feature_flags (db w)).

(** An entry of the memory is the answer of a state since the last
    invalidation, and expires 5 s after it. *)
Definition l1_ok (m : Memory) (h : history) : Prop := ∀ o k v expires,
  char_free ":"%char o = true → l1Cache m !! l1CacheKey o k = Some (v, expires) →
  ∃ w0, w0 ∈ h k ∧ v = enabled_in (db w0) o k ∧ expires = (clock w0 + L1_TTL_MS)%Z.
End processes.

(** ** Each operation keeps the caches honest *)

Section lemmas.
Context `{Redis, !RedisHash, !RedisHashLaws _, Random, !RandomLaws _}.
Import FeatureFlagService.

Lemma decode_encode c : decode (encode c) = Some c.
Proof.
  assert (Hs : ∀ l, mapM (λ x, match x with JStr s => Some s | _ => None end) (JStr <$> l) = Some l).
  { induction l as [|s l IH]; [done|]. cbn. by rewrite IH. }
  destruct c as [b en dis]. unfold decode, encode. cbn. by rewrite !Hs.
Qed.

Lemma l1CacheKey_inj o o' k k' :
  char_free ":"%char o = true → char_free ":"%char o' = true → l1CacheKey o k = l1CacheKey o' k' → o = o' ∧ k = k'.
Proof. intros Ho Ho' E. by apply (char_free_split ":"%char). Qed.

(** Clearing a flag, from memory and hash. *)
Lemma invalidateFlag_run k w :
  redis_up w = true →
  ∃ w', invalidateFlag k w = (Ok tt, w') ∧ db w' = db w ∧ redis_up w' = true ∧ draws w' = draws w ∧
    clock w' = clock w ∧ redis w' = redis_hdel (redis w) L2_REDIS_KEY k ∧
    l1Cache (memory w') = filter (λ e, endsWith e.1 (":" +:+ k) = false) (l1Cache (memory w)).
Proof.
  intros Hup. unfold invalidateFlag, bind, l1_clear, rhdel, rpublish. cbn. rewrite Hup. cbn. rewrite ?Hup.
  eexists. split; [reflexivity|]. by cbn.
Qed.

Lemma l2_ok_hdel r l l' k :
  l2_ok r l → (∀ k' f, k' ≠ k → List.find (with_key k') l = Some f → List.find (with_key k') l' = Some f) →
  l2_ok (redis_hdel r L2_REDIS_KEY k) l'.
Proof.
  intros Hl Hkeep k' v Hv. destruct (decide (k = k')) as [->|Hne].
  - by rewrite redis_hget_hdel_eq in Hv.
  - rewrite redis_hget_hdel_ne in Hv by done. destruct (Hl _ _ Hv) as (f & Hf & ->). eauto.
Qed.

Lemma l2_ok_hset r l k f :
  l2_ok r l → List.find (with_key k) l = Some f → l2_ok (redis_hset r L2_REDIS_KEY k (encode (flag_config f))) l.
Proof.
  intros Hl Hf k' v Hv. destruct (decide (k = k')) as [->|Hne].
  - rewrite redis_hget_hset_eq in Hv. simplify_eq. eauto.
  - rewrite redis_hget_hset_ne in Hv by done. by apply Hl.
Qed.

(** A question the memory does not answer: the answer is the database's. *)
Lemma isEnabled_miss o k w :
  shared_ok w → (l1_get (l1CacheKey o k) w).1 = Ok None →
  ∃ w', isEnabled o k w = (Ok (enabled_in (db w) o k), w') ∧ db w' = db w ∧ clock w' = clock w ∧ shared_ok w' ∧
    memory w' = (memory w) <| l1Cache :=
      <[l1CacheKey o k := (enabled_in (db w) o k, (clock w + L1_TTL_MS)%Z)]> (l1Cache (memory w)) |>.
Proof.
  intros (Hup & Hflags & Hl2) Hmiss. unfold isEnabled, bind at 1.
  unfold l1_get in *. cbn [fst] in Hmiss. simplify_eq. rewrite Hmiss.
  unfold l2_get, catch, bind, rhget. rewrite Hup.
  destruct (redis_hget (redis w) L2_REDIS_KEY k) as [v|] eqn:Ev.
  - destruct (Hl2 k v Ev) as (f & Hf & ->). rewrite decode_encode. cbn.
    assert (E : enabled_in (db w) o k = resolveFlag (flag_config f) o).
    { unfold enabled_in. by rewrite Hf. }
    rewrite E. eexists. split; [reflexivity|]. by cbn.
  - cbn. unfold db_fallback, catch, bind, select_one. tables.
    destruct (List.find (with_key k) (feature_flags (db w))) as [f|] eqn:Hf; cbn.
    + assert (E : enabled_in (db w) o k = resolveFlag (flag_config f) o).
      { unfold enabled_in. by rewrite Hf. }
      unfold rhset. cbn. rewrite Hup, E. eexists. split; [reflexivity|]. cbn. split; [done|]. split; [done|].
      split; [|done]. split; [done|]. split; [done|]. by apply l2_ok_hset.
    + assert (E : enabled_in (db w) o k = false). { unfold enabled_in. by rewrite Hf. }
      rewrite E. eexists. split; [reflexivity|]. by cbn.
Qed.

Lemma isEnabled_hit o k b w : (l1_get (l1CacheKey o k) w).1 = Ok (Some b) → isEnabled o k w = (Ok b, w).
Proof.
  intros E. unfold isEnabled, bind at 1. unfold l1_get in *. cbn [fst] in E. injection E as E. by rewrite E.
Qed.

(** Any question leaves the database and the agreement of the hash. *)
Lemma isEnabled_shared o k w :
  shared_ok w → ∃ b w', isEnabled o k w = (Ok b, w') ∧ db w' = db w ∧ clock w' = clock w ∧ shared_ok w'.
Proof.
  intros Hs. destruct ((l1_get (l1CacheKey o k) w).1) as [[b|]|e] eqn:E; [| |done].
  - exists b, w. split; [by apply isEnabled_hit|done].
  - destruct (isEnabled_miss o k w Hs E) as (w' & ? & ? & ? & ? & ?). eauto 10.
Qed.

Lemma l1_ok_extend m h w' : l1_ok m h → l1_ok m (extend h None w').
Proof.
  intros Hl o k v ex Ho Hv. destruct (Hl o k v ex Ho Hv) as (w0 & Hin & ?).
  exists w0. split; [|done]. unfold extend. rewrite bool_decide_false by done. by right.
Qed.

(** A question of this process: the answer is the one of a known state at
    most 5 s old. *)
Lemma isEnabled_run o k w h :
  shared_ok w → l1_ok (memory w) h → w ∈ h k → char_free ":"%char o = true →
  ∃ b w', isEnabled o k w = (Ok b, w') ∧ db w' = db w ∧ clock w' = clock w ∧ shared_ok w' ∧
    (∃ w0, w0 ∈ h k ∧ (clock w < clock w0 + L1_TTL_MS)%Z ∧ b = enabled_in (db w0) o k) ∧
    l1_ok (memory w') (extend h None w').
Proof.
  intros Hs Hl1 Hw Ho. destruct ((l1_get (l1CacheKey o k) w).1) as [[b|]|e] eqn:E; [| |done].
  - exists b, w. split; [by apply isEnabled_hit|].
    do 3 (split; [done|]). split; [|by apply l1_ok_extend]. unfold l1_get in E. cbn in E.
    destruct (l1Cache (memory w) !! l1CacheKey o k) as [[v ex]|] eqn:E1; [|done].
    destruct (Z.ltb_spec (clock w) ex); [|done]. simplify_eq.
    destruct (Hl1 o k b ex Ho E1) as (w0 & Hin & -> & ->). by exists w0.
  - destruct (isEnabled_miss o k w Hs E) as (w' & Hrun & Hdb & Hc & Hs' & Hm).
    eexists _, w'. do 4 (split; [done|]). split.
    + exists w. split; [done|]. split; [unfold L1_TTL_MS; lia|done].
    + intros o' k' v ex Ho' Hv. rewrite Hm in Hv. cbn in Hv.
      apply lookup_insert_Some in Hv as [[Ek Ev]|[_ Hv]]; [|by eapply l1_ok_extend].
      apply l1CacheKey_inj in Ek as [<- <-]; [|done..]. simplify_eq. exists w'.
      unfold extend. rewrite bool_decide_false by done. rewrite Hdb, Hc. split; [by left|done].
Qed.
End lemmas.

Section mutations.
Context `{Redis, !RedisHash, !RedisHashLaws _, Random, !RandomLaws _}.
Import FeatureFlagService.

#[local] Arguments invalidateFlag : simpl never.

(** What an operation other than a question leaves. *)
Definition mutates (r : result (option string)) (w w' : World) : Prop :=
  clock w' = clock w ∧ shared_ok w' ∧
  l1Cache (memory w') =
    match r with
    | Ok (Some k) => filter (λ e, endsWith e.1 (":" +:+ k) = false) (l1Cache (memory w))
    | _ => l1Cache (memory w)
    end.

Lemma flags_ok_mono n n' l : n ≤ n' → flags_ok n l → flags_ok n' l.
Proof.
  intros Hn (? & ? & ? & Hid). do 3 (split; [done|]).
  eapply Forall_impl; [exact Hid|]. cbn. intros f (m & ? & ?). exists m. split; [lia|done].
Qed.

Lemma find_key l f n : flags_ok n l → f ∈ l → List.find (with_key (ff_key f)) l = Some f.
Proof.
  intros (Hk & _) Hf. eapply NoDup_fmap_find; [exact Hk|done|apply String.eqb_refl|].
  intros f' _ E. unfold with_key in E. by bool_to_prop.
Qed.

Lemma with_id_unique l f f' n id :
  flags_ok n l → f ∈ l → f' ∈ l → with_id id f = true → with_id id f' = true → f = f'.
Proof.
  intros (_ & Hid & _) Hf Hf' E E'. unfold with_id in *. bool_to_prop.
  eapply (NoDup_fmap_elem ff_id); eauto. congruence.
Qed.

Lemma createFlag_mutates d w :
  shared_ok w → truthy (cf_key d) = true →
  mutates (exec (CreateFlag d) w).1 w (exec (CreateFlag d) w).2.
Proof.
  intros (Hup & Hflags & Hl2) Hkey. cbn [exec].
  unfold createFlag, bind, gen_random_uuid, now, insert_unique. cbn. tables.
  destruct (existsb _ _) eqn:Ex; cbn.
  { split; [done|]. split; [|done]. split; [done|]. split; [|done]. cbn. eapply flags_ok_mono; [|done]. lia. }
  set (row := mkFeatureFlagRow _ _ _ _ _ _ _ _ _).
  match goal with |- context [invalidateFlag ?k ?w0] =>
    destruct (invalidateFlag_run k w0) as (w' & -> & Hdb & Hup' & Hd & Hc & Hr & Hm); [done|] end.
  cbn in *. split; [done|]. split; [|done]. split; [done|]. rewrite Hd, Hdb, Hr. tables. cbn.
  assert (Hnone : List.find (with_key (cf_key d)) (feature_flags (db w)) = None).
  { destruct (List.find _ _) as [f|] eqn:Ef; [|done]. apply find_some_elem in Ef as [Hin Hf].
    assert (existsb (with_key (cf_key d)) (feature_flags (db w)) = true) as E by
      (apply existsb_exists; exists f; by rewrite <- list_elem_of_In). congruence. }
  split.
  - destruct Hflags as (Hk1 & Hk2 & Hk3 & Hk4). unfold flags_ok. rewrite !fmap_app. split; [|split; [|split]].
    + apply NoDup_app. split; [done|]. split; [|apply NoDup_singleton].
      intros k (f & -> & Hf)%list_elem_of_fmap Ek%list_elem_of_singleton.
      pose proof (find_none_elem _ _ _ Hnone Hf) as E. unfold with_key in E. by bool_to_prop.
    + apply NoDup_app. split; [done|]. split; [|apply NoDup_singleton].
      intros id (f & -> & Hf)%list_elem_of_fmap E%list_elem_of_singleton. cbn in E.
      rewrite Forall_forall in Hk4. destruct (Hk4 f Hf) as (m & ? & E'). rewrite E' in E.
      apply random_uuid_inj in E. lia.
    + by apply Forall_app; split; [|constructor].
    + apply Forall_app. split; [|constructor; [exists (draws w); cbn; split; [lia|done]|done]].
      eapply Forall_impl; [exact Hk4|]. cbn. intros f (m & ? & ?). exists m. split; [lia|done].
  - eapply l2_ok_hdel; [exact Hl2|]. intros k' f _ Hf. by apply find_app_l.
Qed.

Lemma updateFlag_mutates id d w :
  shared_ok w → mutates (exec (UpdateFlag id d) w).1 w (exec (UpdateFlag id d) w).2.
Proof.
  intros (Hup & Hflags & Hl2). cbn [exec].
  unfold updateFlag, bind, update_touch, bind, now, update_where, ret_where. cbn. tables.
  set (f := λ r, touch (clock w) (set_flag d r)).
  assert (Hk : ∀ r, ff_key (f r) = ff_key r) by done. assert (Hi : ∀ r, ff_id (f r) = ff_id r) by done.
  assert (Hflags' : flags_ok (draws w) (upd_where (with_id id) f (feature_flags (db w)))).
  { destruct Hflags as (Hk1 & Hk2 & Hk3 & Hk4).
    split; [by rewrite fmap_upd_where|]. split; [by rewrite fmap_upd_where|].
    split; apply Forall_upd_where; auto. }
  destruct (List.filter (with_id id) (feature_flags (db w))) as [|g gs] eqn:Eg; cbn.
  { rewrite upd_where_none by (intros r; apply filter_nil_iff; exact Eg). split; [done|]. split; [|done]. by split_and!. }
  match goal with |- context [invalidateFlag ?k ?w0] =>
    destruct (invalidateFlag_run k w0) as (w' & -> & Hdb & Hup' & Hd & Hc & Hr & Hm); [done|] end.
  cbn in *. split; [done|]. split; [|done]. split; [done|]. rewrite Hd, Hdb, Hr. tables. cbn.
  split; [done|]. eapply l2_ok_hdel; [exact Hl2|]. intros k' r Hne Hr'.
  rewrite find_upd_where by done. rewrite Hr'. cbn.
  destruct (with_id id r) eqn:Eid; [|done]. apply find_some_elem in Hr' as [Hin Hk']. exfalso. apply Hne.
  assert (g ∈ feature_flags (db w) ∧ with_id id g = true) as [Hg Hgid].
  { apply elem_of_filter_bool. rewrite Eg. by left. }
  rewrite (with_id_unique _ _ _ _ _ Hflags Hg Hin Hgid Eid). unfold with_key in Hk'. by bool_to_prop.
Qed.

Lemma deleteFlag_mutates id w :
  shared_ok w → mutates (exec (DeleteFlag id) w).1 w (exec (DeleteFlag id) w).2.
Proof.
  intros (Hup & Hflags & Hl2). cbn [exec].
  unfold deleteFlag, bind, select_one, delete_where. cbn. tables.
  rewrite <- hd_filter_find.
  assert (Hflags' : flags_ok (draws w) (List.filter (λ r, negb (with_id id r)) (feature_flags (db w)))).
  { destruct Hflags as (Hk1 & Hk2 & Hk3 & Hk4).
    assert (Hsub : sublist (List.filter (λ r, negb (with_id id r)) (feature_flags (db w))) (feature_flags (db w))).
    { generalize (feature_flags (db w)) as l. induction l as [|x l IH]; cbn; [done|].
      destruct (negb _); by constructor. }
    split; [by eapply sublist_NoDup; [|apply fmap_sublist]|].
    split; [by eapply sublist_NoDup; [|apply fmap_sublist]|].
    split; apply Forall_forall; intros r [Hr _]%elem_of_filter_bool; revert r Hr; by apply Forall_forall. }
  destruct (List.filter (with_id id) (feature_flags (db w))) as [|g gs] eqn:Eg; cbn.
  { assert (E : List.filter (λ r, negb (with_id id r)) (feature_flags (db w)) = feature_flags (db w)).
    { rewrite <- (filter_all (feature_flags (db w))) at 2. apply List.filter_ext_in. intros r Hr.
      by rewrite (proj1 (filter_nil_iff _ _) Eg) by (by apply list_elem_of_In). }
    rewrite E. split; [done|]. split; [|done]. by split_and!. }
  assert (g ∈ feature_flags (db w) ∧ with_id id g = true) as [Hg Hgid].
  { apply elem_of_filter_bool. rewrite Eg. by left. }
  assert (truthy (ff_key g) = true) as ->.
  { destruct Hflags as (_ & _ & Hk3 & _). rewrite Forall_forall in Hk3. by apply Hk3. }
  match goal with |- context [invalidateFlag ?k ?w0] =>
    destruct (invalidateFlag_run k w0) as (w' & -> & Hdb & Hup' & Hd & Hc & Hr & Hm); [done|] end.
  cbn in *. split; [done|]. split; [|done]. split; [done|]. rewrite Hd, Hdb, Hr. tables. cbn.
  split; [done|]. eapply l2_ok_hdel; [exact Hl2|]. intros k' r Hne Hr'.
  apply find_filter_first; [done|]. apply find_some_elem in Hr' as [Hin Hk'].
  destruct (with_id id r) eqn:Eid; [|done]. exfalso. apply Hne.
  rewrite (with_id_unique _ _ _ _ _ Hflags Hg Hin Hgid Eid). unfold with_key in Hk'. by bool_to_prop.
Qed.

Lemma safetyNet_mutates w : shared_ok w → mutates (exec SafetyNet w).1 w (exec SafetyNet w).2.
Proof.
  intros Hs. cbn [exec]. unfold safety_net, loadFlagsIntoRedis, loadFlagsFromDb.
  assert (Hloop : ∀ l w, shared_ok w → l ⊆ feature_flags (db w) →
    ∃ w', for_each l (λ flag, rhset L2_REDIS_KEY (ff_key flag) (encode (flag_config flag))) w = (Ok tt, w') ∧
      clock w' = clock w ∧ shared_ok w' ∧ memory w' = memory w).
  { clear w Hs. induction l as [|f l IH]; intros w Hs Hl; cbn; [by exists w|].
    unfold bind, rhset at 1. pose proof Hs as (Hup & Hflags & Hl2). rewrite Hup.
    match goal with |- context [for_each l _ ?w0] => destruct (IH w0) as (w' & -> & Hc & Hs' & Hm) end.
    - split; [done|]. split; [done|]. cbn. apply l2_ok_hset; [done|]. eapply find_key; [done|]. apply Hl. by left.
    - cbn. intros x Hx. apply Hl. by right.
    - exists w'. by cbn in *. }
  unfold bind, catch, select. cbn. tables. rewrite filter_all.
  destruct (Hloop (feature_flags (db w)) w Hs) as (w' & -> & Hc & Hs' & Hm); [done|].
  cbn. split; [done|]. split; [done|]. by rewrite Hm.
Qed.
End mutations.

Section runs.
Context `{Redis, !RedisHash, !RedisHashLaws _, Random, !RandomLaws _}.
Import FeatureFlagService.

Definition informed (w : World) (h : history) : Prop :=
  shared_ok w ∧ l1_ok (memory w) h ∧ ∀ k, w ∈ h k.

(** The answer of a state the process knows of, less than 5 s old. *)
Definition justified (a : answer) : Prop :=
  ∃ w0, w0 ∈ an_history a (an_flag a) ∧ (clock (an_world a) < clock w0 + L1_TTL_MS)%Z ∧
    an_value a = Some (enabled_in (db w0) (an_org a) (an_flag a)).

Lemma extend_now h c w k : w ∈ extend h c w k.
Proof. unfold extend. case_bool_decide; by left. Qed.

Lemma l1_ok_cleared (m m' : Memory) h k w' :
  l1_ok m h → l1Cache m' = filter (λ e, endsWith e.1 (":" +:+ k) = false) (l1Cache m) →
  l1_ok m' (extend h (Some k) w').
Proof.
  intros Hl Hm o k' v ex Ho Hv. rewrite Hm in Hv. apply map_lookup_filter_Some in Hv as [Hv Hend].
  destruct (Hl o k' v ex Ho Hv) as (w0 & Hin & ?). exists w0. split; [|done]. unfold extend.
  case_bool_decide as E; [|by right]. simplify_eq. cbn in Hend.
  unfold l1CacheKey in Hend. by rewrite endsWith_app in Hend.
Qed.

Lemma l1_ok_memory (m m' : Memory) h : l1Cache m' = l1Cache m → l1_ok m h → l1_ok m' h.
Proof. intros E Hl o k v ex. rewrite E. apply Hl. Qed.

Lemma mutates_op op w :
  (∀ o k, op ≠ Lookup o k) → shared_ok w → op_ok op → mutates (exec op w).1 w (exec op w).2.
Proof.
  destruct op; intros Hne Hs Hop; [by apply createFlag_mutates|by apply updateFlag_mutates|
    by apply deleteFlag_mutates|by apply safetyNet_mutates|by edestruct Hne].
Qed.

Lemma exec_shared op w : shared_ok w → op_ok op → shared_ok (exec op w).2.
Proof.
  intros Hs Hop. destruct op as [d|id d|id| |o k]; try (eapply mutates_op; done).
  cbn [exec]. unfold bind. by destruct (isEnabled_shared o k w Hs) as (b & w' & -> & _ & _ & ?).
Qed.

Lemma own_informed op w h :
  informed w h → op_ok op →
  let '(r, w') := exec op w in
  informed w' (extend h (match r with Ok c => c | Throw _ => None end) w').
Proof.
  intros (Hs & Hl1 & Hw) Hop. destruct op as [d|id d|id| |o k].
  5: { cbn [exec]. unfold bind.
    destruct (isEnabled_run o k w h Hs Hl1 (Hw k) Hop) as (b & w' & -> & _ & _ & Hs' & _ & Hl).
    split; [done|]. split; [done|]. intros. apply extend_now. }
  all: match goal with H : shared_ok ?w, Ho : op_ok ?op |- _ =>
      pose proof (mutates_op op w ltac:(done) H Ho) as (? & ? & ?); destruct (exec op w) as [[[?|]|?] ?] end;
    cbn in *; (split; [done|]); (split; [|intros; apply extend_now]);
    first [by eapply l1_ok_cleared | by eapply l1_ok_extend, l1_ok_memory].
Qed.

Lemma flag_step_informed e w h :
  informed w h → event_ok e →
  let '(w', h', a) := flag_step e w h in informed w' h' ∧ Forall justified a.
Proof.
  intros Hi He. pose proof Hi as (Hs & Hl1 & Hw). destruct e as [o k|op|m op|k|t]; cbn [flag_step].
  - destruct (isEnabled_run o k w h Hs Hl1 (Hw k) He) as (b & w' & -> & _ & _ & Hs' & (w0 & ? & ? & ->) & Hl).
    split; [|by repeat constructor; exists w0]. split; [done|]. split; [done|]. intros. apply extend_now.
  - pose proof (own_informed op w h Hi He) as Ho. by destruct (exec op w) as [r w'].
  - split; [|done]. pose proof (exec_shared op (w <| memory := m |>)) as Hsh.
    split; [|split; [by apply l1_ok_extend|intros; apply extend_now]].
    by apply Hsh.
  - split; [|done]. split; [done|]. split; [|intros; apply extend_now].
    eapply l1_ok_cleared; [done|]. reflexivity.
  - split; [|done]. split; [done|]. split; [by apply l1_ok_extend|intros; apply extend_now].
Qed.

Lemma flag_run_justified es w h : informed w h → Forall event_ok es → Forall justified (flag_run es w h).
Proof.
  revert w h. induction es as [|e es IH]; intros w h Hi Hes; cbn; [done|]. inversion_clear Hes.
  pose proof (flag_step_informed e w h Hi) as Hstep. destruct (flag_step e w h) as [[w' h'] a].
  apply Forall_app. split; [by apply Hstep|]. apply IH; [by apply Hstep|done].
Qed.
End runs.

(** The question whether a flag is on is always answered, and leaves
    everything but the caches as it was. *)
Section footprint.
Context `{Redis, !RedisHash}.
Import FeatureFlagService.

Definition caches_only (w0 w : World) : Prop := ∃ r m, w = w0 <| redis := r |> <| memory := m |>.

Lemma caches_only_refl w : caches_only w w.
Proof. exists (redis w), (memory w). by destruct w. Qed.

Lemma isEnabled_footprint o k w : ∃ b w', isEnabled o k w = (Ok b, w') ∧ caches_only w w'.
Proof.
  unfold isEnabled, bind. destruct (l1_get (l1CacheKey o k) w) as [[[b|]|e] w1] eqn:E; unfold l1_get in E; simplify_eq.
  { exists b, w1. split; [done|apply caches_only_refl]. }
  assert (∃ c, l2_get k w1 = (Ok c, w1)) as [c ->].
  { unfold l2_get, catch, bind, rhget, ret, throw. repeat case_match; simplify_eq; by eexists. }
  destruct c as [c|].
  { do 2 eexists. split; [reflexivity|]. exists (redis w1). eexists. by destruct w1. }
  unfold db_fallback, catch, bind, select_one, l1_set, rhset, ret.
  repeat case_match; simplify_eq; do 2 eexists; (split; [reflexivity|]);
    first [by eexists _, _ | eexists (redis w1), _; by destruct w1].
Qed.
End footprint.

Module FeatureFlagProperties.
Section theorems.
Context `{Redis, !RedisHash, !RedisHashLaws _, Random, !RandomLaws _}.

(** a process that starts with an empty memory while Redis is up always
    gets an answer to "is this flag enabled for this organization", and it is
    the one the database gave at most 5 seconds ago, whatever operations this
    and other processes ran meanwhile and whether or not their invalidation
    messages arrived; and it is never the answer of a state before the last
    change of the flag this process made or heard of. *)
Theorem flags_are_fresh es w :
  shared_ok w → l1Cache (memory w) = ∅ → Forall event_ok es →
  Forall (λ a, ∃ w0, w0 ∈ an_history a (an_flag a) ∧
      (clock (an_world a) < clock w0 + FeatureFlagService.L1_TTL_MS)%Z ∧
      an_value a = Some (enabled_in (db w0) (an_org a) (an_flag a)))
    (flag_run es w (λ _, [w])).
Proof.
  intros Hs Hm Hes. apply flag_run_justified; [|done]. split; [done|]. split; [|by left].
  intros o k v ex _. by rewrite Hm, lookup_empty.
Qed.
End theorems.
End FeatureFlagProperties.

Module FeatureFlagExamples.
Import Concrete FeatureFlagService.

Definition start : World := empty_world 1000.

Lemma start_ok : shared_ok start.
Proof. split; [done|]. split; [by repeat constructor|]. intros k v. cbn. by rewrite lookup_empty. Qed.

Definition chat : string := "feature.chat".

(** The flag is created by this process, asked for, changed by another one,
    and asked for before and after the entry expires. *)
Definition scenario : list flag_event :=
  [Ask "org1" chat; Own (CreateFlag (mkCreateFlagData chat (Some true) None None None)); Ask "org1" chat;
   Remote empty_memory (UpdateFlag "uuid-0" (mkUpdateFlagData (Some false) None None None));
   Tick 5999; Ask "org1" chat; Tick 6000; Ask "org1" chat].

Example scenario_answers : an_value <$> flag_run scenario start (λ _, [start]) =
  [Some false; Some true; Some true; Some false].
Proof. vm_compute. reflexivity. Qed.

(** While Redis is down a flag that is on is answered as off, although the
    row was read; the entry it leaves in memory is right. *)
Definition flag_on : World := (createFlag (mkCreateFlagData chat (Some true) None None None) start).2.

Example down_answers_off :
  let w := flag_on <| redis_up := false |> in
  (isEnabled "org1" chat w).1 = Ok false ∧ enabled_in (db w) "org1" chat = true ∧
  (isEnabled "org1" chat (isEnabled "org1" chat w).2).1 = Ok true.
Proof. vm_compute. done. Qed.

Lemma flags_are_fresh_witness :
  Forall (λ a, ∃ w0, w0 ∈ an_history a (an_flag a) ∧ (clock (an_world a) < clock w0 + L1_TTL_MS)%Z ∧
      an_value a = Some (enabled_in (db w0) (an_org a) (an_flag a)))
    (flag_run scenario start (λ _, [start])).
Proof.
  apply FeatureFlagProperties.flags_are_fresh; [exact start_ok|reflexivity|].
  repeat constructor.
Defined.
End FeatureFlagExamples.
