(* ===== verification/OrgAccess.v ===== *)
(** * OrgAccess: who may act on an organization

    The middlewares every tenant route goes through
    ([org-context.middleware.ts], [org-status.middleware.ts],
    [require-role.middleware.ts]), the one of the platform administrators
    ([admin.middleware.ts]), the routes of [organization.router.ts] and the
    operations of [admin.service.ts]. *)
From S2P Require Import Prelude Schema World Zod Crypto Concrete OrgRepo AuthRepo Session Http Auth Organization.
From Stdlib Require Import ZArith Lia Ascii.
From stdpp Require Import base tactics strings gmap list.

Definition org_status_str (s : org_status) : string :=
  match s with
  | OrgActive => "active" | OrgSuspended => "suspended"
  | OrgOffboarding => "offboarding" | OrgDeleted => "deleted"
  end.

(** What the middleware tells the route about the tenant, and the text of it
    that is cached. *)
Record OrgSessionCache := mkOrgSessionCache {
  oc_orgId : string;
  oc_orgStatus : string;
  oc_memberRole : string
}.

Module OrgContext.
Section context.
Context `{Redis, Random, Crypto}.

Definition SESSION_CACHE_TTL : Z := 30.

Definition cache_key (userId orgId : string) : string := "session:" +:+ userId +:+ ":" +:+ orgId.

Definition context_json (c : OrgSessionCache) : json :=
  JObj [("orgId", JStr (oc_orgId c)); ("orgStatus", JStr (oc_orgStatus c));
        ("memberRole", JStr (oc_memberRole c))].

(** [JSON.parse]; what is not an object fails and is not used. *)
Definition parse_context (v : rvalue) : option OrgSessionCache :=
  match v with
  | RJson j => Some (mkOrgSessionCache (jstr "orgId" j ?? "") (jstr "orgStatus" j ?? "")
                       (jstr "memberRole" j ?? ""))
  | RText _ => None
  end.

Definition active_in (orgId userId : string) (m : MembershipRow) : bool :=
  (om_org_id m =? orgId)%string && (om_user_id m =? userId)%string &&
  bool_decide (om_status m = MActive) && is_null (om_deleted_at m).

(** The role and the status the JOIN finds. *)
Definition lookup_context (orgId userId : string) : M (option (member_role * org_status)) :=
  let* om := select_one (active_in orgId userId) in
  let* o := select_one (λ o, (o_id o =? orgId)%string) in
  ret (match om, o with Some m, Some o => Some (om_role m, o_status o) | _, _ => None end).

(** The part of [resolveOrgContext] after the cache. *)
Definition loadOrgContext (userId orgId : string) : M OrgSessionCache :=
  let* row := lookup_context orgId userId in
  match row with
  | None =>
      let* org := select_one (λ o, (o_id o =? orgId)%string) in
      match org with
      | Some o =>
          if bool_decide (o_status o = OrgDeleted)
          then throw (ForbiddenError "ORG_DELETED" "Organization does not exist or has been deleted")
          else throw (ForbiddenError "NOT_ORG_MEMBER" "User is not an active member of this organization")
      | None => throw (ForbiddenError "ORG_DELETED" "Organization does not exist or has been deleted")
      end
  | Some (role, org_status) =>
      if bool_decide (org_status = OrgDeleted)
      then throw (ForbiddenError "ORG_DELETED" "Organization has been deleted")
      else
        let context := mkOrgSessionCache orgId (org_status_str org_status) (role_str role) in
        catch (rset (cache_key userId orgId) (RJson (context_json context)) (Some SESSION_CACHE_TTL))
          (λ _, ret tt) ;;;
        ret context
  end.

Definition resolveOrgContext (userId orgId : string) : M OrgSessionCache :=
  let* cached := catch (let* v := rget (cache_key userId orgId) in ret (v ≫= parse_context))
    (λ _, ret None) in
  match cached with
  | Some c => ret c
  | None => loadOrgContext userId orgId
  end.

(** [orgContextMiddleware], after the JWT middleware. *)
Definition orgContextMiddleware (rq : Request) (user : ReqUser) : M OrgSessionCache :=
  match rq_org_id rq with
  | Some orgId =>
      if negb (truthy orgId)
      then throw (UnauthorizedError "MISSING_ORG_ID" "X-Org-ID header is required")
      else if negb (ru_isPlatformAdmin user) && negb (ru_orgId user =? orgId)%string
      then throw (ForbiddenError "ORG_MISMATCH" "Token org does not match X-Org-ID header")
      else resolveOrgContext (ru_userId user) orgId
  | None => throw (UnauthorizedError "MISSING_ORG_ID" "X-Org-ID header is required")
  end.

Definition WRITE_METHODS : list string := ["POST"; "PUT"; "PATCH"; "DELETE"]%string.
Definition SUSPENDED_BYPASS_PREFIXES : list string := ["/api/v1/auth"]%string.

Definition isSuspendedBypass (rq : Request) : bool :=
  if negb (includes WRITE_METHODS (rq_method rq)) then true
  else existsb (λ p, String.prefix p (rq_path rq)) SUSPENDED_BYPASS_PREFIXES.

(** [orgStatusMiddleware]: the error it passes on, if any. *)
Definition orgStatusMiddleware (rq : Request) (c : OrgSessionCache) : option error :=
  let orgStatus := oc_orgStatus c in
  if (orgStatus =? "deleted")%string then
    Some (ForbiddenError "ORG_DELETED" "Organization has been deleted")
  else if (orgStatus =? "offboarding")%string && includes WRITE_METHODS (rq_method rq) then
    Some (ForbiddenError "ORG_OFFBOARDING" "Organization is in offboarding — writes are disabled")
  else if (orgStatus =? "suspended")%string && negb (isSuspendedBypass rq) then
    Some (ForbiddenError "ORG_SUSPENDED" "Organization is suspended — writes are disabled")
  else None.

(** [requireRole(roles)]. *)
Definition requireRole {A} (roles : list string) (c : OrgSessionCache) (next : M A) : M A :=
  if negb (truthy (oc_memberRole c)) || negb (includes roles (oc_memberRole c)) then
    throw (ForbiddenError "INSUFFICIENT_ROLE"
      ("This action requires one of: " +:+ String.concat ", " roles))
  else next.
End context.

Section chain.
Context `{Redis, Random, Config, Crypto}.
Context (keyStore : gmap string string).

(** [orgMiddleware]: token, tenant, status, then the route. *)
Definition orgMiddleware {A} (rq : Request) (next : ReqUser → OrgSessionCache → M A) : M A :=
  let* user := JwtMiddleware.authenticate keyStore (rq_authorization rq) in
  let* c := orgContextMiddleware rq user in
  match orgStatusMiddleware rq c with
  | Some e => throw e
  | None => next user c
  end.

(** [orgMiddlewareWithIdempotency]. *)
Definition orgMiddlewareWithIdempotency (rq : Request) (next : ReqUser → OrgSessionCache → M Response)
    : M Response :=
  orgMiddleware rq (λ user c,
    idempotencyMiddleware rq (Some user) (Some (oc_orgId c)) (next user c)).
End chain.
End OrgContext.

(** ** Rows as JSON ([res.json]); dates in milliseconds *)

Definition jdate (o : option Z) : json := match o with Some t => JNum t | None => JNull end.

Definition member_status_str (s : member_status) : string :=
  match s with MActive => "active" | MSuspended => "suspended" | MRemoved => "removed" end.
Definition invitation_status_str (s : invitation_status) : string :=
  match s with
  | InvPending => "pending" | InvAccepted => "accepted" | InvExpired => "expired" | InvRevoked => "revoked"
  end.

Definition org_json (o : OrgRow) : json :=
  JObj [("id", JStr (o_id o)); ("name", JStr (o_name o)); ("slug", JStr (o_slug o));
    ("status", JStr (org_status_str (o_status o))); ("plan_tier", JStr (plan_tier_str (o_plan_tier o)));
    ("plan_started_at", JNum (o_plan_started_at o)); ("plan_expires_at", jdate (o_plan_expires_at o));
    ("grace_period_ends_at", jdate (o_grace_period_ends_at o));
    ("offboarding_started_at", jdate (o_offboarding_started_at o)); ("deleted_at", jdate (o_deleted_at o));
    ("max_members", JNum (o_max_members o)); ("storage_quota_bytes", JNum (o_storage_quota_bytes o));
    ("storage_used_bytes", JNum (o_storage_used_bytes o)); ("saml_enabled", JBool (o_saml_enabled o));
    ("saml_metadata_url", jopt (o_saml_metadata_url o)); ("mfa_required", JBool (o_mfa_required o));
    ("account_lockout_attempts", JNum (o_account_lockout_attempts o));
    ("retention_audit_days", JNum (o_retention_audit_days o));
    ("retention_chat_days", jdate (o_retention_chat_days o)); ("timezone", JStr (o_timezone o));
    ("locale", JStr (o_locale o)); ("created_at", JNum (o_created_at o));
    ("updated_at", JNum (o_updated_at o)); ("version", JNum (o_version o))].

Definition membership_json (m : MembershipRow) : json :=
  JObj [("id", JStr (om_id m)); ("org_id", JStr (om_org_id m)); ("user_id", JStr (om_user_id m));
    ("role", JStr (role_str (om_role m))); ("status", JStr (member_status_str (om_status m)));
    ("invited_by", jopt (om_invited_by m)); ("joined_at", jdate (om_joined_at m));
    ("removed_at", jdate (om_removed_at m)); ("deleted_at", jdate (om_deleted_at m));
    ("created_at", JNum (om_created_at m)); ("updated_at", JNum (om_updated_at m))].

Definition invitation_json (i : InvitationRow) : json :=
  JObj [("id", JStr (inv_id i)); ("org_id", JStr (inv_org_id i)); ("invited_by", JStr (inv_invited_by i));
    ("email", JStr (inv_email i)); ("role", JStr (role_str (inv_role i)));
    ("token_hash", JStr (inv_token_hash i)); ("status", JStr (invitation_status_str (inv_status i)));
    ("expires_at", JNum (inv_expires_at i)); ("accepted_at", jdate (inv_accepted_at i));
    ("revoked_at", jdate (inv_revoked_at i)); ("created_at", JNum (inv_created_at i))].

Definition message_json (s : string) : json := JObj [("message", JStr s)].

(** ** The routes of [organization.router.ts]

    The parameters of the path and the body are arguments. *)
Module OrganizationRouter.
Section schemas.
Context `{Zod}.

Definition slug : list check := [CMin 2; CMax 100; CRegex "^[a-z0-9-]+$"].
Definition createOrgSchema : ZodType := z_object
  [("name", z_string [CMin 1; CMax 255]); ("slug", z_string slug); ("timezone", z_optional (z_string []));
   ("locale", z_optional (z_string []))]%string.
Definition as_CreateOrgInput (body : json) : option CreateOrgInput :=
  name ← required "name" as_string body;
  slug ← required "slug" as_string body;
  timezone ← optional "timezone" as_string body;
  locale ← optional "locale" as_string body;
  Some (mkCreateOrgInput name slug timezone locale).

Definition updateOrgSchema : ZodType := z_object
  [("name", z_optional (z_string [CMin 1; CMax 255])); ("slug", z_optional (z_string slug));
   ("timezone", z_optional (z_string [])); ("locale", z_optional (z_string [])); ("mfa_required", z_optional z_boolean);
   ("account_lockout_attempts", z_optional (z_number [CInt; CMin 3; CMax 20])); ("version", z_number [CInt; CPositive])]%string.
(** The settings the schema does not name are dropped. *)
Definition as_UpdateOrgData (body : json) : option (UpdateOrgData * Z) :=
  name ← optional "name" as_string body;
  slug ← optional "slug" as_string body;
  timezone ← optional "timezone" as_string body;
  locale ← optional "locale" as_string body;
  mfa_required ← optional "mfa_required" as_boolean body;
  attempts ← optional "account_lockout_attempts" as_number body;
  version ← required "version" as_number body;
  Some (mkUpdateOrgData name slug timezone locale mfa_required attempts None None None None, version).

Definition suspendSchema : ZodType := z_object [("reason", z_string [CMin 1; CMax 500])]%string.
Definition as_reason (body : json) : option string := reason ← required "reason" as_string body; Some reason.

Definition assignable : list member_role := [OrgAdmin; Member; Guest].
Definition assignableEnum : ZodType := z_enum ["org_admin"; "member"; "guest"]%string.
Definition roleSchema : ZodType := z_object [("role", assignableEnum)]%string.
Definition as_role (body : json) : option member_role :=
  role ← required "role" (as_enum (literal role_str assignable)) body; Some role.

Definition inviteSchema : ZodType := z_object [("email", z_string [CEmail]); ("role", assignableEnum)]%string.
Definition as_invitation (body : json) : option (string * member_role) :=
  email ← required "email" as_string body;
  role ← required "role" (as_enum (literal role_str assignable)) body;
  Some (email, role).
End schemas.

Section router.
Context `{Redis, Random, Config, Crypto, Zod}.
Context (keyStore : gmap string string).
Implicit Types (rq : Request) (body : option json).

(** [role !== 'org_owner' && role !== 'org_admin'] fails the route. *)
Definition owner_or_admin {A} (message : string) (c : OrgSessionCache) (next : M A) : M A :=
  let role := oc_memberRole c in
  if negb (role =? "org_owner")%string && negb (role =? "org_admin")%string
  then throw (ForbiddenError "INSUFFICIENT_ROLE" message)
  else next.

(** [!req.user.isPlatformAdmin && memberRole !== 'org_owner'] fails it. *)
Definition owner_or_platform {A} (message : string) (user : ReqUser) (c : OrgSessionCache) (next : M A)
    : M A :=
  if negb (ru_isPlatformAdmin user) && negb (oc_memberRole c =? "org_owner")%string
  then throw (ForbiddenError "INSUFFICIENT_ROLE" message)
  else next.

Definition create_route rq body : M Response :=
  handled rq (
    let* user := JwtMiddleware.authenticate keyStore (rq_authorization rq) in
    idempotencyMiddleware rq (Some user) None (validated createOrgSchema as_CreateOrgInput body (λ data,
      let* org := OrganizationService.createOrg (ru_userId user) data in
      respond rq 201 (org_json org)))).

Definition get_route rq : M Response :=
  handled rq (OrgContext.orgMiddleware keyStore rq (λ _ c,
    let* org := OrganizationService.getOrg (oc_orgId c) in
    respond rq 200 (org_json org))).

Definition update_route rq body : M Response :=
  handled rq (OrgContext.orgMiddlewareWithIdempotency keyStore rq (λ _ c,
    validated updateOrgSchema as_UpdateOrgData body (λ input,
    owner_or_admin "Only org owners and admins can update organization settings" c (
      let* org := OrganizationService.updateOrg (oc_orgId c) input.1 input.2 in
      respond rq 200 (org_json org))))).

Definition suspend_route rq body : M Response :=
  handled rq (OrgContext.orgMiddleware keyStore rq (λ user c,
    validated suspendSchema as_reason body (λ reason,
    owner_or_platform "Only platform admins or org owners can suspend an organization" user c (
      OrganizationService.suspendOrg (oc_orgId c) reason (Some (ru_userId user)) ;;;
      respond rq 200 (message_json "Organization suspended"))))).

Definition reactivate_route rq : M Response :=
  handled rq (OrgContext.orgMiddleware keyStore rq (λ user c,
    owner_or_platform "Only platform admins or org owners can reactivate an organization" user c (
      OrganizationService.reactivateOrg (oc_orgId c) (Some (ru_userId user)) ;;;
      respond rq 200 (message_json "Organization reactivated")))).

Definition members_route rq : M Response :=
  handled rq (OrgContext.orgMiddleware keyStore rq (λ _ c,
    let* members := MembershipRepository.findMembersByOrg (oc_orgId c) in
    respond rq 200 (JArr (List.map membership_json members)))).

Definition update_role_route rq (userId : string) body : M Response :=
  handled rq (OrgContext.orgMiddlewareWithIdempotency keyStore rq (λ _ c,
    validated roleSchema as_role body (λ role,
    owner_or_admin "Only org owners and admins can change member roles" c (
      let* updated := MembershipRepository.updateRole (oc_orgId c) userId role in
      match updated with
      | None => throw (NotFoundError "Membership")
      | Some m => respond rq 200 (membership_json m)
      end)))).

Definition remove_member_route rq (userId : string) : M Response :=
  handled rq (OrgContext.orgMiddleware keyStore rq (λ _ c,
    owner_or_admin "Only org owners and admins can remove members" c (
      MembershipRepository.removeMembership (oc_orgId c) userId ;;;
      respond rq 200 (message_json "Member removed")))).

Definition invite_route rq body : M Response :=
  handled rq (OrgContext.orgMiddlewareWithIdempotency keyStore rq (λ user c,
    validated inviteSchema as_invitation body (λ input,
    owner_or_admin "Only org owners and admins can invite members" c (
      let* invitation := InvitationService.invite (oc_orgId c) (ru_userId user) input.1 input.2 in
      respond rq 201 (invitation_json invitation))))).

Definition revoke_invitation_route rq (invitationId : string) : M Response :=
  handled rq (OrgContext.orgMiddleware keyStore rq (λ user c,
    owner_or_admin "Only org owners and admins can revoke invitations" c (
      InvitationService.revokeInvitation (oc_orgId c) invitationId (ru_userId user) ;;;
      respond rq 200 (message_json "Invitation revoked")))).

(** [GET /orgs/mine]: the active organizations of the caller, in the order
    they were created. *)
Definition mine_route rq : M Response :=
  handled rq (
    let* user := JwtMiddleware.authenticate keyStore (rq_authorization rq) in
    let* ms := select (λ m, (om_user_id m =? ru_userId user)%string &&
      bool_decide (om_status m = MActive) && is_null (om_deleted_at m)) in
    let* os := select (λ o, is_null (o_deleted_at o) && bool_decide (o_status o = OrgActive) &&
      existsb (λ m, (om_org_id m =? o_id o)%string) ms) in
    respond rq 200 (JArr (List.map (λ o, JObj [("id", JStr (o_id o)); ("name", JStr (o_name o));
      ("slug", JStr (o_slug o)); ("status", JStr (org_status_str (o_status o)));
      ("plan_tier", JStr (plan_tier_str (o_plan_tier o)))]) os))).
End router.
End OrganizationRouter.

(** ** Platform administration *)

(** What [ipaddr.js] is asked: to parse an address, and to match it with a
    range of a given prefix length; both throw on what they do not know. *)
Class IpAddr := {
  ip_addr : Type;
  ip_parse : string → option ip_addr;
  ip_match : ip_addr → ip_addr → option Z → option bool;
}.

(** The text Postgres reads as a [UUID]: 32 hexadecimal digits, a hyphen
    allowed after every fourth. *)
Definition is_hex (c : ascii) : bool :=
  let n := nat_of_ascii c in
  (Nat.leb 48 n && Nat.leb n 57) || (Nat.leb 65 n && Nat.leb n 70) || (Nat.leb 97 n && Nat.leb n 102).
Fixpoint uuid_digits (n : nat) (hyphen : bool) (s : string) : bool :=
  match s with
  | EmptyString => Nat.eqb n 32 && negb hyphen
  | String c s =>
      if is_hex c then uuid_digits (S n) false s
      else if Ascii.eqb c "-" then
        negb hyphen && negb (Nat.eqb n 0) && Nat.eqb (n mod 4) 0 && uuid_digits n true s
      else false
  end.
Definition uuid_text (s : string) : bool := uuid_digits 0 false s.

(** [parseInt(s)]: the leading digits, [None] for NaN. *)
Fixpoint parse_digits (acc : option Z) (s : string) : option Z :=
  match s with
  | String c s' =>
      let n := nat_of_ascii c in
      if (Nat.leb 48 n && Nat.leb n 57)%bool
      then parse_digits (Some ((acc ?? 0) * 10 + Z.of_nat (n - 48))%Z) s'
      else acc
  | EmptyString => acc
  end.
Definition parseInt (s : string) : option Z := parse_digits None s.

Module PlatformAdmin.
Section admin.
Context `{Redis, Random, Config, Crypto, IpAddr}.

(** [ipInCidr]; what is thrown is false. *)
Definition ipInCidr (client cidr : string) : bool :=
  match split_on "/"%char cidr with
  | range :: prefix :: _ =>
      match ip_parse client, ip_parse range with
      | Some parsed, Some parsedRange => ip_match parsed parsedRange (parseInt prefix) ?? false
      | _, _ => false
      end
  | _ => false
  end.

Definition has_slash (s : string) : bool :=
  existsb (Ascii.eqb "/"%char) (String.list_ascii_of_string s).

Definition ip_allowed (allowlist : string) (ip : option string) : bool :=
  existsb (λ cidr, if has_slash cidr then ipInCidr (ip ?? "") cidr else (ip ?? "" =? cidr)%string)
    (List.map trim (split_on ","%char allowlist)).

(** [platformAdminMiddleware]: the error it passes on, if any, at time [t];
    [allowlist] is [config.platformAdminIpAllowlist]. *)
Definition platformAdminMiddleware (allowlist : option string) (rq : Request) (user : ReqUser) (t : Z)
    : option error :=
  if negb (ru_isPlatformAdmin user) then
    Some (ForbiddenError "PLATFORM_ADMIN_REQUIRED" "Platform admin access required")
  else if otruthy allowlist && negb (ip_allowed (allowlist ?? "") (rq_ip rq)) then
    Some (ForbiddenError "IP_NOT_ALLOWED" "Your IP address is not allowed to access this endpoint")
  else
    let mfaVerifiedAt := ru_mfaVerifiedAt user ?? 0%Z in
    if (mfaVerifiedAt =? 0)%Z then
      Some (ForbiddenError "MFA_REQUIRED" "MFA verification required for platform admin access")
    else if (3600 <? t / 1000 - mfaVerifiedAt)%Z then
      Some (ForbiddenError "MFA_SESSION_EXPIRED" "MFA session expired — re-authenticate with MFA")
    else None.

Definition adminMiddleware {A} (keyStore : gmap string string) (allowlist : option string) (rq : Request)
    (next : ReqUser → M A) : M A :=
  let* user := JwtMiddleware.authenticate keyStore (rq_authorization rq) in
  let* t := now in
  match platformAdminMiddleware allowlist rq user t with
  | Some e => throw e
  | None => next user
  end.
End admin.
End PlatformAdmin.

Module AdminService.
Section service.
Context `{Redis, Random, Config, Crypto}.

(** The entry every operation starts with.  [audit_logs.entity_id] is a
    UUID: text that is not one is an error of the INSERT. *)
Definition audit (orgId : option string) (actorId eventType entityType entityId : string) (payload : json)
    : M unit :=
  persistAuditLog orgId (Some actorId) ActPlatformAdmin eventType (Some entityType) (Some entityId) payload.

Definition invalid_uuid : error := PgError "22P02".
Definition audit_text (actorId eventType entityType entityId : string) (payload : json) : M unit :=
  if uuid_text entityId || negb (truthy entityId)
  then audit None actorId eventType entityType entityId payload
  else throw invalid_uuid.

(** ORDER BY created_at DESC LIMIT OFFSET. *)
Definition listOrganizations (limit offset : nat) : M (list OrgRow) :=
  let* os := select (λ o, is_null (o_deleted_at o)) in
  ret (take limit (drop offset (rev os))).

Definition suspendOrg (orgId reason actorId : string) : M unit :=
  audit (Some orgId) actorId "admin.org.suspended" "org" orgId (JObj [("reason", JStr reason)]) ;;;
  OrganizationService.suspendOrg orgId reason (Some actorId).

Definition reactivateOrg (orgId actorId : string) : M unit :=
  audit (Some orgId) actorId "admin.org.reactivated" "org" orgId (JObj []) ;;;
  OrganizationService.reactivateOrg orgId (Some actorId).

Definition offboardOrg (orgId actorId : string) : M unit :=
  audit (Some orgId) actorId "admin.org.offboard_initiated" "org" orgId (JObj []) ;;;
  OrganizationService.startOffboarding orgId (Some actorId).

Definition unlockUser (userId actorId : string) : M unit :=
  audit None actorId "admin.user.unlocked" "user" userId (JObj []) ;;;
  let* _ := update_touch (λ u, (u_id u =? userId)%string)
    (λ u, u <| u_locked_until := None |> <| u_failed_login_attempts := 0%Z |>) in
  ret tt.

Definition resetUserMfa (userId actorId : string) : M unit :=
  audit None actorId "admin.user.mfa_reset" "user" userId (JObj []) ;;;
  let* _ := update_touch (λ u, (u_id u =? userId)%string)
    (λ u, u <| u_totp_enabled := false |> <| u_mfa_backup_codes := [] |> <| u_totp_secret := None |>) in
  ret tt.

Definition triggerPaymentRecovery (orgId actorId : string) : M unit :=
  audit (Some orgId) actorId "admin.payment.recovery_triggered" "org" orgId (JObj []) ;;;
  enqueue "payments" "handle-payment-failure" (JObj [("orgId", JStr orgId)]).

Definition replayOutboxEvent (eventId actorId : string) : M unit :=
  audit None actorId "admin.outbox.event_replayed" "outbox_event" eventId (JObj []) ;;;
  let* _ := update_where (λ e, (ob_id e =? eventId)%string)
    (λ e, e <| ob_status := ObPending |> <| ob_published_at := None |>) in
  ret tt.

(** The queues of [shared/queue/queues.ts]. *)
Definition queue_names : list string :=
  ["notifications"; "emails"; "webhooks"; "search"; "audit"; "cleanup"; "exports"; "payments";
   "recurring-tasks"; "virus-scan"; "erase-user"; "offboarding"; "gdpr-export"; "gdpr-org-export"]%string.

(** [getFailed] and [retry] are BullMQ's: the failed jobs of a queue, and one
    of them queued again. *)
Definition requeueDlqJobs (getFailed : string → M (list Job)) (retry : Job → M unit)
    (queueName actorId : string) : M nat :=
  audit_text actorId "admin.dlq.requeued" "queue" queueName (JObj [("queueName", JStr queueName)]) ;;;
  if negb (includes queue_names queueName) then throw (PlainError ("Unknown queue: " +:+ queueName))
  else
    let* failed := getFailed queueName in
    for_each failed retry ;;;
    ret (length failed).

Definition triggerSearchReindex (orgId actorId : string) : M unit :=
  audit (Some orgId) actorId "admin.search.reindex_triggered" "org" orgId (JObj []) ;;;
  enqueue "search" "index-entity"
    (JObj [("action", JStr "reindex"); ("orgId", JStr orgId); ("entityType", JStr "org")]).

(** The key store after the call. *)
Definition rotateJwtKeys (newPublicKey newKid actorId : string) (keyStore : gmap string string)
    : M (gmap string string) :=
  audit_text actorId "admin.jwt.key_rotated" "system" newKid (JObj [("kid", JStr newKid)]) ;;;
  ret (JwtMiddleware.registerPublicKey newKid newPublicKey keyStore).
End service.
End AdminService.

(** ** How fresh the tenant context is *)

(** The context the database gives. *)
Definition db_context (d : DB) (userId orgId : string) : option (member_role * org_status) :=
  match List.find (OrgContext.active_in orgId userId) (org_memberships d),
        List.find (λ o, (o_id o =? orgId)%string) (organizations d) with
  | Some m, Some o => Some (om_role m, o_status o)
  | _, _ => None
  end.

(** What the middleware should answer in a state of the database. *)
Definition answers (d : DB) (userId orgId : string) (r : result OrgSessionCache) : Prop :=
  match db_context d userId orgId with
  | Some (role, status) =>
      if bool_decide (status = OrgDeleted) then ∃ e, r = Throw e
      else r = Ok (mkOrgSessionCache orgId (org_status_str status) (role_str role))
  | None => ∃ e, r = Throw e
  end.

(** Between two accesses: accesses by anyone, time, and operations that write
    neither of the two tables nor the cached contexts. *)
Inductive activity `{Redis} :=
  | Resolve (userId orgId : string)
  | Other (m : M unit)
  | Elapse (ms : Z).

Section fresh.
Context `{Redis, !RedisLaws _, Random, Crypto}.
Implicit Types (u o : string) (w : World).

(** [m] runs at one time and does not write the cached contexts. *)
Definition cacheless (m : M unit) : Prop :=
  (∀ n t up, preserves (ambient n t up) m) ∧
  ∀ u o t v, preserves (λ w, redis_get (redis w) t (OrgContext.cache_key u o) = v) m.

(** Nor does it write memberships or organizations. *)
Definition quiet (m : M unit) : Prop :=
  cacheless m ∧ untouched MembershipRow m ∧ untouched OrgRow m.

Definition act (a : activity) : M unit :=
  match a with
  | Resolve u o => let* _ := catch (let* c := OrgContext.resolveOrgContext u o in ret (Some c))
                     (λ _, ret None) in ret tt
  | Other m => m
  | Elapse ms => λ w, (Ok tt, w <| clock := (clock w + ms)%Z |>)
  end.

Definition run_activity (l : list activity) (w : World) : World := foldl (λ w a, (act a w).2) w l.

(** A user id holds no colon: it is a UUID. *)
Definition colonless (s : string) : Prop := ":"%char ∉ String.list_ascii_of_string s.

Definition fair (others : M unit → Prop) (a : activity) : Prop :=
  match a with
  | Resolve u _ => colonless u
  | Other m => others m
  | Elapse ms => (0 ≤ ms)%Z
  end.

Lemma split_on_nonempty c s : split_on c s ≠ [].
Proof.
  destruct s as [|a s]; cbn; [done|]. destruct (Ascii.eqb a c); [done|]. by destruct (split_on c s).
Qed.

Lemma split_on_inj c s t : split_on c s = split_on c t → s = t.
Proof.
  revert t. induction s as [|a s IH]; intros [|b t]; cbn; [done| | |].
  - destruct (Ascii.eqb b c).
    + intros [= E]. symmetry in E. exfalso; exact (split_on_nonempty c t E).
    + by destruct (split_on c t).
  - destruct (Ascii.eqb a c).
    + intros [= E]. exfalso; exact (split_on_nonempty c s E).
    + by destruct (split_on c s).
  - destruct (Ascii.eqb_spec a c) as [->|Ha], (Ascii.eqb_spec b c) as [->|Hb].
    + intros [= E]. by rewrite (IH t E).
    + by destruct (split_on c t).
    + by destruct (split_on c s).
    + destruct (split_on c s) as [|p ps] eqn:Es; [exfalso; exact (split_on_nonempty c s Es)|].
      destruct (split_on c t) as [|q qs] eqn:Et; [exfalso; exact (split_on_nonempty c t Et)|].
      intros [= -> -> ->]. by rewrite (IH t).
Qed.

Lemma cache_key_inj u u' o o' :
  colonless u → colonless u' → OrgContext.cache_key u o = OrgContext.cache_key u' o' → u = u' ∧ o = o'.
Proof.
  intros Hu Hu' E. unfold OrgContext.cache_key in E.
  apply (f_equal (split_on ":"%char)) in E.
  assert (Hs : ∀ u o, colonless u → split_on ":"%char ("session:" +:+ u +:+ ":" +:+ o) =
    "session"%string :: u :: split_on ":"%char o).
  { intros v p Hv. change ("session:" +:+ v +:+ ":" +:+ p) with ("session" +:+ String ":" (v +:+ String ":" p)).
    rewrite (split_app ":" "session") by (cbn; set_solver). by rewrite split_app. }
  rewrite !Hs in E by done. injection E as <- E. split; [done|].
  by apply split_on_inj in E.
Qed.

(** From time [T] on, the cached context is absent or is the one of [d]. *)
Definition cache_agrees (T : Z) (d : DB) u o w : Prop :=
  ∀ t, (T ≤ t)%Z → (clock w ≤ t)%Z →
    match redis_get (redis w) t (OrgContext.cache_key u o) with
    | None => True
    | Some v => ∃ c, OrgContext.parse_context v = Some c ∧ answers d u o (Ok c)
    end.

Lemma answers_ok d u o c : answers d u o (Ok c) → ∀ r, answers d u o r → r = Ok c.
Proof.
  unfold answers. destruct (db_context d u o) as [[role status]|]; [|by intros [e [=]]].
  destruct (bool_decide _); [by intros [e [=]]|]. congruence.
Qed.

Lemma load_cases u o w :
  let '(r, w') := OrgContext.loadOrgContext u o w in
  answers (db w) u o r ∧
  (w' = w ∨ ∃ c, r = Ok c ∧ w' = w <| redis := redis_set (redis w) (clock w) (OrgContext.cache_key u o)
     (RJson (OrgContext.context_json c)) (Some 30%Z) |>).
Proof.
  unfold OrgContext.loadOrgContext, OrgContext.lookup_context, select_one, bind, catch, rset, answers,
    db_context. tables. cbn -[bool_decide].
  destruct (List.find (OrgContext.active_in o u) _) as [m|].
  - destruct (List.find _ (organizations _)) as [og|] eqn:Eo; cbn -[bool_decide].
    + destruct (bool_decide (o_status og = OrgDeleted)); cbn; [split; [by eexists|by left]|].
      destruct (redis_up w); cbn; (split; [done|]); [right; by eexists|by left].
    + rewrite Eo. cbn. split; [by eexists|by left].
  - destruct (List.find _ (organizations _)) as [og|]; cbn -[bool_decide]; [|split; [by eexists|by left]].
    destruct (bool_decide (o_status og = OrgDeleted)); cbn; (split; [by eexists|by left]).
Qed.

(** An access: from the cache, or from the database and then cached. *)
Lemma resolve_cases u o w :
  let '(r, w') := OrgContext.resolveOrgContext u o w in
  (∃ v c, redis_get (redis w) (clock w) (OrgContext.cache_key u o) = Some v ∧
     OrgContext.parse_context v = Some c ∧ r = Ok c ∧ w' = w) ∨
  (answers (db w) u o r ∧
   (w' = w ∨ ∃ c, r = Ok c ∧ w' = w <| redis := redis_set (redis w) (clock w) (OrgContext.cache_key u o)
      (RJson (OrgContext.context_json c)) (Some 30%Z) |>)).
Proof.
  pose proof (load_cases u o w) as Hload.
  unfold OrgContext.resolveOrgContext, bind at 1, catch at 1, bind at 1, rget.
  destruct (redis_up w); cbn [throw ret]; [|by destruct (OrgContext.loadOrgContext u o w); right].
  destruct (redis_get _ _ _) as [v|] eqn:Eg; cbn [mbind option_bind];
    [|by destruct (OrgContext.loadOrgContext u o w); right].
  destruct (OrgContext.parse_context v) as [c|] eqn:Ep; [left; by eauto 10|].
  by destruct (OrgContext.loadOrgContext u o w); right.
Qed.

(** Accesses keep the database and the time. *)
Lemma resolve_quiet u o w :
  db (OrgContext.resolveOrgContext u o w).2 = db w ∧
  clock (OrgContext.resolveOrgContext u o w).2 = clock w ∧
  jobs (OrgContext.resolveOrgContext u o w).2 = jobs w.
Proof.
  pose proof (resolve_cases u o w) as Hc. destruct (OrgContext.resolveOrgContext u o w) as [r w'].
  destruct Hc as [(v & c & _ & _ & _ & ->)|[_ [->|(c & _ & ->)]]]; by split_all.
Qed.

Lemma parse_context_json c : OrgContext.parse_context (RJson (OrgContext.context_json c)) = Some c.
Proof. by destruct c. Qed.

(** The two tables the context is read from. *)
Definition same_tables (d : DB) w : Prop :=
  org_memberships (db w) = org_memberships d ∧ organizations (db w) = organizations d.

Lemma answers_same d u o r w : same_tables d w → answers (db w) u o r → answers d u o r.
Proof. intros [E1 E2]. unfold answers, db_context. by rewrite E1, E2. Qed.

Lemma resolve_agrees T d u o u' o' w :
  same_tables d w → colonless u → colonless u' → cache_agrees T d u o w →
  cache_agrees T d u o (OrgContext.resolveOrgContext u' o' w).2.
Proof.
  intros Hd Hu Hu' Hag. pose proof (resolve_cases u' o' w) as Hc.
  destruct (OrgContext.resolveOrgContext u' o' w) as [r w'].
  destruct Hc as [(v & c & _ & _ & _ & ->)|[Ha [->|(c & -> & ->)]]]; [done|done|].
  intros t HT Ht. cbn in Ht |- *. destruct (decide (OrgContext.cache_key u' o' = OrgContext.cache_key u o)) as [E|E].
  - destruct (cache_key_inj u' u o' o Hu' Hu E) as [-> ->].
    destruct (decide (clock w + 30 * 1000 ≤ t)%Z).
    + by rewrite redis_get_set_expired by lia.
    + rewrite redis_get_set_live by lia. exists c. rewrite parse_context_json. split; [done|]. by eapply answers_same.
  - rewrite redis_get_set_ne by done. by apply Hag.
Qed.

Lemma act_resolve u o w :
  (act (Resolve u o) w).2 = (OrgContext.resolveOrgContext u o w).2.
Proof. cbn. unfold bind, catch, ret. by destruct (OrgContext.resolveOrgContext u o w) as [[c|e] w']. Qed.

Lemma act_clock P a w : (∀ m, P m → cacheless m) → fair P a → (clock w ≤ clock (act a w).2)%Z.
Proof.
  intros HP. destruct a as [u o|m|ms]; cbn [fair]; intros Ha.
  - rewrite act_resolve. destruct (resolve_quiet u o w) as (_ & -> & _). lia.
  - destruct (proj1 (HP m Ha) 0 (clock w) (redis_up w) w) as (_ & E & _); [by split_all; lia|].
    cbn [act]. rewrite E. lia.
  - cbn. lia.
Qed.

Lemma run_clock P l w :
  (∀ m, P m → cacheless m) → Forall (fair P) l → (clock w ≤ clock (run_activity l w))%Z.
Proof.
  intros HP. revert w. induction l as [|a l IH]; intros w Hl; [done|].
  apply Forall_cons in Hl as [Ha Hl]. change (run_activity (a :: l) w) with (run_activity l (act a w).2).
  etrans; [by apply (act_clock P)|by apply IH].
Qed.

(** No cached context outlives thirty seconds. *)
Definition short_lived u o w : Prop :=
  ∀ t, (clock w + 30 * 1000 ≤ t)%Z → redis_get (redis w) t (OrgContext.cache_key u o) = None.

Lemma act_short_lived u o a w :
  fair cacheless a → short_lived u o w → short_lived u o (act a w).2.
Proof.
  destruct a as [u' o'|m|ms]; cbn [fair]; intros Ha Hs t Ht.
  - rewrite act_resolve in *. destruct (resolve_quiet u' o' w) as (_ & E & _). rewrite E in Ht. clear E.
    pose proof (resolve_cases u' o' w) as Hc. destruct (OrgContext.resolveOrgContext u' o' w) as [r w'].
    destruct Hc as [(v & c & _ & _ & _ & ->)|[_ [->|(c & _ & ->)]]]; [by apply Hs|by apply Hs|].
    cbn. destruct (decide (OrgContext.cache_key u' o' = OrgContext.cache_key u o)) as [<-|E].
    + by apply redis_get_set_expired.
    + rewrite redis_get_set_ne by done. by apply Hs.
  - destruct Ha as [Hamb Hc]. destruct (Hamb 0 (clock w) (redis_up w) w) as (_ & E & _); [by split_all; lia|].
    cbn [act] in *. rewrite E in Ht. apply (Hc u o t None w). by apply Hs.
  - cbn in *. apply Hs. lia.
Qed.

Lemma run_short_lived u o l w :
  Forall (fair cacheless) l → short_lived u o w → short_lived u o (run_activity l w).
Proof.
  revert w. induction l as [|a l IH]; intros w Hl Hs; [done|].
  apply Forall_cons in Hl as [Ha Hl]. apply IH; [done|]. by apply act_short_lived.
Qed.

Lemma act_agrees T d u o a w :
  colonless u → fair quiet a → same_tables d w → cache_agrees T d u o w →
  same_tables d (act a w).2 ∧ cache_agrees T d u o (act a w).2.
Proof.
  intros Hu. destruct a as [u' o'|m|ms]; cbn [fair]; intros Ha Hd Hag.
  - rewrite act_resolve. destruct (resolve_quiet u' o' w) as (E & _ & _). split.
    + unfold same_tables. by rewrite E.
    + by apply resolve_agrees.
  - destruct Ha as ((Hamb & Hc) & [Hm _] & [Ho _]). destruct Hd as [E1 E2]. split.
    + split; [apply (Hm (λ l, l = org_memberships d) w E1)|apply (Ho (λ l, l = organizations d) w E2)].
    + intros t HT Ht. cbn [act] in *.
      destruct (Hamb 0 (clock w) (redis_up w) w) as (_ & E & _); [by split_all; lia|].
      rewrite E in Ht. rewrite (Hc u o t _ w eq_refl). by apply Hag.
  - split; [done|]. intros t HT Ht. cbn in *. apply Hag; lia.
Qed.

Lemma run_agrees T d u o l w :
  colonless u → Forall (fair quiet) l → same_tables d w → cache_agrees T d u o w →
  same_tables d (run_activity l w) ∧ cache_agrees T d u o (run_activity l w).
Proof.
  intros Hu. revert w. induction l as [|a l IH]; intros w Hl Hd Hag; [done|].
  apply Forall_cons in Hl as [Ha Hl].
  destruct (act_agrees T d u o a w Hu Ha Hd Hag) as [Hd' Hag']. by apply IH.
Qed.
End fresh.

(** ** What runs before a route changes nothing *)

Section frozen.
Context `{Redis, Random, Config, Crypto}.
Context (d : DB) (js : list Job) (t : Z).

Definition frozen (w : World) : Prop := db w = d ∧ jobs w = js ∧ clock w = t.

Ltac solve_frozen :=
  intros w Hw; unfold select, select_one, now, rget, rset; repeat case_match; try exact Hw;
  destruct Hw as (? & ? & ?); by split_all.

Lemma frozen_select {R} `{Table R} P : preserves frozen (select (R := R) P).
Proof. solve_frozen. Qed.
Lemma frozen_select_one {R} `{Table R} P : preserves frozen (select_one (R := R) P).
Proof. solve_frozen. Qed.
Lemma frozen_now : preserves frozen now.
Proof. solve_frozen. Qed.
Lemma frozen_rget k : preserves frozen (rget k).
Proof. solve_frozen. Qed.
Lemma frozen_rset k v ex : preserves frozen (rset k v ex).
Proof. solve_frozen. Qed.
End frozen.

Lemma frozen_refl `{Redis} w : frozen (db w) (jobs w) (clock w) w.
Proof. done. Qed.

#[export] Hint Resolve frozen_select frozen_select_one frozen_now frozen_rget frozen_rset : inv.

Section guard.
Context `{Redis, Random, Config, Crypto}.
Context (keyStore : gmap string string).

Lemma authenticate_frozen d js t h : preserves (frozen d js t) (JwtMiddleware.authenticate keyStore h).
Proof.
  unfold JwtMiddleware.authenticate, JwtMiddleware.verifyToken, JwtMiddleware.blacklisted,
    JwtMiddleware.resolveUser. preserve.
Qed.

Lemma orgContext_frozen d js t rq user :
  preserves (frozen d js t) (OrgContext.orgContextMiddleware rq user).
Proof.
  unfold OrgContext.orgContextMiddleware, OrgContext.resolveOrgContext, OrgContext.loadOrgContext,
    OrgContext.lookup_context. preserve.
Qed.

(** A request whose user may act on the tenant it names. *)
Definition tenant_of (rq : Request) (user : ReqUser) (orgId : string) : Prop :=
  rq_org_id rq = Some orgId ∧ truthy orgId = true ∧
  (ru_isPlatformAdmin user = true ∨ ru_orgId user = orgId).

(** The statuses in which a request goes through. *)
Definition status_allows (rq : Request) (c : OrgSessionCache) : Prop :=
  oc_orgStatus c ≠ "deleted"%string ∧
  (includes OrgContext.WRITE_METHODS (rq_method rq) = true →
   oc_orgStatus c ≠ "offboarding"%string ∧
   (oc_orgStatus c = "suspended"%string → String.prefix "/api/v1/auth" (rq_path rq) = true)).

Lemma orgStatus_none rq c : OrgContext.orgStatusMiddleware rq c = None → status_allows rq c.
Proof.
  unfold OrgContext.orgStatusMiddleware, OrgContext.isSuspendedBypass, status_allows.
  destruct (String.eqb_spec (oc_orgStatus c) "deleted"); [done|].
  destruct (includes _ _) eqn:Ew; cbn [negb andb]; intros E; (split; [done|]); [intros _|done].
  rewrite andb_true_r in E. destruct (String.eqb_spec (oc_orgStatus c) "offboarding"); [done|].
  split; [done|]. intros Es. rewrite Es in E. cbn in E. rewrite orb_false_r in E.
  by destruct (String.prefix _ _).
Qed.

Lemma orgContext_ok rq user c w w' :
  OrgContext.orgContextMiddleware rq user w = (Ok c, w') →
  ∃ orgId, tenant_of rq user orgId ∧
    OrgContext.resolveOrgContext (ru_userId user) orgId w = (Ok c, w').
Proof.
  unfold OrgContext.orgContextMiddleware, tenant_of. destruct (rq_org_id rq) as [o|]; [|done].
  destruct (truthy o) eqn:Et; cbn [negb]; [|done].
  destruct (ru_isPlatformAdmin user) eqn:Ea; cbn [negb andb].
  - intros E. exists o. by eauto.
  - destruct (String.eqb_spec (ru_orgId user) o); cbn [negb]; [|done]. intros E. exists o. by eauto.
Qed.
End guard.

Section cases.
Context `{Redis, Random, Config, Crypto}.

(** How a tenant route ends: refused, with nothing changed, or run for the
    user of a valid token, on a tenant it may act on, in a status that allows
    the method. *)
Definition guard_outcome {A} keyStore (rq : Request) (next : ReqUser → OrgSessionCache → M A) (w : World)
    (r : result A) (w' : World) : Prop :=
    (∃ e, r = Throw e ∧ db w' = db w ∧ jobs w' = jobs w) ∨
    (∃ user c w0 w1, JwtMiddleware.authenticate keyStore (rq_authorization rq) w = (Ok user, w0) ∧
       (∃ orgId, tenant_of rq user orgId ∧
          OrgContext.resolveOrgContext (ru_userId user) orgId w0 = (Ok c, w1)) ∧
       status_allows rq c ∧ db w1 = db w ∧ jobs w1 = jobs w ∧ clock w1 = clock w ∧
       (r, w') = next user c w1).

Lemma orgMiddleware_cases {A} keyStore rq (next : ReqUser → OrgSessionCache → M A) w :
  wp (OrgContext.orgMiddleware keyStore rq next) (λ r w', guard_outcome keyStore rq next w r w') w.
Proof.
  unfold OrgContext.orgMiddleware, guard_outcome. apply wp_bind. unfold wp at 1.
  pose proof (authenticate_frozen keyStore (db w) (jobs w) (clock w) (rq_authorization rq) w (frozen_refl w))
    as Ha.
  destruct (JwtMiddleware.authenticate _ _ w) as [[user|e] w0]; cbn [fst snd] in *;
    [|left; destruct Ha as (? & ? & _); by eauto].
  apply wp_bind. unfold wp at 1.
  pose proof (orgContext_frozen (db w) (jobs w) (clock w) rq user w0 Ha) as Hc.
  destruct (OrgContext.orgContextMiddleware rq user w0) as [[c|e] w1] eqn:Ec; cbn [fst snd] in *;
    [|left; destruct Hc as (? & ? & _); by eauto].
  destruct Hc as (Hd & Hj & Ht). destruct (OrgContext.orgStatusMiddleware rq c) as [e|] eqn:Es.
  - left. unfold wp. cbn. by eauto.
  - right. exists user, c, w0, w1. split; [done|]. split; [by apply orgContext_ok|].
    split; [by apply orgStatus_none|]. do 3 (split; [done|]).
    unfold wp. by destruct (next user c w1).
Qed.
End cases.

Lemma handled_db `{Redis, Crypto} rq (m : M Response) w : db (handled rq m w).2 = db (m w).2.
Proof. unfold handled, catch. by destruct (m w) as [[r|e] w']. Qed.

Section recovery.
Context `{Redis, !RedisLaws _, Random, Config, Crypto}.
Context (keyStore : gmap string string).

(** No context is cached. *)
Definition uncached (w : World) : Prop :=
  ∀ u o t, redis_get (redis w) t (OrgContext.cache_key u o) = None.

Lemma authenticate_uncached h : preserves uncached (JwtMiddleware.authenticate keyStore h).
Proof.
  assert (Hset : ∀ u v ex, preserves uncached (rset (JwtMiddleware.cache_key u) v ex)).
  { intros u v ex w Hw. unfold rset. repeat case_match; try exact Hw; intros u' o t;
      (etrans; [by apply redis_get_set_ne|apply Hw]). }
  assert (Hget : ∀ k, preserves uncached (rget k)).
  { intros k w Hw. unfold rget. by case_match. }
  assert (Hsel : ∀ P, preserves uncached (select_one (R := UserRow) P)) by (intros P w Hw; exact Hw).
  assert (Hnow : preserves uncached now) by (intros w Hw; exact Hw).
  unfold JwtMiddleware.authenticate, JwtMiddleware.verifyToken, JwtMiddleware.blacklisted,
    JwtMiddleware.resolveUser.
  repeat first [apply Hset | apply Hget | apply Hsel | apply Hnow | progress preserve].
Qed.

(** Without a cached context, access is what the database says: an active
    member, with their role, of an organization that is not deleted. *)
Lemma resolve_member user orgId c w w' :
  uncached w → OrgContext.resolveOrgContext user orgId w = (Ok c, w') →
  ∃ m o, List.find (OrgContext.active_in orgId user) (org_memberships (db w)) = Some m ∧
    List.find (λ o, (o_id o =? orgId)%string) (organizations (db w)) = Some o ∧ o_status o ≠ OrgDeleted ∧
    c = mkOrgSessionCache orgId (org_status_str (o_status o)) (role_str (om_role m)).
Proof.
  intros Hun E. pose proof (resolve_cases user orgId w) as Hc. rewrite E in Hc.
  destruct Hc as [(v & c' & Hg & _)|[Ha _]]; [by rewrite Hun in Hg|].
  unfold answers, db_context in Ha. destruct (List.find _ (org_memberships _)) as [m|] eqn:Em; [|by destruct Ha as [? [=]]].
  destruct (List.find _ (organizations _)) as [o|] eqn:Eo; [|by destruct Ha as [? [=]]].
  case_bool_decide as Hdel; [by destruct Ha as [? [=]]|]. injection Ha as ->. by exists m, o.
Qed.

(** And a write goes through only when the organization is active. *)
Lemma write_needs_active rq user orgId c w w' :
  uncached w → includes OrgContext.WRITE_METHODS (rq_method rq) = true →
  String.prefix "/api/v1/auth" (rq_path rq) = false → status_allows rq c →
  OrgContext.resolveOrgContext user orgId w = (Ok c, w') →
  oc_orgId c = orgId ∧ ∃ m o,
    List.find (OrgContext.active_in orgId user) (org_memberships (db w)) = Some m ∧
    List.find (λ o, (o_id o =? orgId)%string) (organizations (db w)) = Some o ∧
    o_status o = OrgActive ∧ oc_memberRole c = role_str (om_role m).
Proof.
  intros Hun Hm Hp [Hnd Hs] E. destruct (Hs Hm) as [Hno Hns].
  destruct (resolve_member user orgId c w w' Hun E) as (m & o & Em & Eo & Hdel & ->). cbn in *.
  split; [done|]. exists m, o. do 2 (split; [done|]). split; [|done]. destruct (o_status o); try done.
  rewrite Hns in Hp; [done|reflexivity].
Qed.

(** Reactivating an active organization fails and changes nothing. *)
Lemma reactivate_active orgId actor o w :
  NoDup (o_id <$> organizations (db w)) →
  List.find (λ o, (o_id o =? orgId)%string) (organizations (db w)) = Some o → o_status o = OrgActive →
  ∃ e, OrganizationService.reactivateOrg orgId actor w = (Throw e, w).
Proof.
  intros Hnd Ho Hs. unfold OrganizationService.reactivateOrg, OrganizationService.getOrg,
    OrganizationRepository.findById, OrganizationService.found_org, bind, select_one. tables.
  destruct (List.find _ (organizations (db w))) as [o'|] eqn:Ef in |- *; [|by eexists].
  apply find_some_elem in Ef as [Hin HP]. apply find_some_elem in Ho as [Hin' HP']. bool_to_prop.
  assert (o' = o) as -> by (eapply NoDup_fmap_elem; [exact Hnd|..]; congruence).
  cbn. rewrite Hs. cbn. by eexists.
Qed.
End recovery.

(** ** Who may write *)

(** The tenant routes, and the role each asks for. *)
Inductive tenant_route :=
  | RGet
  | RUpdate (body : option json)
  | RSuspend (body : option json)
  | RReactivate
  | RMembers
  | RUpdateRole (userId : string) (body : option json)
  | RRemoveMember (userId : string)
  | RInvite (body : option json)
  | RRevokeInvitation (invitationId : string).

Definition may (route : tenant_route) (user : ReqUser) (role : member_role) : Prop :=
  match route with
  | RGet | RMembers => False
  | RSuspend _ | RReactivate => ru_isPlatformAdmin user = true ∨ role = OrgOwner
  | _ => role = OrgOwner ∨ role = OrgAdmin
  end.

(** The same database, idempotency keys apart. *)
Definition unchanged (d d' : DB) : Prop := set_rows (idempotency_keys d) d' = d.

Lemma unchanged_refl d : unchanged d d.
Proof. by destruct d. Qed.
Lemma unchanged_keys d d' l : unchanged d d' → unchanged d (set_rows (R := IdempotencyRecord) l d').
Proof. by destruct d'. Qed.

Section routes.
Context `{Redis, Random, Config, Crypto, Zod}.
Context (keyStore : gmap string string).

Definition serve_route (rq : Request) (route : tenant_route) : M Response :=
  match route with
  | RGet => OrganizationRouter.get_route keyStore rq
  | RUpdate body => OrganizationRouter.update_route keyStore rq body
  | RSuspend body => OrganizationRouter.suspend_route keyStore rq body
  | RReactivate => OrganizationRouter.reactivate_route keyStore rq
  | RMembers => OrganizationRouter.members_route keyStore rq
  | RUpdateRole u body => OrganizationRouter.update_role_route keyStore rq u body
  | RRemoveMember u => OrganizationRouter.remove_member_route keyStore rq u
  | RInvite body => OrganizationRouter.invite_route keyStore rq body
  | RRevokeInvitation i => OrganizationRouter.revoke_invitation_route keyStore rq i
  end.

(** [m] writes nothing but idempotency keys. *)
Definition harmless {A} (m : M A) : Prop := ∀ d, preserves (λ w, unchanged d (db w)) m.

Lemma harmless_keys rq user org (next : M Response) :
  harmless next → harmless (idempotencyMiddleware rq user org next).
Proof.
  intros Hn d.
  assert (Hpure : ∀ {A} (m : M A), (∀ w, db (m w).2 = db w) → preserves (λ w, unchanged d (db w)) m).
  { intros A m Hm w Hw. by rewrite Hm. }
  assert (Hup : ∀ P f, preserves (λ w, unchanged d (db w)) (update_where (R := IdempotencyRecord) P f)).
  { intros P f w Hw. by apply unchanged_keys. }
  assert (Hin : ∀ c r, preserves (λ w, unchanged d (db w)) (insert_or_ignore (R := IdempotencyRecord) c r)).
  { intros c r w Hw. unfold insert_or_ignore. destruct (existsb _ _); [done|]. by apply unchanged_keys. }
  unfold idempotencyMiddleware, handled, IdempotencyService.checkAndStore, IdempotencyService.saveResponse.
  cbv zeta.
  repeat first [apply Hn | apply Hup | apply Hin | (apply Hpure; done) | progress preserve].
Qed.

(** Writes nothing at all. *)
Lemma harmless_pure {A} (m : M A) : (∀ w, db (m w).2 = db w) → harmless m.
Proof. intros Hm d w Hw. by rewrite Hm. Qed.

Lemma harmless_validated {A B} schema (cast : json → option A) body (next : A → M B) :
  (∀ v, harmless (next v)) → harmless (validated schema cast body next).
Proof.
  intros Hn. unfold validated. destruct (safeParse _ _) as [|data]; [by apply harmless_pure|].
  destruct (data ≫= cast); [done|by apply harmless_pure].
Qed.

Lemma harmless_owner_or_admin {A} msg c role (next : M A) :
  oc_memberRole c = role_str role → ¬ (role = OrgOwner ∨ role = OrgAdmin) →
  harmless (OrganizationRouter.owner_or_admin msg c next).
Proof.
  intros E Hr. unfold OrganizationRouter.owner_or_admin. rewrite E.
  destruct role; cbn; [by destruct Hr; left|by destruct Hr; right|by apply harmless_pure..].
Qed.

Lemma harmless_owner_or_platform {A} msg user c role (next : M A) :
  oc_memberRole c = role_str role → ¬ (ru_isPlatformAdmin user = true ∨ role = OrgOwner) →
  harmless (OrganizationRouter.owner_or_platform msg user c next).
Proof.
  intros E Hr. unfold OrganizationRouter.owner_or_platform. rewrite E.
  destruct (ru_isPlatformAdmin user); [by destruct Hr; left|].
  destruct role; cbn; [by destruct Hr; right|by apply harmless_pure..].
Qed.

(** Every route is the tenant middleware around a function that writes only
    for the role it asks for. *)
Lemma route_shape rq route :
  ∃ next, serve_route rq route = handled rq (OrgContext.orgMiddleware keyStore rq next) ∧
    ∀ user c role, oc_memberRole c = role_str role → may route user role ∨ harmless (next user c).
Proof.
  destruct route; (eexists; split; [reflexivity|]); cbn [may]; intros user c r E; cbv beta.
  1: { right. apply harmless_pure. intros w0.
    unfold OrganizationService.getOrg, OrganizationService.found_org, OrganizationRepository.findById,
      bind, select_one. by destruct (List.find _ _). }
  4: { right. by apply harmless_pure. }
  all: lazymatch goal with |- ?P ∨ _ => destruct (decide P) as [Hr|Hr]; [by left|right] end.
  all: repeat first [apply harmless_keys | apply harmless_validated; intros ?
    | by eapply harmless_owner_or_admin | by eapply harmless_owner_or_platform].
Qed.
End routes.

(** ** Sessions and the platform administrators *)

Section admin_sessions.
Context `{Redis, Random, C : Config, K : Crypto, !CryptoLaws K C}.

(** A token pair as sign-in and rotation issue it. *)
Definition issued (p : TokenPair) : Prop :=
  ∃ w w', (∃ userId orgId role admin,
             JwtService.issueTokenPair userId orgId role admin None w = (Ok p, w')) ∨
          (∃ raw, JwtService.refreshTokenPair raw w = (Ok p, w')).

Definition without_mfa (token : jwt_token) : Prop :=
  ∃ payload t jti, token = jwt_sign jwtPrivateKey Token.KID (Token.claims payload t jti) ∧
    atp_mfaVerifiedAt payload = None.

Lemma generated payload w :
  atp_mfaVerifiedAt payload = None →
  ∃ token w', Token.generateAccessToken payload w = (Ok token, w') ∧ without_mfa token.
Proof. intros Hm. do 2 eexists. split; [reflexivity|]. by do 3 eexists. Qed.

Lemma issued_without_mfa p : issued p → without_mfa (accessToken p).
Proof.
  intros (w & w' & [(userId & orgId & role & admin & E)|(raw & E)]).
  - unfold JwtService.issueTokenPair in E. apply bind_ok in E as (token & w1 & E1 & E).
    edestruct generated as (token' & w1' & E1' & Hm); [|rewrite E1' in E1]; [done|].
    injection E1 as <- <-.
    repeat (apply bind_ok in E as (? & ? & _ & E)). by injection E as <- _.
  - unfold JwtService.refreshTokenPair in E. apply bind_ok in E as (found & w1 & _ & E).
    destruct found as [row|]; [|done]. destruct (rt_is_revoked row).
    { repeat (apply bind_ok in E as (? & ? & _ & E)). done. }
    apply bind_ok in E as (t & w2 & _ & E). destruct (_ <? _)%Z; [done|].
    apply bind_ok in E as (u & w3 & _ & E). destruct u as [u|]; [|done].
    apply bind_ok in E as (r & w4 & _ & E). apply bind_ok in E as (? & w5 & _ & E).
    apply bind_ok in E as (token & w6 & E1 & E).
    edestruct generated as (token' & w6' & E1' & Hm); [|rewrite E1' in E1]; [done|].
    injection E1 as <- <-.
    repeat (apply bind_ok in E as (? & ? & _ & E)). by injection E as <- _.
Qed.

Lemma authenticate_without_mfa keyStore token w user w' :
  keyStore !! Token.KID = None → without_mfa token →
  JwtMiddleware.authenticate keyStore (Bearer token) w = (Ok user, w') → ru_mfaVerifiedAt user = None.
Proof.
  intros Hk (payload & t & jti & -> & Hm) E. unfold JwtMiddleware.authenticate in E.
  apply bind_ok in E as (v & w1 & Ev & E). unfold JwtMiddleware.verifyToken, bind, now in Ev.
  rewrite jwt_kid_sign in Ev. unfold JwtMiddleware.getPublicKey in Ev. cbn in Ev. rewrite Hk in Ev.
  cbn in Ev. injection Ev as <- <-.
  assert (Hexp : ∃ e, expiry (Token.claims payload t jti) = Some e).
  { unfold Token.claims. rewrite Hm. by eexists. }
  destruct Hexp as [e He]. destruct (decide (clock w / 1000 < e)%Z) as [Hlt|Hge].
  - rewrite (jwt_verify_sign _ _ _ e He Hlt) in E.
    apply bind_ok in E as (b & w2 & _ & E). destruct b; [done|].
    apply bind_ok in E as (u & w3 & _ & E). destruct (bool_decide _); [done|].
    match type of E with (if ?b then _ else _) _ = _ => destruct b end; [done|].
    injection E as <- _. cbn [ru_mfaVerifiedAt]. unfold Token.claims. by rewrite Hm.
  - rewrite (jwt_verify_expired _ _ _ e He) in E by lia. done.
Qed.
End admin_sessions.
Module OrgAccessProperties.
Section theorems.
Context `{Redis, Random, Config, Crypto, Zod}.

(** C14: the role and the status a route is given are those of the database,
    thirty seconds late at most: whatever happened before ([l0]), once
    memberships and organizations have not changed for thirty seconds of
    further activity ([l1]), the tenant middleware answers what they say.  A
    removed member, a changed role and a suspension all take effect within
    that time. *)
Theorem context_is_fresh `{!RedisLaws _} u o l0 l1 w :
  colonless u →
  (∀ t, redis_get (redis w) t (OrgContext.cache_key u o) = None) →
  Forall (fair cacheless) l0 → Forall (fair quiet) l1 →
  (clock (run_activity l0 w) + 30 * 1000 ≤ clock (run_activity l1 (run_activity l0 w)))%Z →
  answers (db (run_activity l0 w)) u o
    (OrgContext.resolveOrgContext u o (run_activity l1 (run_activity l0 w))).1.
Proof.
  intros Hu Hempty Hl0 Hl1 Hclock.
  pose proof (run_short_lived u o l0 w Hl0 (λ t _, Hempty t)) as Hs.
  set (w1 := run_activity l0 w) in *. clearbody w1.
  destruct (run_agrees (clock w1 + 30 * 1000) (db w1) u o l1 w1 Hu Hl1) as [Hd Hag]; [done| |].
  { intros t HT _. by rewrite Hs. }
  set (w2 := run_activity l1 w1) in *. clearbody w2.
  pose proof (resolve_cases u o w2) as Hc. destruct (OrgContext.resolveOrgContext u o w2) as [r w'].
  destruct Hc as [(v & c & Hg & Hp & -> & _)|[Ha _]]; cbn.
  - specialize (Hag (clock w2) ltac:(lia) ltac:(lia)). rewrite Hg in Hag.
    destruct Hag as (c' & Hp' & Ha). congruence.
  - by eapply answers_same.
Qed.
(** a tenant is written only by those who may: while no stale context is
    cached, a mutating request on any tenant route either leaves the database
    as it was, its own idempotency key apart, or comes with a valid token, of
    an active member of the organization it names, holding the role the route
    asks for, and the organization is active. *)
Theorem tenant_writes_authorized `{!RedisLaws _} keyStore rq route w :
  includes OrgContext.WRITE_METHODS (rq_method rq) = true →
  String.prefix "/api/v1/auth" (rq_path rq) = false →
  uncached w →
  unchanged (db w) (db (serve_route keyStore rq route w).2) ∨
  ∃ user orgId m o,
    (JwtMiddleware.authenticate keyStore (rq_authorization rq) w).1 = Ok user ∧
    tenant_of rq user orgId ∧
    m ∈ org_memberships (db w) ∧ OrgContext.active_in orgId (ru_userId user) m = true ∧
    o ∈ organizations (db w) ∧ o_id o = orgId ∧ o_status o = OrgActive ∧
    may route user (om_role m).
Proof.
  intros Hm Hp Hun. destruct (route_shape keyStore rq route) as (next & -> & Hnext).
  rewrite handled_db. pose proof (orgMiddleware_cases keyStore rq next w) as Hg. unfold wp in Hg.
  destruct (OrgContext.orgMiddleware keyStore rq next w) as [r w']. cbn [fst snd] in Hg |- *.
  destruct Hg as [(e & -> & Hd & _)|(user & c & w0 & w1 & Eu & (o & Ht & Er) & Hs & Hd & Hj & _ & E)];
    cbn [fst snd] in *; [left; rewrite Hd; apply unchanged_refl|].
  pose proof (authenticate_uncached keyStore (rq_authorization rq) w Hun) as Hun0.
  pose proof (authenticate_frozen keyStore (db w) (jobs w) (clock w) (rq_authorization rq) w (frozen_refl w))
    as (Hd0 & _). rewrite Eu in Hun0, Hd0. cbn [snd] in *.
  destruct (write_needs_active rq _ _ _ _ _ Hun0 Hm Hp Hs Er) as (Eo & m & og & Hfm & Hfo & Hact & Hrole).
  rewrite Hd0 in Hfm, Hfo. apply find_some_elem in Hfm as [Hm1 Hm2], Hfo as [Ho1 Ho2]. bool_to_prop.
  destruct (Hnext user c (om_role m) Hrole) as [Hmay|Hh].
  - right. exists user, o, m, og. rewrite Eu. by do 7 (split; [done|]).
  - left. change w' with (r, w').2. rewrite E. apply Hh. rewrite Hd. apply unchanged_refl.
Qed.

(** the reactivation route never reactivates: a suspended organization
    is stopped by the status guard and an active one by the operation, so
    that without a stale cached context the route leaves the database as it
    was, whoever calls it. *)
Theorem reactivate_route_never_succeeds `{!RedisLaws _} keyStore rq w :
  includes OrgContext.WRITE_METHODS (rq_method rq) = true →
  String.prefix "/api/v1/auth" (rq_path rq) = false →
  uncached w → NoDup (o_id <$> organizations (db w)) →
  db (OrganizationRouter.reactivate_route keyStore rq w).2 = db w.
Proof.
  intros Hm Hp Hun Hnd. unfold OrganizationRouter.reactivate_route, handled, catch.
  match goal with |- context [OrgContext.orgMiddleware _ _ ?n] => set (next := n) end.
  pose proof (orgMiddleware_cases keyStore rq next w) as Hg. unfold wp in Hg.
  destruct (OrgContext.orgMiddleware keyStore rq next w) as [r w']. cbn [fst snd] in Hg |- *.
  destruct Hg as [(e & -> & Hd & _)|(user & c & w0 & w1 & Eu & (o & Ht & Er) & Hs & Hd & Hj & _ & E)]; [done|].
  cbn [fst snd] in *. pose proof (authenticate_uncached keyStore (rq_authorization rq) w Hun) as Hun0.
  pose proof (authenticate_frozen keyStore (db w) (jobs w) (clock w) (rq_authorization rq) w (frozen_refl w))
    as (Hd0 & _). rewrite Eu in Hun0, Hd0. cbn [snd] in *.
  destruct (write_needs_active rq _ _ _ _ _ Hun0 Hm Hp Hs Er) as (Eo & m & og & _ & Hf & Hact & _).
  rewrite Hd0, <- Hd, <- Eo in Hf. rewrite <- Hd in Hnd.
  assert (Hn : ∃ e, next user c w1 = (Throw e, w1)).
  { unfold next, OrganizationRouter.owner_or_platform. destruct (_ && _); [by eexists|].
    destruct (reactivate_active (oc_orgId c) (Some (ru_userId user)) og w1 Hnd Hf Hact) as [e Ee].
    exists e. unfold bind. by rewrite Ee. }
  destruct Hn as [e Hn]. rewrite Hn in E. by injection E as -> ->.
Qed.

(** no session that sign-in or rotation issues reaches an administration
    route, not even a platform administrator's right after MFA: its token
    does not say when MFA was done. *)
Theorem issued_sessions_fail_admin `{!CryptoLaws _ _, IpAddr} {A} keyStore allowlist rq p
    (next : ReqUser → M A) w :
  keyStore !! Token.KID = None → issued p → rq_authorization rq = Bearer (accessToken p) →
  ∃ e, (PlatformAdmin.adminMiddleware keyStore allowlist rq next w).1 = Throw e.
Proof.
  intros Hk Hp Hrq. apply issued_without_mfa in Hp. unfold PlatformAdmin.adminMiddleware. rewrite Hrq.
  unfold bind at 1. destruct (JwtMiddleware.authenticate _ _ w) as [[user|e] w'] eqn:Ea; [|by eexists].
  pose proof (authenticate_without_mfa keyStore _ w user w' Hk Hp Ea) as Hm.
  unfold bind, now, PlatformAdmin.platformAdminMiddleware. rewrite Hm.
  destruct (negb _); [by eexists|]. destruct (_ && _); by eexists.
Qed.
End theorems.
End OrgAccessProperties.

Module OrgAccessExamples.
Import Concrete.

(** An organization with its owner and a guest, and their accounts. *)
Definition founded : World :=
  let w1 := (OrganizationService.createOrg "owner" (mkCreateOrgInput "Org" "org" None None) (empty_world 1000000)).2 in
  let w2 := (MembershipRepository.createMembership (mkCreateMembershipData "uuid-0" "guest" Guest None None) w1).2 in
  let w3 := (AuthRepository.createUser (mkCreateUserData "o@x.io" "O" None (Some true) None) w2).2 in
  w3 <| db := (db w3) <| users := (λ u, u <| u_id := "owner"%string |>) <$> users (db w3) |> |>.

Lemma remove_cacheless : cacheless (MembershipRepository.removeMembership "uuid-0" "guest").
Proof.
  split; [|by intros u o t v w Hw]. intros n t up. unfold MembershipRepository.removeMembership. preserve.
Qed.

(** A removed guest is refused after thirty seconds. *)
Lemma context_is_fresh_witness :
  ∃ e, (OrgContext.resolveOrgContext "guest" "uuid-0" (run_activity [Resolve "guest" "uuid-0"; Elapse 30000]
    (run_activity [Resolve "guest" "uuid-0";
       Other (MembershipRepository.removeMembership "uuid-0" "guest")] founded))).1 = Throw e.
Proof.
  refine (OrgAccessProperties.context_is_fresh "guest" "uuid-0"
    [Resolve "guest" "uuid-0"; Other (MembershipRepository.removeMembership "uuid-0" "guest")]
    [Resolve "guest" "uuid-0"; Elapse 30000] founded _ _ _ _ _).
  - unfold colonless. cbn. set_solver.
  - intros t. vm_compute. reflexivity.
  - apply Forall_cons. split; [unfold fair, colonless; cbn; set_solver|].
    apply Forall_cons. split; [apply remove_cacheless|apply Forall_nil; done].
  - apply Forall_cons. split; [unfold fair, colonless; cbn; set_solver|].
    apply Forall_cons. split; [done|apply Forall_nil; done].
  - vm_compute. discriminate.
Defined.

Definition token (userId : string) : jwt_token :=
  jwt_sign jwtPrivateKey Token.KID
    (Token.claims (mkAccessTokenPayload userId "uuid-0" "org_owner" None None) 1000 "jti").

Definition request (userId method : string) : Request :=
  mkRequest _ method "/orgs/uuid-0/reactivate" (Bearer (token userId)) (Some "uuid-0"%string)
    (Some "key"%string) None "rq" "c" "r".

Lemma nothing_cached (w : World) : World.redis w = redis_empty → uncached w.
Proof. intros E u o t. rewrite E. apply redis_get_empty. Qed.

Lemma founded_uncached : uncached founded.
Proof. apply nothing_cached. vm_compute. reflexivity. Qed.

Lemma writer_exists :
  is_ok (JwtMiddleware.authenticate ∅ (rq_authorization (request "owner" "POST")) founded) = true.
Proof. vm_compute. reflexivity. Qed.

#[local] Existing Instance ConcreteZod.zod.

Definition unpaid : option json := Some (JObj [("reason", JStr "unpaid")])%string.

Lemma suspend_changes :
  length (outbox_events (db (serve_route ∅ (request "owner" "POST") (RSuspend unpaid) founded).2)) = 2.
Proof. vm_compute. reflexivity. Qed.

Lemma founded_outbox : length (outbox_events (db founded)) = 1.
Proof. vm_compute. reflexivity. Qed.

Lemma unchanged_outbox d d' : unchanged d d' → outbox_events d' = outbox_events d.
Proof. intros <-. by destruct d'. Qed.

Lemma tenant_writes_authorized_witness :
  ∃ user, (JwtMiddleware.authenticate ∅ (rq_authorization (request "owner" "POST")) founded).1 = Ok user ∧
    tenant_of (request "owner" "POST") user "uuid-0".
Proof.
  destruct (OrgAccessProperties.tenant_writes_authorized ∅ (request "owner" "POST")
    (RSuspend unpaid) founded eq_refl eq_refl founded_uncached) as [Hu|Hw].
  - exfalso. pose proof suspend_changes as Hlen.
    rewrite (unchanged_outbox _ _ Hu), founded_outbox in Hlen. discriminate.
  - destruct Hw as (user & orgId & m & o & Ha & Ht & _). exists user. split; [exact Ha|].
    destruct Ht as (Hid & Htr & Hu). injection Hid as <-. exact (conj eq_refl (conj Htr Hu)).
Defined.

Definition suspended : World := (OrganizationService.suspendOrg "uuid-0" "unpaid" None founded).2.

Lemma suspended_uncached : uncached suspended.
Proof. apply nothing_cached. vm_compute. reflexivity. Qed.

Lemma suspended_ids : NoDup (o_id <$> organizations (db suspended)).
Proof. vm_compute. apply NoDup_singleton. Qed.

Lemma reactivate_route_never_succeeds_witness :
  db (OrganizationRouter.reactivate_route ∅ (request "owner" "POST") suspended).2 = db suspended.
Proof.
  exact (OrgAccessProperties.reactivate_route_never_succeeds ∅ (request "owner" "POST") suspended
    eq_refl eq_refl suspended_uncached suspended_ids).
Defined.

(** The answer the owner gets. *)
Example reactivate_refused :
  (λ r, rs_status <$> match r with Ok x => Some x | Throw _ => None end)
    (OrganizationRouter.reactivate_route ∅ (request "owner" "POST") suspended).1 = Some 403%Z.
Proof. vm_compute. reflexivity. Qed.

#[local] Instance no_ips : IpAddr := {| ip_addr := string; ip_parse := Some; ip_match a b _ := Some (String.eqb a b) |}.

Definition admin_world : World :=
  founded <| db := (db founded) <| users := (λ u, u <| u_is_platform_admin := true |>) <$> users (db founded) |> |>.

Lemma admin_session_ok : is_ok (JwtService.issueTokenPair "owner" "uuid-0" "org_owner" true None admin_world) = true.
Proof. vm_compute. reflexivity. Qed.

Lemma issued_sessions_fail_admin_witness :
  ∃ p e, issued p ∧
    (PlatformAdmin.adminMiddleware ∅ None
       (mkRequest _ "POST" "/admin/users/u/unlock" (Bearer (accessToken p)) None None None "rq" "c" "r")
       (λ user, AdminService.unlockUser "u" (ru_userId user)) admin_world).1 = Throw e.
Proof.
  destruct (is_ok_inv _ admin_session_ok) as [p E].
  assert (Hi : issued p) by (exists admin_world; eexists; left; do 4 eexists; exact E).
  destruct (OrgAccessProperties.issued_sessions_fail_admin ∅ None
    (mkRequest _ "POST" "/admin/users/u/unlock" (Bearer (accessToken p)) None None None "rq" "c" "r") p
    (λ user, AdminService.unlockUser "u" (ru_userId user)) admin_world (lookup_empty _) Hi eq_refl) as [e He].
  exists p, e. by split.
Defined.

(** The two operations whose audit entry names no UUID always fail. *)
Lemma requeue_never_succeeds getFailed retry queueName actorId w :
  is_ok (AdminService.requeueDlqJobs getFailed retry queueName actorId w) = false.
Proof.
  destruct (includes AdminService.queue_names queueName) eqn:Eq.
  - apply includes_spec in Eq. unfold AdminService.queue_names in Eq.
    repeat (apply elem_of_cons in Eq as [->|Eq]; [reflexivity|]). by apply elem_of_nil in Eq.
  - unfold AdminService.requeueDlqJobs, AdminService.audit_text, bind at 1. rewrite Eq. cbn [negb].
    by destruct (_ || _).
Qed.
End OrgAccessExamples.
