(* ===== verification/Payments.v ===== *)
(** * Payments: orders, captures, webhooks and the grace period

    [payment.repository.ts], [payment.service.ts], [webhook.handler.ts] and
    [payment.worker.ts].  The Razorpay SDK is a parameter: what its
    [orders.create] does; the check of signatures is the program's own. *)
From S2P Require Import Prelude Schema World Crypto Concrete OrgRepo AuthRepo Session Http Auth Organization.
From Stdlib Require Import ZArith Lia Ascii.
From stdpp Require Import base tactics strings gmap list pretty.

Definition payment_status_str (s : payment_status) : string :=
  match s with
  | PayCreated => "created" | PayAuthorized => "authorized" | PayCaptured => "captured"
  | PayFailed => "failed" | PayRefunded => "refunded" | PayDisputed => "disputed"
  end.

Record CreatePaymentData := mkCreatePaymentData {
  cpd_org_id : string;
  cpd_subscription_id : option string;
  cpd_razorpay_order_id : string;
  cpd_amount_paise : Z;
  cpd_currency : option string;
  cpd_status : payment_status;
  cpd_idempotency_key : string;
  cpd_metadata : option json
}.

(** [extra] of [updateStatus]: [None] is [undefined]. *)
Record PaymentExtra := mkPaymentExtra {
  px_razorpay_payment_id : option string;
  px_failure_reason : option string;
  px_captured_at : option Z;
  px_refunded_at : option Z
}.
Definition no_extra : PaymentExtra := mkPaymentExtra None None None None.

Record UpsertSubscriptionData := mkUpsertSubscriptionData {
  us_razorpay_subscription_id : option string;
  us_plan_tier : plan_tier;
  us_status : option subscription_status;
  us_current_period_start : option Z;
  us_current_period_end : option Z
}.

(** [COALESCE(a, b)] and the assignment of a column given only sometimes. *)
Definition coalesce {A} (a b : option A) : option A := match a with Some x => Some x | None => b end.

Module PaymentRepository.
Section repo.
Context `{Redis, Random}.

Definition by_order (razorpayOrderId : string) (p : PaymentRow) : bool :=
  (pay_razorpay_order_id p =? razorpayOrderId)%string.
Definition by_key (key : string) (p : PaymentRow) : bool := (pay_idempotency_key p =? key)%string.

(** [razorpay_order_id] and [idempotency_key] are unique. *)
Definition create (data : CreatePaymentData) : M PaymentRow :=
  let* id := gen_random_uuid in
  let* t := now in
  let row := mkPaymentRow id (cpd_org_id data) (cpd_subscription_id data) (cpd_razorpay_order_id data) None
    (cpd_amount_paise data) (cpd_currency data ?? "INR") (cpd_status data) None None None
    (cpd_idempotency_key data) (cpd_metadata data ?? JObj []) t t in
  insert_unique (λ p, by_order (cpd_razorpay_order_id data) p || by_key (cpd_idempotency_key data) p) row ;;;
  ret row.

Definition findByOrderId (razorpayOrderId : string) : M (option PaymentRow) :=
  select_one (by_order razorpayOrderId).

Definition findByIdempotencyKey (key : string) : M (option PaymentRow) := select_one (by_key key).

(** ORDER BY created_at DESC LIMIT OFFSET. *)
Definition findByOrg (orgId : string) (limit offset : nat) : M (list PaymentRow) :=
  let* ps := select (λ p, (pay_org_id p =? orgId)%string) in
  ret (take limit (drop offset (rev ps))).

Definition set_clauses (status : payment_status) (extra : PaymentExtra) (p : PaymentRow) : PaymentRow :=
  p <| pay_status := status |>
    <| pay_razorpay_payment_id := coalesce (px_razorpay_payment_id extra) (pay_razorpay_payment_id p) |>
    <| pay_failure_reason := coalesce (px_failure_reason extra) (pay_failure_reason p) |>
    <| pay_captured_at := coalesce (px_captured_at extra) (pay_captured_at p) |>
    <| pay_refunded_at := coalesce (px_refunded_at extra) (pay_refunded_at p) |>.

(** [razorpay_payment_id] is unique: the UPDATE fails when another payment
    has the one it sets. *)
Definition updateStatus (razorpayOrderId : string) (status : payment_status) (extra : PaymentExtra)
    : M (option PaymentRow) :=
  let* hit := select (by_order razorpayOrderId) in
  let* taken := select (λ p, match px_razorpay_payment_id extra with
                             | Some id => is_val (pay_razorpay_payment_id p) id && negb (by_order razorpayOrderId p)
                             | None => false
                             end) in
  match hit, taken with
  | _ :: _, _ :: _ => throw unique_violation
  | _, _ =>
      let* rs := update_touch (by_order razorpayOrderId) (set_clauses status extra) in
      ret (hd_error rs)
  end.
End repo.
End PaymentRepository.

Module SubscriptionRepository.
Section repo.
Context `{Redis, Random}.

(** [org_id] is a UUID column: the empty string is not a value of it. *)
Definition findByOrg (orgId : string) : M (option SubscriptionRow) :=
  if truthy orgId then select_one (λ s, (sub_org_id s =? orgId)%string)
  else throw (PgError "22P02").

(** [ON CONFLICT (org_id) DO UPDATE]: the status given, or 'active', replaces
    the one stored. *)
Definition upsert (orgId : string) (data : UpsertSubscriptionData) : M SubscriptionRow :=
  let* id := gen_random_uuid in
  let* t := now in
  World.upsert (λ s, (sub_org_id s =? orgId)%string)
    (mkSubscriptionRow id orgId (us_razorpay_subscription_id data) (us_plan_tier data)
       (us_status data ?? SubActive) (us_current_period_start data) (us_current_period_end data)
       false None None (JObj []) t t)
    (λ s, touch t (s
       <| sub_razorpay_subscription_id := coalesce (us_razorpay_subscription_id data) (sub_razorpay_subscription_id s) |>
       <| sub_plan_tier := us_plan_tier data |>
       <| sub_status := us_status data ?? SubActive |>
       <| sub_current_period_start := coalesce (us_current_period_start data) (sub_current_period_start s) |>
       <| sub_current_period_end := coalesce (us_current_period_end data) (sub_current_period_end s) |>)).

Definition updateStatus (orgId : string) (status : subscription_status)
    (cancelled_at : option (option Z)) (cancel_at_period_end : option bool) : M (option SubscriptionRow) :=
  let* rs := update_touch (λ s, (sub_org_id s =? orgId)%string)
    (λ s, s <| sub_status := status |>
            <| sub_cancelled_at := cancelled_at ?? sub_cancelled_at s |>
            <| sub_cancel_at_period_end := cancel_at_period_end ?? sub_cancel_at_period_end s |>) in
  ret (hd_error rs).
End repo.
End SubscriptionRepository.

(** ** The Razorpay client *)

Record RazorpayOrder := mkRazorpayOrder {
  ro_id : string;
  ro_entity : string;
  ro_amount : Z;
  ro_currency : string;
  ro_status : string;
  ro_receipt : option string;
  ro_created_at : Z
}.

(** [orders.create] of the SDK, behind its circuit breaker. *)
Class RazorpaySdk `{Redis} := orders_create : Z → string → string → json → M RazorpayOrder.

(** The body of a request: the bytes, or what an earlier parser made of
    them. *)
Inductive Body :=
  | Buffer (bytes : string)
  | Parsed (j : json).

Module RazorpayClient.
Section client.
Context `{Redis, Random, Config, Crypto, !RazorpaySdk}.

Definition createOrder (amount : Z) (currency receipt : string) (notes : json) : M RazorpayOrder :=
  orders_create amount currency receipt notes.

Definition hex_val (c : ascii) : option nat :=
  let n := nat_of_ascii c in
  if Nat.leb 48 n && Nat.leb n 57 then Some (n - 48)
  else if Nat.leb 97 n && Nat.leb n 102 then Some (n - 87)
  else if Nat.leb 65 n && Nat.leb n 70 then Some (n - 55)
  else None.

(** [Buffer.from(s, 'hex')]: pairs of digits, up to the first that is not
    one. *)
Fixpoint hex_bytes (s : string) : list nat :=
  match s with
  | String a (String b s) =>
      match hex_val a, hex_val b with
      | Some x, Some y => (16 * x + y) :: hex_bytes s
      | _, _ => []
      end
  | _ => []
  end.

(** The lengths differ, or the bytes are compared. *)
Definition same_bytes (computed signature : string) : bool :=
  if negb (Nat.eqb (length (hex_bytes computed)) (length (hex_bytes signature))) then false
  else bool_decide (hex_bytes computed = hex_bytes signature).

Definition verifyPaymentSignature (orderId paymentId signature : string) : bool :=
  same_bytes (hmac_sha256_hex (orderId +:+ "|" +:+ paymentId) razorpayKeySecret) signature.

(** An HMAC is of bytes: on anything else [update] throws. *)
Definition verifyWebhookSignature (rawBody : Body) (signature : string) : bool :=
  match rawBody with
  | Buffer bytes => same_bytes (hmac_sha256_hex bytes razorpayWebhookSecret) signature
  | Parsed _ => false
  end.
End client.
End RazorpayClient.

(** ** The service *)

Inductive billing_cycle := Monthly | Annual.
Definition billing_cycle_str (b : billing_cycle) : string :=
  match b with Monthly => "monthly" | Annual => "annual" end.

(** The plan a text names; another text violates the CHECK of the column. *)
Definition parse_plan (s : string) : option plan_tier :=
  if (s =? "free")%string then Some PFree
  else if (s =? "pro")%string then Some PPro
  else if (s =? "business")%string then Some PBusiness
  else if (s =? "enterprise")%string then Some PEnterprise
  else None.
Definition check_violation : error := PgError "23514".

(** [s.slice(0, n)]. *)
Definition slice (n : nat) (s : string) : string := String.substring 0 n s.

Module PaymentService.
Section service.
Context `{Redis, Random, Config, Crypto, !RazorpaySdk}.

(** In paise. *)
Definition PLAN_AMOUNTS (planTier : string) (billingCycle : billing_cycle) : option Z :=
  if (planTier =? "pro")%string then
    Some (match billingCycle with Monthly => 99900 | Annual => 999900 end)%Z
  else if (planTier =? "business")%string then
    Some (match billingCycle with Monthly => 299900 | Annual => 2999900 end)%Z
  else if (planTier =? "enterprise")%string then
    Some (match billingCycle with Monthly => 999900 | Annual => 9999900 end)%Z
  else None.

Definition writeOutboxEvent (eventType orgId entityId : string) (payload : json) : M unit :=
  World.writeOutboxEvent (Some orgId) eventType "payment" entityId None payload.

Definition idempotency_key (orgId planTier : string) (billingCycle : billing_cycle) (epochDay : Z) : string :=
  orgId +:+ ":" +:+ planTier +:+ ":" +:+ billing_cycle_str billingCycle +:+ ":" +:+ pretty epochDay.

(** The order an earlier call of the day created. *)
Definition existing_order (p : PaymentRow) : RazorpayOrder :=
  mkRazorpayOrder (pay_razorpay_order_id p) "order" (pay_amount_paise p) (pay_currency p)
    (payment_status_str (pay_status p)) None (pay_created_at p / 1000).

Definition createOrder (orgId planTier : string) (billingCycle : billing_cycle) (userId : string)
    : M (RazorpayOrder * PaymentRow) :=
  match PLAN_AMOUNTS planTier billingCycle with
  | None => throw (AppError 422 "INVALID_PLAN" ("Unknown plan tier: " +:+ planTier) None)
  | Some amountPaise =>
      let* t := now in
      let epochDay := (t / 86400000)%Z in
      let idempotencyKey := idempotency_key orgId planTier billingCycle epochDay in
      let* existing := PaymentRepository.findByIdempotencyKey idempotencyKey in
      match existing with
      | Some p => ret (existing_order p, p)
      | None =>
          let receipt := slice 8 orgId +:+ "-" +:+ billing_cycle_str billingCycle +:+ "-" +:+ pretty epochDay in
          let notes := JObj [("orgId", JStr orgId); ("planTier", JStr planTier);
            ("billingCycle", JStr (billing_cycle_str billingCycle)); ("userId", JStr userId)] in
          let* order := RazorpayClient.createOrder amountPaise "INR" receipt notes in
          let* payment := PaymentRepository.create
            (mkCreatePaymentData orgId None (ro_id order) amountPaise None PayCreated idempotencyKey
               (Some (JObj [("planTier", JStr planTier); ("billingCycle", JStr (billing_cycle_str billingCycle));
                            ("userId", JStr userId)]))) in
          writeOutboxEvent "payment.created" orgId (pay_id payment)
            (JObj [("paymentId", JStr (pay_id payment)); ("orderId", JStr (ro_id order));
                   ("amountPaise", JNum amountPaise); ("planTier", JStr planTier)]) ;;;
          ret (order, payment)
      end
  end.

(** The plan of an organization, in its subscription and in its row. *)
Definition upgrade (orgId planTier : string) : M unit :=
  match parse_plan planTier with
  | None => throw check_violation
  | Some plan =>
      let* _ := SubscriptionRepository.upsert orgId (mkUpsertSubscriptionData None plan None None None) in
      let* _ := update_touch (λ o, (o_id o =? orgId)%string) (λ o, o <| o_plan_tier := plan |>) in
      ret tt
  end.

Definition verifyPayment (orgId razorpayOrderId razorpayPaymentId signature : string) : M PaymentRow :=
  if negb (RazorpayClient.verifyPaymentSignature razorpayOrderId razorpayPaymentId signature) then
    throw (AppError 400 "INVALID_PAYMENT_SIGNATURE" "Payment signature verification failed" None)
  else
  let* found := PaymentRepository.findByOrderId razorpayOrderId in
  match found with
  | None => throw (NotFoundError "Payment")
  | Some payment =>
  if negb (pay_org_id payment =? orgId)%string then throw (NotFoundError "Payment")
  else if bool_decide (pay_status payment = PayCaptured) then ret payment
  else
  let* t := now in
  let* updated := PaymentRepository.updateStatus razorpayOrderId PayCaptured
    (mkPaymentExtra (Some razorpayPaymentId) None (Some t) None) in
  match updated with
  | None => throw (ConflictError "PAYMENT_UPDATE_CONFLICT" "Payment status update conflict")
  | Some updated =>
      let planTier := jstr "planTier" (pay_metadata payment) ?? "pro" in
      upgrade orgId planTier ;;;
      writeOutboxEvent "payment.captured" orgId (pay_id updated)
        (JObj [("paymentId", JStr (pay_id updated)); ("razorpayPaymentId", JStr razorpayPaymentId);
               ("planTier", JStr planTier)]) ;;;
      ret updated
  end
  end.
End service.
End PaymentService.

(** ** The worker of the [payments] queue *)

Module PaymentWorker.
Section worker.
Context `{Redis, Random}.

Definition writeOutboxEvent (eventType orgId : string) (payload : json) : M unit :=
  World.writeOutboxEvent (Some orgId) eventType "org" orgId None payload.

Definition GRACE_PERIOD_MS : Z := 7 * 24 * 60 * 60 * 1000.

Definition handlePaymentFailure (orgId : string) : M unit :=
  let* org := OrganizationRepository.findById orgId in
  match org with
  | None => ret tt
  | Some org =>
      if bool_decide (o_status org = OrgSuspended) || negb (is_null (o_grace_period_ends_at org)) then ret tt
      else
        let* t := now in
        let gracePeriodEndsAt := (t + GRACE_PERIOD_MS)%Z in
        let* _ := update_touch (λ o, (o_id o =? orgId)%string && bool_decide (o_status o = OrgActive))
          (λ o, o <| o_grace_period_ends_at := Some (t + GRACE_PERIOD_MS)%Z |>) in
        writeOutboxEvent "org.grace_period_started" orgId
          (JObj [("orgId", JStr orgId); ("grace_period_ends_at", JNum gracePeriodEndsAt)]) ;;;
        enqueue_in GRACE_PERIOD_MS "payments" "check-grace-period" (JObj [("orgId", JStr orgId)])
  end.

Definition checkGracePeriod (orgId : string) : M unit :=
  let* org := OrganizationRepository.findById orgId in
  match org with
  | None => ret tt
  | Some org =>
      if negb (bool_decide (o_status org = OrgActive)) then ret tt
      else
        let* t := now in
        match o_grace_period_ends_at org with
        | None => ret tt
        | Some ends =>
            if (t <? ends)%Z then ret tt
            else OrganizationService.suspendOrg orgId "Payment failure — grace period expired" None
        end
  end.

Definition handlePaymentCaptured (orgId : string) : M unit :=
  let* org := OrganizationRepository.findById orgId in
  match org with
  | None => ret tt
  | Some org =>
      (if bool_decide (o_status org = OrgSuspended) then OrganizationService.reactivateOrg orgId None
       else ret tt) ;;;
      let* _ := update_touch (λ o, (o_id o =? orgId)%string) (λ o, o <| o_grace_period_ends_at := None |>) in
      ret tt
  end.

Definition paymentWorkerJob (name orgId : string) : M unit :=
  if (name =? "handle-payment-failure")%string then handlePaymentFailure orgId
  else if (name =? "check-grace-period")%string then checkGracePeriod orgId
  else if (name =? "payment-captured")%string then handlePaymentCaptured orgId
  else ret tt.
End worker.
End PaymentWorker.

(** ** The webhook *)

(** What the schema accepts ([RazorpayWebhookPayloadSchema]): of each entity,
    the fields the handlers read. *)
Inductive WebhookData :=
  | PaymentCaptured (id : string) (order_id : option string)
  | PaymentFailed (id : string) (order_id : option string)
  | SubscriptionCharged (id : string)
  | RefundCreated (id payment_id : string)
  | DisputeCreated (id payment_id : string).

Definition event_name (d : WebhookData) : string :=
  match d with
  | PaymentCaptured _ _ => "payment.captured"
  | PaymentFailed _ _ => "payment.failed"
  | SubscriptionCharged _ => "subscription.charged"
  | RefundCreated _ _ => "refund.created"
  | DisputeCreated _ _ => "dispute.created"
  end.

(** The entity the deduplication key names. *)
Definition eventEntityId (d : WebhookData) : string :=
  match d with
  | PaymentCaptured id _ | PaymentFailed id _ | SubscriptionCharged id
  | RefundCreated id _ | DisputeCreated id _ => id
  end.

(** The zod schemas: [None] when [safeParse] fails. *)
Definition opt_string (k : string) (j : json) : option (option string) :=
  match jget k j with
  | None => Some None
  | Some (JStr s) => Some (Some s)
  | Some _ => None
  end.
Definition opt_object (k : string) (j : json) : option unit :=
  match jget k j with None | Some (JObj _) => Some tt | Some _ => None end.

Definition RazorpayPaymentEntity (j : json) : option (string * option string) :=
  id ← jstr "id" j; order ← opt_string "order_id" j; _ ← jnum "amount" j; _ ← jstr "currency" j;
  _ ← jstr "status" j; _ ← opt_object "notes" j; Some (id, order).
Definition RazorpaySubscriptionEntity (j : json) : option string :=
  id ← jstr "id" j; _ ← opt_string "plan_id" j; _ ← jstr "status" j; Some id.
Definition RazorpayRefundEntity (j : json) : option (string * string) :=
  id ← jstr "id" j; p ← jstr "payment_id" j; _ ← jnum "amount" j; Some (id, p).
Definition RazorpayDisputeEntity (j : json) : option (string * string) :=
  id ← jstr "id" j; p ← jstr "payment_id" j; _ ← jnum "amount" j; _ ← opt_string "reason_code" j; Some (id, p).

Definition RazorpayWebhookPayloadSchema (j : json) : option WebhookData :=
  event ← jstr "event" j;
  payload ← jget "payload" j;
  let entity k := jget k payload ≫= jget "entity" in
  if (event =? "payment.captured")%string then
    '(id, o) ← entity "payment"%string ≫= RazorpayPaymentEntity; Some (PaymentCaptured id o)
  else if (event =? "payment.failed")%string then
    '(id, o) ← entity "payment"%string ≫= RazorpayPaymentEntity; Some (PaymentFailed id o)
  else if (event =? "subscription.charged")%string then
    id ← entity "subscription"%string ≫= RazorpaySubscriptionEntity; Some (SubscriptionCharged id)
  else if (event =? "refund.created")%string then
    '(id, p) ← entity "refund"%string ≫= RazorpayRefundEntity; Some (RefundCreated id p)
  else if (event =? "dispute.created")%string then
    '(id, p) ← entity "dispute"%string ≫= RazorpayDisputeEntity; Some (DisputeCreated id p)
  else None.

Module WebhookHandler.
Section handler.
Context `{Redis, Random, Config, Crypto}.

Definition IDEMPOTENCY_TTL : Z := 7 * 24 * 3600.

Definition writeOutboxEvent (eventType orgId entityId : string) (payload : json) : M unit :=
  World.writeOutboxEvent (Some orgId) eventType "payment" entityId None payload.

(** The UPDATE that ends a suspension. *)
Definition reactivate_suspended (orgId : string) : M unit :=
  let* _ := update_touch (λ o, (o_id o =? orgId)%string && bool_decide (o_status o = OrgSuspended))
    (λ o, o <| o_status := OrgActive |> <| o_grace_period_ends_at := None |>) in
  ret tt.

Definition handlePaymentCaptured (id : string) (order_id : option string) : M unit :=
  if negb (otruthy order_id) then ret tt
  else
  let order := order_id ?? "" in
  let* found := PaymentRepository.findByOrderId order in
  match found with
  | None => ret tt
  | Some payment =>
      if bool_decide (pay_status payment = PayCaptured) then ret tt
      else
        let* t := now in
        let* _ := PaymentRepository.updateStatus order PayCaptured (mkPaymentExtra (Some id) None (Some t) None) in
        reactivate_suspended (pay_org_id payment) ;;;
        writeOutboxEvent "payment.captured" (pay_org_id payment) (pay_id payment)
          (JObj [("paymentId", JStr (pay_id payment))])
  end.

Definition handlePaymentFailed (order_id : option string) : M unit :=
  if negb (otruthy order_id) then ret tt
  else
  let order := order_id ?? "" in
  let* found := PaymentRepository.findByOrderId order in
  match found with
  | None => ret tt
  | Some payment =>
      let* _ := PaymentRepository.updateStatus order PayFailed no_extra in
      enqueue "payments" "handle-payment-failure" (JObj [("orgId", JStr (pay_org_id payment))])
  end.

Definition handleSubscriptionCharged (id : string) : M unit :=
  let* _sub := SubscriptionRepository.findByOrg "" in
  let* row := select_one (λ s, is_val (sub_razorpay_subscription_id s) id) in
  match row with
  | None => ret tt
  | Some s =>
      reactivate_suspended (sub_org_id s) ;;;
      writeOutboxEvent "payment.subscription_charged" (sub_org_id s) id (JObj [("subscriptionId", JStr id)])
  end.

Definition by_payment (payment_id : string) (p : PaymentRow) : bool :=
  is_val (pay_razorpay_payment_id p) payment_id.

Definition handleRefundCreated (id payment_id : string) : M unit :=
  let* t := now in
  let* rows := update_touch (by_payment payment_id)
    (λ p, p <| pay_status := PayRefunded |> <| pay_refunded_at := Some t |>) in
  match rows with
  | [] => ret tt
  | p :: _ => writeOutboxEvent "payment.refunded" (pay_org_id p) (pay_id p) (JObj [("refundId", JStr id)])
  end.

Definition handleDisputeCreated (id payment_id : string) : M unit :=
  let* rows := update_touch (by_payment payment_id) (λ p, p <| pay_status := PayDisputed |>) in
  match rows with
  | [] => ret tt
  | p :: _ => writeOutboxEvent "payment.disputed" (pay_org_id p) (pay_id p) (JObj [("disputeId", JStr id)])
  end.

Definition handle (d : WebhookData) : M unit :=
  match d with
  | PaymentCaptured id order => handlePaymentCaptured id order
  | PaymentFailed _ order => handlePaymentFailed order
  | SubscriptionCharged id => handleSubscriptionCharged id
  | RefundCreated id p => handleRefundCreated id p
  | DisputeCreated id p => handleDisputeCreated id p
  end.

Definition idempotencyKey (d : WebhookData) : string :=
  "webhook:razorpay:" +:+ event_name d +:+ ":" +:+ eventEntityId d.

Definition received : Response := mkResponse 200 (JObj [("received", JBool true)]).
Definition failure (status : Z) (message : string) : Response :=
  mkResponse status (JObj [("error", JStr message)]).

(** The route after the payload was recognised. *)
Definition process (d : WebhookData) : M Response :=
  let* alreadyProcessed := rget (idempotencyKey d) in
  match alreadyProcessed with
  | Some _ => ret received
  | None =>
      catch
        (handle d ;;;
         rset (idempotencyKey d) (RText "1") (Some IDEMPOTENCY_TTL) ;;;
         ret received)
        (λ _, ret (failure 500 "Internal error"))
  end.

(** [JSON.parse] of the bytes of a body. *)
Context (JSON_parse : string → option json).

(** [POST /razorpay]. *)
Definition webhook (rawBody : Body) (signature : option string) : M Response :=
  if negb (otruthy signature) then ret (failure 400 "Missing signature")
  else if negb (RazorpayClient.verifyWebhookSignature rawBody (signature ?? "")) then
    ret (failure 400 "Invalid signature")
  else
    match rawBody with
    | Buffer bytes =>
        match JSON_parse bytes with
        | None => ret (failure 400 "Invalid JSON body")
        | Some rawPayload =>
            match RazorpayWebhookPayloadSchema rawPayload with
            | None => ret received
            | Some webhookData => process webhookData
            end
        end
    | Parsed _ => ret (failure 400 "Invalid JSON body")
    end.

(** [app.ts] installs [express.json()] before every router: a JSON body
    reaches the route parsed, and [express.raw()] leaves a parsed body as it
    is; another one reaches it as the empty object. *)
Definition deliver (is_json : bool) (bytes : string) (signature : option string) : M Response :=
  if is_json then
    match JSON_parse bytes with
    | None => ret (mkResponse 400 (error_body "INVALID_JSON" "Request body contains invalid JSON" None ""))
    | Some j => webhook (Parsed j) signature
    end
  else webhook (Parsed (JObj [])) signature.
End handler.
End WebhookHandler.

(** ** The calls *)

Inductive payment_call :=
  | CreateOrder (orgId planTier : string) (billingCycle : billing_cycle) (userId : string)
  | VerifyPayment (orgId razorpayOrderId razorpayPaymentId signature : string)
  | PaymentJob (name orgId : string)
  | Webhook (d : WebhookData)
  | Later (ms : Z).

Section calls.
Context `{Redis, Random, Config, Crypto, !RazorpaySdk}.

Definition pcall (c : payment_call) : M unit :=
  match c with
  | CreateOrder o p b u => let* _ := PaymentService.createOrder o p b u in ret tt
  | VerifyPayment o r p s => let* _ := PaymentService.verifyPayment o r p s in ret tt
  | PaymentJob n o => PaymentWorker.paymentWorkerJob n o
  | Webhook d => let* _ := WebhookHandler.process d in ret tt
  | Later ms => λ w, (Ok tt, w <| clock := (clock w + ms)%Z |>)
  end.

Definition run_payments (cs : list payment_call) (w : World) : World := foldl (λ w c, (pcall c w).2) w cs.

(** The SDK writes neither payments nor organizations, and nothing in Redis. *)
Definition sdk_outside : Prop := ∀ a c r n,
  untouched PaymentRow (orders_create a c r n) ∧ untouched OrgRow (orders_create a c r n) ∧
  (∀ I, preserves (on_redis I) (orders_create a c r n)).

(** The order of the day: the payment a key names, up to its status. *)
Definition order_of (key id order : string) (amount : Z) (l : list PaymentRow) : Prop :=
  ∃ p, List.find (PaymentRepository.by_key key) l = Some p ∧
    pay_id p = id ∧ pay_razorpay_order_id p = order ∧ pay_amount_paise p = amount.

Lemma order_of_upd key id order amount P f l :
  (∀ p, pay_idempotency_key (f p) = pay_idempotency_key p ∧ pay_id (f p) = pay_id p ∧
        pay_razorpay_order_id (f p) = pay_razorpay_order_id p ∧ pay_amount_paise (f p) = pay_amount_paise p) →
  order_of key id order amount l → order_of key id order amount (upd_where P f l).
Proof.
  intros Hf (p & Hp & Hi & Ho & Ha). exists (if P p then f p else p).
  rewrite find_upd_where, Hp; [split; [done|]|].
  - destruct (P p); [|done]. destruct (Hf p) as (_ & -> & -> & ->). done.
  - intros r _. unfold PaymentRepository.by_key. by destruct (Hf r) as (-> & _).
Qed.

Lemma order_of_touch key id order amount P f :
  (∀ p, pay_idempotency_key (f p) = pay_idempotency_key p ∧ pay_id (f p) = pay_id p ∧
        pay_razorpay_order_id (f p) = pay_razorpay_order_id p ∧ pay_amount_paise (f p) = pay_amount_paise p) →
  preserves (on_table (order_of key id order amount)) (update_touch P f).
Proof. intros Hf. apply preserves_update_touch. intros t l. by apply order_of_upd. Qed.

Lemma order_of_status key id order amount o s x :
  preserves (on_table (order_of key id order amount)) (PaymentRepository.updateStatus o s x).
Proof.
  unfold PaymentRepository.updateStatus.
  repeat first [apply order_of_touch; by split_all | progress preserve].
Qed.

Lemma order_of_create key id order amount d :
  preserves (on_table (order_of key id order amount)) (PaymentRepository.create d).
Proof.
  unfold PaymentRepository.create. apply preserves_bind; [preserve|intros i].
  apply preserves_bind; [preserve|intros t]. cbv zeta. apply preserves_bind; [|preserve].
  intros w (p & Hp & Hr). unfold on_table, insert_unique. destruct (existsb _ _); [by exists p|].
  cbn. rewrite rows_set_rows. exists p. split; [by apply find_app_l|done].
Qed.

(** Operations on the other tables. *)
Lemma others_keep (I : list PaymentRow → Prop) :
  (∀ o r a, preserves (on_table I) (OrganizationService.suspendOrg o r a)) ∧
  (∀ o a, preserves (on_table I) (OrganizationService.reactivateOrg o a)) ∧
  (∀ o p, preserves (on_table I) (PaymentService.upgrade o p)) ∧
  (∀ o, preserves (on_table I) (WebhookHandler.reactivate_suspended o)).
Proof.
  unfold OrganizationService.suspendOrg, OrganizationService.reactivateOrg, OrganizationService.getOrg,
    OrganizationService.found_org, OrganizationService.writeOutboxEvent, OrganizationService.audit_org,
    OrganizationRepository.findById, OrganizationRepository.updateStatus, PaymentService.upgrade,
    SubscriptionRepository.upsert, WebhookHandler.reactivate_suspended.
  split_all; intros; preserve.
Qed.

Lemma pcall_order key id order amount c :
  sdk_outside → preserves (on_table (order_of key id order amount)) (pcall c).
Proof.
  intros Hsdk. destruct (others_keep (order_of key id order amount)) as (Hs & Hr & Hu & Hw).
  destruct c; cbn [pcall].
  - unfold PaymentService.createOrder, PaymentService.writeOutboxEvent, RazorpayClient.createOrder,
      PaymentRepository.findByIdempotencyKey.
    repeat first [apply (proj1 (Hsdk _ _ _ _)) | apply order_of_create | progress preserve].
  - unfold PaymentService.verifyPayment, PaymentService.writeOutboxEvent, PaymentRepository.findByOrderId.
    repeat first [apply Hu | apply order_of_status | progress preserve].
  - unfold PaymentWorker.paymentWorkerJob, PaymentWorker.handlePaymentFailure, PaymentWorker.checkGracePeriod,
      PaymentWorker.handlePaymentCaptured, PaymentWorker.writeOutboxEvent, OrganizationRepository.findById.
    repeat first [apply Hs | apply Hr | progress preserve].
  - unfold WebhookHandler.process, WebhookHandler.handle, WebhookHandler.handlePaymentCaptured,
      WebhookHandler.handlePaymentFailed, WebhookHandler.handleSubscriptionCharged,
      WebhookHandler.handleRefundCreated, WebhookHandler.handleDisputeCreated,
      WebhookHandler.writeOutboxEvent, SubscriptionRepository.findByOrg, PaymentRepository.findByOrderId.
    repeat first [apply Hw | apply order_of_status | apply order_of_touch; by split_all | progress preserve].
  - by intros w Hw'.
Qed.

Lemma run_order key id order amount cs w :
  sdk_outside → on_table (order_of key id order amount) w →
  on_table (order_of key id order amount) (run_payments cs w).
Proof.
  intros Hsdk. revert w. induction cs as [|c cs IH]; intros w Hw; [done|].
  apply IH. by apply pcall_order.
Qed.

Lemma create_payment_spec d w p w' :
  List.find (PaymentRepository.by_key (cpd_idempotency_key d)) (payments (db w)) = None →
  PaymentRepository.create d w = (Ok p, w') →
  on_table (order_of (cpd_idempotency_key d) (pay_id p) (pay_razorpay_order_id p) (pay_amount_paise p)) w' ∧
  pay_razorpay_order_id p = cpd_razorpay_order_id d ∧ pay_amount_paise p = cpd_amount_paise d.
Proof.
  intros Hn. unfold PaymentRepository.create, bind, gen_random_uuid, now, insert_unique.
  destruct (existsb _ _); [done|]. cbn. intros [= <- <-]. split; [|done].
  unfold on_table. tables. cbn. eexists. rewrite (find_app_r _ _ _ Hn). cbn.
  unfold PaymentRepository.by_key. cbn. rewrite String.eqb_refl. split; [reflexivity|done].
Qed.

(** The first call of a day with a plan and a cycle. *)
Lemma createOrder_spec o plan b u w order payment w' :
  sdk_outside → PaymentService.createOrder o plan b u w = (Ok (order, payment), w') →
  ∃ amount, PaymentService.PLAN_AMOUNTS plan b = Some amount ∧
    on_table (order_of (PaymentService.idempotency_key o plan b (clock w / 86400000))
      (pay_id payment) (pay_razorpay_order_id payment) (pay_amount_paise payment)) w' ∧
    ro_id order = pay_razorpay_order_id payment.
Proof.
  intros Hsdk. unfold PaymentService.createOrder. destruct (PaymentService.PLAN_AMOUNTS plan b) as [amount|]; [|done].
  intros E. exists amount. split; [done|]. apply bind_ok in E as (t & w1 & Et & E). injection Et as <- <-.
  apply bind_ok in E as (ex & w2 & Ex & E). injection Ex as <- <-.
  destruct (List.find _ _) as [p|] eqn:Ef.
  { injection E as <- <- <-. split; [by exists p|done]. }
  apply bind_ok in E as (ord & w3 & Eo & E). apply bind_ok in E as (pay & w4 & Ep & E).
  apply bind_ok in E as ([] & w5 & Ew & E). injection E as <- <- <-.
  set (key := PaymentService.idempotency_key o plan b (clock w / 86400000)) in *.
  assert (Hn : List.find (PaymentRepository.by_key key) (payments (db w3)) = None).
  { change (on_table (λ l, List.find (PaymentRepository.by_key key) l = None) (Ok ord, w3).2).
    rewrite <- Eo. apply (proj1 (Hsdk _ _ _ _)). exact Ef. }
  apply create_payment_spec in Ep as (Hord & Hid & _); [|exact Hn]. split; [|by rewrite Hid].
  match goal with |- on_table ?I _ => change (on_table I (Ok tt, w5).2) end.
  rewrite <- Ew. unfold PaymentService.writeOutboxEvent. by apply preserves_outbox_other.
Qed.
End calls.


(** ** Capturing a payment *)

Section capture.
Context `{Redis, Random, Config, Crypto}.

(** The organization and its subscription are on a plan. *)
Definition on_plan (orgId : string) (plan : plan_tier) (d : DB) : Prop :=
  (∃ s, s ∈ subscriptions d ∧ sub_org_id s = orgId ∧ sub_plan_tier s = plan ∧ sub_status s = SubActive) ∧
  ∀ o, o ∈ organizations d → o_id o = orgId → o_plan_tier o = plan.

Lemma upgrade_spec orgId planTier w :
  wp (PaymentService.upgrade orgId planTier) (λ r w',
    payments (db w') = payments (db w) ∧ outbox_events (db w') = outbox_events (db w) ∧
    (r = Ok tt → ∃ plan, parse_plan planTier = Some plan ∧ on_plan orgId plan (db w'))) w.
Proof.
  unfold PaymentService.upgrade. destruct (parse_plan planTier) as [plan|]; [|done].
  apply wp_bind. unfold SubscriptionRepository.upsert. step. step. unfold wp at 1, World.upsert.
  match goal with |- context [List.find ?P ?l] => destruct (List.find P l) as [s|] eqn:Ef end; cbn.
  all: apply wp_bind; unfold wp; cbn; tables; cbn; split; [done|split; [done|]]; intros _;
    exists plan; (split; [done|split]); cbn.
  1: { apply find_some_elem in Ef as [Hs HP]. eexists. split; [apply elem_of_upd_where; exists s;
         split; [done|left; split; [exact HP|reflexivity]]|]. by bool_to_prop. }
  2: { eexists. split; [apply elem_of_app; right; by apply list_elem_of_singleton|done]. }
  all: intros o (o' & _ & [[_ ->]|[HP ->]])%elem_of_upd_where Ho; [done|].
  all: rewrite Ho, String.eqb_refl in HP; done.
Qed.

(** The row a capture leaves. *)
Definition captured (paymentId : string) (t : Z) (p : PaymentRow) : PaymentRow :=
  touch t (PaymentRepository.set_clauses PayCaptured (mkPaymentExtra (Some paymentId) None (Some t) None) p).

Lemma updateStatus_spec order status extra p0 w :
  List.find (PaymentRepository.by_order order) (payments (db w)) = Some p0 →
  wp (PaymentRepository.updateStatus order status extra) (λ r w',
    match r with
    | Ok updated => updated = Some (touch (clock w) (PaymentRepository.set_clauses status extra p0)) ∧
        w' = w <| db := (db w) <| payments := upd_where (PaymentRepository.by_order order)
                (λ p, touch (clock w) (PaymentRepository.set_clauses status extra p)) (payments (db w)) |> |>
    | Throw _ => w' = w
    end) w.
Proof.
  intros Hf. unfold PaymentRepository.updateStatus.
  assert (Hh : ∃ l, List.filter (PaymentRepository.by_order order) (payments (db w)) = p0 :: l).
  { rewrite <- hd_filter_find in Hf. destruct (List.filter _ _) as [|q l] eqn:E in Hf; [done|].
    injection Hf as ->. exists l. exact E. }
  destruct Hh as [l Hl]. apply wp_bind. unfold wp at 1, select. tables. cbn. rewrite Hl.
  apply wp_bind. unfold wp at 1. cbn. 
  match goal with |- context [match List.filter ?P ?l with _ => _ end] => destruct (List.filter P l) end; [|done].
  apply wp_bind. unfold wp, update_touch, bind, now, update_where, ret_where. tables. cbn. rewrite Hl. done.
Qed.
End capture.

(** ** Webhooks are handled once *)

Section webhooks.
Context `{Redis, !RedisLaws _, Random, Config, Crypto, !RazorpaySdk}.

(** Time only moves forward. *)
Definition forward (c : payment_call) : Prop :=
  match c with Later ms => (0 ≤ ms)%Z | _ => True end.

(** The key of an event is set, until [T]. *)
Definition marked (k : string) (T : Z) (w : World) : Prop :=
  ∀ t, (clock w ≤ t)%Z → (t < T)%Z → is_Some (redis_get (redis w) t k).

(** What keeps Redis and the time. *)
Definition steady {A} (m : M A) : Prop :=
  (∀ I, preserves (on_redis I) m) ∧ ∀ n t up, preserves (ambient n t up) m.

Lemma steady_marked {A} (m : M A) k T : steady m → preserves (marked k T) m.
Proof.
  intros [Hr Ha] w Hw t Ht HT. destruct (Ha 0 (clock w) (redis_up w) w) as (_ & Hc & _); [by split_all; lia|].
  rewrite Hc in Ht. pose proof (Hr (λ r, r = redis w) w eq_refl) as E. unfold on_redis in E. rewrite E.
  by apply Hw.
Qed.

Lemma org_steady :
  (∀ o r a, steady (OrganizationService.suspendOrg o r a)) ∧
  (∀ o a, steady (OrganizationService.reactivateOrg o a)).
Proof.
  unfold OrganizationService.suspendOrg, OrganizationService.reactivateOrg, OrganizationService.getOrg,
    OrganizationService.found_org, OrganizationService.writeOutboxEvent, OrganizationService.audit_org,
    OrganizationRepository.findById, OrganizationRepository.updateStatus.
  split; (intros; split; intros; preserve).
Qed.

Lemma job_steady n o : steady (PaymentWorker.paymentWorkerJob n o).
Proof.
  destruct org_steady as [Hs Hr].
  unfold PaymentWorker.paymentWorkerJob, PaymentWorker.handlePaymentFailure, PaymentWorker.checkGracePeriod,
    PaymentWorker.handlePaymentCaptured, PaymentWorker.writeOutboxEvent, OrganizationRepository.findById.
  split; intros; repeat first [apply Hs | apply Hr | progress preserve].
Qed.

Lemma handle_steady d : steady (WebhookHandler.handle d).
Proof.
  unfold WebhookHandler.handle, WebhookHandler.handlePaymentCaptured,
    WebhookHandler.handlePaymentFailed, WebhookHandler.handleSubscriptionCharged,
    WebhookHandler.handleRefundCreated, WebhookHandler.handleDisputeCreated, WebhookHandler.reactivate_suspended,
    WebhookHandler.writeOutboxEvent, SubscriptionRepository.findByOrg, PaymentRepository.findByOrderId,
    PaymentRepository.updateStatus, enqueue.
  split; intros; preserve.
Qed.

Lemma verify_steady o r p s : steady (PaymentService.verifyPayment o r p s).
Proof.
  unfold PaymentService.verifyPayment, PaymentService.writeOutboxEvent, PaymentRepository.findByOrderId,
    PaymentRepository.updateStatus, PaymentService.upgrade, SubscriptionRepository.upsert.
  split; intros; preserve.
Qed.

Lemma create_steady o p b u : sdk_outside → steady (PaymentService.createOrder o p b u).
Proof.
  intros Hsdk. unfold PaymentService.createOrder, PaymentService.writeOutboxEvent, RazorpayClient.createOrder,
    PaymentRepository.findByIdempotencyKey, PaymentRepository.create.
  split; intros; repeat first [apply (proj2 (proj2 (Hsdk _ _ _ _))) | apply (proj1 (Hsdk _ _ _ _)) | progress preserve].
Qed.

(** One delivery of an event that is not marked. *)
Lemma process_cases d w :
  redis_get (redis w) (clock w) (WebhookHandler.idempotencyKey d) = None →
  let '(r, w') := WebhookHandler.process d w in
  clock w' = clock w ∧
  ((r = Ok WebhookHandler.received ∧ redis w' = redis_set (redis w) (clock w) (WebhookHandler.idempotencyKey d)
      (RText "1") (Some (7 * 24 * 3600)%Z)) ∨
   (r ≠ Ok WebhookHandler.received ∧ redis w' = redis w)).
Proof.
  intros Hn. unfold WebhookHandler.process, bind at 1, rget. destruct (redis_up w) eqn:Eup; [|by split; [|right]].
  rewrite Hn. unfold catch, bind at 1. destruct (handle_steady d) as [Hr Ha].
  pose proof (Hr (λ r, r = redis w) w eq_refl) as Er. unfold on_redis in Er.
  destruct (Ha 0 (clock w) (redis_up w) w) as (_ & Ec & Eu); [by split_all; lia|].
  destruct (WebhookHandler.handle d w) as [[[]|e] w1]; cbn in *; [|by split; [|right]].
  unfold bind, rset. rewrite Eu, Eup. cbn. split; [done|left]. by rewrite Er, Ec.
Qed.

Lemma replayed d w :
  redis_up w = true → is_Some (redis_get (redis w) (clock w) (WebhookHandler.idempotencyKey d)) →
  WebhookHandler.process d w = (Ok WebhookHandler.received, w).
Proof. intros Hup [v Hv]. unfold WebhookHandler.process, bind, rget. by rewrite Hup, Hv. Qed.

Lemma pcall_marked k T c w :
  sdk_outside → forward c → marked k T w → (T ≤ clock w + 7 * 24 * 3600 * 1000)%Z →
  marked k T (pcall c w).2 ∧ (clock w ≤ clock (pcall c w).2)%Z.
Proof.
  intros Hsdk Hf Hw HT.
  assert (Hsteady : ∀ m : M unit, steady m → marked k T (m w).2 ∧ (clock w ≤ clock (m w).2)%Z).
  { intros m Hm. split; [by apply steady_marked|].
    destruct (proj2 Hm 0 (clock w) (redis_up w) w) as (_ & -> & _); [by split_all; lia|lia]. }
  assert (Hret : ∀ {A} (m : M A), steady m → steady (let* _ := m in ret tt)).
  { intros A m [Hr Ha]. split; intros; (apply preserves_bind; [auto|intros; apply preserves_ret]). }
  destruct c as [o p b u|o r p s|n o|d|ms]; cbn [pcall forward] in *.
  - by apply Hsteady, Hret, create_steady.
  - apply Hsteady, Hret, verify_steady.
  - apply Hsteady, job_steady.
  - assert (E : (let* _ := WebhookHandler.process d in ret tt) w =
      (match (WebhookHandler.process d w).1 with Ok _ => Ok tt | Throw e => Throw e end, (WebhookHandler.process d w).2)).
    { unfold bind, ret. by destruct (WebhookHandler.process d w) as [[r|e] w']. }
    rewrite E. cbn [snd]. clear E.
    destruct (redis_get (redis w) (clock w) (WebhookHandler.idempotencyKey d)) as [v|] eqn:Eg.
    { assert (E : (WebhookHandler.process d w).2 = w).
      { unfold WebhookHandler.process, bind, rget. destruct (redis_up w); [by rewrite Eg|done]. }
      rewrite E. by split; [|lia]. }
    pose proof (process_cases d w Eg) as Hp. destruct (WebhookHandler.process d w) as [r w']. cbn [snd].
    destruct Hp as (Ec & [[_ Er]|[_ Er]]); (split; [|lia]); intros t Ht HtT; rewrite Er; rewrite Ec in Ht.
    + destruct (decide (WebhookHandler.idempotencyKey d = k)) as [<-|Hne].
      * rewrite redis_get_set_live by lia. by eexists.
      * rewrite redis_get_set_ne by done. by apply Hw.
    + by apply Hw.
  - split; [|cbn; lia]. intros t Ht. cbn in *. apply Hw. lia.
Qed.

Lemma run_marked k T cs w :
  sdk_outside → Forall forward cs → marked k T w → (T ≤ clock w + 7 * 24 * 3600 * 1000)%Z →
  marked k T (run_payments cs w).
Proof.
  intros Hsdk. revert w. induction cs as [|c cs IH]; intros w Hcs Hw HT; [done|].
  apply Forall_cons in Hcs as [Hc Hcs]. destruct (pcall_marked k T c w Hsdk Hc Hw HT) as [Hw' Hmono].
  change (run_payments (c :: cs) w) with (run_payments cs (pcall c w).2). apply IH; [done|done|lia].
Qed.
End webhooks.

(** ** The grace period *)

Section grace.
Context `{Redis, Random, Config, Crypto, !RazorpaySdk}.

Definition live_org (orgId : string) (o : OrgRow) : bool :=
  (o_id o =? orgId)%string && is_null (o_deleted_at o).

(** The organization is active, in a grace period that ends at [g]. *)
Definition in_grace (orgId : string) (g : Z) (l : list OrgRow) : Prop :=
  ∃ o, List.find (live_org orgId) l = Some o ∧ o_status o = OrgActive ∧ o_grace_period_ends_at o = Some g.

(** An update that keeps what [in_grace] reads, on the rows of the
    organization it applies to. *)
Lemma in_grace_upd orgId g P f l :
  (∀ o, P o = true → o_id (f o) = o_id o ∧ o_deleted_at (f o) = o_deleted_at o) →
  (∀ o, P o = true → live_org orgId o = true → o_status o = OrgActive →
     o_status (f o) = o_status o ∧ o_grace_period_ends_at (f o) = o_grace_period_ends_at o) →
  in_grace orgId g l → in_grace orgId g (upd_where P f l).
Proof.
  intros Hid Hf (o & Ho & Hs & Hg). exists (if P o then f o else o). rewrite find_upd_where, Ho.
  - split; [done|]. destruct (P o) eqn:EP; [|done]. apply find_some_elem in Ho as [_ Hl].
    destruct (Hf o EP Hl Hs) as [-> ->]. done.
  - intros r Hr. unfold live_org. by destruct (Hid r Hr) as [-> ->].
Qed.

Lemma in_grace_touch orgId g P f :
  (∀ o, P o = true → o_id (f o) = o_id o ∧ o_deleted_at (f o) = o_deleted_at o) →
  (∀ o, P o = true → live_org orgId o = true → o_status o = OrgActive →
     o_status (f o) = o_status o ∧ o_grace_period_ends_at (f o) = o_grace_period_ends_at o) →
  preserves (on_table (in_grace orgId g)) (update_touch P f).
Proof. intros Hid Hf. apply preserves_update_touch. intros t l. apply in_grace_upd; [apply Hid|apply Hf]. Qed.

(** An update of another organization. *)
Lemma in_grace_other orgId g o' P f :
  o' ≠ orgId → (∀ o, P o = true → o_id o = o') →
  (∀ o, P o = true → o_id (f o) = o_id o ∧ o_deleted_at (f o) = o_deleted_at o) →
  preserves (on_table (in_grace orgId g)) (update_touch P f).
Proof.
  intros Hne HP Hid. apply in_grace_touch; [done|]. intros o Ho Hl _. exfalso.
  unfold live_org in Hl. bool_to_prop. apply Hne. rewrite <- (HP o Ho). done.
Qed.

Lemma org_id_of (o' : string) (o : OrgRow) b : (o_id o =? o')%string && b = true → o_id o = o'.
Proof. intros E. by bool_to_prop. Qed.

(** Suspending and reactivating another organization. *)
Lemma others_in_grace orgId g o' :
  o' ≠ orgId →
  (∀ r a, preserves (on_table (in_grace orgId g)) (OrganizationService.suspendOrg o' r a)) ∧
  (∀ a, preserves (on_table (in_grace orgId g)) (OrganizationService.reactivateOrg o' a)).
Proof.
  intros Hne.
  assert (Hst : ∀ s, preserves (on_table (in_grace orgId g)) (OrganizationRepository.updateStatus o' s None None)).
  { intros s. unfold OrganizationRepository.updateStatus. apply preserves_bind; [|preserve].
    apply (in_grace_other _ _ o' _ _ Hne); [intros o; apply org_id_of|by intros o _]. }
  unfold OrganizationService.suspendOrg, OrganizationService.reactivateOrg, OrganizationService.getOrg,
    OrganizationService.found_org, OrganizationService.writeOutboxEvent, OrganizationService.audit_org,
    OrganizationRepository.findById.
  split; intros; repeat first [apply Hst | progress preserve].
Qed.

(** A payment job, before the period ends. *)
Lemma job_in_grace orgId g n o' w :
  (n, o') ≠ ("payment-captured"%string, orgId) → (clock w < g)%Z →
  on_table (in_grace orgId g) w → on_table (in_grace orgId g) (PaymentWorker.paymentWorkerJob n o' w).2.
Proof.
  intros Hn Hg Hw. destruct (decide (o' = orgId)) as [->|Hne].
  - destruct Hw as (o & Ho & Hs & Hgr). change (rows (db w)) with (organizations (db w)) in Ho.
    assert (Hold : on_table (in_grace orgId g) w) by by exists o.
    assert (Ef : OrganizationRepository.findById orgId w = (Ok (Some o), w)).
    { unfold OrganizationRepository.findById, select_one. tables. by rewrite <- Ho. }
    unfold PaymentWorker.paymentWorkerJob. destruct (_ =? _)%string.
    { unfold PaymentWorker.handlePaymentFailure, bind at 1. rewrite Ef, Hs, Hgr. done. }
    destruct (_ =? _)%string.
    { unfold PaymentWorker.checkGracePeriod, bind at 1. rewrite Ef, Hs, Hgr.
      rewrite bool_decide_true by done. unfold bind, now. cbn -[Z.ltb].
      by rewrite (proj2 (Z.ltb_lt _ _)). }
    destruct (String.eqb_spec n "payment-captured") as [->|]; [done|done].
  - destruct (others_in_grace orgId g o' Hne) as [Hs Hr]. revert w Hw Hg. intros w Hw _. revert w Hw.
    change (preserves (on_table (in_grace orgId g)) (PaymentWorker.paymentWorkerJob n o')).
    unfold PaymentWorker.paymentWorkerJob, PaymentWorker.handlePaymentFailure, PaymentWorker.checkGracePeriod,
      PaymentWorker.handlePaymentCaptured, PaymentWorker.writeOutboxEvent, OrganizationRepository.findById.
    repeat first [apply Hs | apply Hr
      | apply (in_grace_other _ _ o' _ _ Hne);
          [intros ? E; first [exact (org_id_of _ _ _ E) | by apply String.eqb_eq]|by intros ? _]
      | progress preserve].
Qed.

(** Neither orders, nor captures, nor webhooks end the period. *)
Lemma pcall_in_grace orgId g c w :
  sdk_outside → (clock w < g)%Z → c ≠ PaymentJob "payment-captured" orgId →
  on_table (in_grace orgId g) w → on_table (in_grace orgId g) (pcall c w).2.
Proof.
  intros Hsdk Hg Hc Hw. destruct c as [o p b u|o r p s|n o|d|ms]; cbn [pcall].
  - revert w Hw Hg. intros w Hw _. revert w Hw.
    change (preserves (on_table (in_grace orgId g)) (let* _ := PaymentService.createOrder o p b u in ret tt)).
    unfold PaymentService.createOrder, PaymentService.writeOutboxEvent, RazorpayClient.createOrder,
      PaymentRepository.findByIdempotencyKey, PaymentRepository.create.
    repeat first [apply (proj1 (proj2 (Hsdk _ _ _ _))) | progress preserve].
  - revert w Hw Hg. intros w Hw _. revert w Hw.
    change (preserves (on_table (in_grace orgId g)) (let* _ := PaymentService.verifyPayment o r p s in ret tt)).
    unfold PaymentService.verifyPayment, PaymentService.writeOutboxEvent, PaymentRepository.findByOrderId,
      PaymentRepository.updateStatus, PaymentService.upgrade, SubscriptionRepository.upsert.
    repeat first [apply in_grace_touch; [by intros ? _|by intros ? _ _ _] | progress preserve].
  - apply job_in_grace; [|done|done]. intros [= -> ->]. by apply Hc.
  - revert w Hw Hg. intros w Hw _. revert w Hw.
    change (preserves (on_table (in_grace orgId g)) (let* _ := WebhookHandler.process d in ret tt)).
    unfold WebhookHandler.process, WebhookHandler.handle, WebhookHandler.handlePaymentCaptured,
      WebhookHandler.handlePaymentFailed, WebhookHandler.handleSubscriptionCharged,
      WebhookHandler.handleRefundCreated, WebhookHandler.handleDisputeCreated,
      WebhookHandler.reactivate_suspended, WebhookHandler.writeOutboxEvent,
      SubscriptionRepository.findByOrg, PaymentRepository.findByOrderId, PaymentRepository.updateStatus.
    repeat first [apply in_grace_touch; [by intros ? _|intros ? HP _ HA; bool_to_prop;
        repeat match goal with Hb : bool_decide _ = true |- _ => apply bool_decide_eq_true in Hb end;
        congruence] | progress preserve].
  - done.
Qed.

Lemma failure_spec orgId o w :
  redis_up w = true → List.find (live_org orgId) (organizations (db w)) = Some o →
  o_status o = OrgActive → o_grace_period_ends_at o = None →
  ∃ w', PaymentWorker.paymentWorkerJob "handle-payment-failure" orgId w = (Ok tt, w') ∧
    on_table (in_grace orgId (clock w + 7 * 24 * 60 * 60 * 1000)) w' ∧ clock w' = clock w ∧
    jobs w' = jobs w ++ [mkJob "payments" "check-grace-period" (JObj [("orgId", JStr orgId)])
                           (7 * 24 * 60 * 60 * 1000)] ∧
    ∃ e, outbox_events (db w') = outbox_events (db w) ++ [e] ∧
      ob_event_type e = "org.grace_period_started"%string ∧ ob_org_id e = Some orgId.
Proof.
  intros Hup Ho Hs Hg. change (PaymentWorker.paymentWorkerJob "handle-payment-failure" orgId) with
    (PaymentWorker.handlePaymentFailure orgId). unfold PaymentWorker.handlePaymentFailure, bind at 1,
    OrganizationRepository.findById, select_one. tables. fold (live_org orgId).
  rewrite Ho, Hs, Hg. rewrite bool_decide_false by done.
  unfold PaymentWorker.writeOutboxEvent, World.writeOutboxEvent, PaymentWorker.GRACE_PERIOD_MS, bind, now,
    update_touch, update_where, gen_random_uuid, insert_row, enqueue_in. cbn -[Z.add Z.mul]. rewrite Hup.
  eexists. split; [reflexivity|]. split; [|split_all; by eexists].
  unfold on_table. tables. cbn -[Z.add Z.mul]. eexists.
  rewrite find_upd_where, Ho by (intros r _; reflexivity). cbn -[Z.add Z.mul].
  apply find_some_elem in Ho as [_ Hl]. unfold live_org in Hl. bool_to_prop.
  rewrite (proj2 (String.eqb_eq _ _)) by done. rewrite Hs. cbn -[Z.add Z.mul].
  split; [reflexivity|]. by split.
Qed.

Lemma check_spec orgId g w :
  on_table (in_grace orgId g) w → (g ≤ clock w)%Z →
  ∃ w', PaymentWorker.paymentWorkerJob "check-grace-period" orgId w = (Ok tt, w') ∧
    (∃ o, List.find (live_org orgId) (organizations (db w')) = Some o ∧ o_status o = OrgSuspended) ∧
    ∃ e, outbox_events (db w') = outbox_events (db w) ++ [e] ∧ ob_event_type e = "org.suspended"%string ∧
      ob_org_id e = Some orgId.
Proof.
  intros (o & Ho & Hs & Hg) Hclock. change (rows (db w)) with (organizations (db w)) in Ho.
  change (PaymentWorker.paymentWorkerJob "check-grace-period" orgId) with (PaymentWorker.checkGracePeriod orgId).
  unfold PaymentWorker.checkGracePeriod, bind at 1, OrganizationRepository.findById, select_one. tables.
  fold (live_org orgId). rewrite Ho, Hs, Hg. rewrite bool_decide_true by done.
  unfold bind at 1, now. cbn -[Z.ltb OrganizationService.suspendOrg]. rewrite (proj2 (Z.ltb_ge _ _)) by lia.
  unfold OrganizationService.suspendOrg, OrganizationService.getOrg, OrganizationService.found_org,
    OrganizationRepository.findById, bind, select_one. tables. fold (live_org orgId). rewrite Ho.
  cbn [ret]. rewrite Hs, bool_decide_true by done. cbn.
  eexists. split; [reflexivity|]. split; [|by eexists].
  pose proof (find_some_elem _ _ _ Ho) as [_ Hl]. eexists. split.
  - eapply (find_update_first (live_org orgId)); [exact Ho|exact Hl].
  - done.
Qed.

Lemma pcall_clock c w : sdk_outside → forward c → (clock w ≤ clock (pcall c w).2)%Z.
Proof.
  intros Hsdk Hf. assert (Hs : ∀ m : M unit, (∀ n t up, preserves (ambient n t up) m) → (clock w ≤ clock (m w).2)%Z).
  { intros m Hm. destruct (Hm 0 (clock w) (redis_up w) w) as (_ & -> & _); [by split_all; lia|lia]. }
  destruct c as [o p b u|o r p s|n o|d|ms]; cbn [pcall forward] in *; [apply Hs; intros..|cbn; lia].
  - apply preserves_bind; [apply (create_steady _ _ _ _ Hsdk)|preserve].
  - apply preserves_bind; [apply verify_steady|preserve].
  - apply job_steady.
  - apply preserves_bind; [|preserve]. unfold WebhookHandler.process.
    repeat first [apply handle_steady | progress preserve].
Qed.

Lemma run_payments_clock cs w : sdk_outside → Forall forward cs → (clock w ≤ clock (run_payments cs w))%Z.
Proof.
  intros Hsdk. revert w. induction cs as [|c cs IH]; intros w Hcs; [done|]. apply Forall_cons in Hcs as [Hf Hcs].
  change (run_payments (c :: cs) w) with (run_payments cs (pcall c w).2).
  etrans; [by apply pcall_clock|by apply IH].
Qed.

Lemma run_in_grace orgId g cs w :
  sdk_outside → Forall (λ c, forward c ∧ c ≠ PaymentJob "payment-captured" orgId) cs →
  (clock (run_payments cs w) < g)%Z →
  on_table (in_grace orgId g) w → on_table (in_grace orgId g) (run_payments cs w).
Proof.
  intros Hsdk. revert w. induction cs as [|c cs IH]; intros w Hcs Hlt Hw; [done|].
  apply Forall_cons in Hcs as [[Hf Hc] Hcs].
  change (run_payments (c :: cs) w) with (run_payments cs (pcall c w).2) in *.
  apply IH; [done|done|]. apply pcall_in_grace; [done| |done|done].
  pose proof (pcall_clock c w Hsdk Hf).
  pose proof (run_payments_clock cs (pcall c w).2 Hsdk (Forall_impl _ _ _ Hcs ltac:(by intros ? []))). lia.
Qed.

(** Nothing is paid for the organization. *)
Definition unpaid (orgId : string) (c : payment_call) : Prop :=
  match c with
  | VerifyPayment o _ _ _ => o ≠ orgId
  | PaymentJob n o => ¬ (n = "payment-captured"%string ∧ o = orgId)
  | Webhook (PaymentCaptured _ _) | Webhook (SubscriptionCharged _) => False
  | _ => True
  end.

Definition settled_org (orgId : string) (l : list OrgRow) : Prop :=
  ∃ o, List.find (live_org orgId) l = Some o ∧ o_status o = OrgActive ∧ o_grace_period_ends_at o = None.

(** The job of a capture ends a period that runs. *)
Lemma recovered orgId g w :
  on_table (in_grace orgId g) w →
  on_table (settled_org orgId) (PaymentWorker.paymentWorkerJob "payment-captured" orgId w).2.
Proof.
  intros (o & Ho & Hs & Hg). change (rows (db w)) with (organizations (db w)) in Ho.
  change (PaymentWorker.paymentWorkerJob "payment-captured" orgId) with (PaymentWorker.handlePaymentCaptured orgId).
  unfold PaymentWorker.handlePaymentCaptured, bind at 1, OrganizationRepository.findById, select_one. tables.
  fold (live_org orgId). rewrite Ho, Hs. rewrite bool_decide_false by done.
  unfold bind, ret, update_touch, update_where, now. cbn. unfold on_table. tables.
  pose proof (find_some_elem _ _ _ Ho) as [_ Hl]. eexists. split.
  - eapply find_upd_where_hit; [exact Ho|by intros r _|]. unfold live_org in Hl. by apply andb_true_iff in Hl as [-> _].
  - by split.
Qed.

(** A check of an organization with no period does nothing. *)
Lemma check_settled orgId w :
  on_table (settled_org orgId) w → PaymentWorker.paymentWorkerJob "check-grace-period" orgId w = (Ok tt, w).
Proof.
  intros (o & Ho & Hs & Hg). change (rows (db w)) with (organizations (db w)) in Ho.
  change (PaymentWorker.paymentWorkerJob "check-grace-period" orgId) with (PaymentWorker.checkGracePeriod orgId).
  unfold PaymentWorker.checkGracePeriod, bind at 1, OrganizationRepository.findById, select_one. tables.
  fold (live_org orgId). rewrite Ho, Hs, Hg. by rewrite bool_decide_true.
Qed.

(** The webhook of a capture ends a suspension. *)
Lemma capture_reactivates orgId order pid p o w w' :
  truthy order = true → List.find (PaymentRepository.by_order order) (payments (db w)) = Some p →
  pay_org_id p = orgId → pay_status p ≠ PayCaptured →
  List.find (live_org orgId) (organizations (db w)) = Some o → o_status o = OrgSuspended →
  WebhookHandler.handlePaymentCaptured pid (Some order) w = (Ok tt, w') →
  on_table (settled_org orgId) w'.
Proof.
  intros Hord Hp Horg Hst Ho Hs. unfold WebhookHandler.handlePaymentCaptured. cbn [otruthy from_option].
  rewrite Hord. cbn [negb]. intros E.
  apply bind_ok in E as (found & w1 & E1 & E). unfold PaymentRepository.findByOrderId, select_one in E1. tables.
  cbn [default from_option id] in E1, E. rewrite Hp in E1. injection E1 as <- <-.
  rewrite bool_decide_false in E by done. apply bind_ok in E as (t & w1 & [= <- <-] & E).
  apply bind_ok in E as (r & w2 & E2 & E).
  assert (Hw2 : on_table (λ l, l = organizations (db w)) w2).
  { change w2 with (Ok r, w2).2. rewrite <- E2. unfold PaymentRepository.updateStatus.
    match goal with |- on_table ?I (?m w).2 => assert (Hpr : preserves (on_table I) m) by preserve end.
    by apply Hpr. }
  apply bind_ok in E as ([] & w3 & E3 & E).
  assert (Hw3 : on_table (settled_org orgId) w3).
  { unfold WebhookHandler.reactivate_suspended, bind, update_touch, update_where, now in E3. cbn in E3.
    injection E3 as <-. unfold on_table in *. tables. rewrite Hw2. cbn. tables.
    pose proof (find_some_elem _ _ _ Ho) as [_ Hl]. eexists. split.
    - eapply find_upd_where_hit; [exact Ho|by intros x _|]. rewrite Horg, Hs. unfold live_org in Hl.
      apply andb_true_iff in Hl as [-> _]. by rewrite bool_decide_true.
    - by split. }
  change w' with (Ok tt, w').2. rewrite <- E. unfold WebhookHandler.writeOutboxEvent.
  by apply preserves_outbox_other.
Qed.

Lemma process_captured orgId order pid p o w w' :
  truthy order = true → List.find (PaymentRepository.by_order order) (payments (db w)) = Some p →
  pay_org_id p = orgId → pay_status p ≠ PayCaptured →
  List.find (live_org orgId) (organizations (db w)) = Some o → o_status o = OrgSuspended →
  redis_get (redis w) (clock w) (WebhookHandler.idempotencyKey (PaymentCaptured pid (Some order))) = None →
  WebhookHandler.process (PaymentCaptured pid (Some order)) w = (Ok WebhookHandler.received, w') →
  on_table (settled_org orgId) w'.
Proof.
  intros Hord Hp Horg Hst Ho Hs Hk. unfold WebhookHandler.process. intros E.
  apply bind_ok in E as (already & w1 & E1 & E). unfold rget in E1. destruct (redis_up w); [|done].
  rewrite Hk in E1. injection E1 as <- <-. unfold catch in E.
  match type of E with (let (_, _) := ?m ?x in _) = _ => destruct (m x) as [[a|e] w2] eqn:Em end; [|done].
  injection E as -> ->. cbn [WebhookHandler.handle] in Em.
  apply bind_ok in Em as ([] & w3 & Eh & Em). pose proof (capture_reactivates _ _ _ _ _ _ _ Hord Hp Horg Hst Ho Hs Eh) as Hw3.
  change w' with (Ok WebhookHandler.received, w').2. rewrite <- Em.
  match goal with |- on_table ?I (?m w3).2 => assert (Hpr : preserves (on_table I) m) by preserve end.
  by apply Hpr.
Qed.
End grace.
Module PaymentProperties.
Section theorems.
Context `{Redis, Random, Config, Crypto, !RazorpaySdk}.

(** an organization is charged once a day for a plan and a cycle: the
    calls that follow the first one that day, whatever happened to the order
    since, answer with the same order and payment, ask Razorpay for nothing
    and change nothing. *)
Theorem createOrder_once_a_day o plan b u u' w order payment w1 cs :
  sdk_outside →
  PaymentService.createOrder o plan b u w = (Ok (order, payment), w1) →
  let w2 := run_payments cs w1 in
  (clock w2 / 86400000 = clock w / 86400000)%Z →
  ∃ order' payment', PaymentService.createOrder o plan b u' w2 = (Ok (order', payment'), w2) ∧
    ro_id order' = ro_id order ∧ pay_id payment' = pay_id payment ∧
    ro_amount order' = pay_amount_paise payment.
Proof.
  intros Hsdk E w2 Hday. destruct (createOrder_spec _ _ _ _ _ _ _ _ Hsdk E) as (amount & Hp & Hord & Hid).
  destruct (run_order _ _ _ _ cs w1 Hsdk Hord) as (p & Hf & Hpi & Hpo & Hpa). fold w2 in Hf.
  unfold PaymentService.createOrder. rewrite Hp. unfold bind, now. rewrite Hday.
  unfold PaymentRepository.findByIdempotencyKey, select_one. rewrite Hf.
  do 2 eexists. split; [reflexivity|]. cbn. by rewrite Hid.
Qed.

(** a verified payment is captured, once: success means that the
    signature is Razorpay's and the order the organization's; a payment
    already captured is returned and nothing changes; another one is captured
    by that payment id, no other payment changes, the organization and its
    subscription are put on the plan that was ordered, and one event says
    so. *)
Theorem verifyPayment_captures o order id signature w payment w' :
  PaymentService.verifyPayment o order id signature w = (Ok payment, w') →
  RazorpayClient.verifyPaymentSignature order id signature = true ∧
  ∃ p0, List.find (PaymentRepository.by_order order) (payments (db w)) = Some p0 ∧ pay_org_id p0 = o ∧
    if bool_decide (pay_status p0 = PayCaptured) then payment = p0 ∧ w' = w
    else payment = captured id (clock w) p0 ∧
      payments (db w') = upd_where (PaymentRepository.by_order order) (captured id (clock w)) (payments (db w)) ∧
      (∃ plan, parse_plan (jstr "planTier" (pay_metadata p0) ?? "pro") = Some plan ∧ on_plan o plan (db w')) ∧
      ∃ e, outbox_events (db w') = outbox_events (db w) ++ [e] ∧ ob_event_type e = "payment.captured"%string ∧
        ob_org_id e = Some o ∧ ob_entity_id e = pay_id p0.
Proof.
  unfold PaymentService.verifyPayment. destruct (RazorpayClient.verifyPaymentSignature _ _ _); cbn [negb]; [|done].
  intros E. split; [done|]. apply bind_ok in E as (f & w1 & Ef & E). injection Ef as <- <-.
  destruct (List.find _ _) as [p0|] eqn:Hf; [|done]. exists p0. split; [reflexivity|].
  destruct (String.eqb_spec (pay_org_id p0) o) as [Ho|]; [|done]. split; [done|]. cbn [negb] in E.
  case_bool_decide; [by injection E as <- <-|].
  apply bind_ok in E as (t & w1 & Et & E). injection Et as <- <-.
  apply bind_ok in E as (u & w2 & Eu & E).
  pose proof (updateStatus_spec order PayCaptured (mkPaymentExtra (Some id) None (Some (clock w)) None) p0 w Hf) as Hu.
  unfold wp in Hu. rewrite Eu in Hu. cbn [fst snd] in Hu. destruct Hu as [-> ->].
  apply bind_ok in E as ([] & w3 & Eg & E). pose proof (upgrade_spec o
    (jstr "planTier" (pay_metadata p0) ?? "pro") (w <| db := (db w) <| payments :=
       upd_where (PaymentRepository.by_order order) (captured id (clock w)) (payments (db w)) |> |>)) as Hg.
  unfold wp in Hg. unfold captured in Hg. rewrite Eg in Hg. cbn [fst snd] in Hg. destruct Hg as (Hp & Hob & Hplan).
  destruct (Hplan eq_refl) as (plan & Hparse & Hon). cbn in Hp, Hob.
  apply bind_ok in E as ([] & w4 & Ew & E). injection E as <- <-. split; [done|].
  unfold PaymentService.writeOutboxEvent, World.writeOutboxEvent, bind, gen_random_uuid, now, insert_row in Ew.
  injection Ew as <-. tables. cbn. split; [exact Hp|]. split; [exists plan; by split|].
  eexists. rewrite Hob. split; [reflexivity|done].
Qed.


(** C17: an event of Razorpay is handled once: the first delivery of an event
    either is acknowledged, and every delivery of the next seven days is
    acknowledged without changing anything, or ends with an error and leaves
    the event unmarked, for Razorpay to send again. *)
Theorem webhook_once `{!RedisLaws _} d w cs :
  sdk_outside → Forall forward cs →
  redis_get (redis w) (clock w) (WebhookHandler.idempotencyKey d) = None →
  let '(r, w1) := WebhookHandler.process d w in
  (r = Ok WebhookHandler.received ∧
   (redis_up (run_payments cs w1) = true →
    (clock (run_payments cs w1) < clock w + 7 * 24 * 3600 * 1000)%Z →
    WebhookHandler.process d (run_payments cs w1) = (Ok WebhookHandler.received, run_payments cs w1))) ∨
  (r ≠ Ok WebhookHandler.received ∧ redis w1 = redis w).
Proof.
  intros Hsdk Hcs Hn. pose proof (process_cases d w Hn) as Hp.
  destruct (WebhookHandler.process d w) as [r w1]. destruct Hp as (Hc & [[-> Hr]|[Hr Hred]]); [left|by right].
  split; [done|]. intros Hup Hlt. apply replayed; [done|].
  apply (run_marked _ (clock w + 7 * 24 * 3600 * 1000)); [done|done| |lia|lia|lia].
  intros t Ht HT. rewrite Hr, redis_get_set_live by lia. by eexists.
Qed.

(** C18: a failed payment gives seven days: as long as nothing is paid, the
    organization stays active until then, whatever orders, failures, refunds and
    jobs come in the meantime, and the check that the failure queued, run at the
    end of the period or later, suspends it.  The job of a capture ends a period
    that runs, after which the check leaves the organization active; and the
    webhook of a captured payment of a suspended organization makes it active
    again, with no period. *)
Theorem grace_period orgId o w cs ms :
  sdk_outside → redis_up w = true →
  List.find (live_org orgId) (organizations (db w)) = Some o →
  o_status o = OrgActive → o_grace_period_ends_at o = None →
  Forall (λ c, forward c ∧ unpaid orgId c) cs →
  let g := (clock w + 7 * 24 * 60 * 60 * 1000)%Z in
  let w1 := run_payments (PaymentJob "handle-payment-failure" orgId :: cs) w in
  (clock w1 < g)%Z → (g ≤ clock w1 + ms)%Z →
  on_table (in_grace orgId g) w1 ∧
  on_table (settled_org orgId)
    (run_payments [PaymentJob "payment-captured" orgId; Later ms; PaymentJob "check-grace-period" orgId] w1) ∧
  let w2 := run_payments [Later ms; PaymentJob "check-grace-period" orgId] w1 in
  (∃ o', List.find (live_org orgId) (organizations (db w2)) = Some o' ∧ o_status o' = OrgSuspended) ∧
  ∀ pid order p w3,
    truthy order = true → List.find (PaymentRepository.by_order order) (payments (db w2)) = Some p →
    pay_org_id p = orgId → pay_status p ≠ PayCaptured →
    redis_get (redis w2) (clock w2) (WebhookHandler.idempotencyKey (PaymentCaptured pid (Some order))) = None →
    WebhookHandler.process (PaymentCaptured pid (Some order)) w2 = (Ok WebhookHandler.received, w3) →
    on_table (settled_org orgId) w3.
Proof.
  intros Hsdk Hup Ho Hs Hgr Hcs g w1 Hlt Hge.
  destruct (failure_spec orgId o w Hup Ho Hs Hgr) as (w0 & E & Hg & Hc & _).
  assert (Hw1 : on_table (in_grace orgId g) w1).
  { subst w1. cbn [run_payments foldl pcall] in *. rewrite E in *. cbn [snd] in *.
    fold (run_payments cs w0) in *. apply run_in_grace; [done| |done|done].
    eapply Forall_impl; [exact Hcs|]. intros c [Hf Hu]. split; [done|]. intros ->. by apply Hu. }
  split; [done|]. split.
  { set (wr := (PaymentWorker.paymentWorkerJob "payment-captured" orgId w1).2).
    pose proof (recovered orgId g w1 Hw1 : on_table (settled_org orgId) wr) as Hr.
    change (on_table (settled_org orgId) (PaymentWorker.paymentWorkerJob "check-grace-period" orgId
      (wr <| clock := (clock wr + ms)%Z |>)).2).
    by rewrite check_settled. }
  cbv zeta. set (w1' := w1 <| clock := (clock w1 + ms)%Z |>).
  destruct (check_spec orgId g w1' Hw1 Hge) as (w2 & E2 & Hsus & _).
  change (run_payments [Later ms; PaymentJob "check-grace-period" orgId] w1) with
    (PaymentWorker.paymentWorkerJob "check-grace-period" orgId w1').2. rewrite E2. cbn [snd].
  split; [done|]. destruct Hsus as (o' & Ho' & Hso). intros pid order p w3 Hord Hp Horg Hst Hk Ep.
  by eapply process_captured.
Qed.
End theorems.
End PaymentProperties.

Module PaymentExamples.
Import Concrete.

#[local] Instance sdk : RazorpaySdk := λ amount currency receipt notes,
  let* id := gen_random_uuid in
  let* t := now in
  ret (mkRazorpayOrder id "order" amount currency "created" (Some receipt) (t / 1000)).

Lemma sdk_is_outside : sdk_outside.
Proof. intros a c r n. unfold orders_create, sdk.
  split; [split; intros; preserve|split; [split; intros; preserve|intros; preserve]].
Qed.

Definition founded : World :=
  (OrganizationService.createOrg "owner" (mkCreateOrgInput "Org" "org" None None) (empty_world 1000000)).2.

Definition DAY : Z := 86400000.

Lemma first_order : is_ok (PaymentService.createOrder "uuid-0" "pro" Monthly "owner" founded) = true.
Proof. vm_compute. reflexivity. Qed.

Definition ordered : World := (PaymentService.createOrder "uuid-0" "pro" Monthly "owner" founded).2.

Lemma same_day :
  (clock (run_payments [Webhook (PaymentFailed "pay-1" (Some "order-x"%string)); Later 3600000] ordered) / 86400000 =
   clock founded / 86400000)%Z.
Proof. vm_compute. reflexivity. Qed.

Lemma createOrder_once_a_day_witness :
  ∃ order' payment', PaymentService.createOrder "uuid-0" "pro" Monthly "guest"
    (run_payments [Webhook (PaymentFailed "pay-1" (Some "order-x"%string)); Later 3600000] ordered) =
    (Ok (order', payment'),
     run_payments [Webhook (PaymentFailed "pay-1" (Some "order-x"%string)); Later 3600000] ordered).
Proof.
  destruct (is_ok_inv _ first_order) as [[order payment] E].
  destruct (PaymentProperties.createOrder_once_a_day "uuid-0" "pro" Monthly "owner" "guest" founded order payment
    ordered [Webhook (PaymentFailed "pay-1" (Some "order-x"%string)); Later 3600000] sdk_is_outside E same_day)
    as (order' & payment' & E' & _).
  exists order', payment'. exact E'.
Defined.

(** The order of [ordered], and Razorpay's signature of a payment of it. *)
Definition order_id : string :=
  match payments (db ordered) with p :: _ => pay_razorpay_order_id p | [] => "" end.
Definition signature : string := hmac_sha256_hex (order_id +:+ "|pay-1") razorpayKeySecret.

Lemma verify_ok : is_ok (PaymentService.verifyPayment "uuid-0" order_id "pay-1" signature ordered) = true.
Proof. vm_compute. reflexivity. Qed.

Lemma not_captured : ∀ p, List.find (PaymentRepository.by_order order_id) (payments (db ordered)) = Some p →
  bool_decide (pay_status p = PayCaptured) = false.
Proof. vm_compute. by intros p [= <-]. Qed.

Lemma verifyPayment_captures_witness :
  ∃ plan, on_plan "uuid-0" plan
    (db (PaymentService.verifyPayment "uuid-0" order_id "pay-1" signature ordered).2).
Proof.
  destruct (is_ok_inv _ verify_ok) as [payment E].
  destruct (PaymentProperties.verifyPayment_captures "uuid-0" order_id "pay-1" signature ordered payment _ E)
    as (_ & p0 & Hf & _ & Hc).
  rewrite (not_captured p0 Hf) in Hc. destruct Hc as (_ & _ & (plan & _ & Hon) & _).
  exists plan. exact Hon.
Defined.

Definition failed_event : WebhookData := PaymentFailed "pay-1" (Some order_id).
Definition later_calls : list payment_call :=
  [PaymentJob "handle-payment-failure" "uuid-0"; Webhook (PaymentCaptured "pay-1" (Some order_id)); Later 3600000].

Lemma failed_once :
  (WebhookHandler.process failed_event ordered).1 = Ok WebhookHandler.received ∧
  redis_up (run_payments later_calls (WebhookHandler.process failed_event ordered).2) = true ∧
  (clock (run_payments later_calls (WebhookHandler.process failed_event ordered).2) <
     clock ordered + 7 * 24 * 3600 * 1000)%Z.
Proof. vm_compute. done. Qed.

Lemma event_unseen : redis_get (World.redis ordered) (clock ordered) (WebhookHandler.idempotencyKey failed_event) = None.
Proof. vm_compute. reflexivity. Qed.

Lemma later_forward : Forall forward later_calls.
Proof. by repeat (apply Forall_cons; split). Qed.

(** The same failure delivered again, after the capture: it does not undo
    it. *)
Lemma webhook_once_witness :
  WebhookHandler.process failed_event
    (run_payments later_calls (WebhookHandler.process failed_event ordered).2) =
  (Ok WebhookHandler.received, run_payments later_calls (WebhookHandler.process failed_event ordered).2).
Proof.
  pose proof (PaymentProperties.webhook_once failed_event ordered later_calls sdk_is_outside later_forward
    event_unseen) as Ht. pose proof failed_once as (Hr & Hup & Hlt).
  destruct (WebhookHandler.process failed_event ordered) as [r w1]. cbn [fst snd] in *.
  destruct Ht as [[_ Ht]|[Hne _]]; [exact (Ht Hup Hlt)|exfalso; exact (Hne Hr)].
Defined.

Definition org : OrgRow := hd (mkOrgRow "" "" "" OrgDeleted PFree 0 None None None None 0 0 0 false None false 0 0
  None "" "" 0 0 0) (organizations (db ordered)).

Definition meantime : list payment_call :=
  [CreateOrder "uuid-0" "pro" Monthly "owner"; Webhook (PaymentFailed "pay-2" (Some order_id)); Later DAY].

Lemma org_found : redis_up ordered = true ∧
  List.find (live_org "uuid-0") (organizations (db ordered)) = Some org ∧
  o_status org = OrgActive ∧ o_grace_period_ends_at org = None.
Proof. vm_compute. done. Qed.

Lemma meantime_ok : Forall (λ c, forward c ∧ unpaid "uuid-0" c) meantime.
Proof. by repeat (apply Forall_cons; split). Qed.

Lemma within :
  (clock (run_payments (PaymentJob "handle-payment-failure" "uuid-0" :: meantime) ordered) <
     clock ordered + 7 * 24 * 60 * 60 * 1000)%Z ∧
  (clock ordered + 7 * 24 * 60 * 60 * 1000 <=
     clock (run_payments (PaymentJob "handle-payment-failure" "uuid-0" :: meantime) ordered) + 6 * DAY)%Z.
Proof. vm_compute. split; [reflexivity|discriminate]. Qed.

Lemma grace_period_witness :
  on_table (in_grace "uuid-0" (clock ordered + 7 * 24 * 60 * 60 * 1000))
    (run_payments (PaymentJob "handle-payment-failure" "uuid-0" :: meantime) ordered) ∧
  ∃ o', List.find (live_org "uuid-0") (organizations (db (run_payments
      [Later (6 * DAY); PaymentJob "check-grace-period" "uuid-0"]
      (run_payments (PaymentJob "handle-payment-failure" "uuid-0" :: meantime) ordered)))) = Some o' ∧
    o_status o' = OrgSuspended.
Proof.
  pose proof (PaymentProperties.grace_period "uuid-0" org ordered meantime (6 * DAY) sdk_is_outside
    (proj1 org_found) (proj1 (proj2 org_found)) (proj1 (proj2 (proj2 org_found)))
    (proj2 (proj2 (proj2 org_found))) meantime_ok (proj1 within) (proj2 within)) as (Hg & _ & Hs & _).
  split; [exact Hg|exact Hs].
Defined.

(** The webhook of a payment captured while the period runs does not end it:
    the organization that has paid is suspended all the same. *)
Example capture_leaves_the_period :
  let w := run_payments [PaymentJob "handle-payment-failure" "uuid-0";
    Webhook (PaymentCaptured "pay-1" (Some order_id)); VerifyPayment "uuid-0" order_id "pay-1" signature;
    Later (7 * DAY); PaymentJob "check-grace-period" "uuid-0"] ordered in
  (o_status <$> organizations (db w)) = [OrgSuspended] ∧ (pay_status <$> payments (db w)) = [PayCaptured].
Proof. vm_compute. done. Qed.

(** The capture of the suspended organization's payment brings it back. *)
Example capture_ends_the_suspension :
  let w := run_payments [PaymentJob "handle-payment-failure" "uuid-0"; Later (7 * DAY);
    PaymentJob "check-grace-period" "uuid-0"; Webhook (PaymentCaptured "pay-1" (Some order_id))] ordered in
  ((λ o, (o_status o, o_grace_period_ends_at o)) <$> organizations (db w)) = [(OrgActive, None)].
Proof. vm_compute. done. Qed.

(** As the application is put together, no webhook is ever accepted: the body
    is parsed before the route can check the signature of its bytes. *)
Lemma deployed_webhook_rejected JSON_parse is_json bytes sig w :
  ∃ response, WebhookHandler.deliver JSON_parse is_json bytes sig w = (Ok response, w) ∧ rs_status response = 400%Z.
Proof.
  unfold WebhookHandler.deliver, WebhookHandler.webhook, RazorpayClient.verifyWebhookSignature.
  destruct is_json; [destruct (JSON_parse bytes)|]; destruct (otruthy sig); cbn; by eexists.
Qed.

(** A charged subscription always ends with an error: the handler first asks
    for the subscription of the empty organization id. *)
Lemma subscription_charged_fails id w :
  is_ok (WebhookHandler.handle (SubscriptionCharged id) w) = false.
Proof. done. Qed.

(** A failure that Razorpay reports after the capture overwrites it. *)
Example failure_overwrites_capture :
  let w := run_payments [Webhook (PaymentCaptured "pay-1" (Some order_id));
                         Webhook (PaymentFailed "pay-2" (Some order_id))] ordered in
  pay_status <$> payments (db w) = [PayFailed].
Proof. vm_compute. reflexivity. Qed.
End PaymentExamples.
