(* ===== verification/Gdpr.v ===== *)
(** * Gdpr: erasure of accounts and the end of an organization

    The handlers of [gdpr.router.ts] and the jobs they queue:
    [erasure.worker.ts] and [offboarding.worker.ts]. *)
From S2P Require Import Prelude Schema World Crypto Concrete OrgRepo AuthRepo Session Http Auth Organization OrgAccess.
From Stdlib Require Import ZArith Lia.
From stdpp Require Import base tactics strings gmap list.

Module GdprRouter.
Section handlers.
Context `{Redis, Random, Config, Crypto}.

(** The handlers, after their middlewares. *)
Definition export_request (c : OrgSessionCache) (userId : string) : M unit :=
  let* t := now in
  enqueue "gdpr-export" "gdpr-user-export"
    (JObj [("userId", JStr userId); ("orgId", JStr (oc_orgId c)); ("requestedAt", JNum t)]).

Definition erasure_request (c : OrgSessionCache) (userId password : string) : M unit :=
  let* row := select_one (λ u, (u_id u =? userId)%string && is_null (u_deleted_at u)) in
  match row with
  | None => throw (NotFoundError "User")
  | Some u =>
      match u_password_hash u with
      | None => throw (ForbiddenError "SSO_ONLY_ACCOUNT"
                  "Erasure for SSO-only accounts must be requested via support.")
      | Some hash =>
          if negb (truthy hash) then
            throw (ForbiddenError "SSO_ONLY_ACCOUNT"
              "Erasure for SSO-only accounts must be requested via support.")
          else if negb (bcrypt_compare password hash) then
            throw (UnauthorizedError "INVALID_PASSWORD" "Incorrect password.")
          else enqueue "erase-user" "erase-user" (JObj [("userId", JStr userId); ("orgId", JStr (oc_orgId c))])
      end
  end.

Definition org_export (orgId requestedByUserId : string) : M unit :=
  let* org := OrganizationRepository.findById orgId in
  match org with
  | None => throw (NotFoundError "Organization")
  | Some _ =>
      let* t := now in
      enqueue "gdpr-org-export" "gdpr-org-export"
        (JObj [("orgId", JStr orgId); ("requestedByUserId", JStr requestedByUserId); ("requestedAt", JNum t)])
  end.

Definition offboard (orgId : string) : M unit :=
  let* org := select_one (λ o, (o_id o =? orgId)%string && is_null (o_deleted_at o)) in
  match org with
  | None => throw (NotFoundError "Organization")
  | Some o =>
      if bool_decide (o_status o = OrgDeleted) then
        throw (ForbiddenError "ORG_ALREADY_DELETED" "Organization is already deleted.")
      else
        let* t := now in
        let* _ := update_touch (λ o, (o_id o =? orgId)%string)
          (λ o, o <| o_status := OrgOffboarding |> <| o_offboarding_started_at := Some t |>) in
        enqueue "offboarding" "offboard-org" (JObj [("orgId", JStr orgId)])
  end.
End handlers.
End GdprRouter.

(** The privilege to UPDATE [audit_logs] is not the application's
    ([migrations/011_audit_outbox.js]) but may have been granted: it is the
    argument [privileged]. *)
Definition insufficient_privilege : error := PgError "42501".

Module ErasureWorker.
Section worker.
Context `{Redis, Random, Config, Crypto}.

Definition anonymised (t : Z) (u : UserRow) : UserRow :=
  u <| u_email := "deleted_" +:+ u_id u +:+ "@anonymised.invalid" |> <| u_name := "Deleted User" |>
    <| u_phone := None |> <| u_avatar_url := None |> <| u_password_hash := None |>
    <| u_totp_secret := None |> <| u_totp_enabled := false |> <| u_mfa_backup_codes := [] |>
    <| u_status := UDeleted |> <| u_deleted_at := Some t |>.

Definition erasureWorkerJob (privileged : bool) (userId : string) : M unit :=
  let* t := now in
  let* _ := update_touch (λ u, (u_id u =? userId)%string) (anonymised t) in
  AuthRepository.revokeAllUserTokens userId ;;;
  rdel (JwtMiddleware.cache_key userId) ;;;
  catch
    (if privileged then
       let* _ := update_where (λ a, is_val (al_actor_id a) userId) (λ a, a <| al_actor_id := None |>) in ret tt
     else throw insufficient_privilege)
    (λ _, ret tt) ;;;
  let* _ := delete_where (λ p, (ap_user_id p =? userId)%string) in
  persistAuditLog None None ActSystem "user.erased" (Some "user"%string) (Some userId)
    (JObj [("userId", JStr userId)]).
End worker.
End ErasureWorker.

Module OffboardingWorker.
Section worker.
Context `{Redis, Random}.

(** [UPDATE .. SET deleted_at = now WHERE org_id = $1 AND deleted_at IS NULL]
    on the tables of the organization. *)
Definition delete_data (orgId : string) (t : Z) : M unit :=
  let* _ := update_touch (λ r, (ws_org_id r =? orgId)%string && is_null (ws_deleted_at r))
    (λ r, r <| ws_deleted_at := Some t |>) in
  let* _ := update_touch (λ r, (t_org_id r =? orgId)%string && is_null (t_deleted_at r))
    (λ r, r <| t_deleted_at := Some t |>) in
  let* _ := update_touch (λ r, (ch_org_id r =? orgId)%string && is_null (ch_deleted_at r))
    (λ r, r <| ch_deleted_at := Some t |>) in
  let* _ := update_where (λ r, (f_org_id r =? orgId)%string && is_null (f_deleted_at r))
    (λ r, r <| f_deleted_at := Some t |> <| f_status := FDeleted |>) in
  let* _ := update_touch (λ r, (wh_org_id r =? orgId)%string && is_null (wh_deleted_at r))
    (λ r, r <| wh_deleted_at := Some t |>) in
  ret tt.

Definition runOffboardingJob (orgId : string) : M unit :=
  let* org := select_one (λ o, (o_id o =? orgId)%string) in
  match org with
  | None => ret tt
  | Some o =>
      if negb (bool_decide (o_status o = OrgOffboarding)) then ret tt
      else
        let* members := select (MembershipRepository.active_in orgId) in
        for_each members (λ m,
          enqueue "erase-user" "erase-user" (JObj [("userId", JStr (om_user_id m)); ("orgId", JStr orgId)])) ;;;
        let* t := now in
        delete_data orgId t ;;;
        let* _ := update_touch (λ o, (o_id o =? orgId)%string)
          (λ o, o <| o_status := OrgDeleted |> <| o_deleted_at := Some t |>) in
        persistAuditLog (Some orgId) None ActSystem "org.deleted" (Some "org"%string) (Some orgId)
          (JObj [("orgId", JStr orgId)])
  end.
End worker.
End OffboardingWorker.

(** ** Erasure *)

Definition erased (u : UserRow) : Prop :=
  u_email u = "deleted_" +:+ u_id u +:+ "@anonymised.invalid" ∧ u_name u = "Deleted User"%string ∧
  u_phone u = None ∧ u_avatar_url u = None ∧ u_password_hash u = None ∧ u_totp_secret u = None ∧
  u_mfa_backup_codes u = [] ∧ u_status u = UDeleted ∧ is_Some (u_deleted_at u).

Section erasure.
Context `{Redis, !RedisLaws _, Random, Config, Crypto}.

(** The state a completed erasure leaves. *)
Lemma erasure_run privileged userId w w' :
  ErasureWorker.erasureWorkerJob privileged userId w = (Ok tt, w') →
  users (db w') = upd_where (λ u, (u_id u =? userId)%string)
    (λ u, touch (clock w) (ErasureWorker.anonymised (clock w) u)) (users (db w)) ∧
  refresh_tokens (db w') = upd_where (λ r, (rt_user_id r =? userId)%string && negb (rt_is_revoked r))
    (AuthRepository.revoke (clock w)) (refresh_tokens (db w)) ∧
  auth_providers (db w') = List.filter (λ p, negb (ap_user_id p =? userId)%string) (auth_providers (db w)) ∧
  (∃ a, audit_logs (db w') = (if privileged then
       upd_where (λ a, is_val (al_actor_id a) userId) (λ a, a <| al_actor_id := None |>) (audit_logs (db w))
     else audit_logs (db w)) ++ [a] ∧ al_actor_id a = None) ∧
  db w' = (db w) <| users := users (db w') |> <| refresh_tokens := refresh_tokens (db w') |>
    <| auth_providers := auth_providers (db w') |> <| audit_logs := audit_logs (db w') |> ∧
  redis w' = redis_del (redis w) (JwtMiddleware.cache_key userId) ∧ clock w' = clock w.
Proof.
  unfold ErasureWorker.erasureWorkerJob, AuthRepository.revokeAllUserTokens, rdel, bind, now, update_touch,
    update_where, catch, delete_where, persistAuditLog, gen_random_uuid, insert_row. cbn.
  destruct (redis_up w); cbn; [|done]. destruct privileged; cbn; intros [= <-]; tables; cbn.
  all: do 3 (split; [reflexivity|]); (split; [by eexists|split; [by destruct (db w)|by split_all]]).
Qed.

(** A deleted user's tokens are refused, when nothing is cached. *)
Lemma authenticate_deleted keyStore token payload userId w :
  jwt_verify (JwtMiddleware.getPublicKey keyStore (jwt_kid token)) token (clock w / 1000) = Some payload →
  jstr "sub" payload = Some userId →
  redis_get (redis w) (clock w) (JwtMiddleware.cache_key userId) = None →
  (∀ u, u ∈ users (db w) → u_id u = userId → u_status u = UDeleted) →
  ∃ e, (JwtMiddleware.authenticate keyStore (Bearer token) w).1 = Throw e.
Proof.
  intros Hv Hs Hcache Hdel.
  unfold JwtMiddleware.authenticate, JwtMiddleware.verifyToken, bind at 1, bind at 1, now. cbn [ret].
  rewrite Hv, Hs. unfold bind at 1.
  assert (Hb : ∃ b, JwtMiddleware.blacklisted (jstr "jti" payload ?? "undefined") w = (Ok b, w)).
  { unfold JwtMiddleware.blacklisted, catch, bind, rget. destruct (redis_up w); by eexists. }
  destruct Hb as [b ->]. destruct b; [by eexists|]. change (Some userId ?? "") with userId. unfold bind at 1.
  destruct (List.find (λ u, (u_id u =? userId)%string) (users (db w))) as [u|] eqn:Ef.
  - pose proof (resolveUser_uncached userId w u Hcache Ef) as Hres.
    destruct (JwtMiddleware.resolveUser userId w) as [r w1]. cbn [fst] in Hres. rewrite Hres.
    apply find_some_elem in Ef as [Hin Hid]. bool_to_prop. cbn [JwtMiddleware.cu_status].
    rewrite (Hdel u Hin Hid). rewrite bool_decide_true by done. by eexists.
  - assert (Hno : ∃ e, (JwtMiddleware.resolveUser userId w).1 = Throw e).
    { unfold JwtMiddleware.resolveUser, bind, catch, rget. rewrite Hcache.
      destruct (redis_up w); cbn; unfold select_one; tables; rewrite Ef; by eexists. }
    destruct Hno as [e He]. destruct (JwtMiddleware.resolveUser userId w) as [r w1]. cbn in He. subst r.
    by eexists.
Qed.
End erasure.

Module GdprProperties.
Section theorems.
Context `{Redis, !RedisLaws _, Random, Config, Crypto}.

(** What an update or a deletion leaves of the rows it does not name. *)
Lemma upd_where_others {R} (P Q : R → bool) f l r :
  (∀ x, P x = true → Q x = true) → (∀ x, Q (f x) = Q x) → Q r = false → r ∈ upd_where P f l ↔ r ∈ l.
Proof.
  intros HPQ Hf Hr. rewrite elem_of_upd_where. split.
  - intros (x & Hx & [[HP ->]|[_ ->]]); [|done]. rewrite Hf, (HPQ x HP) in Hr. done.
  - intros Hin. exists r. split; [done|right]. split; [|done]. destruct (P r) eqn:E; [|done].
    by rewrite (HPQ r E) in Hr.
Qed.

(** C19: after a completed erasure the row of the account keeps neither email,
    name, phone, picture, password nor second factor, none of its sessions is
    live, no identity provider is linked to it and, where the privilege was
    granted, no entry of the audit log names it as its actor; the accounts, the
    sessions and the providers of everyone else, and every other table, are as
    they were, and the audit log has one entry more; and no access token of the
    user is accepted any more. *)
Theorem erasure_erases privileged userId w w' :
  ErasureWorker.erasureWorkerJob privileged userId w = (Ok tt, w') →
  (∀ u, u ∈ users (db w') → u_id u = userId → erased u) ∧
  (∀ u, u_id u ≠ userId → u ∈ users (db w') ↔ u ∈ users (db w)) ∧
  (∀ r, r ∈ refresh_tokens (db w') → rt_user_id r = userId → rt_is_revoked r = true) ∧
  (∀ r, rt_user_id r ≠ userId → r ∈ refresh_tokens (db w') ↔ r ∈ refresh_tokens (db w)) ∧
  (∀ p, p ∈ auth_providers (db w') ↔ p ∈ auth_providers (db w) ∧ ap_user_id p ≠ userId) ∧
  (privileged = true → ∀ a, a ∈ audit_logs (db w') → al_actor_id a ≠ Some userId) ∧
  length (audit_logs (db w')) = S (length (audit_logs (db w))) ∧
  (∀ a, al_actor_id a ≠ Some userId → a ∈ audit_logs (db w) → a ∈ audit_logs (db w')) ∧
  db w' = (db w) <| users := users (db w') |> <| refresh_tokens := refresh_tokens (db w') |>
    <| auth_providers := auth_providers (db w') |> <| audit_logs := audit_logs (db w') |> ∧
  ∀ keyStore token payload,
    jwt_verify (JwtMiddleware.getPublicKey keyStore (jwt_kid token)) token (clock w' / 1000) = Some payload →
    jstr "sub" payload = Some userId →
    ∃ e, (JwtMiddleware.authenticate keyStore (Bearer token) w').1 = Throw e.
Proof.
  intros E. destruct (erasure_run _ _ _ _ E) as (Hu & Hr & Hp & (a & Ha & Haa) & Hframe & Hred & Hc).
  assert (Hgone : ∀ u, u ∈ users (db w') → u_id u = userId → erased u).
  { rewrite Hu. intros u (u0 & _ & [[_ ->]|[Hne ->]])%elem_of_upd_where Hid; [by split_all; eexists|by bool_to_prop]. }
  split; [exact Hgone|]. split_and!; [| | | | | | |exact Hframe|]; rewrite ?Hr, ?Hp, ?Ha.
  - rewrite Hu. intros u Hne. by apply (upd_where_others _ (λ u, u_id u =? userId)%string); [..|by apply String.eqb_neq].
  - intros r (r0 & _ & [[_ ->]|[Hne ->]])%elem_of_upd_where Hid; [done|].
    rewrite (proj2 (String.eqb_eq _ _) Hid) in Hne. by apply negb_false_iff in Hne.
  - intros r Hne. apply (upd_where_others _ (λ r, rt_user_id r =? userId)%string); [|done|by apply String.eqb_neq].
    by intros x [? _]%andb_true_iff.
  - intros p. rewrite elem_of_filter_bool, negb_true_iff, String.eqb_neq. done.
  - intros -> a0 [Hin| ->%list_elem_of_singleton]%elem_of_app; [|by rewrite Haa].
    apply elem_of_upd_where in Hin as (a1 & _ & [[_ ->]|[Hne ->]]); [done|].
    intros Heq. rewrite Heq in Hne. cbn in Hne. by rewrite String.eqb_refl in Hne.
  - rewrite length_app, Nat.add_comm. cbn. f_equal. destruct privileged; [apply length_map|done].
  - intros a0 Hne Hin. apply elem_of_app. left. destruct privileged; [|done]. apply elem_of_upd_where.
    exists a0. split; [done|right]. split; [|done]. destruct (is_val _ _) eqn:Ev; [|done].
    by apply is_val_spec in Ev.
  - intros keyStore token payload Hv Hs. eapply (authenticate_deleted _ _ _ _ _ Hv Hs).
    + rewrite Hred. apply redis_get_del_eq.
    + intros u Hin Hid. apply (Hgone u Hin Hid).
Qed.
End theorems.
End GdprProperties.

Module GdprExamples.
Import Concrete.

Definition account : World :=
  (AuthRepository.createUser (mkCreateUserData "ann@x.io" "Ann" (Some "hash"%string) (Some true) None)
     (empty_world 1000000)).2.

Definition user_id : string := match users (db account) with u :: _ => u_id u | [] => "" end.

Lemma erasure_ok : is_ok (ErasureWorker.erasureWorkerJob true user_id account) = true.
Proof. vm_compute. reflexivity. Qed.

Lemma erasure_erases_witness :
  Forall (λ u, u_id u = user_id → erased u)
    (users (db (ErasureWorker.erasureWorkerJob true user_id account).2)).
Proof.
  destruct (is_ok_inv _ erasure_ok) as [[] E]. apply Forall_forall.
  exact (proj1 (GdprProperties.erasure_erases true user_id account _ E)).
Defined.
End GdprExamples.
