(* ===== verification/Lifecycle.v ===== *)
(** * Lifecycle: the states of an organization

    Everything that writes the status of an organization, in one step
    relation: the services of [organization.service.ts], [admin.service.ts]
    and [payment.worker.ts], the webhook, the offboarding handler and its
    job. *)
From S2P Require Import Prelude Schema World Crypto Concrete OrgRepo AuthRepo Session Http Auth Organization.
From S2P Require Import OrgAccess Payments Gdpr.
From Stdlib Require Import ZArith Lia.
From stdpp Require Import base tactics strings gmap list relations.

Inductive lifecycle_call :=
  | Create (userId : string) (data : CreateOrgInput)
  | Update (orgId : string) (data : UpdateOrgData) (expectedVersion : Z)
  | Suspend (orgId reason : string) (actorId : option string)
  | Reactivate (orgId : string) (actorId : option string)
  | Offboard (orgId : string) (actorId : option string)
  | AdminSuspend (orgId reason actorId : string)
  | AdminReactivate (orgId actorId : string)
  | AdminOffboard (orgId actorId : string)
  | GdprOffboard (orgId : string)
  | OffboardingJob (orgId : string)
  | Payment (c : payment_call).

(** The edges of the state machine. *)
Inductive status_step : org_status → org_status → Prop :=
  | step_suspend : status_step OrgActive OrgSuspended
  | step_reactivate : status_step OrgSuspended OrgActive
  | step_offboard s : s ≠ OrgDeleted → status_step s OrgOffboarding
  | step_delete : status_step OrgOffboarding OrgDeleted.

Section lifecycle.
Context `{Redis, Random, Config, Crypto, !RazorpaySdk}.

Definition lcall (c : lifecycle_call) : M unit :=
  match c with
  | Create u d => let* _ := OrganizationService.createOrg u d in ret tt
  | Update o d v => let* _ := OrganizationService.updateOrg o d v in ret tt
  | Suspend o r a => OrganizationService.suspendOrg o r a
  | Reactivate o a => OrganizationService.reactivateOrg o a
  | Offboard o a => OrganizationService.startOffboarding o a
  | AdminSuspend o r a => AdminService.suspendOrg o r a
  | AdminReactivate o a => AdminService.reactivateOrg o a
  | AdminOffboard o a => AdminService.offboardOrg o a
  | GdprOffboard o => GdprRouter.offboard o
  | OffboardingJob o => OffboardingWorker.runOffboardingJob o
  | Payment c => pcall c
  end.

Definition run_lifecycle (cs : list lifecycle_call) (w : World) : World := foldl (λ w c, (lcall c w).2) w cs.

(** ** The invariant *)

(** Identifiers are random draws, each used once, and an organization is
    deleted exactly when it has a deletion date. *)
Record orgs_ok (n : nat) (l : list OrgRow) : Prop := {
  oo_ids : NoDup (o_id <$> l);
  oo_drawn : ∀ o, o ∈ l → ∃ k, k < n ∧ o_id o = random_uuid k;
  oo_deleted : ∀ o, o ∈ l → o_status o = OrgDeleted ↔ o_deleted_at o ≠ None;
}.

(** From one state of the table to a later one: the organizations stay, in
    order, each along the edges; new ones are active. *)
Definition evolves (l l' : list OrgRow) : Prop :=
  ∀ i o, l !! i = Some o →
    ∃ o', l' !! i = Some o' ∧ o_id o' = o_id o ∧ rtc status_step (o_status o) (o_status o').

Lemma evolves_refl l : evolves l l.
Proof. intros i o Ho. by exists o. Qed.
Lemma evolves_trans l1 l2 l3 : evolves l1 l2 → evolves l2 l3 → evolves l1 l3.
Proof.
  intros H12 H23 i o Ho. destruct (H12 i o Ho) as (o2 & Ho2 & Hid & Hs).
  destruct (H23 i o2 Ho2) as (o3 & Ho3 & Hid' & Hs'). exists o3.
  split; [done|]. split; [congruence|]. by etrans.
Qed.

(** One state of the table is ok and came from [l0]. *)
Definition machine (l0 : list OrgRow) (n : nat) (l : list OrgRow) : Prop := orgs_ok n l ∧ evolves l0 l.

Lemma machine_mono l0 n m l : n ≤ m → machine l0 n l → machine l0 m l.
Proof.
  intros Hle [[Hnd Hdr Hdel] He]. split; [split; [done| |done]|done].
  intros o Ho. destruct (Hdr o Ho) as (k & Hk & E). exists k. split; [lia|done].
Qed.

(** An update moves the rows along the edges. *)
Lemma machine_upd l0 n P f l :
  (∀ o, P o = true → o_id (f o) = o_id o) →
  (∀ o, o ∈ l → P o = true → rtc status_step (o_status o) (o_status (f o)) ∧
     (o_status (f o) = OrgDeleted ↔ o_deleted_at (f o) ≠ None)) →
  machine l0 n l → machine l0 n (upd_where P f l).
Proof.
  intros Hid Hf [[Hnd Hdr Hdel] He]. split.
  - split.
    + by rewrite fmap_upd_where.
    + intros o (o' & Ho' & [[HP ->]|[_ ->]])%elem_of_upd_where; [rewrite Hid by done|]; auto.
    + intros o (o' & Ho' & [[HP ->]|[_ ->]])%elem_of_upd_where; [by apply Hf|auto].
  - intros i o Ho. destruct (He i o Ho) as (o' & Ho' & Hi & Hs). rewrite lookup_upd_where, Ho'.
    eexists. split; [reflexivity|]. destruct (P o') eqn:EP; [|done]. rewrite Hid by done.
    split; [done|]. etrans; [exact Hs|]. apply Hf; [|done]. by apply list_elem_of_lookup_2 with i.
Qed.
End lifecycle.

Section machine.
Context `{Redis, Random, !RandomLaws _, Config, Crypto, !RazorpaySdk}.
Context (l0 : list OrgRow).

Notation keeps m := (preserves (tracked (machine l0)) m).

Lemma keeps_untouched {A} (m : M A) : untouched OrgRow m → keeps m.
Proof. apply preserves_untouched. intros n n' l. apply machine_mono. Qed.

Lemma keeps_update P f :
  (∀ o, P o = true → o_id (f o) = o_id o) →
  (∀ w o, tracked (machine l0) w → o ∈ organizations (db w) → P o = true →
     rtc status_step (o_status o) (o_status (f o)) ∧ (o_status (f o) = OrgDeleted ↔ o_deleted_at (f o) ≠ None)) →
  keeps (update_touch P f).
Proof.
  intros Hid Hf w Hw. unfold tracked in *. cbn. rewrite rows_set_rows.
  apply machine_upd; [done| |exact Hw]. intros o Ho HP. by apply (Hf w).
Qed.

(** An update that keeps the status and the deletion date. *)
Lemma keeps_other_columns P f :
  (∀ o, o_id (f o) = o_id o ∧ o_status (f o) = o_status o ∧ o_deleted_at (f o) = o_deleted_at o) →
  keeps (update_touch P f).
Proof.
  intros Hf. apply keeps_update; [intros o _; apply Hf|].
  intros w o [Hok _] Ho _. destruct (Hf o) as (_ & -> & ->). split; [done|]. by apply Hok.
Qed.

(** The status of one organization, known to be [o], changes. *)
Lemma updateStatus_keeps orgId o s off w :
  tracked (machine l0) w → o ∈ organizations (db w) → o_id o = orgId →
  status_step (o_status o) s → s ≠ OrgDeleted →
  tracked (machine l0) (OrganizationRepository.updateStatus orgId s off None w).2.
Proof.
  intros Hw Ho Hid Hstep Hs. unfold tracked in *. cbn. rewrite rows_set_rows.
  apply machine_upd; [by intros ? _| |exact Hw].
  intros o' Ho' [HP%String.eqb_eq Hn%is_null_spec]%andb_true_iff.
  assert (o' = o) as -> by (destruct Hw as [[Hnd _ _] _]; eapply NoDup_fmap_elem; [exact Hnd|done|done|congruence]).
  cbn. split; [by apply rtc_once|]. by rewrite Hn.
Qed.

(** What follows the lookup of an organization knows its row. *)
Lemma keeps_found {B} orgId (k : option OrgRow → M B) :
  keeps (k None) →
  (∀ w o, tracked (machine l0) w → o ∈ organizations (db w) → o_id o = orgId → o_deleted_at o = None →
     tracked (machine l0) (k (Some o) w).2) →
  keeps (let* o := OrganizationRepository.findById orgId in k o).
Proof.
  intros Hnone Hsome w Hw. unfold bind, OrganizationRepository.findById, select_one. tables.
  destruct (List.find _ _) as [o|] eqn:Ef; [|by apply Hnone].
  apply find_some_elem in Ef as [Ho [HP%String.eqb_eq Hn%is_null_spec]%andb_true_iff]. by apply Hsome.
Qed.

Lemma tracked_bind {A B} (m : M A) (k : A → M B) w :
  tracked (machine l0) (m w).2 → (∀ a, keeps (k a)) → tracked (machine l0) (bind m k w).2.
Proof. intros Hm Hk. unfold bind. destruct (m w) as [[a|e] w']; [by apply Hk|done]. Qed.

Lemma keeps_transaction {A} (m : M A) :
  keeps m → (∀ n t up, preserves (ambient n t up) m) → keeps (withTransaction m).
Proof.
  intros Hm Ha w Hw. unfold withTransaction. specialize (Hm w Hw).
  destruct (Ha (draws w) (clock w) (redis_up w) w) as (Hd & _ & _); [done|].
  destruct (m w) as [[a|e] w']; [done|]. unfold tracked in *. cbn in *. eapply machine_mono; [exact Hd|exact Hw].
Qed.

Lemma create_keeps d : keeps (OrganizationRepository.create d).
Proof.
  intros w Hw. unfold OrganizationRepository.create, bind, gen_random_uuid, now, insert_unique. tables. cbn.
  destruct (existsb _ _); cbn.
  { unfold tracked in *. cbn. eapply machine_mono; [|exact Hw]. lia. }
  unfold tracked in *. cbn. tables. cbn. destruct Hw as [[Hnd Hdr Hdel] He].
  change (rows (db w)) with (organizations (db w)) in *. split.
  - split.
    + rewrite fmap_app. apply NoDup_app. split; [done|]. split; [|apply NoDup_singleton].
      cbn. intros x Hx ->%list_elem_of_singleton. apply list_elem_of_fmap in Hx as (o & E & Ho).
      destruct (Hdr o Ho) as (k & Hk & Ek). rewrite Ek in E. apply random_uuid_inj in E. lia.
    + intros o [Ho| ->%list_elem_of_singleton]%elem_of_app; [|exists (draws w); split; [lia|done]].
      destruct (Hdr o Ho) as (k & Hk & Ek). exists k. split; [lia|done].
    + intros o [Ho| ->%list_elem_of_singleton]%elem_of_app; [by apply Hdel|done].
  - intros i o Ho. destruct (He i o Ho) as (o' & Ho' & Hr). exists o'. split; [|done].
    by apply lookup_app_l_Some.
Qed.

Lemma keeps_getOrg {B} orgId (k : OrgRow → M B) :
  (∀ w o, tracked (machine l0) w → o ∈ organizations (db w) → o_id o = orgId → o_deleted_at o = None →
     tracked (machine l0) (k o w).2) →
  keeps (let* o := OrganizationService.getOrg orgId in k o).
Proof.
  intros Hk w Hw. unfold OrganizationService.getOrg, OrganizationService.found_org, bind,
    OrganizationRepository.findById, select_one. tables.
  destruct (List.find _ _) as [o|] eqn:Ef; [|done].
  apply find_some_elem in Ef as [Ho [HP%String.eqb_eq Hn%is_null_spec]%andb_true_iff]. by apply Hk.
Qed.

(** The outbox and the audit log are elsewhere. *)
Lemma writers_keep :
  (∀ o e t i a p, keeps (World.writeOutboxEvent o e t i a p)) ∧
  (∀ o a ty e et ei p, keeps (persistAuditLog o a ty e et ei p)).
Proof. split; intros; apply keeps_untouched; split; intros; preserve. Qed.

(** A change of status, announced and audited. *)
Lemma announced_keeps orgId o s off w (k : M unit) :
  tracked (machine l0) w → o ∈ organizations (db w) → o_id o = orgId →
  status_step (o_status o) s → s ≠ OrgDeleted → keeps k →
  tracked (machine l0) ((let* _ := OrganizationRepository.updateStatus orgId s off None in k) w).2.
Proof. intros Hw Ho Hid Hst Hs Hk. apply tracked_bind; [by eapply updateStatus_keeps|done]. Qed.

Lemma org_service_keeps orgId :
  (∀ r a, keeps (OrganizationService.suspendOrg orgId r a)) ∧
  (∀ a, keeps (OrganizationService.reactivateOrg orgId a)) ∧
  (∀ a, keeps (OrganizationService.startOffboarding orgId a)).
Proof.
  destruct writers_keep as [Hob Hau].
  assert (Hann : ∀ e a p et t2 p2, keeps (OrganizationService.writeOutboxEvent e orgId orgId a p ;;;
    OrganizationService.audit_org orgId et t2 p2)).
  { intros. apply preserves_bind; [apply Hob|intros; apply Hau]. }
  split; [|split]; intros; apply keeps_getOrg; intros w o Hw Ho Hid Hn.
  - case_bool_decide as Hs; [|done]. cbn [negb].
    apply (announced_keeps orgId o); [done|done|done| |done|apply Hann]. rewrite Hs. constructor.
  - case_bool_decide as Hs; [|done]. cbn [negb].
    apply (announced_keeps orgId o); [done|done|done| |done|apply Hann]. rewrite Hs. constructor.
  - destruct (negb _ && negb _) eqn:Eb; [done|]. unfold bind at 1, now.
    apply (announced_keeps orgId o); [done|done|done| |done|apply Hann]. constructor. intros Hs. rewrite Hs in Eb. done.
Qed.

Lemma createOrg_keeps u d : keeps (OrganizationService.createOrg u d).
Proof.
  destruct writers_keep as [Hob _]. unfold OrganizationService.createOrg.
  apply preserves_bind; [by intros w Hw|intros ex]. destruct ex; [apply preserves_throw|].
  apply preserves_bind; [|intros o; apply preserves_bind; [apply Hob|intros; apply preserves_ret]].
  apply keeps_transaction.
  - unfold OrganizationService.provision. apply preserves_bind; [apply create_keeps|intros o].
    apply keeps_untouched. unfold MembershipRepository.createMembership, seedNotificationPreferences.
    split; intros; preserve.
  - intros n t up. unfold OrganizationService.provision, OrganizationRepository.create,
      MembershipRepository.createMembership, seedNotificationPreferences. preserve.
Qed.

Lemma updateOrg_keeps o d v : keeps (OrganizationService.updateOrg o d v).
Proof.
  assert (Hf : ∀ o, keeps (OrganizationRepository.findById o)) by (intros o' w Hw; exact Hw).
  assert (Hs : ∀ P, keeps (select (R := OrgRow) P)) by (intros P w Hw; exact Hw).
  unfold OrganizationService.updateOrg, OrganizationRepository.update, OrganizationService.found_org. cbv zeta.
  repeat first [apply Hf | apply Hs | apply keeps_other_columns; intros ?; by split_all | progress preserve].
Qed.

(** Two invariants, one for the start and one for the end of a sequence. *)
Lemma seq_inv (Q R : World → Prop) {A B} (m : M A) (k : A → M B) :
  preserves Q m → (∀ w, Q w → R w) → (∀ a w, Q w → R (k a w).2) → ∀ w, Q w → R (bind m k w).2.
Proof.
  intros Hm HR Hk w Hw. specialize (Hm w Hw). unfold bind. destruct (m w) as [[a|e] w']; auto.
Qed.

(** The unique row of an organization. *)
Lemma machine_row n l o o' :
  machine l0 n l → o ∈ l → o' ∈ l → o_id o = o_id o' → o = o'.
Proof. intros [[Hnd _ _] _]. by apply NoDup_fmap_elem. Qed.

Lemma machine_live n l o : machine l0 n l → o ∈ l → o_status o ≠ OrgDeleted → o_deleted_at o = None.
Proof.
  intros [[_ _ Hdel] _] Ho Hs. destruct (o_deleted_at o) eqn:E; [|done]. destruct Hs. apply Hdel; congruence.
Qed.

Lemma gdpr_offboard_keeps orgId : keeps (GdprRouter.offboard orgId).
Proof.
  intros w Hw. unfold GdprRouter.offboard, bind at 1, select_one. tables.
  destruct (List.find _ _) as [o|] eqn:Ef; [|done].
  apply find_some_elem in Ef as [Ho [HP%String.eqb_eq Hn%is_null_spec]%andb_true_iff].
  case_bool_decide as Hs; [done|]. unfold bind at 1, now. apply tracked_bind.
  - unfold tracked in *. cbn. rewrite rows_set_rows. apply machine_upd; [by intros ? _| |exact Hw].
    intros o' Ho' HP'%String.eqb_eq. rewrite (machine_row _ _ o' o Hw Ho' Ho) by congruence. cbn.
    split; [by apply rtc_once; constructor|]. by rewrite Hn.
  - intros _. apply keeps_untouched. unfold enqueue. split; intros; preserve.
Qed.

(** The data of the organization are in other tables. *)
Lemma delete_data_untouched orgId t : untouched OrgRow (OffboardingWorker.delete_data orgId t).
Proof. unfold OffboardingWorker.delete_data. split; intros; preserve. Qed.

Lemma offboarding_job_keeps orgId : keeps (OffboardingWorker.runOffboardingJob orgId).
Proof.
  destruct writers_keep as [_ Hau].
  intros w Hw. unfold OffboardingWorker.runOffboardingJob, bind at 1, select_one. tables.
  destruct (List.find _ _) as [o|] eqn:Ef; [|done].
  apply find_some_elem in Ef as [Ho HP%String.eqb_eq].
  case_bool_decide as Hs; [|done]. cbn [negb].
  set (Q := λ w, tracked (machine l0) w ∧ on_table (λ l, o ∈ l) w).
  assert (HQ : ∀ {A} (m : M A), untouched OrgRow m → preserves Q m).
  { intros A m Hm. apply preserves_and; [by apply keeps_untouched|apply Hm]. }
  assert (Hw' : Q w) by by split. clear Hw Ho. revert w Hw'.
  apply seq_inv; [apply HQ; split; intros; preserve|by intros w []|intros ms].
  apply seq_inv; [apply HQ; unfold enqueue; split; intros; preserve|by intros w []|intros _].
  apply seq_inv; [apply HQ; split; intros; preserve|by intros w []|intros t].
  apply seq_inv; [apply HQ, delete_data_untouched|by intros w []|intros _].
  intros w [Hw Ho]. apply tracked_bind; [|intros _; apply Hau].
  unfold tracked, on_table in *. cbn. rewrite rows_set_rows. apply machine_upd; [by intros ? _| |exact Hw].
  intros o' Ho' HP'%String.eqb_eq. rewrite (machine_row _ _ o' o Hw Ho' Ho) by congruence. cbn.
  rewrite Hs. split; [apply rtc_once; constructor|done].
Qed.

Lemma reactivate_suspended_keeps orgId : keeps (WebhookHandler.reactivate_suspended orgId).
Proof.
  unfold WebhookHandler.reactivate_suspended. apply preserves_bind; [|intros; apply preserves_ret].
  apply keeps_update; [by intros ? _|]. intros w o Hw Ho [_ Hs%bool_decide_eq_true]%andb_true_iff. cbn.
  rewrite Hs. split; [apply rtc_once; constructor|].
  by rewrite (machine_live _ _ _ Hw Ho) by (by rewrite Hs).
Qed.

Lemma pcall_keeps c : sdk_outside → keeps (pcall c).
Proof.
  intros Hsdk. destruct (writers_keep) as [Hob Hau].
  assert (Horg : ∀ {A} (m : M A), untouched OrgRow m → keeps m) by (intros; by apply keeps_untouched).
  destruct c as [o p b u|o r p s|n o|d|ms]; cbn [pcall].
  - apply Horg. unfold PaymentService.createOrder, PaymentService.writeOutboxEvent, RazorpayClient.createOrder,
      PaymentRepository.findByIdempotencyKey, PaymentRepository.create.
    split; intros; repeat first [apply (proj1 (proj2 (Hsdk _ _ _ _))) | progress preserve].
  - apply preserves_bind; [|intros; apply preserves_ret]. unfold PaymentService.verifyPayment.
    assert (Hup : ∀ o p, keeps (PaymentService.upgrade o p)).
    { intros o' p'. unfold PaymentService.upgrade. destruct (parse_plan p'); [|apply preserves_throw].
      apply preserves_bind; [apply Horg; unfold SubscriptionRepository.upsert; split; intros; preserve|intros _].
      apply preserves_bind; [|intros; apply preserves_ret]. apply keeps_other_columns. intros; by split_all. }
    assert (Hst : ∀ o s x, keeps (PaymentRepository.updateStatus o s x)).
    { intros. apply Horg. unfold PaymentRepository.updateStatus. split; intros; preserve. }
    assert (Hf : ∀ o, keeps (PaymentRepository.findByOrderId o)) by (intros o' w Hw; exact Hw).
    assert (Hn : keeps now) by (intros w Hw; exact Hw).
    repeat first [apply Hup | apply Hst | apply Hf | apply Hn | apply Hob | progress preserve].
  - destruct (org_service_keeps o) as (Hs & Hr & _).
    assert (Hf : ∀ o, keeps (OrganizationRepository.findById o)) by (intros o' w Hw; exact Hw).
    assert (Hn : keeps now) by (intros w Hw; exact Hw).
    assert (He : ∀ d q n j, keeps (enqueue_in d q n j)) by (intros; apply Horg; split; intros; preserve).
    unfold PaymentWorker.paymentWorkerJob, PaymentWorker.handlePaymentFailure, PaymentWorker.checkGracePeriod,
      PaymentWorker.handlePaymentCaptured, PaymentWorker.writeOutboxEvent.
    repeat first [apply Hs | apply Hr | apply Hf | apply Hn | apply Hob | apply He
      | apply keeps_other_columns; intros; by split_all | progress preserve].
  - pose proof (reactivate_suspended_keeps) as Hr.
    assert (Hst : ∀ o s x, keeps (PaymentRepository.updateStatus o s x)).
    { intros. apply Horg. unfold PaymentRepository.updateStatus. split; intros; preserve. }
    unfold WebhookHandler.process, WebhookHandler.handle, WebhookHandler.handlePaymentCaptured,
      WebhookHandler.handlePaymentFailed, WebhookHandler.handleSubscriptionCharged,
      WebhookHandler.handleRefundCreated, WebhookHandler.handleDisputeCreated,
      WebhookHandler.writeOutboxEvent, SubscriptionRepository.findByOrg, PaymentRepository.findByOrderId.
    repeat first [apply Hr | apply Hst | apply Hob | progress preserve
      | solve [intros; apply Horg; unfold enqueue; split; intros; preserve]].
  - by intros w Hw.
Qed.

Lemma lcall_keeps c : sdk_outside → keeps (lcall c).
Proof.
  intros Hsdk. destruct writers_keep as [_ Hau].
  assert (Hret : ∀ {A} (m : M A), keeps m → keeps (let* _ := m in ret tt)).
  { intros A m Hm. apply preserves_bind; [done|intros; apply preserves_ret]. }
  destruct c; cbn [lcall]; try (destruct (org_service_keeps orgId) as (Hs & Hr & Ho)).
  - apply Hret, createOrg_keeps.
  - apply Hret, updateOrg_keeps.
  - apply Hs.
  - apply Hr.
  - apply Ho.
  - apply preserves_bind; [apply Hau|intros; apply Hs].
  - apply preserves_bind; [apply Hau|intros; apply Hr].
  - apply preserves_bind; [apply Hau|intros; apply Ho].
  - apply gdpr_offboard_keeps.
  - apply offboarding_job_keeps.
  - by apply pcall_keeps.
Qed.

Lemma run_keeps cs w :
  sdk_outside → tracked (machine l0) w → tracked (machine l0) (run_lifecycle cs w).
Proof.
  intros Hsdk. revert w. induction cs as [|c cs IH]; intros w Hw; [done|]. apply IH. by apply lcall_keeps.
Qed.
End machine.

(** From offboarding there is no way back, and from deleted none at all. *)
Lemma terminal s s' :
  rtc status_step s s' →
  (s = OrgDeleted → s' = OrgDeleted) ∧ (s = OrgOffboarding → s' = OrgOffboarding ∨ s' = OrgDeleted).
Proof.
  induction 1 as [s|s s1 s2 H1 _ [IHd IHo]]; [by auto|]. inversion H1; subst; split; intros E; try done; auto.
Qed.

Module LifecycleProperties.
Section theorems.
Context `{Redis, Random, !RandomLaws _, Config, Crypto, !RazorpaySdk}.

(** C20: the life of an organization: whatever the services, the
    administrators, Razorpay's webhooks and the workers do, in any order, an
    organization is never removed from the table and its status follows the
    edges suspend, reactivate, offboard, delete; once offboarding it ends
    offboarding or deleted, and once deleted it stays deleted; and it has a
    deletion date exactly when it is deleted. *)
Theorem organization_lifecycle cs w :
  sdk_outside → orgs_ok (draws w) (organizations (db w)) →
  let w' := run_lifecycle cs w in
  orgs_ok (draws w') (organizations (db w')) ∧
  ∀ i o, organizations (db w) !! i = Some o →
    ∃ o', organizations (db w') !! i = Some o' ∧ o_id o' = o_id o ∧
      rtc status_step (o_status o) (o_status o') ∧
      (o_status o = OrgOffboarding → o_status o' = OrgOffboarding ∨ o_status o' = OrgDeleted) ∧
      (o_status o = OrgDeleted → o_status o' = OrgDeleted).
Proof.
  intros Hsdk Hok w'.
  destruct (run_keeps (organizations (db w)) cs w Hsdk) as [Hok' He]; [by split; [|apply evolves_refl]|].
  split; [exact Hok'|]. intros i o Ho. destruct (He i o Ho) as (o' & Ho' & Hid & Hs).
  exists o'. destruct (terminal _ _ Hs) as [Hd Hoff]. by do 4 (split; [done|]).
Qed.
End theorems.
End LifecycleProperties.

Module LifecycleExamples.
Import Concrete.
Import PaymentExamples.
#[local] Existing Instance sdk.

(** A failed payment, the suspension, a recovery, and the end. *)
Definition story : list lifecycle_call :=
  [Payment (PaymentJob "handle-payment-failure" "uuid-0"); Payment (Later (8 * DAY));
   Payment (PaymentJob "check-grace-period" "uuid-0"); Payment (Webhook (PaymentCaptured "pay-1" (Some order_id)));
   Offboard "uuid-0" None; OffboardingJob "uuid-0"; Reactivate "uuid-0" None;
   Payment (Webhook (PaymentCaptured "pay-1" (Some order_id)))].

Lemma ordered_ok : orgs_ok (draws ordered) (organizations (db ordered)).
Proof.
  assert (E : organizations (db ordered) = [org] ∧ o_id org = random_uuid 0 ∧ 0 < draws ordered ∧
    o_status org = OrgActive ∧ o_deleted_at org = None).
  { vm_compute. split_all. lia. }
  destruct E as (-> & Hid & Hlt & Hs & Hd). split.
  - apply NoDup_singleton.
  - intros o ->%list_elem_of_singleton. exists 0. exact (conj Hlt Hid).
  - intros o ->%list_elem_of_singleton. rewrite Hs, Hd. split; [discriminate|congruence].
Qed.

Lemma organization_lifecycle_witness :
  orgs_ok (draws (run_lifecycle story ordered)) (organizations (db (run_lifecycle story ordered))).
Proof.
  exact (proj1 (LifecycleProperties.organization_lifecycle story ordered sdk_is_outside ordered_ok)).
Defined.

Example story_ends : o_status <$> organizations (db (run_lifecycle story ordered)) = [OrgDeleted].
Proof. vm_compute. reflexivity. Qed.
End LifecycleExamples.
