(* ===== verification/Chat.v ===== *)
(** * Chat: channels, their sequences and their messages

    [modules/chat]: [channel.repository.ts], [channel.service.ts],
    [message.repository.ts], [message.service.ts], [sequence.service.ts].  The
    sequence of a channel is a sequence of the database. *)
From S2P Require Import Prelude Schema World Crypto Concrete OrgRepo FeatureFlags.
From Stdlib Require Import ZArith Lia Ascii.
From stdpp Require Import base tactics strings gmap list sorting pretty.

(** ** Sequences *)

(** [s.replace(/-/g, '_')]. *)
Fixpoint underscores (s : string) : string :=
  match s with
  | EmptyString => EmptyString
  | String c s => String (if Ascii.eqb c "-" then "_"%char else c) (underscores s)
  end.

Definition seq_name (channelId : string) : string := "channel_seq_" +:+ underscores channelId.

(** [undefined_table]: the sequence does not exist. *)
Definition undefined_table : error := PgError "42P01".
(** [sequence_generator_limit_exceeded]. *)
Definition sequence_limit : error := PgError "2200H".
Definition bigint_max : Z := (2 ^ 63 - 1)%Z.

Section sequences.
Context `{Redis}.

(** [create_channel_sequence] of [migrations/014_misc.js]: CREATE SEQUENCE IF
    NOT EXISTS.  The state of a sequence is the last value it gave, 0 before
    the first. *)
Definition create_channel_sequence (channelId : string) : M unit := λ w,
  (Ok tt,
   match sequences (db w) !! seq_name channelId with
   | Some _ => w
   | None => w <| db := (db w) <| sequences := <[seq_name channelId := 0%Z]> (sequences (db w)) |> |>
   end).

(** [nextSequence] of [message.service.ts], the same as
    [SequenceService.nextSequence]: [nextval]. *)
Definition nextSequence (channelId : string) : M Z := λ w,
  match sequences (db w) !! seq_name channelId with
  | None => (Throw undefined_table, w)
  | Some n =>
      if (bigint_max <? n + 1)%Z then (Throw sequence_limit, w)
      else (Ok (n + 1)%Z,
            w <| db := (db w) <| sequences := <[seq_name channelId := (n + 1)%Z]> (sequences (db w)) |> |>)
  end.
End sequences.

Module ChannelRepository.
Section repo.
Context `{Redis, Random}.

Definition findById (id : string) : M (option ChannelRow) :=
  select_one (λ c, (ch_id c =? id)%string && is_null (ch_deleted_at c)).

(** [ORDER BY created_at ASC]: rows are in the order of their creation. *)
Definition findByOrg (orgId : string) (workspaceId : option string) : M (list ChannelRow) :=
  match workspaceId with
  | Some ws =>
      if truthy ws then
        select (λ c, (ch_org_id c =? orgId)%string && is_val (ch_workspace_id c) ws && is_null (ch_deleted_at c))
      else select (λ c, (ch_org_id c =? orgId)%string && is_null (ch_deleted_at c))
  | None => select (λ c, (ch_org_id c =? orgId)%string && is_null (ch_deleted_at c))
  end.

Definition create (orgId : string) (type : channel_type) (createdBy : string) (name workspaceId : option string)
    : M ChannelRow :=
  let* id := gen_random_uuid in
  let* t := now in
  let row := mkChannelRow id orgId type name createdBy workspaceId None t t in
  insert_row row ;;; ret row.

Definition of_member (channelId userId : string) (m : ChannelMemberRow) : bool :=
  (chm_channel_id m =? channelId)%string && (chm_user_id m =? userId)%string.

Definition addMember (channelId userId orgId : string) : M unit :=
  let* t := now in
  insert_or_ignore (of_member channelId userId) (mkChannelMemberRow channelId userId orgId 0 None t None).

Definition isMember (channelId userId : string) : M bool :=
  let* m := select_one (λ m, of_member channelId userId m && is_null (chm_removed_at m)) in
  ret (negb (is_null m)).

Definition getMembers (channelId : string) : M (list ChannelMemberRow) :=
  select (λ m, (chm_channel_id m =? channelId)%string && is_null (chm_removed_at m)).

Definition of_pair (orgId a b : string) (p : DirectChannelPairRow) : bool :=
  (dcp_org_id p =? orgId)%string && (dcp_user_a_id p =? a)%string && (dcp_user_b_id p =? b)%string.

(** The primary key is the pair, the channel is UNIQUE, and the pair is
    checked to be in order. *)
Definition insertDirectPair (orgId userAId userBId channelId : string) : M unit :=
  let* t := now in
  if negb (String.ltb userAId userBId) then throw (PgError "23514")
  else insert_unique (λ p, of_pair orgId userAId userBId p || (dcp_channel_id p =? channelId)%string)
    (mkDirectChannelPairRow orgId userAId userBId channelId t).

Definition findDirectChannel (orgId userAId userBId : string) : M (option ChannelRow) :=
  let a := if String.ltb userAId userBId then userAId else userBId in
  let b := if String.ltb userAId userBId then userBId else userAId in
  let* pairs := select (of_pair orgId a b) in
  select_one (λ c, existsb (λ p, (dcp_channel_id p =? ch_id c)%string) pairs && is_null (ch_deleted_at c)).

Definition updateLastRead (channelId userId : string) (sequence : Z) : M unit :=
  let* t := now in
  let* _ := update_where (of_member channelId userId)
    (λ m, m <| chm_last_read_sequence := sequence |> <| chm_last_read_at := Some t |>) in
  ret tt.
End repo.
End ChannelRepository.

Module ChannelService.
Section service.
Context `{Redis, !RedisHash, Random}.

Definition writeOutboxEvent (eventType orgId entityId : string) (actorUserId : option string) (payload : json)
    : M unit :=
  World.writeOutboxEvent (Some orgId) eventType "channel" entityId actorUserId payload.

(** The transaction of [createDirect]. *)
Definition open_direct (orgId creatorId otherUserId userAId userBId : string) : M ChannelRow :=
  withTransaction
    (let* ch := ChannelRepository.create orgId Direct creatorId None None in
     ChannelRepository.addMember (ch_id ch) creatorId orgId ;;;
     ChannelRepository.addMember (ch_id ch) otherUserId orgId ;;;
     ChannelRepository.insertDirectPair orgId userAId userBId (ch_id ch) ;;;
     create_channel_sequence (ch_id ch) ;;;
     ret ch).

Definition createDirect (orgId creatorId otherUserId : string) : M (ChannelRow * bool) :=
  if (creatorId =? otherUserId)%string then
    throw (AppError 400 "CANNOT_DM_SELF" "Cannot create a direct message channel with yourself" None)
  else
  let userAId := if String.ltb creatorId otherUserId then creatorId else otherUserId in
  let userBId := if String.ltb creatorId otherUserId then otherUserId else creatorId in
  let* creatorMembership := MembershipRepository.findMembership orgId creatorId in
  let* otherMembership := MembershipRepository.findMembership orgId otherUserId in
  if is_null creatorMembership then throw (AppError 403 "NOT_ORG_MEMBER" "Creator is not an org member" None)
  else if is_null otherMembership then throw (NotFoundError "OtherUser")
  else
  catch
    (let* channel := open_direct orgId creatorId otherUserId userAId userBId in
     writeOutboxEvent "channel.created" orgId (ch_id channel) (Some creatorId)
       (JObj [("channelId", JStr (ch_id channel)); ("orgId", JStr orgId); ("type", JStr "direct")]) ;;;
     ret (channel, true))
    (λ err,
      match err with
      | PgError code =>
          if (code =? "23505")%string then
            let* existing := ChannelRepository.findDirectChannel orgId userAId userBId in
            match existing with
            | Some channel => ret (channel, false)
            | None => throw err
            end
          else throw err
      | _ => throw err
      end).

Definition assert_org_member (orgId userId : string) : M unit :=
  let* m := MembershipRepository.findMembership orgId userId in
  match m with
  | None => throw (AppError 422 "MEMBER_NOT_IN_ORG" ("User " +:+ userId +:+ " is not an org member") None)
  | Some _ => ret tt
  end.

Definition createGroup (orgId creatorId name : string) (memberIds : list string) : M ChannelRow :=
  let* chatEnabled := FeatureFlagService.isEnabled orgId "feature.chat" in
  if negb chatEnabled then
    throw (ForbiddenError "FEATURE_NOT_ENABLED"
      "Chat is not enabled for this organization. Upgrade to pro plan.")
  else if Nat.ltb (length memberIds) 2 then
    throw (AppError 422 "INSUFFICIENT_MEMBERS" "Group channels require at least 2 members" None)
  else
  let allMembers := dedup (creatorId :: memberIds) in
  for_each allMembers (assert_org_member orgId) ;;;
  let* channel := withTransaction
    (let* ch := ChannelRepository.create orgId Group creatorId (Some name) None in
     for_each allMembers (λ userId, ChannelRepository.addMember (ch_id ch) userId orgId) ;;;
     create_channel_sequence (ch_id ch) ;;;
     ret ch) in
  writeOutboxEvent "channel.created" orgId (ch_id channel) (Some creatorId)
    (JObj [("channelId", JStr (ch_id channel)); ("orgId", JStr orgId); ("type", JStr "group"); ("name", JStr name)]) ;;;
  ret channel.

Definition getChannel (orgId channelId : string) : M ChannelRow :=
  let* ch := ChannelRepository.findById channelId in
  match ch with
  | None => throw (NotFoundError "Channel")
  | Some ch => if negb (ch_org_id ch =? orgId)%string then throw (NotFoundError "Channel") else ret ch
  end.

Definition listChannels (orgId : string) (workspaceId : option string) : M (list ChannelRow) :=
  ChannelRepository.findByOrg orgId workspaceId.

Definition createWorkspaceChannel (orgId creatorId name workspaceId : string) : M ChannelRow :=
  let* m := MembershipRepository.findMembership orgId creatorId in
  match m with
  | None => throw (AppError 403 "NOT_ORG_MEMBER" "Creator is not an org member" None)
  | Some _ =>
      let* channel := withTransaction
        (let* ch := ChannelRepository.create orgId Group creatorId (Some name) (Some workspaceId) in
         ChannelRepository.addMember (ch_id ch) creatorId orgId ;;;
         create_channel_sequence (ch_id ch) ;;;
         ret ch) in
      writeOutboxEvent "channel.created" orgId (ch_id channel) (Some creatorId)
        (JObj [("channelId", JStr (ch_id channel)); ("orgId", JStr orgId); ("type", JStr "group");
               ("name", JStr name); ("workspaceId", JStr workspaceId)]) ;;;
      ret channel
  end.

Definition not_channel_member : error :=
  AppError 403 "NOT_CHANNEL_MEMBER" "You are not a member of this channel" None.

Definition assertChannelMember (channelId userId : string) : M unit :=
  let* isMember := ChannelRepository.isMember channelId userId in
  if isMember then ret tt else throw not_channel_member.
End service.
End ChannelService.

Record CreateMessageData := mkCreateMessageData {
  cmsg_org_id : string;
  cmsg_channel_id : string;
  cmsg_sender_id : string;
  cmsg_client_message_id : string;
  cmsg_sequence_number : Z;
  cmsg_body : string;
  cmsg_body_parsed : option json;
  cmsg_parent_message_id : option string
}.

(** [invalid_text_representation]. *)
Definition invalid_uuid : error := PgError "22P02".

Module MessageRepository.
Section repo.
Context `{Redis, Random}.

Definition by_client_id (channelId clientMessageId : string) (m : ChatMessageRow) : bool :=
  (msg_channel_id m =? channelId)%string && (msg_client_message_id m =? clientMessageId)%string.

Definition findByClientMessageId (channelId clientMessageId : string) : M (option ChatMessageRow) :=
  select_one (by_client_id channelId clientMessageId).

Definition findById (id channelId : string) : M (option ChatMessageRow) :=
  select_one (λ m, (msg_id m =? id)%string && (msg_channel_id m =? channelId)%string).

(** The empty text is not a UUID. *)
Definition create (data : CreateMessageData) : M ChatMessageRow :=
  let* id := gen_random_uuid in
  let* t := now in
  if is_val (cmsg_parent_message_id data) "" then throw invalid_uuid else
  let row := mkChatMessageRow id (cmsg_org_id data) (cmsg_channel_id data) (cmsg_sender_id data)
    (cmsg_client_message_id data) (cmsg_sequence_number data) (cmsg_body data) (cmsg_body_parsed data)
    (cmsg_parent_message_id data) false [] None t in
  insert_row row ;;; ret row.

(** [ORDER BY sequence_number DESC LIMIT n], reversed. *)
Definition newer (a b : ChatMessageRow) : Prop := (msg_sequence_number b ≤ msg_sequence_number a)%Z.
#[export] Instance newer_dec : RelDecision newer.
Proof. intros a b. unfold newer. apply _. Defined.

Definition latest (limit : nat) (l : list ChatMessageRow) : list ChatMessageRow :=
  rev (take limit (merge_sort newer l)).

Definition listByChannel (channelId : string) (limit : nat) (beforeSequence : option Z) : M (list ChatMessageRow) :=
  let* rows := select (λ m, (msg_channel_id m =? channelId)%string &&
    match beforeSequence with Some s => (msg_sequence_number m <? s)%Z | None => true end &&
    is_null (msg_deleted_at m)) in
  ret (latest limit rows).

Definition softDelete (orgId messageId senderId : string) : M bool :=
  let* t := now in
  let* rows := update_where (λ m, (msg_id m =? messageId)%string && (msg_org_id m =? orgId)%string &&
      (msg_sender_id m =? senderId)%string && is_null (msg_deleted_at m))
    (λ m, m <| msg_deleted_at := Some t |>) in
  ret (negb (Nat.eqb (length rows) 0)).
End repo.
End MessageRepository.

Record SendMessageInput := mkSendMessageInput {
  sm_channelId : string;
  sm_senderId : string;
  sm_body : string;
  sm_bodyParsed : option json;
  sm_clientMessageId : string;
  sm_parentMessageId : option string
}.

Module MessageService.
Section service.
Context `{Redis, Random}.

(** Threads are one level deep. *)
Definition check_parent (channelId : string) (parentMessageId : option string) : M unit :=
  match parentMessageId with
  | Some p =>
      if truthy p then
        let* parent := MessageRepository.findById p channelId in
        match parent with
        | None => throw (NotFoundError "ParentMessage")
        | Some parent =>
            if negb (is_null (msg_deleted_at parent)) then
              throw (AppError 422 "PARENT_DELETED" "Cannot reply to a deleted message" None)
            else if negb (is_null (msg_parent_message_id parent)) then
              throw (AppError 422 "THREADING_DEPTH_EXCEEDED" "Messages can only be nested one level deep" None)
            else ret tt
        end
      else ret tt
  | None => ret tt
  end.

Definition send (orgId : string) (input : SendMessageInput) : M ChatMessageRow :=
  let* isMember := ChannelRepository.isMember (sm_channelId input) (sm_senderId input) in
  if negb isMember then throw ChannelService.not_channel_member
  else
  let* existing := MessageRepository.findByClientMessageId (sm_channelId input) (sm_clientMessageId input) in
  match existing with
  | Some message => ret message
  | None =>
  check_parent (sm_channelId input) (sm_parentMessageId input) ;;;
  let* sequenceNumber := nextSequence (sm_channelId input) in
  let* message := MessageRepository.create
    (mkCreateMessageData orgId (sm_channelId input) (sm_senderId input) (sm_clientMessageId input)
       sequenceNumber (sm_body input) (sm_bodyParsed input) (sm_parentMessageId input)) in
  writeOutboxEvent (Some orgId) "message.created" "message" (msg_id message) (Some (sm_senderId input))
    (JObj [("messageId", JStr (msg_id message)); ("channelId", JStr (sm_channelId input)); ("orgId", JStr orgId);
           ("senderId", JStr (sm_senderId input)); ("sequenceNumber", JStr (pretty sequenceNumber))]) ;;;
  ret message
  end.

Definition listMessages (orgId channelId userId : string) (limit : nat) (beforeSequence : option Z)
    : M (list ChatMessageRow) :=
  let* isMember := ChannelRepository.isMember channelId userId in
  if negb isMember then throw ChannelService.not_channel_member
  else MessageRepository.listByChannel channelId limit beforeSequence.

Definition deleteMessage (orgId messageId channelId userId : string) : M unit :=
  let* deleted := MessageRepository.softDelete orgId messageId userId in
  if negb deleted then throw (NotFoundError "Message") else ret tt.
End service.
End MessageService.

(** [dropDeletedChannelSequences] of [shared/jobs/cleanup.worker.ts]: the
    sequences of the channels deleted for 30 days. *)
Section cleanup.
Context `{Redis, Random}.

Definition drop_sequence (channelId : string) : M unit := λ w,
  (Ok tt, w <| db := (db w) <| sequences := delete (seq_name channelId) (sequences (db w)) |> |>).

Definition dropDeletedChannelSequences : M unit :=
  let* t := now in
  let* rows := select (λ c, match ch_deleted_at c with
    | Some d => (d <? t - 30 * 86400000)%Z | None => false end) in
  for_each rows (λ c, drop_sequence (ch_id c)).
End cleanup.

(** ** The invariant of the messages *)

Definition in_channel (c : string) (m : ChatMessageRow) : bool := (msg_channel_id m =? c)%string.

Section invariant.
Context `{Redis, !RedisHash, Random, !RandomLaws _}.

(** An identifier drawn already. *)
Definition drawn (n : nat) (id : string) : Prop := ∃ k, k < n ∧ id = random_uuid k.

Record chat_ok (d : DB) (n : nat) : Prop := {
  (** Sequence numbers grow along the messages of a channel, *)
  co_sorted : ∀ c, StronglySorted Z.lt (msg_sequence_number <$> List.filter (in_channel c) (chat_messages d));
  (** none is ahead of the channel's sequence, *)
  co_last : ∀ m v, m ∈ chat_messages d → sequences d !! seq_name (msg_channel_id m) = Some v →
    (msg_sequence_number m ≤ v)%Z;
  (** no client identifier is used twice in a channel, *)
  co_client : NoDup ((λ m, (msg_channel_id m, msg_client_message_id m)) <$> chat_messages d);
  (** a reply is to a message of its channel that is not a reply, *)
  co_thread : ∀ m p, m ∈ chat_messages d → msg_parent_message_id m = Some p →
    ∃ q, q ∈ chat_messages d ∧ msg_id q = p ∧ msg_channel_id q = msg_channel_id m ∧
      msg_parent_message_id q = None;
  (** and channels are those created. *)
  co_members : Forall (λ m, drawn n (chm_channel_id m)) (channel_members d);
  co_channels : Forall (λ m, drawn n (msg_channel_id m)) (chat_messages d)
}.

Definition chat_inv (w : World) : Prop := chat_ok (db w) (draws w).

Lemma drawn_mono n n' id : n ≤ n' → drawn n id → drawn n' id.
Proof. intros ? (k & ? & ->). exists k. split; [lia|done]. Qed.

Lemma underscores_inj a b :
  char_free "_"%char a = true → char_free "_"%char b = true → underscores a = underscores b → a = b.
Proof.
  revert b. induction a as [|c a IH]; intros [|c' b] Ha Hb E; try done.
  cbn [char_free underscores] in *. apply andb_true_iff in Ha as [Hc Ha], Hb as [Hc' Hb].
  apply negb_true_iff, Ascii.eqb_neq in Hc, Hc'.
  injection E as E1 E2. f_equal; [|by apply IH].
  destruct (Ascii.eqb_spec c "-"), (Ascii.eqb_spec c' "-"); congruence.
Qed.

Lemma seq_name_inj k k' : seq_name (random_uuid k) = seq_name (random_uuid k') → k = k'.
Proof.
  intros E. unfold seq_name in E. apply random_uuid_inj, underscores_inj; [apply random_uuid_chars..|].
  by simplify_eq/=.
Qed.

(** Operations that write neither messages nor sequences, and no members but
    of known channels. *)
Lemma chat_ok_frame d d' n n' :
  chat_ok d n → n ≤ n' → chat_messages d' = chat_messages d → sequences d' = sequences d →
  Forall (λ m, drawn n' (chm_channel_id m)) (channel_members d') → chat_ok d' n'.
Proof.
  intros [C1 C2 C3 C4 C5 C6] Hn Em Es Hm. split; rewrite ?Em, ?Es; auto.
  eapply Forall_impl; [exact C6|]. intros m. by apply drawn_mono.
Qed.

Lemma chat_ok_mono d n n' : n ≤ n' → chat_ok d n → chat_ok d n'.
Proof.
  intros Hn Hc. eapply chat_ok_frame; [done..|].
  eapply Forall_impl; [exact (co_members _ _ Hc)|]. intros m. by apply drawn_mono.
Qed.

(** The channel with draw [k] was just created: it has no messages. *)
Definition opening (k : nat) (w : World) : Prop :=
  chat_inv w ∧ k < draws w ∧ Forall (λ m, drawn k (msg_channel_id m)) (chat_messages (db w)).

Lemma opening_frame k w w' :
  opening k w → draws w ≤ draws w' → chat_messages (db w') = chat_messages (db w) →
  sequences (db w') = sequences (db w) →
  Forall (λ m, drawn (draws w') (chm_channel_id m)) (channel_members (db w')) → opening k w'.
Proof.
  intros (Hc & Hk & Hm) Hd Em Es Hmem. split; [|split; [lia|by rewrite Em]].
  by eapply chat_ok_frame.
Qed.

Lemma members_mono n n' (l : list ChannelMemberRow) :
  n ≤ n' → Forall (λ m, drawn n (chm_channel_id m)) l → Forall (λ m, drawn n' (chm_channel_id m)) l.
Proof. intros Hn Hl. eapply Forall_impl; [exact Hl|]. intros m. by apply drawn_mono. Qed.

Lemma opening_addMember k u o : preserves (opening k) (ChannelRepository.addMember (random_uuid k) u o).
Proof.
  intros w Hw. unfold ChannelRepository.addMember, bind, now, insert_or_ignore.
  destruct (existsb _ _); [done|]. unfold insert_row. cbn [fst snd]. pose proof Hw as (Hc & Hk & _).
  eapply opening_frame; [done|cbn; lia|done|done|]. cbn. apply Forall_app.
  split; [apply (co_members _ _ Hc)|]. constructor; [|done]. by exists k.
Qed.

Lemma opening_pair k o a b c : preserves (opening k) (ChannelRepository.insertDirectPair o a b c).
Proof.
  intros w Hw. unfold ChannelRepository.insertDirectPair, bind, now. destruct (negb _); [done|].
  unfold insert_unique. destruct (existsb _ _); [done|]. cbn. pose proof Hw as (Hc & _).
  eapply opening_frame; [done|cbn; lia|done|done|]. exact (co_members _ _ Hc).
Qed.

Lemma opening_sequence k : preserves (opening k) (create_channel_sequence (random_uuid k)).
Proof.
  intros w Hw. unfold create_channel_sequence. destruct (sequences (db w) !! _) eqn:E; [done|].
  pose proof Hw as ([C1 C2 C3 C4 C5 C6] & Hk & Hm). split; [|split; [done|done]].
  split; cbn; [done| |done|done|done|done]. intros m v Hin Hv.
  apply lookup_insert_Some in Hv as [[En _]|[_ Hv]]; [|by eapply C2].
  rewrite Forall_forall in Hm. destruct (Hm m Hin) as (j & Hj & Ej). rewrite Ej in En.
  apply seq_name_inj in En. lia.
Qed.

Lemma opening_create o ty by_ name ws w :
  chat_inv w → ∃ row w', ChannelRepository.create o ty by_ name ws w = (Ok row, w') ∧
    ch_id row = random_uuid (draws w) ∧ opening (draws w) w'.
Proof.
  intros Hc. unfold ChannelRepository.create, bind, gen_random_uuid, now, insert_row, ret. cbn.
  eexists _, _. split; [reflexivity|]. split; [done|]. split; [|split].
  - eapply chat_ok_frame; [exact Hc|cbn; lia|done|done|].
    eapply members_mono; [|exact (co_members _ _ Hc)]. cbn. lia.
  - cbn. lia.
  - exact (co_channels _ _ Hc).
Qed.
End invariant.

Section operations.
Context `{Redis, !RedisHash, Random, !RandomLaws _}.

(** A channel is opened by a transaction that creates it and goes on with
    steps that keep [opening]. *)
Lemma chat_open o ty by_ name ws (body : ChannelRow → M ChannelRow) :
  (∀ row k, ch_id row = random_uuid k → preserves (opening k) (body row)) →
  (∀ row n t up, preserves (ambient n t up) (body row)) →
  preserves chat_inv (withTransaction (let* ch := ChannelRepository.create o ty by_ name ws in body ch)).
Proof.
  intros Hbody Hamb w Hc. unfold withTransaction, bind.
  destruct (opening_create o ty by_ name ws w Hc) as (row & w1 & -> & Hid & Hop).
  pose proof (Hbody row _ Hid w1 Hop) as Hop'.
  pose proof (Hamb row (draws w1) (clock w1) (redis_up w1) w1) as (Hd & _); [done|].
  destruct (body row w1) as [[ch|e] w2]; cbn in *; [by apply Hop'|].
  eapply chat_ok_mono; [|exact Hc]. destruct Hop as (_ & ? & _). cbn. lia.
Qed.

Lemma ambient_sequence n t up c : preserves (ambient n t up) (create_channel_sequence c).
Proof. intros w Hw. unfold create_channel_sequence. by destruct (_ !! _). Qed.

Lemma ambient_addMember n t up c u o : preserves (ambient n t up) (ChannelRepository.addMember c u o).
Proof. unfold ChannelRepository.addMember. preserve. Qed.

Lemma chat_outbox o e ty i a p : preserves chat_inv (writeOutboxEvent o e ty i a p).
Proof.
  intros w Hc. eapply chat_ok_frame; [exact Hc|cbn; lia|done|done|].
  eapply members_mono; [|exact (co_members _ _ Hc)]. cbn. lia.
Qed.

Lemma chat_read {A} (m : M A) : (∀ w, db (m w).2 = db w ∧ draws (m w).2 = draws w) → preserves chat_inv m.
Proof. intros Hm w Hc. destruct (Hm w) as [E1 E2]. unfold chat_inv. by rewrite E1, E2. Qed.

Lemma isEnabled_reads o k w :
  db (FeatureFlagService.isEnabled o k w).2 = db w ∧ draws (FeatureFlagService.isEnabled o k w).2 = draws w.
Proof.
  unfold FeatureFlagService.isEnabled, FeatureFlagService.l1_get, FeatureFlagService.l2_get,
    FeatureFlagService.db_fallback, catch, bind, rhget, rhset, select_one, FeatureFlagService.l1_set, ret, throw.
  by repeat (case_match; simplify_eq/=).
Qed.

Lemma findMembership_reads o u w :
  (MembershipRepository.findMembership o u w).2 = w.
Proof. done. Qed.

Lemma chat_members o l : preserves chat_inv (for_each l (ChannelService.assert_org_member o)).
Proof.
  apply preserves_for_each. intros u. apply chat_read. intros w.
  unfold ChannelService.assert_org_member, bind, MembershipRepository.findMembership, select_one.
  by destruct (List.find _ _).
Qed.

Lemma chat_createDirect o c u : preserves chat_inv (ChannelService.createDirect o c u).
Proof.
  unfold ChannelService.createDirect. cbv zeta. apply preserves_if; [apply preserves_throw|].
  apply preserves_bind; [by apply chat_read|intros m1].
  apply preserves_bind; [by apply chat_read|intros m2].
  apply preserves_if; [apply preserves_throw|]. apply preserves_if; [apply preserves_throw|].
  apply preserves_catch.
  - apply preserves_bind; [|intros ch; apply preserves_bind; [apply chat_outbox|intros; apply preserves_ret]].
    apply chat_open.
    + intros row k ->. apply preserves_bind; [apply opening_addMember|intros ?].
      apply preserves_bind; [apply opening_addMember|intros ?].
      apply preserves_bind; [apply opening_pair|intros ?].
      apply preserves_bind; [apply opening_sequence|intros ?; apply preserves_ret].
    + intros row n t up. unfold ChannelRepository.insertDirectPair.
      repeat first [apply ambient_addMember | apply ambient_sequence | progress preserve].
  - intros [| |]; try apply preserves_throw. apply preserves_if; [|apply preserves_throw].
    apply preserves_bind; [by apply chat_read|intros [ch|]; [apply preserves_ret|apply preserves_throw]].
Qed.

Lemma chat_createGroup o c name l : preserves chat_inv (ChannelService.createGroup o c name l).
Proof.
  unfold ChannelService.createGroup. apply preserves_bind; [apply chat_read, isEnabled_reads|intros b].
  apply preserves_if; [apply preserves_throw|]. apply preserves_if; [apply preserves_throw|].
  apply preserves_bind; [apply chat_members|intros ?].
  apply preserves_bind; [|intros ch; apply preserves_bind; [apply chat_outbox|intros; apply preserves_ret]].
  apply chat_open.
  - intros row k ->. apply preserves_bind; [apply preserves_for_each; intros; apply opening_addMember|intros ?].
    apply preserves_bind; [apply opening_sequence|intros ?; apply preserves_ret].
  - intros row n t up. repeat first [apply ambient_addMember | apply ambient_sequence | progress preserve].
Qed.

Lemma chat_createWorkspaceChannel o c name ws :
  preserves chat_inv (ChannelService.createWorkspaceChannel o c name ws).
Proof.
  unfold ChannelService.createWorkspaceChannel. apply preserves_bind; [by apply chat_read|intros [m|]];
    [|apply preserves_throw].
  apply preserves_bind; [|intros ch; apply preserves_bind; [apply chat_outbox|intros; apply preserves_ret]].
  apply chat_open.
  - intros row k ->. apply preserves_bind; [apply opening_addMember|intros ?].
    apply preserves_bind; [apply opening_sequence|intros ?; apply preserves_ret].
  - intros row n t up. repeat first [apply ambient_addMember | apply ambient_sequence | progress preserve].
Qed.
End operations.

Section messages.
Context `{Redis, !RedisHash, Random, !RandomLaws _}.

Lemma StronglySorted_snoc {A} (R : relation A) l y :
  StronglySorted R l → Forall (λ x, R x y) l → StronglySorted R (l ++ [y]).
Proof.
  induction 1 as [|x l Hl IH Hx]; intros Hy; cbn; [by repeat constructor|].
  inversion_clear Hy. constructor; [by apply IH|]. apply Forall_app. by split; [|constructor].
Qed.

(** Setting a sequence to a value not behind its last one. *)
Lemma chat_ok_seq d n c v v0 :
  chat_ok d n → sequences d !! seq_name c = Some v0 → (v0 ≤ v)%Z →
  chat_ok (d <| sequences := <[seq_name c := v]> (sequences d) |>) n.
Proof.
  intros [C1 C2 C3 C4 C5 C6] Hv Hle. split; cbn; try done. intros m v' Hm Hv'.
  apply lookup_insert_Some in Hv' as [[En <-]|[_ Hv']]; [|by eapply C2].
  rewrite En in Hv. specialize (C2 m v0 Hm Hv). lia.
Qed.

Lemma nextSequence_run c w :
  ((∃ e, nextSequence c w = (Throw e, w)) ∨
   ∃ v, sequences (db w) !! seq_name c = Some v ∧ (v + 1 ≤ bigint_max)%Z ∧
     nextSequence c w = (Ok (v + 1)%Z,
       w <| db := (db w) <| sequences := <[seq_name c := (v + 1)%Z]> (sequences (db w)) |> |>)).
Proof.
  unfold nextSequence. destruct (sequences (db w) !! seq_name c) as [v|] eqn:E; [|by left; eexists].
  destruct (Z.ltb_spec bigint_max (v + 1)); [by left; eexists|]. right. exists v. split_and!; [done|lia|done].
Qed.

(** A message that may be added. *)
Lemma chat_ok_message d n n' m v0 :
  chat_ok d n → n ≤ n' →
  sequences d !! seq_name (msg_channel_id m) = Some v0 → msg_sequence_number m = (v0 + 1)%Z →
  List.find (MessageRepository.by_client_id (msg_channel_id m) (msg_client_message_id m)) (chat_messages d) = None →
  drawn n (msg_channel_id m) →
  (∀ p, msg_parent_message_id m = Some p → ∃ q, q ∈ chat_messages d ∧ msg_id q = p ∧
     msg_channel_id q = msg_channel_id m ∧ msg_parent_message_id q = None) →
  chat_ok (d <| sequences := <[seq_name (msg_channel_id m) := (v0 + 1)%Z]> (sequences d) |>
             <| chat_messages := chat_messages d ++ [m] |>) n'.
Proof.
  intros Hok Hn Hv Hseq Hnew Hdr Hth. pose proof Hok as [C1 C2 C3 C4 C5 C6].
  assert (Hlast : ∀ m', m' ∈ chat_messages d → msg_channel_id m' = msg_channel_id m →
    (msg_sequence_number m' < v0 + 1)%Z).
  { intros m' Hm' E. rewrite <- E in Hv. specialize (C2 m' v0 Hm' Hv). lia. }
  split; cbn.
  - intros c. rewrite List.filter_app, fmap_app. cbn. unfold in_channel at 2.
    destruct (String.eqb_spec (msg_channel_id m) c) as [E|]; [|by rewrite app_nil_r].
    apply StronglySorted_snoc; [done|]. apply Forall_forall.
    intros s (m' & -> & [Hm' Hc]%elem_of_filter_bool)%list_elem_of_fmap. rewrite Hseq.
    apply Hlast; [done|]. unfold in_channel in Hc. bool_to_prop. congruence.
  - intros m' v [Hm'| ->%list_elem_of_singleton]%elem_of_app Hv'.
    + apply lookup_insert_Some in Hv' as [[En <-]|[_ Hv']]; [|by eapply C2].
      rewrite En in Hv. specialize (C2 m' v0 Hm' Hv). lia.
    + rewrite lookup_insert_eq in Hv'. simplify_eq. lia.
  - rewrite fmap_app. apply NoDup_app. split; [done|]. split; [|apply NoDup_singleton].
    intros x (m' & -> & Hm')%list_elem_of_fmap E%list_elem_of_singleton.
    pose proof (find_none_elem _ _ _ Hnew Hm') as Hf. unfold MessageRepository.by_client_id in Hf.
    injection E as E1 E2. rewrite E1, E2, !String.eqb_refl in Hf. done.
  - intros m' p [Hm'| ->%list_elem_of_singleton]%elem_of_app Hp.
    + destruct (C4 m' p Hm' Hp) as (q & ? & ?). exists q. rewrite elem_of_app. auto.
    + destruct (Hth p Hp) as (q & ? & ?). exists q. rewrite elem_of_app. auto.
  - by eapply members_mono.
  - apply Forall_app. split; [|constructor; [by eapply drawn_mono|done]].
    eapply Forall_impl; [exact C6|]. intros m'. by apply drawn_mono.
Qed.

Lemma check_parent_run c p w :
  (MessageService.check_parent c p w).2 = w ∧
  ((MessageService.check_parent c p w).1 = Ok tt → ∀ q, p = Some q → is_val p "" = false →
    ∃ m, m ∈ chat_messages (db w) ∧ msg_id m = q ∧ msg_channel_id m = c ∧ msg_parent_message_id m = None).
Proof.
  unfold MessageService.check_parent. destruct p as [q|]; [|by split].
  destruct (truthy q) eqn:Et; [|split; [done|]; intros _ q' [= <-] Hv; cbn in Hv; unfold truthy in Et; by rewrite Hv in Et].
  unfold bind, MessageRepository.findById, select_one. tables.
  destruct (List.find _ _) as [m|] eqn:Ef; [|by split].
  apply find_some_elem in Ef as [Hin Hf]. bool_to_prop.
  destruct (negb (is_null (msg_deleted_at m))); [by split|].
  destruct (msg_parent_message_id m) eqn:Ep; [by split|]. cbn. split; [done|].
  intros _ q' [= <-] _. by exists m.
Qed.

(** What sending a message does. *)
Lemma send_run o i w :
  chat_inv w →
  let '(r, w') := MessageService.send o i w in
  chat_inv w' ∧ ∀ m, r = Ok m → m ∈ chat_messages (db w') ∧
    msg_channel_id m = sm_channelId i ∧ msg_client_message_id m = sm_clientMessageId i.
Proof.
  intros Hok. unfold MessageService.send, bind at 1, ChannelRepository.isMember, bind at 1, select_one. tables.
  destruct (List.find _ (channel_members (db w))) as [mem|] eqn:Emem; cbn [is_null negb ret]; [|by split].
  apply find_some_elem in Emem as [Hmem Hof]. bool_to_prop.
  assert (Hdr : drawn (draws w) (sm_channelId i)).
  { pose proof (co_members _ _ Hok) as Hall. rewrite Forall_forall in Hall.
    unfold ChannelRepository.of_member in *. bool_to_prop.
    match goal with E : chm_channel_id mem = _ |- _ => rewrite <- E end. by apply Hall. }
  unfold bind at 1, MessageRepository.findByClientMessageId, select_one. tables.
  destruct (List.find _ (chat_messages (db w))) as [m0|] eqn:Ecl.
  { split; [done|]. intros m [= <-]. apply find_some_elem in Ecl as [? E].
    unfold MessageRepository.by_client_id in E. by bool_to_prop. }
  unfold bind at 1. destruct (check_parent_run (sm_channelId i) (sm_parentMessageId i) w) as [Ew Hpar].
  destruct (MessageService.check_parent _ _ w) as [[[]|e] w1]; cbn [fst snd] in *; subst w1; [|by split].
  unfold bind at 1.
  destruct (nextSequence_run (sm_channelId i) w) as [(e & ->)|(v & Hv & Hb & ->)]; [by split|].
  unfold MessageRepository.create, bind, gen_random_uuid, now. cbn -[chat_inv].
  destruct (is_val (sm_parentMessageId i) "") eqn:Ev.
  { cbn -[chat_inv]. split; [|done]. unfold chat_inv. cbn. apply (chat_ok_mono _ (draws w)); [lia|].
    eapply chat_ok_seq; [exact Hok|exact Hv|lia]. }
  cbn -[chat_inv]. set (row := mkChatMessageRow _ _ _ _ _ _ _ _ _ _ _ _ _). split.
  - unfold chat_inv. cbn. eapply (chat_ok_frame _ _ (S (draws w))).
    + apply (chat_ok_message (db w) (draws w) _ row v); cbn; try done; [lia|].
      intros p Hp. by apply Hpar.
    + lia.
    + done.
    + done.
    + eapply members_mono; [|exact (co_members _ _ Hok)]. cbn. lia.
  - intros m [= <-]. split_and!; [|done|done]. apply elem_of_app. right. by left.
Qed.

Lemma chat_send o i : preserves chat_inv (MessageService.send o i).
Proof.
  intros w Hw. pose proof (send_run o i w Hw) as Hs. destruct (MessageService.send o i w) as [r w'].
  by destruct Hs.
Qed.
End messages.

Section others.
Context `{Redis, !RedisHash, Random, !RandomLaws _}.

(** Updates of messages that change neither place nor order. *)
Lemma chat_ok_update d n P f :
  chat_ok d n →
  (∀ m, msg_sequence_number (f m) = msg_sequence_number m ∧ msg_channel_id (f m) = msg_channel_id m ∧
     msg_client_message_id (f m) = msg_client_message_id m ∧ msg_id (f m) = msg_id m ∧
     msg_parent_message_id (f m) = msg_parent_message_id m) →
  chat_ok (d <| chat_messages := upd_where P f (chat_messages d) |>) n.
Proof.
  intros [C1 C2 C3 C4 C5 C6] Hf.
  assert (Hin : ∀ m, m ∈ upd_where P f (chat_messages d) → ∃ m0, m0 ∈ chat_messages d ∧
    msg_sequence_number m = msg_sequence_number m0 ∧ msg_channel_id m = msg_channel_id m0 ∧
    msg_parent_message_id m = msg_parent_message_id m0).
  { intros m (m0 & Hm0 & [[_ ->]|[_ ->]])%elem_of_upd_where; exists m0; [|done].
    destruct (Hf m0) as (? & ? & ? & ? & ?). done. }
  assert (Hout : ∀ m0, m0 ∈ chat_messages d → ∃ m, m ∈ upd_where P f (chat_messages d) ∧
    msg_id m = msg_id m0 ∧ msg_channel_id m = msg_channel_id m0 ∧ msg_parent_message_id m = msg_parent_message_id m0).
  { intros m0 Hm0. destruct (Hf m0) as (? & ? & ? & ? & ?). exists (if P m0 then f m0 else m0).
    split; [|by destruct (P m0)]. apply elem_of_upd_where. exists m0. destruct (P m0); auto. }
  split; cbn.
  - intros c. specialize (C1 c). revert C1. generalize (chat_messages d) as l.
    assert (E : ∀ l, msg_sequence_number <$> List.filter (in_channel c) (upd_where P f l) =
      msg_sequence_number <$> List.filter (in_channel c) l).
    { intros l. induction l as [|m l IH]; [done|]. unfold upd_where in *. cbn.
      destruct (Hf m) as (E1 & E2 & _). assert (in_channel c (if P m then f m else m) = in_channel c m) as ->.
      { unfold in_channel. destruct (P m); by rewrite ?E2. }
      destruct (in_channel c m); cbn; rewrite IH; [|done]. destruct (P m); by rewrite ?E1. }
    intros l. by rewrite E.
  - intros m v Hm Hv. destruct (Hin m Hm) as (m0 & Hm0 & -> & Ec & _). rewrite Ec in Hv. by eapply C2.
  - rewrite fmap_upd_where; [done|]. intros m _. destruct (Hf m) as (_ & -> & -> & _). done.
  - intros m p Hm Hp. destruct (Hin m Hm) as (m0 & Hm0 & _ & -> & Ep). rewrite Ep in Hp.
    destruct (C4 m0 p Hm0 Hp) as (q & Hq & <- & <- & Hqp). destruct (Hout q Hq) as (q' & ? & ? & ? & ?).
    exists q'. split_and!; congruence.
  - done.
  - apply Forall_upd_where; [|done]. intros m _. destruct (Hf m) as (_ & -> & _). done.
Qed.

Lemma chat_deleteMessage o i c u : preserves chat_inv (MessageService.deleteMessage o i c u).
Proof.
  unfold MessageService.deleteMessage, MessageRepository.softDelete.
  apply preserves_bind; [|intros b; apply preserves_if; [apply preserves_throw|apply preserves_ret]].
  apply preserves_bind; [by apply chat_read|intros t].
  apply preserves_bind; [|intros; apply preserves_ret].
  intros w Hw. by apply chat_ok_update.
Qed.

Lemma chat_updateLastRead c u s : preserves chat_inv (ChannelRepository.updateLastRead c u s).
Proof.
  unfold ChannelRepository.updateLastRead. apply preserves_bind; [by apply chat_read|intros t].
  apply preserves_bind; [|intros; apply preserves_ret]. intros w Hw.
  eapply chat_ok_frame; [exact Hw|cbn; lia|done|done|]. cbn. tables.
  apply Forall_upd_where; [done|]. exact (co_members _ _ Hw).
Qed.

Lemma chat_dropSequences : preserves chat_inv dropDeletedChannelSequences.
Proof.
  unfold dropDeletedChannelSequences. apply preserves_bind; [by apply chat_read|intros t].
  apply preserves_bind; [by apply chat_read|intros rows]. apply preserves_for_each. intros ch w Hw.
  destruct Hw as [C1 C2 C3 C4 C5 C6]. split; cbn; try done.
  intros m v Hm [_ Hv]%lookup_delete_Some. by eapply C2.
Qed.
End others.

(** ** Sequences of calls *)

Inductive chat_call :=
  | CreateDirect (orgId creatorId otherUserId : string)
  | CreateGroup (orgId creatorId name : string) (memberIds : list string)
  | CreateWorkspaceChannel (orgId creatorId name workspaceId : string)
  | Send (orgId : string) (input : SendMessageInput)
  | DeleteMessage (orgId messageId channelId userId : string)
  | UpdateLastRead (channelId userId : string) (sequence : Z)
  | DropSequences.

Section calls.
Context `{Redis, !RedisHash, Random}.

Definition chat_exec (c : chat_call) (w : World) : World :=
  match c with
  | CreateDirect o u v => (ChannelService.createDirect o u v w).2
  | CreateGroup o u name l => (ChannelService.createGroup o u name l w).2
  | CreateWorkspaceChannel o u name ws => (ChannelService.createWorkspaceChannel o u name ws w).2
  | Send o i => (MessageService.send o i w).2
  | DeleteMessage o m c u => (MessageService.deleteMessage o m c u w).2
  | UpdateLastRead c u s => (ChannelRepository.updateLastRead c u s w).2
  | DropSequences => (dropDeletedChannelSequences w).2
  end.

(** Calls, each at its time. *)
Definition chat_run (cs : list (Z * chat_call)) (w : World) : World :=
  foldl (λ w '(t, c), chat_exec c (w <| clock := t |>)) w cs.
End calls.

Section reach.
Context `{Redis, !RedisHash, Random, !RandomLaws _}.

Lemma chat_exec_inv c w : chat_inv w → chat_inv (chat_exec c w).
Proof.
  destruct c; [apply chat_createDirect|apply chat_createGroup|apply chat_createWorkspaceChannel|
    apply chat_send|apply chat_deleteMessage|apply chat_updateLastRead|apply chat_dropSequences].
Qed.

Lemma chat_run_inv cs w : chat_inv w → chat_inv (chat_run cs w).
Proof.
  revert w. induction cs as [|[t c] cs IH]; intros w Hw; [done|]. cbn. apply IH, chat_exec_inv, Hw.
Qed.
End reach.

(** ** Direct channels *)

Section direct.
Context `{Redis, !RedisHash, Random, !RandomLaws _}.

Definition pair_key (p : DirectChannelPairRow) : string * string * string :=
  (dcp_org_id p, dcp_user_a_id p, dcp_user_b_id p).

(** One channel per pair of users, and channels have their own identifiers. *)
Definition direct_ok (w : World) : Prop :=
  NoDup (pair_key <$> direct_channel_pairs (db w)) ∧ NoDup (ch_id <$> channels (db w)) ∧
  Forall (λ c, drawn (draws w) (ch_id c)) (channels (db w)).

(** The two tables after a call: longer, and still so. *)
Definition grows (w w' : World) : Prop :=
  (∃ l, direct_channel_pairs (db w') = direct_channel_pairs (db w) ++ l) ∧
  (∃ l, channels (db w') = channels (db w) ++ l) ∧ direct_ok w' ∧ draws w ≤ draws w'.

Lemma grows_refl w : direct_ok w → grows w w.
Proof. intros Hw. split_and!; [exists []..|done|done]; by rewrite app_nil_r. Qed.

Lemma grows_trans w1 w2 w3 : grows w1 w2 → grows w2 w3 → grows w1 w3.
Proof.
  intros ([l1 E1] & [l2 E2] & _ & ?) ([l3 E3] & [l4 E4] & ? & ?). split_and!; [| |done|lia].
  - exists (l1 ++ l3). by rewrite E3, E1, <- app_assoc.
  - exists (l2 ++ l4). by rewrite E4, E2, <- app_assoc.
Qed.

Definition growing {A} (m : M A) : Prop := ∀ w, direct_ok w → grows w (m w).2.

Lemma growing_bind {A B} (m : M A) (k : A → M B) : growing m → (∀ a, growing (k a)) → growing (bind m k).
Proof.
  intros Hm Hk w Hw. unfold bind. specialize (Hm w Hw). destruct (m w) as [[a|e] w1]; [|done].
  eapply grows_trans; [exact Hm|]. apply Hk. apply Hm.
Qed.

Lemma growing_catch {A} (m : M A) h : growing m → (∀ e, growing (h e)) → growing (catch m h).
Proof.
  intros Hm Hk w Hw. unfold catch. specialize (Hm w Hw). destruct (m w) as [[a|e] w1]; [done|].
  eapply grows_trans; [exact Hm|]. apply Hk. apply Hm.
Qed.

Lemma growing_for_each {A} (l : list A) f : (∀ x, growing (f x)) → growing (for_each l f).
Proof.
  intros Hf. induction l as [|x l IH]; cbn; [intros w Hw; by apply grows_refl|]. by apply growing_bind.
Qed.

(** A rollback keeps the draws only. *)
Lemma growing_transaction {A} (m : M A) : growing m → growing (withTransaction m).
Proof.
  intros Hm w Hw. unfold withTransaction. specialize (Hm w Hw).
  destruct (m w) as [[a|e] w1]; [done|]. destruct Hm as (_ & _ & _ & Hd), Hw as (Hp & Hc & Hdr).
  split_and!; cbn; [exists []; by rewrite app_nil_r|exists []; by rewrite app_nil_r| |done].
  split_and!; cbn; [done|done|]. eapply Forall_impl; [exact Hdr|]. intros c. by apply drawn_mono.
Qed.

(** Operations on other parts of the state. *)
Lemma growing_other {A} (m : M A) :
  (∀ w, direct_channel_pairs (db (m w).2) = direct_channel_pairs (db w) ∧
        channels (db (m w).2) = channels (db w) ∧ draws w ≤ draws (m w).2) → growing m.
Proof.
  intros Hm w (Hp & Hc & Hdr). destruct (Hm w) as (E1 & E2 & Hd).
  split_and!; [exists []; by rewrite app_nil_r|exists []; by rewrite app_nil_r| |done].
  split_and!; rewrite ?E1, ?E2; [done|done|]. eapply Forall_impl; [exact Hdr|]. intros c. by apply drawn_mono.
Qed.

Lemma growing_create o ty by_ name ws : growing (ChannelRepository.create o ty by_ name ws).
Proof.
  intros w (Hp & Hc & Hdr). unfold ChannelRepository.create, bind, gen_random_uuid, now, insert_row, ret. cbn.
  split_and!; cbn; [exists []; by rewrite app_nil_r|by eexists| |lia]. tables.
  split_and!; cbn; [done| |].
  - rewrite fmap_app. apply NoDup_app. split; [done|]. split; [|apply NoDup_singleton].
    intros id (c & -> & Hin)%list_elem_of_fmap E%list_elem_of_singleton. cbn in E.
    rewrite Forall_forall in Hdr. destruct (Hdr c Hin) as (k & ? & Ek). rewrite Ek in E.
    apply random_uuid_inj in E. lia.
  - apply Forall_app. split; [|constructor; [exists (draws w); cbn; split; [lia|done]|done]].
    eapply Forall_impl; [exact Hdr|]. intros c. apply drawn_mono. lia.
Qed.

Lemma growing_pair o a b c : growing (ChannelRepository.insertDirectPair o a b c).
Proof.
  unfold ChannelRepository.insertDirectPair. apply growing_bind; [by apply growing_other|intros t].
  destruct (negb _); [by apply growing_other|]. intros w (Hp & Hc & Hdr). unfold insert_unique. tables.
  destruct (existsb _ _) eqn:Ex; cbn; [by apply grows_refl|].
  split_and!; cbn; [by eexists|exists []; by rewrite app_nil_r| |lia]. tables.
  split_and!; cbn; [|done|done].
  rewrite fmap_app. apply NoDup_app. split; [done|]. split; [|apply NoDup_singleton].
  intros k (p & -> & Hin)%list_elem_of_fmap E%list_elem_of_singleton.
  assert (Hf : existsb (λ p, ChannelRepository.of_pair o a b p || (dcp_channel_id p =? c)%string)
    (direct_channel_pairs (db w)) = true); [|congruence].
  apply existsb_exists. exists p. rewrite <- list_elem_of_In. split; [done|].
  injection E as E1 E2 E3. unfold ChannelRepository.of_pair. by rewrite E1, E2, E3, !String.eqb_refl.
Qed.
End direct.

Section direct_calls.
Context `{Redis, !RedisHash, Random, !RandomLaws _}.

(** Splits a run into its steps; a step on other tables is evaluated. *)
Ltac grow :=
  repeat (intros; match goal with
  | |- growing (bind _ _) => apply growing_bind
  | |- growing (catch _ _) => apply growing_catch
  | |- growing (for_each _ _) => apply growing_for_each
  | |- growing (withTransaction _) => apply growing_transaction
  | |- growing (ChannelRepository.create _ _ _ _ _) => apply growing_create
  | |- growing (ChannelRepository.insertDirectPair _ _ _ _) => apply growing_pair
  | |- growing (if ?b then _ else _) => destruct b
  | |- growing (match ?x with _ => _ end) => destruct x
  | |- growing (FeatureFlagService.isEnabled ?o ?k) =>
      apply growing_other; intros w; destruct (isEnabled_reads o k w) as [-> ->]; done
  | |- growing _ =>
      apply growing_other; intros w;
      unfold throw, ret, now, select, select_one, MembershipRepository.findMembership, create_channel_sequence,
        nextSequence, insert_or_ignore, insert_row, gen_random_uuid, update_where, drop_sequence;
      repeat case_match; cbn; split_and!; try reflexivity; lia
  end).

Lemma chat_exec_grows c w : direct_ok w → grows w (chat_exec c w).
Proof.
  revert w. destruct c; cbn [chat_exec].
  1: change (growing (ChannelService.createDirect orgId creatorId otherUserId)).
  2: change (growing (ChannelService.createGroup orgId creatorId name memberIds)).
  3: change (growing (ChannelService.createWorkspaceChannel orgId creatorId name workspaceId)).
  4: change (growing (MessageService.send orgId input)).
  5: change (growing (MessageService.deleteMessage orgId messageId channelId userId)).
  6: change (growing (ChannelRepository.updateLastRead channelId userId sequence)).
  7: change (growing dropDeletedChannelSequences).
  all: unfold ChannelService.createDirect, ChannelService.open_direct, ChannelService.createGroup,
    ChannelService.assert_org_member, ChannelService.createWorkspaceChannel, ChannelService.writeOutboxEvent,
    World.writeOutboxEvent, ChannelRepository.addMember, ChannelRepository.findDirectChannel,
    ChannelRepository.isMember, ChannelRepository.updateLastRead, MessageService.send, MessageService.check_parent,
    MessageRepository.findByClientMessageId, MessageRepository.findById, MessageRepository.create,
    MessageService.deleteMessage, MessageRepository.softDelete, dropDeletedChannelSequences; cbv zeta.
  all: grow.
Qed.

Lemma chat_run_grows cs w : direct_ok w → grows w (chat_run cs w).
Proof.
  revert w. induction cs as [|[t c] cs IH]; intros w Hw; cbn; [by apply grows_refl|].
  assert (Ht : grows w (w <| clock := t |>)) by exact (grows_refl w Hw).
  eapply grows_trans; [exact Ht|]. eapply grows_trans; [apply chat_exec_grows, Ht|].
  apply IH. apply chat_exec_grows, Ht.
Qed.

(** The users of a pair in order. *)
Definition least (a b : string) : string := if String.ltb a b then a else b.
Definition greatest (a b : string) : string := if String.ltb a b then b else a.

Lemma ltb_order a b : a ≠ b →
  (String.ltb a b = true ∧ String.ltb b a = false) ∨ (String.ltb a b = false ∧ String.ltb b a = true).
Proof.
  intros Hne. unfold String.ltb. rewrite (String.compare_antisym b a).
  destruct (String.compare a b) eqn:E; cbn; auto. by apply String.compare_eq_iff in E.
Qed.

(** The channel [ch] is the one of the users [a] and [b]. *)
Definition linked (o a b : string) (ch : ChannelRow) (w : World) : Prop :=
  ch ∈ channels (db w) ∧ ch_deleted_at ch = None ∧
  ∃ p, p ∈ direct_channel_pairs (db w) ∧ pair_key p = (o, least a b, greatest a b) ∧ dcp_channel_id p = ch_id ch.

Lemma linked_grows o a b ch w w' : grows w w' → linked o a b ch w → linked o a b ch w'.
Proof.
  intros ([l1 E1] & [l2 E2] & _) (Hc & Hd & p & Hp & ?). split_and!; [rewrite E2, elem_of_app; by left|done|].
  exists p. rewrite E1, elem_of_app. auto.
Qed.

Lemma linked_sym o a b ch w : a ≠ b → linked o a b ch w → linked o b a ch w.
Proof.
  intros Hne (Hc & Hd & p & Hp & Hk & ?). split_and!; [done|done|]. exists p. split_and!; [done| |done].
  rewrite Hk. unfold least, greatest. by destruct (ltb_order a b Hne) as [[-> ->]|[-> ->]].
Qed.

Lemma findDirect_linked o a b ch w :
  a ≠ b → direct_ok w → linked o a b ch w →
  ChannelRepository.findDirectChannel o (least a b) (greatest a b) w = (Ok (Some ch), w).
Proof.
  intros Hne (Hpairs & Hids & _) (Hc & Hd & p & Hp & Hk & Hpc).
  unfold ChannelRepository.findDirectChannel, bind, select, select_one. tables.
  assert (Hord : String.ltb (least a b) (greatest a b) = true).
  { unfold least, greatest. by destruct (ltb_order a b Hne) as [[E E']|[E E']]; rewrite E. }
  rewrite Hord. do 2 f_equal.
  eapply NoDup_fmap_find; [exact Hids|done| |].
  - rewrite Hd. cbn. rewrite andb_true_r. apply existsb_exists. exists p.
    rewrite <- list_elem_of_In, elem_of_filter_bool. split; [|by rewrite Hpc, String.eqb_refl].
    split; [done|]. injection Hk as E1 E2 E3. unfold ChannelRepository.of_pair. by rewrite E1, E2, E3, !String.eqb_refl.
  - intros ch' _ [Hex _]%andb_true_iff. apply existsb_exists in Hex as (p' & Hp' & E). bool_to_prop.
    rewrite <- list_elem_of_In in Hp'. apply elem_of_filter_bool in Hp' as [Hp' Hof].
    assert (p' = p) as ->; [|congruence]. eapply (NoDup_fmap_elem pair_key); eauto. rewrite Hk.
    unfold ChannelRepository.of_pair, pair_key in *. bool_to_prop. congruence.
Qed.
End direct_calls.

Section direct_results.
Context `{Redis, !RedisHash, Random, !RandomLaws _}.

(** Adding a member changes the table of members only. *)
Lemma addMember_run c u o w : ∃ l, ChannelRepository.addMember c u o w =
  (Ok tt, w <| db := (db w) <| channel_members := l |> |>).
Proof.
  unfold ChannelRepository.addMember, bind, now, insert_or_ignore. destruct (existsb _ _).
  - exists (channel_members (db w)). destruct w as [[] ? ? ? ? ? ? ?]. reflexivity.
  - eexists. reflexivity.
Qed.

(** The transaction of a direct channel: it fails on a pair that has one,
    without a trace in the database. *)
Lemma open_direct_run o c u a b w :
  String.ltb a b = true →
  match ChannelService.open_direct o c u a b w with
  | (Ok ch, w1) => existsb (ChannelRepository.of_pair o a b) (direct_channel_pairs (db w)) = false ∧
      ch ∈ channels (db w1) ∧ ch_deleted_at ch = None ∧
      ∃ p, p ∈ direct_channel_pairs (db w1) ∧ pair_key p = (o, a, b) ∧ dcp_channel_id p = ch_id ch
  | (Throw e, w1) => e = unique_violation ∧ db w1 = db w
  end.
Proof.
  intros Hlt. unfold ChannelService.open_direct, withTransaction.
  unfold ChannelRepository.create, bind at 1, bind at 1, gen_random_uuid, bind at 1, now, bind at 1, insert_row.
  cbn [ret].
  set (ch := mkChannelRow _ _ _ _ _ _ _ _ _). set (w0 := _ <| db := _ |>).
  unfold bind at 1. destruct (addMember_run (ch_id ch) c o w0) as [l1 ->].
  unfold bind at 1. destruct (addMember_run (ch_id ch) u o (w0 <| db := (db w0) <| channel_members := l1 |> |>)) as [l2 ->].
  unfold bind at 1, ChannelRepository.insertDirectPair, bind at 1, now. rewrite Hlt. cbn [negb].
  unfold insert_unique. tables. cbn [db upd direct_channel_pairs].
  change (direct_channel_pairs (db w0)) with (direct_channel_pairs (db w)).
  destruct (existsb (λ p, _) (direct_channel_pairs (db w))) eqn:Ex; [done|].
  unfold insert_row, bind, create_channel_sequence. cbn [db upd sequences].
  set (w1 := match _ with Some _ => _ | None => _ end). cbn [ret].
  assert (Hc : channels (db w1) = channels (db w) ++ [ch]) by (subst w1; clear; destruct (_ !! _); reflexivity).
  assert (Hp : direct_channel_pairs (db w1) = direct_channel_pairs (db w) ++
    [mkDirectChannelPairRow o a b (ch_id ch) (clock w)]) by (subst w1; clear; destruct (_ !! _); reflexivity).
  split_and!.
  - apply not_true_iff_false. intros Hof. apply existsb_exists in Hof as (p & Hin & Hpk).
    apply not_true_iff_false in Ex. apply Ex, existsb_exists. exists p. by rewrite Hpk.
  - rewrite Hc. apply elem_of_app. right. by left.
  - done.
  - rewrite Hp. eexists. split; [apply elem_of_app; right; by left|done].
Qed.

Definition member_of (o u : string) (w : World) : Prop :=
  is_Some (List.find (MembershipRepository.of_pair o u) (org_memberships (db w))).

(** [createDirect] after its checks. *)
Lemma createDirect_unfold o a b w :
  a ≠ b → member_of o a w → member_of o b w →
  ChannelService.createDirect o a b w =
  match ChannelService.open_direct o a b (least a b) (greatest a b) w with
  | (Ok ch, w1) =>
      (let* _ := ChannelService.writeOutboxEvent "channel.created" o (ch_id ch) (Some a)
         (JObj [("channelId", JStr (ch_id ch)); ("orgId", JStr o); ("type", JStr "direct")]) in ret (ch, true)) w1
  | (Throw e, w1) =>
      (let* existing := ChannelRepository.findDirectChannel o (least a b) (greatest a b) in
       match existing with Some ch => ret (ch, false) | None => throw e end) w1
  end.
Proof.
  intros Hne [ma Ha] [mb Hb]. unfold ChannelService.createDirect.
  rewrite (proj2 (String.eqb_neq a b) Hne). cbv zeta. fold (least a b) (greatest a b).
  unfold MembershipRepository.findMembership, select_one, bind at 1. tables. rewrite Ha.
  unfold bind at 1. rewrite Hb. cbn [is_null]. unfold catch. unfold bind at 1.
  assert (Hlt : String.ltb (least a b) (greatest a b) = true).
  { unfold least, greatest. by destruct (ltb_order a b Hne) as [[E E']|[E E']]; rewrite E. }
  pose proof (open_direct_run o a b _ _ w Hlt) as Hrun.
  destruct (ChannelService.open_direct _ _ _ _ _ w) as [[ch|e] w1]; [reflexivity|].
  destruct Hrun as [-> _]. reflexivity.
Qed.

Lemma createDirect_members o a b r w' w :
  ChannelService.createDirect o a b w = (Ok r, w') → a ≠ b ∧ member_of o a w ∧ member_of o b w.
Proof.
  unfold ChannelService.createDirect. destruct (String.eqb_spec a b); [done|]. cbv zeta.
  unfold MembershipRepository.findMembership, select_one, bind at 1. tables. unfold bind at 1.
  unfold member_of. destruct (List.find (MembershipRepository.of_pair o a) _); [|done].
  destruct (List.find (MembershipRepository.of_pair o b) _); [|done]. eauto.
Qed.

Lemma direct_ok_db w w' : direct_ok w → db w' = db w → draws w ≤ draws w' → direct_ok w'.
Proof.
  intros (? & ? & Hdr) E Hd. unfold direct_ok. rewrite E. split_and!; [done..|].
  eapply Forall_impl; [exact Hdr|]. intros c. by apply drawn_mono.
Qed.

Lemma open_direct_draws o c u a b w : draws w ≤ draws (ChannelService.open_direct o c u a b w).2.
Proof.
  pose proof (ambient_transaction (draws w) (clock w) (redis_up w)
    (let* ch := ChannelRepository.create o Direct c None None in
     ChannelRepository.addMember (ch_id ch) c o ;;; ChannelRepository.addMember (ch_id ch) u o ;;;
     ChannelRepository.insertDirectPair o a b (ch_id ch) ;;; create_channel_sequence (ch_id ch) ;;; ret ch)) as Ha.
  destruct (Ha ltac:(unfold ChannelRepository.create, ChannelRepository.insertDirectPair;
    repeat first [apply ambient_addMember | apply ambient_sequence | progress preserve]) w) as (Hd & _); done.
Qed.

Lemma createDirect_linked o a b ch created w w' :
  direct_ok w → ChannelService.createDirect o a b w = (Ok (ch, created), w') → linked o a b ch w'.
Proof.
  intros Hok E. destruct (createDirect_members _ _ _ _ _ _ E) as (Hne & Ha & Hb).
  rewrite createDirect_unfold in E by done.
  assert (Hlt : String.ltb (least a b) (greatest a b) = true).
  { unfold least, greatest. by destruct (ltb_order a b Hne) as [[E1 E']|[E1 E']]; rewrite E1. }
  pose proof (open_direct_run o a b _ _ w Hlt) as Hrun.
  destruct (ChannelService.open_direct _ _ _ _ _ w) as [[ch1|e] w1].
  - destruct Hrun as (_ & Hc & Hd & p & Hp & ?). unfold bind, ChannelService.writeOutboxEvent in E.
    cbn in E. injection E as <- _ <-. split_and!; [done|done|]. exists p. by cbn.
  - destruct Hrun as [_ Edb].
    unfold bind, ChannelRepository.findDirectChannel, bind, select, select_one in E.
    rewrite Hlt in E. tables. rewrite !Edb in E.
    destruct (List.find _ (channels (db w))) as [ch1|] eqn:Ef; [|done]. injection E as <- _ <-.
    apply find_some_elem in Ef as [Hin [Hex Hdel]%andb_true_iff]. unfold linked. rewrite Edb.
    split_and!; [done|by destruct (ch_deleted_at ch1)|].
    apply existsb_exists in Hex as (p & Hp & Epc). rewrite <- list_elem_of_In in Hp.
    apply elem_of_filter_bool in Hp as [Hp Hof]. exists p. unfold ChannelRepository.of_pair in Hof.
    bool_to_prop. split_and!; [done| |done]. unfold pair_key. congruence.
Qed.

Lemma createDirect_again o a b ch w :
  direct_ok w → a ≠ b → linked o a b ch w → member_of o a w → member_of o b w →
  (ChannelService.createDirect o a b w).1 = Ok (ch, false).
Proof.
  intros Hok Hne Hl Ha Hb. rewrite createDirect_unfold by done.
  assert (Hlt : String.ltb (least a b) (greatest a b) = true).
  { unfold least, greatest. by destruct (ltb_order a b Hne) as [[E1 E']|[E1 E']]; rewrite E1. }
  pose proof (open_direct_run o a b _ _ w Hlt) as Hrun.
  pose proof (open_direct_draws o a b (least a b) (greatest a b) w) as Hd.
  destruct (ChannelService.open_direct _ _ _ _ _ w) as [[ch1|e] w1]; cbn in Hd.
  - exfalso. destruct Hrun as (Hno & _). destruct Hl as (_ & _ & p & Hp & Hk & _).
    apply not_true_iff_false in Hno. apply Hno, existsb_exists. exists p. rewrite <- list_elem_of_In.
    split; [done|]. injection Hk as E1 E2 E3. unfold ChannelRepository.of_pair. by rewrite E1, E2, E3, !String.eqb_refl.
  - destruct Hrun as [-> Edb]. unfold bind.
    rewrite (findDirect_linked o a b ch w1); [done|done|by eapply direct_ok_db|].
    unfold linked. rewrite Edb. exact Hl.
Qed.
End direct_results.

Module ChatProperties.
Section theorems.
Context `{Redis, !RedisHash, Random, !RandomLaws _}.

(** C23: whatever calls are made, at whatever times, in every channel the
    sequence numbers grow strictly in the order the messages were stored, no
    client identifier has two messages, and a reply answers a message of its
    channel that is not itself a reply. *)
Theorem messages_in_order cs w :
  chat_ok (db w) (draws w) →
  (∀ c, StronglySorted Z.lt
     (msg_sequence_number <$> List.filter (in_channel c) (chat_messages (db (chat_run cs w))))) ∧
  NoDup ((λ m, (msg_channel_id m, msg_client_message_id m)) <$> chat_messages (db (chat_run cs w))) ∧
  (∀ m p, m ∈ chat_messages (db (chat_run cs w)) → msg_parent_message_id m = Some p →
     ∃ q, q ∈ chat_messages (db (chat_run cs w)) ∧ msg_id q = p ∧ msg_channel_id q = msg_channel_id m ∧
       msg_parent_message_id q = None).
Proof. intros Hw. by destruct (chat_run_inv cs w Hw) as [C1 C2 C3 C4 C5 C6]. Qed.

(** two users have one direct channel in an organization: once either of
    them got it, and whatever was called since, a request of either one for a
    channel with the other returns that same channel, as not created. *)
Theorem one_direct_channel o a b ch created cs w w1 :
  direct_ok w → ChannelService.createDirect o a b w = (Ok (ch, created), w1) →
  member_of o a (chat_run cs w1) → member_of o b (chat_run cs w1) →
  (ChannelService.createDirect o a b (chat_run cs w1)).1 = Ok (ch, false) ∧
  (ChannelService.createDirect o b a (chat_run cs w1)).1 = Ok (ch, false).
Proof.
  intros Hok E Ha Hb. destruct (createDirect_members _ _ _ _ _ _ E) as (Hne & _ & _).
  assert (Hok1 : grows w w1).
  { pose proof (chat_exec_grows (CreateDirect o a b) w Hok) as Hg. cbn in Hg. by rewrite E in Hg. }
  assert (Hg : grows w1 (chat_run cs w1)) by (apply chat_run_grows, Hok1).
  assert (Hl : linked o a b ch (chat_run cs w1)).
  { eapply linked_grows; [exact Hg|]. by eapply createDirect_linked. }
  split; apply createDirect_again; auto; try apply Hg; by apply linked_sym.
Qed.
End theorems.
End ChatProperties.

Module ChatExamples.
Import Concrete.

Definition join (o u : string) (w : World) : World :=
  (MembershipRepository.createMembership (mkCreateMembershipData o u Member None None) w).2.

(** Ann and Bob are members of one organization, Ann of a second one. *)
Definition start : World := join "org2" "ann" (join "org1" "bob" (join "org1" "ann" (empty_world 1000))).

Notation dm := (ChannelService.createDirect "org1" "ann" "bob" start).
Definition dm_id : string := match dm.1 with Ok (c, _) => ch_id c | Throw _ => "" end.
Definition text (client body : string) (parent : option string) : SendMessageInput :=
  mkSendMessageInput dm_id "ann" body None client parent.

Definition session : list (Z * chat_call) :=
  [(1000%Z, CreateDirect "org1" "bob" "ann"); (1000%Z, Send "org1" (text "c1" "hi" None));
   (1001%Z, Send "org1" (text "c2" "there" None)); (1002%Z, Send "org1" (text "c1" "hi" None));
   (1003%Z, CreateWorkspaceChannel "org1" "ann" "general" "ws")].

Example session_messages :
  (λ m, (msg_client_message_id m, msg_sequence_number m)) <$> chat_messages (db (chat_run session dm.2)) =
  [("c1"%string, 1%Z); ("c2"%string, 2%Z)].
Proof. vm_compute. reflexivity. Qed.

(** A member of the channel can post to it through the routes of another
    organization: the message is stored under that organization. *)
Example message_of_other_org :
  (λ m, (msg_org_id m, msg_channel_id m)) <$>
    chat_messages (db (chat_run [(1000%Z, Send "org2" (text "c1" "hi" None))] dm.2)) = [("org2"%string, dm_id)].
Proof. vm_compute. reflexivity. Qed.

Lemma start_chat_ok t : chat_ok (db (empty_world t)) (draws (empty_world t)).
Proof. by split; cbn; repeat constructor; intros; set_solver. Qed.

Lemma start_direct_ok : direct_ok start.
Proof. split_and!; vm_compute; constructor. Qed.

Lemma dm_ok : is_ok dm = true.
Proof. vm_compute. reflexivity. Qed.

Lemma messages_in_order_witness :
  Forall (λ c, StronglySorted Z.lt (msg_sequence_number <$> List.filter (in_channel c)
    (chat_messages (db (chat_run ((1000%Z, CreateDirect "org1" "ann" "bob") :: session) (empty_world 1000)))))) [dm_id].
Proof.
  constructor; [|constructor]. apply (ChatProperties.messages_in_order _ (empty_world 1000) (start_chat_ok 1000)).
Defined.

Lemma one_direct_channel_witness :
  ∃ c, (ChannelService.createDirect "org1" "bob" "ann" (chat_run session dm.2)).1 = Ok (c, false).
Proof.
  destruct (is_ok_inv dm dm_ok) as [[c b] E]. exists c.
  apply (ChatProperties.one_direct_channel "org1" "ann" "bob" c b session start dm.2).
  - exact start_direct_ok.
  - exact E.
  - eexists. vm_compute. reflexivity.
  - eexists. vm_compute. reflexivity.
Defined.
End ChatExamples.
