(* ===== verification/Files.v ===== *)
(** * Files: uploads within the storage quota, and the virus scan

    [modules/file]: [file.repository.ts], [file.service.ts] and the jobs of
    [workers/virus-scan.worker.ts].  The storage is the interface
    [IStorageProvider] of [shared/storage]; the local adapter is an instance
    of it.  The download of a file, [file-type] and ClamAV are an
    interface. *)
From S2P Require Import Prelude Schema World Crypto Concrete OrgRepo Gdpr.
From Stdlib Require Import ZArith Lia.
From stdpp Require Import base tactics strings gmap list pretty.

(** ** Storage *)

Record UploadSpec := mkUploadSpec {
  us_url : string;
  us_fields : option (list (string * string));
  us_expiresAt : Z
}.

(** The operations of [IStorageProvider] the service calls. *)
Class StorageProvider `{Redis} := {
  generateUploadUrl : string → string → Z → M UploadSpec;
  storageDownloadUrl : string → Z → M string;
}.

(** [m] leaves the database as it is and makes draws of its own at most. *)
Definition outside `{Redis} {A} (m : M A) : Prop :=
  ∀ w, db (m w).2 = db w ∧ draws w ≤ draws (m w).2.

(** A storage provider does not write the database. *)
Class StorageLaws `{Redis} (S : StorageProvider) : Prop := {
  upload_outside : ∀ key mime bytes, outside (generateUploadUrl key mime bytes);
  download_outside : ∀ key ttl, outside (storageDownloadUrl key ttl);
}.

(** [LocalAdapter]; [port] is [process.env.PORT || 3000]. *)
Definition UPLOAD_TTL_SECONDS : Z := 3600.

Definition LocalAdapter `{Redis} (port : string) : StorageProvider := {|
  generateUploadUrl key _ _ :=
    let* t := now in
    ret (mkUploadSpec ("http://localhost:" +:+ port +:+ "/api/v1/files/local-upload/" +:+ key) None
      (t + UPLOAD_TTL_SECONDS * 1000));
  storageDownloadUrl key _ :=
    ret ("http://localhost:" +:+ port +:+ "/api/v1/files/local-download/" +:+ key);
|}.

#[export] Instance LocalAdapter_laws `{Redis} port : StorageLaws (LocalAdapter port).
Proof. split; by split. Qed.

(** ** The repository *)

Module FileRepository.
Section repo.
Context `{Redis, Random}.

Definition create (org_id uploader_id filename storage_key mime_type : string) (size_bytes : Z) : M FileRow :=
  let* id := gen_random_uuid in
  let* t := now in
  let row := mkFileRow id org_id uploader_id filename storage_key mime_type size_bytes FPending ScanPending
    None t None in
  insert_unique (λ f, (f_storage_key f =? storage_key)%string) row ;;; ret row.

Definition findById (id orgId : string) : M (option FileRow) :=
  select_one (λ f, (f_id f =? id)%string && (f_org_id f =? orgId)%string && is_null (f_deleted_at f)).

(** [ORDER BY created_at DESC LIMIT $2 OFFSET $3]; rows are in the order of
    their creation. *)
Definition findByOrg (orgId : string) (limit offset : nat) : M (list FileRow) :=
  let* rows := select (λ f, (f_org_id f =? orgId)%string && is_null (f_deleted_at f)) in
  ret (take limit (drop offset (rev rows))).

Definition with_id (id : string) (f : FileRow) : bool := (f_id f =? id)%string.

Definition scanned (t : Z) (scanStatus : scan_status) (status : option file_status) (f : FileRow) : FileRow :=
  f <| f_scan_status := scanStatus |> <| f_scan_completed_at := Some t |>
    <| f_status := status ?? f_status f |>.

Definition updateScanStatus (id : string) (scanStatus : scan_status) (status : option file_status) : M unit :=
  let* t := now in
  let* _ := update_where (with_id id) (scanned t scanStatus status) in ret tt.

Definition softDelete (id : string) : M unit :=
  let* t := now in
  let* _ := update_where (with_id id) (λ f, f <| f_deleted_at := Some t |> <| f_status := FDeleted |>) in ret tt.

Definition stale (t : Z) (f : FileRow) : bool :=
  bool_decide (f_status f = FPending) && is_null (f_deleted_at f) && (f_created_at f <? t - 3600000)%Z.

Definition findStalePending : M (list FileRow) :=
  let* t := now in select (stale t).
End repo.
End FileRepository.

(** ** The service *)

Record RequestUploadUrlInput := mkRequestUploadUrlInput {
  ru_filename : string;
  ru_mimeType : string;
  ru_sizeBytes : Z
}.

Record RequestUploadUrlResult := mkRequestUploadUrlResult {
  rr_fileId : string;
  rr_uploadUrl : string;
  rr_uploadFields : option (list (string * string));
  rr_expiresAt : Z
}.

Inductive DownloadUrlResult :=
  | DownloadUrl (url : string)
  | SCAN_PENDING_SIGNAL.

Module FileService.

Definition docx : string := "application/vnd.openxmlformats-officedocument.wordprocessingml.document".

Definition MIME_ALLOWLIST : list string :=
  ["image/jpeg"; "image/png"; "image/gif"; "image/webp"; "application/pdf"; "text/plain"; "application/zip";
   docx]%string.

(** In bytes; a plan not listed has the limit of the free one. *)
Definition PLAN_MAX_FILE_BYTES (planTier : string) : option Z :=
  if (planTier =? "free")%string then Some (10 * 1024 * 1024)%Z
  else if (planTier =? "pro")%string then Some (100 * 1024 * 1024)%Z
  else if (planTier =? "business")%string then Some (500 * 1024 * 1024)%Z
  else if (planTier =? "enterprise")%string then Some (2 * 1024 * 1024 * 1024)%Z
  else None.
Definition DEFAULT_MAX_FILE_BYTES : Z := (10 * 1024 * 1024)%Z.

Section service.
Context `{Redis, Random, !StorageProvider}.

(** The transaction: the quota is reserved and the row is inserted, or
    neither. *)
Definition reserve (orgId uploaderId storageKey : string) (input : RequestUploadUrlInput) : M FileRow :=
  withTransaction
    (let* rows := update_touch
       (λ o, (o_id o =? orgId)%string &&
             (o_storage_used_bytes o + ru_sizeBytes input <=? o_storage_quota_bytes o)%Z)
       (λ o, o <| o_storage_used_bytes := (o_storage_used_bytes o + ru_sizeBytes input)%Z |>) in
     match rows with
     | [] => throw (ForbiddenError "PLAN_STORAGE_QUOTA_EXCEEDED" "Storage quota exceeded for this organization")
     | _ :: _ =>
         FileRepository.create orgId uploaderId (ru_filename input) storageKey (ru_mimeType input)
           (ru_sizeBytes input)
     end).

Definition requestUploadUrl (orgId uploaderId : string) (input : RequestUploadUrlInput) (planTier : string)
    : M RequestUploadUrlResult :=
  if negb (includes MIME_ALLOWLIST (ru_mimeType input)) then
    throw (UnprocessableError "INVALID_MIME_TYPE" ("MIME type '" +:+ ru_mimeType input +:+ "' is not allowed"))
  else
  let maxBytes := PLAN_MAX_FILE_BYTES planTier ?? DEFAULT_MAX_FILE_BYTES in
  if (maxBytes <? ru_sizeBytes input)%Z then
    throw (UnprocessableError "FILE_TOO_LARGE"
      ("File size exceeds " +:+ pretty maxBytes +:+ " bytes for plan '" +:+ planTier +:+ "'"))
  else
  let* storageKey := gen_random_uuid in
  let* uploadSpec := generateUploadUrl storageKey (ru_mimeType input) (ru_sizeBytes input) in
  let* fileRow := reserve orgId uploaderId storageKey input in
  ret (mkRequestUploadUrlResult (f_id fileRow) (us_url uploadSpec) (us_fields uploadSpec) (us_expiresAt uploadSpec)).

Definition generateDownloadUrl (orgId fileId : string) : M DownloadUrlResult :=
  let* file := FileRepository.findById fileId orgId in
  match file with
  | None => throw (NotFoundError "File")
  | Some file =>
      if bool_decide (f_status file = FQuarantined) then
        throw (UnprocessableError "FILE_QUARANTINED" "This file has been quarantined due to a virus scan failure")
      else if bool_decide (f_scan_status file = ScanPending) then ret SCAN_PENDING_SIGNAL
      else let* url := storageDownloadUrl (f_storage_key file) 3600 in ret (DownloadUrl url)
  end.

Definition getFile (orgId fileId : string) : M FileRow :=
  let* file := FileRepository.findById fileId orgId in
  match file with None => throw (NotFoundError "File") | Some file => ret file end.

Definition listFiles (orgId : string) (limit offset : nat) : M (list FileRow) :=
  FileRepository.findByOrg orgId limit offset.
End service.
End FileService.

(** ** The jobs *)

(** Fetching a file to a path, the type its bytes show, and what ClamAV says
    of it, with the names of the viruses. *)
Class Scanner `{Redis} := {
  downloadFile : string → string → M unit;
  fileTypeFromFile : string → M (option string);
  clam_isInfected : string → M (bool * list string);
}.

Class ScannerLaws `{Redis} (S : Scanner) : Prop := {
  downloadFile_outside : ∀ url dest, outside (downloadFile url dest);
  fileTypeFromFile_outside : ∀ path, outside (fileTypeFromFile path);
  clam_outside : ∀ path, outside (clam_isInfected path);
}.

Record VirusScanJobData := mkVirusScanJobData {
  vs_fileId : string;
  vs_storageKey : string;
  vs_storageUrl : option string;
  vs_orgId : string
}.

Module VirusScanWorker.

(** The types whose bytes are verified; another type is let through. *)
Definition MIME_MAGIC_MAP (mime : string) : option (list string) :=
  if includes ["image/jpeg"; "image/png"; "image/gif"; "image/webp"; "application/pdf"; "application/zip"]%string mime
  then Some [mime]
  else if (mime =? FileService.docx)%string then Some [FileService.docx; "application/zip"%string]
  else None.

Section worker.
Context `{Redis, Random, !Scanner}.
(** [config.virusScanEnabled]. *)
Context (virusScanEnabled : bool).

Definition writeOutboxEvent (eventType orgId entityId : string) (payload : json) : M unit :=
  World.writeOutboxEvent (Some orgId) eventType "file" entityId None payload.

(** [UPDATE organizations SET storage_used_bytes = GREATEST(0, .. - $1)]. *)
Definition reclaim (orgId : string) (size : Z) : M unit :=
  let* _ := update_touch (λ o, (o_id o =? orgId)%string)
    (λ o, o <| o_storage_used_bytes := Z.max 0 (o_storage_used_bytes o - size) |>) in ret tt.

Definition quarantine (fileId : string) : M unit :=
  FileRepository.updateScanStatus fileId ScanInfected (Some FQuarantined).

(** The bytes do not show the declared type. *)
Definition mime_mismatch (d : VirusScanJobData) (row : option FileRow) (detected : option string) : M unit :=
  quarantine (vs_fileId d) ;;;
  match row with Some f => reclaim (vs_orgId d) (f_size_bytes f) | None => ret tt end ;;;
  writeOutboxEvent "file.quarantined" (vs_orgId d) (vs_fileId d)
    (JObj [("fileId", JStr (vs_fileId d)); ("storageKey", JStr (vs_storageKey d)); ("reason", JStr "mime_mismatch");
           ("declared", jopt (f_mime_type <$> row)); ("detected", JStr (detected ?? "unknown"))]).

Definition clam_scan (d : VirusScanJobData) (tmpPath : string) : M unit :=
  let* result := clam_isInfected tmpPath in
  let '(isInfected, viruses) := result in
  if (isInfected : bool) then
    quarantine (vs_fileId d) ;;;
    let* row := select_one (FileRepository.with_id (vs_fileId d)) in
    match row with Some f => reclaim (vs_orgId d) (f_size_bytes f) | None => ret tt end ;;;
    writeOutboxEvent "file.quarantined" (vs_orgId d) (vs_fileId d)
      (JObj [("fileId", JStr (vs_fileId d)); ("storageKey", JStr (vs_storageKey d));
             ("viruses", JArr (JStr <$> viruses))])
  else FileRepository.updateScanStatus (vs_fileId d) ScanClean (Some FConfirmed).

(** The temporary file, removed in the end, is outside of the state. *)
Definition virusScanWorkerJob (d : VirusScanJobData) : M unit :=
  let tmpPath := "/tmp/" +:+ vs_storageKey d in
  if negb virusScanEnabled then FileRepository.updateScanStatus (vs_fileId d) ScanClean None
  else if negb (otruthy (vs_storageUrl d)) then ret tt
  else
  downloadFile (vs_storageUrl d ?? "") tmpPath ;;;
  let* fileRow := select_one (FileRepository.with_id (vs_fileId d)) in
  match fileRow ≫= λ f, MIME_MAGIC_MAP (f_mime_type f) with
  | Some allowedActual =>
      let* detected := fileTypeFromFile tmpPath in
      if match detected with Some mime => includes allowedActual mime | None => false end
      then clam_scan d tmpPath
      else mime_mismatch d fileRow detected
  | None => clam_scan d tmpPath
  end.

Definition fileCleanupWorkerJob : M unit :=
  let* stale := FileRepository.findStalePending in
  for_each stale (λ file,
    reclaim (f_org_id file) (f_size_bytes file) ;;;
    FileRepository.softDelete (f_id file)).
End worker.
End VirusScanWorker.

(** ** The quota is the files it is reserved for *)

(** A file of the organization that is neither quarantined nor deleted. *)
Definition holds (orgId : string) (f : FileRow) : bool :=
  (f_org_id f =? orgId)%string && bool_decide (f_status f = FPending ∨ f_status f = FConfirmed) &&
  is_null (f_deleted_at f).

Definition held_bytes (orgId : string) (l : list FileRow) : Z :=
  foldr (λ f n, ((if holds orgId f then f_size_bytes f else 0) + n)%Z) 0%Z l.

#[global] Arguments held_bytes : simpl never.

Lemma held_bytes_cons o f l :
  held_bytes o (f :: l) = ((if holds o f then f_size_bytes f else 0) + held_bytes o l)%Z.
Proof. reflexivity. Qed.

Section quota.
Context `{Redis, Random, !RandomLaws _}.

Definition file_drawn (n : nat) (id : string) : Prop := ∃ k, k < n ∧ id = random_uuid k.

(** What is recorded for an organization that is not deleted: [exact]ly what is
    held, or at most that; and within the quota. *)
Definition balanced (exact : bool) (l : list FileRow) (o : OrgRow) : Prop :=
  o_status o ≠ OrgDeleted →
  (exact = true → o_storage_used_bytes o = held_bytes (o_id o) l) ∧
  (0 ≤ o_storage_used_bytes o ≤ held_bytes (o_id o) l)%Z ∧
  (o_storage_used_bytes o ≤ o_storage_quota_bytes o)%Z.

Context (exact : bool).

Record quota_ok (d : DB) (n : nat) : Prop := {
  q_orgs : NoDup (o_id <$> organizations d);
  q_files : NoDup (f_id <$> files d);
  q_drawn : Forall (λ f, file_drawn n (f_id f) ∧ (0 ≤ f_size_bytes f)%Z) (files d);
  q_used : Forall (balanced exact (files d)) (organizations d)
}.

Definition quota_inv (w : World) : Prop := quota_ok (db w) (draws w).

Lemma held_bytes_app o l l' : held_bytes o (l ++ l') = (held_bytes o l + held_bytes o l')%Z.
Proof. induction l as [|f l IH]; [done|]. cbn [app]. rewrite !held_bytes_cons, IH. lia. Qed.

Lemma held_bytes_nonneg o l : Forall (λ f, (0 ≤ f_size_bytes f)%Z) l → (0 ≤ held_bytes o l)%Z.
Proof. induction 1 as [|f l Hf _ IH]; [done|]. rewrite held_bytes_cons. destruct (holds o f); lia. Qed.

(** Changing one file changes the sum by what it held and holds. *)
Lemma held_bytes_update o id g l f :
  NoDup (f_id <$> l) → f ∈ l → f_id f = id → f_size_bytes (g f) = f_size_bytes f →
  held_bytes o (upd_where (FileRepository.with_id id) g l) =
  (held_bytes o l - (if holds o f then f_size_bytes f else 0) + (if holds o (g f) then f_size_bytes f else 0))%Z.
Proof.
  intros Hnd Hin Hid Hsize. unfold upd_where, FileRepository.with_id. revert Hnd Hin.
  induction l as [|x l IH]; cbn; intros Hnd Hin; [by apply elem_of_nil in Hin|]. rewrite !held_bytes_cons.
  apply NoDup_cons in Hnd as [Hx Hnd]. apply elem_of_cons in Hin as [->|Hin].
  - rewrite (proj2 (String.eqb_eq _ _) Hid). fold (upd_where (FileRepository.with_id id) g l).
    assert (E : upd_where (FileRepository.with_id id) g l = l).
    { apply upd_where_none. intros y Hy. unfold FileRepository.with_id. apply String.eqb_neq. intros E. apply Hx.
      rewrite Hid, <- E. by apply list_elem_of_fmap_2. }
    unfold upd_where, FileRepository.with_id in E. rewrite E, Hsize. lia.
  - rewrite (proj2 (String.eqb_neq (f_id x) id)).
    + rewrite IH by done. lia.
    + intros E. apply Hx. rewrite E, <- Hid. by apply list_elem_of_fmap_2.
Qed.

Lemma held_bytes_ge o l f :
  Forall (λ f, (0 ≤ f_size_bytes f)%Z) l → f ∈ l → holds o f = true → (f_size_bytes f ≤ held_bytes o l)%Z.
Proof.
  induction 1 as [|x l Hx Hl IH]; intros Hin Ho; [by apply elem_of_nil in Hin|]. rewrite held_bytes_cons.
  pose proof (held_bytes_nonneg o l Hl). apply elem_of_cons in Hin as [->|Hin]; [rewrite Ho; lia|].
  specialize (IH Hin Ho). destruct (holds o x); lia.
Qed.

Lemma holds_org o o' f : holds o f = true → holds o' f = true → o = o'.
Proof. unfold holds. intros E1 E2. bool_to_prop. congruence. Qed.

Lemma quota_sizes d n : quota_ok d n → Forall (λ f, (0 ≤ f_size_bytes f)%Z) (files d).
Proof. intros Hq. eapply Forall_impl; [exact (q_drawn _ _ Hq)|]. by intros f [_ ?]. Qed.

(** Writes elsewhere. *)
Lemma quota_ok_frame d d' n n' :
  quota_ok d n → n ≤ n' → organizations d' = organizations d → files d' = files d → quota_ok d' n'.
Proof.
  intros [Q1 Q2 Q3 Q4] Hn Eo Ef. split; rewrite ?Eo, ?Ef; [done|done| |done].
  eapply Forall_impl; [exact Q3|]. intros f [(k & ? & ?) ?]. split; [exists k; split; [lia|done]|done].
Qed.

(** A file is changed, together with the usage of its organization: a file that
    stays held changes nothing, one that is held no more gives its size back. *)
Lemma quota_ok_update d n id g h f :
  quota_ok d n → f ∈ files d → f_id f = id → (exact = true → holds (f_org_id f) f = true) →
  (∀ x, f_id (g x) = f_id x ∧ f_size_bytes (g x) = f_size_bytes x ∧ f_org_id (g x) = f_org_id x) →
  (∀ o, o_id (h o) = o_id o ∧ o_storage_quota_bytes (h o) = o_storage_quota_bytes o ∧ o_status (h o) = o_status o) →
  (holds (f_org_id f) f = true → holds (f_org_id f) (g f) = true) ∧
    (∀ o, o_storage_used_bytes (h o) = o_storage_used_bytes o) ∨
  holds (f_org_id f) (g f) = false ∧
    (∀ o, o_storage_used_bytes (h o) = Z.max 0 (o_storage_used_bytes o - f_size_bytes f))%Z →
  quota_ok (d <| files := upd_where (FileRepository.with_id id) g (files d) |>
              <| organizations := upd_where (λ o, (o_id o =? f_org_id f)%string) h (organizations d) |>) n.
Proof.
  intros Hq Hin Hid Hh Hg Hf Hu. pose proof Hq as [Q1 Q2 Q3 Q4]. pose proof (quota_sizes d n Hq) as Hs.
  destruct (Hg f) as (Hg1 & Hg2 & Hg3). split; cbn.
  - rewrite fmap_upd_where; [done|]. intros o _. by destruct (Hf o).
  - rewrite fmap_upd_where; [done|]. intros x _. by destruct (Hg x).
  - apply Forall_upd_where; [|done]. intros x _. destruct (Hg x) as (-> & -> & _). done.
  - apply Forall_forall. intros o' (o & Ho & Hcase)%elem_of_upd_where. rewrite Forall_forall in Q4.
    pose proof (proj1 (Forall_forall _ _) Hs f Hin) as Hpos. cbn in Hpos. specialize (Q4 o Ho).
    unfold balanced in *. rewrite (held_bytes_update _ _ _ _ f) by done.
    destruct Hcase as [[Eo ->]|[Eo ->]]; bool_to_prop.
    + destruct (Hf o) as (-> & -> & ->). intros Hlive. destruct (Q4 Hlive) as (He & Hb & Hquota). rewrite Eo in *.
      assert (Hge : holds (f_org_id f) f = true → (f_size_bytes f ≤ held_bytes (f_org_id f) (files d))%Z)
        by (by apply held_bytes_ge).
      destruct Hu as [[Hk ->]|[-> ->]].
      * destruct (holds (f_org_id f) f) eqn:Ehf; [rewrite Hk by done|];
          [split; [intros; rewrite He by done; lia|lia]|].
        split; [intros Hx; by specialize (Hh Hx)|]. destruct (holds (f_org_id f) (g f)); lia.
      * destruct (holds (f_org_id f) f) eqn:Ehf; [specialize (Hge eq_refl)|];
          [split; [intros; rewrite He by done; lia|lia]|].
        split; [intros Hx; by specialize (Hh Hx)|lia].
    + assert (holds (o_id o) f = false) as ->.
      { apply not_true_iff_false. intros E. apply Eo. unfold holds in E. bool_to_prop. congruence. }
      assert (holds (o_id o) (g f) = false) as ->.
      { apply not_true_iff_false. intros E. apply Eo. unfold holds in E. bool_to_prop. congruence. }
      by rewrite Z.sub_0_r, Z.add_0_r.
Qed.

(** The files of an organization are deleted, and so is it. *)
Lemma held_bytes_others o P g l :
  (∀ f, P f = true → f_org_id f ≠ o ∧ f_org_id (g f) = f_org_id f) →
  held_bytes o (upd_where P g l) = held_bytes o l.
Proof.
  intros HP. induction l as [|f l IH]; [done|].
  change (upd_where P g (f :: l)) with ((if P f then g f else f) :: upd_where P g l). rewrite !held_bytes_cons, IH.
  destruct (P f) eqn:E; [|done]. destruct (HP f E) as [Hne Ho].
  assert (Hno : ∀ x, f_org_id x ≠ o → holds o x = false).
  { intros x Hx. unfold holds. by rewrite (proj2 (String.eqb_neq _ _) Hx). }
  by rewrite !Hno by congruence.
Qed.

Lemma quota_ok_offboard d n orgId P g h :
  quota_ok d n → (∀ f, P f = true → f_org_id f = orgId) →
  (∀ f, f_id (g f) = f_id f ∧ f_size_bytes (g f) = f_size_bytes f ∧ f_org_id (g f) = f_org_id f) →
  (∀ o, o_id (h o) = o_id o ∧ o_status (h o) = OrgDeleted) →
  quota_ok (d <| files := upd_where P g (files d) |>
              <| organizations := upd_where (λ o, (o_id o =? orgId)%string) h (organizations d) |>) n.
Proof.
  intros [Q1 Q2 Q3 Q4] HP Hg Hh. split; cbn.
  - rewrite fmap_upd_where; [done|]. intros o _. by destruct (Hh o).
  - rewrite fmap_upd_where; [done|]. intros x _. by destruct (Hg x).
  - apply Forall_upd_where; [|done]. intros x _. destruct (Hg x) as (-> & -> & _). done.
  - rewrite Forall_forall in Q4. apply Forall_forall. intros o' (o & Ho & [[Eo ->]|[Eo ->]])%elem_of_upd_where;
      unfold balanced; [by destruct (Hh o) as [_ ->]|]. bool_to_prop.
    rewrite held_bytes_others; [by apply Q4|]. intros f Hf. rewrite (HP f Hf). split; [congruence|].
    rewrite <- (HP f Hf). apply Hg.
Qed.
End quota.

Section quota_operations.
Context `{Redis, Random, !RandomLaws _, !StorageProvider, !StorageLaws _, !Scanner, !ScannerLaws _}.
Context (exact : bool).
Notation quota_inv := (quota_inv exact).
Notation quota_ok := (quota_ok exact).

Lemma quota_outside {A} (m : M A) : outside m → preserves quota_inv m.
Proof. intros Hm w Hw. destruct (Hm w) as [E Hd]. eapply quota_ok_frame; [exact Hw|done|by rewrite E..]. Qed.

Lemma quota_outbox o e ty i a p : preserves quota_inv (writeOutboxEvent o e ty i a p).
Proof. intros w Hw. eapply quota_ok_frame; [exact Hw|cbn; lia|done|done]. Qed.

(** The reservation keeps the balance, or leaves no trace. *)
Lemma quota_reserve o u key i : (0 ≤ ru_sizeBytes i)%Z → preserves quota_inv (FileService.reserve o u key i).
Proof.
  intros Hsize w Hw. unfold FileService.reserve, withTransaction, bind, update_touch, bind, now, update_where, ret_where.
  tables. destruct (List.filter _ (organizations (db w))) as [|org rest] eqn:Ef; cbn.
  { eapply quota_ok_frame; [exact Hw|cbn; lia|done|done]. }
  unfold FileRepository.create, bind, gen_random_uuid, now, insert_unique. cbn. tables. cbn.
  destruct (existsb _ _); cbn.
  { eapply quota_ok_frame; [exact Hw|cbn; lia|done|done]. }
  destruct Hw as [Q1 Q2 Q3 Q4].
  assert (Horg : org ∈ org :: rest) by left. rewrite <- Ef in Horg.
  apply elem_of_filter_bool in Horg as [Horg Hfit].
  apply andb_true_iff in Hfit as [Hoid Hfit]. bool_to_prop. unfold quota_inv. cbn. tables. split; cbn.
  - by rewrite fmap_upd_where.
  - rewrite fmap_app. apply NoDup_app. split; [done|]. split; [|apply NoDup_singleton].
    intros id (f & -> & Hin)%list_elem_of_fmap E%list_elem_of_singleton. cbn in E.
    rewrite Forall_forall in Q3. destruct (Q3 f Hin) as [(k & ? & Ek) _]. rewrite Ek in E.
    apply random_uuid_inj in E. lia.
  - apply Forall_app. split.
    + eapply Forall_impl; [exact Q3|]. intros f [(k & ? & ?) ?]. split; [exists k; split; [lia|done]|done].
    + constructor; [|done]. split; [exists (draws w); split; [lia|done]|done].
  - rewrite Forall_forall in Q4. apply Forall_forall. intros o' (o0 & Ho0 & Hcase)%elem_of_upd_where.
    specialize (Q4 o0 Ho0). unfold balanced in *. rewrite held_bytes_app, held_bytes_cons.
    change (held_bytes _ []) with 0%Z. unfold holds at 1 2. cbn [f_org_id f_status f_deleted_at f_size_bytes is_null].
    rewrite bool_decide_true by auto. rewrite !andb_true_r.
    destruct Hcase as [[Ho ->]|[Ho ->]].
    + apply andb_true_iff in Ho as [Ho1 Ho2]. bool_to_prop. cbn. rewrite Ho1, String.eqb_refl. rewrite Ho1 in Q4.
      intros Hl. destruct (Q4 Hl) as (He & Hb & Hquota). split; [intros Hx; rewrite (He Hx)|]; lia.
    + assert (o_id o0 ≠ o) as Hne.
      { intros E. assert (o0 = org) as ->; [eapply (NoDup_fmap_elem o_id); eauto; congruence|].
        apply andb_false_iff in Ho as [Ho|Ho]; bool_to_prop; [done|lia]. }
      rewrite (proj2 (String.eqb_neq o (o_id o0))) by congruence. by rewrite !Z.add_0_r.
Qed.

Lemma quota_request o u i plan :
  (0 ≤ ru_sizeBytes i)%Z → preserves quota_inv (FileService.requestUploadUrl o u i plan).
Proof.
  intros Hsize. unfold FileService.requestUploadUrl. cbv zeta.
  apply preserves_if; [apply preserves_throw|]. apply preserves_if; [apply preserves_throw|].
  apply preserves_bind; [apply quota_outside; by split; cbn; [|lia]|intros key].
  apply preserves_bind; [apply quota_outside, upload_outside|intros spec].
  apply preserves_bind; [by apply quota_reserve|intros f; apply preserves_ret].
Qed.

(** The file of a job is one of the organization of the job; and still held,
    for the balance to be exact. *)
Definition scan_ok (d : VirusScanJobData) (w : World) : Prop := ∀ f,
  f ∈ files (db w) → f_id f = vs_fileId d → f_org_id f = vs_orgId d ∧ (exact = true → holds (vs_orgId d) f = true).

Definition scanning (d : VirusScanJobData) (w : World) : Prop := quota_inv w ∧ scan_ok d w.

Lemma scanning_outside {A} d (m : M A) : outside m → preserves (scanning d) m.
Proof.
  intros Hm w [Hq Hs]. split; [by apply quota_outside|]. destruct (Hm w) as [E _].
  unfold scan_ok. by rewrite E.
Qed.

Lemma find_file w id f :
  List.find (FileRepository.with_id id) (files (db w)) = Some f → f ∈ files (db w) ∧ f_id f = id.
Proof. intros [? E]%find_some_elem. unfold FileRepository.with_id in E. by bool_to_prop. Qed.

(** The scan of a held file that leaves it held. *)
Lemma quota_keep d s st w :
  scanning d w → st = None ∨ st = Some FConfirmed →
  quota_inv (FileRepository.updateScanStatus (vs_fileId d) s st w).2.
Proof.
  intros [Hq Hs] Hst. unfold FileRepository.updateScanStatus, bind, now, update_where. cbn. unfold quota_inv. cbn. tables.
  destruct (List.find (FileRepository.with_id (vs_fileId d)) (files (db w))) as [f|] eqn:Ef.
  - apply find_file in Ef as [Hin Hid]. destruct (Hs f Hin Hid) as [Ho Hh]. rewrite <- Ho in Hh.
    assert (Hk : holds (f_org_id f) f = true →
      holds (f_org_id f) (FileRepository.scanned (clock w) s st f) = true).
    { unfold holds. intros Hf. bool_to_prop. cbn. rewrite String.eqb_refl. cbn.
      rewrite bool_decide_true; [done|]. destruct Hst as [-> | ->]; cbn; [|by right].
      by eapply bool_decide_eq_true_1. }
    pose proof (quota_ok_update exact (db w) (draws w) (vs_fileId d) (FileRepository.scanned (clock w) s st) (λ o, o) f
      Hq Hin Hid Hh ltac:(done) ltac:(done) (or_introl (conj Hk (λ _, eq_refl)))) as Hup.
    eapply quota_ok_frame; [exact Hup|done| |done]. cbn.
    unfold upd_where. rewrite <- (list_fmap_id (organizations (db w))) at 1. apply list_fmap_ext.
    intros i o _. cbn. by destruct (_ =? _)%string.
  - rewrite upd_where_none; [by eapply quota_ok_frame|]. intros f Hf. by eapply find_none_elem.
Qed.

(** Quarantine and reclamation. *)
Lemma quota_quarantine d w (row : option FileRow) {A} (k : M A) :
  scanning d w → (∀ f, row = Some f → f_size_bytes <$> List.find (FileRepository.with_id (vs_fileId d)) (files (db w)) =
     Some (f_size_bytes f)) →
  (row = None → List.find (FileRepository.with_id (vs_fileId d)) (files (db w)) = None) →
  preserves quota_inv k →
  quota_inv ((match row with Some f => VirusScanWorker.reclaim (vs_orgId d) (f_size_bytes f) | None => ret tt end ;;; k)
    (VirusScanWorker.quarantine (vs_fileId d) w).2).2.
Proof.
  intros [Hq Hs] Hrow Hnone Hk.
  set (w1 := (VirusScanWorker.quarantine (vs_fileId d) w).2).
  assert (Hstep : ∃ w2, (match row with Some f => VirusScanWorker.reclaim (vs_orgId d) (f_size_bytes f)
      | None => ret tt end) w1 = (Ok tt, w2) ∧ quota_inv w2).
  { destruct row as [fr|].
    - specialize (Hrow fr eq_refl).
      destruct (List.find (FileRepository.with_id (vs_fileId d)) (files (db w))) as [f|] eqn:Ef; [|done].
      apply find_file in Ef as [Hin Hid]. destruct (Hs f Hin Hid) as [Ho Hh]. injection Hrow as Hsize.
      rewrite <- Ho, <- Hsize in *. eexists. split; [reflexivity|].
      apply (quota_ok_update exact (db w) (draws w) (vs_fileId d)
        (FileRepository.scanned (clock w) ScanInfected (Some FQuarantined))
        (λ o, touch (clock w) (o <| o_storage_used_bytes := Z.max 0 (o_storage_used_bytes o - f_size_bytes f) |>)) f
        Hq Hin Hid Hh); [done|done|]. right. split; [|done].
      unfold holds. cbn. rewrite (bool_decide_false (FQuarantined = FPending ∨ FQuarantined = FConfirmed)) by naive_solver.
      by rewrite andb_false_r.
    - eexists. split; [reflexivity|]. unfold w1, quota_inv. cbn. tables.
      rewrite upd_where_none; [by eapply quota_ok_frame|]. intros f Hf. by eapply find_none_elem; [apply Hnone|]. }
  destruct Hstep as (w2 & E & Hw2). unfold bind. rewrite E. by apply Hk.
Qed.
End quota_operations.

Section quota_jobs.
Context `{Redis, Random, !RandomLaws _, !StorageProvider, !StorageLaws _, !Scanner, !ScannerLaws _}.
Context (exact : bool).
Notation quota_inv := (quota_inv exact).
Notation scanning := (scanning exact).

(** A step that keeps [scanning], then one that only needs it. *)
Lemma scanning_bind {A B} d (m : M A) (k : A → M B) w :
  scanning d w → preserves (scanning d) m → (∀ a w', scanning d w' → quota_inv (k a w').2) →
  quota_inv (bind m k w).2.
Proof.
  intros Hs Hm Hk. unfold bind. specialize (Hm w Hs). destruct (m w) as [[a|e] w']; [by apply Hk|]. apply Hm.
Qed.

Lemma quarantine_found d w :
  List.find (FileRepository.with_id (vs_fileId d)) (files (db (VirusScanWorker.quarantine (vs_fileId d) w).2)) =
  FileRepository.scanned (clock w) ScanInfected (Some FQuarantined) <$>
    List.find (FileRepository.with_id (vs_fileId d)) (files (db w)).
Proof.
  change (files (db (VirusScanWorker.quarantine (vs_fileId d) w).2)) with
    (upd_where (FileRepository.with_id (vs_fileId d))
       (FileRepository.scanned (clock w) ScanInfected (Some FQuarantined)) (files (db w))).
  rewrite find_upd_where by done.
  destruct (List.find _ _) as [f|] eqn:E; [|done]. cbn. by apply find_some_elem in E as [_ ->].
Qed.

Lemma quota_clam d path w : scanning d w → quota_inv (VirusScanWorker.clam_scan d path w).2.
Proof.
  intros Hs. unfold VirusScanWorker.clam_scan. eapply scanning_bind; [exact Hs|apply scanning_outside, clam_outside|].
  clear w Hs. intros [[] viruses] w Hs; [|apply quota_keep; auto].
  unfold bind at 1. destruct (VirusScanWorker.quarantine (vs_fileId d) w) as [r w1] eqn:Eq.
  assert (r = Ok tt) as -> by (by injection Eq as <- _). unfold bind at 1, select_one. tables.
  pose proof (quarantine_found d w) as Hf. rewrite Eq in Hf. cbn [snd] in Hf. rewrite Hf.
  replace w1 with (VirusScanWorker.quarantine (vs_fileId d) w).2 by by rewrite Eq.
  apply quota_quarantine; [done| | |apply quota_outbox].
  - intros f Hsome. destruct (List.find (FileRepository.with_id (vs_fileId d)) (files (db w))) as [f0|]; by simplify_eq/=.
  - by destruct (List.find (FileRepository.with_id (vs_fileId d)) (files (db w))).
Qed.

Lemma quota_scan enabled d w : scanning d w → quota_inv (VirusScanWorker.virusScanWorkerJob enabled d w).2.
Proof.
  intros Hs. unfold VirusScanWorker.virusScanWorkerJob. cbv zeta.
  destruct (negb enabled); [apply quota_keep; auto|]. destruct (negb _); [apply Hs|].
  eapply scanning_bind; [exact Hs|apply scanning_outside, downloadFile_outside|]. clear w Hs. intros [] w Hs.
  unfold bind at 1, select_one. tables.
  destruct (List.find (FileRepository.with_id (vs_fileId d)) (files (db w))) as [f|] eqn:Ef; cbn [mbind option_bind];
    [|by apply quota_clam].
  destruct (VirusScanWorker.MIME_MAGIC_MAP (f_mime_type f)) as [actual|]; [|by apply quota_clam].
  unfold bind at 1. pose proof (fileTypeFromFile_outside ("/tmp/" +:+ vs_storageKey d) w) as [Edb _].
  pose proof (scanning_outside exact d _ (fileTypeFromFile_outside ("/tmp/" +:+ vs_storageKey d)) w Hs) as Hs'.
  destruct (fileTypeFromFile _ w) as [[detected|e] w1]; cbn [snd] in *; [|apply Hs'].
  destruct (match detected with Some _ => _ | None => _ end); [by apply quota_clam|].
  unfold VirusScanWorker.mime_mismatch, bind at 1.
  destruct (VirusScanWorker.quarantine (vs_fileId d) w1) as [r w2] eqn:Eq.
  assert (r = Ok tt) as -> by (by injection Eq as <- _).
  replace w2 with (VirusScanWorker.quarantine (vs_fileId d) w1).2 by by rewrite Eq.
  apply (quota_quarantine exact d w1 (Some f)); [done| |done|apply quota_outbox].
  intros f0 [= <-]. by rewrite Edb, Ef.
Qed.

(** The clean-up takes stale files one by one. *)
Definition still_there (l : list FileRow) (w : World) : Prop :=
  NoDup (f_id <$> l) ∧ Forall (λ f, f ∈ files (db w) ∧ holds (f_org_id f) f = true) l.

Lemma quota_cleanup_loop l w :
  quota_inv w → still_there l w →
  quota_inv (for_each l (λ file, VirusScanWorker.reclaim (f_org_id file) (f_size_bytes file) ;;;
    FileRepository.softDelete (f_id file)) w).2.
Proof.
  revert w. induction l as [|f l IH]; intros w Hq [Hnd Hall]; [done|].
  apply NoDup_cons in Hnd as [Hf Hnd]. inversion_clear Hall as [|? ? [Hin Hh] Hrest].
  cbn [for_each]. unfold bind at 1.
  set (g := λ r, r <| f_deleted_at := Some (clock w) |> <| f_status := FDeleted |>).
  assert (E : ∃ w1, (VirusScanWorker.reclaim (f_org_id f) (f_size_bytes f) ;;; FileRepository.softDelete (f_id f)) w =
    (Ok tt, w1) ∧ files (db w1) = upd_where (FileRepository.with_id (f_id f)) g (files (db w)) ∧ quota_inv w1).
  { eexists. split; [reflexivity|]. split; [reflexivity|].
    apply (quota_ok_update exact (db w) (draws w) (f_id f) g
      (λ o, touch (clock w) (o <| o_storage_used_bytes := Z.max 0 (o_storage_used_bytes o - f_size_bytes f) |>)) f
      Hq Hin eq_refl (λ _, Hh)); [done|done|]. right. split; [|done]. unfold holds. cbn. by rewrite andb_false_r. }
  destruct E as (w1 & -> & Ef & Hq1). apply IH; [done|]. split; [done|].
  apply Forall_forall. intros f' Hf'. rewrite Forall_forall in Hrest. destruct (Hrest f' Hf') as [Hin' Hh'].
  split; [|done]. rewrite Ef. apply elem_of_upd_where. exists f'. split; [done|]. right. split; [|done].
  unfold FileRepository.with_id. apply String.eqb_neq. intros E. apply Hf. rewrite <- E. by apply list_elem_of_fmap_2.
Qed.

Lemma quota_cleanup : preserves quota_inv VirusScanWorker.fileCleanupWorkerJob.
Proof.
  intros w Hq. unfold VirusScanWorker.fileCleanupWorkerJob, FileRepository.findStalePending, bind at 1, bind at 1, now,
    select. tables. apply quota_cleanup_loop; [done|]. split.
  - eapply sublist_NoDup; [exact (q_files _ _ _ Hq)|apply fmap_sublist, filter_sublist].
  - apply Forall_forall. intros f [Hin Hst]%elem_of_filter_bool. split; [done|].
    unfold FileRepository.stale in Hst. bool_to_prop. unfold holds. rewrite String.eqb_refl. cbn.
    rewrite bool_decide_true; [done|]. left. by eapply bool_decide_eq_true_1.
Qed.

(** Offboarding deletes the files of an organization with it; the jobs it
    queues are not the files'. *)
Lemma enqueue_outside {A} (l : list A) (job : A → json) q n :
  outside (for_each l (λ x, enqueue q n (job x))).
Proof.
  induction l as [|x l IH]; intros w; [by split|]. cbn [for_each]. unfold bind.
  assert (He : db (enqueue q n (job x) w).2 = db w ∧ draws w ≤ draws (enqueue q n (job x) w).2).
  { unfold enqueue, enqueue_in. destruct (redis_up w); cbn; (split; [done|lia]). }
  destruct (enqueue q n (job x) w) as [[[]|e] w1]; [|exact He]. destruct He as [<- Hd]. destruct (IH w1) as [-> Hd1].
  split; [done|cbn in *; lia].
Qed.

Lemma quota_offboarding orgId : preserves quota_inv (OffboardingWorker.runOffboardingJob orgId).
Proof.
  intros w Hq. unfold OffboardingWorker.runOffboardingJob, bind at 1, select_one. tables.
  destruct (List.find _ _) as [o|]; [|done]. destruct (negb _); [done|]. unfold bind at 1, select. tables.
  match goal with |- quota_inv (bind (for_each ?l ?f) ?k w).2 =>
    pose proof (enqueue_outside l (λ m, JObj [("userId", JStr (om_user_id m)); ("orgId", JStr orgId)])%string
      "erase-user" "erase-user" w) as [Edb Hd]; unfold bind at 1; set (r := for_each l f w) in *
  end.
  assert (Hr : quota_inv r.2) by (eapply quota_ok_frame; [exact Hq|exact Hd|by rewrite Edb..]).
  clearbody r. destruct r as [[[]|e] w1]; [|done]. cbn [snd] in Hr. clear Edb Hd Hq.
  pose proof (quota_ok_offboard exact (db w1) (draws w1) orgId
    (λ f, (f_org_id f =? orgId)%string && is_null (f_deleted_at f))
    (λ f, f <| f_deleted_at := Some (clock w1) |> <| f_status := FDeleted |>)
    (λ o, touch (clock w1) (o <| o_status := OrgDeleted |> <| o_deleted_at := Some (clock w1) |>)) Hr) as Hok.
  eapply quota_ok_frame; [apply Hok| |reflexivity|reflexivity].
  - by intros f [?%String.eqb_eq _]%andb_true_iff.
  - done.
  - done.
  - cbn. lia.
Qed.
End quota_jobs.

(** ** Sequences of calls *)

Inductive file_call :=
  | RequestUpload (orgId uploaderId : string) (input : RequestUploadUrlInput) (planTier : string)
  | ScanFile (virusScanEnabled : bool) (d : VirusScanJobData)
  | CleanUpFiles
  | Offboard (orgId : string).

Section file_calls.
Context `{Redis, Random, !StorageProvider, !Scanner}.

Definition file_exec (c : file_call) (w : World) : World :=
  match c with
  | RequestUpload o u i plan => (FileService.requestUploadUrl o u i plan w).2
  | ScanFile enabled d => (VirusScanWorker.virusScanWorkerJob enabled d w).2
  | CleanUpFiles => (VirusScanWorker.fileCleanupWorkerJob w).2
  | Offboard orgId => (OffboardingWorker.runOffboardingJob orgId w).2
  end.

(** The sizes of uploads are not negative, and a scan is one of those the
    theorem is about. *)
Definition file_call_ok (scans : VirusScanJobData → World → Prop) (c : file_call) (w : World) : Prop :=
  match c with
  | RequestUpload _ _ i _ => (0 ≤ ru_sizeBytes i)%Z
  | ScanFile _ d => scans d w
  | CleanUpFiles | Offboard _ => True
  end.

(** States reached by calls, each at its time. *)
Inductive file_reach (scans : VirusScanJobData → World → Prop) (w0 : World) : World → Prop :=
  | fr_start : file_reach scans w0 w0
  | fr_call c t w : file_reach scans w0 w → file_call_ok scans c (w <| clock := t |>) →
      file_reach scans w0 (file_exec c (w <| clock := t |>)).
End file_calls.

(** Any scan at all. *)
Definition any_scan `{Redis} (d : VirusScanJobData) (w : World) : Prop := True.

Section reach.
Context `{Redis, Random, !RandomLaws _, !StorageProvider, !StorageLaws _, !Scanner, !ScannerLaws _}.

Lemma quota_reach exact w0 w : quota_inv exact w0 → file_reach (scan_ok exact) w0 w → quota_inv exact w.
Proof.
  intros Hst. induction 1 as [|c t w _ IH Hok]; [done|]. change (quota_inv exact (w <| clock := t |>)) in IH.
  destruct c; cbn [file_exec file_call_ok] in *;
    [by apply quota_request|by apply quota_scan|by apply quota_cleanup|by apply quota_offboarding].
Qed.
End reach.

(** ** Only clean files are served *)

(** A file found infected is quarantined or deleted. *)
Definition contained (f : FileRow) : Prop :=
  f_scan_status f = ScanInfected → f_status f = FQuarantined ∨ is_Some (f_deleted_at f).

Section downloads.
Context `{Redis, Random, !RandomLaws _, !StorageProvider, !StorageLaws _, !Scanner, !ScannerLaws _}.

Notation safe := (on_table (Forall contained)).

Lemma safe_outside {A} (m : M A) : outside m → preserves safe m.
Proof. intros Hm w Hw. destruct (Hm w) as [E _]. unfold on_table in *. by rewrite E. Qed.

Lemma safe_scan id s st :
  (s = ScanInfected → st = Some FQuarantined) → preserves safe (FileRepository.updateScanStatus id s st).
Proof.
  intros Hs. unfold FileRepository.updateScanStatus. preserve. change (preserves safe
    (update_where (FileRepository.with_id id) (FileRepository.scanned a s st))).
  apply preserves_update. intros l Hl. apply Forall_upd_where; [|done]. intros f _ Hf Hi. cbn in *.
  left. by rewrite (Hs Hi).
Qed.

Lemma safe_delete id : preserves safe (FileRepository.softDelete id).
Proof.
  unfold FileRepository.softDelete. preserve. apply preserves_update. intros l Hl.
  apply Forall_upd_where; [|done]. intros f _ Hf Hi. right. by eexists.
Qed.

Lemma safe_create o u n k m s : preserves safe (FileRepository.create o u n k m s).
Proof.
  unfold FileRepository.create. preserve. intros w Hw. unfold insert_unique. destruct (existsb _ _); [done|].
  eapply preserves_insert; [|exact Hw]. intros l Hl. apply Forall_app. split; [done|]. by constructor.
Qed.

Lemma safe_exec c w : safe w → safe (file_exec c w).
Proof.
  revert w. destruct c; cbn [file_exec].
  - change (preserves safe (FileService.requestUploadUrl orgId uploaderId input planTier)).
    unfold FileService.requestUploadUrl, FileService.reserve.
    repeat first [apply safe_create | apply safe_outside, upload_outside | progress preserve].
  - change (preserves safe (VirusScanWorker.virusScanWorkerJob virusScanEnabled d)).
    unfold VirusScanWorker.virusScanWorkerJob, VirusScanWorker.clam_scan, VirusScanWorker.mime_mismatch,
      VirusScanWorker.quarantine, VirusScanWorker.reclaim, VirusScanWorker.writeOutboxEvent.
    repeat first [apply safe_scan; done | apply safe_outside, downloadFile_outside
      | apply safe_outside, fileTypeFromFile_outside | apply safe_outside, clam_outside | progress preserve].
  - change (preserves safe VirusScanWorker.fileCleanupWorkerJob).
    unfold VirusScanWorker.fileCleanupWorkerJob, FileRepository.findStalePending, VirusScanWorker.reclaim.
    repeat first [intros; apply safe_delete | progress preserve].
  - change (preserves safe (OffboardingWorker.runOffboardingJob orgId)).
    unfold OffboardingWorker.runOffboardingJob, OffboardingWorker.delete_data.
    repeat first [apply preserves_update; intros l Hl; apply Forall_upd_where; [intros f _ Hf Hi; right; by eexists|done]
      | progress preserve].
Qed.

Lemma safe_reach w0 w : safe w0 → file_reach any_scan w0 w → safe w.
Proof.
  intros Hst. induction 1 as [|c t w _ IH _]; [done|]. by apply safe_exec.
Qed.
End downloads.

Module FileProperties.
Section theorems.
Context `{Redis, Random, !RandomLaws _, !StorageProvider, !StorageLaws _, !Scanner, !ScannerLaws _}.

(** C24: after any uploads, scans, clean-ups and offboardings, repeated scans
    among them, the usage recorded for an organization that is not deleted is
    not negative, at most the sizes of its files that are neither quarantined
    nor deleted, and within its quota; and it is exactly those sizes as long as
    no file is scanned again after it was taken out. *)
Theorem usage_is_held_bytes exact w0 w o :
  quota_ok exact (db w0) (draws w0) → file_reach (scan_ok exact) w0 w →
  o ∈ organizations (db w) → o_status o ≠ OrgDeleted →
  (0 ≤ o_storage_used_bytes o ≤ held_bytes (o_id o) (files (db w)))%Z ∧
  (o_storage_used_bytes o ≤ o_storage_quota_bytes o)%Z ∧
  (exact = true → o_storage_used_bytes o = held_bytes (o_id o) (files (db w))).
Proof.
  intros Hst Hr Ho Hl. pose proof (q_used _ _ _ (quota_reach exact w0 w Hst Hr)) as Hu.
  rewrite Forall_forall in Hu. destruct (Hu o Ho Hl) as (He & Hb & Hq). done.
Qed.

(** C29: after any uploads, scans (repeated ones too) and clean-ups, a
    download URL is given only for a file of the organization that was
    scanned clean and is neither quarantined nor deleted. *)
Theorem only_clean_files_served w0 w orgId fileId url w' :
  Forall contained (files (db w0)) → file_reach any_scan w0 w →
  FileService.generateDownloadUrl orgId fileId w = (Ok (DownloadUrl url), w') →
  ∃ f, f ∈ files (db w) ∧ f_id f = fileId ∧ f_org_id f = orgId ∧ f_scan_status f = ScanClean ∧
    f_status f ≠ FQuarantined ∧ f_deleted_at f = None.
Proof.
  intros Hst Hr. pose proof (safe_reach w0 w Hst Hr) as Hs. unfold on_table in Hs. tables.
  unfold FileService.generateDownloadUrl, bind at 1, FileRepository.findById, select_one. tables.
  destruct (List.find _ _) as [f|] eqn:Ef; [|done]. apply find_some_elem in Ef as [Hin Hf]. bool_to_prop.
  case_bool_decide; [done|]. case_bool_decide; [done|]. intros _. exists f.
  rewrite Forall_forall in Hs. specialize (Hs f Hin).
  assert (f_deleted_at f = None) as Hd by (by destruct (f_deleted_at f)). split_and!; try done.
  destruct (f_scan_status f) eqn:Es; [done|done|]. destruct (Hs Es) as [?|[? ?]]; congruence.
Qed.
End theorems.
End FileProperties.

Module FileExamples.
Import Concrete.

#[local] Instance storage : StorageProvider := LocalAdapter "3000".

(** A scanner that finds every file to be what it should be, and infected
    when its path ends in the key of the first file. *)
#[local] Instance scanner : Scanner := {|
  downloadFile _ _ := ret tt;
  fileTypeFromFile _ := ret (Some "image/png"%string);
  clam_isInfected path := ret (String.eqb path "/tmp/uuid-1", ["eicar"%string]);
|}.

#[local] Instance scanner_laws : ScannerLaws scanner.
Proof. split; by split. Qed.

Definition png (size : Z) : RequestUploadUrlInput := mkRequestUploadUrlInput "a.png" "image/png" size.

Definition start : World :=
  (OrganizationRepository.create (mkCreateOrgData "Acme" "acme" None None None) (empty_world 1000)).2.
Definition org : string := match organizations (db start) with o :: _ => o_id o | [] => "" end.

(** A call one second after the epoch, as all of these examples. *)
Definition call (c : file_call) (w : World) : World := file_exec c (w <| clock := 1000%Z |>).
Definition upload (size : Z) (w : World) : World := call (RequestUpload org "ann" (png size) "free") w.
Definition job : VirusScanJobData := mkVirusScanJobData "uuid-2" "uuid-1" (Some "http://x"%string) org.
Definition scan (w : World) : World := call (ScanFile true job) w.

Definition usage (w : World) : list (Z * Z) :=
  (λ o, (o_storage_used_bytes o, held_bytes (o_id o) (files (db w)))) <$> organizations (db w).

(** A scan job that is delivered twice gives the space of its file back
    twice: the usage recorded is below what is stored. *)
Example repeated_scan_reclaims_twice :
  usage (upload 500 (upload 1000 start)) = [(1500, 1500)]%Z ∧
  usage (scan (upload 500 (upload 1000 start))) = [(500, 500)]%Z ∧
  usage (scan (scan (upload 500 (upload 1000 start)))) = [(0, 500)]%Z.
Proof. vm_compute. done. Qed.

(** With scanning disabled the file is clean but stays pending, and the
    clean-up deletes it an hour later. *)
Definition unscanned (w : World) : World := file_exec (ScanFile false job) w.
Example unscanned_files_are_deleted :
  let w := unscanned (upload 1000 start) in
  (f_scan_status <$> files (db w)) = [ScanClean] ∧
  (f_status <$> files (db (file_exec CleanUpFiles (w <| clock := 3601001%Z |>)))) = [FDeleted].
Proof. vm_compute. done. Qed.

Lemma start_quota exact : quota_ok exact (db start) (draws start).
Proof. split; vm_compute; repeat constructor; intros; try discriminate; set_solver. Qed.

Lemma uploaded exact : file_reach (scan_ok exact) start (upload 500 (upload 1000 start)).
Proof.
  pose proof (fr_start (scan_ok exact) start) as H0.
  pose proof (fr_call _ start (RequestUpload org "ann" (png 1000) "free") 1000 _ H0 ltac:(cbn; lia)) as H1.
  pose proof (fr_call _ start (RequestUpload org "ann" (png 500) "free") 1000 _ H1 ltac:(cbn; lia)) as H2.
  exact H2.
Qed.

(** The scan of the first file delivered twice. *)
Lemma rescanned : file_reach (scan_ok false) start (scan (scan (upload 500 (upload 1000 start)))).
Proof.
  assert (Hs : ∀ w, (∀ f, f ∈ files (db w) → f_org_id f = org) → file_reach (scan_ok false) start w →
    file_reach (scan_ok false) start (scan w)).
  { intros w Hw Hr. apply (fr_call _ start (ScanFile true job) 1000 w Hr). intros f Hf _. split; [by apply Hw|done]. }
  apply Hs; [|apply Hs; [|apply uploaded]];
    intros f Hf; revert f Hf; apply Forall_forall, (bool_decide_unpack _); by vm_compute.
Qed.

Definition balance (w : World) : Prop :=
  Forall (λ o, o_storage_used_bytes o = held_bytes (o_id o) (files (db w))) (organizations (db w)).
Definition under (w : World) : Prop :=
  Forall (λ o, (0 ≤ o_storage_used_bytes o ≤ held_bytes (o_id o) (files (db w)))%Z) (organizations (db w)).
Lemma none_deleted (w : World) :
  forallb (λ o, negb (bool_decide (o_status o = OrgDeleted))) (organizations (db w)) = true →
  ∀ o, o ∈ organizations (db w) → o_status o ≠ OrgDeleted.
Proof.
  intros Hf o Ho%list_elem_of_In. apply (proj1 (List.forallb_forall _ _) Hf) in Ho.
  by apply negb_true_iff, bool_decide_eq_false_1 in Ho.
Qed.

Lemma usage_is_held_bytes_witness :
  balance (upload 500 (upload 1000 start)) ∧ under (scan (scan (upload 500 (upload 1000 start)))).
Proof.
  assert (Hl : ∀ w o, o ∈ organizations (db w) → forallb (λ o, negb (bool_decide (o_status o = OrgDeleted)))
    (organizations (db w)) = true → o_status o ≠ OrgDeleted) by (intros w o Ho Hf; by apply (none_deleted w)).
  split; apply Forall_forall; intros o Ho.
  - exact (proj2 (proj2 (FileProperties.usage_is_held_bytes true start _ o (start_quota true) (uploaded true) Ho
      (Hl _ o Ho eq_refl))) eq_refl).
  - exact (proj1 (FileProperties.usage_is_held_bytes false start _ o (start_quota false) rescanned Ho
      (Hl _ o Ho eq_refl))).
Defined.

(** The second file is clean. *)
Definition clean_job : VirusScanJobData := mkVirusScanJobData "uuid-4" "uuid-3" (Some "http://x"%string) org.
Definition scanned_world : World := call (ScanFile true clean_job) (upload 500 (upload 1000 start)).

Lemma scanned_reach : file_reach any_scan start scanned_world.
Proof.
  pose proof (fr_start any_scan start) as H0.
  pose proof (fr_call any_scan start (RequestUpload org "ann" (png 1000) "free") 1000 _ H0 ltac:(cbn; lia)) as H1.
  pose proof (fr_call any_scan start (RequestUpload org "ann" (png 500) "free") 1000 _ H1 ltac:(cbn; lia)) as H2.
  exact (fr_call any_scan start (ScanFile true clean_job) 1000 _ H2 ltac:(done)).
Qed.

Lemma only_clean_files_served_witness :
  ∃ f, f ∈ files (db scanned_world) ∧ f_id f = "uuid-4"%string ∧ f_org_id f = org ∧ f_scan_status f = ScanClean ∧
    f_status f ≠ FQuarantined ∧ f_deleted_at f = None.
Proof.
  eapply (FileProperties.only_clean_files_served start scanned_world org "uuid-4").
  - constructor.
  - exact scanned_reach.
  - vm_compute. reflexivity.
Defined.
End FileExamples.
