(* ===== verification/Outbox.v ===== *)
(** * Outbox: publishing the events the services wrote

    [shared/events/outbox-poller.ts]: one cycle of the poller, and the loop
    that runs it with its delays.  The poller takes a lock in Redis for 10 s
    and never gives it back, so a cycle follows another that published only
    after the lock expired. *)
From S2P Require Import Prelude Schema World Crypto Concrete.
From Stdlib Require Import ZArith Lia.
From stdpp Require Import base tactics strings gmap list.

Module OutboxPoller.

Definition FULL_BATCH_DELAY_MS : Z := 10.
Definition PARTIAL_BATCH_DELAY_MS : Z := 5000.
Definition MAX_BACKOFF_MS : Z := 60000.
Definition LOCK_KEY : string := "outbox:poller:lock".
Definition LOCK_TTL_SECONDS : Z := 10.

Definition outbox_status_str (s : outbox_status) : string :=
  match s with ObPending => "pending" | ObPublished => "published" | ObFailed => "failed" end.

(** [JSON.stringify(event)] of a row. *)
Definition event_json (e : OutboxEventRow) : json :=
  JObj [("id", JStr (ob_id e)); ("org_id", jopt (ob_org_id e)); ("event_type", JStr (ob_event_type e));
        ("entity_type", JStr (ob_entity_type e)); ("entity_id", JStr (ob_entity_id e));
        ("actor_user_id", jopt (ob_actor_user_id e)); ("payload", ob_payload e);
        ("status", JStr (outbox_status_str (ob_status e))); ("occurred_at", JNum (ob_occurred_at e));
        ("published_at", match ob_published_at e with Some t => JNum t | None => JNull end);
        ("created_at", JNum (ob_created_at e))].

(** The state of a poller: [running], [stopped], [consecutiveErrors]. *)
Record Poller := mkPoller {
  running : bool;
  stopped : bool;
  consecutiveErrors : nat
}.
#[export] Instance eta_Poller : Eta Poller := fun p => mkPoller (running p) (stopped p) (consecutiveErrors p).

Section poller.
Context `{Redis, Random, Config, Crypto}.
(** Is the connection lost at a publication, though Redis answered before?
    It is asked with the draws made and the messages published until then.
    And [config.outboxPollBatchSize]. *)
Context (drops : nat → nat → bool) (batchSize : nat).

Definition due (t : Z) (e : OutboxEventRow) : bool :=
  bool_decide (ob_status e = ObPending) && (ob_occurred_at e <? t - 100)%Z.

(** The batch: [ORDER BY created_at ASC LIMIT $1], rows being in the order of
    their creation. *)
Definition batch (t : Z) (l : list OutboxEventRow) : list OutboxEventRow := take batchSize (List.filter (due t) l).

Definition publish (e : OutboxEventRow) : M unit := λ w,
  if drops (draws w) (length (published w)) then (Throw redis_error, w)
  else rpublish "outbox:events" (event_json e) w.

Definition publish_all (events : list OutboxEventRow) : M unit := for_each events publish.

Definition mark_published (events : list OutboxEventRow) : M unit :=
  let* t := now in
  let* _ := update_where (λ e, includes (ob_id <$> events) (ob_id e))
    (λ e, e <| ob_status := ObPublished |> <| ob_published_at := Some t |>) in
  ret tt.

(** [pollCycle]: was the batch full?  A failed publication ends the cycle
    before anything is marked. *)
Definition pollCycle : M bool :=
  let* instanceId := generateSecureToken in
  let* locked := rset_nx LOCK_KEY (RText instanceId) LOCK_TTL_SECONDS in
  if negb locked then ret false
  else
  let* t := now in
  let* events := (λ w, (Ok (batch t (outbox_events (db w))), w)) in
  match events with
  | [] => ret false
  | _ :: _ =>
      let* sent := catch (publish_all events ;;; ret true) (λ _, ret false) in
      if negb sent then ret false
      else mark_published events ;;; ret (Nat.leb batchSize (length events))
  end.

Definition next_delay (isFull : bool) (errors : nat) : Z :=
  if isFull then FULL_BATCH_DELAY_MS
  else if Nat.ltb 0 errors then Z.min (PARTIAL_BATCH_DELAY_MS * 2 ^ (Z.of_nat errors - 1)) MAX_BACKOFF_MS
  else PARTIAL_BATCH_DELAY_MS.

(** One turn of [loop]: the next state and the delay of the next turn; none
    once the poller is stopped. *)
Definition loop (p : Poller) (w : World) : Poller * option Z * World :=
  if stopped p then (p, None, w)
  else
    match pollCycle w with
    | (Ok full, w') => (p <| consecutiveErrors := 0 |>, Some (next_delay full 0), w')
    | (Throw _, w') =>
        let errors := S (consecutiveErrors p) in
        (p <| consecutiveErrors := errors |>, Some (next_delay false errors), w')
    end.

Definition start (p : Poller) (w : World) : Poller * option Z * World :=
  if running p then (p, None, w)
  else loop (p <| running := true |> <| stopped := false |>) w.

(** [stop()], once the current cycle ended. *)
Definition stop (p : Poller) : Poller := p <| stopped := true |> <| running := false |>.

(** Turns of the loop, each after the delay of the one before and the given
    lateness of the timer. *)
Fixpoint turns (lateness : list Z) (p : Poller) (w : World) : Poller * World :=
  match lateness with
  | [] => (p, w)
  | late :: rest =>
      match loop p w with
      | (p', None, w') => (p', w')
      | (p', Some delay, w') => turns rest p' (w' <| clock := (clock w' + delay + late)%Z |>)
      end
  end.
End poller.
End OutboxPoller.

(** The two purges of [cleanup.worker.ts]: events published more than 7 days
    ago, and events that failed and are older than 30 days. *)
Definition purgePublished `{Redis} : M unit :=
  let* t := now in
  delete_where (λ e, bool_decide (ob_status e = ObPublished) &&
    match ob_published_at e with Some p => (p <? t - 7 * 24 * 60 * 60 * 1000)%Z | None => false end) ;;;
  ret tt.

Definition purgeFailed `{Redis} : M unit :=
  let* t := now in
  delete_where (λ e, bool_decide (ob_status e = ObFailed) && (ob_created_at e <? t - 30 * 24 * 60 * 60 * 1000)%Z) ;;;
  ret tt.

(** ** Nothing is marked before it was published *)

Section at_least_once.
Context `{Redis, !RedisLaws _, Random, !RandomLaws _, Config, Crypto} (drops : nat → nat → bool) (batchSize : nat).
Import OutboxPoller.

(** An event as it was written: its row but for its status and the time of its
    publication. *)
Definition written (e : OutboxEventRow) : OutboxEventRow := e <| ob_status := ObPending |> <| ob_published_at := None |>.

(** A message with every field of the event was published on the channel: only
    its status and the time of its publication may be others. *)
Definition announced (w : World) (e : OutboxEventRow) : Prop :=
  ∃ j, ("outbox:events"%string, j) ∈ published w ∧
    ∀ k, k ∉ ["status"; "published_at"]%string → jget k j = jget k (event_json (written e)).

Definition accounted (w : World) (e : OutboxEventRow) : Prop :=
  ob_status e = ObPending ∨ (ob_status e = ObPublished ∧ announced w e).

(** The event is waiting in the table, or it was announced. *)
Definition accounted_for (w : World) (e : OutboxEventRow) : Prop :=
  (∃ e', e' ∈ outbox_events (db w) ∧ written e' = written e ∧ ob_status e' = ObPending) ∨ announced w e.

(** A poller's cycle, a cycle whose process dies before the COMMIT, the
    hourly purges, a service's event, Redis going up or down, time. *)
Inductive outbox_action :=
  | Cycle
  | Crash
  | Purge
  | WriteEvent (org : option string) (eventType entityType entityId : string) (actor : option string) (payload : json)
  | RedisUp (up : bool)
  | At (t : Z).

Definition outbox_act (a : outbox_action) (w : World) : World :=
  match a with
  | Cycle => (pollCycle drops batchSize w).2
  | Crash => (pollCycle drops batchSize w).2 <| db := db w |>
  | Purge => ((purgePublished ;;; purgeFailed) w).2
  | WriteEvent o e ty i ac p => (writeOutboxEvent o e ty i ac p w).2
  | RedisUp up => w <| redis_up := up |>
  | At t => w <| clock := t |>
  end.

Definition outbox_run (acts : list outbox_action) (w : World) : World :=
  foldl (λ w a, outbox_act a w) w acts.

Definition messages (es : list OutboxEventRow) : list (string * json) :=
  (λ e, ("outbox:events"%string, event_json e)) <$> es.

(** Publishing a list: all of it, or a part of it and a failure; with a
    connection that is not lost, all of it. *)
Lemma publish_all_run es w :
  (publish_all drops es w = (Ok tt, w <| published := published w ++ messages es |>)) ∨
  (∃ e sent, publish_all drops es w = (Throw e, w <| published := published w ++ messages sent |>) ∧
     ((∀ d n, drops d n = false) → redis_up w = false)).
Proof.
  revert w. induction es as [|e es IH]; intros w.
  - left. unfold publish_all, for_each, ret. cbn. rewrite app_nil_r. by destruct w.
  - assert (Hp : publish drops e w = if drops (draws w) (length (published w)) then (Throw redis_error, w)
      else if redis_up w then (Ok tt, w <| published := published w ++ [("outbox:events"%string, event_json e)] |>)
      else (Throw redis_error, w)) by reflexivity.
    unfold publish_all. cbn [for_each]. unfold bind. rewrite Hp. clear Hp.
    destruct (drops (draws w) (length (published w))) eqn:Ed.
    { right. exists redis_error, []. cbn. rewrite app_nil_r. split; [by destruct w|]. intros Hn. by rewrite Hn in Ed. }
    destruct (redis_up w) eqn:Eu.
    2: { right. exists redis_error, []. cbn. rewrite app_nil_r. split; [by destruct w|done]. }
    fold (publish_all drops es).
    destruct (IH (w <| published := published w ++ [("outbox:events"%string, event_json e)] |>)) as [->|(x & sent & -> & Hx)].
    + left. cbn. by rewrite <- app_assoc.
    + right. exists x, (e :: sent). cbn. rewrite <- app_assoc. split; [done|]. intros Hn. specialize (Hx Hn). cbn in Hx. congruence.
Qed.

(** How a cycle ends: nothing done, a part of the batch published and nothing
    marked, or all of it published and marked. *)
Lemma pollCycle_cases w :
  let w1 := (w <| draws := S (draws w) |>) in
  let w2 := (w1 <| redis := redis_set (redis w) (clock w) LOCK_KEY (RText (random_hex (draws w))) (Some LOCK_TTL_SECONDS) |>) in
  let es := batch batchSize (clock w) (outbox_events (db w)) in
  let w3 := w2 <| published := published w ++ messages es |> in
  let w4 := w3 <| db := set_rows (upd_where (λ e, includes (ob_id <$> es) (ob_id e))
       (λ e, e <| ob_status := ObPublished |> <| ob_published_at := Some (clock w) |>) (outbox_events (db w))) (db w) |> in
  if redis_up w then
    match redis_get (redis w) (clock w) LOCK_KEY with
    | Some _ => pollCycle drops batchSize w = (Ok false, w1)
    | None =>
        match es with
        | [] => pollCycle drops batchSize w = (Ok false, w2)
        | _ :: _ =>
            pollCycle drops batchSize w = (Ok (Nat.leb batchSize (length es)), w4) ∨
            (∃ sent, pollCycle drops batchSize w = (Ok false, w2 <| published := published w ++ messages sent |>) ∧
               ¬ ∀ d n, drops d n = false)
        end
    end
  else ∃ e, pollCycle drops batchSize w = (Throw e, w1).
Proof.
  cbv zeta. destruct (redis_up w) eqn:Eu.
  2: { exists redis_error. unfold pollCycle, bind, generateSecureToken, randomHex, rset_nx. cbn. by rewrite Eu. }
  destruct (redis_get (redis w) (clock w) LOCK_KEY) eqn:Eg.
  { unfold pollCycle, bind, generateSecureToken, randomHex, rset_nx. cbn. by rewrite Eu, Eg. }
  destruct (batch batchSize (clock w) (outbox_events (db w))) as [|e es] eqn:Eb.
  { unfold pollCycle, bind, generateSecureToken, randomHex, rset_nx. cbn. rewrite Eu, Eg. cbn. by rewrite Eb. }
  unfold pollCycle, bind, generateSecureToken, randomHex, rset_nx. cbn. rewrite Eu, Eg. cbn. rewrite Eb.
  unfold catch. match goal with |- context [publish_all _ _ ?w0] =>
    destruct (publish_all_run (e :: es) w0) as [->|(x & sent & -> & Hx)] end; [by left|].
  right. exists sent. split; [done|]. intros Hn. specialize (Hx Hn). cbn in Hx. congruence.
Qed.

Lemma announced_mono w w' e : published w ⊆ published w' → announced w e → announced w' e.
Proof. intros Hs (j & Hj & ?). exists j. split; [by apply Hs|done]. Qed.

Lemma announced_written w e e' : written e' = written e → announced w e → announced w e'.
Proof. unfold announced. by intros ->. Qed.

Lemma event_json_written k e : k ∉ ["status"; "published_at"]%string → jget k (event_json e) = jget k (event_json (written e)).
Proof.
  intros Hk. cbn. repeat match goal with |- context [(k =? ?x)%string] => destruct (String.eqb_spec k x) end;
    subst; try done; exfalso; apply Hk; set_solver.
Qed.

(** The identifiers of the events, the primary key. *)
Definition keyed (w : World) : Prop := NoDup (ob_id <$> outbox_events (db w)).

(** A cycle leaves an event as it is, or publishes and marks it. *)
Lemma cycle_events w :
  keyed w →
  let w' := (pollCycle drops batchSize w).2 in
  published w ⊆ published w' ∧
  Forall2 (λ e e', written e' = written e ∧
    (e' = e ∨ (ob_status e' = ObPublished ∧ announced w' e))) (outbox_events (db w)) (outbox_events (db w')).
Proof.
  intros Hk. cbv zeta. pose proof (pollCycle_cases w) as Hc. cbv zeta in Hc.
  assert (∀ w', Forall2 (λ e e', written e' = written e ∧ (e' = e ∨ (ob_status e' = ObPublished ∧ announced w' e)))
    (outbox_events (db w)) (outbox_events (db w))) as Hrefl.
  { intros w'. apply Forall_Forall2_diag, Forall_true. auto. }
  destruct (redis_up w); [|destruct Hc as [e ->]; by split].
  destruct (redis_get _ _ _); [rewrite Hc; by split|].
  destruct (batch batchSize (clock w) (outbox_events (db w))) as [|e0 es0] eqn:Eb; [rewrite Hc; by split|].
  assert (∀ l : list (string * json), published w ⊆ published w ++ l) as Hsub by (intros l x Hx; apply elem_of_app; by left).
  destruct Hc as [Hc|(sent & Hc & _)]; rewrite Hc; cbn [snd]; [|split; [apply Hsub|apply Hrefl]].
  assert (Hes : ∀ e, e ∈ e0 :: es0 → e ∈ outbox_events (db w)).
  { rewrite <- Eb. unfold batch. intros e He. apply (elem_of_sublist _ _ _ He). etrans; [apply sublist_take|apply filter_sublist]. }
  set (es := e0 :: es0) in *. clearbody es. cbn. tables. cbn.
  split; [apply Hsub|].
  unfold upd_where. apply Forall2_fmap_r, Forall_Forall2_diag, Forall_forall. intros e He.
  cbv beta delta [compose]. destruct (includes (ob_id <$> es) (ob_id e)) eqn:Hin; [|split; [done|by left]].
  split; [done|]. right. split; [done|].
  apply includes_spec, list_elem_of_fmap in Hin as (e2 & Eid & He2).
  assert (e2 = e) as -> by (eapply (NoDup_fmap_elem ob_id); [exact Hk|by apply Hes|done|done]).
  exists (event_json e). cbn. split; [|intros k Hn; by apply event_json_written]. apply elem_of_app. right.
  by apply (list_elem_of_fmap_2 (λ e, ("outbox:events"%string, event_json e))).
Qed.

Lemma purge_events w :
  let w' := ((purgePublished ;;; purgeFailed) w).2 in
  published w' = published w ∧ outbox_events (db w') ⊆ outbox_events (db w) ∧
  ∀ e, e ∈ outbox_events (db w) → ob_status e = ObPending → e ∈ outbox_events (db w').
Proof.
  unfold purgePublished, purgeFailed, bind. cbn. tables. cbn. split; [done|]. split.
  - by intros e [[? ?]%elem_of_filter_bool ?]%elem_of_filter_bool.
  - intros e He Hp. do 2 (apply elem_of_filter_bool; split; [|rewrite Hp; reflexivity]). done.
Qed.

(** No step loses an event. *)
Lemma act_keeps a w e : keyed w → accounted_for w e → accounted_for (outbox_act a w) e.
Proof.
  intros Hk [(e' & He & Ew & Hp)|Ha].
  - destruct a; cbn [outbox_act]; try (left; by exists e').
    + destruct (cycle_events w Hk) as [_ Hev]. apply list_elem_of_lookup in He as [i Hi].
      destruct (Forall2_lookup_l _ _ _ _ _ Hev Hi) as (x & Hx & _ & [->|[_ Ha]]);
        [left; exists e'; apply list_elem_of_lookup_2 in Hx; done|right; by apply (announced_written _ e')].
    + destruct (purge_events w) as (_ & _ & Hkeep). left. exists e'. by auto.
    + left. exists e'. unfold writeOutboxEvent, bind, gen_random_uuid, now, insert_row. cbn. tables. cbn.
      split; [apply elem_of_app; by left|done].
  - right. destruct a; cbn [outbox_act]; try done.
    + by apply (announced_mono w); [apply cycle_events|].
    + by apply (announced_mono w); [apply cycle_events|].
Qed.

Lemma act_accounted a w :
  keyed w → Forall (accounted w) (outbox_events (db w)) →
  Forall (accounted (outbox_act a w)) (outbox_events (db (outbox_act a w))).
Proof.
  intros Hk Hall. rewrite Forall_forall in Hall. destruct a; cbn [outbox_act]; try by apply Forall_forall.
  - destruct (cycle_events w Hk) as [Hpub Hev]. apply Forall_forall. intros e' [i Hi]%list_elem_of_lookup.
    destruct (Forall2_lookup_r _ _ _ _ _ Hev Hi) as (e & He & Ew & [->|[? ?]]);
      [|right; split; [done|by eapply announced_written]].
    apply list_elem_of_lookup_2 in He.
    destruct (Hall e He) as [?|[? Ha]]; [by left|]. right. split; [done|]. by eapply announced_mono.
  - destruct (cycle_events w Hk) as [Hpub _]. set (w' := (pollCycle drops batchSize w).2) in *. clearbody w'.
    apply Forall_forall. intros e He. destruct (Hall e He) as [?|[? Ha]]; [by left|]. right. split; [done|].
    by apply (announced_mono w).
  - destruct (purge_events w) as (Hpub & Hsub & _). unfold accounted, announced. rewrite Hpub.
    apply Forall_forall. intros e He. by apply Hall, Hsub.
  - unfold writeOutboxEvent, bind, gen_random_uuid, now, insert_row. cbn. tables. cbn.
    apply Forall_app. split; [by apply Forall_forall|]. constructor; [by left|done].
Qed.

(** Identifiers are drawn once. *)
Definition drawn_ids (w : World) : Prop :=
  keyed w ∧ Forall (λ e, ∃ k, k < draws w ∧ ob_id e = random_uuid k) (outbox_events (db w)).

Lemma cycle_draws w : draws (pollCycle drops batchSize w).2 = S (draws w).
Proof.
  pose proof (pollCycle_cases w) as Hc. cbv zeta in Hc. destruct (redis_up w); [|by destruct Hc as [e ->]].
  destruct (redis_get _ _ _); [by rewrite Hc|]. destruct (batch _ _ _); [by rewrite Hc|].
  by destruct Hc as [->|(sent & -> & _)].
Qed.

Lemma cycle_ids w : keyed w →
  ob_id <$> outbox_events (db (pollCycle drops batchSize w).2) = ob_id <$> outbox_events (db w).
Proof.
  intros Hk. destruct (cycle_events w Hk) as [_ Hev]. symmetry. apply list_eq_Forall2, Forall2_fmap.
  eapply Forall2_impl; [exact Hev|]. intros e e' [Ew _]. by apply (f_equal ob_id) in Ew.
Qed.

Lemma ids_drawn (l l' : list OutboxEventRow) (n n' : nat) :
  ob_id <$> l' = ob_id <$> l → n ≤ n' →
  Forall (λ e, ∃ k, k < n ∧ ob_id e = random_uuid k) l → Forall (λ e, ∃ k, k < n' ∧ ob_id e = random_uuid k) l'.
Proof.
  intros El Hn Hl. apply Forall_forall. intros e He. rewrite Forall_forall in Hl.
  apply (list_elem_of_fmap_2 ob_id) in He. rewrite El in He. apply list_elem_of_fmap in He as (e0 & -> & He0).
  destruct (Hl e0 He0) as (k & ? & ?). exists k. split; [lia|done].
Qed.

Lemma act_drawn a w : drawn_ids w → drawn_ids (outbox_act a w).
Proof.
  intros [Hk Hd]. destruct a; cbn [outbox_act]; try done.
  - pose proof (cycle_ids w Hk) as Ei. split; [unfold keyed; by rewrite Ei|].
    eapply ids_drawn; [exact Ei|by rewrite cycle_draws; apply Nat.le_succ_diag_r|exact Hd].
  - split; [done|]. eapply ids_drawn; [reflexivity| |exact Hd].
    change (draws w ≤ draws (pollCycle drops batchSize w).2). rewrite cycle_draws. apply Nat.le_succ_diag_r.
  - destruct (purge_events w) as (_ & Hsub & _). unfold drawn_ids, keyed, purgePublished, purgeFailed, bind in *.
    cbn in *. tables. cbn in *. split; [eapply sublist_NoDup; [exact Hk|apply fmap_sublist; etrans; apply filter_sublist]|].
    apply Forall_forall. intros e He. rewrite Forall_forall in Hd. by apply Hd, Hsub.
  - unfold drawn_ids, keyed, writeOutboxEvent, bind, gen_random_uuid, now, insert_row. cbn. tables. cbn. split.
    + rewrite fmap_app. apply NoDup_app. split; [done|]. split; [|apply NoDup_singleton].
      intros id (e & -> & He)%list_elem_of_fmap E%list_elem_of_singleton. cbn in E. rewrite Forall_forall in Hd.
      destruct (Hd e He) as (k & ? & Ek). rewrite Ek in E. apply random_uuid_inj in E. lia.
    + apply Forall_app. split; [eapply ids_drawn; [reflexivity| |exact Hd]; lia|].
      constructor; [exists (draws w); split; [lia|done]|done].
Qed.

Lemma run_accounted acts w :
  drawn_ids w → Forall (accounted w) (outbox_events (db w)) →
  drawn_ids (outbox_run acts w) ∧ Forall (accounted (outbox_run acts w)) (outbox_events (db (outbox_run acts w))) ∧
  ∀ e, accounted_for w e → accounted_for (outbox_run acts w) e.
Proof.
  revert w. induction acts as [|a acts IH]; intros w Hd Hall; [done|].
  change (outbox_run (a :: acts) w) with (outbox_run acts (outbox_act a w)).
  destruct (IH _ (act_drawn a w Hd) (act_accounted a w (proj1 Hd) Hall)) as (? & ? & Hid').
  split_and!; [done..|]. intros e He. apply Hid', act_keeps; [apply Hd|done].
Qed.

(** C25: events are published at least once.  From an empty outbox, whatever
    the order of new events, cycles, purges, lost connections, crashes and
    time, every event that was in the outbox at some moment is, at any later
    moment, still waiting in it as it was written, or a message with all its
    fields was published on the channel; and an event marked as published was
    announced so before. *)
Theorem outbox_at_least_once acts acts' w :
  outbox_events (db w) = [] →
  let w1 := outbox_run acts w in
  let w2 := outbox_run acts' w1 in
  Forall (accounted_for w2) (outbox_events (db w1)) ∧
  Forall (λ e, ob_status e = ObPublished → announced w1 e) (outbox_events (db w1)).
Proof.
  intros He. cbv zeta.
  destruct (run_accounted acts w) as (Hd & Hall & _);
    [split; unfold keyed; rewrite He; constructor|rewrite He; constructor|].
  destruct (run_accounted acts' _ Hd Hall) as (_ & _ & Hid). rewrite Forall_forall in Hall.
  split; apply Forall_forall; intros e Hin.
  - apply Hid. destruct (Hall e Hin) as [?|[_ ?]]; [left; by exists e|by right].
  - intros Hs. destruct (Hall e Hin) as [?|[_ ?]]; [congruence|done].
Qed.
End at_least_once.

(** ** The loop empties the outbox *)

Section drains.
Context `{Redis, !RedisLaws _, Random, !RandomLaws _, Config, Crypto}.
Import OutboxPoller.
Context (drops : nat → nat → bool) (batchSize : nat).

Definition is_pending (e : OutboxEventRow) : bool := bool_decide (ob_status e = ObPending).
Definition pending (w : World) : list OutboxEventRow := List.filter is_pending (outbox_events (db w)).

(** Every delay of the loop is between 10 ms and a minute. *)
Lemma next_delay_bounds full errors :
  (FULL_BATCH_DELAY_MS ≤ next_delay full errors ≤ MAX_BACKOFF_MS)%Z.
Proof.
  unfold next_delay, FULL_BATCH_DELAY_MS, PARTIAL_BATCH_DELAY_MS, MAX_BACKOFF_MS.
  destruct full; [lia|]. destruct (Nat.ltb 0 errors) eqn:E; [|lia].
  apply Nat.ltb_lt in E. assert (1 ≤ 2 ^ (Z.of_nat errors - 1))%Z; [|lia].
  apply (Z.pow_le_mono_r 2 0); lia.
Qed.

(** The connection holds, nothing is too recent to be taken, Redis answers, and the lock is free at
    the latest in 10 s. *)
Record draining (p : Poller) (w : World) : Prop := {
  dr_stable : ∀ d n, drops d n = false;
  dr_stopped : stopped p = false;
  dr_up : redis_up w = true;
  dr_due : Forall (λ e, is_pending e = true → (ob_occurred_at e < clock w - 100)%Z) (outbox_events (db w));
  dr_lock : ∀ t, (clock w + LOCK_TTL_SECONDS * 1000 ≤ t)%Z → redis_get (redis w) t LOCK_KEY = None
}.

Lemma due_pending w l :
  Forall (λ e, is_pending e = true → (ob_occurred_at e < clock w - 100)%Z) l →
  List.filter (due (clock w)) l = List.filter is_pending l.
Proof.
  induction 1 as [|e l He _ IH]; [done|]. cbn. unfold due at 1. fold (is_pending e).
  destruct (is_pending e); cbn; [|done]. rewrite IH. by rewrite (proj2 (Z.ltb_lt _ _) (He eq_refl)).
Qed.

Lemma pending_marked t es l :
  List.filter is_pending (upd_where (λ e, includes (ob_id <$> es) (ob_id e))
       (λ e, e <| ob_status := ObPublished |> <| ob_published_at := Some t |>) l)
  = List.filter (λ e, negb (includes (ob_id <$> es) (ob_id e))) (List.filter is_pending l).
Proof.
  induction l as [|e l IH]; [done|]. unfold upd_where in *. rewrite fmap_cons. cbn [List.filter].
  destruct (includes (ob_id <$> es) (ob_id e)) eqn:Ei.
  - change (is_pending (e <| ob_status := ObPublished |> <| ob_published_at := Some t |>)) with false. cbn [List.filter].
    rewrite IH. destruct (is_pending e); [|done]. cbn [List.filter]. by rewrite Ei.
  - rewrite IH. destruct (is_pending e); [|done]. cbn [List.filter]. by rewrite Ei.
Qed.

(** Marking a batch leaves at most the events after it. *)
Lemma pending_after_batch t n l :
  let es := take n (List.filter is_pending l) in
  length (List.filter is_pending (upd_where (λ e, includes (ob_id <$> es) (ob_id e))
       (λ e, e <| ob_status := ObPublished |> <| ob_published_at := Some t |>) l))
  ≤ length (List.filter is_pending l) - n.
Proof.
  intros es. rewrite pending_marked. rewrite <- (take_drop n (List.filter is_pending l)) at 1. fold es.
  rewrite List.filter_app, (proj2 (filter_nil_iff _ es)).
  - cbn. etransitivity; [apply List.filter_length_le|]. rewrite length_drop. lia.
  - intros e He. apply negb_false_iff, includes_spec, list_elem_of_fmap_2, He.
Qed.

(** One turn: a batch was taken, or the lock was held and at least 5 s have
    passed. *)
Lemma turn late p w :
  (0 ≤ late)%Z → draining p w →
  ∃ p' w', (∀ rest, turns drops batchSize (late :: rest) p w = turns drops batchSize rest p' w') ∧ draining p' w' ∧
    length (pending w') ≤ length (pending w) ∧
    (length (pending w') ≤ length (pending w) - batchSize ∨
     ((clock w + PARTIAL_BATCH_DELAY_MS ≤ clock w')%Z ∧ redis w' = redis w ∧
      redis_get (redis w) (clock w) LOCK_KEY ≠ None)).
Proof.
  intros Hl [Hn Hs Hu Hd Hk]. pose proof (pollCycle_cases drops batchSize w) as Hc. cbv zeta in Hc. rewrite Hu in Hc.
  destruct (redis_get (redis w) (clock w) LOCK_KEY) as [v|] eqn:Eg.
  - eexists _, _. split; [intros rest; cbn [turns]; unfold loop; rewrite Hs, Hc; reflexivity|].
    cbn. unfold PARTIAL_BATCH_DELAY_MS. split; [|split; [done|]].
    + split; cbn; [done..| |].
      * eapply Forall_impl; [exact Hd|]. cbn. intros e He Hp. specialize (He Hp). lia.
      * intros t Ht. apply Hk. lia.
    + right. split; [lia|]. by split.
  - assert (∃ b w1, pollCycle drops batchSize w = (Ok b, w1) ∧ redis_up w1 = true ∧ clock w1 = clock w ∧
        redis w1 = redis_set (redis w) (clock w) LOCK_KEY (RText (random_hex (draws w))) (Some LOCK_TTL_SECONDS) ∧
        Forall (λ e, is_pending e = true → (ob_occurred_at e < clock w - 100)%Z) (outbox_events (db w1)) ∧
        length (pending w1) ≤ length (pending w) - batchSize) as (b & w1 & Ep & Hu1 & Hc1 & Hr1 & Hd1 & Hn1).
    { pose proof (pending_after_batch (clock w) batchSize (outbox_events (db w))) as Hafter.
      unfold batch in Hc. rewrite (due_pending w _ Hd) in Hc. cbv zeta in Hafter.
      destruct (take batchSize (List.filter is_pending (outbox_events (db w)))) as [|e0 es0] eqn:Et.
      - eexists _, _. split; [exact Hc|]. cbn. repeat (split; [done|]). unfold pending. cbn.
        apply (f_equal length) in Et. rewrite length_take in Et. cbn in Et. lia.
      - destruct Hc as [Hc|(sent & _ & Hn')]; [|by destruct Hn'].
        eexists _, _. split; [exact Hc|]. set (es := e0 :: es0) in *. clearbody es.
        cbn. repeat (split; [done|]). unfold pending. cbn. tables. split; [|exact Hafter].
        apply Forall_forall. intros e (e1 & He1 & [[_ ->]|[_ ->]])%elem_of_upd_where; [done|].
        rewrite Forall_forall in Hd. by apply Hd. }
    eexists _, _. split; [intros rest; cbn [turns]; unfold loop; rewrite Hs, Ep; reflexivity|].
    pose proof (next_delay_bounds b 0) as Hb. unfold FULL_BATCH_DELAY_MS in Hb.
    split; [|split].
    + split; cbn; [done..| |].
      * eapply Forall_impl; [exact Hd1|]. cbn. intros e He Hp. specialize (He Hp). lia.
      * intros t Ht. rewrite Hr1. apply redis_get_set_expired. lia.
    + change (length (pending w1) ≤ length (pending w)). lia.
    + left. exact Hn1.
Qed.

(** Two turns with the lock held last long enough for it to expire. *)
Lemma three_turns l1 l2 l3 p w :
  (0 ≤ l1)%Z → (0 ≤ l2)%Z → (0 ≤ l3)%Z → draining p w →
  ∃ p' w', (∀ rest, turns drops batchSize (l1 :: l2 :: l3 :: rest) p w = turns drops batchSize rest p' w') ∧ draining p' w' ∧
    length (pending w') ≤ length (pending w) - batchSize.
Proof.
  intros Hl1 Hl2 Hl3 D0.
  destruct (turn l1 p w Hl1 D0) as (p1 & w1 & E1 & D1 & N1 & C1).
  destruct (turn l2 p1 w1 Hl2 D1) as (p2 & w2 & E2 & D2 & N2 & C2).
  destruct (turn l3 p2 w2 Hl3 D2) as (p3 & w3 & E3 & D3 & N3 & C3).
  exists p3, w3. split; [intros rest; by rewrite E1, E2, E3|]. split; [exact D3|].
  destruct C1 as [?|(T1 & R1 & _)]; [lia|]. destruct C2 as [?|(T2 & R2 & _)]; [lia|].
  destruct C3 as [?|(_ & _ & Hheld)]; [lia|]. exfalso. apply Hheld. rewrite R2, R1.
  apply (dr_lock _ _ D0). unfold PARTIAL_BATCH_DELAY_MS, LOCK_TTL_SECONDS in *. lia.
Qed.

(** The turns of the loop are cycles with time between them. *)
Lemma turns_run lateness p w :
  ∃ acts, Forall (λ a, a = Cycle ∨ ∃ t, a = At t) acts ∧
    (turns drops batchSize lateness p w).2 = outbox_run drops batchSize acts w.
Proof.
  revert p w. induction lateness as [|late rest IH]; intros p w; [by exists []|].
  cbn [turns]. unfold loop. destruct (stopped p); [by exists []|].
  assert (Ht : ∀ p' delay w', (pollCycle drops batchSize w).2 = w' →
    ∃ acts, Forall (λ a, a = Cycle ∨ ∃ t, a = At t) acts ∧
      (turns drops batchSize rest p' (w' <| clock := (clock w' + delay + late)%Z |>)).2 = outbox_run drops batchSize acts w).
  { intros p' delay w' Ew. destruct (IH p' (w' <| clock := (clock w' + delay + late)%Z |>)) as (acts & Ha & ->).
    exists (Cycle :: At (clock w' + delay + late)%Z :: acts). split; [constructor; [by left|constructor; [right; eauto|done]]|].
    cbn [outbox_run foldl outbox_act]. by rewrite Ew. }
  destruct (pollCycle drops batchSize w) as [[full|e] w'] eqn:E; by apply Ht.
Qed.

Lemma run_cycles acts w e :
  Forall (λ a, a = Cycle ∨ ∃ t, a = At t) acts → keyed w →
  accounted_for w e → accounted_for (outbox_run drops batchSize acts w) e.
Proof.
  intros Hacts. revert w. induction Hacts as [|a acts Ha _ IH]; intros w Hk He; [done|].
  change (outbox_run drops batchSize (a :: acts) w) with
    (outbox_run drops batchSize acts (outbox_act drops batchSize a w)).
  apply IH; [|by apply act_keeps].
  destruct Ha as [->|[t ->]]; [|done]. unfold keyed. cbn [outbox_act]. by rewrite cycle_ids.
Qed.

Lemma drained k lateness p w :
  draining p w → Forall (λ t, (0 ≤ t)%Z) lateness →
  length lateness = 3 * k → length (pending w) ≤ k * batchSize →
  pending (turns drops batchSize lateness p w).2 = [].
Proof.
  revert lateness p w. induction k as [|k IH]; intros lateness p w D Hl El Hn.
  - destruct lateness; [|done]. apply nil_length_inv. cbn. lia.
  - destruct lateness as [|l1 [|l2 [|l3 rest]]]; cbn in El; try lia.
    apply Forall_cons in Hl as [? [? [? Hl]%Forall_cons]%Forall_cons].
    destruct (three_turns l1 l2 l3 p w) as (p' & w' & E & D' & Hn'); [done..|].
    rewrite E. apply IH; [done|done|lia|cbn in Hn; lia].
Qed.

(** C26: the loop empties the outbox and publishes what was in it.  With Redis
    up and never lost, no lock of an earlier cycle older than its 10 s, and no
    new events, three turns of the loop, however late the timers fire, publish
    at least one batch: after 3·k turns nothing is pending when there are at
    most k batches, and every event that was pending has been published on the
    channel with all its fields. *)
Theorem loop_drains k lateness p w :
  draining p w → Forall (λ t, (0 ≤ t)%Z) lateness → keyed w →
  length lateness = 3 * k → length (pending w) ≤ k * batchSize →
  let w' := (turns drops batchSize lateness p w).2 in
  pending w' = [] ∧ Forall (announced w') (pending w).
Proof.
  intros D Hl Hk El Hn w'. pose proof (drained k lateness p w D Hl El Hn : pending w' = []) as Hp.
  split; [done|]. apply Forall_forall. intros e [Hin Hpe]%elem_of_filter_bool.
  apply bool_decide_eq_true_1 in Hpe.
  destruct (turns_run lateness p w) as (acts & Hacts & Ew). fold w' in Ew.
  assert (Hacc : accounted_for w' e); [|destruct Hacc as [(e' & He' & _ & Hs)|Ha]; [exfalso|done]].
  { rewrite Ew. apply run_cycles; [done|done|]. left. by exists e. }
  assert (e' ∈ pending w') as He; [|by rewrite Hp in He; apply elem_of_nil in He].
  apply elem_of_filter_bool. split; [done|]. by apply bool_decide_eq_true_2.
Qed.
End drains.

Module OutboxExamples.
Import Concrete OutboxPoller.

Definition event (n : string) : outbox_action := WriteEvent (Some "org1") "task.created" "task" n None (JObj []).

(** A connection that is always there, and one that is lost at the second
    publication of the second cycle. *)
Definition steady (d n : nat) : bool := false.
Definition flaky (d n : nat) : bool := Nat.eqb d 5 && Nat.eqb n 1.

(** Redis is down for the first cycle; the second loses it after one
    publication, the third meets the lock of the second, the fourth publishes
    and dies; the two last publish the batches, each when the lock expired. *)
Definition scenario : list outbox_action :=
  [event "t1"; event "t2"; event "t3"; At 2000; RedisUp false; Cycle; RedisUp true; Cycle; Cycle; At 12000; Crash;
   At 22000; Cycle; At 32000; Cycle].

(** The first event is published three times, the second twice. *)
Example repeated_publications :
  (λ m, jget "id" m.2) <$> published (outbox_run flaky 2 scenario (empty_world 1000)) =
  Some ∘ JStr <$> ["uuid-0"; "uuid-0"; "uuid-1"; "uuid-0"; "uuid-1"; "uuid-2"]%string.
Proof. vm_compute. reflexivity. Qed.

(** A week later the published events are purged. *)
Example published_purged :
  outbox_events (db (outbox_run flaky 2 (scenario ++ [At 604900000; Purge]) (empty_world 1000))) = [].
Proof. vm_compute. reflexivity. Qed.

Example scenario_published : ob_status <$> outbox_events (db (outbox_run flaky 2 scenario (empty_world 1000))) =
  [ObPublished; ObPublished; ObPublished].
Proof. vm_compute. reflexivity. Qed.

(** The lock of a cycle that published a full batch is still held when the
    next turn starts 10 ms later. *)
Example full_batch_waits :
  let w := outbox_run steady 2 [event "t1"; event "t2"; event "t3"; At 2000] (empty_world 1000) in
  let '(p1, d1, w1) := start steady 2 (mkPoller false false 0) w in
  let '(p2, d2, w2) := loop steady 2 p1 (w1 <| clock := 2010%Z |>) in
  d1 = Some 10%Z ∧ d2 = Some 5000%Z ∧ (ob_status <$> outbox_events (db w2)) = [ObPublished; ObPublished; ObPending].
Proof. vm_compute. done. Qed.

Notation backlog := (outbox_run steady 2 [event "t1"; event "t2"; event "t3"; At 2000] (empty_world 1000)).

Definition before : World := outbox_run flaky 2 scenario (empty_world 1000).
Definition after : World := outbox_run flaky 2 [Cycle; At 604900000; Purge] before.

Lemma outbox_at_least_once_witness :
  Forall (accounted_for after) (outbox_events (db before)) ∧
  Forall (λ e, ob_status e = ObPublished → announced before e) (outbox_events (db before)).
Proof. exact (outbox_at_least_once flaky 2 scenario [Cycle; At 604900000; Purge] (empty_world 1000) eq_refl). Defined.

Lemma backlog_keyed : keyed backlog.
Proof. unfold keyed. apply (bool_decide_unpack _). by vm_compute. Qed.

Lemma loop_drains_witness :
  pending (turns steady 2 [0; 3; 0; 7; 0; 1]%Z (mkPoller true false 0) backlog).2 = [] ∧
  Forall (announced (turns steady 2 [0; 3; 0; 7; 0; 1]%Z (mkPoller true false 0) backlog).2) (pending backlog).
Proof.
  apply (loop_drains steady 2 2).
  - split; [reflexivity|reflexivity|reflexivity| |].
    + repeat constructor.
    + intros t _. reflexivity.
  - repeat constructor; lia.
  - exact backlog_keyed.
  - reflexivity.
  - vm_compute. lia.
Defined.
End OutboxExamples.
