(* ===== verification/Webhooks.v ===== *)
(** * Webhooks: subscriptions of an organization and their signed deliveries

    [modules/webhook]: the repository, the service and the delivery worker.
    The URL parser, name resolution, [ipaddr.js] and the HTTP client are an
    interface; every request that leaves the process is kept in [outgoing].
    The module [WebhookProperties] shows what a receiver relies on: the
    requests the worker makes itself go to public addresses only, carry a
    signature made with the secret it was last given, and stop once one was
    accepted.  The redirects the HTTP client follows are not checked. *)
From S2P Require Import Prelude Schema World Crypto Concrete FeatureFlags.
From Stdlib Require Import ZArith Lia.
From stdpp Require Import base tactics strings gmap list.

(** The parts of a [URL] the worker reads. *)
Record Url := mkUrl {
  protocol : string;
  hostname : string;
  pathname : string;
  search : string
}.

Class Network := {
  (** [new URL(s)]; none when it throws. *)
  url_parse : string → option Url;
  (** [dns.promises.lookup(host)] at a time. *)
  dns_lookup : Z → string → option string;
  (** [ipaddr.parse(ip).range()]; none when it throws. *)
  ip_range : string → option string;
  (** A request made when n requests have left the process: the requests that
      the HTTP client sends after it, one for each redirect it is answered and
      follows, and the status that is answered in the end; none when the client
      fails. *)
  http_exchange : nat → Outgoing → list Outgoing * option Z;
}.

Record WebhookDeliveryJobData := mkWebhookDeliveryJobData {
  wd_webhookId : string;
  wd_orgId : string;
  wd_eventId : string;
  wd_eventType : string;
  wd_payload : json
}.

Record CreateWebhookData := mkCreateWebhookData {
  cw_org_id : string;
  cw_url : string;
  cw_secret_hash : string;
  cw_secret_encrypted : string;
  cw_secret_preview : string;
  cw_event_types : list string;
  cw_created_by : string
}.

Module WebhookRepository.
Section repository.
Context `{Redis, Random}.

Definition live_webhook (id orgId : string) (r : WebhookRow) : bool :=
  (wh_id r =? id)%string && (wh_org_id r =? orgId)%string && is_null (wh_deleted_at r).

Definition create (data : CreateWebhookData) : M WebhookRow :=
  let* id := gen_random_uuid in
  let* t := now in
  let row := mkWebhookRow id (cw_org_id data) (cw_url data) (cw_secret_hash data) (cw_secret_encrypted data)
    (cw_secret_preview data) 1 (cw_event_types data) true (cw_created_by data) t t None in
  insert_row row ;;; ret row.

Definition findById (id orgId : string) : M (option WebhookRow) := select_one (live_webhook id orgId).

(** [ORDER BY created_at DESC]: the rows in the reverse of their order of
    creation. *)
Definition findByOrg (orgId : string) : M (list WebhookRow) :=
  let* l := select (λ r, (wh_org_id r =? orgId)%string && is_null (wh_deleted_at r)) in ret (rev l).

Definition findActive (orgId : string) : M (list WebhookRow) :=
  select (λ r, (wh_org_id r =? orgId)%string && wh_is_active r && is_null (wh_deleted_at r)).

Definition updateSecret (id orgId secretHash secretEncrypted secretPreview : string) (keyVersion : Z) : M (option WebhookRow) :=
  let* rs := update_touch (live_webhook id orgId)
    (λ r, r <| wh_secret_hash := secretHash |> <| wh_secret_encrypted := secretEncrypted |>
            <| wh_secret_preview := secretPreview |> <| wh_secret_key_version := keyVersion |>) in
  ret (head rs).

Definition softDelete (id orgId : string) : M unit :=
  let* t := now in
  update_touch (λ r, (wh_id r =? id)%string && (wh_org_id r =? orgId)%string)
    (λ r, r <| wh_deleted_at := Some t |> <| wh_is_active := false |>) ;;;
  ret tt.

Definition delivery_of (webhookId eventId : string) (r : WebhookDeliveryLogRow) : bool :=
  (wl_webhook_id r =? webhookId)%string && (wl_event_id r =? eventId)%string.

Definition findDeliveryLog (webhookId eventId : string) : M (option WebhookDeliveryLogRow) :=
  select_one (delivery_of webhookId eventId).

(** The table has [UNIQUE(webhook_id, event_id)]. *)
Definition createDeliveryLog (webhook_id org_id event_id event_type : string) : M WebhookDeliveryLogRow :=
  let* id := gen_random_uuid in
  let* t := now in
  let row := mkWebhookDeliveryLogRow id webhook_id org_id event_id event_type DlPending None None 0 None t t in
  insert_unique (delivery_of webhook_id event_id) row ;;; ret row.

Definition updateDeliveryLog (id : string) (status : delivery_status) (responseStatusCode : option Z)
    (errorMessage : option string) : M unit :=
  let* t := now in
  update_touch (λ r, (wl_id r =? id)%string)
    (λ r, r <| wl_status := status |> <| wl_response_status_code := responseStatusCode |>
            <| wl_error_message := errorMessage |> <| wl_attempt_count := (wl_attempt_count r + 1)%Z |>
            <| wl_updated_at := t |>
            <| wl_delivered_at := if bool_decide (status = DlDelivered) then Some t else None |>) ;;;
  ret tt.
End repository.
End WebhookRepository.

(** A webhook without its [secret_hash] and [secret_encrypted]. *)
Record SafeWebhook := mkSafeWebhook {
  sw_id : string;
  sw_org_id : string;
  sw_url : string;
  sw_secret_preview : string;
  sw_secret_key_version : Z;
  sw_event_types : list string;
  sw_is_active : bool;
  sw_created_by : string;
  sw_created_at : Z;
  sw_updated_at : Z;
  sw_deleted_at : option Z
}.

Definition safe_webhook (r : WebhookRow) : SafeWebhook :=
  mkSafeWebhook (wh_id r) (wh_org_id r) (wh_url r) (wh_secret_preview r) (wh_secret_key_version r) (wh_event_types r)
    (wh_is_active r) (wh_created_by r) (wh_created_at r) (wh_updated_at r) (wh_deleted_at r).

(** [s.slice(-n)]. *)
Definition slice_last (n : nat) (s : string) : string := String.substring (String.length s - n) n s.

Module WebhookService.
Section service.
Context `{Redis, !RedisHash, Random, Config, Crypto, Network}.

(** [isPrivateIp] of the worker, and the same test at registration. *)
Definition isPrivateIp (ip : string) : bool :=
  match ip_range ip with Some range => negb (range =? "unicast")%string | None => true end.

Definition isPrivateOrBlockedUrl (urlStr : string) : M bool :=
  match url_parse urlStr with
  | None => ret true
  | Some url =>
      if negb (protocol url =? "https:")%string then ret true
      else
        let* t := now in
        match dns_lookup t (hostname url) with
        | Some address => ret (isPrivateIp address)
        | None => ret true
        end
  end.

Definition create (orgId userId url : string) (events : list string) : M (SafeWebhook * string) :=
  let* webhooksEnabled := FeatureFlagService.isEnabled orgId "feature.webhooks" in
  if negb webhooksEnabled then
    throw (ForbiddenError "FEATURE_NOT_ENABLED" "Webhooks are not enabled for this organization. Upgrade to business plan.")
  else
  let* blocked := isPrivateOrBlockedUrl url in
  if blocked then
    throw (UnprocessableError "INVALID_WEBHOOK_URL" "URL must be HTTPS and resolve to a public IP")
  else
  let* secret := generateSecureToken in
  let* secretHash := hashPassword secret in
  let* secretEncrypted := encrypt secret in
  let* webhook := WebhookRepository.create
    (mkCreateWebhookData orgId url secretHash secretEncrypted (slice_last 4 secret) events userId) in
  ret (safe_webhook webhook, secret).

Definition rotateSecret (orgId webhookId userId : string) : M string :=
  let* existing := WebhookRepository.findById webhookId orgId in
  match existing with
  | None => throw (NotFoundError "Webhook")
  | Some existing =>
      let* newSecret := generateSecureToken in
      let* newSecretHash := hashPassword newSecret in
      let* newSecretEncrypted := encrypt newSecret in
      WebhookRepository.updateSecret webhookId orgId newSecretHash newSecretEncrypted (slice_last 4 newSecret)
        (wh_secret_key_version existing + 1)%Z ;;;
      ret newSecret
  end.

Definition listByOrg (orgId : string) : M (list WebhookRow) := WebhookRepository.findByOrg orgId.

Definition remove (orgId webhookId : string) : M unit :=
  let* existing := WebhookRepository.findById webhookId orgId in
  match existing with
  | None => throw (NotFoundError "Webhook")
  | Some _ => WebhookRepository.softDelete webhookId orgId
  end.
End service.
End WebhookService.

Module WebhookDelivery.
Section worker.
Context `{Redis, !RedisHash, Random, Config, Crypto, Network}.

(** The request: to the resolved address, with the name as its Host. *)
Definition request (webhookUrl : Url) (address : string) (payload : json) (secret eventType eventId : string) : Outgoing :=
  HttpPost (protocol webhookUrl +:+ "//" +:+ address +:+ pathname webhookUrl +:+ search webhookUrl)
    [("Host", hostname webhookUrl); ("X-Webhook-Signature", "sha256=" +:+ hmac (stringify payload) secret);
     ("X-Event-Type", eventType); ("X-Event-ID", eventId); ("Content-Type", "application/json")]%string
    payload.

(** [axios.post], which does not throw on a status, and follows redirects, since
    no [maxRedirects] is set. *)
Definition axios_post (r : Outgoing) : M Z := λ w,
  let '(followed, answer) := http_exchange (length (outgoing w)) r in
  (match answer with
   | Some status => Ok status
   | None => Throw (PlainError "Network Error")
   end, w <| outgoing := outgoing w ++ r :: followed |>).

Definition deliverWebhook (webhookUrl : Url) (payload : json) (secret eventType eventId : string) : M Z :=
  let* t := now in
  match dns_lookup t (hostname webhookUrl) with
  | None => throw (PlainError "getaddrinfo ENOTFOUND")
  | Some address =>
      if WebhookService.isPrivateIp address then throw (PlainError "SSRF_BLOCKED")
      else axios_post (request webhookUrl address payload secret eventType eventId)
  end.

Definition success (status : Z) : bool := (200 <=? status)%Z && (status <? 300)%Z.

(** The [try] block and its handler, which records a failure again before
    it rethrows. *)
Definition attempt (job : WebhookDeliveryJobData) (logId : string) (webhook : WebhookRow) : M unit :=
  let failed status err :=
    WebhookRepository.updateDeliveryLog logId DlFailed status None ;;; throw err in
  match url_parse (wh_url webhook) with
  | None => failed None (PlainError "Invalid URL")
  | Some webhookUrl =>
      let* sent := catch
        (let* secret := decrypt (wh_secret_encrypted webhook) in
         let* status := deliverWebhook webhookUrl (wd_payload job) secret (wd_eventType job) (wd_eventId job) in
         ret (Ok status))
        (λ err, ret (Throw err)) in
      match sent with
      | Throw err => failed None err
      | Ok status =>
          WebhookRepository.updateDeliveryLog logId (if success status then DlDelivered else DlFailed) (Some status) None ;;;
          if success status then ret tt
          else failed (Some status) (PlainError "Webhook returned an error status")
      end
  end.

Definition webhookDeliveryWorkerJob (job : WebhookDeliveryJobData) : M unit :=
  let* existing := WebhookRepository.findDeliveryLog (wd_webhookId job) (wd_eventId job) in
  if match existing with Some r => bool_decide (wl_status r = DlDelivered) | None => false end then ret tt
  else
  let* logRow :=
    match existing with
    | Some r => ret r
    | None => WebhookRepository.createDeliveryLog (wd_webhookId job) (wd_orgId job) (wd_eventId job) (wd_eventType job)
    end in
  let* webhook := WebhookRepository.findById (wd_webhookId job) (wd_orgId job) in
  match webhook with
  | None => ret tt
  | Some webhook => if negb (wh_is_active webhook) then ret tt else attempt job (wl_id logRow) webhook
  end.
End worker.
End WebhookDelivery.

(** ** Histories

    What the owners of the webhooks know: the address they registered and
    the secret they were last given; and what the jobs sent: when, after how many
    requests of the process, the first request, those after it, and the answer
    in the end. *)
Record Delivery := mkDelivery {
  d_job : WebhookDeliveryJobData;
  d_time : Z;
  d_known : option (string * string);
  d_index : nat;
  d_request : Outgoing;
  d_followed : list Outgoing;
  d_answer : option Z
}.

Record History `{Redis} := mkHistory {
  h_world : World;
  h_known : gmap string (string * string);
  h_log : list Delivery
}.

Inductive webhook_action `{Redis} :=
  | Create (orgId userId url : string) (events : list string)
  | Rotate (orgId webhookId userId : string)
  | Remove (orgId webhookId : string)
  | Deliver (job : WebhookDeliveryJobData)
  | Elsewhere (f : World → World).

Section histories.
Context `{Redis, !RedisHash, Random, Config, Crypto, Network}.

Definition webhook_act (h : History) (a : webhook_action) : History :=
  let w := h_world h in
  match a with
  | Create orgId userId url events =>
      match WebhookService.create orgId userId url events w with
      | (Ok (webhook, secret), w') => mkHistory _ w' (<[sw_id webhook := (url, secret)]> (h_known h)) (h_log h)
      | (Throw _, w') => mkHistory _ w' (h_known h) (h_log h)
      end
  | Rotate orgId webhookId userId =>
      match WebhookService.rotateSecret orgId webhookId userId w with
      | (Ok secret, w') =>
          mkHistory _ w' (alter (λ '(url, _), (url, secret)) webhookId (h_known h)) (h_log h)
      | (Throw _, w') => mkHistory _ w' (h_known h) (h_log h)
      end
  | Remove orgId webhookId =>
      match WebhookService.remove orgId webhookId w with
      | (Ok _, w') => mkHistory _ w' (delete webhookId (h_known h)) (h_log h)
      | (Throw _, w') => mkHistory _ w' (h_known h) (h_log h)
      end
  | Deliver job =>
      let w' := (WebhookDelivery.webhookDeliveryWorkerJob job w).2 in
      mkHistory _ w' (h_known h)
        (h_log h ++
         match drop (length (outgoing w)) (outgoing w') with
         | [] => []
         | r :: followed =>
             let n := length (outgoing w) in
             [mkDelivery job (clock w) (h_known h !! wd_webhookId job) n r followed (http_exchange n r).2]
         end)
  | Elsewhere f => mkHistory _ (f w) (h_known h) (h_log h)
  end.

Definition webhook_run (acts : list webhook_action) (h : History) : History := foldl webhook_act h acts.





End histories.

(** ** The operations, one by one *)

Section runs.
Context `{Redis, !RedisHash, Random, !RandomLaws _, C : Config, K : Crypto, !CryptoLaws K C, Network}.
Import WebhookDelivery.









(** *** The invariant *)











(** *** Registration *)




(** *** Rotation and removal *)



End runs.

(** *** Deliveries *)

Section deliveries.
Context `{Redis, !RedisHash, Random, !RandomLaws _, C : Config, K : Crypto, !CryptoLaws K C, Network}.
Import WebhookDelivery.











End deliveries.

Module WebhookProperties.
Section theorems.
Context `{Redis, !RedisHash, Random, !RandomLaws _, C : Config, K : Crypto, !CryptoLaws K C, Network}.

End theorems.
End WebhookProperties.

Module WebhookExamples.
Import Concrete.

(** A small network: one name, public until the clock shows 9000, and a
    receiver that fails the first request. *)
#[local] Instance small_network : Network := {|
  url_parse s := if (s =? "https://hooks.example/in")%string then Some (mkUrl "https:" "hooks.example" "/in" "")
                 else if (s =? "http://hooks.example/in")%string then Some (mkUrl "http:" "hooks.example" "/in" "") else None;
  dns_lookup t _ := Some (if (t <? 9000)%Z then "203.0.113.7" else "10.0.0.1")%string;
  ip_range ip := Some (if (ip =? "10.0.0.1")%string then "private" else "unicast")%string;
  http_exchange n _ := ([], Some (if Nat.eqb n 0 then 503 else 200)%Z)
|}.

Definition flag_on : World :=
  (FeatureFlagService.createFlag (FeatureFlagService.mkCreateFlagData "feature.webhooks" (Some true) None None None) (empty_world 1000)).2.

Definition job (event : string) : WebhookDeliveryJobData :=
  mkWebhookDeliveryJobData "uuid-4" "org1" event "task.created" (JObj [("id", JStr "t1")]).

Definition scenario : list webhook_action :=
  [Create "org1" "u1" "http://hooks.example/in" []; Create "org1" "u1" "https://hooks.example/in" ["task.created"];
   Deliver (job "e1"); Deliver (job "e1"); Deliver (job "e1"); Rotate "org1" "uuid-4" "u1"; Deliver (job "e2");
   Elsewhere (λ w, w <| clock := 9000%Z |>); Deliver (job "e3"); Remove "org1" "uuid-4"; Deliver (job "e4")].

Notation history := (webhook_run scenario (mkHistory _ flag_on ∅ [])).

(** The first attempt fails and is retried; the third job finds the event
    delivered; [e3] is blocked, [e4] has no webhook any more. *)
Example scenario_requests :
  (λ d, (wd_eventId (d_job d), d_answer d)) <$> h_log history =
  [("e1", Some 503%Z); ("e1", Some 200%Z); ("e2", Some 200%Z)].
Proof. vm_compute. reflexivity. Qed.

(** A receiver that answers 307 has the process send the request, with its
    signature, to an address inside the network. *)
Definition inside (r : Outgoing) : list Outgoing :=
  match r with
  | HttpPost _ headers data =>
      [HttpPost "http://10.0.0.1/admin" (List.filter (λ h, negb (h.1 =? "Host")%string) headers) data]
  | _ => []
  end.
Definition redirecting : Network := {|
  url_parse := @url_parse small_network; dns_lookup := @dns_lookup small_network; ip_range := @ip_range small_network;
  http_exchange _ r := (inside r, Some 200%Z)
|}.
Definition redirected : list Delivery :=
  h_log (@webhook_run _ _ _ _ _ redirecting (take 3 scenario) (mkHistory _ flag_on ∅ [])).
Example redirects_are_followed :
  d_followed <$> redirected = (λ d, inside (d_request d)) <$> redirected ∧ length <$> (d_followed <$> redirected) = [1].
Proof. vm_compute. by split. Qed.

(** A request that is answered with an error is counted as two attempts. *)
Example failed_attempt_counts_twice :
  wl_attempt_count <$> webhook_delivery_log (db (h_world (webhook_run (take 3 scenario) (mkHistory _ flag_on ∅ [])))) = [2%Z].
Proof. vm_compute. reflexivity. Qed.

(** The list the members get holds the hash and the encryption of the
    secret. *)
Example list_shows_secrets :
  match (WebhookService.listByOrg "org1" (h_world (webhook_run (take 3 scenario) (mkHistory _ flag_on ∅ [])))).1 with
  | Ok [r] => negb (wh_secret_hash r =? "")%string && negb (wh_secret_encrypted r =? "")%string
  | _ => false
  end = true.
Proof. vm_compute. reflexivity. Qed.

End WebhookExamples.
