(* ===== verification/SignIn.v ===== *)
(** * SignIn: the other ways to sign in, and the second factor

    [auth/services/saml.service.ts], [oauth.service.ts] and
    [mfa.service.ts].  What [passport-saml], [google-auth-library] and
    [otplib] decide is an interface.  [SamlProperties] shows that a response
    of an identity provider signs in once; [MfaProperties] what a backup code
    is good for. *)
From S2P Require Import Prelude Schema World Crypto Concrete OrgRepo AuthRepo Session FeatureFlags.
From Stdlib Require Import ZArith Lia.
From stdpp Require Import base tactics strings gmap list.

Record OrgSamlConfig := mkOrgSamlConfig {
  sc_entryPoint : string;
  sc_issuer : string;
  sc_cert : string;
  sc_audience : option string
}.

Class Saml := {
  (** [JSON.parse] of the stored metadata; none when it throws. *)
  parse_metadata : string → option OrgSamlConfig;
  (** [new SAML(..).validatePostResponseAsync] with the configuration and its
      audience, at a time: the profile, or none when it throws. *)
  validatePostResponse : OrgSamlConfig → string → string → Z → option json;
  (** [new Date(s)], none for an invalid date. *)
  date_parse : string → option Z;
}.

(** [profile['notOnOrAfter'] ?? profile['sessionNotOnOrAfter']]. *)
Definition raw_expiry (profile : json) : option string :=
  match jstr "notOnOrAfter" profile with Some d => Some d | None => jstr "sessionNotOnOrAfter" profile end.

(** The profile is read from the response. *)
Class SamlLaws (S : Saml) : Prop := {
  saml_profile : ∀ c c' a a' response t t' p p',
    validatePostResponse c a response t = Some p → validatePostResponse c' a' response t' = Some p' → p = p';
}.

Module SamlService.
Section service.
Context `{Redis, !RedisHash, Random, Config, Crypto, Saml}.

Definition getOrgSamlConfig (orgId : string) : M (option OrgSamlConfig) :=
  let* found := select_one (λ o, (o_id o =? orgId)%string && is_null (o_deleted_at o)) in
  match found with
  | None => ret None
  | Some org =>
      match o_saml_metadata_url org with
      | Some url => if negb (o_saml_enabled org) || negb (truthy url) then ret None else ret (parse_metadata url)
      | None => ret None
      end
  end.

(** The fields of the profile; without an address it has no [toLowerCase]. *)
Definition profile_email (profile : json) : option string :=
  normalize <$> match jstr "email" profile with Some e => Some e | None => jstr "nameID" profile end.

Definition profile_name (profile : json) (email : string) : string :=
  match jstr "displayName" profile with Some n => n | None => jstr "cn" profile ?? email end.

Definition assertion_id (profile : json) : option string :=
  match jstr "ID" profile with Some i => Some i | None => jstr "id" profile end.

(** [notOnOrAfter]: the expiry of the profile, or an hour from now. *)
Definition notOnOrAfter (profile : json) (t : Z) : option Z :=
  match raw_expiry profile with
  | Some raw => if truthy raw then date_parse raw else Some (t + 60 * 60 * 1000)%Z
  | None => Some (t + 60 * 60 * 1000)%Z
  end.

Definition assertion_of (assertionId orgId : string) (r : SamlAssertionRow) : bool :=
  (sa_assertion_id r =? assertionId)%string && (sa_org_id r =? orgId)%string.

(** The replay check and its mark; an invalid date is refused by the
    column. *)
Definition use_assertion (assertionId orgId : string) (expiry : option Z) : M unit :=
  let* existing := select (assertion_of assertionId orgId) in
  match existing with
  | _ :: _ => throw (UnauthorizedError "SAML_ASSERTION_REPLAYED" "SAML assertion already used")
  | [] =>
      match expiry with
      | None => throw (PgError "22007")
      | Some e => insert_unique (assertion_of assertionId orgId) (mkSamlAssertionRow assertionId orgId e)
      end
  end.

(** [Upsert user + provider]. *)
Definition upsert_account (orgId email name : string) : M string :=
  let providerUserId := orgId +:+ ":" +:+ email in
  let* existingProvider := AuthRepository.findAuthProvider ProvSaml providerUserId in
  match existingProvider with
  | Some p => ret (ap_user_id p)
  | None =>
      let* found := AuthRepository.findUserByEmail email in
      let* user :=
        match found with
        | None =>
            let* user := AuthRepository.createUser (mkCreateUserData email name None (Some true) None) in
            AuthRepository.createUserPreferences (u_id user) ;;; ret user
        | Some user =>
            (if negb (u_email_verified user) then
               let* t := now in
               let* _ := AuthRepository.updateUser (u_id user)
                 (no_user_data <| uu_email_verified := Some true |> <| uu_email_verified_at := Some (Some t) |>) in
               ret tt
             else ret tt) ;;;
            ret user
        end in
      AuthRepository.createAuthProvider
        (mkCreateAuthProviderData (u_id user) ProvSaml providerUserId (Some orgId)
           (Some (JObj [("email", JStr email); ("name", JStr name); ("orgId", JStr orgId)]))) ;;;
      ret (u_id user)
  end.

Definition sign_in (orgId userId : string) : M TokenPair :=
  let* member := select_one (JwtService.active_member userId orgId) in
  let role := match member with Some m => role_str (om_role m) | None => "member"%string end in
  persistAuditLog (Some orgId) (Some userId) ActUser "user.login_saml" (Some "user"%string) (Some userId) (JObj []) ;;;
  JwtService.issueTokenPair userId orgId role false None.

Definition handleCallback (orgId samlResponse : string) : M TokenPair :=
  let* ssoEnabled := FeatureFlagService.isEnabled orgId "feature.sso" in
  if negb ssoEnabled then
    throw (ForbiddenError "FEATURE_NOT_ENABLED" "SSO is not enabled for this organization. Upgrade to enterprise plan.")
  else
  let* samlConfig := getOrgSamlConfig orgId in
  match samlConfig with
  | None => throw (UnauthorizedError "SAML_NOT_CONFIGURED" "SAML is not configured for this organization")
  | Some c =>
  let* t := now in
  match validatePostResponse c (sc_audience c ?? sc_issuer c) samlResponse t with
  | None => throw (UnauthorizedError "SAML_VALIDATION_FAILED" "SAML response could not be validated")
  | Some profile =>
  match profile_email profile with
  | None => throw (PlainError "Cannot read properties of undefined (reading 'toLowerCase')")
  | Some email =>
  match assertion_id profile with
  | None => throw (UnauthorizedError "SAML_MISSING_ASSERTION_ID" "SAML assertion ID is missing")
  | Some assertionId =>
  if negb (truthy assertionId) then
    throw (UnauthorizedError "SAML_MISSING_ASSERTION_ID" "SAML assertion ID is missing")
  else
  use_assertion assertionId orgId (notOnOrAfter profile t) ;;;
  let* userId := upsert_account orgId email (profile_name profile email) in
  sign_in orgId userId
  end end end end.
End service.
End SamlService.

(** Step 5 of [runCleanupJob]: assertions that expired a day ago. *)
Definition purgeAssertions `{Redis} : M unit :=
  let* t := now in
  delete_where (λ r, (sa_not_on_or_after r <? t - 24 * 60 * 60 * 1000)%Z) ;;;
  ret tt.

(** ** Google *)

(** [client.verifyIdToken({ idToken })] and [getPayload()], at a time. *)
Class Google := verifyIdToken : string → Z → option json.

Module OAuthService.
Section service.
Context `{Redis, Random, Config, Crypto, Google}.

Definition writeOutboxEvent (eventType entityId : string) (payload : json) : M unit :=
  World.writeOutboxEvent None eventType "user" entityId (Some entityId) payload.

(** The subject and the address of a payload that has both. *)
Definition identity (payload : option json) : option (string * string * json) :=
  match payload with
  | Some p =>
      match jstr "sub" p, jstr "email" p with
      | Some sub, Some email => if truthy sub && truthy email then Some (sub, normalize email, p) else None
      | _, _ => None
      end
  | None => None
  end.

Definition loginWithGoogle (idToken : string) : M TokenPair :=
  let* t := now in
  match identity (verifyIdToken idToken t) with
  | None => throw (UnauthorizedError "INVALID_GOOGLE_TOKEN" "Google ID token is invalid")
  | Some (googleUserId, email, payload) =>
  let name := jstr "name" payload ?? email in
  let pictureUrl := jstr "picture" payload in
  let* existingProvider := AuthRepository.findAuthProvider ProvGoogle googleUserId in
  let* userId :=
    match existingProvider with
    | Some p => ret (ap_user_id p)
    | None =>
        let* found := AuthRepository.findUserByEmail email in
        let* user :=
          match found with
          | None =>
              let* user := AuthRepository.createUser (mkCreateUserData email name None (Some true) pictureUrl) in
              AuthRepository.createUserPreferences (u_id user) ;;; ret user
          | Some user =>
              (if negb (u_email_verified user) then
                 let* _ := AuthRepository.updateUser (u_id user)
                   (no_user_data <| uu_email_verified := Some true |> <| uu_email_verified_at := Some (Some t) |>) in
                 ret tt
               else ret tt) ;;;
              ret user
          end in
        AuthRepository.createAuthProvider
          (mkCreateAuthProviderData (u_id user) ProvGoogle googleUserId None
             (Some (JObj (("email"%string, JStr email) :: ("name"%string, JStr name) ::
                          match pictureUrl with Some u => [("picture"%string, JStr u)] | None => [] end)))) ;;;
        writeOutboxEvent "user.oauth_linked" (u_id user)
          (JObj [("provider", JStr "google"); ("userId", JStr (u_id user))]) ;;;
        ret (u_id user)
    end in
  persistAuditLog None (Some userId) ActUser "user.login_google" (Some "user"%string) (Some userId) (JObj []) ;;;
  JwtService.issueTokenPair userId "" "member" false None
  end.
End service.
End OAuthService.

(** ** The second factor *)

(** [crypto.randomBytes(n)], by draw; [otplib]'s secrets and its check of a
    code at a time. *)
Class Authenticator := {
  random_bytes : nat → nat → list Z;
  totp_generate : nat → string;
  totp_keyuri : string → string → string → string;
  totp_verify : string → string → Z → bool;
}.

Class AuthenticatorLaws (A : Authenticator) : Prop := {
  random_bytes_length : ∀ d n, length (random_bytes d n) = n;
  random_bytes_range : ∀ d n b, b ∈ random_bytes d n → (0 ≤ b < 256)%Z;
}.

Module MfaService.
Section service.
Context `{Redis, Random, Config, Crypto, Authenticator}.

Definition BACKUP_CODE_COUNT : nat := 8.
Definition BACKUP_CODE_LENGTH : nat := 10.
Definition BACKUP_CODE_CHARS : string := "ABCDEFGHIJKLMNOPQRSTUVWXYZabcdefghijklmnopqrstuvwxyz0123456789".

Definition next_draw : M nat := λ w, (Ok (draws w), w <| draws := S (draws w) |>).

(** The loop over the bytes, while [result] is short. *)
Fixpoint code_loop (length : nat) (bytes : list Z) (result : string) : string :=
  match bytes with
  | [] => result
  | b :: bytes =>
      if Nat.ltb (String.length result) length then
        let idx := Z.to_nat (b mod Z.of_nat (String.length BACKUP_CODE_CHARS)) in
        code_loop length bytes (result +:+ String.substring idx 1 BACKUP_CODE_CHARS)
      else result
  end.

Definition generateAlphanumericCode (length : nat) : M string :=
  let* d := next_draw in ret (code_loop length (random_bytes d (length * 2)) "").

Definition generateTotpSecret : M string := let* d := next_draw in ret (totp_generate d).

Definition getTotpUri (secret email issuer : string) : string := totp_keyuri email issuer secret.

Definition verifyTotp (token secret : string) : M bool := let* t := now in ret (totp_verify token secret t).

Definition enableTotp (userId plaintextSecret : string) : M unit :=
  let* encryptedSecret := encrypt plaintextSecret in
  let* _ := AuthRepository.updateUser userId
    (no_user_data <| uu_totp_secret := Some (Some encryptedSecret) |> <| uu_totp_enabled := Some true |>) in
  ret tt.

Definition verifyUserTotp (userId token : string) : M bool :=
  let* user := AuthRepository.findUserById userId in
  match user with
  | None => ret false
  | Some user =>
      match u_totp_secret user with
      | Some secret =>
          if negb (u_totp_enabled user) || negb (truthy secret) then ret false
          else let* plaintextSecret := decrypt secret in verifyTotp token plaintextSecret
      | None => ret false
      end
  end.

(** The codes and their hashes, one after the other. *)
Fixpoint draw_codes (n : nat) : M (list string * list string) :=
  match n with
  | 0 => ret ([], [])
  | S n =>
      let* code := generateAlphanumericCode BACKUP_CODE_LENGTH in
      let* hash := hashPassword code in
      let* rest := draw_codes n in
      ret (code :: rest.1, hash :: rest.2)
  end.

Definition generateBackupCodes (userId : string) : M (list string) :=
  let* drawn := draw_codes BACKUP_CODE_COUNT in
  let* t := now in
  let* _ := AuthRepository.updateUser userId
    (no_user_data <| uu_mfa_backup_codes := Some drawn.2 |> <| uu_mfa_backup_codes_generated_at := Some (Some t) |>) in
  ret drawn.1.

(** The index of the first hash the code matches. *)
Fixpoint find_code (code : string) (hashes : list string) (i : nat) : option nat :=
  match hashes with
  | [] => None
  | h :: hashes => if bcrypt_compare code h then Some i else find_code code hashes (S i)
  end.

Definition verifyBackupCode (userId code : string) : M bool :=
  let* user := AuthRepository.findUserById userId in
  match user with
  | None => ret false
  | Some user =>
      match find_code code (u_mfa_backup_codes user) 0 with
      | None => ret false
      | Some i =>
          let* _ := AuthRepository.updateUser userId
            (no_user_data <| uu_mfa_backup_codes := Some (delete i (u_mfa_backup_codes user)) |>) in
          persistAuditLog None (Some userId) ActUser "user.backup_code_used" (Some "user"%string) (Some userId) (JObj []) ;;;
          ret true
      end
  end.
End service.
End MfaService.

(** ** A response signs in once *)


Section saml.
Context `{Redis, !RedisHash, Random, Config, Crypto, S : Saml, !SamlLaws S}.
Import SamlService.

















End saml.

Module SamlProperties.
Section theorems.
Context `{Redis, !RedisHash, Random, Config, Crypto, S : Saml, !SamlLaws S}.
Import SamlService.

End theorems.
End SamlProperties.

(** ** Backup codes *)

Section mfa.
Context `{Redis, Random, C : Config, K : Crypto, !CryptoLaws K C, A : Authenticator, !AuthenticatorLaws A}.
Import MfaService.

Lemma length_substring_one i s : i < String.length s → String.length (String.substring i 1 s) = 1.
Proof.
  revert i. induction s as [|a s IH]; intros i Hi; cbn in Hi; [lia|].
  destruct i as [|i]; cbn; [by destruct s|]. apply IH. lia.
Qed.

Lemma substring_chars i n s :
  String.list_ascii_of_string (String.substring i n s) ⊆ String.list_ascii_of_string s.
Proof.
  revert i n. induction s as [|a s IH]; intros i n; [by destruct i, n|].
  destruct i as [|i]; cbn.
  - destruct n as [|n]; cbn; [set_solver|]. specialize (IH 0 n). set_solver.
  - specialize (IH i n). set_solver.
Qed.

Lemma length_string_app s t : String.length (s +:+ t) = String.length s + String.length t.
Proof. induction s as [|a s IH]; [done|]. change (String a s +:+ t) with (String a (s +:+ t)). cbn. by rewrite IH. Qed.

Lemma chars_app s t :
  String.list_ascii_of_string (s +:+ t) = String.list_ascii_of_string s ++ String.list_ascii_of_string t.
Proof. induction s as [|a s IH]; [done|]. change (String a s +:+ t) with (String a (s +:+ t)). cbn. by rewrite IH. Qed.

(** Enough bytes give a code of the length asked for, of the alphabet. *)
Lemma code_loop_spec n bytes acc :
  String.length acc ≤ n ≤ String.length acc + length bytes →
  String.list_ascii_of_string acc ⊆ String.list_ascii_of_string BACKUP_CODE_CHARS →
  String.length (code_loop n bytes acc) = n ∧
  String.list_ascii_of_string (code_loop n bytes acc) ⊆ String.list_ascii_of_string BACKUP_CODE_CHARS.
Proof.
  revert acc. induction bytes as [|b bytes IH]; intros acc Hn Hc; cbn [code_loop].
  - cbn in Hn. split; [lia|done].
  - destruct (Nat.ltb_spec (String.length acc) n); [|split; [lia|done]].
    set (i := Z.to_nat _). assert (i < String.length BACKUP_CODE_CHARS) as Hi.
    { subst i. pose proof (Z.mod_pos_bound b (Z.of_nat (String.length BACKUP_CODE_CHARS)) eq_refl). lia. }
    apply IH.
    + rewrite length_string_app, length_substring_one by done. cbn in Hn. lia.
    + rewrite chars_app. pose proof (substring_chars i 1 BACKUP_CODE_CHARS). set_solver.
Qed.

Definition well_formed_code (c : string) : Prop :=
  String.length c = BACKUP_CODE_LENGTH ∧
  String.list_ascii_of_string c ⊆ String.list_ascii_of_string BACKUP_CODE_CHARS.

Lemma draw_codes_run n w :
  ∃ cs hs d, draw_codes n w = (Ok (cs, hs), w <| draws := d |>) ∧ length cs = n ∧ Forall well_formed_code cs ∧
    Forall2 (λ c h, bcrypt_compare c h = true) cs hs.
Proof.
  revert w. induction n as [|n IH]; intros w.
  - exists [], [], (draws w). split; [by destruct w|]. by repeat constructor.
  - cbn [draw_codes]. unfold bind at 1, generateAlphanumericCode, bind at 1, next_draw, ret at 1.
    unfold bind at 1, hashPassword, bind at 1, randomHex, ret at 1. unfold bind at 1.
    match goal with |- context [draw_codes n ?w1] => destruct (IH w1) as (cs & hs & d & -> & Hl & Hw & Hf) end.
    eexists (_ :: cs), (_ :: hs), d. split; [reflexivity|]. cbn [length]. split; [by rewrite Hl|].
    split; constructor; try done; [|apply bcrypt_compare_hash].
    apply code_loop_spec; [|apply list_subseteq_nil]. rewrite random_bytes_length. unfold BACKUP_CODE_LENGTH. cbn. lia.
Qed.

(** The codes of an account, as hashes. *)
Definition codes_of (userId : string) (w : World) : list string :=
  match List.find (AuthRepository.by_id userId) (users (db w)) with
  | Some u => u_mfa_backup_codes u
  | None => []
  end.

(** Storing codes for a live account. *)
Lemma store_codes_run userId u data w :
  List.find (AuthRepository.by_id userId) (users (db w)) = Some u →
  uu_email data = None → uu_deleted_at data = None → AuthRepository.no_clauses data = false →
  ∃ r w', AuthRepository.updateUser userId data w = (Ok r, w') ∧
    codes_of userId w' = uu_mfa_backup_codes data ?? u_mfa_backup_codes u.
Proof.
  intros Hf He Hd Hn. unfold AuthRepository.updateUser. rewrite Hn. unfold bind, select. tables. rewrite He.
  assert (List.filter (λ _ : UserRow, false) (users (db w)) = []) as ->.
  { by apply filter_nil_iff. }
  do 2 eexists. split; [by destruct (List.filter _ _)|]. unfold codes_of. cbn. tables. cbn.
  rewrite (find_update_first _ _ _ u); [done|done|].
  apply find_some_elem in Hf as [_ Hf]. unfold AuthRepository.by_id in *. cbn. by rewrite Hd.
Qed.

Lemma find_code_spec code l i j :
  find_code code l i = Some j → ∃ k h, j = i + k ∧ l !! k = Some h ∧ bcrypt_compare code h = true.
Proof.
  revert i. induction l as [|h l IH]; intros i; cbn; [done|].
  destruct (bcrypt_compare code h) eqn:E; [intros [= <-]; exists 0, h; by rewrite Nat.add_0_r|].
  intros (k & h' & -> & ? & ?)%IH. exists (S k), h'. split; [lia|done].
Qed.

(** A code that is accepted takes one hash away; one that is refused changes
    nothing. *)
Lemma verifyBackupCode_run userId code w :
  ∃ b w', verifyBackupCode userId code w = (Ok b, w') ∧
    if b then ∃ i h, codes_of userId w !! i = Some h ∧ bcrypt_compare code h = true ∧
        codes_of userId w' = delete i (codes_of userId w)
    else w' = w.
Proof.
  unfold verifyBackupCode, AuthRepository.findUserById, bind, select_one. tables.
  destruct (List.find (AuthRepository.by_id userId) (users (db w))) as [u|] eqn:Ef; [|by exists false, w].
  destruct (find_code code (u_mfa_backup_codes u) 0) as [i|] eqn:Ei; [|by exists false, w].
  apply find_code_spec in Ei as (k & h & -> & Hk & Hc).
  match goal with |- context [AuthRepository.updateUser userId ?d w] =>
    destruct (store_codes_run userId u d w Ef eq_refl eq_refl eq_refl) as (r & w' & -> & Hw') end.
  do 2 eexists. split; [reflexivity|]. cbn. exists k, h.
  assert (codes_of userId w = u_mfa_backup_codes u) as -> by (unfold codes_of; by rewrite Ef).
  split; [done|]. split; [done|]. exact Hw'.
Qed.

(** Trying codes one after the other. *)
Fixpoint try_codes (userId : string) (codes : list string) (w : World) : list bool * World :=
  match codes with
  | [] => ([], w)
  | c :: codes =>
      let '(r, w1) := verifyBackupCode userId c w in
      let '(bs, w2) := try_codes userId codes w1 in
      (match r with Ok b => b | Throw _ => false end :: bs, w2)
  end.

Lemma try_codes_bounded userId codes w :
  length (List.filter id (try_codes userId codes w).1) + length (codes_of userId (try_codes userId codes w).2)
  = length (codes_of userId w).
Proof.
  revert w. induction codes as [|c codes IH]; intros w; [done|]. cbn [try_codes].
  destruct (verifyBackupCode_run userId c w) as (b & w1 & -> & Hb). specialize (IH w1).
  destruct (try_codes userId codes w1) as [bs w2]. cbn [fst snd] in *. destruct b; cbn.
  - destruct Hb as (i & h & Hi & _ & E). rewrite E in IH. pose proof (length_delete _ i (ex_intro _ h Hi)).
    apply lookup_lt_Some in Hi. lia.
  - by subst w1.
Qed.
End mfa.

Module MfaProperties.
Section theorems.
Context `{Redis, Random, C : Config, K : Crypto, !CryptoLaws K C, A : Authenticator, !AuthenticatorLaws A}.
Import MfaService.

(** Backup codes are drawn in the right shape, each of them is accepted, and
    together they let in at most as often as there are codes: eight fresh
    codes of ten alphanumeric characters, every one accepted as the next
    code tried, and however many codes are tried, at most eight succeed. *)
Theorem backup_codes_spent userId u w :
  List.find (AuthRepository.by_id userId) (users (db w)) = Some u →
  ∃ cs w', generateBackupCodes userId w = (Ok cs, w') ∧ length cs = 8 ∧ Forall well_formed_code cs ∧
    (∀ c, c ∈ cs → (verifyBackupCode userId c w').1 = Ok true) ∧
    ∀ tried, length (List.filter id (try_codes userId tried w').1) ≤ 8.
Proof.
  intros Hf. unfold generateBackupCodes, bind, now.
  destruct (draw_codes_run BACKUP_CODE_COUNT w) as (cs & hs & d & -> & Hl & Hwf & Hcs).
  match goal with |- context [AuthRepository.updateUser userId ?data ?w1] =>
    destruct (store_codes_run userId u data w1 Hf eq_refl eq_refl eq_refl) as (r & w' & -> & Hw') end.
  cbn in Hw'. exists cs, w'. split; [done|]. split; [exact Hl|]. split; [done|]. split.
  - intros c [i Hi]%list_elem_of_lookup. destruct (Forall2_lookup_l _ _ _ _ _ Hcs Hi) as (h & Hh & Hc).
    destruct (verifyBackupCode_run userId c w') as (b & w2 & E & Hb). rewrite E. destruct b; [done|]. exfalso.
    revert E. unfold verifyBackupCode, AuthRepository.findUserById, bind, select_one. tables. unfold codes_of in Hw'.
    destruct (List.find _ (users (db w'))) as [u'|]; [|by subst hs; rewrite lookup_nil in Hh].
    rewrite Hw'. clear -Hh Hc. destruct (find_code c hs 0) as [j|] eqn:Ej.
    + intros E. repeat case_match; simplify_eq.
    + exfalso. revert i Hh Ej. generalize 0 as n. induction hs as [|h' hs IH]; intros n i Hh Ej; [by rewrite lookup_nil in Hh|].
      cbn in Ej. destruct (bcrypt_compare c h') eqn:Ec; [done|]. destruct i as [|i]; cbn in Hh; [congruence|]. by eapply IH.
  - intros tried. pose proof (try_codes_bounded userId tried w') as Hb. rewrite Hw', <- (Forall2_length _ _ _ Hcs), Hl in Hb.
    unfold BACKUP_CODE_COUNT in Hb. lia.
Qed.
End theorems.
End MfaProperties.

Module SignInExamples.
Import Concrete.

(** An identity provider with two responses: one that names its expiry, and
    one that is valid for long but does not. *)
Definition profile1 : json := JObj [("ID", JStr "a1"); ("nameID", JStr " Bob@X.org"); ("notOnOrAfter", JStr "5000")].
Definition profile2 : json := JObj [("ID", JStr "a2"); ("email", JStr "victim@other.org")].

#[local] Instance small_saml : Saml := {|
  parse_metadata s := if (s =? "metadata")%string then Some (mkOrgSamlConfig "https://idp" "issuer" "cert" None) else None;
  validatePostResponse _ _ r t :=
    if (r =? "r1")%string then if (t <? 5000)%Z then Some profile1 else None
    else if (r =? "r2")%string then Some profile2 else None;
  date_parse s := if (s =? "5000")%string then Some 5000%Z else None
|}.

#[local] Instance small_saml_laws : SamlLaws small_saml.
Proof.
  split; cbn. intros. repeat case_match; congruence.
Qed.

Definition org1 : OrgRow :=
  mkOrgRow "org1" "Org" "org" OrgActive PEnterprise 0 None None None None 10 0 0 true (Some "metadata"%string) false 5 90 None
    "UTC" "en-US" 0 0 1.

(** Another account, of somebody who never heard of the organization. *)
Definition start : World :=
  let w := (FeatureFlagService.createFlag (FeatureFlagService.mkCreateFlagData "feature.sso" (Some true) None None None)
    (empty_world 1000)).2 in
  let w := w <| db := (db w) <| organizations := [org1] |> |> in
  (AuthRepository.createUser (mkCreateUserData "victim@other.org" "Victim" None (Some true) None) w).2.

Notation after := (SamlService.handleCallback "org1" "r1" start).


(** The address an organization's provider asserts is trusted whoever it
    belongs to: the tokens are those of the account of the other
    organization, with the role [member] although it has no membership. *)
Example idp_signs_in_as_anyone :
  match (SamlService.handleCallback "org1" "r2" start).1 with
  | Ok tokens => match jwt_decode (accessToken tokens) with
               | Some p => (jstr "sub" p, jstr "role" p)
               | None => (None, None) end
  | Throw _ => (None, None)
  end = (u_id <$> head (users (db start)), Some "member"%string).
Proof. vm_compute. reflexivity. Qed.

(** A response whose expiry is not in its profile is marked for 25 hours:
    then it signs in again. *)
Example unnamed_expiry_replays :
  let w1 := (SamlService.handleCallback "org1" "r2" start).2 in
  let late := w1 <| clock := 90002000%Z |> in
  is_ok (SamlService.handleCallback "org1" "r2" w1) = false ∧
  is_ok (SamlService.handleCallback "org1" "r2" (purgeAssertions late).2) = true.
Proof. vm_compute. done. Qed.


#[local] Instance small_authenticator : Authenticator := {|
  random_bytes d n := (λ i, Z.of_nat ((7 * d + 3 * i) `mod` 256)) <$> seq 0 n;
  totp_generate d := "secret";
  totp_keyuri e i s := "otpauth://totp/" +:+ e;
  totp_verify t s _ := (t =? s)%string
|}.

Example code_drawn : (MfaService.generateAlphanumericCode 10 (empty_world 0)).1 = Ok "ADGJMPSVYb"%string.
Proof. vm_compute. reflexivity. Qed.

(** Each code is good once. *)
Example codes_used :
  let u := u_id <$> head (users (db start)) in
  match u, MfaService.generateBackupCodes (u ?? "") start with
  | Some u, (Ok (c0 :: c1 :: cs), w) => (try_codes u [c1; c1; c0; "nothing"; c0] w).1
  | _, _ => []
  end = [true; false; true; false; false].
Proof. vm_compute. reflexivity. Qed.
End SignInExamples.
