(* ===== verification/Notifications.v ===== *)
(** * Notifications: preferences, in-app notifications, email and push

    [modules/notification]: the repository and the preferences, the workers
    of the queues [notifications] and [emails], the email service with its
    two providers, and the push subscriptions.  The workers of both files
    registered on the queue [notifications] are modelled, since BullMQ gives
    a job to either. *)
From S2P Require Import Prelude Schema World Crypto Concrete.
From Stdlib Require Import ZArith Lia Ascii.
From stdpp Require Import base tactics strings gmap list pretty sorting.

Record CreateNotificationData := mkCreateNotificationData {
  cn_org_id : string;
  cn_user_id : string;
  cn_type : string;
  cn_entity_type : string;
  cn_entity_id : string;
  cn_actor_id : option string;
  cn_payload : option json
}.

(** [None] is [undefined]. *)
Record PreferenceData := mkPreferenceData {
  pd_channel_inapp : option bool;
  pd_channel_email : option bool;
  pd_channel_push : option bool;
  pd_digest_mode : option digest_mode;
  pd_quiet_hours_start : option (option string);
  pd_quiet_hours_end : option (option string)
}.

Definition notification_json (r : NotificationRow) : json :=
  JObj [("id", JStr (n_id r)); ("org_id", JStr (n_org_id r)); ("user_id", JStr (n_user_id r)); ("type", JStr (n_type r));
        ("entity_type", JStr (n_entity_type r)); ("entity_id", JStr (n_entity_id r)); ("actor_id", jopt (n_actor_id r));
        ("payload", n_payload r); ("is_read", JBool (n_is_read r));
        ("read_at", match n_read_at r with Some t => JNum t | None => JNull end); ("created_at", JNum (n_created_at r));
        ("digest_sent_at", match n_digest_sent_at r with Some t => JNum t | None => JNull end)].

Module NotificationRepository.
Section repository.
Context `{Redis, Random}.

Definition channel (orgId userId : string) : string := "notification:" +:+ orgId +:+ ":user:" +:+ userId.

Definition create (data : CreateNotificationData) : M NotificationRow :=
  let* id := gen_random_uuid in
  let* t := now in
  let row := mkNotificationRow id (cn_org_id data) (cn_user_id data) (cn_type data) (cn_entity_type data)
    (cn_entity_id data) (cn_actor_id data) (cn_payload data ?? JObj []) false None t None in
  insert_row row ;;;
  rpublish (channel (cn_org_id data) (cn_user_id data)) (notification_json row) ;;;
  ret row.

(** [ORDER BY created_at DESC LIMIT .. OFFSET ..]. *)
Definition findByUser (orgId userId : string) (onlyUnread : bool) (limit offset : nat) : M (list NotificationRow) :=
  let* l := select (λ n, (n_org_id n =? orgId)%string && (n_user_id n =? userId)%string &&
    (if onlyUnread then negb (n_is_read n) else true)) in
  ret (take limit (drop offset (rev l))).

Definition unread_of (orgId userId : string) (n : NotificationRow) : bool :=
  (n_org_id n =? orgId)%string && (n_user_id n =? userId)%string && negb (n_is_read n).

Definition read_at (t : Z) (n : NotificationRow) : NotificationRow :=
  n <| n_is_read := true |> <| n_read_at := Some t |>.

Definition markRead (orgId userId notificationId : string) : M bool :=
  let* t := now in
  let* rs := update_where (λ n, (n_id n =? notificationId)%string && unread_of orgId userId n) (read_at t) in
  ret (negb (Nat.eqb (length rs) 0)).

Definition markAllRead (orgId userId : string) : M nat :=
  let* t := now in
  let* rs := update_where (unread_of orgId userId) (read_at t) in
  ret (length rs).

Definition preference_of (orgId userId eventType : string) (p : NotificationPreferenceRow) : bool :=
  (np_org_id p =? orgId)%string && (np_user_id p =? userId)%string && (np_event_type p =? eventType)%string.

Definition findPreference (orgId userId eventType : string) : M (option NotificationPreferenceRow) :=
  select_one (preference_of orgId userId eventType).

Definition set_clauses (d : PreferenceData) (p : NotificationPreferenceRow) : NotificationPreferenceRow :=
  p <| np_channel_inapp := pd_channel_inapp d ?? np_channel_inapp p |>
    <| np_channel_email := pd_channel_email d ?? np_channel_email p |>
    <| np_channel_push := pd_channel_push d ?? np_channel_push p |>
    <| np_digest_mode := pd_digest_mode d ?? np_digest_mode p |>
    <| np_quiet_hours_start := pd_quiet_hours_start d ?? np_quiet_hours_start p |>
    <| np_quiet_hours_end := pd_quiet_hours_end d ?? np_quiet_hours_end p |>.

(** The INSERT gives the columns their defaults, whatever the data; the data
    is written when the row was there. *)
Definition upsertPreference (orgId userId eventType : string) (data : PreferenceData) : M NotificationPreferenceRow :=
  let* id := gen_random_uuid in
  let* t := now in
  upsert (preference_of orgId userId eventType)
    (mkNotificationPreferenceRow id orgId userId eventType true true false Realtime None None t t)
    (λ p, touch t (set_clauses data p)).

(** [ORDER BY event_type ASC]. *)
Definition event_le (p q : NotificationPreferenceRow) : Prop := String.leb (np_event_type p) (np_event_type q) = true.
#[export] Instance event_le_dec : RelDecision event_le.
Proof. intros p q. unfold event_le. apply _. Defined.

Definition listPreferences (orgId userId : string) : M (list NotificationPreferenceRow) :=
  let* l := select (λ p, (np_org_id p =? orgId)%string && (np_user_id p =? userId)%string) in
  ret (merge_sort event_le l).
End repository.
End NotificationRepository.

Module PreferenceService.
Section service.
Context `{Redis, Random}.

(** A synthetic row with the defaults, not written. *)
Definition default_preference (orgId userId eventType : string) (t : Z) : NotificationPreferenceRow :=
  mkNotificationPreferenceRow "" orgId userId eventType true true false Realtime None None t t.

Definition getOrDefault (orgId userId eventType : string) : M NotificationPreferenceRow :=
  let* existing := NotificationRepository.findPreference orgId userId eventType in
  match existing with
  | Some p => ret p
  | None => let* t := now in ret (default_preference orgId userId eventType t)
  end.

Definition updatePreference (orgId userId eventType : string) (data : PreferenceData) : M NotificationPreferenceRow :=
  NotificationRepository.upsertPreference orgId userId eventType data.

Definition listPreferences (orgId userId : string) : M (list NotificationPreferenceRow) :=
  NotificationRepository.listPreferences orgId userId.
End service.
End PreferenceService.

(** ** Quiet hours *)

(** [Number(s)] of a string of digits; [None] is [NaN]. *)
Fixpoint digits (s : string) (acc : Z) : option Z :=
  match s with
  | EmptyString => Some acc
  | String c s =>
      let n := Z.of_nat (nat_of_ascii c) in
      if (48 <=? n)%Z && (n <=? 57)%Z then digits s (acc * 10 + (n - 48))%Z else None
  end.

(** [h * 60 + m] of ["hh:mm.."]. *)
Definition minutes (s : string) : option Z :=
  match split_on ":" s with
  | h :: m :: _ =>
      match digits h 0, digits m 0 with
      | Some h, Some m => Some (h * 60 + m)%Z
      | _, _ => None
      end
  | _ => None
  end.

(** [a <= b] and [a < b] of numbers that may be [NaN]. *)
Definition js_le (a b : option Z) : bool := match a, b with Some a, Some b => (a <=? b)%Z | _, _ => false end.
Definition js_lt (a b : option Z) : bool := match a, b with Some a, Some b => (a <? b)%Z | _, _ => false end.

(** [nowMinutes]: the minutes of the day in the time zone of the server. *)
Definition isInQuietHours (start end_ : option string) (nowMinutes : Z) : bool :=
  match start, end_ with
  | Some s, Some e =>
      if negb (truthy s) || negb (truthy e) then false
      else
        let startMinutes := minutes s in
        let endMinutes := minutes e in
        if js_le startMinutes endMinutes then
          js_le startMinutes (Some nowMinutes) && js_lt (Some nowMinutes) endMinutes
        else js_le startMinutes (Some nowMinutes) || js_lt (Some nowMinutes) endMinutes
  | _, _ => false
  end.

(** ** The notification worker *)

Record CreateNotificationJobData := mkCreateNotificationJobData {
  nj_eventType : string;
  nj_orgId : string;
  nj_entityType : string;
  nj_entityId : string;
  nj_actorUserId : option string;
  nj_targetUserIds : list string;
  nj_payload : json
}.

Module NotificationWorker.
Section worker.
(** [getHours() * 60 + getMinutes()] of a time, on the server. *)
Context `{Redis, Random} (local_minutes : Z → Z).

Definition SUBSCRIBED_EVENT_TYPES : list string :=
  ["task.assigned"; "task.updated"; "task.status_changed"; "task.commented"; "task.mentioned"; "comment.created";
   "mention.created"; "message.received"; "message.created"]%string.

(** The data of the job [send-notification-email]. *)
Definition email_data (job : CreateNotificationJobData) (userId : string) : json :=
  JObj [("orgId", JStr (nj_orgId job)); ("userId", JStr userId); ("eventType", JStr (nj_eventType job));
        ("entityType", JStr (nj_entityType job)); ("entityId", JStr (nj_entityId job));
        ("actorUserId", jopt (nj_actorUserId job)); ("payload", nj_payload job)].

(** [actorUserId && userId === actorUserId]. *)
Definition is_actor (job : CreateNotificationJobData) (userId : string) : bool :=
  match nj_actorUserId job with Some a => truthy a && (userId =? a)%string | None => false end.

(** The body of the loop over the targets. *)
Definition notify (job : CreateNotificationJobData) (t : Z) (userId : string) : M unit :=
  if is_actor job userId then ret tt
  else
  let* pref := PreferenceService.getOrDefault (nj_orgId job) userId (nj_eventType job) in
  if isInQuietHours (np_quiet_hours_start pref) (np_quiet_hours_end pref) (local_minutes t) then ret tt
  else
  (if np_channel_inapp pref then
     catch
       (let* _ := NotificationRepository.create
          (mkCreateNotificationData (nj_orgId job) userId (nj_eventType job) (nj_entityType job) (nj_entityId job)
             (nj_actorUserId job) (Some (nj_payload job))) in
        ret tt)
       (λ _, ret tt)
   else ret tt) ;;;
  if np_channel_email pref && bool_decide (np_digest_mode pref = Realtime) then
    enqueue "emails" "send-notification-email" (email_data job userId)
  else ret tt.

Definition notificationWorkerJob (job : CreateNotificationJobData) : M unit :=
  if negb (includes SUBSCRIBED_EVENT_TYPES (nj_eventType job)) then ret tt
  else
  let* t := now in
  for_each (nj_targetUserIds job) (notify job t).
End worker.
End NotificationWorker.

(** ** Email *)

(** The answer of a provider to the n-th thing that left the process, and
    what Handlebars and MJML make of a template: its HTML and text, or none
    when there is no such template. *)
Class Mailer := {
  provider_accepts : nat → Outgoing → bool;
  render : string → json → option (string * string);
}.

Record SendNotificationEmailJobData := mkSendNotificationEmailJobData {
  em_userId : string;
  em_eventType : string;
  em_entityId : string;
  em_payload : json
}.

Module EmailService.
Section service.
(** [config.emailProvider]. *)
Context `{Redis, Mailer} (emailProvider : string).

(** [buildProviders]: the primary and the secondary provider. *)
Definition buildProviders : string * option string :=
  if (emailProvider =? "smtp")%string then ("smtp", None)
  else if (emailProvider =? "ses")%string then ("ses", Some "sendgrid")
  else ("sendgrid", Some "ses")%string.

Definition provider_send (provider to subject html text : string) : M unit := λ w,
  let mail := EmailTo provider to subject html text in
  (if provider_accepts (length (outgoing w)) mail then Ok tt else Throw (PlainError "email provider failed"),
   w <| outgoing := outgoing w ++ [mail] |>).

Definition sendEmail (to subject html text : string) : M unit :=
  let '(primary, secondary) := buildProviders in
  catch (provider_send primary to subject html text)
    (λ err, match secondary with
            | None => throw err
            | Some s => provider_send s to subject html text
            end).

Definition sendTemplateEmail (to subject templateName : string) (data : json) : M unit :=
  match render templateName data with
  | None => throw (PlainError ("Email template not found: " +:+ templateName))
  | Some (html, text) => sendEmail to subject html text
  end.
End service.
End EmailService.

Module EmailWorker.
Section worker.
Context `{Redis, Mailer} (emailProvider : string).

Definition IDEMPOTENCY_TTL : Z := 86400.

Definition EVENT_TEMPLATE_MAP (eventType : string) : option (string * string) :=
  if (eventType =? "task.assigned")%string then Some ("task-assigned", "A task has been assigned to you")%string
  else if (eventType =? "mention.created")%string then Some ("mention", "You were mentioned")%string
  else if (eventType =? "invitation.created")%string then Some ("invitation", "You've been invited")%string
  else if (eventType =? "org.suspended")%string then Some ("org-suspended", "Your organization has been suspended")%string
  else None.

Definition idempotency_key (job : SendNotificationEmailJobData) : string :=
  "email:sent:" +:+ em_userId job +:+ ":" +:+ em_eventType job +:+ ":" +:+ em_entityId job.

Definition emailWorkerJob (job : SendNotificationEmailJobData) : M unit :=
  let* already := rget (idempotency_key job) in
  match already with
  | Some _ => ret tt
  | None =>
      match EVENT_TEMPLATE_MAP (em_eventType job) with
      | None => ret tt
      | Some (template, subject) =>
          match jstr "recipientEmail" (em_payload job) with
          | None => ret tt
          | Some recipientEmail =>
              if negb (truthy recipientEmail) then ret tt
              else
                EmailService.sendTemplateEmail emailProvider recipientEmail subject template (em_payload job) ;;;
                rset (idempotency_key job) (RText "1") (Some IDEMPOTENCY_TTL)
          end
      end
  end.
End worker.
End EmailWorker.

(** ** The daily digest *)

Record SendUserDigestJobData := mkSendUserDigestJobData {
  sd_userId : string;
  sd_email : string;
  sd_name : string
}.

Module DigestWorker.
Section worker.
Context `{Redis, Random, Mailer}.

Definition digest_key (userId : string) (t : Z) : string := "digest:" +:+ userId +:+ ":" +:+ iso_date t.

(** The newest fifty notifications of the last day that no digest has
    shown. *)
Definition pending_digest (userId : string) (t : Z) (n : NotificationRow) : bool :=
  (n_user_id n =? userId)%string && (t - 24 * 60 * 60 * 1000 <? n_created_at n)%Z && is_null (n_digest_sent_at n).

Definition digest_rows (userId : string) (t : Z) : M (list NotificationRow) :=
  let* l := select (pending_digest userId t) in ret (take 50 (rev l)).

(** The object of the HTML and text is what the job carries as its [html]. *)
Definition runSendUserDigestJob (data : SendUserDigestJobData) : M unit :=
  let* t := now in
  let idempotencyKey := digest_key (sd_userId data) t in
  let* already := rget idempotencyKey in
  match already with
  | Some _ => ret tt
  | None =>
      let* rows := digest_rows (sd_userId data) t in
      match rows with
      | [] => rset idempotencyKey (RText "1") (Some 86400%Z)
      | _ :: _ =>
          match render "daily-digest" (JObj [("name", JStr (sd_name data)); ("notifications", JArr (notification_json <$> rows));
                                             ("date", JStr (iso_date t))]) with
          | None => throw (PlainError "Email template not found: daily-digest")
          | Some (html, text) =>
              enqueue "emails" "send-daily-digest"
                (JObj [("to", JStr (sd_email data)); ("subject", JStr ("Your daily digest — " +:+ iso_date t));
                       ("html", JObj [("html", JStr html); ("text", JStr text)]); ("userId", JStr (sd_userId data))]) ;;;
              let* _ := update_where (λ n, includes (n_id <$> rows) (n_id n)) (λ n, n <| n_digest_sent_at := Some t |>) in
              rset idempotencyKey (RText "1") (Some 86400%Z)
          end
      end
  end.
End worker.
End DigestWorker.

(** ** Push *)

Record PushSubscriptionData := mkPushSubscriptionData {
  pu_endpoint : string;
  pu_p256dh : string;
  pu_auth : string
}.

(** [webpush.sendNotification]: none, or the status code of its error. *)
Class WebPush := push_answer : nat → Outgoing → option Z.

Module PushService.
Section service.
Context `{Redis, Random, WebPush}.

(** [UNIQUE(user_id, endpoint)]. *)
Definition subscription_of (userId endpoint : string) (r : PushSubscriptionRow) : bool :=
  (ps_user_id r =? userId)%string && (ps_endpoint r =? endpoint)%string.

Definition saveSubscription (userId orgId : string) (sub : PushSubscriptionData) : M unit :=
  let* id := gen_random_uuid in
  let* t := now in
  let* _ := upsert (subscription_of userId (pu_endpoint sub))
    (mkPushSubscriptionRow id userId orgId (pu_endpoint sub) (pu_p256dh sub) (pu_auth sub) t)
    (λ r, r <| ps_p256dh := pu_p256dh sub |> <| ps_auth := pu_auth sub |>) in
  ret tt.

Definition removeSubscription (userId endpoint : string) : M unit :=
  let* _ := delete_where (subscription_of userId endpoint) in ret tt.

(** One row of [Promise.all]; an endpoint that is gone is deleted for every
    user. *)
Definition push_to (payload : json) (row : PushSubscriptionRow) : M unit :=
  let* failed := (λ w,
    let p := PushTo (ps_endpoint row) (ps_p256dh row) (ps_auth row) payload in
    (Ok (push_answer (length (outgoing w)) p), w <| outgoing := outgoing w ++ [p] |>)) in
  match failed with
  | Some status =>
      if (status =? 410)%Z then
        let* _ := delete_where (λ r, (ps_endpoint r =? ps_endpoint row)%string) in ret tt
      else ret tt
  | None => ret tt
  end.

Definition sendPush (userId : string) (payload : json) : M unit :=
  let* rows := select (λ r, (ps_user_id r =? userId)%string) in
  for_each rows (push_to payload).
End service.
End PushService.

(** ** The link in an email *)

Section unsubscribe.
Context `{Redis, Random, Config, Crypto}.

(** The route [/notifications/unsubscribe]. *)
Definition unsubscribe_token (userId orgId eventType : string) : string :=
  hmac (userId +:+ ":" +:+ orgId +:+ ":" +:+ eventType) inviteSecret.

Definition unsubscribe (token userId orgId eventType : string) : M string :=
  if negb (String.eqb token (unsubscribe_token userId orgId eventType)) then
    throw (AppError 400 "INVALID_UNSUBSCRIBE_TOKEN" "Invalid or expired unsubscribe link" None)
  else
    let* _ := PreferenceService.updatePreference orgId userId eventType
      (mkPreferenceData None (Some false) None None None None) in
    ret ("Unsubscribed from " +:+ eventType +:+ " emails").
End unsubscribe.

(** ** The queue [notifications]

    Two workers are registered on it, and BullMQ gives a job to either: the
    notification worker runs its job whatever the name is, the digest worker
    returns on the names it does not know. *)
Inductive queued :=
  | CreateNotification (data : CreateNotificationJobData)
  | SendUserDigest (data : SendUserDigestJobData).

Section queue.
Context `{Redis, Random, Mailer} (local_minutes : Z → Z).

(** A digest's data has no [eventType]. *)
Definition startNotificationWorker (job : queued) : M unit :=
  match job with
  | CreateNotification data => NotificationWorker.notificationWorkerJob local_minutes data
  | SendUserDigest _ => ret tt
  end.

Definition startDigestWorker (job : queued) : M unit :=
  match job with
  | CreateNotification _ => ret tt
  | SendUserDigest data => DigestWorker.runSendUserDigestJob data
  end.
End queue.

(** ** Who is notified *)


Section notified.
Context `{Redis, Random} (local_minutes : Z → Z).
Import NotificationWorker.













End notified.

Module NotificationProperties.
Section theorems.
Context `{Redis, Random, Mailer} (local_minutes : Z → Z).
Import NotificationWorker.

End theorems.
End NotificationProperties.

(** ** Once a day *)

Section once.
Context `{Redis, !RedisLaws _, Random, Mailer}.

(** A digest job that did its work, sending or finding nothing to send, is
    not repeated that day, whatever notifications arrive. *)
Lemma digest_once_a_day data w w1 w2 :
  DigestWorker.runSendUserDigestJob data w = (Ok tt, w1) →
  redis_get (redis w) (clock w) (DigestWorker.digest_key (sd_userId data) (clock w)) = None →
  redis w2 = redis w1 → redis_up w2 = true →
  (clock w / 86400000 = clock w2 / 86400000)%Z → (clock w ≤ clock w2)%Z →
  DigestWorker.runSendUserDigestJob data w2 = (Ok tt, w2).
Proof.
  intros Hrun Hg Er Hu Hday Hle.
  assert (DigestWorker.digest_key (sd_userId data) (clock w2) = DigestWorker.digest_key (sd_userId data) (clock w)) as Ek.
  { unfold DigestWorker.digest_key, iso_date. by rewrite Hday. }
  set (k := DigestWorker.digest_key (sd_userId data) (clock w)) in *.
  assert (redis w1 = redis_set (redis w) (clock w) k (RText "1") (Some 86400%Z)) as Hset.
  { revert Hrun. unfold DigestWorker.runSendUserDigestJob, bind, now, rget. fold k. rewrite Hg.
    destruct (redis_up w) eqn:Eu; [|done].
    unfold DigestWorker.digest_rows, bind, select, ret.
    destruct (take 50 _) as [|r rs]; [unfold rset; rewrite Eu; cbn; by intros [= <-]|].
    destruct (render _ _) as [[html text]|]; [|done]. unfold enqueue, enqueue_in, rset. rewrite Eu. cbn.
    rewrite Eu. by intros [= <-]. }
  unfold DigestWorker.runSendUserDigestJob, bind at 1, now. unfold bind at 1, rget. rewrite Hu, Ek, Er, Hset.
  rewrite redis_get_set_live; [done|done|].
  pose proof (Z_div_mod_eq_full (clock w) 86400000). pose proof (Z_div_mod_eq_full (clock w2) 86400000).
  pose proof (Z.mod_pos_bound (clock w) 86400000 eq_refl). pose proof (Z.mod_pos_bound (clock w2) 86400000 eq_refl). lia.
Qed.

(** An email that left is not sent again for a day. *)
Lemma email_once_a_day provider job w w1 w2 :
  EmailWorker.emailWorkerJob provider job w = (Ok tt, w1) → outgoing w1 ≠ outgoing w →
  redis w2 = redis w1 → redis_up w2 = true → (clock w ≤ clock w2 < clock w + 86400000)%Z →
  EmailWorker.emailWorkerJob provider job w2 = (Ok tt, w2).
Proof.
  intros Hrun Hout Er Hu Hle. revert Hrun. unfold EmailWorker.emailWorkerJob, bind at 1, rget.
  destruct (redis_up w) eqn:Eu; [|done]. set (k := EmailWorker.idempotency_key job).
  destruct (redis_get (redis w) (clock w) k); [by intros [= <-]|].
  destruct (EmailWorker.EVENT_TEMPLATE_MAP _) as [[template subject]|]; [|by intros [= <-]].
  destruct (jstr "recipientEmail" _) as [to|]; [|by intros [= <-]]. destruct (truthy to); [|by intros [= <-]]. cbn [negb].
  intros ([] & w' & Hs & Hset)%bind_ok. revert Hset. unfold rset.
  assert (redis w' = redis w ∧ clock w' = clock w) as [Er' Ec'].
  { revert Hs. unfold EmailService.sendTemplateEmail. destruct (render _ _) as [[html text]|]; [|done].
    unfold EmailService.sendEmail. destruct (EmailService.buildProviders provider) as [p [s|]];
      unfold catch, EmailService.provider_send, throw; repeat case_match; intros; simplify_eq; done. }
  destruct (redis_up w'); [|done]. cbn. intros [= <-]. cbn in Er. unfold bind, rget. rewrite Hu, Er, Er', Ec'.
  by rewrite redis_get_set_live by (unfold EmailWorker.IDEMPOTENCY_TTL; lia).
Qed.

(** Quiet hours that wrap midnight are the complement of the hours between
    their end and their start. *)
Lemma quiet_hours_wrap s e ms me t :
  minutes s = Some ms → minutes e = Some me → truthy s = true → truthy e = true → (me < ms)%Z →
  isInQuietHours (Some s) (Some e) t = negb (isInQuietHours (Some e) (Some s) t).
Proof.
  intros Hs He Ts Te Hlt. unfold isInQuietHours. rewrite Ts, Te, Hs, He. cbn.
  rewrite (proj2 (Z.leb_gt ms me)), (proj2 (Z.leb_le me ms)) by lia.
  destruct (Z.leb_spec ms t), (Z.ltb_spec t me), (Z.leb_spec me t), (Z.ltb_spec t ms); first [done|lia].
Qed.
End once.

Module NotificationExamples.
Import Concrete.

#[local] Instance small_mailer : Mailer := {|
  provider_accepts n _ := negb (Nat.eqb n 0);
  render t _ := if (t =? "mention")%string then Some ("<p>", "")%string else if (t =? "daily-digest")%string then Some ("<p>", "")%string else None
|}.

(** A server whose clock is in UTC. *)
Definition utc_minutes (t : Z) : Z := (t / 60000) mod 1440.

Example dates : (iso_date 0, iso_date 951782400000, iso_date 1735689599999) =
  ("1970-01-01", "2000-02-29", "2024-12-31")%string.
Proof. vm_compute. reflexivity. Qed.

Definition prefs : World :=
  let set u d := (PreferenceService.updatePreference "org1" u "mention.created" d ;;;
                  PreferenceService.updatePreference "org1" u "mention.created" d) in
  let w := empty_world 79200000 in
  let w := (set "sleeper" (mkPreferenceData None None None None (Some (Some "21:30:00")) (Some (Some "07:00:00"))) w).2 in
  let w := (set "digester" (mkPreferenceData None None None (Some DailyDigest) None None) w).2 in
  (set "quiet" (mkPreferenceData (Some false) (Some false) None None None None) w).2.

(** The first update of a preference only creates the row with its
    defaults. *)
Example first_update_ignored :
  let w := (PreferenceService.updatePreference "org1" "u" "mention.created"
              (mkPreferenceData None (Some false) None None None None) (empty_world 0)).2 in
  np_channel_email <$> notification_preferences (db w) = [true].
Proof. vm_compute. reflexivity. Qed.

(** So the link of an email unsubscribes nobody the first time. *)
Example unsubscribe_ignored :
  let w := (unsubscribe (unsubscribe_token "u" "org1" "mention.created") "u" "org1" "mention.created" (empty_world 0)).2 in
  np_channel_email <$> notification_preferences (db w) = [true].
Proof. vm_compute. reflexivity. Qed.

Definition mention : CreateNotificationJobData :=
  mkCreateNotificationJobData "mention.created" "org1" "comment" "c1" (Some "actor"%string)
    ["actor"; "plain"; "sleeper"; "digester"; "quiet"]%string (JObj [("taskId", JStr "t1")]).

Example mention_notifies :
  let w := (startNotificationWorker utc_minutes (CreateNotification mention) prefs).2 in
  (n_user_id <$> notifications (db w), length (jobs w)) = (["plain"; "digester"]%string, 1).
Proof. vm_compute. reflexivity. Qed.

(** The digest's email is a job of another shape than the worker of the
    queue [emails] expects: it has no event type, and is dropped. *)
Example digest_email_dropped :
  let w := (startDigestWorker (SendUserDigest (mkSendUserDigestJobData "digester" "d@x.org" "D"))
              (startNotificationWorker utc_minutes (CreateNotification mention) prefs).2).2 in
  j_name <$> jobs w = ["send-notification-email"; "send-daily-digest"]%string ∧
  (EmailWorker.emailWorkerJob "ses" (mkSendNotificationEmailJobData "digester" "" "" (JObj [])) w).1 = Ok tt ∧
  outgoing (EmailWorker.emailWorkerJob "ses" (mkSendNotificationEmailJobData "digester" "" "" (JObj [])) w).2 = [].
Proof. vm_compute. done. Qed.

(** The secondary provider sends what the primary refused. *)
Example fallback_provider :
  let w := (EmailWorker.emailWorkerJob "ses" (mkSendNotificationEmailJobData "u" "mention.created" "c1"
              (JObj [("recipientEmail", JStr "u@x.org")])) (empty_world 0)).2 in
  (λ o, match o with EmailTo p _ _ _ _ => p | _ => ""%string end) <$> outgoing w = ["ses"; "sendgrid"]%string.
Proof. vm_compute. reflexivity. Qed.

End NotificationExamples.
