(* ===== verification/Collaboration.v ===== *)
(** * Collaboration: workspaces, comments and mentions, templates, recurring tasks

    [modules/workspace], and [comment.service.ts], [mention.service.ts],
    [template.service.ts] and [workers/recurring-task.worker.ts] of
    [modules/task]. *)
From S2P Require Import Prelude Schema World Crypto Concrete OrgRepo TaskRepo.
From Stdlib Require Import ZArith Lia Ascii.
From stdpp Require Import base tactics strings gmap list.

Record CreateWorkspaceData := mkCreateWorkspaceData {
  cws_org_id : string;
  cws_name : string;
  cws_description : option string;
  cws_owner_user_id : string
}.

(** [None] is [undefined]. *)
Record UpdateWorkspaceData := mkUpdateWorkspaceData {
  uws_name : option string;
  uws_description : option (option string);
  uws_status : option workspace_status
}.

Definition workspace_status_str (s : workspace_status) : string :=
  match s with WsActive => "active" | WsArchived => "archived" end.

Module WorkspaceRepository.
Section repository.
Context `{Redis, Random}.

Definition live_id (id : string) (r : WorkspaceRow) : bool := (ws_id r =? id)%string && is_null (ws_deleted_at r).

Definition findById (id : string) : M (option WorkspaceRow) := select_one (live_id id).

(** [ORDER BY created_at ASC]: the order of the rows. *)
Definition findByOrg (orgId : string) : M (list WorkspaceRow) :=
  select (λ r, (ws_org_id r =? orgId)%string && is_null (ws_deleted_at r)).

Definition create (data : CreateWorkspaceData) : M WorkspaceRow :=
  let* id := gen_random_uuid in
  let* t := now in
  let row := mkWorkspaceRow id (cws_org_id data) (cws_name data) (cws_description data) WsActive
    (cws_owner_user_id data) None t t 1 in
  insert_row row ;;; ret row.

Definition set_clauses (data : UpdateWorkspaceData) (r : WorkspaceRow) : WorkspaceRow :=
  r <| ws_name := uws_name data ?? ws_name r |>
    <| ws_description := uws_description data ?? ws_description r |>
    <| ws_status := uws_status data ?? ws_status r |>
    <| ws_version := (ws_version r + 1)%Z |>.

Definition no_clauses (data : UpdateWorkspaceData) : bool :=
  is_null (uws_name data) && is_null (uws_description data) && is_null (uws_status data).

Definition at_version (orgId id : string) (expectedVersion : Z) (r : WorkspaceRow) : bool :=
  (ws_org_id r =? orgId)%string && (ws_id r =? id)%string && (ws_version r =? expectedVersion)%Z && is_null (ws_deleted_at r).

(** Without a field to set it only looks the workspace up. *)
Definition update (orgId id : string) (data : UpdateWorkspaceData) (expectedVersion : Z) : M (option WorkspaceRow) :=
  if no_clauses data then findById id
  else
    let* rs := update_touch (at_version orgId id expectedVersion) (set_clauses data) in
    ret (head rs).

Definition softDelete (orgId id : string) : M bool :=
  let* t := now in
  let* rs := update_touch (λ r, live_id id r && (ws_org_id r =? orgId)%string) (λ r, r <| ws_deleted_at := Some t |>) in
  ret (negb (Nat.eqb (length rs) 0)).

Definition task_in (orgId workspaceId : string) (r : TaskRow) : bool :=
  (t_workspace_id r =? workspaceId)%string && (t_org_id r =? orgId)%string && is_null (t_deleted_at r).
Definition board_in (orgId workspaceId : string) (r : BoardRow) : bool :=
  (bd_workspace_id r =? workspaceId)%string && (bd_org_id r =? orgId)%string && is_null (bd_deleted_at r).
Definition itself (orgId workspaceId : string) (r : WorkspaceRow) : bool :=
  (ws_id r =? workspaceId)%string && (ws_org_id r =? orgId)%string && is_null (ws_deleted_at r).

Definition cascadeSoftDelete (orgId workspaceId : string) : M unit :=
  withTransaction
    (let* t := now in
     let* _ := update_touch (task_in orgId workspaceId) (λ r, r <| t_deleted_at := Some t |>) in
     let* _ := update_where (board_in orgId workspaceId) (λ r, r <| bd_deleted_at := Some t |>) in
     let* _ := update_touch (itself orgId workspaceId) (λ r, r <| ws_deleted_at := Some t |>) in
     ret tt).
End repository.
End WorkspaceRepository.

Module WorkspaceService.
Section service.
Context `{Redis, Random}.

Definition writeOutboxEvent (eventType orgId entityId : string) (actorUserId : option string) (payload : json) : M unit :=
  World.writeOutboxEvent (Some orgId) eventType "workspace" entityId actorUserId payload.

Definition createWorkspace (userId : string) (data : CreateWorkspaceData) : M WorkspaceRow :=
  let* workspace := WorkspaceRepository.create data in
  writeOutboxEvent "workspace.created" (cws_org_id data) (ws_id workspace) (Some userId)
    (JObj [("workspaceId", JStr (ws_id workspace)); ("orgId", JStr (cws_org_id data)); ("name", JStr (ws_name workspace))]) ;;;
  ret workspace.

(** [!ws || ws.org_id !== orgId]. *)
Definition foreign (orgId : string) (ws : option WorkspaceRow) : bool :=
  match ws with Some ws => negb (ws_org_id ws =? orgId)%string | None => true end.

Definition getWorkspace (orgId workspaceId : string) : M WorkspaceRow :=
  let* ws := WorkspaceRepository.findById workspaceId in
  match ws with
  | Some row => if foreign orgId ws then throw (NotFoundError "Workspace") else ret row
  | None => throw (NotFoundError "Workspace")
  end.

Definition listWorkspaces (orgId : string) : M (list WorkspaceRow) := WorkspaceRepository.findByOrg orgId.

(** [changes: data], without the undefined fields. *)
Definition changes_json (data : UpdateWorkspaceData) : json :=
  JObj (match uws_name data with Some n => [("name"%string, JStr n)] | None => [] end ++
        match uws_description data with Some d => [("description"%string, jopt d)] | None => [] end ++
        match uws_status data with Some s => [("status"%string, JStr (workspace_status_str s))] | None => [] end).

Definition updateWorkspace (orgId workspaceId : string) (data : UpdateWorkspaceData) (expectedVersion : Z)
    (actorId : string) : M WorkspaceRow :=
  let* updated := WorkspaceRepository.update orgId workspaceId data expectedVersion in
  match updated with
  | None =>
      let* existing := WorkspaceRepository.findById workspaceId in
      if foreign orgId existing then throw (NotFoundError "Workspace")
      else throw (ConflictError "VERSION_CONFLICT" "Workspace was modified by another request")
  | Some updated =>
      writeOutboxEvent "workspace.updated" orgId workspaceId (Some actorId)
        (JObj [("workspaceId", JStr workspaceId); ("orgId", JStr orgId); ("changes", changes_json data)]) ;;;
      ret updated
  end.

Definition deleteWorkspace (orgId workspaceId actorId : string) : M unit :=
  let* existing := WorkspaceRepository.findById workspaceId in
  if foreign orgId existing then throw (NotFoundError "Workspace")
  else
  WorkspaceRepository.cascadeSoftDelete orgId workspaceId ;;;
  writeOutboxEvent "workspace.deleted" orgId workspaceId (Some actorId)
    (JObj [("workspaceId", JStr workspaceId); ("orgId", JStr orgId)]) ;;;
  persistAuditLog (Some orgId) (Some actorId) ActUser "workspace.deleted" (Some "workspace"%string) (Some workspaceId)
    (JObj [("workspaceId", JStr workspaceId); ("orgId", JStr orgId)]).
End service.
End WorkspaceService.

(** ** Templates *)

Record CreateTemplateInput := mkCreateTemplateInput {
  ti_name : string;
  ti_default_title : option string;
  ti_default_description : option json;
  ti_default_priority : option task_priority;
  ti_default_labels : option (list string)
}.

Module TemplateService.
Section service.
Context `{Redis, Random}.

Definition assertAdminOrOwner (orgId userId : string) : M unit :=
  let* membership := MembershipRepository.findMembership orgId userId in
  if match membership with
     | Some m => bool_decide (om_role m = OrgOwner) || bool_decide (om_role m = OrgAdmin)
     | None => false end
  then ret tt
  else throw (ForbiddenError "INSUFFICIENT_ROLE" "Only org admins or owners can manage templates").

Definition createTemplate (orgId userId : string) (input : CreateTemplateInput) : M TaskTemplateRow :=
  assertAdminOrOwner orgId userId ;;;
  let* id := gen_random_uuid in
  let* t := now in
  let row := mkTaskTemplateRow id orgId (ti_name input) (ti_default_title input) (ti_default_description input)
    (ti_default_priority input) (ti_default_labels input ?? []) userId None t in
  insert_row row ;;; ret row.

Definition listTemplates (orgId : string) : M (list TaskTemplateRow) :=
  select (λ r, (tt_org_id r =? orgId)%string && is_null (tt_deleted_at r)).

Definition live_template (orgId templateId : string) (r : TaskTemplateRow) : bool :=
  (tt_id r =? templateId)%string && (tt_org_id r =? orgId)%string && is_null (tt_deleted_at r).

Definition getTemplate (orgId templateId : string) : M TaskTemplateRow :=
  let* row := select_one (live_template orgId templateId) in
  match row with Some r => ret r | None => throw (NotFoundError "TaskTemplate") end.

Definition deleteTemplate (orgId templateId userId : string) : M unit :=
  assertAdminOrOwner orgId userId ;;;
  let* t := now in
  let* rs := update_where (live_template orgId templateId) (λ r, r <| tt_deleted_at := Some t |>) in
  match rs with [] => throw (NotFoundError "TaskTemplate") | _ :: _ => ret tt end.
End service.
End TemplateService.

(** ** Comments and mentions *)

Module MentionService.
Section service.
Context `{Redis, Random}.

(** [[a-zA-Z0-9_.-]]. *)
Definition handle_char (c : ascii) : bool :=
  let n := nat_of_ascii c in
  (Nat.leb 97 n && Nat.leb n 122) || (Nat.leb 65 n && Nat.leb n 90) || (Nat.leb 48 n && Nat.leb n 57) ||
  Nat.eqb n 95 || Nat.eqb n 46 || Nat.eqb n 45.

(** The matches of [/@([a-zA-Z0-9_.-]+)/g]: [run] is the handle read since
    the last [@], none outside of one. *)
Fixpoint scan (s : string) (run : option string) : list string :=
  let flush := match run with Some h => if truthy h then [h] else [] | None => [] end in
  match s with
  | EmptyString => flush
  | String c s =>
      if Ascii.eqb c "@" then flush ++ scan s (Some ""%string)
      else match run with
           | Some h => if handle_char c then scan s (Some (h +:+ String c "")) else flush ++ scan s None
           | None => scan s None
           end
  end.

Definition extractMentionHandles (body : json) : list string :=
  match jget "ops" body with
  | Some (JArr ops) =>
      dedup (concat ((λ op, match jget "insert" op with
                            | Some (JStr s) => toLowerCase <$> scan s None
                            | _ => [] end) <$> ops))
  | _ => []
  end.

(** [LOWER(REPLACE(name, ' ', ''))] and [LOWER(SPLIT_PART(email, '@', 1))]. *)
Fixpoint without_spaces (s : string) : string :=
  match s with
  | EmptyString => EmptyString
  | String c s => if Ascii.eqb c " " then without_spaces s else String c (without_spaces s)
  end.
Fixpoint local_part (s : string) : string :=
  match s with
  | EmptyString => EmptyString
  | String c s => if Ascii.eqb c "@" then EmptyString else String c (local_part s)
  end.

Definition answers_to (handle : string) (u : UserRow) : bool :=
  is_null (u_deleted_at u) &&
  ((toLowerCase (without_spaces (u_name u)) =? handle)%string || (toLowerCase (local_part (u_email u)) =? handle)%string).

Definition member_row (orgId userId : string) (m : MembershipRow) : bool :=
  (om_org_id m =? orgId)%string && (om_user_id m =? userId)%string && is_null (om_deleted_at m).

(** [users JOIN org_memberships .. LIMIT 1]: the first user, in the order of
    the rows, that answers to the handle and has a membership. *)
Definition find_member (d : DB) (orgId handle : string) : option UserRow :=
  List.find (λ u, answers_to handle u && existsb (member_row orgId (u_id u)) (org_memberships d)) (users d).

Definition mention_payload (orgId taskId commentId userId handle : string) : json :=
  JObj [("orgId", JStr orgId); ("taskId", JStr taskId); ("commentId", JStr commentId);
        ("mentionedUserId", JStr userId); ("handle", JStr handle)].

Fixpoint notify_handles (orgId taskId commentId authorId : string) (handles : list string) : M (list (string * string)) :=
  match handles with
  | [] => ret []
  | handle :: handles =>
      let* found := (λ w, (Ok (find_member (db w) orgId handle), w)) in
      match found with
      | None => notify_handles orgId taskId commentId authorId handles
      | Some u =>
          writeOutboxEvent (Some orgId) "mention.created" "comment" commentId (Some authorId)
            (mention_payload orgId taskId commentId (u_id u) handle) ;;;
          let* results := notify_handles orgId taskId commentId authorId handles in
          ret ((u_id u, handle) :: results)
      end
  end.

Definition parseAndCreate (orgId taskId commentId authorId : string) (body : json) : M (list (string * string)) :=
  notify_handles orgId taskId commentId authorId (extractMentionHandles body).
End service.
End MentionService.

Record CreateCommentInput := mkCreateCommentInput {
  ci_task_id : string;
  ci_body : json;
  ci_parent_comment_id : option string
}.

Module CommentService.
Section service.
Context `{Redis, Random}.

Definition live_comment (orgId id : string) (r : CommentRow) : bool :=
  (cm_id r =? id)%string && (cm_org_id r =? orgId)%string && is_null (cm_deleted_at r).

(** A parent that is given is a comment of the organization, and not a
    reply. *)
Definition check_parent (orgId : string) (parent_comment_id : option string) : M unit :=
  match parent_comment_id with
  | Some p =>
      if negb (truthy p) then ret tt
      else
        let* parent := select_one (live_comment orgId p) in
        match parent with
        | None => throw (NotFoundError "ParentComment")
        | Some parent =>
            if negb (is_null (cm_parent_comment_id parent)) then
              throw (AppError 422 "THREADING_DEPTH_EXCEEDED" "Comments can only be nested one level deep" None)
            else ret tt
        end
  | None => ret tt
  end.

(** [comments.task_id] references [tasks(id)]; the empty string is not a
    UUID. *)
Definition insert_comment (row : CommentRow) : M unit :=
  let* task := select_one (λ t, (t_id t =? cm_task_id row)%string) in
  if is_val (cm_parent_comment_id row) "" then throw invalid_uuid
  else if is_null task then throw foreign_key_violation
  else insert_row row.

Definition createComment (orgId authorId : string) (input : CreateCommentInput) : M CommentRow :=
  check_parent orgId (ci_parent_comment_id input) ;;;
  let* id := gen_random_uuid in
  let* t := now in
  let comment := mkCommentRow id orgId (ci_task_id input) authorId (ci_parent_comment_id input) (ci_body input)
    false None None t t in
  insert_comment comment ;;;
  writeOutboxEvent (Some orgId) "comment.created" "comment" (cm_id comment) (Some authorId)
    (JObj [("commentId", JStr (cm_id comment)); ("taskId", JStr (ci_task_id input)); ("orgId", JStr orgId)]) ;;;
  let* _ := MentionService.parseAndCreate orgId (ci_task_id input) (cm_id comment) authorId (ci_body input) in
  ret comment.

Definition listComments (orgId taskId : string) : M (list CommentRow) :=
  select (λ r, (cm_org_id r =? orgId)%string && (cm_task_id r =? taskId)%string && is_null (cm_deleted_at r)).

Definition deleteComment (orgId commentId userId : string) : M unit :=
  let* row := select_one (live_comment orgId commentId) in
  match row with
  | None => throw (NotFoundError "Comment")
  | Some row =>
      if negb (cm_author_id row =? userId)%string then
        throw (ForbiddenError "NOT_COMMENT_AUTHOR" "Only the comment author can delete this comment")
      else
        let* t := now in
        let* _ := update_touch (λ r, (cm_id r =? commentId)%string) (λ r, r <| cm_deleted_at := Some t |>) in
        ret tt
  end.
End service.
End CommentService.

(** ** Recurring tasks *)

(** [RRule.fromString(rule).after(now, false)]: none when the rule does not
    parse, [Some None] when there is no later occurrence. *)
Class RRule := rrule_after : string → Z → option (option Z).

Record RecurringTaskJobData := mkRecurringTaskJobData {
  rj_parentTaskId : string;
  rj_orgId : string
}.

Module RecurringTaskWorker.
Section worker.
Context `{Redis, Random, RRule}.

(** The date, in UTC, of a timestamp. *)
Definition day (t : Z) : Z := t / 86400000.

Definition child_on (parentTaskId : string) (d : Z) (t : TaskRow) : bool :=
  is_val (t_recurrence_parent_id t) parentTaskId &&
  match t_due_date t with Some due => (day due =? d)%Z | None => false end && is_null (t_deleted_at t).

Definition assign (newTaskId orgId : string) (parent : TaskRow) (userId : string) : M unit :=
  let* t := now in
  insert_or_ignore (λ a, (ta_task_id a =? newTaskId)%string && (ta_user_id a =? userId)%string)
    (mkTaskAssigneeRow newTaskId userId orgId t (t_creator_id parent)).

(** [idx_tasks_recurrence_dedup] is unique over the live children. *)
Definition spawn (orgId : string) (parent : TaskRow) (nextOccurrence : Z) : M unit :=
  let* assignees := select (λ a, (ta_task_id a =? t_id parent)%string) in
  let* newTaskId := gen_random_uuid in
  let* t := now in
  insert_unique (child_on (t_id parent) (day nextOccurrence))
    (mkTaskRow newTaskId orgId (t_workspace_id parent) None None 0 (t_title parent) (t_description parent) Todo
       (t_priority parent) (t_creator_id parent) (Some nextOccurrence) None false None (Some (t_id parent)) None [] 0
       None t t 1) ;;;
  for_each (ta_user_id <$> assignees) (assign newTaskId orgId parent) ;;;
  writeOutboxEvent (Some orgId) "task.created" "task" newTaskId None
    (JObj [("taskId", JStr newTaskId); ("parentTaskId", JStr (t_id parent)); ("orgId", JStr orgId)]).

Definition runRecurringTaskJob (data : RecurringTaskJobData) : M unit :=
  let* found := select_one (TaskRepository.live_id (rj_parentTaskId data)) in
  match found with
  | None => ret tt
  | Some parent =>
      if negb (t_is_recurring parent) || negb (otruthy (t_recurrence_rule parent)) then ret tt
      else
        let* t := now in
        match rrule_after (t_recurrence_rule parent ?? "") t with
        | Some (Some nextOccurrence) =>
            let* existing := select (child_on (t_id parent) (day nextOccurrence)) in
            match existing with
            | _ :: _ => ret tt
            | [] => spawn (rj_orgId data) parent nextOccurrence
            end
        | _ => ret tt
        end
  end.
End worker.
End RecurringTaskWorker.

(** ** Workspaces: versions and the cascade *)

Section workspaces.
Context `{Redis, Random}.
Import WorkspaceRepository.

(** A workspace is deleted with its live tasks and boards, and nothing else
    is: not the ones of other workspaces or organizations, nor what was
    deleted before. *)
Lemma deleteWorkspace_cascades orgId workspaceId actorId ws w :
  List.find (live_id workspaceId) (workspaces (db w)) = Some ws → ws_org_id ws = orgId →
  ∃ w', WorkspaceService.deleteWorkspace orgId workspaceId actorId w = (Ok tt, w') ∧
    tasks (db w') = upd_where (task_in orgId workspaceId)
      (λ r, r <| t_deleted_at := Some (clock w) |> <| t_updated_at := clock w |>) (tasks (db w)) ∧
    boards (db w') = upd_where (board_in orgId workspaceId) (λ r, r <| bd_deleted_at := Some (clock w) |>) (boards (db w)) ∧
    workspaces (db w') = upd_where (itself orgId workspaceId)
      (λ r, r <| ws_deleted_at := Some (clock w) |> <| ws_updated_at := clock w |>) (workspaces (db w)) ∧
    (WorkspaceService.getWorkspace orgId workspaceId w').1 = Throw (NotFoundError "Workspace").
Proof.
  intros Hf Ho. unfold WorkspaceService.deleteWorkspace, WorkspaceRepository.findById, bind, select_one. tables.
  rewrite Hf. cbn [WorkspaceService.foreign]. rewrite Ho, String.eqb_refl. cbn [negb].
  unfold cascadeSoftDelete, withTransaction, WorkspaceService.writeOutboxEvent, writeOutboxEvent, persistAuditLog, update_touch,
    update_where, bind, now, gen_random_uuid, insert_row, ret. cbn.
  eexists. split; [reflexivity|]. cbn. tables. cbn. split; [done|]. split; [done|]. split; [done|].
  unfold WorkspaceService.getWorkspace, WorkspaceRepository.findById, bind, select_one. tables. cbn.
  clear Hf. destruct (List.find (live_id workspaceId) _) as [r|] eqn:Ef'; [|done].
  apply find_some_elem in Ef' as [Hr Hlive]. cbn [WorkspaceService.foreign].
  destruct (String.eqb_spec (ws_org_id r) orgId) as [Eo|]; [|reflexivity]. exfalso.
  apply elem_of_upd_where in Hr as (r0 & _ & [[Hin ->]|[Hin ->]]).
  - unfold live_id in Hlive. cbn in Hlive. by rewrite andb_false_r in Hlive.
  - unfold live_id in Hlive. unfold itself in Hin. apply andb_true_iff in Hlive as [E1 E2].
    by rewrite E1, E2, Eo, String.eqb_refl in Hin.
Qed.

(** A change is accepted at the version it was read at, which it uses up. *)
Lemma updateWorkspace_version orgId workspaceId data v actorId ws w :
  NoDup (ws_id <$> workspaces (db w)) → no_clauses data = false →
  List.find (live_id workspaceId) (workspaces (db w)) = Some ws → ws_org_id ws = orgId →
  (ws_version ws = v → ∃ w', WorkspaceService.updateWorkspace orgId workspaceId data v actorId w
      = (Ok (touch (clock w) (set_clauses data ws)), w')) ∧
  (ws_version ws ≠ v → WorkspaceService.updateWorkspace orgId workspaceId data v actorId w
      = (Throw (ConflictError "VERSION_CONFLICT" "Workspace was modified by another request"), w)).
Proof.
  intros Hnd Hn Hf Ho. pose proof (find_some_elem _ _ _ Hf) as [Hin Hlive].
  apply andb_true_iff in Hlive as [Eid Edel].
  unfold WorkspaceService.updateWorkspace, update. rewrite Hn. unfold update_touch, bind, now, update_where. tables. split.
  - intros Hv. assert (at_version orgId workspaceId v ws = true) as Hat.
    { unfold at_version. by rewrite Ho, Hv, Eid, Edel, String.eqb_refl, Z.eqb_refl. }
    unfold ret_where. assert (head (List.filter (at_version orgId workspaceId v) (workspaces (db w))) = Some ws) as Hh.
    { change head with (@hd_error WorkspaceRow). rewrite hd_filter_find.
      rewrite (NoDup_fmap_find ws_id _ _ ws Hnd Hin Hat); [done|]. intros r' _ Hr'. unfold at_version in Hr'.
      rewrite !andb_true_iff, !String.eqb_eq in Hr'. apply String.eqb_eq in Eid. naive_solver. }
    destruct (List.filter _ _) as [|x l]; [done|]. cbn in Hh. injection Hh as ->. cbn. eexists. reflexivity.
  - intros Hv.
    assert (List.filter (at_version orgId workspaceId v) (workspaces (db w)) = []) as Hnone.
    { apply filter_nil_iff. intros r Hr. unfold at_version. destruct (ws_id r =? workspaceId)%string eqn:E; [|by rewrite andb_false_r].
      apply String.eqb_eq in E, Eid. assert (r = ws) as -> by (eapply (NoDup_fmap_elem ws_id); eauto; congruence).
      rewrite (proj2 (Z.eqb_neq _ _) Hv). by rewrite andb_false_r. }
    unfold ret_where. rewrite Hnone. cbn. rewrite upd_where_none by (by apply filter_nil_iff). 
    unfold findById, bind, select_one. tables. cbn. rewrite Hf. cbn. rewrite Ho, String.eqb_refl. cbn. by destruct w as [[]].
Qed.
End workspaces.

(** ** Mentions and threads *)

Section comments.
Context `{Redis, Random}.
Import CommentService MentionService.

(** Every handle that a member answers to is reported once, to that member;
    the others are dropped. *)
Lemma parseAndCreate_run orgId taskId commentId authorId body w :
  ∃ w', parseAndCreate orgId taskId commentId authorId body w =
    (Ok (omap (λ h, (λ u, (u_id u, h)) <$> find_member (db w) orgId h) (extractMentionHandles body)), w') ∧
  users (db w') = users (db w) ∧ org_memberships (db w') = org_memberships (db w) ∧ comments (db w') = comments (db w) ∧
  (ob_payload <$> outbox_events (db w')) = (ob_payload <$> outbox_events (db w)) ++
    omap (λ h, (λ u, mention_payload orgId taskId commentId (u_id u) h) <$> find_member (db w) orgId h) (extractMentionHandles body).
Proof.
  unfold parseAndCreate. generalize (extractMentionHandles body) as hs. intros hs. revert w.
  induction hs as [|h hs IH]; intros w; [exists w; cbn; by rewrite app_nil_r|].
  cbn [notify_handles omap list_omap]. unfold bind at 1. destruct (find_member (db w) orgId h) as [u|] eqn:Ef; cbn [fmap option_fmap option_map].
  - unfold writeOutboxEvent, bind, gen_random_uuid, now, insert_row.
    match goal with |- context [notify_handles _ _ _ _ hs ?w0] => set (w1 := w0) end.
    destruct (IH w1) as (w' & -> & E1 & E2 & E3 & E4). exists w'.
    assert (ob_payload <$> outbox_events (db w1) =
      (ob_payload <$> outbox_events (db w)) ++ [mention_payload orgId taskId commentId (u_id u) h]) as Eo.
    { subst w1. cbn. tables. cbn. by rewrite fmap_app. }
    rewrite Eo, <- app_assoc in E4. split; [done|]. split; [exact E1|]. split; [exact E2|]. split; [exact E3|exact E4].
  - apply IH.
Qed.

(** A reply answers a comment that is not a reply. *)
Definition flat (l : list CommentRow) : Prop :=
  ∀ r p, r ∈ l → cm_parent_comment_id r = Some p →
    ∃ r0, r0 ∈ l ∧ cm_id r0 = p ∧ cm_org_id r0 = cm_org_id r ∧ cm_parent_comment_id r0 = None.

Lemma flat_create orgId authorId input w :
  flat (comments (db w)) → flat (comments (db (createComment orgId authorId input w).2)).
Proof.
  intros Hf. unfold createComment, bind at 1.
  assert (∀ r w', check_parent orgId (ci_parent_comment_id input) w = (r, w') → w' = w ∧
    (r = Ok tt → ∀ p, ci_parent_comment_id input = Some p → truthy p = true →
       ∃ r0, r0 ∈ comments (db w) ∧ cm_id r0 = p ∧ cm_org_id r0 = orgId ∧ cm_parent_comment_id r0 = None)) as Hcheck.
  { intros r w'. unfold check_parent. destruct (ci_parent_comment_id input) as [p|]; [|by intros [= <- <-]].
    destruct (truthy p) eqn:Et; cbn [negb]; [|intros [= <- <-]; split; [done|]; intros _ p' [= <-]; congruence].
    unfold bind, select_one. tables. destruct (List.find _ _) as [r0|] eqn:Ef; [|by intros [= <- <-]].
    apply find_some_elem in Ef as [Hr0 Hl]. unfold live_comment in Hl. rewrite !andb_true_iff, !String.eqb_eq in Hl.
    destruct (is_null (cm_parent_comment_id r0)) eqn:En; cbn [negb]; [|by intros [= <- <-]].
    intros [= <- <-]. split; [done|]. intros _ p' [= <-] _. exists r0. apply is_null_spec in En. naive_solver. }
  destruct (check_parent orgId (ci_parent_comment_id input) w) as [[[]|e] w1] eqn:Ec;
    destruct (Hcheck _ _ eq_refl) as [-> Hp]; [|done]. specialize (Hp eq_refl). clear Hcheck Ec.
  unfold bind, gen_random_uuid, now, insert_comment, bind, select_one. cbn [cm_parent_comment_id cm_task_id cm_id].
  destruct (is_val (ci_parent_comment_id input) "") eqn:Ev; [done|]. destruct (is_null _); [done|].
  unfold insert_row, writeOutboxEvent, bind, gen_random_uuid, now, insert_row.
  match goal with |- context [parseAndCreate ?o ?t ?c ?a ?b ?w1] => destruct (parseAndCreate_run o t c a b w1) as (w' & -> & _ & _ & E & _) end.
  cbn. rewrite E. cbn. tables. cbn. intros r p [Hr|Hr%list_elem_of_singleton]%elem_of_app Hrp.
  - destruct (Hf r p Hr Hrp) as (r0 & ? & ?). exists r0. split; [|done]. apply elem_of_app. by left.
  - subst r. cbn in Hrp |- *. destruct (Hp p Hrp) as (r0 & ? & ?); [rewrite Hrp in Ev; by destruct p|].
    exists r0. split; [|done]. apply elem_of_app. by left.
Qed.

Lemma flat_delete orgId commentId userId w :
  flat (comments (db w)) → flat (comments (db (deleteComment orgId commentId userId w).2)).
Proof.
  intros Hf. unfold deleteComment, bind, select_one. tables.
  destruct (List.find _ _) as [row|]; [|done]. destruct (_ =? _)%string; [|done]. cbn. tables. cbn.
  intros r p (r1 & Hr1 & Hc)%elem_of_upd_where Hp.
  assert (cm_parent_comment_id r1 = Some p ∧ cm_org_id r = cm_org_id r1) as [Hp1 Eo] by (destruct Hc as [[_ ->]|[_ ->]]; done).
  destruct (Hf r1 p Hr1 Hp1) as (r0 & Hr0 & E1 & E2 & E3).
  destruct (cm_id r0 =? commentId)%string eqn:E.
  - eexists. split; [apply elem_of_upd_where; exists r0; split; [done|]; left; by split|]. cbn. rewrite Eo. done.
  - eexists. split; [apply elem_of_upd_where; exists r0; split; [done|]; right; by split|]. cbn. rewrite Eo. done.
Qed.
End comments.

(** ** One task per occurrence *)

Section recurring.
Context `{Redis, Random, RRule}.
Import RecurringTaskWorker.

(** Copying the assignees of a task to another that has none. *)
Lemma assign_all newTaskId orgId parent us w :
  NoDup us → (∀ a u, a ∈ task_assignees (db w) → ta_task_id a = newTaskId → u ∈ us → ta_user_id a ≠ u) →
  ∃ w', for_each us (assign newTaskId orgId parent) w = (Ok tt, w') ∧
    task_assignees (db w') = task_assignees (db w) ++
      ((λ u, mkTaskAssigneeRow newTaskId u orgId (clock w) (t_creator_id parent)) <$> us) ∧
    tasks (db w') = tasks (db w) ∧ outbox_events (db w') = outbox_events (db w) ∧ draws w' = draws w ∧ clock w' = clock w.
Proof.
  revert w. induction us as [|u us IH]; intros w Hnd Hnew.
  - exists w. cbn. by rewrite app_nil_r.
  - apply NoDup_cons in Hnd as [Hu Hnd]. cbn [for_each].
    pose (w1 := w <| db := set_rows (task_assignees (db w) ++
      [mkTaskAssigneeRow newTaskId u orgId (clock w) (t_creator_id parent)]) (db w) |>).
    assert (assign newTaskId orgId parent u w = (Ok tt, w1)) as Ea.
    { unfold assign, bind, now, insert_or_ignore. tables. destruct (existsb _ _) eqn:Ex; [exfalso|done].
      apply existsb_exists in Ex as (a & Ha%list_elem_of_In & [Et Eu]%andb_true_iff).
      apply String.eqb_eq in Et, Eu. apply (Hnew a u Ha Et); [by left|done]. }
    unfold bind at 1. rewrite Ea.
    assert (task_assignees (db w1) = task_assignees (db w) ++ [mkTaskAssigneeRow newTaskId u orgId (clock w) (t_creator_id parent)]) as E by done.
    destruct (IH w1) as (w' & -> & E1 & E2 & E3 & E4 & E5); [done| |].
    { rewrite E. intros a v [Ha|Ha%list_elem_of_singleton]%elem_of_app Et Hv; [|subst a].
      - apply (Hnew a v); [done|done|by right].
      - cbn. by intros ->. }
    exists w'. rewrite E1, E, <- app_assoc. done.
Qed.

(** The task of the next occurrence: the parent's title, description,
    priority, workspace and creator, to do, at the top level, not recurring
    itself. *)
Definition occurrence_of (orgId : string) (parent : TaskRow) (n t : Z) (id : string) : TaskRow :=
  mkTaskRow id orgId (t_workspace_id parent) None None 0 (t_title parent) (t_description parent) Todo
    (t_priority parent) (t_creator_id parent) (Some n) None false None (Some (t_id parent)) None [] 0 None t t 1.

Definition assignees_of (id : string) (w : World) : list string :=
  ta_user_id <$> List.filter (λ a, (ta_task_id a =? id)%string) (task_assignees (db w)).

Lemma spawn_run orgId parent n w :
  existsb (child_on (t_id parent) (day n)) (tasks (db w)) = false →
  NoDup (assignees_of (t_id parent) w) → assignees_of (random_uuid (draws w)) w = [] →
  ∃ w', spawn orgId parent n w = (Ok tt, w') ∧
    tasks (db w') = tasks (db w) ++ [occurrence_of orgId parent n (clock w) (random_uuid (draws w))] ∧
    assignees_of (random_uuid (draws w)) w' = assignees_of (t_id parent) w ∧
    ∃ e, outbox_events (db w') = outbox_events (db w) ++ [e] ∧ ob_event_type e = "task.created"%string ∧
      ob_entity_id e = random_uuid (draws w).
Proof.
  intros Hne Hnd Hfresh. unfold spawn, bind at 1, select, bind at 1, gen_random_uuid, bind at 1, now, bind at 1, insert_unique.
  tables. cbn [db upd clock draws]. rewrite Hne. unfold insert_row. tables. fold (occurrence_of orgId parent n (clock w) (random_uuid (draws w))).
  unfold bind at 1.
  match goal with |- context [for_each _ _ ?w0] => set (w1 := w0) end. unfold assignees_of in Hnd.
  destruct (assign_all (random_uuid (draws w)) orgId parent _ w1 Hnd) as (w2 & -> & E1 & E2 & E3 & E4 & E5).
  { intros a u Ha Et _ _. unfold assignees_of in Hfresh. apply fmap_nil_inv in Hfresh. rewrite filter_nil_iff in Hfresh.
    specialize (Hfresh a Ha). by rewrite Et, String.eqb_refl in Hfresh. }
  unfold writeOutboxEvent, bind, gen_random_uuid, now, insert_row. eexists. split; [reflexivity|].
  unfold assignees_of in *. cbn. tables. cbn. rewrite E1, E2, E3. cbn. tables. cbn. split; [done|]. split; [|by eexists].
  rewrite List.filter_app, fmap_app. apply fmap_nil_inv in Hfresh. rewrite Hfresh. cbn.
  generalize (ta_user_id <$> List.filter (λ a, (ta_task_id a =? t_id parent)%string) (task_assignees (db w))) as us.
  induction us as [|u us IH]; cbn; [done|]. rewrite String.eqb_refl. cbn. by rewrite IH.
Qed.
End recurring.

Module RecurringProperties.
Section theorems.
Context `{Redis, Random, RRule}.
Import RecurringTaskWorker.

(** C33: completing a recurring task makes the task of the next occurrence,
    once.  The job creates exactly one task, due at the rule's next
    occurrence, with what it takes from its parent and with the parent's
    assignees, and announces it; run again, however often, while the next
    occurrence is the same day and the task is there, it does nothing. *)
Theorem recurring_task_spawns_once data parent n w :
  List.find (TaskRepository.live_id (rj_parentTaskId data)) (tasks (db w)) = Some parent →
  t_is_recurring parent = true → otruthy (t_recurrence_rule parent) = true →
  rrule_after (t_recurrence_rule parent ?? "") (clock w) = Some (Some n) →
  existsb (child_on (t_id parent) (day n)) (tasks (db w)) = false →
  NoDup (assignees_of (t_id parent) w) → assignees_of (random_uuid (draws w)) w = [] →
  ∃ w1, runRecurringTaskJob data w = (Ok tt, w1) ∧
    tasks (db w1) = tasks (db w) ++ [occurrence_of (rj_orgId data) parent n (clock w) (random_uuid (draws w))] ∧
    assignees_of (random_uuid (draws w)) w1 = assignees_of (t_id parent) w ∧
    (∃ e, outbox_events (db w1) = outbox_events (db w) ++ [e] ∧ ob_event_type e = "task.created"%string ∧
      ob_entity_id e = random_uuid (draws w)) ∧
    ∀ w2 n2, tasks (db w2) = tasks (db w1) →
      rrule_after (t_recurrence_rule parent ?? "") (clock w2) = Some (Some n2) → day n2 = day n →
      runRecurringTaskJob data w2 = (Ok tt, w2).
Proof.
  intros Hf Hr Hrule Hn Hne Hnd Hfresh.
  destruct (spawn_run (rj_orgId data) parent n w Hne Hnd Hfresh) as (w1 & Es & Et & Ea & Ee). exists w1.
  split; [|split; [done|split; [done|split; [done|]]]].
  - unfold runRecurringTaskJob, bind at 1, select_one. tables. rewrite Hf, Hr, Hrule. cbn [negb orb].
    unfold bind at 1, now. rewrite Hn. unfold bind, select. tables.
    rewrite (proj2 (filter_nil_iff _ _)); [done|]. intros r Hin. apply not_true_is_false. intros Hc.
    apply not_true_iff_false in Hne. apply Hne, existsb_exists. exists r. by rewrite <- list_elem_of_In.
  - intros w2 n2 Et2 Hn2 Hday. unfold runRecurringTaskJob, bind at 1, select_one. tables. rewrite Et2, Et.
    rewrite (find_app_l _ _ _ _ Hf), Hr, Hrule. cbn [negb orb].
    unfold bind at 1, now. rewrite Hn2. unfold bind, select. tables. rewrite Et2, Et, List.filter_app. cbn [List.filter].
    assert (child_on (t_id parent) (day n2) (occurrence_of (rj_orgId data) parent n (clock w) (random_uuid (draws w))) = true) as ->.
    { unfold child_on, occurrence_of. cbn. by rewrite String.eqb_refl, Hday, Z.eqb_refl. }
    by destruct (List.filter _ _).
Qed.
End theorems.
End RecurringProperties.

Module CollaborationExamples.
Import Concrete.

Definition quill (s : string) : json := JObj [("ops", JArr [JObj [("insert", JStr s)]])].

Example handles : MentionService.extractMentionHandles (quill "hi @Bob, @al.ice! @@x @ @bob (a@b.org)") =
  ["bob"; "al.ice"; "x"; "b.org"]%string.
Proof. vm_compute. reflexivity. Qed.

(** A rule that is due every day at noon. *)
#[local] Instance daily : RRule := λ s t,
  if (s =? "FREQ=DAILY")%string then Some (Some ((t + 43200000) / 86400000 * 86400000 + 43200000)%Z) else None.

Definition standup : TaskRow :=
  mkTaskRow "t0" "org1" "ws1" None None 0 "Stand-up" None Done High "u1" None (Some 1%Z) true (Some "FREQ=DAILY"%string)
    None None ["daily"]%string 0 None 0 0 3.

Definition board : World :=
  let w := empty_world 50000000 in
  w <| db := (db w) <| tasks := [standup] |>
      <| task_assignees := [mkTaskAssigneeRow "t0" "u1" "org1" 0 "u1"; mkTaskAssigneeRow "t0" "u2" "org1" 0 "u1"] |> |>.

Notation job := (RecurringTaskWorker.runRecurringTaskJob (mkRecurringTaskJobData "t0" "org1")).

Example next_standup :
  let w := (job (job board).2).2 in
  (t_due_date <$> tasks (db w), ta_user_id <$> task_assignees (db w)) =
  ([None; Some 129600000%Z], ["u1"; "u2"; "u1"; "u2"]%string).
Proof. vm_compute. reflexivity. Qed.

Lemma recurring_task_spawns_once_witness :
  ∃ w1, job board = (Ok tt, w1) ∧
    tasks (db w1) = tasks (db board) ++ [occurrence_of "org1" standup 129600000 (clock board) (random_uuid (draws board))] ∧
    assignees_of (random_uuid (draws board)) w1 = assignees_of "t0" board ∧
    (∃ e, outbox_events (db w1) = outbox_events (db board) ++ [e] ∧ ob_event_type e = "task.created"%string ∧
      ob_entity_id e = random_uuid (draws board)) ∧
    ∀ w2 n2, tasks (db w2) = tasks (db w1) →
      rrule_after (t_recurrence_rule standup ?? "") (clock w2) = Some (Some n2) → RecurringTaskWorker.day n2 = RecurringTaskWorker.day 129600000 →
      job w2 = (Ok tt, w2).
Proof.
  apply (RecurringProperties.recurring_task_spawns_once (mkRecurringTaskJobData "t0" "org1") standup 129600000 board);
    try reflexivity.
  vm_compute. repeat constructor; set_solver.
Defined.
End CollaborationExamples.
