(* ===== verification/RowJson.v ===== *)
(** * RowJson: the rows as the routes answer them

    [JSON.stringify] of a row of each table the routers of [modules/] return:
    its columns, in their order.  A date is given by its time. *)
From S2P Require Import Prelude Schema World OrgRepo TaskRepo Payments Collaboration.
From Stdlib Require Import ZArith.
From stdpp Require Import base tactics strings list.

Definition jtime (t : option Z) : json := match t with Some t => JNum t | None => JNull end.
Definition jvalue (j : option json) : json := match j with Some j => j | None => JNull end.
Definition jstrings (l : list string) : json := JArr (JStr <$> l).
Definition jlist {A} (f : A → json) (l : list A) : json := JArr (f <$> l).

Definition channel_type_str (t : channel_type) : string := match t with Direct => "direct" | Group => "group" end.
Definition digest_mode_str (m : digest_mode) : string :=
  match m with Realtime => "realtime" | DailyDigest => "daily_digest" end.
Definition file_status_str (s : file_status) : string :=
  match s with FPending => "pending" | FConfirmed => "confirmed" | FQuarantined => "quarantined" | FDeleted => "deleted" end.
Definition scan_status_str (s : scan_status) : string :=
  match s with ScanPending => "pending" | ScanClean => "clean" | ScanInfected => "infected" end.
Definition subscription_status_str (s : subscription_status) : string :=
  match s with
  | SubActive => "active" | SubHalted => "halted" | SubCancelled => "cancelled" | SubExpired => "expired"
  | SubPending => "pending"
  end.

(** A row of [workspaces]. *)
Definition workspace_json (r : WorkspaceRow) : json :=
  JObj [("id", JStr (ws_id r)); ("org_id", JStr (ws_org_id r)); ("name", JStr (ws_name r));
        ("description", jopt (ws_description r)); ("status", JStr (workspace_status_str (ws_status r)));
        ("owner_user_id", JStr (ws_owner_user_id r)); ("deleted_at", jtime (ws_deleted_at r));
        ("created_at", JNum (ws_created_at r)); ("updated_at", JNum (ws_updated_at r));
        ("version", JNum (ws_version r))].

(** A row of [tasks]. *)
Definition task_json (r : TaskRow) : json :=
  JObj [("id", JStr (t_id r)); ("org_id", JStr (t_org_id r)); ("workspace_id", JStr (t_workspace_id r));
        ("board_id", jopt (t_board_id r)); ("parent_task_id", jopt (t_parent_task_id r));
        ("depth", JNum (t_depth r)); ("title", JStr (t_title r)); ("description", jvalue (t_description r));
        ("status", JStr (task_status_str (t_status r))); ("priority", JStr (task_priority_str (t_priority r)));
        ("creator_id", JStr (t_creator_id r)); ("due_date", jtime (t_due_date r));
        ("completed_at", jtime (t_completed_at r)); ("is_recurring", JBool (t_is_recurring r));
        ("recurrence_rule", jopt (t_recurrence_rule r));
        ("recurrence_parent_id", jopt (t_recurrence_parent_id r)); ("template_id", jopt (t_template_id r));
        ("labels", jstrings (t_labels r)); ("attachments_count", JNum (t_attachments_count r));
        ("deleted_at", jtime (t_deleted_at r)); ("created_at", JNum (t_created_at r));
        ("updated_at", JNum (t_updated_at r)); ("version", JNum (t_version r))].

(** A row of [task_dependencies]. *)
Definition dependency_json (r : TaskDependencyRow) : json :=
  JObj [("id", JStr (td_id r)); ("org_id", JStr (td_org_id r));
        ("blocking_task_id", JStr (td_blocking_task_id r)); ("blocked_task_id", JStr (td_blocked_task_id r));
        ("created_by", JStr (td_created_by r)); ("created_at", JNum (td_created_at r))].

(** A row of [task_templates]. *)
Definition template_json (r : TaskTemplateRow) : json :=
  JObj [("id", JStr (tt_id r)); ("org_id", JStr (tt_org_id r)); ("name", JStr (tt_name r));
        ("default_title", jopt (tt_default_title r));
        ("default_description", jvalue (tt_default_description r));
        ("default_priority", jopt (task_priority_str <$> tt_default_priority r));
        ("default_labels", jstrings (tt_default_labels r)); ("created_by", JStr (tt_created_by r));
        ("deleted_at", jtime (tt_deleted_at r)); ("created_at", JNum (tt_created_at r))].

(** A row of [comments]. *)
Definition comment_json (r : CommentRow) : json :=
  JObj [("id", JStr (cm_id r)); ("org_id", JStr (cm_org_id r)); ("task_id", JStr (cm_task_id r));
        ("author_id", JStr (cm_author_id r)); ("parent_comment_id", jopt (cm_parent_comment_id r));
        ("body", cm_body r); ("is_edited", JBool (cm_is_edited r)); ("edited_at", jtime (cm_edited_at r));
        ("deleted_at", jtime (cm_deleted_at r)); ("created_at", JNum (cm_created_at r));
        ("updated_at", JNum (cm_updated_at r))].

(** A row of [task_activity_log]. *)
Definition activity_json (r : ActivityLogRow) : json :=
  JObj [("id", JStr (tl_id r)); ("org_id", JStr (tl_org_id r)); ("task_id", JStr (tl_task_id r));
        ("actor_id", JStr (tl_actor_id r)); ("event_type", JStr (tl_event_type r)); ("payload", tl_payload r);
        ("created_at", JNum (tl_created_at r))].

(** A row of [channels]. *)
Definition channel_json (r : ChannelRow) : json :=
  JObj [("id", JStr (ch_id r)); ("org_id", JStr (ch_org_id r)); ("type", JStr (channel_type_str (ch_type r)));
        ("name", jopt (ch_name r)); ("created_by", JStr (ch_created_by r));
        ("workspace_id", jopt (ch_workspace_id r)); ("deleted_at", jtime (ch_deleted_at r));
        ("created_at", JNum (ch_created_at r)); ("updated_at", JNum (ch_updated_at r))].

(** A row of [chat_messages]. *)
Definition message_row_json (r : ChatMessageRow) : json :=
  JObj [("id", JStr (msg_id r)); ("org_id", JStr (msg_org_id r)); ("channel_id", JStr (msg_channel_id r));
        ("sender_id", JStr (msg_sender_id r)); ("client_message_id", JStr (msg_client_message_id r));
        ("sequence_number", JNum (msg_sequence_number r)); ("body", JStr (msg_body r));
        ("body_parsed", jvalue (msg_body_parsed r)); ("parent_message_id", jopt (msg_parent_message_id r));
        ("is_edited", JBool (msg_is_edited r)); ("edit_history", JArr (msg_edit_history r));
        ("deleted_at", jtime (msg_deleted_at r)); ("created_at", JNum (msg_created_at r))].

(** A row of [notification_preferences]. *)
Definition preference_json (r : NotificationPreferenceRow) : json :=
  JObj [("id", JStr (np_id r)); ("org_id", JStr (np_org_id r)); ("user_id", JStr (np_user_id r));
        ("event_type", JStr (np_event_type r)); ("channel_inapp", JBool (np_channel_inapp r));
        ("channel_email", JBool (np_channel_email r)); ("channel_push", JBool (np_channel_push r));
        ("digest_mode", JStr (digest_mode_str (np_digest_mode r)));
        ("quiet_hours_start", jopt (np_quiet_hours_start r)); ("quiet_hours_end", jopt (np_quiet_hours_end r));
        ("created_at", JNum (np_created_at r)); ("updated_at", JNum (np_updated_at r))].

(** A row of [files]. *)
Definition file_json (r : FileRow) : json :=
  JObj [("id", JStr (f_id r)); ("org_id", JStr (f_org_id r)); ("uploader_id", JStr (f_uploader_id r));
        ("filename", JStr (f_filename r)); ("storage_key", JStr (f_storage_key r));
        ("mime_type", JStr (f_mime_type r)); ("size_bytes", JNum (f_size_bytes r));
        ("status", JStr (file_status_str (f_status r)));
        ("scan_status", JStr (scan_status_str (f_scan_status r)));
        ("scan_completed_at", jtime (f_scan_completed_at r)); ("created_at", JNum (f_created_at r));
        ("deleted_at", jtime (f_deleted_at r))].

(** A row of [payments]. *)
Definition payment_json (r : PaymentRow) : json :=
  JObj [("id", JStr (pay_id r)); ("org_id", JStr (pay_org_id r));
        ("subscription_id", jopt (pay_subscription_id r));
        ("razorpay_order_id", JStr (pay_razorpay_order_id r));
        ("razorpay_payment_id", jopt (pay_razorpay_payment_id r)); ("amount_paise", JNum (pay_amount_paise r));
        ("currency", JStr (pay_currency r)); ("status", JStr (payment_status_str (pay_status r)));
        ("failure_reason", jopt (pay_failure_reason r)); ("captured_at", jtime (pay_captured_at r));
        ("refunded_at", jtime (pay_refunded_at r)); ("idempotency_key", JStr (pay_idempotency_key r));
        ("metadata", pay_metadata r); ("created_at", JNum (pay_created_at r));
        ("updated_at", JNum (pay_updated_at r))].

(** A row of [subscriptions]. *)
Definition subscription_json (r : SubscriptionRow) : json :=
  JObj [("id", JStr (sub_id r)); ("org_id", JStr (sub_org_id r));
        ("razorpay_subscription_id", jopt (sub_razorpay_subscription_id r));
        ("plan_tier", JStr (plan_tier_str (sub_plan_tier r)));
        ("status", JStr (subscription_status_str (sub_status r)));
        ("current_period_start", jtime (sub_current_period_start r));
        ("current_period_end", jtime (sub_current_period_end r));
        ("cancel_at_period_end", JBool (sub_cancel_at_period_end r));
        ("cancelled_at", jtime (sub_cancelled_at r)); ("trial_end", jtime (sub_trial_end r));
        ("metadata", sub_metadata r); ("created_at", JNum (sub_created_at r));
        ("updated_at", JNum (sub_updated_at r))].

(** A row of [feature_flags]. *)
Definition flag_json (r : FeatureFlagRow) : json :=
  JObj [("id", JStr (ff_id r)); ("key", JStr (ff_key r)); ("description", jopt (ff_description r));
        ("is_globally_enabled", JBool (ff_is_globally_enabled r));
        ("rollout_percentage", JNum (ff_rollout_percentage r));
        ("enabled_org_ids", jstrings (ff_enabled_org_ids r));
        ("disabled_org_ids", jstrings (ff_disabled_org_ids r)); ("created_at", JNum (ff_created_at r));
        ("updated_at", JNum (ff_updated_at r))].

(** A row of [webhook_subscriptions]. *)
Definition webhook_json (r : WebhookRow) : json :=
  JObj [("id", JStr (wh_id r)); ("org_id", JStr (wh_org_id r)); ("url", JStr (wh_url r));
        ("secret_hash", JStr (wh_secret_hash r)); ("secret_encrypted", JStr (wh_secret_encrypted r));
        ("secret_preview", JStr (wh_secret_preview r)); ("secret_key_version", JNum (wh_secret_key_version r));
        ("event_types", jstrings (wh_event_types r)); ("is_active", JBool (wh_is_active r));
        ("created_by", JStr (wh_created_by r)); ("created_at", JNum (wh_created_at r));
        ("updated_at", JNum (wh_updated_at r)); ("deleted_at", jtime (wh_deleted_at r))].
