(* ===== verification/TenantRoutes.v ===== *)
(** * TenantRoutes: the routers of an organization's data

    [task.router.ts], [chat.router.ts], [workspace.router.ts],
    [webhook.router.ts], [notification.router.ts], [push.router.ts],
    [file.router.ts] and [payment.router.ts].  A route takes the request, the
    parameters of its path and the body or the query it checks; what it
    answers is the row it got, as JSON.  A schema is followed by the cast the
    handler reads its result with. *)
From S2P Require Import Prelude Schema World Crypto Concrete OrgRepo TaskRepo TaskDeps TaskService AuthRepo Session Auth Organization Http OrgAccess Payments FeatureFlags Chat Files Webhooks Notifications Collaboration Zod RowJson.
From Stdlib Require Import ZArith Ascii.
From stdpp Require Import base tactics strings gmap list.

(** ** Tasks *)

Definition statuses : list task_status := [Todo; InProgress; InReview; Done; Cancelled].
Definition priorities : list task_priority := [Low; Medium; High; Urgent].
Definition as_status : json → option task_status := as_enum (literal task_status_str statuses).
Definition as_priority : json → option task_priority := as_enum (literal task_priority_str priorities).

Module TaskRouter.
Section schemas.
Context `{Zod}.

Definition taskStatusEnum : ZodType := z_enum ["todo"; "in_progress"; "in_review"; "done"; "cancelled"]%string.
Definition taskPriorityEnum : ZodType := z_enum ["low"; "medium"; "high"; "urgent"]%string.
Definition uuid : ZodType := z_string [CUuid].
Definition nullable_optional (s : ZodType) : ZodType := z_optional (z_nullable s).

Definition createTaskSchema : ZodType := z_object
  [("workspace_id", uuid); ("board_id", nullable_optional uuid); ("parent_task_id", nullable_optional uuid);
   ("title", z_string [CMin 1; CMax 500]); ("description", nullable_optional z_record);
   ("status", z_optional taskStatusEnum); ("priority", z_optional taskPriorityEnum);
   ("due_date", nullable_optional (z_string [CDatetime])); ("is_recurring", z_optional z_boolean);
   ("recurrence_rule", nullable_optional (z_string [])); ("template_id", nullable_optional uuid);
   ("labels", z_optional (z_array (z_string []) [])); ("assignee_ids", z_optional (z_array uuid []))]%string.

Definition as_CreateTaskInput (body : json) : option CreateTaskInput :=
  workspace_id ← required "workspace_id" as_string body;
  board_id ← optional "board_id" (as_nullable as_string) body;
  parent_task_id ← optional "parent_task_id" (as_nullable as_string) body;
  title ← required "title" as_string body;
  description ← optional "description" (as_nullable as_record) body;
  status ← optional "status" as_status body;
  priority ← optional "priority" as_priority body;
  due_date ← optional "due_date" (as_nullable as_date) body;
  is_recurring ← optional "is_recurring" as_boolean body;
  recurrence_rule ← optional "recurrence_rule" (as_nullable as_string) body;
  template_id ← optional "template_id" (as_nullable as_string) body;
  labels ← optional "labels" (as_array as_string) body;
  assignee_ids ← optional "assignee_ids" (as_array as_string) body;
  Some (mkCreateTaskInput workspace_id (nullish board_id) (nullish parent_task_id) title (nullish description) status
    priority (nullish due_date) is_recurring (nullish recurrence_rule) (nullish template_id) labels assignee_ids).

Definition updateTaskSchema : ZodType := z_object
  [("title", z_optional (z_string [CMin 1; CMax 500])); ("description", nullable_optional z_record);
   ("status", z_optional taskStatusEnum); ("priority", z_optional taskPriorityEnum);
   ("due_date", nullable_optional (z_string [CDatetime])); ("board_id", nullable_optional uuid);
   ("labels", z_optional (z_array (z_string []) [])); ("is_recurring", z_optional z_boolean);
   ("recurrence_rule", nullable_optional (z_string [])); ("assignee_ids", z_optional (z_array uuid []));
   ("version", z_number [CInt; CPositive])]%string.

Definition as_UpdateTaskInput (body : json) : option UpdateTaskInput :=
  title ← optional "title" as_string body;
  description ← optional "description" (as_nullable as_record) body;
  status ← optional "status" as_status body;
  priority ← optional "priority" as_priority body;
  due_date ← optional "due_date" (as_nullable as_date) body;
  board_id ← optional "board_id" (as_nullable as_string) body;
  labels ← optional "labels" (as_array as_string) body;
  is_recurring ← optional "is_recurring" as_boolean body;
  recurrence_rule ← optional "recurrence_rule" (as_nullable as_string) body;
  assignee_ids ← optional "assignee_ids" (as_array as_string) body;
  version ← required "version" as_number body;
  Some (mkUpdateTaskInput
    (mkUpdateTaskData title description status priority due_date board_id labels is_recurring recurrence_rule)
    assignee_ids version).

Definition listTasksQuerySchema : ZodType := z_object
  [("workspace_id", z_optional uuid); ("board_id", z_optional uuid); ("status", z_optional taskStatusEnum)]%string.

(** The cast names [workspaceId] and [boardId]. *)
Definition as_TaskFilters (query : json) : option TaskFilters :=
  workspaceId ← optional "workspaceId" as_string query;
  boardId ← optional "boardId" as_string query;
  status ← optional "status" as_status query;
  Some (mkTaskFilters workspaceId boardId status).

Definition dependencySchema : ZodType := z_object [("blocked_task_id", uuid)]%string.
Definition as_blocked_task_id (body : json) : option string :=
  blocked ← required "blocked_task_id" as_string body; Some blocked.

Definition bulkStatusSchema : ZodType := z_object
  [("task_ids", z_array uuid [CMin 1; CMax 100]); ("status", taskStatusEnum)]%string.
Definition as_bulk_status (body : json) : option (list string * task_status) :=
  task_ids ← required "task_ids" (as_array as_string) body;
  status ← required "status" as_status body;
  Some (task_ids, status).

Definition bulkDeleteSchema : ZodType := z_object [("task_ids", z_array uuid [CMin 1; CMax 100])]%string.
Definition as_task_ids (body : json) : option (list string) :=
  task_ids ← required "task_ids" (as_array as_string) body; Some task_ids.

Definition templateSchema : ZodType := z_object
  [("name", z_string [CMin 1; CMax 255]); ("default_title", nullable_optional (z_string [CMax 500]));
   ("default_description", nullable_optional z_record);
   ("default_priority", nullable_optional (z_enum ["low"; "medium"; "high"; "urgent"]%string));
   ("default_labels", z_optional (z_array (z_string []) []))]%string.
Definition as_CreateTemplateInput (body : json) : option CreateTemplateInput :=
  name ← required "name" as_string body;
  title ← optional "default_title" (as_nullable as_string) body;
  description ← optional "default_description" (as_nullable as_record) body;
  priority ← optional "default_priority" (as_nullable as_priority) body;
  labels ← optional "default_labels" (as_array as_string) body;
  Some (mkCreateTemplateInput name (nullish title) (nullish description) (nullish priority) labels).

Definition commentSchema : ZodType := z_object
  [("body", z_record); ("parent_comment_id", nullable_optional uuid)]%string.
Definition as_comment (body : json) : option (json * option string) :=
  text ← required "body" as_record body;
  parent ← optional "parent_comment_id" (as_nullable as_string) body;
  Some (text, nullish parent).

Definition activityQuerySchema : ZodType := z_object
  [("limit", z_optional (z_coerce_number [CInt; CMin 1; CMax 200]));
   ("offset", z_optional (z_coerce_number [CInt; CMin 0]))]%string.
(** [limit] and [offset] of a page, where the query has them. *)
Definition as_page (query : json) : option (option Z * option Z) :=
  limit ← optional "limit" as_number query;
  offset ← optional "offset" as_number query;
  Some (limit, offset).
End schemas.

Section router.
Context `{Redis, Random, Config, Crypto, Zod}.
Context (keyStore : gmap string string).
Implicit Types (rq : Request) (body query : option json).

Definition create_task_route rq body : M Response :=
  handled rq (OrgContext.orgMiddlewareWithIdempotency keyStore rq (λ user c,
    validated createTaskSchema as_CreateTaskInput body (λ input,
      let* task := TaskService.createTask (oc_orgId c) (ru_userId user) input in
      respond rq 201 (task_json task)))).

Definition list_tasks_route rq query : M Response :=
  handled rq (OrgContext.orgMiddleware keyStore rq (λ _ c,
    validated listTasksQuerySchema as_TaskFilters query (λ filters,
      let* tasks := TaskService.listTasks (oc_orgId c) filters in
      respond rq 200 (jlist task_json tasks)))).

Definition get_task_route rq (taskId : string) : M Response :=
  handled rq (OrgContext.orgMiddleware keyStore rq (λ _ c,
    let* task := TaskService.getTask (oc_orgId c) taskId in
    respond rq 200 (task_json task))).

Definition update_task_route rq (taskId : string) body : M Response :=
  handled rq (OrgContext.orgMiddlewareWithIdempotency keyStore rq (λ user c,
    validated updateTaskSchema as_UpdateTaskInput body (λ input,
      let* task := TaskService.updateTask (oc_orgId c) taskId (ru_userId user) input in
      respond rq 200 (task_json task)))).

Definition delete_task_route rq (taskId : string) : M Response :=
  handled rq (OrgContext.orgMiddleware keyStore rq (λ user c,
    TaskService.deleteTask (oc_orgId c) taskId (ru_userId user) ;;;
    respond rq 200 (message_json "Task deleted"))).

Definition add_dependency_route rq (taskId : string) body : M Response :=
  handled rq (OrgContext.orgMiddlewareWithIdempotency keyStore rq (λ user c,
    validated dependencySchema as_blocked_task_id body (λ blocked_task_id,
      let* dep := DependencyService.addDependency (oc_orgId c) taskId blocked_task_id (ru_userId user) in
      respond rq 201 (dependency_json dep)))).

Definition list_dependencies_route rq (taskId : string) : M Response :=
  handled rq (OrgContext.orgMiddleware keyStore rq (λ _ c,
    let* deps := DependencyService.listDependencies (oc_orgId c) taskId in
    respond rq 200 (jlist dependency_json deps))).

Definition remove_dependency_route rq (dependencyId : string) : M Response :=
  handled rq (OrgContext.orgMiddleware keyStore rq (λ _ c,
    DependencyService.removeDependency (oc_orgId c) dependencyId ;;;
    respond rq 200 (message_json "Dependency removed"))).

Definition bulk_status_route rq body : M Response :=
  handled rq (OrgContext.orgMiddlewareWithIdempotency keyStore rq (λ user c,
    validated bulkStatusSchema as_bulk_status body (λ input,
      let* updated := BulkService.bulkUpdateStatus (oc_orgId c) (ru_userId user) input.1 input.2 in
      respond rq 200 (JObj [("updated", JNum updated)])))).

Definition bulk_delete_route rq body : M Response :=
  handled rq (OrgContext.orgMiddleware keyStore rq (λ user c,
    validated bulkDeleteSchema as_task_ids body (λ task_ids,
      let* deleted := BulkService.bulkDelete (oc_orgId c) (ru_userId user) task_ids in
      respond rq 200 (JObj [("deleted", JNum deleted)])))).

Definition create_template_route rq body : M Response :=
  handled rq (OrgContext.orgMiddlewareWithIdempotency keyStore rq (λ user c,
    validated templateSchema as_CreateTemplateInput body (λ input,
      let* template := TemplateService.createTemplate (oc_orgId c) (ru_userId user) input in
      respond rq 201 (template_json template)))).

Definition list_templates_route rq : M Response :=
  handled rq (OrgContext.orgMiddleware keyStore rq (λ _ c,
    let* templates := TemplateService.listTemplates (oc_orgId c) in
    respond rq 200 (jlist template_json templates))).

Definition delete_template_route rq (templateId : string) : M Response :=
  handled rq (OrgContext.orgMiddleware keyStore rq (λ user c,
    TemplateService.deleteTemplate (oc_orgId c) templateId (ru_userId user) ;;;
    respond rq 200 (message_json "Template deleted"))).

Definition create_comment_route rq (taskId : string) body : M Response :=
  handled rq (OrgContext.orgMiddlewareWithIdempotency keyStore rq (λ user c,
    validated commentSchema as_comment body (λ input,
      let* comment := CommentService.createComment (oc_orgId c) (ru_userId user)
        (mkCreateCommentInput taskId input.1 input.2) in
      respond rq 201 (comment_json comment)))).

Definition list_comments_route rq (taskId : string) : M Response :=
  handled rq (OrgContext.orgMiddleware keyStore rq (λ _ c,
    let* comments := CommentService.listComments (oc_orgId c) taskId in
    respond rq 200 (jlist comment_json comments))).

Definition delete_comment_route rq (commentId : string) : M Response :=
  handled rq (OrgContext.orgMiddleware keyStore rq (λ user c,
    CommentService.deleteComment (oc_orgId c) commentId (ru_userId user) ;;;
    respond rq 200 (message_json "Comment deleted"))).

Definition task_activity_route rq (taskId : string) : M Response :=
  handled rq (OrgContext.orgMiddleware keyStore rq (λ _ c,
    let* activity := ActivityLogService.listForTask (oc_orgId c) taskId in
    respond rq 200 (jlist activity_json activity))).

Definition org_activity_route rq query : M Response :=
  handled rq (OrgContext.orgMiddleware keyStore rq (λ _ c,
    validated activityQuerySchema as_page query (λ page,
      let* activity := ActivityLogService.listForOrg (oc_orgId c)
        (Z.to_nat (page.1 ?? 100%Z)) (Z.to_nat (page.2 ?? 0%Z)) in
      respond rq 200 (jlist activity_json activity)))).
End router.
End TaskRouter.

(** ** Chat *)

Module ChatRouter.
Section schemas.
Context `{Zod}.

Definition directSchema : ZodType := z_object [("other_user_id", z_string [CUuid])]%string.
Definition as_other_user_id (body : json) : option string :=
  other ← required "other_user_id" as_string body; Some other.

Definition groupSchema : ZodType := z_object
  [("name", z_string [CMin 1; CMax 255]); ("member_ids", z_array (z_string [CUuid]) [CMin 2])]%string.
Definition as_group (body : json) : option (string * list string) :=
  name ← required "name" as_string body;
  member_ids ← required "member_ids" (as_array as_string) body;
  Some (name, member_ids).

Definition workspaceChannelSchema : ZodType := z_object
  [("name", z_string [CMin 1; CMax 255]); ("workspace_id", z_string [CUuid])]%string.
Definition as_workspace_channel (body : json) : option (string * string) :=
  name ← required "name" as_string body;
  workspace_id ← required "workspace_id" as_string body;
  Some (name, workspace_id).

Definition messageSchema : ZodType := z_object
  [("body", z_string [CMin 1]); ("body_parsed", z_optional (z_nullable z_record));
   ("client_message_id", z_string [CUuid]);
   ("parent_message_id", z_optional (z_nullable (z_string [CUuid])))]%string.
(** The channel and the sender are the route's. *)
Definition as_message (channelId senderId : string) (body : json) : option SendMessageInput :=
  text ← required "body" as_string body;
  body_parsed ← optional "body_parsed" (as_nullable as_record) body;
  client_message_id ← required "client_message_id" as_string body;
  parent_message_id ← optional "parent_message_id" (as_nullable as_string) body;
  Some (mkSendMessageInput channelId senderId text (nullish body_parsed) client_message_id (nullish parent_message_id)).

Definition messagesQuerySchema : ZodType := z_object
  [("limit", z_optional (z_coerce_number [CInt; CMin 1; CMax 200])); ("before_sequence", z_optional z_coerce_bigint)]%string.
Definition as_messages_query (query : json) : option (option Z * option Z) :=
  limit ← optional "limit" as_number query;
  before ← optional "before_sequence" as_number query;
  Some (limit, before).

(** [v ? BigInt(v) : undefined]: zero is falsy. *)
Definition before_of (v : option Z) : option Z := match v with Some 0%Z => None | _ => v end.
End schemas.

Section router.
Context `{Redis, !RedisHash, Random, Config, Crypto, Zod}.
Context (keyStore : gmap string string).
Implicit Types (rq : Request) (body query : option json).

Definition create_direct_route rq body : M Response :=
  handled rq (OrgContext.orgMiddlewareWithIdempotency keyStore rq (λ user c,
    validated directSchema as_other_user_id body (λ other_user_id,
      let* result := ChannelService.createDirect (oc_orgId c) (ru_userId user) other_user_id in
      let '(channel, created) := result in
      respond rq (if (created : bool) then 201 else 200) (channel_json channel)))).

Definition create_group_route rq body : M Response :=
  handled rq (OrgContext.orgMiddlewareWithIdempotency keyStore rq (λ user c,
    validated groupSchema as_group body (λ input,
      let* channel := ChannelService.createGroup (oc_orgId c) (ru_userId user) input.1 input.2 in
      respond rq 201 (channel_json channel)))).

Definition create_workspace_channel_route rq body : M Response :=
  handled rq (OrgContext.orgMiddlewareWithIdempotency keyStore rq (λ user c,
    validated workspaceChannelSchema as_workspace_channel body (λ input,
      let* channel := ChannelService.createWorkspaceChannel (oc_orgId c) (ru_userId user) input.1 input.2 in
      respond rq 201 (channel_json channel)))).

(** [workspaceId] is [req.query.workspace_id], unchecked. *)
Definition list_channels_route rq (workspaceId : option string) : M Response :=
  handled rq (OrgContext.orgMiddleware keyStore rq (λ _ c,
    let* channels := ChannelService.listChannels (oc_orgId c) workspaceId in
    respond rq 200 (jlist channel_json channels))).

Definition get_channel_route rq (channelId : string) : M Response :=
  handled rq (OrgContext.orgMiddleware keyStore rq (λ _ c,
    let* channel := ChannelService.getChannel (oc_orgId c) channelId in
    respond rq 200 (channel_json channel))).

Definition send_message_route rq (channelId : string) body : M Response :=
  handled rq (OrgContext.orgMiddlewareWithIdempotency keyStore rq (λ user c,
    validated messageSchema (as_message channelId (ru_userId user)) body (λ input,
      let* message := MessageService.send (oc_orgId c) input in
      respond rq 201 (message_row_json message)))).

Definition list_messages_route rq (channelId : string) query : M Response :=
  handled rq (OrgContext.orgMiddleware keyStore rq (λ user c,
    validated messagesQuerySchema as_messages_query query (λ q,
      let* messages := MessageService.listMessages (oc_orgId c) channelId (ru_userId user)
        (Z.to_nat (q.1 ?? 50%Z)) (before_of q.2) in
      respond rq 200 (jlist message_row_json messages)))).

Definition delete_message_route rq (channelId messageId : string) : M Response :=
  handled rq (OrgContext.orgMiddleware keyStore rq (λ user c,
    MessageService.deleteMessage (oc_orgId c) messageId channelId (ru_userId user) ;;;
    respond rq 200 (message_json "Message deleted"))).
End router.
End ChatRouter.

(** ** Workspaces *)

Module WorkspaceRouter.
Section schemas.
Context `{Zod}.

Definition createWorkspaceSchema : ZodType := z_object
  [("name", z_string [CMin 1; CMax 255]); ("description", z_optional (z_nullable (z_string [CMax 1000])))]%string.
Definition as_workspace (body : json) : option (string * option string) :=
  name ← required "name" as_string body;
  description ← optional "description" (as_nullable as_string) body;
  Some (name, nullish description).

Definition updateWorkspaceSchema : ZodType := z_object
  [("name", z_optional (z_string [CMin 1; CMax 255]));
   ("description", z_optional (z_nullable (z_string [CMax 1000])));
   ("status", z_optional (z_enum ["active"; "archived"]%string)); ("version", z_number [CInt; CPositive])]%string.
Definition as_workspace_update (body : json) : option (UpdateWorkspaceData * Z) :=
  name ← optional "name" as_string body;
  description ← optional "description" (as_nullable as_string) body;
  status ← optional "status" (as_enum (literal workspace_status_str [WsActive; WsArchived])) body;
  version ← required "version" as_number body;
  Some (mkUpdateWorkspaceData name description status, version).
End schemas.

Section router.
Context `{Redis, Random, Config, Crypto, Zod}.
Context (keyStore : gmap string string).
Implicit Types (rq : Request) (body : option json).

Definition create_workspace_route rq body : M Response :=
  handled rq (OrgContext.orgMiddlewareWithIdempotency keyStore rq (λ user c,
    validated createWorkspaceSchema as_workspace body (λ input,
      let* workspace := WorkspaceService.createWorkspace (ru_userId user)
        (mkCreateWorkspaceData (oc_orgId c) input.1 input.2 (ru_userId user)) in
      respond rq 201 (workspace_json workspace)))).

Definition list_workspaces_route rq : M Response :=
  handled rq (OrgContext.orgMiddleware keyStore rq (λ _ c,
    let* workspaces := WorkspaceService.listWorkspaces (oc_orgId c) in
    respond rq 200 (jlist workspace_json workspaces))).

Definition get_workspace_route rq (workspaceId : string) : M Response :=
  handled rq (OrgContext.orgMiddleware keyStore rq (λ _ c,
    let* workspace := WorkspaceService.getWorkspace (oc_orgId c) workspaceId in
    respond rq 200 (workspace_json workspace))).

Definition update_workspace_route rq (workspaceId : string) body : M Response :=
  handled rq (OrgContext.orgMiddleware keyStore rq (λ user c,
    validated updateWorkspaceSchema as_workspace_update body (λ input,
      let* workspace := WorkspaceService.updateWorkspace (oc_orgId c) workspaceId input.1 input.2 (ru_userId user) in
      respond rq 200 (workspace_json workspace)))).

Definition delete_workspace_route rq (workspaceId : string) : M Response :=
  handled rq (OrgContext.orgMiddleware keyStore rq (λ user c,
    WorkspaceService.deleteWorkspace (oc_orgId c) workspaceId (ru_userId user) ;;;
    respond rq 200 (JObj [("deleted", JBool true)]))).
End router.
End WorkspaceRouter.

(** ** Webhooks *)

Module WebhookRouter.
Section schemas.
Context `{Zod}.

Definition SUPPORTED_EVENTS : list string :=
  ["task.created"; "task.updated"; "task.deleted"; "message.created"; "file.confirmed"; "payment.captured";
   "payment.failed"; "member.invited"; "member.removed"]%string.
Definition webhookSchema : ZodType := z_object
  [("url", z_string [CUrl]); ("events", z_array (z_enum SUPPORTED_EVENTS) [CMin 1])]%string.
Definition as_webhook (body : json) : option (string * list string) :=
  url ← required "url" as_string body;
  events ← required "events" (as_array (as_enum (literal id SUPPORTED_EVENTS))) body;
  Some (url, events).
End schemas.

Definition safe_webhook_json (r : SafeWebhook) : json :=
  JObj [("id", JStr (sw_id r)); ("org_id", JStr (sw_org_id r)); ("url", JStr (sw_url r));
        ("secret_preview", JStr (sw_secret_preview r)); ("secret_key_version", JNum (sw_secret_key_version r));
        ("event_types", jstrings (sw_event_types r)); ("is_active", JBool (sw_is_active r));
        ("created_by", JStr (sw_created_by r)); ("created_at", JNum (sw_created_at r));
        ("updated_at", JNum (sw_updated_at r)); ("deleted_at", jtime (sw_deleted_at r))].

Section router.
Context `{Redis, !RedisHash, Random, Config, Crypto, Zod, Network}.
Context (keyStore : gmap string string).
Implicit Types (rq : Request) (body : option json).

(** [[...orgMiddleware, requireRole(['org_owner', 'org_admin'])]]. *)
Definition adminMiddleware rq (next : ReqUser → OrgSessionCache → M Response) : M Response :=
  OrgContext.orgMiddleware keyStore rq (λ user c,
    OrgContext.requireRole ["org_owner"; "org_admin"]%string c (next user c)).

Definition create_webhook_route rq body : M Response :=
  handled rq (adminMiddleware rq (λ user c,
    validated webhookSchema as_webhook body (λ input,
      let* result := WebhookService.create (oc_orgId c) (ru_userId user) input.1 input.2 in
      respond rq 201 (JObj [("webhook", safe_webhook_json result.1); ("secret", JStr result.2)])))).

Definition list_webhooks_route rq : M Response :=
  handled rq (OrgContext.orgMiddleware keyStore rq (λ _ c,
    let* webhooks := WebhookService.listByOrg (oc_orgId c) in
    respond rq 200 (jlist webhook_json webhooks))).

Definition delete_webhook_route rq (webhookId : string) : M Response :=
  handled rq (adminMiddleware rq (λ _ c,
    WebhookService.remove (oc_orgId c) webhookId ;;;
    respond rq 200 (JObj [("deleted", JBool true)]))).

Definition rotate_secret_route rq (webhookId : string) : M Response :=
  handled rq (adminMiddleware rq (λ user c,
    let* secret := WebhookService.rotateSecret (oc_orgId c) webhookId (ru_userId user) in
    respond rq 200 (JObj [("secret", JStr secret)]))).
End router.
End WebhookRouter.

(** ** Notifications *)

Module NotificationRouter.
Section schemas.
Context `{Zod}.

Definition notificationsQuerySchema : ZodType := z_object
  [("unread_only", z_optional (z_enum ["true"; "false"]%string));
   ("limit", z_optional (z_coerce_number [CInt; CMin 1; CMax 200]));
   ("offset", z_optional (z_coerce_number [CInt; CMin 0]))]%string.
Definition as_notifications_query (query : json) : option (bool * option Z * option Z) :=
  unread_only ← optional "unread_only" as_string query;
  limit ← optional "limit" as_number query;
  offset ← optional "offset" as_number query;
  Some ((unread_only ?? "" =? "true")%string, limit, offset).

Definition preferenceSchema : ZodType := z_object
  [("channel_inapp", z_optional z_boolean); ("channel_email", z_optional z_boolean);
   ("channel_push", z_optional z_boolean); ("digest_mode", z_optional (z_enum ["realtime"; "daily_digest"]%string));
   ("quiet_hours_start", z_optional (z_nullable (z_string [])));
   ("quiet_hours_end", z_optional (z_nullable (z_string [])))]%string.
Definition as_preference (body : json) : option PreferenceData :=
  inapp ← optional "channel_inapp" as_boolean body;
  email ← optional "channel_email" as_boolean body;
  push ← optional "channel_push" as_boolean body;
  digest_mode ← optional "digest_mode" (as_enum (literal digest_mode_str [Realtime; DailyDigest])) body;
  quiet_start ← optional "quiet_hours_start" (as_nullable as_string) body;
  quiet_end ← optional "quiet_hours_end" (as_nullable as_string) body;
  Some (mkPreferenceData inapp email push digest_mode quiet_start quiet_end).

Definition unsubscribeSchema : ZodType := z_object
  [("token", z_string [CMin 1]); ("userId", z_string [CUuid]); ("orgId", z_string [CUuid]);
   ("eventType", z_string [CMin 1])]%string.
Definition as_unsubscribe (query : json) : option (string * string * string * string) :=
  token ← required "token" as_string query;
  userId ← required "userId" as_string query;
  orgId ← required "orgId" as_string query;
  eventType ← required "eventType" as_string query;
  Some (token, userId, orgId, eventType).
End schemas.

Section router.
Context `{Redis, Random, Config, Crypto, Zod}.
Context (keyStore : gmap string string).
Implicit Types (rq : Request) (body query : option json).

Definition list_notifications_route rq query : M Response :=
  handled rq (OrgContext.orgMiddleware keyStore rq (λ user c,
    validated notificationsQuerySchema as_notifications_query query (λ q,
      let '(onlyUnread, limit, offset) := q in
      let* notifications := NotificationRepository.findByUser (oc_orgId c) (ru_userId user) onlyUnread
        (Z.to_nat (limit ?? 50%Z)) (Z.to_nat (offset ?? 0%Z)) in
      respond rq 200 (jlist notification_json notifications)))).

Definition mark_read_route rq (notificationId : string) : M Response :=
  handled rq (OrgContext.orgMiddleware keyStore rq (λ user c,
    let* marked := NotificationRepository.markRead (oc_orgId c) (ru_userId user) notificationId in
    respond rq 200 (message_json (if (marked : bool) then "Marked as read" else "Already read or not found")))).

Definition read_all_route rq : M Response :=
  handled rq (OrgContext.orgMiddleware keyStore rq (λ user c,
    let* count := NotificationRepository.markAllRead (oc_orgId c) (ru_userId user) in
    respond rq 200 (JObj [("marked", JNum (Z.of_nat count))]))).

Definition list_preferences_route rq : M Response :=
  handled rq (OrgContext.orgMiddleware keyStore rq (λ user c,
    let* prefs := PreferenceService.listPreferences (oc_orgId c) (ru_userId user) in
    respond rq 200 (jlist preference_json prefs))).

Definition update_preference_route rq (eventType : string) body : M Response :=
  handled rq (OrgContext.orgMiddleware keyStore rq (λ user c,
    validated preferenceSchema as_preference body (λ data,
      let* pref := PreferenceService.updatePreference (oc_orgId c) (ru_userId user) eventType data in
      respond rq 200 (preference_json pref)))).

(** The public link. *)
Definition unsubscribe_route rq query : M Response :=
  handled rq (
    validated unsubscribeSchema as_unsubscribe query (λ q,
      let '(token, userId, orgId, eventType) := q in
      let* message := unsubscribe token userId orgId eventType in
      respond rq 200 (message_json message))).
End router.
End NotificationRouter.

Module PushRouter.
Section router.
Context `{Redis, Random, Config, Crypto}.
Context (keyStore : gmap string string).
Implicit Types (rq : Request) (body : json).

(** [jwtMiddleware, orgContextMiddleware]: the status of the organization is
    not asked for. *)
Definition contextMiddleware rq (next : ReqUser → OrgSessionCache → M Response) : M Response :=
  let* user := JwtMiddleware.authenticate keyStore (rq_authorization rq) in
  let* c := OrgContext.orgContextMiddleware rq user in
  next user c.

(** The body is not checked: [keys] that is not an object throws, and the
    columns are NOT NULL.  Texts only: what pg writes for a value of another
    type is not modelled. *)
Definition as_push_subscription body : option PushSubscriptionData :=
  endpoint ← required "endpoint" as_string body;
  keys ← required "keys" as_record body;
  p256dh ← required "p256dh" as_string keys;
  auth ← required "auth" as_string keys;
  Some (mkPushSubscriptionData endpoint p256dh auth).

Definition subscribe_route rq body : M Response :=
  handled rq (contextMiddleware rq (λ user c,
    idempotencyMiddleware rq (Some user) (Some (oc_orgId c)) (
      match as_push_subscription body with
      | None => throw type_error
      | Some sub =>
          PushService.saveSubscription (ru_userId user) (ru_orgId user) sub ;;;
          respond rq 201 (JObj [("subscribed", JBool true)])
      end))).

(** [endpoint = NULL] matches no row. *)
Definition unsubscribe_push_route rq body : M Response :=
  handled rq (contextMiddleware rq (λ user _,
    match jstr "endpoint" body with
    | Some endpoint => PushService.removeSubscription (ru_userId user) endpoint
    | None => ret tt
    end ;;;
    respond rq 200 (JObj [("unsubscribed", JBool true)]))).
End router.
End PushRouter.

(** ** Files *)

Module FileRouter.
Section schemas.
Context `{Zod}.

Definition uploadSchema : ZodType := z_object
  [("filename", z_string [CMin 1; CMax 255]); ("mimeType", z_string [CMin 1]);
   ("sizeBytes", z_number [CInt; CPositive])]%string.
Definition as_upload (body : json) : option RequestUploadUrlInput :=
  filename ← required "filename" as_string body;
  mimeType ← required "mimeType" as_string body;
  sizeBytes ← required "sizeBytes" as_number body;
  Some (mkRequestUploadUrlInput filename mimeType sizeBytes).

Definition filesQuerySchema : ZodType := z_object
  [("limit", z_default (z_coerce_number [CInt; CMin 1; CMax 100]) (JNum 20));
   ("offset", z_default (z_coerce_number [CInt; CMin 0]) (JNum 0))]%string.
Definition as_files_query (query : json) : option (Z * Z) :=
  limit ← required "limit" as_number query;
  offset ← required "offset" as_number query;
  Some (limit, offset).
End schemas.

Definition upload_json (r : RequestUploadUrlResult) : json :=
  JObj ([("fileId", JStr (rr_fileId r)); ("uploadUrl", JStr (rr_uploadUrl r))] ++
        match rr_uploadFields r with
        | Some fields => [("uploadFields", JObj ((λ kv, (kv.1, JStr kv.2)) <$> fields))]
        | None => []
        end ++ [("expiresAt", JNum (rr_expiresAt r))]).

Section router.
Context `{Redis, Random, Config, Crypto, Zod, !StorageProvider}.
Context (keyStore : gmap string string).
Implicit Types (rq : Request) (body query : option json).

(** The plan is the default of [requestUploadUrl]. *)
Definition upload_url_route rq body : M Response :=
  handled rq (OrgContext.orgMiddleware keyStore rq (λ user c,
    validated uploadSchema as_upload body (λ input,
      let* result := FileService.requestUploadUrl (oc_orgId c) (ru_userId user) input "free" in
      respond rq 201 (upload_json result)))).

Definition download_url_route rq (fileId : string) : M Response :=
  handled rq (OrgContext.orgMiddleware keyStore rq (λ _ c,
    let* result := FileService.generateDownloadUrl (oc_orgId c) fileId in
    match result with
    | SCAN_PENDING_SIGNAL =>
        ret (mkResponse 202 (message_json "File scan in progress, please retry later"))
    | DownloadUrl url => respond rq 200 (JObj [("url", JStr url)])
    end)).

Definition list_files_route rq query : M Response :=
  handled rq (OrgContext.orgMiddleware keyStore rq (λ _ c,
    validated filesQuerySchema as_files_query query (λ page,
      let* files := FileService.listFiles (oc_orgId c) (Z.to_nat page.1) (Z.to_nat page.2) in
      respond rq 200 (jlist file_json files)))).

Definition get_file_route rq (fileId : string) : M Response :=
  handled rq (OrgContext.orgMiddleware keyStore rq (λ _ c,
    let* file := FileService.getFile (oc_orgId c) fileId in
    respond rq 200 (file_json file))).
End router.
End FileRouter.

(** ** Payments *)

Module PaymentRouter.
Section schemas.
Context `{Zod}.

Definition orderSchema : ZodType := z_object
  [("plan_tier", z_enum ["pro"; "business"; "enterprise"]%string);
   ("billing_cycle", z_enum ["monthly"; "annual"]%string)]%string.
Definition as_order (body : json) : option (string * billing_cycle) :=
  plan_tier ← required "plan_tier" as_string body;
  billing_cycle ← required "billing_cycle" (as_enum (literal billing_cycle_str [Monthly; Annual])) body;
  Some (plan_tier, billing_cycle).

Definition verifySchema : ZodType := z_object
  [("razorpay_order_id", z_string [CMin 1]); ("razorpay_payment_id", z_string [CMin 1]);
   ("razorpay_signature", z_string [CMin 1])]%string.
Definition as_verification (body : json) : option (string * string * string) :=
  order_id ← required "razorpay_order_id" as_string body;
  payment_id ← required "razorpay_payment_id" as_string body;
  signature ← required "razorpay_signature" as_string body;
  Some (order_id, payment_id, signature).
End schemas.

Definition order_json (r : RazorpayOrder) : json :=
  JObj [("id", JStr (ro_id r)); ("entity", JStr (ro_entity r)); ("amount", JNum (ro_amount r));
        ("currency", JStr (ro_currency r)); ("status", JStr (ro_status r)); ("receipt", jopt (ro_receipt r));
        ("created_at", JNum (ro_created_at r))].

(** [Number(s)] of the decimal notation of an integer, with white space
    around it, and of an empty text; other notations are NaN here. *)
Definition js_Number (s : string) : option Z :=
  match trim s with
  | EmptyString => Some 0%Z
  | String "-"%char digits => if truthy digits then Z.opp <$> number digits 0 else None
  | String "+"%char digits => if truthy digits then number digits 0 else None
  | digits => number digits 0
  end.

Section router.
Context `{Redis, Random, Config, Crypto, Zod, !RazorpaySdk}.
Context (keyStore : gmap string string).
Implicit Types (rq : Request) (body : option json).

Definition create_order_route rq body : M Response :=
  handled rq (OrgContext.orgMiddlewareWithIdempotency keyStore rq (λ user c,
    validated orderSchema as_order body (λ input,
    OrganizationRouter.owner_or_admin "Only org owners and admins can manage payments" c (
      let* result := PaymentService.createOrder (oc_orgId c) input.1 input.2 (ru_userId user) in
      respond rq 201 (JObj [("order", order_json result.1); ("payment", payment_json result.2)]))))).

Definition verify_payment_route rq body : M Response :=
  handled rq (OrgContext.orgMiddleware keyStore rq (λ _ c,
    validated verifySchema as_verification body (λ input,
      let '(order_id, payment_id, signature) := input in
      let* payment := PaymentService.verifyPayment (oc_orgId c) order_id payment_id signature in
      respond rq 200 (payment_json payment)))).

(** LIMIT and OFFSET as pg sends them: NaN is not a number of SQL, and a
    negative one is refused. *)
Definition sql_count (code : string) (n : option Z) : M nat :=
  match n with
  | None => throw (PgError "22P02")
  | Some n => if (n <? 0)%Z then throw (PgError code) else ret (Z.to_nat n)
  end.

(** [limit] and [offset] are the numbers of the query's texts, where it has
    them; nothing checks them. *)
Definition list_payments_route rq (limit offset : option (option Z)) : M Response :=
  handled rq (OrgContext.orgMiddleware keyStore rq (λ _ c,
    OrganizationRouter.owner_or_admin "Only org owners and admins can view payment history" c (
      let* limit := sql_count "2201W" (limit ?? Some 20%Z) in
      let* offset := sql_count "2201X" (offset ?? Some 0%Z) in
      let* payments := PaymentRepository.findByOrg (oc_orgId c) limit offset in
      respond rq 200 (jlist payment_json payments)))).

Definition subscription_route rq : M Response :=
  handled rq (OrgContext.orgMiddleware keyStore rq (λ _ c,
    let* sub := SubscriptionRepository.findByOrg (oc_orgId c) in
    respond rq 200 (match sub with Some sub => subscription_json sub | None => JNull end))).
End router.
End PaymentRouter.
