(* ===== verification/SystemRoutes.v ===== *)
(** * SystemRoutes: sign-in, accounts, administration and erasure as routes

    [auth.router.ts] with its handlers of [auth.controller.ts], the routes of
    [organization.router.ts] that no organization guards, [gdpr.router.ts],
    and the administrators' [admin.router.ts] and [feature-flag.router.ts]. *)
From S2P Require Import Prelude Schema World Crypto Concrete OrgRepo AuthRepo Session Auth Organization Http RateLimiter OrgAccess FeatureFlags Gdpr SignIn Collaboration Zod RowJson TenantRoutes.
From Stdlib Require Import ZArith.
From stdpp Require Import base tactics strings gmap list.

(** The compact serialization of a token. *)
Section json.
Context `{Crypto}.
Context (jwt_text : jwt_token → string).

Definition tokens_fields (p : TokenPair) : list (string * json) :=
  [("accessToken", JStr (jwt_text (accessToken p))); ("refreshToken", JStr (refreshToken p));
   ("expiresIn", JNum (expiresIn p))]%string.
Definition tokens_json (p : TokenPair) : json := JObj (tokens_fields p).
End json.

Definition user_status_str (s : user_status) : string :=
  match s with UActive => "active" | USuspended => "suspended" | UDeleted => "deleted" end.

Definition safe_user_json (u : SafeUser) : json :=
  JObj [("id", JStr (su_id u)); ("email", JStr (su_email u)); ("email_verified", JBool (su_email_verified u));
        ("name", JStr (su_name u)); ("avatar_url", jopt (su_avatar_url u));
        ("is_platform_admin", JBool (su_is_platform_admin u)); ("status", JStr (user_status_str (su_status u)));
        ("created_at", JNum (su_created_at u)); ("updated_at", JNum (su_updated_at u))].

(** ** Accounts and sessions *)

Module AuthRouter.
Section schemas.
Context `{Zod}.

Definition email : ZodType := z_string [CEmail].
Definition registerSchema : ZodType := z_object
  [("email", email); ("password", z_string [CMin 8; CMax 128]); ("name", z_string [CMin 1; CMax 255])]%string.
Definition as_registration (body : json) : option (string * string * string) :=
  email ← required "email" as_string body;
  password ← required "password" as_string body;
  name ← required "name" as_string body;
  Some (email, password, name).

Definition loginSchema : ZodType := z_object
  [("email", email); ("password", z_string [CMin 1]); ("orgId", z_optional (z_string [CUuid]))]%string.
Definition as_login (body : json) : option (string * string * option string) :=
  email ← required "email" as_string body;
  password ← required "password" as_string body;
  orgId ← optional "orgId" as_string body;
  Some (email, password, orgId).

Definition refreshSchema : ZodType := z_object [("refreshToken", z_string [CMin 1])]%string.
Definition as_refreshToken (body : json) : option string :=
  token ← required "refreshToken" as_string body; Some token.

Definition emailSchema : ZodType := z_object [("email", email)]%string.
Definition as_email (body : json) : option string := email ← required "email" as_string body; Some email.

Definition confirmSchema : ZodType := z_object
  [("token", z_string [CMin 1]); ("newPassword", z_string [CMin 8; CMax 128])]%string.
Definition as_confirmation (body : json) : option (string * string) :=
  token ← required "token" as_string body;
  newPassword ← required "newPassword" as_string body;
  Some (token, newPassword).

Definition googleSchema : ZodType := z_object [("idToken", z_string [CMin 1])]%string.
Definition as_idToken (body : json) : option string := token ← required "idToken" as_string body; Some token.

Definition magicLinkSchema : ZodType := z_object [("email", email); ("orgId", z_optional (z_string [CUuid]))]%string.
Definition as_magic_link (body : json) : option (string * option string) :=
  email ← required "email" as_string body;
  orgId ← optional "orgId" as_string body;
  Some (email, orgId).

Definition tokenSchema : ZodType := z_object [("token", z_string [CMin 1])]%string.
Definition as_token (body : json) : option string := token ← required "token" as_string body; Some token.
End schemas.

Section router.
Context `{Redis, !RedisZset, !RedisHash, Random, Config, Crypto, Zod, Saml, Google}.
Context (keyStore : gmap string string) (jwt_text : jwt_token → string).

(** [process.env.NODE_ENV === 'test'], which removes the limits, and what a
    pipeline does on a closed connection. *)
Context (test_env exec_rejects : bool).
Implicit Types (rq : Request) (body : option json).

Definition limited (limiter : string * Z * Z) (next : M Response) : M Response :=
  if test_env then next
  else
    let '(key, limit, windowMs) := limiter in
    let* r := rateLimitMiddleware exec_rejects key limit windowMs in
    match r.2 with Some e => throw e | None => next end.

(** [req.body?.email?.toLowerCase() ?? req.ip] of the limits by address: an
    email that is not a text has no such method. *)
Definition limited_by_email (limiter : option string → option string → string * Z * Z) rq body (next : M Response)
    : M Response :=
  if test_env then next
  else
    match body ≫= jget "email" with
    | Some (JStr email) => limited (limiter (Some email) (rq_ip rq)) next
    | None | Some JNull => limited (limiter None (rq_ip rq)) next
    | Some _ => throw type_error
    end.

(** [res.status(400).json] of a parameter that is missing. *)
Definition missing (code message : string) : Response :=
  mkResponse 400 (JObj [("data", JNull); ("error", JObj [("code", JStr code); ("message", JStr message)]);
                        ("meta", JObj [])]).

Definition registerHandler rq body : M Response :=
  handled rq (limited (registerRateLimit (rq_ip rq)) (
    validated registerSchema as_registration body (λ input,
      let '(email, password, name) := input in
      let* user := AuthService.register email password name in
      respond rq 201 (safe_user_json user)))).

Definition loginHandler rq body : M Response :=
  handled rq (limited (authRateLimit (rq_ip rq)) (
    validated loginSchema as_login body (λ input,
      let '(email, password, orgId) := input in
      let* result := AuthService.login email password orgId in
      respond rq 200 (JObj [("tokens", tokens_json jwt_text result.1); ("user", safe_user_json result.2)])))).

Definition refreshHandler rq body : M Response :=
  handled rq (validated refreshSchema as_refreshToken body (λ refreshToken,
    let* tokens := JwtService.refreshTokenPair refreshToken in
    respond rq 200 (tokens_json jwt_text tokens))).

Definition logoutHandler rq body : M Response :=
  handled rq (
    let* user := JwtMiddleware.authenticate keyStore (rq_authorization rq) in
    validated refreshSchema as_refreshToken body (λ refreshToken,
      AuthService.logoutHandler refreshToken user ;;;
      respond rq 200 (message_json "Logged out successfully"))).

(** [token] of the query. *)
Definition verifyEmailHandler rq (token : option string) : M Response :=
  handled rq (
    if negb (otruthy token) then ret (missing "MISSING_TOKEN" "token query parameter is required")
    else
      AuthService.verifyEmail (token ?? "") ;;;
      respond rq 200 (message_json "Email verified successfully")).

Definition resendVerificationEmailHandler rq body : M Response :=
  handled rq (limited_by_email verifyEmailResendRateLimit rq body (
    validated emailSchema as_email body (λ email,
      let* user := AuthService.findUserByEmailForResend email in
      match user with
      | Some id => AuthService.resendVerificationEmail id
      | None => ret tt
      end ;;;
      respond rq 200 (message_json "If an account exists and is unverified, a verification email has been sent")))).

Definition requestPasswordResetHandler rq body : M Response :=
  handled rq (limited_by_email passwordResetRateLimit rq body (
    validated emailSchema as_email body (λ email,
      AuthService.requestPasswordReset email ;;;
      respond rq 200 (message_json "If an account exists, a password reset email has been sent")))).

Definition confirmPasswordResetHandler rq body : M Response :=
  handled rq (validated confirmSchema as_confirmation body (λ input,
    AuthService.confirmPasswordReset input.1 input.2 ;;;
    respond rq 200 (message_json "Password has been reset successfully"))).

Definition googleOAuthHandler rq body : M Response :=
  handled rq (validated googleSchema as_idToken body (λ idToken,
    let* tokens := OAuthService.loginWithGoogle idToken in
    respond rq 200 (tokens_json jwt_text tokens))).

Definition magicLinkRequestHandler rq body : M Response :=
  handled rq (limited_by_email magicLinkRateLimit rq body (
    validated magicLinkSchema as_magic_link body (λ input,
      MagicLinkService.requestLink input.1 input.2 ;;;
      respond rq 200 (message_json "If an account exists, a magic link has been sent")))).

Definition magicLinkVerifyHandler rq body : M Response :=
  handled rq (validated tokenSchema as_token body (λ token,
    let* tokens := MagicLinkService.verifyLink token in
    respond rq 200 (tokens_json jwt_text tokens))).

(** The body is not checked: a [SAMLResponse] that is not a text is an error
    of the library. *)
Definition samlCallbackHandler rq (orgId : string) (body : json) : M Response :=
  handled rq (
    match jget "SAMLResponse" body with
    | None | Some JNull | Some (JBool false) | Some (JNum 0) | Some (JStr "") =>
        ret (missing "MISSING_SAML_RESPONSE" "SAMLResponse is required")
    | Some (JStr response) =>
        let* tokens := SamlService.handleCallback orgId response in
        respond rq 200 (tokens_json jwt_text tokens)
    | Some _ => throw type_error
    end).
End router.
End AuthRouter.

(** ** Routes of [organization.router.ts] outside an organization *)

Module AccountRouter.

Definition strings_json (l : list string) : json := JArr (JStr <$> l).

(** The columns of [users], in their order. *)
Definition user_columns (u : UserRow) : list (string * json) :=
  [("id", JStr (u_id u)); ("email", JStr (u_email u)); ("email_verified", JBool (u_email_verified u));
   ("email_verified_at", jtime (u_email_verified_at u)); ("password_hash", jopt (u_password_hash u));
   ("name", JStr (u_name u)); ("avatar_url", jopt (u_avatar_url u)); ("phone", jopt (u_phone u));
   ("totp_secret", jopt (u_totp_secret u)); ("totp_enabled", JBool (u_totp_enabled u));
   ("mfa_backup_codes", strings_json (u_mfa_backup_codes u));
   ("mfa_backup_codes_generated_at", jtime (u_mfa_backup_codes_generated_at u));
   ("is_platform_admin", JBool (u_is_platform_admin u)); ("status", JStr (user_status_str (u_status u)));
   ("failed_login_attempts", JNum (u_failed_login_attempts u)); ("locked_until", jtime (u_locked_until u));
   ("last_login_at", jtime (u_last_login_at u)); ("password_changed_at", jtime (u_password_changed_at u));
   ("consent_tos_version", jopt (u_consent_tos_version u)); ("consent_tos_at", jtime (u_consent_tos_at u));
   ("privacy_policy_version", jopt (u_privacy_policy_version u)); ("deleted_at", jtime (u_deleted_at u));
   ("created_at", JNum (u_created_at u)); ("updated_at", JNum (u_updated_at u))]%string.

(** [{ totp_secret, password_hash, mfa_backup_codes, ..., ...safe }]. *)
Definition removed_columns : list string :=
  ["totp_secret"; "password_hash"; "mfa_backup_codes"; "mfa_backup_codes_generated_at"]%string.
Definition sanitizeUser (columns : list (string * json)) : list (string * json) :=
  List.filter (λ kv, negb (includes removed_columns kv.1)) columns.

Section router.
Context `{Redis, Random, Config, Crypto, Zod}.
Context (keyStore : gmap string string) (jwt_text : jwt_token → string).
Implicit Types (rq : Request) (body : option json).

Definition me_route rq : M Response :=
  handled rq (
    let* user := JwtMiddleware.authenticate keyStore (rq_authorization rq) in
    let* row := select_one (λ u, (u_id u =? ru_userId user)%string && is_null (u_deleted_at u)) in
    match row with
    | None => throw (NotFoundError "User")
    | Some u => respond rq 200 (JObj (sanitizeUser (user_columns u)))
    end).

Definition accept_invitation_route rq body : M Response :=
  handled rq (validated AuthRouter.tokenSchema AuthRouter.as_token body (λ token,
    let* result := InvitationService.acceptInvitation token in
    respond rq 200 (JObj [("tokens", tokens_json jwt_text result.1); ("userId", JStr result.2)]))).
End router.
End AccountRouter.

(** ** Erasure, exports and offboarding *)

Module GdprRoutes.
Section router.
Context `{Redis, Random, Config, Crypto, Zod, IpAddr}.
Context (keyStore : gmap string string) (allowlist : option string).
Implicit Types (rq : Request) (body : option json).

Definition export_request_route rq : M Response :=
  handled rq (OrgContext.orgMiddleware keyStore rq (λ user c,
    GdprRouter.export_request c (ru_userId user) ;;;
    respond rq 202 (message_json "Export request received. You will receive a download link by email."))).

(** [z.literal] is the enumeration of one text. *)
Definition ErasureRequestSchema : ZodType := z_object
  [("password", z_string [CMin 1]); ("confirm", z_enum ["DELETE MY ACCOUNT"]%string)]%string.
Definition as_password (body : json) : option string :=
  password ← required "password" as_string body; Some password.

Definition erasure_request_route rq body : M Response :=
  handled rq (OrgContext.orgMiddleware keyStore rq (λ user c,
    validated ErasureRequestSchema as_password body (λ password,
      GdprRouter.erasure_request c (ru_userId user) password ;;;
      respond rq 202 (message_json "Erasure request received. Your account data will be anonymised.")))).

Definition org_export_route rq (orgId : string) : M Response :=
  handled rq (PlatformAdmin.adminMiddleware keyStore allowlist rq (λ user,
    GdprRouter.org_export orgId (ru_userId user) ;;;
    respond rq 202 (message_json "Org export request received."))).

Definition offboard_route rq (orgId : string) : M Response :=
  handled rq (PlatformAdmin.adminMiddleware keyStore allowlist rq (λ _,
    GdprRouter.offboard orgId ;;;
    respond rq 202 (message_json "Offboarding initiated."))).
End router.
End GdprRoutes.

(** ** Platform administration *)

Module AdminRouter.
Section schemas.
Context `{Zod}.

Definition organizationsQuerySchema : ZodType := z_object
  [("limit", z_default (z_coerce_number [CInt; CMin 1; CMax 200]) (JNum 50));
   ("offset", z_default (z_coerce_number [CInt; CMin 0]) (JNum 0))]%string.
Definition as_organizations_query (query : json) : option (Z * Z) :=
  limit ← required "limit" as_number query;
  offset ← required "offset" as_number query;
  Some (limit, offset).

Definition suspendSchema : ZodType := z_object [("reason", z_string [CMin 1])]%string.
Definition as_reason (body : json) : option string := reason ← required "reason" as_string body; Some reason.

Definition rotateKeysSchema : ZodType := z_object [("publicKey", z_string [CMin 1]); ("kid", z_string [CMin 1])]%string.
Definition as_key (body : json) : option (string * string) :=
  publicKey ← required "publicKey" as_string body;
  kid ← required "kid" as_string body;
  Some (publicKey, kid).
End schemas.

Section router.
Context `{Redis, Random, Config, Crypto, Zod, IpAddr}.
Context (keyStore : gmap string string) (allowlist : option string).
Implicit Types (rq : Request) (body query : option json).

Definition admin_route rq (next : ReqUser → M Response) : M Response :=
  handled rq (PlatformAdmin.adminMiddleware keyStore allowlist rq next).

Definition done_with (k : string) : json := JObj [(k, JBool true)].

Definition list_organizations_route rq query : M Response :=
  admin_route rq (λ _,
    validated organizationsQuerySchema as_organizations_query query (λ page,
      let* orgs := AdminService.listOrganizations (Z.to_nat page.1) (Z.to_nat page.2) in
      respond rq 200 (jlist org_json orgs))).

Definition suspend_route rq (orgId : string) body : M Response :=
  admin_route rq (λ user,
    validated suspendSchema as_reason body (λ reason,
      AdminService.suspendOrg orgId reason (ru_userId user) ;;; respond rq 200 (done_with "suspended"))).

Definition reactivate_route rq (orgId : string) : M Response :=
  admin_route rq (λ user,
    AdminService.reactivateOrg orgId (ru_userId user) ;;; respond rq 200 (done_with "reactivated")).

Definition offboard_route rq (orgId : string) : M Response :=
  admin_route rq (λ user,
    AdminService.offboardOrg orgId (ru_userId user) ;;; respond rq 200 (done_with "offboarding")).

Definition unlock_route rq (userId : string) : M Response :=
  admin_route rq (λ user,
    AdminService.unlockUser userId (ru_userId user) ;;; respond rq 200 (done_with "unlocked")).

Definition reset_mfa_route rq (userId : string) : M Response :=
  admin_route rq (λ user,
    AdminService.resetUserMfa userId (ru_userId user) ;;; respond rq 200 (done_with "mfaReset")).

Definition payment_recovery_route rq (orgId : string) : M Response :=
  admin_route rq (λ user,
    AdminService.triggerPaymentRecovery orgId (ru_userId user) ;;; respond rq 202 (done_with "queued")).

Definition replay_outbox_route rq (eventId : string) : M Response :=
  admin_route rq (λ user,
    AdminService.replayOutboxEvent eventId (ru_userId user) ;;; respond rq 200 (done_with "replayed")).

(** [getFailed] and [retry] are BullMQ's. *)
Definition requeue_dlq_route (getFailed : string → M (list Job)) (retry : Job → M unit) rq (queueName : string)
    : M Response :=
  admin_route rq (λ user,
    let* count := AdminService.requeueDlqJobs getFailed retry queueName (ru_userId user) in
    respond rq 200 (JObj [("requeued", JNum (Z.of_nat count))])).

Definition reindex_route rq (orgId : string) : M Response :=
  admin_route rq (λ user,
    AdminService.triggerSearchReindex orgId (ru_userId user) ;;; respond rq 202 (done_with "queued")).

(** The answer, and the key store after it. *)
Definition rotate_keys rq body (user : ReqUser) : M (Response * gmap string string) :=
  validated rotateKeysSchema as_key body (λ key,
    let* store := AdminService.rotateJwtKeys key.1 key.2 (ru_userId user) keyStore in
    let* response := respond rq 200 (JObj [("rotated", JBool true); ("kid", JStr key.2)]) in
    ret (response, store)).

Definition rotate_keys_route rq body : M (Response * gmap string string) :=
  catch (PlatformAdmin.adminMiddleware keyStore allowlist rq (rotate_keys rq body))
    (λ e, ret (error_response (rq_id rq) e, keyStore)).
End router.
End AdminRouter.

Module FeatureFlagRouter.
Section schemas.
Context `{Zod}.

Definition createFlagSchema : ZodType := z_object
  [("key", z_string [CMin 1; CMax 100]); ("is_globally_enabled", z_optional z_boolean);
   ("description", z_optional (z_string [])); ("enabled_org_ids", z_optional (z_array (z_string [CUuid]) []));
   ("disabled_org_ids", z_optional (z_array (z_string [CUuid]) []))]%string.
Definition as_flag (body : json) : option FeatureFlagService.CreateFlagData :=
  key ← required "key" as_string body;
  enabled ← optional "is_globally_enabled" as_boolean body;
  description ← optional "description" as_string body;
  enabled_orgs ← optional "enabled_org_ids" (as_array as_string) body;
  disabled_orgs ← optional "disabled_org_ids" (as_array as_string) body;
  Some (FeatureFlagService.mkCreateFlagData key enabled description enabled_orgs disabled_orgs).

Definition updateFlagSchema : ZodType := z_object
  [("is_globally_enabled", z_optional z_boolean); ("description", z_optional (z_string []));
   ("enabled_org_ids", z_optional (z_array (z_string [CUuid]) []));
   ("disabled_org_ids", z_optional (z_array (z_string [CUuid]) []))]%string.
Definition as_flag_update (body : json) : option FeatureFlagService.UpdateFlagData :=
  enabled ← optional "is_globally_enabled" as_boolean body;
  description ← optional "description" as_string body;
  enabled_orgs ← optional "enabled_org_ids" (as_array as_string) body;
  disabled_orgs ← optional "disabled_org_ids" (as_array as_string) body;
  Some (FeatureFlagService.mkUpdateFlagData enabled enabled_orgs disabled_orgs description).
End schemas.

Section router.
Context `{Redis, !RedisHash, Random, Config, Crypto, Zod, IpAddr}.
Context (keyStore : gmap string string) (allowlist : option string).
Implicit Types (rq : Request) (body : option json).

Definition list_flags_route rq : M Response :=
  AdminRouter.admin_route keyStore allowlist rq (λ _,
    let* flags := FeatureFlagService.listFlags in
    respond rq 200 (jlist flag_json flags)).

Definition create_flag_route rq body : M Response :=
  AdminRouter.admin_route keyStore allowlist rq (λ _,
    validated createFlagSchema as_flag body (λ data,
      let* flag := FeatureFlagService.createFlag data in
      respond rq 201 (flag_json flag))).

Definition update_flag_route rq (id : string) body : M Response :=
  AdminRouter.admin_route keyStore allowlist rq (λ _,
    validated updateFlagSchema as_flag_update body (λ data,
      let* flag := FeatureFlagService.updateFlag id data in
      match flag with
      | None => ret (mkResponse 404 (JObj [("error", JStr "Feature flag not found")]))
      | Some flag => respond rq 200 (flag_json flag)
      end)).

Definition delete_flag_route rq (id : string) : M Response :=
  AdminRouter.admin_route keyStore allowlist rq (λ _,
    FeatureFlagService.deleteFlag id ;;;
    respond rq 200 (JObj [("deleted", JBool true)])).
End router.
End FeatureFlagRouter.
