(* ===== verification/Search.v ===== *)
(** * Search: full-text search over an organization

    [modules/search]: the provider of PostgreSQL and the one of Typesense
    behind one interface, the service that falls back from one to the other,
    the route, and the worker that keeps the index.  What a text query matches
    and how it ranks is PostgreSQL's. *)
From S2P Require Import Prelude Schema World Crypto Concrete OrgRepo TaskRepo Session Auth Organization Http OrgAccess Zod RowJson TenantRoutes.
From Stdlib Require Import ZArith Lia Ascii.
From stdpp Require Import base tactics strings gmap list sorting.

Inductive entity_type := Task | Message | File | User.
#[export] Instance entity_type_eq_dec : EqDecision entity_type.
Proof. solve_decision. Defined.
Definition entity_type_str (t : entity_type) : string :=
  match t with Task => "task" | Message => "message" | File => "file" | User => "user" end.
Definition all_types : list entity_type := [Task; Message; File; User].

Record SearchDocument := mkSearchDocument {
  sd_id : string;
  sd_org_id : string;
  sd_entity_type : string;
  sd_title : option string;
  sd_body : option string;
  sd_metadata : option json
}.

Record SearchResult := mkSearchResult {
  sr_id : string;
  sr_entity_type : entity_type;
  sr_score : Z;
  sr_metadata : option json
}.

Record SearchOptions := mkSearchOptions {
  so_query : string;
  so_orgId : string;
  so_entityTypes : option (list entity_type);
  so_limit : Z;
  so_offset : Z
}.

Record SearchResponse := mkSearchResponse {
  rs_results : list SearchResult;
  rs_total : nat;
  rs_degraded : bool
}.

Record ISearchProvider `{Redis} := mkISearchProvider {
  upsertDocument : SearchDocument → M unit;
  deleteDocument : string → string → M unit;
  provider_search : SearchOptions → M SearchResponse;
  reindexAll : string → M unit
}.

(** [ts_rank(to_tsvector('english', text), plainto_tsquery('english', q))],
    none when the text does not match; [text ILIKE pattern]; and the rank 1 on
    the same scale. *)
Class FullText := {
  ts_rank : string → string → option Z;
  ilike : string → string → bool;
  score_one : Z;
}.

(** [jsonb_to_search_text]: the strings of a document, level by level, down to
    depth 20. *)
Definition json_children (j : json) : list json :=
  match j with JArr l => l | JObj fs => snd <$> fs | _ => [] end.
Definition json_string (j : json) : option string := match j with JStr s => Some s | _ => None end.
Fixpoint json_texts (depth : nat) (nodes : list json) : list string :=
  omap json_string nodes ++
  match depth with O => [] | S depth => json_texts depth (nodes ≫= json_children) end.
Definition jsonb_to_search_text (j : json) : string := String.concat " " (json_texts 20 [j]).

(** The columns [search_vector] are made of. *)
Definition task_text (t : TaskRow) : string :=
  t_title t +:+ " " +:+ jsonb_to_search_text (t_description t ?? JObj []).
Definition message_text (m : ChatMessageRow) : string := msg_body m.

(** By descending score; equal scores keep their order. *)
Definition better (a b : SearchResult) : Prop := (sr_score b ≤ sr_score a)%Z.
#[export] Instance better_dec : RelDecision better.
Proof. intros a b. unfold better. apply _. Defined.

Definition page {A} (limit offset : Z) (l : list A) : list A := take (Z.to_nat limit) (drop (Z.to_nat offset) l).

Module PostgresFtsProvider.
Section provider.
Context `{Redis, FullText}.

Definition task_result (query : string) (t : TaskRow) : option SearchResult :=
  rank ← ts_rank (task_text t) query;
  Some (mkSearchResult (t_id t) Task rank (Some (JObj [("title", JStr (t_title t))]))).
Definition message_result (query : string) (m : ChatMessageRow) : option SearchResult :=
  rank ← ts_rank (message_text m) query;
  Some (mkSearchResult (msg_id m) Message rank None).
Definition file_result (f : FileRow) : SearchResult :=
  mkSearchResult (f_id f) File score_one (Some (JObj [("filename", JStr (f_filename f))])).
Definition user_result (u : UserRow) : SearchResult :=
  mkSearchResult (u_id u) User score_one (Some (JObj [("name", JStr (u_name u)); ("email", JStr (u_email u))])).

Definition pattern (query : string) : string := "%" +:+ query +:+ "%".

Definition search_tasks (query orgId : string) (limit offset : Z) : M (list SearchResult) :=
  let* rows := select (λ t, (t_org_id t =? orgId)%string && is_null (t_deleted_at t)) in
  ret (page limit offset (merge_sort better (omap (task_result query) rows))).

Definition search_messages (query orgId : string) (limit offset : Z) : M (list SearchResult) :=
  let* rows := select (λ m, (msg_org_id m =? orgId)%string && is_null (msg_deleted_at m)) in
  ret (page limit offset (merge_sort better (omap (message_result query) rows))).

Definition search_files (query orgId : string) (limit offset : Z) : M (list SearchResult) :=
  let* rows := select (λ f, (f_org_id f =? orgId)%string && is_null (f_deleted_at f) &&
                            ilike (f_filename f) (pattern query)) in
  ret (page limit offset (file_result <$> rows)).

Definition active_membership (orgId userId : string) (m : MembershipRow) : bool :=
  (om_user_id m =? userId)%string && (om_org_id m =? orgId)%string && bool_decide (om_status m = MActive) &&
  is_null (om_deleted_at m).

(** One row per membership the JOIN finds. *)
Definition search_users (query orgId : string) (limit offset : Z) : M (list SearchResult) :=
  let* us := select (λ u, ilike (u_name u) (pattern query) || ilike (u_email u) (pattern query)) in
  let* ms := select (R := MembershipRow) (λ _, true) in
  ret (page limit offset
    (us ≫= λ u, (λ _, user_result u) <$> List.filter (active_membership orgId (u_id u)) ms)).

Definition when (b : bool) (m : M (list SearchResult)) : M (list SearchResult) := if b then m else ret [].

Definition search (o : SearchOptions) : M SearchResponse :=
  let types := so_entityTypes o ?? all_types in
  let asks t := bool_decide (t ∈ types) in
  let* tasks := when (asks Task) (search_tasks (so_query o) (so_orgId o) (so_limit o) (so_offset o)) in
  let* messages := when (asks Message) (search_messages (so_query o) (so_orgId o) (so_limit o) (so_offset o)) in
  let* files := when (asks File) (search_files (so_query o) (so_orgId o) (so_limit o) (so_offset o)) in
  let* users := when (asks User) (search_users (so_query o) (so_orgId o) (so_limit o) (so_offset o)) in
  let results := merge_sort better (tasks ++ messages ++ files ++ users) in
  ret (mkSearchResponse (take (Z.to_nat (so_limit o)) results) (length results) false).

(** [SET updated_at = NOW()], and [SET body = body], which changes nothing. *)
Definition reindex (orgId : string) : M unit :=
  let* t := now in
  let* _ := update_where (λ r, (t_org_id r =? orgId)%string && is_null (t_deleted_at r))
    (λ r, r <| t_updated_at := t |>) in
  let* _ := update_where (λ r, (msg_org_id r =? orgId)%string && is_null (msg_deleted_at r))
    (λ r, r <| msg_body := msg_body r |>) in
  ret tt.

(** The generated columns are the index. *)
Definition provider : ISearchProvider :=
  {| upsertDocument _ := ret tt; deleteDocument _ _ := ret tt; provider_search := search; reindexAll := reindex |}.
End provider.
End PostgresFtsProvider.

(** ** Typesense *)

(** The client of the [typesense] library, one method per call. *)
Class TypesenseClient `{Redis} := {
  ts_create : json → M unit;
  ts_upsert : string → json → M unit;
  ts_delete : string → string → M unit;
  (** The hits of a search: [document.id] and [text_match]. *)
  ts_search : string → json → M (list (string * Z));
}.

(** The server of Typesense does not write the database. *)
Class TypesenseLaws `{Redis} (C : TypesenseClient) : Prop := {
  ts_create_outside : ∀ schema w, db (ts_create schema w).2 = db w;
  ts_search_outside : ∀ c p w, db (ts_search c p w).2 = db w;
}.

Module TypesenseProvider.

Definition field (name : string) : json := JObj [("name", JStr name); ("type", JStr "string")].
Definition collection (name : string) (fields : list json) : json :=
  JObj [("name", JStr name);
        ("fields", JArr (field "id" :: JObj [("name", JStr "org_id"); ("type", JStr "string"); ("facet", JBool true)] :: fields));
        ("default_sorting_field", JStr "")].
Definition COLLECTIONS : list (string * json) :=
  [("tasks", collection "tasks"
     [field "title"; JObj [("name", JStr "body"); ("type", JStr "string"); ("optional", JBool true)]]);
   ("chat_messages", collection "chat_messages" [field "body"]);
   ("files", collection "files" [field "filename"]);
   ("users", collection "users" [field "name"; field "email"])]%string.

(** [collectionMap[entityType]]. *)
Definition collectionMap (t : string) : option string :=
  match List.find (λ e, (entity_type_str e =? t)%string) all_types with
  | Some Task => Some "tasks" | Some Message => Some "chat_messages"
  | Some File => Some "files" | Some User => Some "users" | None => None
  end%string.

Section provider.
Context `{Redis, !TypesenseClient}.

Definition quietly (m : M unit) : M unit := catch m (λ _, ret tt).

(** [initialized] is a field of the instance; the worker makes a new one for
    each job. *)
Definition ensureCollections (initialized : bool) : M unit :=
  if initialized then ret tt else for_each (snd <$> COLLECTIONS) (λ schema, quietly (ts_create schema)).

Definition metadata_text (k : string) (doc : SearchDocument) : string :=
  match sd_metadata doc with Some m => jstr k m ?? "" | None => "" end.

Definition upsertDocument (initialized : bool) (doc : SearchDocument) : M unit :=
  ensureCollections initialized ;;;
  match collectionMap (sd_entity_type doc) with
  | None => ret tt
  | Some collection =>
      ts_upsert collection
        (JObj [("id", JStr (sd_id doc)); ("org_id", JStr (sd_org_id doc)); ("title", JStr (sd_title doc ?? ""));
               ("body", JStr (sd_body doc ?? "")); ("filename", JStr (metadata_text "filename" doc));
               ("name", JStr (metadata_text "name" doc)); ("email", JStr (metadata_text "email" doc))])
  end.

Definition deleteDocument (initialized : bool) (id _orgId : string) : M unit :=
  ensureCollections initialized ;;;
  for_each (fst <$> COLLECTIONS) (λ collection, quietly (ts_delete collection id)).

Definition query_by (t : entity_type) : string :=
  match t with Task => "title,body" | Message => "body" | File => "filename" | User => "name,email" end.

Definition params (o : SearchOptions) (t : entity_type) : json :=
  JObj [("q", JStr (so_query o)); ("query_by", JStr (query_by t));
        ("filter_by", JStr ("org_id:=" +:+ so_orgId o)); ("per_page", JNum (so_limit o));
        ("page", JNum (so_offset o / so_limit o + 1))].

(** A search that fails finds nothing. *)
Definition search_type (o : SearchOptions) (t : entity_type) : M (list SearchResult) :=
  match collectionMap (entity_type_str t) with
  | None => ret []
  | Some collection =>
      catch
        (let* hits := ts_search collection (params o t) in
         ret ((λ hit, mkSearchResult hit.1 t hit.2 None) <$> hits))
        (λ _, ret [])
  end.

Fixpoint search_types (o : SearchOptions) (types : list entity_type) : M (list SearchResult) :=
  match types with
  | [] => ret []
  | t :: types =>
      let* found := search_type o t in
      let* rest := search_types o types in
      ret (found ++ rest)
  end.

Definition search (initialized : bool) (o : SearchOptions) : M SearchResponse :=
  ensureCollections initialized ;;;
  let* results := search_types o (so_entityTypes o ?? all_types) in
  ret (mkSearchResponse results (length results) false).

Definition provider (initialized : bool) : ISearchProvider :=
  @mkISearchProvider _ (upsertDocument initialized) (deleteDocument initialized) (search initialized) (λ _, ret tt).
End provider.
End TypesenseProvider.

(** ** The service, its route and the worker *)

(** [searchBreaker.fire], opossum's. *)
Class SearchBreaker `{Redis} := search_breaker : M SearchResponse → M SearchResponse.

Module SearchService.
Section service.
Context `{Redis, FullText, !TypesenseClient, !SearchBreaker}.

(** [config.searchProvider] is ['typesense'], and whether the instance of this
    process has made its collections. *)
Context (typesense initialized : bool).

Definition getActiveProvider : ISearchProvider :=
  if typesense then TypesenseProvider.provider initialized else PostgresFtsProvider.provider.

Definition search (o : SearchOptions) : M SearchResponse :=
  catch (search_breaker (provider_search getActiveProvider o))
    (λ _,
      let* fallback := PostgresFtsProvider.search o in
      ret (mkSearchResponse (rs_results fallback) (rs_total fallback) true)).
End service.
End SearchService.

Module SearchRouter.
Section router.
Context `{Redis, Random, Config, Crypto, Zod, FullText, !TypesenseClient, !SearchBreaker}.
Context (keyStore : gmap string string) (typesense initialized : bool).

Definition searchQuerySchema : ZodType := z_object
  [("q", z_string [CMin 1; CMax 200]); ("entity_types", z_optional (z_string []));
   ("limit", z_default (z_coerce_number [CInt; CMin 1; CMax 100]) (JNum 20));
   ("offset", z_default (z_coerce_number [CInt; CMin 0]) (JNum 0))]%string.

(** The types named, in the order they are named; the unknown ones are
    dropped. *)
Definition entity_types (param : option string) : option (list entity_type) :=
  if otruthy param
  then Some (omap (literal entity_type_str all_types) (split_on ","%char (param ?? "")))
  else None.
Definition as_search (orgId : string) (query : json) : option SearchOptions :=
  q ← required "q" as_string query;
  entityTypes ← optional "entity_types" as_string query;
  limit ← required "limit" as_number query;
  offset ← required "offset" as_number query;
  Some (mkSearchOptions q orgId (entity_types entityTypes) limit offset).

Definition result_json (r : SearchResult) : json :=
  JObj ([("id", JStr (sr_id r)); ("entity_type", JStr (entity_type_str (sr_entity_type r)));
         ("score", JNum (sr_score r))]%string ++
        match sr_metadata r with Some m => [("metadata", m)]%string | None => [] end).
Definition response_json (r : SearchResponse) : json :=
  JObj ([("results", jlist result_json (rs_results r)); ("total", JNum (Z.of_nat (rs_total r)))]%string ++
        if rs_degraded r then [("degraded", JBool true)]%string else []).

Definition search_route (rq : Request) (query : option json) : M Response :=
  handled rq (OrgContext.orgMiddleware keyStore rq (λ _ c,
    validated searchQuerySchema (as_search (oc_orgId c)) query (λ o,
      let* result := SearchService.search typesense initialized o in
      if rs_degraded result
      then ret (mkResponse 200 (JObj [("data", response_json result); ("meta", JObj [("search_degraded", JBool true)])]))
      else respond rq 200 (response_json result)))).
End router.
End SearchRouter.

Inductive index_action := IndexUpsert | IndexDelete.
Definition index_action_str (a : index_action) : string := match a with IndexUpsert => "upsert" | IndexDelete => "delete" end.

Record SearchIndexJobData := mkSearchIndexJobData {
  sj_entityType : entity_type;
  sj_entityId : string;
  sj_orgId : string;
  sj_action : index_action;
  sj_document : option (option string * option string * option json)
}.

Module SearchWorker.
Section worker.
Context `{Redis, FullText, !TypesenseClient}.
Context (typesense : bool).

Definition IDEMPOTENCY_TTL : Z := 5 * 60.

(** A new provider for each job. *)
Definition getProvider : ISearchProvider :=
  if typesense then TypesenseProvider.provider false else PostgresFtsProvider.provider.

Definition indexed_events : list string :=
  ["task.created"; "task.updated"; "task.deleted"; "message.created"; "message.deleted"; "file.confirmed";
   "file.deleted"]%string.

(** What the gauge is set to: the age of the oldest pending event, in
    milliseconds, or zero. *)
Definition updateSearchIndexLag : M Z :=
  catch
    (let* t := now in
     let* events := select (λ e, bool_decide (ob_status e = ObPending) && includes indexed_events (ob_event_type e)) in
     ret (foldr (λ e, Z.max (t - ob_occurred_at e)) 0%Z events))
    (λ _, ret 0%Z).

(** The processor on what the destructuring of [job.data] gives: the fields as
    they are, with no check, [entityId] being [undefined] when there is none.
    [undefined] in a template is the text of it. *)
Section destructured.
Context (entityType : string) (entityId : option string) (orgId action : string).
Context (document : option (option string * option string * option json)).

Definition idempotencyKey : string :=
  "search:indexed:" +:+ entityType +:+ ":" +:+ (entityId ?? "undefined") +:+ ":" +:+ action.

Definition document_of : SearchDocument :=
  let '(title, body, metadata) := document ?? (None, None, None) in
  mkSearchDocument (entityId ?? "") orgId entityType title body metadata.

Definition index : M unit :=
  let* alreadyProcessed := rget idempotencyKey in
  match alreadyProcessed with
  | Some _ => ret tt
  | None =>
      (if (action =? "delete")%string
       then deleteDocument getProvider (entityId ?? "") orgId
       else upsertDocument getProvider document_of) ;;;
      rset idempotencyKey (RText "1") (Some IDEMPOTENCY_TTL) ;;;
      let* _ := updateSearchIndexLag in
      ret tt
  end.
End destructured.

(** On data of the type of its jobs. *)
Definition searchWorkerJob (job : SearchIndexJobData) : M unit :=
  index (entity_type_str (sj_entityType job)) (Some (sj_entityId job)) (sj_orgId job)
    (index_action_str (sj_action job)) (sj_document job).
End worker.
End SearchWorker.

(** ** The best results *)

(** [k] of the elements, none of those left out better than one of them. *)
Definition best_of (k : nat) (l chosen : list SearchResult) : Prop :=
  StronglySorted better chosen ∧ length chosen = k `min` length l ∧
  ∃ rest, chosen ++ rest ≡ₚ l ∧ ∀ x y, x ∈ chosen → y ∈ rest → better x y.

Section best.
Implicit Types (x y : SearchResult) (l : list SearchResult).

#[local] Instance better_total : Total better.
Proof. intros a b. unfold better. lia. Qed.
#[local] Instance better_trans : Transitive better.
Proof. intros a b c. unfold better. lia. Qed.

Lemma sorted_scores l : (∀ x y, x ∈ l → y ∈ l → sr_score x = sr_score y) → StronglySorted better l.
Proof.
  induction l as [|x l IH]; intros Hl; [constructor|]. constructor.
  - apply IH. intros. apply Hl; by right.
  - apply Forall_forall. intros y Hy. unfold better. rewrite (Hl x y); [lia|by left|by right].
Qed.

Lemma sorted_take_drop k l x y : StronglySorted better l → x ∈ take k l → y ∈ drop k l → better x y.
Proof.
  intros Hs. rewrite <- (take_drop k l) in Hs. intros Hx Hy. by apply (StronglySorted_app_1_elem_of better (take k l) (drop k l)).
Qed.

(** Those better than [x] by more than a tie. *)
Definition above x l : list SearchResult := filter (λ y, sr_score x < sr_score y)%Z l.

Lemma above_all x l : (∀ y, y ∈ l → sr_score x < sr_score y)%Z → above x l = l.
Proof.
  unfold above. induction l as [|y l IH]; intros Hl; [done|]. rewrite filter_cons_True by (apply Hl; by left).
  f_equal. apply IH. intros z Hz. apply Hl. by right.
Qed.

Lemma above_none x l : (∀ y, y ∈ l → sr_score y ≤ sr_score x)%Z → above x l = [].
Proof.
  unfold above. induction l as [|y l IH]; intros Hl; [done|].
  rewrite filter_cons_False by (apply Z.nlt_ge, Hl; by left). apply IH. intros z Hz. apply Hl. by right.
Qed.

(** In the first [k] of a sorted list, fewer than [k] are above any of them. *)
Lemma few_above k x l : StronglySorted better l → x ∈ take k l → length (above x l) < k.
Proof.
  intros Hs Hx. rewrite <- (take_drop k l) at 1. unfold above. rewrite filter_app, length_app.
  fold (above x (take k l)) (above x (drop k l)). rewrite (above_none x (drop k l)).
  - cbn. rewrite Nat.add_0_r. apply Nat.lt_le_trans with (length (take k l)); [|rewrite length_take; lia].
    apply length_filter_lt with x; [done|lia].
  - intros y. by apply (sorted_take_drop k).
Qed.

Lemma concat_take_drop k (ls : list (list SearchResult)) :
  concat (take k <$> ls) ++ concat (drop k <$> ls) ≡ₚ concat ls.
Proof.
  induction ls as [|l ls IH]; [done|]. cbn. rewrite <- IH. rewrite <- (take_drop k l) at 3. solve_Permutation.
Qed.

Lemma length_concat_take k (ls : list (list SearchResult)) :
  k `min` length (concat (take k <$> ls)) = k `min` length (concat ls).
Proof. induction ls as [|l ls IH]; [done|]. cbn. rewrite !length_app, length_take. lia. Qed.

(** The best of each list, merged, are the best of all. *)
Lemma best_merge k ls :
  Forall (StronglySorted better) ls →
  best_of k (concat ls) (take k (merge_sort better (concat (take k <$> ls)))).
Proof.
  intros Hls. set (M := merge_sort better _).
  assert (HM : M ≡ₚ concat (take k <$> ls)) by apply merge_sort_Permutation.
  assert (HsM : StronglySorted better M) by by apply (StronglySorted_merge_sort better).
  split; [by apply (StronglySorted_app_1_l better _ (drop k M)); rewrite take_drop|].
  split; [by rewrite length_take, HM, length_concat_take|].
  exists (drop k M ++ concat (drop k <$> ls)). split.
  { by rewrite app_assoc, take_drop, HM, concat_take_drop. }
  intros x y Hx [Hy|Hy]%elem_of_app; [by apply (sorted_take_drop k M)|].
  apply list_elem_of_In, in_concat in Hy as (? & Hl & Hy). apply list_elem_of_In in Hy.
  apply list_elem_of_In, list_elem_of_fmap in Hl as (l & -> & Hl).
  unfold better. destruct (Z.le_gt_cases (sr_score y) (sr_score x)) as [|Hlt]; [done|exfalso].
  rewrite Forall_forall in Hls. pose proof (few_above k x M HsM Hx) as Hfew.
  assert (Hk : above x (take k l) = take k l).
  { apply above_all. intros z Hz. pose proof (sorted_take_drop k l z y (Hls l Hl) Hz Hy). unfold better in *. lia. }
  assert (Hlen : length (take k l) = k).
  { rewrite length_take. assert (drop k l ≠ []) as Hne by (intros E; rewrite E in Hy; by apply elem_of_nil in Hy).
    destruct (decide (length l ≤ k)) as [Hle|]; [by rewrite drop_ge in Hne|lia]. }
  apply elem_of_Permutation in Hl as [ls' Hp].
  assert (length (above x (concat (take k <$> ls))) = length (above x (take k l ++ concat (take k <$> ls')))) as E.
  { unfold above. apply Permutation_length. by rewrite Hp. }
  unfold above in *. rewrite HM in Hfew. rewrite E, filter_app, length_app, Hk in Hfew. lia.
Qed.
End best.

(** The breaker runs the search, or fails: before it is run, when it is open,
    or after, when it took too long. *)
Class BreakerLaws `{Redis} (B : SearchBreaker) : Prop :=
  breaker_cases : ∀ (m : M SearchResponse) w, search_breaker m w = m w ∨
    ∃ e w', search_breaker m w = (Throw e, w') ∧ (w' = w ∨ w' = (m w).2).

Section spec.
Context `{Redis, FullText}.

(** Everything a search could answer, one list per type it asks for. *)
Definition matches (o : SearchOptions) (d : DB) : list (list SearchResult) :=
  let q := so_query o in
  let asked t l := if bool_decide (t ∈ so_entityTypes o ?? all_types) then l else [] in
  [asked Task (omap (PostgresFtsProvider.task_result q)
     (List.filter (λ t, (t_org_id t =? so_orgId o)%string && is_null (t_deleted_at t)) (tasks d)));
   asked Message (omap (PostgresFtsProvider.message_result q)
     (List.filter (λ m, (msg_org_id m =? so_orgId o)%string && is_null (msg_deleted_at m)) (chat_messages d)));
   asked File (PostgresFtsProvider.file_result <$>
     List.filter (λ f, (f_org_id f =? so_orgId o)%string && is_null (f_deleted_at f) &&
                       ilike (f_filename f) (PostgresFtsProvider.pattern q)) (files d));
   asked User (List.filter (λ u, ilike (u_name u) (PostgresFtsProvider.pattern q) ||
                                 ilike (u_email u) (PostgresFtsProvider.pattern q)) (users d) ≫= λ u,
     (λ _, PostgresFtsProvider.user_result u) <$>
       List.filter (PostgresFtsProvider.active_membership (so_orgId o) (u_id u)) (org_memberships d))].

(** The row a result is, in the organization. *)
Definition of_org (orgId : string) (d : DB) (r : SearchResult) : Prop :=
  match sr_entity_type r with
  | Task => ∃ t, t ∈ tasks d ∧ t_id t = sr_id r ∧ t_org_id t = orgId ∧ t_deleted_at t = None
  | Message => ∃ m, m ∈ chat_messages d ∧ msg_id m = sr_id r ∧ msg_org_id m = orgId ∧ msg_deleted_at m = None
  | File => ∃ f, f ∈ files d ∧ f_id f = sr_id r ∧ f_org_id f = orgId ∧ f_deleted_at f = None
  | User => ∃ u m, u ∈ users d ∧ u_id u = sr_id r ∧ m ∈ org_memberships d ∧ om_user_id m = u_id u ∧
      om_org_id m = orgId ∧ om_status m = MActive
  end.

Lemma matches_of_org o d r : r ∈ concat (matches o d) → of_org (so_orgId o) d r.
Proof.
  unfold matches. cbn [concat]. cbv zeta. rewrite !elem_of_app. unfold of_org.
  assert (Hask : ∀ (b : bool) (l : list SearchResult), r ∈ (if b then l else []) → r ∈ l).
  { intros [] l; [done|]. by intros ?%elem_of_nil. }
  intros [Hr|[Hr|[Hr|[Hr|?%elem_of_nil]]]]; [apply Hask in Hr..|done].
  - apply list_elem_of_omap in Hr as (t & Ht & Hr). unfold PostgresFtsProvider.task_result in Hr.
    destruct (ts_rank _ _); [|done]. injection Hr as <-. apply elem_of_filter_bool in Ht as [Ht Hb]. bool_to_prop.
    exists t. cbn. by destruct (t_deleted_at t).
  - apply list_elem_of_omap in Hr as (t & Ht & Hr). unfold PostgresFtsProvider.message_result in Hr.
    destruct (ts_rank _ _); [|done]. injection Hr as <-. apply elem_of_filter_bool in Ht as [Ht Hb]. bool_to_prop.
    exists t. cbn. by destruct (msg_deleted_at t).
  - apply list_elem_of_fmap in Hr as (t & -> & Ht). apply elem_of_filter_bool in Ht as [Ht Hb]. bool_to_prop.
    exists t. cbn. by destruct (f_deleted_at t).
  - apply list_elem_of_bind in Hr as (u & Hr & Hu). apply list_elem_of_fmap in Hr as (m & -> & Hm).
    apply elem_of_filter_bool in Hm as [Hm Hb], Hu as [Hu _]. unfold PostgresFtsProvider.active_membership in Hb.
    bool_to_prop. exists u, m. cbn.
    split_and!; try done. by eapply bool_decide_eq_true_1.
Qed.
End spec.

#[export] Instance best_of_proper k : Proper (Permutation ==> eq ==> iff) (best_of k).
Proof. intros l l' E c _ <-. unfold best_of. by setoid_rewrite E. Qed.

Module SearchProperties.
Section theorems.
Context `{Redis, FullText, !TypesenseClient, B : !SearchBreaker}.

Lemma sorted_asked (b : bool) l : (∀ x y, x ∈ l → y ∈ l → sr_score x = sr_score y) →
  StronglySorted better (if b then l else []).
Proof. intros Hl. destruct b; [|constructor]. by apply sorted_scores. Qed.

(** The lists of a search, each sorted. *)
Definition ranked (o : SearchOptions) (d : DB) : list (list SearchResult) :=
  match matches o d with
  | [ts; ms; fs; us] => [merge_sort better ts; merge_sort better ms; fs; us]
  | _ => []
  end.

Lemma ranked_matches o d : concat (ranked o d) ≡ₚ concat (matches o d).
Proof. unfold ranked, matches. cbn [concat]. by rewrite !merge_sort_Permutation. Qed.

Lemma ranked_sorted o d : Forall (StronglySorted better) (ranked o d).
Proof.
  assert (Total better) by (intros a b; unfold better; lia).
  assert (Transitive better) by (intros a b c; unfold better; lia).
  unfold ranked, matches. repeat apply Forall_cons_2; [by apply (StronglySorted_merge_sort better)..| | |constructor].
  - apply sorted_asked. by intros x y (f & -> & _)%list_elem_of_fmap (g & -> & _)%list_elem_of_fmap.
  - apply sorted_asked. intros x y (u & (m & -> & _)%list_elem_of_fmap & _)%list_elem_of_bind.
    by intros (v & (n & -> & _)%list_elem_of_fmap & _)%list_elem_of_bind.
Qed.

Lemma search_first o w : so_offset o = 0%Z →
  PostgresFtsProvider.search o w = (Ok (mkSearchResponse
    (take (Z.to_nat (so_limit o)) (merge_sort better (concat (take (Z.to_nat (so_limit o)) <$> ranked o (db w)))))
    (length (merge_sort better (concat (take (Z.to_nat (so_limit o)) <$> ranked o (db w))))) false), w).
Proof.
  intros Ho. unfold PostgresFtsProvider.search, PostgresFtsProvider.search_tasks, PostgresFtsProvider.search_messages,
    PostgresFtsProvider.search_files, PostgresFtsProvider.search_users, PostgresFtsProvider.when, page, bind, select, ret,
    ranked, matches. tables. rewrite Ho. cbv zeta.
  repeat case_bool_decide; cbn [concat fmap list_fmap];
    try change (merge_sort better []) with (@nil SearchResult); by rewrite ?drop_0, ?take_nil, ?app_nil_r, ?filter_all.
Qed.

(** C35: the first page of a search that PostgreSQL answers, whether it is the
    provider, asked directly or through an open breaker, or what is left when
    the breaker refuses Typesense, always comes, changes nothing, and is the
    best of everything that matches: as many results as the limit allows, in the
    order of their scores, none of those left out better than one of them, and
    each a live row of the organization, or one of its active members. *)
Theorem search_first_page `{!BreakerLaws B} typesense initialized o w :
  so_offset o = 0%Z →
  typesense = false ∨
    (∃ e, search_breaker (provider_search (SearchService.getActiveProvider typesense initialized) o) w = (Throw e, w)) →
  ∃ r, SearchService.search typesense initialized o w = (Ok r, w) ∧
    best_of (Z.to_nat (so_limit o)) (concat (matches o (db w))) (rs_results r) ∧
    Forall (of_org (so_orgId o) (db w)) (rs_results r).
Proof.
  intros Ho Hmode. pose proof (search_first o w Ho) as E. set (r := mkSearchResponse _ _ _) in E.
  assert (Hr : best_of (Z.to_nat (so_limit o)) (concat (matches o (db w))) (rs_results r)).
  { rewrite <- ranked_matches. apply best_merge, ranked_sorted. }
  assert (Ho' : Forall (of_org (so_orgId o) (db w)) (rs_results r)).
  { destruct Hr as (_ & _ & rest & Hp & _). apply Forall_forall. intros x Hx. apply matches_of_org.
    rewrite <- Hp. apply elem_of_app. by left. }
  clearbody r. destruct Hmode as [->|[e He]].
  2: { unfold SearchService.search, catch, bind. rewrite He, E. by eexists. }
  unfold SearchService.search, SearchService.getActiveProvider. cbn [provider_search PostgresFtsProvider.provider].
  unfold catch, bind. destruct (breaker_cases (PostgresFtsProvider.search o) w) as [->|(e & w' & -> & Hw)].
  - rewrite E. by exists r.
  - rewrite E in Hw. cbn [snd] in Hw. destruct Hw as [->| ->]; rewrite E; by eexists.
Qed.
End theorems.
End SearchProperties.

Module SearchExamples.
Import Concrete.

(** A text matches the words it contains, the better the sooner. *)
#[local] Instance full_text : FullText := {|
  ts_rank text q := (λ n, (100 - Z.of_nat n)%Z) <$> String.index 0 q text;
  ilike text pattern :=
    negb (is_null (String.index 0 (String.substring 1 (String.length pattern - 2) pattern) text));
  score_one := 1000
|}.

(** A client that only sends. *)
#[local] Instance client : TypesenseClient := {|
  ts_create _ := ret tt;
  ts_upsert c doc := λ w, (Ok tt, w <| outgoing := outgoing w ++ [HttpPost c [] doc] |>);
  ts_delete _ _ := ret tt;
  ts_search _ _ := ret []
|}.

(** An open breaker. *)
#[local] Instance open_breaker : SearchBreaker := λ _, throw (PlainError "Breaker is open").
#[local] Instance open_breaker_laws : BreakerLaws open_breaker.
Proof. intros m w. right. by do 2 eexists; split; [|left]. Qed.

Definition task (id title : string) (deleted : option Z) : TaskRow :=
  mkTaskRow id "org" "ws" None None 0 title None Todo Medium "ann" None None false None None None [] 0 deleted 0 0 1.
Definition report (id name : string) : FileRow :=
  mkFileRow id "org" "ann" name id "text/plain" 1 FConfirmed ScanClean None 0 None.

Definition indexed : World :=
  let w := empty_world 1000 in
  w <| db := (db w) <| tasks := [task "t1" "weekly plan" None; task "t2" "plan" None; task "t3" "plan" (Some 1%Z)] |>
                    <| files := [report "f1" "the plan.txt"] |> |>.

Definition asked (limit offset : Z) : SearchOptions := mkSearchOptions "plan" "org" None limit offset.

Lemma search_first_page_witness :
  ∃ r, SearchService.search false false (asked 2 0) indexed = (Ok r, indexed) ∧ sr_id <$> rs_results r = ["f1"; "t2"]%string.
Proof.
  destruct (SearchProperties.search_first_page false false (asked 2 0) indexed eq_refl (or_introl eq_refl)) as (r & E & _).
  exists r. split; [exact E|].
  assert (Ev : (λ r : result SearchResponse, match r with Ok r => sr_id <$> rs_results r | Throw _ => [] end)
    (SearchService.search false false (asked 2 0) indexed).1 = ["f1"; "t2"]%string) by (vm_compute; reflexivity).
  rewrite E in Ev. exact Ev.
Defined.

(** The offset is applied to each type: the result the first page of one has
    no room for is on no page. *)
Example pages_lose_results :
  (λ offset, (λ r : result SearchResponse, match r with Ok r => sr_id <$> rs_results r | Throw _ => [] end)
    (PostgresFtsProvider.search (asked 1 offset) indexed).1) <$> [0%Z; 1%Z; 2%Z; 3%Z] = [["f1"]; ["t1"]; []; []]%string.
Proof. vm_compute. reflexivity. Qed.

(** Typesense is asked for a page of each type, and the pages are put together
    as they come: two results for a limit of one, the better after the other. *)
Definition typesense_client : TypesenseClient := {|
  ts_create _ := ret tt; ts_upsert _ _ := ret tt; ts_delete _ _ := ret tt;
  ts_search c _ := ret (if (c =? "tasks")%string then [("t1", 10%Z)] else if (c =? "files")%string then [("f1", 20%Z)] else [])%string
|}.
Example typesense_exceeds_limit :
  (λ r : result SearchResponse, match r with Ok r => (λ x, (sr_id x, sr_score x)) <$> rs_results r | Throw _ => [] end)
    (@SearchService.search _ _ typesense_client (λ m, m) true true (asked 1 0) indexed).1 = [("t1", 10%Z); ("f1", 20%Z)]%string.
Proof. vm_compute. reflexivity. Qed.

(** An update within five minutes of another is not indexed. *)
Definition updated (title : string) : SearchIndexJobData :=
  mkSearchIndexJobData Task "t1" "org" IndexUpsert (Some (Some title, None, None)).
Example second_update_is_lost :
  length (outgoing (SearchWorker.searchWorkerJob true (updated "new title")
    (SearchWorker.searchWorkerJob true (updated "title") indexed).2).2) = 1.
Proof. vm_compute. reflexivity. Qed.

(** The job of the administrators' reindexing indexes nothing. *)
Example reindex_does_nothing :
  db (SearchWorker.index false "org" None "org" "reindex" None indexed).2 = db indexed ∧
  outgoing (SearchWorker.index true "org" None "org" "reindex" None indexed).2 = [].
Proof. vm_compute. by split. Qed.
End SearchExamples.
