(* ===== verification/DataExports.v ===== *)
(** * DataExports: the archives of a user's and an organization's data

    [user-export.worker.ts] and [org-export.worker.ts] of [modules/gdpr]: each
    job reads its tables page by page, writes every table as a JSON array of
    the archive it uploads, and sends the link to it.  The queries have no
    ORDER BY, so that PostgreSQL may give each page the rows in another order:
    the orders are parameters. *)
From S2P Require Import Prelude Schema World Concrete OrgRepo TaskRepo OrgAccess Files RowJson.
From Stdlib Require Import ZArith Lia.
From stdpp Require Import base tactics strings pretty gmap list.

Record ExportJobData := mkExportJobData {
  xj_userId : string;
  xj_orgId : string;
  xj_requestedAt : string
}.

(** The archive of [archiver], and its upload to S3: the key and the named
    texts. *)
Class ArchiveUpload `{Redis} := upload_archive : string → list (string * string) → M unit.

(** The order in which PostgreSQL gives the rows of a query without ORDER BY,
    which may be another for each LIMIT and OFFSET: all the rows, in any order. *)
Class RowOrder := {
  row_order : ∀ {A}, nat → nat → list A → list A;
  row_order_all : ∀ A limit offset (l : list A), row_order limit offset l ≡ₚ l
}.

(** [JSON.stringify] of a [Date]: [toISOString()], for the years 1000 to 9999. *)
Definition pad3 (n : Z) : string := if (n <? 100)%Z then "0" +:+ pad2 n else pretty n.
Definition toISOString (t : Z) : string :=
  iso_date t +:+ "T" +:+ pad2 (t / 3600000 mod 24) +:+ ":" +:+ pad2 (t / 60000 mod 60) +:+ ":" +:+
  pad2 (t / 1000 mod 60) +:+ "." +:+ pad3 (t mod 1000) +:+ "Z".
Definition jdate (t : Z) : json := JStr (toISOString t).

Section pagination.
Context `{Redis, !RowOrder}.

Definition pageSize : nat := 100.

(** LIMIT and OFFSET of a query. *)
Definition limited {A} (limit offset : nat) (l : list A) : list A := take limit (drop offset (row_order limit offset l)).
Definition fetch {R A} `{Table R} (P : R → bool) (f : R → A) (limit offset : nat) : M (list A) :=
  let* rows := select P in
  ret (limited limit offset (f <$> rows)).

(** What other requests do while a page is written out. *)
Context (pause : nat → M unit).

Fixpoint cursorPaginate {A} (fuel : nat) (query : nat → nat → M (list A)) (offset : nat) : M (list A) :=
  match fuel with
  | O => throw (PlainError "fuel")
  | S fuel =>
      let* rows := query pageSize offset in
      match rows with
      | [] => ret []
      | _ =>
          if (length rows <? pageSize)%nat then ret rows
          else
            pause offset ;;;
            let* rest := cursorPaginate fuel query (offset + pageSize) in
            ret (rows ++ rest)
      end
  end.


End pagination.

Module UserExport.

Definition assigned (userId : string) (assignees : list TaskAssigneeRow) (t : TaskRow) : bool :=
  existsb (λ a, (ta_task_id a =? t_id t)%string && (ta_user_id a =? userId)%string) assignees.

(** The rows each query selects, and their columns. *)
Definition task_columns (t : TaskRow) : json :=
  JObj [("id", JStr (t_id t)); ("title", JStr (t_title t)); ("description", jvalue (t_description t));
        ("status", JStr (task_status_str (t_status t))); ("created_at", jdate (t_created_at t))].
Definition user_task (userId orgId : string) (assignees : list TaskAssigneeRow) (t : TaskRow) : bool :=
  (t_org_id t =? orgId)%string && is_null (t_deleted_at t) && assigned userId assignees t.

(** [CASE WHEN author_id = $2 THEN name ELSE 'Org Member' END]. *)
Definition author_name (userId : string) (c : CommentRow) (author : UserRow) : string :=
  if (cm_author_id c =? userId)%string then u_name author else "Org Member".
Definition comment_columns (userId : string) (c : CommentRow) (author : UserRow) : json :=
  JObj [("id", JStr (cm_id c)); ("body", cm_body c); ("created_at", jdate (cm_created_at c));
        ("author_name", JStr (author_name userId c author))].
Definition org_comment (orgId : string) (c : CommentRow) : bool :=
  (cm_org_id c =? orgId)%string && is_null (cm_deleted_at c).
(** The JOIN with the author. *)
Definition joined_comments (userId : string) (us : list UserRow) (cs : list CommentRow) : list json :=
  omap (λ c, comment_columns userId c <$> List.find (λ u, (u_id u =? cm_author_id c)%string) us) cs.

Definition message_columns (m : ChatMessageRow) : json :=
  JObj [("id", JStr (msg_id m)); ("body", JStr (msg_body m)); ("created_at", jdate (msg_created_at m));
        ("channel_id", JStr (msg_channel_id m))].
Definition user_message (userId orgId : string) (m : ChatMessageRow) : bool :=
  (msg_org_id m =? orgId)%string && (msg_sender_id m =? userId)%string && is_null (msg_deleted_at m).

Definition file_columns (f : FileRow) : json :=
  JObj [("id", JStr (f_id f)); ("filename", JStr (f_filename f)); ("mime_type", JStr (f_mime_type f));
        ("size_bytes", JNum (f_size_bytes f)); ("created_at", jdate (f_created_at f))].
Definition user_file (userId orgId : string) (f : FileRow) : bool :=
  (f_org_id f =? orgId)%string && (f_uploader_id f =? userId)%string && is_null (f_deleted_at f).

Section worker.
Context `{Redis, Random, !StorageProvider, !ArchiveUpload, !RowOrder}.
Context (pause : nat → M unit) (fuel : nat) (s3_configured : bool).




Definition export_key (job : ExportJobData) : string :=
  "gdpr-exports/" +:+ xj_userId job +:+ "/" +:+ xj_requestedAt job +:+ ".zip".


End worker.
End UserExport.

(** [xj_userId] is the user who asked. *)
Module OrgExport.

Definition task_columns (t : TaskRow) : json :=
  JObj [("id", JStr (t_id t)); ("title", JStr (t_title t)); ("status", JStr (task_status_str (t_status t)));
        ("created_at", jdate (t_created_at t))].

Section worker.
Context `{Redis, Random, !StorageProvider, !ArchiveUpload, !RowOrder}.
Context (pause : nat → M unit) (fuel : nat) (s3_configured : bool).


Definition export_key (job : ExportJobData) : string :=
  "gdpr-exports/org/" +:+ xj_orgId job +:+ "/" +:+ xj_requestedAt job +:+ ".zip".


End worker.
End OrgExport.

(** ** Pages make up the table *)




Section pages.
Context `{Redis, !RowOrder}.
Context (d : DB) (pause : nat → M unit).









End pages.

Module ExportProperties.
Section theorems.
Context `{Redis, Random, !StorageProvider, !ArchiveUpload, !RowOrder}.
Context (d : DB) (pause : nat → M unit).

(** The tables of a user's archive: their tasks, messages and files, and every
    comment of the organization under a name that is not its author's. *)
Definition user_tables (userId orgId : string) : list (string * list json) :=
  [("tasks.json", UserExport.task_columns <$>
      List.filter (UserExport.user_task userId orgId (task_assignees d)) (tasks d));
   ("comments.json", UserExport.joined_comments userId (users d)
      (List.filter (UserExport.org_comment orgId) (comments d)));
   ("messages.json", UserExport.message_columns <$>
      List.filter (UserExport.user_message userId orgId) (chat_messages d));
   ("files.json", UserExport.file_columns <$> List.filter (UserExport.user_file userId orgId) (files d))]%string.
















End theorems.
End ExportProperties.

Module ExportExamples.
Import Concrete.

#[local] Instance storage : StorageProvider := LocalAdapter "3000".
(** A PostgreSQL that gives the rows in the order they were written. *)
#[local] Program Instance written_order : RowOrder := {| row_order _ _ _ l := l |}.
Next Obligation. done. Qed.

(** The upload is recorded as a request. *)
#[local] Instance to_s3 : ArchiveUpload := λ key entries w,
  (Ok tt, w <| outgoing := outgoing w ++ [HttpPost key [] (JObj ((λ e, (e.1, JStr e.2)) <$> entries))] |>).

Definition user (id name : string) : UserRow :=
  mkUserRow id id true None None name None None None false [] None false UActive 0 None None None None None None None 0 0.
Definition comment (id author : string) : CommentRow :=
  mkCommentRow id "org" "t1" author None (JStr id) false None None 0 0.
Definition upload (n : nat) : FileRow :=
  mkFileRow (pretty n) "org" "ann" (pretty n) (pretty n) "text/plain" 1 FConfirmed ScanClean None 0 None.

Definition stocked : World :=
  let w := empty_world 1000 in
  w <| db := (db w) <| users := [user "ann" "Ann"; user "bob" "Bob"] |>
                    <| comments := [comment "c1" "ann"; comment "c2" "bob"] |>
                    <| files := upload <$> seq 0 102 |> |>.



Definition comment_columns (id name : string) : json :=
  JObj [("id", JStr id); ("body", JStr id); ("created_at", JStr "1970-01-01T00:00:00.000Z"); ("author_name", JStr name)].

(** The comments of others are in the archive, without their names. *)
Example comments_of_others :
  List.nth_error (ExportProperties.user_tables (db stocked) "ann" "org") 1 =
    Some ("comments.json", [comment_columns "c1" "Ann"; comment_columns "c2" "Org Member"])%string.
Proof. vm_compute. reflexivity. Qed.

(** A row removed while a page is written out moves the next page: a row that
    stays in the table is left out. *)
Example deletion_skips_a_row :
  match cursorPaginate (λ _, let* _ := delete_where (λ f, (f_id f =? "0")%string) in ret tt) 2
    (fetch (λ _, true) f_id) 0 stocked with
  | (Ok ids, w) => (includes ids "100", includes (f_id <$> files (db w)) "100")
  | _ => (true, true)
  end = (false, true).
Proof. vm_compute. reflexivity. Qed.

(** A PostgreSQL that gives the second page its rows the other way round:
    with nothing written, a row is on both pages and another on none. *)
#[local] Program Instance turning_order : RowOrder :=
  {| row_order _ _ offset l := if Nat.eqb offset 0 then l else reverse l |}.
Next Obligation. intros A limit offset l. cbn. destruct (Nat.eqb _ _); [done|]. by rewrite reverse_Permutation. Qed.
Example pages_disagree :
  match @cursorPaginate _ (λ _, ret tt) _ 2 (@fetch _ turning_order _ _ _ (λ _, true) f_id) 0 stocked with
  | (Ok ids, _) => (length ids, length (List.filter (λ i, i =? "0")%string ids), includes ids "101")
  | _ => (0, 0, true)
  end = (102, 2, false).
Proof. vm_compute. reflexivity. Qed.
End ExportExamples.
