(* ===== verification/Cleanup.v ===== *)
(** * Cleanup: the hourly job

    [shared/jobs/cleanup.worker.ts]: every step of [runCleanupJob], and the
    monthly partitions of [audit_logs] it drops.  A row of the audit log is
    in the partition of the month it occurred in; dropping a partition
    deletes its rows.  Dates are those of a server in UTC. *)
From S2P Require Import Prelude Schema World Crypto Concrete Http Chat SignIn Outbox.
From Stdlib Require Import ZArith Lia.
From stdpp Require Import base tactics strings gmap list pretty.

(** A month, counted from January of year 0. *)
Definition month_of_day (z : Z) : Z :=
  let '(y, m, _) := civil_from_days z in (y * 12 + (m - 1))%Z.
Definition month_of (t : Z) : Z := month_of_day (t / 86400000).

(** [YYYY_MM]. *)
Definition month_label (m : Z) : string := pretty (m / 12)%Z +:+ "_" +:+ pad2 (m mod 12 + 1).

Section cleanup.
Context `{Redis, Random}.

Definition expireInvitations : M unit :=
  let* t := now in
  let* _ := update_where (λ i, bool_decide (inv_status i = InvPending) && (inv_expires_at i <? t)%Z)
    (λ i, i <| inv_status := InvExpired |>) in
  ret tt.

(** [createNextPartitions]: the partitions of the next two months, as the
    month they start and the month they end with, the one after. *)
Definition createNextPartitions (t : Z) : list (string * Z * Z) :=
  (λ i, let start := (month_of t + i)%Z in (month_label start, start, (start + 1)%Z)) <$> [1; 2]%Z.

(** The smallest retention over the active and suspended organizations, or
    90 days. *)
Definition min_retention (l : list OrgRow) : Z :=
  match o_retention_audit_days <$> List.filter (λ o, bool_decide (o_status o = OrgActive) || bool_decide (o_status o = OrgSuspended)) l with
  | [] => 90
  | d :: ds => foldr Z.min d ds
  end.

(** The months of the 24 partitions before the one of the cutoff. *)
Definition expired_months (t retention : Z) : list Z :=
  let cutoff := month_of (t - retention * 86400000) in
  (λ i, (cutoff - 1 - Z.of_nat i)%Z) <$> seq 0 24.

Definition drop_partition (m : Z) : M unit :=
  let* _ := delete_where (λ r, (month_of (al_occurred_at r) =? m)%Z) in ret tt.

Definition dropExpiredAuditLogPartitions : M unit :=
  let* orgs := select (R := OrgRow) (λ _, true) in
  let* t := now in
  for_each (expired_months t (min_retention orgs)) drop_partition.

(** A step that fails is logged. *)
Definition step_of (m : M unit) : M unit := catch m (λ _, ret tt).

(** The job.  [createNextPartitions] creates empty tables, so no row
    changes there, and the metric of the search index is not modelled. *)
Definition runCleanupJob : M unit :=
  step_of expireInvitations ;;;
  step_of cleanupIdempotencyKeys ;;;
  step_of purgePublished ;;;
  step_of purgeFailed ;;;
  step_of purgeAssertions ;;;
  dropExpiredAuditLogPartitions ;;;
  dropDeletedChannelSequences.
End cleanup.

(** ** The audit log is kept as long as the smallest retention *)

(** Months do not go back: checked day by day from 1970 to 2100. *)
Fixpoint months_grow (n : nat) (z : Z) : bool :=
  match n with
  | O => true
  | S n => (month_of_day z <=? month_of_day (z + 1))%Z && months_grow n (z + 1)
  end.

Lemma months_grow_spec n z d e :
  months_grow n z = true → (z ≤ d)%Z → (d ≤ e)%Z → (e ≤ z + Z.of_nat n)%Z → (month_of_day d ≤ month_of_day e)%Z.
Proof.
  revert z d. induction n as [|n IH]; intros z d Hg Hd He Hn; [assert (d = e) by lia; subst; lia|].
  cbn [months_grow] in Hg. apply andb_true_iff in Hg as [H1%Z.leb_le Hg].
  destruct (decide (d = z)) as [->|]; [|apply (IH (z + 1)%Z); [done|lia..]].
  destruct (decide (e = z)) as [->|]; [lia|]. etransitivity; [exact H1|]. apply (IH (z + 1)%Z); [done|lia..].
Qed.

Lemma months_grow_to_2100 : months_grow (Z.to_nat 47500) 0 = true.
Proof. vm_compute. reflexivity. Qed.

(** 2100-01-19. *)
Definition LAST_DAY : Z := 47500.

Lemma month_of_mono a b :
  (0 ≤ a)%Z → (a ≤ b)%Z → (b < LAST_DAY * 86400000)%Z → (month_of a ≤ month_of b)%Z.
Proof.
  intros Ha Hab Hb. unfold month_of, LAST_DAY in *.
  assert (0 ≤ a / 86400000)%Z by (apply Z.div_pos; lia).
  assert (a / 86400000 ≤ b / 86400000)%Z by (apply Z.div_le_mono; lia).
  assert (b / 86400000 < 47500)%Z by (apply Z.div_lt_upper_bound; lia).
  apply (months_grow_spec _ _ _ _ months_grow_to_2100); [lia..|]. rewrite Z2Nat.id; lia.
Qed.

Lemma foldr_min_le d ds x : x = d ∨ x ∈ ds → (foldr Z.min d ds ≤ x)%Z.
Proof.
  induction ds as [|y ds IH]; cbn.
  - intros [->|?%elem_of_nil]; [lia|done].
  - rewrite elem_of_cons. intros [?|[?|?]]; [specialize (IH (or_introl ltac:(done)))| |specialize (IH (or_intror ltac:(done)))]; lia.
Qed.

Section audit.
Context `{Redis, Random}.

Lemma drop_keeps ms r w :
  month_of (al_occurred_at r) ∉ ms → r ∈ audit_logs (db w) →
  r ∈ audit_logs (db (for_each ms drop_partition w).2).
Proof.
  revert w. induction ms as [|m ms IH]; intros w Hm Hr; [done|]. cbn [for_each]. unfold bind at 1, drop_partition, bind at 1, delete_where, ret.
  apply IH; [set_solver|]. cbn. tables. cbn. apply elem_of_filter_bool. split; [done|].
  apply negb_true_iff, Z.eqb_neq. set_solver.
Qed.

(** A row younger than the smallest retention of the organizations stays. *)
Lemma recent_audit_kept r w :
  r ∈ audit_logs (db w) →
  (0 ≤ clock w - min_retention (organizations (db w)) * 86400000 ≤ al_occurred_at r)%Z →
  (al_occurred_at r < LAST_DAY * 86400000)%Z →
  r ∈ audit_logs (db (dropExpiredAuditLogPartitions w).2).
Proof.
  intros Hr Hage Hlast. unfold dropExpiredAuditLogPartitions, bind, select, now. tables. rewrite filter_all.
  apply drop_keeps; [|done]. intros (i & E & _)%list_elem_of_fmap.
  pose proof (month_of_mono (clock w - min_retention (organizations (db w)) * 86400000) (al_occurred_at r)) as Hm. lia.
Qed.
End audit.

Module CleanupExamples.
Import Concrete.

Definition org (id : string) (days : Z) : OrgRow :=
  mkOrgRow id id id OrgActive PFree 0 None None None None 10 0 0 false None false 5 days None "UTC" "en-US" 0 0 1.

Definition row (id org : string) (t : Z) : AuditLogRow := mkAuditLogRow id (Some org) None ActUser "e" None None (JObj []) t.

(** 2024-06-15, with a row of January of each of two organizations. *)
Definition june : World :=
  let w := empty_world 1718409600000 in
  w <| db := (db w) <| organizations := [org "short" 90; org "long" 3650] |>
                    <| audit_logs := [row "a" "short" 1705276800000; row "b" "long" 1705276800000; row "c" "long" 1715000000000] |> |>.

(** The row of an organization that keeps its log for ten years goes with
    those of the one that keeps it for 90 days. *)
Example shortest_retention_rules : al_id <$> audit_logs (db (runCleanupJob june).2) = ["c"]%string.
Proof. vm_compute. reflexivity. Qed.

Example next_partitions : (λ '(l, _, _), l) <$> createNextPartitions 1718409600000 = ["2024_07"; "2024_08"]%string.
Proof. vm_compute. reflexivity. Qed.
End CleanupExamples.
