(* ===== verification/Realtime.v ===== *)
(** * Realtime: sockets, their rooms, and the broadcasters

    [shared/realtime]: the socket server, the room manager, and the
    broadcasters of tasks, messages and notifications.  A server keeps its
    connected sockets with the rooms each has joined; an event emitted to a
    room reaches the sockets that are in it. *)
From S2P Require Import Prelude Schema World Crypto Concrete Session RateLimiter FeatureFlags Chat Outbox Notifications.
From Stdlib Require Import ZArith Lia Ascii.
From stdpp Require Import base tactics strings gmap list sorting.

Record Socket := mkSocket {
  s_id : string;
  s_userId : string;
  s_orgId : string;
  s_role : string;
  s_rooms : list string
}.
#[export] Instance eta_Socket : Eta Socket := fun s =>
  mkSocket (s_id s) (s_userId s) (s_orgId s) (s_role s) (s_rooms s).

(** An event for the sockets of a room. *)
Record Emission := mkEmission {
  e_room : string;
  e_event : string;
  e_data : json
}.

Definition org_room (orgId : string) : string := "org:" +:+ orgId.
Definition user_room (orgId userId : string) : string := "org:" +:+ orgId +:+ ":user:" +:+ userId.
Definition task_room (orgId taskId : string) : string := "org:" +:+ orgId +:+ ":task:" +:+ taskId.
Definition channel_room (channelId : string) : string := "channel:" +:+ channelId.
Definition call_room (callId : string) : string := "call:" +:+ callId.

Definition join (room : string) (s : Socket) : Socket :=
  if includes (s_rooms s) room then s else s <| s_rooms := s_rooms s ++ [room] |>.
Definition leave (room : string) (s : Socket) : Socket :=
  s <| s_rooms := List.filter (λ r, negb (r =? room)%string) (s_rooms s) |>.

Module RoomManager.
Definition subscribeToTask (taskId orgId : string) : Socket → Socket := join (task_room orgId taskId).
Definition unsubscribeFromTask (taskId orgId : string) : Socket → Socket := leave (task_room orgId taskId).
Definition subscribeToCall (callId : string) : Socket → Socket := join (call_room callId).
Definition unsubscribeFromCall (callId : string) : Socket → Socket := leave (call_room callId).
End RoomManager.

Module SocketServer.
Section server.
Context `{Redis, !RedisZset, Random, Config, Crypto} (exec_rejects : bool) (keyStore : gmap string string).

Definition emitToOrg (orgId event : string) (data : json) : Emission := mkEmission (org_room orgId) event data.
Definition emitToUser (orgId userId event : string) (data : json) : Emission := mkEmission (user_room orgId userId) event data.
Definition emitToRoom (room event : string) (data : json) : Emission := mkEmission room event data.

(** The handshake: the claims of a token that verifies, and the two rooms of
    its user.  The list of revoked tokens is not asked. *)
Definition handshake (id : string) (token : option jwt_token) : M Socket :=
  match token with
  | None => throw (PlainError "auth:error — missing token")
  | Some token =>
      let* payload := JwtMiddleware.verifyToken keyStore token in
      match payload with
      | None => throw (PlainError "auth:error — invalid token")
      | Some p =>
          let userId := jstr "sub" p ?? "undefined" in
          let orgId := jstr "orgId" p ?? "undefined" in
          ret (join (user_room orgId userId) (join (org_room orgId)
                 (mkSocket id userId orgId (jstr "role" p ?? "undefined") [])))
      end
  end.

(** [io.on('connection')]: the rooms of the channels of the user. *)
Definition connection (s : Socket) : M Socket :=
  let* memberships := select (λ m, (chm_user_id m =? s_userId s)%string && is_null (chm_removed_at m)) in
  ret (foldl (λ s m, join (channel_room (chm_channel_id m)) s) s memberships).

Definition connect (id : string) (token : option jwt_token) : M Socket :=
  let* s := handshake id token in connection s.

(** The five-minute check: does the socket stay connected? *)
Definition revalidate (s : Socket) : M bool :=
  let* user := select_one (λ u, (u_id u =? s_userId s)%string) in
  let* membership := select_one (λ m, (om_user_id m =? s_userId s)%string && (om_org_id m =? s_orgId s)%string &&
    is_null (om_deleted_at m)) in
  ret (match user, membership with
       | Some u, Some m => bool_decide (u_status u = UActive) && bool_decide (om_status m = MActive)
       | _, _ => false
       end).

(** The events a client sends that change its rooms. *)
Inductive client_event :=
  | TaskSubscribe (taskId : string)
  | TaskUnsubscribe (taskId : string)
  | CallJoin (callId : string)
  | CallLeave (callId : string).

(** The handlers; past its rate a subscription does nothing. *)
Definition handle (s : Socket) (e : client_event) : M Socket :=
  match e with
  | TaskSubscribe taskId =>
      let* allowed := checkRateLimit exec_rejects ("rate:task_subscribe:" +:+ s_id s) 20 60 in
      ret (if allowed : bool then RoomManager.subscribeToTask taskId (s_orgId s) s else s)
  | TaskUnsubscribe taskId =>
      let* allowed := checkRateLimit exec_rejects ("rate:task_subscribe:" +:+ s_id s) 20 60 in
      ret (if allowed : bool then RoomManager.unsubscribeFromTask taskId (s_orgId s) s else s)
  | CallJoin callId => ret (RoomManager.subscribeToCall callId s)
  | CallLeave callId => ret (RoomManager.unsubscribeFromCall callId s)
  end.

(** [disconnect]: the presence of the user is announced to its
    organization. *)
Definition on_disconnect (s : Socket) : Emission :=
  mkEmission (org_room (s_orgId s)) "presence:update" (JObj [("userId", JStr (s_userId s)); ("status", JStr "offline")]).

(** Who receives an emission. *)
Definition receivers (sockets : list Socket) (e : Emission) : list Socket :=
  List.filter (λ s, includes (s_rooms s) (e_room e)) sockets.
End server.
End SocketServer.

(** ** Broadcasters *)

(** A value in a template string. *)
Definition shown (j : option json) : string :=
  match j with
  | Some (JStr s) => s
  | Some JNull => "null"
  | Some j => stringify j
  | None => "undefined"
  end.

Module TaskBroadcaster.
Import SocketServer.

(** A field of the payload that is a string and not empty. *)
Definition recipient (field : string) (payload : json) : option string :=
  match jstr field payload with Some u => if truthy u then Some u else None | None => None end.

(** What a message of [outbox:events] makes the broadcaster emit. *)
Definition on_message (event : json) : list Emission :=
  let eventType := jstr "event_type" event ?? "" in
  let orgId := shown (jget "org_id" event) in
  let room := task_room orgId (shown (jget "entity_id" event)) in
  let payload := jget "payload" event ?? JNull in
  if includes ["task.created"; "task.updated"; "task.deleted"; "task.status_changed"]%string eventType then
    [emitToRoom room eventType payload; emitToOrg orgId eventType payload]
  else if (eventType =? "task.assigned")%string then
    match recipient "assigneeId" payload with
    | Some u => [emitToUser orgId u eventType payload]
    | None => []
    end ++ [emitToRoom room eventType payload]
  else if includes ["task.commented"; "comment.created"]%string eventType then [emitToRoom room eventType payload]
  else if includes ["task.mentioned"; "mention.created"]%string eventType then
    match recipient "mentionedUserId" payload with
    | Some u => [emitToUser orgId u eventType payload]
    | None => []
    end
  else [].
End TaskBroadcaster.

Module NotificationBroadcaster.

(** [pmessage]: the room is read off the name of the Redis channel. *)
Definition on_pmessage (channel : string) (row : json) : Emission :=
  let parts := split_on ":" channel in
  mkEmission (user_room (nth 1 parts "undefined"%string) (nth 3 parts "undefined"%string)) "notification:new" row.
End NotificationBroadcaster.

Module ChatBroadcaster.
Definition ACK_RETRIES : nat := 3.

Definition on_message (event : json) : list Emission :=
  let eventType := jstr "event_type" event ?? "" in
  let payload := jget "payload" event ?? JNull in
  if negb ((eventType =? "message.created")%string || (eventType =? "message.received")%string) then []
  else match jstr "channelId" payload with
       | Some channelId => if truthy channelId then [mkEmission (channel_room channelId) eventType payload] else []
       | None => []
       end.

(** [emitWithAckRetry]: the sockets the event was sent to, attempt by
    attempt, given how many are in the room and whether one acknowledged. *)
Fixpoint attempts (fuel : nat) (attempt : nat) (room_size : nat → nat) (acked : nat → bool) : list nat :=
  match fuel with
  | O => []
  | S fuel =>
      if Nat.eqb (room_size attempt) 0 then []
      else room_size attempt :: (if acked attempt then [] else attempts fuel (S attempt) room_size acked)
  end.

Definition emitWithAckRetry (room_size : nat → nat) (acked : nat → bool) : list nat :=
  attempts (S ACK_RETRIES) 0 room_size acked.
End ChatBroadcaster.

(** ** Calls and reconnection *)

(** The set commands SADD, SREM and SMEMBERS, whose size is SCARD, with
    EXPIRE in seconds. *)
Class RedisSet `{Redis} := {
  redis_smembers : redis_store → Z → string → gset string;
  redis_sadd : redis_store → Z → string → string → redis_store;
  redis_srem : redis_store → Z → string → string → redis_store;
  redis_expire : redis_store → Z → string → Z → redis_store;
}.

Section set_commands.
Context `{Redis, !RedisSet}.
Definition rmod (f : redis_store → Z → redis_store) : M unit := λ w,
  if redis_up w then (Ok tt, w <| redis := f (redis w) (clock w) |>) else (Throw redis_error, w).
Definition rsadd (k m : string) : M unit := rmod (λ r t, redis_sadd r t k m).
Definition rsrem (k m : string) : M unit := rmod (λ r t, redis_srem r t k m).
Definition rexpire (k : string) (s : Z) : M unit := rmod (λ r t, redis_expire r t k s).
Definition rscard (k : string) : M nat := λ w,
  if redis_up w then (Ok (size (redis_smembers (redis w) (clock w) k)), w) else (Throw redis_error, w).
End set_commands.

Module VideoService.
Section service.
Context `{Redis, !RedisHash, !RedisSet, Random}.

Definition CALL_STATE_TTL : Z := 4 * 60 * 60.
Definition participants_key (callId : string) : string := "call:participants:" +:+ callId.

(** What a handler does: the socket as it leaves it, and what it emits, to
    the socket itself ([Reply]) or to a room. *)
Inductive Sent :=
  | Reply (event : string) (data : json)
  | ToRoom (e : Emission).

Definition new_call (t : Z) (callId channelId orgId userId : string) : VideoCallRow :=
  mkVideoCallRow callId orgId (Some channelId) userId CallActive (Some t) None t.

(** A handler's promise, settled: a command that fails leaves the socket
    as it was by then. *)
Definition settle {A} (m : M A) : M (result A) := λ w, (Ok (m w).1, (m w).2).

Definition handleCallJoin (s : Socket) (callId channelId : string) : M (Socket * result (list Sent)) :=
  let* videoEnabled := FeatureFlagService.isEnabled (s_orgId s) "feature.video_signaling" in
  if negb (videoEnabled : bool) then
    ret (s, Ok [Reply "error" (JObj [("code", JStr "FEATURE_NOT_ENABLED");
                  ("message", JStr "Video signaling is not enabled for this organization.")])])
  else
    let* sent := settle (
    let stateKey := "call:state:" +:+ callId in
    rhset stateKey "callId" (RText callId) ;;;
    rhset stateKey "channelId" (RText channelId) ;;;
    rhset stateKey "orgId" (RText (s_orgId s)) ;;;
    rsadd (participants_key callId) (s_userId s) ;;;
    rexpire stateKey CALL_STATE_TTL ;;;
    rexpire (participants_key callId) CALL_STATE_TTL ;;;
    let* t := now in
    upsert (λ c, (vc_id c =? callId)%string) (new_call t callId channelId (s_orgId s) (s_userId s))
      (λ c, c <| vc_state := CallActive |>) ;;;
    ret [ToRoom (mkEmission (call_room callId) "call:participant-joined"
                   (JObj [("userId", JStr (s_userId s)); ("callId", JStr callId)]))]) in
    ret (join (call_room callId) s, sent).

Definition handleCallLeave (s : Socket) (callId : string) : M (Socket * result (list Sent)) :=
  let* sent := settle (
  rsrem (participants_key callId) (s_userId s) ;;;
  let* count := rscard (participants_key callId) in
  let* t := now in
  (if Nat.eqb count 0 then
     update_where (λ c, (vc_id c =? callId)%string)
       (λ c, c <| vc_state := CallEnded |> <| vc_ended_at := Some t |>) ;;; ret tt
   else ret tt) ;;;
  ret [ToRoom (mkEmission (call_room callId) "call:participant-left"
                 (JObj [("userId", JStr (s_userId s)); ("callId", JStr callId)]))]) in
  ret (leave (call_room callId) s, sent).

(** An offer, an answer or a candidate goes to the room of a user of the
    sender's organization. *)
Definition relay (event field : string) (s : Socket) (callId targetUserId : string) (x : json) : Emission :=
  mkEmission (user_room (s_orgId s) targetUserId) event
    (JObj [("callId", JStr callId); ("senderId", JStr (s_userId s)); (field, x)]).
Definition handleCallOffer : Socket → string → string → json → Emission := relay "call:offer" "offer".
Definition handleCallAnswer : Socket → string → string → json → Emission := relay "call:answer" "answer".
Definition handleIceCandidate : Socket → string → string → json → Emission := relay "call:ice-candidate" "candidate".
End service.
End VideoService.

#[export] Instance flip_newer_dec : RelDecision (flip MessageRepository.newer).
Proof. intros a b. exact (MessageRepository.newer_dec b a). Defined.

Module ReconnectHandler.
Section handler.
Context `{Redis, Random, Config, Crypto}.

(** [client:sync]: per channel, up to 100 of the messages after the last
    one the client has.  Whether the user is in the channel is not asked. *)
Definition missed (channelId : string) (lastSeq : Z) : M (list ChatMessageRow) :=
  let* ms := select (λ m, (msg_channel_id m =? channelId)%string && (lastSeq <? msg_sequence_number m)%Z &&
    is_null (msg_deleted_at m)) in
  ret (take 100 (merge_sort (flip MessageRepository.newer) ms)).

Fixpoint client_sync (lastMessageSequences : list (string * Z)) : M (list (string * list ChatMessageRow)) :=
  match lastMessageSequences with
  | [] => ret []
  | (channelId, lastSeq) :: l =>
      let* rows := missed channelId lastSeq in
      let* rest := client_sync l in
      ret (match rows with [] => rest | _ => (channelId, rows) :: rest end)
  end.

(** [auth:refresh]: the new pair, or the news that the session is over. *)
Definition auth_refresh (refreshToken : string) : M (option TokenPair) :=
  catch (let* tokens := JwtService.refreshTokenPair refreshToken in ret (Some tokens)) (λ _, ret None).
End handler.
End ReconnectHandler.

(** ** Rooms keep organizations apart *)

(** A text that is empty or goes on after a separator. *)
Definition tail_of (c : ascii) (s : string) : Prop := s = ""%string ∨ ∃ s', s = String c s'.

Lemma same_head c a a' t t' :
  char_free c a = true → char_free c a' = true → tail_of c t → tail_of c t' →
  a +:+ t = a' +:+ t' → a = a' ∧ t = t'.
Proof.
  revert a'. induction a as [|b a IH]; intros [|b' a'] Ha Ha' Ht Ht' E; cbn in Ha, Ha'.
  - done.
  - change (t = String b' (a' +:+ t')) in E. destruct Ht as [->|[s' ->]]; [done|]. injection E as <- _.
    by rewrite Ascii.eqb_refl in Ha'.
  - change (String b (a +:+ t) = t') in E. destruct Ht' as [->|[s' ->]]; [done|]. injection E as -> _.
    by rewrite Ascii.eqb_refl in Ha.
  - change (String b (a +:+ t) = String b' (a' +:+ t')) in E. injection E as -> E.
    apply andb_true_iff in Ha as [_ Ha], Ha' as [_ Ha']. by destruct (IH a' Ha Ha' Ht Ht' E) as [-> ->].
Qed.

Lemma tail_empty c : tail_of c "".
Proof. by left. Qed.
Lemma tail_user u : tail_of ":" (":user:" +:+ u).
Proof. right. by exists ("user:" +:+ u). Qed.
Lemma tail_task t : tail_of ":" (":task:" +:+ t).
Proof. right. by exists ("task:" +:+ t). Qed.
#[local] Hint Resolve tail_empty tail_user tail_task : core.

(** The rooms named after an organization, with what follows its name. *)
Definition in_org (orgId t : string) : string := "org:" +:+ (orgId +:+ t).

Lemma org_room_eq o : org_room o = in_org o "".
Proof. unfold org_room, in_org. f_equal. induction o as [|c o IH]; [done|]. by change (String c o +:+ "") with (String c (o +:+ "")); rewrite <- IH. Qed.

Lemma in_org_inj o o' t t' :
  char_free ":" o = true → char_free ":" o' = true → tail_of ":" t → tail_of ":" t' →
  in_org o t = in_org o' t' → o = o' ∧ t = t'.
Proof. intros Ho Ho' Ht Ht' E. unfold in_org in E. injection E as E. by eapply same_head. Qed.

Section rooms.
(** Who was ever a member of a channel. *)
Context (ever_member : string → string → Prop).

(** What a room may be for a socket: one of its organization, one of its
    user, one of a task of its organization, one of a channel its user was in,
    or a call's. *)
Definition own_room (s : Socket) (room : string) : Prop :=
  room = org_room (s_orgId s) ∨ room = user_room (s_orgId s) (s_userId s) ∨
  (∃ t, room = task_room (s_orgId s) t) ∨
  (∃ c, room = channel_room c ∧ ever_member (s_userId s) c) ∨ (∃ c, room = call_room c).

Definition tidy (s : Socket) : Prop := char_free ":" (s_orgId s) = true ∧ ∀ r, r ∈ s_rooms s → own_room s r.

Lemma tidy_join room s : own_room s room → tidy s → tidy (join room s).
Proof.
  intros Hr [Hc Hs]. unfold join. destruct (includes (s_rooms s) room); [done|]. split; [done|].
  intros r [?|Hx%list_elem_of_singleton]%elem_of_app; [by apply Hs|by subst].
Qed.

Lemma tidy_leave room s : tidy s → tidy (leave room s).
Proof. intros [Hc Hs]. split; [done|]. intros r [Hr _]%elem_of_filter_bool. by apply Hs. Qed.

Lemma join_id room s : s_orgId (join room s) = s_orgId s ∧ s_userId (join room s) = s_userId s.
Proof. unfold join. by destruct (includes (s_rooms s) room). Qed.

(** A socket in a room of an organization is one of that organization; in
    the room of a user it is that user's. *)
Lemma room_of_org s o room :
  tidy s → room ∈ s_rooms s → char_free ":" o = true →
  (room = org_room o ∨ (∃ t, room = task_room o t) → s_orgId s = o) ∧
  (∀ u, room = user_room o u → s_orgId s = o ∧ s_userId s = u).
Proof.
  intros [Hc Hs] Hr Ho. specialize (Hs room Hr). unfold own_room in Hs. rewrite org_room_eq in *.
  split.
  - intros Hroom. assert (∃ t, tail_of ":" t ∧ room = in_org o t) as (t & Ht & ->).
    { destruct Hroom as [->|[t ->]]; [by exists ""%string|by exists (":task:" +:+ t)]. }
    destruct Hs as [E|[E|[[t' E]|[[c [E _]]|[c E]]]]]; [..|done|done].
    all: symmetry in E; eapply in_org_inj in E as [? _]; eauto.
  - intros u ->. destruct Hs as [E|[E|[[t' E]|[[c [E _]]|[c E]]]]]; [..|done|done].
    all: change (user_room o u) with (in_org o (":user:" +:+ u)) in E.
    + apply in_org_inj in E as [_ E]; eauto. done.
    + change (user_room (s_orgId s) (s_userId s)) with (in_org (s_orgId s) (":user:" +:+ s_userId s)) in E.
      apply in_org_inj in E as [-> E]; eauto. by injection E.
    + change (task_room (s_orgId s) t') with (in_org (s_orgId s) (":task:" +:+ t')) in E.
      apply in_org_inj in E as [_ E]; eauto. done.
Qed.

(** A socket that is where its user belongs: in the room of its
    organization and in its own, and in no other organization's. *)
Definition settled (s : Socket) : Prop :=
  tidy s ∧ org_room (s_orgId s) ∈ s_rooms s ∧ user_room (s_orgId s) (s_userId s) ∈ s_rooms s.

Lemma elem_of_join room s r : r ∈ s_rooms (join room s) ↔ r ∈ s_rooms s ∨ r = room.
Proof.
  unfold join. destruct (includes (s_rooms s) room) eqn:E.
  - apply includes_spec in E. naive_solver.
  - cbn. by rewrite elem_of_app, list_elem_of_singleton.
Qed.

Lemma own_room_join room s r : own_room (join room s) r ↔ own_room s r.
Proof. unfold own_room. by destruct (join_id room s) as [-> ->]. Qed.

Lemma settled_join room s : own_room s room → settled s → settled (join room s).
Proof.
  intros Hr (Ht & Ho & Hu). split; [by apply tidy_join|]. destruct (join_id room s) as [-> ->].
  rewrite !elem_of_join. tauto.
Qed.

Lemma settled_leave room s :
  room ≠ org_room (s_orgId s) → room ≠ user_room (s_orgId s) (s_userId s) → settled s → settled (leave room s).
Proof.
  intros Ho Hu (Ht & Hro & Hru). split; [by apply tidy_leave|].
  split; (apply elem_of_filter_bool; split; [done|]); by apply negb_true_iff, String.eqb_neq, not_eq_sym.
Qed.

(** The rooms of tasks and of calls are none of the two. *)
Lemma task_room_apart o u t : char_free ":" o = true → task_room o t ≠ org_room o ∧ task_room o t ≠ user_room o u.
Proof.
  intros Ho. rewrite org_room_eq. change (task_room o t) with (in_org o (":task:" +:+ t)).
  change (user_room o u) with (in_org o (":user:" +:+ u)).
  split; intros E; apply in_org_inj in E as [_ E]; eauto; done.
Qed.

Section server.
Context `{Redis, !RedisZset, Random, Config, Crypto} (exec_rejects : bool) (keyStore : gmap string string).
Import SocketServer.

Lemma settled_handshake id token w s w' :
  handshake keyStore id token w = (Ok s, w') → char_free ":" (s_orgId s) = true → settled s.
Proof.
  unfold handshake. destruct token as [token|]; [|done]. unfold bind, JwtMiddleware.verifyToken, bind, now, ret.
  destruct (jwt_verify _ _ _) as [p|]; [|done].
  set (o := jstr "orgId" p ?? "undefined"). set (u := jstr "sub" p ?? "undefined"). clearbody o u.
  intros [= <- _] Hc.
  assert (Ho : s_orgId (join (user_room o u) (join (org_room o) (mkSocket id u o (jstr "role" p ?? "undefined") []))) = o)
    by by rewrite !(proj1 (join_id _ _)).
  rewrite Ho in Hc. unfold settled. rewrite !(proj1 (join_id _ _)), !(proj2 (join_id _ _)). cbn [s_orgId s_userId].
  split; [|rewrite !elem_of_join; tauto].
  apply tidy_join; [|apply tidy_join; [|split; [done|]]].
  - apply own_room_join. right; by left.
  - by left.
  - intros r Hr. by apply elem_of_nil in Hr.
Qed.

(** The members of channels that a connection may find. *)
Definition members_known (w : World) : Prop := ∀ m : ChannelMemberRow,
  m ∈ channel_members (db w) → chm_removed_at m = None → ever_member (chm_user_id m) (chm_channel_id m).

Lemma settled_connection s w s' w' :
  members_known w → connection s w = (Ok s', w') → settled s → settled s'.
Proof.
  intros Hw. unfold connection, bind, ret, select. tables. intros [= <- _].
  assert (Hms : Forall (λ m, ever_member (s_userId s) (chm_channel_id m))
    (List.filter (λ m, (chm_user_id m =? s_userId s)%string && is_null (chm_removed_at m)) (channel_members (db w)))).
  { apply Forall_forall. intros m [Hm [Hu%String.eqb_eq Hn%is_null_spec]%andb_true_iff]%elem_of_filter_bool.
    rewrite <- Hu. by apply Hw. }
  revert Hms. generalize (List.filter (λ m, (chm_user_id m =? s_userId s)%string && is_null (chm_removed_at m))
    (channel_members (db w))). intros ms. revert s.
  induction ms as [|m ms IH]; intros s Hms Hs; cbn [foldl]; [done|].
  apply Forall_cons in Hms as [Hm Hms]. apply IH; [by rewrite (proj2 (join_id _ _))|].
  apply settled_join; [|done]. do 3 right. left. by eexists.
Qed.

Lemma connection_org s w s' w' : connection s w = (Ok s', w') → s_orgId s' = s_orgId s.
Proof.
  unfold connection, bind, ret. destruct (select _ w) as [[ms|e] w1]; [|done]. intros [= <- _].
  revert s. induction ms as [|m ms IH]; intros s; cbn [foldl]; [done|]. rewrite IH. apply join_id.
Qed.

Lemma handshake_world id token w r w' : handshake keyStore id token w = (r, w') → w' = w.
Proof.
  unfold handshake, JwtMiddleware.verifyToken, bind, now, ret, throw. intros E. repeat case_match; by simplify_eq.
Qed.

Lemma settled_connect id token w s w' :
  members_known w → connect keyStore id token w = (Ok s, w') → char_free ":" (s_orgId s) = true → settled s.
Proof.
  intros Hw. unfold connect, bind. destruct (handshake _ _ _ w) as [[s0|e] w1] eqn:E; [|done]. intros E' Hc.
  eapply settled_connection; [by rewrite (handshake_world _ _ _ _ _ E)|exact E'|]. eapply settled_handshake; [exact E|]. by rewrite <- (connection_org _ _ _ _ E').
Qed.

Lemma settled_handle s e w s' w' : handle exec_rejects s e w = (Ok s', w') → settled s → settled s'.
Proof.
  intros E Hs. pose proof Hs as [[Hc _] _]. destruct e as [t|t|c|c]; unfold handle, bind, ret in E.
  1,2: destruct (checkRateLimit _ _ _ _ w) as [[b|e] w1]; [|done]; destruct b; injection E as <- _; [|done].
  3,4: injection E as <- _.
  - apply settled_join; [|done]. right; right; left. by eexists.
  - apply settled_leave; [apply (task_room_apart _ (s_userId s) t Hc)..|done].
  - apply settled_join; [|done]. do 4 right. by eexists.
  - by apply settled_leave.
Qed.

(** The life of the sockets of a server, whatever the database and the cache
    hold at each step: a client connects, sends an event, fails the
    five-minute check or leaves. *)
Inductive step : list Socket → list Socket → Prop :=
  | Connects l id token w s w' :
      members_known w → connect keyStore id token w = (Ok s, w') → char_free ":" (s_orgId s) = true → step l (s :: l)
  | Sends l l' s e w s' w' :
      handle exec_rejects s e w = (Ok s', w') → step (l ++ s :: l') (l ++ s' :: l')
  | Expires l l' s w w' : revalidate s w = (Ok false, w') → step (l ++ s :: l') (l ++ l')
  | Leaves l l' s : step (l ++ s :: l') (l ++ l').

Lemma step_settled l l' : step l l' → Forall settled l → Forall settled l'.
Proof.
  intros Hstep Hl. destruct Hstep as [l id token w s w' Hw E Hc|l l' s e w s' w' E|l l' s w w' E|l l' s].
  - constructor; [by eapply settled_connect|done].
  - apply Forall_app in Hl as [Hl [Hs Hl']%Forall_cons]. apply Forall_app; split; [done|]. constructor; [|done].
    by eapply settled_handle.
  - apply Forall_app in Hl as [Hl [Hs Hl']%Forall_cons]. by apply Forall_app.
  - apply Forall_app in Hl as [Hl [Hs Hl']%Forall_cons]. by apply Forall_app.
Qed.

Lemma reachable_settled l : rtc step [] l → Forall settled l.
Proof.
  intros Hr. assert (Hnil : Forall settled ([] : list Socket)) by constructor. revert Hnil.
  induction Hr as [l|l l' l'' Hstep _ IH]; [done|]. intros Hl. by apply IH, (step_settled l).
Qed.

Lemma receivers_spec sockets e s : s ∈ receivers sockets e ↔ s ∈ sockets ∧ e_room e ∈ s_rooms s.
Proof. unfold receivers. by rewrite elem_of_filter_bool, includes_spec. Qed.

Lemma settled_user_room s o u :
  settled s → char_free ":" o = true → user_room o u ∈ s_rooms s ↔ s_orgId s = o ∧ s_userId s = u.
Proof.
  intros (Ht & Ho & Hu) Hc. split; [|by intros [<- <-]]. intros Hin.
  by apply (room_of_org s o (user_room o u) Ht Hin Hc).
Qed.

Lemma settled_org_room s o : settled s → char_free ":" o = true → org_room o ∈ s_rooms s ↔ s_orgId s = o.
Proof.
  intros (Ht & Ho & Hu) Hc. split; [|by intros <-]. intros Hin.
  apply (room_of_org s o (org_room o) Ht Hin Hc). by left.
Qed.
End server.

(** A socket in the room of a channel is one of a user who was in it. *)
Lemma settled_channel_room s c : settled s → channel_room c ∈ s_rooms s → ever_member (s_userId s) c.
Proof.
  intros [[_ Hs] _] Hr. destruct (Hs _ Hr) as [E|[E|[[t E]|[[c' [E Hm]]|[c' E]]]]]; try done.
  injection E as E. change (c = c') in E. by subst.
Qed.
End rooms.

(** The broadcaster of tasks emits to rooms of the event's organization. *)
Lemma on_message_rooms event e :
  e ∈ TaskBroadcaster.on_message event →
  let o := shown (jget "org_id" event) in
  e_room e = org_room o ∨ (∃ t, e_room e = task_room o t) ∨
  ∃ u f, jstr f (jget "payload" event ?? JNull) = Some u ∧ e_room e = user_room o u.
Proof.
  unfold TaskBroadcaster.on_message. set (o := shown _). set (p := _ ?? JNull). cbn zeta.
  assert (Hto : ∀ f u, TaskBroadcaster.recipient f p = Some u → jstr f p = Some u).
  { unfold TaskBroadcaster.recipient. intros f u. destruct (jstr f p); [|done]. by destruct (truthy s). }
  repeat case_match; rewrite ?elem_of_cons, ?elem_of_nil; cbn [app]; rewrite ?elem_of_cons, ?elem_of_nil;
    naive_solver.
Qed.

(** The broadcaster of messages emits to the room of the message's channel. *)
Lemma chat_rooms event e : e ∈ ChatBroadcaster.on_message event →
  ∃ c, jstr "channelId" (jget "payload" event ?? JNull) = Some c ∧ e_room e = channel_room c.
Proof.
  unfold ChatBroadcaster.on_message. cbn zeta. repeat case_match; rewrite ?elem_of_cons, ?elem_of_nil; naive_solver.
Qed.

Lemma char_free_not_in c s : char_free c s = true → c ∉ String.list_ascii_of_string s.
Proof.
  induction s as [|a s IH]; cbn; [intros _; apply not_elem_of_nil|]. intros [Ha Hs]%andb_true_iff.
  apply not_elem_of_cons. split; [|by apply IH]. apply negb_true_iff, Ascii.eqb_neq in Ha. congruence.
Qed.

(** The room a notification goes to is the one its channel was named for. *)
Lemma on_pmessage_channel o u row :
  char_free ":" o = true → char_free ":" u = true →
  NotificationBroadcaster.on_pmessage (NotificationRepository.channel o u) row =
  mkEmission (user_room o u) "notification:new" row.
Proof.
  intros Ho Hu. unfold NotificationBroadcaster.on_pmessage, NotificationRepository.channel.
  change (split_on ":" ("notification:" +:+ o +:+ ":user:" +:+ u)) with
    (split_on ":" ("notification" +:+ String ":" (o +:+ String ":" ("user" +:+ String ":" u)))).
  rewrite !split_app, split_last by (try apply char_free_not_in; done). done.
Qed.

Section ack.
(** [emitWithAckRetry] sends a message at most four times, to sockets that
    are there, and stops at the first acknowledgement. *)
Lemma emitWithAckRetry_bounds room_size acked :
  length (ChatBroadcaster.emitWithAckRetry room_size acked) ≤ 4 ∧
  (∀ i, S i < length (ChatBroadcaster.emitWithAckRetry room_size acked) → acked i = false).
Proof.
  unfold ChatBroadcaster.emitWithAckRetry. cbn [ChatBroadcaster.attempts ChatBroadcaster.ACK_RETRIES].
  repeat case_match; cbn; (split; [lia|]); intros [|[|[|i]]] Hi; first [done|lia].
Qed.
End ack.

Module RealtimeProperties.
Section properties.
Context `{Redis, !RedisZset, Random, Config, Crypto} (exec_rejects : bool) (keyStore : gmap string string).
Context (ever_member : string → string → Prop).
Import SocketServer.

(** C34: who receives what the server emits.  However sockets came, joined
    and left rooms, were cut off or closed, what the broadcaster of tasks
    emits for an event reaches only sockets whose token is of the event's
    organization; what is emitted to an organization reaches exactly the
    sockets of that organization; a notification published for a user
    reaches exactly the sockets of that user in that organization; and what
    the broadcaster of messages emits reaches only sockets of users who were
    members of the channel when they connected, in whichever organization. *)
Theorem events_stay_in_org l :
  rtc (step ever_member exec_rejects keyStore) [] l →
  (∀ event e s, char_free ":" (shown (jget "org_id" event)) = true →
     e ∈ TaskBroadcaster.on_message event → s ∈ receivers l e → s_orgId s = shown (jget "org_id" event)) ∧
  (∀ o event data s, char_free ":" o = true →
     s ∈ receivers l (emitToOrg o event data) ↔ s ∈ l ∧ s_orgId s = o) ∧
  (∀ o u row s, char_free ":" o = true → char_free ":" u = true →
     s ∈ receivers l (NotificationBroadcaster.on_pmessage (NotificationRepository.channel o u) row) ↔
     s ∈ l ∧ s_orgId s = o ∧ s_userId s = u) ∧
  (∀ event e s, e ∈ ChatBroadcaster.on_message event → s ∈ receivers l e →
     ∃ c, jstr "channelId" (jget "payload" event ?? JNull) = Some c ∧ ever_member (s_userId s) c).
Proof.
  intros Hl%reachable_settled. rewrite Forall_forall in Hl. split_and!.
  - intros event e s Ho He [Hs Hr]%receivers_spec. specialize (Hl s Hs). pose proof Hl as [Ht _].
    apply on_message_rooms in He as [E|[[t E]|(u & f & _ & E)]]; rewrite E in Hr.
    + by apply (room_of_org _ s _ _ Ht Hr Ho); left.
    + by apply (room_of_org _ s _ _ Ht Hr Ho); right; exists t.
    + by apply (settled_user_room _ s _ u Hl Ho) in Hr as [? _].
  - intros o event data s Ho. rewrite receivers_spec. split; intros [Hs Hr]; (split; [done|]).
    + by eapply settled_org_room; [apply Hl|..].
    + by eapply settled_org_room; [apply Hl|..].
  - intros o u row s Ho Hu. rewrite on_pmessage_channel, receivers_spec by done.
    split; intros [Hs Hr]; (split; [done|]).
    + by eapply settled_user_room; [apply Hl|..].
    + by eapply settled_user_room; [apply Hl|..].
  - intros event e s He [Hs Hr]%receivers_spec. apply chat_rooms in He as (c & Hc & E). exists c. split; [done|].
    rewrite E in Hr. by apply settled_channel_room; [apply Hl|].
Qed.
End properties.
End RealtimeProperties.

Module RealtimeExamples.
Import Concrete SocketServer.

Definition start : World := empty_world 1700000000000.
Definition token_of_user (userId orgId : string) : jwt_token :=
  jwt_sign jwtPrivateKey Token.KID
    (Token.claims (mkAccessTokenPayload userId orgId "member" None None) 1700000000 ("jti-" +:+ userId)).
Definition socket_of (id userId orgId : string) : Socket :=
  mkSocket id userId orgId "member" [org_room orgId; user_room orgId userId].
Definition alice : Socket := socket_of "s1" "alice" "org1".
Definition bob : Socket := socket_of "s2" "bob" "org2".
Definition alice' : Socket := join (task_room "org1" "t1") alice.

Example alice_connects :
  connect ∅ "s1" (Some (token_of_user "alice" "org1")) start = (Ok alice, start).
Proof. vm_compute. reflexivity. Qed.

(** A token that was revoked still opens a socket. *)
Example revoked_token_connects :
  let w := (Token.blacklistToken "jti-alice" 900 start).2 in
  (JwtMiddleware.blacklisted "jti-alice" w).1 = Ok true ∧
  connect ∅ "s1" (Some (token_of_user "alice" "org1")) w = (Ok alice, w).
Proof. vm_compute. done. Qed.

(** A channel's messages are given to whoever names the channel. *)
Example anyone_syncs :
  let m := mkChatMessageRow "m1" "org1" "secret" "alice" "c1" 1 "hello" None None false [] None 0 in
  let w := (insert_row m start).2 in
  (ReconnectHandler.client_sync [("secret", 0%Z)] w).1 = Ok [("secret"%string, [m])].
Proof. vm_compute. reflexivity. Qed.

Definition assigned : json :=
  JObj [("event_type", JStr "task.updated"); ("org_id", JStr "org1"); ("entity_id", JStr "t1");
        ("payload", JObj [("id", JStr "t1")])].

Example alice_hears_twice :
  s_id <$> (TaskBroadcaster.on_message assigned ≫= receivers [bob; alice']) = ["s1"; "s1"]%string.
Proof. vm_compute. reflexivity. Qed.

(** Alice is also a member of a channel of the other organization. *)
Definition membership : ChannelMemberRow := mkChannelMemberRow "general2" "alice" "org2" 0 None 0 None.
Definition alice_joined : World := (insert_row membership start).2.
Definition were_members (u c : string) : Prop := (u, c) = ("alice", "general2")%string.
Lemma alice_known : members_known were_members alice_joined.
Proof. intros m [->|?%elem_of_nil]%elem_of_cons _; [done|done]. Qed.
Lemma start_known : members_known were_members start.
Proof. by intros m ?%elem_of_nil. Qed.

(** Her socket of the first organization gets the messages of the second. *)
Definition alice2 : Socket := join (channel_room "general2") alice'.
Definition posted : json :=
  JObj [("event_type", JStr "message.created"); ("org_id", JStr "org2"); ("entity_id", JStr "m1");
        ("payload", JObj [("channelId", JStr "general2"); ("body", JStr "hello")])].
Example messages_cross_organizations :
  connect ∅ "s1" (Some (token_of_user "alice" "org1")) alice_joined = (Ok (join (channel_room "general2") alice), alice_joined) ∧
  (λ s, (s_userId s, s_orgId s)) <$> (ChatBroadcaster.on_message posted ≫= receivers [bob; alice2]) = [("alice", "org1")]%string.
Proof. vm_compute. done. Qed.

Notation reached := (rtc (step were_members false ∅) [] [bob; join (task_room "org1" "t1") (join (channel_room "general2") alice)]).
#[local] Notation here := [bob; join (task_room "org1" "t1") (join (channel_room "general2") alice)].

Lemma events_stay_in_org_witness :
  reached ∧ alice'.(s_orgId) = "org1"%string ∧
  (bob ∈ receivers here (NotificationBroadcaster.on_pmessage (NotificationRepository.channel "org2" "bob") JNull) ↔
   bob ∈ here ∧ s_orgId bob = "org2"%string ∧ s_userId bob = "bob"%string) ∧
  ∃ c, jstr "channelId" (jget "payload" posted ?? JNull) = Some c ∧ were_members "alice" c.
Proof.
  assert (Hr : reached).
  { eapply rtc_l; [apply (Connects _ _ _ [] "s1" (Some (token_of_user "alice" "org1")) alice_joined
                           (join (channel_room "general2") alice) alice_joined); [exact alice_known|reflexivity..]|].
    eapply rtc_l; [apply (Connects _ _ _ [join (channel_room "general2") alice] "s2" (Some (token_of_user "bob" "org2"))
                            start bob start); [exact start_known|reflexivity..]|].
    eapply rtc_l; [|apply rtc_refl].
    apply (Sends _ false ∅ [bob] [] (join (channel_room "general2") alice) (TaskSubscribe "t1") start
             (join (task_room "org1" "t1") (join (channel_room "general2") alice))
             (handle false (join (channel_room "general2") alice) (TaskSubscribe "t1") start).2). reflexivity. }
  split; [exact Hr|].
  destruct (RealtimeProperties.events_stay_in_org false ∅ were_members here Hr) as (Htask & _ & Huser & Hchat). split_and!.
  - apply (Htask assigned (mkEmission (org_room "org1") "task.updated" (JObj [("id", JStr "t1")]))
      (join (task_room "org1" "t1") (join (channel_room "general2") alice))); [reflexivity|..]; vm_compute; [right; left|left].
  - apply (Huser "org2"%string "bob"%string JNull bob); reflexivity.
  - apply (Hchat posted (mkEmission (channel_room "general2") "message.created"
        (JObj [("channelId", JStr "general2"); ("body", JStr "hello")]))
      (join (task_room "org1" "t1") (join (channel_room "general2") alice))); vm_compute; left.
Defined.
End RealtimeExamples.
