(* ===== verification/Api.v ===== *)
(** * Api: the application and who may write through it

    [app.ts] mounts the routers under [/api/v1] in a fixed order, and Express
    serves a request by the first route whose method and path match.  A route
    of the table comes with the middlewares it starts with; the theorems say
    that no request changes the database without what they ask for, and that
    no handler meets a body it cannot read. *)
From S2P Require Import Prelude Schema World Zod Crypto Concrete OrgRepo TaskRepo TaskDeps TaskService AuthRepo Session Auth Organization Http RateLimiter OrgAccess Payments FeatureFlags Gdpr Chat Files Webhooks SignIn Notifications Collaboration RowJson TenantRoutes SystemRoutes Search.
From Stdlib Require Import ZArith Lia Ascii.
From stdpp Require Import base tactics strings gmap list.

(** What [path-to-regexp] gives: the parameters of a path that a pattern
    matches. *)
Class Express := path_match : string → string → option (string → string).

(** The role a tenant route asks for. *)
Inductive required_role := Anyone | Admins | OwnerOrPlatform.

Definition role_ok (needs : required_role) (user : ReqUser) (role : member_role) : Prop :=
  match needs with
  | Anyone => True
  | Admins => role = OrgOwner ∨ role = OrgAdmin
  | OwnerOrPlatform => ru_isPlatformAdmin user = true ∨ role = OrgOwner
  end.

(** The middlewares a route starts with: none, the token, the token and the
    tenant, the status of the tenant too, or the platform administrators'. *)
Inductive guard := Public | Signed | InContext | Tenant (needs : required_role) | Platform.

Definition params := string → string.

Record Route `{Redis, Crypto} := mkRoute {
  rt_method : string;
  rt_pattern : string;
  rt_guard : guard;
  rt_serve : Request → params → option json → option json → M Response
}.

Section app.
Context `{Redis, !RedisHash, !RedisZset, Random, Config, Crypto, Zod, Network, !StorageProvider, !RazorpaySdk, Saml,
  Google, FullText, !TypesenseClient, !SearchBreaker, IpAddr}.

(** The state and the settings of the process, BullMQ's failed jobs, [JSON.parse]
    and the header [x-razorpay-signature] of a request. *)
Context (keyStore : gmap string string) (allowlist : option string) (jwt_text : jwt_token → string).
Context (test_env exec_rejects typesense initialized : bool).
Context (getFailed : string → M (list Job)) (retry : Job → M unit).
Context (JSON_parse : string → option json) (razorpay_signature : Request → option string).

Definition get := mkRoute _ _ "GET".
Definition post := mkRoute _ _ "POST".
Definition patch := mkRoute _ _ "PATCH".
Definition delete := mkRoute _ _ "DELETE".

Definition param (k : string) (query : option json) : option string := query ≫= jstr k.

Definition auth_routes : list Route :=
  [post "/api/v1/auth/register" Public (λ rq _ _ b, AuthRouter.registerHandler test_env exec_rejects rq b);
   post "/api/v1/auth/login" Public (λ rq _ _ b, AuthRouter.loginHandler jwt_text test_env exec_rejects rq b);
   post "/api/v1/auth/refresh" Public (λ rq _ _ b, AuthRouter.refreshHandler jwt_text rq b);
   post "/api/v1/auth/logout" Signed (λ rq _ _ b, AuthRouter.logoutHandler keyStore rq b);
   get "/api/v1/auth/verify-email" Public (λ rq _ q _, AuthRouter.verifyEmailHandler rq (param "token" q));
   post "/api/v1/auth/verify-email/resend" Public
     (λ rq _ _ b, AuthRouter.resendVerificationEmailHandler test_env exec_rejects rq b);
   post "/api/v1/auth/password-reset/request" Public
     (λ rq _ _ b, AuthRouter.requestPasswordResetHandler test_env exec_rejects rq b);
   post "/api/v1/auth/password-reset/confirm" Public (λ rq _ _ b, AuthRouter.confirmPasswordResetHandler rq b);
   post "/api/v1/auth/oauth/google" Public (λ rq _ _ b, AuthRouter.googleOAuthHandler jwt_text rq b);
   post "/api/v1/auth/magic-link/request" Public
     (λ rq _ _ b, AuthRouter.magicLinkRequestHandler test_env exec_rejects rq b);
   post "/api/v1/auth/magic-link/verify" Public (λ rq _ _ b, AuthRouter.magicLinkVerifyHandler jwt_text rq b);
   post "/api/v1/auth/saml/:orgId/callback" Public
     (λ rq p _ b, AuthRouter.samlCallbackHandler jwt_text rq (p "orgId") (b ?? JObj []))]%string.

Definition org_routes : list Route :=
  [get "/api/v1/me" Signed (λ rq _ _ _, AccountRouter.me_route keyStore rq);
   post "/api/v1/orgs" Signed (λ rq _ _ b, OrganizationRouter.create_route keyStore rq b);
   get "/api/v1/orgs/mine" Signed (λ rq _ _ _, OrganizationRouter.mine_route keyStore rq);
   get "/api/v1/orgs/:orgId" (Tenant Anyone) (λ rq _ _ _, OrganizationRouter.get_route keyStore rq);
   patch "/api/v1/orgs/:orgId" (Tenant Admins) (λ rq _ _ b, OrganizationRouter.update_route keyStore rq b);
   post "/api/v1/orgs/:orgId/suspend" (Tenant OwnerOrPlatform)
     (λ rq _ _ b, OrganizationRouter.suspend_route keyStore rq b);
   post "/api/v1/orgs/:orgId/reactivate" (Tenant OwnerOrPlatform)
     (λ rq _ _ _, OrganizationRouter.reactivate_route keyStore rq);
   get "/api/v1/orgs/:orgId/members" (Tenant Anyone) (λ rq _ _ _, OrganizationRouter.members_route keyStore rq);
   patch "/api/v1/orgs/:orgId/members/:userId/role" (Tenant Admins)
     (λ rq p _ b, OrganizationRouter.update_role_route keyStore rq (p "userId") b);
   delete "/api/v1/orgs/:orgId/members/:userId" (Tenant Admins)
     (λ rq p _ _, OrganizationRouter.remove_member_route keyStore rq (p "userId"));
   post "/api/v1/orgs/:orgId/invitations" (Tenant Admins) (λ rq _ _ b, OrganizationRouter.invite_route keyStore rq b);
   delete "/api/v1/orgs/:orgId/invitations/:invitationId" (Tenant Admins)
     (λ rq p _ _, OrganizationRouter.revoke_invitation_route keyStore rq (p "invitationId"));
   post "/api/v1/orgs/invitations/accept" Public
     (λ rq _ _ b, AccountRouter.accept_invitation_route jwt_text rq b)]%string.

Definition task_routes : list Route :=
  [post "/api/v1/orgs/:orgId/tasks" (Tenant Anyone) (λ rq _ _ b, TaskRouter.create_task_route keyStore rq b);
   get "/api/v1/orgs/:orgId/tasks" (Tenant Anyone) (λ rq _ q _, TaskRouter.list_tasks_route keyStore rq q);
   get "/api/v1/orgs/:orgId/tasks/:taskId" (Tenant Anyone)
     (λ rq p _ _, TaskRouter.get_task_route keyStore rq (p "taskId"));
   patch "/api/v1/orgs/:orgId/tasks/:taskId" (Tenant Anyone)
     (λ rq p _ b, TaskRouter.update_task_route keyStore rq (p "taskId") b);
   delete "/api/v1/orgs/:orgId/tasks/:taskId" (Tenant Anyone)
     (λ rq p _ _, TaskRouter.delete_task_route keyStore rq (p "taskId"));
   post "/api/v1/orgs/:orgId/tasks/:taskId/dependencies" (Tenant Anyone)
     (λ rq p _ b, TaskRouter.add_dependency_route keyStore rq (p "taskId") b);
   get "/api/v1/orgs/:orgId/tasks/:taskId/dependencies" (Tenant Anyone)
     (λ rq p _ _, TaskRouter.list_dependencies_route keyStore rq (p "taskId"));
   delete "/api/v1/orgs/:orgId/tasks/dependencies/:dependencyId" (Tenant Anyone)
     (λ rq p _ _, TaskRouter.remove_dependency_route keyStore rq (p "dependencyId"));
   post "/api/v1/orgs/:orgId/tasks/bulk/status" (Tenant Anyone)
     (λ rq _ _ b, TaskRouter.bulk_status_route keyStore rq b);
   delete "/api/v1/orgs/:orgId/tasks/bulk" (Tenant Anyone) (λ rq _ _ b, TaskRouter.bulk_delete_route keyStore rq b);
   post "/api/v1/orgs/:orgId/task-templates" (Tenant Anyone)
     (λ rq _ _ b, TaskRouter.create_template_route keyStore rq b);
   get "/api/v1/orgs/:orgId/task-templates" (Tenant Anyone) (λ rq _ _ _, TaskRouter.list_templates_route keyStore rq);
   delete "/api/v1/orgs/:orgId/task-templates/:templateId" (Tenant Anyone)
     (λ rq p _ _, TaskRouter.delete_template_route keyStore rq (p "templateId"));
   post "/api/v1/orgs/:orgId/tasks/:taskId/comments" (Tenant Anyone)
     (λ rq p _ b, TaskRouter.create_comment_route keyStore rq (p "taskId") b);
   get "/api/v1/orgs/:orgId/tasks/:taskId/comments" (Tenant Anyone)
     (λ rq p _ _, TaskRouter.list_comments_route keyStore rq (p "taskId"));
   delete "/api/v1/orgs/:orgId/tasks/:taskId/comments/:commentId" (Tenant Anyone)
     (λ rq p _ _, TaskRouter.delete_comment_route keyStore rq (p "commentId"));
   get "/api/v1/orgs/:orgId/tasks/:taskId/activity" (Tenant Anyone)
     (λ rq p _ _, TaskRouter.task_activity_route keyStore rq (p "taskId"));
   get "/api/v1/orgs/:orgId/activity" (Tenant Anyone) (λ rq _ q _, TaskRouter.org_activity_route keyStore rq q)]%string.

Definition chat_routes : list Route :=
  [post "/api/v1/orgs/:orgId/channels/direct" (Tenant Anyone) (λ rq _ _ b, ChatRouter.create_direct_route keyStore rq b);
   post "/api/v1/orgs/:orgId/channels/group" (Tenant Anyone) (λ rq _ _ b, ChatRouter.create_group_route keyStore rq b);
   post "/api/v1/orgs/:orgId/channels/workspace" (Tenant Anyone)
     (λ rq _ _ b, ChatRouter.create_workspace_channel_route keyStore rq b);
   get "/api/v1/orgs/:orgId/channels" (Tenant Anyone)
     (λ rq _ q _, ChatRouter.list_channels_route keyStore rq (param "workspace_id" q));
   get "/api/v1/orgs/:orgId/channels/:channelId" (Tenant Anyone)
     (λ rq p _ _, ChatRouter.get_channel_route keyStore rq (p "channelId"));
   post "/api/v1/orgs/:orgId/channels/:channelId/messages" (Tenant Anyone)
     (λ rq p _ b, ChatRouter.send_message_route keyStore rq (p "channelId") b);
   get "/api/v1/orgs/:orgId/channels/:channelId/messages" (Tenant Anyone)
     (λ rq p q _, ChatRouter.list_messages_route keyStore rq (p "channelId") q);
   delete "/api/v1/orgs/:orgId/channels/:channelId/messages/:messageId" (Tenant Anyone)
     (λ rq p _ _, ChatRouter.delete_message_route keyStore rq (p "channelId") (p "messageId"))]%string.

Definition notification_routes : list Route :=
  [get "/api/v1/orgs/:orgId/notifications" (Tenant Anyone)
     (λ rq _ q _, NotificationRouter.list_notifications_route keyStore rq q);
   patch "/api/v1/orgs/:orgId/notifications/:notificationId/read" (Tenant Anyone)
     (λ rq p _ _, NotificationRouter.mark_read_route keyStore rq (p "notificationId"));
   post "/api/v1/orgs/:orgId/notifications/read-all" (Tenant Anyone)
     (λ rq _ _ _, NotificationRouter.read_all_route keyStore rq);
   get "/api/v1/orgs/:orgId/notification-preferences" (Tenant Anyone)
     (λ rq _ _ _, NotificationRouter.list_preferences_route keyStore rq);
   patch "/api/v1/orgs/:orgId/notification-preferences/:eventType" (Tenant Anyone)
     (λ rq p _ b, NotificationRouter.update_preference_route keyStore rq (p "eventType") b);
   get "/api/v1/notifications/unsubscribe" Public (λ rq _ q _, NotificationRouter.unsubscribe_route rq q);
   post "/api/v1/push/subscribe" InContext (λ rq _ _ b, PushRouter.subscribe_route keyStore rq (b ?? JObj []));
   delete "/api/v1/push/subscribe" InContext
     (λ rq _ _ b, PushRouter.unsubscribe_push_route keyStore rq (b ?? JObj []))]%string.

Definition payment_routes : list Route :=
  [post "/api/v1/orgs/:orgId/payments/orders" (Tenant Admins) (λ rq _ _ b, PaymentRouter.create_order_route keyStore rq b);
   post "/api/v1/orgs/:orgId/payments/verify" (Tenant Anyone) (λ rq _ _ b, PaymentRouter.verify_payment_route keyStore rq b);
   get "/api/v1/orgs/:orgId/payments" (Tenant Admins)
     (λ rq _ q _, PaymentRouter.list_payments_route keyStore rq (PaymentRouter.js_Number <$> param "limit" q)
        (PaymentRouter.js_Number <$> param "offset" q));
   get "/api/v1/orgs/:orgId/subscription" (Tenant Anyone) (λ rq _ _ _, PaymentRouter.subscription_route keyStore rq);
   post "/api/v1/webhooks/razorpay" Public
     (λ rq _ _ b, WebhookHandler.webhook JSON_parse (Parsed (b ?? JObj [])) (razorpay_signature rq))]%string.

Definition file_routes : list Route :=
  [post "/api/v1/orgs/:orgId/files/upload-url" (Tenant Anyone) (λ rq _ _ b, FileRouter.upload_url_route keyStore rq b);
   get "/api/v1/orgs/:orgId/files/:fileId/download-url" (Tenant Anyone)
     (λ rq p _ _, FileRouter.download_url_route keyStore rq (p "fileId"));
   get "/api/v1/orgs/:orgId/files" (Tenant Anyone) (λ rq _ q _, FileRouter.list_files_route keyStore rq q);
   get "/api/v1/orgs/:orgId/files/:fileId" (Tenant Anyone)
     (λ rq p _ _, FileRouter.get_file_route keyStore rq (p "fileId"))]%string.

Definition search_routes : list Route :=
  [get "/api/v1/orgs/:orgId/search" (Tenant Anyone)
     (λ rq _ q _, SearchRouter.search_route keyStore typesense initialized rq q)]%string.

Definition workspace_routes : list Route :=
  [post "/api/v1/orgs/:orgId/workspaces" (Tenant Anyone) (λ rq _ _ b, WorkspaceRouter.create_workspace_route keyStore rq b);
   get "/api/v1/orgs/:orgId/workspaces" (Tenant Anyone) (λ rq _ _ _, WorkspaceRouter.list_workspaces_route keyStore rq);
   get "/api/v1/orgs/:orgId/workspaces/:workspaceId" (Tenant Anyone)
     (λ rq p _ _, WorkspaceRouter.get_workspace_route keyStore rq (p "workspaceId"));
   patch "/api/v1/orgs/:orgId/workspaces/:workspaceId" (Tenant Anyone)
     (λ rq p _ b, WorkspaceRouter.update_workspace_route keyStore rq (p "workspaceId") b);
   delete "/api/v1/orgs/:orgId/workspaces/:workspaceId" (Tenant Anyone)
     (λ rq p _ _, WorkspaceRouter.delete_workspace_route keyStore rq (p "workspaceId"))]%string.

Definition webhook_routes : list Route :=
  [post "/api/v1/orgs/:orgId/webhooks" (Tenant Admins) (λ rq _ _ b, WebhookRouter.create_webhook_route keyStore rq b);
   get "/api/v1/orgs/:orgId/webhooks" (Tenant Anyone) (λ rq _ _ _, WebhookRouter.list_webhooks_route keyStore rq);
   delete "/api/v1/orgs/:orgId/webhooks/:webhookId" (Tenant Admins)
     (λ rq p _ _, WebhookRouter.delete_webhook_route keyStore rq (p "webhookId"));
   post "/api/v1/orgs/:orgId/webhooks/:webhookId/rotate-secret" (Tenant Admins)
     (λ rq p _ _, WebhookRouter.rotate_secret_route keyStore rq (p "webhookId"))]%string.

Definition flag_routes : list Route :=
  [get "/api/v1/admin/feature-flags" Platform (λ rq _ _ _, FeatureFlagRouter.list_flags_route keyStore allowlist rq);
   post "/api/v1/admin/feature-flags" Platform (λ rq _ _ b, FeatureFlagRouter.create_flag_route keyStore allowlist rq b);
   patch "/api/v1/admin/feature-flags/:id" Platform
     (λ rq p _ b, FeatureFlagRouter.update_flag_route keyStore allowlist rq (p "id") b);
   delete "/api/v1/admin/feature-flags/:id" Platform
     (λ rq p _ _, FeatureFlagRouter.delete_flag_route keyStore allowlist rq (p "id"))]%string.

(** The key store after a rotation is the process's. *)
Definition admin_routes : list Route :=
  [get "/api/v1/admin/organizations" Platform (λ rq _ q _, AdminRouter.list_organizations_route keyStore allowlist rq q);
   post "/api/v1/admin/organizations/:orgId/suspend" Platform
     (λ rq p _ b, AdminRouter.suspend_route keyStore allowlist rq (p "orgId") b);
   post "/api/v1/admin/organizations/:orgId/reactivate" Platform
     (λ rq p _ _, AdminRouter.reactivate_route keyStore allowlist rq (p "orgId"));
   post "/api/v1/admin/organizations/:orgId/offboard" Platform
     (λ rq p _ _, AdminRouter.offboard_route keyStore allowlist rq (p "orgId"));
   post "/api/v1/admin/users/:userId/unlock" Platform
     (λ rq p _ _, AdminRouter.unlock_route keyStore allowlist rq (p "userId"));
   post "/api/v1/admin/users/:userId/reset-mfa" Platform
     (λ rq p _ _, AdminRouter.reset_mfa_route keyStore allowlist rq (p "userId"));
   post "/api/v1/admin/organizations/:orgId/trigger-payment-recovery" Platform
     (λ rq p _ _, AdminRouter.payment_recovery_route keyStore allowlist rq (p "orgId"));
   post "/api/v1/admin/outbox/:eventId/replay" Platform
     (λ rq p _ _, AdminRouter.replay_outbox_route keyStore allowlist rq (p "eventId"));
   post "/api/v1/admin/queues/:queueName/requeue-dlq" Platform
     (λ rq p _ _, AdminRouter.requeue_dlq_route keyStore allowlist getFailed retry rq (p "queueName"));
   post "/api/v1/admin/organizations/:orgId/reindex-search" Platform
     (λ rq p _ _, AdminRouter.reindex_route keyStore allowlist rq (p "orgId"));
   post "/api/v1/admin/jwt/rotate-keys" Platform
     (λ rq _ _ b, let* r := AdminRouter.rotate_keys_route keyStore allowlist rq b in ret r.1)]%string.

Definition gdpr_routes : list Route :=
  [post "/api/v1/orgs/:orgId/gdpr/export-request" (Tenant Anyone) (λ rq _ _ _, GdprRoutes.export_request_route keyStore rq);
   post "/api/v1/orgs/:orgId/gdpr/erasure-request" (Tenant Anyone)
     (λ rq _ _ b, GdprRoutes.erasure_request_route keyStore rq b);
   post "/api/v1/admin/orgs/:orgId/gdpr/org-export" Platform
     (λ rq p _ _, GdprRoutes.org_export_route keyStore allowlist rq (p "orgId"));
   post "/api/v1/admin/orgs/:orgId/offboard" Platform
     (λ rq p _ _, GdprRoutes.offboard_route keyStore allowlist rq (p "orgId"))]%string.

(** In the order of [app.use]. *)
Definition routes : list Route :=
  auth_routes ++ org_routes ++ task_routes ++ chat_routes ++ notification_routes ++ payment_routes ++ file_routes ++
  search_routes ++ workspace_routes ++ webhook_routes ++ flag_routes ++ admin_routes ++ gdpr_routes.

Context `{Express}.

(** A GET route answers HEAD too. *)
Definition serves (method : string) (r : Route) : bool :=
  (rt_method r =? method)%string || ((rt_method r =? "GET")%string && (method =? "HEAD")%string).

(** The first layer of the stack that matches. *)
Fixpoint dispatch (table : list Route) (method url : string) : option (Route * params) :=
  match table with
  | [] => None
  | r :: table =>
      match (if serves method r then path_match (rt_pattern r) url else None) with
      | Some p => Some (r, p)
      | None => dispatch table method url
      end
  end.

(** What Express answers when no route matches. *)
Definition not_found : Response := mkResponse 404 JNull.

Definition app (rq : Request) (url : string) (query body : option json) : M Response :=
  match dispatch routes (rq_method rq) url with
  | Some (r, p) => rt_serve r rq p query body
  | None => ret not_found
  end.
End app.

(** ** Bodies are read at their types *)

(** A schema, and the type the handler reads its result at. *)
Record Cast `{Zod} := mkCast {
  cast_type : Type;
  cast_schema : ZodType;
  cast_read : json → option cast_type
}.
#[global] Arguments mkCast {_ _} _ _.

Section casts.
Context `{Z0 : Zod}.

(** Every pair of the routers; a message is read for a channel and a sender, a
    search for an organization. *)
Definition casts (channelId senderId orgId : string) : list Cast :=
  [mkCast AuthRouter.registerSchema AuthRouter.as_registration; mkCast AuthRouter.loginSchema AuthRouter.as_login;
   mkCast AuthRouter.refreshSchema AuthRouter.as_refreshToken; mkCast AuthRouter.emailSchema AuthRouter.as_email;
   mkCast AuthRouter.confirmSchema AuthRouter.as_confirmation; mkCast AuthRouter.googleSchema AuthRouter.as_idToken;
   mkCast AuthRouter.magicLinkSchema AuthRouter.as_magic_link; mkCast AuthRouter.tokenSchema AuthRouter.as_token;
   mkCast OrganizationRouter.createOrgSchema OrganizationRouter.as_CreateOrgInput;
   mkCast OrganizationRouter.updateOrgSchema OrganizationRouter.as_UpdateOrgData;
   mkCast OrganizationRouter.suspendSchema OrganizationRouter.as_reason;
   mkCast OrganizationRouter.roleSchema OrganizationRouter.as_role;
   mkCast OrganizationRouter.inviteSchema OrganizationRouter.as_invitation;
   mkCast TaskRouter.createTaskSchema TaskRouter.as_CreateTaskInput;
   mkCast TaskRouter.updateTaskSchema TaskRouter.as_UpdateTaskInput;
   mkCast TaskRouter.listTasksQuerySchema TaskRouter.as_TaskFilters;
   mkCast TaskRouter.dependencySchema TaskRouter.as_blocked_task_id;
   mkCast TaskRouter.bulkStatusSchema TaskRouter.as_bulk_status;
   mkCast TaskRouter.bulkDeleteSchema TaskRouter.as_task_ids;
   mkCast TaskRouter.templateSchema TaskRouter.as_CreateTemplateInput;
   mkCast TaskRouter.commentSchema TaskRouter.as_comment; mkCast TaskRouter.activityQuerySchema TaskRouter.as_page;
   mkCast ChatRouter.directSchema ChatRouter.as_other_user_id; mkCast ChatRouter.groupSchema ChatRouter.as_group;
   mkCast ChatRouter.workspaceChannelSchema ChatRouter.as_workspace_channel;
   mkCast ChatRouter.messageSchema (ChatRouter.as_message channelId senderId);
   mkCast ChatRouter.messagesQuerySchema ChatRouter.as_messages_query;
   mkCast NotificationRouter.notificationsQuerySchema NotificationRouter.as_notifications_query;
   mkCast NotificationRouter.preferenceSchema NotificationRouter.as_preference;
   mkCast NotificationRouter.unsubscribeSchema NotificationRouter.as_unsubscribe;
   mkCast PaymentRouter.orderSchema PaymentRouter.as_order;
   mkCast PaymentRouter.verifySchema PaymentRouter.as_verification;
   mkCast FileRouter.uploadSchema FileRouter.as_upload; mkCast FileRouter.filesQuerySchema FileRouter.as_files_query;
   mkCast SearchRouter.searchQuerySchema (SearchRouter.as_search orgId);
   mkCast WorkspaceRouter.createWorkspaceSchema WorkspaceRouter.as_workspace;
   mkCast WorkspaceRouter.updateWorkspaceSchema WorkspaceRouter.as_workspace_update;
   mkCast WebhookRouter.webhookSchema WebhookRouter.as_webhook;
   mkCast FeatureFlagRouter.createFlagSchema FeatureFlagRouter.as_flag;
   mkCast FeatureFlagRouter.updateFlagSchema FeatureFlagRouter.as_flag_update;
   mkCast AdminRouter.organizationsQuerySchema AdminRouter.as_organizations_query;
   mkCast AdminRouter.suspendSchema AdminRouter.as_reason; mkCast AdminRouter.rotateKeysSchema AdminRouter.as_key;
   mkCast GdprRoutes.ErasureRequestSchema GdprRoutes.as_password].

Context `{!ZodLaws Z0}.

#[local] Instance sound_status : Sound TaskRouter.taskStatusEnum as_status.
Proof. apply sound_enum. reflexivity. Qed.
#[local] Instance sound_priority : Sound TaskRouter.taskPriorityEnum as_priority.
Proof. apply sound_enum. reflexivity. Qed.
#[local] Instance sound_default_priority : Sound (z_enum ["low"; "medium"; "high"; "urgent"]%string) as_priority.
Proof. apply sound_enum. reflexivity. Qed.
#[local] Instance sound_assignable :
  Sound OrganizationRouter.assignableEnum (as_enum (literal role_str OrganizationRouter.assignable)).
Proof. apply sound_enum. reflexivity. Qed.

Lemma casts_sound channelId senderId orgId :
  Forall (λ c, Sound (cast_schema c) (cast_read c)) (casts channelId senderId orgId).
Proof. unfold casts. repeat apply Forall_cons_2; [cbn [cast_schema cast_read]; solve_cast..|constructor]. Qed.
End casts.

(** ** Routes honour their guards *)

Section guards.
Context `{Redis, !RedisHash, !RedisZset, Random, Config, Crypto, Zod, Network, !StorageProvider, !StorageLaws _,
  !RazorpaySdk, Saml, Google, FullText, !TypesenseClient, !TypesenseLaws _, !SearchBreaker, !BreakerLaws _, IpAddr}.
Context (keyStore : gmap string string) (allowlist : option string) (jwt_text : jwt_token → string).
Context (test_env exec_rejects typesense initialized : bool).
Context (getFailed : string → M (list Job)) (retry : Job → M unit).
Context (JSON_parse : string → option json) (razorpay_signature : Request → option string).

#[local] Notation harmless := OrgAccess.harmless.

Lemma harmless_bind {A B} (m : M A) (k : A → M B) : harmless m → (∀ x, harmless (k x)) → harmless (bind m k).
Proof. intros Hm Hk d. apply preserves_bind; [apply Hm|intros x; apply Hk]. Qed.

Lemma harmless_outside {A} (m : M A) : outside m → harmless m.
Proof. intros Hm. apply harmless_pure. intros w. apply Hm. Qed.

Lemma harmless_catch {A} (m : M A) (k : error → M A) : harmless m → (∀ e, harmless (k e)) → harmless (catch m k).
Proof. intros Hm Hk d. apply preserves_catch; [apply Hm|intros e; apply Hk]. Qed.

Lemma harmless_requireRole {A} c role (next : M A) :
  oc_memberRole c = role_str role → ¬ (role = OrgOwner ∨ role = OrgAdmin) →
  harmless (OrgContext.requireRole ["org_owner"; "org_admin"]%string c next).
Proof.
  intros E Hr. unfold OrgContext.requireRole. rewrite E.
  destruct role; cbn; [by destruct Hr; left|by destruct Hr; right|by apply harmless_pure..].
Qed.

(** What a route does after its guard writes the database only by a method
    that may, and for the role it asks for. *)
Definition honours (r : Route) : Prop := ∀ rq p q b,
  match rt_guard r with
  | Public => True
  | Signed => ∃ next,
      (∀ w, rt_serve r rq p q b w = handled rq (bind (JwtMiddleware.authenticate keyStore (rq_authorization rq)) next) w) ∧
      (rt_method r = "GET"%string → ∀ user, harmless (next user))
  | InContext => ∃ next,
      (∀ w, rt_serve r rq p q b w = handled rq (PushRouter.contextMiddleware keyStore rq next) w) ∧
      rt_method r ≠ "GET"%string
  | Tenant needs => ∃ next,
      (∀ w, rt_serve r rq p q b w = handled rq (OrgContext.orgMiddleware keyStore rq next) w) ∧
      ∀ user c role, oc_memberRole c = role_str role →
        (rt_method r ≠ "GET"%string ∧ role_ok needs user role) ∨ harmless (next user c)
  | Platform => ∃ next,
      (∀ w, rt_serve r rq p q b w = handled rq (PlatformAdmin.adminMiddleware keyStore allowlist rq next) w) ∧
      (rt_method r = "GET"%string → ∀ user, harmless (next user))
  end.

(** Reads: what is left of a handler are queries of the database. *)
Ltac reads :=
  repeat first
    [ apply harmless_validated; intros ?
    | apply harmless_bind; [|intros ?]
    | apply harmless_catch; [|intros ?]
    | by apply harmless_pure
    | apply harmless_outside, download_outside
    | case_match ].

Lemma harmless_for_each {A} (l : list A) (f : A → M unit) : (∀ x, harmless (f x)) → harmless (for_each l f).
Proof. intros Hf d. apply preserves_for_each. intros x. apply Hf. Qed.

Lemma harmless_typesense o : harmless (TypesenseProvider.search initialized o).
Proof.
  unfold TypesenseProvider.search, TypesenseProvider.ensureCollections. apply harmless_bind; [|intros _; apply harmless_bind].
  - destruct initialized; [by apply harmless_pure|]. apply harmless_for_each. intros schema.
    unfold TypesenseProvider.quietly. apply harmless_catch; [|by intros; apply harmless_pure].
    apply harmless_pure, ts_create_outside.
  - generalize (so_entityTypes o ?? all_types). intros types. induction types as [|t types IH]; [by apply harmless_pure|].
    apply harmless_bind; [|intros found; apply harmless_bind; [exact IH|by intros; apply harmless_pure]].
    unfold TypesenseProvider.search_type. destruct (TypesenseProvider.collectionMap _); [|by apply harmless_pure].
    apply harmless_catch; [|by intros; apply harmless_pure].
    apply harmless_bind; [apply harmless_pure, ts_search_outside|by intros; apply harmless_pure].
  - by intros; apply harmless_pure.
Qed.

Lemma harmless_search o : harmless (SearchService.search typesense initialized o).
Proof.
  assert (Hpg : ∀ o, harmless (PostgresFtsProvider.search o)).
  { intros o'. unfold PostgresFtsProvider.search, PostgresFtsProvider.search_tasks, PostgresFtsProvider.search_messages,
      PostgresFtsProvider.search_files, PostgresFtsProvider.search_users, PostgresFtsProvider.when. cbv zeta. reads. }
  unfold SearchService.search. apply harmless_catch; [|intros _; apply harmless_bind; [apply Hpg|by intros; apply harmless_pure]].
  assert (Ha : harmless (provider_search (SearchService.getActiveProvider typesense initialized) o)).
  { unfold SearchService.getActiveProvider. destruct typesense; [apply harmless_typesense|apply Hpg]. }
  intros d w Hw. destruct (breaker_cases (provider_search (SearchService.getActiveProvider typesense initialized) o) w)
    as [->|(e & w' & -> & [->| ->])]; [by apply Ha|done|by apply Ha].
Qed.

(** A handler in its guard; what is left to show is that a read is one, and
    that a role is asked for. *)
Ltac honour :=
  intros rq p q b; cbn [rt_guard rt_serve rt_method post get patch delete];
  first
    [ exact I
    | eexists; split; [intros w; reflexivity|]; first
        [ discriminate
        | intros ? ? ? _; left; split; [discriminate|exact I]
        | intros _ user; cbv beta
        | intros user c role Hrole; cbv beta; cbn [role_ok] ] ].

Lemma auth_honour : Forall honours (auth_routes keyStore jwt_text test_env exec_rejects).
Proof. repeat apply Forall_cons_2; [honour..|constructor]. Qed.

(** The role decides. *)
Ltac by_role :=
  lazymatch goal with |- (?n ∧ ?P) ∨ _ => destruct (decide P) as [Hr|Hr]; [left; split; [discriminate|exact Hr]|right] end;
  repeat first
    [ apply harmless_keys | apply harmless_validated; intros ? | by eapply harmless_owner_or_admin
    | by eapply harmless_owner_or_platform | by eapply harmless_requireRole ].

Lemma org_honour : Forall honours (org_routes keyStore jwt_text).
Proof.
  repeat apply Forall_cons_2; [honour..|constructor]; try by_role.
  all: try right.
  all: unfold OrganizationService.getOrg, OrganizationRepository.findById, OrganizationService.found_org,
    MembershipRepository.findMembersByOrg; reads.
Qed.

Lemma task_honour : Forall honours (task_routes keyStore).
Proof.
  repeat apply Forall_cons_2; [honour..|constructor]. all: right.
  all: unfold TaskService.listTasks, TaskService.getTask, TaskService.task_of_org, DependencyService.listDependencies,
    TemplateService.listTemplates, CommentService.listComments, ActivityLogService.listForTask,
    ActivityLogService.listForOrg; reads.
Qed.

Lemma chat_honour : Forall honours (chat_routes keyStore).
Proof.
  repeat apply Forall_cons_2; [honour..|constructor]. all: right.
  all: unfold ChannelService.listChannels, ChannelRepository.findByOrg, ChannelService.getChannel, MessageService.listMessages; reads.
Qed.

Lemma notification_honour : Forall honours (notification_routes keyStore).
Proof.
  repeat apply Forall_cons_2; [honour..|constructor]. all: right.
  all: unfold NotificationRepository.findByUser, PreferenceService.listPreferences; reads.
Qed.

Lemma payment_honour : Forall honours (payment_routes keyStore JSON_parse razorpay_signature).
Proof.
  repeat apply Forall_cons_2; [honour..|constructor]; try by_role. all: try right.
  all: unfold OrganizationRouter.owner_or_admin, PaymentRouter.sql_count, SubscriptionRepository.findByOrg; reads.
Qed.

Lemma file_honour : Forall honours (file_routes keyStore).
Proof.
  repeat apply Forall_cons_2; [honour..|constructor]. all: right.
  all: unfold FileService.generateDownloadUrl, FileService.listFiles, FileService.getFile; reads.
Qed.

Lemma search_honour : Forall honours (search_routes keyStore typesense initialized).
Proof.
  repeat apply Forall_cons_2; [honour..|constructor]. right.
  apply harmless_validated. intros o. apply harmless_bind; [apply harmless_search|intros r; reads].
Qed.

Lemma workspace_honour : Forall honours (workspace_routes keyStore).
Proof.
  repeat apply Forall_cons_2; [honour..|constructor]. all: right.
  all: unfold WorkspaceService.listWorkspaces, WorkspaceService.getWorkspace; reads.
Qed.

Lemma webhook_honour : Forall honours (webhook_routes keyStore).
Proof.
  repeat apply Forall_cons_2; [honour..|constructor]; try by_role. right.
  unfold WebhookService.listByOrg. reads.
Qed.

Lemma flag_honour : Forall honours (flag_routes keyStore allowlist).
Proof. repeat apply Forall_cons_2; [honour..|constructor]. reads. Qed.

Lemma gdpr_honour : Forall honours (gdpr_routes keyStore allowlist).
Proof. repeat apply Forall_cons_2; [honour..|constructor]. Qed.

(** What follows the guard of the administrators may as well be under it. *)
Lemma admin_bind {A B} rq (next : ReqUser → M A) (f : A → M B) w :
  bind (PlatformAdmin.adminMiddleware keyStore allowlist rq next) f w =
  PlatformAdmin.adminMiddleware keyStore allowlist rq (λ user, bind (next user) f) w.
Proof.
  unfold PlatformAdmin.adminMiddleware, bind. destruct (JwtMiddleware.authenticate _ _ w) as [[user|e] w1]; [|done].
  cbn. by destruct (PlatformAdmin.platformAdminMiddleware _ _ _ _).
Qed.

Lemma admin_honour : Forall honours (admin_routes keyStore allowlist getFailed retry).
Proof.
  repeat apply Forall_cons_2; [honour..| |constructor].
  - unfold AdminService.listOrganizations. reads.
  - intros rq p q b. exists (λ user, bind (AdminRouter.rotate_keys keyStore rq b user) (λ r, ret r.1)).
    split; [|discriminate]. intros w. cbn [rt_serve post].
    pose proof (admin_bind rq (AdminRouter.rotate_keys keyStore rq b) (λ r, ret r.1) w) as E.
    unfold handled, catch. rewrite <- E. unfold AdminRouter.rotate_keys_route, catch, bind.
    by destruct (PlatformAdmin.adminMiddleware keyStore allowlist rq (AdminRouter.rotate_keys keyStore rq b) w)
      as [[r|e] w'].
Qed.

Lemma routes_honour : Forall honours
  (routes keyStore allowlist jwt_text test_env exec_rejects typesense initialized getFailed retry JSON_parse razorpay_signature).
Proof.
  unfold routes. rewrite !Forall_app.
  split_and!; [apply auth_honour|apply org_honour|apply task_honour|apply chat_honour|apply notification_honour
    |apply payment_honour|apply file_honour|apply search_honour|apply workspace_honour|apply webhook_honour
    |apply flag_honour|apply admin_honour|apply gdpr_honour].
Qed.
End guards.

(** ** What a request may do *)

Section theorems.
Context `{Redis, !RedisLaws _, !RedisHash, !RedisZset, Random, Config, Crypto, Zod, Network, !StorageProvider,
  !StorageLaws _, !RazorpaySdk, Saml, Google, FullText, !TypesenseClient, !TypesenseLaws _, !SearchBreaker,
  !BreakerLaws _, IpAddr, Express}.
Context (keyStore : gmap string string) (allowlist : option string) (jwt_text : jwt_token → string).
Context (test_env exec_rejects typesense initialized : bool).
Context (getFailed : string → M (list Job)) (retry : Job → M unit).
Context (JSON_parse : string → option json) (razorpay_signature : Request → option string).

Definition the_routes : list Route :=
  routes keyStore allowlist jwt_text test_env exec_rejects typesense initialized getFailed retry JSON_parse razorpay_signature.
Definition the_app : Request → string → option json → option json → M Response :=
  app keyStore allowlist jwt_text test_env exec_rejects typesense initialized getFailed retry JSON_parse razorpay_signature.

(** The request comes with a token that authenticates [user]. *)
Definition signed_by (rq : Request) (w : World) (user : ReqUser) : Prop :=
  (JwtMiddleware.authenticate keyStore (rq_authorization rq) w).1 = Ok user.

(** [user] is an active member, as [m], of the organization [o] the request
    names. *)
Definition member_of (rq : Request) (w : World) (user : ReqUser) (m : MembershipRow) (o : OrgRow) : Prop :=
  tenant_of rq user (o_id o) ∧
  m ∈ org_memberships (db w) ∧ OrgContext.active_in (o_id o) (ru_userId user) m = true ∧ o ∈ organizations (db w).

(** What can be asked without a token, the two links sent by email among it. *)
Definition mail_links : list string := ["/api/v1/auth/verify-email"; "/api/v1/notifications/unsubscribe"]%string.
Definition open_posts : list string :=
  ["/api/v1/auth/register"; "/api/v1/auth/login"; "/api/v1/auth/refresh"; "/api/v1/auth/verify-email/resend";
   "/api/v1/auth/password-reset/request"; "/api/v1/auth/password-reset/confirm"; "/api/v1/auth/oauth/google";
   "/api/v1/auth/magic-link/request"; "/api/v1/auth/magic-link/verify"; "/api/v1/auth/saml/:orgId/callback";
   "/api/v1/orgs/invitations/accept"; "/api/v1/webhooks/razorpay"]%string.
Definition open_to_all (method pattern : string) : bool :=
  (method =? "GET")%string && includes mail_links pattern || (method =? "POST")%string && includes open_posts pattern.

(** Who a route that writes was called by. *)
Definition authorized (r : Route) (rq : Request) (w : World) : Prop :=
  match rt_guard r with
  | Public => open_to_all (rt_method r) (rt_pattern r) = true
  | Signed => ∃ user, signed_by rq w user
  | InContext => ∃ user m o, signed_by rq w user ∧ member_of rq w user m o ∧ o_status o ≠ OrgDeleted
  | Tenant needs => ∃ user m o, signed_by rq w user ∧ member_of rq w user m o ∧ o_status o = OrgActive ∧
      role_ok needs user (om_role m)
  | Platform => ∃ user, signed_by rq w user ∧ ru_isPlatformAdmin user = true ∧
      (otruthy allowlist = true → PlatformAdmin.ip_allowed (allowlist ?? "") (rq_ip rq) = true) ∧
      ∃ t, ru_mfaVerifiedAt user = Some t ∧ (clock w / 1000 - t ≤ 3600)%Z
  end.

Lemma dispatch_in table method url r p :
  dispatch table method url = Some (r, p) → r ∈ table ∧ serves method r = true.
Proof.
  induction table as [|r' table IH]; [done|]. cbn. destruct (serves method r') eqn:Es.
  - destruct (path_match _ _); [intros [= <- <-]; by split; [left|]|]. intros [Hin Hs]%IH. split; [by right|done].
  - intros [Hin Hs]%IH. split; [by right|done].
Qed.

Lemma route_methods : Forall (λ r, rt_method r = "GET"%string ∨ includes OrgContext.WRITE_METHODS (rt_method r) = true) the_routes.
Proof. unfold the_routes, routes. cbn [app auth_routes]. repeat apply Forall_cons_2; (by left) || (by right). Qed.

Lemma routes_open :
  Forall (λ r, rt_guard r = Public → open_to_all (rt_method r) (rt_pattern r) = true) the_routes.
Proof. unfold the_routes, routes. cbn [app auth_routes]. repeat apply Forall_cons_2; (by intros) || (intros Hg; discriminate Hg). Qed.

Lemma open_link method pattern :
  open_to_all method pattern = true → method = "GET"%string → pattern ∈ mail_links.
Proof. unfold open_to_all. intros Ho ->. cbn in Ho. rewrite orb_false_r in Ho. by apply includes_spec. Qed.

Lemma unchanged_of_frozen d w : db w = d → unchanged d (db w).
Proof. intros ->. apply unchanged_refl. Qed.

Lemma member_found rq user orgId w m o :
  tenant_of rq user orgId →
  List.find (OrgContext.active_in orgId (ru_userId user)) (org_memberships (db w)) = Some m →
  List.find (λ o, (o_id o =? orgId)%string) (organizations (db w)) = Some o → member_of rq w user m o.
Proof.
  intros Ht [Hm Ha]%find_some_elem [Ho E]%find_some_elem. bool_to_prop. unfold member_of. rewrite E.
  repeat split; try done; try apply Ht.
Qed.

(** A request that is refused before its route has run. *)
Lemma authenticate_same rq w : db (JwtMiddleware.authenticate keyStore (rq_authorization rq) w).2 = db w.
Proof. by apply (authenticate_frozen keyStore (db w) (jobs w) (clock w) (rq_authorization rq) w (frozen_refl w)). Qed.

Lemma signed_case rq next w (is_get : bool) :
  (is_get = true → ∀ user, OrgAccess.harmless (next user)) →
  unchanged (db w) (db (handled rq (bind (JwtMiddleware.authenticate keyStore (rq_authorization rq)) next) w).2) ∨
  is_get = false ∧ ∃ user, signed_by rq w user.
Proof.
  intros Hn. rewrite handled_db. unfold bind, signed_by. pose proof (authenticate_same rq w) as Hd.
  destruct (JwtMiddleware.authenticate _ _ w) as [[user|e] w1]; cbn in *; [|left; by apply unchanged_of_frozen].
  destruct is_get; [left|right; eauto]. apply Hn; [done|by apply unchanged_of_frozen].
Qed.

Lemma platform_case rq next w (is_get : bool) :
  (is_get = true → ∀ user, OrgAccess.harmless (next user)) →
  unchanged (db w) (db (handled rq (PlatformAdmin.adminMiddleware keyStore allowlist rq next) w).2) ∨
  is_get = false ∧ ∃ user, signed_by rq w user ∧ ru_isPlatformAdmin user = true ∧
    (otruthy allowlist = true → PlatformAdmin.ip_allowed (allowlist ?? "") (rq_ip rq) = true) ∧
    ∃ t, ru_mfaVerifiedAt user = Some t ∧ (clock w / 1000 - t ≤ 3600)%Z.
Proof.
  intros Hn. rewrite handled_db. unfold PlatformAdmin.adminMiddleware, bind, now, signed_by.
  pose proof (authenticate_frozen keyStore (db w) (jobs w) (clock w) (rq_authorization rq) w (frozen_refl w)) as Hd.
  destruct (JwtMiddleware.authenticate _ _ w) as [[user|e] w1]; cbn [snd] in *; destruct Hd as (Hd & _ & Hc);
    [|left; by apply unchanged_of_frozen].
  destruct (PlatformAdmin.platformAdminMiddleware _ _ _ _) as [e|] eqn:Ep; [left; by apply unchanged_of_frozen|].
  destruct is_get; [left; apply Hn; [done|by apply unchanged_of_frozen]|right]. split; [done|].
  exists user. split; [done|]. unfold PlatformAdmin.platformAdminMiddleware in Ep. rewrite Hc in Ep.
  destruct (ru_isPlatformAdmin user); [|done]. cbn [negb] in Ep. split; [done|].
  destruct (otruthy allowlist && _) eqn:Eip; [done|]. split.
  { intros Ho. rewrite Ho in Eip. by apply negb_false_iff in Eip. }
  destruct (ru_mfaVerifiedAt user) as [t|]; [|done]. cbn [default id] in Ep. exists t. split; [done|].
  destruct (_ =? 0)%Z; [done|]. destruct (Z.ltb_spec 3600 (clock w / 1000 - t)); [done|lia].
Qed.

Lemma context_case rq next w :
  uncached w →
  unchanged (db w) (db (handled rq (PushRouter.contextMiddleware keyStore rq next) w).2) ∨
  ∃ user m o, signed_by rq w user ∧ member_of rq w user m o ∧ o_status o ≠ OrgDeleted.
Proof.
  intros Hun. rewrite handled_db. unfold PushRouter.contextMiddleware, signed_by. unfold bind at 1.
  pose proof (authenticate_same rq w) as Hd0.
  pose proof (authenticate_uncached keyStore (rq_authorization rq) w Hun) as Hun0.
  destruct (JwtMiddleware.authenticate _ _ w) as [[user|e] w0] eqn:Ea; cbn [fst snd] in *;
    [|left; by apply unchanged_of_frozen].
  unfold bind at 1. pose proof (orgContext_frozen (db w0) (jobs w0) (clock w0) rq user w0 (frozen_refl w0)) as (Hd1 & _).
  destruct (OrgContext.orgContextMiddleware rq user w0) as [[c|e] w1] eqn:Ec; cbn [fst snd] in *;
    [|left; apply unchanged_of_frozen; congruence].
  right. destruct (orgContext_ok _ _ _ _ _ Ec) as (orgId & Ht & Er).
  destruct (resolve_member _ _ _ _ _ Hun0 Er) as (m & o & Em & Eo & Hs & _). rewrite Hd0 in Em, Eo.
  exists user, m, o. split; [done|]. split; [by apply (member_found rq user orgId)|done].
Qed.

Lemma tenant_case needs rq next w (is_get : bool) :
  uncached w → String.prefix "/api/v1/auth" (rq_path rq) = false →
  (is_get = false → includes OrgContext.WRITE_METHODS (rq_method rq) = true) →
  (∀ user c role, oc_memberRole c = role_str role →
     (is_get = false ∧ role_ok needs user role) ∨ OrgAccess.harmless (next user c)) →
  unchanged (db w) (db (handled rq (OrgContext.orgMiddleware keyStore rq next) w).2) ∨
  is_get = false ∧ ∃ user m o, signed_by rq w user ∧ member_of rq w user m o ∧ o_status o = OrgActive ∧
    role_ok needs user (om_role m).
Proof.
  intros Hun Hp Hm Hn. rewrite handled_db. pose proof (orgMiddleware_cases keyStore rq next w) as Hg. unfold wp in Hg.
  destruct (OrgContext.orgMiddleware keyStore rq next w) as [r w']. cbn [fst snd] in Hg |- *.
  destruct Hg as [(e & -> & Hd & _)|(user & c & w0 & w1 & Eu & (o & Ht & Er) & Hs & Hd & Hj & _ & E)];
    [left; by apply unchanged_of_frozen|].
  pose proof (authenticate_uncached keyStore (rq_authorization rq) w Hun) as Hun0.
  pose proof (authenticate_same rq w) as Hd0. rewrite Eu in Hun0, Hd0. cbn [snd] in *.
  destruct (resolve_member _ _ _ _ _ Hun0 Er) as (m & og & Em & Eo & _ & Ec). rewrite Hd0 in Em, Eo.
  destruct (Hn user c (om_role m)) as [[Hget Hr]|Hh]; [by rewrite Ec| |].
  - right. split; [done|]. exists user, m, og. unfold signed_by. rewrite Eu. split; [done|].
    split; [by apply (member_found rq user o)|]. split; [|done].
    destruct (write_needs_active rq _ _ _ _ _ Hun0 (Hm Hget) Hp Hs Er) as (_ & m' & og' & _ & Eo' & Hact & _).
    rewrite Hd0 in Eo'. congruence.
  - left. change w' with (r, w').2. rewrite E. apply Hh. by apply unchanged_of_frozen.
Qed.

(** C15: every request to the application, whatever its method, path, query
    and body, either leaves the database as it was, idempotency keys apart, or
    is served by a route that is not a GET, the two links sent by email apart,
    and comes with what that route asks for: a valid token; for the data of a
    tenant, an active membership of the active organization it names, with the
    role of the route; for the administration, a platform administrator at an
    allowed address, with a second factor of the last hour.  Without a token
    only the listed routes of sign-up and sign-in, the two links, the acceptance
    of an invitation and the webhook of Razorpay write.  The tenant's data are
    those of the tables, so no context of an earlier request may be cached; the
    path of a request below its mount point does not begin with [/api/v1/auth]. *)
Theorem app_writes_authorized rq url query body w :
  uncached w → String.prefix "/api/v1/auth" (rq_path rq) = false →
  unchanged (db w) (db (the_app rq url query body w).2) ∨
  ∃ r p, dispatch the_routes (rq_method rq) url = Some (r, p) ∧
    (rt_method r = "GET"%string → rt_guard r = Public ∧ rt_pattern r ∈ mail_links) ∧ authorized r rq w.
Proof.
  intros Hun Hp. unfold the_app, app. fold the_routes.
  destruct (dispatch the_routes (rq_method rq) url) as [[r p]|] eqn:Ed; [|left; apply unchanged_refl].
  destruct (dispatch_in _ _ _ _ _ Ed) as [Hin Hs].
  pose proof (proj1 (Forall_forall _ _) route_methods r Hin) as Hmeth.
  pose proof (proj1 (Forall_forall _ _) (routes_honour keyStore allowlist jwt_text test_env exec_rejects typesense
    initialized getFailed retry JSON_parse razorpay_signature) r Hin rq p query body) as Hh.
  assert (Hrq : (rt_method r =? "GET")%string = false → includes OrgContext.WRITE_METHODS (rq_method rq) = true).
  { intros Hg. unfold serves in Hs. rewrite Hg in Hs. cbn in Hs. rewrite orb_false_r in Hs. bool_to_prop.
    rewrite <- Hs. by destruct Hmeth. }
  assert (Hget : ∀ b, (rt_method r =? "GET")%string = b → b = false → rt_method r ≠ "GET"%string) by
    (intros b <-; apply String.eqb_neq).
  specialize (Hget _ eq_refl). unfold authorized. destruct (rt_guard r) eqn:Eg.
  - right. exists r, p. pose proof (proj1 (Forall_forall _ _) routes_open r Hin Eg) as Ho. rewrite Eg.
    split; [done|]. split; [|done]. intros Hg. split; [done|]. by eapply open_link.
  - destruct Hh as (next & -> & Hn). destruct (signed_case rq next w (rt_method r =? "GET")%string) as [|[Hg Ha]];
      [by intros Hg%String.eqb_eq; apply Hn|by left|].
    right. exists r, p. rewrite Eg. split; [done|]. split; [by intros ?%Hget|done].
  - destruct Hh as (next & -> & Hn). destruct (context_case rq next w Hun) as [|Ha]; [by left|].
    right. exists r, p. rewrite Eg. split; [done|]. by split; [intros ?%Hn|].
  - destruct Hh as (next & -> & Hn).
    destruct (tenant_case needs rq next w (rt_method r =? "GET")%string Hun Hp Hrq) as [|[Hg Ha]]; [|by left|].
    { intros user c role Hr. destruct (Hn user c role Hr) as [[Hg Ho]|]; [left|by right].
      by split; [apply String.eqb_neq|]. }
    right. exists r, p. rewrite Eg. split; [done|]. split; [by intros ?%Hget|done].
  - destruct Hh as (next & -> & Hn). destruct (platform_case rq next w (rt_method r =? "GET")%string) as [|[Hg Ha]];
      [by intros Hg%String.eqb_eq; apply Hn|by left|].
    right. exists r, p. rewrite Eg. split; [done|]. split; [by intros ?%Hget|done].
Qed.
End theorems.

Section typing.
Context `{Redis, Z0 : Zod, !ZodLaws Z0}.

(** C16: a handler gets what it reads: for every schema and cast of the
    routers, whatever the body is, either the request is refused with the
    errors of the schema, and nothing is done, or the handler runs on a value
    of its type; no body passes the schema and then fails the cast. *)
Theorem bodies_are_typed {B} channelId senderId orgId c body (next : cast_type c → M B) w :
  c ∈ casts channelId senderId orgId →
  (∃ errors, validated (cast_schema c) (cast_read c) body next w =
     (Throw (ValidationError (JObj [("errors"%string, errors)])), w)) ∨
  (∃ v, validated (cast_schema c) (cast_read c) body next w = next v w).
Proof.
  intros Hc. pose proof (proj1 (Forall_forall _ _) (casts_sound channelId senderId orgId) c Hc) as Hs.
  unfold validated. destruct (safeParse (cast_schema c) body) as [errors|u] eqn:E; [left; by exists errors|right].
  destruct (Hs _ _ E) as (j & -> & v & Ev). exists v. cbn. by rewrite Ev.
Qed.
End typing.

(** ** Which route serves a request *)

(** Segments of a path; words, of lower-case letters, have no meaning of their
    own in a pattern. *)
Definition has_char (c : ascii) (s : string) : bool := existsb (Ascii.eqb c) (String.list_ascii_of_string s).
Definition lower (c : ascii) : bool := let n := nat_of_ascii c in (97 <=? n)%nat && (n <=? 122)%nat.
Definition word (s : string) : bool := truthy s && forallb lower (String.list_ascii_of_string s).

(** What [path-to-regexp] documents of a named parameter: it matches any text
    between slashes, so in particular what a word in its place matches. *)
Class ExpressLaws (E : Express) : Prop :=
  param_matches : ∀ before literal name after url, word literal = true →
    forallb (λ s, negb (has_char "/" s)) (before ++ name :: after) = true →
    is_Some (path_match (String.concat "/" (before ++ literal :: after)) url) →
    is_Some (path_match (String.concat "/" (before ++ (":" +:+ name) :: after)) url).

Section dispatching.
Context `{Redis, Crypto, E : Express}.

Lemma dispatch_matches table method url r p :
  dispatch table method url = Some (r, p) → path_match (rt_pattern r) url = Some p.
Proof.
  induction table as [|r' table IH]; [done|]. cbn. destruct (serves method r'); [|done].
  destruct (path_match (rt_pattern r') url) as [p'|] eqn:Em; [by intros [= <- <-]|done].
Qed.

(** A request that [r0] would serve never gets past it. *)
Lemma dispatch_stops l1 r0 l2 method url r p :
  serves method r0 = true → is_Some (path_match (rt_pattern r0) url) →
  dispatch (l1 ++ r0 :: l2) method url = Some (r, p) → r ∈ l1 ++ [r0].
Proof.
  intros Hs [p0 Hp]. induction l1 as [|r1 l1 IH]; cbn.
  - rewrite Hs, Hp. intros [= <- _]. by left.
  - destruct (if serves method r1 then _ else None) as [p1|]; [intros [= <- _]; by left|]. intros Hd. right. by apply IH.
Qed.
End dispatching.

Section shadowing.
Context `{Redis, !RedisHash, !RedisZset, Random, Config, Crypto, Zod, Network, !StorageProvider, !RazorpaySdk, Saml,
  Google, FullText, !TypesenseClient, !SearchBreaker, IpAddr, E : Express, !ExpressLaws E}.
Context (keyStore : gmap string string) (allowlist : option string) (jwt_text : jwt_token → string).
Context (test_env exec_rejects typesense initialized : bool).
Context (getFailed : string → M (list Job)) (retry : Job → M unit).
Context (JSON_parse : string → option json) (razorpay_signature : Request → option string).

(** The bulk deletion is registered after the deletion of one task, whose
    pattern matches its path: no request reaches it. *)
Lemma bulk_delete_unreachable method url r p :
  dispatch (routes keyStore allowlist jwt_text test_env exec_rejects typesense initialized getFailed retry JSON_parse razorpay_signature) method url =
    Some (r, p) →
  ¬ (rt_method r = "DELETE" ∧ rt_pattern r = "/api/v1/orgs/:orgId/tasks/bulk")%string.
Proof.
  intros Hd [Hm Hp]. pose proof (dispatch_matches _ _ _ _ _ Hd) as Hmatch. rewrite Hp in Hmatch.
  assert (Hs : method = "DELETE"%string).
  { apply dispatch_in in Hd as [_ Hs]. unfold serves in Hs. rewrite Hm in Hs.
    apply orb_true_iff in Hs as [Hs%String.eqb_eq|Hs]; [done|discriminate Hs]. }
  subst method.
  assert (Hone : is_Some (path_match "/api/v1/orgs/:orgId/tasks/:taskId" url)).
  { by apply (param_matches [""; "api"; "v1"; "orgs"; ":orgId"; "tasks"] "bulk" "taskId" [] url); [..|eexists]. }
  set (l := routes _ _ _ _ _ _ _ _ _ _ _) in Hd.
  rewrite <- (take_drop (length (auth_routes keyStore jwt_text test_env exec_rejects ++ org_routes keyStore jwt_text) + 4) l) in Hd.
  apply (dispatch_stops _ _ _ "DELETE" url r p) in Hd; [|reflexivity|exact Hone].
  subst l. cbn in Hd. repeat (apply elem_of_cons in Hd as [->|Hd]; [done|]). by apply elem_of_nil in Hd.
Qed.
End shadowing.

Module ApiExamples.
Import Concrete.

(** ** An Express *)

(** A pattern and a path match segment by segment. *)
Fixpoint segments (s : string) : list string :=
  match s with
  | EmptyString => [""]
  | String c s =>
      if Ascii.eqb c "/" then "" :: segments s
      else match segments s with x :: l => String c x :: l | [] => [] end
  end%string.

Definition is_param (pattern : string) : option string :=
  match pattern with String c name => if Ascii.eqb c ":" then Some name else None | EmptyString => None end.

Fixpoint match_segments (pattern url : list string) : option (list (string * string)) :=
  match pattern, url with
  | [], [] => Some []
  | x :: pattern, y :: url =>
      bound ← match_segments pattern url;
      match is_param x with
      | Some name => if truthy y then Some ((name, y) :: bound) else None
      | None => if (x =? y)%string then Some bound else None
      end
  | _, _ => None
  end.

#[local] Instance express : Express := λ pattern url,
  bound ← match_segments (segments pattern) (segments url);
  Some (λ k, (snd <$> List.find (λ b, (b.1 =? k)%string) bound) ?? "undefined"%string).

Lemma segments_app x s : has_char "/" x = false → segments (x +:+ "/" +:+ s) = x :: segments s.
Proof.
  induction x as [|c x IH]; [done|]. unfold has_char. cbn [String.list_ascii_of_string existsb].
  intros [Hc Hx]%orb_false_iff. rewrite Ascii.eqb_sym in Hc. change (String c x +:+ ?y) with (String c (x +:+ y)).
  cbn [segments]. by rewrite Hc, IH.
Qed.

Lemma segments_one x : has_char "/" x = false → segments x = [x].
Proof.
  induction x as [|c x IH]; [done|]. unfold has_char. cbn [String.list_ascii_of_string existsb].
  intros [Hc Hx]%orb_false_iff. rewrite Ascii.eqb_sym in Hc. cbn [segments]. by rewrite Hc, IH.
Qed.

Lemma segments_concat l :
  l ≠ [] → forallb (λ s, negb (has_char "/" s)) l = true → segments (String.concat "/" l) = l.
Proof.
  induction l as [|x [|y l] IH]; [done| |]; intros _; cbn [forallb]; rewrite andb_true_iff; intros [Hx Hl];
    apply negb_true_iff in Hx.
  - by apply segments_one.
  - change (String.concat "/" (x :: y :: l)) with (x +:+ "/" +:+ String.concat "/" (y :: l)).
    by rewrite segments_app, IH.
Qed.

Lemma word_plain x : word x = true → has_char "/" x = false ∧ is_param x = None ∧ truthy x = true.
Proof.
  unfold word. rewrite andb_true_iff, forallb_forall. intros [Ht Hl]. split_and!; [|destruct x as [|c x]; [done|]|done].
  - apply not_true_is_false. unfold has_char. rewrite existsb_exists. intros (c & Hc & <-%Ascii.eqb_eq).
    by specialize (Hl _ Hc).
  - cbn. destruct (Ascii.eqb_spec c ":") as [->|]; [|done]. by specialize (Hl ":"%char (or_introl eq_refl)).
Qed.

Lemma match_word before literal name after url :
  is_param literal = None → truthy literal = true →
  is_Some (match_segments (before ++ literal :: after) url) →
  is_Some (match_segments (before ++ (":" +:+ name)%string :: after) url).
Proof.
  intros Hp Ht. revert url. induction before as [|x before IH]; intros [|y url]; cbn; try done.
  - rewrite Hp. destruct (match_segments after url) as [b|]; cbn; [|done].
    destruct (String.eqb_spec literal y) as [<-|]; [|by intros []]. rewrite Ht. intros _. by eexists.
  - specialize (IH url). intros Hs. destruct (match_segments (before ++ literal :: after) url) as [b|]; cbn in Hs; [|by destruct Hs].
    destruct IH as [b' ->]; [by eexists|]. cbn.
    destruct (is_param x); [destruct (truthy y)|destruct (x =? y)%string]; by (destruct Hs; eexists; reflexivity) || by destruct Hs.
Qed.

#[local] Instance express_laws : ExpressLaws express.
Proof.
  intros before literal name after url (Hs & Hp & Ht)%word_plain Hl [p Hm]. unfold path_match, express in *.
  rewrite forallb_app in Hl. cbn [forallb] in Hl. rewrite !andb_true_iff in Hl. destruct Hl as (Hb & Hn & Ha).
  rewrite segments_concat in Hm; [|by destruct before|by rewrite forallb_app, Hb; cbn [forallb]; rewrite Hs, Ha].
  rewrite segments_concat; [|by destruct before|rewrite forallb_app, Hb; cbn [forallb]; by rewrite Ha, andb_true_r].
  destruct (match_word before literal name after (segments url) Hp Ht) as [b ->].
  - by destruct (match_segments _ _); [eexists|].
  - by eexists.
Qed.

(** ** The services the examples run on *)

#[local] Existing Instances ConcreteZod.zod ConcreteZod.zod_laws WebhookExamples.small_network FileExamples.storage
  PaymentExamples.sdk SignInExamples.small_saml SearchExamples.full_text SearchExamples.client
  SearchExamples.open_breaker SearchExamples.open_breaker_laws OrgAccessExamples.no_ips.
#[local] Instance google : Google := λ _ _, None.
#[local] Instance client_laws : TypesenseLaws SearchExamples.client.
Proof. by split. Qed.

Definition token_text (t : jwt_token) : string := "token".

(** The application in front of [OrgAccessExamples.founded]. *)
Definition example_app : Request → string → option json → option json → M Response :=
  the_app ∅ None token_text true false false false (λ _, ret []) (λ _, ret tt) (λ _, None) (λ _, None).
Definition example_routes : list Route :=
  the_routes ∅ None token_text true false false false (λ _, ret []) (λ _, ret tt) (λ _, None) (λ _, None).

Definition new_workspace : option json := Some (JObj [("name", JStr "Plans")])%string.
Definition url : string := "/api/v1/orgs/uuid-0/workspaces".
Definition rq : Request :=
  mkRequest _ "POST" "/orgs/uuid-0/workspaces" (Bearer (OrgAccessExamples.token "owner")) (Some "uuid-0"%string)
    (Some "key"%string) None "rq" "c" "r".

Lemma creates_workspace :
  length (workspaces (db (example_app rq url None new_workspace OrgAccessExamples.founded).2)) = 2.
Proof. vm_compute. reflexivity. Qed.
Lemma one_workspace : length (workspaces (db OrgAccessExamples.founded)) = 1.
Proof. vm_compute. reflexivity. Qed.
Lemma unchanged_workspaces d d' : unchanged d d' → workspaces d' = workspaces d.
Proof. intros <-. by destruct d'. Qed.

Lemma app_writes_authorized_witness :
  ∃ r p, dispatch example_routes "POST" url = Some (r, p) ∧ authorized ∅ None r rq OrgAccessExamples.founded.
Proof.
  destruct (app_writes_authorized ∅ None token_text true false false false (λ _, ret []) (λ _, ret tt) (λ _, None) (λ _, None) rq url None
    new_workspace OrgAccessExamples.founded OrgAccessExamples.founded_uncached eq_refl) as [Hu|Ha].
  - exfalso. pose proof creates_workspace as Hlen. unfold example_app in Hlen.
    rewrite (unchanged_workspaces _ _ Hu), one_workspace in Hlen. discriminate.
  - destruct Ha as (r & p & Hd & _ & Ha). exists r, p. split; [exact Hd|exact Ha].
Defined.

(** The answer to it, and to a request that nothing serves. *)
Example workspace_created :
  (λ r, match r with Ok x => rs_status x | Throw _ => 0%Z end)
    (example_app rq url None new_workspace OrgAccessExamples.founded).1 = 201%Z.
Proof. vm_compute. reflexivity. Qed.
Example nothing_there :
  (example_app rq "/api/v1/orgs/uuid-0/plans" None new_workspace OrgAccessExamples.founded).1 = Ok not_found.
Proof. vm_compute. reflexivity. Qed.

Definition new_task (title : string) : option json :=
  Some (JObj [("workspace_id", JStr "7d444840-9dc0-11d1-b245-5ffdce74fad2"); ("title", JStr title);
              ("due_date", JStr "2024-05-01T10:00:00Z"); ("labels", JArr [JStr "ops"])])%string.
Definition task_cast : Cast := mkCast TaskRouter.createTaskSchema TaskRouter.as_CreateTaskInput.
Definition title_of (i : CreateTaskInput) : M string := ret (ci_title i).

Lemma task_cast_listed : task_cast ∈ casts "c" "u" "o".
Proof. unfold casts. do 13 right. by left. Qed.
Lemma task_accepted w :
  is_ok (validated TaskRouter.createTaskSchema TaskRouter.as_CreateTaskInput (new_task "Plan") title_of w) = true.
Proof. reflexivity. Qed.

Lemma bodies_are_typed_witness :
  ∃ v, validated TaskRouter.createTaskSchema TaskRouter.as_CreateTaskInput (new_task "Plan") title_of
    OrgAccessExamples.founded = title_of v OrgAccessExamples.founded.
Proof.
  destruct (bodies_are_typed "c" "u" "o" task_cast (new_task "Plan") title_of OrgAccessExamples.founded task_cast_listed)
    as [[errors E]|Hv]; [exfalso|exact Hv].
  apply (f_equal is_ok) in E. discriminate (eq_trans (eq_sym (task_accepted OrgAccessExamples.founded)) E).
Defined.

(** A title too long, an empty identifier of a board, an unknown priority. *)
Example task_refused :
  forallb (λ b : json, negb (is_ok (validated TaskRouter.createTaskSchema TaskRouter.as_CreateTaskInput (Some b) title_of
    OrgAccessExamples.founded)))
    [JNull; JObj [("title", JStr "Plan")];
     JObj [("workspace_id", JStr "7d444840-9dc0-11d1-b245-5ffdce74fad2"); ("title", JStr "")];
     JObj [("workspace_id", JStr "7d444840-9dc0-11d1-b245-5ffdce74fad2"); ("title", JStr "Plan"); ("board_id", JStr "")];
     JObj [("workspace_id", JStr "7d444840-9dc0-11d1-b245-5ffdce74fad2"); ("title", JStr "Plan");
           ("priority", JStr "asap")]]%string = true.
Proof. vm_compute. reflexivity. Qed.

(** The routes of which a request to their own pattern reaches another: of all
    the table, the bulk deletion. *)
Definition reached (r : Route) : bool :=
  match dispatch example_routes (rt_method r) (rt_pattern r) with
  | Some (r', _) => (rt_pattern r' =? rt_pattern r)%string
  | None => false
  end.
Example unreached :
  (λ r, (rt_method r, rt_pattern r)) <$> List.filter (λ r, negb (reached r)) example_routes =
    [("DELETE", "/api/v1/orgs/:orgId/tasks/bulk")]%string.
Proof. vm_compute. reflexivity. Qed.

(** What answers a bulk deletion: the deletion of the task [bulk]. *)
Definition asked_to_delete : option (Route * params) :=
  dispatch example_routes "DELETE" "/api/v1/orgs/uuid-0/tasks/bulk".
Example bulk_deletes_one :
  (λ rp : Route * params, (rt_pattern rp.1, rp.2 "taskId"%string)) <$> asked_to_delete =
    Some ("/api/v1/orgs/:orgId/tasks/:taskId", "bulk")%string.
Proof. vm_compute. reflexivity. Qed.

Lemma some_route : is_null asked_to_delete = false.
Proof. vm_compute. reflexivity. Qed.

Lemma bulk_delete_unreachable_witness :
  ∃ r p, asked_to_delete = Some (r, p) ∧
    ¬ (rt_method r = "DELETE" ∧ rt_pattern r = "/api/v1/orgs/:orgId/tasks/bulk")%string.
Proof.
  destruct asked_to_delete as [[r p]|] eqn:E; [|exfalso; pose proof some_route as Hs; rewrite E in Hs; discriminate].
  exists r, p. split; [exact eq_refl|].
  exact (bulk_delete_unreachable ∅ None token_text true false false false (λ _, ret []) (λ _, ret tt) (λ _, None) (λ _, None) _ _ r p E).
Defined.
End ApiExamples.
