(* ===== verification/Jobs.v ===== *)
(** * Jobs: the queues of BullMQ and the workers that serve them

    The registrations of [worker.ts]: for each worker the queue it takes jobs
    from, the type it names for their data, and its processor, which reads
    [job.data] and runs the operation of the module.  An operation that runs only
    adds jobs to the end of what waits ([adding]); what it adds is found along
    its structure by the tactic [adds], operation by operation. *)
From S2P Require Import Prelude Schema World Zod Crypto Concrete OrgRepo TaskRepo TaskDeps TaskService AuthRepo Session Auth Organization Http RateLimiter OrgAccess Payments FeatureFlags Gdpr Chat Files Outbox Webhooks SignIn Notifications Collaboration Cleanup RowJson TenantRoutes SystemRoutes Search Api.
From Stdlib Require Import ZArith Lia Ascii.
From stdpp Require Import base tactics strings gmap list.

(** ** The data of the jobs *)

(** A field in a template literal: [undefined] when it is absent. *)
Definition templated (k : string) (data : json) : option string :=
  (λ o, o ?? "undefined"%string) <$> optional k as_string data.

Definition actor_type_str (a : actor_type) : string :=
  match a with ActUser => "user" | ActSystem => "system" | ActPlatformAdmin => "platform_admin" end.
Definition as_actor_type : json → option actor_type :=
  as_enum (literal actor_type_str [ActUser; ActSystem; ActPlatformAdmin]).

Definition as_CreateNotificationJobData (data : json) : option CreateNotificationJobData :=
  eventType ← required "eventType" as_string data;
  orgId ← required "orgId" as_string data;
  entityType ← required "entityType" as_string data;
  entityId ← required "entityId" as_string data;
  actorUserId ← required "actorUserId" (as_nullable as_string) data;
  targetUserIds ← required "targetUserIds" (as_array as_string) data;
  payload ← required "payload" as_record data;
  Some (mkCreateNotificationJobData eventType orgId entityType entityId actorUserId targetUserIds payload).

(** The key of the email is written before anything else is read. *)
Definition as_SendNotificationEmailJobData (data : json) : option SendNotificationEmailJobData :=
  userId ← templated "userId" data;
  eventType ← templated "eventType" data;
  entityId ← templated "entityId" data;
  payload ← optional "payload" as_record data;
  Some (mkSendNotificationEmailJobData userId eventType entityId (payload ?? JObj [])).

Definition as_SendUserDigestJobData (data : json) : option SendUserDigestJobData :=
  userId ← required "userId" as_string data;
  email ← required "email" as_string data;
  name ← required "name" as_string data;
  Some (mkSendUserDigestJobData userId email name).

Definition as_document (data : json) : option (option string * option string * option json) :=
  title ← optional "title" as_string data;
  body ← optional "body" as_string data;
  metadata ← optional "metadata" as_record data;
  Some (title, body, metadata).

Definition as_SearchIndexJobData (data : json) : option SearchIndexJobData :=
  entityType ← required "entityType" (as_enum (literal entity_type_str all_types)) data;
  entityId ← required "entityId" as_string data;
  orgId ← required "orgId" as_string data;
  action ← required "action" (as_enum (literal index_action_str [IndexUpsert; IndexDelete])) data;
  document ← optional "document" as_document data;
  Some (mkSearchIndexJobData entityType entityId orgId action document).

(** What the worker destructures, whatever its type: [entityId] may be absent. *)
Definition as_destructured (data : json) :
  option (string * option string * string * string * option (option string * option string * option json)) :=
  entityType ← required "entityType" as_string data;
  entityId ← optional "entityId" as_string data;
  orgId ← required "orgId" as_string data;
  action ← required "action" as_string data;
  document ← optional "document" as_document data;
  Some (entityType, entityId, orgId, action, document).

Definition as_AuditPayload (data : json) : option (option string * option string * actor_type * string * option string *
    option string * option json) :=
  orgId ← optional "orgId" as_string data;
  actorId ← optional "actorId" as_string data;
  actorType ← required "actorType" as_actor_type data;
  eventType ← required "eventType" as_string data;
  entityType ← optional "entityType" as_string data;
  entityId ← optional "entityId" as_string data;
  _ ← optional "ipAddress" as_string data;
  _ ← optional "userAgent" as_string data;
  payload ← optional "payload" as_record data;
  _ ← optional "correlationId" as_string data;
  Some (orgId, actorId, actorType, eventType, entityType, entityId, payload).

Definition as_VirusScanJobData (data : json) : option VirusScanJobData :=
  fileId ← required "fileId" as_string data;
  storageKey ← required "storageKey" as_string data;
  storageUrl ← optional "storageUrl" as_string data;
  orgId ← required "orgId" as_string data;
  Some (mkVirusScanJobData fileId storageKey storageUrl orgId).

Definition as_WebhookDeliveryJobData (data : json) : option WebhookDeliveryJobData :=
  webhookId ← required "webhookId" as_string data;
  orgId ← required "orgId" as_string data;
  eventId ← required "eventId" as_string data;
  eventType ← required "eventType" as_string data;
  payload ← required "payload" as_record data;
  Some (mkWebhookDeliveryJobData webhookId orgId eventId eventType payload).

Definition as_RecurringTaskJobData (data : json) : option RecurringTaskJobData :=
  parentTaskId ← required "parentTaskId" as_string data;
  orgId ← required "orgId" as_string data;
  Some (mkRecurringTaskJobData parentTaskId orgId).

(** ** The registrations *)

(** A queue, whether a job's data is of the type that its worker names, and the
    processor of its jobs as it runs: none where what it would do with the data
    is not modelled. *)
Record Registration `{Redis} := mkRegistration {
  rg_queue : string;
  rg_data : Job → bool;
  rg_process : Job → option (M unit)
}.

Definition reads {A} (d : json → option A) (data : json) : bool := negb (is_null (d data)).

(** The types of the workers' jobs; the cleanups name none, and the worker of
    the digests casts the data of the jobs named [send-user-digest] only. *)
Definition typed_by {A} (d : json → option A) (job : Job) : bool := reads d (j_data job).
Definition untyped (_ : Job) : bool := true.
Definition digest_data (job : Job) : bool :=
  negb (j_name job =? "send-user-digest")%string || typed_by as_SendUserDigestJobData job.
Definition as_orgId : json → option string := required "orgId" as_string.
Definition email_data (job : Job) : bool :=
  typed_by (λ data,
    orgId ← required "orgId" as_string data;
    userId ← required "userId" as_string data;
    eventType ← required "eventType" as_string data;
    entityType ← required "entityType" as_string data;
    entityId ← required "entityId" as_string data;
    actorUserId ← required "actorUserId" (as_nullable as_string) data;
    required "payload" as_record data) job.
Definition as_ErasureJobData (data : json) : option (string * option string) :=
  userId ← required "userId" as_string data;
  orgId ← optional "orgId" as_string data;
  Some (userId, orgId).

Module Workers.
Section workers.
Context `{Redis, !RedisHash, Random, Config, Crypto, Network, FullText, !TypesenseClient, !Scanner, Mailer, RRule}.

(** The time zone of the server, [config.emailProvider], the rights of the
    erasure's database role, [config.virusScanEnabled] and the search provider. *)
Context (local_minutes : Z → Z) (emailProvider : string) (privileged virusScanEnabled typesense : bool).

Definition auditWorkerJob (job : Job) : option (M unit) :=
  '(orgId, actorId, actorType, eventType, entityType, entityId, payload) ← as_AuditPayload (j_data job);
  Some (persistAuditLog orgId actorId actorType eventType entityType entityId (payload ?? JObj [])).

(** An event nobody subscribes to, or no event, is left before the rest of
    the data is read. *)
Definition notificationWorker (job : Job) : option (M unit) :=
  eventType ← optional "eventType" as_string (j_data job);
  if negb (includes NotificationWorker.SUBSCRIBED_EVENT_TYPES (eventType ?? "undefined"%string)) then Some (ret tt)
  else NotificationWorker.notificationWorkerJob local_minutes <$> as_CreateNotificationJobData (j_data job).

Definition emailWorker (job : Job) : option (M unit) :=
  EmailWorker.emailWorkerJob emailProvider <$> as_SendNotificationEmailJobData (j_data job).

(** PostgreSQL's [undefined_column]: no migration gives [users] the column
    [timezone], so that the query of [runDigestCoordinatorJob] fails. *)
Definition undefined_column : error := PgError "42703".
Definition runDigestCoordinatorJob : M unit := throw undefined_column.

Definition digestWorker (job : Job) : option (M unit) :=
  if (j_name job =? "digest-coordinator")%string then Some runDigestCoordinatorJob
  else if (j_name job =? "send-user-digest")%string then
    DigestWorker.runSendUserDigestJob <$> as_SendUserDigestJobData (j_data job)
  else Some (ret tt).

Definition searchWorker (job : Job) : option (M unit) :=
  (λ '(entityType, entityId, orgId, action, document),
    SearchWorker.index typesense entityType entityId orgId action document) <$> as_destructured (j_data job).

Definition paymentWorker (job : Job) : option (M unit) :=
  PaymentWorker.paymentWorkerJob (j_name job) <$> required "orgId" as_string (j_data job).

Definition erasureWorker (job : Job) : option (M unit) :=
  ErasureWorker.erasureWorkerJob privileged <$> required "userId" as_string (j_data job).

Definition offboardingWorker (job : Job) : option (M unit) :=
  OffboardingWorker.runOffboardingJob <$> required "orgId" as_string (j_data job).

Definition virusScanWorker (job : Job) : option (M unit) :=
  VirusScanWorker.virusScanWorkerJob virusScanEnabled <$> as_VirusScanJobData (j_data job).

Definition fileCleanupWorker (_ : Job) : option (M unit) := Some VirusScanWorker.fileCleanupWorkerJob.

Definition webhookDeliveryWorker (job : Job) : option (M unit) :=
  WebhookDelivery.webhookDeliveryWorkerJob <$> as_WebhookDeliveryJobData (j_data job).

Definition recurringTaskWorker (job : Job) : option (M unit) :=
  RecurringTaskWorker.runRecurringTaskJob <$> as_RecurringTaskJobData (j_data job).

Definition cleanupWorker (_ : Job) : option (M unit) := Some runCleanupJob.

(** [allRegisteredWorkers], in the order of [startWorker]. *)
Definition registrations : list Registration :=
  [mkRegistration _ "audit" (typed_by as_AuditPayload) auditWorkerJob;
   mkRegistration _ "notifications" (typed_by as_CreateNotificationJobData) notificationWorker;
   mkRegistration _ "emails" email_data emailWorker;
   mkRegistration _ "search" (typed_by as_SearchIndexJobData) searchWorker;
   mkRegistration _ "payments" (typed_by as_orgId) paymentWorker;
   mkRegistration _ "erase-user" (typed_by as_ErasureJobData) erasureWorker;
   mkRegistration _ "offboarding" (typed_by as_orgId) offboardingWorker;
   mkRegistration _ "virus-scan" (typed_by as_VirusScanJobData) virusScanWorker;
   mkRegistration _ "file-cleanup" untyped fileCleanupWorker;
   mkRegistration _ "webhooks" (typed_by as_WebhookDeliveryJobData) webhookDeliveryWorker;
   mkRegistration _ "recurring-tasks" (typed_by as_RecurringTaskJobData) recurringTaskWorker;
   mkRegistration _ "cleanup" untyped cleanupWorker;
   mkRegistration _ "notifications" digest_data digestWorker]%string.
End workers.
End Workers.

(** ** What an operation queues *)

(** What a call of a service outside the process leaves alone. *)
Definition jobless `{Redis} {A} (m : M A) : Prop := ∀ w, jobs (m w).2 = jobs w.
Definition foreign `{Redis} {A} (m : M A) : Prop := jobless m ∧ outside m.

(** No service writes the database or queues a job. *)
Class ForeignServices `{Redis, !StorageProvider, !Scanner, !RazorpaySdk, !TypesenseClient} : Prop := {
  upload_foreign : ∀ key mime bytes, foreign (generateUploadUrl key mime bytes);
  download_foreign : ∀ key ttl, foreign (storageDownloadUrl key ttl);
  fetch_foreign : ∀ url dest, foreign (downloadFile url dest);
  fileType_foreign : ∀ path, foreign (fileTypeFromFile path);
  clam_foreign : ∀ path, foreign (clam_isInfected path);
  orders_foreign : ∀ amount currency receipt notes, foreign (orders_create amount currency receipt notes);
  ts_create_foreign : ∀ schema, foreign (ts_create schema);
  ts_upsert_foreign : ∀ c d, foreign (ts_upsert c d);
  ts_delete_foreign : ∀ c id, foreign (ts_delete c id);
  ts_search_foreign : ∀ c p, foreign (ts_search c p);
}.

Create HintDb foreign.
#[export] Hint Resolve upload_foreign download_foreign fetch_foreign fileType_foreign clam_foreign orders_foreign
  ts_create_foreign ts_upsert_foreign ts_delete_foreign ts_search_foreign : foreign.

Section adding.
Context `{Redis, Random} (P : Job → Prop) (js : list Job).

(** The jobs are those of [js], and then jobs that [P] holds of. *)
Definition adding (w : World) : Prop := ∃ new, jobs w = js ++ new ∧ Forall P new.

Ltac solve_adding :=
  intros w Hw;
  unfold select, select_one, update_touch, update_where, insert_unique, insert_or_ignore, upsert,
    delete_where, insert_row, now, gen_random_uuid, randomHex, rget, rset, rset_nx, rdel, rpublish, bind,
    get_world;
  repeat case_match; simplify_eq; exact Hw.

Lemma adding_jobless {A} (m : M A) : jobless m → preserves adding m.
Proof. intros Hm w (new & E & Hn). exists new. by rewrite Hm. Qed.

Lemma adding_foreign {A} (m : M A) : foreign m → preserves adding m.
Proof. intros [Hm _]. by apply adding_jobless. Qed.

Lemma adding_select {R} `{Table R} p : preserves adding (select (R := R) p).
Proof. solve_adding. Qed.
Lemma adding_select_one {R} `{Table R} p : preserves adding (select_one (R := R) p).
Proof. solve_adding. Qed.
Lemma adding_update {R} `{Table R} p f : preserves adding (update_where (R := R) p f).
Proof. solve_adding. Qed.
Lemma adding_update_touch {R} `{Table R, Touch R} p f : preserves adding (update_touch (R := R) p f).
Proof. solve_adding. Qed.
Lemma adding_insert {R} `{Table R} r : preserves adding (insert_row (R := R) r).
Proof. solve_adding. Qed.
Lemma adding_insert_unique {R} `{Table R} c r : preserves adding (insert_unique (R := R) c r).
Proof. solve_adding. Qed.
Lemma adding_insert_or_ignore {R} `{Table R} c r : preserves adding (insert_or_ignore (R := R) c r).
Proof. solve_adding. Qed.
Lemma adding_upsert {R} `{Table R} c r f : preserves adding (upsert (R := R) c r f).
Proof. solve_adding. Qed.
Lemma adding_delete {R} `{Table R} p : preserves adding (delete_where (R := R) p).
Proof. solve_adding. Qed.
Lemma adding_now : preserves adding now.
Proof. solve_adding. Qed.
Lemma adding_get_world : preserves adding get_world.
Proof. solve_adding. Qed.
Lemma adding_uuid : preserves adding gen_random_uuid.
Proof. solve_adding. Qed.
Lemma adding_hex : preserves adding randomHex.
Proof. solve_adding. Qed.
Lemma adding_rget k : preserves adding (rget k).
Proof. solve_adding. Qed.
Lemma adding_rset k v ex : preserves adding (rset k v ex).
Proof. solve_adding. Qed.
Lemma adding_rset_nx k v ex : preserves adding (rset_nx k v ex).
Proof. solve_adding. Qed.
Lemma adding_rdel k : preserves adding (rdel k).
Proof. solve_adding. Qed.
Lemma adding_rpublish k j : preserves adding (rpublish k j).
Proof. solve_adding. Qed.
Lemma adding_enqueue d q k j : P (mkJob q k j d) → preserves adding (enqueue_in d q k j).
Proof.
  intros Hp w (new & E & Hn). unfold enqueue_in. destruct (redis_up w); [|by exists new].
  exists (new ++ [mkJob q k j d]). cbn. rewrite E. split; [by rewrite (assoc_L (++))|].
  apply Forall_app. by rewrite Forall_singleton.
Qed.
Lemma adding_transaction {A} (m : M A) : preserves adding m → preserves adding (withTransaction m).
Proof.
  intros Hm w Hw. unfold withTransaction. specialize (Hm w Hw). by destruct (m w) as [[a|e] w'].
Qed.
End adding.

(** What an operation queues, from an empty buffer. *)
Lemma adding_mono `{Redis} (P Q : Job → Prop) js w : (∀ j, P j → Q j) → adding P js w → adding Q js w.
Proof. intros HPQ (new & E & Hn). exists new. split; [done|]. by eapply Forall_impl. Qed.

Lemma adding_refl `{Redis} (P : Job → Prop) w : adding P (jobs w) w.
Proof. exists []. by rewrite app_nil_r. Qed.

Lemma adding_from_empty `{Redis} (P : Job → Prop) w : adding P [] w ↔ Forall P (jobs w).
Proof. split; [by intros (new & -> & ?)|by exists (jobs w)]. Qed.

Create HintDb jobs.
#[export] Hint Resolve preserves_ret preserves_throw adding_select adding_select_one adding_update adding_update_touch
  adding_insert adding_insert_unique adding_insert_or_ignore adding_upsert adding_delete adding_now
  adding_get_world adding_uuid adding_hex adding_rget adding_rset adding_rset_nx adding_rdel adding_rpublish : jobs.

Ltac head t := lazymatch t with ?f _ => head f | _ => t end.

(** The jobs an operation queues, found along its structure: one step takes
    apart a construct of the monad, applies what is known of an operation, or
    unfolds it.  The goals left are about the jobs of [enqueue]. *)
Ltac adds_step :=
  intros; lazymatch goal with
  | |- preserves _ (bind _ _) => apply preserves_bind
  | |- preserves _ (catch _ _) => apply preserves_catch
  | |- preserves _ (match ?x with _ => _ end) => destruct x
  | |- preserves _ (for_each _ _) => apply preserves_for_each
  | |- preserves _ (withTransaction _) => apply adding_transaction
  | |- preserves _ (enqueue_in _ _ _ _) => apply adding_enqueue
  | |- preserves _ (let _ := _ in _) => cbv zeta
  | |- preserves _ ?m =>
      first [ solve [eauto 3 with jobs typeclass_instances]
            | let h := head m in progress unfold h
            | progress cbv beta
            | solve [intros w Hw; cbn [snd]; repeat case_match; simplify_eq; exact Hw] ]
  end.
Ltac adds := repeat adds_step.

Section operations.
Context `{Redis, !RedisHash, !RedisZset, Random, Config, Crypto, Zod, Network, !StorageProvider, !Scanner, !RazorpaySdk, Saml,
  Google, FullText, !TypesenseClient, !SearchBreaker, !BreakerLaws _, IpAddr, Mailer, RRule, !ForeignServices}.
Context (P : Job → Prop) (js : list Job).

Lemma adding_cycle_search fuel orgId target visited stack :
  preserves (adding P js) (DependencyService.search fuel orgId target visited stack).
Proof.
  revert visited stack. induction fuel as [|fuel IH]; intros visited [|s stack]; cbn [DependencyService.search]; adds;
    apply IH.
Qed.

Lemma adding_mentions orgId taskId commentId authorId handles :
  preserves (adding P js) (MentionService.notify_handles orgId taskId commentId authorId handles).
Proof. induction handles as [|h handles IH]; cbn [MentionService.notify_handles]; adds; apply IH. Qed.

Lemma adding_axios_post r : preserves (adding P js) (WebhookDelivery.axios_post r).
Proof. intros w Hw. unfold WebhookDelivery.axios_post. by destruct (http_exchange _ _) as [? []]. Qed.

Lemma adding_typesense initialized o : preserves (adding P js) (TypesenseProvider.search initialized o).
Proof.
  unfold TypesenseProvider.search. apply preserves_bind.
  - unfold TypesenseProvider.ensureCollections, TypesenseProvider.quietly. adds. apply adding_foreign, ts_create_foreign.
  - intros _. apply preserves_bind; [|adds]. generalize (so_entityTypes o ?? all_types) as types. intros types.
    induction types as [|t types IH]; cbn [TypesenseProvider.search_types]; [adds|].
    apply preserves_bind; [|intros found; apply preserves_bind; [exact IH|adds]].
    unfold TypesenseProvider.search_type. adds. apply adding_foreign, ts_search_foreign.
Qed.

Lemma adding_provider typesense initialized o :
  preserves (adding P js) (provider_search (SearchService.getActiveProvider typesense initialized) o).
Proof.
  unfold SearchService.getActiveProvider. destruct typesense; cbn [provider_search TypesenseProvider.provider PostgresFtsProvider.provider];
    [apply adding_typesense|adds].
Qed.

Lemma adding_upsert_document typesense doc : preserves (adding P js) (upsertDocument (SearchWorker.getProvider typesense) doc).
Proof.
  unfold SearchWorker.getProvider. destruct typesense; cbn [upsertDocument TypesenseProvider.provider PostgresFtsProvider.provider].
  - unfold TypesenseProvider.upsertDocument. adds; apply adding_foreign; eauto with foreign.
  - adds.
Qed.

Lemma adding_delete_document typesense id orgId :
  preserves (adding P js) (deleteDocument (SearchWorker.getProvider typesense) id orgId).
Proof.
  unfold SearchWorker.getProvider. destruct typesense; cbn [deleteDocument TypesenseProvider.provider PostgresFtsProvider.provider].
  - unfold TypesenseProvider.deleteDocument. adds; apply adding_foreign; eauto with foreign.
  - adds.
Qed.

Lemma adding_breaker m : preserves (adding P js) m → preserves (adding P js) (search_breaker m).
Proof.
  intros Hm w Hw. destruct (breaker_cases m w) as [->|(e & w' & -> & [->| ->])]; cbn; auto.
Qed.

Lemma adding_publish drops e : preserves (adding P js) (OutboxPoller.publish drops e).
Proof.
  intros w Hw. unfold OutboxPoller.publish. destruct (drops _ _); [exact Hw|]. by apply adding_rpublish.
Qed.

(** The failed jobs of a queue are queued again. *)
Lemma adding_requeue (getFailed : string → M (list Job)) (retry : Job → M unit) queueName actorId :
  (∀ q, jobless (getFailed q)) → (∀ q w l w', getFailed q w = (Ok l, w') → Forall P l) →
  (∀ j, P j → preserves (adding P js) (retry j)) →
  preserves (adding P js) (AdminService.requeueDlqJobs getFailed retry queueName actorId).
Proof.
  intros Hq Hf Hr. unfold AdminService.requeueDlqJobs. apply preserves_bind; [adds|]. intros _. destruct negb; [adds|].
  intros w Hw. unfold bind. pose proof (adding_jobless P js _ (Hq queueName) w Hw) as Hw'.
  destruct (getFailed queueName w) as [[l|e] w'] eqn:E; [|done]. apply Hf in E. cbn in Hw'.
  enough (preserves (adding P js) (for_each l retry)) as Hl.
  { specialize (Hl w' Hw'). by destruct (for_each l retry w') as [[]]. }
  clear Hw' w' w Hw. induction E as [|j l Hj Hl IH]; cbn [for_each]; [adds|].
  apply preserves_bind; [by apply Hr|by intros _].
Qed.
End operations.
#[export] Hint Resolve adding_axios_post adding_cycle_search adding_mentions adding_provider adding_upsert_document adding_delete_document
  adding_breaker adding_publish : jobs.
#[export] Hint Extern 3 (preserves (adding _ _) _) => solve [apply adding_foreign; eauto 2 with foreign] : jobs.
