(* ===== verification/System.v ===== *)
(** * System: the server, its poller, its workers and the queues between them

    A state of the system is the world, the jobs that wait, each with the
    attempts made on it, and the jobs that failed.  A step is a request served
    by the application ([Api]), a cycle of the outbox poller, a job taken by a
    worker registered on its queue ([Jobs]), a repeatable job that comes due, or
    a change of the clock and of Redis.  The theorems are about every run:
    what the queues hold is what the workers read, and the workers, left alone,
    come to an end. *)
From S2P Require Import Prelude Schema World Zod Crypto Concrete OrgRepo TaskRepo TaskDeps TaskService AuthRepo Session Auth Organization Http RateLimiter OrgAccess Payments FeatureFlags Gdpr Chat Files Outbox Webhooks SignIn Notifications Collaboration Cleanup RowJson TenantRoutes SystemRoutes Search Api Jobs.
From Stdlib Require Import ZArith Lia Ascii.
From stdpp Require Import base tactics strings gmap list relations.

(** ** The state *)

(** A job that waits, and the attempts made on it ([attemptsMade]). *)
Record Waiting := mkWaiting {
  wt_job : Job;
  wt_made : nat
}.

Record System `{Redis} := mkSystem {
  sys_world : World;
  sys_waiting : list Waiting;
  sys_failed : list Job
}.

(** [getFailed] of a queue, given the jobs that failed, and [job.retry('failed')]. *)
Class BullMQ `{Redis} := {
  getFailed : list Job → string → M (list Job);
  retry : Job → M unit;
}.

(** What BullMQ documents: [getFailed] answers jobs that failed, and a job that
    is retried waits again. *)
Class BullLaws `{Redis} (B : BullMQ) : Prop := {
  getFailed_foreign : ∀ failed queue, foreign (getFailed failed queue);
  getFailed_failed : ∀ failed queue w l w', getFailed failed queue w = (Ok l, w') → l ⊆ failed;
  retry_outside : ∀ j, outside (retry j);
  retry_waits : ∀ j w, jobs (retry j w).2 = jobs w ∨ jobs (retry j w).2 = jobs w ++ [j];
}.

(** [defaultJobOptions.attempts]. *)
Definition attempts : nat := 3.

(** The jobs that [startCleanupWorker] and [startDigestWorker] repeat. *)
Definition repeatable : list Job :=
  [mkJob "cleanup" "run-cleanup" (JObj []) 0; mkJob "notifications" "digest-coordinator" (JObj []) 0]%string.

(** ** The steps *)

Section system.
Context `{Redis, !RedisHash, !RedisZset, Random, Config, Crypto, Zod, Network, !StorageProvider, !Scanner, !RazorpaySdk, Saml,
  Google, FullText, !TypesenseClient, !SearchBreaker, IpAddr, Mailer, RRule, Express, !BullMQ}.

(** The state and the settings of the processes. *)
Context (keyStore : gmap string string) (allowlist : option string) (jwt_text : jwt_token → string).
Context (test_env exec_rejects typesense initialized : bool).
Context (JSON_parse : string → option json) (razorpay_signature : Request → option string).
Context (drops : nat → nat → bool) (batchSize : nat).
Context (local_minutes : Z → Z) (emailProvider : string) (privileged virusScanEnabled : bool).

Definition workers : list Registration :=
  Workers.registrations local_minutes emailProvider privileged virusScanEnabled typesense.

(** An operation in a world, and the jobs it queues. *)
Definition perform {A} (m : M A) (w : World) : result A * World * list Waiting :=
  let '(r, w') := m (w <| jobs := [] |>) in
  (r, w' <| jobs := [] |>, (λ j, mkWaiting j 0) <$> jobs w').

(** What becomes of a job after an attempt: it is done, waits again, or has
    failed. *)
Definition settle (e : Waiting) (r : result unit) : list Waiting * list Job :=
  match r with
  | Ok _ => ([], [])
  | Throw _ =>
      if Nat.ltb (S (wt_made e)) attempts then ([mkWaiting (wt_job e) (S (wt_made e))], []) else ([], [wt_job e])
  end.

(** A worker takes any job of its queue. *)
Inductive work : System → System → Prop :=
  | work_job w before e after failed rg m r w' new :
      rg ∈ workers → rg_queue rg = j_queue (wt_job e) → rg_process rg (wt_job e) = Some m → redis_up w = true →
      perform m w = (r, w', new) →
      work (mkSystem _ w (before ++ e :: after) failed)
        (mkSystem _ w' (before ++ after ++ new ++ (settle e r).1) (failed ++ (settle e r).2)).

(** A failed job is forgotten when it is retried, or when there are many. *)
Inductive step : System → System → Prop :=
  | step_request rq url query body w waiting failed failed' r w' new :
      perform (Api.app keyStore allowlist jwt_text test_env exec_rejects typesense initialized (getFailed failed) retry
        JSON_parse razorpay_signature rq url query body) w = (r, w', new) →
      failed' ⊆ failed → step (mkSystem _ w waiting failed) (mkSystem _ w' (waiting ++ new) failed')
  | step_poll w waiting failed r w' new :
      perform (OutboxPoller.pollCycle drops batchSize) w = (r, w', new) →
      step (mkSystem _ w waiting failed) (mkSystem _ w' (waiting ++ new) failed)
  | step_repeat w waiting failed j :
      j ∈ repeatable → step (mkSystem _ w waiting failed) (mkSystem _ w (waiting ++ [mkWaiting j 0]) failed)
  | step_work s s' : work s s' → step s s'
  | step_environment w waiting failed t up :
      (clock w ≤ t)%Z →
      step (mkSystem _ w waiting failed) (mkSystem _ (w <| clock := t |> <| redis_up := up |>) waiting failed).

(** ** The jobs there are *)

Definition no_data (data : json) : bool := match data with JObj [] => true | _ => false end.

(** Their queues and names, and what their data must have for the worker that
    takes them to read it. *)
Definition kinds : list (string * string * (json → bool)) :=
  [("recurring-tasks", "spawn-next-occurrence", reads as_RecurringTaskJobData);
   ("payments", "handle-payment-failure", reads (required "orgId" as_string));
   ("payments", "check-grace-period", reads (required "orgId" as_string));
   ("search", "index-entity", reads as_destructured);
   ("offboarding", "offboard-org", reads (required "orgId" as_string));
   ("erase-user", "erase-user", reads (required "userId" as_string));
   ("gdpr-export", "gdpr-user-export", λ data, reads (required "userId" as_string) data && reads (required "orgId" as_string) data);
   ("gdpr-org-export", "gdpr-org-export", reads (required "orgId" as_string));
   ("cleanup", "run-cleanup", λ _, true);
   ("notifications", "digest-coordinator", no_data)]%string.

Definition readable (j : Job) : bool :=
  existsb (λ k, (k.1.1 =? j_queue j)%string && (k.1.2 =? j_name j)%string && k.2 (j_data j)) kinds.

(** The job of the administrators' reindexing: its action and the type of its
    entity are none of those of [SearchIndexJobData], and it has no [entityId]. *)
Definition reindexing (j : Job) : bool :=
  (j_queue j =? "search")%string && (j_name j =? "index-entity")%string &&
  match j_data j with
  | JObj [(k1, JStr a); (k2, JStr _); (k3, JStr t)] =>
      bool_decide ((k1, a) = ("action", "reindex") ∧ k2 = "orgId" ∧ (k3, t) = ("entityType", "org"))%string
  | _ => false
  end.

(** The coordinator of the digests, which shares its queue with the
    notifications. *)
Definition coordinating (j : Job) : bool :=
  (j_queue j =? "notifications")%string && (j_name j =? "digest-coordinator")%string && no_data (j_data j).

(** Its data is of the type that each worker of its queue names. *)
Definition well_typed (j : Job) : bool :=
  forallb (λ rg, negb (rg_queue rg =? j_queue j)%string || rg_data rg j) workers.

(** A job as the program queues them. *)
Definition regular (j : Job) : bool := readable j && (well_typed j || reindexing j || coordinating j).

(** Is there a worker for the queue? *)
Definition served (j : Job) : bool := existsb (λ rg, (rg_queue rg =? j_queue j)%string) workers.

(** How many generations of jobs may come of one. *)
Definition level (j : Job) : nat :=
  if includes ["notifications"; "offboarding"]%string (j_queue j) || (j_name j =? "handle-payment-failure")%string then 2 else 1.
End system.

Section routes.
Context `{Redis, !RedisHash, !RedisZset, Random, Config, Crypto, Zod, Network, !StorageProvider, !Scanner, !RazorpaySdk, Saml,
  Google, FullText, !TypesenseClient, !SearchBreaker, !BreakerLaws _, IpAddr, Mailer, RRule, Express, !ForeignServices,
  !BullMQ, !BullLaws _}.
Context (keyStore : gmap string string) (allowlist : option string) (jwt_text : jwt_token → string).
Context (test_env exec_rejects typesense initialized : bool).
Context (JSON_parse : string → option json) (razorpay_signature : Request → option string).
Context (local_minutes : Z → Z) (emailProvider : string) (privileged virusScanEnabled : bool).

#[local] Notation regular := (regular typesense local_minutes emailProvider privileged virusScanEnabled).

Context (failed : list Job) (Hfailed : Forall regular failed).

#[local] Notation adds_typed := (adding regular []).

Lemma retry_typed j : regular j → preserves adds_typed (retry j).
Proof.
  intros Hj w (new & E & Hn). unfold adding. destruct (retry_waits j w) as [->| ->]; [by exists new|].
  exists (new ++ [j]). rewrite E. split; [done|]. apply Forall_app. by rewrite Forall_singleton.
Qed.

Lemma requeue_typed queueName actorId :
  preserves adds_typed (AdminService.requeueDlqJobs (getFailed failed) retry queueName actorId).
Proof.
  apply adding_requeue; [intros q; apply (getFailed_foreign failed q)| |apply retry_typed].
  intros q w l w' El. rewrite Forall_forall in Hfailed |- *. intros j Hj. apply Hfailed.
  by apply (getFailed_failed failed q w l w' El).
Qed.
#[local] Hint Resolve requeue_typed : jobs.

(** A handler queues regular jobs. *)
Definition typed_route (r : Route) : Prop := ∀ rq p q b, preserves adds_typed (rt_serve r rq p q b).

Ltac typed_routes :=
  repeat apply Forall_cons_2; [..|constructor];
  intros ? ? ? ?; cbn [rt_serve Api.get Api.post Api.patch Api.delete]; adds; vm_compute; exact I.

#[local] Notation typed_table t := (Forall typed_route t).

Lemma auth_routes_typed : typed_table (auth_routes keyStore jwt_text test_env exec_rejects).
Proof. unfold auth_routes. typed_routes. Qed.
Lemma org_routes_typed : typed_table (org_routes keyStore jwt_text).
Proof. unfold org_routes. typed_routes. Qed.
Lemma task_routes_typed : typed_table (task_routes keyStore).
Proof. unfold task_routes. typed_routes. Qed.
Lemma chat_routes_typed : typed_table (chat_routes keyStore).
Proof. unfold chat_routes. typed_routes. Qed.
Lemma notification_routes_typed : typed_table (notification_routes keyStore).
Proof. unfold notification_routes. typed_routes. Qed.
Lemma payment_routes_typed : typed_table (payment_routes keyStore JSON_parse razorpay_signature).
Proof. unfold payment_routes. typed_routes. Qed.
Lemma file_routes_typed : typed_table (file_routes keyStore).
Proof. unfold file_routes. typed_routes. Qed.
Lemma search_routes_typed : typed_table (search_routes keyStore typesense initialized).
Proof. unfold search_routes. typed_routes. Qed.
Lemma workspace_routes_typed : typed_table (workspace_routes keyStore).
Proof. unfold workspace_routes. typed_routes. Qed.
Lemma webhook_routes_typed : typed_table (webhook_routes keyStore).
Proof. unfold webhook_routes. typed_routes. Qed.
Lemma flag_routes_typed : typed_table (flag_routes keyStore allowlist).
Proof. unfold flag_routes. typed_routes. Qed.
Lemma admin_routes_typed : typed_table (admin_routes keyStore allowlist (getFailed failed) retry).
Proof. unfold admin_routes. typed_routes. Qed.
Lemma gdpr_routes_typed : typed_table (gdpr_routes keyStore allowlist).
Proof. unfold gdpr_routes. typed_routes. Qed.

Lemma app_typed rq url query body :
  preserves adds_typed (Api.app keyStore allowlist jwt_text test_env exec_rejects typesense initialized (getFailed failed) retry
    JSON_parse razorpay_signature rq url query body).
Proof.
  unfold Api.app. destruct (dispatch _ _ _) as [[rt p]|] eqn:E; [|adds].
  assert (typed_table (routes keyStore allowlist jwt_text test_env exec_rejects typesense initialized (getFailed failed)
    retry JSON_parse razorpay_signature)) as Hall.
  { unfold routes. rewrite !Forall_app.
    eauto 20 using auth_routes_typed, org_routes_typed, task_routes_typed, chat_routes_typed, notification_routes_typed,
      payment_routes_typed, file_routes_typed, search_routes_typed, workspace_routes_typed, webhook_routes_typed,
      flag_routes_typed, admin_routes_typed, gdpr_routes_typed. }
  rewrite Forall_forall in Hall. apply Hall. by apply dispatch_in in E as [? _].
Qed.
End routes.

(** ** What the workers queue *)

Section workers.
Context `{Redis, !RedisHash, Random, Config, Crypto, Network, FullText, !TypesenseClient, !StorageProvider, !Scanner,
  !RazorpaySdk, Mailer, RRule, !ForeignServices}.
Context (typesense : bool) (local_minutes : Z → Z) (emailProvider : string) (privileged virusScanEnabled : bool).

#[local] Notation workers := (workers typesense local_minutes emailProvider privileged virusScanEnabled).
#[local] Notation served := (served typesense local_minutes emailProvider privileged virusScanEnabled).

#[local] Notation regular := (regular typesense local_minutes emailProvider privileged virusScanEnabled).

(** A job queued by the worker of [j]: a generation below, and of a queue with
    a worker. *)
Definition child (j j' : Job) : Prop := level j' < level j ∧ served j'.

(** A worker queues children of its job, and regular jobs if it can read its own. *)
Definition breeds (rg : Registration) : Prop := ∀ j m,
  rg_queue rg = j_queue j → rg_process rg j = Some m → ∀ js,
  preserves (adding (child j) js) m ∧ (readable j → preserves (adding regular js) m).

Ltac children Hq :=
  unfold child, level; rewrite <- Hq; split; [vm_compute; lia|vm_compute; exact I].

(** A worker that queues nothing. *)
Ltac barren := split; [|intros _]; adds.

Lemma paymentWorker_breeds dt : breeds (mkRegistration _ "payments" dt Workers.paymentWorker).
Proof.
  intros j m Hq Hm js. cbn [rg_queue rg_process] in *. unfold Workers.paymentWorker in Hm.
  apply fmap_Some in Hm as (orgId & _ & ->). unfold PaymentWorker.paymentWorkerJob.
  destruct (j_name j =? "handle-payment-failure")%string eqn:En.
  - split; [|intros _]; adds; [|vm_compute; exact I].
    unfold child, level. rewrite En, orb_true_r. split; [vm_compute; lia|vm_compute; exact I].
  - barren.
Qed.

Lemma offboardingWorker_breeds dt : breeds (mkRegistration _ "offboarding" dt Workers.offboardingWorker).
Proof.
  intros j m Hq Hm js. cbn [rg_queue rg_process] in *. unfold Workers.offboardingWorker in Hm.
  apply fmap_Some in Hm as (orgId & _ & ->). split; [|intros _]; adds; [children Hq|vm_compute; exact I].
Qed.

Lemma no_data_inv data : no_data data = true → data = JObj [].
Proof. by destruct data as [| | | | |[]]. Qed.

#[local] Arguments String.eqb !s1 !s2 : simpl nomatch.

(** The readable job of the queue is the coordinator's, which names no
    event. *)
Lemma typed_notification j : readable j → "notifications"%string = j_queue j →
  j_name j = "digest-coordinator"%string ∧ j_data j = JObj [].
Proof.
  unfold readable, kinds. intros Ht Hq. rewrite <- Hq in Ht. cbn in Ht.
  destruct ("digest-coordinator" =? j_name j)%string eqn:En; [|done].
  apply String.eqb_eq in En. split; [done|]. apply no_data_inv. by destruct (no_data (j_data j)).
Qed.

Lemma notificationWorker_breeds dt : breeds (mkRegistration _ "notifications" dt (Workers.notificationWorker local_minutes)).
Proof.
  intros j m Hq Hm js. cbn [rg_queue rg_process] in *. unfold Workers.notificationWorker in Hm. split.
  - destruct (optional _ _ _) as [eventType|]; cbn [mbind option_bind] in Hm; [|done]. case_match; simplify_eq; [adds|].
    apply fmap_Some in Hm as (data & _ & ->). adds. children Hq.
  - intros Ht. destruct (typed_notification j Ht Hq) as [_ E]. rewrite E in Hm. cbn in Hm. simplify_eq. adds.
Qed.

Lemma digestWorker_breeds dt : breeds (mkRegistration _ "notifications" dt Workers.digestWorker).
Proof.
  intros j m Hq Hm js. cbn [rg_queue rg_process] in *. unfold Workers.digestWorker in Hm. split.
  - repeat (case_match; simplify_eq); [adds| |adds].
    apply fmap_Some in Hm as (data & _ & ->). adds. children Hq.
  - intros Ht. destruct (typed_notification j Ht Hq) as [E _]. rewrite E in Hm. cbn in Hm. simplify_eq. adds.
Qed.

Lemma workers_breed : Forall breeds workers.
Proof.
  unfold workers, Workers.registrations.
  repeat apply Forall_cons_2;
    [..|constructor]; try first [apply paymentWorker_breeds|apply offboardingWorker_breeds|apply notificationWorker_breeds|
      apply digestWorker_breeds]; intros j m Hq Hm js; cbn [rg_queue] in Hq; cbn [rg_process] in Hm.
  - unfold Workers.auditWorkerJob in Hm. apply bind_Some in Hm as ([[[[[[]]]]]] & _ & [= <-]). barren.
  - apply fmap_Some in Hm as (data & _ & ->). barren.
  - apply fmap_Some in Hm as ([[[[]]]] & _ & ->). barren.
  - apply fmap_Some in Hm as (data & _ & ->). barren.
  - apply fmap_Some in Hm as (data & _ & ->). barren.
  - apply (inj Some) in Hm as <-. barren.
  - apply fmap_Some in Hm as (data & _ & ->). barren.
  - apply fmap_Some in Hm as (data & _ & ->). barren.
  - apply (inj Some) in Hm as <-. barren.
Qed.
End workers.

Section theorems.
Context `{Redis, !RedisHash, !RedisZset, Random, Config, Crypto, Zod, Network, !StorageProvider, !Scanner, !RazorpaySdk, Saml,
  Google, FullText, !TypesenseClient, !SearchBreaker, !BreakerLaws _, IpAddr, Mailer, RRule, Express, !ForeignServices,
  !BullMQ, !BullLaws _}.
Context (keyStore : gmap string string) (allowlist : option string) (jwt_text : jwt_token → string).
Context (test_env exec_rejects typesense initialized : bool).
Context (JSON_parse : string → option json) (razorpay_signature : Request → option string).
Context (drops : nat → nat → bool) (batchSize : nat).
Context (local_minutes : Z → Z) (emailProvider : string) (privileged virusScanEnabled : bool).

#[local] Notation workers := (workers typesense local_minutes emailProvider privileged virusScanEnabled).
#[local] Notation served := (served typesense local_minutes emailProvider privileged virusScanEnabled).
#[local] Notation regular := (regular typesense local_minutes emailProvider privileged virusScanEnabled).
#[local] Notation well_typed := (well_typed typesense local_minutes emailProvider privileged virusScanEnabled).
#[local] Notation work := (work typesense local_minutes emailProvider privileged virusScanEnabled).
#[local] Notation step := (step keyStore allowlist jwt_text test_env exec_rejects typesense initialized JSON_parse
  razorpay_signature drops batchSize local_minutes emailProvider privileged virusScanEnabled).
#[local] Notation child := (child typesense local_minutes emailProvider privileged virusScanEnabled).

#[local] Arguments String.eqb !s1 !s2 : simpl nomatch.

Lemma reads_Some {A B} (f : A → B) (d : json → option A) data : reads d data = true → is_Some (f <$> d data).
Proof. unfold reads. destruct (d data) as [a|]; [intros _; by eexists|done]. Qed.

(** A worker can read the readable jobs of its queue. *)
Lemma typed_read j rg : readable j → rg ∈ workers → rg_queue rg = j_queue j → is_Some (rg_process rg j).
Proof.
  intros Ht%Is_true_true Hrg Hq. unfold readable in Ht. apply existsb_exists in Ht as (k & Hk & Ht).
  apply andb_true_iff in Ht as [[Eq En]%andb_true_iff Hd]. apply String.eqb_eq in Eq, En. rewrite <- Hq in Eq.
  unfold workers, Workers.registrations in Hrg. unfold kinds in Hk. cbn [In] in Hk.
  repeat (apply elem_of_cons in Hrg as [->|Hrg]; [cbn [rg_queue] in Eq|]); [..|by apply elem_of_nil in Hrg].
  all: repeat destruct Hk as [<-|Hk]; cbn [fst snd] in Eq; try discriminate Eq; try done; cbn [fst snd] in En, Hd;
    cbn [rg_process].
  all: try (by apply reads_Some).
  - unfold Workers.notificationWorker. rewrite (no_data_inv _ Hd). eexists. reflexivity. 
  - unfold Workers.digestWorker. rewrite <- En. eexists. reflexivity.
Qed.

(** The jobs an operation leaves behind are new and what it queues. *)
Lemma perform_new {A} (P : Job → Prop) (m : M A) w r w' new :
  preserves (adding P []) m → perform m w = (r, w', new) → Forall (λ e, P (wt_job e)) new.
Proof.
  intros Hm. unfold perform. specialize (Hm (w <| jobs := [] |>) (adding_refl P _)).
  destruct (m _) as [r' w1]. intros [= _ _ <-]. apply adding_from_empty in Hm. by apply Forall_fmap.
Qed.

Lemma settle_Forall (P : Job → Prop) e r :
  P (wt_job e) → Forall (λ e', P (wt_job e')) (settle e r).1 ∧ Forall P (settle e r).2.
Proof. intros He. unfold settle. repeat case_match; cbn; rewrite ?Forall_singleton; auto using Forall_nil_2. Qed.

Lemma regular_readable j : regular j → readable j.
Proof. unfold regular. by intros [? _]%andb_True. Qed.

Lemma regular_cases j : regular j → reindexing j ∨ coordinating j ∨ well_typed j.
Proof. unfold regular. intros [_ [[?|?]%orb_True|?]%orb_True]%andb_True; auto. Qed.

Lemma well_typed_data j rg : well_typed j → rg ∈ workers → rg_queue rg = j_queue j → rg_data rg j.
Proof.
  unfold well_typed. intros Ht%Is_true_true Hrg%list_elem_of_In Hq. rewrite forallb_forall in Ht.
  specialize (Ht rg Hrg). rewrite Hq, String.eqb_refl in Ht. by apply Is_true_true.
Qed.

Definition typed_system (s : System) : Prop :=
  Forall (λ e, regular (wt_job e)) (sys_waiting s) ∧ Forall (λ j, regular j) (sys_failed s).

(** A worker takes a job whose registration reads it, and leaves its children. *)
Lemma work_typed s s' : work s s' → typed_system s → typed_system s'.
Proof.
  intros [w before e after failed rg m r w' new Hrg Hq Hm Hup Hr] [Hw Hf]. unfold typed_system. cbn in *.
  apply Forall_app in Hw as [Hb [He Ha]%Forall_cons].
  destruct (settle_Forall (λ j, regular j) e r He) as [Hs1 Hs2]. rewrite !Forall_app.
  split_and!; try done. eapply (perform_new (λ j, regular j)); [|exact Hr].
  pose proof (workers_breed typesense local_minutes emailProvider privileged virusScanEnabled) as Hall.
  rewrite Forall_forall in Hall. apply (Hall rg Hrg (wt_job e)); [done..|by apply regular_readable].
Qed.

Lemma step_typed s s' : step s s' → typed_system s → typed_system s'.
Proof.
  intros Hs. destruct Hs as [rq url query body w waiting failed failed' r w' new Hr Hsub|w waiting failed r w' new Hr|
    w waiting failed j Hj|s s' Hs|w waiting failed t up Ht]; [intros [Hw Hf]; cbn in *..|by apply work_typed|done].
  - split; cbn; [|rewrite Forall_forall in Hf |- *; auto]. apply Forall_app. split; [done|].
    eapply (perform_new (λ j, regular j)); [by apply app_typed|exact Hr].
  - split; cbn; [|done]. apply Forall_app. split; [done|]. eapply (perform_new (λ j, regular j)); [|exact Hr]. adds.
  - split; cbn; [|done]. apply Forall_app. split; [done|]. apply Forall_singleton. cbn.
    unfold repeatable in Hj. repeat (apply elem_of_cons in Hj as [->|Hj]; [vm_compute; exact I|]). by apply elem_of_nil in Hj.
Qed.

(** The jobs that wait and the jobs that failed. *)
Definition queued (s : System) : list Job := (wt_job <$> sys_waiting s) ++ sys_failed s.

Lemma run_regular s s' j : queued s = [] → rtc step s s' → j ∈ queued s' → regular j.
Proof.
  intros Hnone Hrun Hj. unfold queued in *. apply app_eq_nil in Hnone as [Hw0%fmap_nil_inv Hf0].
  assert (typed_system s) as Hs by (split; [rewrite Hw0|rewrite Hf0]; constructor).
  assert (typed_system s') as [Hw Hf].
  { clear Hw0 Hf0 Hj. induction Hrun as [s|s s1 s2 Hst Hrun IH]; [done|]. apply IH. by eapply step_typed. }
  rewrite Forall_forall in Hf. apply elem_of_app in Hj as [(e & -> & He)%list_elem_of_fmap|Hj]; [|auto].
  by rewrite Forall_forall in Hw; apply Hw.
Qed.

(** C27: whatever requests the application serves, whatever the poller and the
    workers do, in any order, every job that waits or has failed is one of the
    ten kinds the program queues, each worker registered on its queue can run
    it, and its data is of the type that each of these workers names, with two
    exceptions: the administrators' reindexing, which is not a
    [SearchIndexJobData], and the coordinator of the digests, which the worker
    of the notifications may take and whose data is not its
    [CreateNotificationJobData]. *)
Theorem queues_well_typed s s' j :
  queued s = [] → rtc step s s' → j ∈ queued s' →
  readable j ∧
  (∀ rg, rg ∈ workers → rg_queue rg = j_queue j → is_Some (rg_process rg j)) ∧
  (reindexing j ∨ coordinating j ∨ ∀ rg, rg ∈ workers → rg_queue rg = j_queue j → rg_data rg j).
Proof.
  intros Hnone Hrun Hj. assert (regular j) as Hr by (by eapply run_regular).
  pose proof (regular_readable j Hr) as Ht. split; [done|]. split; [intros rg; by apply typed_read|].
  apply regular_cases in Hr as [Hr|[Hr|Hr]]; auto. right. right. intros rg Hrg Hq. by apply well_typed_data.
Qed.

(** *** The workers alone *)

(** Whatever the world is when a worker takes the job. *)
Definition works (waiting waiting' : list Waiting) : Prop :=
  ∃ w failed w' failed', work (mkSystem _ w waiting failed) (mkSystem _ w' waiting' failed').

(** The attempts that are left for a job. *)
Definition left_of (e : Waiting) : nat := Nat.max 1 (attempts - wt_made e).

(** The attempts left for the jobs of a level. *)
Definition mass (n : nat) (waiting : list Waiting) : nat :=
  sum_list_with (λ e, if decide (level (wt_job e) = n) then left_of e else 0) waiting.

Lemma mass_app n l1 l2 : mass n (l1 ++ l2) = mass n l1 + mass n l2.
Proof. apply sum_list_with_app. Qed.

Lemma mass_none n l : Forall (λ e, level (wt_job e) ≠ n) l → mass n l = 0.
Proof. induction 1 as [|e l He Hl IH]; [done|]. unfold mass in *. cbn. by rewrite decide_False, IH. Qed.

Lemma level_cases j : level j = 1 ∨ level j = 2.
Proof. unfold level. case_match; auto. Qed.

(** A job that is tried again has fewer attempts left. *)
Lemma left_of_retry j n : S n < attempts → S (left_of (mkWaiting j (S n))) = left_of (mkWaiting j n).
Proof. unfold left_of, attempts. cbn [wt_made]. lia. Qed.

Lemma settle_left n e r : mass n (settle e r).1 + (if decide (level (wt_job e) = n) then 1 else 0) ≤ mass n [e].
Proof.
  destruct e as [j made]. unfold settle. cbn [wt_made wt_job].
  assert (1 ≤ left_of (mkWaiting j made)) by (unfold left_of; lia).
  destruct r; [|destruct (Nat.ltb_spec (S made) attempts) as [Hlt|_]; [pose proof (left_of_retry j made Hlt)|]];
    unfold mass; cbn [fst sum_list_with wt_job]; case_decide; lia.
Qed.

Lemma works_inv waiting waiting' : works waiting waiting' → ∃ before e after new r,
  waiting = before ++ e :: after ∧ waiting' = before ++ after ++ new ++ (settle e r).1 ∧
  served (wt_job e) ∧ Forall (λ e', child (wt_job e) (wt_job e')) new ∧
  (readable (wt_job e) → Forall (λ e', readable (wt_job e')) new).
Proof.
  intros (w & failed & w' & failed' & Hwork). inversion Hwork as [? before e after ? rg m r ? new Hrg Hq Hm Hup Hr]; subst.
  exists before, e, after, new, r. split_and!; [done|done| | |].
  - unfold served. apply Is_true_true, existsb_exists. exists rg. split; [by apply list_elem_of_In|].
    by rewrite Hq, String.eqb_refl.
  - pose proof (workers_breed typesense local_minutes emailProvider privileged virusScanEnabled) as Hall.
    rewrite Forall_forall in Hall. destruct (Hall rg Hrg (wt_job e) m Hq Hm []) as [Hc _].
    by eapply (perform_new (child (wt_job e))).
  - intros Ht. pose proof (workers_breed typesense local_minutes emailProvider privileged virusScanEnabled) as Hall.
    rewrite Forall_forall in Hall. destruct (Hall rg Hrg (wt_job e) m Hq Hm []) as [_ Hc].
    eapply Forall_impl; [|intros e'; apply regular_readable].
    eapply (perform_new (λ j, regular j)); [by apply Hc|done].
Qed.

(** A step of a worker: less is left for the second level, or as much for it
    and less for the first. *)
Lemma works_decrease waiting waiting' : works waiting waiting' →
  mass 2 waiting' < mass 2 waiting ∨ mass 2 waiting' = mass 2 waiting ∧ mass 1 waiting' < mass 1 waiting.
Proof.
  intros (before & e & after & new & r & -> & -> & _ & Hnew & _)%works_inv.
  pose proof (settle_left 1 e r) as H1'. pose proof (settle_left 2 e r) as H2'.
  change (e :: after) with ([e] ++ after). rewrite !mass_app.
  assert (mass 2 new = 0) as ->.
  { apply mass_none. eapply Forall_impl; [exact Hnew|]. intros e' [Hl _].
    destruct (level_cases (wt_job e)); lia. }
  destruct (level_cases (wt_job e)) as [El|El]; rewrite El in H1', H2'.
  - right. assert (mass 1 new = 0) as ->.
    { apply mass_none. eapply Forall_impl; [exact Hnew|]. intros e' [Hl _]. lia. }
    rewrite decide_True in H1' by done. rewrite decide_False in H2' by done.
    assert (mass 2 [e] = 0) by (apply mass_none, Forall_singleton; lia). lia.
  - left. rewrite decide_True in H2' by done. lia.
Qed.

Lemma works_terminate waiting : Acc (λ es' es, works es es') waiting.
Proof.
  remember (mass 2 waiting) as n2 eqn:E2. revert waiting E2. induction (lt_wf n2) as [n2 _ IH2]. intros waiting E2.
  remember (mass 1 waiting) as n1 eqn:E1. revert waiting E2 E1. induction (lt_wf n1) as [n1 _ IH1]. intros waiting -> ->.
  constructor. intros waiting' [Hlt|[Heq Hlt]]%works_decrease; [by eapply IH2|by eapply IH1].
Qed.

Lemma filter_none {A} (p : A → bool) l : Forall (λ x, p x = false) l → List.filter p l = [].
Proof. induction 1 as [|x l Hx Hl IH]; cbn; [done|by rewrite Hx]. Qed.
Lemma filter_id {A} (p : A → bool) l : Forall (λ x, p x = true) l → List.filter p l = l.
Proof. induction 1 as [|x l Hx Hl IH]; cbn; [done|by rewrite Hx, IH]. Qed.

(** The queues that no worker serves. *)
Definition exports : list string := ["gdpr-export"; "gdpr-org-export"]%string.
Definition is_export (e : Waiting) : bool := includes exports (j_queue (wt_job e)).

Lemma served_no_export e : served (wt_job e) → is_export e = false.
Proof.
  unfold served, is_export. intros (rg & Hrg & Hq)%Is_true_true%existsb_exists. apply String.eqb_eq in Hq. rewrite <- Hq.
  apply list_elem_of_In in Hrg. unfold workers, Workers.registrations in Hrg.
  repeat (apply elem_of_cons in Hrg as [->|Hrg]; [reflexivity|]). by apply elem_of_nil in Hrg.
Qed.

Lemma unserved_export e : readable (wt_job e) → ¬ served (wt_job e) → is_export e = true.
Proof.
  intros (k & Hk & Ht)%Is_true_true%existsb_exists Hs. apply andb_true_iff in Ht as [[Eq _]%andb_true_iff _].
  apply String.eqb_eq in Eq. unfold served in Hs. unfold is_export. rewrite <- Eq in *. clear Eq. unfold kinds in Hk. cbn [In] in Hk.
  repeat destruct Hk as [<-|Hk]; try done; destruct Hs; vm_compute; exact I.
Qed.

(** A worker leaves the exports as they wait, and the jobs readable. *)
Lemma works_exports waiting waiting' : works waiting waiting' → Forall (λ e, readable (wt_job e)) waiting →
  Forall (λ e, readable (wt_job e)) waiting' ∧ List.filter is_export waiting' = List.filter is_export waiting.
Proof.
  intros (before & e & after & new & r & -> & -> & Hs & Hnew & Ht)%works_inv [Hb [He Ha]%Forall_cons]%Forall_app. split.
  - rewrite !Forall_app. split_and!; auto. by apply (settle_Forall (λ j, readable j)).
  - rewrite !List.filter_app. cbn [List.filter]. rewrite (served_no_export e Hs).
    rewrite (filter_none _ new), (filter_none _ (settle e r).1), !app_nil_r; [done| |].
    + eapply Forall_impl; [by apply (settle_Forall (λ j, served j))|]. intros e'. apply served_no_export.
    + eapply Forall_impl; [exact Hnew|]. intros e' [_ Hs']. by apply served_no_export.
Qed.

(** C28: left alone, the workers come to an end, whichever job they take next,
    whatever state it meets, and however the attempts end; and when none of them
    can go on, what still waits is exactly the exports, whose queues no worker
    serves. *)
Theorem workers_drain waiting :
  Forall (λ e, readable (wt_job e)) waiting →
  Acc (λ es' es, works es es') waiting ∧
  ∀ waiting', rtc works waiting waiting' → (∀ waiting'', ¬ works waiting' waiting'') →
    waiting' = List.filter is_export waiting.
Proof.
  intros Ht. split; [apply works_terminate|]. intros waiting' Hrun Hstuck.
  assert (Forall (λ e, readable (wt_job e)) waiting' ∧ List.filter is_export waiting' = List.filter is_export waiting)
    as [Ht' <-].
  { clear Hstuck. induction Hrun as [es|es es1 es2 Hw Hrun IH]; [done|].
    destruct (works_exports _ _ Hw Ht) as [Ht1 E1]. destruct (IH Ht1) as [Ht2 E2]. split; [done|congruence]. }
  symmetry. apply filter_id. rewrite Forall_forall in Ht' |- *. intros e He. apply unserved_export; [auto|].
  intros Hs. apply list_elem_of_split in He as (before & after & ->).
  apply Is_true_true, existsb_exists in Hs as (rg & Hrg%list_elem_of_In & Hq%String.eqb_eq).
  destruct (typed_read (wt_job e) rg) as [m Hm]; [apply Ht', elem_of_app; right; by left|done|done|].
  set (w := mkWorld _ empty_db redis_empty [] [] empty_memory [] 0 0 true).
  destruct (perform m w) as [[r w'] new] eqn:Hr. apply (Hstuck (before ++ after ++ new ++ (settle e r).1)).
  exists w, [], w', ([] ++ (settle e r).2). by eapply work_job.
Qed.
End theorems.

Module SystemExamples.
Import Concrete.

#[local] Existing Instances ConcreteZod.zod ConcreteZod.zod_laws WebhookExamples.small_network FileExamples.storage
  FileExamples.scanner PaymentExamples.sdk SignInExamples.small_saml SearchExamples.full_text SearchExamples.client
  SearchExamples.open_breaker SearchExamples.open_breaker_laws OrgAccessExamples.no_ips ApiExamples.google
  ApiExamples.express NotificationExamples.small_mailer CollaborationExamples.daily.

#[local] Instance bullmq : BullMQ := {|
  getFailed failed queue := ret (List.filter (λ j, (j_queue j =? queue)%string) failed);
  retry j := λ w, (Ok tt, w <| jobs := jobs w ++ [j] |>);
|}.
#[local] Instance bull_laws : BullLaws bullmq.
Proof.
  split.
  - intros failed queue. split; intros w; [reflexivity|split; [reflexivity|cbn; lia]].
  - intros failed queue w l w' [= <- _] j Hj. by apply elem_of_filter_bool in Hj as [? _].
  - intros j w. split; [reflexivity|cbn; lia].
  - intros j w. by right.
Qed.

#[local] Instance foreign_services : ForeignServices.
Proof. split; intros; (split; intros w; [reflexivity|split; [reflexivity|cbn; lia]]). Qed.

#[local] Notation example_step := (step ∅ None ApiExamples.token_text true false false false (λ _, None) (λ _, None) (λ _ _, false) 10
  (λ _, 0%Z) "smtp" true true).
#[local] Notation example_works := (works false (λ _, 0%Z) "smtp" true true).

(** The owner of an organization asks for the erasure of her account. *)
Definition founded : World :=
  OrgAccessExamples.founded <| db := (db OrgAccessExamples.founded)
    <| users := (λ u, u <| u_password_hash := Some "bcrypt-pw"%string |>) <$> users (db OrgAccessExamples.founded) |> |>.
Definition rq : Request :=
  mkRequest _ "POST" "/orgs/uuid-0/gdpr/erasure-request" (Bearer (OrgAccessExamples.token "owner")) (Some "uuid-0"%string)
    (Some "key"%string) None "rq" "c" "r".
#[local] Notation asked := (perform (Api.app ∅ None ApiExamples.token_text true false false false (getFailed []) retry
  (λ _, None) (λ _, None) rq "/api/v1/orgs/uuid-0/gdpr/erasure-request" None
  (Some (JObj [("password", JStr "pw"); ("confirm", JStr "DELETE MY ACCOUNT")]%string))) founded).

Definition erasure : Job := mkJob "erase-user" "erase-user" (JObj [("userId", JStr "owner"); ("orgId", JStr "uuid-0")]) 0.
Lemma asked_jobs : asked.2 = [mkWaiting erasure 0].
Proof. vm_compute. reflexivity. Qed.

Lemma erasure_requested :
  ∃ w, rtc example_step (mkSystem _ founded [] []) (mkSystem _ w [mkWaiting erasure 0] []).
Proof.
  pose proof asked_jobs as Hnew. destruct asked as [[r w] new] eqn:E. exists w. cbn [snd] in Hnew. subst new.
  apply rtc_once. change [mkWaiting erasure 0] with ([] ++ [mkWaiting erasure 0]). eapply step_request; [exact E|done].
Qed.

Lemma queues_well_typed_witness :
  (∃ w, rtc example_step (mkSystem _ founded [] []) (mkSystem _ w [mkWaiting erasure 0] [])) ∧
  mkRegistration _ "erase-user" (typed_by as_ErasureJobData) (Workers.erasureWorker true) ∈
    workers false (λ _, 0%Z) "smtp" true true ∧
  typed_by as_ErasureJobData erasure.
Proof.
  assert (Hin : mkRegistration _ "erase-user" (typed_by as_ErasureJobData) (Workers.erasureWorker true) ∈
    workers false (λ _, 0%Z) "smtp" true true) by (do 5 right; left).
  split; [exact erasure_requested|]. split; [exact Hin|].
  destruct erasure_requested as [w Hrun].
  destruct (queues_well_typed ∅ None ApiExamples.token_text true false false false (λ _, None) (λ _, None) (λ _ _, false) 10
    (λ _, 0%Z) "smtp" true true (mkSystem _ founded [] []) _ erasure eq_refl Hrun (list_elem_of_here _ _))
    as (_ & _ & [Hj|[Hj|Hj]]); [destruct Hj|destruct Hj|].
  exact (Hj _ Hin eq_refl).
Defined.

(** The administrators' reindexing is queued, and is no [SearchIndexJobData]. *)
Definition reindexed : Job :=
  mkJob "search" "index-entity" (JObj [("action", JStr "reindex"); ("orgId", JStr "uuid-0"); ("entityType", JStr "org")]) 0.
Example reindexing_queued :
  wt_job <$> (perform (AdminService.triggerSearchReindex "uuid-0" "admin") founded).2 = [reindexed] ∧
  reindexing reindexed = true ∧ as_SearchIndexJobData (j_data reindexed) = None ∧
  as_CreateNotificationJobData (JObj []) = None.
Proof. vm_compute. by split_and!. Qed.

(** *** The workers at work *)

Definition coordinator : Job := mkJob "notifications" "digest-coordinator" (JObj []) 0.
Definition failure : Job := mkJob "payments" "handle-payment-failure" (JObj [("orgId", JStr "uuid-0")]) 0.
Definition export : Job := mkJob "gdpr-export" "gdpr-user-export"
  (JObj [("userId", JStr "owner"); ("orgId", JStr "uuid-0"); ("requestedAt", JNum 1000000)]) 0.
Definition waiting : list Waiting := [mkWaiting failure 0; mkWaiting export 0; mkWaiting coordinator 2].

Lemma waiting_typed : forallb (λ e, readable (wt_job e)) waiting = true.
Proof. vm_compute. reflexivity. Qed.

Lemma workers_drain_witness :
  Acc (λ es' es, example_works es es') waiting ∧ List.filter is_export waiting = [mkWaiting export 0].
Proof.
  split; [|reflexivity].
  refine (proj1 (workers_drain false (λ _, 0%Z) "smtp" true true waiting _)).
  pose proof waiting_typed as Ht. rewrite forallb_forall in Ht. apply Forall_forall. intros e He.
  apply Is_true_true, Ht. by apply list_elem_of_In.
Defined.

(** A failed payment starts a grace period, whose end is the job that comes of
    it. *)
Example failure_breeds :
  wt_job <$> (perform (PaymentWorker.paymentWorkerJob "handle-payment-failure" "uuid-0") OrgAccessExamples.founded).2 =
    [mkJob "payments" "check-grace-period" (JObj [("orgId", JStr "uuid-0")]) 604800000].
Proof. vm_compute. reflexivity. Qed.

(** The coordinator fails whoever runs it, and for good at the third attempt. *)
Example coordinator_fails :
  (perform Workers.runDigestCoordinatorJob OrgAccessExamples.founded).1.1 = Throw Workers.undefined_column ∧
  settle (mkWaiting coordinator 1) (Throw Workers.undefined_column) = ([mkWaiting coordinator 2], []) ∧
  settle (mkWaiting coordinator 2) (Throw Workers.undefined_column) = ([], [coordinator]).
Proof. split_and!; reflexivity. Qed.

(** Two workers serve the queue of the notifications: a job for the one is done,
    without effect, when the other takes it. *)
Definition notification : Job := mkJob "notifications" "create-notification"
  (JObj [("eventType", JStr "task.assigned"); ("orgId", JStr "uuid-0"); ("entityType", JStr "task"); ("entityId", JStr "t");
         ("actorUserId", JNull); ("targetUserIds", JArr [JStr "guest"]); ("payload", JObj [])]) 0.
Example taken_by_the_other :
  Workers.digestWorker notification = Some (ret tt) ∧ Workers.notificationWorker (λ _, 0%Z) coordinator = Some (ret tt).
Proof. split; reflexivity. Qed.
Example taken_by_its_own :
  length (notifications (db (perform
    (default (ret tt) (Workers.notificationWorker (λ _, 0%Z) notification)) OrgAccessExamples.founded).1.2)) = 1.
Proof. vm_compute. reflexivity. Qed.

(** The data of a digest is read by the worker of the emails as that of an
    event without a name. *)
Example digest_read_as_email :
  as_SendNotificationEmailJobData (JObj [("to", JStr "a@x"); ("subject", JStr "s"); ("html", JStr "h"); ("userId", JStr "u")]) =
    Some (mkSendNotificationEmailJobData "u" "undefined" "undefined" (JObj [])).
Proof. reflexivity. Qed.
End SystemExamples.
