(* ===== verification/Invariants.v ===== *)
(** * Invariants: what holds in every state of the system

    The invariants of the components - the graph of dependencies, the nesting of
    tasks, the tokens of a session, the channels and their messages - are
    proved there over the operations of the component.  Here they are proved over the whole system: over every
    route of [Api], the poller and every worker of [Jobs].  An operation is
    followed down to the statements it runs ([keeps]): a statement on a table
    that an invariant does not read keeps it ([Frame]), and those on its own
    tables are the operations of the component. *)
From S2P Require Import Prelude Schema World Zod Crypto Concrete OrgRepo TaskRepo TaskDeps TaskService AuthRepo Session Auth Organization Http RateLimiter OrgAccess Payments FeatureFlags Gdpr Chat Files Outbox Webhooks SignIn Notifications Collaboration Cleanup RowJson TenantRoutes SystemRoutes Search Api Lifecycle Jobs System.
From Stdlib Require Import ZArith Lia Ascii.
From stdpp Require Import base tactics strings gmap list relations.

(** An invariant of the database, that no later draw breaks. *)
Class Stable `{Redis} (I : World → Prop) : Prop :=
  stable : ∀ w w', db w' = db w → draws w ≤ draws w' → I w → I w'.

(** An invariant that does not read a table. *)
Class Frame `{Redis} (I : World → Prop) (R : Type) `{Table R} : Prop :=
  frame : ∀ (l : list R) w, I w → I (w <| db := set_rows l (db w) |>).

Section keep.
Context `{Redis, Random} (I : World → Prop).

(** [m] keeps the invariant, and the draws only grow. *)
Definition keep {A} (m : M A) : Prop := ∀ n, preserves (λ w, I w ∧ n ≤ draws w) m.

Lemma keep_ret {A} (a : A) : keep (ret a).
Proof. intros n. apply preserves_ret. Qed.
Lemma keep_throw {A} e : keep (throw (A := A) e).
Proof. intros n. apply preserves_throw. Qed.
Lemma keep_bind {A B} (m : M A) (k : A → M B) : keep m → (∀ a, keep (k a)) → keep (bind m k).
Proof. intros Hm Hk n. apply preserves_bind; [apply Hm|intros a; apply Hk]. Qed.
Lemma keep_catch {A} (m : M A) h : keep m → (∀ e, keep (h e)) → keep (catch m h).
Proof. intros Hm Hh n. apply preserves_catch; [apply Hm|intros e; apply Hh]. Qed.
Lemma keep_for_each {A} (l : list A) f : (∀ x, keep (f x)) → keep (for_each l f).
Proof. intros Hf n. apply preserves_for_each. intros x. apply Hf. Qed.

(** From what a component proves of its operation. *)
Lemma keep_from {A} (m : M A) : preserves I m → (∀ n t up, preserves (ambient n t up) m) → keep m.
Proof.
  intros Hm Ha n w [HI Hn]. split; [by apply Hm|].
  destruct (Ha n (clock w) (redis_up w) w) as (Hd & _ & _); [by split_and!|lia].
Qed.

Context `{!Stable I}.

Lemma keep_outside {A} (m : M A) : outside m → keep m.
Proof. intros Hm n w [HI Hn]. destruct (Hm w) as [Hd Hdr]. split; [by eapply stable|lia]. Qed.

Lemma keep_foreign {A} (m : M A) : foreign m → keep m.
Proof. intros [_ Hm]. by apply keep_outside. Qed.

Lemma keep_transaction {A} (m : M A) : keep m → keep (withTransaction m).
Proof.
  intros Hm n w [HI Hn]. unfold withTransaction. pose proof (Hm (draws w) w (conj HI (le_n _))) as [HI' Hd].
  destruct (m w) as [[a|e] w']; cbn in *; [split; [done|lia]|]. split; [|lia]. by eapply (stable w).
Qed.

Section tables.
Context {R : Type} `{Table R, !Frame I R}.

Lemma keep_rows {A} (r : World → result A) (f : World → list R) :
  keep (λ w, (r w, w <| db := set_rows (f w) (db w) |>)).
Proof. intros n w [HI Hn]. split; [by apply frame|done]. Qed.

Lemma keep_update P f : keep (update_where (R := R) P f).
Proof. apply (keep_rows _ (λ w, upd_where P f (rows (db w)))). Qed.
Lemma keep_update_touch `{Touch R} P f : keep (update_touch (R := R) P f).
Proof. intros n w Hw. by apply (keep_update P). Qed.
Lemma keep_insert r : keep (insert_row (R := R) r).
Proof. apply (keep_rows _ (λ w, rows (db w) ++ [r])). Qed.
Lemma keep_insert_unique c r : keep (insert_unique (R := R) c r).
Proof. intros n w Hw. unfold insert_unique. destruct existsb; [done|by apply keep_insert]. Qed.
Lemma keep_insert_or_ignore c r : keep (insert_or_ignore (R := R) c r).
Proof. intros n w Hw. unfold insert_or_ignore. destruct existsb; [done|by apply keep_insert]. Qed.
Lemma keep_upsert c r f : keep (upsert (R := R) c r f).
Proof.
  intros n w [HI Hn]. unfold upsert. destruct List.find; cbn [snd]; (split; [by apply frame|done]).
Qed.
Lemma keep_delete P : keep (delete_where (R := R) P).
Proof. apply (keep_rows _ (λ w, List.filter (λ r, negb (P r)) (rows (db w)))). Qed.
End tables.

Lemma outside_read {A} (a : World → A) : outside (λ w, (Ok (a w), w)).
Proof. by split. Qed.
End keep.

Create HintDb keep.
#[export] Hint Resolve keep_ret keep_throw keep_update keep_update_touch keep_insert keep_insert_unique
  keep_insert_or_ignore keep_upsert keep_delete : keep.
#[export] Hint Extern 3 (keep _ _) => solve [apply keep_foreign; [eauto with typeclass_instances|eauto 2 with foreign]] : keep.

(** An operation that is no statement on a table. *)
Ltac no_statement :=
  apply keep_outside; [solve [eauto with typeclass_instances]|]; intros ?w;
  unfold select, select_one, now, get_world, gen_random_uuid, randomHex, rget, rset, rset_nx, rdel, rpublish, enqueue_in;
  cbv beta; repeat case_match; simplify_eq; (split; [reflexivity|cbn; lia]).

(** Follows an operation down to its statements, as [adds]. *)
Ltac keeps_step :=
  intros; lazymatch goal with
  | |- keep _ (bind _ _) => apply keep_bind
  | |- keep _ (catch _ _) => apply keep_catch
  | |- keep _ (match ?x with _ => _ end) => destruct x
  | |- keep _ (for_each _ _) => apply keep_for_each
  | |- keep _ (withTransaction _) => apply keep_transaction; [solve [eauto with typeclass_instances]|]
  | |- keep _ (let _ := _ in _) => cbv zeta
  | |- keep _ (select _) => no_statement
  | |- keep _ (select_one _) => no_statement
  | |- keep _ ?m =>
      first [ solve [eauto 3 with keep typeclass_instances]
            | lazymatch m with
              | update_where _ _ => fail 1 | update_touch _ _ => fail 1 | insert_row _ => fail 1
              | insert_unique _ _ => fail 1 | insert_or_ignore _ _ => fail 1 | upsert _ _ _ => fail 1 | delete_where _ => fail 1
              | _ => let h := head m in progress unfold h
              end
            | progress cbv beta
            | no_statement ]
  end.
Ltac keeps := repeat keeps_step.

(** ** What an invariant of the system must survive *)

(** The tables the invariants below read, the operations that write them, and
    the changes of a row that concern none: whatever else the system does writes
    other tables. *)
Class Invariant `{Redis, !RedisHash, Random, Config, Crypto} (I : World → Prop) : Prop := {
  inv_stable : Stable I;
  inv_frame : ∀ R `{Table R}, TableNe R TaskRow → TableNe R TaskDependencyRow → TableNe R RefreshTokenRow →
    TableNe R ChatMessageRow → TableNe R ChannelMemberRow → SeqNe R → TableNe R OrgRow → Frame I R;
  (** tasks *)
  inv_task_rows : ∀ P (f : TaskRow → TaskRow), (∀ r, skeleton (f r) = skeleton r) → keep I (update_touch P f);
  inv_createTask : ∀ orgId userId input, keep I (TaskService.createTask orgId userId input);
  inv_spawn : ∀ orgId parent t, keep I (RecurringTaskWorker.spawn orgId parent t);
  (** dependencies *)
  inv_addDependency : ∀ orgId a b userId, keep I (DependencyService.addDependency orgId a b userId);
  inv_removeDependency : ∀ orgId id, keep I (DependencyService.removeDependency orgId id);
  (** sessions *)
  inv_issue : ∀ u o r a m, keep I (JwtService.issueTokenPair u o r a m);
  inv_refresh : ∀ raw, keep I (JwtService.refreshTokenPair raw);
  inv_revoke : ∀ id, keep I (AuthRepository.revokeRefreshToken id);
  inv_revoke_all : ∀ userId, keep I (AuthRepository.revokeAllUserTokens userId);
  (** channels *)
  inv_createDirect : ∀ o c u, keep I (ChannelService.createDirect o c u);
  inv_createGroup : ∀ o c name l, keep I (ChannelService.createGroup o c name l);
  inv_createWorkspaceChannel : ∀ o c name ws, keep I (ChannelService.createWorkspaceChannel o c name ws);
  inv_send : ∀ o input, keep I (MessageService.send o input);
  inv_deleteMessage : ∀ o id c u, keep I (MessageService.deleteMessage o id c u);
  inv_updateLastRead : ∀ c u s, keep I (ChannelRepository.updateLastRead c u s);
  inv_dropSequences : keep I dropDeletedChannelSequences;
  (** organizations *)
  inv_org_rows : ∀ P (f : OrgRow → OrgRow),
    (∀ o, o_id (f o) = o_id o ∧ o_status (f o) = o_status o ∧ o_deleted_at (f o) = o_deleted_at o) →
    keep I (update_touch P f);
  inv_createOrg : ∀ u d, keep I (OrganizationService.createOrg u d);
  inv_suspendOrg : ∀ o r a, keep I (OrganizationService.suspendOrg o r a);
  inv_reactivateOrg : ∀ o a, keep I (OrganizationService.reactivateOrg o a);
  inv_startOffboarding : ∀ o a, keep I (OrganizationService.startOffboarding o a);
  inv_gdprOffboard : ∀ o, keep I (GdprRouter.offboard o);
  inv_offboardingJob : ∀ o, keep I (OffboardingWorker.runOffboardingJob o);
  inv_reactivate_suspended : ∀ o, keep I (WebhookHandler.reactivate_suspended o);
}.
#[export] Hint Resolve inv_createTask inv_spawn inv_addDependency inv_removeDependency inv_issue inv_refresh inv_revoke
  inv_revoke_all inv_createDirect inv_createGroup inv_createWorkspaceChannel inv_send inv_deleteMessage inv_updateLastRead
  inv_dropSequences inv_createOrg inv_suspendOrg inv_reactivateOrg inv_startOffboarding inv_gdprOffboard
  inv_offboardingJob inv_reactivate_suspended : keep.
#[export] Hint Extern 3 (keep _ (update_touch (R := TaskRow) _ _)) => solve [apply inv_task_rows; reflexivity] : keep.
#[export] Hint Extern 3 (keep _ (update_touch (R := OrgRow) _ _)) =>
  solve [apply inv_org_rows; intros ?; (split; [|split]; reflexivity)] : keep.

Section operations.
Context `{Redis, !RedisHash, !RedisZset, Random, Config, Crypto, !StorageProvider, !Scanner, !RazorpaySdk,
  FullText, !TypesenseClient, !SearchBreaker, !BreakerLaws _, !ForeignServices}.
Context (I : World → Prop) `{!Invariant I}.
#[local] Existing Instances inv_stable inv_frame.

Lemma keep_mentions orgId taskId commentId authorId handles :
  keep I (MentionService.notify_handles orgId taskId commentId authorId handles).
Proof. induction handles as [|h handles IH]; cbn [MentionService.notify_handles]; keeps; apply IH. Qed.

Lemma keep_typesense initialized o : keep I (TypesenseProvider.search initialized o).
Proof.
  unfold TypesenseProvider.search. apply keep_bind; [keeps|intros _; apply keep_bind; [|keeps]].
  generalize (so_entityTypes o ?? all_types) as types. intros types.
  induction types as [|t types IH]; cbn [TypesenseProvider.search_types]; [keeps|].
  apply keep_bind; [keeps|intros found; apply keep_bind; [exact IH|keeps]].
Qed.

Lemma keep_provider typesense initialized o :
  keep I (provider_search (SearchService.getActiveProvider typesense initialized) o).
Proof.
  unfold SearchService.getActiveProvider. destruct typesense;
    cbn [provider_search TypesenseProvider.provider PostgresFtsProvider.provider]; [apply keep_typesense|keeps].
Qed.

Lemma keep_upsert_document typesense doc : keep I (upsertDocument (SearchWorker.getProvider typesense) doc).
Proof.
  unfold SearchWorker.getProvider. destruct typesense;
    cbn [upsertDocument TypesenseProvider.provider PostgresFtsProvider.provider]; keeps.
Qed.

Lemma keep_delete_document typesense id orgId : keep I (deleteDocument (SearchWorker.getProvider typesense) id orgId).
Proof.
  unfold SearchWorker.getProvider. destruct typesense;
    cbn [deleteDocument TypesenseProvider.provider PostgresFtsProvider.provider]; keeps.
Qed.

Lemma keep_breaker m : keep I m → keep I (search_breaker m).
Proof.
  intros Hm n w Hw. destruct (breaker_cases m w) as [->|(e & w' & -> & [->| ->])]; cbn [snd]; [by apply Hm|done|by apply Hm].
Qed.

Lemma keep_publish drops e : keep I (OutboxPoller.publish drops e).
Proof. apply keep_outside; [apply _|]. intros w. unfold OutboxPoller.publish, rpublish. by repeat case_match. Qed.
End operations.
#[export] Hint Resolve keep_mentions keep_provider keep_upsert_document keep_delete_document keep_breaker keep_publish : keep.

(** ** Everything keeps an invariant *)

Section system.
Context `{Redis, !RedisHash, !RedisZset, Random, Config, Crypto, Zod, Network, !StorageProvider, !Scanner, !RazorpaySdk, Saml,
  Google, FullText, !TypesenseClient, !SearchBreaker, !BreakerLaws _, IpAddr, Mailer, RRule, Express, !ForeignServices,
  !BullMQ, !BullLaws _}.
Context (I : World → Prop) `{!Invariant I}.
Context (keyStore : gmap string string) (allowlist : option string) (jwt_text : jwt_token → string).
Context (test_env exec_rejects typesense initialized : bool).
Context (JSON_parse : string → option json) (razorpay_signature : Request → option string).
Context (drops : nat → nat → bool) (batchSize : nat).
Context (local_minutes : Z → Z) (emailProvider : string) (privileged virusScanEnabled : bool).
#[local] Existing Instances inv_stable inv_frame.

Lemma keep_getFailed failed queue : keep I (getFailed failed queue).
Proof. apply keep_foreign; [apply _|apply getFailed_foreign]. Qed.
Lemma keep_retry j : keep I (retry j).
Proof. apply keep_outside; [apply _|apply retry_outside]. Qed.
#[local] Hint Resolve keep_getFailed keep_retry : keep.

(** A route keeps the invariant. *)
Definition kept_route (r : Route) : Prop := ∀ rq p q b, keep I (rt_serve r rq p q b).

Ltac kept_routes :=
  repeat apply Forall_cons_2; [..|constructor];
  intros ? ? ? ?; cbn [rt_serve Api.get Api.post Api.patch Api.delete]; keeps.
#[local] Notation kept_table t := (Forall kept_route t).

Lemma auth_routes_kept : kept_table (auth_routes keyStore jwt_text test_env exec_rejects).
Proof. unfold auth_routes. kept_routes. Qed.
Lemma org_routes_kept : kept_table (org_routes keyStore jwt_text).
Proof. unfold org_routes. kept_routes. Qed.
Lemma task_routes_kept : kept_table (task_routes keyStore).
Proof. unfold task_routes. kept_routes. Qed.
Lemma chat_routes_kept : kept_table (chat_routes keyStore).
Proof. unfold chat_routes. kept_routes. Qed.
Lemma notification_routes_kept : kept_table (notification_routes keyStore).
Proof. unfold notification_routes. kept_routes. Qed.
Lemma payment_routes_kept : kept_table (payment_routes keyStore JSON_parse razorpay_signature).
Proof. unfold payment_routes. kept_routes. Qed.
Lemma file_routes_kept : kept_table (file_routes keyStore).
Proof. unfold file_routes. kept_routes. Qed.
Lemma search_routes_kept : kept_table (search_routes keyStore typesense initialized).
Proof. unfold search_routes. kept_routes. Qed.
Lemma workspace_routes_kept : kept_table (workspace_routes keyStore).
Proof. unfold workspace_routes. kept_routes. Qed.
Lemma webhook_routes_kept : kept_table (webhook_routes keyStore).
Proof. unfold webhook_routes. kept_routes. Qed.
Lemma flag_routes_kept : kept_table (flag_routes keyStore allowlist).
Proof. unfold flag_routes. kept_routes. Qed.
Lemma admin_routes_kept failed : kept_table (admin_routes keyStore allowlist (getFailed failed) retry).
Proof. unfold admin_routes. kept_routes. Qed.
Lemma gdpr_routes_kept : kept_table (gdpr_routes keyStore allowlist).
Proof. unfold gdpr_routes. kept_routes. Qed.

Lemma app_kept failed rq url query body :
  keep I (Api.app keyStore allowlist jwt_text test_env exec_rejects typesense initialized (getFailed failed) retry
    JSON_parse razorpay_signature rq url query body).
Proof.
  unfold Api.app. destruct (dispatch _ _ _) as [[rt p]|] eqn:E; [|keeps].
  assert (kept_table (routes keyStore allowlist jwt_text test_env exec_rejects typesense initialized (getFailed failed)
    retry JSON_parse razorpay_signature)) as Hall.
  { unfold routes. rewrite !Forall_app.
    eauto 20 using auth_routes_kept, org_routes_kept, task_routes_kept, chat_routes_kept, notification_routes_kept,
      payment_routes_kept, file_routes_kept, search_routes_kept, workspace_routes_kept, webhook_routes_kept,
      flag_routes_kept, admin_routes_kept, gdpr_routes_kept. }
  rewrite Forall_forall in Hall. apply Hall. by apply dispatch_in in E as [? _].
Qed.

(** A worker keeps the invariant, whatever job it takes. *)
Definition kept_worker (rg : Registration) : Prop := ∀ j m, rg_process rg j = Some m → keep I m.

Lemma workers_kept : Forall kept_worker (workers typesense local_minutes emailProvider privileged virusScanEnabled).
Proof.
  unfold workers, Workers.registrations.
  repeat apply Forall_cons_2; [..|constructor]; intros j m Hm; cbn [rg_process] in Hm.
  - unfold Workers.auditWorkerJob in Hm. apply bind_Some in Hm as ([[[[[[]]]]]] & _ & [= <-]). keeps.
  - unfold Workers.notificationWorker in Hm. apply bind_Some in Hm as (eventType & _ & Hm). destruct negb.
    + apply (inj Some) in Hm as <-. keeps.
    + apply fmap_Some in Hm as (data & _ & ->). keeps.
  - apply fmap_Some in Hm as (data & _ & ->). keeps.
  - apply fmap_Some in Hm as ([[[[]]]] & _ & ->). keeps.
  - apply fmap_Some in Hm as (data & _ & ->). keeps.
  - apply fmap_Some in Hm as (data & _ & ->). keeps.
  - apply fmap_Some in Hm as (data & _ & ->). keeps.
  - apply fmap_Some in Hm as (data & _ & ->). keeps.
  - apply (inj Some) in Hm as <-. keeps.
  - apply fmap_Some in Hm as (data & _ & ->). keeps.
  - apply fmap_Some in Hm as (data & _ & ->). keeps.
  - apply (inj Some) in Hm as <-. keeps.
  - unfold Workers.digestWorker in Hm. destruct (_ =? _)%string; [|destruct (_ =? _)%string].
    + apply (inj Some) in Hm as <-. keeps.
    + apply fmap_Some in Hm as (data & _ & ->). keeps.
    + apply (inj Some) in Hm as <-. keeps.
Qed.

Lemma poll_kept : keep I (OutboxPoller.pollCycle drops batchSize).
Proof. keeps. Qed.

(** A world that differs in its queues, its clock or Redis. *)
Lemma same_db w w' : db w' = db w → draws w' = draws w → I w → I w'.
Proof. intros E1 E2. apply (inv_stable w w' E1). lia. Qed.

Lemma perform_kept {A} (m : M A) w r w' new : keep I m → perform m w = (r, w', new) → I w → I w'.
Proof.
  unfold perform. intros Hm E Hw. destruct (Hm 0 (w <| jobs := [] |>)) as [Hi _].
  { split; [by apply (same_db w)|lia]. }
  destruct (m (w <| jobs := [] |>)) as [r1 w1]. injection E as _ <- _. by apply (same_db w1).
Qed.

Lemma step_kept s s' :
  step keyStore allowlist jwt_text test_env exec_rejects typesense initialized JSON_parse razorpay_signature drops batchSize
    local_minutes emailProvider privileged virusScanEnabled s s' →
  I (sys_world s) → I (sys_world s').
Proof.
  intros [rq url query body w waiting failed failed' r w' new Hr Hsub|w waiting failed r w' new Hr|
    w waiting failed j Hj|s1 s2 Hs|w waiting failed t up Ht]; cbn [sys_world].
  - by eapply perform_kept, Hr; apply app_kept.
  - by eapply perform_kept, Hr; apply poll_kept.
  - done.
  - destruct Hs as [w before e after failed rg m r w' new Hrg Hq Hm Hup Hr]. cbn [sys_world].
    eapply perform_kept, Hr. pose proof workers_kept as Hall. rewrite Forall_forall in Hall. by eapply Hall.
  - by apply (same_db w).
Qed.

Lemma run_kept s s' :
  rtc (step keyStore allowlist jwt_text test_env exec_rejects typesense initialized JSON_parse razorpay_signature drops
    batchSize local_minutes emailProvider privileged virusScanEnabled) s s' →
  I (sys_world s) → I (sys_world s').
Proof. induction 1 as [s|s s1 s2 Hs _ IH]; [done|]. intros Hi. apply IH. by eapply step_kept. Qed.
End system.

(** ** The invariants *)

(** What an invariant needs of an operation beside its own lemma: that the draws
    grow. *)
#[export] Instance stable_true `{Redis} : Stable (λ _, True).
Proof. by intros w w'. Qed.
#[export] Instance frame_true `{Redis} {R} `{Table R} : Frame (λ _, True) R.
Proof. by intros l w. Qed.

Lemma keep_own `{Redis} (I : World → Prop) {A} (m : M A) : preserves I m → keep (λ _, True) m → keep I m.
Proof. intros Hm Ht n w [HI Hn]. split; [by apply Hm|by apply (Ht n)]. Qed.

Lemma keep_cycle_search `{Redis, Random} (I : World → Prop) `{!Stable I} fuel orgId target visited stack :
  keep I (DependencyService.search fuel orgId target visited stack).
Proof.
  revert visited stack. induction fuel as [|fuel IH]; intros visited [|s stack]; cbn [DependencyService.search]; keeps;
    apply IH.
Qed.
#[export] Hint Resolve keep_cycle_search : keep.

(** An invariant that does not read the sequences of the channels. *)
Class FrameSequences `{Redis} (I : World → Prop) : Prop :=
  frame_sequences : ∀ s w, I w → I (w <| db := (db w) <| sequences := s |> |>).
#[export] Instance frame_sequences_true `{Redis} : FrameSequences (λ _, True).
Proof. by intros s w. Qed.

Section sequences.
Context `{Redis} (I : World → Prop) `{!FrameSequences I}.

Lemma keep_create_sequence c : keep I (create_channel_sequence c).
Proof.
  intros n w [HI Hn]. unfold create_channel_sequence. cbn [snd].
  destruct (sequences (db w) !! seq_name c); (split; [|done]); [done|by apply frame_sequences].
Qed.
Lemma keep_nextSequence c : keep I (nextSequence c).
Proof.
  intros n w [HI Hn]. unfold nextSequence. repeat case_match; cbn [snd]; (split; [|done]); [done|by apply frame_sequences|done].
Qed.
Lemma keep_drop_sequence c : keep I (drop_sequence c).
Proof. intros n w [HI Hn]. split; [by apply frame_sequences|done]. Qed.
End sequences.
#[export] Hint Resolve keep_create_sequence keep_nextSequence keep_drop_sequence : keep.

(** An invariant of the draws and one table. *)
Section tracked.
Context `{Redis} {R : Type} `{Table R} (J : nat → list R → Prop).

Lemma tracked_stable : (∀ n n' l, n ≤ n' → J n l → J n' l) → Stable (tracked J).
Proof. intros Hmono w w' E Hd HI. unfold tracked in *. rewrite E. by eapply Hmono. Qed.

Lemma tracked_sequences : (∀ s d, rows (R := R) (d <| sequences := s |>) = rows d) → FrameSequences (tracked J).
Proof. intros Hs s w HI. unfold tracked in *. rewrite <- (Hs s) in HI. exact HI. Qed.

Lemma tracked_frame {R'} `{Table R', !TableNe R' R} : Frame (tracked J) R'.
Proof. intros l w HI. unfold tracked in *. cbn. by rewrite rows_ne. Qed.
End tracked.

Section dependencies.
Context `{Redis, !RedisHash, Random, Config, Crypto} (orgId : string).

Definition dependencies_ok : World → Prop :=
  tracked (λ _ l, DependencyService.acyclic orgId l).

#[local] Instance dependencies_stable : Stable dependencies_ok.
Proof. by apply tracked_stable. Qed.
#[local] Instance dependencies_frame {R} `{Table R, !TableNe R TaskDependencyRow} : Frame dependencies_ok R.
Proof. by apply tracked_frame. Qed.

#[local] Instance dependencies_sequences : FrameSequences dependencies_ok.
Proof. by apply tracked_sequences. Qed.

Lemma dependencies_invariant : Invariant dependencies_ok.
Proof.
  split; intros; try exact _; try solve [keeps].
  - apply keep_own; [|keeps]. intros w Hw. by apply DependencyService.addDependency_acyclic.
  - apply keep_own; [|keeps]. intros w Hw. by apply DependencyService.removeDependency_acyclic.
Qed.
End dependencies.

Section tasks.
Context `{Redis, !RedisHash, Random, !RandomLaws _, Config, Crypto}.

Lemma task_inv_db d n w : task_inv w → tasks d = tasks (db w) → draws w ≤ n →
  ∀ w', db w' = d → draws w' = n → task_inv w'.
Proof.
  intros [Hids Hfresh Hn] E Hd w' Ew <-. split; rewrite Ew, E; [done| |done].
  intros r k Hr Hid. specialize (Hfresh r k Hr Hid). lia.
Qed.

#[local] Instance tasks_stable : Stable task_inv.
Proof. intros w w' E Hd Hw. eapply (task_inv_db (db w')); [exact Hw|by rewrite E|exact Hd|done|done]. Qed.
#[local] Instance tasks_frame {R} `{Table R, !TableNe R TaskRow} : Frame task_inv R.
Proof. intros l w Hw. eapply (task_inv_db (set_rows l (db w))); [exact Hw|exact (rows_ne (R2 := TaskRow) l (db w))|done|done|done]. Qed.
#[local] Instance tasks_sequences : FrameSequences task_inv.
Proof. intros s w Hw. by eapply (task_inv_db ((db w) <| sequences := s |>) (draws w)); [exact Hw|..]. Qed.

(** Tables that differ by what does not place a task. *)
Lemma task_inv_skeleton w w' :
  task_inv w → skeleton <$> tasks (db w') = skeleton <$> tasks (db w) → draws w ≤ draws w' → task_inv w'.
Proof.
  intros [Hid Hfr Hn] Hs Hd. split.
  - by rewrite (skeleton_ids _ _ Hs).
  - intros r n Hr Hrn. destruct (skeleton_elem _ _ _ Hs Hr) as (r0 & Hr0 & [= ? ? ? ?]).
    eapply Nat.lt_le_trans; [|exact Hd]. eapply Hfr; [exact Hr0|congruence].
  - by eapply well_nested_skeleton.
Qed.

Lemma tasks_rows P (f : TaskRow → TaskRow) : (∀ r, skeleton (f r) = skeleton r) → keep task_inv (update_touch P f).
Proof.
  intros Hf n w [Hw Hn]. split; [|done]. eapply task_inv_skeleton; [exact Hw| |done].
  unfold update_touch, update_where, bind, now. cbn. tables. cbn. apply fmap_upd_where. intros r _. apply Hf.
Qed.
#[local] Hint Extern 3 (keep _ (update_touch (R := TaskRow) _ _)) => solve [apply tasks_rows; reflexivity] : keep.

(** A new task at the root. *)
Lemma tasks_append w w' row :
  task_inv w → tasks (db w') = tasks (db w) ++ [row] → t_id row = random_uuid (draws w) → draws w < draws w' →
  t_parent_task_id row = None → t_depth row = 0%Z → task_inv w'.
Proof.
  intros [Hid Hfr Hn] E Hr Hd Hp Hz. split; rewrite E.
  - rewrite fmap_app. apply NoDup_app. split_and!; [done| |apply NoDup_singleton].
    intros x (r & -> & Hin)%list_elem_of_fmap Hx%list_elem_of_singleton. rewrite Hr in Hx. apply Hfr in Hx; [lia|done].
  - intros r n [Hin| ->%list_elem_of_singleton]%elem_of_app Hrn.
    + eapply Nat.lt_trans; [by eapply Hfr|done].
    + rewrite Hr in Hrn. apply random_uuid_inj in Hrn. lia.
  - intros r [Hin| ->%list_elem_of_singleton]%elem_of_app; apply placed_app; [auto|]. unfold placed. rewrite Hp, Hz. lia.
Qed.

Lemma tasks_spawn orgId parent t : keep task_inv (RecurringTaskWorker.spawn orgId parent t).
Proof.
  apply keep_own; [|keeps]. intros w Hw. unfold RecurringTaskWorker.spawn.
  unfold bind at 1, select, bind at 1, gen_random_uuid, bind at 1, now. set (w1 := w <| draws := S (draws w) |>).
  assert (task_inv w1) as Hw1 by (eapply (tasks_stable w); [done|cbn; lia|done]).
  unfold bind at 1, insert_unique. destruct existsb; [done|]. unfold insert_row.
  match goal with |- task_inv (?m ?w0).2 => set (w2 := w0); assert (keep task_inv m) as Htail by keeps end.
  apply (Htail 0 w2). split; [|lia]. eapply (tasks_append w); [exact Hw|reflexivity|reflexivity|cbn; lia|done|done].
Qed.

Lemma tasks_invariant : Invariant task_inv.
Proof.
  split; intros; try exact _; try solve [keeps].
  - by apply tasks_rows.
  - apply keep_own; [|keeps]. intros w Hw. by apply (task_inv_call (CreateTask _ _ _)).
  - apply tasks_spawn.
Qed.
End tasks.

Section sessions.
Context `{Redis, !RedisHash, Random, !RandomLaws _, Config, Crypto}.

#[local] Notation sessions_ok := (tracked sessions).
#[local] Instance sessions_stable : Stable sessions_ok.
Proof. apply tracked_stable, sessions_mono. Qed.
#[local] Instance sessions_frame {R} `{Table R, !TableNe R RefreshTokenRow} : Frame sessions_ok R.
Proof. by apply tracked_frame. Qed.
#[local] Instance sessions_sequences : FrameSequences sessions_ok.
Proof. by apply tracked_sequences. Qed.

Lemma sessions_kept : Invariant sessions_ok.
Proof.
  destruct sessions_invariant as [_ _ Hi Hr Hv Ha].
  split; intros; try exact _; try solve [keeps]; (apply keep_own; [auto|keeps]).
Qed.
End sessions.

Section chat.
Context `{Redis, !RedisHash, Random, !RandomLaws _, Config, Crypto}.

(** What the invariant of the channels reads. *)
Lemma chat_inv_db w w' :
  chat_inv w → chat_messages (db w') = chat_messages (db w) → channel_members (db w') = channel_members (db w) →
  sequences (db w') = sequences (db w) → draws w ≤ draws w' → chat_inv w'.
Proof.
  unfold chat_inv. intros [C1 C2 C3 C4 C5 C6] Em Ec Es Hd. split; rewrite ?Em, ?Ec; rewrite ?Es; try done.
  - eapply Forall_impl; [exact C5|]. intros m. by apply drawn_mono.
  - eapply Forall_impl; [exact C6|]. intros m. by apply drawn_mono.
Qed.

#[local] Instance chat_stable : Stable chat_inv.
Proof. intros w w' E Hd Hw. by apply (chat_inv_db w); [|rewrite E..|]. Qed.
#[local] Instance chat_frame {R} `{Table R, !TableNe R ChatMessageRow, !TableNe R ChannelMemberRow, !SeqNe R} :
  Frame chat_inv R.
Proof.
  intros l w Hw. apply (chat_inv_db w); [done|exact (rows_ne (R2 := ChatMessageRow) l (db w))|
    exact (rows_ne (R2 := ChannelMemberRow) l (db w))|exact (seq_ne l (db w))|done].
Qed.

Lemma chat_kept : Invariant chat_inv.
Proof.
  split; intros; try exact _; try solve [keeps]; (apply keep_own; [|keeps]).
  - apply chat_createDirect.
  - apply chat_createGroup.
  - apply chat_createWorkspaceChannel.
  - apply chat_send.
  - apply chat_deleteMessage.
  - apply chat_updateLastRead.
  - apply chat_dropSequences.
Qed.
End chat.

Section organizations.
Context `{Redis, !RedisHash, Random, !RandomLaws _, Config, Crypto} (l0 : list OrgRow).

#[local] Notation orgs_kept := (tracked (machine l0)).
#[local] Instance orgs_stable : Stable orgs_kept.
Proof. apply tracked_stable. intros n n' l. apply machine_mono. Qed.
#[local] Instance orgs_frame {R} `{Table R, !TableNe R OrgRow} : Frame orgs_kept R.
Proof. by apply tracked_frame. Qed.
#[local] Instance orgs_sequences : FrameSequences orgs_kept.
Proof. by apply tracked_sequences. Qed.

Lemma organizations_kept : Invariant orgs_kept.
Proof.
  split; intros; try exact _; try solve [keeps]; (apply keep_own; [|keeps]).
  - by apply keeps_other_columns.
  - apply createOrg_keeps.
  - apply org_service_keeps.
  - apply org_service_keeps.
  - apply org_service_keeps.
  - apply gdpr_offboard_keeps.
  - apply offboarding_job_keeps.
  - apply reactivate_suspended_keeps.
Qed.
End organizations.

Module SystemProperties.
Section theorems.
Context `{Redis, !RedisHash, !RedisZset, Random, !RandomLaws _, Config, Crypto, Zod, Network, !StorageProvider, !Scanner,
  !RazorpaySdk, Saml, Google, FullText, !TypesenseClient, !SearchBreaker, !BreakerLaws _, IpAddr, Mailer, RRule, Express,
  !ForeignServices, !BullMQ, !BullLaws _}.
Context (keyStore : gmap string string) (allowlist : option string) (jwt_text : jwt_token → string).
Context (test_env exec_rejects typesense initialized : bool).
Context (JSON_parse : string → option json) (razorpay_signature : Request → option string).
Context (drops : nat → nat → bool) (batchSize : nat).
Context (local_minutes : Z → Z) (emailProvider : string) (privileged virusScanEnabled : bool).

#[local] Notation step := (step keyStore allowlist jwt_text test_env exec_rejects typesense initialized JSON_parse
  razorpay_signature drops batchSize local_minutes emailProvider privileged virusScanEnabled).

(** C2: over every run of the whole system - requests to any route, the poller,
    the workers, in any order, whether they succeed or fail - the dependencies
    of an organization stay acyclic, tasks stay well nested, a session keeps at
    most one live token, the messages of a channel stay in order, and the status
    of an organization follows its edges. *)
Theorem system_invariants s s' :
  rtc step s s' →
  let w := sys_world s in
  let w' := sys_world s' in
  (∀ orgId, DependencyService.acyclic orgId (task_dependencies (db w)) →
     DependencyService.acyclic orgId (task_dependencies (db w'))) ∧
  (task_inv w → task_inv w') ∧
  (sessions (draws w) (refresh_tokens (db w)) → sessions (draws w') (refresh_tokens (db w'))) ∧
  (chat_ok (db w) (draws w) → chat_ok (db w') (draws w')) ∧
  (orgs_ok (draws w) (organizations (db w)) →
     orgs_ok (draws w') (organizations (db w')) ∧ evolves (organizations (db w)) (organizations (db w'))).
Proof.
  intros Hrun w w'. split_and!.
  - intros orgId. pose proof (dependencies_invariant orgId). change (dependencies_ok orgId w → dependencies_ok orgId w'). by eapply (run_kept (dependencies_ok orgId)).
  - pose proof tasks_invariant. by eapply (run_kept task_inv).
  - pose proof sessions_kept. change (tracked sessions w → tracked sessions w'). by eapply (run_kept (tracked sessions)).
  - pose proof chat_kept. change (chat_inv w → chat_inv w'). by eapply (run_kept chat_inv).
  - intros Hok. pose proof (organizations_kept (organizations (db w))).
    change (tracked (machine (organizations (db w))) w'). eapply (run_kept (tracked (machine (organizations (db w))))); [exact Hrun|]. split; [exact Hok|apply evolves_refl].
Qed.
End theorems.
End SystemProperties.

Module InvariantExamples.
Import Concrete.

#[local] Existing Instances ConcreteZod.zod ConcreteZod.zod_laws WebhookExamples.small_network FileExamples.storage
  FileExamples.scanner PaymentExamples.sdk SignInExamples.small_saml SearchExamples.full_text SearchExamples.client
  SearchExamples.open_breaker SearchExamples.open_breaker_laws OrgAccessExamples.no_ips ApiExamples.google
  ApiExamples.express NotificationExamples.small_mailer CollaborationExamples.daily SystemExamples.bullmq
  SystemExamples.bull_laws SystemExamples.foreign_services.

#[local] Notation example_step := (step ∅ None ApiExamples.token_text true false false false (λ _, None) (λ _, None) (λ _ _, false) 10
  (λ _, 0%Z) "smtp" true true).
#[local] Notation start := (mkSystem _ SystemExamples.founded [] []).

Lemma founded_tables :
  tasks (db SystemExamples.founded) = [] ∧ refresh_tokens (db SystemExamples.founded) = [] ∧
  chat_messages (db SystemExamples.founded) = [] ∧ channel_members (db SystemExamples.founded) = [].
Proof. split_and!; vm_compute; reflexivity. Qed.

Lemma founded_orgs :
  (λ o, (o_id o, o_status o, o_deleted_at o)) <$> organizations (db SystemExamples.founded) =
    [("uuid-0"%string, OrgActive, None)].
Proof. vm_compute. reflexivity. Qed.

Lemma founded_draws : 0 < draws SystemExamples.founded.
Proof. vm_compute. lia. Qed.

Lemma orgs_ok_one n l :
  (λ o, (o_id o, o_status o, o_deleted_at o)) <$> l = [("uuid-0"%string, OrgActive, None)] → 0 < n → orgs_ok n l.
Proof.
  intros E Hd. destruct l as [|o [|o2 l]]; try discriminate E. injection E as Ei Es Ed. split; cbn.
  - apply NoDup_singleton.
  - intros o' ->%list_elem_of_singleton. exists 0. by rewrite Ei.
  - intros o' ->%list_elem_of_singleton. rewrite Es, Ed. by split.
Qed.

(** What holds of tables without rows. *)
Lemma task_inv_nil w : tasks (db w) = [] → task_inv w.
Proof. intros E. split; rewrite E; [constructor|by intros r n ?%elem_of_nil|by intros r ?%elem_of_nil]. Qed.
Lemma sessions_nil n : sessions n [].
Proof. split; [constructor..|by intros r k ?%elem_of_nil|by intros r r' ?%elem_of_nil]. Qed.
Lemma chat_ok_nil d n : chat_messages d = [] → channel_members d = [] → chat_ok d n.
Proof.
  intros Em Ec. split; rewrite ?Em, ?Ec; [intros c; constructor|by intros m v ?%elem_of_nil|constructor|
    by intros m p ?%elem_of_nil|constructor|constructor].
Qed.

Lemma system_invariants_witness :
  ∃ w, rtc example_step start (mkSystem _ w [mkWaiting SystemExamples.erasure 0] []) ∧
    task_inv w ∧ sessions (draws w) (refresh_tokens (db w)) ∧ chat_ok (db w) (draws w) ∧
    orgs_ok (draws w) (organizations (db w)).
Proof.
  destruct SystemExamples.erasure_requested as [w Hrun]. exists w. split; [exact Hrun|].
  destruct (SystemProperties.system_invariants ∅ None ApiExamples.token_text true false false false (λ _, None) (λ _, None) (λ _ _, false) 10
    (λ _, 0%Z) "smtp" true true _ _ Hrun) as (_ & Ht & Hs & Hc & Ho). cbn [sys_world] in Ht, Hs, Hc, Ho.
  destruct founded_tables as (Et & Er & Em & Ec). split_and!.
  - exact (Ht (task_inv_nil _ Et)).
  - apply Hs. rewrite Er. exact (sessions_nil _).
  - exact (Hc (chat_ok_nil _ _ Em Ec)).
  - exact (proj1 (Ho (orgs_ok_one _ _ founded_orgs founded_draws))).
Defined.
End InvariantExamples.
