(* ===== verification/Configuration.v ===== *)
(** * Configuration: the settings a process reads from its environment

    [shared/config.ts]: the variables of the environment, the zod schema that
    checks them, and the guard on [CORS_ORIGINS].  A field of the schema is a
    function of the variable, and the schema collects the fields it refuses.
    What the services assume of their configuration ([Crypto.ConfigLaws]) holds
    of every configuration with which a process starts. *)
From S2P Require Import Prelude World Crypto Concrete OrgAccess Webhooks TenantRoutes.
From Stdlib Require Import ZArith Lia Ascii.
From stdpp Require Import base tactics strings list.

(** ** Fields of a schema *)

(** What a validator makes of a variable that may be undefined: nothing when it
    reports an issue. *)
Definition Field (A : Type) : Type := option string → option A.

(** [z.string()]. *)
Definition text : Field string := λ v, v.

(** A refinement of a field: [.min(n)], [.regex(r)], [.positive()]. *)
Definition refine {A} (P : A → bool) (f : Field A) : Field A := λ v,
  match f v with Some a => if P a then Some a else None | None => None end.

Definition min (n : nat) (s : string) : bool := Nat.leb n (String.length s).

(** [/^[0-9a-f]{64}$/i]. *)
Definition hex64 (s : string) : bool :=
  Nat.eqb (String.length s) 64 && forallb is_hex (String.list_ascii_of_string s).

(** [z.enum([..])]: the texts it accepts and what they stand for. *)
Definition enum {A} (l : list (string * A)) : Field A := λ v,
  match v with Some s => snd <$> List.find (λ x, String.eqb x.1 s) l | None => None end.

(** [z.coerce.boolean()]: [Boolean(v)]. *)
Definition coerce_boolean : Field bool := λ v, Some (otruthy v).

(** [.optional()] and [.default(d)]. *)
Definition optional_field {A} (f : Field A) : Field (option A) := λ v,
  match v with Some _ => Some <$> f v | None => Some None end.
Definition default_field {A} (d : A) (f : Field A) : Field A := λ v,
  match v with Some _ => f v | None => Some d end.

(** [v || undefined]. *)
Definition non_empty (v : option string) : option string := if otruthy v then v else None.

Inductive NodeEnv := Development | Production | TestEnv | Staging.
Inductive StorageName := LocalStorage | S3Storage.
Inductive EmailName := Ses | Sendgrid | Smtp.
Inductive SearchName := PostgresSearch | TypesenseSearch.

#[export] Instance NodeEnv_eq_dec : EqDecision NodeEnv.
Proof. solve_decision. Defined.

Definition node_envs : list (string * NodeEnv) :=
  [("development", Development); ("production", Production); ("test", TestEnv); ("staging", Staging)]%string.
Definition storage_names : list (string * StorageName) := [("local", LocalStorage); ("s3", S3Storage)]%string.
Definition email_names : list (string * EmailName) := [("ses", Ses); ("sendgrid", Sendgrid); ("smtp", Smtp)]%string.
Definition search_names : list (string * SearchName) :=
  [("postgres", PostgresSearch); ("typesense", TypesenseSearch)]%string.

(** ** The settings *)

Record Settings := mkSettings {
  cf_databaseUrl : string;
  cf_databaseReplicaUrl : option string;
  cf_redisUrl : string;
  cf_redisSentinelHosts : option string;
  cf_redisPassword : option string;
  cf_jwtPrivateKey : string;
  cf_jwtPublicKey : string;
  cf_jwtAccessTokenTtl : Z;
  cf_encryptionKey : string;
  cf_inviteSecret : string;
  cf_metricsToken : string;
  cf_port : Z;
  cf_nodeEnv : NodeEnv;
  cf_logLevel : string;
  cf_corsOrigins : string;
  cf_storageProvider : StorageName;
  cf_awsRegion : option string;
  cf_awsS3Bucket : option string;
  cf_awsS3Endpoint : option string;
  cf_razorpayKeyId : string;
  cf_razorpayKeySecret : string;
  cf_razorpayWebhookSecret : string;
  cf_emailProvider : EmailName;
  cf_awsSesRegion : option string;
  cf_awsSesFromEmail : option string;
  cf_sendgridApiKey : option string;
  cf_smtpHost : string;
  cf_smtpPort : Z;
  cf_smtpSecure : bool;
  cf_smtpUser : option string;
  cf_smtpPass : option string;
  cf_smtpFromEmail : string;
  cf_searchProvider : SearchName;
  cf_typesenseUrl : option string;
  cf_typesenseApiKey : option string;
  cf_platformAdminIpAllowlist : option string;
  cf_platformAdminTrustedProxy : string;
  cf_clamavHost : string;
  cf_clamavPort : Z;
  cf_virusScanEnabled : bool;
  cf_otlpEndpoint : option string;
  cf_outboxPollBatchSize : Z;
  cf_testDatabaseUrl : option string;
  cf_loadtestOrgId : option string;
  cf_loadtestUserPrefix : string;
  cf_livekitUrl : option string;
  cf_livekitApiKey : option string;
  cf_livekitApiSecret : option string;
  cf_vapidPublicKey : string;
  cf_vapidPrivateKey : string;
  cf_vapidContact : string
}.

(** ** Schemas that collect their issues *)

(** The object a schema reads, by the names of its fields, and what the schema
    makes of it: the fields with an issue, or a value. *)
Definition Raw : Type := string → option string.
Definition Schema (A : Type) : Type := Raw → list string + A.

Definition pure {A} (a : A) : Schema A := λ _, inr a.

Definition field {A} (name : string) (f : Field A) : Schema A := λ raw,
  match f (raw name) with Some a => inr a | None => inl [name] end.

Definition apply_schema {A B} (p : Schema (A → B)) (q : Schema A) : Schema B := λ raw,
  match p raw, q raw with
  | inr f, inr a => inr (f a)
  | inl l, inl l' => inl (l ++ l')
  | inl l, inr _ => inl l
  | inr _, inl l' => inl l'
  end.

#[local] Notation "p <*> q" := (apply_schema p q) (at level 42, left associativity).

(** The schema reports the field. *)
Definition reports {A} (name : string) (p : Schema A) (raw : Raw) : Prop := ∃ l, p raw = inl l ∧ name ∈ l.

Section schemas.
Context {A B : Type}.
Implicit Types (p : Schema (A → B)) (q : Schema A) (raw : Raw).

Lemma apply_inr p q raw b : apply_schema p q raw = inr b → ∃ f a, p raw = inr f ∧ q raw = inr a ∧ b = f a.
Proof. unfold apply_schema. destruct (p raw), (q raw); intros [=]; subst. by eexists _, _. Qed.

Lemma field_inr (f : Field A) name raw a : field name f raw = inr a → f (raw name) = Some a.
Proof. unfold field. destruct (f (raw name)); naive_solver. Qed.

Lemma field_reports (f : Field A) name raw : f (raw name) = None → reports name (field name f) raw.
Proof. intros E. unfold reports, field. rewrite E. exists [name]. split; [done|]. by apply list_elem_of_singleton. Qed.

Lemma reports_left name p q raw : reports name p raw → reports name (apply_schema p q) raw.
Proof.
  intros (l & E & Hl). unfold reports, apply_schema. rewrite E.
  destruct (q raw); eexists; (split; [reflexivity|]); [|done]. apply elem_of_app. by left.
Qed.

Lemma reports_right name p q raw : reports name q raw → reports name (apply_schema p q) raw.
Proof.
  intros (l & E & Hl). unfold reports, apply_schema. rewrite E.
  destruct (p raw); eexists; (split; [reflexivity|]); [|done]. apply elem_of_app. by right.
Qed.
End schemas.

Lemma refine_Some {A} (P : A → bool) f v a : refine P f v = Some a → f v = Some a ∧ P a = true.
Proof. unfold refine. repeat case_match; naive_solver. Qed.

Lemma default_Some {A} (d : A) f v a : default_field d f v = Some a → a = d ∨ f v = Some a.
Proof. unfold default_field. destruct v; naive_solver. Qed.

(** ** The schema of the program *)

Section configuration.
Context `{Network, Crypto}.

(** The integer that [Number(s)] is, if it is one. *)
Context (Number : string → option Z).

(** [z.coerce.number().int().positive()]. *)
Definition positive_int : Field Z :=
  refine (λ n, (0 <? n)%Z) (λ v, match v with Some s => Number s | None => None end).

(** [z.string().url().optional().or(z.literal('')).transform(v => v || undefined)]. *)
Definition url_field : Field (option string) := λ v,
  match v with
  | None => Some None
  | Some s =>
      match url_parse s with
      | Some _ => Some (non_empty v)
      | None => if String.eqb s "" then Some None else None
      end
  end.

Definition schema : Schema Settings :=
  pure mkSettings
  <*> field "databaseUrl" (refine (min 1) text)
  <*> field "databaseReplicaUrl" (optional_field text)
  <*> field "redisUrl" (default_field "redis://localhost:6379"%string text)
  <*> field "redisSentinelHosts" (optional_field text)
  <*> field "redisPassword" (optional_field text)
  <*> field "jwtPrivateKey" (refine (min 1) text)
  <*> field "jwtPublicKey" (refine (min 1) text)
  <*> field "jwtAccessTokenTtl" (default_field 900%Z positive_int)
  <*> field "encryptionKey" (refine hex64 text)
  <*> field "inviteSecret" (refine (min 32) text)
  <*> field "metricsToken" (refine (min 16) text)
  <*> field "port" (default_field 3000%Z positive_int)
  <*> field "nodeEnv" (default_field Development (enum node_envs))
  <*> field "logLevel" (default_field "info"%string text)
  <*> field "corsOrigins" (default_field "http://localhost:3000"%string text)
  <*> field "storageProvider" (default_field LocalStorage (enum storage_names))
  <*> field "awsRegion" (optional_field text)
  <*> field "awsS3Bucket" (optional_field text)
  <*> field "awsS3Endpoint" url_field
  <*> field "razorpayKeyId" (refine (min 1) text)
  <*> field "razorpayKeySecret" (refine (min 1) text)
  <*> field "razorpayWebhookSecret" (refine (min 1) text)
  <*> field "emailProvider" (default_field Sendgrid (enum email_names))
  <*> field "awsSesRegion" (optional_field text)
  <*> field "awsSesFromEmail" (optional_field text)
  <*> field "sendgridApiKey" (optional_field text)
  <*> field "smtpHost" (default_field "localhost"%string text)
  <*> field "smtpPort" (default_field 1025%Z positive_int)
  <*> field "smtpSecure" (default_field false coerce_boolean)
  <*> field "smtpUser" (optional_field text)
  <*> field "smtpPass" (optional_field text)
  <*> field "smtpFromEmail" (default_field "dev@localhost"%string text)
  <*> field "searchProvider" (default_field PostgresSearch (enum search_names))
  <*> field "typesenseUrl" url_field
  <*> field "typesenseApiKey" (optional_field text)
  <*> field "platformAdminIpAllowlist" (optional_field text)
  <*> field "platformAdminTrustedProxy" (default_field "loopback"%string text)
  <*> field "clamavHost" (default_field "clamav"%string text)
  <*> field "clamavPort" (default_field 3310%Z positive_int)
  <*> field "virusScanEnabled" (default_field false coerce_boolean)
  <*> field "otlpEndpoint" url_field
  <*> field "outboxPollBatchSize" (default_field 100%Z positive_int)
  <*> field "testDatabaseUrl" (optional_field text)
  <*> field "loadtestOrgId" (optional_field text)
  <*> field "loadtestUserPrefix" (default_field "loadtest_user_"%string text)
  <*> field "livekitUrl" (optional_field text)
  <*> field "livekitApiKey" (optional_field text)
  <*> field "livekitApiSecret" (optional_field text)
  <*> field "vapidPublicKey" (default_field ""%string text)
  <*> field "vapidPrivateKey" (default_field ""%string text)
  <*> field "vapidContact" (default_field "mailto:admin@example.com"%string text).

(** ** The variables *)

(** [s.replace(/\\n/g, '\n')]: a backslash and an n become a line feed. *)
Fixpoint unescape_newlines (s : string) : string :=
  match s with
  | String "\"%char (String "n"%char s) => String (ascii_of_nat 10) (unescape_newlines s)
  | String c s => String c (unescape_newlines s)
  | EmptyString => EmptyString
  end.

(** A key given in base 64, or else with its line feeds escaped. *)
Definition pem (encoded plain : option string) : option string :=
  match non_empty encoded with
  | Some e => Some (unbase64 e)
  | None => unescape_newlines <$> plain
  end.

(** The variable of each field. *)
Definition variables : list (string * string) :=
  [("databaseUrl", "DATABASE_URL"); ("databaseReplicaUrl", "DATABASE_REPLICA_URL"); ("redisUrl", "REDIS_URL");
   ("redisSentinelHosts", "REDIS_SENTINEL_HOSTS"); ("redisPassword", "REDIS_PASSWORD");
   ("jwtAccessTokenTtl", "JWT_ACCESS_TOKEN_TTL"); ("encryptionKey", "ENCRYPTION_KEY");
   ("inviteSecret", "INVITE_SECRET"); ("metricsToken", "METRICS_TOKEN"); ("port", "PORT"); ("nodeEnv", "NODE_ENV");
   ("logLevel", "LOG_LEVEL"); ("corsOrigins", "CORS_ORIGINS"); ("storageProvider", "STORAGE_PROVIDER");
   ("awsRegion", "AWS_REGION"); ("awsS3Bucket", "AWS_S3_BUCKET"); ("awsS3Endpoint", "AWS_S3_ENDPOINT");
   ("razorpayKeyId", "RAZORPAY_KEY_ID"); ("razorpayKeySecret", "RAZORPAY_KEY_SECRET");
   ("razorpayWebhookSecret", "RAZORPAY_WEBHOOK_SECRET"); ("emailProvider", "EMAIL_PROVIDER");
   ("awsSesRegion", "AWS_SES_REGION"); ("awsSesFromEmail", "AWS_SES_FROM_EMAIL");
   ("sendgridApiKey", "SENDGRID_API_KEY"); ("smtpHost", "SMTP_HOST"); ("smtpPort", "SMTP_PORT");
   ("smtpSecure", "SMTP_SECURE"); ("smtpUser", "SMTP_USER"); ("smtpPass", "SMTP_PASS");
   ("smtpFromEmail", "SMTP_FROM_EMAIL"); ("searchProvider", "SEARCH_PROVIDER"); ("typesenseUrl", "TYPESENSE_URL");
   ("typesenseApiKey", "TYPESENSE_API_KEY"); ("platformAdminIpAllowlist", "PLATFORM_ADMIN_IP_ALLOWLIST");
   ("platformAdminTrustedProxy", "PLATFORM_ADMIN_TRUSTED_PROXY"); ("clamavHost", "CLAMAV_HOST");
   ("clamavPort", "CLAMAV_PORT"); ("virusScanEnabled", "VIRUS_SCAN_ENABLED");
   ("otlpEndpoint", "OTEL_EXPORTER_OTLP_ENDPOINT"); ("outboxPollBatchSize", "OUTBOX_POLL_BATCH_SIZE");
   ("testDatabaseUrl", "TEST_DATABASE_URL"); ("loadtestOrgId", "LOADTEST_ORG_ID");
   ("loadtestUserPrefix", "LOADTEST_USER_PREFIX"); ("livekitUrl", "LIVEKIT_URL");
   ("livekitApiKey", "LIVEKIT_API_KEY"); ("livekitApiSecret", "LIVEKIT_API_SECRET");
   ("vapidPublicKey", "VAPID_PUBLIC_KEY"); ("vapidPrivateKey", "VAPID_PRIVATE_KEY");
   ("vapidContact", "VAPID_CONTACT")]%string.

(** The argument of [schema.safeParse]. *)
Definition raw (env : string → option string) : Raw := λ name,
  if String.eqb name "jwtPrivateKey" then pem (env "JWT_PRIVATE_KEY_BASE64"%string) (env "JWT_PRIVATE_KEY"%string)
  else if String.eqb name "jwtPublicKey" then pem (env "JWT_PUBLIC_KEY_BASE64"%string) (env "JWT_PUBLIC_KEY"%string)
  else
    let v := match List.find (λ x, String.eqb x.1 name) variables with Some x => env x.2 | None => None end in
    if includes ["awsS3Endpoint"; "typesenseUrl"; "typesenseApiKey"]%string name then non_empty v else v.

(** How the start of a process ends: it exits with the fields it reports, it
    exits because of the wildcard, or it has its settings. *)
Inductive Start :=
  | InvalidConfig (issues : list string)
  | WildcardCors
  | Loaded (s : Settings).

Definition load (env : string → option string) : Start :=
  match schema (raw env) with
  | inl issues => InvalidConfig issues
  | inr s =>
      if bool_decide (cf_nodeEnv s = Production) && String.eqb (cf_corsOrigins s) "*" then WildcardCors else Loaded s
  end.

(** What the services read of the settings. *)
Definition settings_config (s : Settings) : Config := {|
  jwtPrivateKey := cf_jwtPrivateKey s; jwtPublicKey := cf_jwtPublicKey s;
  jwtAccessTokenTtl := cf_jwtAccessTokenTtl s; encryptionKey := cf_encryptionKey s; inviteSecret := cf_inviteSecret s;
  razorpayKeySecret := cf_razorpayKeySecret s; razorpayWebhookSecret := cf_razorpayWebhookSecret s |}.

(** ** What a loaded configuration is *)

Record sound (s : Settings) : Prop := mkSound {
  so_keys : Forall (λ k, truthy k) [cf_databaseUrl s; cf_jwtPrivateKey s; cf_jwtPublicKey s; cf_razorpayKeyId s;
    cf_razorpayKeySecret s; cf_razorpayWebhookSecret s];
  so_encryption : String.length (cf_encryptionKey s) = 64;
  so_encryption_hex : Forall (λ c, is_hex c) (String.list_ascii_of_string (cf_encryptionKey s));
  so_invite : 32 ≤ String.length (cf_inviteSecret s);
  so_metrics : 16 ≤ String.length (cf_metricsToken s);
  so_numbers : Forall (λ n, (0 < n)%Z) [cf_jwtAccessTokenTtl s; cf_port s; cf_smtpPort s; cf_clamavPort s;
    cf_outboxPollBatchSize s];
  so_cors : cf_nodeEnv s = Production → cf_corsOrigins s ≠ "*"%string
}.

Lemma min_text n v s : refine (min n) text v = Some s → n ≤ String.length s.
Proof. intros [_ Hn]%refine_Some. by apply Nat.leb_le. Qed.

Lemma min_truthy v s : refine (min 1) text v = Some s → truthy s.
Proof. intros Hn%min_text. by destruct s; [cbn in Hn; lia|]. Qed.

Lemma positive_default d v n : (0 < d)%Z → default_field d positive_int v = Some n → (0 < n)%Z.
Proof. intros Hd [->|[_ Hn%Z.ltb_lt]%refine_Some]%default_Some; done. Qed.

Lemma hex64_text v s :
  refine hex64 text v = Some s → String.length s = 64 ∧ Forall (λ c, is_hex c) (String.list_ascii_of_string s).
Proof.
  intros [_ [Hl%Nat.eqb_eq Hx]%andb_true_iff]%refine_Some. split; [done|]. apply Forall_forall.
  intros c Hc. rewrite forallb_forall in Hx. apply Is_true_true, Hx. by apply list_elem_of_In.
Qed.

(** Each component of the settings is what its field made of its variable. *)
Ltac fields :=
  repeat match goal with
  | Hs : apply_schema _ _ _ = inr _ |- _ => apply apply_inr in Hs as (? & ? & Hs & ?%field_inr & ->)
  end.

(** A process that starts has its keys, an encryption key of 256 bits, secrets
    of the lengths the schema asks for, positive numbers, and no wildcard
    origin in production. *)
Theorem loaded_sound env s : load env = Loaded s → sound s.
Proof.
  unfold load. destruct (schema (raw env)) as [|s'] eqn:Hs; [done|]. destruct (_ && _) eqn:Hc; [done|]. intros [= ->].
  unfold schema in Hs. fields. injection Hs as <-. split; cbn.
  - repeat constructor; eapply min_truthy; eassumption.
  - eapply proj1, hex64_text; eassumption.
  - eapply proj2, hex64_text; eassumption.
  - eapply min_text; eassumption.
  - eapply min_text; eassumption.
  - repeat constructor; (eapply positive_default; [|eassumption]; lia).
  - intros -> ->. discriminate Hc.
Qed.

(** What [Crypto] and [Session] assume of the configuration. *)
Theorem loaded_config_laws env s : load env = Loaded s → ConfigLaws (settings_config s).
Proof. intros Hs%loaded_sound. constructor. cbn. by apply (Forall_inv (so_numbers _ Hs)). Qed.

(** A setting without a default whose variable is missing is among the issues
    with which the process exits. *)
Theorem missing_reported env name :
  raw env name = None →
  name ∈ ["databaseUrl"; "jwtPrivateKey"; "jwtPublicKey"; "encryptionKey"; "inviteSecret"; "metricsToken";
    "razorpayKeyId"; "razorpayKeySecret"; "razorpayWebhookSecret"]%string →
  ∃ issues, load env = InvalidConfig issues ∧ name ∈ issues.
Proof.
  intros Hnone Hname. enough (reports name schema (raw env)) as (l & E & Hl) by (exists l; unfold load; by rewrite E).
  unfold schema. repeat (apply elem_of_cons in Hname as [->|Hname]); [..|by apply elem_of_nil in Hname].
  all: repeat first [apply reports_right, field_reports; rewrite Hnone; reflexivity|apply reports_left].
Qed.
End configuration.

(** ** Examples *)

Module ConfigurationExamples.
Import Concrete.

(** [.env.example], as far as it matters. *)
Definition example_env (name : string) : option string :=
  snd <$> List.find (λ x, String.eqb x.1 name)
    [("DATABASE_URL", "postgres://db"); ("JWT_PRIVATE_KEY", "k\n"); ("JWT_PUBLIC_KEY", "p");
     ("ENCRYPTION_KEY", "0123456789abcdef0123456789abcdef0123456789abcdef0123456789ABCDEF");
     ("INVITE_SECRET", "0123456789abcdef0123456789abcdef"); ("METRICS_TOKEN", "0123456789abcdef");
     ("RAZORPAY_KEY_ID", "rzp"); ("RAZORPAY_KEY_SECRET", "s"); ("RAZORPAY_WEBHOOK_SECRET", "w");
     ("PORT", "8080"); ("NODE_ENV", "production"); ("STORAGE_PROVIDER", "s3"); ("SMTP_SECURE", "false");
     ("VIRUS_SCAN_ENABLED", "false"); ("TYPESENSE_URL", "")]%string.

Definition with_var (name : string) (v : option string) (env : string → option string) : string → option string :=
  λ name', if String.eqb name' name then v else env name'.

(** A parser of URLs that knows one. *)
#[local] Instance one_url : Network := {|
  url_parse s := if String.eqb s "http://minio:9000" then Some (mkUrl "http:" "minio" "/" "") else None;
  dns_lookup _ _ := None; ip_range _ := None; http_exchange _ _ := ([], None) |}.

#[local] Notation start := (load PaymentRouter.js_Number).

(** The settings of an environment that loads. *)
Definition settings (env : string → option string) : option Settings :=
  match start env with Loaded s => Some s | _ => None end.

Example loads :
  (λ s, (cf_port s, cf_jwtAccessTokenTtl s, cf_nodeEnv s, cf_corsOrigins s)) <$> settings example_env =
  Some (8080%Z, 900%Z, Production, "http://localhost:3000"%string).
Proof. vm_compute. reflexivity. Qed.

Example two_issues :
  start (with_var "INVITE_SECRET" (Some "short"%string) (with_var "PORT" (Some "0"%string) example_env)) =
  InvalidConfig ["inviteSecret"; "port"]%string.
Proof. vm_compute. reflexivity. Qed.

Example wildcard : start (with_var "CORS_ORIGINS" (Some "*"%string) example_env) = WildcardCors.
Proof. vm_compute. reflexivity. Qed.

(** [z.coerce.boolean()] is [Boolean(v)], which is true of the text ["false"]:
    the values of [.env.example] switch the scanner and the TLS of SMTP on. *)
Example false_is_true : (λ s, (cf_virusScanEnabled s, cf_smtpSecure s)) <$> settings example_env = Some (true, true).
Proof. vm_compute. reflexivity. Qed.

(** The provider [s3] needs no bucket to start. *)
Example s3_without_bucket : (λ s, (cf_storageProvider s, cf_awsS3Bucket s)) <$> settings example_env = Some (S3Storage, None).
Proof. vm_compute. reflexivity. Qed.
End ConfigurationExamples.
