(* ===== verification/Process.v ===== *)
(** * Process: what the processes do around the application

    The sanitiser of the logs and the metrics of [shared/observability]; the
    endpoints of [app.ts] outside [/api/v1], which read the process and not
    the tenants; the start of the server and the orderly end of the server and
    of the workers.  Metrics are a registry of their own, which no operation
    of the program reads back; the clock of a shutdown is in milliseconds. *)
From S2P Require Import Prelude Schema World Zod Crypto Concrete Session Http OrgAccess Payments Files Outbox Webhooks SignIn Search Notifications Collaboration TenantRoutes Api Configuration.
From Stdlib Require Import ZArith Lia Ascii.
From stdpp Require Import base tactics strings gmap list pretty.

(** ** Sanitised logs *)

Module LogSanitiser.

Definition SENSITIVE_KEYS : list string :=
  ["password"; "password_hash"; "token"; "access_token"; "refresh_token"; "secret"; "totp_secret";
   "totp_secret_encrypted"; "backup_codes"; "mfa_backup_codes"; "api_key"; "webhook_secret"; "encryption_key"]%string.

(** [A-Za-z0-9_-], and a text of such characters that is not empty. *)
Definition is_base64url (c : ascii) : bool :=
  let n := nat_of_ascii c in
  (Nat.leb 65 n && Nat.leb n 90) || (Nat.leb 97 n && Nat.leb n 122) || (Nat.leb 48 n && Nat.leb n 57)
  || Nat.eqb n 95 || Nat.eqb n 45.
Definition segment (s : string) : bool := truthy s && forallb is_base64url (String.list_ascii_of_string s).

(** [JWT_PATTERN.test(s)]: no segment has a dot in it. *)
Definition JWT_PATTERN (s : string) : bool :=
  match split_on "." s with
  | [String "e" (String "y" header); payload; signature] => segment header && segment payload && segment signature
  | _ => false
  end.

(** [SENSITIVE_KEYS.has(key.toLowerCase())]. *)
Definition sensitive (key : string) : bool := includes SENSITIVE_KEYS (toLowerCase key).
#[local] Arguments sensitive : simpl never.
#[local] Arguments JWT_PATTERN : simpl never.

Fixpoint sanitiseLogData (obj : json) : json :=
  match obj with
  | JStr s => JStr (if JWT_PATTERN s then "[REDACTED_JWT]" else s)
  | JArr l => JArr (List.map sanitiseLogData l)
  | JObj fs =>
      JObj (List.map (λ '(key, value), (key, if sensitive key then JStr "[REDACTED]" else sanitiseLogData value)) fs)
  | _ => obj
  end.

(** The truth value of a JSON value. *)
Definition jtruthy (j : json) : bool :=
  match j with
  | JNull => false
  | JBool b => b
  | JNum n => negb (n =? 0)%Z
  | JStr s => truthy s
  | _ => true
  end.

(** [{ ...obj, key: v }]. *)
Fixpoint set_field (key : string) (v : json) (fs : list (string * json)) : list (string * json) :=
  match fs with
  | [] => [(key, v)]
  | (k, x) :: fs => if String.eqb k key then (k, v) :: fs else (k, x) :: set_field key v fs
  end.

Definition fields_of (j : option json) : list (string * json) :=
  match j with Some (JObj fs) => fs | _ => [] end.

(** The serializer of requests, on the fields of a request. *)
Definition sanitiseReq (req : list (string * json)) : list (string * json) :=
  let headers := fields_of (jfield "headers" req) in
  let headers :=
    match jfield "authorization" headers with
    | Some a => if jtruthy a then set_field "authorization" (JStr "[REDACTED]") headers else headers
    | None => headers
    end in
  set_field "headers" (JObj headers) req.

(** Nothing secret is left: no token anywhere, and at a sensitive key only the
    mark. *)
Fixpoint clean (j : json) : bool :=
  match j with
  | JStr s => negb (JWT_PATTERN s)
  | JArr l => forallb clean l
  | JObj fs =>
      forallb (λ '(key, value),
        if sensitive key then match value with JStr s => String.eqb s "[REDACTED]" | _ => false end else clean value) fs
  | _ => true
  end.

(** Induction on the values within a value. *)
Section induction.
Context (P : json → Prop).
Context (Pleaf : ∀ j, (match j with JArr _ | JObj _ => False | _ => True end) → P j).
Context (Parr : ∀ l, Forall P l → P (JArr l)) (Pobj : ∀ fs, Forall (λ f, P f.2) fs → P (JObj fs)).

Fixpoint json_nested (j : json) : P j :=
  match j with
  | JNull => Pleaf JNull I
  | JBool b => Pleaf (JBool b) I
  | JNum n => Pleaf (JNum n) I
  | JStr s => Pleaf (JStr s) I
  | JArr l => Parr l ((fix go l : Forall P l :=
      match l with [] => Forall_nil_2 P | j :: l => Forall_cons_2 P j l (json_nested j) (go l) end) l)
  | JObj fs => Pobj fs ((fix go fs : Forall (λ f : string * json, P f.2) fs :=
      match fs with
      | [] => Forall_nil_2 (λ f : string * json, P f.2)
      | f :: fs => Forall_cons_2 (λ f : string * json, P f.2) f fs (json_nested f.2) (go fs)
      end) fs)
  end.
End induction.

Lemma sanitised_clean j : clean (sanitiseLogData j) = true.
Proof.
  induction j as [j Hj|l IH|fs IH] using json_nested.
  - destruct j as [| | |s| |]; try done. cbn. destruct (JWT_PATTERN s) eqn:E; [reflexivity|cbn; by rewrite E].
  - cbn. induction IH as [|j l Hj Hl IHl]; cbn; [done|by rewrite Hj].
  - cbn. induction IH as [|[key v] fs Hv Hfs IHfs]; cbn; [done|]. rewrite IHfs, andb_true_r.
    destruct (sensitive key); [reflexivity|exact Hv].
Qed.

Lemma clean_unchanged j : clean j = true → sanitiseLogData j = j.
Proof.
  induction j as [j Hj|l IH|fs IH] using json_nested; cbn.
  - destruct j as [| | |s| |]; try done. cbn. intros E%negb_true_iff. by rewrite E.
  - intros Hc. f_equal. induction IH as [|j l Hj Hl IHl]; [done|]. cbn in Hc |- *.
    apply andb_true_iff in Hc as [? ?]. f_equal; auto.
  - intros Hc. f_equal. induction IH as [|[key v] fs Hv Hfs IHfs]; [done|]. cbn in Hc |- *.
    apply andb_true_iff in Hc as [Hk ?]. f_equal; [|auto]. f_equal. destruct (sensitive key); [|auto].
    destruct v; try done. apply String.eqb_eq in Hk. by subst.
Qed.

(** What the sanitiser returns holds no secret, and it leaves exactly the
    values that hold none as they are. *)
Theorem sanitiseLogData_correct j :
  clean (sanitiseLogData j) = true ∧ sanitiseLogData (sanitiseLogData j) = sanitiseLogData j ∧
  (sanitiseLogData j = j ↔ clean j = true).
Proof.
  split_and!; [apply sanitised_clean|apply clean_unchanged, sanitised_clean|].
  split; [intros <-; apply sanitised_clean|apply clean_unchanged].
Qed.

Lemma jfield_set k v fs : jfield k (set_field k v fs) = Some v.
Proof.
  induction fs as [|[k' x] fs IH]; cbn; [by rewrite String.eqb_refl|].
  destruct (String.eqb_spec k' k) as [->|Hne]; cbn; [by rewrite String.eqb_refl|].
  destruct (String.eqb_spec k k'); [congruence|done].
Qed.

Lemma jfield_set_other k k' v fs : k' ≠ k → jfield k' (set_field k v fs) = jfield k' fs.
Proof.
  intros Hne. induction fs as [|[k1 x] fs IH]; cbn; [by destruct (String.eqb_spec k' k)|].
  destruct (String.eqb_spec k1 k) as [->|Hne1]; cbn; [by destruct (String.eqb_spec k' k)|by rewrite IH].
Qed.

(** A request that is logged has at most the mark in its authorization, and its
    other fields and headers. *)
Theorem sanitiseReq_correct req :
  (∀ a, jfield "authorization" (fields_of (jfield "headers" (sanitiseReq req))) = Some a →
     jtruthy a = true → a = JStr "[REDACTED]") ∧
  (∀ name, name ≠ "authorization"%string →
     jfield name (fields_of (jfield "headers" (sanitiseReq req))) = jfield name (fields_of (jfield "headers" req))) ∧
  (∀ name, name ≠ "headers"%string → jfield name (sanitiseReq req) = jfield name req).
Proof.
  unfold sanitiseReq. rewrite jfield_set. cbn [fields_of]. generalize (fields_of (jfield "headers" req)) as headers.
  intros headers. split_and!.
  - intros a. destruct (jfield "authorization" headers) as [a0|] eqn:E; [|congruence].
    destruct (jtruthy a0) eqn:Ht; [rewrite jfield_set; congruence|rewrite E; congruence].
  - intros name Hne. repeat case_match; [by apply jfield_set_other|done..].
  - intros name Hne. by apply jfield_set_other.
Qed.
End LogSanitiser.

(** ** Metrics *)

(** [s.startsWith(prefix)] and [s.slice(prefix.length)]. *)
Fixpoint after_prefix (prefix s : string) : option string :=
  match prefix, s with
  | EmptyString, _ => Some s
  | String a prefix, String b s => if Ascii.eqb a b then after_prefix prefix s else None
  | String _ _, EmptyString => None
  end.

Lemma after_prefix_spec prefix s r : after_prefix prefix s = Some r ↔ s = prefix +:+ r.
Proof.
  revert s. induction prefix as [|a prefix IH]; intros s; cbn; [split; [by intros [= ->]|by intros ->]|].
  destruct s as [|b s]; [done|]. destruct (Ascii.eqb_spec a b) as [->|Hne].
  - rewrite IH. split; [by intros ->|by intros [= ->]].
  - split; [done|]. by intros [= -> ->].
Qed.

Module Metrics.

Definition labels : Type := list (string * string).

(** The gauges, the counters and what the histograms observed, by the name of
    the metric and its labels. *)
Record Registry := mkRegistry {
  mx_gauges : gmap (string * labels) Z;
  mx_counters : gmap (string * labels) nat;
  mx_observed : list (string * labels * Z)
}.
#[export] Instance eta_Registry : Eta Registry := fun x => mkRegistry (mx_gauges x) (mx_counters x) (mx_observed x).

Definition set_gauge (name : string) (l : labels) (v : Z) (x : Registry) : Registry :=
  x <| mx_gauges := <[(name, l) := v]> (mx_gauges x) |>.
#[local] Arguments set_gauge : simpl never.
Lemma gauges_set name l v x : mx_gauges (set_gauge name l v x) = <[(name, l) := v]> (mx_gauges x).
Proof. done. Qed.

Definition inc (name : string) (l : labels) (x : Registry) : Registry :=
  x <| mx_counters := <[(name, l) := S (mx_counters x !! (name, l) ?? 0)]> (mx_counters x) |>.
Definition observe (name : string) (l : labels) (v : Z) (x : Registry) : Registry :=
  x <| mx_observed := mx_observed x ++ [(name, l, v)] |>.

(** The observer of [finish] that [httpMetricsMiddleware] adds to a response:
    [route] is the pattern of the route that served it. *)
Definition httpMetrics (method path : string) (route : option string) (status start finish : Z) (x : Registry) : Registry :=
  let l := [("method", method); ("route", route ?? path); ("status_code", pretty status)]%string in
  inc "http_requests_total" l (observe "http_request_duration_ms" l (finish - start) x).

(** The answer of [metricsAuthMiddleware]; none when it calls [next]. *)
Definition metricsAuthMiddleware (metricsToken : string) (authHeader : option string) : option Response :=
  let unauthorized := mkResponse 401 (JObj [("error", JObj [("code", JStr "UNAUTHORIZED");
    ("message", JStr "Invalid or missing metrics token")])]) in
  match authHeader ≫= after_prefix "Bearer " with
  | Some token => if negb (truthy token) || negb (token =? metricsToken)%string then Some unauthorized else None
  | None => Some unauthorized
  end.

(** A request passes exactly with the token of the configuration. *)
Lemma metricsAuth_passes metricsToken authHeader :
  metricsAuthMiddleware metricsToken authHeader = None ↔
  truthy metricsToken ∧ authHeader = Some ("Bearer " +:+ metricsToken).
Proof.
  unfold metricsAuthMiddleware. destruct authHeader as [h|]; [|naive_solver]. cbn [mbind option_bind].
  destruct (after_prefix "Bearer " h) as [token|] eqn:E.
  - apply after_prefix_spec in E. subst h. destruct (String.eqb_spec token metricsToken) as [->|Hne]; cbn.
    + rewrite orb_false_r. destruct (truthy metricsToken); cbn; naive_solver.
    + rewrite orb_true_r. split; [done|]. intros [_ [= E]]. done.
  - split; [done|]. intros [_ [= ->]].
    assert (after_prefix "Bearer " ("Bearer " +:+ metricsToken) = Some metricsToken) by (by apply after_prefix_spec).
    congruence.
Qed.

Section collection.
Context `{Redis}.

(** The waiting and the failed jobs of a queue, BullMQ's; the connections in
    use of each pool, the replica's if there is one. *)
Context (counts : string → M (Z * Z)) (primary : Z) (replica : option Z).

Definition queue_metrics (name : string) (x : Registry) : M Registry :=
  catch
    (let* c := counts name in
     ret (set_gauge "bullmq_dlq_depth" [("queue", name)] c.2 (set_gauge "bullmq_queue_depth" [("queue", name)] c.1 x))%string)
    (λ _, ret x).

Fixpoint queues_metrics (names : list string) (x : Registry) : M Registry :=
  match names with
  | [] => ret x
  | name :: names => let* x := queue_metrics name x in queues_metrics names x
  end.

Definition is_pending (e : OutboxEventRow) : bool := bool_decide (ob_status e = ObPending).

Definition outbox_metrics (x : Registry) : M Registry :=
  let* pending := select is_pending in
  ret (set_gauge "outbox_pending_events" [] (Z.of_nat (length pending)) x).

Definition pool_metrics (x : Registry) : Registry :=
  let x := set_gauge "db_pool_connections_active" [("pool", "primary")]%string primary x in
  match replica with
  | Some n => set_gauge "db_pool_connections_active" [("pool", "replica")]%string n x
  | None => x
  end.

Definition search_events : list string :=
  ["task.created"; "task.updated"; "task.deleted"; "message.created"; "message.deleted"; "file.confirmed";
   "file.deleted"]%string.

(** [MIN(occurred_at)]. *)
Fixpoint oldest (l : list OutboxEventRow) : option Z :=
  match l with
  | [] => None
  | e :: l => Some (match oldest l with Some t => Z.min (ob_occurred_at e) t | None => ob_occurred_at e end)
  end.

(** The lag is kept in milliseconds. *)
Definition lag_metrics (x : Registry) : M Registry :=
  let* t := now in
  let* l := select (λ e, is_pending e && includes search_events (ob_event_type e)) in
  ret (set_gauge "search_index_lag_seconds" [] (match oldest l with Some t0 => t - t0 | None => 0 end)%Z x).

(** [collectQueueMetrics]: what fails leaves its gauges as they were. *)
Definition collectQueueMetrics (x : Registry) : M Registry :=
  let* x := queues_metrics AdminService.queue_names x in
  let* x := catch (outbox_metrics x) (λ _, ret x) in
  let x := pool_metrics x in
  catch (lag_metrics x) (λ _, ret x).

(** The queues answer, or fail, without an effect on the world. *)
Context (reading : ∀ name w, (counts name w).2 = w).

(** What a gauge of a queue shows: what the queue answered, or what it showed
    before. *)
Definition depth (name : string) (w : World) (x : Registry) : option Z :=
  match (counts name w).1 with
  | Ok c => Some c.1
  | Throw _ => mx_gauges x !! ("bullmq_queue_depth", [("queue", name)])%string
  end.

Lemma queue_metrics_gauge name x w : ∃ x',
  queue_metrics name x w = (Ok x', w) ∧
  mx_gauges x' !! ("bullmq_queue_depth", [("queue", name)])%string = depth name w x ∧
  ∀ other, other ≠ name →
    mx_gauges x' !! ("bullmq_queue_depth", [("queue", other)])%string = mx_gauges x !! ("bullmq_queue_depth", [("queue", other)])%string.
Proof.
  unfold queue_metrics, depth, catch, bind. pose proof (reading name w) as Hr.
  destruct (counts name w) as [[c|e] w']; cbn [fst snd] in *; subst w'; eexists; (split; [reflexivity|]); [|done].
  rewrite !gauges_set. split; [|intros other Hne].
  - rewrite lookup_insert_ne by done. by rewrite lookup_insert_eq.
  - rewrite !lookup_insert_ne by naive_solver. done.
Qed.

Lemma queues_metrics_gauges names x w : NoDup names → ∃ x',
  queues_metrics names x w = (Ok x', w) ∧
  (∀ name, name ∈ names → mx_gauges x' !! ("bullmq_queue_depth", [("queue", name)])%string = depth name w x) ∧
  ∀ other, other ∉ names →
    mx_gauges x' !! ("bullmq_queue_depth", [("queue", other)])%string = mx_gauges x !! ("bullmq_queue_depth", [("queue", other)])%string.
Proof.
  intros Hnd. revert x. induction Hnd as [|name names Hni Hnd IH]; intros x.
  { exists x. split_and!; [done| |done]. intros name Hn. by apply elem_of_nil in Hn. }
  destruct (queue_metrics_gauge name x w) as (x1 & E1 & Hd & Ho). destruct (IH x1) as (x' & E' & Hd' & Ho').
  exists x'. cbn [queues_metrics]. unfold bind at 1. rewrite E1. split; [done|]. split.
  - intros n [->|Hn]%elem_of_cons; [by rewrite Ho'|]. rewrite Hd' by done. unfold depth.
    destruct (counts n w).1; [done|]. apply Ho. by intros ->.
  - intros other [Hne Hno]%not_elem_of_cons. by rewrite Ho', Ho.
Qed.

Lemma oldest_spec l :
  match oldest l with
  | Some t => (∃ e, e ∈ l ∧ ob_occurred_at e = t) ∧ Forall (λ e, (t ≤ ob_occurred_at e)%Z) l
  | None => l = []
  end.
Proof.
  induction l as [|e l IH]; [done|]. cbn. destruct (oldest l) as [t|] eqn:E.
  - destruct IH as [(e0 & He0 & Et) Hall]. split.
    + destruct (Z.min_spec (ob_occurred_at e) t) as [[_ ->]|[_ ->]]; [exists e|exists e0]; split; [|done| |done];
        rewrite ?elem_of_cons; auto.
    + constructor; [lia|]. eapply Forall_impl; [exact Hall|]. cbn. lia.
  - subst l. split; [exists e; split; [by apply list_elem_of_singleton|done]|]. by apply Forall_singleton.
Qed.

(** A collection ends, changes nothing but the registry, and shows the depth of
    every queue that answered, the number of pending events, and for how long
    the oldest pending event of the search index has waited. *)
Theorem collectQueueMetrics_correct x w : ∃ x',
  collectQueueMetrics x w = (Ok x', w) ∧
  (∀ name, name ∈ AdminService.queue_names →
     mx_gauges x' !! ("bullmq_queue_depth", [("queue", name)])%string = depth name w x) ∧
  mx_gauges x' !! ("outbox_pending_events", [])%string =
    Some (Z.of_nat (length (List.filter is_pending (outbox_events (db w))))) ∧
  ∃ lag, mx_gauges x' !! ("search_index_lag_seconds", [])%string = Some lag ∧
    let l := List.filter (λ e, is_pending e && includes search_events (ob_event_type e)) (outbox_events (db w)) in
    match l with
    | [] => lag = 0%Z
    | _ => (∃ e, e ∈ l ∧ lag = clock w - ob_occurred_at e)%Z ∧ Forall (λ e, (clock w - ob_occurred_at e ≤ lag)%Z) l
    end.
Proof.
  destruct (queues_metrics_gauges AdminService.queue_names x w) as (x1 & E1 & Hd & _).
  { apply (bool_decide_unpack _). vm_compute. exact I. }
  unfold collectQueueMetrics. unfold bind at 1. rewrite E1. eexists. split; [reflexivity|].
  rewrite !gauges_set. unfold pool_metrics. split_and!.
  - intros name Hn. rewrite <- Hd by done. destruct replica; rewrite !gauges_set;
      by rewrite !lookup_insert_ne by (intros [=]).
  - destruct replica; rewrite !gauges_set; rewrite !lookup_insert_ne by (intros [=]); by rewrite lookup_insert_eq.
  - eexists. split; [by rewrite lookup_insert_eq|]. cbn zeta.
    pose proof (oldest_spec (List.filter (λ e, is_pending e && includes search_events (ob_event_type e)) (outbox_events (db w)))) as Ho.
    change (rows (db w)) with (outbox_events (db w)).
    destruct (List.filter _ _) as [|e l]; [done|]. destruct (oldest (e :: l)) as [t|]; [|done].
    destruct Ho as [(e0 & He0 & Et) Hall]. split; [exists e0; split; [done|by subst]|].
    eapply Forall_impl; [exact Hall|]. cbn. lia.
Qed.
End collection.
End Metrics.

(** ** The start of the server *)

(** What [start] has set going. *)
Record Server := mkServer {
  sv_listening : bool;
  sv_appReady : bool;
  sv_polling : bool;
  sv_broadcasting : bool;
  sv_collecting : bool
}.
#[export] Instance eta_Server : Eta Server := fun s =>
  mkServer (sv_listening s) (sv_appReady s) (sv_polling s) (sv_broadcasting s) (sv_collecting s).

Definition stopped : Server := mkServer false false false false false.

(** The states [start] goes through, and whether it logs that the migration
    failed: [migrated] and [subscribed] are whether [runMigrations] and
    [startNotificationBroadcaster] resolve. *)
Definition start (migrated subscribed : bool) : list Server * bool :=
  let s1 := stopped <| sv_listening := true |> in
  if migrated then
    let s2 := s1 <| sv_appReady := true |> in
    let s3 := s2 <| sv_polling := true |> in
    if subscribed then
      let s4 := s3 <| sv_broadcasting := true |> in
      ([s1; s2; s3; s4; s4 <| sv_collecting := true |>], false)
    else ([s1; s2; s3], true)
  else ([s1], true).

(** The server listens from the first, and works once it is migrated. *)
Lemma start_correct (migrated subscribed : bool) :
  Forall (λ s, sv_listening s ∧ (sv_appReady s → migrated) ∧ (sv_polling s → sv_appReady s) ∧
    (sv_collecting s → sv_polling s ∧ sv_broadcasting s)) (start migrated subscribed).1 ∧
  (List.last (start migrated subscribed).1 stopped = mkServer true migrated migrated (migrated && subscribed) (migrated && subscribed)).
Proof. destruct migrated, subscribed; (split; [repeat apply Forall_cons_2; [..|constructor]; cbn; tauto|reflexivity]). Qed.

(** The log says that [/ready] remains 503 where it is 200. *)
Example ready_although_logged :
  (start true false).2 = true ∧ sv_appReady (List.last (start true false).1 stopped) = true.
Proof. done. Qed.

(** ** The endpoints outside [/api/v1] *)

Section endpoints.
Context `{Redis, !RedisHash, !RedisZset, Random, Config, Crypto, Zod, Network, !StorageProvider, !RazorpaySdk, Saml,
  Google, FullText, !TypesenseClient, !SearchBreaker, IpAddr, Express}.
Context (keyStore : gmap string string) (allowlist : option string) (jwt_text : jwt_token → string).
Context (test_env exec_rejects typesense initialized : bool).
Context (getFailed : string → M (list Job)) (retry : Job → M unit).
Context (JSON_parse : string → option json) (razorpay_signature : Request → option string).

(** The settings and the state of the process, its registry as text, and
    whether the database answers. *)
Context (settings : Settings) (server : Server) (registry : string) (db_up : bool).

(** [req.headers.authorization]. *)
Definition authHeader (rq : Request) : option string :=
  match rq_authorization rq with
  | NoAuthorization => None
  | OtherAuthorization header => Some header
  | Bearer token => Some ("Bearer " +:+ jwt_text token)
  end.

Definition metrics (rq : Request) : M Response :=
  ret (Metrics.metricsAuthMiddleware (cf_metricsToken settings) (authHeader rq) ?? mkResponse 200 (JStr registry)).

Definition live : M Response := ret (mkResponse 200 (JObj [("status", JStr "alive")]))%string.

Definition ready : M Response :=
  ret (if negb (sv_appReady server)
       then mkResponse 503 (JObj [("status", JStr "not_ready"); ("reason", JStr "migrations_in_progress")])
       else mkResponse 200 (JObj [("status", JStr "ready")]))%string.

(** [redisClient.ping()]. *)
Definition ping : M unit := λ w, if redis_up w then (Ok tt, w) else (Throw redis_error, w).
Definition select_1 : M unit := if db_up then ret tt else throw (PgError "08006").

Definition health : M Response :=
  let check (m : M unit) : M string := catch (m ;;; ret "ok"%string) (λ _, ret "error"%string) in
  let* db := check select_1 in
  let* redis := check ping in
  let allOk := forallb (String.eqb "ok") [db; redis] in
  ret (mkResponse (if allOk then 200 else 503)
    (JObj [("status", JStr (if allOk then "ok" else "degraded"));
           ("checks", JObj [("db", JStr db); ("redis", JStr redis)])]))%string.

Definition process_routes : list Route :=
  [Api.get "/metrics" Public (λ rq _ _ _, metrics rq);
   Api.get "/live" Public (λ _ _ _ _, live);
   Api.get "/ready" Public (λ _ _ _ _, ready);
   Api.get "/health" Public (λ _ _ _ _, health)]%string.

(** The application with the endpoints it puts before the routers. *)
Definition server_app (rq : Request) (url : string) (query body : option json) : M Response :=
  match dispatch process_routes (rq_method rq) url with
  | Some (r, p) => rt_serve r rq p query body
  | None =>
      Api.app keyStore allowlist jwt_text test_env exec_rejects typesense initialized getFailed retry JSON_parse
        razorpay_signature rq url query body
  end.

Lemma health_correct w :
  health w = (Ok (mkResponse (if db_up && redis_up w then 200 else 503)
    (JObj [("status", JStr (if db_up && redis_up w then "ok" else "degraded"));
           ("checks", JObj [("db", JStr (if db_up then "ok" else "error"));
                            ("redis", JStr (if redis_up w then "ok" else "error"))])])%string), w).
Proof.
  unfold health, select_1, ping, catch, bind, ret, throw. destruct db_up, (redis_up w) eqn:E; cbn; by rewrite ?E.
Qed.

(** An endpoint of the process answers without a change to the world; the
    metrics only with the token of the configuration, [/live] always, [/ready]
    once the server is migrated, [/health] with both stores up. *)
Theorem process_routes_correct env r p rq query body w :
  (∃ Number, load Number env = Loaded settings) → r ∈ process_routes →
  ∃ rs, rt_serve r rq p query body w = (Ok rs, w) ∧
    (rs_status rs = 200%Z ↔
       (rt_pattern r = "/metrics"%string ∧ authHeader rq = Some ("Bearer " +:+ cf_metricsToken settings)) ∨
       rt_pattern r = "/live"%string ∨
       (rt_pattern r = "/ready"%string ∧ sv_appReady server) ∨
       (rt_pattern r = "/health"%string ∧ db_up ∧ redis_up w)).
Proof.
  intros (Number & Hs%loaded_sound) Hr. unfold process_routes in Hr.
  repeat (apply elem_of_cons in Hr as [->|Hr]); [..|by apply elem_of_nil in Hr]; cbn [Api.get rt_serve rt_pattern].
  - eexists. split; [reflexivity|]. pose proof (Metrics.metricsAuth_passes (cf_metricsToken settings) (authHeader rq)) as Ha.
    assert (truthy (cf_metricsToken settings)) as Ht.
    { destruct (cf_metricsToken settings) eqn:E; [|done]. pose proof (so_metrics _ Hs) as Hm. rewrite E in Hm. cbn in Hm. lia. }
    destruct (Metrics.metricsAuthMiddleware _ _) as [rs|] eqn:E; cbn; [|naive_solver].
    assert (rs_status rs = 401%Z) as ->.
    { unfold Metrics.metricsAuthMiddleware in E. repeat case_match; naive_solver. }
    split; [done|]. naive_solver.
  - eexists. split; [reflexivity|]. cbn. naive_solver.
  - eexists. split; [reflexivity|]. destruct (sv_appReady server); cbn; naive_solver.
  - rewrite health_correct. eexists. split; [reflexivity|]. destruct db_up, (redis_up w); cbn; naive_solver.
Qed.
End endpoints.

(** ** The end of a process *)

Inductive resource := OutboxLoop | BullWorkers | PrimaryPool | ReplicaPool | RedisClients.

(** What becomes of closing one: it takes so long, or never ends. *)
Inductive closing := Closes (ms : Z) | Rejects (ms : Z) | Hangs.

(** The order of the [SIGTERM] handlers of [app.ts], once [httpServer.close]
    calls back, and of [worker.ts]. *)
Definition server_order (replica : bool) : list resource :=
  [OutboxLoop; PrimaryPool] ++ (if replica then [ReplicaPool] else []) ++ [RedisClients].
Definition worker_order (workers : nat) (replica : bool) : list resource :=
  (if Nat.ltb 0 workers then [BullWorkers] else []) ++ [PrimaryPool] ++
  (if replica then [ReplicaPool] else []) ++ [RedisClients].

Definition DRAIN_TIMEOUT : Z := 30000.

(** The exit code, the time since the signal, and what was closed. *)
Record Exit := mkExit {
  ex_code : Z;
  ex_at : Z;
  ex_closed : list resource
}.

Section shutdown.
Context (outcome : resource → closing).

(** The [try] of a handler from a time on; the timer [forced] ends it. *)
Fixpoint close_in_order (t : Z) (closed l : list resource) : Exit :=
  match l with
  | [] => mkExit 0 t closed
  | r :: l =>
      match outcome r with
      | Closes ms =>
          if (t + ms <? DRAIN_TIMEOUT)%Z then close_in_order (t + ms) (closed ++ [r]) l else mkExit 1 DRAIN_TIMEOUT closed
      | Rejects ms => mkExit 1 (Z.min (t + ms) DRAIN_TIMEOUT) closed
      | Hangs => mkExit 1 DRAIN_TIMEOUT closed
      end
  end.

(** [drained] is when the last connection ends, if it does. *)
Definition server_sigterm (replica : bool) (drained : option Z) : Exit :=
  match drained with
  | Some t => if (t <? DRAIN_TIMEOUT)%Z then close_in_order t [] (server_order replica) else mkExit 1 DRAIN_TIMEOUT []
  | None => mkExit 1 DRAIN_TIMEOUT []
  end.
Definition worker_sigterm (workers : nat) (replica : bool) : Exit := close_in_order 0 [] (worker_order workers replica).

Context (takes_time : ∀ r, match outcome r with Closes ms | Rejects ms => (0 ≤ ms)%Z | Hangs => True end).

(** Closing in order ends in time, with what it closed in that order, and with
    code 0 exactly when that is everything. *)
Lemma close_in_order_correct l t closed :
  (t ≤ DRAIN_TIMEOUT)%Z →
  let e := close_in_order t closed l in
  (t ≤ ex_at e ≤ DRAIN_TIMEOUT)%Z ∧ (ex_code e = 0%Z ∨ ex_code e = 1%Z) ∧
  (∃ done rest, l = done ++ rest ∧ ex_closed e = closed ++ done ∧ (ex_code e = 0%Z ↔ rest = [])).
Proof.
  revert t closed. induction l as [|r l IH]; intros t closed Ht; cbn zeta; cbn [close_in_order].
  { cbn. split_and!; [lia..|by left|]. exists [], []. by rewrite !app_nil_r. }
  pose proof (takes_time r) as Hr.
  assert (∀ n, (t ≤ n ≤ DRAIN_TIMEOUT)%Z → let e := mkExit 1 n closed in
    (t ≤ ex_at e ≤ DRAIN_TIMEOUT)%Z ∧ (ex_code e = 0%Z ∨ ex_code e = 1%Z) ∧
    (∃ done rest, r :: l = done ++ rest ∧ ex_closed e = closed ++ done ∧ (ex_code e = 0%Z ↔ rest = []))) as Hstop.
  { intros n Hn. cbn. split_and!; [lia..|by right|]. exists [], (r :: l). rewrite app_nil_r. by repeat split. }
  destruct (outcome r) as [ms|ms|]; [|apply Hstop; lia|apply Hstop; lia].
  destruct (Z.ltb_spec (t + ms) DRAIN_TIMEOUT) as [Hlt|_]; [|apply Hstop; lia].
  destruct (IH (t + ms)%Z (closed ++ [r])) as (Hat & Hcode & closed' & rest & -> & Hc & H0); [lia|].
  split_and!; [lia..|done|]. exists (r :: closed'), rest. rewrite Hc, <- app_assoc. split_and!; [done|done|exact H0].
Qed.

(** A server that is told to end is gone within thirty seconds; it exits with
    code 0 exactly when it closed the poller, the pools and Redis, in that
    order, and whatever else it closed is a beginning of that order. *)
Theorem server_shutdown replica drained :
  (∀ t, drained = Some t → 0 ≤ t)%Z →
  let e := server_sigterm replica drained in
  (0 ≤ ex_at e ≤ DRAIN_TIMEOUT)%Z ∧ ex_closed e `prefix_of` server_order replica ∧
  (ex_code e = 0%Z ↔ ex_closed e = server_order replica).
Proof.
  intros Hd. cbn zeta. unfold server_sigterm.
  assert (let e := mkExit 1 DRAIN_TIMEOUT [] in (0 ≤ ex_at e ≤ DRAIN_TIMEOUT)%Z ∧
    ex_closed e `prefix_of` server_order replica ∧ (ex_code e = 0%Z ↔ ex_closed e = server_order replica)) as Hforced.
  { cbn. split_and!; [done..|apply prefix_nil|done]. }
  destruct drained as [t|]; [|exact Hforced]. destruct (Z.ltb_spec t DRAIN_TIMEOUT) as [Hlt|_]; [|exact Hforced].
  destruct (close_in_order_correct (server_order replica) t []) as (Hat & _ & closed & rest & El & Ec & H0); [lia|].
  specialize (Hd t eq_refl). split_and!; [lia..|rewrite Ec, El; by apply prefix_app_r|].
  rewrite H0, Ec, El. cbn [app]. split; [intros ->; by rewrite app_nil_r|].
  intros E. apply (app_inv_head closed). by rewrite app_nil_r.
Qed.

Theorem worker_shutdown workers replica :
  let e := worker_sigterm workers replica in
  (0 ≤ ex_at e ≤ DRAIN_TIMEOUT)%Z ∧ ex_closed e `prefix_of` worker_order workers replica ∧
  (ex_code e = 0%Z ↔ ex_closed e = worker_order workers replica).
Proof.
  cbn zeta. unfold worker_sigterm.
  destruct (close_in_order_correct (worker_order workers replica) 0 []) as (Hat & _ & closed & rest & El & Ec & H0); [done|].
  split_and!; [lia..|rewrite Ec, El; by apply prefix_app_r|].
  rewrite H0, Ec, El. cbn [app]. split; [intros ->; by rewrite app_nil_r|].
  intros E. apply (app_inv_head closed). by rewrite app_nil_r.
Qed.
End shutdown.

Module ProcessExamples.
Import Concrete LogSanitiser Metrics.

Example redacted :
  sanitiseLogData (JObj [("Password", JStr "hunter2"); ("user", JObj [("jwt", JStr "eyJh.eyJz.c2ln"); ("id", JNum 1)]);
    ("tokens", JArr [JStr "eyJh.eyJz.c2ln"; JStr "ey.a.b"])])%string =
  JObj [("Password", JStr "[REDACTED]"); ("user", JObj [("jwt", JStr "[REDACTED_JWT]"); ("id", JNum 1)]);
    ("tokens", JArr [JStr "[REDACTED_JWT]"; JStr "ey.a.b"])]%string.
Proof. vm_compute. reflexivity. Qed.

Example two_requests :
  let x := httpMetrics "GET" "/live" (Some "/live"%string) 200 10 15
    (httpMetrics "GET" "/live" (Some "/live"%string) 200 0 3 (mkRegistry ∅ ∅ [])) in
  mx_counters x !! ("http_requests_total", [("method", "GET"); ("route", "/live"); ("status_code", "200")])%string = Some 2 ∧
  (λ o, o.2) <$> mx_observed x = [3; 5]%Z.
Proof. vm_compute. split; reflexivity. Qed.

(** The poller's cycle takes a second and each pool ten milliseconds; a worker
    whose jobs do not end is stopped after thirty seconds, its pools open. *)
Definition quick (r : resource) : closing := match r with OutboxLoop => Closes 1000 | _ => Closes 10 end.
Definition stuck (r : resource) : closing := match r with BullWorkers => Hangs | _ => Closes 10 end.

Example orderly : server_sigterm quick true (Some 50%Z) =
  mkExit 0 1080 [OutboxLoop; PrimaryPool; ReplicaPool; RedisClients].
Proof. vm_compute. reflexivity. Qed.
Example forced : worker_sigterm stuck 13 false = mkExit 1 30000 [].
Proof. vm_compute. reflexivity. Qed.
End ProcessExamples.
