(* ===== verification/Migrations.v ===== *)
(** * Migrations: the schema of the database, and the statements that insert

    [migrations/]: the tables and their constraints as data, the way
    [node-pg-migrate] runs the files, and the [INSERT] statements of the
    program against the schema they describe.  Indexes that are not unique,
    triggers, extensions, functions, partitions, grants and the policy of
    [audit_logs] are left out; the [CHECK]s that are not lists of texts are kept
    as texts. *)
From S2P Require Import Prelude Schema OrgRepo OrgAccess TaskRepo Session RowJson Payments Outbox Jobs Collaboration Process.
From Stdlib Require Import ZArith Lia.
From stdpp Require Import base tactics strings list.

(** ** SQL *)

Inductive sqltype :=
  | UUID | VARCHAR (n : Z) | TEXT | BOOLEAN | INTEGER | BIGINT | TIMESTAMPTZ | DATE | TIME | JSONB | INET | TSVECTOR
  | ARRAY (t : sqltype).

Inductive attribute :=
  | PrimaryKey
  | NotNull
  | Unique
  | Default (value : string)
  | Generated
  | OneOf (values : list string)
  | CheckThat (condition : string)
  | References (table : string)
  | OnDelete (action : string).

Record Column := column {
  cn_name : string;
  cn_type : sqltype;
  cn_attributes : list attribute
}.

Inductive constraint :=
  | PrimaryKeyOf (columns : list string)
  | UniqueOf (columns : list string)
  | CheckOf (condition : string).

Record TableDef := table {
  tb_name : string;
  tb_columns : list Column;
  tb_constraints : list constraint
}.

(** A statement of a migration. *)
Inductive ddl :=
  | CreateTable (t : TableDef)
  | AddColumn (table : string) (c : Column)
  | CreateUniqueIndex (table : string) (columns : list string) (condition : option string).

(** How a file calls the database: by [pgm.db.query], or with its argument as
    the tag of a template. *)
Inductive call := Pgm (d : ddl) | Tagged (d : ddl).

(** ** The tables *)

Module Tables.

Definition users : TableDef := table "users"
  [column "id" UUID [PrimaryKey; Default "gen_random_uuid()"]; column "email" (VARCHAR 255) [NotNull];
   column "email_verified" BOOLEAN [NotNull; Default "FALSE"]; column "email_verified_at" TIMESTAMPTZ [];
   column "password_hash" (VARCHAR 255) []; column "name" (VARCHAR 255) [NotNull]; column "avatar_url" TEXT [];
   column "phone" (VARCHAR 30) []; column "totp_secret" TEXT [];
   column "totp_enabled" BOOLEAN [NotNull; Default "FALSE"];
   column "mfa_backup_codes" (ARRAY TEXT) [NotNull; Default "'{}'"];
   column "mfa_backup_codes_generated_at" TIMESTAMPTZ [];
   column "is_platform_admin" BOOLEAN [NotNull; Default "FALSE"];
   column "status" (VARCHAR 20) [NotNull; Default "'active'"; OneOf ["active"; "suspended"; "deleted"]];
   column "failed_login_attempts" INTEGER [NotNull; Default "0"]; column "locked_until" TIMESTAMPTZ [];
   column "last_login_at" TIMESTAMPTZ []; column "password_changed_at" TIMESTAMPTZ [];
   column "consent_tos_version" (VARCHAR 20) []; column "consent_tos_at" TIMESTAMPTZ [];
   column "privacy_policy_version" (VARCHAR 20) []; column "deleted_at" TIMESTAMPTZ [];
   column "created_at" TIMESTAMPTZ [NotNull; Default "NOW()"];
   column "updated_at" TIMESTAMPTZ [NotNull; Default "NOW()"]]
  []%string.

Definition auth_providers : TableDef := table "auth_providers"
  [column "id" UUID [PrimaryKey; Default "gen_random_uuid()"];
   column "user_id" UUID [NotNull; References "users"; OnDelete "CASCADE"];
   column "provider" (VARCHAR 20) [NotNull; OneOf ["email"; "google"; "saml"; "magic_link"]];
   column "provider_user_id" (VARCHAR 255) [NotNull]; column "org_id" UUID [];
   column "metadata" JSONB [NotNull; Default "'{}'"]; column "created_at" TIMESTAMPTZ [NotNull; Default "NOW()"]]
  []%string.

Definition user_preferences : TableDef := table "user_preferences"
  [column "user_id" UUID [PrimaryKey; References "users"; OnDelete "CASCADE"];
   column "timezone" (VARCHAR 64) [NotNull; Default "'UTC'"];
   column "locale" (VARCHAR 16) [NotNull; Default "'en-US'"];
   column "theme" (VARCHAR 20) [NotNull; Default "'system'"];
   column "updated_at" TIMESTAMPTZ [NotNull; Default "NOW()"]]
  []%string.

Definition refresh_tokens : TableDef := table "refresh_tokens"
  [column "id" UUID [PrimaryKey; Default "gen_random_uuid()"];
   column "user_id" UUID [NotNull; References "users"; OnDelete "CASCADE"]; column "org_id" UUID [];
   column "token_hash" (VARCHAR 255) [NotNull; Unique]; column "family_id" UUID [NotNull];
   column "last_access_token_jti" (VARCHAR 255) []; column "is_revoked" BOOLEAN [NotNull; Default "FALSE"];
   column "revoked_at" TIMESTAMPTZ []; column "expires_at" TIMESTAMPTZ [NotNull];
   column "created_at" TIMESTAMPTZ [NotNull; Default "NOW()"]]
  []%string.

Definition organizations : TableDef := table "organizations"
  [column "id" UUID [PrimaryKey; Default "gen_random_uuid()"]; column "name" (VARCHAR 255) [NotNull];
   column "slug" (VARCHAR 100) [NotNull];
   column "status" (VARCHAR 20) [NotNull; Default "'active'"; OneOf ["active"; "suspended"; "offboarding"; "deleted"]];
   column "plan_tier" (VARCHAR 20) [NotNull; Default "'free'"; OneOf ["free"; "pro"; "business"; "enterprise"]];
   column "plan_started_at" TIMESTAMPTZ [NotNull; Default "NOW()"]; column "plan_expires_at" TIMESTAMPTZ [];
   column "grace_period_ends_at" TIMESTAMPTZ []; column "offboarding_started_at" TIMESTAMPTZ [];
   column "deleted_at" TIMESTAMPTZ []; column "max_members" INTEGER [NotNull; Default "5"];
   column "storage_quota_bytes" BIGINT [NotNull; Default "1073741824"];
   column "storage_used_bytes" BIGINT [NotNull; Default "0"];
   column "saml_enabled" BOOLEAN [NotNull; Default "FALSE"]; column "saml_metadata_url" TEXT [];
   column "mfa_required" BOOLEAN [NotNull; Default "FALSE"];
   column "account_lockout_attempts" INTEGER [NotNull; Default "5"];
   column "retention_audit_days" INTEGER [NotNull; Default "365"; CheckThat "retention_audit_days >= 365"];
   column "retention_chat_days" INTEGER []; column "timezone" (VARCHAR 64) [NotNull; Default "'UTC'"];
   column "locale" (VARCHAR 16) [NotNull; Default "'en-US'"];
   column "created_at" TIMESTAMPTZ [NotNull; Default "NOW()"];
   column "updated_at" TIMESTAMPTZ [NotNull; Default "NOW()"]; column "version" INTEGER [NotNull; Default "1"]]
  []%string.

Definition org_memberships : TableDef := table "org_memberships"
  [column "id" UUID [PrimaryKey; Default "gen_random_uuid()"];
   column "org_id" UUID [NotNull; References "organizations"]; column "user_id" UUID [NotNull; References "users"];
   column "role" (VARCHAR 20) [NotNull; OneOf ["org_owner"; "org_admin"; "member"; "guest"]];
   column "status" (VARCHAR 20) [NotNull; Default "'active'"; OneOf ["active"; "suspended"; "removed"]];
   column "invited_by" UUID [References "users"]; column "joined_at" TIMESTAMPTZ [];
   column "removed_at" TIMESTAMPTZ []; column "deleted_at" TIMESTAMPTZ [];
   column "created_at" TIMESTAMPTZ [NotNull; Default "NOW()"];
   column "updated_at" TIMESTAMPTZ [NotNull; Default "NOW()"]]
  []%string.

Definition invitations : TableDef := table "invitations"
  [column "id" UUID [PrimaryKey; Default "gen_random_uuid()"];
   column "org_id" UUID [NotNull; References "organizations"]; column "invited_by" UUID [NotNull; References "users"];
   column "email" (VARCHAR 255) [NotNull];
   column "role" (VARCHAR 20) [NotNull; OneOf ["org_admin"; "member"; "guest"]];
   column "token_hash" (VARCHAR 255) [NotNull; Unique];
   column "status" (VARCHAR 20) [NotNull; Default "'pending'"; OneOf ["pending"; "accepted"; "expired"; "revoked"]];
   column "expires_at" TIMESTAMPTZ [NotNull]; column "accepted_at" TIMESTAMPTZ []; column "revoked_at" TIMESTAMPTZ [];
   column "created_at" TIMESTAMPTZ [NotNull; Default "NOW()"]]
  []%string.

Definition workspaces : TableDef := table "workspaces"
  [column "id" UUID [PrimaryKey; Default "gen_random_uuid()"];
   column "org_id" UUID [NotNull; References "organizations"]; column "name" (VARCHAR 255) [NotNull];
   column "description" TEXT [];
   column "status" (VARCHAR 20) [NotNull; Default "'active'"; OneOf ["active"; "archived"]];
   column "owner_user_id" UUID [NotNull; References "users"]; column "deleted_at" TIMESTAMPTZ [];
   column "created_at" TIMESTAMPTZ [NotNull; Default "NOW()"];
   column "updated_at" TIMESTAMPTZ [NotNull; Default "NOW()"]; column "version" INTEGER [NotNull; Default "1"]]
  []%string.

Definition boards : TableDef := table "boards"
  [column "id" UUID [PrimaryKey; Default "gen_random_uuid()"];
   column "org_id" UUID [NotNull; References "organizations"];
   column "workspace_id" UUID [NotNull; References "workspaces"]; column "name" (VARCHAR 255) [NotNull];
   column "type" (VARCHAR 10) [NotNull; OneOf ["board"; "sprint"]];
   column "status" (VARCHAR 20) [NotNull; Default "'active'"; OneOf ["active"; "completed"; "archived"]];
   column "start_date" DATE []; column "end_date" DATE []; column "deleted_at" TIMESTAMPTZ [];
   column "created_at" TIMESTAMPTZ [NotNull; Default "NOW()"];
   column "updated_at" TIMESTAMPTZ [NotNull; Default "NOW()"]; column "version" INTEGER [NotNull; Default "1"]]
  []%string.

Definition tasks : TableDef := table "tasks"
  [column "id" UUID [PrimaryKey; Default "gen_random_uuid()"];
   column "org_id" UUID [NotNull; References "organizations"];
   column "workspace_id" UUID [NotNull; References "workspaces"]; column "board_id" UUID [References "boards"];
   column "parent_task_id" UUID [References "tasks"];
   column "depth" INTEGER [NotNull; Default "0"; CheckThat "depth >= 0 AND depth <= 2"];
   column "title" (VARCHAR 500) [NotNull]; column "description" JSONB [];
   column "status" (VARCHAR 20) [NotNull; Default "'todo'"; OneOf ["todo"; "in_progress"; "in_review"; "done"; "cancelled"]];
   column "priority" (VARCHAR 10) [NotNull; Default "'medium'"; OneOf ["low"; "medium"; "high"; "urgent"]];
   column "creator_id" UUID [NotNull; References "users"]; column "due_date" TIMESTAMPTZ [];
   column "completed_at" TIMESTAMPTZ []; column "is_recurring" BOOLEAN [NotNull; Default "FALSE"];
   column "recurrence_rule" TEXT []; column "recurrence_parent_id" UUID [References "tasks"];
   column "template_id" UUID []; column "labels" (ARRAY TEXT) [NotNull; Default "'{}'"];
   column "attachments_count" INTEGER [NotNull; Default "0"]; column "search_vector" TSVECTOR [Generated];
   column "deleted_at" TIMESTAMPTZ []; column "created_at" TIMESTAMPTZ [NotNull; Default "NOW()"];
   column "updated_at" TIMESTAMPTZ [NotNull; Default "NOW()"]; column "version" INTEGER [NotNull; Default "1"]]
  []%string.

Definition task_assignees : TableDef := table "task_assignees"
  [column "task_id" UUID [NotNull; References "tasks"; OnDelete "CASCADE"];
   column "user_id" UUID [NotNull; References "users"]; column "org_id" UUID [NotNull; References "organizations"];
   column "assigned_at" TIMESTAMPTZ [NotNull; Default "NOW()"];
   column "assigned_by" UUID [NotNull; References "users"]]
  [PrimaryKeyOf ["task_id"; "user_id"]]%string.

Definition task_dependencies : TableDef := table "task_dependencies"
  [column "id" UUID [PrimaryKey; Default "gen_random_uuid()"];
   column "org_id" UUID [NotNull; References "organizations"];
   column "blocking_task_id" UUID [NotNull; References "tasks"];
   column "blocked_task_id" UUID [NotNull; References "tasks"];
   column "created_by" UUID [NotNull; References "users"]; column "created_at" TIMESTAMPTZ [NotNull; Default "NOW()"]]
  [CheckOf "blocking_task_id != blocked_task_id"]%string.

Definition task_templates : TableDef := table "task_templates"
  [column "id" UUID [PrimaryKey; Default "gen_random_uuid()"];
   column "org_id" UUID [NotNull; References "organizations"]; column "name" (VARCHAR 255) [NotNull];
   column "default_title" (VARCHAR 500) []; column "default_description" JSONB [];
   column "default_priority" (VARCHAR 10) [OneOf ["low"; "medium"; "high"; "urgent"]];
   column "default_labels" (ARRAY TEXT) [NotNull; Default "'{}'"];
   column "created_by" UUID [NotNull; References "users"]; column "deleted_at" TIMESTAMPTZ [];
   column "created_at" TIMESTAMPTZ [NotNull; Default "NOW()"]]
  []%string.

Definition comments : TableDef := table "comments"
  [column "id" UUID [PrimaryKey; Default "gen_random_uuid()"];
   column "org_id" UUID [NotNull; References "organizations"]; column "task_id" UUID [NotNull; References "tasks"];
   column "author_id" UUID [NotNull; References "users"]; column "parent_comment_id" UUID [References "comments"];
   column "body" JSONB [NotNull]; column "is_edited" BOOLEAN [NotNull; Default "FALSE"];
   column "edited_at" TIMESTAMPTZ []; column "deleted_at" TIMESTAMPTZ [];
   column "created_at" TIMESTAMPTZ [NotNull; Default "NOW()"];
   column "updated_at" TIMESTAMPTZ [NotNull; Default "NOW()"]]
  []%string.

Definition channels : TableDef := table "channels"
  [column "id" UUID [PrimaryKey; Default "gen_random_uuid()"];
   column "org_id" UUID [NotNull; References "organizations"];
   column "type" (VARCHAR 10) [NotNull; OneOf ["direct"; "group"]]; column "name" (VARCHAR 255) [];
   column "created_by" UUID [NotNull; References "users"]; column "deleted_at" TIMESTAMPTZ [];
   column "created_at" TIMESTAMPTZ [NotNull; Default "NOW()"];
   column "updated_at" TIMESTAMPTZ [NotNull; Default "NOW()"]]
  []%string.

Definition channel_members : TableDef := table "channel_members"
  [column "channel_id" UUID [NotNull; References "channels"]; column "user_id" UUID [NotNull; References "users"];
   column "org_id" UUID [NotNull; References "organizations"];
   column "last_read_sequence" BIGINT [NotNull; Default "0"]; column "last_read_at" TIMESTAMPTZ [];
   column "joined_at" TIMESTAMPTZ [NotNull; Default "NOW()"]; column "removed_at" TIMESTAMPTZ []]
  [PrimaryKeyOf ["channel_id"; "user_id"]]%string.

Definition direct_channel_pairs : TableDef := table "direct_channel_pairs"
  [column "org_id" UUID [NotNull; References "organizations"]; column "user_a_id" UUID [NotNull; References "users"];
   column "user_b_id" UUID [NotNull; References "users"];
   column "channel_id" UUID [NotNull; Unique; References "channels"];
   column "created_at" TIMESTAMPTZ [NotNull; Default "NOW()"]]
  [PrimaryKeyOf ["org_id"; "user_a_id"; "user_b_id"]; CheckOf "user_a_id < user_b_id"]%string.

Definition chat_messages : TableDef := table "chat_messages"
  [column "id" UUID [NotNull]; column "org_id" UUID [NotNull];
   column "channel_id" UUID [NotNull; References "channels"]; column "sender_id" UUID [NotNull; References "users"];
   column "client_message_id" UUID [NotNull]; column "sequence_number" BIGINT [NotNull]; column "body" TEXT [NotNull];
   column "body_parsed" JSONB []; column "parent_message_id" UUID [];
   column "is_edited" BOOLEAN [NotNull; Default "FALSE"];
   column "edit_history" (ARRAY JSONB) [NotNull; Default "'{}'"]; column "deleted_at" TIMESTAMPTZ [];
   column "created_at" TIMESTAMPTZ [NotNull]; column "search_vector" TSVECTOR [Generated]]
  [PrimaryKeyOf ["id"; "created_at"]]%string.

Definition notifications : TableDef := table "notifications"
  [column "id" UUID [PrimaryKey; Default "gen_random_uuid()"];
   column "org_id" UUID [NotNull; References "organizations"]; column "user_id" UUID [NotNull; References "users"];
   column "type" (VARCHAR 100) [NotNull]; column "entity_type" (VARCHAR 50) [NotNull];
   column "entity_id" UUID [NotNull]; column "actor_id" UUID [References "users"];
   column "payload" JSONB [NotNull; Default "'{}'"]; column "is_read" BOOLEAN [NotNull; Default "FALSE"];
   column "read_at" TIMESTAMPTZ []; column "created_at" TIMESTAMPTZ [NotNull; Default "NOW()"]]
  []%string.

Definition notification_preferences : TableDef := table "notification_preferences"
  [column "id" UUID [PrimaryKey; Default "gen_random_uuid()"];
   column "org_id" UUID [NotNull; References "organizations"]; column "user_id" UUID [NotNull; References "users"];
   column "event_type" (VARCHAR 100) [NotNull]; column "channel_inapp" BOOLEAN [NotNull; Default "TRUE"];
   column "channel_email" BOOLEAN [NotNull; Default "TRUE"]; column "channel_push" BOOLEAN [NotNull; Default "FALSE"];
   column "digest_mode" (VARCHAR 20) [NotNull; Default "'realtime'"; OneOf ["realtime"; "daily_digest"]];
   column "quiet_hours_start" TIME []; column "quiet_hours_end" TIME [];
   column "created_at" TIMESTAMPTZ [NotNull; Default "NOW()"];
   column "updated_at" TIMESTAMPTZ [NotNull; Default "NOW()"]]
  []%string.

Definition files : TableDef := table "files"
  [column "id" UUID [PrimaryKey; Default "gen_random_uuid()"];
   column "org_id" UUID [NotNull; References "organizations"];
   column "uploader_id" UUID [NotNull; References "users"]; column "filename" (VARCHAR 500) [NotNull];
   column "mime_type" (VARCHAR 255) [NotNull]; column "size_bytes" BIGINT [NotNull];
   column "storage_key" UUID [NotNull; Unique; Default "gen_random_uuid()"];
   column "storage_provider" (VARCHAR 10) [NotNull; Default "'local'"; OneOf ["local"; "s3"]];
   column "status" (VARCHAR 20) [NotNull; Default "'pending'"; OneOf ["pending"; "confirmed"; "quarantined"; "deleted"]];
   column "scan_status" (VARCHAR 20) [NotNull; Default "'pending'"; OneOf ["pending"; "clean"; "infected"]];
   column "scan_completed_at" TIMESTAMPTZ []; column "linked_entity_type" (VARCHAR 50) [];
   column "linked_entity_id" UUID []; column "deleted_at" TIMESTAMPTZ [];
   column "created_at" TIMESTAMPTZ [NotNull; Default "NOW()"]]
  []%string.

Definition subscriptions : TableDef := table "subscriptions"
  [column "id" UUID [PrimaryKey; Default "gen_random_uuid()"];
   column "org_id" UUID [NotNull; Unique; References "organizations"];
   column "razorpay_subscription_id" (VARCHAR 255) [Unique];
   column "plan_tier" (VARCHAR 20) [NotNull; Default "'free'"; OneOf ["free"; "pro"; "business"; "enterprise"]];
   column "status" (VARCHAR 20) [NotNull; Default "'active'"; OneOf ["active"; "halted"; "cancelled"; "expired"; "pending"]];
   column "current_period_start" TIMESTAMPTZ []; column "current_period_end" TIMESTAMPTZ [];
   column "cancel_at_period_end" BOOLEAN [NotNull; Default "FALSE"]; column "cancelled_at" TIMESTAMPTZ [];
   column "trial_end" TIMESTAMPTZ []; column "metadata" JSONB [NotNull; Default "'{}'"];
   column "created_at" TIMESTAMPTZ [NotNull; Default "NOW()"];
   column "updated_at" TIMESTAMPTZ [NotNull; Default "NOW()"]]
  []%string.

Definition payments : TableDef := table "payments"
  [column "id" UUID [PrimaryKey; Default "gen_random_uuid()"];
   column "org_id" UUID [NotNull; References "organizations"];
   column "subscription_id" UUID [References "subscriptions"];
   column "razorpay_order_id" (VARCHAR 255) [NotNull; Unique]; column "razorpay_payment_id" (VARCHAR 255) [Unique];
   column "amount_paise" INTEGER [NotNull]; column "currency" (VARCHAR 3) [NotNull; Default "'INR'"];
   column "status" (VARCHAR 20) [NotNull; OneOf ["created"; "authorized"; "captured"; "failed"; "refunded"; "disputed"]];
   column "failure_reason" TEXT []; column "captured_at" TIMESTAMPTZ []; column "refunded_at" TIMESTAMPTZ [];
   column "idempotency_key" (VARCHAR 255) [NotNull; Unique]; column "metadata" JSONB [NotNull; Default "'{}'"];
   column "created_at" TIMESTAMPTZ [NotNull; Default "NOW()"];
   column "updated_at" TIMESTAMPTZ [NotNull; Default "NOW()"]]
  []%string.

Definition idempotency_keys : TableDef := table "idempotency_keys"
  [column "id" UUID [PrimaryKey; Default "gen_random_uuid()"]; column "key_hash" (VARCHAR 255) [NotNull; Unique];
   column "org_id" UUID []; column "user_id" UUID []; column "endpoint" (VARCHAR 200) [NotNull];
   column "response_status" INTEGER []; column "response_body" JSONB []; column "expires_at" TIMESTAMPTZ [NotNull];
   column "created_at" TIMESTAMPTZ [NotNull; Default "NOW()"]]
  []%string.

Definition audit_logs : TableDef := table "audit_logs"
  [column "id" UUID [NotNull; Default "gen_random_uuid()"]; column "org_id" UUID []; column "actor_id" UUID [];
   column "actor_type" (VARCHAR 20) [NotNull; OneOf ["user"; "system"; "platform_admin"]];
   column "event_type" (VARCHAR 150) [NotNull]; column "entity_type" (VARCHAR 50) []; column "entity_id" UUID [];
   column "ip_address" INET []; column "user_agent" TEXT []; column "payload" JSONB [NotNull; Default "'{}'"];
   column "correlation_id" UUID []; column "occurred_at" TIMESTAMPTZ [NotNull]]
  [PrimaryKeyOf ["id"; "occurred_at"]]%string.

Definition outbox_events : TableDef := table "outbox_events"
  [column "id" UUID [PrimaryKey; Default "gen_random_uuid()"]; column "org_id" UUID [];
   column "event_type" (VARCHAR 150) [NotNull]; column "version" INTEGER [NotNull; Default "1"];
   column "entity_type" (VARCHAR 50) []; column "entity_id" UUID []; column "actor_user_id" UUID [];
   column "correlation_id" UUID []; column "payload" JSONB [NotNull; Default "'{}'"];
   column "status" (VARCHAR 20) [NotNull; Default "'pending'"; OneOf ["pending"; "published"; "failed"]];
   column "occurred_at" TIMESTAMPTZ [NotNull]; column "published_at" TIMESTAMPTZ [];
   column "retry_count" INTEGER [NotNull; Default "0"]; column "last_error" TEXT [];
   column "created_at" TIMESTAMPTZ [NotNull; Default "NOW()"]]
  []%string.

Definition feature_flags : TableDef := table "feature_flags"
  [column "id" UUID [PrimaryKey; Default "gen_random_uuid()"]; column "key" (VARCHAR 100) [NotNull; Unique];
   column "description" TEXT []; column "is_globally_enabled" BOOLEAN [NotNull; Default "FALSE"];
   column "rollout_percentage" INTEGER [NotNull; Default "0"; CheckThat "rollout_percentage >= 0 AND rollout_percentage <= 100"];
   column "enabled_org_ids" (ARRAY UUID) [NotNull; Default "'{}'"];
   column "disabled_org_ids" (ARRAY UUID) [NotNull; Default "'{}'"];
   column "created_at" TIMESTAMPTZ [NotNull; Default "NOW()"];
   column "updated_at" TIMESTAMPTZ [NotNull; Default "NOW()"]]
  [CheckOf "array_length(enabled_org_ids, 1) IS NULL OR array_length(enabled_org_ids, 1) < 10000";
   CheckOf "array_length(disabled_org_ids, 1) IS NULL OR array_length(disabled_org_ids, 1) < 10000"]%string.

Definition webhook_subscriptions : TableDef := table "webhook_subscriptions"
  [column "id" UUID [PrimaryKey; Default "gen_random_uuid()"];
   column "org_id" UUID [NotNull; References "organizations"]; column "url" TEXT [NotNull];
   column "secret_hash" TEXT [NotNull]; column "secret_encrypted" TEXT [NotNull];
   column "secret_key_version" INTEGER [NotNull; Default "1"]; column "secret_preview" (VARCHAR 8) [NotNull];
   column "event_types" (ARRAY TEXT) [NotNull; Default "'{}'"]; column "is_active" BOOLEAN [NotNull; Default "TRUE"];
   column "created_by" UUID [NotNull; References "users"]; column "deleted_at" TIMESTAMPTZ [];
   column "created_at" TIMESTAMPTZ [NotNull; Default "NOW()"];
   column "updated_at" TIMESTAMPTZ [NotNull; Default "NOW()"]]
  []%string.

Definition webhook_delivery_log : TableDef := table "webhook_delivery_log"
  [column "id" UUID [PrimaryKey; Default "gen_random_uuid()"];
   column "webhook_id" UUID [NotNull; References "webhook_subscriptions"];
   column "org_id" UUID [NotNull; References "organizations"]; column "event_id" UUID [NotNull];
   column "event_type" (VARCHAR 150) [NotNull];
   column "status" (VARCHAR 20) [NotNull; Default "'pending'"; OneOf ["pending"; "delivered"; "failed"; "exhausted"]];
   column "attempt_count" INTEGER [NotNull; Default "0"]; column "response_status_code" INTEGER [];
   column "response_body" TEXT []; column "error_message" TEXT []; column "delivered_at" TIMESTAMPTZ [];
   column "created_at" TIMESTAMPTZ [NotNull; Default "NOW()"];
   column "updated_at" TIMESTAMPTZ [NotNull; Default "NOW()"]]
  [UniqueOf ["webhook_id"; "event_id"]]%string.

Definition saml_used_assertions : TableDef := table "saml_used_assertions"
  [column "assertion_id" (VARCHAR 255) [NotNull]; column "org_id" UUID [NotNull; References "organizations"];
   column "not_on_or_after" TIMESTAMPTZ [NotNull]; column "created_at" TIMESTAMPTZ [NotNull; Default "NOW()"]]
  [PrimaryKeyOf ["assertion_id"; "org_id"]]%string.

Definition video_calls : TableDef := table "video_calls"
  [column "id" UUID [PrimaryKey; Default "gen_random_uuid()"];
   column "org_id" UUID [NotNull; References "organizations"]; column "channel_id" UUID [References "channels"];
   column "initiator_id" UUID [NotNull; References "users"];
   column "state" (VARCHAR 20) [NotNull; Default "'ringing'"; OneOf ["ringing"; "active"; "ended"]];
   column "started_at" TIMESTAMPTZ []; column "ended_at" TIMESTAMPTZ [];
   column "created_at" TIMESTAMPTZ [NotNull; Default "NOW()"]]
  []%string.

Definition task_activity_log : TableDef := table "task_activity_log"
  [column "id" UUID [PrimaryKey; Default "gen_random_uuid()"];
   column "org_id" UUID [NotNull; References "organizations"]; column "task_id" UUID [NotNull; References "tasks"];
   column "actor_id" UUID [NotNull; References "users"]; column "event_type" (VARCHAR 100) [NotNull];
   column "payload" JSONB [NotNull; Default "'{}'"]; column "created_at" TIMESTAMPTZ [NotNull; Default "NOW()"]]
  []%string.

Definition push_subscriptions : TableDef := table "push_subscriptions"
  [column "id" UUID [PrimaryKey; Default "gen_random_uuid()"];
   column "user_id" UUID [NotNull; References "users"; OnDelete "CASCADE"];
   column "org_id" UUID [NotNull; References "organizations"; OnDelete "CASCADE"]; column "endpoint" TEXT [NotNull];
   column "p256dh" TEXT [NotNull]; column "auth" TEXT [NotNull];
   column "created_at" TIMESTAMPTZ [NotNull; Default "NOW()"]]
  [UniqueOf ["user_id"; "endpoint"]]%string.

End Tables.

(** The files: what [exports.up] asks for. *)

Module Up.

Definition m001_extensions : list call :=
  []%string.

Definition m002_users : list call :=
  [Pgm (CreateTable Tables.users); Pgm (CreateUniqueIndex "users" ["email"]
     (Some "deleted_at IS NULL"));
   Pgm (CreateTable Tables.auth_providers);
   Pgm (CreateUniqueIndex "auth_providers" ["provider"; "provider_user_id"]
     None);
   Pgm (CreateTable Tables.user_preferences); Pgm (CreateTable Tables.refresh_tokens)]%string.

Definition m003_organizations : list call :=
  [Pgm (CreateTable Tables.organizations); Pgm (CreateUniqueIndex "organizations" ["slug"]
     None);
   Pgm (CreateTable Tables.org_memberships);
   Pgm (CreateUniqueIndex "org_memberships" ["org_id"; "user_id"]
     (Some "deleted_at IS NULL"));
   Pgm (CreateTable Tables.invitations)]%string.

Definition m004_workspaces : list call :=
  [Pgm (CreateTable Tables.workspaces); Pgm (CreateTable Tables.boards)]%string.

Definition m005_tasks : list call :=
  [Pgm (CreateTable Tables.tasks);
   Pgm (CreateUniqueIndex "tasks" ["recurrence_parent_id"; "timestamptz_to_date_utc(due_date)"]
     (Some "recurrence_parent_id IS NOT NULL AND deleted_at IS NULL"));
   Pgm (CreateTable Tables.task_assignees); Pgm (CreateTable Tables.task_dependencies);
   Pgm (CreateTable Tables.task_templates); Pgm (CreateTable Tables.comments)]%string.

Definition m006_channels : list call :=
  [Pgm (CreateTable Tables.channels); Pgm (CreateTable Tables.channel_members);
   Pgm (CreateTable Tables.direct_channel_pairs)]%string.

Definition m007_chat_messages : list call :=
  [Pgm (CreateTable Tables.chat_messages)]%string.

Definition m008_notifications : list call :=
  [Pgm (CreateTable Tables.notifications); Pgm (CreateTable Tables.notification_preferences);
   Pgm (CreateUniqueIndex "notification_preferences" ["org_id"; "user_id"; "event_type"]
     None)]%string.

Definition m009_files : list call :=
  [Pgm (CreateTable Tables.files)]%string.

Definition m010_payments : list call :=
  [Pgm (CreateTable Tables.subscriptions); Pgm (CreateTable Tables.payments);
   Pgm (CreateTable Tables.idempotency_keys)]%string.

Definition m011_audit_outbox : list call :=
  [Pgm (CreateTable Tables.audit_logs); Pgm (CreateTable Tables.outbox_events)]%string.

Definition m012_feature_webhooks : list call :=
  [Pgm (CreateTable Tables.feature_flags); Pgm (CreateTable Tables.webhook_subscriptions);
   Pgm (CreateTable Tables.webhook_delivery_log)]%string.

Definition m013_saml_assertions : list call :=
  [Pgm (CreateTable Tables.saml_used_assertions); Pgm (CreateTable Tables.video_calls);
   Pgm (CreateTable Tables.task_activity_log)]%string.

Definition m014_misc : list call :=
  []%string.

Definition m015_schema_fixes : list call :=
  [Pgm (AddColumn "users" (column "last_seen_at" TIMESTAMPTZ []))]%string.

Definition m016_digest_sent_at : list call :=
  [Pgm (AddColumn "notifications" (column "digest_sent_at" TIMESTAMPTZ []))]%string.

Definition m017_channel_workspace_id : list call :=
  [Pgm (AddColumn "channels" (column "workspace_id" UUID [References "workspaces"; OnDelete "SET NULL"]))]%string.

Definition m018_push_subscriptions : list call :=
  [Tagged (CreateTable Tables.push_subscriptions)]%string.

End Up.

(** The files in the order of their names. *)
Definition migrations : list (string * list call) :=
  [("001_extensions", Up.m001_extensions); ("002_users", Up.m002_users); ("003_organizations", Up.m003_organizations);
   ("004_workspaces", Up.m004_workspaces); ("005_tasks", Up.m005_tasks); ("006_channels", Up.m006_channels);
   ("007_chat_messages", Up.m007_chat_messages); ("008_notifications", Up.m008_notifications);
   ("009_files", Up.m009_files); ("010_payments", Up.m010_payments); ("011_audit_outbox", Up.m011_audit_outbox);
   ("012_feature_webhooks", Up.m012_feature_webhooks); ("013_saml_assertions", Up.m013_saml_assertions);
   ("014_misc", Up.m014_misc); ("015_schema_fixes", Up.m015_schema_fixes);
   ("016_digest_sent_at", Up.m016_digest_sent_at); ("017_channel_workspace_id", Up.m017_channel_workspace_id);
   ("018_push_subscriptions", Up.m018_push_subscriptions)]%string.

(** [INSERT INTO table (columns) .. ON CONFLICT (target) WHERE condition]; a
    conflict without a target names no columns. *)
Record Insert := insert_into {
  in_table : string;
  in_columns : list string;
  in_conflict : option (list string * option string)
}.

Module Inserts.

Definition AuditWorker_persistAuditLog : Insert := insert_into "audit_logs"
  ["org_id"; "actor_id"; "actor_type"; "event_type"; "entity_type"; "entity_id"; "ip_address"; "user_agent";
   "payload"; "correlation_id"; "occurred_at"]
  None%string.

Definition AuthRepository_createUser : Insert := insert_into "users"
  ["email"; "name"; "password_hash"; "email_verified"; "avatar_url"]
  None%string.

Definition AuthRepository_createRefreshToken : Insert := insert_into "refresh_tokens"
  ["user_id"; "org_id"; "token_hash"; "family_id"; "last_access_token_jti"; "expires_at"]
  None%string.

Definition AuthRepository_createAuthProvider : Insert := insert_into "auth_providers"
  ["user_id"; "provider"; "provider_user_id"; "org_id"; "metadata"]
  None%string.

Definition AuthRepository_createUserPreferences : Insert := insert_into "user_preferences"
  ["user_id"]
  (Some (["user_id"], None))%string.

Definition AuthService_writeOutboxEvent : Insert := insert_into "outbox_events"
  ["event_type"; "entity_type"; "entity_id"; "actor_user_id"; "payload"; "occurred_at"]
  None%string.

Definition MagicLinkService_writeOutboxEvent : Insert := insert_into "outbox_events"
  ["event_type"; "entity_type"; "entity_id"; "actor_user_id"; "payload"; "occurred_at"]
  None%string.

Definition OauthService_writeOutboxEvent : Insert := insert_into "outbox_events"
  ["event_type"; "entity_type"; "entity_id"; "actor_user_id"; "payload"; "occurred_at"]
  None%string.

Definition SamlService_handleCallback : Insert := insert_into "saml_used_assertions"
  ["assertion_id"; "org_id"; "not_on_or_after"]
  None%string.

Definition ChannelRepository_create : Insert := insert_into "channels"
  ["org_id"; "type"; "name"; "created_by"; "workspace_id"]
  None%string.

Definition ChannelRepository_addMember : Insert := insert_into "channel_members"
  ["channel_id"; "user_id"; "org_id"]
  (Some (["channel_id"; "user_id"], None))%string.

Definition ChannelRepository_insertDirectPair : Insert := insert_into "direct_channel_pairs"
  ["org_id"; "user_a_id"; "user_b_id"; "channel_id"]
  None%string.

Definition ChannelService_writeOutboxEvent : Insert := insert_into "outbox_events"
  ["org_id"; "event_type"; "entity_type"; "entity_id"; "actor_user_id"; "payload"; "occurred_at"]
  None%string.

Definition MessageRepository_create : Insert := insert_into "chat_messages"
  ["id"; "org_id"; "channel_id"; "sender_id"; "client_message_id"; "sequence_number"; "body"; "body_parsed";
   "parent_message_id"; "created_at"]
  None%string.

Definition MessageService_send : Insert := insert_into "outbox_events"
  ["org_id"; "event_type"; "entity_type"; "entity_id"; "actor_user_id"; "payload"; "occurred_at"]
  None%string.

Definition FeatureFlagService_createFlag : Insert := insert_into "feature_flags"
  ["key"; "description"; "is_globally_enabled"; "enabled_org_ids"; "disabled_org_ids"]
  None%string.

Definition FileRepository_create : Insert := insert_into "files"
  ["org_id"; "uploader_id"; "filename"; "storage_key"; "mime_type"; "size_bytes"; "status"; "scan_status"]
  None%string.

Definition FileRepository_create_files : Insert := insert_into "files"
  ["org_id"; "uploader_id"; "filename"; "storage_key"; "mime_type"; "size_bytes"; "status"; "scan_status"]
  None%string.

Definition FileService_requestUploadUrl : Insert := insert_into "files"
  ["org_id"; "uploader_id"; "filename"; "storage_key"; "mime_type"; "size_bytes"; "status"; "scan_status"]
  None%string.

Definition VirusScanWorker_writeOutboxEvent : Insert := insert_into "outbox_events"
  ["org_id"; "event_type"; "entity_type"; "entity_id"; "actor_user_id"; "payload"; "occurred_at"]
  None%string.

Definition OrgExportWorker_orgExportWorkerJob : Insert := insert_into "outbox_events"
  ["org_id"; "event_type"; "entity_type"; "entity_id"; "actor_user_id"; "payload"; "occurred_at"]
  None%string.

Definition UserExportWorker_userExportWorkerJob : Insert := insert_into "outbox_events"
  ["org_id"; "event_type"; "entity_type"; "entity_id"; "actor_user_id"; "payload"; "occurred_at"]
  None%string.

Definition NotificationRepository_create : Insert := insert_into "notifications"
  ["org_id"; "user_id"; "type"; "entity_type"; "entity_id"; "actor_id"; "payload"]
  None%string.

Definition NotificationRepository_upsertPreference : Insert := insert_into "notification_preferences"
  ["org_id"; "user_id"; "event_type"]
  (Some (["org_id"; "user_id"; "event_type"], None))%string.

Definition PushService_saveSubscription : Insert := insert_into "push_subscriptions"
  ["user_id"; "org_id"; "endpoint"; "p256dh"; "auth"]
  (Some (["user_id"; "endpoint"], None))%string.

Definition MembershipRepository_createMembership : Insert := insert_into "org_memberships"
  ["org_id"; "user_id"; "role"; "invited_by"; "joined_at"]
  (Some (["org_id"; "user_id"], Some "deleted_at IS NULL"))%string.

Definition OrganizationRepository_create : Insert := insert_into "organizations"
  ["name"; "slug"; "plan_tier"; "timezone"; "locale"]
  None%string.

Definition InvitationService_writeOutboxEvent : Insert := insert_into "outbox_events"
  ["org_id"; "event_type"; "entity_type"; "entity_id"; "actor_user_id"; "payload"; "occurred_at"]
  None%string.

Definition InvitationService_seedNotificationPreferences : Insert := insert_into "notification_preferences"
  ["org_id"; "user_id"; "event_type"]
  (Some (["org_id"; "user_id"; "event_type"], None))%string.

Definition InvitationService_invite : Insert := insert_into "invitations"
  ["org_id"; "invited_by"; "email"; "role"; "token_hash"; "expires_at"]
  None%string.

Definition OrganizationService_writeOutboxEvent : Insert := insert_into "outbox_events"
  ["org_id"; "event_type"; "entity_type"; "entity_id"; "actor_user_id"; "payload"; "occurred_at"]
  None%string.

Definition OrganizationService_createOrg : Insert := insert_into "workspaces"
  ["org_id"; "name"; "owner_user_id"]
  None%string.

Definition OrganizationService_createOrg_notification_preferences : Insert := insert_into "notification_preferences"
  ["org_id"; "user_id"; "event_type"]
  (Some (["org_id"; "user_id"; "event_type"], None))%string.

Definition OrganizationService_createOrg_subscriptions : Insert := insert_into "subscriptions"
  ["org_id"; "plan_tier"; "status"]
  None%string.

Definition PaymentRepository_create : Insert := insert_into "payments"
  ["org_id"; "subscription_id"; "razorpay_order_id"; "amount_paise"; "currency"; "status"; "idempotency_key";
   "metadata"]
  None%string.

Definition PaymentRepository_upsert : Insert := insert_into "subscriptions"
  ["org_id"; "razorpay_subscription_id"; "plan_tier"; "status"; "current_period_start"; "current_period_end"]
  (Some (["org_id"], None))%string.

Definition PaymentService_writeOutboxEvent : Insert := insert_into "outbox_events"
  ["org_id"; "event_type"; "entity_type"; "entity_id"; "actor_user_id"; "payload"; "occurred_at"]
  None%string.

Definition WebhookHandler_writeOutboxEvent : Insert := insert_into "outbox_events"
  ["org_id"; "event_type"; "entity_type"; "entity_id"; "actor_user_id"; "payload"; "occurred_at"]
  None%string.

Definition PaymentWorker_writeOutboxEvent : Insert := insert_into "outbox_events"
  ["org_id"; "event_type"; "entity_type"; "entity_id"; "actor_user_id"; "payload"; "occurred_at"]
  None%string.

Definition ActivityLogService_log : Insert := insert_into "task_activity_log"
  ["org_id"; "task_id"; "actor_id"; "event_type"; "payload"]
  None%string.

Definition CommentService_createComment : Insert := insert_into "comments"
  ["org_id"; "task_id"; "author_id"; "parent_comment_id"; "body"]
  None%string.

Definition CommentService_createComment_outbox_events : Insert := insert_into "outbox_events"
  ["org_id"; "event_type"; "entity_type"; "entity_id"; "actor_user_id"; "payload"; "occurred_at"]
  None%string.

Definition MentionService_parseAndCreate : Insert := insert_into "outbox_events"
  ["org_id"; "event_type"; "entity_type"; "entity_id"; "actor_user_id"; "payload"; "occurred_at"]
  None%string.

Definition TaskRepository_create : Insert := insert_into "tasks"
  ["org_id"; "workspace_id"; "board_id"; "parent_task_id"; "depth"; "title"; "description"; "status"; "priority";
   "creator_id"; "due_date"; "is_recurring"; "recurrence_rule"; "recurrence_parent_id"; "template_id"; "labels"]
  None%string.

Definition TaskRepository_addAssignee : Insert := insert_into "task_assignees"
  ["task_id"; "user_id"; "org_id"; "assigned_by"]
  (Some (["task_id"; "user_id"], None))%string.

Definition TaskRepository_insertDependency : Insert := insert_into "task_dependencies"
  ["org_id"; "blocking_task_id"; "blocked_task_id"; "created_by"]
  None%string.

Definition TaskService_writeOutboxEvent : Insert := insert_into "outbox_events"
  ["org_id"; "event_type"; "entity_type"; "entity_id"; "actor_user_id"; "payload"; "occurred_at"]
  None%string.

Definition TemplateService_createTemplate : Insert := insert_into "task_templates"
  ["org_id"; "name"; "default_title"; "default_description"; "default_priority"; "default_labels"; "created_by"]
  None%string.

Definition RecurringTaskWorker_runRecurringTaskJob : Insert := insert_into "tasks"
  ["id"; "org_id"; "workspace_id"; "creator_id"; "title"; "description"; "priority"; "status"; "is_recurring";
   "recurrence_parent_id"; "due_date"; "depth"; "created_at"; "updated_at"]
  None%string.

Definition RecurringTaskWorker_runRecurringTaskJob_task_assignees : Insert := insert_into "task_assignees"
  ["task_id"; "user_id"; "org_id"; "assigned_by"; "assigned_at"]
  (Some ([], None))%string.

Definition RecurringTaskWorker_runRecurringTaskJob_outbox_events : Insert := insert_into "outbox_events"
  ["org_id"; "event_type"; "entity_type"; "entity_id"; "actor_user_id"; "payload"; "occurred_at"]
  None%string.

Definition WebhookRepository_create : Insert := insert_into "webhook_subscriptions"
  ["org_id"; "url"; "secret_hash"; "secret_encrypted"; "secret_preview"; "event_types"; "created_by"]
  None%string.

Definition WebhookRepository_createDeliveryLog : Insert := insert_into "webhook_delivery_log"
  ["webhook_id"; "org_id"; "event_id"; "event_type"; "status"; "attempt_count"]
  None%string.

Definition WorkspaceRepository_create : Insert := insert_into "workspaces"
  ["org_id"; "name"; "description"; "owner_user_id"]
  None%string.

Definition WorkspaceService_writeOutboxEvent : Insert := insert_into "outbox_events"
  ["org_id"; "event_type"; "entity_type"; "entity_id"; "actor_user_id"; "payload"; "occurred_at"]
  None%string.

Definition IdempotencyService_checkAndStore : Insert := insert_into "idempotency_keys"
  ["key_hash"; "org_id"; "user_id"; "endpoint"; "expires_at"]
  (Some (["key_hash"], None))%string.

Definition VideoService_handleCallJoin : Insert := insert_into "video_calls"
  ["id"; "channel_id"; "org_id"; "initiator_id"; "state"; "started_at"]
  (Some (["id"], None))%string.

End Inserts.

Definition inserts : list Insert :=
  [Inserts.AuditWorker_persistAuditLog; Inserts.AuthRepository_createUser; Inserts.AuthRepository_createRefreshToken;
   Inserts.AuthRepository_createAuthProvider; Inserts.AuthRepository_createUserPreferences;
   Inserts.AuthService_writeOutboxEvent; Inserts.MagicLinkService_writeOutboxEvent;
   Inserts.OauthService_writeOutboxEvent; Inserts.SamlService_handleCallback; Inserts.ChannelRepository_create;
   Inserts.ChannelRepository_addMember; Inserts.ChannelRepository_insertDirectPair;
   Inserts.ChannelService_writeOutboxEvent; Inserts.MessageRepository_create; Inserts.MessageService_send;
   Inserts.FeatureFlagService_createFlag; Inserts.FileRepository_create; Inserts.FileRepository_create_files;
   Inserts.FileService_requestUploadUrl; Inserts.VirusScanWorker_writeOutboxEvent;
   Inserts.OrgExportWorker_orgExportWorkerJob; Inserts.UserExportWorker_userExportWorkerJob;
   Inserts.NotificationRepository_create; Inserts.NotificationRepository_upsertPreference;
   Inserts.PushService_saveSubscription; Inserts.MembershipRepository_createMembership;
   Inserts.OrganizationRepository_create; Inserts.InvitationService_writeOutboxEvent;
   Inserts.InvitationService_seedNotificationPreferences; Inserts.InvitationService_invite;
   Inserts.OrganizationService_writeOutboxEvent; Inserts.OrganizationService_createOrg;
   Inserts.OrganizationService_createOrg_notification_preferences;
   Inserts.OrganizationService_createOrg_subscriptions; Inserts.PaymentRepository_create;
   Inserts.PaymentRepository_upsert; Inserts.PaymentService_writeOutboxEvent; Inserts.WebhookHandler_writeOutboxEvent;
   Inserts.PaymentWorker_writeOutboxEvent; Inserts.ActivityLogService_log; Inserts.CommentService_createComment;
   Inserts.CommentService_createComment_outbox_events; Inserts.MentionService_parseAndCreate;
   Inserts.TaskRepository_create; Inserts.TaskRepository_addAssignee; Inserts.TaskRepository_insertDependency;
   Inserts.TaskService_writeOutboxEvent; Inserts.TemplateService_createTemplate;
   Inserts.RecurringTaskWorker_runRecurringTaskJob; Inserts.RecurringTaskWorker_runRecurringTaskJob_task_assignees;
   Inserts.RecurringTaskWorker_runRecurringTaskJob_outbox_events; Inserts.WebhookRepository_create;
   Inserts.WebhookRepository_createDeliveryLog; Inserts.WorkspaceRepository_create;
   Inserts.WorkspaceService_writeOutboxEvent; Inserts.IdempotencyService_checkAndStore;
   Inserts.VideoService_handleCallJoin].

(** ** Running the migrations *)

(** A table with its unique indexes: their columns and their condition. *)
Record Relation := mkRelation {
  rl_name : string;
  rl_columns : list Column;
  rl_unique : list (list string * option string)
}.
Definition Catalog : Type := list Relation.

Definition find_relation (name : string) (cat : Catalog) : option Relation :=
  List.find (λ r, (rl_name r =? name)%string) cat.

Definition not_null (c : Column) : bool :=
  existsb (λ a, match a with NotNull | PrimaryKey => true | _ => false end) (cn_attributes c).
Definition default_of (c : Column) : option string :=
  hd_error (omap (λ a, match a with Default v => Some v | Generated => Some "GENERATED"%string | _ => None end) (cn_attributes c)).
Definition has_default (c : Column) : bool := negb (is_null (default_of c)).
Definition generated (c : Column) : bool :=
  existsb (λ a, match a with Generated => true | _ => false end) (cn_attributes c).
Definition is_unique (c : Column) : bool :=
  existsb (λ a, match a with Unique | PrimaryKey => true | _ => false end) (cn_attributes c).
Definition references (c : Column) : list string :=
  omap (λ a, match a with References t => Some t | _ => None end) (cn_attributes c).
Definition one_of (c : Column) : option (list string) :=
  hd_error (omap (λ a, match a with OneOf l => Some l | _ => None end) (cn_attributes c)).

Definition unique_of (t : TableDef) : list (list string * option string) :=
  ((λ c, ([cn_name c], None)) <$> List.filter is_unique (tb_columns t)) ++
  omap (λ k, match k with PrimaryKeyOf l | UniqueOf l => Some (l, None) | CheckOf _ => None end) (tb_constraints t).

(** PostgreSQL refuses a table that exists, and a reference to one that does
    not. *)
Definition known (cat : Catalog) (self : string) (name : string) : bool :=
  (name =? self)%string || negb (is_null (find_relation name cat)).

Definition apply_ddl (d : ddl) (cat : Catalog) : option Catalog :=
  match d with
  | CreateTable t =>
      if is_null (find_relation (tb_name t) cat)
         && forallb (known cat (tb_name t)) (concat (references <$> tb_columns t))
      then Some (cat ++ [mkRelation (tb_name t) (tb_columns t) (unique_of t)]) else None
  | AddColumn name c =>
      if known cat "" name && forallb (known cat name) (references c) then
        Some ((λ r, if (rl_name r =? name)%string && negb (existsb (λ c', (cn_name c' =? cn_name c)%string) (rl_columns r))
                    then mkRelation (rl_name r) (rl_columns r ++ [c]) (rl_unique r) else r) <$> cat)
      else None
  | CreateUniqueIndex name columns condition =>
      if known cat "" name then
        Some ((λ r, if (rl_name r =? name)%string
                    then mkRelation (rl_name r) (rl_columns r) (rl_unique r ++ [(columns, condition)]) else r) <$> cat)
      else None
  end.

(** The tag of a template is a function, and what the runner hands to [up], its
    [MigrationBuilder], is none: the call is a [TypeError]. *)
Definition run_call (c : call) (cat : Catalog) : option Catalog :=
  match c with
  | Pgm d => apply_ddl d cat
  | Tagged _ => None
  end.

Fixpoint run_calls (l : list call) (cat : Catalog) : option Catalog :=
  match l with
  | [] => Some cat
  | c :: l => match run_call c cat with Some cat => run_calls l cat | None => None end
  end.

(** The runner takes the files in order, in one transaction: a failure leaves
    the database as it was. *)
Definition run_migrations (files : list (string * list call)) : option Catalog := run_calls (concat (snd <$> files)) [].

(** The files as they are meant: with [pgm.sql] for the tag. *)
Definition meant (c : call) : call := match c with Pgm d | Tagged d => Pgm d end.
Definition meant_migrations : list (string * list call) := (λ f : string * list call, (f.1, meant <$> f.2)) <$> migrations.

(** The schema they describe, which no run of the files as they are makes. *)
Definition intended_schema : Catalog := run_migrations meant_migrations ?? [].

(** The files as they are fail at the last of them, so that the database has no
    table and the server is never ready; as they are meant they make the 33
    tables. *)
Theorem migrations_correct :
  run_migrations migrations = None ∧
  is_Some (run_migrations (take 17 migrations)) ∧
  run_migrations meant_migrations = Some intended_schema ∧ length intended_schema = 33 ∧
  ∀ files subscribed, sv_appReady (List.last (start (negb (is_null (run_migrations files))) subscribed).1 stopped) =
    negb (is_null (run_migrations files)).
Proof.
  split_and!; [vm_compute; reflexivity|vm_compute; eexists; reflexivity|vm_compute; reflexivity|vm_compute; reflexivity|].
  intros files subscribed. by destruct (negb _), subscribed.
Qed.

(** ** The statements *)

Inductive issue :=
  | NoTable
  | NoColumn (c : string)
  | NotInsertable (c : string)
  | NoValue (c : string)
  | NoIndex.

Definition is_column (r : Relation) (name : string) : bool := existsb (λ c, (cn_name c =? name)%string) (rl_columns r).

(** An index serves [ON CONFLICT] when its columns are those of the target, and
    its condition is none or the target's. *)
Definition same_columns (l l' : list string) : bool := forallb (includes l) l' && forallb (includes l') l.
Definition serves_target (target : list string * option string) (index : list string * option string) : bool :=
  same_columns target.1 index.1 &&
  match index.2 with None => true | Some _ => bool_decide (index.2 = target.2) end.

Definition issues (cat : Catalog) (s : Insert) : list issue :=
  match find_relation (in_table s) cat with
  | None => [NoTable]
  | Some r =>
      (NoColumn <$> List.filter (λ c, negb (is_column r c)) (in_columns s)) ++
      (NotInsertable <$> List.filter (includes (in_columns s)) (cn_name <$> List.filter generated (rl_columns r))) ++
      (NoValue <$> (cn_name <$>
        List.filter (λ c, not_null c && negb (has_default c) && negb (includes (in_columns s) (cn_name c))) (rl_columns r))) ++
      match in_conflict s with
      | Some (target, condition) =>
          if is_null (hd_error target) || existsb (serves_target (target, condition)) (rl_unique r) then [] else [NoIndex]
      | None => []
      end
  end.

Lemma inserts_checked s : s ∈ inserts → issues intended_schema s = [].
Proof. revert s. apply Forall_forall, (bool_decide_unpack _). vm_compute. exact I. Qed.

(** The row an [INSERT] makes of the values it is given: [None] is [NULL]. *)
Definition value_of (s : Insert) (values : string → option string) (c : Column) : option string :=
  if includes (in_columns s) (cn_name c) then values (cn_name c)
  else default_of c.

(** Every [INSERT] of the program fits the schema the migrations describe: it
    names a table and columns of it, none of them generated; a column that needs
    a value and has no default is among them, so that it makes a row, which
    breaks a [NOT NULL] only by a value it was given; and an index answers for
    the target of its [ON CONFLICT]. *)
Theorem inserts_fit_schema s values :
  s ∈ inserts →
  ∃ r, find_relation (in_table s) intended_schema = Some r ∧
    (∀ c, c ∈ in_columns s → ∃ c', c' ∈ rl_columns r ∧ cn_name c' = c) ∧
    (∀ c, c ∈ rl_columns r → not_null c = true →
      (includes (in_columns s) (cn_name c) = true → is_Some (values (cn_name c))) → is_Some (value_of s values c)) ∧
    (∀ target condition, in_conflict s = Some (target, condition) → target ≠ [] →
      ∃ index, index ∈ rl_unique r ∧ serves_target (target, condition) index = true).
Proof.
  intros Hs%inserts_checked. unfold issues in Hs. destruct (find_relation _ _) as [r|]; [|done]. exists r. split; [done|].
  apply app_eq_nil in Hs as [Hc [_ [Hv Hi]%app_eq_nil]%app_eq_nil]. split_and!.
  - intros c Hin. apply fmap_nil_inv in Hc. rewrite filter_nil_iff in Hc. specialize (Hc c Hin). apply negb_false_iff in Hc.
    apply existsb_exists in Hc as (c' & Hc'%list_elem_of_In & E%String.eqb_eq). by exists c'.
  - intros c Hin Hn Hgiven. apply fmap_nil_inv, fmap_nil_inv in Hv. rewrite filter_nil_iff in Hv.
    specialize (Hv c Hin). rewrite Hn in Hv. unfold value_of, has_default in *.
    destruct (includes _ _); [auto|]. destruct (default_of c); [by eexists|done].
  - intros target condition E Hne. rewrite E in Hi. destruct target as [|c target]; [done|]. cbn [hd_error is_null orb] in Hi.
    destruct (existsb _ _) eqn:Ex; [|done]. apply existsb_exists in Ex as (index & Hin%list_elem_of_In & Hm). by exists index.
Qed.

(** ** Enumerations *)

Definition allowed (name c : string) : option (list string) :=
  match find_relation name intended_schema with
  | Some r => match List.find (λ c', (cn_name c' =? c)%string) (rl_columns r) with Some c' => one_of c' | None => None end
  | None => None
  end.

(** The texts a column allows are those of the constructors of a type, each
    once. *)
Definition stands_for {A} (name c : string) (str : A → string) (values : list A) : Prop :=
  allowed name c = Some (str <$> values) ∧ (∀ a, a ∈ values) ∧ NoDup values.

Ltac enumerated :=
  split; [vm_compute; reflexivity|split];
    [intros []; rewrite !elem_of_cons; tauto
    |repeat constructor; rewrite ?elem_of_cons, ?elem_of_nil; intuition discriminate].

(** The columns of that schema and the types of the rows of [Schema] have the
    same values. *)
Theorem enumerations_agree :
  stands_for "users" "status" JwtMiddleware.user_status_str [UActive; USuspended; UDeleted] ∧
  stands_for "organizations" "status" org_status_str [OrgActive; OrgSuspended; OrgOffboarding; OrgDeleted] ∧
  stands_for "organizations" "plan_tier" plan_tier_str [PFree; PPro; PBusiness; PEnterprise] ∧
  stands_for "org_memberships" "role" role_str [OrgOwner; OrgAdmin; Member; Guest] ∧
  stands_for "org_memberships" "status" member_status_str [MActive; MSuspended; MRemoved] ∧
  stands_for "invitations" "status" invitation_status_str [InvPending; InvAccepted; InvExpired; InvRevoked] ∧
  stands_for "workspaces" "status" workspace_status_str [WsActive; WsArchived] ∧
  stands_for "tasks" "status" task_status_str [Todo; InProgress; InReview; Done; Cancelled] ∧
  stands_for "tasks" "priority" task_priority_str [Low; Medium; High; Urgent] ∧
  stands_for "channels" "type" channel_type_str [Direct; Group] ∧
  stands_for "notification_preferences" "digest_mode" digest_mode_str [Realtime; DailyDigest] ∧
  stands_for "files" "status" file_status_str [FPending; FConfirmed; FQuarantined; FDeleted] ∧
  stands_for "files" "scan_status" scan_status_str [ScanPending; ScanClean; ScanInfected] ∧
  stands_for "payments" "status" payment_status_str
    [PayCreated; PayAuthorized; PayCaptured; PayFailed; PayRefunded; PayDisputed] ∧
  stands_for "subscriptions" "status" subscription_status_str [SubActive; SubHalted; SubCancelled; SubExpired; SubPending] ∧
  stands_for "outbox_events" "status" OutboxPoller.outbox_status_str [ObPending; ObPublished; ObFailed] ∧
  stands_for "audit_logs" "actor_type" actor_type_str [ActUser; ActSystem; ActPlatformAdmin].
Proof. split_and!; enumerated. Qed.

(** ** Tenants *)

(** The tables without a column for the organization, and those where it may be
    [NULL]. *)
Definition org_column (r : Relation) : option bool :=
  not_null <$> List.find (λ c, (cn_name c =? "org_id")%string) (rl_columns r).

Example without_organization :
  rl_name <$> List.filter (λ r, negb (bool_decide (org_column r = Some true))) intended_schema =
  ["users"; "auth_providers"; "user_preferences"; "refresh_tokens"; "organizations"; "idempotency_keys"; "audit_logs";
   "outbox_events"; "feature_flags"]%string.
Proof. vm_compute. reflexivity. Qed.

Module MigrationExamples.

(** What the check refuses: a column that does not exist, a title that is
    missing, a conflict without an index. *)
Example misfits :
  issues intended_schema (insert_into "tasks" ["org_id"; "workspace_id"; "creator_id"; "assignee_id"] (Some (["title"], None)))%string =
  [NoColumn "assignee_id"; NoValue "title"; NoIndex]%string.
Proof. vm_compute. reflexivity. Qed.
End MigrationExamples.
