(* ===== verification/Client.v ===== *)
(** * Client: the Angular application in the browser

    [frontend/src/app/core]: the services with their signals, the interceptors
    of every request, and the guards.  An observable is the program it runs
    when it is subscribed ([Obs]); the browser runs the subscribed ones, each
    up to its next request, as replies arrive ([Browser]).  What no subscriber
    asks for never runs.  Types of TypeScript are erased: a value is JSON or
    undefined ([None]). *)
From S2P Require Import Prelude World Crypto Concrete.
From Stdlib Require Import ZArith Lia.
From stdpp Require Import base tactics strings gmap list.

#[local] Open Scope string_scope.

(** ** Models *)

(** [a ?? b]. *)
Definition nullish_or (a b : option json) : option json :=
  match a with None | Some JNull => b | _ => a end.

(** A value as a condition, and as text. *)
Definition js_truthy (v : option json) : bool :=
  match v with
  | None | Some JNull | Some (JBool false) => false
  | Some (JNum n) => negb (n =? 0)%Z
  | Some (JStr s) => truthy s
  | _ => true
  end.

(** What the storage keeps of a value: its text, [String(v)]. *)
Fixpoint js_string (j : json) : string :=
  match j with
  | JStr s => s
  | JArr l => String.concat "," (map (λ j, match j with JNull => "" | _ => js_string j end) l)
  | JObj _ => "[object Object]"
  | j => stringify j
  end.
Definition js_text (v : option json) : string := match v with None => "undefined" | Some j => js_string j end.

Definition js_is (v : option json) (s : string) : bool :=
  match v with Some (JStr t) => t =? s | _ => false end.

Record Org := mkOrg {
  og_id : option json;
  og_name : option json;
  og_slug : option json;
  og_status : option json;
  og_plan : option json
}.
Definition toOrg (dto : json) : Org :=
  mkOrg (jget "id" dto) (jget "name" dto) (jget "slug" dto)
    (if js_is (jget "status" dto) "deleted" then Some (JStr "cancelled") else jget "status" dto) (jget "plan_tier" dto).

Record Task := mkTask {
  tk_id : option json;
  tk_orgId : option json;
  tk_workspaceId : option json;
  tk_title : option json;
  tk_description : option json;
  tk_status : option json;
  tk_priority : option json;
  tk_assigneeIds : option json;
  tk_dueDate : option json;
  tk_version : option json;
  tk_createdAt : option json;
  tk_updatedAt : option json
}.
#[export] Instance eta_Task : Eta Task := fun r =>
  mkTask (tk_id r) (tk_orgId r) (tk_workspaceId r) (tk_title r) (tk_description r) (tk_status r) (tk_priority r)
    (tk_assigneeIds r) (tk_dueDate r) (tk_version r) (tk_createdAt r) (tk_updatedAt r).
Definition toTask (dto : json) : Task :=
  mkTask (jget "id" dto) (jget "org_id" dto) (jget "workspace_id" dto) (jget "title" dto) (jget "description" dto)
    (jget "status" dto) (jget "priority" dto) (nullish_or (jget "assignee_ids" dto) (Some (JArr []))) (jget "due_date" dto)
    (jget "version" dto) (jget "created_at" dto) (jget "updated_at" dto).

Record Message := mkMessage {
  ms_id : option json;
  ms_channelId : option json;
  ms_senderUserId : option json;
  ms_body : option json;
  ms_clientMessageId : option json;
  ms_createdAt : option json;
  ms_attachments : option json
}.
Definition toMessage (dto : json) : Message :=
  mkMessage (jget "id" dto) (jget "channel_id" dto) (jget "sender_user_id" dto) (jget "body" dto)
    (jget "client_message_id" dto) (jget "created_at" dto) (nullish_or (jget "attachments" dto) (Some (JArr []))).

Record Channel := mkChannel {
  cn_id : option json;
  cn_orgId : option json;
  cn_workspaceId : option json;
  cn_type : option json;
  cn_name : option json;
  cn_createdAt : option json
}.
Definition toChannel (dto : json) : Channel :=
  mkChannel (jget "id" dto) (jget "org_id" dto) (jget "workspace_id" dto) (jget "type" dto) (jget "name" dto)
    (jget "created_at" dto).

Record Workspace := mkWorkspace {
  wk_id : option json;
  wk_orgId : option json;
  wk_name : option json;
  wk_description : option json;
  wk_status : option json;
  wk_ownerUserId : option json;
  wk_version : option json;
  wk_createdAt : option json;
  wk_updatedAt : option json
}.
Definition toWorkspace (dto : json) : Workspace :=
  mkWorkspace (jget "id" dto) (jget "org_id" dto) (jget "name" dto) (jget "description" dto) (jget "status" dto)
    (jget "owner_user_id" dto) (jget "version" dto) (jget "created_at" dto) (jget "updated_at" dto).

Record Notification := mkNotification {
  nt_id : option json;
  nt_orgId : option json;
  nt_userId : option json;
  nt_type : option json;
  nt_entityType : option json;
  nt_entityId : option json;
  nt_actorId : option json;
  nt_payload : option json;
  nt_isRead : option json;
  nt_readAt : option json;
  nt_createdAt : option json
}.
#[export] Instance eta_Notification : Eta Notification := fun r =>
  mkNotification (nt_id r) (nt_orgId r) (nt_userId r) (nt_type r) (nt_entityType r) (nt_entityId r) (nt_actorId r)
    (nt_payload r) (nt_isRead r) (nt_readAt r) (nt_createdAt r).
Definition toNotification (dto : json) : Notification :=
  mkNotification (jget "id" dto) (jget "org_id" dto) (jget "user_id" dto) (jget "type" dto) (jget "entity_type" dto)
    (jget "entity_id" dto) (jget "actor_id" dto) (jget "payload" dto) (jget "is_read" dto) (jget "read_at" dto)
    (jget "created_at" dto).

Record Comment := mkComment {
  cc_id : option json;
  cc_taskId : option json;
  cc_authorUserId : option json;
  cc_body : option json;
  cc_createdAt : option json
}.
Definition toComment (dto : json) : Comment :=
  mkComment (jget "id" dto) (jget "task_id" dto) (jget "author_user_id" dto) (jget "body" dto) (jget "created_at" dto).

(** A user is kept as the object it is; a property that is undefined is left
    out. *)
Definition js_object (fields : list (string * option json)) : json :=
  JObj (omap (λ '(k, v), (λ v, (k, v)) <$> v) fields).
Definition defaultPreferences : json :=
  JObj [("timezone", JStr "UTC"); ("locale", JStr "en-US"); ("theme", JStr "dark"); ("dateFormat", JStr "DD/MM/YYYY")].
Definition toUser (dto : json) : json :=
  js_object
    [("id", jget "id" dto); ("email", jget "email" dto); ("name", jget "name" dto); ("bio", jget "bio" dto);
     ("avatarUrl", jget "avatar_url" dto); ("emailVerified", jget "email_verified" dto);
     ("mfaEnabled", jget "mfa_enabled" dto); ("role", jget "role" dto);
     ("preferences", nullish_or (jget "preferences" dto) (Some defaultPreferences)); ("createdAt", jget "created_at" dto)].

(** [res.data.map(f)] and [f(res.data)]; none where they throw. *)
Definition data_of (res : option json) : option json := res ≫= jget "data".
Definition is_object (j : json) : bool := match j with JNull => false | _ => true end.
Definition map_data {A} (f : json → A) (res : option json) : option (list A) :=
  match data_of res with Some (JArr l) => if forallb is_object l then Some (f <$> l) else None | _ => None end.
Definition one_data {A} (f : json → A) (res : option json) : option A :=
  match data_of res with Some j => if is_object j then Some (f j) else None | None => None end.

(** ** The state of the browser's tab *)

Inductive UploadState := UPending | UUploading | UScanning | UReady | URejected | UCancelled | UError.

(** A file on its way; its size and type are the browser's. *)
Record FileUpload := mkFileUpload {
  up_id : string;
  up_state : UploadState;
  up_progress : Z;
  up_fileId : option string;
  up_error : option string
}.
#[export] Instance eta_FileUpload : Eta FileUpload := fun r =>
  mkFileUpload (up_id r) (up_state r) (up_progress r) (up_fileId r) (up_error r).

Record Client := mkClient {
  (** [localStorage]. *)
  cl_accessToken : option string;
  cl_refreshToken : option string;
  (** [AuthService]: its user (none when null or undefined), and [refreshing$]. *)
  cl_currentUser : option json;
  cl_isLoading : bool;
  cl_refreshing : bool;
  (** [TenantService]. *)
  cl_activeOrg : option Org;
  cl_userOrgs : list Org;
  (** The lists the services show. *)
  cl_workspaces : list Workspace;
  cl_activeWorkspace : option Workspace;
  cl_tasks : list Task;
  cl_channels : list Channel;
  cl_messages : list Message;
  cl_sending : bool;
  cl_notifications : list Notification;
  cl_unreadCount : Z;
  (** [FileUploadComponent]. *)
  cl_uploads : list FileUpload;
  (** Their [loading] signals: workspaces, tasks, channels, notifications. *)
  cl_loading : list string;
  (** Where the router has been sent. *)
  cl_navigated : list string;
  (** Identifiers drawn by [crypto.randomUUID]. *)
  cl_draws : nat
}.
#[export] Instance eta_Client : Eta Client := fun r =>
  mkClient (cl_accessToken r) (cl_refreshToken r) (cl_currentUser r) (cl_isLoading r) (cl_refreshing r)
    (cl_activeOrg r) (cl_userOrgs r) (cl_workspaces r) (cl_activeWorkspace r) (cl_tasks r) (cl_channels r)
    (cl_messages r) (cl_sending r) (cl_notifications r) (cl_unreadCount r) (cl_uploads r) (cl_loading r)
    (cl_navigated r) (cl_draws r).

Definition fresh_client (access refresh : option string) : Client :=
  mkClient access refresh None false false None [] [] None [] [] [] false [] 0 [] [] [] 0.

(** [activeOrg()?.id ?? null]. *)
Definition activeOrgId (c : Client) : option string :=
  match cl_activeOrg c ≫= og_id with Some (JStr s) => Some s | _ => None end.
(** [!!currentUser]. *)
Definition isLoggedIn (c : Client) : bool := js_truthy (cl_currentUser c).

(** ** Observables *)

Record HttpRequest := mkHttpRequest {
  hr_method : string;
  hr_url : string;
  hr_authorization : option string;
  hr_org_id : option string;
  hr_idempotency_key : option string;
  hr_body : option json
}.
#[export] Instance eta_HttpRequest : Eta HttpRequest := fun r =>
  mkHttpRequest (hr_method r) (hr_url r) (hr_authorization r) (hr_org_id r) (hr_idempotency_key r) (hr_body r).

(** What comes back: a status, 0 when nothing did, and the JSON of the body. *)
Record Reply := mkReply { rp_status : Z; rp_body : option json }.

Inductive exn :=
  | HttpErrorResponse (status : Z) (body : option json)
  | AppError (code message : json) (status : Z)
  | TypeError
  | JsError (message : string).

(** [err.status]. *)
Definition exn_status (e : exn) : option Z :=
  match e with HttpErrorResponse s _ | AppError _ _ s => Some s | _ => None end.

(** What an observable does once it is subscribed: it completes with one value
    or none, fails, changes the state or reads it, waits for the reply to a
    request, or for a condition of the state. *)
Inductive Obs (A : Type) :=
  | Next (a : A)
  | Empty
  | Err (e : exn)
  | Tap (f : Client → Client) (next : Obs A)
  | Peek (next : Client → Obs A)
  | Send (rq : HttpRequest) (next : Reply → Obs A)
  | Await (ready : Client → bool) (next : Obs A).
#[global] Arguments Next {_} _.
#[global] Arguments Empty {_}.
#[global] Arguments Err {_} _.
#[global] Arguments Tap {_} _ _.
#[global] Arguments Peek {_} _.
#[global] Arguments Send {_} _ _.
#[global] Arguments Await {_} _ _.

(** [pipe(map(f))], [pipe(switchMap(f))]. *)
Fixpoint pipe {A B} (o : Obs A) (f : A → Obs B) : Obs B :=
  match o with
  | Next a => f a
  | Empty => Empty
  | Err e => Err e
  | Tap g o => Tap g (pipe o f)
  | Peek o => Peek (λ c, pipe (o c) f)
  | Send rq o => Send rq (λ r, pipe (o r) f)
  | Await ready o => Await ready (pipe o f)
  end.

Fixpoint catchError {A} (o : Obs A) (f : exn → Obs A) : Obs A :=
  match o with
  | Next a => Next a
  | Empty => Empty
  | Err e => f e
  | Tap g o => Tap g (catchError o f)
  | Peek o => Peek (λ c, catchError (o c) f)
  | Send rq o => Send rq (λ r, catchError (o r) f)
  | Await ready o => Await ready (catchError o f)
  end.

(** A value that may have thrown on its way. *)
Definition of_option {A} (v : option A) : Obs A := match v with Some a => Next a | None => Err TypeError end.

(** ** Interceptors *)

(** What the platform gives: Angular's text for a failed response, the payload
    of a token ([JSON.parse(atob(token.split('.')[1]))], none when it throws)
    and the text of a date. *)
Class Platform := {
  http_message : Z → string;
  token_payload : string → option json;
  toISOString : Z → string
}.

Section http.
Context `{Random, Platform}.

(** The last handler: the request itself. *)
Definition backend (rq : HttpRequest) : Obs Reply :=
  Send rq (λ r,
    if ((200 <=? rp_status r) && (rp_status r <? 300))%Z then Next r
    else Err (HttpErrorResponse (rp_status r) (rp_body r))).

(** [err.error?.error?.code ?? 'UNKNOWN_ERROR']. *)
Definition error_of (k : string) (body : option json) (fallback : string) : json :=
  nullish_or ((body ≫= jget "error") ≫= jget k) (Some (JStr fallback)) ?? JStr fallback.

Definition errorInterceptor (next : HttpRequest → Obs Reply) (rq : HttpRequest) : Obs Reply :=
  catchError (next rq) (λ e,
    match e with
    | HttpErrorResponse status body =>
        Err (AppError (error_of "code" body "UNKNOWN_ERROR") (error_of "message" body (http_message status)) status)
    | e => Err e
    end).

Definition MUTATING : list string := ["POST"; "PUT"; "PATCH"; "DELETE"].

Definition idempotencyInterceptor (next : HttpRequest → Obs Reply) (rq : HttpRequest) : Obs Reply :=
  if negb (includes MUTATING (hr_method rq)) then next rq
  else
    Peek (λ c, Tap (λ c, c <| cl_draws := S (cl_draws c) |>)
      (next (rq <| hr_idempotency_key := Some (random_uuid (cl_draws c)) |>))).

Definition AUTH_URLS : list string :=
  ["/api/v1/auth/login"; "/api/v1/auth/register"; "/api/v1/auth/refresh"; "/api/v1/auth/verify-email";
   "/api/v1/auth/forgot-password"; "/api/v1/auth/reset-password"].

(** [AUTH_URLS.some(url => req.url.includes(url))]. *)
Definition isAuthUrl (url : string) : bool := existsb (λ u, negb (is_null (String.index 0 u url))) AUTH_URLS.

Definition addHeaders (rq : HttpRequest) (token orgId : option string) : HttpRequest :=
  let rq := if otruthy token then rq <| hr_authorization := (λ t, "Bearer " +:+ t) <$> token |> else rq in
  if otruthy orgId then rq <| hr_org_id := orgId |> else rq.

(** [logout]; [storage.clear] leaves the organization. *)
Definition logout : Obs unit :=
  Tap (λ c, c <| cl_currentUser := None |> <| cl_accessToken := None |> <| cl_refreshToken := None |>
              <| cl_navigated := (cl_navigated c ++ ["/auth/login"])%list |>) (Next tt).

(** [refreshToken]: the first caller raises [refreshing$] and makes the
    observable of the request, [AuthService.refresh_request] below, which it keeps
    in a field that nothing reads; everyone waits for [refreshing$] to fall. *)
Definition refreshToken : Obs string :=
  Peek (λ c, (if cl_refreshing c then id else Tap (λ c, c <| cl_refreshing := true |>))
    (Await (λ c, negb (cl_refreshing c))
      (Peek (λ c,
        match cl_accessToken c with
        | Some t => if truthy t then Next t else Err (JsError "No token after refresh")
        | None => Err (JsError "No token after refresh")
        end)))).

Definition is_401 (e : exn) : bool := match exn_status e with Some s => (s =? 401)%Z | None => false end.

Definition jwtInterceptor (next : HttpRequest → Obs Reply) (rq : HttpRequest) : Obs Reply :=
  if isAuthUrl (hr_url rq) then next rq
  else
    Peek (λ c,
      catchError (next (addHeaders rq (cl_accessToken c) (activeOrgId c))) (λ e,
        if negb (is_401 e) then Err e
        else
          pipe refreshToken (λ newToken, Peek (λ c,
            catchError (next (addHeaders rq (Some newToken) (activeOrgId c))) (λ e2,
              if is_401 e2 then pipe logout (λ _, Err e2) else Err e2))))).

(** [HttpClient] with the interceptors in the order of [app.config.ts]. *)
Definition request (method url : string) (body : option json) : Obs Reply :=
  jwtInterceptor (idempotencyInterceptor (errorInterceptor backend)) (mkHttpRequest method url None None None body).
Definition http_get (url : string) : Obs Reply := request "GET" url None.
Definition http_post (url : string) (body : json) : Obs Reply := request "POST" url (Some body).
Definition http_patch (url : string) (body : json) : Obs Reply := request "PATCH" url (Some body).
Definition http_delete (url : string) (body : option json) : Obs Reply := request "DELETE" url body.

(** [res.data] through a model. *)
Definition mapped {A} (f : json → A) (o : Obs Reply) : Obs A := pipe o (λ r, of_option (one_data f (rp_body r))).
Definition mapped_list {A} (f : json → A) (o : Obs Reply) : Obs (list A) :=
  pipe o (λ r, of_option (map_data f (rp_body r))).
(** [map(() => void 0)]. *)
Definition ignored (o : Obs Reply) : Obs unit := pipe o (λ _, Next tt).
End http.

(** ** Services *)

Definition set_state {A} (f : Client → Client) (a : A) : Obs A := Tap f (Next a).

(** [router.navigate([path])]. *)
Definition go (path : string) (c : Client) : Client := c <| cl_navigated := (cl_navigated c ++ [path])%list |>.

(** [this.tenant.activeOrgId()!] in a template: [null] is a text too. *)
Definition org_path (c : Client) (rest : string) : string := "/api/v1/orgs/" +:+ (activeOrgId c ?? "null") +:+ rest.

(** [loading.set(true)], and [false]. *)
Definition begin_loading (what : string) (c : Client) : Client := c <| cl_loading := what :: cl_loading c |>.
Definition end_loading (what : string) (c : Client) : Client :=
  c <| cl_loading := List.filter (λ x, negb (x =? what)) (cl_loading c) |>.

(** [catchError(err => { loading.set(false); return throwError(() => err); })]. *)
Definition or_unload {A} (what : string) (o : Obs A) : Obs A := catchError o (λ e, Tap (end_loading what) (Err e)).

Module AuthService.
Section service.
Context `{Random, Platform}.

(** The two tokens of [res.data] are put in the storage, which keeps the text
    of what it gets. *)
Definition keep_tokens (data : json) (c : Client) : Client :=
  c <| cl_currentUser := jget "user" data |> <| cl_accessToken := Some (js_text (jget "accessToken" data)) |>
    <| cl_refreshToken := Some (js_text (jget "refreshToken" data)) |>.

(** [LoginResult]: a user (which may be undefined), or none when a second
    factor is asked for. *)
Definition login (email password : string) : Obs (option (option json)) :=
  Tap (λ c, c <| cl_isLoading := true |>)
    (catchError
      (pipe (http_post "/api/v1/auth/login" (JObj [("email", JStr email); ("password", JStr password)])) (λ res,
        pipe (of_option (one_data id (rp_body res))) (λ data,
          pipe (if js_truthy (jget "mfa_required" data) then Next None
                else set_state (keep_tokens data) (Some (jget "user" data)))
            (λ result, set_state (λ c, c <| cl_isLoading := false |>) result))))
      (λ e, Tap (λ c, c <| cl_isLoading := false |>) (Err e))).

Definition register (name email password : string) : Obs unit :=
  ignored (http_post "/api/v1/auth/register"
    (JObj [("name", JStr name); ("email", JStr email); ("password", JStr password)])).

Definition verifyEmail (token : string) : Obs unit :=
  ignored (http_post "/api/v1/auth/verify-email" (JObj [("token", JStr token)])).

Definition submitMfa (code : string) : Obs (option json) :=
  pipe (http_post "/api/v1/auth/mfa/verify" (JObj [("code", JStr code)])) (λ res,
    pipe (of_option (one_data id (rp_body res))) (λ data, set_state (keep_tokens data) (jget "user" data))).

(** The observable [refreshToken] keeps in its field. *)
Definition refresh_request (c : Client) : Obs string :=
  catchError
    (pipe (http_post "/api/v1/auth/refresh" (JObj [("refreshToken", jopt (cl_refreshToken c))])) (λ res,
      pipe (of_option (one_data id (rp_body res))) (λ data,
        set_state (λ c, c <| cl_accessToken := Some (js_text (jget "accessToken" data)) |> <| cl_refreshing := false |>)
          (js_text (jget "accessToken" data)))))
    (λ e, Tap (λ c, c <| cl_refreshing := false |>) (pipe logout (λ _, Err e))).

Definition handleSsoToken (token : string) : Obs unit :=
  pipe (of_option (token_payload token)) (λ payload,
    let user := js_object
      [("id", jget "sub" payload); ("email", jget "email" payload);
       ("name", nullish_or (jget "name" payload) (jget "email" payload)); ("bio", Some JNull); ("avatarUrl", Some JNull);
       ("emailVerified", Some (JBool true)); ("mfaEnabled", nullish_or (jget "mfaEnabled" payload) (Some (JBool false)));
       ("role", nullish_or (jget "role" payload) (Some (JStr "member"))); ("preferences", Some defaultPreferences);
       ("createdAt", Some (JStr (match jnum "iat" payload with
                                 | Some t => if (t =? 0)%Z then "" else toISOString (t * 1000) | None => "" end)))] in
    set_state (λ c,
      let c := c <| cl_accessToken := Some token |> in
      (if js_truthy (jget "refreshToken" payload)
       then c <| cl_refreshToken := Some (js_text (jget "refreshToken" payload)) |> else c)
        <| cl_currentUser := Some user |>) tt).

Definition updateCurrentUser (user : json) (c : Client) : Client := c <| cl_currentUser := Some user |>.
End service.
End AuthService.

Module TenantService.
Section service.
Context `{Random, Platform}.
Definition setOrg (org : Org) (c : Client) : Client := c <| cl_activeOrg := Some org |>.
Definition loadUserOrgs : Obs (list Org) :=
  pipe (mapped_list toOrg (http_get "/api/v1/orgs/mine")) (λ orgs, set_state (λ c, c <| cl_userOrgs := orgs |>) orgs).
End service.
End TenantService.

Module WorkspaceService.
Section service.
Context `{Random, Platform}.
Definition load : Obs (list Workspace) := Peek (λ c,
  if negb (otruthy (activeOrgId c)) then Empty
  else
    Tap (begin_loading "workspaces")
      (or_unload "workspaces"
        (pipe (mapped_list toWorkspace (http_get (org_path c "/workspaces"))) (λ ws,
          set_state (λ c, end_loading "workspaces" (c <| cl_workspaces := ws |>)) ws)))).

Definition find_workspace (id : string) (c : Client) : option Workspace :=
  List.find (λ w, js_is (wk_id w) id) (cl_workspaces c).

Definition loadOne (id : string) : Obs Workspace := Peek (λ c,
  match find_workspace id c with
  | Some w => set_state (λ c, c <| cl_activeWorkspace := Some w |>) w
  | None =>
      pipe load (λ _, Peek (λ c,
        match find_workspace id c with
        | Some w => set_state (λ c, c <| cl_activeWorkspace := Some w |>) w
        | None => Err (JsError ("Workspace " +:+ id +:+ " not found"))
        end))
  end).

Definition create (name : string) (description : option string) : Obs Workspace := Peek (λ c,
  pipe (mapped toWorkspace (http_post (org_path c "/workspaces")
    (js_object [("name", Some (JStr name)); ("description", JStr <$> description)])))
    (λ w, set_state (λ c, c <| cl_workspaces := (cl_workspaces c ++ [w])%list |>) w)).
End service.
End WorkspaceService.

Module TaskService.
Section service.
Context `{Random, Platform}.

Definition load (workspaceId : string) : Obs (list Task) := Peek (λ c,
  if negb (otruthy (activeOrgId c)) then Empty
  else
    Tap (begin_loading "tasks")
      (or_unload "tasks"
        (pipe (mapped_list toTask (http_get (org_path c ("/tasks?workspace_id=" +:+ workspaceId)))) (λ tasks,
          set_state (λ c, end_loading "tasks" (c <| cl_tasks := tasks |>)) tasks)))).

Definition create (workspaceId title : string) (priority dueDate : option string) : Obs Task := Peek (λ c,
  pipe (mapped toTask (http_post (org_path c "/tasks")
    (JObj [("workspace_id", JStr workspaceId); ("title", JStr title); ("priority", JStr (priority ?? "medium"));
           ("due_date", jopt dueDate); ("assignee_ids", JArr [])])))
    (λ task, set_state (λ c, c <| cl_tasks := (cl_tasks c ++ [task])%list |>) task)).

(** [{ ...body, attachments }]. *)
Definition addComment (taskId : string) (body : list (string * json)) (attachments : list string) : Obs Comment :=
  Peek (λ c,
    mapped toComment (http_post (org_path c ("/tasks/" +:+ taskId +:+ "/comments"))
      (JObj [("body", JObj (body ++ [("attachments", JArr (JStr <$> attachments))])%list)]))).

(** [tasks.map(t => t.id === taskId ? f(t) : t)]. *)
Definition with_task (taskId : string) (f : Task → Task) (tasks : list Task) : list Task :=
  (λ t, if js_is (tk_id t) taskId then f t else t) <$> tasks.

Definition updateStatus (taskId status : string) (version : json) : Obs Task := Peek (λ c,
  let snapshot := cl_tasks c in
  Tap (λ c, c <| cl_tasks := with_task taskId (λ t, t <| tk_status := Some (JStr status) |>) (cl_tasks c) |>)
    (catchError
      (pipe (mapped toTask (http_patch (org_path c ("/tasks/" +:+ taskId))
        (JObj [("status", JStr status); ("version", version)])))
        (λ updated, set_state (λ c, c <| cl_tasks := with_task taskId (λ _, updated) (cl_tasks c) |>) updated))
      (λ e, Tap (λ c, c <| cl_tasks := snapshot |>) (Err e)))).
End service.
End TaskService.

Module ChannelService.
Section service.
Context `{Random, Platform}.

Definition load (workspaceId : string) : Obs (list Channel) := Peek (λ c,
  if negb (otruthy (activeOrgId c)) then Empty
  else
    Tap (begin_loading "channels")
      (or_unload "channels"
        (pipe (mapped_list toChannel (http_get (org_path c ("/channels?workspace_id=" +:+ workspaceId)))) (λ ch,
          set_state (λ c, end_loading "channels" (c <| cl_channels := ch |>)) ch)))).

Definition create (name workspaceId : string) : Obs Channel := Peek (λ c,
  pipe (mapped toChannel (http_post (org_path c "/channels/workspace")
    (JObj [("name", JStr name); ("workspace_id", JStr workspaceId)])))
    (λ ch, set_state (λ c, c <| cl_channels := (cl_channels c ++ [ch])%list |>) ch)).
End service.
End ChannelService.

(** [m.id === incoming.id]. *)
Definition json_is (a b : option json) : bool :=
  match a, b with
  | None, None | Some JNull, Some JNull => true
  | Some (JBool x), Some (JBool y) => Bool.eqb x y
  | Some (JNum x), Some (JNum y) => (x =? y)%Z
  | Some (JStr x), Some (JStr y) => x =? y
  | _, _ => false
  end.

Module MessageService.
Section service.
Context `{Random, Platform}.

Definition load (channelId : string) : Obs (list Message) := Peek (λ c,
  if negb (otruthy (activeOrgId c)) then Empty
  else
    pipe (mapped_list toMessage (http_get (org_path c ("/channels/" +:+ channelId +:+ "/messages?limit=50")))) (λ msgs,
      set_state (λ c, c <| cl_messages := msgs |>) msgs)).

(** The identifier is drawn before the interceptors draw theirs. *)
Definition send (channelId body : string) (attachments : list string) : Obs Message := Peek (λ c,
  Tap (λ c, c <| cl_sending := true |> <| cl_draws := S (cl_draws c) |>)
    (catchError
      (pipe (mapped toMessage (http_post (org_path c ("/channels/" +:+ channelId +:+ "/messages"))
        (JObj [("body", JStr body); ("client_message_id", JStr (random_uuid (cl_draws c)));
               ("attachments", JArr (JStr <$> attachments))])))
        (λ m, set_state (λ c, c <| cl_sending := false |>) m))
      (λ e, Tap (λ c, c <| cl_sending := false |>) (Err e)))).

(** The subscriber of [subscribeRealtime], on an event [chat:message]. *)
Definition on_message (channelId : string) (dto : json) : Obs unit :=
  if negb (js_is (jget "channel_id" dto) channelId) then Next tt
  else
    let incoming := toMessage dto in
    set_state (λ c,
      if existsb (λ m, json_is (ms_id m) (ms_id incoming)) (cl_messages c) then c
      else c <| cl_messages := (cl_messages c ++ [incoming])%list |>) tt.
End service.
End MessageService.

Module NotificationService.
Section service.
Context `{Random, Platform}.

(** [ns.filter(n => !n.isRead).length]. *)
Definition unread (ns : list Notification) : Z :=
  Z.of_nat (length (List.filter (λ n, negb (js_truthy (nt_isRead n))) ns)).

(** [notifications.set(ns); unreadCount.set(..)]. *)
Definition show (ns : list Notification) (c : Client) : Client :=
  c <| cl_notifications := ns |> <| cl_unreadCount := unread ns |>.

Definition load (limit : string) : Obs (list Notification) := Peek (λ c,
  if negb (otruthy (activeOrgId c)) then Empty
  else
    Tap (begin_loading "notifications")
      (or_unload "notifications"
        (pipe (mapped_list toNotification (http_get (org_path c ("/notifications?limit=" +:+ limit)))) (λ items,
          set_state (λ c, end_loading "notifications" (show items c)) items)))).

Definition read (n : Notification) : Notification := n <| nt_isRead := Some (JBool true) |>.

(** The change is shown at once and taken back if the request fails. *)
Definition optimistically (change : list Notification → list Notification) (rq : Client → Obs Reply) : Obs unit :=
  Peek (λ c,
    let snapshot := cl_notifications c in
    Tap (λ c, show (change (cl_notifications c)) c)
      (catchError (ignored (rq c)) (λ e, Tap (show snapshot) (Err e)))).

Definition markRead (id : string) : Obs unit :=
  optimistically (λ ns, (λ n, if js_is (nt_id n) id then read n else n) <$> ns)
    (λ c, http_patch (org_path c ("/notifications/" +:+ id +:+ "/read")) (JObj [])).

(** [unreadCount.set(0)]: every one is read. *)
Definition markAllRead : Obs unit := Peek (λ c,
  let snapshot := cl_notifications c in
  Tap (λ c, c <| cl_notifications := read <$> cl_notifications c |> <| cl_unreadCount := 0%Z |>)
    (catchError (ignored (http_post (org_path c "/notifications/read-all") (JObj []))) (λ e,
      Tap (show snapshot) (Err e)))).

(** The subscriber of [subscribeRealtime], on an event [notification:new]. *)
Definition on_new (dto : json) : Obs unit :=
  set_state (λ c, c <| cl_notifications := toNotification dto :: cl_notifications c |>
                    <| cl_unreadCount := (cl_unreadCount c + 1)%Z |>) tt.
End service.
End NotificationService.

Module UserService.
Section service.
Context `{Random, Platform}.

Definition update_user (o : Obs Reply) : Obs json :=
  pipe (mapped toUser o) (λ u, set_state (AuthService.updateCurrentUser u) u).

Definition updateProfile (name : string) (bio : option string) : Obs json :=
  update_user (http_patch "/api/v1/me" (JObj [("name", JStr name); ("bio", jopt bio)])).
(** The body is a form with the file. *)
Definition uploadAvatar : Obs json := update_user (request "POST" "/api/v1/me/avatar" None).
Definition changePassword (currentPassword newPassword : string) : Obs unit :=
  ignored (http_patch "/api/v1/me/password"
    (JObj [("currentPassword", JStr currentPassword); ("newPassword", JStr newPassword)])).
Definition getSessions : Obs (option json) := pipe (http_get "/api/v1/me/sessions") (λ r, Next (data_of (rp_body r))).
Definition revokeSession (sessionId : string) : Obs unit :=
  ignored (http_delete ("/api/v1/me/sessions/" +:+ sessionId) None).
Definition getMfaStatus : Obs (option json) := pipe (http_get "/api/v1/me/mfa") (λ r, Next (data_of (rp_body r))).
Definition setupMfa : Obs (option json) :=
  pipe (http_post "/api/v1/me/mfa/setup" (JObj [])) (λ r, Next (data_of (rp_body r))).
Definition confirmMfa (code : string) : Obs (option json) :=
  pipe (http_post "/api/v1/me/mfa/confirm" (JObj [("code", JStr code)])) (λ r, Next (data_of (rp_body r))).
Definition disableMfa (password : string) : Obs unit :=
  ignored (http_delete "/api/v1/me/mfa" (Some (JObj [("password", JStr password)]))).
Definition regenBackupCodes : Obs (option json) :=
  pipe (http_post "/api/v1/me/mfa/backup-codes" (JObj [])) (λ r, Next (data_of (rp_body r))).

(** [{ ...current, preferences: updated }]. *)
Definition with_preferences (updated : json) (user : json) : json :=
  match user with
  | JObj fs => JObj (List.filter (λ f, negb (f.1 =? "preferences")) fs ++ [("preferences", updated)])%list
  | j => j
  end.
Definition savePreferences (prefs : json) : Obs (option json) :=
  pipe (http_patch "/api/v1/me/preferences" prefs) (λ r,
    set_state (λ c,
      match cl_currentUser c with
      | Some user => if isLoggedIn c
                     then AuthService.updateCurrentUser (with_preferences (data_of (rp_body r) ?? JNull) user) c else c
      | None => c
      end) (data_of (rp_body r))).
End service.
End UserService.

Module PushNotificationService.
Section service.
Context `{Random, Platform}.

(** The subscription of the service worker's push manager. *)
Definition requestPermission (endpoint p256dh auth : string) : Obs unit :=
  ignored (http_post "/api/v1/push/subscribe"
    (JObj [("endpoint", JStr endpoint); ("keys", JObj [("p256dh", JStr p256dh); ("auth", JStr auth)])])).
Definition unsubscribe (endpoint : option string) : Obs unit :=
  ignored (http_delete "/api/v1/push/subscribe" (Some (JObj [("endpoint", JStr (endpoint ?? ""))]))).
End service.
End PushNotificationService.

Module FileService.
Section service.
Context `{Random, Platform}.

(** [{ ...u, ...update }] of one upload. *)
Definition patch (id : string) (f : FileUpload → FileUpload) (c : Client) : Client :=
  c <| cl_uploads := (λ u, if up_id u =? id then f u else u) <$> cl_uploads c |>.
Definition failed (message : string) (u : FileUpload) : FileUpload :=
  u <| up_state := UError |> <| up_error := Some message |>.

(** The file is entered as pending, and its upload asked for; the answer
    starts the form's transfer.  The error an interceptor made has no [error]. *)
Definition upload (name mimeType : string) (size : Z) : Obs unit := Peek (λ c,
  let entry := random_uuid (cl_draws c) in
  Tap (λ c, c <| cl_draws := S (cl_draws c) |>
              <| cl_uploads := (cl_uploads c ++ [mkFileUpload entry UPending 0 None None])%list |>)
    (pipe
      (catchError
        (pipe (http_post (org_path c "/files/upload-url")
          (JObj [("filename", JStr name);
                 ("mimeType", JStr (if truthy mimeType then mimeType else "application/octet-stream"));
                 ("sizeBytes", JNum size)])) (λ res, Next (Some res)))
        (λ _, set_state (patch entry (failed "Upload URL request failed")) None))
      (λ res, match res with
        | None => Next tt
        | Some res =>
            pipe (of_option (one_data id (rp_body res))) (λ _,
              set_state (patch entry (λ u, u <| up_state := UUploading |> <| up_progress := 0%Z |>)) tt)
        end))).

(** [Math.round(e.loaded / e.total * 100)]. *)
Definition percent (loaded total : Z) : Z := ((200 * loaded + total) / (2 * total))%Z.

(** What the transfer reports. *)
Inductive transfer := Progress (loaded total : Z) | Loaded (status : Z) | Failed | Aborted.
Definition on_transfer (id : string) (e : transfer) : Obs unit :=
  match e with
  | Progress loaded total => set_state (patch id (λ u, u <| up_progress := percent loaded total |>)) tt
  | Loaded status =>
      if ((200 <=? status) && (status <? 300))%Z
      then set_state (patch id (λ u, u <| up_state := UScanning |> <| up_progress := 100%Z |>)) tt
      else set_state (patch id (failed ("S3 upload failed (" +:+ js_text (Some (JNum status)) +:+ ")"))) tt
  | Failed => set_state (patch id (failed "Network error during upload")) tt
  | Aborted => set_state (patch id (λ u, u <| up_state := UCancelled |>)) tt
  end.

(** One poll of the scan, after three seconds; [true] asks for another. *)
Definition poll (id orgId fileId : string) : Obs bool :=
  catchError
    (pipe (http_get ("/api/v1/orgs/" +:+ orgId +:+ "/files/" +:+ fileId +:+ "/download-url")) (λ res,
      if (rp_status res =? 200)%Z
      then set_state (patch id (λ u, u <| up_state := UReady |> <| up_fileId := Some fileId |>)) false
      else Next true))
    (λ e,
      match exn_status e with
      | Some 422%Z =>
          set_state (patch id (λ u, u <| up_state := URejected |>
                                      <| up_error := Some "File rejected by virus scan" |>)) false
      | _ => set_state (patch id (failed "Scan check failed")) false
      end).

(** [onDismiss], [clearReady]. *)
Definition dismiss (id : string) (c : Client) : Client :=
  c <| cl_uploads := List.filter (λ u, negb (up_id u =? id)) (cl_uploads c) |>.
Definition clearReady (c : Client) : Client :=
  c <| cl_uploads := List.filter (λ u, match up_state u with UReady => false | _ => true end) (cl_uploads c) |>.
End service.
End FileService.

(** ** Guards and pages *)

Section pages.
Context `{Random, Platform}.

Definition refuse (path : string) : Obs bool := set_state (go path) false.

Definition authGuard : Obs bool := Peek (λ c, if isLoggedIn c then Next true else refuse "/auth/login").

Definition orgGuard : Obs bool := Peek (λ c,
  if otruthy (activeOrgId c) then Next true
  else
    catchError
      (pipe TenantService.loadUserOrgs (λ orgs,
        match orgs with
        | [] => refuse "/auth/login"
        | [org] => set_state (TenantService.setOrg org) true
        | _ => refuse "/pick-org"
        end))
      (λ _, refuse "/auth/login")).

Definition roleGuard (requiredRole : string) : Obs bool := Peek (λ c,
  if js_is (cl_currentUser c ≫= jget "role") requiredRole then Next true else refuse "/auth/login").

(** [LoginComponent.submit]. *)
Definition sign_in (email password : string) : Obs unit :=
  pipe (AuthService.login email password) (λ result,
    set_state (go (match result with None => "/auth/mfa" | Some _ => "/app" end)) tt).

(** [MfaComponent.submitCode]. *)
Definition submit_code (code : string) : Obs unit :=
  pipe (AuthService.submitMfa code) (λ _, set_state (go "/app") tt).

(** [ForgotPasswordComponent] and [ResetPasswordComponent]. *)
Definition forgot_password (email : string) : Obs unit :=
  ignored (http_post "/api/v1/auth/forgot-password" (JObj [("email", JStr email)])).
Definition reset_password (token password : string) : Obs unit :=
  ignored (http_post "/api/v1/auth/reset-password" (JObj [("token", JStr token); ("password", JStr password)])).

(** [SsoCallbackComponent]: the token is in the query. *)
Definition sso_callback (token : option string) : Obs unit :=
  if negb (otruthy token) then set_state (go "/auth/login") tt
  else pipe (AuthService.handleSsoToken (token ?? "")) (λ _, set_state (go "/app") tt).

(** [OrgPickerComponent.selectOrg]. *)
Definition select_org (org : Org) : Obs unit := set_state (λ c, go "/app" (TenantService.setOrg org c)) tt.

(** [FilesPageComponent]; what it shows is its own. *)
Definition load_files : Obs unit := Peek (λ c, ignored (http_get (org_path c "/files?limit=20&offset=0"))).
Definition delete_file (fileId : string) : Obs unit := Peek (λ c,
  pipe (ignored (http_delete (org_path c ("/files/" +:+ fileId)) None)) (λ _, load_files)).

(** [NotificationPreferencesComponent]. *)
Definition load_preferences : Obs unit := Peek (λ c, ignored (http_get (org_path c "/notification-preferences"))).
Definition toggle_preference (eventType : string) (inapp email push : bool) : Obs unit := Peek (λ c,
  ignored (http_patch (org_path c ("/notification-preferences/" +:+ eventType))
    (JObj [("channel_inapp", JBool inapp); ("channel_email", JBool email); ("channel_push", JBool push)]))).

(** Everything a page asks for: what the user does (a route runs its guards side
    by side), and the events of the socket and of the transfers. *)
Inductive action :=
  | SignIn (email password : string)
  | Register (name email password : string)
  | VerifyEmail (token : string)
  | SubmitCode (code : string)
  | ForgotPassword (email : string)
  | ResetPassword (token password : string)
  | SsoCallback (token : option string)
  | SignOut
  | RunAuthGuard
  | RunOrgGuard
  | RunRoleGuard (requiredRole : string)
  | SelectOrg (org : Org)
  | LoadOrgs
  | LoadWorkspaces
  | LoadWorkspace (id : string)
  | CreateWorkspace (name : string) (description : option string)
  | LoadTasks (workspaceId : string)
  | CreateTask (workspaceId title : string) (priority dueDate : option string)
  | UpdateStatus (taskId status : string) (version : json)
  | AddComment (taskId : string) (body : list (string * json)) (attachments : list string)
  | LoadChannels (workspaceId : string)
  | CreateChannel (name workspaceId : string)
  | LoadMessages (channelId : string)
  | SendMessage (channelId body : string) (attachments : list string)
  | MessageEvent (channelId : string) (dto : json)
  | LoadNotifications (limit : string)
  | MarkRead (id : string)
  | MarkAllRead
  | NotificationEvent (dto : json)
  | Upload (name mimeType : string) (size : Z)
  | Transfer (id : string) (e : FileService.transfer)
  | PollScan (id orgId fileId : string)
  | DismissUpload (id : string)
  | ClearReady
  | LoadFiles
  | DeleteFile (fileId : string)
  | LoadPreferences
  | TogglePreference (eventType : string) (inapp email push : bool)
  | Subscribe (endpoint p256dh auth : string)
  | Unsubscribe (endpoint : option string)
  | UpdateProfile (name : string) (bio : option string)
  | UploadAvatar
  | ChangePassword (currentPassword newPassword : string)
  | LoadSessions
  | RevokeSession (sessionId : string)
  | LoadMfa
  | SetupMfa
  | ConfirmMfa (code : string)
  | DisableMfa (password : string)
  | RegenBackupCodes
  | SavePreferences (prefs : json).

(** [subscribe()]: the value is the page's. *)
Definition subscribed {A} (o : Obs A) : Obs unit := pipe o (λ _, Next tt).

Definition program (a : action) : Obs unit :=
  match a with
  | SignIn email password => sign_in email password
  | Register name email password => AuthService.register name email password
  | VerifyEmail token => AuthService.verifyEmail token
  | SubmitCode code => submit_code code
  | ForgotPassword email => forgot_password email
  | ResetPassword token password => reset_password token password
  | SsoCallback token => sso_callback token
  | SignOut => logout
  | RunAuthGuard => subscribed authGuard
  | RunOrgGuard => subscribed orgGuard
  | RunRoleGuard requiredRole => subscribed (roleGuard requiredRole)
  | SelectOrg org => select_org org
  | LoadOrgs => subscribed TenantService.loadUserOrgs
  | LoadWorkspaces => subscribed WorkspaceService.load
  | LoadWorkspace id => subscribed (WorkspaceService.loadOne id)
  | CreateWorkspace name description => subscribed (WorkspaceService.create name description)
  | LoadTasks workspaceId => subscribed (TaskService.load workspaceId)
  | CreateTask workspaceId title priority dueDate => subscribed (TaskService.create workspaceId title priority dueDate)
  | UpdateStatus taskId status version => subscribed (TaskService.updateStatus taskId status version)
  | AddComment taskId body attachments => subscribed (TaskService.addComment taskId body attachments)
  | LoadChannels workspaceId => subscribed (ChannelService.load workspaceId)
  | CreateChannel name workspaceId => subscribed (ChannelService.create name workspaceId)
  | LoadMessages channelId => subscribed (MessageService.load channelId)
  | SendMessage channelId body attachments => subscribed (MessageService.send channelId body attachments)
  | MessageEvent channelId dto => MessageService.on_message channelId dto
  | LoadNotifications limit => subscribed (NotificationService.load limit)
  | MarkRead id => NotificationService.markRead id
  | MarkAllRead => NotificationService.markAllRead
  | NotificationEvent dto => NotificationService.on_new dto
  | Upload name mimeType size => FileService.upload name mimeType size
  | Transfer id e => FileService.on_transfer id e
  | PollScan id orgId fileId => subscribed (FileService.poll id orgId fileId)
  | DismissUpload id => set_state (FileService.dismiss id) tt
  | ClearReady => set_state FileService.clearReady tt
  | LoadFiles => load_files
  | DeleteFile fileId => delete_file fileId
  | LoadPreferences => load_preferences
  | TogglePreference eventType inapp email push => toggle_preference eventType inapp email push
  | Subscribe endpoint p256dh auth => PushNotificationService.requestPermission endpoint p256dh auth
  | Unsubscribe endpoint => PushNotificationService.unsubscribe endpoint
  | UpdateProfile name bio => subscribed (UserService.updateProfile name bio)
  | UploadAvatar => subscribed UserService.uploadAvatar
  | ChangePassword currentPassword newPassword => UserService.changePassword currentPassword newPassword
  | LoadSessions => subscribed UserService.getSessions
  | RevokeSession sessionId => UserService.revokeSession sessionId
  | LoadMfa => subscribed UserService.getMfaStatus
  | SetupMfa => subscribed UserService.setupMfa
  | ConfirmMfa code => subscribed (UserService.confirmMfa code)
  | DisableMfa password => UserService.disableMfa password
  | RegenBackupCodes => subscribed UserService.regenBackupCodes
  | SavePreferences prefs => subscribed (UserService.savePreferences prefs)
  end.
End pages.

(** ** The browser *)

(** How far an observable gets by itself. *)
Inductive outcome (A : Type) :=
  | Completed
  | Failed (e : exn)
  | Sent (rq : HttpRequest) (next : Reply → Obs A)
  | Blocked (ready : Client → bool) (next : Obs A).
#[global] Arguments Completed {_}.
#[global] Arguments Failed {_} _.
#[global] Arguments Sent {_} _ _.
#[global] Arguments Blocked {_} _ _.

Fixpoint run {A} (o : Obs A) (c : Client) : Client * outcome A :=
  match o with
  | Next _ | Empty => (c, Completed)
  | Err e => (c, Failed e)
  | Tap f o => run o (f c)
  | Peek o => run (o c) c
  | Send rq next => (c, Sent rq next)
  | Await ready o => if ready c then run o c else (c, Blocked ready o)
  end.

Record Tab := mkTab {
  tab_client : Client;
  (** Requests without an answer, observables that wait, and every request. *)
  tab_pending : list (HttpRequest * (Reply → Obs unit));
  tab_blocked : list ((Client → bool) * Obs unit);
  tab_sent : list HttpRequest
}.

Definition open_tab (access refresh : option string) : Tab := mkTab (fresh_client access refresh) [] [] [].

Definition resume (o : Obs unit) (t : Tab) : Tab :=
  match run o (tab_client t) with
  | (c, Completed) | (c, Failed _) => mkTab c (tab_pending t) (tab_blocked t) (tab_sent t)
  | (c, Sent rq next) => mkTab c (tab_pending t ++ [(rq, next)])%list (tab_blocked t) (tab_sent t ++ [rq])%list
  | (c, Blocked ready o) => mkTab c (tab_pending t) (tab_blocked t ++ [(ready, o)])%list (tab_sent t)
  end.

(** A page asks for something, an answer arrives, an observable that waits is
    looked at. *)
Inductive event :=
  | Act (a : action)
  | Answer (i : nat) (r : Reply)
  | Wake (i : nat).

Section browser.
Context `{Random, Platform}.

Definition tab_step (t : Tab) (e : event) : Tab :=
  match e with
  | Act a => resume (program a) t
  | Answer i r =>
      match tab_pending t !! i with
      | Some (_, next) =>
          resume (next r) (mkTab (tab_client t) (delete i (tab_pending t)) (tab_blocked t) (tab_sent t))
      | None => t
      end
  | Wake i =>
      match (tab_blocked t !! i : option ((Client → bool) * Obs unit)) with
      | Some (ready, o) =>
          if ready (tab_client t)
          then resume o (mkTab (tab_client t) (tab_pending t) (delete i (tab_blocked t)) (tab_sent t))
          else t
      | None => t
      end
  end.
Definition tab_run (t : Tab) (events : list event) : Tab := foldl tab_step t events.
End browser.

(** ** Observables that keep an invariant *)

#[local] Close Scope string_scope.
#[local] Open Scope nat_scope.

Section safe.
Variable Inv : Client → Prop.
Variable ok : nat → Client → HttpRequest → Prop.
Hypothesis ok_earlier : ∀ (d d' : nat) c rq, d ≤ d' → ok d' c rq → ok d c rq.

(** [o], subscribed in the state [c] by a run that began with [d] identifiers
    drawn, keeps the invariant whatever happens between its requests, each of
    which is [ok]. *)
Fixpoint safe {A} (o : Obs A) (d : nat) (c : Client) : Prop :=
  match o with
  | Next _ | Empty | Err _ => Inv c ∧ d ≤ cl_draws c
  | Tap f o => safe o d (f c)
  | Peek o => safe (o c) d c
  | Send rq next => Inv c ∧ d ≤ cl_draws c ∧ ok d c rq ∧ ∀ r c', Inv c' → safe (next r) (cl_draws c') c'
  | Await ready o => Inv c ∧ d ≤ cl_draws c ∧ ∀ c', Inv c' → safe o (cl_draws c') c'
  end.

Definition safely {A} (o : Obs A) : Prop := ∀ d c, Inv c → d ≤ cl_draws c → safe o d c.

Lemma safe_pipe {A B} (o : Obs A) (f : A → Obs B) d c : safe o d c → (∀ a, safely (f a)) → safe (pipe o f) d c.
Proof.
  intros Ho Hf. revert d c Ho.
  induction o as [a| |e|g o IH|o IH|rq o IH|ready o IH]; cbn; intros d c Ho; try done; eauto.
  - destruct Ho. by apply Hf.
  - destruct Ho as (Hi & Hd & Hok & Hn). eauto 6.
  - destruct Ho as (Hi & Hd & Hn). eauto 6.
Qed.

Lemma safe_catch {A} (o : Obs A) (f : exn → Obs A) d c :
  safe o d c → (∀ e, safely (f e)) → safe (catchError o f) d c.
Proof.
  intros Ho Hf. revert d c Ho.
  induction o as [a| |e|g o IH|o IH|rq o IH|ready o IH]; cbn; intros d c Ho; try done; eauto.
  - destruct Ho. by apply Hf.
  - destruct Ho as (Hi & Hd & Hok & Hn). eauto 6.
  - destruct Ho as (Hi & Hd & Hn). eauto 6.
Qed.

Lemma safely_pipe {A B} (o : Obs A) (f : A → Obs B) : safely o → (∀ a, safely (f a)) → safely (pipe o f).
Proof. intros Ho Hf d c Hi Hd. apply safe_pipe; [by apply Ho|done]. Qed.
Lemma safely_catch {A} (o : Obs A) (f : exn → Obs A) : safely o → (∀ e, safely (f e)) → safely (catchError o f).
Proof. intros Ho Hf d c Hi Hd. apply safe_catch; [by apply Ho|done]. Qed.
Lemma safely_next {A} (a : A) : safely (Next a).
Proof. by intros d c. Qed.
Lemma safely_err {A} e : safely (@Err A e).
Proof. by intros d c. Qed.
Lemma safely_tap {A} f (o : Obs A) :
  (∀ c, Inv c → Inv (f c) ∧ cl_draws c ≤ cl_draws (f c)) → safely o → safely (Tap f o).
Proof. intros Hf Ho d c Hi Hd. cbn. destruct (Hf c Hi). apply Ho; [done|lia]. Qed.
Lemma safely_peek {A} (o : Client → Obs A) : (∀ c, safely (o c)) → safely (Peek o).
Proof. intros Ho d c Hi Hd. by apply Ho. Qed.
Lemma safely_await {A} ready (o : Obs A) : safely o → safely (Await ready o).
Proof. intros Ho d c Hi Hd. cbn. split_and!; [done..|]. intros c' Hc. by apply Ho. Qed.
Lemma safely_of_option {A} (v : option A) : safely (of_option v).
Proof. destruct v; [apply safely_next|apply safely_err]. Qed.

(** What one run leaves. *)
Lemma safe_run {A} (o : Obs A) d c : safe o d c →
  Inv (run o c).1 ∧ d ≤ cl_draws (run o c).1 ∧
  match (run o c).2 with
  | Sent rq next => ok d (run o c).1 rq ∧ ∀ r c', Inv c' → safe (next r) (cl_draws c') c'
  | Blocked _ o => ∀ c', Inv c' → safe o (cl_draws c') c'
  | _ => True
  end.
Proof.
  revert d c. induction o as [a| |e|g o IH|o IH|rq o IH|ready o IH]; cbn; intros d c Ho; try tauto; eauto.
  destruct Ho as (Hi & Hd & Hn). destruct (ready c); [|done].
  destruct (IH (cl_draws c) c (Hn c Hi)) as (Hi' & Hd' & Ho). split_and!; [done|lia|].
  destruct (run o c) as [c' [| | |]]; try done. cbn in *. destruct Ho as [Hok Hnext]. split; [|done].
  by apply (ok_earlier d (cl_draws c)).
Qed.
End safe.

(** ** What every request carries, and the count of the bell *)

Section requests.
Context `{R : Random, RL : !RandomLaws R, Platform}.

(** The bell shows the notifications that are not read. *)
Definition bell (c : Client) : Prop := cl_unreadCount c = NotificationService.unread (cl_notifications c).

(** What a tab may send: to the six addresses at which a user signs in, signs
    up, renews a session, confirms an address or resets a password, a request
    without the token and the organization; and an idempotency key with what
    changes the server, and with nothing else. *)
Definition well_formed (rq : HttpRequest) : Prop :=
  (hr_url rq ∈ ["/api/v1/auth/login"; "/api/v1/auth/register"; "/api/v1/auth/refresh"; "/api/v1/auth/verify-email";
                "/api/v1/auth/forgot-password"; "/api/v1/auth/reset-password"] →
   hr_authorization rq = None ∧ hr_org_id rq = None) ∧
  (is_Some (hr_idempotency_key rq) ↔ hr_method rq ∈ ["POST"; "PUT"; "PATCH"; "DELETE"]).

(** What the interceptors make sure of, in their own terms. *)
Definition intercepted (rq : HttpRequest) : Prop :=
  (isAuthUrl (hr_url rq) = true → hr_authorization rq = None ∧ hr_org_id rq = None) ∧
  is_null (hr_idempotency_key rq) = negb (includes MUTATING (hr_method rq)).

Lemma intercepted_well_formed rq : intercepted rq → well_formed rq.
Proof.
  intros [Ha Hk]. split.
  - intros Hu. apply Ha. clear Ha Hk.
    repeat (apply elem_of_cons in Hu as [->|Hu]; [reflexivity|]). by apply elem_of_nil in Hu.
  - change ["POST"; "PUT"; "PATCH"; "DELETE"] with MUTATING. rewrite <- includes_spec.
    destruct (hr_idempotency_key rq); cbn [is_null] in Hk; [|split; [by intros [? ?]|]].
    + split; [|by eexists]. intros _. by destruct (includes _ _).
    + intros E. by rewrite E in Hk.
Qed.

(** The key was drawn by the run that sends it. *)
Definition drawn (d : nat) (c : Client) (rq : HttpRequest) : Prop :=
  match hr_idempotency_key rq with
  | Some k => ∃ n, k = random_uuid n ∧ d ≤ n < cl_draws c
  | None => True
  end.
Definition proper (d : nat) (c : Client) (rq : HttpRequest) : Prop := drawn d c rq ∧ intercepted rq.

#[local] Notation safely := (safely bell proper).

Lemma proper_earlier (d d' : nat) c rq : d ≤ d' → proper d' c rq → proper d c rq.
Proof.
  intros Hd [Hk Hw]. split; [|done]. unfold drawn in *. destruct (hr_idempotency_key rq); [|done].
  destruct Hk as (n & -> & Hn). exists n. split; [done|lia].
Qed.

Lemma addHeaders_same rq t o :
  hr_url (addHeaders rq t o) = hr_url rq ∧ hr_idempotency_key (addHeaders rq t o) = hr_idempotency_key rq.
Proof. unfold addHeaders. by destruct (otruthy t), (otruthy o). Qed.

(** Handlers of a request that has its headers. *)
Lemma safely_backend rq d c :
  proper d c rq → bell c → d ≤ cl_draws c → safe bell proper (errorInterceptor backend rq) d c.
Proof.
  intros Hp Hb Hd. unfold errorInterceptor. apply safe_catch.
  - cbn. split_and!; [done..|]. intros r c' Hc'. destruct (_ && _); by cbn.
  - intros [| | |]; apply safely_err.
Qed.

Lemma safely_keyed rq :
  hr_idempotency_key rq = None → (isAuthUrl (hr_url rq) = true → hr_authorization rq = None ∧ hr_org_id rq = None) →
  safely (idempotencyInterceptor (errorInterceptor backend) rq).
Proof.
  intros Hk Hu d c Hb Hd. unfold idempotencyInterceptor. destruct (includes MUTATING (hr_method rq)) eqn:Em; cbn [negb].
  - cbn [safe]. apply safely_backend; [|done|cbn; lia]. split.
    + exists (cl_draws c). split; [done|]. cbn. lia.
    + split; [done|]. cbn -[includes]. by rewrite Em.
  - apply safely_backend; [|done..]. split; [unfold drawn; by rewrite Hk|]. split; [done|]. by rewrite Hk, Em.
Qed.

Lemma safely_request method url body : safely (request method url body).
Proof.
  assert (Hhead : ∀ t o, isAuthUrl url = false →
    safely (idempotencyInterceptor (errorInterceptor backend)
      (addHeaders (mkHttpRequest method url None None None body) t o))).
  { intros t o Hu. destruct (addHeaders_same (mkHttpRequest method url None None None body) t o) as [Eu Ek].
    apply safely_keyed; [by rewrite Ek|rewrite Eu; cbn [hr_url]; by rewrite Hu]. }
  unfold request, jwtInterceptor. cbn [hr_url]. destruct (isAuthUrl url) eqn:Eu; [by apply safely_keyed|].
  apply safely_peek. intros c. apply safely_catch; [by apply Hhead|].
  intros e. destruct (is_401 e); cbn [negb]; [|apply safely_err].
  apply safely_pipe.
  - apply safely_peek. intros c1.
    assert (Hw : safely (Await (λ c, negb (cl_refreshing c)) (Peek (λ c,
      match cl_accessToken c with
      | Some t => if truthy t then Next t else Err (JsError "No token after refresh")
      | None => Err (JsError "No token after refresh")
      end)))).
    { apply safely_await, safely_peek. intros c2. destruct (cl_accessToken c2) as [t|]; [destruct (truthy t)|];
        apply safely_next || apply safely_err. }
    destruct (cl_refreshing c1); [exact Hw|]. by apply safely_tap.
  - intros t. apply safely_peek. intros c2. apply safely_catch; [by apply Hhead|]. intros e2.
    destruct (is_401 e2); [|apply safely_err]. apply safely_pipe; [|intros _; apply safely_err].
    by apply safely_tap; [|apply safely_next].
Qed.

(** Every notification that arrives is unread. *)
Definition action_ok (a : action) : Prop :=
  match a with NotificationEvent dto => js_truthy (jget "is_read" dto) = false | _ => True end.

(** A change of the state that the bell does not show. *)
Lemma silent (f : Client → Client) :
  (∀ c, cl_notifications (f c) = cl_notifications c ∧ cl_unreadCount (f c) = cl_unreadCount c ∧
    cl_draws c ≤ cl_draws (f c)) →
  ∀ c, bell c → bell (f c) ∧ cl_draws c ≤ cl_draws (f c).
Proof. intros Hf c. destruct (Hf c) as (En & Eu & Hd). unfold bell. by rewrite En, Eu. Qed.

Lemma all_read ns : NotificationService.unread (NotificationService.read <$> ns) = 0%Z.
Proof. unfold NotificationService.unread. by induction ns. Qed.

Ltac get_head o := lazymatch o with ?f _ => get_head f | _ => o end.
Ltac tap := apply silent; intros ?; repeat case_match; split_and!; [reflexivity..|cbn; lia].
(** One step of a program that does not touch the bell. *)
Ltac safely_step :=
  lazymatch goal with
  | |- safe _ _ _ _ _ => fail
  | |- safely (Next _) => apply safely_next
  | |- safely (Err _) => apply safely_err
  | |- safely Empty => by intros ? ?
  | |- safely (of_option _) => apply safely_of_option
  | |- safely (request _ _ _) => apply safely_request
  | |- safely (pipe _ _) => apply safely_pipe; [|intros ?]
  | |- safely (catchError _ _) => apply safely_catch; [|intros ?]
  | |- safely (Peek _) => apply safely_peek; intros ?
  | |- safely (Tap _ _) => apply safely_tap; [try tap|]
  | |- safely (match ?x with _ => _ end) => destruct x
  | |- safely ?o => let h := get_head o in unfold h
  | |- ∀ c, bell c → _ => fail
  end.

Lemma program_safe a : action_ok a → safely (program a).
Proof.
  intros Ha. destruct a; cbn [program]; repeat safely_step.
  1-3, 5: by intros c0 _; split; [|cbn].
  - intros c0 _. unfold bell. cbn -[NotificationService.unread]. by rewrite all_read.
  - intros c0 Hb. split; [|cbn; lia]. unfold bell in *. cbn -[NotificationService.unread]. rewrite Hb.
    unfold NotificationService.unread. cbn -[js_truthy]. cbn in Ha. rewrite Ha. cbn. lia.
Qed.

(** The invariant of a tab. *)
Definition keyed_below (n : nat) (rq : HttpRequest) : Prop :=
  ∀ k, hr_idempotency_key rq = Some k → ∃ m, k = random_uuid m ∧ m < n.
Definition resumable (o : Obs unit) : Prop := ∀ c, bell c → safe bell proper o (cl_draws c) c.
Record tab_ok (t : Tab) : Prop := {
  tab_bell : bell (tab_client t);
  tab_intercepted : Forall intercepted (tab_sent t);
  tab_keys : Forall (keyed_below (cl_draws (tab_client t))) (tab_sent t);
  tab_distinct : NoDup (omap hr_idempotency_key (tab_sent t));
  tab_answers : Forall (λ p : HttpRequest * (Reply → Obs unit), ∀ r, resumable (p.2 r)) (tab_pending t);
  tab_wakes : Forall (λ p : (Client → bool) * Obs unit, resumable p.2) (tab_blocked t)
}.

Lemma keyed_later n m rq : n ≤ m → keyed_below n rq → keyed_below m rq.
Proof. intros Hn Hk k E. destruct (Hk k E) as (x & -> & Hx). exists x. split; [done|lia]. Qed.

Lemma send_distinct d c (rq : HttpRequest) l :
  drawn d c rq → Forall (keyed_below d) l → NoDup (omap hr_idempotency_key l) →
  NoDup (omap hr_idempotency_key (l ++ [rq])%list).
Proof.
  intros Hd Hl Hn. rewrite omap_app. cbn [omap list_omap]. unfold drawn in Hd.
  destruct (hr_idempotency_key rq) as [k|]; [|by rewrite app_nil_r]. destruct Hd as (n & -> & Hn1).
  apply NoDup_app. split_and!; [done| |by apply NoDup_singleton]. intros k Hk Hin%list_elem_of_singleton.
  apply list_elem_of_omap in Hk as (rq' & Hrq & E). apply (proj1 (Forall_forall _ _) Hl) in Hrq.
  destruct (Hrq k E) as (m & Em & Hm). subst k. apply random_uuid_inj in Em. lia.
Qed.

Lemma resume_ok o t : resumable o → tab_ok t → tab_ok (resume o t).
Proof.
  intros Ho [Hb Hw Hk Hd Ha Hbl]. unfold resume.
  pose proof (safe_run bell proper proper_earlier o _ _ (Ho _ Hb)) as (Hi & Hle & Hout).
  assert (Hk' : Forall (keyed_below (cl_draws (run o (tab_client t)).1)) (tab_sent t)).
  { eapply Forall_impl; [exact Hk|]. intros rq. by apply keyed_later. }
  destruct (run o (tab_client t)) as [c' [|e|rq next|ready o']]; cbn [fst snd] in *; [by split..| |].
  - destruct Hout as [[Hdr Hwf] Hnext].
    split; cbn; [done|apply Forall_app; by split; [|apply Forall_singleton]| | | |done].
    + apply Forall_app. split; [done|]. apply Forall_singleton. intros k E. unfold drawn in Hdr. rewrite E in Hdr.
      destruct Hdr as (n & -> & Hn). exists n. split; [done|lia].
    + by apply (send_distinct (cl_draws (tab_client t)) c').
    + apply Forall_app. split; [done|]. by apply Forall_singleton.
  - split; cbn; [done..|]. apply Forall_app. split; [done|]. by apply Forall_singleton.
Qed.

Lemma tab_step_ok t e : (∀ a, e = Act a → action_ok a) → tab_ok t → tab_ok (tab_step t e).
Proof.
  intros Ha Ht. destruct e as [a|i r|i]; cbn.
  - apply resume_ok; [|done]. intros c Hc. by apply program_safe; [apply Ha| |].
  - destruct (tab_pending t !! i) as [[rq next]|] eqn:Ei; [|done]. destruct Ht as [Hb Hw Hk Hd Hans Hbl].
    apply resume_ok; [by apply (Forall_lookup_1 _ _ _ _ Hans Ei)|]. split; try done. by apply Forall_delete.
  - destruct (tab_blocked t !! i) as [[ready o]|] eqn:Ei; [|done]. destruct (ready (tab_client t)); [|done].
    destruct Ht as [Hb Hw Hk Hd Hans Hbl].
    apply resume_ok; [by apply (Forall_lookup_1 _ _ _ _ Hbl Ei)|]. split; try done. by apply Forall_delete.
Qed.

(** C37: whatever pages ask for, and whenever and however their requests are
    answered, as long as the notifications that arrive are unread ones, every
    request of a tab is well formed: none carries the token or the organization
    to the six addresses of sign-in, registration, renewal, confirmation and
    reset, and exactly the POST, PUT, PATCH and DELETE requests carry an
    idempotency key, which no other request carries; and the bell shows the
    number of unread notifications.  So no answer to a request is ever the
    replay of another's. *)
Theorem requests_well_formed access refresh events :
  Forall (λ e, ∀ a, e = Act a → action_ok a) events →
  let t := tab_run (open_tab access refresh) events in
  Forall well_formed (tab_sent t) ∧ NoDup (omap hr_idempotency_key (tab_sent t)) ∧ bell (tab_client t).
Proof.
  intros He. cbv zeta. assert (Ht : tab_ok (tab_run (open_tab access refresh) events)).
  - assert (H0 : tab_ok (open_tab access refresh)) by (split; cbn; [done|constructor..]).
    unfold tab_run. revert H0. generalize (open_tab access refresh). induction He as [|e events He _ IH]; [done|].
    intros t Ht. cbn [foldl]. by apply IH, tab_step_ok.
  - destruct Ht as [Hb Hi _ Hd _ _]. split_and!; [|done..]. eapply Forall_impl; [exact Hi|]. apply intercepted_well_formed.
Qed.
End requests.

(** ** A session that has expired *)

Section expiry.
Context `{Random, Platform}.

Definition REFRESH_URL : string := "/api/v1/auth/refresh".

(** The condition everyone who was answered 401 waits for. *)
Definition refreshed (ready : Client → bool) : Prop := ∀ c, ready c = negb (cl_refreshing c).

(** [o] ends up waiting for a refresh, which it has announced. *)
Definition hangs {A} (o : Obs A) : Prop := ∀ c, ∃ c' ready o',
  run o c = (c', Blocked ready o') ∧ refreshed ready ∧ cl_refreshing c' = true.

(** A request is not the refresh, and if it is not one of sign-in its answer
    401 leads to a wait. *)
Definition first_try {A} (rq : HttpRequest) (next : Reply → Obs A) : Prop :=
  hr_url rq ≠ REFRESH_URL ∧
  (isAuthUrl (hr_url rq) = false → ∀ body, hangs (next (mkReply 401 body))).

(** Subscribed in the state [c], [o] sends such requests up to its first wait,
    which it has announced, and no step takes the announcement back. *)
Fixpoint unrefreshed {A} (o : Obs A) (c : Client) : Prop :=
  match o with
  | Next _ | Empty | Err _ => True
  | Tap f o => (cl_refreshing c = true → cl_refreshing (f c) = true) ∧ unrefreshed o (f c)
  | Peek o => unrefreshed (o c) c
  | Send rq next => first_try rq next ∧ ∀ r c, unrefreshed (next r) c
  | Await ready _ => refreshed ready ∧ cl_refreshing c = true
  end.

Lemma run_pipe {A B} (o : Obs A) (f : A → Obs B) c c' ready o' :
  run o c = (c', Blocked ready o') → run (pipe o f) c = (c', Blocked ready (pipe o' f)).
Proof.
  revert c. induction o as [a| |e|g o IH|o IH|rq o IH|ready' o IH]; cbn; intros c E; try done; eauto.
  destruct (ready' c); [eauto|]. by injection E as <- <- <-.
Qed.
Lemma run_catch {A} (o : Obs A) (f : exn → Obs A) c c' ready o' :
  run o c = (c', Blocked ready o') → run (catchError o f) c = (c', Blocked ready (catchError o' f)).
Proof.
  revert c. induction o as [a| |e|g o IH|o IH|rq o IH|ready' o IH]; cbn; intros c E; try done; eauto.
  destruct (ready' c); [eauto|]. by injection E as <- <- <-.
Qed.
Lemma hangs_pipe {A B} (o : Obs A) (f : A → Obs B) : hangs o → hangs (pipe o f).
Proof.
  intros Ho c. destruct (Ho c) as (c' & ready & o' & E & Hr). exists c', ready, (pipe o' f). by rewrite (run_pipe _ _ _ _ _ _ E).
Qed.
Lemma hangs_catch {A} (o : Obs A) (f : exn → Obs A) : hangs o → hangs (catchError o f).
Proof.
  intros Ho c. destruct (Ho c) as (c' & ready & o' & E & Hr). exists c', ready, (catchError o' f). by rewrite (run_catch _ _ _ _ _ _ E).
Qed.

Lemma unrefreshed_pipe {A B} (o : Obs A) (f : A → Obs B) c :
  unrefreshed o c → (∀ a c, unrefreshed (f a) c) → unrefreshed (pipe o f) c.
Proof.
  intros Ho Hf. revert c Ho. induction o as [a| |e|g o IH|o IH|rq o IH|ready o IH]; cbn in *; intros c Ho; try done; auto.
  - destruct Ho. auto.
  - destruct Ho as [[Hu Hn] Ho]. split; [|auto]. split; [done|]. intros Ha body. by apply hangs_pipe, Hn.
Qed.
Lemma unrefreshed_catch {A} (o : Obs A) (f : exn → Obs A) c :
  unrefreshed o c → (∀ e c, unrefreshed (f e) c) → unrefreshed (catchError o f) c.
Proof.
  intros Ho Hf. revert c Ho. induction o as [a| |e|g o IH|o IH|rq o IH|ready o IH]; cbn in *; intros c Ho; try done; auto.
  - destruct Ho. auto.
  - destruct Ho as [[Hu Hn] Ho]. split; [|auto]. split; [done|]. intros Ha body. by apply hangs_catch, Hn.
Qed.

Lemma refreshToken_hangs {B} (k : string → Obs B) : hangs (pipe refreshToken k).
Proof.
  intros c. unfold refreshToken. cbn. destruct (cl_refreshing c) eqn:Er; cbn; rewrite ?Er; cbn;
    eexists _, _, _; (split; [reflexivity|]); (split; [intros c'; reflexivity|]); done.
Qed.
Lemma refreshToken_unrefreshed {B} (k : string → Obs B) c : unrefreshed (pipe refreshToken k) c.
Proof. cbn. destruct (cl_refreshing c) eqn:E; cbn; by split_and!. Qed.

(** An interceptor below [jwtInterceptor] answers 401 with an error of status
    401. *)
Lemma keyed_401 rq f c :
  hr_url rq ≠ REFRESH_URL →
  (∀ e c, unrefreshed (f e) c) →
  (isAuthUrl (hr_url rq) = false → ∀ code message, hangs (f (AppError code message 401))) →
  unrefreshed (catchError (idempotencyInterceptor (errorInterceptor backend) rq) f) c.
Proof.
  intros Hu Hf Hh.
  assert (Hb : ∀ rq' c, hr_url rq' = hr_url rq → unrefreshed (catchError (errorInterceptor backend rq') f) c).
  { intros rq' c' E. unfold errorInterceptor, backend. cbn. split.
    - split; [by rewrite E|]. intros Ha body. cbn. apply Hh. by rewrite <- E.
    - intros r c2. destruct (_ && _); cbn; [done|apply Hf]. }
  unfold idempotencyInterceptor. destruct (negb _); [by apply Hb|]. cbn. split; [done|]. by apply Hb.
Qed.

Lemma keyed_auth rq c :
  hr_url rq ≠ REFRESH_URL → isAuthUrl (hr_url rq) = true →
  unrefreshed (idempotencyInterceptor (errorInterceptor backend) rq) c.
Proof.
  intros Hu Ha.
  assert (Hb : ∀ rq' c, hr_url rq' = hr_url rq → unrefreshed (errorInterceptor backend rq') c).
  { intros rq' c' E. cbn. split; [split; [by rewrite E|by rewrite E, Ha]|]. intros r c2. by destruct (_ && _). }
  unfold idempotencyInterceptor. destruct (negb _); [by apply Hb|]. cbn. split; [done|]. by apply Hb.
Qed.

Lemma request_unrefreshed method url body c : url ≠ REFRESH_URL → unrefreshed (request method url body) c.
Proof.
  intros Hu. unfold request, jwtInterceptor. cbn [hr_url]. destruct (isAuthUrl url) eqn:Ea; [by apply keyed_auth|].
  cbn [unrefreshed]. destruct (addHeaders_same (mkHttpRequest method url None None None body)
    (cl_accessToken c) (activeOrgId c)) as [Eu _].
  apply keyed_401; [by rewrite Eu| |].
  - intros e c'. destruct (is_401 e); cbn [negb]; [apply refreshToken_unrefreshed|done].
  - intros _ code message. cbn [is_401 exn_status negb Z.eqb Pos.eqb]. apply refreshToken_hangs.
Qed.

Lemma of_option_unrefreshed {A} (v : option A) c : unrefreshed (of_option v) c.
Proof. by destruct v. Qed.

(** No page asks for the refresh. *)
Ltac unrefreshed_step :=
  lazymatch goal with
  | |- True => exact I
  | |- (_ → _) ∧ _ => split; [repeat case_match; done|]
  | |- unrefreshed (of_option _) _ => apply of_option_unrefreshed
  | |- unrefreshed (request _ _ _) _ => apply request_unrefreshed; try discriminate
  | |- unrefreshed (pipe _ _) _ => apply unrefreshed_pipe; [|intros ? ?]
  | |- unrefreshed (catchError _ _) _ => apply unrefreshed_catch; [|intros ? ?]
  | |- unrefreshed (match ?x with _ => _ end) _ => destruct x
  | |- unrefreshed (Next _) _ => exact I
  | |- unrefreshed (Err _) _ => exact I
  | |- unrefreshed Empty _ => exact I
  | |- unrefreshed (Peek _) _ => cbn [unrefreshed]
  | |- unrefreshed (Tap _ _) _ => cbn [unrefreshed]
  | |- unrefreshed ?o _ => let h := get_head o in unfold h
  end.

Lemma program_unrefreshed a c : unrefreshed (program a) c.
Proof. destruct a; cbn [program]; repeat unrefreshed_step. Qed.

Lemma unrefreshed_run {A} (o : Obs A) c : unrefreshed o c →
  (cl_refreshing c = true → cl_refreshing (run o c).1 = true) ∧
  match (run o c).2 with
  | Sent rq next => first_try rq next ∧ ∀ r c, unrefreshed (next r) c
  | Blocked ready _ => refreshed ready ∧ cl_refreshing (run o c).1 = true
  | _ => True
  end.
Proof.
  revert c. induction o as [a| |e|g o IH|o IH|rq o IH|ready o IH]; cbn; intros c Ho; try done; auto.
  - destruct Ho as [Hg Ho]. destruct (IH (g c) Ho). auto.
  - destruct Ho as [Hr Hc]. by rewrite Hr, Hc.
Qed.

(** The invariant of a tab, and what a step does to those who wait. *)
Record tab_unrefreshed (t : Tab) : Prop := {
  tu_sent : Forall (λ rq, hr_url rq ≠ REFRESH_URL) (tab_sent t);
  tu_pending : Forall (λ p : HttpRequest * (Reply → Obs unit),
    first_try p.1 p.2 ∧ ∀ r c, unrefreshed (p.2 r) c) (tab_pending t);
  tu_blocked : Forall (λ p : (Client → bool) * Obs unit, refreshed p.1) (tab_blocked t);
  tu_refreshing : tab_blocked t ≠ [] → cl_refreshing (tab_client t) = true
}.

Lemma resume_unrefreshed o t : unrefreshed o (tab_client t) → tab_unrefreshed t →
  tab_unrefreshed (resume o t) ∧ tab_blocked t `prefix_of` tab_blocked (resume o t).
Proof.
  intros Ho [Hs Hp Hb Hr]. unfold resume. pose proof (unrefreshed_run o (tab_client t) Ho) as [Hc Hout].
  destruct (run o (tab_client t)) as [c' [|e|rq next|ready o']]; cbn [fst snd] in *.
  1-2: split; [by split; [..|auto]|done].
  - destruct Hout as [Hf Hn]. split; [|done]. split; cbn; [| |done|auto].
    + apply Forall_app. split; [done|]. apply Forall_singleton, Hf.
    + apply Forall_app. by split; [|apply Forall_singleton].
  - destruct Hout as [Hready Hc']. split; [|by eexists]. split; cbn; [done..| |done].
    apply Forall_app. by split; [|apply Forall_singleton].
Qed.

Lemma tab_step_unrefreshed t e : tab_unrefreshed t →
  tab_unrefreshed (tab_step t e) ∧ tab_blocked t `prefix_of` tab_blocked (tab_step t e).
Proof.
  intros Ht. destruct e as [a|i r|i]; cbn.
  - by apply resume_unrefreshed; [apply program_unrefreshed|].
  - destruct (tab_pending t !! i) as [[rq next]|] eqn:Ei; [|done]. destruct Ht as [Hs Hp Hb Hr].
    apply (resume_unrefreshed (next r)
      (mkTab (tab_client t) (delete i (tab_pending t)) (tab_blocked t) (tab_sent t))).
    + apply (Forall_lookup_1 _ _ _ _ Hp Ei).
    + split; try done. by apply Forall_delete.
  - destruct (tab_blocked t !! i) as [[ready o]|] eqn:Ei; [|done].
    pose proof (Forall_lookup_1 _ _ _ _ (tu_blocked t Ht) Ei) as Hready. cbn in Hready.
    rewrite Hready, (tu_refreshing t Ht); [done|]. intros E. by rewrite E in Ei.
Qed.

Lemma tab_run_unrefreshed events t : tab_unrefreshed t →
  tab_unrefreshed (tab_run t events) ∧ tab_blocked t `prefix_of` tab_blocked (tab_run t events).
Proof.
  revert t. induction events as [|e events IH]; intros t Ht; [done|]. cbn.
  destruct (tab_step_unrefreshed t e Ht) as [Ht1 H1]. destruct (IH _ Ht1) as [Ht2 H2]. split; [done|].
  by transitivity (tab_blocked (tab_step t e)).
Qed.

(** no tab ever sends the refresh of its session, and a request that is
    answered 401, its token having expired, never completes: the operation it
    belongs to waits from then on in every later state, whatever else happens. *)
Theorem expired_session_hangs access refresh events i rq next body :
  let t := tab_run (open_tab access refresh) events in
  Forall (λ rq, hr_url rq ≠ REFRESH_URL) (tab_sent t) ∧
  (tab_pending t !! i = Some (rq, next) → isAuthUrl (hr_url rq) = false →
   ∃ b, ∀ later, b ∈ tab_blocked (tab_run t (Answer i (mkReply 401 body) :: later)) ∧
     b.1 (tab_client (tab_run t (Answer i (mkReply 401 body) :: later))) = false).
Proof.
  cbv zeta.
  assert (Hopen : tab_unrefreshed (open_tab access refresh)) by (by split; cbn; [constructor..|]).
  destruct (tab_run_unrefreshed events _ Hopen) as [Ht _]. set (t := tab_run _ events) in *. clearbody t.
  split; [by apply tu_sent|]. intros Ei Ha.
  destruct (Forall_lookup_1 _ _ _ _ (tu_pending t Ht) Ei) as [[_ Hf] _]. cbn in Hf.
  destruct (Hf Ha body (tab_client t)) as (c' & ready & o' & E & Hready & Hc').
  exists (ready, o'). intros later.
  destruct (tab_step_unrefreshed t (Answer i (mkReply 401 body)) Ht) as [Ht1 _].
  assert (Hin : (ready, o') ∈ tab_blocked (tab_step t (Answer i (mkReply 401 body)))).
  { cbn. rewrite Ei. unfold resume. cbn. rewrite E. cbn. set_solver. }
  destruct (tab_run_unrefreshed later _ Ht1) as [Ht2 Hpre]. cbn [tab_run foldl] in *.
  assert (Hin2 : (ready, o') ∈ tab_blocked (tab_run t (Answer i (mkReply 401 body) :: later))).
  { by apply (elem_of_prefix _ _ _ Hin). }
  split; [exact Hin2|]. cbn. rewrite Hready. apply negb_false_iff, (tu_refreshing _ Ht2).
  intros En. unfold tab_run in Hin2. cbn in Hin2.
  change (foldl tab_step _ _) with (tab_run (tab_step t (Answer i (mkReply 401 body))) later) in Hin2.
  rewrite En in Hin2. by apply elem_of_nil in Hin2.
Qed.
End expiry.
