(* ===== verification/Pages.v ===== *)
(** * Pages: what the pages of the client keep for themselves

    The components of [frontend/src/app/features]: their forms, the flags that
    disable their buttons, and what an answer does to them.  A page asks the
    services for an [action] of [Client]; the answers arrive in any order.
    The templates are modelled as far as they say when a button can be pressed
    and which part of a page is shown. *)
From S2P Require Import Prelude Client.
From Stdlib Require Import ZArith Lia Ascii.
From stdpp Require Import base tactics strings list relations.

(** ** Forms *)

(** [Validators.required], [.minLength(n)], [.maxLength(n)] on a text; the
    length of an empty text is not checked. *)
Definition required (s : string) : bool := truthy s.
Definition minLength (n : nat) (s : string) : bool := negb (truthy s) || Nat.leb n (String.length s).
Definition maxLength (n : nat) (s : string) : bool := Nat.leb (String.length s) n.

(** A form and its [submit]: when it is valid, what it asks for, the text shown
    when an error has none; whether [submit] takes back the message of success,
    a success resets the fields, or takes the form away. *)
Record Form := mkForm {
  fm_values : Type;
  fm_initial : fm_values;
  fm_valid : fm_values → bool;
  fm_action : fm_values → action;
  fm_failed : string;
  fm_forgets : bool;
  fm_resets : bool;
  fm_leaves : bool
}.

Record FormState (F : Form) := mkFormState {
  fo_values : fm_values F;
  fo_busy : bool;
  fo_success : bool;
  fo_error : option string
}.
#[global] Arguments mkFormState {F} _ _ _ _.
#[global] Arguments fo_values {F} _.
#[global] Arguments fo_busy {F} _.
#[global] Arguments fo_success {F} _.
#[global] Arguments fo_error {F} _.

Module FormPage.
Section form.
Context (F : Form).
Implicit Types (s : FormState F).

Definition pristine : FormState F := mkFormState (fm_initial F) false false None.

Definition edit (v : fm_values F) s : FormState F := mkFormState v (fo_busy s) (fo_success s) (fo_error s).

Definition submit s : FormState F * option action :=
  if fm_valid F (fo_values s)
  then (mkFormState (fo_values s) true (if fm_forgets F then false else fo_success s) None, Some (fm_action F (fo_values s)))
  else (s, None).

(** The observers of [subscribe]. *)
Definition succeeded s : FormState F :=
  mkFormState (if fm_resets F then fm_initial F else fo_values s) false true (fo_error s).
Definition failed (message : option string) s : FormState F :=
  mkFormState (fo_values s) false (fo_success s) (Some (message ?? fm_failed F)).

(** [[disabled]="form.invalid || loading()"], on a form that is shown. *)
Definition enabled s : bool := fm_valid F (fo_values s) && negb (fo_busy s) && negb (fm_leaves F && fo_success s).

(** A page with its requests that have no answer yet. *)
Definition FormPage : Type := FormState F * list action.

Inductive form_step : FormPage → FormPage → Prop :=
  | form_edit s l v : form_step (s, l) (edit v s, l)
  | form_click s l s' a : enabled s = true → submit s = (s', Some a) → form_step (s, l) (s', l ++ [a])
  | form_success s l1 a l2 : form_step (s, l1 ++ a :: l2) (succeeded s, l1 ++ l2)
  | form_failure s l1 a l2 message : form_step (s, l1 ++ a :: l2) (failed message s, l1 ++ l2).

(** The requests that wait: one while the form is busy, and none otherwise. *)
Definition awaiting (p : FormPage) : Prop :=
  p.2 = [] ∧ fo_busy p.1 = false ∨ ∃ v, fm_valid F v = true ∧ p.2 = [fm_action F v] ∧ fo_busy p.1 = true.

Lemma one_answer l1 b (l2 : list action) v : l1 ++ b :: l2 = [fm_action F v] → l1 ++ l2 = [].
Proof.
  intros E. destruct l1 as [|c l1]; [by simplify_eq/=|].
  apply (f_equal length) in E. cbn in E. rewrite length_app in E. cbn in E. lia.
Qed.

Lemma form_awaits p p' : form_step p p' → awaiting p → awaiting p'.
Proof.
  intros Hs HI. destruct Hs as [s l v|s l s' a He Hs|s l1 a l2|s l1 a l2 message]; unfold awaiting in *; cbn in *.
  - exact HI.
  - unfold enabled in He. apply andb_true_iff in He as [[Hv Hb%negb_true_iff]%andb_true_iff _].
    unfold submit in Hs. rewrite Hv in Hs. injection Hs as <- <-. right. exists (fo_values s).
    destruct HI as [[-> _]|(? & _ & _ & ?)]; [done|congruence].
  - left. destruct HI as [[E _]|(v & _ & E & _)]; [by destruct l1|]. by rewrite (one_answer _ _ _ _ E).
  - left. destruct HI as [[E _]|(v & _ & E & _)]; [by destruct l1|]. by rewrite (one_answer _ _ _ _ E).
Qed.

(** C38: a form with a flag of its own waits for at most one answer.  Its
    button can be pressed exactly when the form is shown and valid and nothing
    it asked for waits for an answer; what it asked for was valid.  The nine
    forms of this kind are the ones below. *)
Theorem form_one_request p :
  rtc form_step (pristine, []) p →
  length p.2 ≤ 1 ∧
  (enabled p.1 = true ↔
    fm_valid F (fo_values p.1) = true ∧ p.2 = [] ∧ (fm_leaves F && fo_success p.1) = false) ∧
  ∀ a, a ∈ p.2 → ∃ v, fm_valid F v = true ∧ a = fm_action F v.
Proof.
  intros Hrun. assert (awaiting p) as Hp.
  { assert (awaiting (pristine, [])) as H0 by by left. revert H0.
    induction Hrun as [|p1 p2 p3 Hs _ IH]; [done|]. intros HI. by apply IH, (form_awaits p1). }
  unfold enabled. destruct Hp as [[-> ->]|(v & Hv & -> & ->)].
  - split_and!; [cbn; lia| |by intros a ?%elem_of_nil].
    rewrite andb_true_r, andb_true_iff, negb_true_iff. tauto.
  - split_and!; [done| |intros a ->%list_elem_of_singleton; by exists v].
    rewrite andb_false_r. split; [done|]. by intros (_ & ? & _).
Qed.
End form.
End FormPage.

(** *** The forms of the program *)

Section forms.

(** [Validators.email] on a text that is not empty. *)
Context (is_email : string → bool).

Definition email (s : string) : bool := negb (truthy s) || is_email s.

Definition LoginForm : Form := {|
  fm_values := string * string; fm_initial := (""%string, ""%string);
  fm_valid := λ '(address, password), required address && email address && required password && minLength 8 password;
  fm_action := λ '(address, password), SignIn address password;
  fm_failed := "Login failed. Please try again."; fm_forgets := false; fm_resets := false; fm_leaves := true |}.

Record Registration := mkRegistration {
  rg_name : string;
  rg_email : string;
  rg_password : string;
  rg_confirmPassword : string
}.

Definition RegisterForm : Form := {|
  fm_values := Registration; fm_initial := mkRegistration "" "" "" "";
  fm_valid := λ v, required (rg_name v) && minLength 2 (rg_name v) && required (rg_email v) && email (rg_email v)
    && required (rg_password v) && minLength 8 (rg_password v) && required (rg_confirmPassword v)
    && (rg_password v =? rg_confirmPassword v)%string;
  fm_action := λ v, Register (rg_name v) (rg_email v) (rg_password v);
  fm_failed := "Registration failed. Please try again."; fm_forgets := false; fm_resets := false; fm_leaves := true |}.

Definition ForgotPasswordForm : Form := {|
  fm_values := string; fm_initial := ""%string;
  fm_valid := λ address, required address && email address;
  fm_action := ForgotPassword;
  fm_failed := "Failed to send reset email."; fm_forgets := false; fm_resets := false; fm_leaves := true |}.

(** The token is in the query of the link. *)
Definition ResetPasswordForm (token : option string) : Form := {|
  fm_values := string * string; fm_initial := (""%string, ""%string);
  fm_valid := λ '(password, confirmPassword), required password && minLength 8 password && required confirmPassword
    && (password =? confirmPassword)%string && otruthy token;
  fm_action := λ '(password, _), ResetPassword (token ?? "") password;
  fm_failed := "Failed to reset password."; fm_forgets := false; fm_resets := false; fm_leaves := true |}.

(** [s || undefined], [s || null]. *)
Definition or_none (s : string) : option string := if truthy s then Some s else None.

Definition CreateTaskForm (workspaceId : string) : Form := {|
  fm_values := string * string * string; fm_initial := ("", "medium", "")%string;
  fm_valid := λ '(title, _, _), required title && maxLength 500 title;
  fm_action := λ '(title, priority, dueDate), CreateTask workspaceId title (Some priority) (or_none dueDate);
  fm_failed := "Failed to create task"; fm_forgets := false; fm_resets := false; fm_leaves := true |}.

Definition CreateWorkspaceForm : Form := {|
  fm_values := string * string; fm_initial := (""%string, ""%string);
  fm_valid := λ '(name, _), required name && maxLength 255 name;
  fm_action := λ '(name, description), CreateWorkspace name (or_none description);
  fm_failed := "Failed to create workspace"; fm_forgets := false; fm_resets := false; fm_leaves := true |}.

Definition CreateChannelForm (workspaceId : string) : Form := {|
  fm_values := string; fm_initial := ""%string;
  fm_valid := λ name, required name && maxLength 255 name;
  fm_action := λ name, CreateChannel name workspaceId;
  fm_failed := "Failed to create channel"; fm_forgets := false; fm_resets := false; fm_leaves := true |}.

(** It shows first what the user's name and bio are. *)
Definition ProfileForm (name bio : string) : Form := {|
  fm_values := string * string; fm_initial := (name, bio);
  fm_valid := λ '(name, _), required name && maxLength 255 name;
  fm_action := λ '(name, bio), UpdateProfile name (or_none bio);
  fm_failed := "Failed to update profile"; fm_forgets := true; fm_resets := false; fm_leaves := false |}.

(** Current, new and confirmed password. *)
Definition PasswordForm : Form := {|
  fm_values := string * string * string; fm_initial := ("", "", "")%string;
  fm_valid := λ '(currentPassword, newPassword, confirmPassword), required currentPassword && required newPassword
    && minLength 8 newPassword && required confirmPassword && (newPassword =? confirmPassword)%string;
  fm_action := λ '(currentPassword, newPassword, _), ChangePassword currentPassword newPassword;
  fm_failed := "Failed"; fm_forgets := false; fm_resets := true; fm_leaves := false |}.

(** Their [submit]s. *)
Definition LoginComponent_submit := FormPage.submit LoginForm.
Definition RegisterComponent_submit := FormPage.submit RegisterForm.
Definition ForgotPasswordComponent_submit := FormPage.submit ForgotPasswordForm.
Definition ResetPasswordComponent_submit token := FormPage.submit (ResetPasswordForm token).
Definition CreateTaskDialogComponent_submit workspaceId := FormPage.submit (CreateTaskForm workspaceId).
Definition CreateWorkspaceDialogComponent_submit := FormPage.submit CreateWorkspaceForm.
Definition CreateChannelDialogComponent_submit workspaceId := FormPage.submit (CreateChannelForm workspaceId).
Definition ProfileTabComponent_submit name bio := FormPage.submit (ProfileForm name bio).
Definition SecurityTabComponent_submitPassword := FormPage.submit PasswordForm.
End forms.

(** ** The second factor at sign-in *)

Module MfaPage.

Record Mfa := mkMfa {
  mf_code : string;
  mf_error : option string;
  mf_loading : bool
}.

Definition is_digit (c : ascii) : bool := let n := nat_of_ascii c in Nat.leb 48 n && Nat.leb n 57.

(** [value.replace(/\D/g, '').slice(0, 6)]. *)
Definition digits (value : string) : string :=
  String.substring 0 6 (String.string_of_list_ascii (List.filter is_digit (String.list_ascii_of_string value))).

Definition submitCode (code : string) (s : Mfa) : Mfa * option action :=
  (mkMfa (mf_code s) None true, Some (SubmitCode code)).

Definition onDigitInput (value : string) (s : Mfa) : Mfa * option action :=
  let d := digits value in
  let s := mkMfa d (mf_error s) (mf_loading s) in
  if Nat.eqb (String.length d) 6 then submitCode d s else (s, None).

(** [answer] is what the prompt returns; the button is never disabled. *)
Definition useBackupCode (answer : option string) (s : Mfa) : Mfa * option action :=
  if otruthy answer then submitCode (trim (answer ?? "")) s else (s, None).

Definition succeeded (s : Mfa) : Mfa := mkMfa (mf_code s) (mf_error s) false.
Definition failed (message : option string) (s : Mfa) : Mfa :=
  mkMfa "" (Some (message ?? "Invalid code. Please try again.")) false.

(** Only a code of six digits is sent from the field. *)
Lemma digits_only value : Forall (λ c, is_digit c) (String.list_ascii_of_string (digits value)).
Proof.
  unfold digits. set (l := List.filter is_digit _).
  assert (Forall (λ c, is_digit c) l) as Hl.
  { apply Forall_forall. intros c [_ Hc]%list_elem_of_In%filter_In. by rewrite Hc. }
  clearbody l. generalize 6 as n. induction Hl as [|c l Hc Hl IH]; intros [|n]; cbn; [constructor..|].
  constructor; [done|apply IH].
Qed.
End MfaPage.

(** ** The link of an email *)

Module VerifyEmailPage.
Inductive status := Loading | Success | Error (message : string) | Missing.

Definition ngOnInit (token : option string) : status * option action :=
  if otruthy token then (Loading, Some (VerifyEmail (token ?? ""))) else (Missing, None).
Definition answered (failure : option (option string)) : status :=
  match failure with None => Success | Some message => Error (message ?? "Verification failed.") end.
End VerifyEmailPage.

(** ** Settings: security *)

Module SecurityTab.

Record Session := mkSession {
  se_id : string;
  se_deviceInfo : string;
  se_ipAddress : string;
  se_lastActive : string;
  se_isCurrent : bool
}.
Record MfaStatus := mkMfaStatus {
  st_enabled : bool;
  st_backupCodesRemaining : Z
}.

(** The signals of the page, without those of the form that changes the password
    ([PasswordForm]) and the fields of the other two forms, which a button brings
    along. *)
Record Security := mkSecurity {
  sc_sessions : list Session;
  sc_mfaStatus : option MfaStatus;
  sc_setupData : option (string * string);
  sc_backupCodes : option (list string);
  sc_disableMfaConfirm : bool
}.
#[export] Instance eta_Security : Eta Security := fun s =>
  mkSecurity (sc_sessions s) (sc_mfaStatus s) (sc_setupData s) (sc_backupCodes s) (sc_disableMfaConfirm s).

Definition ngOnInit : list action := [LoadSessions; LoadMfa].

(** The part of the template that is shown. *)
Inductive view := Waiting | Setup | Codes | Enabled | EnabledConfirm | Disabled.
Definition mfa_view (s : Security) : view :=
  match sc_mfaStatus s with
  | None => Waiting
  | Some st =>
      match sc_setupData s, sc_backupCodes s with
      | Some _, _ => Setup
      | None, Some _ => Codes
      | None, None => if st_enabled st then (if sc_disableMfaConfirm s then EnabledConfirm else Enabled) else Disabled
      end
  end.

Inductive button :=
  | EnableButton
  | CancelSetup
  | VerifyButton (code : string)
  | DoneButton
  | DisableButton
  | CancelDisable
  | ConfirmDisable (password : string)
  | RegenerateButton.

(** [Validators.pattern(/^\d{6}$/)]. *)
Definition six_digits (code : string) : bool :=
  Nat.eqb (String.length code) 6 && forallb MfaPage.is_digit (String.list_ascii_of_string code).

Definition pressable (v : view) (b : button) : bool :=
  match v, b with
  | Disabled, EnableButton | Setup, CancelSetup | Codes, DoneButton => true
  | Setup, VerifyButton code => required code && six_digits code
  | (Enabled | EnabledConfirm), (DisableButton | RegenerateButton) => true
  | EnabledConfirm, CancelDisable => true
  | EnabledConfirm, ConfirmDisable password => required password
  | _, _ => false
  end.

Definition press (b : button) (s : Security) : Security * option action :=
  match b with
  | EnableButton => (s, Some SetupMfa)
  | CancelSetup => (s <| sc_setupData := None |>, None)
  | VerifyButton code => (s, Some (ConfirmMfa code))
  | DoneButton => (s <| sc_backupCodes := None |>, None)
  | DisableButton => (s <| sc_disableMfaConfirm := true |>, None)
  | CancelDisable => (s <| sc_disableMfaConfirm := false |>, None)
  | ConfirmDisable password => (s, Some (DisableMfa password))
  | RegenerateButton => (s, Some RegenBackupCodes)
  end.

(** What the observers do with the answers; an error has no observer. *)
Inductive answer :=
  | SessionsLoaded (l : list Session)
  | StatusLoaded (st : MfaStatus)
  | SetupStarted (qrCodeUrl secret : string)
  | MfaConfirmed (codes : list string)
  | MfaDisabled
  | CodesRegenerated (codes : list string)
  | SessionRevoked (id : string).

Definition revoked (id : string) (l : list Session) : list Session := List.filter (λ x, negb (se_id x =? id)%string) l.

Definition receive (a : answer) (s : Security) : Security :=
  match a with
  | SessionsLoaded l => s <| sc_sessions := l |>
  | StatusLoaded st => s <| sc_mfaStatus := Some st |>
  | SetupStarted qrCodeUrl secret => s <| sc_setupData := Some (qrCodeUrl, secret) |>
  | MfaConfirmed codes =>
      s <| sc_setupData := None |> <| sc_backupCodes := Some codes |>
        <| sc_mfaStatus := Some (mkMfaStatus true (Z.of_nat (length codes))) |>
  | MfaDisabled => s <| sc_mfaStatus := Some (mkMfaStatus false 0) |> <| sc_disableMfaConfirm := false |>
  | CodesRegenerated codes => s <| sc_backupCodes := Some codes |>
  | SessionRevoked id => s <| sc_sessions := revoked id (sc_sessions s) |>
  end.

Definition others (l : list Session) : list Session := List.filter (λ x, negb (se_isCurrent x)) l.
Definition revokeSession (id : string) : action := RevokeSession id.
Definition revokeOthers (s : Security) : list action := (λ x, revokeSession (se_id x)) <$> others (sc_sessions s).

Lemma revoked_all ids s :
  sc_sessions (foldl (λ s id, receive (SessionRevoked id) s) s ids) =
  List.filter (λ x, negb (includes ids (se_id x))) (sc_sessions s).
Proof.
  revert s. induction ids as [|id ids IH]; intros s; cbn [foldl].
  - symmetry. apply filter_all.
  - rewrite IH. change (sc_sessions (receive _ s)) with (revoked id (sc_sessions s)). unfold revoked. rewrite filter_twice. apply List.filter_ext. intros x.
    unfold includes. cbn [existsb]. by rewrite negb_orb.
Qed.

(** "Sign out everywhere else" leaves, once its requests have succeeded, in
    whatever order, the sessions of this device. *)
Theorem revokeOthers_correct s ids :
  NoDup (se_id <$> sc_sessions s) → ids ≡ₚ se_id <$> others (sc_sessions s) →
  revokeOthers s = revokeSession <$> (se_id <$> others (sc_sessions s)) ∧
  sc_sessions (foldl (λ s id, receive (SessionRevoked id) s) s ids) = List.filter se_isCurrent (sc_sessions s).
Proof.
  intros Hnd Hids. split; [unfold revokeOthers; by rewrite <- list_fmap_compose|].
  rewrite revoked_all. apply filter_ext_in. intros x Hx%list_elem_of_In. destruct (se_isCurrent x) eqn:Ec.
  - apply negb_true_iff, not_true_iff_false. intros (id & Hid & <-%String.eqb_eq)%existsb_exists.
    apply list_elem_of_In in Hid. rewrite Hids in Hid. apply list_elem_of_fmap in Hid as (y & Ey & Hy).
    apply elem_of_filter_bool in Hy as [Hy Hc]. apply list_elem_of_lookup in Hx as [i Hi]. apply list_elem_of_lookup in Hy as [j Hj].
    assert (i = j) as <-; [|simplify_eq; by rewrite Ec in Hc].
    eapply (NoDup_lookup (se_id <$> sc_sessions s)); [done|by rewrite list_lookup_fmap, Hi|by rewrite list_lookup_fmap, Hj, Ey].
  - apply negb_false_iff, existsb_exists. exists (se_id x). split; [|by apply String.eqb_refl].
    apply list_elem_of_In. rewrite Hids. apply list_elem_of_fmap. exists x. split; [done|].
    apply elem_of_filter_bool. by rewrite Ec.
Qed.
End SecurityTab.

(** ** Settings: preferences *)

Module PreferencesTab.
Section debounce.
Context {A : Type}.

(** What [valueChanges.pipe(debounceTime(1000), takeUntil(destroy$))] lets
    through: the changes come with their times, the page is left at
    [destroyed].  A change that is due at the moment of the next is kept. *)
Definition DEBOUNCE : Z := 1000.

Fixpoint debounced (destroyed : Z) (changes : list (Z * A)) : list A :=
  match changes with
  | [] => []
  | (t, v) :: rest =>
      let next := match rest with (t', _) :: _ => Z.min t' destroyed | [] => destroyed end in
      if (t + DEBOUNCE <=? next)%Z then v :: debounced destroyed rest else debounced destroyed rest
  end.

(** What is saved of the last change does not depend on those before: it is
    saved exactly when the page stays open a second longer. *)
Theorem last_change_saved destroyed changes t v :
  Forall (λ c, (c.1 ≤ t)%Z) changes → (t ≤ destroyed)%Z →
  debounced destroyed (changes ++ [(t, v)]) =
    debounced t changes ++ (if (t + DEBOUNCE <=? destroyed)%Z then [v] else []).
Proof.
  intros Hall Ht. induction Hall as [|[t0 v0] changes H0 Hall IH]; [reflexivity|].
  cbn [app debounced]. rewrite IH. cbn in H0.
  assert (match changes ++ [(t, v)] with (t', _) :: _ => Z.min t' destroyed | [] => destroyed end =
    match changes with (t', _) :: _ => Z.min t' t | [] => t end) as ->.
  { destruct Hall as [|[t1 v1] l H1 Hl]; cbn in *; lia. }
  by destruct (t0 + DEBOUNCE <=? _)%Z.
Qed.
End debounce.
End PreferencesTab.

(** ** Tasks *)

Module TaskList.

(** [STATUS_GROUPS]. *)
Definition statuses : list string := ["todo"; "in_progress"; "in_review"; "done"; "cancelled"]%string.

(** [t.status === status]. *)
Definition tasksForStatus (tasks : list Task) (status : string) : list Task :=
  List.filter (λ t, js_is (tk_status t) status) tasks.

Definition toggleExpand (taskId : string) (expanded : option string) : option string :=
  if is_val expanded taskId then None else Some taskId.

Definition ngOnInit (workspaceId : string) : action := LoadTasks workspaceId.
(** [afterClosed] of the dialog. *)
Definition closed (workspaceId : string) (created : bool) : option action :=
  if created then Some (LoadTasks workspaceId) else None.
Definition updateStatus (taskId : string) (t : Task) (status : string) : action :=
  UpdateStatus taskId status (tk_version t ?? JNull).

Lemma group_of t status : js_is (tk_status t) status = true ↔ tk_status t = Some (JStr status).
Proof.
  unfold js_is. destruct (tk_status t) as [[]|]; try (split; [done|by intros [=]]). cbn.
  rewrite String.eqb_eq. split; [by intros ->|by intros [= ->]].
Qed.

(** The groups of the page show every task whose status is one of the five, and
    none twice. *)
Theorem groups_partition tasks :
  concat (tasksForStatus tasks <$> statuses) ≡ₚ
  List.filter (λ t, existsb (js_is (tk_status t)) statuses) tasks.
Proof.
  assert (NoDup statuses) as Hnd by (apply (bool_decide_unpack _); vm_compute; exact I). revert Hnd.
  generalize statuses as l. intros l Hnd. induction Hnd as [|status l Hs Hnd IH]; cbn.
  { induction tasks; [done|]. cbn. done. }
  rewrite IH. clear IH. induction tasks as [|t tasks IH]; [done|]. cbn.
  destruct (js_is (tk_status t) status) eqn:E; cbn.
  - assert (existsb (js_is (tk_status t)) l = false) as ->.
    { apply not_true_iff_false. intros (s' & Hs' & E')%existsb_exists. apply group_of in E, E'. rewrite E in E'.
      injection E' as <-. by apply list_elem_of_In in Hs'. }
    by rewrite IH.
  - destruct (existsb _ l); [|exact IH]. by rewrite <- Permutation_middle, IH.
Qed.
End TaskList.

(** ** Messages and comments *)

(** What is being written, with the files that are ready: [ChannelViewComponent]
    and [TaskCommentComponent]. *)
Module Composer.

Record Draft := mkDraft {
  dr_body : string;
  dr_attachments : list string
}.

Definition onFileReady (fileId : string) (d : Draft) : Draft := mkDraft (dr_body d) (dr_attachments d ++ [fileId]).

(** [send]: the button is disabled while a message is sent or a file is on its
    way. *)
Definition sendable (d : Draft) (sending pendingUploads : bool) : bool :=
  required (dr_body d) && negb sending && negb pendingUploads.
Definition send (channelId : string) (d : Draft) : option action :=
  if required (dr_body d) then Some (SendMessage channelId (dr_body d) (dr_attachments d)) else None.

(** [submit] of a comment: its text becomes the operations of an editor. *)
Definition quillBody (body : string) : list (string * json) :=
  [("ops", JArr [JObj [("insert", JStr (trim body +:+ String (ascii_of_nat 10) ""))]])]%string.
Definition submit (taskId : string) (d : Draft) : option action :=
  if truthy (trim (dr_body d)) then Some (AddComment taskId (quillBody (dr_body d)) (dr_attachments d)) else None.

(** The answer clears the draft. *)
Definition sent (d : Draft) : Draft := mkDraft "" [].

(** A file that is ready while the message is on its way goes with no message. *)
Example file_lost (d : Draft) fileId : dr_attachments (sent (onFileReady fileId d)) = [].
Proof. done. Qed.
End Composer.

(** ** Notifications *)

Module NotificationPages.

Record Preference := mkPreference {
  pf_eventType : string;
  pf_channelInapp : bool;
  pf_channelEmail : bool;
  pf_channelPush : bool
}.
Inductive channel := Inapp | Email | Push.

Definition flipped (ch : channel) (p : Preference) : Preference :=
  match ch with
  | Inapp => mkPreference (pf_eventType p) (negb (pf_channelInapp p)) (pf_channelEmail p) (pf_channelPush p)
  | Email => mkPreference (pf_eventType p) (pf_channelInapp p) (negb (pf_channelEmail p)) (pf_channelPush p)
  | Push => mkPreference (pf_eventType p) (pf_channelInapp p) (pf_channelEmail p) (negb (pf_channelPush p))
  end.

(** The page shows the change at once, and asks for it; an error changes
    nothing back. *)
Definition toggle (pref : Preference) (ch : channel) (ps : list Preference) : list Preference * action :=
  let updated := flipped ch pref in
  ((λ p, if (pf_eventType p =? pf_eventType pref)%string then updated else p) <$> ps,
   TogglePreference (pf_eventType updated) (pf_channelInapp updated) (pf_channelEmail updated) (pf_channelPush updated)).

(** What is asked for is what is shown. *)
Lemma toggle_shows pref ch ps :
  pref ∈ ps →
  flipped ch pref ∈ (toggle pref ch ps).1 ∧
  (toggle pref ch ps).2 = TogglePreference (pf_eventType pref) (pf_channelInapp (flipped ch pref))
    (pf_channelEmail (flipped ch pref)) (pf_channelPush (flipped ch pref)).
Proof.
  intros Hp. split; [|by destruct ch]. apply list_elem_of_fmap. exists pref. by rewrite String.eqb_refl.
Qed.

(** The panel. *)
Definition MENTION_TYPES : list string := ["task.mentioned"; "chat.mention"; "comment.mentioned"]%string.
Inductive tab := All | Unread | Mentions.
Definition filtered (t : tab) (ns : list Notification) : list Notification :=
  match t with
  | All => ns
  | Unread => List.filter (λ n, negb (js_truthy (nt_isRead n))) ns
  | Mentions => List.filter (λ n, existsb (js_is (nt_type n)) MENTION_TYPES) ns
  end.
Definition unreadCount (ns : list Notification) : nat := length (filtered Unread ns).

(** A mention of the server is of a type of its own, and the tab does not show
    it. *)
Example mention_not_shown n : nt_type n = Some (JStr "mention.created") → filtered Mentions [n] = [].
Proof. intros E. cbn. by rewrite E. Qed.
End NotificationPages.

Module PagesExamples.
Import SecurityTab PreferencesTab.

(** A backup code can be sent while the code of the field is on its way, and
    the first answer ends the wait of both. *)
Example two_codes :
  let s1 := MfaPage.onDigitInput "12 34-56x" (MfaPage.mkMfa "" None false) in
  let s2 := MfaPage.useBackupCode (Some " abcd ") s1.1 in
  s1.2 = Some (SubmitCode "123456") ∧ s2.2 = Some (SubmitCode "abcd") ∧ MfaPage.mf_loading (MfaPage.succeeded s2.1) = false.
Proof. vm_compute. split_and!; reflexivity. Qed.

(** After new backup codes the page shows the old number of them. *)
Definition enabled_page : Security := mkSecurity [] (Some (mkMfaStatus true 2)) None None false.
Example stale_count :
  let s := (press DoneButton (receive (CodesRegenerated ["a"; "b"; "c"; "d"]%string) enabled_page)).1 in
  mfa_view s = Enabled ∧ sc_mfaStatus s = Some (mkMfaStatus true 2).
Proof. split; reflexivity. Qed.

(** Two changes within a second are one; the last is lost when the page is left
    too soon. *)
Example two_changes : debounced 5000 [(0, "a"); (400, "b"); (3000, "c")]%Z = ["b"; "c"]%string.
Proof. reflexivity. Qed.
Example last_lost : debounced 3500 [(0, "a"); (400, "b"); (3000, "c")]%Z = ["b"]%string.
Proof. reflexivity. Qed.

Definition is_email (s : string) : bool := negb (is_null (String.index 0 "@" s)).
Definition login : Form := LoginForm is_email.
Definition typed : FormState login := FormPage.edit login ("ann@acme.org", "correct horse")%string (FormPage.pristine login).
Definition asked : FormPage.FormPage login :=
  ((FormPage.submit login typed).1, [SignIn "ann@acme.org" "correct horse"]).

Lemma form_one_request_witness :
  FormPage.enabled login asked.1 = false ∧
  ∃ v, fm_valid login v = true ∧ SignIn "ann@acme.org" "correct horse" = fm_action login v.
Proof.
  destruct (FormPage.form_one_request login asked) as (_ & Hb & Ha).
  - eapply rtc_l; [apply FormPage.form_edit|]. eapply rtc_l; [|apply rtc_refl].
    apply (FormPage.form_click login typed []); vm_compute; reflexivity.
  - split; [|apply Ha; by apply list_elem_of_singleton].
    destruct (FormPage.enabled login asked.1) eqn:E; [|done]. by destruct (proj1 Hb eq_refl) as (_ & ? & _).
Defined.

(** The two forms of the second factor have no such flag: a code can be sent
    again while the first answer is awaited, and so can a password. *)
Example second_factor_twice :
  let s := mkSecurity [] (Some (mkMfaStatus false 0)) (Some ("qr", "secret")%string) None false in
  let on := mkSecurity [] (Some (mkMfaStatus true 8)) None None true in
  let '(s1, a1) := press (VerifyButton "123456") s in
  let '(on1, b1) := press (ConfirmDisable "pw") on in
  pressable (mfa_view s1) (VerifyButton "123456") = true ∧ a1 = Some (ConfirmMfa "123456") ∧
  (press (VerifyButton "123456") s1).2 = Some (ConfirmMfa "123456") ∧
  pressable (mfa_view on1) (ConfirmDisable "pw") = true ∧ b1 = Some (DisableMfa "pw") ∧
  (press (ConfirmDisable "pw") on1).2 = Some (DisableMfa "pw").
Proof. vm_compute. by split_and!. Qed.

Example a_login :
  let F := login in
  let s := typed in
  FormPage.enabled F s = true ∧ (FormPage.submit F s).2 = Some (SignIn "ann@acme.org" "correct horse") ∧
  FormPage.enabled F (FormPage.submit F s).1 = false ∧ FormPage.enabled F (FormPage.failed F (Some "Wrong"%string) (FormPage.submit F s).1) = true.
Proof. vm_compute. split_and!; reflexivity. Qed.
End PagesExamples.
