(* ===== verification/Navigation.v ===== *)
(** * Navigation: the routes of the client and what leads to them

    The tables of [frontend/src/app/*.routes.ts] as data, their guards run
    before a page is shown, the links of the templates, and the parts of the
    pages that do not ask a service for anything: labels of notifications,
    sizes of files, the list of uploads.  Which routes a path leads to is the
    business of Angular's router, an interface here, with the one law that it
    answers a way down the table. *)
From S2P Require Import Prelude World Concrete Client Pages.
From Stdlib Require Import ZArith Lia Ascii.
From stdpp Require Import base tactics strings list pretty relations.

#[local] Open Scope string_scope.

(** ** The tables *)

Inductive guard := AuthGuard | OrgGuard | RoleGuard (requiredRole : string).
#[export] Instance guard_eq_dec : EqDecision guard.
Proof. solve_decision. Defined.

(** The components that a route names. *)
Inductive page :=
  | AuthLayout | Login | Register | VerifyEmail | Mfa | ForgotPassword | ResetPassword | SsoCallback
  | OrgPicker | AdminPlaceholder
  | Shell | WorkspaceList | FilesPage
  | WorkspaceShell | TaskList | ChannelView
  | Settings | ProfileTab | SecurityTab | PreferencesTab | NotificationPreferences.
#[export] Instance page_eq_dec : EqDecision page.
Proof. solve_decision. Defined.

(** A path is cut at its slashes; [loadChildren] gives the children and
    [loadComponent] the component once they are loaded. *)
Inductive Route := mkRoute {
  rt_path : list string;
  rt_redirectTo : option (bool * list string);
  rt_pathMatchFull : bool;
  rt_canActivate : list guard;
  rt_component : option page;
  rt_children : list Route
}.

(** The forms of a route that the tables use; a redirection is absolute or
    takes the place of what was matched. *)
Definition shows (path : list string) (p : page) : Route := mkRoute path None false [] (Some p) [].
Definition redirects (path : list string) (absolute full : bool) (target : list string) : Route :=
  mkRoute path (Some (absolute, target)) full [] None [].
Definition holds (p : page) (children : list Route) : Route := mkRoute [] None false [] (Some p) children.
Definition loads (path : list string) (children : list Route) : Route := mkRoute path None false [] None children.
Definition guarded (gs : list guard) (r : Route) : Route :=
  mkRoute (rt_path r) (rt_redirectTo r) (rt_pathMatchFull r) gs (rt_component r) (rt_children r).

Definition authRoutes : list Route :=
  [holds AuthLayout
    [redirects [] false true ["login"];
     shows ["login"] Login;
     shows ["register"] Register;
     shows ["verify"] VerifyEmail;
     shows ["mfa"] Mfa;
     shows ["forgot"] ForgotPassword;
     shows ["reset"] ResetPassword;
     shows ["callback"] SsoCallback]].

Definition workspaceShellRoutes : list Route :=
  [holds WorkspaceShell
    [redirects [] false true ["tasks"];
     shows ["tasks"] TaskList;
     redirects ["chat"] false true ["tasks"];
     shows ["chat"; ":channelId"] ChannelView]].

Definition settingsRoutes : list Route :=
  [holds Settings
    [redirects [] false true ["profile"];
     shows ["profile"] ProfileTab;
     shows ["security"] SecurityTab;
     shows ["preferences"] PreferencesTab;
     shows ["notifications"] NotificationPreferences]].

Definition shellRoutes : list Route :=
  [holds Shell
    [redirects [] false true ["workspaces"];
     shows ["workspaces"] WorkspaceList;
     loads ["workspaces"; ":id"] workspaceShellRoutes;
     shows ["files"] FilesPage;
     loads ["settings"] settingsRoutes]].

Definition routes : list Route :=
  [redirects [] true true ["app"];
   loads ["auth"] authRoutes;
   guarded [AuthGuard] (shows ["pick-org"] OrgPicker);
   guarded [AuthGuard; OrgGuard] (loads ["app"] shellRoutes);
   guarded [AuthGuard; RoleGuard "platform_admin"] (shows ["admin"] AdminPlaceholder);
   redirects ["**"] true false ["auth"; "login"]].

(** ** The router *)

(** A way down a table, from a route of it to a route without children that
    shows a component. *)
Inductive way : list Route → list Route → Prop :=
  | way_shown rs r p :
      r ∈ rs → rt_redirectTo r = None → rt_children r = [] → rt_component r = Some p → way rs [r]
  | way_down rs r ch :
      r ∈ rs → rt_redirectTo r = None → way (rt_children r) ch → way rs (r :: ch).

(** What Angular makes of a path: the routes it activates, none for an error. *)
Class AngularRouter := { recognize : list Route → list string → option (list Route) }.
Class AngularRouterLaws `{AngularRouter} := {
  recognize_way rs url ch : recognize rs url = Some ch → way rs ch
}.

Definition guards_of (ch : list Route) : list guard := ch ≫= rt_canActivate.
(** The components of nested outlets, the outermost first. *)
Definition pages_of (ch : list Route) : list page := omap rt_component ch.

Section navigation.
Context `{Random, Platform, AngularRouter}.

Definition run_guard (g : guard) : Obs bool :=
  match g with
  | AuthGuard => authGuard
  | OrgGuard => orgGuard
  | RoleGuard requiredRole => roleGuard requiredRole
  end.

(** Every guard runs, and the page is shown when each of them says so.  Only
    the last guard of a route here waits for a request. *)
Fixpoint all_activate (gs : list guard) : Obs bool :=
  match gs with
  | [] => Next true
  | g :: gs => pipe (run_guard g) (λ a, pipe (all_activate gs) (λ b, Next (a && b)))
  end.

(** A navigation: what it shows, or nothing when it is cancelled. *)
Definition navigate (url : list string) : Obs (option (list page)) :=
  match recognize routes url with
  | None => Err (JsError "NG04002: Cannot match any routes")
  | Some ch => pipe (all_activate (guards_of ch)) (λ ok, Next (if ok then Some (pages_of ch) else None))
  end.
End navigation.

(** ** What the pages need *)

Definition public_pages : list page :=
  [AuthLayout; Login; Register; VerifyEmail; Mfa; ForgotPassword; ResetPassword; SsoCallback].

(** Every way down from a route. *)
Fixpoint ways_of (r : Route) : list (list Route) :=
  match rt_redirectTo r with
  | Some _ => []
  | None =>
      ((match rt_children r, rt_component r with [], Some _ => [[r]] | _, _ => [] end) ++
       (cons r <$> (rt_children r ≫= ways_of)))%list
  end.

Lemma way_listed rs ch : way rs ch → ch ∈ rs ≫= ways_of.
Proof.
  induction 1 as [rs r p Hr Hd Hc Hp|rs r ch Hr Hd _ IH]; apply list_elem_of_bind; exists r; (split; [|done]);
    destruct r as [path red full gs cp children]; cbn in *; subst; cbn.
  - by left.
  - apply elem_of_app. right. apply list_elem_of_fmap. eauto.
Qed.

(** Who stands before the pages of a way: nobody before those of [/auth]. *)
Definition stand (ch : list Route) : Prop :=
  (guards_of ch = [] ∧ Forall (λ p, p ∈ public_pages) (pages_of ch)) ∨
  (guards_of ch = [AuthGuard] ∧ pages_of ch = [OrgPicker]) ∨
  (guards_of ch = [AuthGuard; OrgGuard] ∧ head (pages_of ch) = Some Shell ∧ AdminPlaceholder ∉ pages_of ch) ∨
  (guards_of ch = [AuthGuard; RoleGuard "platform_admin"] ∧ pages_of ch = [AdminPlaceholder]).
#[export] Instance stand_dec ch : Decision (stand ch) := _.

Lemma ways_stand ch : way routes ch → stand ch.
Proof.
  intros Hw%way_listed. revert ch Hw. apply Forall_forall.
  apply (bool_decide_unpack _). by vm_compute.
Qed.

(** ** Runs of an observable whose value matters *)

(** [o], subscribed in [c], comes to the value [a] in [c']; while it waits,
    anything may happen to the state. *)
Inductive settles {A : Type} : Obs A → Client → Client → A → Prop :=
  | settles_next a c : settles (Next a) c c a
  | settles_tap f o c c' a : settles o (f c) c' a → settles (Tap f o) c c' a
  | settles_peek o c c' a : settles (o c) c c' a → settles (Peek o) c c' a
  | settles_send rq next r c c1 c' a : settles (next r) c1 c' a → settles (Send rq next) c c' a
  | settles_await ready o c c1 c' a : ready c1 = true → settles o c1 c' a → settles (Await ready o) c c' a.

Section settled.
Context {A B : Type}.

Lemma settles_peek_inv (o : Client → Obs A) c c' a : settles (Peek o) c c' a → settles (o c) c c' a.
Proof. by inversion 1. Qed.
Lemma settles_set_inv f (a : A) c c' a' : settles (set_state f a) c c' a' → c' = f c ∧ a' = a.
Proof. inversion 1 as [|? ? ? ? ? Hn| | |]; subst. by inversion Hn. Qed.
Lemma settles_next_inv (a : A) c c' a' : settles (Next a) c c' a' → c' = c ∧ a' = a.
Proof. by inversion 1. Qed.

Lemma settles_pipe (o : Obs A) (f : A → Obs B) c c' b :
  settles (pipe o f) c c' b → ∃ a c1, settles o c c1 a ∧ settles (f a) c1 c' b.
Proof.
  revert c. induction o as [a| |e|g o IH|o IH|rq o IH|ready o IH]; cbn; intros c Hs.
  - exists a, c. by split; [constructor|].
  - inversion Hs.
  - inversion Hs.
  - inversion Hs; subst. edestruct IH as (a & c1 & ? & ?); [done|]. exists a, c1. by split; [constructor|].
  - inversion Hs; subst. edestruct IH as (a & c1 & ? & ?); [done|]. exists a, c1. by split; [constructor|].
  - inversion Hs; subst. edestruct IH as (a & c2 & ? & ?); [done|]. exists a, c2. by split; [econstructor|].
  - inversion Hs; subst. edestruct IH as (a & c2 & ? & ?); [done|]. exists a, c2. by split; [econstructor|].
Qed.

Lemma settles_catch (o : Obs A) (h : exn → Obs A) c c' a :
  settles (catchError o h) c c' a → settles o c c' a ∨ ∃ e c0, settles (h e) c0 c' a.
Proof.
  revert c. induction o as [x| |e|g o IH|o IH|rq o IH|ready o IH]; cbn; intros c Hs; [by left|by inversion Hs|by eauto|..];
    inversion Hs; subst; (edestruct IH; [done| |by right]); left; by econstructor.
Qed.
End settled.

(** ** Which pages a navigation shows *)

Section guards.
Context `{Random, Platform, AngularRouter}.

Lemma refuse_settles path c c' : ¬ settles (refuse path) c c' true.
Proof. by intros [_ ?]%settles_set_inv. Qed.

Lemma sync_settles (b : bool) path c c' :
  settles (if b then Next true else refuse path) c c' true → c' = c ∧ b = true.
Proof. destruct b; [by intros [-> _]%settles_next_inv|by intros []%refuse_settles]. Qed.

Lemma auth_settles c c' : settles authGuard c c' true → c' = c ∧ isLoggedIn c = true.
Proof. by intros ?%settles_peek_inv%sync_settles. Qed.

Lemma role_settles r c c' :
  settles (roleGuard r) c c' true → c' = c ∧ js_is (cl_currentUser c ≫= jget "role") r = true.
Proof. by intros ?%settles_peek_inv%sync_settles. Qed.

Lemma org_settles c c' : settles orgGuard c c' true → is_Some (cl_activeOrg c').
Proof.
  intros Hs%settles_peek_inv. destruct (otruthy (activeOrgId c)) eqn:Ea.
  - apply settles_next_inv in Hs as [-> _]. unfold activeOrgId in Ea. by destruct (cl_activeOrg c).
  - apply settles_catch in Hs as [Hs|(e & c0 & []%refuse_settles)].
    apply settles_pipe in Hs as (orgs & c1 & _ & Ho). destruct orgs as [|org [|org' orgs]];
      [by apply refuse_settles in Ho| |by apply refuse_settles in Ho].
    apply settles_set_inv in Ho as [-> _]. by eexists.
Qed.

Lemma all_settles g gs c c' :
  settles (all_activate (g :: gs)) c c' true →
  ∃ c1, settles (run_guard g) c c1 true ∧ settles (all_activate gs) c1 c' true.
Proof.
  intros (a & c1 & Hg & Hs)%settles_pipe. apply settles_pipe in Hs as (b & c2 & Hr & Hn).
  apply settles_next_inv in Hn as [-> Hab]. symmetry in Hab. apply andb_true_iff in Hab as [-> ->]. eauto.
Qed.

(** Outside [/auth] a page is shown to nobody but a user who is logged in; a
    page of the shell when an organization is chosen, which the guard itself does
    when there is one; the administration to a platform administrator. *)
Theorem pages_guarded `{!AngularRouterLaws} url c c' shown :
  settles (navigate url) c c' (Some shown) →
  Forall (λ p, p ∈ public_pages) shown ∨
  isLoggedIn c = true ∧
  (Shell ∈ shown → is_Some (cl_activeOrg c')) ∧
  (AdminPlaceholder ∈ shown → js_is (cl_currentUser c ≫= jget "role") "platform_admin" = true).
Proof.
  unfold navigate. intros Hs. destruct (recognize routes url) as [ch|] eqn:Er; [|inversion Hs].
  apply recognize_way, ways_stand in Er.
  apply settles_pipe in Hs as ([] & c1 & Hg & Hn); apply settles_next_inv in Hn as [-> Hn]; [|done].
  injection Hn as ->.
  destruct Er as [[_ Hp]|[[Eg Ep]|[(Eg & Eh & Hna)|[Eg Ep]]]]; [by left|right..]; rewrite Eg in Hg;
    apply all_settles in Hg as (c2 & [-> Hl]%auth_settles & Hg); (split; [done|]).
  - rewrite Ep. split; by intros Hin%list_elem_of_singleton.
  - apply all_settles in Hg as (c3 & Ho%org_settles & [-> _]%settles_next_inv). done.
  - apply all_settles in Hg as (c3 & [-> Hr]%role_settles & _). rewrite Ep.
    split; [by intros Hin%list_elem_of_singleton|done].
Qed.
End guards.

(** ** The links *)

(** The matching that Angular documents: the first route of a table whose path
    begins what is left of the address, a segment that begins with a colon
    taking any; when nothing below it matches, the next.  A redirection from the
    root is followed once. *)
Module Matching.

Inductive matched := NoMatch | Activated (ch : list Route) | Absolute (target : list string).

Definition is_parameter (s : string) : bool := match s with String ":" _ => true | _ => false end.
Fixpoint consume (path url : list string) : option (list string) :=
  match path, url with
  | [], rest => Some rest
  | p :: path, s :: url => if is_parameter p || (p =? s) then consume path url else None
  | _ :: _, [] => None
  end.
Definition consumed (path url : list string) : option (list string) :=
  if decide (path = ["**"]) then Some [] else consume path url.

Fixpoint find (fuel : nat) (table rs : list Route) (url : list string) : matched :=
  match fuel, rs with
  | S fuel, r :: rest =>
      match consumed (rt_path r) url with
      | None => find fuel table rest url
      | Some more =>
          if rt_pathMatchFull r && negb (bool_decide (more = [])) then find fuel table rest url
          else
            match rt_redirectTo r, rt_children r with
            | Some (true, target), _ => Absolute target
            | Some (false, target), _ => find fuel table table (target ++ more)
            | None, [] =>
                match more, rt_component r with
                | [], Some _ => Activated [r]
                | _, _ => find fuel table rest url
                end
            | None, children =>
                match find fuel children children more with
                | Activated ch => Activated (r :: ch)
                | Absolute target => Absolute target
                | NoMatch => find fuel table rest url
                end
            end
      end
  | _, _ => NoMatch
  end%list.

(** The steps down the deepest table are fewer than the fuel. *)
Definition fuel : nat := 100.

#[export] Instance router : AngularRouter := {|
  recognize rs url :=
    match find fuel rs rs url with
    | Absolute target => match find fuel rs rs target with Activated ch => Some ch | _ => None end
    | Activated ch => Some ch
    | NoMatch => None
    end
|}.

Lemma find_way n table rs url ch :
  (∀ r, r ∈ rs → r ∈ table) → find n table rs url = Activated ch → way table ch.
Proof.
  revert table rs url ch. induction n as [|n IH]; intros table rs url ch Hin Hf; [done|].
  destruct rs as [|r rest]; [done|]. cbn in Hf.
  assert (Hr : r ∈ table) by (apply Hin; by left).
  assert (Hskip : find n table rest url = Activated ch → way table ch)
    by (apply IH; intros r' ?; apply Hin; by right).
  destruct (consumed (rt_path r) url) as [left|]; [|by apply Hskip].
  destruct (rt_pathMatchFull r && negb (bool_decide (left = []))); [by apply Hskip|].
  destruct (rt_redirectTo r) as [[[] target]|] eqn:Ed; [done|by apply IH in Hf|].
  destruct (rt_children r) as [|k ks] eqn:Ec.
  - destruct left; [|by apply Hskip]. destruct (rt_component r) as [p|] eqn:Ep; [|by apply Hskip].
    injection Hf as <-. by eapply way_shown.
  - destruct (find n (k :: ks) (k :: ks) left) as [|ch'|] eqn:En; [by apply Hskip| |done].
    injection Hf as <-. apply way_down; [done..|]. rewrite Ec. by apply IH in En.
Qed.

#[export] Instance router_laws : AngularRouterLaws.
Proof.
  split. intros rs url ch. unfold recognize, router. generalize fuel; intros fuel. destruct (find fuel rs rs url) as [|ch'|target] eqn:Ef; [done|..].
  - intros [= <-]. by apply find_way in Ef.
  - destruct (find fuel rs rs target) as [|ch'|] eqn:Et; intros [= <-]. by apply find_way in Et.
Qed.
End Matching.

Module Links.

(** Every [routerLink] of a template and every [navigate] of a component; the
    tabs of the settings are relative to their page. *)
Definition links (workspaceId channelId : string) : list (list string) :=
  [["auth"; "login"]; ["auth"; "forgot"]; ["auth"; "register"]; ["auth"; "mfa"];
   ["app"]; ["pick-org"];
   ["app"; "workspaces"]; ["app"; "workspaces"; workspaceId];
   ["app"; "workspaces"; workspaceId; "tasks"]; ["app"; "workspaces"; workspaceId; "chat"; channelId];
   ["app"; "settings"]; ["app"; "settings"; "profile"]; ["app"; "settings"; "security"];
   ["app"; "settings"; "preferences"]; ["app"; "settings"; "notifications"]].

(** The page in the innermost outlet. *)
Definition landing `{AngularRouter} (url : list string) : option page :=
  recognize routes url ≫= λ ch, last (pages_of ch).

Section reference.
Import Matching.

Lemma links_land ws ch :
  landing <$> links ws ch =
  Some <$> [Login; ForgotPassword; Register; Mfa; WorkspaceList; OrgPicker; WorkspaceList; TaskList; TaskList;
            ChannelView; ProfileTab; ProfileTab; SecurityTab; PreferencesTab; NotificationPreferences].
Proof. reflexivity. Qed.

(** No link leads to the page of the files, and an unknown path leads to the
    login. *)
Example files_unlinked ws ch : Some FilesPage ∉ landing <$> links ws ch.
Proof. rewrite links_land. by apply (bool_decide_unpack _). Qed.
Example unknown_path_signs_in : landing ["nowhere"] = Some Login ∧ landing [] = Some WorkspaceList.
Proof. done. Qed.
End reference.
End Links.

(** ** Parts of the pages *)

Module NotificationItem.

Definition TYPE_LABELS : list (string * string) :=
  [("task.assigned", "assigned you to"); ("task.mentioned", "mentioned you in task");
   ("task.completed", "completed task"); ("chat.mention", "mentioned you in"); ("comment.created", "commented on")].

(** [TYPE_LABELS[n.type] ?? n.type]. *)
Definition action_of (type : option json) : string :=
  match List.find (λ p, js_is type p.1) TYPE_LABELS with Some (_, text) => text | None => js_text type end.

(** The payload is an object, and its workspace, where it has one, a text. *)
Definition payload (k : string) (n : Notification) : option json := nt_payload n ≫= jget k.

Definition label (n : Notification) : string :=
  action_of (nt_type n) +:+ " " +:+ js_text (nullish_or (payload "entityTitle" n) (nt_entityId n)).

(** What a click asks for, and where it goes. *)
Definition onClick (n : Notification) : Client.action * option (list string) :=
  (MarkRead (js_text (nt_id n)),
   match payload "workspaceId" n with
   | Some (JStr ws) =>
       if negb (truthy ws) then None
       else if js_is (nt_entityType n) "task" then Some ["app"; "workspaces"; ws; "tasks"]
       else if js_is (nt_entityType n) "channel"
       then Some ["app"; "workspaces"; ws; "chat"; js_text (nt_entityId n)]
       else None
   | _ => None
   end).

(** A click leads to a link of the application, or nowhere. *)
Lemma click_follows_link n url :
  (onClick n).2 = Some url → ∃ ws ch, url ∈ Links.links ws ch.
Proof.
  unfold onClick. intros Hu. cbn in Hu. destruct (payload "workspaceId" n) as [[]|]; try done.
  destruct (truthy s); [|done]. cbn in Hu. exists s, (js_text (nt_entityId n)).
  destruct (js_is (nt_entityType n) "task"); [|destruct (js_is (nt_entityType n) "channel"); [|done]];
    injection Hu as <-; unfold Links.links; set_solver.
Qed.

(** A mention: its event is about a comment, and its payload names no
    workspace, so that a click goes nowhere; the label is the name of the event. *)
Example mention_leads_nowhere (n : Notification) commentId fields :
  nt_type n = Some (JStr "mention.created") → nt_entityType n = Some (JStr "comment") →
  nt_entityId n = Some (JStr commentId) → nt_payload n = Some (JObj fields) →
  jget "entityTitle" (JObj fields) = None →
  (onClick n).2 = None ∧ label n = "mention.created " +:+ commentId.
Proof.
  intros Et Ee Ei Ep Ef. unfold onClick, label, payload. rewrite Et, Ee, Ei, Ep. change (Some (JObj fields) ≫= ?f) with (f (JObj fields)).
  rewrite Ef. split; [|done]. destruct (jget "workspaceId" (JObj fields)) as [[]|]; try done. cbn. by destruct (truthy s).
Qed.
End NotificationItem.

Module FileChip.

(** [(n / unit).toFixed(1)] in tenths: the nearest, upwards from the middle. *)
Definition tenths (n unit : Z) : Z := ((20 * n + unit) / (2 * unit))%Z.
Definition toFixed1 (t : Z) : string := pretty (t / 10)%Z +:+ "." +:+ pretty (t mod 10)%Z.
Definition formatSize (bytes : Z) : string :=
  if (bytes <? 1024)%Z then pretty bytes +:+ " B"
  else if (bytes <? 1024 * 1024)%Z then toFixed1 (tenths bytes 1024) +:+ " KB"
  else toFixed1 (tenths bytes (1024 * 1024)) +:+ " MB".

(** The size shown is within a twentieth of the unit. *)
Lemma tenths_near n unit : (0 < unit)%Z → (- unit <= 2 * (10 * n - tenths n unit * unit) < unit)%Z.
Proof.
  unfold tenths. intros Hu. pose proof (Z.mul_div_le (20 * n + unit) (2 * unit)).
  pose proof (Z.mul_succ_div_gt (20 * n + unit) (2 * unit)). lia.
Qed.

Example size_formats :
  formatSize 1023 = "1023 B" ∧ formatSize 1536 = "1.5 KB" ∧ formatSize 5242880 = "5.0 MB".
Proof. by vm_compute. Qed.
(** Just under a megabyte, the unit stays. *)
Example size_below_unit : formatSize 1048575 = "1024.0 KB".
Proof. by vm_compute. Qed.
End FileChip.

Module FileUploads.

Definition PENDING_STATES : list UploadState := [UUploading; UScanning; UError].
#[export] Instance UploadState_eq_dec : EqDecision UploadState.
Proof. solve_decision. Defined.

Definition hasPending (uploads : list FileUpload) : bool :=
  existsb (λ u, bool_decide (up_state u ∈ PENDING_STATES)) uploads.

(** Every file that is dropped or picked is uploaded, in order. *)
Definition onFilesSelected (files : list (string * string * Z)) : list Client.action :=
  (λ '(name, mimeType, size), Upload name mimeType size) <$> files.

(** [onCancel]: [abort] reports only of a transfer on its way. *)
Definition onCancel (uploadId : string) (uploads : list FileUpload) : option Client.action :=
  match List.find (λ u, up_id u =? uploadId) uploads with
  | Some u => match up_state u with UUploading => Some (Transfer uploadId FileService.Aborted) | _ => None end
  | None => None
  end.

Section upload.
Context `{Random, Platform}.

(** While the address of an upload is asked for, the file is not among those
    that hold back the message: it can be sent without the file. *)
Lemma pending_not_awaited name mimeType size c :
  hasPending (cl_uploads (run (FileService.upload name mimeType size) c).1) = hasPending (cl_uploads c).
Proof.
  set (u := mkFileUpload (random_uuid (cl_draws c)) UPending 0 None None).
  trans (hasPending (cl_uploads c ++ [u])%list); [|unfold hasPending; by rewrite existsb_app, orb_false_r].
  f_equal. unfold FileService.upload, http_post, request, jwtInterceptor.
  cbn -[isAuthUrl idempotencyInterceptor].
  match goal with |- context [isAuthUrl ?url] => destruct (isAuthUrl url) end; [done|].
  unfold addHeaders. cbn. by destruct (otruthy (cl_accessToken c)), (otruthy _).
Qed.
End upload.
End FileUploads.

(** [OrgPickerComponent]: the spinner goes with the answer, whichever it is. *)
Module OrgPicker.
Definition ngOnInit : bool * Client.action := (true, LoadOrgs).
Definition answered (loading : bool) : bool := false.
End OrgPicker.

(** ** Examples *)

Module NavigationExamples.
Import Matching.
#[local] Instance platform : Platform := {|
  http_message _ := ""; token_payload _ := None; toISOString _ := ""
|}.
#[local] Instance random : Random := Concrete.Concrete.random.

Definition signed_in : Client :=
  (fresh_client None None) <| cl_currentUser := Some (JObj [("id", JStr "u1")]) |>
    <| cl_activeOrg := Some (toOrg (JObj [("id", JStr "org1")])) |>.

Lemma pages_guarded_witness :
  settles (navigate ["app"; "workspaces"; "w1"; "tasks"]) signed_in signed_in (Some [Shell; WorkspaceShell; TaskList]) ∧
  isLoggedIn signed_in = true.
Proof.
  assert (Hs : settles (navigate ["app"; "workspaces"; "w1"; "tasks"]) signed_in signed_in
    (Some [Shell; WorkspaceShell; TaskList])) by (cbn; repeat constructor).
  split; [done|]. destruct (pages_guarded _ _ _ _ Hs) as [Hf|[Hl _]]; [|done].
  apply Forall_cons in Hf as [Hf _]. by vm_compute in Hf; set_solver.
Defined.
End NavigationExamples.
