(* ===== verification/ClientServer.v ===== *)
(** * ClientServer: the client of [Client] in front of the server of [Api]

    What the two of them make of a login, of a page of tasks and of a due date,
    and which of the client's requests the server has a route for. *)
From S2P Require Import Prelude Schema World Zod Crypto Concrete AuthRepo Session TaskRepo TaskService Auth Http RateLimiter OrgAccess Payments SignIn Webhooks Files RowJson TenantRoutes SystemRoutes Search Api Client.
From Stdlib Require Import ZArith Lia Ascii.
From stdpp Require Import base tactics strings gmap list.

(** A response as the client gets it, and the run of a page on an answer. *)
Definition reply_of (r : Response) : Reply := mkReply (rs_status r) (Some (rs_body r)).
Definition answered `{Random, Platform} (o : Obs unit) (r : Reply) (c : Client) : option (Client * outcome unit) :=
  match run o c with
  | (c', Sent _ next) => Some (run (next r) c')
  | _ => None
  end.

(** ** A login *)

Section login.
Context `{Redis, !RedisZset, Random, Config, Crypto, Zod, Platform}.
Context (jwt_text : jwt_token → string) (test_env exec_rejects : bool).

Definition success_body (rq : Request) (data : json) (t : Z) : json :=
  JObj [("data", data); ("error", JNull);
        ("meta", JObj [("correlation_id", JStr (rq_correlation_id rq));
                       ("request_id", JStr (rq_request_id rq)); ("timestamp", JNum t)])]%string.

Lemma error_has_error id e : ∃ fs, jget "error" (rs_body (error_response id e)) = Some (JObj fs).
Proof. destruct e as [s c m d|c|m]; cbn; [|destruct (c =? "23505")%string|]; by eexists. Qed.

(** An answer without an error is that of the route, which succeeded. *)
Lemma handled_success rq (route : M Response) w r w' :
  handled rq route w = (Ok r, w') → jget "error" (rs_body r) = Some JNull → route w = (Ok r, w').
Proof.
  unfold handled, catch, ret. destruct (route w) as [[r1|e] w1]; [done|]. intros [= <- <-] Herr.
  destruct (error_has_error (rq_id rq) e) as [fs Efs]. by rewrite Efs in Herr.
Qed.

(** What answers a login that succeeds. *)
Lemma login_answer rq body w r w' :
  AuthRouter.loginHandler jwt_text test_env exec_rejects rq body w = (Ok r, w') → jget "error" (rs_body r) = Some JNull →
  ∃ tokens user t,
    r = mkResponse 200 (success_body rq (JObj [("tokens", tokens); ("user", safe_user_json user)]%string) t).
Proof.
  intros E Herr. apply handled_success in E; [|done].
  assert (Hv : ∀ w, validated AuthRouter.loginSchema AuthRouter.as_login body (λ input,
      let '(email, password, orgId) := input in
      bind (Auth.AuthService.login email password orgId) (λ result,
      respond rq 200 (JObj [("tokens", tokens_json jwt_text result.1); ("user", safe_user_json result.2)]%string))) w
      = (Ok r, w') →
    ∃ tokens user t,
      r = mkResponse 200 (success_body rq (JObj [("tokens", tokens); ("user", safe_user_json user)]%string) t)).
  { clear w E. intros w. unfold validated. destruct (safeParse _ _) as [|data]; [done|].
    destruct (data ≫= AuthRouter.as_login) as [[[email password] orgId]|]; [|done].
    unfold bind. destruct (Auth.AuthService.login _ _ _ w) as [[[tokens user]|] w1]; [|done].
    unfold respond, bind, now, ret. cbn. intros [= <- <-]. by do 3 eexists. }
  unfold AuthRouter.limited in E. destruct test_env; [by apply (Hv w)|]. cbn in E.
  unfold bind in E. destruct (rateLimitMiddleware _ _ _ _ w) as [[lim|] w1]; [|done].
  destruct lim.2; [done|]. by apply (Hv w1).
Qed.

(** no login of this client with this server gives it a token: of every
    successful answer it shows the user, keeps the text [undefined] as its
    access token and as its refresh token, and goes to the application, whose
    requests then carry that text. *)
Theorem login_keeps_no_token rq body w r w' email password c :
  AuthRouter.loginHandler jwt_text test_env exec_rejects rq body w = (Ok r, w') → jget "error" (rs_body r) = Some JNull →
  ∃ c', answered (program (SignIn email password)) (reply_of r) c = Some (c', Completed) ∧
    isLoggedIn c' = true ∧ cl_navigated c' = cl_navigated c ++ ["/app"%string] ∧
    cl_accessToken c' = Some "undefined"%string ∧ cl_refreshToken c' = Some "undefined"%string ∧
    ∀ url method org,
      hr_authorization (addHeaders (mkHttpRequest method url None None None None) (cl_accessToken c') org) =
      Some "Bearer undefined"%string.
Proof.
  intros E Herr. destruct (login_answer _ _ _ _ _ E Herr) as (tokens & user & t & ->).
  eexists. split; [reflexivity|]. split_and!; try reflexivity.
  intros url method org. unfold addHeaders. by destruct (otruthy org).
Qed.
End login.

(** ** The tasks of a workspace *)

Section board.
Context `{Redis, !RedisLaws _, Random, Config, Crypto, Z0 : Zod, ZL : !ZodLaws Z0, Platform}.
Context (keyStore : gmap string string).

(** A row as the page has it: who it is assigned to is not in the row. *)
Definition shown_task (t : TaskRow) : Task :=
  mkTask (Some (JStr (t_id t))) (Some (JStr (t_org_id t))) (Some (JStr (t_workspace_id t))) (Some (JStr (t_title t)))
    (Some (jvalue (t_description t))) (Some (JStr (task_status_str (t_status t))))
    (Some (JStr (task_priority_str (t_priority t)))) (Some (JArr [])) (Some (jtime (t_due_date t)))
    (Some (JNum (t_version t))) (Some (JNum (t_created_at t))) (Some (JNum (t_updated_at t))).

Lemma map_tasks l rest :
  map_data toTask (Some (JObj (("data"%string, jlist task_json l) :: rest))) = Some (shown_task <$> l).
Proof.
  unfold map_data, data_of, jlist. cbn. assert (E : forallb is_object (task_json <$> l) = true) by (by induction l).
  rewrite E. f_equal. rewrite <- list_fmap_compose. by apply list_fmap_ext.
Qed.

(** What the schema leaves of the query of a page. *)
Lemma page_filters ws data :
  safeParse TaskRouter.listTasksQuerySchema (Some (JObj [("workspace_id", JStr ws)])%string) = inr data →
  data ≫= TaskRouter.as_TaskFilters = Some (mkTaskFilters None None None).
Proof.
  intros E. unfold TaskRouter.listTasksQuerySchema in E.
  apply z_object_ok in E as (kv & out & [= <-] & -> & Hf & Hk); [|apply (bool_decide_unpack _); by vm_compute].
  do 2 apply Forall_inv_tail in Hf. apply Forall_inv in Hf. cbn in Hf.
  assert (Es : jfield "status" out = None).
  { apply z_optional_ok in Hf as [[_ E]|Hf]; [by rewrite <- E|].
    by apply z_enum_ok in Hf as (s & ? & _). }
  cbn. unfold TaskRouter.as_TaskFilters, optional. cbn. rewrite Es, !Hk; [done|cbn; set_solver..].
Qed.

(** How a page of tasks loads on a list of rows. *)
Lemma load_answered ws c (l : list TaskRow) rest :
  otruthy (activeOrgId c) = true →
  ∃ c', answered (program (LoadTasks ws)) (mkReply 200 (Some (JObj (("data"%string, jlist task_json l) :: rest)))) c =
      Some (c', Completed) ∧
    cl_tasks c' = shown_task <$> l.
Proof.
  intros Ho. unfold answered, program, subscribed, TaskService.load. cbn [run pipe]. rewrite Ho. cbn [negb].
  unfold http_get, request, jwtInterceptor. cbn [hr_url]. unfold or_unload.
  destruct (isAuthUrl _); [|unfold mapped_list, addHeaders; cbn [run catchError pipe]; set (c1 := begin_loading _ c);
    destruct (otruthy (cl_accessToken c1)), (otruthy (activeOrgId c1)); subst c1];
    cbn -[map_data]; rewrite map_tasks; cbn; by eexists.
Qed.

(** The rows a page of tasks is made of. *)
Definition live_task (orgId : string) (t : TaskRow) : bool := (t_org_id t =? orgId)%string && is_null (t_deleted_at t).

Lemma live_tasks orgId l :
  List.filter (λ t, (t_org_id t =? orgId)%string && is_null (t_deleted_at t) &&
    TaskRepository.matches (mkTaskFilters None None None) t) l = List.filter (live_task orgId) l.
Proof. apply List.filter_ext. intros t. unfold live_task, TaskRepository.matches. cbn. by rewrite andb_true_r. Qed.

(** The page shows the live tasks of the whole organization. *)
Lemma organization_shown rq ws w r w' c :
  uncached w → rq_org_id rq = activeOrgId c →
  TaskRouter.list_tasks_route keyStore rq (Some (JObj [("workspace_id"%string, JStr ws)])) w = (Ok r, w') →
  jget "error" (rs_body r) = Some JNull →
  ∃ user m orgId c', activeOrgId c = Some orgId ∧
    List.find (OrgContext.active_in orgId user) (org_memberships (db w)) = Some m ∧
    answered (program (LoadTasks ws)) (reply_of r) c = Some (c', Completed) ∧
    cl_tasks c' = shown_task <$> List.filter (live_task orgId) (tasks (db w)).
Proof.
  intros Hun Horg E Herr. apply handled_success in E; [|done].
  set (next := λ (_ : ReqUser) _, _) in E.
  pose proof (orgMiddleware_cases keyStore rq next w) as Hc. unfold wp in Hc. rewrite E in Hc. cbn [fst snd] in Hc.
  destruct Hc as [(e & ? & _)|(user & ctx & w0 & w1 & Ea & (orgId & Ht & Er) & _ & Hd & _ & _ & En)]; [done|].
  pose proof (authenticate_uncached keyStore (rq_authorization rq) w Hun) as Hun0. rewrite Ea in Hun0. cbn in Hun0.
  destruct (resolve_quiet (ru_userId user) orgId w0) as [Hd0 _]. rewrite Er in Hd0. cbn in Hd0.
  destruct (resolve_member _ _ _ _ _ Hun0 Er) as (m & o & Em & _ & _ & ->). rewrite <- Hd0, Hd in Em.
  destruct Ht as (Eo & Htr & _). rewrite Eo in Horg. subst next. cbn beta in En.
  unfold validated in En. destruct (safeParse _ _) as [|data] eqn:Ep; [done|]. rewrite (page_filters ws data Ep) in En.
  injection En as -> _. cbn [oc_orgId].
  destruct (load_answered ws c (List.filter (live_task orgId) (tasks (db w)))
    [("error", JNull); ("meta", JObj [("correlation_id", JStr (rq_correlation_id rq));
      ("request_id", JStr (rq_request_id rq)); ("timestamp", JNum (clock w1))])]%string) as (c' & Erun & Ec').
  { by rewrite <- Horg. }
  exists (ru_userId user), m, orgId, c'. split_and!; [done|done| |done].
  rewrite <- Erun. unfold reply_of. cbn [rs_status rs_body]. by rewrite Hd, live_tasks.
Qed.

Definition in_workspace (ws : string) (t : TaskRow) : bool := (t_workspace_id t =? ws)%string.

(** C39: when the server has no context cached, a page of the tasks of a
    workspace that loads without an error is one of an active member of the
    organization that is chosen, and shows only live tasks of that organization,
    among them every live task of the workspace, each once and in the order of
    the table; the tasks of its other workspaces are not kept out. *)
Theorem tasks_shown rq ws w r w' c :
  uncached w → rq_org_id rq = activeOrgId c →
  TaskRouter.list_tasks_route keyStore rq (Some (JObj [("workspace_id"%string, JStr ws)])) w = (Ok r, w') →
  jget "error" (rs_body r) = Some JNull →
  ∃ user m orgId c' shown, activeOrgId c = Some orgId ∧
    List.find (OrgContext.active_in orgId user) (org_memberships (db w)) = Some m ∧
    answered (program (LoadTasks ws)) (reply_of r) c = Some (c', Completed) ∧
    cl_tasks c' = shown_task <$> shown ∧
    (∀ t, t ∈ shown → t ∈ tasks (db w) ∧ t_org_id t = orgId ∧ t_deleted_at t = None) ∧
    List.filter (in_workspace ws) shown =
      List.filter (λ t, live_task orgId t && in_workspace ws t) (tasks (db w)).
Proof.
  intros Hun Horg E Herr.
  destruct (organization_shown rq ws w r w' c Hun Horg E Herr) as (user & m & orgId & c' & Ho & Hm & Ha & Hs).
  exists user, m, orgId, c', (List.filter (live_task orgId) (tasks (db w))). split_and!; [done..| |apply filter_twice].
  intros t [Ht [Eo%String.eqb_eq Ed%is_null_spec]%andb_true_iff]%elem_of_filter_bool. done.
Qed.
End board.

(** ** A due date *)

Section due_date.
Context `{Z0 : Zod, ZL : !ZodLaws Z0}.

Lemma is_datetime_short s : (String.length s <= 16)%nat → is_datetime s = false.
Proof.
  intros Hs. unfold is_datetime. destruct (datetime_fields s) as [[y m d h mi rest]|] eqn:E; [|done].
  assert (Hl : String.length s = (16 + String.length rest)%nat).
  { unfold datetime_fields in E. repeat (case_match; [done|]) || idtac.
    repeat case_match; try done. repeat (apply bind_Some in E as (? & _ & E)). by simplify_eq. }
  assert (rest = EmptyString) as -> by (destruct rest; [done|cbn in Hl; lia]). cbn. by rewrite andb_false_r.
Qed.

(** The body of a task that [CreateTaskDialogComponent] makes. *)
Definition task_body (workspaceId title priority due : string) : json :=
  JObj [("workspace_id", JStr workspaceId); ("title", JStr title); ("priority", JStr priority);
        ("due_date", JStr due); ("assignee_ids", JArr [])]%string.

(** What a [datetime-local] field gives, a minute of a day, is never a due date
    for the server. *)
Lemma due_date_refused workspaceId title priority due u :
  (String.length due <= 16)%nat →
  safeParse TaskRouter.createTaskSchema (Some (task_body workspaceId title priority due)) ≠ inr u.
Proof.
  intros Hd E. unfold TaskRouter.createTaskSchema in E.
  apply z_object_ok in E as (kv & out & [= <-] & -> & Hf & _); [|apply (bool_decide_unpack _); by vm_compute].
  do 7 apply Forall_inv_tail in Hf. apply Forall_inv in Hf. cbn [fst snd] in Hf.
  unfold TaskRouter.nullable_optional in Hf.
  apply z_optional_ok in Hf as [[? _]|Hf]; [done|]. apply z_nullable_ok in Hf as [[? _]|Hf]; [done|].
  apply z_string_ok in Hf as (s & [= <-] & _ & Hc). apply Forall_inv in Hc as Ht. cbn in Ht.
  by rewrite is_datetime_short in Ht.
Qed.
End due_date.

(** ** What the client asks for, and what the server has *)

Module ClientServerExamples.
Import Concrete.
#[local] Existing Instance ApiExamples.express.

#[local] Instance platform : Platform := {|
  http_message _ := "Http failure response"%string;
  token_payload _ := Some (JObj [("sub", JStr "uuid-0"); ("email", JStr "ann@example.com")])%string;
  toISOString t := iso_date t;
|}.

Definition example_org : Org := toOrg (JObj [("id", JStr "uuid-0"); ("name", JStr "Acme")])%string.
Definition signed_in : Client := TenantService.setOrg example_org (fresh_client (Some "token") (Some "refresh"))%string.

(** The request an action begins with. *)
Definition asks (a : action) : option HttpRequest :=
  match (run (program a) signed_in).2 with Sent rq _ => Some rq | _ => None end.

(** The path of an address, without its query. *)
Fixpoint path_of (url : string) : string :=
  match url with
  | EmptyString => EmptyString
  | String c s => if Ascii.eqb c "?" then EmptyString else String c (path_of s)
  end.

Definition served (rq : HttpRequest) : bool :=
  match dispatch ApiExamples.example_routes (hr_method rq) (path_of (hr_url rq)) with Some _ => true | None => false end.

(** One action of each kind. *)
Definition every_action : list action :=
  [SignIn "e" "p"; Register "n" "e" "p"; VerifyEmail "t"; SubmitCode "1"; ForgotPassword "e"; ResetPassword "t" "p";
   SsoCallback (Some "t"); SignOut; RunAuthGuard; RunOrgGuard; RunRoleGuard "admin"; SelectOrg example_org; LoadOrgs;
   LoadWorkspaces; LoadWorkspace "w"; CreateWorkspace "n" None; LoadTasks "w"; CreateTask "w" "t" None None;
   UpdateStatus "t" "done" (JNum 1); AddComment "t" [] []; LoadChannels "w"; CreateChannel "n" "w"; LoadMessages "c";
   SendMessage "c" "b" []; MessageEvent "c" JNull; LoadNotifications "20"; MarkRead "n"; MarkAllRead;
   NotificationEvent JNull; Upload "f" "text/plain" 1; Transfer "u" FileService.Aborted; PollScan "u" "o" "f";
   DismissUpload "u"; ClearReady; LoadFiles; DeleteFile "f"; LoadPreferences; TogglePreference "e" true true true;
   Subscribe "e" "k" "a"; Unsubscribe None; UpdateProfile "n" None; UploadAvatar; ChangePassword "p" "q"; LoadSessions;
   RevokeSession "s"; LoadMfa; SetupMfa; ConfirmMfa "1"; DisableMfa "p"; RegenBackupCodes; SavePreferences JNull]%string.

(** What the pages ask for and no route of the server serves. *)
Definition unserved : list (string * string) :=
  (λ rq, (hr_method rq, hr_url rq)) <$> List.filter (λ rq, negb (served rq)) (omap asks every_action).
Example unserved_requests :
  unserved =
    [("POST", "/api/v1/auth/verify-email"); ("POST", "/api/v1/auth/mfa/verify"); ("POST", "/api/v1/auth/forgot-password");
     ("POST", "/api/v1/auth/reset-password"); ("DELETE", "/api/v1/orgs/uuid-0/files/f"); ("PATCH", "/api/v1/me");
     ("POST", "/api/v1/me/avatar"); ("PATCH", "/api/v1/me/password"); ("GET", "/api/v1/me/sessions");
     ("DELETE", "/api/v1/me/sessions/s"); ("GET", "/api/v1/me/mfa"); ("POST", "/api/v1/me/mfa/setup");
     ("POST", "/api/v1/me/mfa/confirm"); ("DELETE", "/api/v1/me/mfa"); ("POST", "/api/v1/me/mfa/backup-codes");
     ("PATCH", "/api/v1/me/preferences")]%string.
Proof. vm_compute. reflexivity. Qed.
(** A page that is loaded again has its tokens and no user. *)
Example reload_signs_out :
  cl_navigated (run (program RunAuthGuard) (fresh_client (Some "token") (Some "refresh"))).1 = ["/auth/login"]%string.
Proof. reflexivity. Qed.
Example all_asked : length (omap asks every_action) = 40.
Proof. vm_compute. reflexivity. Qed.

(** A tab whose session has expired: its user moves a task, and is answered 401;
    logging in again in the same tab does not help. *)
Definition moving : list event :=
  [Act (SelectOrg example_org); Act (UpdateStatus "t" "done" (JNum 1))]%string.
Definition moved : Tab := tab_run (open_tab (Some "old") (Some "refresh")%string) moving.

Lemma expired_session_hangs_witness :
  ∃ b, ∀ later, b ∈ tab_blocked (tab_run moved (Answer 0 (mkReply 401 None) :: later)) ∧
    b.1 (tab_client (tab_run moved (Answer 0 (mkReply 401 None) :: later))) = false.
Proof.
  destruct (tab_pending moved !! 0) as [[rq next]|] eqn:E; [|by vm_compute in E].
  refine (proj2 (expired_session_hangs (Some "old"%string) (Some "refresh"%string) moving 0 rq next None) E _).
  assert (Hu : forallb (λ p : HttpRequest * (Reply → Obs unit), negb (isAuthUrl (hr_url p.1))) (tab_pending moved) = true)
    by (vm_compute; reflexivity).
  rewrite forallb_forall in Hu. apply negb_true_iff, (Hu (rq, next)), list_elem_of_In.
  by apply (list_elem_of_lookup_2 _ 0).
Defined.

(** The confirmation of a second factor is not among the addresses of sign-in:
    its request carries the token the storage still has. *)
Example mfa_carries_token :
  (λ rq, (hr_url rq, hr_authorization rq)) <$> tab_sent (tab_run (open_tab (Some "old") None) [Act (SubmitCode "123456")]) =
  [("/api/v1/auth/mfa/verify", Some "Bearer old")]%string.
Proof. vm_compute. reflexivity. Qed.

(** A message, a notification that arrives and a mark, in any order. *)
Definition busy : list event :=
  [Act (SelectOrg example_org); Act (SendMessage "c" "hello" []); Act (SignIn "e" "p");
   Act (NotificationEvent (JObj [("id", JStr "n"); ("is_read", JBool false)])); Act (MarkRead "n");
   Answer 1 (mkReply 500 None); Answer 0 (mkReply 201 None)]%string.

Lemma requests_well_formed_witness :
  let t := tab_run (open_tab (Some "token") None)%string busy in
  Forall well_formed (tab_sent t) ∧ NoDup (omap hr_idempotency_key (tab_sent t)) ∧ bell (tab_client t).
Proof. apply requests_well_formed. repeat constructor; intros a [= <-]; exact I || reflexivity. Defined.

(** The keys it sends, and the count of its bell. *)
Example busy_keys :
  let t := tab_run (open_tab (Some "token") None)%string busy in
  omap hr_idempotency_key (tab_sent t) = ["uuid-1"; "uuid-2"; "uuid-3"]%string ∧ cl_unreadCount (tab_client t) = 0%Z.
Proof. vm_compute. split; reflexivity. Qed.

(** Two tasks are moved; the second move is saved, the first is refused, and
    the second is no longer shown. *)
Definition two_tasks : json :=
  JObj [("data", JArr [JObj [("id", JStr "a"); ("status", JStr "todo")];
                       JObj [("id", JStr "b"); ("status", JStr "todo")]])]%string.
Definition two_moves : list event :=
  [Act (SelectOrg example_org); Act (LoadTasks "w"); Answer 0 (mkReply 200 (Some two_tasks));
   Act (UpdateStatus "a" "done" (JNum 1)); Act (UpdateStatus "b" "done" (JNum 1));
   Answer 1 (mkReply 200 (Some (JObj [("data", JObj [("id", JStr "b"); ("status", JStr "done")])])));
   Answer 0 (mkReply 409 None)]%string.
Example saved_move_is_lost :
  tk_status <$> cl_tasks (tab_client (tab_run (open_tab (Some "token") None)%string two_moves)) =
    [Some (JStr "todo"); Some (JStr "todo")]%string.
Proof. vm_compute. reflexivity. Qed.

(** A login of the account of [AuthExamples], as the page gets it. *)
#[local] Existing Instances ConcreteZod.zod ConcreteZod.zod_laws.
Definition login_rq : Request :=
  mkRequest _ "POST" "/auth/login" NoAuthorization None (Some "key"%string) None "rq" "c" "r".
Definition credentials : option json := Some (JObj [("email", JStr "ann@example.com"); ("password", JStr "secret")])%string.
#[local] Notation login_result :=
  (AuthRouter.loginHandler ApiExamples.token_text true false login_rq credentials AuthExamples.registered).

Definition error_part (x : result Response) : option json :=
  match x with Ok r => jget "error" (rs_body r) | Throw _ => None end.

Lemma login_succeeds : error_part login_result.1 = Some JNull.
Proof. vm_compute. reflexivity. Qed.

Lemma login_keeps_no_token_witness :
  ∃ r c', login_result.1 = Ok r ∧
    answered (program (SignIn "ann@example.com" "secret")) (reply_of r) (fresh_client None None) = Some (c', Completed) ∧
    cl_accessToken c' = Some "undefined"%string.
Proof.
  pose proof login_succeeds as Hl.   destruct login_result as [[r|e] w'] eqn:E; [|done]. exists r.
  destruct (login_keeps_no_token ApiExamples.token_text true false login_rq credentials AuthExamples.registered r w'
    "ann@example.com" "secret" (fresh_client None None) E Hl) as (c' & Ha & _ & _ & Ht & _).
  exists c'. split; [reflexivity|]. split; [exact Ha|exact Ht].
Defined.

(** An organization with tasks in two workspaces, and a page of one of them. *)
Definition a_task (id workspace : string) : TaskRow :=
  mkTaskRow id "uuid-0" workspace None None 0 id None Todo Medium "owner" None None false None None None [] 0 None 1 1 1.
Definition plans : string := "7d444840-9dc0-11d1-b245-5ffdce74fad2".
Definition board : World :=
  OrgAccessExamples.founded <| db := (db OrgAccessExamples.founded)
    <| tasks := [a_task "t1" plans; a_task "t2" "payroll"]%string |> |>.
Definition list_rq : Request := OrgAccessExamples.request "owner" "GET".
#[local] Notation listed :=
  (TaskRouter.list_tasks_route ∅ list_rq
    (Some (JObj [("workspace_id"%string, JStr plans)])) board).

Lemma board_uncached : uncached board.
Proof. apply OrgAccessExamples.nothing_cached. vm_compute. reflexivity. Qed.
Lemma list_succeeds : error_part listed.1 = Some JNull.
Proof. vm_compute. reflexivity. Qed.

Lemma tasks_shown_witness :
  ∃ r orgId c' shown, listed.1 = Ok r ∧ activeOrgId signed_in = Some orgId ∧
    answered (program (LoadTasks plans)) (reply_of r) signed_in = Some (c', Completed) ∧
    cl_tasks c' = shown_task <$> shown ∧
    List.filter (in_workspace plans) shown = List.filter (λ t, live_task orgId t && in_workspace plans t) (tasks (db board)).
Proof.
  pose proof list_succeeds as Hl. destruct listed as [[r|e] w'] eqn:E; [|done].
  destruct (tasks_shown ∅ list_rq plans board r w' signed_in board_uncached eq_refl E Hl)
    as (user & m & orgId & c' & shown & Ho & _ & Ha & Et & _ & Ef).
  exists r, orgId, c', shown. split; [reflexivity|]. split; [exact Ho|]. split; [exact Ha|]. split; [exact Et|exact Ef].
Defined.

(** The page of one workspace shows the task of the other too. *)
Example both_workspaces_shown :
  match listed.1 with
  | Ok r => match answered (program (LoadTasks plans)) (reply_of r) signed_in with
            | Some (c', _) => tk_workspaceId <$> cl_tasks c'
            | None => [] end
  | Throw _ => []
  end = [Some (JStr plans); Some (JStr "payroll")]%string.
Proof. vm_compute. reflexivity. Qed.
End ClientServerExamples.
