(* ===== verification/OpenApiDoc.v ===== *)
(** * OpenApiDoc: the document of the interface

    [scripts/generate-openapi.ts]: the object the script writes to
    [dist/openapi.json], part by part. *)
From S2P Require Import Prelude.
From Stdlib Require Import ZArith Ascii String.
From stdpp Require Import base strings list.

(** ** Parts *)

Definition components : json :=
  JObj [
    ("securitySchemes", JObj [
      ("bearerAuth", JObj [("type", JStr "http"); ("scheme", JStr "bearer"); ("bearerFormat", JStr "JWT")])]);
    ("schemas", JObj [
      ("ErrorResponse", JObj [
        ("type", JStr "object"); ("required", JArr [JStr "success"; JStr "code"; JStr "message"]);
        ("properties", JObj [
          ("success", JObj [("type", JStr "boolean"); ("example", JBool false)]);
          ("code", JObj [("type", JStr "string"); ("example", JStr "VALIDATION_ERROR")]);
          ("message", JObj [("type", JStr "string")]);
          ("errors", JObj [("type", JStr "array"); ("items", JObj [("type", JStr "object")])])])]);
      ("SuccessResponse", JObj [
        ("type", JStr "object"); ("required", JArr [JStr "success"; JStr "data"]);
        ("properties", JObj [
          ("success", JObj [("type", JStr "boolean"); ("example", JBool true)]); ("data", JObj [("type", JStr "object")]);
          ("meta", JObj [("type", JStr "object")])])])])]%string.

Definition health_paths : list (string * json) :=
  [("/live", JObj [
     ("get", JObj [
       ("tags", JArr [JStr "Health"]); ("summary", JStr "Liveness probe — always 200"); ("security", JArr []);
       ("responses", JObj [("200", JObj [("description", JStr "Alive")])])])]);
   ("/ready", JObj [
     ("get", JObj [
       ("tags", JArr [JStr "Health"]); ("summary", JStr "Readiness probe — 503 during migrations, 200 after");
       ("security", JArr []);
       ("responses", JObj [
         ("200", JObj [("description", JStr "Ready")]); ("503", JObj [("description", JStr "Migrations in progress")])])])]);
   ("/health", JObj [
     ("get", JObj [
       ("tags", JArr [JStr "Health"]); ("summary", JStr "Health check — DB and Redis status"); ("security", JArr []);
       ("responses", JObj [
         ("200", JObj [("description", JStr "All checks passing")]);
         ("503", JObj [("description", JStr "One or more checks failing")])])])])]%string.

Definition auth_paths1 : list (string * json) :=
  [("/auth/register", JObj [
     ("post", JObj [
       ("tags", JArr [JStr "Auth"]); ("summary", JStr "Register a new user"); ("security", JArr []);
       ("requestBody", JObj [
         ("required", JBool true);
         ("content", JObj [
           ("application/json", JObj [
             ("schema", JObj [
               ("type", JStr "object"); ("required", JArr [JStr "email"; JStr "password"; JStr "name"]);
               ("properties", JObj [
                 ("email", JObj [("type", JStr "string"); ("format", JStr "email")]);
                 ("password", JObj [("type", JStr "string"); ("minLength", JNum 8); ("maxLength", JNum 128)]);
                 ("name", JObj [("type", JStr "string"); ("minLength", JNum 1); ("maxLength", JNum 255)])])])])])]);
       ("responses", JObj [
         ("201", JObj [("description", JStr "User registered successfully")]);
         ("400", JObj [
           ("description", JStr "Validation error");
           ("content", JObj [
             ("application/json", JObj [("schema", JObj [("$ref", JStr "#/components/schemas/ErrorResponse")])])])]);
         ("409", JObj [("description", JStr "Email already registered")])])])]);
   ("/auth/login", JObj [
     ("post", JObj [
       ("tags", JArr [JStr "Auth"]); ("summary", JStr "Login with email and password"); ("security", JArr []);
       ("requestBody", JObj [
         ("required", JBool true);
         ("content", JObj [
           ("application/json", JObj [
             ("schema", JObj [
               ("type", JStr "object"); ("required", JArr [JStr "email"; JStr "password"]);
               ("properties", JObj [
                 ("email", JObj [("type", JStr "string"); ("format", JStr "email")]);
                 ("password", JObj [("type", JStr "string")]);
                 ("orgId", JObj [("type", JStr "string"); ("format", JStr "uuid")])])])])])]);
       ("responses", JObj [
         ("200", JObj [("description", JStr "Login successful — returns access and refresh tokens")]);
         ("401", JObj [("description", JStr "Invalid credentials")])])])]);
   ("/auth/refresh", JObj [
     ("post", JObj [
       ("tags", JArr [JStr "Auth"]); ("summary", JStr "Refresh access token"); ("security", JArr []);
       ("requestBody", JObj [
         ("required", JBool true);
         ("content", JObj [
           ("application/json", JObj [
             ("schema", JObj [
               ("type", JStr "object"); ("required", JArr [JStr "refreshToken"]);
               ("properties", JObj [("refreshToken", JObj [("type", JStr "string")])])])])])]);
       ("responses", JObj [
         ("200", JObj [("description", JStr "New access token issued")]);
         ("401", JObj [("description", JStr "Invalid or expired refresh token")])])])]);
   ("/auth/logout", JObj [
     ("post", JObj [
       ("tags", JArr [JStr "Auth"]); ("summary", JStr "Logout and revoke refresh token");
       ("requestBody", JObj [
         ("required", JBool true);
         ("content", JObj [
           ("application/json", JObj [
             ("schema", JObj [
               ("type", JStr "object"); ("required", JArr [JStr "refreshToken"]);
               ("properties", JObj [("refreshToken", JObj [("type", JStr "string")])])])])])]);
       ("responses", JObj [("200", JObj [("description", JStr "Logged out")])])])]);
   ("/auth/verify-email", JObj [
     ("get", JObj [
       ("tags", JArr [JStr "Auth"]); ("summary", JStr "Verify email address via token link"); ("security", JArr []);
       ("parameters", JArr [
         JObj [
           ("name", JStr "token"); ("in", JStr "query"); ("required", JBool true);
           ("schema", JObj [("type", JStr "string")])]]);
       ("responses", JObj [
         ("200", JObj [("description", JStr "Email verified")]);
         ("400", JObj [("description", JStr "Invalid or expired token")])])])]);
   ("/auth/verify-email/resend", JObj [
     ("post", JObj [
       ("tags", JArr [JStr "Auth"]); ("summary", JStr "Resend email verification link"); ("security", JArr []);
       ("requestBody", JObj [
         ("required", JBool true);
         ("content", JObj [
           ("application/json", JObj [
             ("schema", JObj [
               ("type", JStr "object"); ("required", JArr [JStr "email"]);
               ("properties", JObj [("email", JObj [("type", JStr "string"); ("format", JStr "email")])])])])])]);
       ("responses", JObj [("200", JObj [("description", JStr "Verification email sent")])])])]);
   ("/auth/password-reset/request", JObj [
     ("post", JObj [
       ("tags", JArr [JStr "Auth"]); ("summary", JStr "Request password reset email"); ("security", JArr []);
       ("requestBody", JObj [
         ("required", JBool true);
         ("content", JObj [
           ("application/json", JObj [
             ("schema", JObj [
               ("type", JStr "object"); ("required", JArr [JStr "email"]);
               ("properties", JObj [("email", JObj [("type", JStr "string"); ("format", JStr "email")])])])])])]);
       ("responses", JObj [("200", JObj [("description", JStr "Reset email sent if account exists")])])])])]%string.

Definition auth_paths2 : list (string * json) :=
  [("/auth/password-reset/confirm", JObj [
     ("post", JObj [
       ("tags", JArr [JStr "Auth"]); ("summary", JStr "Confirm password reset with token"); ("security", JArr []);
       ("requestBody", JObj [
         ("required", JBool true);
         ("content", JObj [
           ("application/json", JObj [
             ("schema", JObj [
               ("type", JStr "object"); ("required", JArr [JStr "token"; JStr "newPassword"]);
               ("properties", JObj [
                 ("token", JObj [("type", JStr "string")]);
                 ("newPassword", JObj [("type", JStr "string"); ("minLength", JNum 8); ("maxLength", JNum 128)])])])])])]);
       ("responses", JObj [
         ("200", JObj [("description", JStr "Password reset successfully")]);
         ("400", JObj [("description", JStr "Invalid or expired token")])])])]);
   ("/auth/oauth/google", JObj [
     ("post", JObj [
       ("tags", JArr [JStr "Auth"]); ("summary", JStr "Login or register via Google OAuth"); ("security", JArr []);
       ("requestBody", JObj [
         ("required", JBool true);
         ("content", JObj [
           ("application/json", JObj [
             ("schema", JObj [
               ("type", JStr "object"); ("required", JArr [JStr "idToken"]);
               ("properties", JObj [("idToken", JObj [("type", JStr "string")])])])])])]);
       ("responses", JObj [("200", JObj [("description", JStr "Authenticated — returns tokens")])])])]);
   ("/auth/magic-link/request", JObj [
     ("post", JObj [
       ("tags", JArr [JStr "Auth"]); ("summary", JStr "Request a magic link login email"); ("security", JArr []);
       ("requestBody", JObj [
         ("required", JBool true);
         ("content", JObj [
           ("application/json", JObj [
             ("schema", JObj [
               ("type", JStr "object"); ("required", JArr [JStr "email"]);
               ("properties", JObj [
                 ("email", JObj [("type", JStr "string"); ("format", JStr "email")]);
                 ("orgId", JObj [("type", JStr "string"); ("format", JStr "uuid")])])])])])]);
       ("responses", JObj [("200", JObj [("description", JStr "Magic link sent")])])])]);
   ("/auth/magic-link/verify", JObj [
     ("post", JObj [
       ("tags", JArr [JStr "Auth"]); ("summary", JStr "Verify magic link token"); ("security", JArr []);
       ("requestBody", JObj [
         ("required", JBool true);
         ("content", JObj [
           ("application/json", JObj [
             ("schema", JObj [
               ("type", JStr "object"); ("required", JArr [JStr "token"]);
               ("properties", JObj [("token", JObj [("type", JStr "string")])])])])])]);
       ("responses", JObj [
         ("200", JObj [("description", JStr "Authenticated — returns tokens")]);
         ("400", JObj [("description", JStr "Invalid or expired token")])])])]);
   ("/auth/saml/{orgId}/callback", JObj [
     ("post", JObj [
       ("tags", JArr [JStr "Auth"]); ("summary", JStr "SAML SSO callback"); ("security", JArr []);
       ("parameters", JArr [
         JObj [
           ("name", JStr "orgId"); ("in", JStr "path"); ("required", JBool true);
           ("schema", JObj [("type", JStr "string"); ("format", JStr "uuid")])]]);
       ("responses", JObj [("200", JObj [("description", JStr "SAML authentication successful")])])])])]%string.

Definition users_paths : list (string * json) :=
  [("/me", JObj [
     ("get", JObj [
       ("tags", JArr [JStr "Users"]); ("summary", JStr "Get current user profile");
       ("responses", JObj [
         ("200", JObj [
           ("description", JStr "Current user");
           ("content", JObj [
             ("application/json", JObj [("schema", JObj [("$ref", JStr "#/components/schemas/SuccessResponse")])])])]);
         ("404", JObj [("description", JStr "User not found")])])])])]%string.

Definition organizations_paths1 : list (string * json) :=
  [("/orgs", JObj [
     ("post", JObj [
       ("tags", JArr [JStr "Organizations"]); ("summary", JStr "Create a new organization");
       ("requestBody", JObj [
         ("required", JBool true);
         ("content", JObj [
           ("application/json", JObj [
             ("schema", JObj [
               ("type", JStr "object"); ("required", JArr [JStr "name"; JStr "slug"]);
               ("properties", JObj [
                 ("name", JObj [("type", JStr "string"); ("minLength", JNum 1); ("maxLength", JNum 255)]);
                 ("slug", JObj [
                   ("type", JStr "string"); ("pattern", JStr "^[a-z0-9-]+$"); ("minLength", JNum 2);
                   ("maxLength", JNum 100)]);
                 ("timezone", JObj [("type", JStr "string")]); ("locale", JObj [("type", JStr "string")])])])])])]);
       ("responses", JObj [
         ("201", JObj [("description", JStr "Organization created")]);
         ("400", JObj [("description", JStr "Validation error")]);
         ("409", JObj [("description", JStr "Slug already taken")])])])]);
   ("/orgs/{orgId}", JObj [
     ("get", JObj [
       ("tags", JArr [JStr "Organizations"]); ("summary", JStr "Get organization by ID");
       ("parameters", JArr [
         JObj [
           ("name", JStr "orgId"); ("in", JStr "path"); ("required", JBool true);
           ("schema", JObj [("type", JStr "string"); ("format", JStr "uuid")])]]);
       ("responses", JObj [
         ("200", JObj [("description", JStr "Organization details")]); ("404", JObj [("description", JStr "Not found")])])]);
     ("patch", JObj [
       ("tags", JArr [JStr "Organizations"]); ("summary", JStr "Update organization settings");
       ("parameters", JArr [
         JObj [
           ("name", JStr "orgId"); ("in", JStr "path"); ("required", JBool true);
           ("schema", JObj [("type", JStr "string"); ("format", JStr "uuid")])]]);
       ("requestBody", JObj [
         ("required", JBool true);
         ("content", JObj [
           ("application/json", JObj [
             ("schema", JObj [
               ("type", JStr "object"); ("required", JArr [JStr "version"]);
               ("properties", JObj [
                 ("name", JObj [("type", JStr "string"); ("minLength", JNum 1); ("maxLength", JNum 255)]);
                 ("slug", JObj [("type", JStr "string"); ("pattern", JStr "^[a-z0-9-]+$")]);
                 ("timezone", JObj [("type", JStr "string")]); ("locale", JObj [("type", JStr "string")]);
                 ("mfa_required", JObj [("type", JStr "boolean")]);
                 ("account_lockout_attempts", JObj [("type", JStr "integer"); ("minimum", JNum 3); ("maximum", JNum 20)]);
                 ("version", JObj [("type", JStr "integer"); ("minimum", JNum 1)])])])])])]);
       ("responses", JObj [
         ("200", JObj [("description", JStr "Updated organization")]);
         ("403", JObj [("description", JStr "Insufficient role")])])])]);
   ("/orgs/{orgId}/suspend", JObj [
     ("post", JObj [
       ("tags", JArr [JStr "Organizations"]); ("summary", JStr "Suspend an organization");
       ("parameters", JArr [
         JObj [
           ("name", JStr "orgId"); ("in", JStr "path"); ("required", JBool true);
           ("schema", JObj [("type", JStr "string"); ("format", JStr "uuid")])]]);
       ("requestBody", JObj [
         ("required", JBool true);
         ("content", JObj [
           ("application/json", JObj [
             ("schema", JObj [
               ("type", JStr "object"); ("required", JArr [JStr "reason"]);
               ("properties", JObj [
                 ("reason", JObj [("type", JStr "string"); ("minLength", JNum 1); ("maxLength", JNum 500)])])])])])]);
       ("responses", JObj [
         ("200", JObj [("description", JStr "Organization suspended")]);
         ("403", JObj [("description", JStr "Insufficient role")])])])]);
   ("/orgs/{orgId}/reactivate", JObj [
     ("post", JObj [
       ("tags", JArr [JStr "Organizations"]); ("summary", JStr "Reactivate a suspended organization");
       ("parameters", JArr [
         JObj [
           ("name", JStr "orgId"); ("in", JStr "path"); ("required", JBool true);
           ("schema", JObj [("type", JStr "string"); ("format", JStr "uuid")])]]);
       ("responses", JObj [
         ("200", JObj [("description", JStr "Organization reactivated")]);
         ("403", JObj [("description", JStr "Insufficient role")])])])]);
   ("/orgs/{orgId}/members", JObj [
     ("get", JObj [
       ("tags", JArr [JStr "Organizations"]); ("summary", JStr "List organization members");
       ("parameters", JArr [
         JObj [
           ("name", JStr "orgId"); ("in", JStr "path"); ("required", JBool true);
           ("schema", JObj [("type", JStr "string"); ("format", JStr "uuid")])]]);
       ("responses", JObj [("200", JObj [("description", JStr "Member list")])])])]);
   ("/orgs/{orgId}/members/{userId}/role", JObj [
     ("patch", JObj [
       ("tags", JArr [JStr "Organizations"]); ("summary", JStr "Update a member's role");
       ("parameters", JArr [
         JObj [
           ("name", JStr "orgId"); ("in", JStr "path"); ("required", JBool true);
           ("schema", JObj [("type", JStr "string"); ("format", JStr "uuid")])];
         JObj [
           ("name", JStr "userId"); ("in", JStr "path"); ("required", JBool true);
           ("schema", JObj [("type", JStr "string"); ("format", JStr "uuid")])]]);
       ("requestBody", JObj [
         ("required", JBool true);
         ("content", JObj [
           ("application/json", JObj [
             ("schema", JObj [
               ("type", JStr "object"); ("required", JArr [JStr "role"]);
               ("properties", JObj [
                 ("role", JObj [
                   ("type", JStr "string"); ("enum", JArr [JStr "org_admin"; JStr "member"; JStr "guest"])])])])])])]);
       ("responses", JObj [
         ("200", JObj [("description", JStr "Role updated")]); ("403", JObj [("description", JStr "Insufficient role")]);
         ("404", JObj [("description", JStr "Membership not found")])])])]);
   ("/orgs/{orgId}/members/{userId}", JObj [
     ("delete", JObj [
       ("tags", JArr [JStr "Organizations"]); ("summary", JStr "Remove a member from organization");
       ("parameters", JArr [
         JObj [
           ("name", JStr "orgId"); ("in", JStr "path"); ("required", JBool true);
           ("schema", JObj [("type", JStr "string"); ("format", JStr "uuid")])];
         JObj [
           ("name", JStr "userId"); ("in", JStr "path"); ("required", JBool true);
           ("schema", JObj [("type", JStr "string"); ("format", JStr "uuid")])]]);
       ("responses", JObj [
         ("200", JObj [("description", JStr "Member removed")]);
         ("403", JObj [("description", JStr "Insufficient role")])])])])]%string.

Definition organizations_paths2 : list (string * json) :=
  [("/orgs/{orgId}/invitations", JObj [
     ("post", JObj [
       ("tags", JArr [JStr "Organizations"]); ("summary", JStr "Invite a user to the organization");
       ("parameters", JArr [
         JObj [
           ("name", JStr "orgId"); ("in", JStr "path"); ("required", JBool true);
           ("schema", JObj [("type", JStr "string"); ("format", JStr "uuid")])]]);
       ("requestBody", JObj [
         ("required", JBool true);
         ("content", JObj [
           ("application/json", JObj [
             ("schema", JObj [
               ("type", JStr "object"); ("required", JArr [JStr "email"; JStr "role"]);
               ("properties", JObj [
                 ("email", JObj [("type", JStr "string"); ("format", JStr "email")]);
                 ("role", JObj [
                   ("type", JStr "string"); ("enum", JArr [JStr "org_admin"; JStr "member"; JStr "guest"])])])])])])]);
       ("responses", JObj [
         ("201", JObj [("description", JStr "Invitation created")]);
         ("403", JObj [("description", JStr "Insufficient role")])])])]);
   ("/orgs/{orgId}/invitations/{invitationId}", JObj [
     ("delete", JObj [
       ("tags", JArr [JStr "Organizations"]); ("summary", JStr "Revoke an invitation");
       ("parameters", JArr [
         JObj [
           ("name", JStr "orgId"); ("in", JStr "path"); ("required", JBool true);
           ("schema", JObj [("type", JStr "string"); ("format", JStr "uuid")])];
         JObj [
           ("name", JStr "invitationId"); ("in", JStr "path"); ("required", JBool true);
           ("schema", JObj [("type", JStr "string"); ("format", JStr "uuid")])]]);
       ("responses", JObj [
         ("200", JObj [("description", JStr "Invitation revoked")]);
         ("403", JObj [("description", JStr "Insufficient role")])])])]);
   ("/orgs/invitations/accept", JObj [
     ("post", JObj [
       ("tags", JArr [JStr "Organizations"]); ("summary", JStr "Accept an invitation by token"); ("security", JArr []);
       ("requestBody", JObj [
         ("required", JBool true);
         ("content", JObj [
           ("application/json", JObj [
             ("schema", JObj [
               ("type", JStr "object"); ("required", JArr [JStr "token"]);
               ("properties", JObj [("token", JObj [("type", JStr "string")])])])])])]);
       ("responses", JObj [
         ("200", JObj [("description", JStr "Invitation accepted")]);
         ("400", JObj [("description", JStr "Invalid or expired token")])])])])]%string.

Definition workspaces_paths : list (string * json) :=
  [("/orgs/{orgId}/workspaces", JObj [
     ("post", JObj [
       ("tags", JArr [JStr "Workspaces"]); ("summary", JStr "Create a workspace");
       ("parameters", JArr [
         JObj [
           ("name", JStr "orgId"); ("in", JStr "path"); ("required", JBool true);
           ("schema", JObj [("type", JStr "string"); ("format", JStr "uuid")])]]);
       ("requestBody", JObj [
         ("required", JBool true);
         ("content", JObj [
           ("application/json", JObj [
             ("schema", JObj [
               ("type", JStr "object"); ("required", JArr [JStr "name"]);
               ("properties", JObj [
                 ("name", JObj [("type", JStr "string"); ("minLength", JNum 1); ("maxLength", JNum 255)]);
                 ("description", JObj [
                   ("type", JStr "string"); ("maxLength", JNum 1000); ("nullable", JBool true)])])])])])]);
       ("responses", JObj [
         ("201", JObj [("description", JStr "Workspace created")]);
         ("403", JObj [("description", JStr "Insufficient role")])])]);
     ("get", JObj [
       ("tags", JArr [JStr "Workspaces"]); ("summary", JStr "List workspaces in organization");
       ("parameters", JArr [
         JObj [
           ("name", JStr "orgId"); ("in", JStr "path"); ("required", JBool true);
           ("schema", JObj [("type", JStr "string"); ("format", JStr "uuid")])]]);
       ("responses", JObj [("200", JObj [("description", JStr "Workspace list")])])])]);
   ("/orgs/{orgId}/workspaces/{workspaceId}", JObj [
     ("get", JObj [
       ("tags", JArr [JStr "Workspaces"]); ("summary", JStr "Get workspace by ID");
       ("parameters", JArr [
         JObj [
           ("name", JStr "orgId"); ("in", JStr "path"); ("required", JBool true);
           ("schema", JObj [("type", JStr "string"); ("format", JStr "uuid")])];
         JObj [
           ("name", JStr "workspaceId"); ("in", JStr "path"); ("required", JBool true);
           ("schema", JObj [("type", JStr "string"); ("format", JStr "uuid")])]]);
       ("responses", JObj [
         ("200", JObj [("description", JStr "Workspace details")]); ("404", JObj [("description", JStr "Not found")])])]);
     ("patch", JObj [
       ("tags", JArr [JStr "Workspaces"]); ("summary", JStr "Update workspace");
       ("parameters", JArr [
         JObj [
           ("name", JStr "orgId"); ("in", JStr "path"); ("required", JBool true);
           ("schema", JObj [("type", JStr "string"); ("format", JStr "uuid")])];
         JObj [
           ("name", JStr "workspaceId"); ("in", JStr "path"); ("required", JBool true);
           ("schema", JObj [("type", JStr "string"); ("format", JStr "uuid")])]]);
       ("requestBody", JObj [
         ("required", JBool true);
         ("content", JObj [
           ("application/json", JObj [
             ("schema", JObj [
               ("type", JStr "object"); ("required", JArr [JStr "version"]);
               ("properties", JObj [
                 ("name", JObj [("type", JStr "string"); ("minLength", JNum 1); ("maxLength", JNum 255)]);
                 ("description", JObj [("type", JStr "string"); ("maxLength", JNum 1000); ("nullable", JBool true)]);
                 ("status", JObj [("type", JStr "string"); ("enum", JArr [JStr "active"; JStr "archived"])]);
                 ("version", JObj [("type", JStr "integer"); ("minimum", JNum 1)])])])])])]);
       ("responses", JObj [("200", JObj [("description", JStr "Updated workspace")])])]);
     ("delete", JObj [
       ("tags", JArr [JStr "Workspaces"]); ("summary", JStr "Delete workspace");
       ("parameters", JArr [
         JObj [
           ("name", JStr "orgId"); ("in", JStr "path"); ("required", JBool true);
           ("schema", JObj [("type", JStr "string"); ("format", JStr "uuid")])];
         JObj [
           ("name", JStr "workspaceId"); ("in", JStr "path"); ("required", JBool true);
           ("schema", JObj [("type", JStr "string"); ("format", JStr "uuid")])]]);
       ("responses", JObj [("200", JObj [("description", JStr "Workspace deleted")])])])])]%string.

Definition tasks_paths1 : list (string * json) :=
  [("/orgs/{orgId}/tasks", JObj [
     ("post", JObj [
       ("tags", JArr [JStr "Tasks"]); ("summary", JStr "Create a task");
       ("parameters", JArr [
         JObj [
           ("name", JStr "orgId"); ("in", JStr "path"); ("required", JBool true);
           ("schema", JObj [("type", JStr "string"); ("format", JStr "uuid")])]]);
       ("requestBody", JObj [
         ("required", JBool true);
         ("content", JObj [
           ("application/json", JObj [
             ("schema", JObj [
               ("type", JStr "object"); ("required", JArr [JStr "workspace_id"; JStr "title"]);
               ("properties", JObj [
                 ("workspace_id", JObj [("type", JStr "string"); ("format", JStr "uuid")]);
                 ("board_id", JObj [("type", JStr "string"); ("format", JStr "uuid"); ("nullable", JBool true)]);
                 ("parent_task_id", JObj [("type", JStr "string"); ("format", JStr "uuid"); ("nullable", JBool true)]);
                 ("title", JObj [("type", JStr "string"); ("minLength", JNum 1); ("maxLength", JNum 500)]);
                 ("description", JObj [("type", JStr "object"); ("nullable", JBool true)]);
                 ("status", JObj [
                   ("type", JStr "string");
                   ("enum", JArr [JStr "todo"; JStr "in_progress"; JStr "in_review"; JStr "done"; JStr "cancelled"])]);
                 ("priority", JObj [
                   ("type", JStr "string"); ("enum", JArr [JStr "low"; JStr "medium"; JStr "high"; JStr "urgent"])]);
                 ("due_date", JObj [("type", JStr "string"); ("format", JStr "date-time"); ("nullable", JBool true)]);
                 ("labels", JObj [("type", JStr "array"); ("items", JObj [("type", JStr "string")])]);
                 ("assignee_ids", JObj [
                   ("type", JStr "array"); ("items", JObj [("type", JStr "string"); ("format", JStr "uuid")])])])])])])]);
       ("responses", JObj [("201", JObj [("description", JStr "Task created")])])]);
     ("get", JObj [
       ("tags", JArr [JStr "Tasks"]); ("summary", JStr "List tasks in organization");
       ("parameters", JArr [
         JObj [
           ("name", JStr "orgId"); ("in", JStr "path"); ("required", JBool true);
           ("schema", JObj [("type", JStr "string"); ("format", JStr "uuid")])];
         JObj [
           ("name", JStr "workspace_id"); ("in", JStr "query");
           ("schema", JObj [("type", JStr "string"); ("format", JStr "uuid")])];
         JObj [
           ("name", JStr "board_id"); ("in", JStr "query");
           ("schema", JObj [("type", JStr "string"); ("format", JStr "uuid")])];
         JObj [
           ("name", JStr "status"); ("in", JStr "query");
           ("schema", JObj [
             ("type", JStr "string");
             ("enum", JArr [JStr "todo"; JStr "in_progress"; JStr "in_review"; JStr "done"; JStr "cancelled"])])]]);
       ("responses", JObj [("200", JObj [("description", JStr "Task list")])])])]);
   ("/orgs/{orgId}/tasks/{taskId}", JObj [
     ("get", JObj [
       ("tags", JArr [JStr "Tasks"]); ("summary", JStr "Get task by ID");
       ("parameters", JArr [
         JObj [
           ("name", JStr "orgId"); ("in", JStr "path"); ("required", JBool true);
           ("schema", JObj [("type", JStr "string"); ("format", JStr "uuid")])];
         JObj [
           ("name", JStr "taskId"); ("in", JStr "path"); ("required", JBool true);
           ("schema", JObj [("type", JStr "string"); ("format", JStr "uuid")])]]);
       ("responses", JObj [
         ("200", JObj [("description", JStr "Task details")]); ("404", JObj [("description", JStr "Not found")])])]);
     ("patch", JObj [
       ("tags", JArr [JStr "Tasks"]); ("summary", JStr "Update task");
       ("parameters", JArr [
         JObj [
           ("name", JStr "orgId"); ("in", JStr "path"); ("required", JBool true);
           ("schema", JObj [("type", JStr "string"); ("format", JStr "uuid")])];
         JObj [
           ("name", JStr "taskId"); ("in", JStr "path"); ("required", JBool true);
           ("schema", JObj [("type", JStr "string"); ("format", JStr "uuid")])]]);
       ("requestBody", JObj [
         ("required", JBool true);
         ("content", JObj [
           ("application/json", JObj [
             ("schema", JObj [
               ("type", JStr "object"); ("required", JArr [JStr "version"]);
               ("properties", JObj [
                 ("title", JObj [("type", JStr "string"); ("minLength", JNum 1); ("maxLength", JNum 500)]);
                 ("description", JObj [("type", JStr "object"); ("nullable", JBool true)]);
                 ("status", JObj [
                   ("type", JStr "string");
                   ("enum", JArr [JStr "todo"; JStr "in_progress"; JStr "in_review"; JStr "done"; JStr "cancelled"])]);
                 ("priority", JObj [
                   ("type", JStr "string"); ("enum", JArr [JStr "low"; JStr "medium"; JStr "high"; JStr "urgent"])]);
                 ("due_date", JObj [("type", JStr "string"); ("format", JStr "date-time"); ("nullable", JBool true)]);
                 ("labels", JObj [("type", JStr "array"); ("items", JObj [("type", JStr "string")])]);
                 ("assignee_ids", JObj [
                   ("type", JStr "array"); ("items", JObj [("type", JStr "string"); ("format", JStr "uuid")])]);
                 ("version", JObj [("type", JStr "integer"); ("minimum", JNum 1)])])])])])]);
       ("responses", JObj [("200", JObj [("description", JStr "Updated task")])])]);
     ("delete", JObj [
       ("tags", JArr [JStr "Tasks"]); ("summary", JStr "Delete task");
       ("parameters", JArr [
         JObj [
           ("name", JStr "orgId"); ("in", JStr "path"); ("required", JBool true);
           ("schema", JObj [("type", JStr "string"); ("format", JStr "uuid")])];
         JObj [
           ("name", JStr "taskId"); ("in", JStr "path"); ("required", JBool true);
           ("schema", JObj [("type", JStr "string"); ("format", JStr "uuid")])]]);
       ("responses", JObj [("200", JObj [("description", JStr "Task deleted")])])])]);
   ("/orgs/{orgId}/tasks/{taskId}/dependencies", JObj [
     ("post", JObj [
       ("tags", JArr [JStr "Tasks"]); ("summary", JStr "Add a task dependency");
       ("parameters", JArr [
         JObj [
           ("name", JStr "orgId"); ("in", JStr "path"); ("required", JBool true);
           ("schema", JObj [("type", JStr "string"); ("format", JStr "uuid")])];
         JObj [
           ("name", JStr "taskId"); ("in", JStr "path"); ("required", JBool true);
           ("schema", JObj [("type", JStr "string"); ("format", JStr "uuid")])]]);
       ("requestBody", JObj [
         ("required", JBool true);
         ("content", JObj [
           ("application/json", JObj [
             ("schema", JObj [
               ("type", JStr "object"); ("required", JArr [JStr "blocked_task_id"]);
               ("properties", JObj [("blocked_task_id", JObj [("type", JStr "string"); ("format", JStr "uuid")])])])])])]);
       ("responses", JObj [("201", JObj [("description", JStr "Dependency added")])])]);
     ("get", JObj [
       ("tags", JArr [JStr "Tasks"]); ("summary", JStr "List task dependencies");
       ("parameters", JArr [
         JObj [
           ("name", JStr "orgId"); ("in", JStr "path"); ("required", JBool true);
           ("schema", JObj [("type", JStr "string"); ("format", JStr "uuid")])];
         JObj [
           ("name", JStr "taskId"); ("in", JStr "path"); ("required", JBool true);
           ("schema", JObj [("type", JStr "string"); ("format", JStr "uuid")])]]);
       ("responses", JObj [("200", JObj [("description", JStr "Dependency list")])])])]);
   ("/orgs/{orgId}/tasks/dependencies/{dependencyId}", JObj [
     ("delete", JObj [
       ("tags", JArr [JStr "Tasks"]); ("summary", JStr "Remove a task dependency");
       ("parameters", JArr [
         JObj [
           ("name", JStr "orgId"); ("in", JStr "path"); ("required", JBool true);
           ("schema", JObj [("type", JStr "string"); ("format", JStr "uuid")])];
         JObj [
           ("name", JStr "dependencyId"); ("in", JStr "path"); ("required", JBool true);
           ("schema", JObj [("type", JStr "string"); ("format", JStr "uuid")])]]);
       ("responses", JObj [("200", JObj [("description", JStr "Dependency removed")])])])])]%string.

Definition tasks_paths2 : list (string * json) :=
  [("/orgs/{orgId}/tasks/bulk/status", JObj [
     ("post", JObj [
       ("tags", JArr [JStr "Tasks"]); ("summary", JStr "Bulk update task status");
       ("parameters", JArr [
         JObj [
           ("name", JStr "orgId"); ("in", JStr "path"); ("required", JBool true);
           ("schema", JObj [("type", JStr "string"); ("format", JStr "uuid")])]]);
       ("requestBody", JObj [
         ("required", JBool true);
         ("content", JObj [
           ("application/json", JObj [
             ("schema", JObj [
               ("type", JStr "object"); ("required", JArr [JStr "task_ids"; JStr "status"]);
               ("properties", JObj [
                 ("task_ids", JObj [
                   ("type", JStr "array"); ("items", JObj [("type", JStr "string"); ("format", JStr "uuid")]);
                   ("minItems", JNum 1); ("maxItems", JNum 100)]);
                 ("status", JObj [
                   ("type", JStr "string");
                   ("enum", JArr [
                     JStr "todo"; JStr "in_progress"; JStr "in_review"; JStr "done"; JStr "cancelled"])])])])])])]);
       ("responses", JObj [("200", JObj [("description", JStr "Bulk status updated")])])])]);
   ("/orgs/{orgId}/tasks/bulk", JObj [
     ("delete", JObj [
       ("tags", JArr [JStr "Tasks"]); ("summary", JStr "Bulk delete tasks");
       ("parameters", JArr [
         JObj [
           ("name", JStr "orgId"); ("in", JStr "path"); ("required", JBool true);
           ("schema", JObj [("type", JStr "string"); ("format", JStr "uuid")])]]);
       ("requestBody", JObj [
         ("required", JBool true);
         ("content", JObj [
           ("application/json", JObj [
             ("schema", JObj [
               ("type", JStr "object"); ("required", JArr [JStr "task_ids"]);
               ("properties", JObj [
                 ("task_ids", JObj [
                   ("type", JStr "array"); ("items", JObj [("type", JStr "string"); ("format", JStr "uuid")]);
                   ("minItems", JNum 1); ("maxItems", JNum 100)])])])])])]);
       ("responses", JObj [("200", JObj [("description", JStr "Tasks deleted")])])])]);
   ("/orgs/{orgId}/task-templates", JObj [
     ("post", JObj [
       ("tags", JArr [JStr "Tasks"]); ("summary", JStr "Create a task template");
       ("parameters", JArr [
         JObj [
           ("name", JStr "orgId"); ("in", JStr "path"); ("required", JBool true);
           ("schema", JObj [("type", JStr "string"); ("format", JStr "uuid")])]]);
       ("requestBody", JObj [
         ("required", JBool true);
         ("content", JObj [
           ("application/json", JObj [
             ("schema", JObj [
               ("type", JStr "object"); ("required", JArr [JStr "name"]);
               ("properties", JObj [
                 ("name", JObj [("type", JStr "string"); ("minLength", JNum 1); ("maxLength", JNum 255)]);
                 ("default_title", JObj [("type", JStr "string"); ("maxLength", JNum 500); ("nullable", JBool true)]);
                 ("default_description", JObj [("type", JStr "object"); ("nullable", JBool true)]);
                 ("default_priority", JObj [
                   ("type", JStr "string"); ("enum", JArr [JStr "low"; JStr "medium"; JStr "high"; JStr "urgent"]);
                   ("nullable", JBool true)]);
                 ("default_labels", JObj [("type", JStr "array"); ("items", JObj [("type", JStr "string")])])])])])])]);
       ("responses", JObj [("201", JObj [("description", JStr "Template created")])])]);
     ("get", JObj [
       ("tags", JArr [JStr "Tasks"]); ("summary", JStr "List task templates");
       ("parameters", JArr [
         JObj [
           ("name", JStr "orgId"); ("in", JStr "path"); ("required", JBool true);
           ("schema", JObj [("type", JStr "string"); ("format", JStr "uuid")])]]);
       ("responses", JObj [("200", JObj [("description", JStr "Template list")])])])]);
   ("/orgs/{orgId}/task-templates/{templateId}", JObj [
     ("delete", JObj [
       ("tags", JArr [JStr "Tasks"]); ("summary", JStr "Delete a task template");
       ("parameters", JArr [
         JObj [
           ("name", JStr "orgId"); ("in", JStr "path"); ("required", JBool true);
           ("schema", JObj [("type", JStr "string"); ("format", JStr "uuid")])];
         JObj [
           ("name", JStr "templateId"); ("in", JStr "path"); ("required", JBool true);
           ("schema", JObj [("type", JStr "string"); ("format", JStr "uuid")])]]);
       ("responses", JObj [("200", JObj [("description", JStr "Template deleted")])])])]);
   ("/orgs/{orgId}/tasks/{taskId}/comments", JObj [
     ("post", JObj [
       ("tags", JArr [JStr "Tasks"]); ("summary", JStr "Add a comment to a task");
       ("parameters", JArr [
         JObj [
           ("name", JStr "orgId"); ("in", JStr "path"); ("required", JBool true);
           ("schema", JObj [("type", JStr "string"); ("format", JStr "uuid")])];
         JObj [
           ("name", JStr "taskId"); ("in", JStr "path"); ("required", JBool true);
           ("schema", JObj [("type", JStr "string"); ("format", JStr "uuid")])]]);
       ("requestBody", JObj [
         ("required", JBool true);
         ("content", JObj [
           ("application/json", JObj [
             ("schema", JObj [
               ("type", JStr "object"); ("required", JArr [JStr "body"]);
               ("properties", JObj [
                 ("body", JObj [("type", JStr "object")]);
                 ("parent_comment_id", JObj [
                   ("type", JStr "string"); ("format", JStr "uuid"); ("nullable", JBool true)])])])])])]);
       ("responses", JObj [("201", JObj [("description", JStr "Comment created")])])]);
     ("get", JObj [
       ("tags", JArr [JStr "Tasks"]); ("summary", JStr "List comments on a task");
       ("parameters", JArr [
         JObj [
           ("name", JStr "orgId"); ("in", JStr "path"); ("required", JBool true);
           ("schema", JObj [("type", JStr "string"); ("format", JStr "uuid")])];
         JObj [
           ("name", JStr "taskId"); ("in", JStr "path"); ("required", JBool true);
           ("schema", JObj [("type", JStr "string"); ("format", JStr "uuid")])]]);
       ("responses", JObj [("200", JObj [("description", JStr "Comment list")])])])]);
   ("/orgs/{orgId}/tasks/{taskId}/comments/{commentId}", JObj [
     ("delete", JObj [
       ("tags", JArr [JStr "Tasks"]); ("summary", JStr "Delete a comment");
       ("parameters", JArr [
         JObj [
           ("name", JStr "orgId"); ("in", JStr "path"); ("required", JBool true);
           ("schema", JObj [("type", JStr "string"); ("format", JStr "uuid")])];
         JObj [
           ("name", JStr "taskId"); ("in", JStr "path"); ("required", JBool true);
           ("schema", JObj [("type", JStr "string"); ("format", JStr "uuid")])];
         JObj [
           ("name", JStr "commentId"); ("in", JStr "path"); ("required", JBool true);
           ("schema", JObj [("type", JStr "string"); ("format", JStr "uuid")])]]);
       ("responses", JObj [("200", JObj [("description", JStr "Comment deleted")])])])]);
   ("/orgs/{orgId}/tasks/{taskId}/activity", JObj [
     ("get", JObj [
       ("tags", JArr [JStr "Tasks"]); ("summary", JStr "Get activity log for a task");
       ("parameters", JArr [
         JObj [
           ("name", JStr "orgId"); ("in", JStr "path"); ("required", JBool true);
           ("schema", JObj [("type", JStr "string"); ("format", JStr "uuid")])];
         JObj [
           ("name", JStr "taskId"); ("in", JStr "path"); ("required", JBool true);
           ("schema", JObj [("type", JStr "string"); ("format", JStr "uuid")])]]);
       ("responses", JObj [("200", JObj [("description", JStr "Activity log")])])])])]%string.

Definition tasks_paths3 : list (string * json) :=
  [("/orgs/{orgId}/activity", JObj [
     ("get", JObj [
       ("tags", JArr [JStr "Tasks"]); ("summary", JStr "Get organization-level activity log");
       ("parameters", JArr [
         JObj [
           ("name", JStr "orgId"); ("in", JStr "path"); ("required", JBool true);
           ("schema", JObj [("type", JStr "string"); ("format", JStr "uuid")])];
         JObj [
           ("name", JStr "limit"); ("in", JStr "query");
           ("schema", JObj [("type", JStr "integer"); ("default", JNum 100); ("maximum", JNum 200)])];
         JObj [
           ("name", JStr "offset"); ("in", JStr "query");
           ("schema", JObj [("type", JStr "integer"); ("default", JNum 0)])]]);
       ("responses", JObj [("200", JObj [("description", JStr "Activity log")])])])])]%string.

Definition chat_paths : list (string * json) :=
  [("/orgs/{orgId}/channels/direct", JObj [
     ("post", JObj [
       ("tags", JArr [JStr "Chat"]); ("summary", JStr "Create or get a direct message channel");
       ("parameters", JArr [
         JObj [
           ("name", JStr "orgId"); ("in", JStr "path"); ("required", JBool true);
           ("schema", JObj [("type", JStr "string"); ("format", JStr "uuid")])]]);
       ("requestBody", JObj [
         ("required", JBool true);
         ("content", JObj [
           ("application/json", JObj [
             ("schema", JObj [
               ("type", JStr "object"); ("required", JArr [JStr "other_user_id"]);
               ("properties", JObj [("other_user_id", JObj [("type", JStr "string"); ("format", JStr "uuid")])])])])])]);
       ("responses", JObj [
         ("200", JObj [("description", JStr "Existing DM channel returned")]);
         ("201", JObj [("description", JStr "New DM channel created")]);
         ("400", JObj [("description", JStr "Cannot create a direct message channel with yourself (CANNOT_DM_SELF)")])])])]);
   ("/orgs/{orgId}/channels/group", JObj [
     ("post", JObj [
       ("tags", JArr [JStr "Chat"]); ("summary", JStr "Create a group channel");
       ("parameters", JArr [
         JObj [
           ("name", JStr "orgId"); ("in", JStr "path"); ("required", JBool true);
           ("schema", JObj [("type", JStr "string"); ("format", JStr "uuid")])]]);
       ("requestBody", JObj [
         ("required", JBool true);
         ("content", JObj [
           ("application/json", JObj [
             ("schema", JObj [
               ("type", JStr "object"); ("required", JArr [JStr "name"; JStr "member_ids"]);
               ("properties", JObj [
                 ("name", JObj [("type", JStr "string"); ("minLength", JNum 1); ("maxLength", JNum 255)]);
                 ("member_ids", JObj [
                   ("type", JStr "array"); ("items", JObj [("type", JStr "string"); ("format", JStr "uuid")]);
                   ("minItems", JNum 2)])])])])])]);
       ("responses", JObj [("201", JObj [("description", JStr "Group channel created")])])])]);
   ("/orgs/{orgId}/channels", JObj [
     ("get", JObj [
       ("tags", JArr [JStr "Chat"]); ("summary", JStr "List channels in organization");
       ("parameters", JArr [
         JObj [
           ("name", JStr "orgId"); ("in", JStr "path"); ("required", JBool true);
           ("schema", JObj [("type", JStr "string"); ("format", JStr "uuid")])]]);
       ("responses", JObj [("200", JObj [("description", JStr "Channel list")])])])]);
   ("/orgs/{orgId}/channels/{channelId}", JObj [
     ("get", JObj [
       ("tags", JArr [JStr "Chat"]); ("summary", JStr "Get channel by ID");
       ("parameters", JArr [
         JObj [
           ("name", JStr "orgId"); ("in", JStr "path"); ("required", JBool true);
           ("schema", JObj [("type", JStr "string"); ("format", JStr "uuid")])];
         JObj [
           ("name", JStr "channelId"); ("in", JStr "path"); ("required", JBool true);
           ("schema", JObj [("type", JStr "string"); ("format", JStr "uuid")])]]);
       ("responses", JObj [
         ("200", JObj [("description", JStr "Channel details")]); ("404", JObj [("description", JStr "Not found")])])])]);
   ("/orgs/{orgId}/channels/{channelId}/messages", JObj [
     ("post", JObj [
       ("tags", JArr [JStr "Chat"]); ("summary", JStr "Send a message to a channel");
       ("parameters", JArr [
         JObj [
           ("name", JStr "orgId"); ("in", JStr "path"); ("required", JBool true);
           ("schema", JObj [("type", JStr "string"); ("format", JStr "uuid")])];
         JObj [
           ("name", JStr "channelId"); ("in", JStr "path"); ("required", JBool true);
           ("schema", JObj [("type", JStr "string"); ("format", JStr "uuid")])]]);
       ("requestBody", JObj [
         ("required", JBool true);
         ("content", JObj [
           ("application/json", JObj [
             ("schema", JObj [
               ("type", JStr "object"); ("required", JArr [JStr "body"; JStr "client_message_id"]);
               ("properties", JObj [
                 ("body", JObj [("type", JStr "string"); ("minLength", JNum 1)]);
                 ("body_parsed", JObj [("type", JStr "object"); ("nullable", JBool true)]);
                 ("client_message_id", JObj [("type", JStr "string"); ("format", JStr "uuid")]);
                 ("parent_message_id", JObj [
                   ("type", JStr "string"); ("format", JStr "uuid"); ("nullable", JBool true)])])])])])]);
       ("responses", JObj [("201", JObj [("description", JStr "Message sent")])])]);
     ("get", JObj [
       ("tags", JArr [JStr "Chat"]); ("summary", JStr "List messages in a channel");
       ("parameters", JArr [
         JObj [
           ("name", JStr "orgId"); ("in", JStr "path"); ("required", JBool true);
           ("schema", JObj [("type", JStr "string"); ("format", JStr "uuid")])];
         JObj [
           ("name", JStr "channelId"); ("in", JStr "path"); ("required", JBool true);
           ("schema", JObj [("type", JStr "string"); ("format", JStr "uuid")])];
         JObj [
           ("name", JStr "limit"); ("in", JStr "query");
           ("schema", JObj [("type", JStr "integer"); ("default", JNum 50); ("maximum", JNum 200)])];
         JObj [("name", JStr "before_sequence"); ("in", JStr "query"); ("schema", JObj [("type", JStr "integer")])]]);
       ("responses", JObj [("200", JObj [("description", JStr "Message list")])])])]);
   ("/orgs/{orgId}/channels/{channelId}/messages/{messageId}", JObj [
     ("delete", JObj [
       ("tags", JArr [JStr "Chat"]); ("summary", JStr "Delete a message");
       ("parameters", JArr [
         JObj [
           ("name", JStr "orgId"); ("in", JStr "path"); ("required", JBool true);
           ("schema", JObj [("type", JStr "string"); ("format", JStr "uuid")])];
         JObj [
           ("name", JStr "channelId"); ("in", JStr "path"); ("required", JBool true);
           ("schema", JObj [("type", JStr "string"); ("format", JStr "uuid")])];
         JObj [
           ("name", JStr "messageId"); ("in", JStr "path"); ("required", JBool true);
           ("schema", JObj [("type", JStr "string"); ("format", JStr "uuid")])]]);
       ("responses", JObj [("200", JObj [("description", JStr "Message deleted")])])])])]%string.

Definition notifications_paths : list (string * json) :=
  [("/orgs/{orgId}/notifications", JObj [
     ("get", JObj [
       ("tags", JArr [JStr "Notifications"]); ("summary", JStr "List notifications for current user");
       ("parameters", JArr [
         JObj [
           ("name", JStr "orgId"); ("in", JStr "path"); ("required", JBool true);
           ("schema", JObj [("type", JStr "string"); ("format", JStr "uuid")])];
         JObj [("name", JStr "unread_only"); ("in", JStr "query"); ("schema", JObj [("type", JStr "boolean")])];
         JObj [
           ("name", JStr "limit"); ("in", JStr "query");
           ("schema", JObj [("type", JStr "integer"); ("default", JNum 50); ("maximum", JNum 200)])];
         JObj [
           ("name", JStr "offset"); ("in", JStr "query");
           ("schema", JObj [("type", JStr "integer"); ("default", JNum 0)])]]);
       ("responses", JObj [("200", JObj [("description", JStr "Notification list")])])])]);
   ("/orgs/{orgId}/notifications/{notificationId}/read", JObj [
     ("patch", JObj [
       ("tags", JArr [JStr "Notifications"]); ("summary", JStr "Mark a notification as read");
       ("parameters", JArr [
         JObj [
           ("name", JStr "orgId"); ("in", JStr "path"); ("required", JBool true);
           ("schema", JObj [("type", JStr "string"); ("format", JStr "uuid")])];
         JObj [
           ("name", JStr "notificationId"); ("in", JStr "path"); ("required", JBool true);
           ("schema", JObj [("type", JStr "string"); ("format", JStr "uuid")])]]);
       ("responses", JObj [("200", JObj [("description", JStr "Marked as read")])])])]);
   ("/orgs/{orgId}/notifications/read-all", JObj [
     ("post", JObj [
       ("tags", JArr [JStr "Notifications"]); ("summary", JStr "Mark all notifications as read");
       ("parameters", JArr [
         JObj [
           ("name", JStr "orgId"); ("in", JStr "path"); ("required", JBool true);
           ("schema", JObj [("type", JStr "string"); ("format", JStr "uuid")])]]);
       ("responses", JObj [("200", JObj [("description", JStr "All notifications marked as read")])])])]);
   ("/orgs/{orgId}/notification-preferences", JObj [
     ("get", JObj [
       ("tags", JArr [JStr "Notifications"]); ("summary", JStr "List notification preferences");
       ("parameters", JArr [
         JObj [
           ("name", JStr "orgId"); ("in", JStr "path"); ("required", JBool true);
           ("schema", JObj [("type", JStr "string"); ("format", JStr "uuid")])]]);
       ("responses", JObj [("200", JObj [("description", JStr "Preference list")])])])]);
   ("/orgs/{orgId}/notification-preferences/{eventType}", JObj [
     ("patch", JObj [
       ("tags", JArr [JStr "Notifications"]); ("summary", JStr "Update notification preference for an event type");
       ("parameters", JArr [
         JObj [
           ("name", JStr "orgId"); ("in", JStr "path"); ("required", JBool true);
           ("schema", JObj [("type", JStr "string"); ("format", JStr "uuid")])];
         JObj [
           ("name", JStr "eventType"); ("in", JStr "path"); ("required", JBool true);
           ("schema", JObj [("type", JStr "string")])]]);
       ("requestBody", JObj [
         ("required", JBool true);
         ("content", JObj [
           ("application/json", JObj [
             ("schema", JObj [
               ("type", JStr "object");
               ("properties", JObj [
                 ("channel_inapp", JObj [("type", JStr "boolean")]); ("channel_email", JObj [("type", JStr "boolean")]);
                 ("channel_push", JObj [("type", JStr "boolean")]);
                 ("digest_mode", JObj [("type", JStr "string"); ("enum", JArr [JStr "realtime"; JStr "daily_digest"])]);
                 ("quiet_hours_start", JObj [("type", JStr "string"); ("nullable", JBool true)]);
                 ("quiet_hours_end", JObj [("type", JStr "string"); ("nullable", JBool true)])])])])])]);
       ("responses", JObj [("200", JObj [("description", JStr "Preference updated")])])])]);
   ("/notifications/unsubscribe", JObj [
     ("get", JObj [
       ("tags", JArr [JStr "Notifications"]); ("summary", JStr "Unsubscribe from email notifications (public email link)");
       ("security", JArr []);
       ("parameters", JArr [
         JObj [
           ("name", JStr "token"); ("in", JStr "query"); ("required", JBool true);
           ("schema", JObj [("type", JStr "string")])];
         JObj [
           ("name", JStr "userId"); ("in", JStr "query"); ("required", JBool true);
           ("schema", JObj [("type", JStr "string"); ("format", JStr "uuid")])];
         JObj [
           ("name", JStr "orgId"); ("in", JStr "query"); ("required", JBool true);
           ("schema", JObj [("type", JStr "string"); ("format", JStr "uuid")])];
         JObj [
           ("name", JStr "eventType"); ("in", JStr "query"); ("required", JBool true);
           ("schema", JObj [("type", JStr "string")])]]);
       ("responses", JObj [
         ("200", JObj [("description", JStr "Unsubscribed")]);
         ("400", JObj [("description", JStr "Invalid token")])])])])]%string.

Definition files_paths : list (string * json) :=
  [("/orgs/{orgId}/files/upload-url", JObj [
     ("post", JObj [
       ("tags", JArr [JStr "Files"]); ("summary", JStr "Request a presigned S3 upload URL");
       ("parameters", JArr [
         JObj [
           ("name", JStr "orgId"); ("in", JStr "path"); ("required", JBool true);
           ("schema", JObj [("type", JStr "string"); ("format", JStr "uuid")])]]);
       ("requestBody", JObj [
         ("required", JBool true);
         ("content", JObj [
           ("application/json", JObj [
             ("schema", JObj [
               ("type", JStr "object"); ("required", JArr [JStr "filename"; JStr "mimeType"; JStr "sizeBytes"]);
               ("properties", JObj [
                 ("filename", JObj [("type", JStr "string"); ("minLength", JNum 1); ("maxLength", JNum 255)]);
                 ("mimeType", JObj [("type", JStr "string")]);
                 ("sizeBytes", JObj [("type", JStr "integer"); ("minimum", JNum 1)])])])])])]);
       ("responses", JObj [("201", JObj [("description", JStr "Upload URL and file record created")])])])]);
   ("/orgs/{orgId}/files", JObj [
     ("get", JObj [
       ("tags", JArr [JStr "Files"]); ("summary", JStr "List files in organization");
       ("parameters", JArr [
         JObj [
           ("name", JStr "orgId"); ("in", JStr "path"); ("required", JBool true);
           ("schema", JObj [("type", JStr "string"); ("format", JStr "uuid")])];
         JObj [
           ("name", JStr "limit"); ("in", JStr "query");
           ("schema", JObj [("type", JStr "integer"); ("default", JNum 20); ("maximum", JNum 100)])];
         JObj [
           ("name", JStr "offset"); ("in", JStr "query");
           ("schema", JObj [("type", JStr "integer"); ("default", JNum 0)])]]);
       ("responses", JObj [("200", JObj [("description", JStr "File list")])])])]);
   ("/orgs/{orgId}/files/{fileId}", JObj [
     ("get", JObj [
       ("tags", JArr [JStr "Files"]); ("summary", JStr "Get file metadata by ID");
       ("parameters", JArr [
         JObj [
           ("name", JStr "orgId"); ("in", JStr "path"); ("required", JBool true);
           ("schema", JObj [("type", JStr "string"); ("format", JStr "uuid")])];
         JObj [
           ("name", JStr "fileId"); ("in", JStr "path"); ("required", JBool true);
           ("schema", JObj [("type", JStr "string"); ("format", JStr "uuid")])]]);
       ("responses", JObj [
         ("200", JObj [("description", JStr "File metadata")]); ("404", JObj [("description", JStr "Not found")])])])]);
   ("/orgs/{orgId}/files/{fileId}/download-url", JObj [
     ("get", JObj [
       ("tags", JArr [JStr "Files"]); ("summary", JStr "Get a presigned download URL for a file");
       ("parameters", JArr [
         JObj [
           ("name", JStr "orgId"); ("in", JStr "path"); ("required", JBool true);
           ("schema", JObj [("type", JStr "string"); ("format", JStr "uuid")])];
         JObj [
           ("name", JStr "fileId"); ("in", JStr "path"); ("required", JBool true);
           ("schema", JObj [("type", JStr "string"); ("format", JStr "uuid")])]]);
       ("responses", JObj [
         ("200", JObj [("description", JStr "Presigned download URL")]);
         ("202", JObj [("description", JStr "File scan in progress — retry after 30s")]);
         ("404", JObj [("description", JStr "Not found")])])])])]%string.

Definition webhooks_paths : list (string * json) :=
  [("/orgs/{orgId}/webhooks", JObj [
     ("post", JObj [
       ("tags", JArr [JStr "Webhooks"]); ("summary", JStr "Register a webhook endpoint");
       ("parameters", JArr [
         JObj [
           ("name", JStr "orgId"); ("in", JStr "path"); ("required", JBool true);
           ("schema", JObj [("type", JStr "string"); ("format", JStr "uuid")])]]);
       ("requestBody", JObj [
         ("required", JBool true);
         ("content", JObj [
           ("application/json", JObj [
             ("schema", JObj [
               ("type", JStr "object"); ("required", JArr [JStr "url"; JStr "events"]);
               ("properties", JObj [
                 ("url", JObj [("type", JStr "string"); ("format", JStr "uri")]);
                 ("events", JObj [
                   ("type", JStr "array");
                   ("items", JObj [
                     ("type", JStr "string");
                     ("enum", JArr [
                       JStr "task.created"; JStr "task.updated"; JStr "task.deleted"; JStr "message.created";
                       JStr "file.confirmed"; JStr "payment.captured"; JStr "payment.failed"; JStr "member.invited";
                       JStr "member.removed"])]);
                   ("minItems", JNum 1)])])])])])]);
       ("responses", JObj [("201", JObj [("description", JStr "Webhook registered")])])]);
     ("get", JObj [
       ("tags", JArr [JStr "Webhooks"]); ("summary", JStr "List webhooks for organization");
       ("parameters", JArr [
         JObj [
           ("name", JStr "orgId"); ("in", JStr "path"); ("required", JBool true);
           ("schema", JObj [("type", JStr "string"); ("format", JStr "uuid")])]]);
       ("responses", JObj [("200", JObj [("description", JStr "Webhook list")])])])]);
   ("/orgs/{orgId}/webhooks/{webhookId}", JObj [
     ("delete", JObj [
       ("tags", JArr [JStr "Webhooks"]); ("summary", JStr "Delete a webhook");
       ("parameters", JArr [
         JObj [
           ("name", JStr "orgId"); ("in", JStr "path"); ("required", JBool true);
           ("schema", JObj [("type", JStr "string"); ("format", JStr "uuid")])];
         JObj [
           ("name", JStr "webhookId"); ("in", JStr "path"); ("required", JBool true);
           ("schema", JObj [("type", JStr "string"); ("format", JStr "uuid")])]]);
       ("responses", JObj [("200", JObj [("description", JStr "Webhook deleted")])])])]);
   ("/orgs/{orgId}/webhooks/{webhookId}/rotate-secret", JObj [
     ("post", JObj [
       ("tags", JArr [JStr "Webhooks"]); ("summary", JStr "Rotate webhook signing secret");
       ("parameters", JArr [
         JObj [
           ("name", JStr "orgId"); ("in", JStr "path"); ("required", JBool true);
           ("schema", JObj [("type", JStr "string"); ("format", JStr "uuid")])];
         JObj [
           ("name", JStr "webhookId"); ("in", JStr "path"); ("required", JBool true);
           ("schema", JObj [("type", JStr "string"); ("format", JStr "uuid")])]]);
       ("responses", JObj [("200", JObj [("description", JStr "New secret returned")])])])])]%string.

Definition payments_paths : list (string * json) :=
  [("/orgs/{orgId}/payments/orders", JObj [
     ("post", JObj [
       ("tags", JArr [JStr "Payments"]); ("summary", JStr "Create a Razorpay payment order");
       ("parameters", JArr [
         JObj [
           ("name", JStr "orgId"); ("in", JStr "path"); ("required", JBool true);
           ("schema", JObj [("type", JStr "string"); ("format", JStr "uuid")])]]);
       ("requestBody", JObj [
         ("required", JBool true);
         ("content", JObj [
           ("application/json", JObj [
             ("schema", JObj [
               ("type", JStr "object"); ("required", JArr [JStr "plan_tier"; JStr "billing_cycle"]);
               ("properties", JObj [
                 ("plan_tier", JObj [
                   ("type", JStr "string"); ("enum", JArr [JStr "pro"; JStr "business"; JStr "enterprise"])]);
                 ("billing_cycle", JObj [("type", JStr "string"); ("enum", JArr [JStr "monthly"; JStr "annual"])])])])])])]);
       ("responses", JObj [("201", JObj [("description", JStr "Razorpay order created")])])])]);
   ("/orgs/{orgId}/payments/verify", JObj [
     ("post", JObj [
       ("tags", JArr [JStr "Payments"]); ("summary", JStr "Verify a Razorpay payment");
       ("parameters", JArr [
         JObj [
           ("name", JStr "orgId"); ("in", JStr "path"); ("required", JBool true);
           ("schema", JObj [("type", JStr "string"); ("format", JStr "uuid")])]]);
       ("requestBody", JObj [
         ("required", JBool true);
         ("content", JObj [
           ("application/json", JObj [
             ("schema", JObj [
               ("type", JStr "object");
               ("required", JArr [JStr "razorpay_order_id"; JStr "razorpay_payment_id"; JStr "razorpay_signature"]);
               ("properties", JObj [
                 ("razorpay_order_id", JObj [("type", JStr "string")]);
                 ("razorpay_payment_id", JObj [("type", JStr "string")]);
                 ("razorpay_signature", JObj [("type", JStr "string")])])])])])]);
       ("responses", JObj [
         ("200", JObj [("description", JStr "Payment verified")]);
         ("400", JObj [("description", JStr "Signature mismatch")])])])]);
   ("/orgs/{orgId}/payments", JObj [
     ("get", JObj [
       ("tags", JArr [JStr "Payments"]); ("summary", JStr "List payment history for organization");
       ("parameters", JArr [
         JObj [
           ("name", JStr "orgId"); ("in", JStr "path"); ("required", JBool true);
           ("schema", JObj [("type", JStr "string"); ("format", JStr "uuid")])];
         JObj [
           ("name", JStr "limit"); ("in", JStr "query"); ("schema", JObj [("type", JStr "integer"); ("default", JNum 20)])];
         JObj [
           ("name", JStr "offset"); ("in", JStr "query");
           ("schema", JObj [("type", JStr "integer"); ("default", JNum 0)])]]);
       ("responses", JObj [("200", JObj [("description", JStr "Payment list")])])])]);
   ("/orgs/{orgId}/subscription", JObj [
     ("get", JObj [
       ("tags", JArr [JStr "Payments"]); ("summary", JStr "Get current subscription for organization");
       ("parameters", JArr [
         JObj [
           ("name", JStr "orgId"); ("in", JStr "path"); ("required", JBool true);
           ("schema", JObj [("type", JStr "string"); ("format", JStr "uuid")])]]);
       ("responses", JObj [("200", JObj [("description", JStr "Subscription details")])])])]);
   ("/webhooks/razorpay", JObj [
     ("post", JObj [
       ("tags", JArr [JStr "Payments"]); ("summary", JStr "Razorpay webhook receiver"); ("security", JArr []);
       ("requestBody", JObj [
         ("required", JBool true);
         ("content", JObj [("application/json", JObj [("schema", JObj [("type", JStr "object")])])])]);
       ("responses", JObj [
         ("200", JObj [("description", JStr "Event received")]);
         ("400", JObj [("description", JStr "Invalid signature or payload")])])])])]%string.

Definition search_paths : list (string * json) :=
  [("/orgs/{orgId}/search", JObj [
     ("get", JObj [
       ("tags", JArr [JStr "Search"]); ("summary", JStr "Full-text search across org entities");
       ("parameters", JArr [
         JObj [
           ("name", JStr "orgId"); ("in", JStr "path"); ("required", JBool true);
           ("schema", JObj [("type", JStr "string"); ("format", JStr "uuid")])];
         JObj [
           ("name", JStr "q"); ("in", JStr "query"); ("required", JBool true);
           ("schema", JObj [("type", JStr "string"); ("minLength", JNum 1); ("maxLength", JNum 200)])];
         JObj [
           ("name", JStr "entity_types"); ("in", JStr "query");
           ("schema", JObj [("type", JStr "string"); ("description", JStr "Comma-separated: task,message,file,user")])];
         JObj [
           ("name", JStr "limit"); ("in", JStr "query");
           ("schema", JObj [("type", JStr "integer"); ("default", JNum 20); ("maximum", JNum 100)])];
         JObj [
           ("name", JStr "offset"); ("in", JStr "query");
           ("schema", JObj [("type", JStr "integer"); ("default", JNum 0)])]]);
       ("responses", JObj [
         ("200", JObj [
           ("description", JStr "Search results. meta.search_degraded=true when using PostgresFTS fallback.");
           ("content", JObj [
             ("application/json", JObj [
               ("schema", JObj [("$ref", JStr "#/components/schemas/SuccessResponse")])])])])])])])]%string.

Definition gdpr_paths : list (string * json) :=
  [("/orgs/{orgId}/gdpr/export-request", JObj [
     ("post", JObj [
       ("tags", JArr [JStr "GDPR"]); ("summary", JStr "Request a user data export (GDPR Art. 15)");
       ("parameters", JArr [
         JObj [
           ("name", JStr "orgId"); ("in", JStr "path"); ("required", JBool true);
           ("schema", JObj [("type", JStr "string"); ("format", JStr "uuid")])]]);
       ("responses", JObj [
         ("202", JObj [("description", JStr "Export job enqueued — download link delivered by email")])])])]);
   ("/orgs/{orgId}/gdpr/erasure-request", JObj [
     ("post", JObj [
       ("tags", JArr [JStr "GDPR"]); ("summary", JStr "Request user erasure (GDPR Art. 17) — requires re-authentication");
       ("parameters", JArr [
         JObj [
           ("name", JStr "orgId"); ("in", JStr "path"); ("required", JBool true);
           ("schema", JObj [("type", JStr "string"); ("format", JStr "uuid")])]]);
       ("requestBody", JObj [
         ("required", JBool true);
         ("content", JObj [
           ("application/json", JObj [
             ("schema", JObj [
               ("type", JStr "object"); ("required", JArr [JStr "password"; JStr "confirm"]);
               ("properties", JObj [
                 ("password", JObj [("type", JStr "string")]);
                 ("confirm", JObj [("type", JStr "string"); ("enum", JArr [JStr "DELETE MY ACCOUNT"])])])])])])]);
       ("responses", JObj [
         ("202", JObj [("description", JStr "Erasure job enqueued")]);
         ("401", JObj [("description", JStr "Incorrect password")])])])]);
   ("/admin/orgs/{orgId}/gdpr/org-export", JObj [
     ("post", JObj [
       ("tags", JArr [JStr "GDPR"]); ("summary", JStr "Platform admin: enqueue org-level data export");
       ("parameters", JArr [
         JObj [
           ("name", JStr "orgId"); ("in", JStr "path"); ("required", JBool true);
           ("schema", JObj [("type", JStr "string"); ("format", JStr "uuid")])]]);
       ("responses", JObj [
         ("202", JObj [("description", JStr "Org export enqueued")]);
         ("403", JObj [("description", JStr "PLATFORM_ADMIN_REQUIRED")])])])]);
   ("/admin/orgs/{orgId}/offboard", JObj [
     ("post", JObj [
       ("tags", JArr [JStr "GDPR"]); ("summary", JStr "Platform admin: initiate org offboarding");
       ("parameters", JArr [
         JObj [
           ("name", JStr "orgId"); ("in", JStr "path"); ("required", JBool true);
           ("schema", JObj [("type", JStr "string"); ("format", JStr "uuid")])]]);
       ("responses", JObj [
         ("202", JObj [("description", JStr "Offboarding initiated")]);
         ("403", JObj [("description", JStr "PLATFORM_ADMIN_REQUIRED")])])])])]%string.

Definition platform_admin_paths : list (string * json) :=
  [("/admin/organizations", JObj [
     ("get", JObj [
       ("tags", JArr [JStr "Platform Admin"]); ("summary", JStr "List all organizations (platform admin only)");
       ("parameters", JArr [
         JObj [
           ("name", JStr "limit"); ("in", JStr "query");
           ("schema", JObj [("type", JStr "integer"); ("default", JNum 50); ("maximum", JNum 200)])];
         JObj [
           ("name", JStr "offset"); ("in", JStr "query");
           ("schema", JObj [("type", JStr "integer"); ("default", JNum 0)])]]);
       ("responses", JObj [
         ("200", JObj [("description", JStr "Organization list")]);
         ("403", JObj [("description", JStr "PLATFORM_ADMIN_REQUIRED")])])])]);
   ("/admin/organizations/{orgId}/suspend", JObj [
     ("post", JObj [
       ("tags", JArr [JStr "Platform Admin"]); ("summary", JStr "Suspend an organization (platform admin)");
       ("parameters", JArr [
         JObj [
           ("name", JStr "orgId"); ("in", JStr "path"); ("required", JBool true);
           ("schema", JObj [("type", JStr "string"); ("format", JStr "uuid")])]]);
       ("requestBody", JObj [
         ("required", JBool true);
         ("content", JObj [
           ("application/json", JObj [
             ("schema", JObj [
               ("type", JStr "object"); ("required", JArr [JStr "reason"]);
               ("properties", JObj [("reason", JObj [("type", JStr "string"); ("minLength", JNum 1)])])])])])]);
       ("responses", JObj [
         ("200", JObj [("description", JStr "Organization suspended")]);
         ("403", JObj [("description", JStr "PLATFORM_ADMIN_REQUIRED")])])])]);
   ("/admin/organizations/{orgId}/reactivate", JObj [
     ("post", JObj [
       ("tags", JArr [JStr "Platform Admin"]); ("summary", JStr "Reactivate an organization (platform admin)");
       ("parameters", JArr [
         JObj [
           ("name", JStr "orgId"); ("in", JStr "path"); ("required", JBool true);
           ("schema", JObj [("type", JStr "string"); ("format", JStr "uuid")])]]);
       ("responses", JObj [
         ("200", JObj [("description", JStr "Organization reactivated")]);
         ("403", JObj [("description", JStr "PLATFORM_ADMIN_REQUIRED")])])])]);
   ("/admin/organizations/{orgId}/offboard", JObj [
     ("post", JObj [
       ("tags", JArr [JStr "Platform Admin"]); ("summary", JStr "Offboard an organization (platform admin)");
       ("parameters", JArr [
         JObj [
           ("name", JStr "orgId"); ("in", JStr "path"); ("required", JBool true);
           ("schema", JObj [("type", JStr "string"); ("format", JStr "uuid")])]]);
       ("responses", JObj [
         ("200", JObj [("description", JStr "Offboarding initiated")]);
         ("403", JObj [("description", JStr "PLATFORM_ADMIN_REQUIRED")])])])]);
   ("/admin/users/{userId}/unlock", JObj [
     ("post", JObj [
       ("tags", JArr [JStr "Platform Admin"]); ("summary", JStr "Unlock a locked user account (platform admin)");
       ("parameters", JArr [
         JObj [
           ("name", JStr "userId"); ("in", JStr "path"); ("required", JBool true);
           ("schema", JObj [("type", JStr "string"); ("format", JStr "uuid")])]]);
       ("responses", JObj [
         ("200", JObj [("description", JStr "User unlocked")]);
         ("403", JObj [("description", JStr "PLATFORM_ADMIN_REQUIRED")])])])]);
   ("/admin/users/{userId}/reset-mfa", JObj [
     ("post", JObj [
       ("tags", JArr [JStr "Platform Admin"]); ("summary", JStr "Reset MFA for a user (platform admin)");
       ("parameters", JArr [
         JObj [
           ("name", JStr "userId"); ("in", JStr "path"); ("required", JBool true);
           ("schema", JObj [("type", JStr "string"); ("format", JStr "uuid")])]]);
       ("responses", JObj [
         ("200", JObj [("description", JStr "MFA reset")]);
         ("403", JObj [("description", JStr "PLATFORM_ADMIN_REQUIRED")])])])]);
   ("/admin/organizations/{orgId}/trigger-payment-recovery", JObj [
     ("post", JObj [
       ("tags", JArr [JStr "Platform Admin"]);
       ("summary", JStr "Trigger payment recovery for an organization (platform admin)");
       ("parameters", JArr [
         JObj [
           ("name", JStr "orgId"); ("in", JStr "path"); ("required", JBool true);
           ("schema", JObj [("type", JStr "string"); ("format", JStr "uuid")])]]);
       ("responses", JObj [
         ("202", JObj [("description", JStr "Recovery job queued")]);
         ("403", JObj [("description", JStr "PLATFORM_ADMIN_REQUIRED")])])])]);
   ("/admin/outbox/{eventId}/replay", JObj [
     ("post", JObj [
       ("tags", JArr [JStr "Platform Admin"]); ("summary", JStr "Replay an outbox event (platform admin)");
       ("parameters", JArr [
         JObj [
           ("name", JStr "eventId"); ("in", JStr "path"); ("required", JBool true);
           ("schema", JObj [("type", JStr "string"); ("format", JStr "uuid")])]]);
       ("responses", JObj [
         ("200", JObj [("description", JStr "Event replayed")]);
         ("403", JObj [("description", JStr "PLATFORM_ADMIN_REQUIRED")])])])]);
   ("/admin/queues/{queueName}/requeue-dlq", JObj [
     ("post", JObj [
       ("tags", JArr [JStr "Platform Admin"]); ("summary", JStr "Requeue dead-letter queue jobs (platform admin)");
       ("parameters", JArr [
         JObj [
           ("name", JStr "queueName"); ("in", JStr "path"); ("required", JBool true);
           ("schema", JObj [("type", JStr "string")])]]);
       ("responses", JObj [
         ("200", JObj [("description", JStr "Jobs requeued")]);
         ("403", JObj [("description", JStr "PLATFORM_ADMIN_REQUIRED")])])])]);
   ("/admin/organizations/{orgId}/reindex-search", JObj [
     ("post", JObj [
       ("tags", JArr [JStr "Platform Admin"]);
       ("summary", JStr "Trigger search reindex for an organization (platform admin)");
       ("parameters", JArr [
         JObj [
           ("name", JStr "orgId"); ("in", JStr "path"); ("required", JBool true);
           ("schema", JObj [("type", JStr "string"); ("format", JStr "uuid")])]]);
       ("responses", JObj [
         ("202", JObj [("description", JStr "Reindex job queued")]);
         ("403", JObj [("description", JStr "PLATFORM_ADMIN_REQUIRED")])])])]);
   ("/admin/jwt/rotate-keys", JObj [
     ("post", JObj [
       ("tags", JArr [JStr "Platform Admin"]); ("summary", JStr "Rotate JWT signing keys (platform admin)");
       ("requestBody", JObj [
         ("required", JBool true);
         ("content", JObj [
           ("application/json", JObj [
             ("schema", JObj [
               ("type", JStr "object"); ("required", JArr [JStr "publicKey"; JStr "kid"]);
               ("properties", JObj [
                 ("publicKey", JObj [("type", JStr "string")]); ("kid", JObj [("type", JStr "string")])])])])])]);
       ("responses", JObj [
         ("200", JObj [("description", JStr "Keys rotated")]);
         ("403", JObj [("description", JStr "PLATFORM_ADMIN_REQUIRED")])])])])]%string.

Definition feature_flags_paths : list (string * json) :=
  [("/admin/feature-flags", JObj [
     ("get", JObj [
       ("tags", JArr [JStr "Feature Flags"]); ("summary", JStr "List all feature flags (platform admin)");
       ("responses", JObj [
         ("200", JObj [("description", JStr "Feature flag list")]);
         ("403", JObj [("description", JStr "PLATFORM_ADMIN_REQUIRED")])])]);
     ("post", JObj [
       ("tags", JArr [JStr "Feature Flags"]); ("summary", JStr "Create a feature flag (platform admin)");
       ("requestBody", JObj [
         ("required", JBool true);
         ("content", JObj [
           ("application/json", JObj [
             ("schema", JObj [
               ("type", JStr "object"); ("required", JArr [JStr "key"]);
               ("properties", JObj [
                 ("key", JObj [("type", JStr "string"); ("minLength", JNum 1); ("maxLength", JNum 100)]);
                 ("is_globally_enabled", JObj [("type", JStr "boolean")]); ("description", JObj [("type", JStr "string")]);
                 ("enabled_org_ids", JObj [
                   ("type", JStr "array"); ("items", JObj [("type", JStr "string"); ("format", JStr "uuid")])]);
                 ("disabled_org_ids", JObj [
                   ("type", JStr "array"); ("items", JObj [("type", JStr "string"); ("format", JStr "uuid")])])])])])])]);
       ("responses", JObj [
         ("201", JObj [("description", JStr "Feature flag created")]);
         ("403", JObj [("description", JStr "PLATFORM_ADMIN_REQUIRED")])])])]);
   ("/admin/feature-flags/{id}", JObj [
     ("patch", JObj [
       ("tags", JArr [JStr "Feature Flags"]); ("summary", JStr "Update a feature flag (platform admin)");
       ("parameters", JArr [
         JObj [
           ("name", JStr "id"); ("in", JStr "path"); ("required", JBool true);
           ("schema", JObj [("type", JStr "string"); ("format", JStr "uuid")])]]);
       ("requestBody", JObj [
         ("required", JBool true);
         ("content", JObj [
           ("application/json", JObj [
             ("schema", JObj [
               ("type", JStr "object");
               ("properties", JObj [
                 ("is_globally_enabled", JObj [("type", JStr "boolean")]); ("description", JObj [("type", JStr "string")]);
                 ("enabled_org_ids", JObj [
                   ("type", JStr "array"); ("items", JObj [("type", JStr "string"); ("format", JStr "uuid")])]);
                 ("disabled_org_ids", JObj [
                   ("type", JStr "array"); ("items", JObj [("type", JStr "string"); ("format", JStr "uuid")])])])])])])]);
       ("responses", JObj [
         ("200", JObj [("description", JStr "Feature flag updated")]); ("404", JObj [("description", JStr "Not found")])])]);
     ("delete", JObj [
       ("tags", JArr [JStr "Feature Flags"]); ("summary", JStr "Delete a feature flag (platform admin)");
       ("parameters", JArr [
         JObj [
           ("name", JStr "id"); ("in", JStr "path"); ("required", JBool true);
           ("schema", JObj [("type", JStr "string"); ("format", JStr "uuid")])]]);
       ("responses", JObj [
         ("200", JObj [("description", JStr "Feature flag deleted")]);
         ("403", JObj [("description", JStr "PLATFORM_ADMIN_REQUIRED")])])])])]%string.

(** The document, which the script writes as text. *)
Definition openApiDoc : json :=
  JObj
    [("openapi", JStr "3.1.0");
     ("info", JObj [
       ("title", JStr "Multi-Tenant Collaborative Work Platform API"); ("version", JStr "1.0.0");
       ("description", JStr "REST API for the multi-tenant SaaS platform.");
       ("contact", JObj [("name", JStr "Platform Team")])]);
     ("servers", JArr [
       JObj [("url", JStr "http://localhost:3000/api/v1"); ("description", JStr "Local development")];
       JObj [("url", JStr "https://api.example.com/api/v1"); ("description", JStr "Production")]]);
     ("components", components); ("security", JArr [JObj [("bearerAuth", JArr [])]]);
     ("paths", JObj (health_paths ++ auth_paths1 ++ auth_paths2 ++ users_paths ++
        organizations_paths1 ++ organizations_paths2 ++ workspaces_paths ++ tasks_paths1 ++
        tasks_paths2 ++ tasks_paths3 ++ chat_paths ++ notifications_paths ++
        files_paths ++ webhooks_paths ++ payments_paths ++ search_paths ++
        gdpr_paths ++ platform_admin_paths ++ feature_flags_paths))]%string.
