(* ===== verification/OpenApi.v ===== *)
(** * OpenApi: the document of the interface and the routers

    [OpenApiDoc.openApiDoc] as a list of operations, its JSON schemas with
    their meaning (of OpenAPI 3.1), a check that a schema of [zod] lets through, but
    for [null], no more than the document describes, which is proved sound for every [zod], and what the
    document and the routers of [Api] do not agree on. *)
From S2P Require Import Prelude Schema World Zod Crypto Concrete Session Http OrgAccess RowJson TenantRoutes SystemRoutes Payments FeatureFlags Files Webhooks SignIn Search Api OpenApiDoc.
From Stdlib Require Import ZArith Lia Ascii.
From stdpp Require Import base tactics strings gmap list.
Import ConcreteZod.

(** ** Operations *)

Record Operation := mkOperation {
  op_method : string;
  op_path : string;
  op_public : bool;
  (** Where a parameter is, and its name. *)
  op_parameters : list (string * string);
  op_body : option json;
  op_statuses : list string
}.

Definition fields (j : option json) : list (string * json) := match j with Some (JObj fs) => fs | _ => [] end.
Definition elements (j : option json) : list json := match j with Some (JArr l) => l | _ => [] end.
Definition texts (j : option json) : option (list string) :=
  match j with Some (JArr l) => mapM as_string l | _ => None end.

(** [security: []] lifts the security of the document. *)
Definition read_operation (path method : string) (op : json) : Operation :=
  mkOperation method path (match jget "security" op with Some (JArr []) => true | _ => false end)
    ((λ p, (jstr "in" p ?? ""%string, jstr "name" p ?? ""%string)) <$> elements (jget "parameters" op))
    (((jget "requestBody" op ≫= jget "content") ≫= jget "application/json") ≫= jget "schema")
    (fields (jget "responses" op)).*1.

Definition METHODS : list (string * string) :=
  [("get", "GET"); ("post", "POST"); ("patch", "PATCH"); ("put", "PUT"); ("delete", "DELETE")]%string.
Definition operations_of (doc : json) : list Operation :=
  p ← fields (jget "paths" doc);
  m ← METHODS;
  match jget m.1 p.2 with Some op => [read_operation p.1 m.2 op] | None => [] end.
Definition operations : list Operation := operations_of openApiDoc.

(** ** Schemas of the document *)

Inductive Doc :=
  | DString (minLength maxLength : option Z) (pattern format : option string)
  | DEnum (l : list string)
  | DInteger (minimum maximum : option Z)
  | DBoolean
  | DArray (items : Doc) (minItems maxItems : option Z)
  | DObject (required : list string) (properties : list (string * Doc)).

(** The document declares OpenAPI 3.1.0, whose schemas are those of JSON Schema
    2020-12: [nullable] is no keyword of it. *)

Fixpoint read_doc (fuel : nat) (j : json) : option Doc :=
  match fuel with
  | O => None
  | S fuel =>
      let type := jstr "type" j ?? "" in
      if (type =? "string")%string then
             Some (match texts (jget "enum" j) with
                   | Some l => DEnum l
                   | None => DString (jnum "minLength" j) (jnum "maxLength" j) (jstr "pattern" j) (jstr "format" j)
                   end)
           else if (type =? "integer")%string then Some (DInteger (jnum "minimum" j) (jnum "maximum" j))
           else if (type =? "boolean")%string then Some DBoolean
           else if (type =? "array")%string then
             d ← jget "items" j ≫= read_doc fuel; Some (DArray d (jnum "minItems" j) (jnum "maxItems" j))
           else if (type =? "object")%string then
             ps ← mapM (λ p, (λ d, (p.1, d)) <$> read_doc fuel p.2) (fields (jget "properties" j));
             Some (DObject (texts (jget "required" j) ?? []) ps)
           else None
  end.

Definition at_least (bound : option Z) (n : Z) : bool := match bound with Some b => (b <=? n)%Z | None => true end.
Definition at_most (bound : option Z) (n : Z) : bool := match bound with Some b => (n <=? b)%Z | None => true end.

Section conforms.
Context `{Z0 : Zod}.

(** A value is one the schema describes; lengths are in characters, and a
    format is a note. *)
Fixpoint conforms (d : Doc) (j : json) : bool :=
  match d, j with
  | DString minLength maxLength pattern _, JStr s =>
      at_least minLength (code_points s) && at_most maxLength (code_points s) &&
      match pattern with Some p => regex_test p s | None => true end
  | DEnum l, JStr s => includes l s
  | DInteger minimum maximum, JNum n => at_least minimum n && at_most maximum n
  | DBoolean, JBool _ => true
  | DArray d minItems maxItems, JArr l =>
      at_least minItems (Z.of_nat (length l)) && at_most maxItems (Z.of_nat (length l)) && forallb (conforms d) l
  | DObject required properties, JObj kv =>
      forallb (λ k, negb (is_null (jfield k kv))) required &&
      (fix all (ps : list (string * Doc)) : bool :=
         match ps with
         | [] => true
         | (k, d) :: ps => match jfield k kv with Some v => conforms d v | None => true end && all ps
         end) properties
  | _, _ => false
  end.
End conforms.

(** ** The check *)

Definition strip (s : schema) : schema := match s with SOptional s => s | s => s end.
(** A value has to be there. *)
Fixpoint needs (s : schema) : bool :=
  match s with
  | SNullable s => needs s
  | SOptional _ | SDefault _ _ | SCoerce _ | SBigint | SObject _ => false
  | _ => true
  end.
Definition field_schema (k : string) (fs : list (string * schema)) : option schema :=
  snd <$> List.find (λ f, (f.1 =? k)%string) fs.

Definition format_of (c : check) : option string :=
  match c with
  | CUuid => Some "uuid" | CEmail => Some "email" | CUrl => Some "uri" | CDatetime => Some "date-time" | _ => None
  end%string.
Definition asks {A} (bound : option A) (cs : list check) (by_check : A → check → bool) : bool :=
  match bound with Some b => existsb (by_check b) cs | None => true end.

(** A code unit may be half a character. *)
Definition min_length (n : Z) (c : check) : bool := match c with CMin m => (2 * n <=? m + 1)%Z | _ => false end.
Definition minimum (n : Z) (c : check) : bool :=
  match c with CMin m => (n <=? m)%Z | CPositive => (n <=? 1)%Z | _ => false end.
Definition maximum (n : Z) (c : check) : bool := match c with CMax m => (m <=? n)%Z | _ => false end.
Definition pattern_is (p : string) (c : check) : bool := match c with CRegex r => (r =? p)%string | _ => false end.
Definition format_is (f : string) (c : check) : bool :=
  match format_of c with Some g => (g =? f)%string | None => false end.

(** What a schema lets through but [null]. *)
Definition value_of (s : schema) : schema := match strip s with SNullable s => strip s | s => s end.

Fixpoint documents (d : Doc) (s : schema) : bool :=
  match d, s with
  | DString minLength maxLength pattern format, SString cs =>
      asks minLength cs min_length && asks maxLength cs maximum && asks pattern cs pattern_is && asks format cs format_is
  | DEnum l, SEnum l' => forallb (includes l) l'
  | DInteger lo hi, SNumber cs =>
      asks lo cs minimum && asks hi cs maximum && existsb (λ c, match c with CInt => true | _ => false end) cs
  | DBoolean, SBoolean => true
  | DArray d minItems maxItems, SArray s cs =>
      asks minItems cs minimum && asks maxItems cs maximum && documents d (value_of s)
  | DObject [] [], SRecord => true
  | DObject required properties, SObject fs =>
      bool_decide (NoDup fs.*1) &&
      forallb (λ k, match field_schema k fs with Some s => needs s | None => false end) required &&
      (fix all (ps : list (string * Doc)) : bool :=
         match ps with
         | [] => true
         | (k, d) :: ps => match field_schema k fs with Some s => documents d (value_of s) | None => false end && all ps
         end) properties
  | _, _ => false
  end.

(** The schema a term of [schema] stands for. *)
Fixpoint denote `{Zod} (s : schema) : ZodType :=
  match s with
  | SString cs => z_string cs
  | SNumber cs => z_number cs
  | SCoerce cs => z_coerce_number cs
  | SBigint => z_coerce_bigint
  | SBoolean => z_boolean
  | SEnum l => z_enum l
  | SRecord => z_record
  | SArray s cs => z_array (denote s) cs
  | SNullable s => z_nullable (denote s)
  | SOptional s => z_optional (denote s)
  | SDefault s j => z_default (denote s) j
  | SObject fs => z_object (map (λ f, (f.1, denote f.2)) fs)
  end.

(** ** The bodies of the document and of the routers *)

Definition documented_body (method path : string) : option Doc :=
  o ← List.find (λ o, (op_method o =? method)%string && (op_path o =? path)%string) operations;
  op_body o ≫= read_doc 6.

(** The operations the document gives a body, each with the schema its route
    validates; the webhook of the payments is checked by its signature. *)
Definition body_schemas : list (string * string * (∀ Z : Zod, ZodType)) :=
  [("POST", "/auth/register", @AuthRouter.registerSchema); ("POST", "/auth/login", @AuthRouter.loginSchema);
   ("POST", "/auth/refresh", @AuthRouter.refreshSchema); ("POST", "/auth/logout", @AuthRouter.refreshSchema);
   ("POST", "/auth/verify-email/resend", @AuthRouter.emailSchema);
   ("POST", "/auth/password-reset/request", @AuthRouter.emailSchema);
   ("POST", "/auth/password-reset/confirm", @AuthRouter.confirmSchema);
   ("POST", "/auth/oauth/google", @AuthRouter.googleSchema);
   ("POST", "/auth/magic-link/request", @AuthRouter.magicLinkSchema);
   ("POST", "/auth/magic-link/verify", @AuthRouter.tokenSchema);
   ("POST", "/orgs", @OrganizationRouter.createOrgSchema); ("PATCH", "/orgs/{orgId}", @OrganizationRouter.updateOrgSchema);
   ("POST", "/orgs/{orgId}/suspend", @OrganizationRouter.suspendSchema);
   ("PATCH", "/orgs/{orgId}/members/{userId}/role", @OrganizationRouter.roleSchema);
   ("POST", "/orgs/{orgId}/invitations", @OrganizationRouter.inviteSchema);
   ("POST", "/orgs/invitations/accept", @AuthRouter.tokenSchema);
   ("POST", "/orgs/{orgId}/workspaces", @WorkspaceRouter.createWorkspaceSchema);
   ("PATCH", "/orgs/{orgId}/workspaces/{workspaceId}", @WorkspaceRouter.updateWorkspaceSchema);
   ("POST", "/orgs/{orgId}/tasks", @TaskRouter.createTaskSchema);
   ("PATCH", "/orgs/{orgId}/tasks/{taskId}", @TaskRouter.updateTaskSchema);
   ("POST", "/orgs/{orgId}/tasks/{taskId}/dependencies", @TaskRouter.dependencySchema);
   ("POST", "/orgs/{orgId}/tasks/bulk/status", @TaskRouter.bulkStatusSchema);
   ("DELETE", "/orgs/{orgId}/tasks/bulk", @TaskRouter.bulkDeleteSchema);
   ("POST", "/orgs/{orgId}/task-templates", @TaskRouter.templateSchema);
   ("POST", "/orgs/{orgId}/tasks/{taskId}/comments", @TaskRouter.commentSchema);
   ("POST", "/orgs/{orgId}/channels/direct", @ChatRouter.directSchema);
   ("POST", "/orgs/{orgId}/channels/group", @ChatRouter.groupSchema);
   ("POST", "/orgs/{orgId}/channels/{channelId}/messages", @ChatRouter.messageSchema);
   ("PATCH", "/orgs/{orgId}/notification-preferences/{eventType}", @NotificationRouter.preferenceSchema);
   ("POST", "/orgs/{orgId}/files/upload-url", @FileRouter.uploadSchema);
   ("POST", "/orgs/{orgId}/webhooks", @WebhookRouter.webhookSchema);
   ("POST", "/orgs/{orgId}/payments/orders", @PaymentRouter.orderSchema);
   ("POST", "/orgs/{orgId}/payments/verify", @PaymentRouter.verifySchema);
   ("POST", "/orgs/{orgId}/gdpr/erasure-request", @GdprRoutes.ErasureRequestSchema);
   ("POST", "/admin/organizations/{orgId}/suspend", @AdminRouter.suspendSchema);
   ("POST", "/admin/jwt/rotate-keys", @AdminRouter.rotateKeysSchema);
   ("POST", "/admin/feature-flags", @FeatureFlagRouter.createFlagSchema);
   ("PATCH", "/admin/feature-flags/{id}", @FeatureFlagRouter.updateFlagSchema)]%string.

Definition syntax (schema : ∀ Z : Zod, ZodType) : ConcreteZod.schema := schema ConcreteZod.zod.
Definition is_documented (e : string * string * (∀ Z : Zod, ZodType)) : bool :=
  match documented_body e.1.1 e.1.2 with Some d => documents d (syntax e.2) | None => false end.

(** ** The check is sound *)

Section doc_ind.
Variable P : Doc → Prop.
Hypothesis Hstring : ∀ a b c d, P (DString a b c d).
Hypothesis Henum : ∀ l, P (DEnum l).
Hypothesis Hinteger : ∀ a b, P (DInteger a b).
Hypothesis Hboolean : P DBoolean.
Hypothesis Harray : ∀ d a b, P d → P (DArray d a b).
Hypothesis Hobject : ∀ r ps, Forall (λ p, P p.2) ps → P (DObject r ps).
Fixpoint Doc_nested (d : Doc) : P d :=
  match d with
  | DString a b c e => Hstring a b c e
  | DEnum l => Henum l
  | DInteger a b => Hinteger a b
  | DBoolean => Hboolean
  | DArray d a b => Harray d a b (Doc_nested d)
  | DObject r ps => Hobject r ps
      ((fix all (ps : list (string * Doc)) : Forall (λ p, P p.2) ps :=
          match ps with
          | [] => Forall_nil_2 _
          | p :: ps => Forall_cons_2 _ p ps (Doc_nested p.2) (all ps)
          end) ps)
  end.
End doc_ind.

Section sound.
Context `{Z0 : Zod, ZL : !ZodLaws Z0}.

(** A value without [null] in it. *)
Fixpoint null_free (j : json) : bool :=
  match j with
  | JNull => false
  | JArr l => forallb null_free l
  | JObj fs => forallb (λ f, null_free f.2) fs
  | _ => true
  end.

Lemma jfield_in k kv v : jfield k kv = Some v → (k, v) ∈ kv.
Proof.
  induction kv as [|[k' v'] kv IH]; cbn; [done|]. destruct (String.eqb_spec k k') as [->|]; [intros [= ->]; by left|].
  intros E. right. by apply IH.
Qed.

Lemma null_free_field k kv v : null_free (JObj kv) = true → jfield k kv = Some v → null_free v = true.
Proof.
  cbn. rewrite forallb_forall. intros Hn E. apply jfield_in in E. by apply (Hn (k, v)), list_elem_of_In.
Qed.

Lemma strip_accepts s v u : safeParse (denote s) (Some v) = inr u → safeParse (denote (strip s)) (Some v) = inr u.
Proof. destruct s; try done. cbn. by intros [[? _]|E]%z_optional_ok. Qed.

Lemma value_accepts s v u :
  safeParse (denote s) (Some v) = inr u → v ≠ JNull → safeParse (denote (value_of s)) (Some v) = inr u.
Proof.
  intros E%strip_accepts Hv. unfold value_of. destruct (strip s); try done. cbn [denote] in E.
  apply z_nullable_ok in E as [[[= ->] _]|E]; [done|]. by apply strip_accepts.
Qed.

Lemma null_free_value v : null_free v = true → v ≠ JNull.
Proof. by intros ? ->. Qed.

Lemma needs_value s u : needs s = true → safeParse (denote s) None ≠ inr u.
Proof.
  induction s as [cs|cs|cs| | |l| |s IH cs|s IH|s IH|s IH j|fs]; cbn; intros Hn E; try done.
  - by apply z_string_ok in E as (? & ? & _).
  - by apply z_number_ok in E as (? & ? & _).
  - by apply z_boolean_ok in E as (? & ? & _).
  - by apply z_enum_ok in E as (? & ? & _).
  - by apply z_record_ok in E as (? & ? & _).
  - by apply z_array_ok in E as (? & ? & ? & _).
  - apply z_nullable_ok in E as [[? _]|E]; [done|by apply IH].
Qed.

(** A check of the schema implies the keyword of the document. *)
Lemma asks_ok (bound : option Z) by_check cs (ok : check → Prop) (holds : Z → Prop) :
  Forall ok cs → (∀ n c, by_check n c = true → ok c → holds n) → asks bound cs by_check = true →
  ∀ n, bound = Some n → holds n.
Proof.
  intros Hcs Hc Ha n ->. cbn in Ha. apply existsb_exists in Ha as (c & Hin & E).
  apply (Hc n c E), (proj1 (Forall_forall _ _) Hcs), list_elem_of_In, Hin.
Qed.
Lemma at_least_ok bound n : (∀ b, bound = Some b → (b ≤ n)%Z) → at_least bound n = true.
Proof. destruct bound as [b|]; [|done]. intros Hb. by apply Z.leb_le, Hb. Qed.
Lemma at_most_ok bound n : (∀ b, bound = Some b → (n ≤ b)%Z) → at_most bound n = true.
Proof. destruct bound as [b|]; [|done]. intros Hb. by apply Z.leb_le, Hb. Qed.

Lemma numbers_ok lo hi cs n :
  Forall (λ c, number_ok c n) cs → asks lo cs minimum = true → asks hi cs maximum = true →
  at_least lo n = true ∧ at_most hi n = true.
Proof.
  intros Hcs Hlo Hhi. split; [apply at_least_ok|apply at_most_ok].
  - eapply (asks_ok _ _ _ _ (λ b, (b ≤ n)%Z)); [exact Hcs| |exact Hlo]. intros b []; cbn; try done; intros Hb%Z.leb_le ?; lia.
  - eapply (asks_ok _ _ _ _ (λ b, (n ≤ b)%Z)); [exact Hcs| |exact Hhi]. intros b []; cbn; try done; intros Hb%Z.leb_le ?; lia.
Qed.

Lemma texts_ok minLength maxLength pattern cs s :
  Forall (λ c, string_ok c s) cs →
  asks minLength cs min_length = true → asks maxLength cs maximum = true → asks pattern cs pattern_is = true →
  at_least minLength (code_points s) = true ∧ at_most maxLength (code_points s) = true ∧
  match pattern with Some p => regex_test p s | None => true end = true.
Proof.
  pose proof (code_points_bounds s) as Hb. intros Hcs Hlo Hhi Hp. split_and!; [apply at_least_ok|apply at_most_ok|].
  - eapply (asks_ok _ _ _ _ (λ b, (b ≤ code_points s)%Z)); [exact Hcs| |exact Hlo].
    intros b []; cbn; try done; intros H1%Z.leb_le ?; lia.
  - eapply (asks_ok _ _ _ _ (λ b, (code_points s ≤ b)%Z)); [exact Hcs| |exact Hhi].
    intros b []; cbn; try done; intros H1%Z.leb_le ?; lia.
  - destruct pattern as [p|]; [|done]. cbn in Hp. apply existsb_exists in Hp as (c & Hin & E).
    apply list_elem_of_In in Hin. apply (proj1 (Forall_forall _ _) Hcs) in Hin. destruct c; try done.
    cbn in E. apply String.eqb_eq in E as ->. exact Hin.
Qed.

(** What a key of an accepted object satisfies. *)
Lemma field_accepts k s fs kv out :
  field_schema k fs = Some s →
  Forall (λ f, safeParse f.2 (jfield f.1 kv) = inr (jfield f.1 out)) (map (λ f, (f.1, denote f.2)) fs) →
  ∃ u, safeParse (denote s) (jfield k kv) = inr u.
Proof.
  unfold field_schema. destruct (List.find _ fs) as [[k' s']|] eqn:Ef; [|done]. intros [= ->] Hf.
  apply find_some in Ef as [Hin E%String.eqb_eq]. cbn in E. subst k'.
  exists (jfield k out). apply (proj1 (Forall_forall _ _) Hf (k, denote s)). apply list_elem_of_In, in_map_iff.
  by exists (k, s).
Qed.

Lemma denoted_keys (fs : list (string * schema)) : (map (λ f, (f.1, denote f.2)) fs).*1 = fs.*1.
Proof. induction fs as [|f fs IH]; [done|]. cbn. by f_equal. Qed.

(** A value without [null] that a schema lets through is one the document
    describes. *)
Lemma conforms_accepted d : ∀ s v u,
  documents d s = true → safeParse (denote s) (Some v) = inr u → null_free v = true → conforms d v = true.
Proof.
  induction d as [mn mx p f|l|lo hi| |d lo hi IH|required ps IH] using Doc_nested; intros s v u Hd E Hn.
  - destruct s; try done. cbn in Hd. rewrite !andb_true_iff in Hd. destruct Hd as [[[Hlo Hhi] Hp] _].
    apply z_string_ok in E as (t & [= ->] & _ & Hcs). cbn. destruct (texts_ok mn mx p cs t Hcs Hlo Hhi Hp) as (-> & -> & ->).
    done.
  - destruct s; try done. cbn in Hd. apply z_enum_ok in E as (t & [= ->] & _ & Hin). cbn.
    rewrite forallb_forall in Hd. by apply Hd, list_elem_of_In.
  - destruct s; try done. cbn in Hd. rewrite !andb_true_iff in Hd. destruct Hd as [[Hlo Hhi] _].
    apply z_number_ok in E as (n & [= ->] & _ & Hcs). cbn. by destruct (numbers_ok lo hi cs n Hcs Hlo Hhi) as [-> ->].
  - destruct s; try done. by apply z_boolean_ok in E as (b & [= ->] & _).
  - destruct s; try done. cbn in Hd. rewrite !andb_true_iff in Hd. destruct Hd as [[Hlo Hhi] Hd].
    apply z_array_ok in E as (l & l' & [= ->] & _ & Hl & Hcs). cbn.
    destruct (numbers_ok lo hi cs _ Hcs Hlo Hhi) as [-> ->]. cbn. apply forallb_forall. intros j [i Hi]%list_elem_of_In%list_elem_of_lookup.
    destruct (Forall2_lookup_l _ _ _ _ _ Hl Hi) as (j' & _ & Ej). cbn in Hn. rewrite forallb_forall in Hn.
    pose proof (Hn j (proj1 (list_elem_of_In _ _) (list_elem_of_lookup_2 _ _ _ Hi))) as Hj.
    eapply IH; [exact Hd| |exact Hj]. by eapply value_accepts; [|apply null_free_value].
  - destruct s as [| | | | | | | | | | |fs]; try (by destruct required, ps).
    { destruct required, ps; try done. by apply z_record_ok in E as (kv & [= ->] & _). }
    assert (Hd' : bool_decide (NoDup fs.*1) &&
      forallb (λ k, match field_schema k fs with Some s => needs s | None => false end) required &&
      (fix all (ps : list (string * Doc)) : bool :=
         match ps with
         | [] => true
         | (k, d) :: ps => match field_schema k fs with Some s => documents d (value_of s) | None => false end && all ps
         end) ps = true) by (by destruct required, ps).
    clear Hd. rewrite !andb_true_iff in Hd'. destruct Hd' as [[Hnd%bool_decide_eq_true Hreq] Hps].
    cbn [denote] in E. apply z_object_ok in E as (kv & out & [= ->] & _ & Hf & _); [|by rewrite denoted_keys].
    cbn [conforms]. apply andb_true_iff. split.
    + apply forallb_forall. intros k Hk. rewrite forallb_forall in Hreq. specialize (Hreq k Hk).
      destruct (field_schema k fs) as [s|] eqn:Es; [|done]. destruct (field_accepts _ _ _ _ _ Es Hf) as [w Ew].
      destruct (jfield k kv); [done|]. by apply needs_value in Ew.
    + clear Hreq. induction IH as [|[k d] ps Hhead IH1 IH2]; [done|]. apply andb_true_iff in Hps as [Hk Hps].
      apply andb_true_iff. split; [|by apply IH2]. destruct (field_schema k fs) as [s|] eqn:Es; [|done].
      destruct (field_accepts _ _ _ _ _ Es Hf) as [w Ew]. destruct (jfield k kv) as [j|] eqn:Ej; [|done].
      pose proof (null_free_field _ _ _ Hn Ej) as Hj.
      eapply Hhead; [exact Hk| |exact Hj]. by eapply value_accepts; [|apply null_free_value].
Qed.
End sound.

(** ** Bodies *)

(** The operations of which the check cannot tell: their texts have to be
    eight, or two, code units long in the code and so many characters in the
    document. *)
Definition loosely_documented : list (string * string) :=
  [("POST", "/auth/register"); ("POST", "/auth/password-reset/confirm"); ("POST", "/orgs")]%string.

Lemma bodies_checked :
  forallb (λ e, is_documented e || bool_decide (e.1 ∈ loosely_documented)) body_schemas = true.
Proof. vm_compute. reflexivity. Qed.

Section bodies.
Context `{Z0 : Zod, ZL : !ZodLaws Z0}.

Lemma bodies_denoted : Forall (λ e, e.2 Z0 = denote (syntax e.2)) body_schemas.
Proof. repeat constructor. Qed.

(** C40: of every operation the document gives a body, but for three, every
    body without [null] that the server accepts is one the document describes:
    of the types, the required properties, the lengths, the ranges and the
    values it names. *)
Theorem accepted_bodies_documented method path (schema : ∀ Z : Zod, ZodType) body u :
  (method, path, schema) ∈ body_schemas → (method, path) ∉ loosely_documented → null_free body = true →
  safeParse (schema Z0) (Some body) = inr u →
  ∃ d, documented_body method path = Some d ∧ conforms d body = true.
Proof.
  intros Hin Hl Hn E. pose proof bodies_denoted as Hd. pose proof bodies_checked as Hc.
  rewrite Forall_forall in Hd. rewrite forallb_forall in Hc.
  specialize (Hd _ Hin). specialize (Hc _ (proj1 (list_elem_of_In _ _) Hin)). cbn [fst snd] in *.
  rewrite (bool_decide_eq_false_2 _ Hl), orb_false_r in Hc. unfold is_documented in Hc. cbn [fst snd] in Hc.
  destruct (documented_body method path) as [d|]; [|done]. exists d. split; [done|].
  rewrite Hd in E. by apply (conforms_accepted d _ _ _ Hc E).
Qed.
End bodies.

(** ** Routes *)

Section routes.
Context `{Redis, !RedisHash, !RedisZset, Random, Config, Crypto, Zod, Network, !StorageProvider, !RazorpaySdk, Saml,
  Google, FullText, !TypesenseClient, !SearchBreaker, IpAddr}.
Context (keyStore : gmap string string) (allowlist : option string) (jwt_text : jwt_token → string).
Context (test_env exec_rejects typesense initialized : bool).
Context (getFailed : string → M (list Job)) (retry : Job → M unit).
Context (JSON_parse : string → option json) (razorpay_signature : Request → option string).

#[local] Notation the_routes := (the_routes keyStore allowlist jwt_text test_env exec_rejects typesense initialized
  getFailed retry JSON_parse razorpay_signature).

(** [{orgId}] of the document is [:orgId] of Express. *)
Fixpoint express_path (s : string) : string :=
  match s with
  | EmptyString => EmptyString
  | String c s =>
      if Ascii.eqb c "{" then String ":" (express_path s) else if Ascii.eqb c "}" then express_path s
      else String c (express_path s)
  end.

(** What is asked how, and whether without a token. *)
Definition operation_key (o : Operation) : string * string * bool :=
  (op_method o, ("/api/v1" +:+ express_path (op_path o))%string, op_public o).
Definition route_key (r : Route) : string * string * bool :=
  (rt_method r, rt_pattern r, match rt_guard r with Public => true | _ => false end).

(** The probes, outside [/api/v1], and the routes the document leaves out. *)
Definition probes : list string := ["/live"; "/ready"; "/health"]%string.
Definition left_out : list (string * string * bool) :=
  [("GET", "/api/v1/orgs/mine", false); ("POST", "/api/v1/orgs/:orgId/channels/workspace", false);
   ("POST", "/api/v1/push/subscribe", false); ("DELETE", "/api/v1/push/subscribe", false)]%string.

Definition documented_keys : list (string * string * bool) :=
  operation_key <$> List.filter (λ o, negb (includes probes (op_path o))) operations.

(** But for the probes and four routes, the document and the routers have the
    same operations, and the same of them are public. *)
Lemma document_matches_routes : documented_keys ++ left_out ≡ₚ route_key <$> the_routes.
Proof.
  apply NoDup_Permutation.
  - apply (bool_decide_unpack _). vm_compute. exact I.
  - apply (bool_decide_unpack _). vm_compute. exact I.
  - intros k. split; revert k; apply Forall_forall, (bool_decide_unpack _); vm_compute; exact I.
Qed.
End routes.

(** ** Answers *)

Definition documented_answer (name : string) : option Doc :=
  (((jget "components" openApiDoc ≫= jget "schemas") ≫= jget name) ≫= read_doc 6).

(** No answer of the application is of the form the document gives to answers:
    it has no [success]. *)
Lemma no_answer_documented `{Redis, Crypto, Zod} rq e status data w :
  (∃ d, documented_answer "ErrorResponse" = Some d ∧ conforms d (rs_body (error_response (rq_id rq) e)) = false) ∧
  (∃ d r, documented_answer "SuccessResponse" = Some d ∧ (respond rq status data w).1 = Ok r ∧
     conforms d (rs_body r) = false).
Proof.
  split.
  - eexists. split; [vm_compute; reflexivity|]. destruct e as [s c m d|c|m]; cbn; [|destruct (c =? "23505")%string|]; done.
  - eexists _, _. split; [vm_compute; reflexivity|]. split; [reflexivity|done].
Qed.

(** ** Parameters of a path *)

Fixpoint until_brace (s : string) : string :=
  match s with
  | EmptyString => EmptyString
  | String c s => if Ascii.eqb c "}" then EmptyString else String c (until_brace s)
  end.
Fixpoint braces (s : string) : list string :=
  match s with
  | EmptyString => []
  | String c s => if Ascii.eqb c "{" then until_brace s :: braces s else braces s
  end.
Definition path_parameters (o : Operation) : list string :=
  (List.filter (λ p, (p.1 =? "path")%string) (op_parameters o)).*2.

(** Every parameter of a path is declared, in its order, and no other. *)
Lemma parameters_declared : Forall (λ o, path_parameters o = braces (op_path o)) operations.
Proof. apply (bool_decide_unpack _). vm_compute. exact I. Qed.

(** ** Examples *)

Module OpenApiExamples.
#[local] Existing Instances ConcreteZod.zod ConcreteZod.zod_laws.

Example operations_of_the_document : length operations = 96.
Proof. vm_compute. reflexivity. Qed.

(** The operations the document gives a body are those of the table, and the
    webhook. *)
Example bodies_tabled :
  (λ o, (op_method o, op_path o)) <$> List.filter (λ o, negb (is_null (op_body o)) &&
    negb (bool_decide ((op_method o, op_path o) ∈ body_schemas.*1))) operations = [("POST", "/webhooks/razorpay")]%string.
Proof. vm_compute. reflexivity. Qed.

(** What the server reads of a body and the document does not name. *)
Definition properties_of (d : Doc) : list string := match d with DObject _ ps => ps.*1 | _ => [] end.
Definition keys_of (s : schema) : list string := match s with SObject fs => fs.*1 | _ => [] end.
Definition unnamed (e : string * string * (∀ Z : Zod, ZodType)) : list string :=
  match documented_body e.1.1 e.1.2 with
  | Some d => List.filter (λ k, negb (includes (properties_of d) k)) (keys_of (syntax e.2))
  | None => []
  end.
Example undocumented_properties :
  List.filter (λ p, match p.2 with [] => false | _ => true end) ((λ e, (e.1, unnamed e)) <$> body_schemas) =
    [("POST", "/orgs/{orgId}/tasks", ["is_recurring"; "recurrence_rule"; "template_id"]);
     ("PATCH", "/orgs/{orgId}/tasks/{taskId}", ["board_id"; "is_recurring"; "recurrence_rule"])]%string.
Proof. vm_compute. reflexivity. Qed.

Definition task_body : json := ApiExamples.new_task "Plan" ?? JNull.
Lemma accepted_bodies_documented_witness :
  ∃ d, documented_body "POST" "/orgs/{orgId}/tasks" = Some d ∧ conforms d task_body = true.
Proof.
  destruct (safeParse (@TaskRouter.createTaskSchema ConcreteZod.zod) (Some task_body)) as [e|u] eqn:E;
    [exfalso; vm_compute in E; discriminate|].
  refine (accepted_bodies_documented "POST" "/orgs/{orgId}/tasks" (@TaskRouter.createTaskSchema) task_body u _ _ _ E).
  - unfold body_schemas. do 18 right. by left.
  - apply (bool_decide_unpack _). vm_compute. exact I.
  - vm_compute. reflexivity.
Defined.

(** A body that is not described is refused: a title of no text, a task of no
    workspace, a status that is none. *)
Example not_described :
  forallb (λ b, match documented_body "POST" "/orgs/{orgId}/tasks" with Some d => negb (conforms d b) | None => false end)
    [JObj [("workspace_id", JStr "w"); ("title", JStr "")]; JObj [("title", JStr "Plan")];
     JObj [("workspace_id", JStr "w"); ("title", JStr "Plan"); ("status", JStr "doing")];
     JObj [("workspace_id", JStr "w"); ("title", JStr "Plan"); ("labels", JArr [JNum 1])]]%string = true.
Proof. vm_compute. reflexivity. Qed.

(** A change of a task that takes its date away: the document writes
    [nullable: true] and version 3.1.0, which has no such keyword. *)
Definition no_date : json := JObj [("due_date", JNull); ("version", JNum 1)]%string.
Example null_not_described :
  safeParse TaskRouter.updateTaskSchema (Some no_date) = inr (Some no_date) ∧
  (λ d, conforms d no_date) <$> documented_body "PATCH" "/orgs/{orgId}/tasks/{taskId}" = Some false.
Proof. split; vm_compute; reflexivity. Qed.

(** A password of four characters that are two code units each. *)
Definition four_faces : json :=
  JObj [("email", JStr "ann@example.com"); ("password", JStr "😀😀😀😀"); ("name", JStr "Ann")]%string.
Example accepted_and_not_described :
  safeParse AuthRouter.registerSchema (Some four_faces) = inr (Some four_faces) ∧
  (λ d, conforms d four_faces) <$> documented_body "POST" "/auth/register" = Some false.
Proof. split; vm_compute; reflexivity. Qed.
End OpenApiExamples.
